(* ===== verification/_CoqProject ===== *)
-Q . S2P
Prelude.v
Dict.v
PyStr.v
PyText.v
PyValue.v
Json.v
JsonFacts.v
JsonRound.v
JsonDocs.v
StrictJson.v
Sha256.v
Signing.v
Base64.v
S6naCodec.v
S6naAdapter.v
S6naInvariant.v
S6naSender.v
S6naReceiver.v
S6naSystem.v
S6naLink.v
S6naReassembly.v
S6naClaims.v
Limits.v
LimitsFacts.v
NativeProfiles.v
FeatureContract.v
LimitsClaims.v
ShadowProtocols.v
ShadowCanonical.v
ShadowFacts.v
ShadowClaims.v
Net.v
JoinCode.v
CredentialFacts.v
AdmissionFacts.v
JoinClaims.v
BrokerSet.v
CoreCatalog.v
Context.v
Composition.v
ConfigStore.v
ConfigFacts.v
ConnectionPlan.v
PlanFacts.v
Sessions.v
SessionFacts.v
ServiceFacts.v
BrokerClaims.v
PlanClaims.v
ConfigClaims.v
Handles.v
HandleSpec.v
HandleFacts.v
HandleRefine.v
AppSessions.v
HandleClaims.v
Detector.v
Forest.v
DetectorClaims.v
Abi.v
AbiClaims.v
Plugins.v
Slots.v
PluginClaims.v
CapsuleBoundary.v
Capsules.v
CapsuleKernel.v
CapsuleFacts.v
CapsuleStart.v
CapsuleThreads.v
CapsuleSim.v
CapsuleClaims.v
Attachment.v
VirtualBroker.v
VirtualFacts.v
VirtualClaims.v
Envelope.v
Registry.v
RegistryFacts.v
RegistryClaims.v
