(* ===== verification/Prelude.v ===== *)
(** * Shadow6 verification library

    Shadow6 connects applications over encrypted native transports ("Cores").
    The Python part of the repository decides who may connect to what, prepares
    and checks the configurations of the native programs, keeps the local
    sessions of applications, and carries a reliable message protocol of its own.
    This library models the components in which those decisions are taken and
    proves what each of them promises to its callers.

    ** The parts and how they meet

    - Every document enters through the bounded JSON reader
      ([Deployment/service_storage.py]).  On top of it stand the credentials
      ([Public6/join_code.py]), the application protocols
      ([Application-Layer/shadow_protocols.py]), the process boundary
      ([Control-Center/s6ar.py], [Deployment/shadow6_abi.py]) and the plugins
      ([Plugin-System], [Slot-System]).
    - A portable context ([protocol_context.py]) carries a protocol envelope of
      [join_code.py]; BrokerSets ([broker_set.py]), the Core catalog
      ([core_catalog.py]), the native profiles ([Crosed/native_profiles.py]) and
      the composition of layers ([service_composition.py]) are what a connection
      plan ([connection_plan.py]) brings together.
    - A plan opens a local session; a process keeps its sessions under random
      handles ([session_handles.py]).  The S6NA adapter
      ([Network-Adapter/shadow6_network.py]) is the reliable channel beneath a
      credited session.  A capsule ([capability_capsule.py]) runs a Core, and if it
      needs one a proxy, behind a random token for a limited time.  A virtual
      Broker ([Public6/virtual_broker.py]) shares real Brokers among tenants.
    - The service registry ([service_registry.py]) brings the contracts together
      on a host: it computes the material of a named service from its context,
      binding, profile, composition and limits, pins it in a lock, launches a
      supervisor for exactly that material and keeps its record.
    - Capacities come from the host budget ([Crosed/limits.py]); what a Core says
      about itself is checked by [Crosed/feature_contract.py]; configurations are
      edited through the store of [config_store.py]; the detector
      ([Detector/detector_core.py]) classifies traffic beside all of it.

    ** Files

    Language and library, no program code of the repository:
    - [Prelude]: exceptions, the result type, the state-and-error monad [M], the
      development's tactics, hints and generic lemmas.
    - [Dict], [PyStr], [PyText], [PyValue]: ordered dictionaries, strings, bytes,
      UTF-8, decimal text, JSON-like values with Python's equality and truth.
    - [Json], [JsonFacts], [JsonRound], [JsonDocs]: [json.loads] and [json.dumps],
      their round trip, documents up to the order of their fields.
    - [Sha256], [Base64], [Net]: hashing, base64, addresses and URLs.
    - [Signing]: Ed25519 as an interface with its laws (a class and an instance).

    Components (model first, then lemmas, then the file of its promises):
    - [StrictJson]: [strict_json] of [service_storage.py].
    - [S6naCodec], [S6naAdapter]: limits, frames and the methods of
      [ReliableAdapter]; [S6naInvariant], [S6naSender], [S6naReceiver],
      [S6naSystem], [S6naLink], [S6naReassembly]: its invariants, the adapter as
      a state machine and two adapters over an unreliable network; [S6naClaims].
    - [Limits] with [LimitsFacts], [NativeProfiles], [FeatureContract];
      [LimitsClaims].
    - [ShadowProtocols] with [ShadowCanonical], [ShadowFacts]; [ShadowClaims].
    - [JoinCode] with [CredentialFacts], [AdmissionFacts]; [JoinClaims].
    - [BrokerSet] (with [topology_contract.py]), [CoreCatalog], [Composition];
      [BrokerClaims].
    - [Context], [ConnectionPlan], [Sessions] with [PlanFacts], [SessionFacts],
      [ServiceFacts]; [PlanClaims].
    - [ConfigStore] with [ConfigFacts]; [ConfigClaims].
    - [Handles] is the manager over the interface [Session]; [HandleSpec] the
      abstract table of live sessions and the laws a session must satisfy;
      [HandleFacts] and [HandleRefine] the invariant and the simulation;
      [AppSessions] the sessions of the program as an instance; [HandleClaims].
    - [CapsuleBoundary] and [Capsules] ([Control-Center/capability_capsule.py]): the
      boundary a capsule is attached to, its processes over the interface [Kernel]
      and the table; [CapsuleKernel] the laws of the operating system,
      [CapsuleFacts], [CapsuleStart] and [CapsuleThreads] the invariant of every
      interleaving, [CapsuleSim] an executable operating system with these laws;
      [CapsuleClaims].
    - [Attachment] ([credited_attachment.py]) over [S6naAdapter].
    - [VirtualBroker] with [VirtualFacts]; [VirtualClaims].
    - [Envelope] (the envelope configuration of [service_runtime.py]) and
      [Registry] ([service_registry.py]): records, material, lock, launch, status
      and every operation a client can call, over a sequence of host states;
      [RegistryFacts] a small logic of how the registry evolves; [RegistryClaims].
    - [Detector], [Forest]; [DetectorClaims].
    - [Abi] (with [s6ar.py]); [AbiClaims].
    - [Plugins], [Slots]; [PluginClaims].
    Where a component has no file of lemmas, they follow its model.

    A definition keeps the name of the function or method it translates where
    the name is free; methods take the object's record as their state.

    ** What the theorems show

    - S6NA: every message handed over was sent, byte for byte, at most once within
      the duplicate window and, whatever the order and repetition of its chunks,
      exactly once; the accounting and the bounds hold in every reachable adapter;
      [send] and [retransmit] are described on every branch; the wire format is
      canonical.
    - Credentials: what is admitted is signed, unexpired and in scope; what is
      issued is admitted while it lasts; a Visa never outlives its Passport.
    - Contexts, BrokerSets and plans: nothing bypasses the privacy envelope, a
      realization is complete and authorised, the Broker that is chosen belongs to
      the set, the Gate pins the set's key, built-in Cores cannot be replaced, and
      a plan opens exactly the session its profile names.
    - Handles: the manager refines the abstract table and owns every socket once.
    - Capsules: in every interleaving none is lost, the paused flag tells the truth,
      stopping and expiry end every process, and a start is all or nothing.
    - Attachments: what is admitted carries every record of the advertised size.
    - Virtual Broker: admissions are authorised and used once, only entitled
      connections are served, quotas are exact and the rate limit holds.
    - Registry: along every history only approved plans are launched, applying a
      reviewed configuration starts only what was reviewed, an upgrade is atomic, a
      service shown as running is what its lock says, and no operation leaves a
      supervisor that the saved registry does not record.
    - Configurations: redacted views do not depend on secrets, an edit with masked
      secrets keeps them, what is saved is what was reviewed, snapshots stay
      content-addressed, no edit introduces a command.
    - Limits and profiles: resolved limits fit the host and every ceiling, and
      every profile of the catalogue resolves on a host of a stated size.
    - Documents and messages: what the bounded reader returns is portable;
      assertions verify while they are valid and are refused when replayed; calls
      survive the process boundary.
    - Plugins and slots: what runs is what a trusted signer signed, within its
      capabilities, each request once, and each slot follows its mode.
    - Detector: extraction never reads outside a frame; an accepted forest is a
      set of trees and predicts on every row.

    ** Conventions, bounds and fuel

    - Python integers are [Z]; clock readings are arguments, exact rationals [Q]
      where the source uses floating-point seconds (S6NA, sessions, handles) and
      [Z] elsewhere.  The rounding of those float operations is not modelled.
      JSON floats keep their literal ([VFloat]); [Forest] rounds them to binary64
      with [SpecFloat].
    - Random bytes, identifiers, what is read from files, sockets and /proc, and
      the answers of the kernel are arguments.
    - Exceptions carry their class and an abbreviated message.  A method that
      raises keeps the assignments it made before ([M] returns the state also on
      failure), as in Python.
    - Methods are atomic steps: the code runs them under a lock; interleavings are
      sequences of such steps.  For capsules, whose operations take locks several
      times, each section under a lock is a step and threads are explicit.
    - Unicode normalisation and the case mapping of non-ASCII text are functions
      the theorems quantify over.  Ed25519 and ChaCha20-Poly1305 are classes with
      the laws of their documentation; executable instances ([toy_signing], the toy
      cipher of [S6naCodec]) show that the laws can hold and let the examples run.
    - Fuel: the JSON scanner has twice the length of the text ([loads_total] shows
      that it suffices); a turn of the outbound loop of S6NA fills one place of the
      window, which is its fuel; the walks of [Forest] have the number of nodes
      ([forest_predicts] shows that no walk of an accepted model runs out);
      decimal text has the number of its bits; the polling loops of the registry
      have the number of turns that fit their deadline.  Every other recursion is
      structural.
    - Between any two looks of the registry the host may change: files, clock,
      processes, writes that fail before or after the file is replaced.

    ** Not modelled

    The supervisor's own process and its observation of the host (the rest of
    [service_runtime.py], [runtime_observation.py], [application_attachment.py]),
    the registry's diagnostic report ([doctor]), servers and command lines ([Control-Center], [CLI], [Public6] relays), the
    SDK's threads ([libshadow6], except the local end of a credited boundary),
    the generation of node configurations, installers, tests, benchmarks and
    tools, the vendored ZFCP runtime and the native programs in other languages.
    They are I/O, concurrency of the operating system or other languages; the
    documents they exchange with the modelled components are arguments here. *)
From Stdlib Require Export ZArith Lia.
From stdpp Require Export base gmap strings sorting option list.
#[global] Open Scope Z_scope.

(** ** Exceptions

    A Python exception is its class and its message.  [isa] is the subclass
    relation the [except] clauses of the sources rely on. *)
Inductive exn_class :=
| ValueError | TypeError | KeyError | IndexError | AttributeError
| OverflowError | PermissionError | OSError | FileNotFoundError
| BlockingIOError | TimeoutError | ProcessLookupError | RuntimeError | BufferError
| UnicodeError | JSONDecodeError | RecursionError | StructError
| AdapterBackpressure | AdapterClosed | AdapterRetryLimit
| ProtocolError | SlotError | PluginError | ConnectionError
| InvalidSignature | InvalidTag.

#[global] Instance exn_class_eq_dec : EqDecision exn_class.
Proof. solve_decision. Defined.

(** The direct superclass, for the classes whose superclass matters here. *)
Definition super (c : exn_class) : option exn_class :=
  match c with
  | UnicodeError | JSONDecodeError | ProtocolError => Some ValueError
  | PermissionError | FileNotFoundError | BlockingIOError | TimeoutError | ProcessLookupError => Some OSError
  | AdapterRetryLimit => Some TimeoutError
  | AdapterBackpressure => Some BufferError
  | AdapterClosed | RecursionError | SlotError | PluginError | ConnectionError => Some RuntimeError
  | _ => None
  end.

(** [isa c d]: an exception of class [c] is caught by [except d]. *)
Definition isa (c d : exn_class) : bool :=
  bool_decide (c = d)
  || match super c with
     | Some c1 => bool_decide (c1 = d)
                  || match super c1 with
                     | Some c2 => bool_decide (c2 = d)
                     | None => false
                     end
     | None => false
     end.

Record exn := Exn { exn_cls : exn_class; exn_msg : string }.

#[global] Instance exn_eq_dec : EqDecision exn.
Proof. solve_decision. Defined.

(** ** Results: a value or a raised exception *)
Inductive result (A : Type) :=
| Ok (a : A)
| Raise (e : exn).
Arguments Ok {A} _.
Arguments Raise {A} _.

#[global] Instance result_eq_dec `{EqDecision A} : EqDecision (result A).
Proof. solve_decision. Defined.

#[global] Instance result_ret : MRet result := λ A a, Ok a.
#[global] Instance result_bind : MBind result := λ A B k m,
  match m with Ok a => k a | Raise e => Raise e end.
#[global] Instance result_fmap : FMap result := λ A B f m,
  match m with Ok a => Ok (f a) | Raise e => Raise e end.

Definition raise {A} (c : exn_class) (m : string) : result A := Raise (Exn c m).

(** Python's [if c: raise E(m)]. *)
Definition raise_if (c : bool) (cls : exn_class) (m : string) : result unit :=
  if c then raise cls m else Ok tt.

(** [try: m except Exception: raise cls(msg)] restricted to the classes [ds]. *)
Definition reraise {A} (ds : list exn_class) (cls : exn_class) (msg : string)
    (m : result A) : result A :=
  match m with
  | Ok a => Ok a
  | Raise e => if existsb (isa (exn_cls e)) ds then raise cls msg else Raise e
  end.

(** [try: m except Exception as exc: raise cls(msg) from exc]. *)
Definition reraise_all {A} (cls : exn_class) (msg : string) (m : result A) : result A :=
  match m with Ok a => Ok a | Raise _ => raise cls msg end.

Definition is_ok {A} (m : result A) : bool :=
  match m with Ok _ => true | Raise _ => false end.

Lemma bind_Ok_inv {A B} (m : result A) (k : A → result B) b :
  (m ≫= k) = Ok b → ∃ a, m = Ok a ∧ k a = Ok b.
Proof. destruct m as [a|e]; [by exists a|done]. Qed.

Lemma bind_Raise_inv {A B} (m : result A) (k : A → result B) e :
  (m ≫= k) = Raise e → m = Raise e ∨ ∃ a, m = Ok a ∧ k a = Raise e.
Proof. destruct m as [a|e']; [right; eauto|intros [= ->]; by left]. Qed.

Lemma raise_if_Ok c cls m u : raise_if c cls m = Ok u → c = false.
Proof. by destruct c. Qed.

Lemma raise_if_Raise c cls m e : raise_if c cls m = Raise e → c = true ∧ e = Exn cls m.
Proof. destruct c; [by intros [= <-]|done]. Qed.

Lemma raise_if_false cls m : raise_if false cls m = Ok tt.
Proof. done. Qed.

Lemma reraise_Ok {A} ds cls msg (m : result A) a : reraise ds cls msg m = Ok a → m = Ok a.
Proof. unfold reraise. destruct m as [|e]; [done|]. by destruct (existsb _ _). Qed.

Lemma reraise_all_Ok {A} cls msg (m : result A) a : reraise_all cls msg m = Ok a → m = Ok a.
Proof. by destruct m. Qed.

(** ** Stateful computations: a method of a Python object

    The state is returned also when the method raises: what was assigned
    before the [raise] stays assigned. *)
Definition M (S A : Type) : Type := S → result A * S.

#[global] Instance M_ret S : MRet (M S) := λ A a s, (Ok a, s).
#[global] Instance M_bind S : MBind (M S) := λ A B k m s,
  match m s with
  | (Ok a, s') => k a s'
  | (Raise e, s') => (Raise e, s')
  end.

Definition mget {S A} (f : S → A) : M S A := λ s, (Ok (f s), s).
Definition mmod {S} (f : S → S) : M S unit := λ s, (Ok tt, f s).
Definition mlift {S A} (r : result A) : M S A := λ s, (r, s).
Definition mraise {S A} (c : exn_class) (m : string) : M S A := mlift (raise c m).
Definition mraise_if {S} (b : bool) (c : exn_class) (m : string) : M S unit :=
  mlift (raise_if b c m).

Lemma M_bind_Ok {S A B} (m : M S A) (k : A → M S B) s b s' :
  (m ≫= k) s = (Ok b, s') → ∃ a s1, m s = (Ok a, s1) ∧ k a s1 = (Ok b, s').
Proof.
  unfold mbind, M_bind. destruct (m s) as [[a|e] s1] eqn:E; [by eauto|done].
Qed.

Lemma M_bind_inv {S A B} (m : M S A) (k : A → M S B) s r s' :
  (m ≫= k) s = (r, s') →
  (∃ a s1, m s = (Ok a, s1) ∧ k a s1 = (r, s')) ∨ (∃ e, m s = (Raise e, s') ∧ r = Raise e).
Proof.
  unfold mbind, M_bind. destruct (m s) as [[a|e] s1] eqn:E; [by eauto 6|].
  intros [= <- <-]. by eauto.
Qed.

(** A step that does not touch the state: it goes on, or leaves the state as it is. *)
Lemma M_lift_inv {S A B} (r : result A) (k : A → M S B) s x s' :
  (mlift r ≫= k) s = (x, s') → (∃ a, r = Ok a ∧ k a s = (x, s')) ∨ (s' = s ∧ ∃ e, r = Raise e ∧ x = Raise e).
Proof.
  unfold mbind, M_bind, mlift. destruct r as [a|e]; [by eauto|]. intros [= <- <-]. right. by eauto.
Qed.

(** Reading the state. *)
Lemma M_get_bind {S A B} (f : S → A) (k : A → M S B) s : (mget f ≫= k) s = k (f s) s.
Proof. done. Qed.

(** Invert every successful bind and guard of a hypothesis. *)
Ltac inv_ok :=
  repeat match goal with
  | H : mbind _ _ = Ok _ |- _ =>
      let a := fresh "v" in let H1 := fresh "Hv" in
      apply bind_Ok_inv in H as (a & H1 & H)
  | H : raise_if _ _ _ = Ok _ |- _ => apply raise_if_Ok in H
  | H : raise _ _ = Ok _ |- _ => discriminate H
  | H : Raise _ = Ok _ |- _ => discriminate H
  | H : reraise _ _ _ _ = Ok _ |- _ => apply reraise_Ok in H
  | H : reraise_all _ _ _ = Ok _ |- _ => apply reraise_all_Ok in H
  | H : mret _ = Ok _ |- _ => injection H as H
  | H : Ok _ = Ok _ |- _ => injection H as H
  | u : unit |- _ => destruct u
  end.

(** Turn boolean guards into propositions. *)
Ltac bool_simpl :=
  repeat match goal with
  | H : (_ || _) = false |- _ => apply orb_false_iff in H as [? H]
  | H : (_ && _) = true |- _ => apply andb_true_iff in H as [? H]
  | H : negb _ = false |- _ => apply negb_false_iff in H
  | H : negb _ = true |- _ => apply negb_true_iff in H
  | H : bool_decide _ = true |- _ => apply bool_decide_eq_true in H
  | H : bool_decide _ = false |- _ => apply bool_decide_eq_false in H
  | H : (_ <? _) = true |- _ => apply Z.ltb_lt in H
  | H : (_ <? _) = false |- _ => apply Z.ltb_ge in H
  | H : (_ <=? _) = true |- _ => apply Z.leb_le in H
  | H : (_ <=? _) = false |- _ => apply Z.leb_gt in H
  | H : (_ =? _) = true |- _ => apply Z.eqb_eq in H
  | H : (_ =? _) = false |- _ => apply Z.eqb_neq in H
  end.

(** [low <= z <= high], as the chained comparisons of the sources. *)
Definition between (low z high : Z) : bool := (low <=? z) && (z <=? high).

Lemma between_spec low z high : between low z high = true ↔ low ≤ z ≤ high.
Proof. unfold between. rewrite andb_true_iff, !Z.leb_le. done. Qed.

Lemma between_false low z high : between low z high = false ↔ ¬ (low ≤ z ≤ high).
Proof. rewrite <- between_spec. by destruct (between _ _ _). Qed.

(** Python [len]. *)
Definition zlen {A} (l : list A) : Z := Z.of_nat (length l).

Lemma zlen_nonneg {A} (l : list A) : 0 ≤ zlen l.
Proof. unfold zlen. lia. Qed.
Lemma zlen_app {A} (l k : list A) : zlen (l ++ k) = zlen l + zlen k.
Proof. unfold zlen. rewrite length_app. lia. Qed.
Lemma zlen_nil {A} : zlen ([] : list A) = 0.
Proof. done. Qed.
Lemma zlen_cons {A} (x : A) l : zlen (x :: l) = 1 + zlen l.
Proof. unfold zlen. simpl. lia. Qed.

Create HintDb shadow6.
#[export] Hint Resolve zlen_nonneg : shadow6.
Create Rewrite HintDb zlen.
#[export] Hint Rewrite @zlen_app @zlen_nil @zlen_cons : zlen.

(** Python slices [l[i:j]] with nonnegative bounds. *)
Definition slice {A} (i j : Z) (l : list A) : list A :=
  take (Z.to_nat (j - i)) (drop (Z.to_nat i) l).

(** Loops that may raise: [for x in l: ...]. *)
Fixpoint for_each {A} (f : A → result unit) (l : list A) : result unit :=
  match l with
  | [] => Ok tt
  | x :: l => f x ≫= λ _, for_each f l
  end.

Fixpoint fold_res {A B} (f : B → A → result B) (b : B) (l : list A) : result B :=
  match l with
  | [] => Ok b
  | x :: l => f b x ≫= λ b', fold_res f b' l
  end.

Fixpoint map_res {A B} (f : A → result B) (l : list A) : result (list B) :=
  match l with
  | [] => Ok []
  | x :: l => f x ≫= λ y, map_res f l ≫= λ ys, Ok (y :: ys)
  end.

(** [any(p(x) for x in l)] with a test that may raise. *)
Fixpoint any_res {A} (p : A → result bool) (l : list A) : result bool :=
  match l with
  | [] => Ok false
  | x :: l => b ← p x; if b : bool then Ok true else any_res p l
  end.

Lemma for_each_Ok {A} (f : A → result unit) l :
  for_each f l = Ok tt ↔ Forall (λ x, f x = Ok tt) l.
Proof.
  induction l as [|x l IH]; simpl; [by split|].
  rewrite Forall_cons, <- IH. split.
  - intros ([] & Hx & Hl)%bind_Ok_inv. done.
  - intros [-> Hl]. done.
Qed.

Lemma map_res_Ok {A B} (f : A → result B) l ys :
  map_res f l = Ok ys ↔ Forall2 (λ x y, f x = Ok y) l ys.
Proof.
  revert ys. induction l as [|x l IH]; intros ys; simpl.
  - split; [intros [= <-]; constructor|by inversion 1].
  - split.
    + intros (y & Hy & (ys' & Hys & [= <-])%bind_Ok_inv)%bind_Ok_inv.
      constructor; [done|by apply IH].
    + inversion 1 as [|? y ? ys' Hy Hys]; subst. rewrite Hy. simpl.
      apply IH in Hys. by rewrite Hys.
Qed.

Lemma fold_res_app {A B} (f : B → A → result B) b l k :
  fold_res f b (l ++ k) = (fold_res f b l ≫= λ b', fold_res f b' k).
Proof.
  revert b. induction l as [|x l IH]; intros b; simpl; [done|].
  destruct (f b x); simpl; [apply IH|done].
Qed.

Lemma any_res_false {A} (p : A → result bool) l : any_res p l = Ok false ↔ Forall (λ x, p x = Ok false) l.
Proof.
  induction l as [|x l IH]; cbn [any_res]; [by split|]. rewrite Forall_cons, <- IH. split.
  - intros (b & Hb & Hl)%bind_Ok_inv. by destruct b.
  - intros [-> Hl]. done.
Qed.

(** [l[i]]: a negative index counts from the end. *)
Definition index {A} (l : list A) (i : Z) : result A :=
  if i <? - zlen l then raise IndexError "list index out of range"
  else match l !! Z.to_nat (if i <? 0 then i + zlen l else i) with
       | Some x => Ok x
       | None => raise IndexError "list index out of range"
       end.

Lemma index_Ok {A} (l : list A) i x : 0 ≤ i → index l i = Ok x ↔ l !! Z.to_nat i = Some x.
Proof.
  intros Hi. unfold index. pose proof (zlen_nonneg l). destruct (Z.ltb_spec i (- zlen l)); [lia|]. destruct (Z.ltb_spec i 0); [lia|].
  unfold raise. destruct (l !! Z.to_nat i); split; congruence.
Qed.

Lemma index_lt {A} (l : list A) i : 0 ≤ i < zlen l → ∃ x, index l i = Ok x ∧ l !! Z.to_nat i = Some x.
Proof.
  intros Hi. destruct (lookup_lt_is_Some_2 l (Z.to_nat i)) as [x Hx]; [unfold zlen in Hi; lia|].
  exists x. split; [by apply index_Ok; [lia|]|done].
Qed.

(** Linear arithmetic with divisions and remainders by constants. *)
Ltac div_lia := Z.to_euclidean_division_equations; lia.
