(* ===== verification/Dict.v ===== *)
(** * Python dictionaries

    A [dict] is an insertion-ordered association list: assignment to a key
    that is present keeps its place, a new key goes to the end, deletion
    removes the key.  [dget], [dset] and [ddel] are [d.get(k)], [d[k] = v] and
    [d.pop(k, None)]. *)
From S2P Require Import Prelude.

Section Dict.
Context {K : Type} `{EqDecision K} {V : Type}.
Implicit Types (d : list (K * V)) (k : K) (v : V).

Fixpoint dget d k : option V :=
  match d with
  | [] => None
  | (k', v) :: d => if bool_decide (k = k') then Some v else dget d k
  end.

Fixpoint dset d k v : list (K * V) :=
  match d with
  | [] => [(k, v)]
  | (k', v') :: d => if bool_decide (k = k') then (k', v) :: d else (k', v') :: dset d k v
  end.

Fixpoint ddel d k : list (K * V) :=
  match d with
  | [] => []
  | (k', v') :: d => if bool_decide (k = k') then ddel d k else (k', v') :: ddel d k
  end.

Definition dmem d k : bool := match dget d k with Some _ => true | None => false end.
Definition dkeys d : list K := d.*1.
Definition dvalues d : list V := d.*2.

(** The dictionary invariant: every key occurs once. *)
Definition dwf d : Prop := NoDup (dkeys d).

Lemma dget_dset_eq d k v : dget (dset d k v) k = Some v.
Proof.
  induction d as [|[k' v'] d IH]; simpl; [by rewrite bool_decide_true|].
  destruct (bool_decide (k = k')) eqn:E; simpl; by rewrite E.
Qed.

Lemma dget_dset_ne d k k' v : k' ≠ k → dget (dset d k v) k' = dget d k'.
Proof.
  intros Hne. induction d as [|[k0 v0] d IH]; simpl; [by rewrite bool_decide_false|].
  destruct (bool_decide (k = k0)) eqn:E; simpl.
  - apply bool_decide_eq_true in E as ->. by rewrite !bool_decide_false.
  - by rewrite IH.
Qed.

Lemma dget_dset d k k' v :
  dget (dset d k v) k' = if bool_decide (k' = k) then Some v else dget d k'.
Proof.
  case_bool_decide as E; [subst; apply dget_dset_eq|by apply dget_dset_ne].
Qed.

Lemma dget_ddel_eq d k : dget (ddel d k) k = None.
Proof.
  induction d as [|[k' v'] d IH]; simpl; [done|].
  destruct (bool_decide (k = k')) eqn:E; simpl; [done|by rewrite E].
Qed.

Lemma dget_ddel_ne d k k' : k' ≠ k → dget (ddel d k) k' = dget d k'.
Proof.
  intros Hne. induction d as [|[k0 v0] d IH]; simpl; [done|].
  destruct (bool_decide (k = k0)) eqn:E; simpl.
  - apply bool_decide_eq_true in E as ->. by rewrite IH, bool_decide_false.
  - by rewrite IH.
Qed.

Lemma dget_elem_of d k v : dget d k = Some v → (k, v) ∈ d.
Proof.
  induction d as [|[k' v'] d IH]; simpl; [done|].
  case_bool_decide as E; [intros [= ->]; subst; left|intros H; right; by apply IH].
Qed.

Lemma dget_None d k : dget d k = None ↔ k ∉ dkeys d.
Proof.
  unfold dkeys. induction d as [|[k' v'] d IH]; simpl; [by split; [intros _; apply not_elem_of_nil|]|].
  rewrite not_elem_of_cons. case_bool_decide as E; [subst; split; [done|by intros []]|].
  rewrite IH. by split; [|intros []].
Qed.

Lemma dget_Some_key d k v : dget d k = Some v → k ∈ dkeys d.
Proof.
  intros H. destruct (decide (k ∈ dkeys d)) as [|Hn]; [done|].
  apply dget_None in Hn. congruence.
Qed.

Lemma elem_of_dget d k v : dwf d → (k, v) ∈ d → dget d k = Some v.
Proof.
  unfold dwf, dkeys. induction d as [|[k' v'] d IH]; simpl; [by intros _ ?%not_elem_of_nil|].
  intros [Hk Hd]%NoDup_cons [[= -> ->]|Hin]%elem_of_cons.
  - by rewrite bool_decide_true.
  - rewrite bool_decide_false; [by apply IH|]. intros ->. apply Hk.
    apply list_elem_of_fmap. by exists (k', v).
Qed.

Lemma dkeys_dset_Some d k v v' : dget d k = Some v' → dkeys (dset d k v) = dkeys d.
Proof.
  unfold dkeys. induction d as [|[k0 v0] d IH]; simpl; [done|].
  case_bool_decide as E; simpl; [by subst|]. intros H. f_equal. by apply IH.
Qed.

Lemma dset_None d k v : dget d k = None → dset d k v = d ++ [(k, v)].
Proof.
  induction d as [|[k0 v0] d IH]; simpl; [done|].
  case_bool_decide as E; [done|]. intros H. by rewrite IH.
Qed.

Lemma dkeys_dset_None d k v : dget d k = None → dkeys (dset d k v) = dkeys d ++ [k].
Proof. intros H. rewrite (dset_None _ _ _ H). unfold dkeys. by rewrite fmap_app. Qed.

Lemma elem_of_dkeys_dset d k v k' : k' ∈ dkeys (dset d k v) ↔ k' = k ∨ k' ∈ dkeys d.
Proof.
  destruct (dget d k) as [v'|] eqn:E.
  - rewrite (dkeys_dset_Some _ _ _ _ E). split; [by right|].
    intros [->|]; [by eapply dget_Some_key|done].
  - rewrite (dkeys_dset_None _ _ _ E), elem_of_app, list_elem_of_singleton. naive_solver.
Qed.

Lemma dkeys_ddel d k : dkeys (ddel d k) = filter (λ k', k ≠ k') (dkeys d).
Proof.
  unfold dkeys. induction d as [|[k' v'] d IH]; simpl; [done|].
  destruct (bool_decide (k = k')) eqn:E; simpl.
  - apply bool_decide_eq_true in E. rewrite filter_cons_False; [done|naive_solver].
  - apply bool_decide_eq_false in E. rewrite filter_cons_True by done. f_equal. by apply IH.
Qed.

Lemma elem_of_dkeys_ddel d k k' : k' ∈ dkeys (ddel d k) ↔ k ≠ k' ∧ k' ∈ dkeys d.
Proof. rewrite dkeys_ddel, list_elem_of_filter. done. Qed.

Lemma elem_of_ddel d k k' v : (k', v) ∈ ddel d k ↔ k ≠ k' ∧ (k', v) ∈ d.
Proof.
  induction d as [|[k0 v0] d IH]; simpl.
  - split; [by intros ?%not_elem_of_nil|by intros [_ ?%not_elem_of_nil]].
  - case_bool_decide as E; rewrite ?elem_of_cons, IH; naive_solver.
Qed.

Lemma elem_of_dset_inv d k v k' v' :
  (k', v') ∈ dset d k v → (k' = k ∧ v' = v) ∨ (k', v') ∈ d.
Proof.
  induction d as [|[k0 v0] d IH]; simpl.
  - intros ?%list_elem_of_singleton. naive_solver.
  - case_bool_decide as E; rewrite !elem_of_cons; naive_solver.
Qed.

Lemma dwf_dset d k v : dwf d → dwf (dset d k v).
Proof.
  unfold dwf. intros H. destruct (dget d k) as [v'|] eqn:E.
  - by rewrite (dkeys_dset_Some _ _ _ _ E).
  - rewrite (dkeys_dset_None _ _ _ E). apply NoDup_app. split; [done|].
    split; [|apply NoDup_singleton].
    intros x Hx ->%list_elem_of_singleton. by apply dget_None in E.
Qed.

Lemma dwf_ddel d k : dwf d → dwf (ddel d k).
Proof. unfold dwf. rewrite dkeys_ddel. apply NoDup_filter. Qed.

Lemma dwf_nil : dwf [].
Proof. constructor. Qed.

Lemma length_dset_None d k v : dget d k = None → length (dset d k v) = S (length d).
Proof. intros H. rewrite (dset_None _ _ _ H), length_app. simpl. lia. Qed.

Lemma length_dset_Some d k v v' : dget d k = Some v' → length (dset d k v) = length d.
Proof.
  intros H%(dkeys_dset_Some _ _ v). apply (f_equal length) in H.
  unfold dkeys in H. by rewrite !length_fmap in H.
Qed.

Lemma ddel_notin d k : dget d k = None → ddel d k = d.
Proof.
  induction d as [|[k' v'] d IH]; simpl; [done|].
  case_bool_decide as E; [done|]. intros H. by rewrite IH.
Qed.

Lemma ddel_dset d k v : ddel (dset d k v) k = ddel d k.
Proof.
  induction d as [|[k' v'] d IH]; simpl; [by rewrite bool_decide_true|].
  destruct (bool_decide (k = k')) eqn:E; simpl; rewrite E; [done|by rewrite IH].
Qed.

Lemma dget_app d d' k : dget (d ++ d') k = match dget d k with Some v => Some v | None => dget d' k end.
Proof. induction d as [|[k' v'] d IH]; simpl; [done|]. by case_bool_decide. Qed.

Lemma length_ddel_le d k : (length (ddel d k) ≤ length d)%nat.
Proof.
  induction d as [|[k' v'] d IH]; simpl; [done|].
  destruct (bool_decide (k = k')); simpl; lia.
Qed.

Lemma length_ddel_Some d k v : dwf d → dget d k = Some v → S (length (ddel d k)) = length d.
Proof.
  unfold dwf, dkeys. induction d as [|[k' v'] d IH]; simpl; [done|].
  intros [Hk Hd]%NoDup_cons. case_bool_decide as E; intros H; simpl.
  - subst k'. rewrite ddel_notin; [done|]. by apply dget_None.
  - by rewrite IH.
Qed.

(** Sums over the values of a dictionary. *)
Definition dsum (f : K → V → Z) d : Z := foldr (λ kv acc, f kv.1 kv.2 + acc) 0 d.

Lemma dsum_app f d d' : dsum f (d ++ d') = dsum f d + dsum f d'.
Proof. unfold dsum. induction d as [|kv d IH]; simpl; lia. Qed.

Lemma dsum_dset_None f d k v : dget d k = None → dsum f (dset d k v) = dsum f d + f k v.
Proof. intros H. rewrite (dset_None _ _ _ H), dsum_app. simpl. lia. Qed.

Lemma dsum_dset_Some f d k v v' :
  dget d k = Some v' → dsum f (dset d k v) = dsum f d - f k v' + f k v.
Proof.
  unfold dsum. induction d as [|[k' w] d IH]; simpl; [done|].
  case_bool_decide as E; simpl; [subst; intros [= ->]; lia|].
  intros H. rewrite IH by done. lia.
Qed.

Lemma dsum_ddel_Some f d k v :
  dwf d → dget d k = Some v → dsum f (ddel d k) = dsum f d - f k v.
Proof.
  unfold dwf, dkeys, dsum. induction d as [|[k' w] d IH]; simpl; [done|].
  intros [Hk Hd]%NoDup_cons. case_bool_decide as E; simpl.
  - intros [= ->]. subst k'. rewrite ddel_notin by (by apply dget_None). lia.
  - intros H. rewrite IH by done. lia.
Qed.

Lemma dsum_nonneg f d : (∀ k v, (k, v) ∈ d → 0 ≤ f k v) → 0 ≤ dsum f d.
Proof.
  unfold dsum. induction d as [|[k v] d IH]; simpl; [lia|]. intros H.
  assert (0 ≤ f k v) by (apply H; left).
  assert (0 ≤ foldr (λ kv acc, f kv.1 kv.2 + acc) 0 d); [|lia].
  apply IH. intros k' v' Hin. apply H. by right.
Qed.

Lemma dsum_elem_le f d k v :
  (∀ k v, (k, v) ∈ d → 0 ≤ f k v) → (k, v) ∈ d → f k v ≤ dsum f d.
Proof.
  unfold dsum. induction d as [|[k' v'] d IH]; simpl; [by intros _ ?%not_elem_of_nil|].
  intros H Hin. apply elem_of_cons in Hin as [[= -> ->]|Hin].
  - assert (0 ≤ foldr (λ kv acc, f kv.1 kv.2 + acc) 0 d); [|lia].
    apply dsum_nonneg. intros. apply H. by right.
  - assert (0 ≤ f k' v') by (apply H; left). cut (f k v ≤ foldr (λ kv acc, f kv.1 kv.2 + acc) 0 d); [lia|].
    apply IH; [|done]. intros. apply H. by right.
Qed.
End Dict.

Arguments dwf {_ _} _.

#[export] Hint Resolve dwf_dset dwf_ddel dwf_nil : shadow6.

(** A list of pairs read as a [dict] display: later keys win. *)
Definition dict_of {K} `{EqDecision K} {V} (l : list (K * V)) : list (K * V) :=
  foldl (λ d kv, dset d kv.1 kv.2) [] l.

Lemma dict_of_wf {K} `{EqDecision K} {V} (l : list (K * V)) : dwf (dict_of l).
Proof.
  unfold dict_of. assert (∀ d : list (K * V), dwf d → dwf (foldl (λ d kv, dset d kv.1 kv.2) d l)) as H.
  { induction l as [|kv l IH]; intros d Hd; simpl; [done|]. apply IH. auto with shadow6. }
  apply H, dwf_nil.
Qed.
