(* ===== verification/PyStr.v ===== *)
(** * Python [str] and [bytes]

    A [str] is a list of code points and a [bytes] a list of integers in
    [0, 256).  UTF-8, hexadecimal, decimal and big-endian conversions with
    their round trips; the character classes of the regular expressions the
    sources use; the code-point order of [sorted]. *)
From S2P Require Import Prelude.

Notation pystr := (list Z).
Notation bytes := (list Z).

(** A literal of the source. *)
Definition str (s : string) : pystr :=
  (λ b, Z.of_N (Byte.to_N b)) <$> String.list_byte_of_string s.
Arguments str : simpl never.

Definition is_byte (z : Z) : bool := between 0 z 255.
Definition wf_bytes (b : bytes) : bool := forallb is_byte b.

(** ** Character classes *)
Definition is_digit (c : Z) : bool := between 48 c 57.
Definition is_lower (c : Z) : bool := between 97 c 122.
Definition is_upper (c : Z) : bool := between 65 c 90.
Definition is_alnum (c : Z) : bool := is_digit c || is_lower c || is_upper c.
Definition is_ascii (c : Z) : bool := between 0 c 127.
(** One of the characters of a literal. *)
Definition one_of (s : string) (c : Z) : bool := bool_decide (c ∈ str s).
Definition is_hex_lower (c : Z) : bool := is_digit c || between 97 c 102.
Definition is_hex (c : Z) : bool := is_hex_lower c || between 65 c 70.

(** [re.fullmatch(r'[class]{lo,hi}', s)]. *)
Definition re_class (p : Z → bool) (lo hi : Z) (s : pystr) : bool :=
  between lo (zlen s) hi && forallb p s.
(** [re.fullmatch(r'[head][class]{lo,hi}', s)]. *)
Definition re_head (h p : Z → bool) (lo hi : Z) (s : pystr) : bool :=
  match s with
  | [] => false
  | c :: s => h c && re_class p lo hi s
  end.
Definition hex_lower (n : Z) (s : pystr) : bool := re_class is_hex_lower n n s.

(** [s.startswith(p)]. *)
Definition starts_with (p s : pystr) : bool := bool_decide (take (length p) s = p).

(** [s.removeprefix(prefix)]. *)
Definition remove_prefix (prefix s : pystr) : pystr :=
  if starts_with prefix s then drop (length prefix) s else s.

(** [x in s] between strings. *)
Fixpoint is_infix (x s : pystr) : bool :=
  starts_with x s || match s with [] => false | _ :: s => is_infix x s end.

Lemma starts_with_app p s : starts_with p (p ++ s) = true.
Proof. unfold starts_with. by rewrite take_app_length, bool_decide_true. Qed.

Lemma starts_with_inv p s : starts_with p s = true → s = p ++ drop (length p) s.
Proof.
  unfold starts_with. intros H%bool_decide_eq_true.
  by rewrite <- H at 1; rewrite take_drop.
Qed.

(** ** Code-point order *)
Fixpoint str_leb (s t : pystr) : bool :=
  match s, t with
  | [], _ => true
  | _ :: _, [] => false
  | a :: s, b :: t => if a =? b then str_leb s t else a <? b
  end.

Lemma str_leb_refl s : str_leb s s = true.
Proof. induction s; simpl; [done|]. by rewrite Z.eqb_refl. Qed.

Lemma str_leb_trans s t u : str_leb s t = true → str_leb t u = true → str_leb s u = true.
Proof.
  revert t u. induction s as [|a s IH]; intros [|b t] [|c u]; simpl; try done.
  destruct (Z.eqb_spec a b), (Z.eqb_spec b c), (Z.eqb_spec a c); subst; bool_simpl;
    rewrite ?Z.eqb_refl, ?Z.ltb_lt; intros; eauto; try lia; try congruence.
Qed.

Lemma str_leb_total s t : str_leb s t = true ∨ str_leb t s = true.
Proof.
  revert t. induction s as [|a s IH]; intros [|b t]; simpl; auto.
  rewrite (Z.eqb_sym b a). destruct (Z.eqb_spec a b); [apply IH|].
  rewrite !Z.ltb_lt. lia.
Qed.

Lemma str_leb_antisym s t : str_leb s t = true → str_leb t s = true → s = t.
Proof.
  revert t. induction s as [|a s IH]; intros [|b t]; simpl; try done.
  rewrite (Z.eqb_sym b a). destruct (Z.eqb_spec a b) as [->|]; intros H1 H2.
  - f_equal. by apply IH.
  - bool_simpl. lia.
Qed.

(** ** Sorting by key: [sorted(d.items())] for distinct keys *)
Section SortKeys.
Context {V : Type}.
Implicit Types (d : list (pystr * V)).

Fixpoint insert_key (kv : pystr * V) d : list (pystr * V) :=
  match d with
  | [] => [kv]
  | kv' :: d' => if str_leb kv.1 kv'.1 then kv :: d else kv' :: insert_key kv d'
  end.

Definition sort_keys d : list (pystr * V) := foldr insert_key [] d.

Definition keys_sorted d : Prop := Sorted (λ a b, str_leb a.1 b.1 = true) d.

Lemma insert_key_perm kv d : insert_key kv d ≡ₚ kv :: d.
Proof.
  induction d as [|kv' d IH]; simpl; [done|].
  destruct (str_leb _ _); [done|]. by rewrite IH, Permutation_swap.
Qed.

Lemma sort_keys_perm d : sort_keys d ≡ₚ d.
Proof. induction d as [|kv d IH]; simpl; [done|]. by rewrite insert_key_perm, IH. Qed.

Lemma insert_key_sorted kv d : keys_sorted d → keys_sorted (insert_key kv d).
Proof.
  unfold keys_sorted. induction d as [|kv' d IH]; simpl; [intros; repeat constructor|].
  intros Hs. destruct (str_leb kv.1 kv'.1) eqn:E; [by constructor; [|constructor]|].
  assert (str_leb kv'.1 kv.1 = true) as E' by (destruct (str_leb_total kv.1 kv'.1); congruence).
  inversion Hs as [|? ? Hs' Hh]; subst. constructor; [by apply IH|].
  destruct d as [|kv'' d]; simpl; [by constructor|].
  destruct (str_leb kv.1 kv''.1); constructor; [done|]. by inversion Hh.
Qed.

Lemma sort_keys_sorted d : keys_sorted (sort_keys d).
Proof.
  induction d as [|kv d IH]; simpl; [constructor|]. by apply insert_key_sorted.
Qed.

Lemma sort_keys_id d : keys_sorted d → sort_keys d = d.
Proof.
  unfold keys_sorted. induction d as [|kv d IH]; simpl; [done|].
  inversion 1 as [|? ? Hs Hh]; subst. rewrite IH by done.
  destruct d as [|kv' d]; [done|]. simpl. inversion Hh; subst. by rewrite H1.
Qed.

Lemma sort_keys_idem d : sort_keys (sort_keys d) = sort_keys d.
Proof. apply sort_keys_id, sort_keys_sorted. Qed.
End SortKeys.

(** [sorted(set(l))] on strings. *)
Definition sorted_set (l : list pystr) : list pystr :=
  (sort_keys ((λ s, (s, tt)) <$> remove_dups l)).*1.

Lemma elem_of_sorted_set l s : s ∈ sorted_set l ↔ s ∈ l.
Proof.
  unfold sorted_set. rewrite list_elem_of_fmap. setoid_rewrite sort_keys_perm.
  setoid_rewrite list_elem_of_fmap. split.
  - intros ([? []] & -> & (x & [= ->] & Hx)). simpl. by apply elem_of_remove_dups.
  - intros Hs. exists (s, tt). split; [done|]. exists s. split; [done|].
    by apply elem_of_remove_dups.
Qed.

Lemma sorted_set_NoDup l : NoDup (sorted_set l).
Proof.
  unfold sorted_set. rewrite sort_keys_perm, <- list_fmap_compose.
  simpl. rewrite list_fmap_id. apply NoDup_remove_dups.
Qed.

(** ** Big-endian integers: [int.to_bytes(n, "big")] and [int.from_bytes] *)
Fixpoint be_encode (n : nat) (z : Z) : bytes :=
  match n with
  | O => []
  | S n => be_encode n (z / 256) ++ [z mod 256]
  end.

Definition be_decode (b : bytes) : Z := foldl (λ acc x, acc * 256 + x) 0 b.

Lemma be_encode_length n z : length (be_encode n z) = n.
Proof.
  revert z. induction n as [|n IH]; intros z; simpl; [done|].
  rewrite length_app, IH. simpl. lia.
Qed.

Lemma be_encode_wf n z : wf_bytes (be_encode n z) = true.
Proof.
  unfold wf_bytes. revert z. induction n as [|n IH]; intros z; simpl; [done|].
  rewrite forallb_app, IH. simpl. rewrite andb_true_r. apply between_spec.
  pose proof (Z.mod_pos_bound z 256). lia.
Qed.

Lemma be_decode_app b x : be_decode (b ++ [x]) = be_decode b * 256 + x.
Proof. unfold be_decode. by rewrite foldl_app. Qed.

Lemma be_decode_encode n z : 0 ≤ z < 256 ^ Z.of_nat n → be_decode (be_encode n z) = z.
Proof.
  revert z. induction n as [|n IH]; intros z Hz; cbn [be_encode].
  - simpl in Hz. unfold be_decode. simpl. lia.
  - rewrite be_decode_app, IH; [pose proof (Z.div_mod z 256); lia|].
    rewrite Nat2Z.inj_succ, Z.pow_succ_r in Hz by lia.
    split; [apply Z.div_pos; lia|]. apply Z.div_lt_upper_bound; lia.
Qed.

Lemma be_decode_bound b : wf_bytes b = true → 0 ≤ be_decode b < 256 ^ zlen b.
Proof.
  unfold wf_bytes. induction b as [|x b IH] using rev_ind; [done|].
  rewrite forallb_app, andb_true_iff. intros [Hb Hx]. simpl in Hx.
  rewrite andb_true_r in Hx. apply between_spec in Hx. specialize (IH Hb).
  rewrite be_decode_app, zlen_app. unfold zlen at 2. simpl.
  rewrite Z.pow_add_r by (pose proof (zlen_nonneg b); lia). lia.
Qed.

Lemma be_encode_decode b : wf_bytes b = true → be_encode (length b) (be_decode b) = b.
Proof.
  unfold wf_bytes. induction b as [|x b IH] using rev_ind; [done|].
  rewrite forallb_app, andb_true_iff. intros [Hb Hx]. simpl in Hx.
  rewrite andb_true_r in Hx. apply between_spec in Hx.
  rewrite be_decode_app, length_app. simpl. rewrite Nat.add_1_r. cbn [be_encode].
  replace ((be_decode b * 256 + x) / 256) with (be_decode b) by
    (rewrite Z.div_add_l, Z.div_small; lia).
  replace ((be_decode b * 256 + x) mod 256) with x by
    (rewrite Z.add_comm, Z.mod_add, Z.mod_small; lia).
  by rewrite IH.
Qed.

(** ** Hexadecimal: [bytes.hex()] and [bytes.fromhex] *)
Definition hex_digit (n : Z) : Z := if n <? 10 then 48 + n else 87 + n.
Definition hex_value (c : Z) : option Z :=
  if is_digit c then Some (c - 48)
  else if between 97 c 102 then Some (c - 87)
  else if between 65 c 70 then Some (c - 55) else None.

Fixpoint bytes_hex (b : bytes) : pystr :=
  match b with
  | [] => []
  | x :: b => hex_digit (x / 16) :: hex_digit (x mod 16) :: bytes_hex b
  end.

Fixpoint fromhex (s : pystr) : option bytes :=
  match s with
  | [] => Some []
  | h :: l :: s =>
      match hex_value h, hex_value l, fromhex s with
      | Some h, Some l, Some b => Some (h * 16 + l :: b)
      | _, _, _ => None
      end
  | _ => None
  end.

Lemma hex_value_digit n : 0 ≤ n < 16 → hex_value (hex_digit n) = Some n.
Proof.
  intros H. assert (n ∈ seqZ 0 16) as Hn by (apply elem_of_seqZ; lia).
  cbv in Hn. repeat (apply elem_of_cons in Hn as [->|Hn]; [done|]). by apply not_elem_of_nil in Hn.
Qed.

Lemma hex_digit_lower n : 0 ≤ n < 16 → is_hex_lower (hex_digit n) = true.
Proof.
  intros H. assert (n ∈ seqZ 0 16) as Hn by (apply elem_of_seqZ; lia).
  cbv in Hn. repeat (apply elem_of_cons in Hn as [->|Hn]; [done|]). by apply not_elem_of_nil in Hn.
Qed.

Lemma nibbles x : between 0 x 255 = true → 0 ≤ x / 16 < 16 ∧ 0 ≤ x mod 16 < 16.
Proof.
  intros H%between_spec. pose proof (Z.mod_pos_bound x 16).
  split; [|lia]. split; [apply Z.div_pos; lia|apply Z.div_lt_upper_bound; lia].
Qed.

Lemma fromhex_hex b : wf_bytes b = true → fromhex (bytes_hex b) = Some b.
Proof.
  unfold wf_bytes. induction b as [|x b IH]; simpl; [done|].
  intros [Hx Hb]%andb_true_iff. destruct (nibbles _ Hx).
  rewrite !hex_value_digit, IH by (done || lia).
  do 2 f_equal. rewrite Z.mul_comm. symmetry. apply Z.div_mod. lia.
Qed.

Lemma bytes_hex_length b : length (bytes_hex b) = (2 * length b)%nat.
Proof. induction b; simpl; lia. Qed.

Lemma bytes_hex_lower b : wf_bytes b = true → forallb is_hex_lower (bytes_hex b) = true.
Proof.
  unfold wf_bytes. induction b as [|x b IH]; simpl; [done|].
  intros [Hx Hb]%andb_true_iff. destruct (nibbles _ Hx).
  rewrite !hex_digit_lower by lia. simpl. by apply IH.
Qed.

Lemma hex_lower_bytes_hex b n :
  wf_bytes b = true → zlen b = n → hex_lower (2 * n) (bytes_hex b) = true.
Proof.
  intros Hb Hn. unfold hex_lower, re_class. rewrite bytes_hex_lower, andb_true_r by done.
  apply between_spec. unfold zlen in *. rewrite bytes_hex_length. lia.
Qed.

(** ** Byte strings under slicing *)
Lemma wf_bytes_take n b : wf_bytes b = true → wf_bytes (take n b) = true.
Proof.
  unfold wf_bytes. rewrite !forallb_forall. intros H x Hx. apply H.
  apply list_elem_of_In. apply list_elem_of_In in Hx. eapply subseteq_take; done.
Qed.

Lemma wf_bytes_drop n b : wf_bytes b = true → wf_bytes (drop n b) = true.
Proof.
  unfold wf_bytes. rewrite !forallb_forall. intros H x Hx. apply H.
  apply list_elem_of_In. apply list_elem_of_In in Hx. eapply subseteq_drop; done.
Qed.

Lemma wf_bytes_app b1 b2 : wf_bytes (b1 ++ b2) = wf_bytes b1 && wf_bytes b2.
Proof. apply forallb_app. Qed.

Lemma ascii_wf s : forallb is_ascii s = true → wf_bytes s = true.
Proof.
  unfold wf_bytes. rewrite !forallb_forall. intros Hs c Hc. specialize (Hs c Hc).
  apply between_spec in Hs. apply between_spec. lia.
Qed.
