(* ===== verification/PyText.v ===== *)
(** * UTF-8 and decimal text

    [str.encode('utf-8')] (which fails on surrogates), [bytes.decode('utf-8',
    'strict')], [str(int)] and [int(text)], with their round trips. *)
From S2P Require Import Prelude PyStr.

(** ** UTF-8 *)
Definition is_surrogate (c : Z) : bool := between 55296 c 57343.
(** A Unicode scalar value: what UTF-8 can encode. *)
Definition is_scalar (c : Z) : bool := between 0 c 1114111 && negb (is_surrogate c).

Definition utf8_char (c : Z) : option bytes :=
  if negb (is_scalar c) then None
  else if c <? 128 then Some [c]
  else if c <? 2048 then Some [192 + c / 64; 128 + c mod 64]
  else if c <? 65536 then Some [224 + c / 4096; 128 + c / 64 mod 64; 128 + c mod 64]
  else Some [240 + c / 262144; 128 + c / 4096 mod 64; 128 + c / 64 mod 64; 128 + c mod 64].

Fixpoint utf8 (s : pystr) : option bytes :=
  match s with
  | [] => Some []
  | c :: s =>
      match utf8_char c, utf8 s with
      | Some b, Some bs => Some (b ++ bs)
      | _, _ => None
      end
  end.

Definition is_cont (b : Z) : bool := between 128 b 191.

Fixpoint utf8_decode (b : bytes) : option pystr :=
  match b with
  | [] => Some []
  | b0 :: r0 =>
      if between 0 b0 127 then
        match utf8_decode r0 with Some s => Some (b0 :: s) | None => None end
      else if between 194 b0 223 then
        match r0 with
        | b1 :: r1 =>
            if is_cont b1 then
              match utf8_decode r1 with
              | Some s => Some ((b0 - 192) * 64 + (b1 - 128) :: s)
              | None => None
              end
            else None
        | _ => None
        end
      else if between 224 b0 239 then
        match r0 with
        | b1 :: b2 :: r2 =>
            let c := (b0 - 224) * 4096 + (b1 - 128) * 64 + (b2 - 128) in
            if is_cont b1 && is_cont b2 && (2048 <=? c) && negb (is_surrogate c) then
              match utf8_decode r2 with Some s => Some (c :: s) | None => None end
            else None
        | _ => None
        end
      else if between 240 b0 244 then
        match r0 with
        | b1 :: b2 :: b3 :: r3 =>
            let c := (b0 - 240) * 262144 + (b1 - 128) * 4096 + (b2 - 128) * 64 + (b3 - 128) in
            if is_cont b1 && is_cont b2 && is_cont b3 && between 65536 c 1114111 then
              match utf8_decode r3 with Some s => Some (c :: s) | None => None end
            else None
        | _ => None
        end
      else None
  end.

(** Split off a base-64 digit: the arithmetic of continuation bytes. *)
Lemma cont_bounds x : 128 ≤ 128 + x mod 64 ≤ 191.
Proof. pose proof (Z.mod_pos_bound x 64). lia. Qed.

Ltac decide_between :=
  repeat match goal with
  | |- context [between ?l ?x ?h] =>
      first [ replace (between l x h) with true by (symmetry; apply between_spec; lia)
            | replace (between l x h) with false by (symmetry; apply between_false; lia) ]
  end.

Lemma utf8_decode_char c b rest :
  utf8_char c = Some b →
  utf8_decode (b ++ rest) = match utf8_decode rest with Some s => Some (c :: s) | None => None end.
Proof.
  unfold utf8_char, is_scalar. destruct (negb _) eqn:Hs; [done|].
  apply negb_false_iff, andb_true_iff in Hs as [Hr%between_spec Hsur%negb_true_iff].
  pose proof (Z.mod_pos_bound c 64). pose proof (Z.div_mod c 64).
  pose proof (Z.mod_pos_bound (c / 64) 64). pose proof (Z.div_mod (c / 64) 64).
  pose proof (Z.mod_pos_bound (c / 4096) 64). pose proof (Z.div_mod (c / 4096) 64).
  assert (c / 64 / 64 = c / 4096) by (rewrite Z.div_div by lia; done).
  assert (c / 4096 / 64 = c / 262144) by (rewrite Z.div_div by lia; done).
  destruct (Z.ltb_spec c 128); [|destruct (Z.ltb_spec c 2048); [|destruct (Z.ltb_spec c 65536)]];
    intros [= <-]; simpl; unfold is_cont; decide_between; simpl.
  - done.
  - replace ((192 + c / 64 - 192) * 64 + (128 + c mod 64 - 128)) with c by lia. done.
  - replace ((224 + c / 4096 - 224) * 4096 + (128 + c / 64 mod 64 - 128) * 64 + (128 + c mod 64 - 128))
      with c by lia.
    rewrite (proj2 (Z.leb_le 2048 c)), Hsur by lia. done.
  - replace ((240 + c / 262144 - 240) * 262144 + (128 + c / 4096 mod 64 - 128) * 4096
      + (128 + c / 64 mod 64 - 128) * 64 + (128 + c mod 64 - 128)) with c by lia.
    decide_between. done.
Qed.

Lemma utf8_roundtrip s b : utf8 s = Some b → utf8_decode b = Some s.
Proof.
  revert b. induction s as [|c s IH]; intros b; simpl; [by intros [= <-]|].
  destruct (utf8_char c) as [bc|] eqn:Hc; [|done].
  destruct (utf8 s) as [bs|] eqn:Hs; [|done]. intros [= <-].
  rewrite (utf8_decode_char _ _ _ Hc), (IH bs); done.
Qed.

Lemma utf8_ascii s : forallb is_ascii s = true → utf8 s = Some s.
Proof.
  induction s as [|c s IH]; simpl; [done|]. intros [Hc%between_spec Hs]%andb_true_iff.
  rewrite IH by done. unfold utf8_char, is_scalar, is_surrogate. decide_between. simpl.
  by rewrite (proj2 (Z.ltb_lt c 128)) by lia.
Qed.

Lemma utf8_decode_ascii s : forallb is_ascii s = true → utf8_decode s = Some s.
Proof. intros H. apply utf8_roundtrip. by apply utf8_ascii. Qed.

Lemma utf8_wf s b : utf8 s = Some b → wf_bytes b = true.
Proof.
  unfold wf_bytes. revert b. induction s as [|c s IH]; intros b; simpl; [by intros [= <-]|].
  destruct (utf8_char c) as [bc|] eqn:Hc; [|done].
  destruct (utf8 s) as [bs|]; [|done]. intros [= <-].
  rewrite forallb_app, (IH bs), andb_true_r by done.
  revert Hc. unfold utf8_char, is_scalar. destruct (negb _) eqn:Hs; [done|].
  apply negb_false_iff, andb_true_iff in Hs as [Hr%between_spec _].
  pose proof (Z.mod_pos_bound c 64). pose proof (Z.div_mod c 64).
  pose proof (Z.mod_pos_bound (c / 64) 64). pose proof (Z.div_mod (c / 64) 64).
  pose proof (Z.mod_pos_bound (c / 4096) 64). pose proof (Z.div_mod (c / 4096) 64).
  assert (c / 64 / 64 = c / 4096) by (rewrite Z.div_div by lia; done).
  assert (c / 4096 / 64 = c / 262144) by (rewrite Z.div_div by lia; done).
  destruct (Z.ltb_spec c 128); [|destruct (Z.ltb_spec c 2048); [|destruct (Z.ltb_spec c 65536)]];
    intros [= <-]; simpl; unfold is_byte; decide_between; done.
Qed.

Lemma utf8_Some s : (∃ b, utf8 s = Some b) ↔ forallb is_scalar s = true.
Proof.
  induction s as [|c s IH]; simpl; [split; eauto|].
  rewrite andb_true_iff, <- IH. unfold utf8_char.
  destruct (is_scalar c); simpl; [|split; [by intros []|by intros []]].
  split.
  - intros [b Hb]. split; [done|]. destruct (utf8 s) as [bs|]; [by eauto|].
    by repeat destruct (Z.ltb _ _).
  - intros [_ [bs ->]]. repeat destruct (Z.ltb _ _); eauto.
Qed.

(** ** Decimal integers *)
Fixpoint dec_digits (fuel : nat) (n : Z) : pystr :=
  match fuel with
  | O => []
  | S fuel => (if n <? 10 then [] else dec_digits fuel (n / 10)) ++ [48 + n mod 10]
  end.

(** [str(n)] for a natural number: [Z.log2 n + 1] digits are enough. *)
Definition dec_nat (n : Z) : pystr := dec_digits (S (Z.to_nat (Z.log2 n))) n.
(** [str(n)]. *)
Definition dec (n : Z) : pystr := if n <? 0 then 45 :: dec_nat (- n) else dec_nat n.

Definition dec_value (s : pystr) : Z := foldl (λ acc c, acc * 10 + (c - 48)) 0 s.

Lemma dec_value_snoc s c : dec_value (s ++ [c]) = dec_value s * 10 + (c - 48).
Proof. unfold dec_value. by rewrite foldl_app. Qed.

Lemma dec_digits_value fuel n :
  0 ≤ n < 2 ^ Z.of_nat fuel → dec_value (dec_digits fuel n) = n.
Proof.
  revert n. induction fuel as [|fuel IH]; intros n Hn; cbn [dec_digits].
  - simpl in Hn. unfold dec_value. simpl. lia.
  - rewrite dec_value_snoc. pose proof (Z.mod_pos_bound n 10). pose proof (Z.div_mod n 10).
    destruct (Z.ltb_spec n 10).
    + rewrite (Z.mod_small n 10) by lia. unfold dec_value. simpl. lia.
    + rewrite IH; [lia|]. rewrite Nat2Z.inj_succ, Z.pow_succ_r in Hn by lia. lia.
Qed.

Lemma dec_digits_digits fuel n : 0 ≤ n → forallb is_digit (dec_digits fuel n) = true.
Proof.
  revert n. induction fuel as [|fuel IH]; intros n Hn; cbn [dec_digits]; [done|].
  rewrite forallb_app. apply andb_true_iff. split.
  - destruct (n <? 10); [done|]. apply IH. apply Z.div_pos; lia.
  - simpl. rewrite andb_true_r. apply between_spec. pose proof (Z.mod_pos_bound n 10). lia.
Qed.

Lemma dec_nat_fuel n : 0 ≤ n → n < 2 ^ Z.of_nat (S (Z.to_nat (Z.log2 n))).
Proof.
  intros Hn. rewrite Nat2Z.inj_succ, Z2Nat.id by apply Z.log2_nonneg.
  destruct (Z.eq_dec n 0) as [->|]; [done|]. apply Z.log2_spec. lia.
Qed.

Lemma dec_nat_value n : 0 ≤ n → dec_value (dec_nat n) = n.
Proof. intros Hn. apply dec_digits_value. pose proof (dec_nat_fuel n). lia. Qed.

Lemma dec_nat_digits n : 0 ≤ n → forallb is_digit (dec_nat n) = true.
Proof. apply dec_digits_digits. Qed.

(** The first digit is [0] only for the number zero. *)
Lemma dec_digits_head fuel n c s :
  0 < n < 2 ^ Z.of_nat fuel → dec_digits fuel n = c :: s → c ≠ 48.
Proof.
  revert n s. induction fuel as [|fuel IH]; intros n s Hn; cbn [dec_digits]; [done|].
  destruct (Z.ltb_spec n 10).
  - intros [= <- <-]. rewrite Z.mod_small by lia. lia.
  - rewrite Nat2Z.inj_succ, Z.pow_succ_r in Hn by lia.
    assert (0 < n / 10 < 2 ^ Z.of_nat fuel).
    { split; [apply Z.div_str_pos; lia|]. apply Z.div_lt_upper_bound; lia. }
    destruct (dec_digits fuel (n / 10)) as [|c' s'] eqn:E.
    + apply (f_equal dec_value) in E. rewrite dec_digits_value in E by lia.
      unfold dec_value in E. simpl in E. lia.
    + intros [= <- <-]. by eapply IH.
Qed.

Lemma dec_nat_nonempty n : dec_nat n ≠ [].
Proof. unfold dec_nat. cbn [dec_digits]. by destruct (if n <? 10 then _ else _). Qed.

Lemma dec_nat_cases n :
  0 ≤ n → (n = 0 ∧ dec_nat n = [48]) ∨
          (∃ c s, dec_nat n = c :: s ∧ is_digit c = true ∧ c ≠ 48 ∧ forallb is_digit s = true).
Proof.
  intros Hn. destruct (Z.eq_dec n 0) as [->|Hz]; [by left|]. right.
  destruct (dec_nat n) as [|c s] eqn:E; [by apply dec_nat_nonempty in E|].
  pose proof (dec_nat_digits n Hn) as Hd. rewrite E in Hd. simpl in Hd.
  apply andb_true_iff in Hd as [Hc Hs]. exists c, s. repeat split; try done.
  eapply dec_digits_head; [|exact E]. pose proof (dec_nat_fuel n). lia.
Qed.
