(* ===== verification/PyValue.v ===== *)
(** * Python values that travel as JSON documents

    [None], booleans, integers, floats (kept as the decimal literal they were
    read from), strings, lists and string-keyed dictionaries, with Python's
    equality ([True == 1], dictionaries compared without order), truth value,
    hashability, and the field tests ([set(d) == {...}], [d.get(k)], [d[k]])
    the validators are written with. *)
From S2P Require Import Prelude Dict PyStr PyText.

Unset Elimination Schemes.
Inductive pyval :=
| VNone
| VBool (b : bool)
| VInt (z : Z)
| VFloat (raw : pystr)
| VStr (s : pystr)
| VList (l : list pyval)
| VDict (d : list (pystr * pyval)).
Set Elimination Schemes.

Notation pydict := (list (pystr * pyval)).

Section Induction.
Context (P : pyval → Prop).
Context (Hnone : P VNone) (Hbool : ∀ b, P (VBool b)) (Hint : ∀ z, P (VInt z))
        (Hfloat : ∀ r, P (VFloat r)) (Hstr : ∀ s, P (VStr s))
        (Hlist : ∀ l, Forall P l → P (VList l))
        (Hdict : ∀ d, Forall (λ kv, P kv.2) d → P (VDict d)).

Fixpoint pyval_ind (v : pyval) : P v :=
  match v with
  | VNone => Hnone
  | VBool b => Hbool b
  | VInt z => Hint z
  | VFloat r => Hfloat r
  | VStr s => Hstr s
  | VList l => Hlist l ((fix go l : Forall P l :=
      match l with
      | [] => List.Forall_nil _
      | v :: l => List.Forall_cons _ _ _ (pyval_ind v) (go l)
      end) l)
  | VDict d => Hdict d ((fix go d : Forall (λ kv, P kv.2) d :=
      match d with
      | [] => List.Forall_nil _
      | kv :: d => List.Forall_cons _ _ _ (pyval_ind kv.2) (go d)
      end) d)
  end.
End Induction.

#[global] Instance pyval_eq_dec : EqDecision pyval.
Proof.
  refine (fix go (v w : pyval) {struct v} : Decision (v = w) :=
    match v, w with
    | VNone, VNone => left _
    | VBool a, VBool b => cast_if (decide (a = b))
    | VInt a, VInt b => cast_if (decide (a = b))
    | VFloat a, VFloat b => cast_if (decide (a = b))
    | VStr a, VStr b => cast_if (decide (a = b))
    | VList a, VList b => cast_if (@list_eq_dec _ go a b)
    | VDict a, VDict b => cast_if (@list_eq_dec _ (@prod_eq_dec _ _ _ go) a b)
    | _, _ => right _
    end); clear go; abstract (first [congruence | intros; subst; congruence]).
Defined.

(** ** Floats as decimal literals

    [float_parts raw] is the exact decimal [m * 10^e] the literal denotes;
    [float_finite] decides [math.isfinite(float(raw))]: rounding to binary64
    overflows from [2^1024 - 2^970] on. *)
Definition take_while (p : Z → bool) : pystr → pystr * pystr :=
  fix go s := match s with
  | [] => ([], [])
  | c :: s' => if p c then let '(a, b) := go s' in (c :: a, b) else ([], s)
  end.

Definition float_parts (raw : pystr) : Z * Z :=
  let '(neg, s) := match raw with 45 :: s => (true, s) | _ => (false, raw) end in
  let '(ip, s) := take_while is_digit s in
  let '(fp, s) := match s with 46 :: s => take_while is_digit s | _ => ([], s) end in
  let e := match s with
           | _ :: 45 :: s => - dec_value s
           | _ :: 43 :: s => dec_value s
           | _ :: s => dec_value s
           | [] => 0
           end in
  let m := dec_value (ip ++ fp) in
  ((if neg : bool then - m else m), e - zlen fp).

Definition dec_leb (a b : Z * Z) : bool :=
  let e := Z.min a.2 b.2 in a.1 * 10 ^ (a.2 - e) <=? b.1 * 10 ^ (b.2 - e).
Definition dec_eqb (a b : Z * Z) : bool := dec_leb a b && dec_leb b a.

Definition float_finite (raw : pystr) : bool :=
  let '(m, e) := float_parts raw in
  negb (dec_leb (2 ^ 1024 - 2 ^ 970, 0) (Z.abs m, e)).

(** ** Equality, truth, hashability *)
Definition as_number (v : pyval) : option (Z * Z) :=
  match v with
  | VBool b => Some (Z.b2z b, 0)
  | VInt z => Some (z, 0)
  | VFloat r => Some (float_parts r)
  | _ => None
  end.

Fixpoint py_eqb (v w : pyval) {struct v} : bool :=
  match v, w with
  | VNone, VNone => true
  | VStr a, VStr b => bool_decide (a = b)
  | VList a, VList b =>
      (fix go a b := match a, b with
       | [], [] => true
       | x :: a, y :: b => py_eqb x y && go a b
       | _, _ => false
       end) a b
  | VDict a, VDict b =>
      (length a =? length b)%nat &&
      (fix go a := match a with
       | [] => true
       | kv :: a => match dget b kv.1 with Some y => py_eqb kv.2 y | None => false end && go a
       end) a
  | _, _ =>
      match as_number v, as_number w with
      | Some a, Some b => dec_eqb a b
      | _, _ => false
      end
  end.

Definition truthy (v : pyval) : bool :=
  match v with
  | VNone => false
  | VBool b => b
  | VInt z => negb (z =? 0)
  | VFloat r => negb ((float_parts r).1 =? 0)
  | VStr s => negb (bool_decide (s = []))
  | VList l => negb (bool_decide (l = []))
  | VDict d => negb (bool_decide (d = []))
  end.

Definition hashable (v : pyval) : bool :=
  match v with VList _ | VDict _ => false | _ => true end.

(** [v == "text"]. *)
Definition eq_str (v : pyval) (s : string) : bool :=
  match v with VStr t => bool_decide (t = str s) | _ => false end.
(** [v in ("a", "b")] over a tuple or list of literals. *)
Definition in_strs (v : pyval) (l : list string) : bool := existsb (eq_str v) l.
(** [v in {"a", "b"}] over a set or dictionary: an unhashable value raises. *)
Definition in_set (v : pyval) (l : list string) : result bool :=
  if hashable v then Ok (in_strs v l) else raise TypeError "unhashable type".
(** [s in (...)] for a string. *)
Definition str_in (s : pystr) (l : list string) : bool := existsb (λ t, bool_decide (s = str t)) l.

Definition is_str (v : pyval) : bool := match v with VStr _ => true | _ => false end.
Definition is_list (v : pyval) : bool := match v with VList _ => true | _ => false end.
Definition is_dict (v : pyval) : bool := match v with VDict _ => true | _ => false end.
(** [type(v) is int] and [type(v) is bool]. *)
Definition is_int (v : pyval) : bool := match v with VInt _ => true | _ => false end.
Definition is_bool (v : pyval) : bool := match v with VBool _ => true | _ => false end.
(** [v is True], [v is False], [v is None]. *)
Definition is_true (v : pyval) : bool := match v with VBool true => true | _ => false end.
Definition is_false (v : pyval) : bool := match v with VBool false => true | _ => false end.
Definition is_none (v : pyval) : bool := match v with VNone => true | _ => false end.

(** [type(v) is int and low <= v <= high]. *)
Definition int_between (low : Z) (v : pyval) (high : Z) : bool :=
  match v with VInt z => between low z high | _ => false end.

(** ** Dictionaries with literal field names *)
Definition vget (d : pydict) (k : string) : option pyval := dget d (str k).
(** [d.get(k)] and [d.get(k, default)]. *)
Definition vget_none (d : pydict) (k : string) : pyval := default VNone (vget d k).
Definition vget_or (d : pydict) (k : string) (v : pyval) : pyval := default v (vget d k).
(** [d[k]]. *)
Definition field (d : pydict) (k : string) : result pyval :=
  match vget d k with Some v => Ok v | None => raise KeyError k end.
Definition has_key (d : pydict) (k : string) : bool := dmem d (str k).

(** [set(d) - {names}] is empty. *)
Definition keys_within (d : pydict) (names : list string) : bool :=
  forallb (λ kv, str_in kv.1 names) d.
(** [{names} <= set(d)]. *)
Definition keys_cover (d : pydict) (names : list string) : bool := forallb (has_key d) names.
(** [set(d) == {names}]. *)
Definition keys_exact (d : pydict) (names : list string) : bool :=
  keys_within d names && keys_cover d names.

(** [dict(a=..., b=...)]: a dictionary display with distinct literal names. *)
Definition mkdict (l : list (string * pyval)) : pydict := (λ kv, (str kv.1, kv.2)) <$> l.
Definition vset (d : pydict) (k : string) (v : pyval) : pydict := dset d (str k) v.

(** A value used as a mapping, as a sequence, as text. *)
Definition as_dict (v : pyval) : result pydict :=
  match v with VDict d => Ok d | _ => raise TypeError "not a mapping" end.
Definition as_list (v : pyval) : result (list pyval) :=
  match v with VList l => Ok l | _ => raise TypeError "not a sequence" end.
Definition as_text (v : pyval) : pystr := match v with VStr s => s | _ => [] end.

(** String literals as values. *)
Definition txt (s : string) : pyval := VStr (str s).
Definition txts (l : list string) : pyval := VList (txt <$> l).

Lemma vget_cover d names k : keys_cover d names = true → k ∈ names → is_Some (vget d k).
Proof.
  unfold keys_cover. rewrite forallb_forall. intros H Hk%list_elem_of_In.
  specialize (H _ Hk). unfold has_key, dmem in H. unfold vget. by destruct (dget _ _).
Qed.

Lemma field_Ok d k v : field d k = Ok v ↔ vget d k = Some v.
Proof. unfold field. destruct (vget d k); split; by intros [= ->]. Qed.

Lemma eq_str_spec v s : eq_str v s = true ↔ v = VStr (str s).
Proof.
  destruct v; simpl; try (split; by intros). rewrite bool_decide_eq_true.
  split; [by intros ->|by intros [= ->]].
Qed.

Lemma in_strs_spec v l : in_strs v l = true ↔ ∃ s, s ∈ l ∧ v = VStr (str s).
Proof.
  unfold in_strs. rewrite existsb_exists. setoid_rewrite list_elem_of_In.
  by setoid_rewrite eq_str_spec.
Qed.

Lemma in_set_Ok v l b : in_set v l = Ok b → b = in_strs v l.
Proof. unfold in_set. destruct (hashable v); [by intros [= <-]|done]. Qed.

Lemma int_between_spec low v high :
  int_between low v high = true ↔ ∃ z, v = VInt z ∧ low ≤ z ≤ high.
Proof.
  destruct v; simpl; try (split; [done|by intros (?&?&?)]).
  rewrite between_spec. split; [by eauto|by intros (?&[= ->]&?)].
Qed.

Lemma is_int_spec v : is_int v = true ↔ ∃ z, v = VInt z.
Proof. destruct v; simpl; split; try done; eauto; by intros []. Qed.

Lemma is_str_spec v : is_str v = true ↔ ∃ s, v = VStr s.
Proof. destruct v; simpl; split; try done; eauto; by intros []. Qed.

Lemma is_dict_spec v : is_dict v = true ↔ ∃ d, v = VDict d.
Proof. destruct v; simpl; split; try done; eauto; by intros []. Qed.

Lemma is_list_spec v : is_list v = true ↔ ∃ l, v = VList l.
Proof. destruct v; simpl; split; try done; eauto; by intros []. Qed.

Lemma dec_eqb_refl a : dec_eqb a a = true.
Proof. unfold dec_eqb, dec_leb. by rewrite Z.leb_refl. Qed.

(** Equality is reflexive on values whose dictionaries have distinct keys. *)
Inductive val_wf : pyval → Prop :=
| wf_none : val_wf VNone
| wf_bool b : val_wf (VBool b)
| wf_int z : val_wf (VInt z)
| wf_float r : val_wf (VFloat r)
| wf_str s : val_wf (VStr s)
| wf_list l : Forall val_wf l → val_wf (VList l)
| wf_dict d : dwf d → Forall (λ kv, val_wf kv.2) d → val_wf (VDict d).

Lemma py_eqb_refl v : val_wf v → py_eqb v v = true.
Proof.
  induction v as [| | | | |l IH|d IH] using pyval_ind; intros Hwf; simpl;
    try apply dec_eqb_refl; try done; [by apply bool_decide_true| |].
  - inversion Hwf as [| | | | |? Hl|]; subst. clear Hwf.
    induction IH as [|v l Hv _ IHl]; [done|]. apply Forall_cons in Hl as [? ?].
    by rewrite Hv, IHl.
  - inversion Hwf as [| | | | | |? Hd Hl]; subst. clear Hwf.
    rewrite Nat.eqb_refl. simpl.
    assert (∀ e, (∀ kv, kv ∈ e → kv ∈ d) →
      (fix go a := match a with
       | [] => true
       | kv :: a => match dget d kv.1 with Some y => py_eqb kv.2 y | None => false end && go a
       end) e = true) as H; [|by apply H].
    induction e as [|[k v] e IHe]; intros He; [done|].
    assert ((k, v) ∈ d) as Hin by (apply He; left).
    rewrite (elem_of_dget _ _ _ Hd Hin). rewrite Forall_forall in IH, Hl.
    pose proof (IH _ Hin (Hl _ Hin)) as Hv. simpl in Hv |- *. rewrite Hv. simpl. apply IHe. intros. apply He. by right.
Qed.

(** ** Literal dictionaries *)
#[local] Instance byte_code_inj : Inj (=) (=) (λ b, Z.of_N (Byte.to_N b)).
Proof. intros a b E%N2Z.inj. apply (f_equal Byte.of_N) in E. rewrite !Byte.of_to_N in E. by injection E. Qed.

#[global] Instance str_inj : Inj (=) (=) str.
Proof.
  intros s t H. unfold str in H. apply (list_fmap_eq_inj _ _) in H.
  by rewrite <- (String.string_of_list_byte_of_string s), H, String.string_of_list_byte_of_string.
Qed.

Lemma vget_mkdict l k : vget (mkdict l) k = dget l k.
Proof.
  unfold vget, mkdict. induction l as [|[k' v] l IH]; [done|]. rewrite fmap_cons. cbn [dget fst snd].
  rewrite IH. case_bool_decide as E.
  - apply (inj str) in E as ->. by rewrite bool_decide_true.
  - rewrite bool_decide_false; [done|]. by intros ->.
Qed.

Lemma mkdict_wf l : bool_decide (NoDup l.*1) = true → dwf (mkdict l).
Proof.
  intros H%bool_decide_eq_true. unfold dwf, dkeys, mkdict.
  replace (((λ kv : string * pyval, (str kv.1, kv.2)) <$> l).*1) with (str <$> l.*1)
    by (rewrite <- !list_fmap_compose; done).
  by apply NoDup_fmap_2; [apply _|].
Qed.

(** Setting a new field of a dictionary display. *)
Lemma vset_mkdict l k v : k ∉ l.*1 → vset (mkdict l) k v = mkdict (l ++ [(k, v)]).
Proof.
  intros Hk. unfold vset. rewrite dset_None; [unfold mkdict; by rewrite fmap_app|].
  change (dget (mkdict l) (str k)) with (vget (mkdict l) k). rewrite vget_mkdict. by apply (dget_None l k).
Qed.

(** Reading a field of a dictionary display. *)
Lemma vget_hit l k v : dget l k = Some v → vget_none (mkdict l) k = v.
Proof. unfold vget_none. rewrite vget_mkdict. by intros ->. Qed.

Ltac doc_lookup :=
  repeat match goal with
  | |- context [vget_none (mkdict ?l) ?k] => rewrite (vget_hit l k _ ltac:(reflexivity))
  | H : context [vget_none (mkdict ?l) ?k] |- _ => rewrite (vget_hit l k _ ltac:(reflexivity)) in H
  end.
