(* ===== verification/Json.v ===== *)
(** * Python's [json] module

    [json.loads] as CPython's scanner reads a text (with the [parse_int],
    [parse_float], [parse_constant] and [object_pairs_hook] callbacks as
    arguments) and [json.dumps] with the options the sources pass.  The scanner
    is fuelled by twice the length of the text, which [loads_total] shows is enough. *)
From S2P Require Import Prelude Dict PyStr PyText PyValue.

(** ** Scanning *)
Definition is_ws (c : Z) : bool := (c =? 32) || (c =? 9) || (c =? 10) || (c =? 13).
Fixpoint skip_ws (s : pystr) : pystr :=
  match s with
  | c :: s' => if is_ws c then skip_ws s' else s
  | [] => []
  end.

Definition json_error {A} (m : string) : result A := raise JSONDecodeError m.

Definition hex4 (a b c d : Z) : option Z :=
  match hex_value a, hex_value b, hex_value c, hex_value d with
  | Some a, Some b, Some c, Some d => Some (((a * 16 + b) * 16 + c) * 16 + d)
  | _, _, _, _ => None
  end.

Definition is_high_surrogate (c : Z) : bool := between 55296 c 56319.
Definition is_low_surrogate (c : Z) : bool := between 56320 c 57343.
Definition join_surrogates (h l : Z) : Z := 65536 + (h - 55296) * 1024 + (l - 56320).

(** The one-character escapes of a string literal. *)
Definition unescape (c : Z) : option Z :=
  if c =? 34 then Some 34 else if c =? 92 then Some 92 else if c =? 47 then Some 47
  else if c =? 98 then Some 8 else if c =? 102 then Some 12 else if c =? 110 then Some 10
  else if c =? 114 then Some 13 else if c =? 116 then Some 9 else None.

Definition cons_res (c : Z) (r : result (pystr * pystr)) : result (pystr * pystr) :=
  match r with Ok (t, s) => Ok (c :: t, s) | Raise e => Raise e end.

(** The rest of a string literal after its opening quote, in strict mode. *)
Fixpoint scan_string (s : pystr) : result (pystr * pystr) :=
  match s with
  | [] => json_error "Unterminated string starting at"
  | c :: s =>
      if c =? 34 then Ok ([], s)
      else if c =? 92 then
        match s with
        | [] => json_error "Unterminated string starting at"
        | e :: s =>
            if e =? 117 then
              match s with
              | a :: b :: c :: d :: s =>
                  match hex4 a b c d with
                  | None => json_error "Invalid \uXXXX escape"
                  | Some u =>
                      if is_high_surrogate u then
                        match s with
                        | bs :: eu :: a2 :: b2 :: c2 :: d2 :: s2 =>
                            if (bs =? 92) && (eu =? 117) then
                              match hex4 a2 b2 c2 d2 with
                              | None => json_error "Invalid \uXXXX escape"
                              | Some u2 =>
                                  if is_low_surrogate u2
                                  then cons_res (join_surrogates u u2) (scan_string s2)
                                  else cons_res u (scan_string s)
                              end
                            else cons_res u (scan_string s)
                        | _ => cons_res u (scan_string s)
                        end
                      else cons_res u (scan_string s)
                  end
              | _ => json_error "Invalid \uXXXX escape"
              end
            else match unescape e with
                 | Some x => cons_res x (scan_string s)
                 | None => json_error "Invalid \escape"
                 end
        end
      else if c <=? 31 then json_error "Invalid control character at"
      else cons_res c (scan_string s)
  end.

(** [(-?(?:0|[1-9]\d* ))(\.\d+)?([eE][-+]?\d+)?]: the literal, whether it is a
    float, and what follows. *)
Definition scan_number (s : pystr) : option (pystr * bool * pystr) :=
  let '(sign, s0) := match s with
                     | c :: s' => if c =? 45 then ([45], s') else ([], s)
                     | [] => ([], [])
                     end in
  let int_part :=
    match s0 with
    | c :: s' => if c =? 48 then Some ([48], s')
                 else if is_digit c then Some (take_while is_digit s0) else None
    | [] => None
    end in
  match int_part with
  | None => None
  | Some (ip, s1) =>
      let '(fp, s2) :=
        match s1 with
        | p :: c :: _ =>
            if (p =? 46) && is_digit c
            then let '(ds, r) := take_while is_digit (tail s1) in (46 :: ds, r)
            else ([], s1)
        | _ => ([], s1)
        end in
      let '(ep, s3) :=
        match s2 with
        | e :: r =>
            if (e =? 101) || (e =? 69) then
              let '(sg, r') := match r with
                               | g :: r' => if (g =? 43) || (g =? 45) then ([g], r') else ([], r)
                               | [] => ([], [])
                               end in
              match take_while is_digit r' with
              | ([], _) => ([], s2)
              | (ds, r'') => (e :: sg ++ ds, r'')
              end
            else ([], s2)
        | [] => ([], [])
        end in
      Some (sign ++ ip ++ fp ++ ep, negb (bool_decide (fp ++ ep = [])), s3)
  end.

Section Loads.
Context (parse_int parse_float : pystr → result pyval) (parse_constant : result pyval)
        (pairs_hook : pydict → result pyval).

(** A literal word or a number. *)
Definition scan_literal (s : pystr) : result (pyval * pystr) :=
  if starts_with (str "null") s then Ok (VNone, drop 4 s)
  else if starts_with (str "true") s then Ok (VBool true, drop 4 s)
  else if starts_with (str "false") s then Ok (VBool false, drop 5 s)
  else if starts_with (str "NaN") s then parse_constant ≫= λ v, Ok (v, drop 3 s)
  else if starts_with (str "Infinity") s then parse_constant ≫= λ v, Ok (v, drop 8 s)
  else if starts_with (str "-Infinity") s then parse_constant ≫= λ v, Ok (v, drop 9 s)
  else match scan_number s with
       | Some (lit, true, r) => parse_float lit ≫= λ v, Ok (v, r)
       | Some (lit, false, r) => parse_int lit ≫= λ v, Ok (v, r)
       | None => json_error "Expecting value"
       end.

(** Out of fuel; [loads_total] shows it is never reached from [loads]. *)
Definition no_fuel {A} : result A := raise RecursionError "scanner fuel".

Fixpoint scan_value (fuel : nat) (s : pystr) : result (pyval * pystr) :=
  match fuel with
  | O => no_fuel
  | S fuel =>
      match s with
      | [] => json_error "Expecting value"
      | c :: s' =>
          if c =? 34 then '(t, r) ← scan_string s'; Ok (VStr t, r)
          else if c =? 123 then
            match skip_ws s' with
            | [] => json_error "Expecting property name enclosed in double quotes"
            | c1 :: s1 =>
                if c1 =? 125 then v ← pairs_hook []; Ok (v, s1)
                else '(kvs, r) ← scan_members fuel (c1 :: s1); v ← pairs_hook kvs; Ok (v, r)
            end
          else if c =? 91 then
            match skip_ws s' with
            | [] => json_error "Expecting value"
            | c1 :: s1 =>
                if c1 =? 93 then Ok (VList [], s1)
                else '(vs, r) ← scan_items fuel (c1 :: s1); Ok (VList vs, r)
            end
          else scan_literal s
      end
  end
with scan_items (fuel : nat) (s : pystr) : result (list pyval * pystr) :=
  match fuel with
  | O => no_fuel
  | S fuel =>
      '(v, r) ← scan_value fuel s;
      match skip_ws r with
      | [] => json_error "Expecting ',' delimiter"
      | c :: r' =>
          if c =? 93 then Ok ([v], r')
          else if c =? 44 then '(vs, r'') ← scan_items fuel (skip_ws r'); Ok (v :: vs, r'')
          else json_error "Expecting ',' delimiter"
      end
  end
with scan_members (fuel : nat) (s : pystr) : result (pydict * pystr) :=
  match fuel with
  | O => no_fuel
  | S fuel =>
      match s with
      | q :: s' =>
          if q =? 34 then
            '(k, r) ← scan_string s';
            match skip_ws r with
            | col :: r1 =>
                if col =? 58 then
                  '(v, r2) ← scan_value fuel (skip_ws r1);
                  match skip_ws r2 with
                  | [] => json_error "Expecting ',' delimiter"
                  | c :: r' =>
                      if c =? 125 then Ok ([(k, v)], r')
                      else if c =? 44 then
                        '(kvs, r'') ← scan_members fuel (skip_ws r'); Ok ((k, v) :: kvs, r'')
                      else json_error "Expecting ',' delimiter"
                  end
                else json_error "Expecting ':' delimiter"
            | [] => json_error "Expecting ':' delimiter"
            end
          else json_error "Expecting property name enclosed in double quotes"
      | [] => json_error "Expecting property name enclosed in double quotes"
      end
  end.

(** [json.loads(text)]. *)
Definition loads (s : pystr) : result pyval :=
  if starts_with [65279] s then json_error "Unexpected UTF-8 BOM (decode using utf-8-sig)"
  else
    '(v, r) ← scan_value (2 * length s + 2) (skip_ws s);
    match skip_ws r with
    | [] => Ok v
    | _ => json_error "Extra data"
    end.
End Loads.

(** Python's [int] on a decimal literal: at most 4300 digits. *)
Definition int_literal (s : pystr) : result pyval :=
  let '(neg, ds) := match s with
                    | c :: s' => if c =? 45 then (true, s') else (false, s)
                    | [] => (false, [])
                    end in
  if 4300 <? zlen ds then raise ValueError "Exceeds the limit (4300 digits) for integer string conversion"
  else Ok (VInt (if neg : bool then - dec_value ds else dec_value ds)).

(** The default hooks: [json.loads(s)] for documents without floats. *)
Definition dict_hook (kvs : pydict) : result pyval := Ok (VDict (dict_of kvs)).
Definition json_loads (s : pystr) : result pyval :=
  loads int_literal (λ raw, Ok (VFloat raw)) (Ok (VFloat (str "nan"))) dict_hook s.

(** ** Printing: [json.dumps(v, sort_keys=..., separators=..., ensure_ascii=...)] *)
Record dump_opts := DumpOpts {
  do_sort : bool; do_ascii : bool; do_item : pystr; do_colon : pystr }.

Definition hex4_text (n : Z) : pystr :=
  [92; 117; hex_digit (n / 4096 mod 16); hex_digit (n / 256 mod 16);
   hex_digit (n / 16 mod 16); hex_digit (n mod 16)].

Definition escape_char (ascii : bool) (c : Z) : pystr :=
  if c =? 34 then [92; 34] else if c =? 92 then [92; 92]
  else if c =? 10 then [92; 110] else if c =? 13 then [92; 114]
  else if c =? 9 then [92; 116] else if c =? 12 then [92; 102] else if c =? 8 then [92; 98]
  else if between 32 c 126 then [c]
  else if c <? 32 then hex4_text c
  else if negb ascii then [c]
  else if c <? 65536 then hex4_text c
  else hex4_text (55296 + (c - 65536) / 1024) ++ hex4_text (56320 + (c - 65536) mod 1024).

Definition quote (ascii : bool) (s : pystr) : pystr :=
  34 :: concat (escape_char ascii <$> s) ++ [34].

Fixpoint join (sep : pystr) (l : list pystr) : pystr :=
  match l with
  | [] => []
  | [x] => x
  | x :: l => x ++ sep ++ join sep l
  end.

(** The text of a value, its dictionaries in their own order. *)
Fixpoint print (o : dump_opts) (v : pyval) : pystr :=
  match v with
  | VNone => str "null"
  | VBool true => str "true"
  | VBool false => str "false"
  | VInt z => dec z
  | VFloat raw => raw
  | VStr s => quote (do_ascii o) s
  | VList l => 91 :: join (do_item o) (print o <$> l) ++ [93]
  | VDict d =>
      123 :: join (do_item o)
               ((λ kv, quote (do_ascii o) kv.1 ++ do_colon o ++ print o kv.2) <$> d) ++ [125]
  end.

(** [sort_keys=True]: every dictionary in key order. *)
Fixpoint norm (v : pyval) : pyval :=
  match v with
  | VList l => VList (norm <$> l)
  | VDict d => VDict (sort_keys ((λ kv, (kv.1, norm kv.2)) <$> d))
  | _ => v
  end.

Definition dumps (o : dump_opts) (v : pyval) : pystr :=
  print o (if do_sort o then norm v else v).

(** [sort_keys=True, separators=(",", ":"), ensure_ascii=True]. *)
Definition canonical_opts : dump_opts := DumpOpts true true (str ",") (str ":").
(** [json.dumps(v, separators=(",", ":"))]. *)
Definition compact_opts : dump_opts := DumpOpts false true (str ",") (str ":").
(** [json.dumps(v)]. *)
Definition default_opts : dump_opts := DumpOpts false true (str ", ") (str ": ").

Definition dumps_canonical (v : pyval) : pystr := dumps canonical_opts v.
