(* ===== verification/JsonRound.v ===== *)
(** * The JSON round trip

    [loads (dumps v) = v] up to the order of dictionary keys, for the values
    JSON text can carry: no floats, strings of Unicode scalar values, integers
    within Python's digit limit, dictionaries with distinct keys. *)
From S2P Require Import Prelude Dict PyStr PyText PyValue Json JsonFacts.

Definition int_ok (z : Z) : Prop := zlen (dec_nat (Z.abs z)) ≤ 4300.

Inductive json_ok : pyval → Prop :=
| ok_none : json_ok VNone
| ok_bool b : json_ok (VBool b)
| ok_int z : int_ok z → json_ok (VInt z)
| ok_str s : forallb is_scalar s = true → json_ok (VStr s)
| ok_list l : Forall json_ok l → json_ok (VList l)
| ok_dict d : dwf d → Forall (λ kv, forallb is_scalar kv.1 = true ∧ json_ok kv.2) d →
    json_ok (VDict d).

(** ** Strings *)
Lemma hex4_text_value n :
  0 ≤ n < 65536 →
  hex4 (hex_digit (n / 4096 mod 16)) (hex_digit (n / 256 mod 16))
       (hex_digit (n / 16 mod 16)) (hex_digit (n mod 16)) = Some n.
Proof.
  intros Hn. unfold hex4.
  rewrite !hex_value_digit by (apply Z.mod_pos_bound; lia). f_equal.
  pose proof (Z.div_mod n 16). pose proof (Z.div_mod (n / 16) 16). pose proof (Z.div_mod (n / 256) 16).
  assert (n / 16 / 16 = n / 256) by (by rewrite Z.div_div by lia).
  assert (n / 256 / 16 = n / 4096) by (by rewrite Z.div_div by lia).
  assert (n / 4096 < 16) by (apply Z.div_lt_upper_bound; lia).
  assert (0 ≤ n / 4096) by (apply Z.div_pos; lia).
  rewrite (Z.mod_small (n / 4096) 16) by lia. lia.
Qed.

Lemma scan_string_hex4 n t :
  0 ≤ n < 65536 → is_high_surrogate n = false →
  scan_string (hex4_text n ++ t) = cons_res n (scan_string t).
Proof.
  intros Hn Hs. unfold hex4_text.
  change ([92; 117; ?a; ?b; ?c; ?d] ++ t) with (92 :: 117 :: a :: b :: c :: d :: t).
  cbn [scan_string Z.eqb Pos.eqb]. rewrite hex4_text_value by done. by rewrite Hs.
Qed.

Lemma scan_string_pair h l t :
  is_high_surrogate h = true → is_low_surrogate l = true →
  scan_string (hex4_text h ++ hex4_text l ++ t) = cons_res (join_surrogates h l) (scan_string t).
Proof.
  intros Hh Hl. pose proof (proj1 (between_spec _ _ _) Hh). pose proof (proj1 (between_spec _ _ _) Hl).
  unfold hex4_text.
  change ([92; 117; ?a; ?b; ?c; ?d] ++ [92; 117; ?a'; ?b'; ?c'; ?d'] ++ t)
    with (92 :: 117 :: a :: b :: c :: d :: 92 :: 117 :: a' :: b' :: c' :: d' :: t).
  cbn [scan_string Z.eqb Pos.eqb andb].
  rewrite !hex4_text_value by lia. by rewrite Hh, Hl.
Qed.

(** One escaped character is read back as that character. *)
Lemma scan_string_escape ascii c t :
  is_scalar c = true →
  scan_string (escape_char ascii c ++ t) = cons_res c (scan_string t).
Proof.
  intros Hsc. pose proof Hsc as [Hr%between_spec Hs%negb_true_iff]%andb_true_iff.
  apply between_false in Hs. unfold escape_char.
  destruct (Z.eqb_spec c 34) as [->|]; [done|]. destruct (Z.eqb_spec c 92) as [->|]; [done|].
  destruct (Z.eqb_spec c 10) as [->|]; [done|]. destruct (Z.eqb_spec c 13) as [->|]; [done|].
  destruct (Z.eqb_spec c 9) as [->|]; [done|]. destruct (Z.eqb_spec c 12) as [->|]; [done|].
  destruct (Z.eqb_spec c 8) as [->|]; [done|].
  assert (∀ t, 31 < c → scan_string ([c] ++ t) = cons_res c (scan_string t)) as Hraw.
  { intros t' Hc. simpl. rewrite (proj2 (Z.eqb_neq c 34)), (proj2 (Z.eqb_neq c 92)) by done.
    by rewrite (proj2 (Z.leb_gt c 31)) by lia. }
  assert (∀ t, c < 65536 → scan_string (hex4_text c ++ t) = cons_res c (scan_string t)) as Hu.
  { intros t' Hc. apply scan_string_hex4; [lia|]. apply between_false. lia. }
  destruct (between 32 c 126) eqn:Hp; [apply between_spec in Hp; apply Hraw; lia|].
  apply between_false in Hp. destruct (Z.ltb_spec c 32); [apply Hu; lia|].
  destruct (negb ascii); [apply Hraw; lia|].
  destruct (Z.ltb_spec c 65536); [apply Hu; lia|].
  rewrite <- app_assoc.
  pose proof (Z.mod_pos_bound (c - 65536) 1024). pose proof (Z.div_mod (c - 65536) 1024).
  assert (0 ≤ (c - 65536) / 1024) by (apply Z.div_pos; lia).
  assert ((c - 65536) / 1024 < 1024) by (apply Z.div_lt_upper_bound; lia).
  rewrite scan_string_pair by (apply between_spec; lia).
  unfold join_surrogates. f_equal. lia.
Qed.

Lemma scan_string_quote ascii s t :
  forallb is_scalar s = true →
  scan_string (concat (escape_char ascii <$> s) ++ 34 :: t) = Ok (s, t).
Proof.
  induction s as [|c s IH]; csimpl; [done|]. intros [Hc Hs]%andb_true_iff.
  rewrite <- app_assoc, scan_string_escape by done. by rewrite IH.
Qed.

(** ** Numbers *)
Definition number_stop (rest : pystr) : Prop :=
  match rest with
  | [] => True
  | c :: _ => is_digit c = false ∧ c ≠ 46 ∧ c ≠ 101 ∧ c ≠ 69
  end.

Lemma take_while_stop p s rest :
  forallb p s = true → (match rest with [] => True | c :: _ => p c = false end) →
  take_while p (s ++ rest) = (s, rest).
Proof.
  intros Hs Hr. induction s as [|c s IH]; simpl in *.
  - destruct rest as [|c r]; [done|]. simpl. by rewrite Hr.
  - apply andb_true_iff in Hs as [-> Hs]. by rewrite IH.
Qed.

(** After the integer part nothing is taken from a stopping text. *)
Lemma scan_number_int sign ip rest s0 :
  (sign = [] ∧ (∀ c r, s0 = c :: r → c ≠ 45) ∨ sign = [45]) →
  match s0 with
  | c :: s' => if c =? 48 then Some ([48], s')
               else if is_digit c then Some (take_while is_digit s0) else None
  | [] => None
  end = Some (ip, rest) →
  number_stop rest →
  scan_number (sign ++ s0) = Some (sign ++ ip, false, rest).
Proof.
  intros Hsign Hip Hstop. unfold scan_number.
  replace (match sign ++ s0 with
           | [] => ([], [])
           | c :: s' => if c =? 45 then ([45], s') else ([], sign ++ s0)
           end) with (sign, s0).
  2:{ destruct Hsign as [[-> Hs]| ->]; [|done]. destruct s0 as [|c s']; [done|]. simpl.
      destruct (Z.eqb_spec c 45); [by destruct (Hs c s')|done]. }
  cbv beta iota. rewrite Hip.
  destruct rest as [|c r]; simpl in *; [by rewrite !app_nil_r|].
  destruct Hstop as (Hd & H46 & H101 & H69).
  assert ((c =? 46) = false) as E46 by (by apply Z.eqb_neq).
  assert ((c =? 101) || (c =? 69) = false) as Ee by (by rewrite !(proj2 (Z.eqb_neq c _))).
  destruct r as [|c' r]; rewrite ?E46; simpl; rewrite Ee; simpl; by rewrite !app_nil_r.
Qed.

Lemma int_part_dec n rest :
  0 ≤ n → number_stop rest →
  match dec_nat n ++ rest with
  | c :: s' => if c =? 48 then Some ([48], s')
               else if is_digit c then Some (take_while is_digit (dec_nat n ++ rest)) else None
  | [] => None
  end = Some (dec_nat n, rest).
Proof.
  intros Hn Hstop. destruct (dec_nat_cases n Hn) as [[-> ->]|(c & s & E & Hc & H48 & Hs)]; [done|].
  rewrite E. rewrite <- app_comm_cons.
  rewrite (proj2 (Z.eqb_neq c 48)), Hc by done.
  rewrite app_comm_cons, take_while_stop; [done| |].
  - simpl. by rewrite Hc.
  - destruct rest; [done|]. by destruct Hstop.
Qed.

Lemma dec_nat_no_minus n c r rest : 0 ≤ n → dec_nat n ++ rest = c :: r → c ≠ 45.
Proof.
  intros Hn E. destruct (dec_nat_cases n Hn) as [[-> Hd]|(c' & s & Hd & Hc & _)];
    rewrite Hd in E; injection E as <- <-; [done|].
  apply between_spec in Hc. lia.
Qed.

Lemma scan_number_dec z rest :
  number_stop rest → scan_number (dec z ++ rest) = Some (dec z, false, rest).
Proof.
  intros Hstop. unfold dec. destruct (Z.ltb_spec z 0).
  - change ((45 :: dec_nat (- z)) ++ rest) with ([45] ++ (dec_nat (- z) ++ rest)).
    rewrite (scan_number_int [45] (dec_nat (- z)) rest); [done|by right| |done].
    apply int_part_dec; [lia|done].
  - change (dec_nat z ++ rest) with ([] ++ (dec_nat z ++ rest)).
    rewrite (scan_number_int [] (dec_nat z) rest); [done| | |done].
    + left. split; [done|]. intros c r E. by eapply dec_nat_no_minus.
    + by apply int_part_dec.
Qed.

Lemma int_literal_dec z : int_ok z → int_literal (dec z) = Ok (VInt z).
Proof.
  unfold int_ok, int_literal, dec. intros Hlen.
  assert (∀ n, 0 ≤ n → zlen (dec_nat n) ≤ 4300 →
    (if 4300 <? zlen (dec_nat n) then @raise pyval ValueError
       "Exceeds the limit (4300 digits) for integer string conversion"
     else Ok (VInt (dec_value (dec_nat n)))) = Ok (VInt n)) as Hpos.
  { intros n Hn Hl. by rewrite (proj2 (Z.ltb_ge _ _)), dec_nat_value by lia. }
  destruct (Z.ltb_spec z 0).
  - rewrite Z.abs_neq in Hlen by lia. cbn [Z.eqb Pos.eqb].
    rewrite (proj2 (Z.ltb_ge _ _)) by lia.
    rewrite dec_nat_value by lia. do 2 f_equal. lia.
  - rewrite Z.abs_eq in Hlen by lia. rewrite <- (Hpos z) at 1 by lia.
    destruct (dec_nat z) as [|c r] eqn:E; [by apply dec_nat_nonempty in E|].
    rewrite (proj2 (Z.eqb_neq c 45)); [done|].
    eapply (dec_nat_no_minus z c r []); [done|]. by rewrite app_nil_r.
Qed.

(** The text of an integer is not one of the literal words. *)
Lemma dec_head z : ∃ c r, dec z = c :: r ∧ (c = 45 ∨ is_digit c = true) ∧
  (c = 45 → ∃ c' r', r = c' :: r' ∧ is_digit c' = true).
Proof.
  assert (∀ n, 0 ≤ n → ∃ c r, dec_nat n = c :: r ∧ is_digit c = true) as Hn.
  { intros n Hn. destruct (dec_nat_cases n Hn) as [[-> ->]|(c & s & -> & Hc & _)]; eauto. }
  unfold dec. destruct (Z.ltb_spec z 0).
  - destruct (Hn (- z)) as (c & r & -> & Hc); [lia|]. eexists _, _. split; [done|].
    split; [by left|]. eauto.
  - destruct (Hn z) as (c & r & -> & Hc); [lia|]. eexists _, _. split; [done|].
    split; [by right|]. intros ->. done.
Qed.

(** ** Values *)
Definition opts_ok (o : dump_opts) : Prop :=
  ∃ w1 w2, do_item o = 44 :: w1 ∧ do_colon o = 58 :: w2 ∧
           forallb is_ws w1 = true ∧ forallb is_ws w2 = true.

Lemma skip_ws_app w s : forallb is_ws w = true → skip_ws (w ++ s) = skip_ws s.
Proof. induction w as [|c w IH]; simpl; [done|]. intros [-> ?]%andb_true_iff. auto. Qed.

Lemma skip_ws_stop c s : is_ws c = false → skip_ws (c :: s) = c :: s.
Proof. simpl. by intros ->. Qed.

(** Every printed value starts with a character that is neither white space
    nor a closing bracket. *)
Definition value_head (c : Z) : Prop := is_ws c = false ∧ c ≠ 93 ∧ c < 128.

Lemma is_digit_head c : c = 45 ∨ is_digit c = true → value_head c.
Proof.
  unfold value_head, is_ws. intros [->|H%between_spec]; [done|].
  rewrite !(proj2 (Z.eqb_neq c _)) by lia. repeat split; lia.
Qed.

Lemma print_head o v : json_ok v → ∃ c r, print o v = c :: r ∧ value_head c.
Proof.
  destruct 1 as [|[]|z _|s _|l _|d _ _]; simpl; try (by eexists _, _).
  destruct (dec_head z) as (c & r & -> & Hc & _). eexists _, _. split; [done|].
  by apply is_digit_head.
Qed.

Section Join.
Context {A : Type} (f : A → pystr) (sep : pystr).

Lemma join_fmap_cons x l : l ≠ [] → join sep (f <$> x :: l) = f x ++ sep ++ join sep (f <$> l).
Proof. by destruct l. Qed.

Lemma join_fmap_head x l c r rest :
  f x = c :: r → ∃ r', join sep (f <$> x :: l) ++ rest = c :: r'.
Proof.
  intros E. destruct l as [|y l].
  - change (join sep (f <$> [x])) with (f x). rewrite E. by eexists.
  - rewrite join_fmap_cons, E by done. by eexists.
Qed.
End Join.

Section RoundTrip.
Context (parse_float : pystr → result pyval) (parse_constant : result pyval)
        (pairs_hook : pydict → result pyval) (o : dump_opts).
Context (Hpairs : ∀ kvs, dwf kvs → pairs_hook kvs = Ok (VDict kvs)) (Ho : opts_ok o).
Local Notation scan_value := (scan_value int_literal parse_float parse_constant pairs_hook).
Local Notation scan_items := (scan_items int_literal parse_float parse_constant pairs_hook).
Local Notation scan_members := (scan_members int_literal parse_float parse_constant pairs_hook).

(** What the induction provides for a value. *)
Definition reads (v : pyval) : Prop := ∀ fuel rest,
  (length (print o v) ≤ fuel)%nat → number_stop rest →
  scan_value fuel (print o v ++ rest) = Ok (v, rest).

Lemma scan_literal_dec z rest :
  int_ok z → number_stop rest →
  scan_literal int_literal parse_float parse_constant (dec z ++ rest) = Ok (VInt z, rest).
Proof.
  intros Hz Hr. unfold scan_literal. rewrite scan_number_dec, int_literal_dec by done.
  destruct (dec_head z) as (c & r & -> & Hc & H45).
  assert (∀ p a, head (str p) = Some a → c ≠ a →
                 starts_with (str p) ((c :: r) ++ rest) = false) as Hno.
  { intros p a Hp Ha. unfold starts_with. destruct (str p); [done|]. injection Hp as ->.
    apply bool_decide_false. by intros [= ?]. }
  assert (c ∉ [110; 116; 102; 78; 73]) as Hnot.
  { rewrite !not_elem_of_cons. destruct Hc as [->|Hc%between_spec]; split_and!;
      try lia; apply not_elem_of_nil. }
  rewrite !not_elem_of_cons in Hnot. destruct Hnot as (? & ? & ? & ? & ? & _).
  rewrite (Hno "null" 110), (Hno "true" 116), (Hno "false" 102), (Hno "NaN" 78),
    (Hno "Infinity" 73) by done.
  destruct (starts_with (str "-Infinity") _) eqn:E; [|done]. exfalso.
  unfold starts_with in E. apply bool_decide_eq_true in E. cbn in E. injection E as -> E.
  destruct (H45 eq_refl) as (c' & r' & -> & Hc'). injection E as -> _. done.
Qed.

Lemma scan_items_print l fuel rest :
  l ≠ [] → Forall reads l → Forall json_ok l →
  (S (length (join (do_item o) (print o <$> l))) ≤ fuel)%nat →
  scan_items fuel (join (do_item o) (print o <$> l) ++ 93 :: rest) = Ok (l, rest).
Proof.
  destruct Ho as (w1 & w2 & Hi & _ & Hw1 & _).
  revert fuel. induction l as [|v l IH]; intros fuel Hne Hr Hok Hf; [done|].
  apply Forall_cons in Hr as [Hv Hr]. apply Forall_cons in Hok as [Hvok Hok].
  destruct fuel as [|fuel]; [lia|]. cbn [Json.scan_items].
  destruct l as [|v' l].
  - change (join (do_item o) (print o <$> [v])) with (print o v) in *.
    rewrite Hv; [done|lia|done].
  - rewrite join_fmap_cons, Hi in * by done. rewrite !length_app in Hf. simpl length in Hf at 2.
    rewrite <- !app_assoc. cbn [app]. rewrite Hv; [|lia|done]. cbn [mbind result_bind].
    rewrite (skip_ws_stop 44) by done. cbn [Z.eqb Pos.eqb]. rewrite skip_ws_app by done.
    destruct (print_head o v') as (c & r & Ec & Hc & _); [by apply Forall_cons in Hok as []|].
    destruct (join_fmap_head (print o) (44 :: w1) v' l c r (93 :: rest) Ec) as [r' Ej].
    rewrite Ej, skip_ws_stop by done. rewrite <- Ej.
    rewrite IH; [done|done|done|done|lia].
Qed.

Definition print_member (kv : pystr * pyval) : pystr :=
  quote (do_ascii o) kv.1 ++ do_colon o ++ print o kv.2.

Lemma scan_members_print d fuel rest :
  d ≠ [] → Forall (λ kv, reads kv.2) d →
  Forall (λ kv, forallb is_scalar kv.1 = true ∧ json_ok kv.2) d →
  (S (length (join (do_item o) (print_member <$> d))) ≤ fuel)%nat →
  scan_members fuel (join (do_item o) (print_member <$> d) ++ 125 :: rest) = Ok (d, rest).
Proof.
  destruct Ho as (w1 & w2 & Hi & Hc & Hw1 & Hw2).
  revert fuel. induction d as [|[k v] d IH]; intros fuel Hne Hr Hok Hf; [done|].
  apply Forall_cons in Hr as [Hv Hr]. apply Forall_cons in Hok as [[Hk Hvok] Hok].
  destruct fuel as [|fuel]; [lia|].
  assert (∀ rest', number_stop rest' → (length (print o v) ≤ fuel)%nat →
    scan_members (S fuel) (print_member (k, v) ++ rest') =
    match skip_ws rest' with
    | [] => json_error "Expecting ',' delimiter"
    | c :: r' =>
        if c =? 125 then Ok ([(k, v)], r')
        else if c =? 44 then
          '(kvs, r'') ← scan_members fuel (skip_ws r'); Ok ((k, v) :: kvs, r'')
        else json_error "Expecting ',' delimiter"
    end) as Hstep.
  { intros rest' Hstop Hlen. unfold print_member, quote. simpl.
    rewrite <- !app_assoc. cbn [app]. rewrite scan_string_quote by done. rewrite Hc. cbn.
    rewrite skip_ws_app by done.
    destruct (print_head o v Hvok) as (c & r & Ec & Hcc & _).
    replace (skip_ws (print o v ++ rest')) with (print o v ++ rest')
      by (rewrite Ec; symmetry; by apply skip_ws_stop).
    by rewrite Hv. }
  assert (length (print o v) ≤ length (print_member (k, v)))%nat as Hlen.
  { unfold print_member. simpl. rewrite !length_app. lia. }
  destruct d as [|kv' d].
  - change (join (do_item o) (print_member <$> [(k, v)])) with (print_member (k, v)) in *.
    rewrite Hstep; [done|done|lia].
  - rewrite join_fmap_cons, Hi in * by done. rewrite !length_app in Hf. simpl length in Hf at 2.
    rewrite <- !app_assoc. cbn [app]. rewrite Hstep; [|done|lia]. 
    rewrite (skip_ws_stop 44) by done. cbn [Z.eqb Pos.eqb]. rewrite skip_ws_app by done.
    destruct (join_fmap_head print_member (44 :: w1) kv' d 34 _ (125 :: rest) eq_refl) as [r' Ej].
    rewrite Ej, skip_ws_stop by done. rewrite <- Ej.
    rewrite IH; [done|done|done|done|lia].
Qed.

Lemma scan_value_print v : json_ok v → reads v.
Proof.
  induction v as [|b|z|r|s|l IH|d IH] using pyval_ind; intros Hok fuel rest Hf Hstop;
    (destruct fuel as [|fuel];
     [destruct (print_head o _ Hok) as (? & ? & E & _); rewrite E in Hf; simpl in Hf; lia|]);
    inversion Hok as [|?|? Hz|? Hs|? Hl|? Hd Hl]; subst.
  - done.
  - by destruct b.
  - cbn [Json.scan_value print]. destruct (dec_head z) as (c & r & E & Hc & _).
    pose proof (scan_literal_dec z rest) as Hlit. rewrite E in *. simpl app in *.
    assert (c ≠ 34 ∧ c ≠ 123 ∧ c ≠ 91) as (H1 & H2 & H3)
      by (destruct Hc as [->|Hc%between_spec]; [done|lia]).
    rewrite (proj2 (Z.eqb_neq c 34)), (proj2 (Z.eqb_neq c 123)), (proj2 (Z.eqb_neq c 91)) by done.
    by apply Hlit.
  - simpl. rewrite <- app_assoc. cbn [app]. rewrite scan_string_quote by done. done.
  - cbn [Json.scan_value print app Z.eqb Pos.eqb]. destruct l as [|v l]; [done|].
    rewrite <- app_assoc. cbn [app].
    destruct (print_head o v) as (c & r & Ec & Hc & Hc93 & _); [by inversion Hl|].
    destruct (join_fmap_head (print o) (do_item o) v l c r (93 :: rest) Ec) as [r' Ej].
    rewrite Ej, skip_ws_stop, (proj2 (Z.eqb_neq c 93)) by done. rewrite <- Ej.
    rewrite scan_items_print; [done|done| |done|].
    + apply Forall_forall. intros x Hx. rewrite Forall_forall in IH, Hl. eauto.
    + cbn [print length] in Hf. rewrite length_app in Hf. simpl length in Hf at 2. lia.
  - cbn [Json.scan_value print app Z.eqb Pos.eqb]. destruct d as [|kv d]; [simpl; by rewrite Hpairs|].
    rewrite <- app_assoc. cbn [app].
    destruct (join_fmap_head print_member (do_item o) kv d 34 _ (125 :: rest) eq_refl) as [r' Ej].
    change (λ kv, quote (do_ascii o) kv.1 ++ do_colon o ++ print o kv.2)
      with print_member.
    rewrite Ej, skip_ws_stop by done. cbn [Z.eqb Pos.eqb]. rewrite <- Ej.
    rewrite scan_members_print; [simpl; by rewrite Hpairs|done| |done|].
    + apply Forall_forall. intros x Hx. rewrite Forall_forall in IH, Hl. apply IH; [done|].
      by apply Hl.
    + cbn [print length] in Hf. rewrite length_app in Hf. simpl length in Hf at 2.
      change (λ kv, quote (do_ascii o) kv.1 ++ do_colon o ++ print o kv.2) with print_member in Hf.
      lia.
Qed.

Lemma loads_print v :
  json_ok v → loads int_literal parse_float parse_constant pairs_hook (print o v) = Ok v.
Proof.
  intros Hv. unfold loads. destruct (print_head o v Hv) as (c & r & Ec & Hc).
  destruct Hc as (Hws & _ & H128).
  replace (starts_with [65279] (print o v)) with false.
  2:{ symmetry. rewrite Ec. unfold starts_with. apply bool_decide_false. by intros [= ->]. }
  rewrite Ec at 2. rewrite skip_ws_stop by done. rewrite <- Ec.
  rewrite <- (app_nil_r (print o v)) at 2. rewrite scan_value_print; [done|done| |done]. lia.
Qed.
End RoundTrip.

(** ** Key order *)
Lemma insert_key_fmap {V W} (f : V → W) kv (d : list (pystr * V)) :
  insert_key (kv.1, f kv.2) ((λ kv, (kv.1, f kv.2)) <$> d)
  = (λ kv, (kv.1, f kv.2)) <$> insert_key kv d.
Proof.
  induction d as [|kv' d IH]; [done|]. simpl. destruct (str_leb kv.1 kv'.1); [done|].
  simpl. f_equal. apply IH.
Qed.

Lemma sort_keys_fmap {V W} (f : V → W) (d : list (pystr * V)) :
  sort_keys ((λ kv, (kv.1, f kv.2)) <$> d) = (λ kv, (kv.1, f kv.2)) <$> sort_keys d.
Proof.
  induction d as [|kv d IH]; [done|].
  change (insert_key (kv.1, f kv.2) (sort_keys ((λ kv, (kv.1, f kv.2)) <$> d))
          = (λ kv, (kv.1, f kv.2)) <$> insert_key kv (sort_keys d)).
  rewrite IH. apply insert_key_fmap.
Qed.

Lemma dkeys_fmap_snd {V W} (f : V → W) (d : list (pystr * V)) :
  dkeys ((λ kv, (kv.1, f kv.2)) <$> d) = dkeys d.
Proof. unfold dkeys. rewrite <- list_fmap_compose. by apply list_fmap_ext. Qed.

Lemma dwf_sort_keys {V} (d : list (pystr * V)) : dwf d → dwf (sort_keys d).
Proof. unfold dwf, dkeys. by rewrite sort_keys_perm. Qed.

Lemma dwf_norm (f : pyval → pyval) (d : pydict) :
  dwf d → dwf (sort_keys ((λ kv, (kv.1, f kv.2)) <$> d)).
Proof. intros H. apply dwf_sort_keys. unfold dwf. by rewrite dkeys_fmap_snd. Qed.

Lemma norm_ok v : json_ok v → json_ok (norm v).
Proof.
  induction v as [| | | | |l IH|d IH] using pyval_ind; inversion 1 as [| | | |? Hl|? Hd Hl]; subst;
    cbn [norm]; [by constructor..| |].
  - constructor. apply Forall_fmap. rewrite Forall_forall in *. unfold compose. eauto.
  - constructor; [by apply dwf_norm|].
    rewrite sort_keys_perm, Forall_fmap. unfold compose. simpl.
    rewrite Forall_forall in *. intros kv Hkv. destruct (Hl _ Hkv). eauto.
Qed.

Lemma norm_idem v : norm (norm v) = norm v.
Proof.
  induction v as [| | | | |l IH|d IH] using pyval_ind; try done; cbn [norm]; f_equal.
  - rewrite <- list_fmap_compose. apply list_fmap_ext. intros i x Hx.
    rewrite Forall_forall in IH. apply IH. by eapply list_elem_of_lookup_2.
  - rewrite (sort_keys_fmap norm (sort_keys _)), sort_keys_idem.
    rewrite sort_keys_fmap, <- list_fmap_compose.
    apply list_fmap_ext. intros i kv Hkv. unfold compose. simpl. f_equal.
    rewrite Forall_forall in IH. apply IH. rewrite <- sort_keys_perm.
    by eapply list_elem_of_lookup_2.
Qed.

Lemma dict_of_id {V} (d : list (pystr * V)) : dwf d → dict_of d = d.
Proof.
  unfold dict_of. assert (∀ e, dwf (e ++ d) →
    foldl (λ d kv, dset d kv.1 kv.2) e d = e ++ d) as H; [|intros Hd; by apply (H [])].
  induction d as [|[k v] d IH]; intros e He; simpl; [by rewrite app_nil_r|].
  assert (dget e k = None) as Hk.
  { apply dget_None. unfold dwf, dkeys in He. rewrite fmap_app, fmap_cons in He. simpl in He.
    apply NoDup_app in He as (_ & Hn & _). intros Hin. apply (Hn _ Hin). left. }
  rewrite dset_None by done. rewrite IH; rewrite <- app_assoc; done.
Qed.

(** The normal form is equal to the value, in Python's sense. *)
Lemma dget_sort_keys {V} (d : list (pystr * V)) k : dwf d → dget (sort_keys d) k = dget d k.
Proof.
  intros Hd. destruct (dget d k) as [v|] eqn:E.
  - apply elem_of_dget; [by apply dwf_sort_keys|]. rewrite sort_keys_perm. by apply dget_elem_of.
  - apply dget_None. apply dget_None in E. unfold dkeys. by rewrite sort_keys_perm.
Qed.

Lemma dget_fmap_snd {V W} (f : V → W) (d : list (pystr * V)) k :
  dget ((λ kv, (kv.1, f kv.2)) <$> d) k = f <$> dget d k.
Proof.
  induction d as [|[k' v'] d IH]; [done|]. csimpl. by case_bool_decide.
Qed.

Lemma norm_py_eq v : json_ok v → py_eqb v (norm v) = true.
Proof.
  induction v as [| | | | |l IH|d IH] using pyval_ind; inversion 1 as [| | | |? Hl|? Hd Hl]; subst;
    cbn [norm]; try apply dec_eqb_refl; try (by apply bool_decide_true); try done.
  - simpl. induction IH as [|x l Hx _ IHl]; [done|]. apply Forall_cons in Hl as [? Hl].
    simpl. rewrite Hx by done. apply IHl; [by constructor|done].
  - cbn [py_eqb]. rewrite sort_keys_perm at 1. rewrite length_fmap, Nat.eqb_refl. simpl.
    assert (∀ e, (∀ kv, kv ∈ e → kv ∈ d) →
      (fix go a := match a with
       | [] => true
       | kv :: a => match dget (sort_keys ((λ kv, (kv.1, norm kv.2)) <$> d)) kv.1 with
                    | Some y => py_eqb kv.2 y | None => false end && go a
       end) e = true) as He; [|by apply He].
    induction e as [|[k v] e IHe]; intros He; [done|].
    assert ((k, v) ∈ d) as Hin by (apply He; left).
    rewrite dget_sort_keys, dget_fmap_snd, (elem_of_dget _ _ _ Hd Hin)
      by (unfold dwf; by rewrite dkeys_fmap_snd). simpl.
    rewrite Forall_forall in IH, Hl. pose proof (IH _ Hin) as IHv. simpl in IHv.
    rewrite IHv by (by apply (Hl _ Hin)). apply IHe. intros. apply He. by right.
Qed.

(** ** [ensure_ascii=True] prints ASCII *)
Lemma hex4_text_ascii n : forallb is_ascii (hex4_text n) = true.
Proof.
  assert (∀ m, is_ascii (hex_digit (m mod 16)) = true) as H.
  { intros m. pose proof (hex_digit_lower (m mod 16) (Z.mod_pos_bound m 16 ltac:(lia))) as Hx.
    unfold is_hex_lower in Hx. apply orb_true_iff in Hx as [Hx|Hx]; apply between_spec in Hx;
      apply between_spec; lia. }
  unfold hex4_text. simpl. by rewrite !H.
Qed.

Lemma escape_char_ascii c : forallb is_ascii (escape_char true c) = true.
Proof.
  unfold escape_char. do 7 (destruct (Z.eqb c _); [done|]).
  destruct (between 32 c 126) eqn:E.
  { apply between_spec in E. simpl. rewrite andb_true_r. apply between_spec. lia. }
  destruct (c <? 32); [apply hex4_text_ascii|].
  cbn [negb]. destruct (c <? 65536); [apply hex4_text_ascii|].
  by rewrite forallb_app, !hex4_text_ascii.
Qed.

Lemma quote_ascii s : forallb is_ascii (quote true s) = true.
Proof.
  unfold quote. simpl. rewrite forallb_app. simpl. rewrite andb_true_r.
  induction s as [|c s IH]; [done|]. csimpl. by rewrite forallb_app, escape_char_ascii.
Qed.

Lemma dec_ascii z : forallb is_ascii (dec z) = true.
Proof.
  assert (∀ n, 0 ≤ n → forallb is_ascii (dec_nat n) = true) as H.
  { intros n Hn. apply forallb_forall. intros c Hc.
    pose proof (proj1 (forallb_forall _ _) (dec_nat_digits n Hn) c Hc) as Hd.
    apply between_spec in Hd. apply between_spec. lia. }
  unfold dec. destruct (Z.ltb_spec z 0); [|by apply H]. simpl. rewrite H by lia. done.
Qed.

Lemma join_ascii sep l :
  forallb is_ascii sep = true → Forall (λ x, forallb is_ascii x = true) l →
  forallb is_ascii (join sep l) = true.
Proof.
  intros Hs. induction 1 as [|x l Hx Hl IH]; [done|].
  destruct l as [|y l]; [done|].
  change (join sep (x :: y :: l)) with (x ++ sep ++ join sep (y :: l)). by rewrite !forallb_app, Hx, Hs, IH.
Qed.

Lemma print_ascii o v :
  do_ascii o = true → forallb is_ascii (do_item o) = true → forallb is_ascii (do_colon o) = true →
  json_ok v → forallb is_ascii (print o v) = true.
Proof.
  intros Ha Hi Hc. induction v as [|[]| | | |l IH|d IH] using pyval_ind;
    inversion 1 as [| | | |? Hl|? Hd Hl]; subst; try done.
  - apply dec_ascii.
  - cbn [print]. rewrite Ha. apply quote_ascii.
  - cbn [print forallb]. rewrite forallb_app. cbn [forallb]. rewrite !andb_true_r.
    change (is_ascii 91) with true. change (is_ascii 123) with true. cbn [andb].
    apply join_ascii; [done|]. apply Forall_fmap. rewrite Forall_forall in *. unfold compose. eauto.
  - cbn [print forallb]. rewrite forallb_app. cbn [forallb]. rewrite !andb_true_r.
    change (is_ascii 91) with true. change (is_ascii 123) with true. cbn [andb].
    apply join_ascii; [done|]. apply Forall_fmap. rewrite Forall_forall in *. unfold compose.
    intros kv Hkv. destruct (Hl _ Hkv). cbn beta.
    rewrite !forallb_app, Ha, quote_ascii, Hc. simpl. eauto.
Qed.

Lemma dumps_canonical_ascii v : json_ok v → forallb is_ascii (dumps_canonical v) = true.
Proof.
  intros Hv. unfold dumps_canonical, dumps. simpl. apply print_ascii; try done. by apply norm_ok.
Qed.

Lemma canonical_opts_ok : opts_ok canonical_opts.
Proof. by exists [], []. Qed.
Lemma compact_opts_ok : opts_ok compact_opts.
Proof. by exists [], []. Qed.
Lemma default_opts_ok : opts_ok default_opts.
Proof. by exists [32], [32]. Qed.

(** [json.loads(json.dumps(v))] for each option record. *)
Lemma json_loads_dumps o v :
  opts_ok o → json_ok v → json_loads (dumps o v) = Ok (if do_sort o then norm v else v).
Proof.
  intros Ho Hv. unfold json_loads, dumps. apply loads_print; [|done|].
  - intros kvs Hk. unfold dict_hook. by rewrite dict_of_id.
  - destruct (do_sort o); [by apply norm_ok|done].
Qed.
