(* ===== verification/JsonDocs.v ===== *)
(** * Documents up to the order of their fields

    Lookup, key sets and field removal on the sorted form that
    [json.dumps(sort_keys=True)] writes, and the documents JSON can carry. *)
From S2P Require Import Prelude Dict PyStr PyText PyValue Json JsonRound.

(** ** Sorting by distinct keys is insensitive to order *)
Section SortUnique.
Context {V : Type}.
Implicit Types (d : list (pystr * V)).

Lemma insert_key_comm (a b : pystr * V) d :
  a.1 ≠ b.1 → insert_key a (insert_key b d) = insert_key b (insert_key a d).
Proof.
  intros Hne.
  assert (∀ x y : pystr, x ≠ y → str_leb x y = true → str_leb y x = false) as Hanti.
  { intros x y Hxy H1. destruct (str_leb y x) eqn:H2; [|done]. destruct Hxy. by apply str_leb_antisym. }
  assert (∀ x y, str_leb x y = false → str_leb y x = true) as Htot.
  { intros x y Hf. destruct (str_leb_total x y); congruence. }
  induction d as [|c d IH]; simpl.
  - destruct (str_leb a.1 b.1) eqn:E; [by rewrite (Hanti _ _ Hne E)|by rewrite (Htot _ _ E)].
  - destruct (str_leb b.1 c.1) eqn:Ebc, (str_leb a.1 c.1) eqn:Eac; simpl; rewrite ?Ebc, ?Eac.
    + destruct (str_leb a.1 b.1) eqn:Eab; [by rewrite (Hanti _ _ Hne Eab)|by rewrite (Htot _ _ Eab)].
    + destruct (str_leb a.1 b.1) eqn:Eab; [|done].
      by rewrite (str_leb_trans _ _ _ Eab Ebc) in Eac.
    + destruct (str_leb b.1 a.1) eqn:Eba; [|done].
      by rewrite (str_leb_trans _ _ _ Eba Eac) in Ebc.
    + by rewrite IH.
Qed.

Lemma sort_keys_unique d d' : dwf d → d ≡ₚ d' → sort_keys d = sort_keys d'.
Proof.
  intros Hwf Hp. induction Hp as [|x d d' _ IH|x y d|d1 d2 d3 H1 IH1 H2 IH2]; simpl; [done| | |].
  - rewrite IH; [done|]. unfold dwf, dkeys in *. simpl in Hwf. by apply NoDup_cons in Hwf as [_ ?].
  - apply insert_key_comm. unfold dwf, dkeys in Hwf. simpl in Hwf. apply NoDup_cons in Hwf as [Hn _].
    intros E. apply Hn. rewrite E. left.
  - rewrite IH1 by done. apply IH2. unfold dwf, dkeys in *. by rewrite <- H1.
Qed.
End SortUnique.

Definition nfields (d : pydict) : pydict := (λ kv, (kv.1, norm kv.2)) <$> d.

Lemma norm_dict d : norm (VDict d) = VDict (sort_keys (nfields d)).
Proof. done. Qed.

Lemma dwf_nfields d : dwf d → dwf (nfields d).
Proof. unfold dwf, nfields. by rewrite dkeys_fmap_snd. Qed.

(** Equal up to order of fields means equal once normalised. *)
Lemma norm_perm d d' : dwf d → d ≡ₚ d' → norm (VDict d) = norm (VDict d').
Proof.
  intros Hwf Hp. rewrite !norm_dict. f_equal. apply sort_keys_unique; [by apply dwf_nfields|].
  unfold nfields. by rewrite Hp.
Qed.

Lemma nfields_idem d : nfields (nfields d) = nfields d.
Proof.
  unfold nfields. rewrite <- list_fmap_compose. apply list_fmap_ext. intros i [k v] _. simpl.
  by rewrite norm_idem.
Qed.

Lemma ddel_perm {V} (d d' : list (pystr * V)) k : d ≡ₚ d' → ddel d k ≡ₚ ddel d' k.
Proof.
  induction 1 as [|[x v] d d' _ IH|[x v] [y w] d|d1 d2 d3 _ IH1 _ IH2]; simpl; [done| | |by etrans].
  - case_bool_decide; [done|]. by rewrite IH.
  - repeat case_bool_decide; try done. apply Permutation_swap.
Qed.

Lemma ddel_nfields d k : ddel (nfields d) k = nfields (ddel d k).
Proof.
  unfold nfields. induction d as [|[x v] d IH]; [done|]. rewrite fmap_cons. cbn [ddel fst snd].
  case_bool_decide; [done|]. rewrite fmap_cons. by f_equal.
Qed.

(** Removing a field from the read-back form of a document gives the
    read-back form of the document without the field. *)
Lemma norm_ddel d k : dwf d →
  norm (VDict (ddel (sort_keys (nfields d)) k)) = norm (VDict (ddel d k)).
Proof.
  intros Hwf. rewrite (norm_perm _ (nfields (ddel d k))).
  - rewrite !norm_dict, nfields_idem. done.
  - apply dwf_ddel. apply dwf_sort_keys, dwf_nfields, Hwf.
  - rewrite <- ddel_nfields. apply ddel_perm, sort_keys_perm.
Qed.


(** ** Documents under [norm] *)
Lemma vget_norm d k : dwf d →
  vget_none (sort_keys ((λ kv, (kv.1, norm kv.2)) <$> d)) k = norm (vget_none d k).
Proof.
  intros Hd. unfold vget_none, vget. rewrite dget_sort_keys by (unfold dwf; by rewrite dkeys_fmap_snd).
  rewrite dget_fmap_snd. by destruct (dget d (str k)).
Qed.

Lemma keys_within_perm (d d' : pydict) names :
  dkeys d ≡ₚ dkeys d' → keys_within d names = true → keys_within d' names = true.
Proof.
  unfold keys_within. intros Hp. rewrite !forallb_forall. intros H1 kv Hkv. apply list_elem_of_In in Hkv.
  assert (kv.1 ∈ dkeys d) as Hin by (rewrite Hp; by apply list_elem_of_fmap_2).
  apply list_elem_of_fmap in Hin as (kv' & E & Hkv'). apply list_elem_of_In in Hkv'.
  rewrite E. by apply H1.
Qed.

Lemma keys_cover_perm (d d' : pydict) names :
  dkeys d ≡ₚ dkeys d' → keys_cover d names = true → keys_cover d' names = true.
Proof.
  unfold keys_cover, has_key, dmem. intros Hp. rewrite !forallb_forall. intros H2 k Hk.
  specialize (H2 k Hk). destruct (dget d' (str k)) eqn:E; [done|].
  apply dget_None in E. rewrite <- Hp in E. apply dget_None in E. by rewrite E in H2.
Qed.

Lemma keys_exact_perm (d d' : pydict) names :
  dkeys d ≡ₚ dkeys d' → keys_exact d names = true → keys_exact d' names = true.
Proof.
  unfold keys_exact. intros Hp [H1 H2]%andb_true_iff. apply andb_true_iff.
  split; [by eapply keys_within_perm|by eapply keys_cover_perm].
Qed.

Lemma keys_norm (d : pydict) : dkeys d ≡ₚ dkeys (sort_keys ((λ kv, (kv.1, norm kv.2)) <$> d)).
Proof. unfold dkeys. rewrite sort_keys_perm. by rewrite <- list_fmap_compose. Qed.

Lemma keys_exact_norm (d : pydict) names : keys_exact d names = true →
  keys_exact (sort_keys ((λ kv, (kv.1, norm kv.2)) <$> d)) names = true.
Proof. apply keys_exact_perm, keys_norm. Qed.


Lemma json_ok_dget d k v : json_ok (VDict d) → dget d k = Some v → json_ok v ∧ forallb is_scalar k = true.
Proof.
  inversion 1 as [| | | | |? Hwf Hf]; subst. intros Hk%dget_elem_of. rewrite Forall_forall in Hf.
  by destruct (Hf _ Hk).
Qed.

Lemma json_ok_vget d k : json_ok (VDict d) → json_ok (vget_none d k).
Proof.
  intros Hd. unfold vget_none, vget. destruct (dget d (str k)) eqn:E; [|constructor].
  by eapply json_ok_dget.
Qed.


Lemma scalar_str s : forallb is_scalar (str s) = true.
Proof.
  apply forallb_forall. intros c Hc. unfold str in Hc.
  apply list_elem_of_In, list_elem_of_fmap in Hc as (b & -> & _).
  pose proof (Byte.to_N_bounded b). unfold is_scalar, is_surrogate, between. lia.
Qed.

Lemma json_ok_lit s : json_ok (VStr (str s)).
Proof. constructor. apply scalar_str. Qed.

Lemma json_ok_mkdict l :
  bool_decide (NoDup l.*1) = true → Forall (λ kv, json_ok kv.2) l → json_ok (VDict (mkdict l)).
Proof.
  intros Hn Hl. constructor; [by apply mkdict_wf|]. unfold mkdict. apply Forall_fmap.
  eapply Forall_impl; [done|]. intros [k v] Hv. simpl. split; [apply scalar_str|done].
Qed.


Lemma json_ok_wf v : json_ok v → val_wf v.
Proof.
  induction v as [| | | | |l IH|d IH] using pyval_ind; intros H; try constructor; inversion H; subst.
  - rewrite Forall_forall in *. auto.
  - done.
  - rewrite Forall_forall in *. intros kv Hkv. apply IH; [done|]. by apply H2.
Qed.


(** ** A decision procedure for [json_ok] on concrete documents *)
Fixpoint json_okb (v : pyval) : bool :=
  match v with
  | VNone | VBool _ => true
  | VInt z => zlen (dec_nat (Z.abs z)) <=? 4300
  | VFloat _ => false
  | VStr s => forallb is_scalar s
  | VList l => forallb json_okb l
  | VDict d => bool_decide (NoDup d.*1) && forallb (λ kv, forallb is_scalar kv.1 && json_okb kv.2) d
  end.

Lemma json_okb_ok v : json_okb v = true → json_ok v.
Proof.
  induction v as [| | | | |l IH|d IH] using pyval_ind; simpl; intros Hv; try (by constructor); try done.
  - constructor. unfold int_ok. lia.
  - constructor.
    rewrite Forall_forall in IH |- *. intros x Hx. apply IH; [done|].
    rewrite forallb_forall in Hv. apply Hv. by apply list_elem_of_In.
  - apply andb_true_iff in Hv as [Hn Hv]. constructor; [by apply bool_decide_eq_true in Hn|].
    rewrite forallb_forall in Hv. rewrite Forall_forall in IH |- *. intros x Hx.
    specialize (Hv x ltac:(by apply list_elem_of_In)). apply andb_true_iff in Hv as [Hs Hv].
    split; [done|by apply IH].
Qed.

(** ** Read-back documents *)
Lemma vget_readback d k : dwf d → vget_none (sort_keys (nfields d)) k = norm (vget_none d k).
Proof. apply vget_norm. Qed.

Lemma keys_exact_readback d names : keys_exact d names = true → keys_exact (sort_keys (nfields d)) names = true.
Proof. apply keys_exact_norm. Qed.

Lemma ddel_mkdict_snoc l k v :
  bool_decide (NoDup (l ++ [(k, v)]).*1) = true → ddel (mkdict (l ++ [(k, v)])) (str k) = mkdict l.
Proof.
  intros H%bool_decide_eq_true. rewrite fmap_app in H. apply NoDup_app in H as (_ & Hd & _).
  assert (k ∉ l.*1) as Hk by (intros Hin; apply (Hd k Hin); left).
  unfold mkdict. clear Hd. induction l as [|[k' v'] l IH].
  - simpl. by rewrite bool_decide_true.
  - rewrite fmap_cons, not_elem_of_cons in Hk. destruct Hk as [Hne Hk].
    rewrite <- app_comm_cons, !fmap_cons. cbn [ddel fst snd].
    rewrite bool_decide_false by (by intros ?%(inj str)). by rewrite IH.
Qed.

Lemma keys_readback (d : pydict) : dkeys d ≡ₚ dkeys (sort_keys (nfields d)).
Proof. apply keys_norm. Qed.

Lemma dumps_norm v : dumps_canonical (norm v) = dumps_canonical v.
Proof. unfold dumps_canonical, dumps. cbn [do_sort canonical_opts]. by rewrite norm_idem. Qed.

Lemma dumps_canonical_dict d : ∃ r, dumps_canonical (VDict d) = 123 :: r.
Proof. unfold dumps_canonical, dumps. cbn [do_sort canonical_opts norm print]. by eexists. Qed.

Create Rewrite HintDb readback.
(** The field tests see no difference between a document and its read-back. *)
Lemma keys_within_readback (d : pydict) names : keys_within (sort_keys (nfields d)) names = keys_within d names.
Proof.
  apply eq_iff_eq_true. split; apply keys_within_perm; [symmetry|]; apply keys_readback.
Qed.
Lemma keys_cover_readback (d : pydict) names : keys_cover (sort_keys (nfields d)) names = keys_cover d names.
Proof.
  apply eq_iff_eq_true. split; apply keys_cover_perm; [symmetry|]; apply keys_readback.
Qed.
Lemma has_key_read (d : pydict) k : has_key (sort_keys (nfields d)) k = has_key d k.
Proof. pose proof (keys_cover_readback d [k]) as H. unfold keys_cover in H. simpl in H. by rewrite !andb_true_r in H. Qed.
Lemma vget_or_readback d k v : dwf d → norm v = v → vget_or (sort_keys (nfields d)) k v = norm (vget_or d k v).
Proof.
  intros Hd Hv. pose proof (vget_readback d k Hd) as Hr. pose proof (has_key_read d k) as Hk.
  unfold vget_or, vget_none, vget, has_key, dmem in *.
  destruct (dget (sort_keys (nfields d)) (str k)), (dget d (str k)); simpl in *; try done; by rewrite ?Hr, ?Hv.
Qed.
Lemma eq_str_norm v s : eq_str (norm v) s = eq_str v s.
Proof. by destruct v. Qed.
Lemma in_set_norm v l : in_set (norm v) l = in_set v l.
Proof. unfold in_set. by destruct v. Qed.
Lemma as_text_norm v : as_text (norm v) = as_text v.
Proof. by destruct v. Qed.
Lemma is_none_norm v : is_none (norm v) = is_none v.
Proof. by destruct v. Qed.
Lemma truthy_norm v : truthy (norm v) = truthy v.
Proof.
  destruct v as [| | | | |l|d]; try done; simpl; f_equal; apply bool_decide_ext; split.
  - by destruct l.
  - by intros ->.
  - intros E. apply (f_equal length) in E. rewrite (Permutation_length (sort_keys_perm _)), length_fmap in E. by destruct d.
  - by intros ->.
Qed.
Lemma in_strs_norm v l : in_strs (norm v) l = in_strs v l.
Proof. unfold in_strs. induction l as [|s l IH]; [done|]. simpl. by rewrite IH, eq_str_norm. Qed.
Lemma int_between_norm lo v hi : int_between lo (norm v) hi = int_between lo v hi.
Proof. by destruct v. Qed.
Lemma is_dict_norm v : is_dict (norm v) = is_dict v.
Proof. by destruct v. Qed.
Lemma is_list_norm v : is_list (norm v) = is_list v.
Proof. by destruct v. Qed.

Lemma val_wf_vget d k : val_wf (VDict d) → val_wf (vget_none d k).
Proof.
  inversion 1 as [| | | | | |? Hd Hf]; subst. unfold vget_none, vget. destruct (dget d (str k)) as [v|] eqn:E; [|constructor].
  apply dget_elem_of in E. rewrite Forall_forall in Hf. by apply (Hf _ E).
Qed.

#[export] Hint Rewrite in_strs_norm int_between_norm is_dict_norm is_list_norm : readback.
#[export] Hint Rewrite keys_within_readback keys_cover_readback has_key_read eq_str_norm in_set_norm as_text_norm is_none_norm truthy_norm
  : readback.
