(* ===== verification/StrictJson.v ===== *)
(** * The bounded JSON reader of [Deployment/service_storage.py]

    [strict_json] is the single entry point through which every Shadow6
    component reads a document.  Unicode normalisation ([unicodedata.normalize
    ('NFC', s)]) is table-driven and enters as the function [nfc]. *)
From S2P Require Import Prelude Dict PyStr PyText PyValue Json JsonFacts JsonRound.

Definition LIMIT : Z := 1048576.
Definition STRING_LIMIT : Z := 65536.
Definition MAX_SAFE : Z := 2 ^ 53 - 1.

(** The argument of the reader: a [str] or a [bytes]. *)
Inductive json_input := JText (s : pystr) | JBytes (b : bytes).

Section StrictJson.
Context (nfc : pystr → pystr).

(** The depth scan that runs before [json.loads] allocates containers. *)
Fixpoint depth_scan (depth : Z) (quoted escaped : bool) (s : pystr) : result unit :=
  match s with
  | [] => Ok tt
  | c :: s =>
      if quoted then
        if escaped then depth_scan depth true false s
        else if c =? 92 then depth_scan depth true true s
        else if c =? 34 then depth_scan depth false false s
        else depth_scan depth true false s
      else if c =? 34 then depth_scan depth true escaped s
      else if (c =? 91) || (c =? 123) then
        if 17 <? depth + 1 then raise ValueError "JSON nesting limit"
        else depth_scan (depth + 1) false escaped s
      else if (c =? 93) || (c =? 125) then depth_scan (depth - 1) false escaped s
      else depth_scan depth false escaped s
  end.

(** [pairs]: the [object_pairs_hook] that refuses duplicate fields. *)
Definition pairs (items : pydict) : result pyval :=
  d ← fold_res (λ result kv,
         _ ← raise_if (dmem result kv.1) ValueError "duplicate JSON field";
         Ok (dset result kv.1 kv.2)) [] items;
  Ok (VDict d).

Definition reject : result pyval := raise ValueError "noninteger JSON number".

Definition measurement (raw : pystr) : result pyval :=
  if float_finite raw then Ok (VFloat raw) else raise ValueError "nonfinite JSON measurement".

Definition measurement_integer (raw : pystr) : result pyval :=
  v ← int_literal raw;
  match v with
  | VInt z => if between (2 ^ 53) z (2 ^ 64 - 1) then Ok (VStr (dec z)) else Ok (VInt z)
  | _ => Ok v
  end.

(** The string test of [bounded]. *)
Definition bounded_str (string_limit : Z) (s : pystr) : result unit :=
  match utf8 s with
  | None => raise UnicodeError "surrogates not allowed"
  | Some b =>
      raise_if ((string_limit <? zlen b) || bool_decide (0 ∈ s) || negb (bool_decide (nfc s = s)))
        ValueError "JSON string limit"
  end.

Fixpoint bounded (string_limit : Z) (depth : Z) (v : pyval) {struct v} : result unit :=
  _ ← raise_if (16 <? depth) ValueError "JSON nesting limit";
  match v with
  | VInt z => raise_if (negb (between (- MAX_SAFE) z MAX_SAFE)) ValueError "JSON integer limit"
  | VStr s => bounded_str string_limit s
  | VDict d =>
      (fix go (d : pydict) : result unit :=
         match d with
         | [] => Ok tt
         | kv :: d =>
             _ ← raise_if (16 <? depth + 1) ValueError "JSON nesting limit";
             _ ← bounded_str string_limit kv.1;
             _ ← bounded string_limit (depth + 1) kv.2;
             go d
         end) d
  | VList l =>
      (fix go (l : list pyval) : result unit :=
         match l with
         | [] => Ok tt
         | x :: l => _ ← bounded string_limit (depth + 1) x; go l
         end) l
  | _ => Ok tt
  end.

Definition strict_json_full (limit string_limit : Z)
    (allow_measurement_floats uint64_measurements_as_strings : bool)
    (data : json_input) : result pyval :=
  _ ← raise_if (limit <? 1) ValueError "invalid JSON input limit";
  _ ← raise_if (negb (between 1 string_limit (16 * 1024 * 1024))) ValueError "invalid JSON string limit";
  _ ← raise_if (uint64_measurements_as_strings && negb allow_measurement_floats) ValueError
        "uint64 string conversion requires explicit measurement policy";
  size ← match data with
         | JText s => match utf8 s with
                      | Some b => Ok (zlen b)
                      | None => raise ValueError "invalid bounded JSON"
                      end
         | JBytes b => Ok (zlen b)
         end;
  _ ← raise_if (limit <? size) ValueError "JSON input size limit";
  text ← match data with
         | JText s => Ok s
         | JBytes b => match utf8_decode b with
                       | Some s => Ok s
                       | None => raise ValueError "JSON must be UTF-8"
                       end
         end;
  _ ← depth_scan 0 false false text;
  reraise [RecursionError; UnicodeError] ValueError "invalid bounded JSON"
    (value ← loads (if uint64_measurements_as_strings then measurement_integer else int_literal)
               (if allow_measurement_floats then measurement else λ _, reject) reject pairs text;
     _ ← bounded string_limit 0 value;
     Ok value).

(** The call without the measurement flags. *)
Definition strict_json (limit string_limit : Z) (data : json_input) : result pyval :=
  strict_json_full limit string_limit false false data.

(** ** What a successfully read document is *)
Definition str_portable (string_limit : Z) (s : pystr) : Prop :=
  (∃ b, utf8 s = Some b ∧ zlen b ≤ string_limit) ∧ 0 ∉ s ∧ nfc s = s.

Inductive portable (string_limit : Z) : Z → pyval → Prop :=
| port_none d : d ≤ 16 → portable string_limit d VNone
| port_bool d b : d ≤ 16 → portable string_limit d (VBool b)
| port_int d z : d ≤ 16 → - MAX_SAFE ≤ z ≤ MAX_SAFE → portable string_limit d (VInt z)
| port_str d s : d ≤ 16 → str_portable string_limit s → portable string_limit d (VStr s)
| port_list d l : d ≤ 16 → Forall (portable string_limit (d + 1)) l → portable string_limit d (VList l)
| port_dict d kvs : d ≤ 16 → dwf kvs → (kvs ≠ [] → d + 1 ≤ 16) →
    Forall (λ kv, str_portable string_limit kv.1 ∧ portable string_limit (d + 1) kv.2) kvs →
    portable string_limit d (VDict kvs).

Lemma bounded_str_Ok sl s : bounded_str sl s = Ok tt ↔ str_portable sl s.
Proof.
  unfold bounded_str, str_portable. split.
  - destruct (utf8 s) as [b|] eqn:E; [|done]. intros H. inv_ok. bool_simpl. eauto.
  - intros ((b & -> & Hb) & H0 & Hn).
    rewrite (proj2 (Z.ltb_ge _ _) Hb), (bool_decide_false _ H0), (bool_decide_true _ Hn). done.
Qed.

(** No float: what [parse_float=reject] guarantees. *)
Inductive no_float : pyval → Prop :=
| nf_none : no_float VNone
| nf_bool b : no_float (VBool b)
| nf_int z : no_float (VInt z)
| nf_str s : no_float (VStr s)
| nf_list l : Forall no_float l → no_float (VList l)
| nf_dict d : dwf d → Forall (λ kv, no_float kv.2) d → no_float (VDict d).

Lemma bounded_dict_Ok sl depth d :
  bounded sl depth (VDict d) = Ok tt ↔
  depth ≤ 16 ∧ Forall (λ kv, depth + 1 ≤ 16 ∧ bounded_str sl kv.1 = Ok tt ∧
                             bounded sl (depth + 1) kv.2 = Ok tt) d.
Proof.
  cbn [bounded]. split.
  - intros H. apply bind_Ok_inv in H as ([] & Hd & H). apply raise_if_Ok in Hd. bool_simpl.
    split; [done|]. induction d as [|kv d IH]; [constructor|]. inv_ok. bool_simpl.
    constructor; [done|by apply IH].
  - intros [Hd H]. rewrite (proj2 (Z.ltb_ge _ _) Hd). simpl.
    destruct (Z.ltb_spec 16 (depth + 1)); [by destruct H as [|? ? (? & _)]; [|lia]|].
    induction H as [|kv d (H1 & H2 & H3) _ IH]; [done|].
    simpl. rewrite H2. simpl. rewrite H3. exact IH.
Qed.

Lemma bounded_list_Ok sl depth l :
  bounded sl depth (VList l) = Ok tt ↔
  depth ≤ 16 ∧ Forall (λ x, bounded sl (depth + 1) x = Ok tt) l.
Proof.
  cbn [bounded]. split.
  - intros H. apply bind_Ok_inv in H as ([] & Hd & H). apply raise_if_Ok in Hd. bool_simpl.
    split; [done|]. induction l as [|x l IH]; [constructor|]. inv_ok.
    constructor; [done|by apply IH].
  - intros [Hd H]. rewrite (proj2 (Z.ltb_ge _ _) Hd). simpl.
    induction H as [|x l Hx _ IH]; [done|]. rewrite Hx. exact IH.
Qed.

Lemma bounded_portable sl v depth :
  no_float v → bounded sl depth v = Ok tt ↔ portable sl depth v.
Proof.
  revert depth. induction v as [|b|z|r|s|l IH|d IH] using pyval_ind; intros depth Hnf;
    inversion Hnf as [| | | |? Hl|? Hd Hl]; subst.
  1-2: cbn [bounded]; split; [intros H; inv_ok; bool_simpl; by constructor|];
       inversion 1; subst; by rewrite (proj2 (Z.ltb_ge _ _)).
  - cbn [bounded]. split.
    + intros H. inv_ok. bool_simpl. constructor; [done|]. by apply between_spec.
    + inversion 1 as [| |? ? Hd Hz| | |]; subst. rewrite (proj2 (Z.ltb_ge _ _) Hd). simpl.
      by rewrite (proj2 (between_spec _ _ _) Hz).
  - cbn [bounded]. split.
    + intros H. inv_ok. bool_simpl. constructor; [done|]. by apply bounded_str_Ok.
    + inversion 1 as [| | |? ? Hd Hs| |]; subst. rewrite (proj2 (Z.ltb_ge _ _) Hd). simpl.
      by apply bounded_str_Ok.
  - rewrite bounded_list_Ok. split.
    + intros [Hd H]. constructor; [done|]. rewrite Forall_forall in *. intros x Hx.
      apply IH; eauto.
    + inversion 1 as [| | | |? ? Hd H'|]; subst. split; [done|]. rewrite Forall_forall in *.
      intros x Hx. apply IH; eauto.
  - rewrite bounded_dict_Ok. split.
    + intros [Hdep H]. constructor; [done|done| |].
      * intros Hne. destruct d; [done|]. by apply Forall_cons in H as [[? _] _].
      * rewrite Forall_forall in *. intros kv Hkv. destruct (H _ Hkv) as (H1 & H2 & H3).
        split; [by apply bounded_str_Ok|]. by apply IH; [|apply Hl|].
    + inversion 1 as [| | | | |? ? Hdep Hwf Hne H']; subst. split; [done|].
      rewrite Forall_forall in *. intros kv Hkv. destruct (H' _ Hkv) as [H1 H2].
      split; [apply Hne; by intros ->; apply not_elem_of_nil in Hkv|].
      split; [by apply bounded_str_Ok|]. by apply IH; [|apply Hl|].
Qed.

(** ** The duplicate-refusing hook *)
Lemma pairs_Ok items v : pairs items = Ok v ↔ dwf items ∧ v = VDict items.
Proof.
  unfold pairs.
  assert (∀ d items : pydict, dwf d →
    (∀ r, fold_res (λ result kv,
         _ ← raise_if (dmem result kv.1) ValueError "duplicate JSON field";
         Ok (dset result kv.1 kv.2)) d items = Ok r ↔ dwf (d ++ items) ∧ r = d ++ items)) as H.
  { clear items v. intros d items. revert d. induction items as [|[k v] items IH]; intros d Hd r; simpl.
    - rewrite app_nil_r. split; [by intros [= <-]|by intros [_ ->]].
    - unfold dmem. destruct (dget d k) as [w|] eqn:E; simpl.
      + split; [done|]. intros [Hw _]. exfalso. unfold dwf, dkeys in Hw.
        rewrite fmap_app in Hw. apply NoDup_app in Hw as (_ & Hn & _).
        apply (Hn k); [by eapply dget_Some_key|left].
      + rewrite IH by auto with shadow6. rewrite dset_None, <- app_assoc by done. done. }
  split.
  - intros (d & Hd & [= <-])%bind_Ok_inv. apply H in Hd as [Hw ->]; [done|apply dwf_nil].
  - intros [Hw ->].
    assert (fold_res (λ result kv,
         _ ← raise_if (dmem result kv.1) ValueError "duplicate JSON field";
         Ok (dset result kv.1 kv.2)) [] items = Ok items) as -> by (apply H; [apply dwf_nil|done]).
    done.
Qed.

(** ** Soundness: whatever the scanner returns satisfies a predicate that the
    callbacks and the container constructors preserve. *)
Section ScanInv.
Context (parse_int parse_float : pystr → result pyval) (parse_constant : result pyval)
        (pairs_hook : pydict → result pyval) (Q : pyval → Prop).
Context (Qint : ∀ s v, parse_int s = Ok v → Q v) (Qfloat : ∀ s v, parse_float s = Ok v → Q v)
        (Qconst : ∀ v, parse_constant = Ok v → Q v) (Qnone : Q VNone) (Qbool : ∀ b, Q (VBool b))
        (Qstr : ∀ s, Q (VStr s)) (Qlist : ∀ l, Forall Q l → Q (VList l))
        (Qpairs : ∀ kvs v, Forall (λ kv, Q kv.2) kvs → pairs_hook kvs = Ok v → Q v).

Lemma scan_literal_inv s v r :
  scan_literal parse_int parse_float parse_constant s = Ok (v, r) → Q v.
Proof.
  unfold scan_literal. repeat destruct (starts_with _ _); try (by intros [= <- <-]).
  1-3: intros H; inv_ok; simplify_eq; eauto.
  destruct (scan_number s) as [[[lit []] ?]|]; [..|done]; intros H; inv_ok; simplify_eq; eauto.
Qed.

Lemma scan_inv fuel :
  (∀ s v r, scan_value parse_int parse_float parse_constant pairs_hook fuel s = Ok (v, r) → Q v) ∧
  (∀ s l r, scan_items parse_int parse_float parse_constant pairs_hook fuel s = Ok (l, r) → Forall Q l) ∧
  (∀ s d r, scan_members parse_int parse_float parse_constant pairs_hook fuel s = Ok (d, r) →
    Forall (λ kv, Q kv.2) d).
Proof.
  induction fuel as [|fuel (IHv & IHi & IHm)]; [done|]. split_and!; intros s x r.
  - cbn [scan_value]. destruct s as [|c s]; [done|].
    destruct (c =? 34); [intros H; inv_ok; destruct v; by simplify_eq|].
    destruct (c =? 123).
    { destruct (skip_ws s) as [|c1 s1]; [done|]. destruct (c1 =? 125).
      - intros H. inv_ok. simplify_eq. eapply Qpairs; [|done]. constructor.
      - intros H. inv_ok. destruct v as [kvs r']. inv_ok. simplify_eq. eauto. }
    destruct (c =? 91); [|by apply scan_literal_inv].
    destruct (skip_ws s) as [|c1 s1]; [done|]. destruct (c1 =? 93).
    + intros [= <- <-]. by apply Qlist.
    + intros H. inv_ok. destruct v. simplify_eq/=. eauto.
  - cbn [scan_items]. intros H. apply bind_Ok_inv in H as ([v r1] & Hv & H).
    apply IHv in Hv. destruct (skip_ws r1) as [|c r2]; [done|].
    destruct (c =? 93); [simplify_eq; by repeat constructor|].
    destruct (c =? 44); [|done]. apply bind_Ok_inv in H as ([vs r3] & Hvs & H).
    simplify_eq. constructor; eauto.
  - cbn [scan_members]. destruct s as [|q s]; [done|]. destruct (q =? 34); [|done].
    intros H. apply bind_Ok_inv in H as ([k r1] & _ & H).
    destruct (skip_ws r1) as [|col r2]; [done|]. destruct (col =? 58); [|done].
    apply bind_Ok_inv in H as ([v r3] & Hv & H). apply IHv in Hv.
    destruct (skip_ws r3) as [|c r4]; [done|].
    destruct (c =? 125); [simplify_eq; by repeat constructor|].
    destruct (c =? 44); [|done]. apply bind_Ok_inv in H as ([kvs r5] & Hvs & H).
    simplify_eq. constructor; eauto.
Qed.

Lemma loads_inv s v : loads parse_int parse_float parse_constant pairs_hook s = Ok v → Q v.
Proof.
  unfold loads. destruct (starts_with _ _); [done|]. intros H.
  apply bind_Ok_inv in H as ([w r] & Hw & H). apply scan_inv in Hw.
  by destruct (skip_ws r); simplify_eq.
Qed.
End ScanInv.

Lemma int_literal_no_float s v : int_literal s = Ok v → no_float v.
Proof.
  unfold int_literal. destruct (match s with [] => _ | _ => _ end) as [neg ds].
  destruct (4300 <? zlen ds); [done|]. intros [= <-]. constructor.
Qed.

Lemma loads_no_float s v :
  loads int_literal (λ _, reject) reject pairs s = Ok v → no_float v.
Proof.
  apply loads_inv; try done; try (by constructor).
  - intros s' v'. apply int_literal_no_float.
  - intros kvs v' Hf [Hd ->]%pairs_Ok. by constructor.
Qed.

(** Every document the reader returns is portable. *)
Lemma strict_json_portable limit sl data v :
  strict_json limit sl data = Ok v → portable sl 0 v ∧ no_float v.
Proof.
  unfold strict_json, strict_json_full. intros H.
  repeat (let a := fresh in let H1 := fresh "Hs" in apply bind_Ok_inv in H as (a & H1 & H)).
  apply reraise_Ok in H. apply bind_Ok_inv in H as (w & Hw & H).
  apply bind_Ok_inv in H as ([] & Hb & H). injection H as ->.
  apply loads_no_float in Hw. by split; [apply bounded_portable|].
Qed.

(** ** Completeness: the reader accepts what the printer writes *)
Lemma length_dec_digits fuel n : (length (dec_digits fuel n) ≤ fuel)%nat.
Proof.
  revert n. induction fuel as [|fuel IH]; intros n; cbn [dec_digits]; [done|].
  rewrite length_app. simpl. destruct (n <? 10); simpl; [lia|]. specialize (IH (n / 10)). lia.
Qed.

Lemma safe_int_ok z : - MAX_SAFE ≤ z ≤ MAX_SAFE → int_ok z.
Proof.
  unfold int_ok, MAX_SAFE, zlen, dec_nat. intros Hz.
  pose proof (length_dec_digits (S (Z.to_nat (Z.log2 (Z.abs z)))) (Z.abs z)).
  assert (Z.log2 (Z.abs z) ≤ 53) by (apply Z.log2_lt_cancel || idtac;
    transitivity (Z.log2 (2 ^ 53)); [apply Z.log2_le_mono; lia|by rewrite Z.log2_pow2]).
  pose proof (Z.log2_nonneg (Z.abs z)). lia.
Qed.

Lemma str_portable_scalar sl s : str_portable sl s → forallb is_scalar s = true.
Proof. intros ((b & Hb & _) & _). apply utf8_Some. eauto. Qed.

Lemma portable_json_ok sl d v : portable sl d v → json_ok v.
Proof.
  revert d. induction v as [| | | | |l IH|kvs IH] using pyval_ind; intros d; inversion 1; subst;
    try by constructor.
  - constructor. by apply safe_int_ok.
  - constructor. by eapply str_portable_scalar.
  - constructor. rewrite Forall_forall in *. eauto.
  - constructor; [done|]. rewrite Forall_forall in *. intros kv Hkv.
    match goal with Hf : ∀ x, _ → str_portable _ _ ∧ _ |- _ => destruct (Hf _ Hkv) as [Hk Hv] end.
    split; [by eapply str_portable_scalar|eauto].
Qed.

Lemma portable_no_float sl d v : portable sl d v → no_float v.
Proof.
  revert d. induction v as [| | | | |l IH|kvs IH] using pyval_ind; intros d; inversion 1; subst;
    try by constructor.
  - constructor. rewrite Forall_forall in *. eauto.
  - constructor; [done|]. rewrite Forall_forall in *. intros kv Hkv. naive_solver.
Qed.

Lemma norm_portable sl d v : portable sl d v → portable sl d (norm v).
Proof.
  revert d. induction v as [| | | | |l IH|kvs IH] using pyval_ind; intros d;
    inversion 1 as [| | | |? ? Hd Hl|? ? Hd Hwf Hne Hl]; subst; cbn [norm]; try by constructor.
  - constructor; [done|]. apply Forall_fmap. rewrite Forall_forall in *. unfold compose. eauto.
  - constructor; [done|by apply dwf_norm| |].
    + intros Hn. apply Hne. by intros ->.
    + rewrite sort_keys_perm, Forall_fmap. unfold compose. simpl.
      rewrite Forall_forall in *. intros kv Hkv. destruct (Hl _ Hkv). eauto.
Qed.

(** Reading a printed string literal leaves the depth scan outside quotes. *)
Definition scan_past (p : pystr) : Prop := ∀ depth rest,
  depth_scan depth true false (p ++ rest) = depth_scan depth true false rest.

Lemma depth_scan_plain c : c ≠ 92 → c ≠ 34 → scan_past [c].
Proof.
  intros H1 H2 depth rest. simpl.
  by rewrite (proj2 (Z.eqb_neq c 92)), (proj2 (Z.eqb_neq c 34)).
Qed.

Lemma scan_past_app p q : scan_past p → scan_past q → scan_past (p ++ q).
Proof. intros Hp Hq depth rest. rewrite <- app_assoc. by rewrite Hp, Hq. Qed.

Lemma hex_digit_plain m : hex_digit (m mod 16) ≠ 92 ∧ hex_digit (m mod 16) ≠ 34.
Proof.
  pose proof (Z.mod_pos_bound m 16 ltac:(lia)). unfold hex_digit.
  destruct (m mod 16 <? 10) eqn:E; bool_simpl; lia.
Qed.

Lemma scan_past_hex4 n : scan_past (hex4_text n).
Proof.
  intros depth rest. unfold hex4_text.
  destruct (hex_digit_plain (n / 4096)), (hex_digit_plain (n / 256)),
    (hex_digit_plain (n / 16)), (hex_digit_plain n).
  change ([92; 117; ?a; ?b; ?c; ?d] ++ rest) with (92 :: 117 :: ([a] ++ [b] ++ [c] ++ [d] ++ rest)).
  cbn [depth_scan]. cbn [Z.eqb Pos.eqb]. by rewrite !depth_scan_plain.
Qed.

Lemma scan_past_escape c : scan_past (escape_char true c).
Proof.
  unfold escape_char.
  do 7 (match goal with |- context [Z.eqb c ?n] => destruct (Z.eqb_spec c n) as [->|?] end;
        [by intros depth rest|]).
  destruct (between 32 c 126); [by apply depth_scan_plain|].
  destruct (c <? 32); [apply scan_past_hex4|]. cbn [negb].
  destruct (c <? 65536); [apply scan_past_hex4|].
  apply scan_past_app; apply scan_past_hex4.
Qed.

Lemma depth_scan_quote depth s rest :
  depth_scan depth false false (quote true s ++ rest) = depth_scan depth false false rest.
Proof.
  unfold quote. cbn [app depth_scan]. cbn [Z.eqb Pos.eqb]. rewrite <- app_assoc.
  assert (scan_past (concat (escape_char true <$> s))) as Hp.
  { induction s as [|c s IH]; [by intros depth' rest'|]. csimpl.
    apply scan_past_app; [apply scan_past_escape|done]. }
  by rewrite Hp.
Qed.

Definition plain_char (c : Z) : bool :=
  negb ((c =? 34) || (c =? 91) || (c =? 123) || (c =? 93) || (c =? 125)).

Lemma depth_scan_plain_text depth s rest :
  forallb plain_char s = true →
  depth_scan depth false false (s ++ rest) = depth_scan depth false false rest.
Proof.
  induction s as [|c s IH]; [done|]. cbn [forallb app depth_scan]. unfold plain_char at 1.
  intros [Hc Hs]%andb_true_iff. apply negb_true_iff, orb_false_iff in Hc as [Hc H125].
  apply orb_false_iff in Hc as [Hc H93]. apply orb_false_iff in Hc as [Hc H123].
  apply orb_false_iff in Hc as [H34 H91]. rewrite H34, H91, H123, H93, H125. by apply IH.
Qed.

Lemma dec_plain z : forallb plain_char (dec z) = true.
Proof.
  assert (∀ c, is_digit c = true → plain_char c = true) as Hd.
  { intros c H%between_spec. unfold plain_char. by rewrite !(proj2 (Z.eqb_neq c _)) by lia. }
  assert (∀ n, 0 ≤ n → forallb plain_char (dec_nat n) = true) as Hn.
  { intros n Hn. apply forallb_forall. intros c Hc. apply Hd.
    by apply (proj1 (forallb_forall _ _) (dec_nat_digits n Hn)). }
  unfold dec. destruct (Z.ltb_spec z 0); [|by apply Hn]. simpl. apply Hn. lia.
Qed.

(** Printing options whose separators the depth scan ignores. *)
Definition opts_plain (o : dump_opts) : Prop :=
  do_ascii o = true ∧ forallb plain_char (do_item o) = true ∧ forallb plain_char (do_colon o) = true.

Lemma depth_scan_join {A} (f : A → pystr) sep depth l rest :
  forallb plain_char sep = true →
  Forall (λ x, ∀ rest, depth_scan depth false false (f x ++ rest) = depth_scan depth false false rest) l →
  depth_scan depth false false (join sep (f <$> l) ++ rest) = depth_scan depth false false rest.
Proof.
  intros Hsep. induction 1 as [|x l Hx Hl IH]; [done|]. destruct l as [|y l]; [by apply Hx|].
  rewrite join_fmap_cons by done. rewrite <- !app_assoc, Hx, depth_scan_plain_text by done.
  apply IH.
Qed.

(** The depth scan passes a printed portable value and is back where it was. *)
Lemma depth_scan_print sl o v depth rest :
  opts_plain o → portable sl depth v →
  depth_scan depth false false (print o v ++ rest) = depth_scan depth false false rest.
Proof.
  intros (Ha & Hi & Hc). revert depth rest.
  induction v as [|[]|z|r|s|l IH|kvs IH] using pyval_ind; intros depth rest;
    inversion 1 as [| | | |? ? Hd Hl|? ? Hd Hwf Hne Hl]; subst; cbn [print].
  1-3: by rewrite depth_scan_plain_text.
  - by rewrite depth_scan_plain_text by apply dec_plain.
  - rewrite Ha. apply depth_scan_quote.
  - cbn [app depth_scan]. cbn [Z.eqb Pos.eqb orb]. rewrite (proj2 (Z.ltb_ge 17 _)) by lia.
    rewrite <- app_assoc, depth_scan_join; [|done|].
    + cbn [app depth_scan]. cbn [Z.eqb Pos.eqb orb]. f_equal. lia.
    + rewrite Forall_forall in *. eauto.
  - cbn [app depth_scan]. cbn [Z.eqb Pos.eqb orb]. rewrite (proj2 (Z.ltb_ge 17 _)) by lia.
    rewrite <- app_assoc, depth_scan_join; [|done|].
    + cbn [app depth_scan]. cbn [Z.eqb Pos.eqb orb]. f_equal. lia.
    + rewrite Forall_forall in *. intros kv Hkv rest'. destruct (Hl _ Hkv).
      rewrite <- !app_assoc, Ha, depth_scan_quote, depth_scan_plain_text by done. eauto.
Qed.

Lemma opts_plain_ascii o :
  opts_ok o → opts_plain o → forallb is_ascii (do_item o) = true ∧ forallb is_ascii (do_colon o) = true.
Proof.
  intros (w1 & w2 & -> & -> & H1 & H2) _. simpl.
  assert (∀ w, forallb is_ws w = true → forallb is_ascii w = true) as Hw; [|by rewrite !Hw].
  induction w as [|c w IH]; [done|]. simpl. intros [Hc ?]%andb_true_iff. rewrite IH by done.
  unfold is_ws in Hc. rewrite !orb_true_iff, !Z.eqb_eq in Hc. rewrite andb_true_r.
  apply between_spec. lia.
Qed.

(** Reading what was printed: the round trip through the bounded reader. *)
Lemma strict_json_print limit sl o v :
  1 ≤ limit → 1 ≤ sl ≤ 16 * 1024 * 1024 → opts_ok o → opts_plain o →
  portable sl 0 v → zlen (print o v) ≤ limit →
  strict_json limit sl (JBytes (print o v)) = Ok v.
Proof.
  intros Hlim Hsl Ho Hp Hv Hlen. unfold strict_json, strict_json_full.
  rewrite (proj2 (Z.ltb_ge limit 1)), (proj2 (between_spec 1 sl _)) by lia. cbn [andb negb raise_if mbind result_bind].
  rewrite (proj2 (Z.ltb_ge limit _)) by lia. cbn [raise_if mbind result_bind].
  destruct (opts_plain_ascii o Ho Hp) as [Hi Hc].
  pose proof (portable_json_ok _ _ _ Hv) as Hok.
  assert (forallb is_ascii (print o v) = true) as Hasc by (destruct Hp; by apply print_ascii).
  rewrite utf8_decode_ascii by done. cbn [mbind result_bind].
  pose proof (depth_scan_print sl o v 0 [] Hp Hv) as Hds. rewrite app_nil_r in Hds. rewrite Hds.
  cbn [depth_scan mbind result_bind].
  rewrite loads_print; [|by intros kvs Hk; apply pairs_Ok|done|done]. cbn [mbind result_bind].
  apply bounded_portable in Hv; [|by eapply portable_no_float]. by rewrite Hv.
Qed.

Lemma strict_json_dumps limit sl o v :
  1 ≤ limit → 1 ≤ sl ≤ 16 * 1024 * 1024 → opts_ok o → opts_plain o →
  portable sl 0 v → zlen (dumps o v) ≤ limit →
  strict_json limit sl (JBytes (dumps o v)) = Ok (if do_sort o then norm v else v).
Proof.
  intros. unfold dumps in *. apply strict_json_print; try done.
  destruct (do_sort o); [by apply norm_portable|done].
Qed.

(** The same document read from text instead of bytes. *)
Lemma strict_json_text limit sl s :
  forallb is_ascii s = true →
  strict_json limit sl (JText s) = strict_json limit sl (JBytes s).
Proof.
  intros Hs. unfold strict_json, strict_json_full.
  by rewrite (utf8_ascii s Hs), (utf8_decode_ascii s Hs).
Qed.

(** Every exception of the reader is a [ValueError]. *)
Lemma depth_scan_error depth q e s x : depth_scan depth q e s = Raise x → exn_cls x = ValueError.
Proof.
  revert depth q e. induction s as [|c s IH]; intros depth q e; [done|]. cbn [depth_scan].
  repeat match goal with |- context [if ?b then _ else _] => destruct b end; eauto.
  by intros [= <-].
Qed.

(** What the bounded reader makes of printed text. *)
Lemma strict_json_of_print limit sl v w :
  json_ok v → strict_json limit sl (JBytes (dumps_canonical v)) = Ok w →
  w = norm v ∧ portable sl 0 (norm v) ∧ zlen (dumps_canonical v) ≤ limit.
Proof.
  intros Hj H. pose proof (strict_json_portable _ _ _ _ H) as [Hp _].
  enough (w = norm v ∧ zlen (dumps_canonical v) ≤ limit) as [-> ?] by done.
  unfold strict_json, strict_json_full in H. inv_ok. subst.
  rewrite utf8_decode_ascii in Hv4 by (by apply dumps_canonical_ascii). injection Hv4 as <-.
  unfold dumps_canonical, dumps in Hv6. cbn [do_sort canonical_opts] in Hv6.
  rewrite loads_print in Hv6; [|by intros kvs Hk; apply pairs_Ok|apply canonical_opts_ok|by apply norm_ok].
  injection Hv6 as <-. bool_simpl. done.
Qed.
End StrictJson.

#[export] Hint Resolve canonical_opts_ok compact_opts_ok default_opts_ok : shadow6.
