(* ===== verification/Sha256.v ===== *)
(** * SHA-256 and HMAC-SHA-256

    [hashlib.sha256(m).digest()] and [hmac.digest(key, m, "sha256")] on bytes,
    executable, with the FIPS 180-4 and RFC 4231 test vectors evaluated. *)
From S2P Require Import Prelude PyStr.

Definition word (z : Z) : Z := z mod 2 ^ 32.
Definition rotr (n x : Z) : Z := Z.lor (Z.shiftr x n) (word (Z.shiftl x (32 - n))).
Definition wnot (x : Z) : Z := 4294967295 - x.

Definition Ch (x y z : Z) : Z := Z.lxor (Z.land x y) (Z.land (wnot x) z).
Definition Maj (x y z : Z) : Z := Z.lxor (Z.lxor (Z.land x y) (Z.land x z)) (Z.land y z).
Definition Sigma0 (x : Z) : Z := Z.lxor (Z.lxor (rotr 2 x) (rotr 13 x)) (rotr 22 x).
Definition Sigma1 (x : Z) : Z := Z.lxor (Z.lxor (rotr 6 x) (rotr 11 x)) (rotr 25 x).
Definition sigma0 (x : Z) : Z := Z.lxor (Z.lxor (rotr 7 x) (rotr 18 x)) (Z.shiftr x 3).
Definition sigma1 (x : Z) : Z := Z.lxor (Z.lxor (rotr 17 x) (rotr 19 x)) (Z.shiftr x 10).

Definition K256 : list Z :=
  [1116352408; 1899447441; 3049323471; 3921009573; 961987163; 1508970993;
   2453635748; 2870763221; 3624381080; 310598401; 607225278; 1426881987;
   1925078388; 2162078206; 2614888103; 3248222580; 3835390401; 4022224774;
   264347078; 604807628; 770255983; 1249150122; 1555081692; 1996064986;
   2554220882; 2821834349; 2952996808; 3210313671; 3336571891; 3584528711;
   113926993; 338241895; 666307205; 773529912; 1294757372; 1396182291;
   1695183700; 1986661051; 2177026350; 2456956037; 2730485921; 2820302411;
   3259730800; 3345764771; 3516065817; 3600352804; 4094571909; 275423344;
   430227734; 506948616; 659060556; 883997877; 958139571; 1322822218;
   1537002063; 1747873779; 1955562222; 2024104815; 2227730452; 2361852424;
   2428436474; 2756734187; 3204031479; 3329325298].

Record hstate := HState { ha : Z; hb : Z; hc : Z; hd : Z; he : Z; hf : Z; hg : Z; hh : Z }.

Definition H0 : hstate :=
  HState 1779033703 3144134277 1013904242 2773480762 1359893119 2600822924 528734635 1541459225.

Definition round (s : hstate) (kw : Z * Z) : hstate :=
  let t1 := word (hh s + Sigma1 (he s) + Ch (he s) (hf s) (hg s) + kw.1 + kw.2) in
  let t2 := word (Sigma0 (ha s) + Maj (ha s) (hb s) (hc s)) in
  HState (word (t1 + t2)) (ha s) (hb s) (hc s) (word (hd s + t1)) (he s) (hf s) (hg s).

(** The message schedule, newest word first. *)
Fixpoint schedule (n : nat) (w : list Z) : list Z :=
  match n with
  | O => w
  | S n =>
      let g i := nth i w 0 in
      schedule n (word (sigma1 (g 1%nat) + g 6%nat + sigma0 (g 14%nat) + g 15%nat) :: w)
  end.

Fixpoint words (n : nat) (b : bytes) : list Z :=
  match n with
  | O => []
  | S n => be_decode (take 4 b) :: words n (drop 4 b)
  end.

Definition compress (s : hstate) (block : bytes) : hstate :=
  let w := rev (schedule 48 (rev (words 16 block))) in
  let r := foldl round s (combine K256 w) in
  HState (word (ha s + ha r)) (word (hb s + hb r)) (word (hc s + hc r)) (word (hd s + hd r))
         (word (he s + he r)) (word (hf s + hf r)) (word (hg s + hg r)) (word (hh s + hh r)).

Definition pad (m : bytes) : bytes :=
  m ++ [128] ++ replicate (Z.to_nat ((55 - zlen m) mod 64)) 0 ++ be_encode 8 (8 * zlen m).

Fixpoint blocks (n : nat) (s : hstate) (b : bytes) : hstate :=
  match n with
  | O => s
  | S n => blocks n (compress s (take 64 b)) (drop 64 b)
  end.

Definition digest_bytes (s : hstate) : bytes :=
  be_encode 4 (ha s) ++ be_encode 4 (hb s) ++ be_encode 4 (hc s) ++ be_encode 4 (hd s) ++
  be_encode 4 (he s) ++ be_encode 4 (hf s) ++ be_encode 4 (hg s) ++ be_encode 4 (hh s).

Definition sha256 (m : bytes) : bytes :=
  let p := pad m in digest_bytes (blocks (length p / 64) H0 p).
Arguments sha256 : simpl never.

Definition sha256_hex (m : bytes) : pystr := bytes_hex (sha256 m).
Arguments sha256_hex : simpl never.

Definition hmac_sha256 (key m : bytes) : bytes :=
  let k0 := if 64 <? zlen key then sha256 key else key in
  let k := k0 ++ replicate (64 - length k0) 0 in
  sha256 (map (Z.lxor 92) k ++ sha256 (map (Z.lxor 54) k ++ m)).
Arguments hmac_sha256 : simpl never.

Lemma sha256_length m : length (sha256 m) = 32%nat.
Proof. unfold sha256, digest_bytes. by rewrite !length_app, !be_encode_length. Qed.

Lemma sha256_wf m : wf_bytes (sha256 m) = true.
Proof.
  unfold sha256, digest_bytes, wf_bytes. rewrite !forallb_app.
  pose proof be_encode_wf as H. unfold wf_bytes in H. by rewrite !H.
Qed.

Lemma sha256_zlen m : zlen (sha256 m) = 32.
Proof. unfold zlen. by rewrite sha256_length. Qed.

Lemma hmac_sha256_length k m : length (hmac_sha256 k m) = 32%nat.
Proof. apply sha256_length. Qed.

Lemma hmac_sha256_wf k m : wf_bytes (hmac_sha256 k m) = true.
Proof. unfold hmac_sha256. cbv zeta. apply sha256_wf. Qed.

Lemma sha256_hex_lower m : hex_lower 64 (sha256_hex m) = true.
Proof. apply (hex_lower_bytes_hex _ 32); [apply sha256_wf|apply sha256_zlen]. Qed.

Example sha256_empty :
  sha256_hex [] = str "e3b0c44298fc1c149afbf4c8996fb92427ae41e4649b934ca495991b7852b855".
Proof. vm_compute. reflexivity. Qed.

Example sha256_abc :
  sha256_hex (str "abc") = str "ba7816bf8f01cfea414140de5dae2223b00361a396177a9cb410ff61f20015ad".
Proof. vm_compute. reflexivity. Qed.

Example sha256_two_blocks :
  sha256_hex (str "abcdbcdecdefdefgefghfghighijhijkijkljklmklmnlmnomnopnopq")
  = str "248d6a61d20638b8e5c026930c3e6039a33ce45964ff2167f6ecedd419db06c1".
Proof. vm_compute. reflexivity. Qed.

Example hmac_rfc4231_2 :
  bytes_hex (hmac_sha256 (str "Jefe") (str "what do ya want for nothing?"))
  = str "5bdcc146bf60754e6a042426089575c75a003f089d2739839dec58b964ec3843".
Proof. vm_compute. reflexivity. Qed.
