(* ===== verification/Signing.v ===== *)
(** * Ed25519 as an interface

    The signature scheme of the third-party [cryptography] package, as the
    sources use it: raw 32-byte private and public keys, 64-byte signatures.
    [SigningLaws] states the documented behaviour the theorems rely on. *)
From S2P Require Import Prelude PyStr Sha256.

Class Signing := {
  public_key : bytes → bytes;                     (* private_key.public_key().public_bytes_raw() *)
  sign : bytes → bytes → bytes;                   (* private_key.sign(message) *)
  verify_sig : bytes → bytes → bytes → bool;      (* public_key.verify(signature, message) *)
}.

Class SigningLaws `{Signing} := {
  verify_sign k m : verify_sig (public_key k) (sign k m) m = true;
  public_key_length k : length (public_key k) = 32%nat;
  public_key_wf k : wf_bytes (public_key k) = true;
  sign_length k m : length (sign k m) = 64%nat;
  sign_wf k m : wf_bytes (sign k m) = true;
}.

(** ** A scheme for the examples

    A symmetric tag posing as a signature: enough to satisfy the laws. *)
Definition toy_public (k : bytes) : bytes := sha256 k.
Definition toy_sign (k m : bytes) : bytes :=
  hmac_sha256 (sha256 k) m ++ hmac_sha256 (sha256 k) (0 :: m).
Definition toy_verify (p s m : bytes) : bool :=
  bool_decide (s = hmac_sha256 p m ++ hmac_sha256 p (0 :: m)).
Definition toy_signing : Signing :=
  {| public_key := toy_public; sign := toy_sign; verify_sig := toy_verify |}.

Lemma toy_verify_sign k m : toy_verify (toy_public k) (toy_sign k m) m = true.
Proof. unfold toy_verify. apply bool_decide_true. reflexivity. Qed.

Lemma toy_sign_length k m : length (toy_sign k m) = 64%nat.
Proof. unfold toy_sign. by rewrite length_app, !hmac_sha256_length. Qed.

Lemma toy_sign_wf k m : wf_bytes (toy_sign k m) = true.
Proof.
  unfold toy_sign. rewrite wf_bytes_app, !hmac_sha256_wf. reflexivity.
Qed.

Definition toy_signing_laws : @SigningLaws toy_signing :=
  @Build_SigningLaws toy_signing toy_verify_sign (λ k, sha256_length k) (λ k, sha256_wf k)
    toy_sign_length toy_sign_wf.
