(* ===== verification/Base64.v ===== *)
(** * Base64

    [base64.urlsafe_b64encode(b).rstrip('=')], its validated decoding, and the
    padded standard alphabet of [base64.b64encode]/[b64decode(validate=True)].
    The decoder ignores the spare low bits of the last character, as
    [binascii.a2b_base64] does; callers that need one text per value compare
    with the re-encoding. *)
From S2P Require Import Prelude PyStr.

Section Alphabet.
Context (c62 c63 : Z).

Definition b64_char (n : Z) : Z :=
  if n <? 26 then 65 + n else if n <? 52 then 71 + n else if n <? 62 then n - 4
  else if n =? 62 then c62 else c63.

Definition b64_value (c : Z) : option Z :=
  if is_upper c then Some (c - 65) else if is_lower c then Some (c - 71)
  else if is_digit c then Some (c + 4) else if c =? c62 then Some 62
  else if c =? c63 then Some 63 else None.

Definition is_b64 (c : Z) : bool := is_alnum c || (c =? c62) || (c =? c63).

Fixpoint b64_encode (b : bytes) : pystr :=
  match b with
  | x :: y :: z :: b =>
      b64_char (x / 4) :: b64_char (x mod 4 * 16 + y / 16) ::
      b64_char (y mod 16 * 4 + z / 64) :: b64_char (z mod 64) :: b64_encode b
  | [x; y] => [b64_char (x / 4); b64_char (x mod 4 * 16 + y / 16); b64_char (y mod 16 * 4)]
  | [x] => [b64_char (x / 4); b64_char (x mod 4 * 16)]
  | [] => []
  end.

Fixpoint b64_decode (s : pystr) : option bytes :=
  match s with
  | a :: b :: c :: d :: s =>
      match b64_value a, b64_value b, b64_value c, b64_value d, b64_decode s with
      | Some a, Some b, Some c, Some d, Some r =>
          Some (a * 4 + b / 16 :: b mod 16 * 16 + c / 4 :: c mod 4 * 64 + d :: r)
      | _, _, _, _, _ => None
      end
  | [a; b; c] =>
      match b64_value a, b64_value b, b64_value c with
      | Some a, Some b, Some c => Some [a * 4 + b / 16; b mod 16 * 16 + c / 4]
      | _, _, _ => None
      end
  | [a; b] =>
      match b64_value a, b64_value b with
      | Some a, Some b => Some [a * 4 + b / 16]
      | _, _ => None
      end
  | [_] => None
  | [] => Some []
  end.

Context (H62 : is_alnum c62 = false) (H63 : is_alnum c63 = false) (Hne : c62 ≠ c63).

Lemma b64_value_char n : 0 ≤ n < 64 → b64_value (b64_char n) = Some n.
Proof.
  intros Hn. unfold b64_char, b64_value. unfold is_alnum in H62, H63.
  apply orb_false_iff in H62 as [H62a H62u]. apply orb_false_iff in H62a as [H62d H62l].
  apply orb_false_iff in H63 as [H63a H63u]. apply orb_false_iff in H63a as [H63d H63l].
  destruct (Z.ltb_spec n 26).
  { unfold is_upper. rewrite (proj2 (between_spec 65 _ 90)) by lia. f_equal. lia. }
  destruct (Z.ltb_spec n 52).
  { unfold is_upper, is_lower. rewrite (proj2 (between_false 65 _ 90)) by lia.
    rewrite (proj2 (between_spec 97 _ 122)) by lia. f_equal. lia. }
  destruct (Z.ltb_spec n 62).
  { unfold is_upper, is_lower, is_digit. rewrite (proj2 (between_false 65 _ 90)) by lia.
    rewrite (proj2 (between_false 97 _ 122)), (proj2 (between_spec 48 _ 57)) by lia. f_equal. lia. }
  destruct (Z.eqb_spec n 62).
  { rewrite H62u, H62l, H62d, Z.eqb_refl. by f_equal. }
  rewrite H63u, H63l, H63d, (proj2 (Z.eqb_neq c63 c62)), Z.eqb_refl by done. f_equal. lia.
Qed.

Lemma b64_char_is n : 0 ≤ n < 64 → is_b64 (b64_char n) = true.
Proof.
  intros Hn. unfold is_b64, b64_char, is_alnum, is_upper, is_lower, is_digit.
  destruct (Z.ltb_spec n 26); [by rewrite (proj2 (between_spec 65 _ 90)), !orb_true_r by lia|].
  destruct (Z.ltb_spec n 52); [by rewrite (proj2 (between_spec 97 _ 122)), !orb_true_r by lia|].
  destruct (Z.ltb_spec n 62); [by rewrite (proj2 (between_spec 48 _ 57)) by lia|].
  destruct (Z.eqb_spec n 62); by rewrite Z.eqb_refl, !orb_true_r.
Qed.

(** Induction three bytes at a time. *)
Lemma bytes_ind3 (P : bytes → Prop) :
  P [] → (∀ x, P [x]) → (∀ x y, P [x; y]) → (∀ x y z b, P b → P (x :: y :: z :: b)) → ∀ b, P b.
Proof.
  intros H0 H1 H2 H3. fix IH 1. intros [|x [|y [|z b]]]; [done|apply H1|apply H2|apply H3, IH].
Qed.

Lemma byte_parts x : is_byte x = true →
  0 ≤ x / 4 < 64 ∧ 0 ≤ x mod 4 < 4 ∧ 0 ≤ x / 16 < 16 ∧ 0 ≤ x mod 16 < 16 ∧
  0 ≤ x / 64 < 4 ∧ 0 ≤ x mod 64 < 64 ∧
  x = x / 4 * 4 + x mod 4 ∧ x = x / 16 * 16 + x mod 16 ∧ x = x / 64 * 64 + x mod 64.
Proof. intros H%between_spec. div_lia. Qed.

Lemma div_small_add a b n : 0 < n → 0 ≤ b < n → (a * n + b) / n = a ∧ (a * n + b) mod n = b.
Proof.
  intros Hn Hb. rewrite Z.div_add_l, Z.div_small by lia. split; [lia|].
  rewrite Z.add_comm, Z.mod_add, Z.mod_small by lia. done.
Qed.

Lemma b64_decode_encode b : wf_bytes b = true → b64_decode (b64_encode b) = Some b.
Proof.
  unfold wf_bytes. induction b as [|x|x y|x y z b IH] using bytes_ind3; [done|..];
    cbn [forallb b64_encode b64_decode]; rewrite ?andb_true_r.
  - intros Hx. pose proof (byte_parts x Hx). rewrite !b64_value_char by lia.
    rewrite Z.div_mul by lia. do 2 f_equal. lia.
  - intros [Hx Hy]%andb_true_iff. pose proof (byte_parts x Hx). pose proof (byte_parts y Hy).
    rewrite !b64_value_char by lia.
    destruct (div_small_add (x mod 4) (y / 16) 16) as [-> ->]; [lia..|].
    rewrite Z.div_mul by lia. do 2 f_equal; [lia|]. f_equal. lia.
  - intros [Hx [Hy [Hz Hb]%andb_true_iff]%andb_true_iff]%andb_true_iff.
    pose proof (byte_parts x Hx). pose proof (byte_parts y Hy). pose proof (byte_parts z Hz).
    rewrite !b64_value_char by lia. rewrite (IH Hb).
    destruct (div_small_add (x mod 4) (y / 16) 16) as [-> ->]; [lia..|].
    destruct (div_small_add (y mod 16) (z / 64) 4) as [-> ->]; [lia..|].
    do 2 f_equal; [lia|]. f_equal; [lia|]. f_equal. lia.
Qed.

Lemma b64_encode_chars b : wf_bytes b = true → forallb is_b64 (b64_encode b) = true.
Proof.
  unfold wf_bytes. induction b as [|x|x y|x y z b IH] using bytes_ind3; [done|..];
    cbn [forallb b64_encode]; rewrite ?andb_true_r.
  - intros Hx. pose proof (byte_parts x Hx). by rewrite !b64_char_is by lia.
  - intros [Hx Hy]%andb_true_iff. pose proof (byte_parts x Hx). pose proof (byte_parts y Hy).
    by rewrite !b64_char_is by lia.
  - intros [Hx [Hy [Hz Hb]%andb_true_iff]%andb_true_iff]%andb_true_iff.
    pose proof (byte_parts x Hx). pose proof (byte_parts y Hy). pose proof (byte_parts z Hz).
    rewrite !b64_char_is by lia. by rewrite IH.
Qed.
End Alphabet.

(** The URL-safe alphabet. *)
Definition urlsafe_encode : bytes → pystr := b64_encode 45 95.
Definition urlsafe_decode : pystr → option bytes := b64_decode 45 95.
Definition is_urlsafe (c : Z) : bool := is_alnum c || (c =? 45) || (c =? 95).

Lemma urlsafe_roundtrip b : wf_bytes b = true → urlsafe_decode (urlsafe_encode b) = Some b.
Proof. by apply b64_decode_encode. Qed.

Lemma urlsafe_encode_nil b : urlsafe_encode b = [] → b = [].
Proof. by destruct b as [|x [|y [|z b]]]. Qed.

Lemma urlsafe_chars b : wf_bytes b = true → forallb is_urlsafe (urlsafe_encode b) = true.
Proof. by apply b64_encode_chars. Qed.

(** The padded standard alphabet. *)
Definition b64_pad (s : pystr) : pystr :=
  s ++ replicate (Z.to_nat ((- zlen s) mod 4)) 61.
Definition b64encode (b : bytes) : pystr := b64_pad (b64_encode 43 47 b).

Fixpoint rstrip_pad (n : nat) (s : pystr) : pystr :=
  match n, rev s with
  | S n, 61 :: r => rstrip_pad n (rev r)
  | _, _ => s
  end.

(** [base64.b64decode(s, validate=True)]: the padding must complete the last
    group of four. *)
Definition b64decode (s : pystr) : option bytes :=
  if negb (zlen s mod 4 =? 0) then None else b64_decode 43 47 (rstrip_pad 2 s).

Example b64_ex : urlsafe_encode (str "any carnal pleas") = str "YW55IGNhcm5hbCBwbGVhcw".
Proof. vm_compute. reflexivity. Qed.
Example b64_ex2 : b64decode (b64encode (str "any carnal pleas")) = Some (str "any carnal pleas").
Proof. vm_compute. reflexivity. Qed.
