(* ===== verification/S6naCodec.v ===== *)
(** * S6NA: limits, profiles and the frame codec

    The first half of [Network-Adapter/shadow6_network.py]: [Limits],
    [load_limits], the transport policies, [_portable] and [Codec].  The AEAD
    cipher comes from the third-party [cryptography] package and enters through
    the class [AEAD]; [AEADLaws] states its documented behaviour. *)
From S2P Require Import Prelude Dict PyStr PyText PyValue Json JsonRound StrictJson Sha256.

(** ** The cipher interface *)
Class AEAD := {
  seal : bytes → bytes → bytes → bytes → bytes;            (* key nonce data aad *)
  unseal : bytes → bytes → bytes → bytes → option bytes;   (* key nonce ciphertext aad *)
}.

Class AEADLaws `{AEAD} := {
  unseal_seal k n p a : wf_bytes p = true → unseal k n (seal k n p a) a = Some p;
  seal_length k n p a : zlen (seal k n p a) = zlen p + 16;
  seal_wf k n p a : wf_bytes p = true → wf_bytes (seal k n p a) = true;
  unseal_sealed k n c a p :
    wf_bytes c = true → unseal k n c a = Some p → wf_bytes p = true ∧ c = seal k n p a;
}.

Definition MAGIC : bytes := str "S6NA".
Definition VERSION : Z := 1.
Definition DATA : Z := 1.
Definition ACK : Z := 2.
Definition EXTENSION : Z := 3.
Definition HEADER_SIZE : Z := 32.
Definition TAG_BYTES : Z := 16.

(** ** Limits *)
Record limits := Limits {
  max_message : Z; max_streams : Z; max_inflight : Z; max_window : Z;
  reassembly_seconds : Z; max_extensions : Z; payload_bytes : Z; window_frames : Z }.

Definition limit_names : list string :=
  ["max_message"; "max_streams"; "max_inflight"; "max_window";
   "reassembly_seconds"; "max_extensions"; "payload_bytes"; "window_frames"].

(** One field of [Limits( **kwargs)]: its default, then the test of
    [__post_init__]. *)
Definition limit_field (kwargs : pydict) (name : string) (default low high : Z) : result Z :=
  match vget_or kwargs name (VInt default) with
  | VInt z => if between low z high then Ok z
              else raise ValueError (name +:+ " is outside safe bounds")
  | _ => raise ValueError (name +:+ " is outside safe bounds")
  end.

Definition make_limits (kwargs : pydict) : result limits :=
  max_message ← limit_field kwargs "max_message" (16 * 1024 * 1024) 1024 (256 * 1024 * 1024);
  max_streams ← limit_field kwargs "max_streams" 64 1 4096;
  max_inflight ← limit_field kwargs "max_inflight" (16 * 1024 * 1024) 1024 (512 * 1024 * 1024);
  max_window ← limit_field kwargs "max_window" 64 1 4096;
  reassembly_seconds ← limit_field kwargs "reassembly_seconds" 30 1 300;
  max_extensions ← limit_field kwargs "max_extensions" 16 0 128;
  payload_bytes ← limit_field kwargs "payload_bytes" 0 0 65536;
  window_frames ← limit_field kwargs "window_frames" 0 0 4096;
  _ ← raise_if (max_inflight <? max_message) ValueError "max_inflight must cover max_message";
  _ ← raise_if (negb (payload_bytes =? 0) && (payload_bytes <? 64)) ValueError
        "payload_bytes is outside safe bounds";
  Ok (Limits max_message max_streams max_inflight max_window reassembly_seconds
             max_extensions payload_bytes window_frames).

(** [load_limits]: the defaults, or a checked document.  [text] is what
    [_bounded_owned_text] read from the file. *)
Definition load_limits (nfc : pystr → pystr) (text : option pystr) : result limits :=
  match text with
  | None => make_limits []
  | Some text =>
      value ← reraise [JSONDecodeError] ValueError "invalid S6NA limits JSON"
                (strict_json nfc 65536 STRING_LIMIT (JText text));
      match value with
      | VDict d =>
          _ ← raise_if (negb (keys_exact d ["schema"; "limits"])
                        || negb (eq_str (vget_none d "schema") "shadow6.s6na-limits.v1"))
                ValueError "unknown S6NA limits schema or field";
          match vget_none d "limits" with
          | VDict l =>
              _ ← raise_if (negb (keys_within l limit_names)) ValueError "unknown S6NA limit";
              make_limits l
          | _ => raise ValueError "unknown S6NA limit"
          end
      | _ => raise ValueError "unknown S6NA limits schema or field"
      end
  end.

(** What [__post_init__] guarantees of every [Limits] object. *)
Record limits_ok (l : limits) : Prop := {
  lok_message : 1024 ≤ max_message l ≤ 256 * 1024 * 1024;
  lok_streams : 1 ≤ max_streams l ≤ 4096;
  lok_inflight : max_message l ≤ max_inflight l ≤ 512 * 1024 * 1024;
  lok_window : 1 ≤ max_window l ≤ 4096;
  lok_seconds : 1 ≤ reassembly_seconds l ≤ 300;
  lok_extensions : 0 ≤ max_extensions l ≤ 128;
  lok_payload : payload_bytes l = 0 ∨ 64 ≤ payload_bytes l ≤ 65536;
  lok_frames : 0 ≤ window_frames l ≤ 4096;
}.

Lemma limit_field_Ok kwargs name default low high z :
  limit_field kwargs name default low high = Ok z → low ≤ z ≤ high.
Proof.
  unfold limit_field. destruct (vget_or _ _ _); try done.
  destruct (between _ _ _) eqn:E; [|done]. intros [= ->]. by apply between_spec.
Qed.

Lemma make_limits_ok kwargs l : make_limits kwargs = Ok l → limits_ok l.
Proof.
  unfold make_limits. intros H. inv_ok.
  repeat match goal with H : limit_field _ _ _ _ _ = Ok _ |- _ => apply limit_field_Ok in H end.
  subst l. bool_simpl. constructor; simpl; lia.
Qed.

(** ** Transport policies *)
Record policy := Policy { p_mode : string; p_payload : Z; p_window : Z; p_reason : string }.

Definition POLICIES : list (pystr * policy) :=
  [(str "go", Policy "native" 65536 64 "KCP stack already presents a stream");
   (str "rust", Policy "native" 65536 64 "QUIC stack already presents a stream");
   (str "zig", Policy "native" 32768 64 "ENet provides reliable fragmentation");
   (str "ada", Policy "native" 448 32 "native authenticated cell relay is independently deployable");
   (str "d", Policy "native" 1200 32 "native authenticated broker/agent/client secure stream");
   (str "nim", Policy "native" 16384 64 "WebRTC data channel provides message transport");
   (str "cpp", Policy "native" 32768 64 "SCTP provides ordered reliable delivery");
   (str "pony", Policy "native" 960 32 "native bounded authenticated datagrams are independently deployable");
   (str "hare", Policy "native" 896 16 "native bounded authenticated proxy is independently deployable");
   (str "carp", Policy "native" 960 16 "native bounded authenticated UDP path is independently deployable");
   (str "gleam", Policy "native" 4096 32 "native authenticated broker/agent/client secure stream");
   (str "idris", Policy "native" 1024 32 "native authenticated UDP agent/client relay")].

Definition PROFILES : list (pystr * policy) :=
  POLICIES ++
  [(str "gleam-mux", Policy "companion" 1100 64
     "Micro-Mux UDP: bounded ACK/retry, deduplication and reassembly; no availability guarantee")].

Definition profile_name (core : pystr) (transport : option pystr) : result pystr :=
  match transport with
  | None => Ok core
  | Some transport =>
      _ ← raise_if (negb (str_in core ["gleam"; "gleam-mux"])
                    || negb (str_in transport ["secure-stream"; "micro-mux"]))
            ValueError "unsupported core transport selection";
      _ ← raise_if (bool_decide (core = str "gleam-mux")
                    && negb (bool_decide (transport = str "micro-mux")))
            ValueError "conflicting Gleam mode";
      Ok (if bool_decide (transport = str "micro-mux") then str "gleam-mux" else str "gleam")
  end.

Lemma PROFILES_bounds core p :
  dget PROFILES core = Some p → 64 ≤ p_payload p ≤ 65536 ∧ 1 ≤ p_window p ≤ 64.
Proof.
  intros H%dget_elem_of. unfold PROFILES, POLICIES in H. simpl in H.
  repeat (apply elem_of_cons in H as [[= -> ->]|H]; [simpl; lia|]).
  by apply not_elem_of_nil in H.
Qed.

(** ** Portable extension payloads *)
Fixpoint validate_extension (depth : Z) (item : pyval) {struct item} : result unit :=
  let check_str s :=
    match utf8 s with
    | None => raise UnicodeError "surrogates not allowed"
    | Some b => raise_if (1024 <? zlen b) ValueError "extension string is oversized"
    end in
  _ ← raise_if (8 <? depth) ValueError "extension nesting exceeds 8";
  match item with
  | VNone | VBool _ => Ok tt
  | VStr s => check_str s
  | VInt z => raise_if (negb (between (- MAX_SAFE) z MAX_SAFE)) ValueError
                "extension integer is not portable"
  | VList l =>
      _ ← raise_if (64 <? zlen l) ValueError "extension array is oversized";
      (fix go (l : list pyval) : result unit :=
         match l with
         | [] => Ok tt
         | x :: l => _ ← validate_extension (depth + 1) x; go l
         end) l
  | VDict d =>
      _ ← raise_if (64 <? zlen d) ValueError "extension object is invalid";
      (fix go (d : pydict) : result unit :=
         match d with
         | [] => Ok tt
         | kv :: d =>
             _ ← raise_if (8 <? depth + 1) ValueError "extension nesting exceeds 8";
             _ ← check_str kv.1;
             _ ← validate_extension (depth + 1) kv.2;
             go d
         end) d
  | VFloat _ => raise ValueError "extension contains a nonportable value"
  end.

Definition _portable (value : pyval) : result bytes :=
  _ ← validate_extension 0 value;
  let raw := dumps_canonical value in
  _ ← raise_if (4096 <? zlen raw) ValueError "extension payload exceeds 4 KiB";
  Ok raw.

(** ** Frames *)
Record frame := Frame {
  f_kind : Z; f_stream : Z; f_message : Z; f_index : Z; f_count : Z; f_payload : bytes }.

#[global] Instance frame_eq_dec : EqDecision frame.
Proof. solve_decision. Defined.

Record codec := Codec { c_tx : bytes; c_rx : bytes; c_payload : Z; c_streams : Z }.

Definition derive (key : bytes) (direction : Z) : bytes :=
  hmac_sha256 key (str "shadow6-network-v1:" ++ [direction]).

Definition make_codec (key : bytes) (payload side max_streams : Z) : result codec :=
  _ ← raise_if (negb (zlen key =? 32)) ValueError "adapter key must be 32 bytes";
  _ ← raise_if (negb (between 64 payload 65536)) ValueError "invalid adapter payload";
  _ ← raise_if (negb ((side =? 0) || (side =? 1))) ValueError "adapter side must be 0 or 1";
  _ ← raise_if (negb (between 1 max_streams 4096)) ValueError "invalid stream limit";
  Ok (Codec (derive key side) (derive key (1 - side)) payload max_streams).

Definition nonce (header : bytes) : bytes :=
  take 12 (sha256 (str "shadow6-network-nonce-v1" ++ header)).

Definition is_kind (kind : Z) : bool := (kind =? DATA) || (kind =? ACK) || (kind =? EXTENSION).

(** [HEADER.pack]: "!4sBBHQQHHI", 32 bytes. *)
Definition pack_header (kind stream message index count length : Z) : bytes :=
  MAGIC ++ be_encode 1 VERSION ++ be_encode 1 kind ++ be_encode 2 0 ++ be_encode 8 stream ++
  be_encode 8 message ++ be_encode 2 index ++ be_encode 2 count ++ be_encode 4 length.

(** [HEADER.unpack], field by field. *)
Definition hfield (off len : nat) (h : bytes) : Z := be_decode (take len (drop off h)).

Section Codec.
Context `{AEAD}.

Definition encode (c : codec) (f : frame) : result bytes :=
  _ ← raise_if (negb (is_kind (f_kind f))
                || negb ((0 <=? f_stream f) && (f_stream f <? c_streams c))
                || negb ((0 <=? f_message f) && (f_message f <? 2 ^ 64)))
        ValueError "invalid frame identity";
  _ ← raise_if ((c_payload c <? zlen (f_payload f))
                || negb (between 1 (f_count f) 65535)
                || negb ((0 <=? f_index f) && (f_index f <? f_count f)))
        ValueError "invalid frame bounds";
  let header := pack_header (f_kind f) (f_stream f) (f_message f) (f_index f) (f_count f)
                            (zlen (f_payload f)) in
  Ok (header ++ seal (c_tx c) (nonce header) (f_payload f) header).

Definition decode (c : codec) (wire : bytes) : result frame :=
  _ ← raise_if (negb (between (HEADER_SIZE + TAG_BYTES) (zlen wire)
                              (HEADER_SIZE + c_payload c + TAG_BYTES)))
        ValueError "invalid frame size";
  let header := take 32 wire in
  let ciphertext := drop 32 wire in
  let kind := hfield 5 1 header in
  let stream := hfield 8 8 header in
  let message := hfield 16 8 header in
  let index := hfield 24 2 header in
  let count := hfield 26 2 header in
  let length := hfield 28 4 header in
  _ ← raise_if (negb (bool_decide (take 4 header = MAGIC))
                || negb (hfield 4 1 header =? VERSION)
                || negb (hfield 6 2 header =? 0)
                || negb (is_kind kind)
                || negb (length =? zlen ciphertext - TAG_BYTES))
        ValueError "invalid frame header";
  _ ← raise_if ((c_streams c <=? stream) || (count <? 1) || (count <=? index)) ValueError
        "invalid frame fields";
  match unseal (c_rx c) (nonce header) ciphertext header with
  | None => raise ValueError "frame authentication failed"
  | Some payload =>
      _ ← raise_if ((kind =? ACK) && negb (bool_decide (payload = []))) ValueError
            "invalid acknowledgment";
      Ok (Frame kind stream message index count payload)
  end.
End Codec.

(** ** Header fields *)
Lemma hfield_app off len a b c :
  length a = off → length b = len → hfield off len (a ++ b ++ c) = be_decode b.
Proof.
  intros <- <-. unfold hfield. by rewrite drop_app_length, take_app_length.
Qed.

Lemma pack_header_length k s m i n l : length (pack_header k s m i n l) = 32%nat.
Proof. unfold pack_header. by rewrite !length_app, !be_encode_length. Qed.

Lemma pack_header_wf k s m i n l : wf_bytes (pack_header k s m i n l) = true.
Proof.
  unfold pack_header, wf_bytes. rewrite !forallb_app.
  pose proof be_encode_wf as H. unfold wf_bytes in H. by rewrite !H.
Qed.

Lemma be_field n z : 0 ≤ z < 256 ^ Z.of_nat n → be_decode (be_encode n z) = z.
Proof. apply be_decode_encode. Qed.

(** Unpacking a packed header gives its fields back. *)
Lemma unpack_pack k s m i n l :
  0 ≤ k < 256 → 0 ≤ s < 2 ^ 64 → 0 ≤ m < 2 ^ 64 → 0 ≤ i < 65536 → 0 ≤ n < 65536 → 0 ≤ l < 2 ^ 32 →
  let h := pack_header k s m i n l in
  take 4 h = MAGIC ∧ hfield 4 1 h = VERSION ∧ hfield 5 1 h = k ∧ hfield 6 2 h = 0 ∧
  hfield 8 8 h = s ∧ hfield 16 8 h = m ∧ hfield 24 2 h = i ∧ hfield 26 2 h = n ∧ hfield 28 4 h = l.
Proof.
  intros Hk Hs Hm Hi Hn Hl. unfold pack_header. cbn zeta.
  set (e1 := be_encode 1 VERSION). set (e2 := be_encode 1 k). set (e3 := be_encode 2 0).
  set (e4 := be_encode 8 s). set (e5 := be_encode 8 m). set (e6 := be_encode 2 i).
  set (e7 := be_encode 2 n). set (e8 := be_encode 4 l).
  pose proof (hfield_app 4 1 MAGIC e1 (e2 ++ e3 ++ e4 ++ e5 ++ e6 ++ e7 ++ e8)) as F1.
  pose proof (hfield_app 5 1 (MAGIC ++ e1) e2 (e3 ++ e4 ++ e5 ++ e6 ++ e7 ++ e8)) as F2.
  pose proof (hfield_app 6 2 (MAGIC ++ e1 ++ e2) e3 (e4 ++ e5 ++ e6 ++ e7 ++ e8)) as F3.
  pose proof (hfield_app 8 8 (MAGIC ++ e1 ++ e2 ++ e3) e4 (e5 ++ e6 ++ e7 ++ e8)) as F4.
  pose proof (hfield_app 16 8 (MAGIC ++ e1 ++ e2 ++ e3 ++ e4) e5 (e6 ++ e7 ++ e8)) as F5.
  pose proof (hfield_app 24 2 (MAGIC ++ e1 ++ e2 ++ e3 ++ e4 ++ e5) e6 (e7 ++ e8)) as F6.
  pose proof (hfield_app 26 2 (MAGIC ++ e1 ++ e2 ++ e3 ++ e4 ++ e5 ++ e6) e7 e8) as F7.
  pose proof (hfield_app 28 4 (MAGIC ++ e1 ++ e2 ++ e3 ++ e4 ++ e5 ++ e6 ++ e7) e8 []) as F8.
  rewrite app_nil_r in F8.
  rewrite <- ?app_assoc in F2. rewrite <- ?app_assoc in F3. rewrite <- ?app_assoc in F4.
  rewrite <- ?app_assoc in F5. rewrite <- ?app_assoc in F6. rewrite <- ?app_assoc in F7.
  rewrite <- ?app_assoc in F8.
  rewrite F1, F2, F3, F4, F5, F6, F7, F8;
    try (subst e1 e2 e3 e4 e5 e6 e7 e8; rewrite ?length_app, ?be_encode_length; done).
  subst e1 e2 e3 e4 e5 e6 e7 e8. rewrite !be_field by (unfold VERSION; simpl; lia). done.
Qed.

Lemma be_encode_hfield off len h :
  wf_bytes h = true → (off + len ≤ length h)%nat →
  be_encode len (hfield off len h) = take len (drop off h).
Proof.
  intros Hw Hl. unfold hfield.
  assert (length (take len (drop off h)) = len) as E by (rewrite length_take, length_drop; lia).
  rewrite <- E at 1. apply be_encode_decode. by apply wf_bytes_take, wf_bytes_drop.
Qed.

Lemma split_at n (b : bytes) : b = take n b ++ drop n b.
Proof. by rewrite take_drop. Qed.

(** A 32-byte header with the right constants is the packing of its fields. *)
Lemma pack_unpack h :
  length h = 32%nat → wf_bytes h = true → take 4 h = MAGIC → hfield 4 1 h = VERSION →
  hfield 6 2 h = 0 →
  pack_header (hfield 5 1 h) (hfield 8 8 h) (hfield 16 8 h) (hfield 24 2 h) (hfield 26 2 h)
              (hfield 28 4 h) = h.
Proof.
  intros Hlen Hw Hm Hv Hz. unfold pack_header.
  rewrite <- Hv, <- Hz, <- Hm. rewrite !be_encode_hfield by (done || lia).
  rewrite (split_at 4 h) at 10. f_equal.
  rewrite (split_at 1 (drop 4 h)) at 2. rewrite drop_drop. f_equal.
  rewrite (split_at 1 (drop (4 + 1) h)) at 1. rewrite drop_drop. f_equal.
  rewrite (split_at 2 (drop (4 + 1 + 1) h)) at 1. rewrite drop_drop. f_equal.
  rewrite (split_at 8 (drop (4 + 1 + 1 + 2) h)) at 1. rewrite drop_drop. f_equal.
  rewrite (split_at 8 (drop (4 + 1 + 1 + 2 + 8) h)) at 1. rewrite drop_drop. f_equal.
  rewrite (split_at 2 (drop (4 + 1 + 1 + 2 + 8 + 8) h)) at 1. rewrite drop_drop. f_equal.
  rewrite (split_at 2 (drop (4 + 1 + 1 + 2 + 8 + 8 + 2) h)) at 1. rewrite drop_drop. f_equal.
  simpl. apply take_ge. rewrite length_drop. lia.
Qed.

(** ** The codec *)

(** What [Codec.encode] accepts. *)
Definition frame_ok (c : codec) (f : frame) : Prop :=
  is_kind (f_kind f) = true ∧ 0 ≤ f_stream f < c_streams c ∧ 0 ≤ f_message f < 2 ^ 64 ∧
  zlen (f_payload f) ≤ c_payload c ∧ 1 ≤ f_count f ≤ 65535 ∧ 0 ≤ f_index f < f_count f.

(** The bounds [Codec.__init__] checks. *)
Definition codec_ok (c : codec) : Prop := 64 ≤ c_payload c ≤ 65536 ∧ 1 ≤ c_streams c ≤ 4096.

(** [c'] is the other end of the link of [c]. *)
Definition peers (c c' : codec) : Prop :=
  c_tx c = c_rx c' ∧ c_rx c = c_tx c' ∧ c_payload c = c_payload c' ∧ c_streams c = c_streams c'.

Lemma make_codec_ok key payload side ms c : make_codec key payload side ms = Ok c → codec_ok c.
Proof.
  unfold make_codec. intros H. inv_ok. subst c. bool_simpl. unfold codec_ok. simpl.
  rewrite !between_spec in *. lia.
Qed.

Lemma make_codec_peers key payload ms c c' :
  make_codec key payload 0 ms = Ok c → make_codec key payload 1 ms = Ok c' → peers c c'.
Proof. unfold make_codec. intros H H'. inv_ok. by subst. Qed.

Lemma peers_sym c c' : peers c c' → peers c' c.
Proof. unfold peers. naive_solver. Qed.

Lemma is_kind_range k : is_kind k = true → 1 ≤ k ≤ 3.
Proof. unfold is_kind, DATA, ACK, EXTENSION. lia. Qed.

Section CodecFacts.
Context `{AEADLaws}.

Definition header_of (f : frame) : bytes :=
  pack_header (f_kind f) (f_stream f) (f_message f) (f_index f) (f_count f) (zlen (f_payload f)).

Lemma encode_Ok c f w :
  encode c f = Ok w ↔
  frame_ok c f ∧ w = header_of f ++ seal (c_tx c) (nonce (header_of f)) (f_payload f) (header_of f).
Proof.
  unfold encode, frame_ok, header_of. split.
  - intros He. inv_ok. bool_simpl. rewrite between_spec in *. split; [split; [done|lia]|done].
  - intros [(Hk & Hs & Hm & Hp & Hc & Hi) ->]. rewrite Hk. simpl.
    replace (0 <=? f_stream f) with true by lia. replace (f_stream f <? c_streams c) with true by lia.
    replace (0 <=? f_message f) with true by lia.
    replace (f_message f <? _) with true by lia. simpl.
    replace (c_payload c <? zlen (f_payload f)) with false by lia.
    replace (between 1 (f_count f) 65535) with true by (symmetry; by apply between_spec).
    replace (0 <=? f_index f) with true by lia. by replace (f_index f <? f_count f) with true by lia.
Qed.

Lemma encode_total c f : frame_ok c f → ∃ w, encode c f = Ok w.
Proof. intros Hf. eexists. by apply encode_Ok. Qed.

Lemma encode_wf c f w :
  encode c f = Ok w → wf_bytes (f_payload f) = true → wf_bytes w = true.
Proof.
  intros [_ ->]%encode_Ok Hp. rewrite wf_bytes_app, seal_wf by done.
  unfold header_of. by rewrite pack_header_wf.
Qed.

Lemma encode_length c f w : encode c f = Ok w → zlen w = 48 + zlen (f_payload f).
Proof.
  intros [_ ->]%encode_Ok. rewrite zlen_app, seal_length.
  unfold zlen at 1, header_of. rewrite pack_header_length. lia.
Qed.

(** Decoding at the other end gives the encoded frame back. *)
Lemma decode_encode c c' f w :
  codec_ok c → peers c c' → encode c f = Ok w → wf_bytes (f_payload f) = true →
  (f_kind f = ACK → f_payload f = []) → decode c' w = Ok f.
Proof.
  intros [Hcp Hcs] (Htx & _ & Hpay & Hstr) He Hw Hack.
  pose proof (encode_length _ _ _ He) as Hlen.
  apply encode_Ok in He as [(Hk & Hs & Hm & Hp & Hc & Hi) ->].
  pose proof (is_kind_range _ Hk). pose proof (zlen_nonneg (f_payload f)).
  unfold decode. rewrite Hlen. unfold HEADER_SIZE, TAG_BYTES.
  replace (between _ _ _) with true by (symmetry; apply between_spec; lia).
  cbn [negb raise_if mbind result_bind].
  pose proof (pack_header_length (f_kind f) (f_stream f) (f_message f) (f_index f) (f_count f)
                (zlen (f_payload f))) as Hh.
  fold (header_of f) in Hh.
  rewrite take_app_length', drop_app_length' by done.
  destruct (unpack_pack (f_kind f) (f_stream f) (f_message f) (f_index f) (f_count f)
              (zlen (f_payload f))) as (E1 & E2 & E3 & E4 & E5 & E6 & E7 & E8 & E9); [lia..|].
  fold (header_of f) in *. rewrite E1, E2, E3, E4, E5, E6, E7, E8, E9, Hk, seal_length.
  rewrite bool_decide_true by done.
  replace (zlen (f_payload f) =? _) with true by lia.
  cbn [negb orb raise_if mbind result_bind VERSION Z.eqb Pos.eqb].
  replace (c_streams c' <=? f_stream f) with false by lia.
  replace (f_count f <? 1) with false by lia. replace (f_count f <=? f_index f) with false by lia.
  cbn [negb orb raise_if mbind result_bind]. rewrite <- Htx, unseal_seal by done.
  replace ((f_kind f =? ACK) && negb (bool_decide (f_payload f = []))) with false; [by destruct f|].
  symmetry. destruct (Z.eqb_spec (f_kind f) ACK) as [Ek|]; [|done].
  by rewrite Hack, bool_decide_true.
Qed.

Lemma hfield_range off len h : wf_bytes h = true → 0 ≤ hfield off len h < 256 ^ Z.of_nat len.
Proof.
  intros Hw. unfold hfield. pose proof (be_decode_bound (take len (drop off h))) as Hb.
  unfold zlen in Hb.
  assert (length (take len (drop off h)) ≤ len)%nat by (rewrite length_take; lia).
  assert (256 ^ Z.of_nat (length (take len (drop off h))) ≤ 256 ^ Z.of_nat len)
    by (apply Z.pow_le_mono_r; lia).
  specialize (Hb (wf_bytes_take _ _ (wf_bytes_drop _ _ Hw))). lia.
Qed.

(** A wire that decodes is byte for byte what the other end's [encode] emits:
    the wire form is canonical and nothing outside it authenticates. *)
Lemma encode_decode c c' f w :
  codec_ok c → peers c c' → wf_bytes w = true → decode c' w = Ok f →
  encode c f = Ok w ∧ wf_bytes (f_payload f) = true ∧ (f_kind f = ACK → f_payload f = []).
Proof.
  intros [Hcp Hcs] (Htx & _ & Hpay & Hstr) Hw Hd. unfold decode in Hd. inv_ok.
  destruct (unseal _ _ _ _) as [p|] eqn:Hu; [|done]. inv_ok. subst f.
  cbn [f_kind f_stream f_message f_index f_count f_payload].
  apply negb_false_iff, between_spec in Hv. unfold HEADER_SIZE, TAG_BYTES in *. bool_simpl.
  assert (length (take 32 w) = 32%nat) as Hl32.
  { rewrite length_take. unfold zlen in Hv. lia. }
  assert (wf_bytes (take 32 w) = true) as Hw32 by by apply wf_bytes_take.
  apply unseal_sealed in Hu as [Hp Hc]; [|by apply wf_bytes_drop].
  pose proof (f_equal zlen Hc) as Hlc. rewrite seal_length in Hlc.
  assert (zlen (drop 32 w) = zlen w - 32) as Hd32.
  { unfold zlen. rewrite length_drop. unfold zlen in Hv. lia. }
  pose proof (hfield_range 8 8 _ Hw32). pose proof (hfield_range 16 8 _ Hw32).
  pose proof (hfield_range 24 2 _ Hw32). pose proof (hfield_range 26 2 _ Hw32).
  split_and!; [|done|].
  - apply encode_Ok. unfold frame_ok, header_of.
    cbn [f_kind f_stream f_message f_index f_count f_payload].
    replace (zlen p) with (hfield 28 4 (take 32 w)) by lia.
    rewrite pack_unpack by done. rewrite Htx, <- Hc, take_drop.
    change (256 ^ Z.of_nat 8) with (2 ^ 64) in *. change (256 ^ Z.of_nat 2) with 65536 in *.
    split; [|done]. split_and!; try done; lia.
  - intros Ek.
    match goal with E : (_ =? ACK) && _ = false |- _ => rewrite Ek in E; cbn in E end.
    by bool_simpl.
Qed.
End CodecFacts.

(** ** A cipher for the examples

    Data in the clear under an HMAC tag: enough to satisfy the laws, so that
    the theorems can be evaluated on concrete frames. *)
Definition toy_tag (k n p a : bytes) : bytes := take 16 (hmac_sha256 k (n ++ a ++ p)).

Definition toy_seal (k n p a : bytes) : bytes := p ++ toy_tag k n p a.

Definition toy_unseal (k n c a : bytes) : option bytes :=
  let p := take (length c - 16) c in
  if bool_decide (drop (length c - 16) c = toy_tag k n p a) && (16 <=? length c)%nat
  then Some p else None.

Definition toy_aead : AEAD := {| seal := toy_seal; unseal := toy_unseal |}.

Lemma toy_tag_length k n p a : length (toy_tag k n p a) = 16%nat.
Proof. unfold toy_tag. rewrite length_take, hmac_sha256_length. done. Qed.

Lemma toy_laws : @AEADLaws toy_aead.
Proof.
  split; simpl; unfold toy_seal, toy_unseal; intros k n.
  - intros p a _. rewrite length_app, toy_tag_length, Nat.add_sub.
    rewrite take_app_length, drop_app_length, bool_decide_true by done.
    by replace (16 <=? _)%nat with true by (symmetry; apply Nat.leb_le; lia).
  - intros p a. rewrite zlen_app. unfold zlen at 2. by rewrite toy_tag_length.
  - intros p a Hp. rewrite wf_bytes_app, Hp. apply wf_bytes_take, sha256_wf.
  - intros c a p Hc. destruct (bool_decide _ && _) eqn:E; [|done]. intros [= <-].
    bool_simpl. split; [by apply wf_bytes_take|].
    match goal with E : drop _ _ = _ |- _ => rewrite <- E end. by rewrite take_drop.
Qed.
