(* ===== verification/S6naAdapter.v ===== *)
(** * S6NA: the reliable adapter

    [ReliableAdapter] of [Network-Adapter/shadow6_network.py]: one record for
    the object's fields, one definition per method, in the state monad [M] so
    that what a method assigned before it raised stays assigned.  The clock is
    an argument [now] of the methods that read it; times are exact rationals,
    where the source computes with binary64.  The re-entrant lock around every
    method makes each of them one atomic step. *)
From Stdlib Require Import QArith Qabs Qminmax.
From S2P Require Import Prelude Dict PyStr PyText PyValue Json JsonRound StrictJson Sha256 S6naCodec.
#[global] Open Scope Z_scope.

Record pending_item := Pending {
  pi_wire : bytes; pi_deadline : Q; pi_attempts : Z; pi_size : Z; pi_sent : Q; pi_retried : bool }.

Record queued := Queued { q_message : Z; q_data : bytes; q_index : Z; q_count : Z }.

Record incoming_state := Incoming {
  in_count : Z; in_parts : list (Z * bytes); in_bytes : Z; in_deadline : Q }.

Record out_item := Outgoing { o_remaining : Z; o_length : Z }.

Record adapter := Adapter {
  a_limits : limits; a_codec : codec; a_policy : policy; a_extensions : list pystr;
  next_message : list Z;
  pending : list ((Z * Z * Z) * pending_item);
  queues : list (list queued);
  active_streams : list Z;
  incoming : list ((Z * Z) * incoming_state);
  incoming_bytes : Z;
  buffered : Z;
  completed : gset (Z * Z);
  completed_order : list (Z * Z);
  outgoing : list ((Z * Z) * out_item);
  rtt : option (Q * Q);          (* srtt and rttvar, assigned together *)
  rto : Q;
  closed : bool }.

(** Field updates. *)
Definition set_next (v : list Z) (a : adapter) : adapter :=
  let '(Adapter l c p x _ pe qs ac i ib bu co oo og rt ro cl) := a in
  Adapter l c p x v pe qs ac i ib bu co oo og rt ro cl.
Definition set_pending v (a : adapter) : adapter :=
  let '(Adapter l c p x n _ qs ac i ib bu co oo og rt ro cl) := a in
  Adapter l c p x n v qs ac i ib bu co oo og rt ro cl.
Definition set_queues v (a : adapter) : adapter :=
  let '(Adapter l c p x n pe _ ac i ib bu co oo og rt ro cl) := a in
  Adapter l c p x n pe v ac i ib bu co oo og rt ro cl.
Definition set_active v (a : adapter) : adapter :=
  let '(Adapter l c p x n pe qs _ i ib bu co oo og rt ro cl) := a in
  Adapter l c p x n pe qs v i ib bu co oo og rt ro cl.
Definition set_incoming v vb (a : adapter) : adapter :=
  let '(Adapter l c p x n pe qs ac _ _ bu co oo og rt ro cl) := a in
  Adapter l c p x n pe qs ac v vb bu co oo og rt ro cl.
Definition set_completed v vo (a : adapter) : adapter :=
  let '(Adapter l c p x n pe qs ac i ib bu _ _ og rt ro cl) := a in
  Adapter l c p x n pe qs ac i ib bu v vo og rt ro cl.
Definition set_outgoing v vb (a : adapter) : adapter :=
  let '(Adapter l c p x n pe qs ac i ib _ co oo _ rt ro cl) := a in
  Adapter l c p x n pe qs ac i ib vb co oo v rt ro cl.
Definition set_rtt v vr (a : adapter) : adapter :=
  let '(Adapter l c p x n pe qs ac i ib bu co oo og _ _ cl) := a in
  Adapter l c p x n pe qs ac i ib bu co oo og v vr cl.

(** [ReliableAdapter.__init__]. *)
Definition make_adapter (core : pystr) (key : bytes) (side : Z) (extensions : list pystr)
    (lim : limits) (transport : option pystr) : result adapter :=
  core ← profile_name core transport;
  match dget PROFILES core with
  | None => raise ValueError "core has no safely established adapter profile"
  | Some policy =>
      _ ← raise_if (bool_decide (core = str "gleam-mux") && (p_payload policy <? payload_bytes lim))
            ValueError "Micro-Mux payload exceeds conservative MTU profile";
      let payload := if payload_bytes lim =? 0 then p_payload policy else payload_bytes lim in
      codec ← make_codec key payload side (max_streams lim);
      let extensions := remove_dups extensions in
      _ ← raise_if ((max_extensions lim <? zlen extensions)
                    || existsb (λ x, bool_decide (x = []) || (64 <? zlen x)) extensions)
            ValueError "invalid extension allowlist";
      let streams := Z.to_nat (max_streams lim) in
      Ok (Adapter lim codec policy extensions (replicate streams 0) [] (replicate streams [])
            [] [] 0 0 ∅ [] [] None (1 # 5) false)
  end.

Definition window (a : adapter) : Z :=
  Z.min (if window_frames (a_limits a) =? 0 then p_window (a_policy a)
         else window_frames (a_limits a)) (max_window (a_limits a)).

Definition payload_of (a : adapter) : Z := c_payload (a_codec a).

Definition chunk_count (payload : Z) (data : bytes) : Z := (zlen data + payload - 1) / payload.
Definition chunk (payload : Z) (data : bytes) (index : Z) : bytes :=
  slice (index * payload) (index * payload + payload) data.

Definition _ensure_open : M adapter unit :=
  c ← mget closed; mraise_if c AdapterClosed "S6NA adapter is closed".

(** [_remember]: the completed set, with a window of 4096 keys. *)
Definition _remember (key : Z * Z) (a : adapter) : adapter :=
  let done := {[key]} ∪ completed a in
  let order := completed_order a ++ [key] in
  if 4096 <? zlen order then
    match order with
    | oldest :: order => set_completed (done ∖ {[oldest]}) order a
    | [] => set_completed done order a
    end
  else set_completed done order a.

Section Adapter.
Context `{AEAD}.

(** One turn of the [while] of [outbound]: the stream has been taken off
    [active_streams]. *)
Definition outbound_step (now : Q) (stream : Z) : M adapter bytes := λ a,
  match queues a !! Z.to_nat stream with
  | None => (raise IndexError "list index out of range", a)
  | Some [] => (raise IndexError "deque index out of range", a)
  | Some (item :: rest) =>
      let part := chunk (payload_of a) (q_data item) (q_index item) in
      match encode (a_codec a) (Frame DATA stream (q_message item) (q_index item) (q_count item) part)
      with
      | Raise e => (Raise e, a)
      | Ok wire =>
          let pend := dset (pending a) (stream, q_message item, q_index item)
                        (Pending wire (now + rto a)%Q 0 (zlen part) now false) in
          let item := Queued (q_message item) (q_data item) (q_index item + 1) (q_count item) in
          let queue := if q_index item =? q_count item then rest else item :: rest in
          let active := match queue with [] => active_streams a | _ => active_streams a ++ [stream] end in
          (Ok wire,
           set_active active (set_queues (<[Z.to_nat stream := queue]> (queues a)) (set_pending pend a)))
      end
  end.

(** The loop of [outbound].  Every turn adds a frame to [pending], so [window]
    turns are enough; running out is reported as [RecursionError]. *)
Fixpoint outbound_loop (fuel : nat) (now : Q) (a : adapter) : result (list bytes) * adapter :=
  if zlen (pending a) <? window a then
    match active_streams a with
    | [] => (Ok [], a)
    | stream :: active =>
        match fuel with
        | O => (raise RecursionError "fuel", a)
        | S fuel =>
            (wire ← outbound_step now stream;
             frames ← (outbound_loop fuel now : M adapter _);
             mret (wire :: frames)) (set_active active a)
        end
    end
  else (Ok [], a).

Definition outbound (now : Q) : M adapter (list bytes) :=
  _ ← _ensure_open;
  w ← mget window;
  outbound_loop (Z.to_nat w) now.

(** The guards [send] and [send_flow_controlled] share, and the chunk count. *)
Definition send_check (stream : Z) (data : bytes) (a : adapter) : result Z :=
  _ ← raise_if (negb ((0 <=? stream) && (stream <? max_streams (a_limits a)))) ValueError "invalid stream";
  _ ← raise_if (bool_decide (data = []) || (max_message (a_limits a) <? zlen data)) ValueError
        "message is outside configured bounds";
  let count := chunk_count (payload_of a) data in
  _ ← raise_if (65535 <? count) ValueError "message exceeds chunk count";
  Ok count.

(** The assignments of [send] between its guards and [outbound]. *)
Definition enqueue (stream message : Z) (data : bytes) (count : Z) (a : adapter) : adapter :=
  let queue := default [] (queues a !! Z.to_nat stream) in
  let active := match queue with [] => active_streams a ++ [stream] | _ => active_streams a end in
  set_outgoing (dset (outgoing a) (stream, message) (Outgoing count (zlen data))) (buffered a + zlen data)
    (set_queues (<[Z.to_nat stream := queue ++ [Queued message data 0 count]]> (queues a))
      (set_active active
        (set_next (<[Z.to_nat stream := message + 1]> (next_message a)) a))).

Definition send (now : Q) (stream : Z) (data : bytes) : M adapter (list bytes) :=
  _ ← _ensure_open;
  checked ← mget (send_check stream data);
  count ← mlift checked;
  full ← mget (λ a, (max_inflight (a_limits a) <? buffered a + zlen data)
                    || (4096 <=? zlen (outgoing a)));
  _ ← mraise_if full AdapterBackpressure "adapter backpressure limit reached";
  message ← mget (λ a, default 0 (next_message a !! Z.to_nat stream));
  _ ← mraise_if (2 ^ 64 - 1 <=? message) OverflowError "message sequence exhausted; rekey";
  _ ← mmod (enqueue stream message data count);
  outbound now.

Definition application_credit (a : adapter) : Z :=
  if closed a then 0
  else Z.max 0 (Z.min (window a - dsum (λ _ o, o_remaining o) (outgoing a)) (4096 - zlen (outgoing a))).

Definition send_flow_controlled (now : Q) (stream : Z) (data : bytes) : M adapter (list bytes) :=
  _ ← _ensure_open;
  checked ← mget (send_check stream data);
  frames ← mlift checked;
  credit ← mget application_credit;
  _ ← mraise_if (credit <? frames) AdapterBackpressure "S6NA application frame credit exhausted";
  send now stream data.

Definition close (a : adapter) : adapter :=
  if closed a then a
  else Adapter (a_limits a) (a_codec a) (a_policy a) (a_extensions a) (next_message a)
         [] ((λ _, []) <$> queues a) [] [] 0 0 ∅ [] [] (rtt a) (rto a) true.

(** [_sample]: the smoothed round-trip time and the timeout it implies. *)
Definition _sample (sample : Q) (a : adapter) : adapter :=
  let '(srtt, rttvar) :=
    match rtt a with
    | None => (sample, sample / 2)%Q
    | Some (srtt, rttvar) =>
        ((7 # 8) * srtt + (1 # 8) * sample, (3 # 4) * rttvar + (1 # 4) * Qabs (srtt - sample))%Q
    end in
  set_rtt (Some (srtt, rttvar)) (Qmax (1 # 20) (Qmin 5 (srtt + 4 * rttvar)))%Q a.

Definition extension (stream : Z) (name : pystr) (value : pyval) : M adapter bytes :=
  _ ← _ensure_open;
  lim ← mget a_limits;
  _ ← mraise_if (negb ((0 <=? stream) && (stream <? max_streams lim))) ValueError "invalid stream";
  allowed ← mget a_extensions;
  _ ← mraise_if (negb (bool_decide (name ∈ allowed))) PermissionError "extension is not enabled";
  payload ← mlift (_portable (VDict (mkdict [("name", VStr name); ("value", value)])));
  message ← mget (λ a, default 0 (next_message a !! Z.to_nat stream));
  _ ← mraise_if (2 ^ 64 - 1 <=? message) OverflowError "message sequence exhausted; rekey";
  _ ← mmod (λ a, set_next (<[Z.to_nat stream := message + 1]> (next_message a)) a);
  c ← mget a_codec;
  mlift (encode c (Frame EXTENSION stream message 0 1 payload)).

(** What [receive] returns: acknowledgements, messages and extension events. *)
Record received := Received {
  r_acks : list bytes; r_messages : list (Z * bytes); r_events : list (Z * pystr * pyval) }.

(** [receive] of an acknowledgement. *)
Definition receive_ack (now : Q) (f : frame) : M adapter received := λ a,
  let key := (f_stream f, f_message f, f_index f) in
  match dget (pending a) key with
  | None => (Ok (Received [] [] []), a)
  | Some item =>
      let a := set_pending (ddel (pending a) key) a in
      match dget (outgoing a) key.1 with
      | None => (raise KeyError "outgoing", a)
      | Some o =>
          let remaining := o_remaining o - 1 in
          let a := if remaining =? 0
                   then set_outgoing (ddel (outgoing a) key.1) (buffered a - o_length o) a
                   else set_outgoing (dset (outgoing a) key.1 (Outgoing remaining (o_length o)))
                          (buffered a) a in
          let a := if pi_retried item then a else _sample (Qmax 0 (now - pi_sent item))%Q a in
          (Ok (Received [] [] []), a)
      end
  end.

(** The test of a received extension payload. *)
Definition extension_check (nfc : pystr → pystr) (allowed : list pystr) (payload : bytes)
    : result (pystr * pyval) :=
  value ← strict_json nfc 65536 STRING_LIMIT (JBytes payload);
  canonical ← _portable value;
  _ ← raise_if (negb (bool_decide (canonical = payload))) PermissionError
        "received extension is not enabled";
  match value with
  | VDict d =>
      _ ← raise_if (negb (keys_exact d ["name"; "value"])) PermissionError
            "received extension is not enabled";
      match vget_none d "name" with
      | VStr name =>
          _ ← raise_if (negb (bool_decide (name ∈ allowed))) PermissionError
                "received extension is not enabled";
          Ok (name, vget_none d "value")
      | VList _ | VDict _ => raise TypeError "unhashable type"
      | _ => raise PermissionError "received extension is not enabled"
      end
  | _ => raise PermissionError "received extension is not enabled"
  end.

(** [b"".join(parts[i] for i in range(count))]. *)
Definition join_parts (parts : list (Z * bytes)) (count : Z) : result bytes :=
  @concat Z <$> map_res (λ i, match dget parts i with
                           | Some b => Ok b
                           | None => raise KeyError "parts"
                           end) (Z.of_nat <$> seq 0 (Z.to_nat count)).

(** [receive] of a data frame whose message is not completed yet. *)
Definition receive_data (now : Q) (ack : bytes) (f : frame) : M adapter received :=
  let key := (f_stream f, f_message f) in
  _ ← mraise_if (bool_decide (f_payload f = [])) ValueError "empty data chunk";
  lim ← mget a_limits;
  known ← mget (λ a, dget (incoming a) key);
  full ← mget (λ a, 4096 <=? zlen (incoming a));
  _ ← mraise_if (match known with None => full | Some _ => false end) AdapterBackpressure
        "reassembly message limit reached";
  let state := default (Incoming (f_count f) [] 0
                          (now + inject_Z (reassembly_seconds lim))%Q) known in
  _ ← mraise_if (negb (in_count state =? f_count f)) ValueError "contradictory chunk count";
  total ← mget incoming_bytes;
  let n := zlen (f_payload f) in
  let new := negb (dmem (in_parts state) (f_index f)) in
  _ ← mraise_if (new && (max_inflight lim <? total + n)) AdapterBackpressure
        "reassembly limit reached";
  _ ← mraise_if (new && (max_message lim <? in_bytes state + n)) ValueError
        "reassembled message is oversized";
  let state := if new
               then Incoming (in_count state) (dset (in_parts state) (f_index f) (f_payload f))
                      (in_bytes state + n) (in_deadline state)
               else state in
  let total := if new then total + n else total in
  _ ← mmod (λ a, set_incoming (dset (incoming a) key state) total a);
  if zlen (in_parts state) =? f_count f then
    data ← mlift (join_parts (in_parts state) (f_count f));
    _ ← mraise_if (max_message lim <? zlen data) ValueError "reassembled message is oversized";
    _ ← mmod (λ a, _remember key (set_incoming (ddel (incoming a) key) (total - in_bytes state) a));
    mret (Received [ack] [(f_stream f, data)] [])
  else mret (Received [ack] [] []).

Definition receive (nfc : pystr → pystr) (now : Q) (wire : bytes) : M adapter received :=
  _ ← _ensure_open;
  c ← mget a_codec;
  f ← mlift (decode c wire);
  if f_kind f =? ACK then receive_ack now f
  else
    ack ← mlift (encode c (Frame ACK (f_stream f) (f_message f) (f_index f) (f_count f) []));
    seen ← mget (λ a, bool_decide ((f_stream f, f_message f) ∈ completed a));
    if seen : bool then mret (Received [ack] [] [])
    else if f_kind f =? EXTENSION then
      allowed ← mget a_extensions;
      event ← mlift (extension_check nfc allowed (f_payload f));
      _ ← mmod (_remember (f_stream f, f_message f));
      mret (Received [ack] [] [(f_stream f, event.1, event.2)])
    else receive_data now ack f.

(** [retransmit]: drop the overdue reassemblies, resend the overdue frames. *)
Definition expire (now : Q) (a : adapter) : adapter :=
  foldl (λ a kv,
    if Qle_bool (in_deadline kv.2) now
    then set_incoming (ddel (incoming a) kv.1) (incoming_bytes a - in_bytes kv.2) a
    else a) a (incoming a).

Fixpoint resend (now : Q) (items : list ((Z * Z * Z) * pending_item)) (a : adapter)
    : result (list bytes) * adapter :=
  match items with
  | [] => (Ok [], a)
  | (key, item) :: items =>
      if negb (Qle_bool (pi_deadline item) now) then resend now items a
      else if 8 <=? pi_attempts item then (raise AdapterRetryLimit "retransmission limit reached", a)
      else
        let attempts := pi_attempts item + 1 in
        let item' := Pending (pi_wire item)
                       (now + Qmin 5 (rto a * inject_Z (2 ^ attempts)))%Q
                       attempts (pi_size item) (pi_sent item) true in
        (frames ← (resend now items : M adapter _); mret (pi_wire item :: frames))
          (set_pending (dset (pending a) key item') a)
  end.

Definition retransmit (now : Q) : M adapter (list bytes) :=
  _ ← _ensure_open;
  _ ← mmod (expire now);
  items ← mget pending;
  frames ← resend now items;
  more ← outbound now;
  mret (frames ++ more).
End Adapter.
