(* ===== verification/S6naInvariant.v ===== *)
(** * S6NA: the sender's invariant

    The accounting that [ReliableAdapter] keeps over [pending], [queues],
    [active_streams], [outgoing] and [buffered], and its preservation by every
    method; [outbound] never fails and always fills the window or drains the
    queues. *)
From Stdlib Require Import QArith Qabs Qminmax.
From S2P Require Import Prelude Dict PyStr PyText PyValue Json JsonRound StrictJson Sha256 S6naCodec S6naAdapter.
#[global] Open Scope Z_scope.

(** ** Chunks *)
Lemma chunk_count_bounds payload data :
  1 ≤ payload → data ≠ [] →
  1 ≤ chunk_count payload data ∧
  (chunk_count payload data - 1) * payload < zlen data ≤ chunk_count payload data * payload.
Proof.
  intros Hp Hd. assert (1 ≤ zlen data) by (destruct data; [done|]; rewrite zlen_cons; pose proof (zlen_nonneg data); lia).
  unfold chunk_count. pose proof (Z.div_mod (zlen data + payload - 1) payload ltac:(lia)).
  pose proof (Z.mod_pos_bound (zlen data + payload - 1) payload ltac:(lia)).
  set (q := (zlen data + payload - 1) / payload) in *.
  assert (1 ≤ q) by (unfold q; apply Z.div_le_lower_bound; lia). nia.
Qed.

Lemma zlen_chunk payload data i :
  0 ≤ i → 1 ≤ payload →
  zlen (chunk payload data i) = Z.max 0 (Z.min payload (zlen data - i * payload)).
Proof.
  intros Hi Hp. unfold chunk, slice, zlen. rewrite length_take, length_drop.
  assert (0 ≤ i * payload) by nia. lia.
Qed.

Lemma chunk_nonempty payload data i :
  1 ≤ payload → data ≠ [] → 0 ≤ i < chunk_count payload data → 1 ≤ zlen (chunk payload data i) ≤ payload.
Proof.
  intros Hp Hd Hi. destruct (chunk_count_bounds payload data Hp Hd) as (Hc & Hl & Hu).
  rewrite zlen_chunk by lia. assert (i * payload ≤ (chunk_count payload data - 1) * payload) by nia. lia.
Qed.

(** ** Counting *)

(** Frames of message [sm] waiting for an acknowledgement. *)
Definition pcount (pend : list ((Z * Z * Z) * pending_item)) (sm : Z * Z) : Z :=
  dsum (λ k _, if bool_decide (k.1 = sm) then 1 else 0) pend.

Definition item_unsent (it : queued) : Z := q_count it - q_index it.

(** Frames of message [m] still in a queue, and of the whole queue. *)
Definition qunsent (m : Z) (q : list queued) : Z :=
  foldr (λ it acc, (if q_message it =? m then item_unsent it else 0) + acc) 0 q.
Definition queue_unsent (q : list queued) : Z := foldr (λ it acc, item_unsent it + acc) 0 q.
Definition total_unsent (qs : list (list queued)) : Z := foldr (λ q acc, queue_unsent q + acc) 0 qs.

Definition unsent (qs : list (list queued)) (sm : Z * Z) : Z :=
  qunsent sm.2 (default [] (qs !! Z.to_nat sm.1)).

Definition remaining (out : list ((Z * Z) * out_item)) (sm : Z * Z) : Z :=
  match dget out sm with Some o => o_remaining o | None => 0 end.

Definition next_of (a : adapter) (s : Z) : Z := default 0 (next_message a !! Z.to_nat s).

Definition item_ok (payload bound : Z) (it : queued) : Prop :=
  0 ≤ q_message it < bound ∧ q_data it ≠ [] ∧ q_count it = chunk_count payload (q_data it) ∧
  q_count it ≤ 65535 ∧ 0 ≤ q_index it < q_count it.

Definition queue_ok (payload bound : Z) (q : list queued) : Prop :=
  Forall (item_ok payload bound) q ∧ NoDup (q_message <$> q).

Definition pending_ok (a : adapter) (key : Z * Z * Z) : Prop :=
  let '(s, m, i) := key in
  0 ≤ s < max_streams (a_limits a) ∧ 0 ≤ m < next_of a s ∧
  ∀ q it, queues a !! Z.to_nat s = Some q → it ∈ q → q_message it = m → i < q_index it.

Record sender_inv (a : adapter) : Prop := {
  si_limits : limits_ok (a_limits a);
  si_codec : codec_ok (a_codec a);
  si_streams : c_streams (a_codec a) = max_streams (a_limits a);
  si_policy : 1 ≤ p_window (a_policy a);
  si_next_len : length (next_message a) = Z.to_nat (max_streams (a_limits a));
  si_next : ∀ s, 0 ≤ next_of a s < 2 ^ 64;
  si_queues_len : length (queues a) = Z.to_nat (max_streams (a_limits a));
  si_queue : ∀ s q, 0 ≤ s → queues a !! Z.to_nat s = Some q → queue_ok (payload_of a) (next_of a s) q;
  si_active : ∀ s, s ∈ active_streams a ↔ 0 ≤ s ∧ ∃ it q, queues a !! Z.to_nat s = Some (it :: q);
  si_active_nodup : NoDup (active_streams a);
  si_pending_wf : dwf (pending a);
  si_pending : ∀ key, key ∈ dkeys (pending a) → pending_ok a key;
  si_attempts : ∀ key it, (key, it) ∈ pending a → 0 ≤ pi_attempts it ≤ 8;
  si_outgoing_wf : dwf (outgoing a);
  si_outgoing : ∀ s m o, (s, m, o) ∈ outgoing a →
    0 ≤ s < max_streams (a_limits a) ∧ 0 ≤ m < next_of a s ∧ 1 ≤ o_remaining o ∧ 1 ≤ o_length o;
  si_owed : ∀ s m, 0 ≤ s → remaining (outgoing a) (s, m) = pcount (pending a) (s, m) + unsent (queues a) (s, m);
  si_total : dsum (λ _ o, o_remaining o) (outgoing a) = zlen (pending a) + total_unsent (queues a);
  si_buffered : buffered a = dsum (λ _ o, o_length o) (outgoing a);
  si_inflight : buffered a ≤ max_inflight (a_limits a);
  si_out_count : zlen (outgoing a) ≤ 4096;
  si_window : zlen (pending a) ≤ window a;
}.

Lemma total_unsent_insert qs i q q' :
  qs !! i = Some q →
  total_unsent (<[i:=q']> qs) = total_unsent qs - queue_unsent q + queue_unsent q'.
Proof.
  unfold total_unsent. revert i. induction qs as [|p qs IH]; intros [|i]; simpl; try done.
  - intros [= ->]. lia.
  - intros H. rewrite (IH _ H). lia.
Qed.

Lemma queue_unsent_app q q' : queue_unsent (q ++ q') = queue_unsent q + queue_unsent q'.
Proof. unfold queue_unsent. induction q as [|it q IH]; simpl; lia. Qed.

Lemma qunsent_app m q q' : qunsent m (q ++ q') = qunsent m q + qunsent m q'.
Proof. unfold qunsent. induction q as [|it q IH]; simpl; lia. Qed.

Lemma qunsent_notin m q : m ∉ (q_message <$> q) → qunsent m q = 0.
Proof.
  induction q as [|it q IH]; [done|]. rewrite fmap_cons, not_elem_of_cons. intros [Hm Hq].
  simpl. rewrite IH by done. destruct (Z.eqb_spec (q_message it) m); [congruence|lia].
Qed.

Lemma qunsent_nonneg p b m q : queue_ok p b q → 0 ≤ qunsent m q.
Proof.
  intros [Hq _]. induction Hq as [|it q (_ & _ & _ & _ & Hi) Hq IH]; simpl; [lia|].
  unfold item_unsent. destruct (q_message it =? m); lia.
Qed.

Lemma queue_unsent_nonneg p b q : queue_ok p b q → 0 ≤ queue_unsent q.
Proof.
  intros [Hq _]. induction Hq as [|it q (_ & _ & _ & _ & Hi) Hq IH]; simpl; [lia|].
  unfold item_unsent. lia.
Qed.

Lemma queue_unsent_zero p b q : queue_ok p b q → queue_unsent q ≤ 0 → q = [].
Proof.
  intros Hq Hz. destruct q as [|it q]; [done|]. exfalso. destruct Hq as [Hq Hn].
  apply Forall_cons in Hq as [(_ & _ & _ & _ & Hi) Hq].
  assert (0 ≤ queue_unsent q).
  { eapply queue_unsent_nonneg. split; [done|]. by apply NoDup_cons in Hn as [_ ?]. }
  simpl in Hz. unfold item_unsent in Hz. lia.
Qed.

Lemma pcount_nonneg pend sm : 0 ≤ pcount pend sm.
Proof. apply dsum_nonneg. intros. case_bool_decide; lia. Qed.

Lemma pcount_zero pend sm : (∀ key, key ∈ dkeys pend → key.1 ≠ sm) → pcount pend sm = 0.
Proof.
  unfold pcount, dsum, dkeys. induction pend as [|[k it] pend IH]; simpl; [done|]. intros H.
  rewrite bool_decide_false by (apply H; left). rewrite IH; [lia|].
  intros key Hk. apply H. by right.
Qed.

Lemma total_unsent_nonneg qs :
  (∀ i q, qs !! i = Some q → 0 ≤ queue_unsent q) → 0 ≤ total_unsent qs.
Proof.
  induction qs as [|q qs IH]; simpl; [lia|]. intros H.
  pose proof (H 0%nat q eq_refl). specialize (IH (λ i, H (S i))). lia.
Qed.

(** ** One turn of [outbound] *)

(** The item at the head of the queue after its chunk was sent, and the queue. *)
Definition advance (it : queued) : queued :=
  Queued (q_message it) (q_data it) (q_index it + 1) (q_count it).
Definition pop_sent (it : queued) (rest : list queued) : list queued :=
  if q_index it + 1 =? q_count it then rest else advance it :: rest.

Definition sent_state (now : Q) (s : Z) (active : list Z) (it : queued) (rest : list queued)
    (wire : bytes) (a : adapter) : adapter :=
  let queue := pop_sent it rest in
  set_active (match queue with [] => active | _ => active ++ [s] end)
    (set_queues (<[Z.to_nat s := queue]> (queues a))
      (set_pending (dset (pending a) (s, q_message it, q_index it)
         (Pending wire (now + rto a)%Q 0 (zlen (chunk (payload_of a) (q_data it) (q_index it))) now false)) a)).

Definition data_frame (payload s m : Z) (data : bytes) (i : Z) : frame :=
  Frame DATA s m i (chunk_count payload data) (chunk payload data i).

Lemma data_frame_ok c s m data i :
  codec_ok c → 0 ≤ s < c_streams c → 0 ≤ m < 2 ^ 64 → data ≠ [] →
  chunk_count (c_payload c) data ≤ 65535 → 0 ≤ i < chunk_count (c_payload c) data →
  frame_ok c (data_frame (c_payload c) s m data i).
Proof.
  intros [Hp Hs] Hr Hm Hd Hc Hi. unfold frame_ok, data_frame. simpl.
  pose proof (chunk_nonempty (c_payload c) data i ltac:(lia) Hd Hi). split_and!; try done; lia.
Qed.

Lemma queue_ok_pop p b it rest :
  queue_ok p b (it :: rest) → queue_ok p b (pop_sent it rest).
Proof.
  unfold queue_ok, pop_sent. rewrite Forall_cons, fmap_cons. intros [[Hit Hrest] Hn].
  destruct (Z.eqb_spec (q_index it + 1) (q_count it)).
  - split; [done|]. by apply NoDup_cons in Hn as [_ ?].
  - rewrite Forall_cons. split; [split; [|done]|done].
    destruct Hit as (? & ? & ? & ? & ?). unfold item_ok, advance. simpl. split_and!; try done; lia.
Qed.

Lemma pop_sent_elem it rest x : x ∈ pop_sent it rest → x = advance it ∨ x ∈ rest.
Proof. unfold pop_sent. destruct (_ =? _); [by right|]. rewrite elem_of_cons. done. Qed.

Lemma qunsent_pop m it rest :
  qunsent m (pop_sent it rest) = qunsent m (it :: rest) - (if q_message it =? m then 1 else 0).
Proof.
  unfold pop_sent. simpl. unfold item_unsent.
  destruct (Z.eqb_spec (q_index it + 1) (q_count it)), (Z.eqb_spec (q_message it) m);
    simpl; unfold item_unsent; simpl; subst; rewrite ?Z.eqb_refl; try lia.
  destruct (Z.eqb_spec (q_message it) m); [done|lia].
Qed.

Lemma queue_unsent_pop it rest : queue_unsent (pop_sent it rest) = queue_unsent (it :: rest) - 1.
Proof.
  unfold pop_sent. simpl. unfold item_unsent.
  destruct (Z.eqb_spec (q_index it + 1) (q_count it)); simpl; unfold item_unsent; simpl; lia.
Qed.

Lemma unsent_insert qs s q q' s' m :
  0 ≤ s → 0 ≤ s' → qs !! Z.to_nat s = Some q →
  unsent (<[Z.to_nat s := q']> qs) (s', m) =
  if bool_decide (s' = s) then qunsent m q' else unsent qs (s', m).
Proof.
  intros Hs Hs' Hq. unfold unsent. simpl. case_bool_decide as E.
  - subst. rewrite list_lookup_insert_eq by (by eapply lookup_lt_Some). done.
  - by rewrite list_lookup_insert_ne by lia.
Qed.

Lemma set_active_id a s active : active_streams a = s :: active →
  set_active (s :: active) (set_active active a) = a.
Proof. destruct a; simpl. by intros ->. Qed.

Section Steps.
Context `{AEADLaws}.

Lemma step_run now a s active :
  sender_inv a → active_streams a = s :: active →
  ∃ it rest wire, queues a !! Z.to_nat s = Some (it :: rest) ∧ 0 ≤ s < max_streams (a_limits a) ∧
    encode (a_codec a) (data_frame (payload_of a) s (q_message it) (q_data it) (q_index it)) = Ok wire ∧
    outbound_step now s (set_active active a) = (Ok wire, sent_state now s active it rest wire a).
Proof.
  intros I Ha. assert (s ∈ active_streams a) as Hs by (rewrite Ha; left).
  apply (si_active a I) in Hs as (Hs & it & rest & Hq).
  pose proof (lookup_lt_Some _ _ _ Hq) as Hlt. rewrite (si_queues_len a I) in Hlt.
  pose proof (lok_streams _ (si_limits a I)).
  destruct (si_queue a I s _ Hs Hq) as [Hall _]. apply Forall_cons in Hall as [Hit _].
  destruct Hit as (Hm & Hd & Hc & Hc' & Hi). pose proof (si_next a I s).
  destruct (encode_total (a_codec a)
    (data_frame (payload_of a) s (q_message it) (q_data it) (q_index it))) as [wire Hw].
  { apply data_frame_ok; try done; try lia; [apply I|rewrite (si_streams a I); lia| |];
      rewrite Hc in *; unfold payload_of in *; lia. }
  exists it, rest, wire. split_and!; try done; [lia|].
  unfold outbound_step, sent_state, payload_of in *. destruct a; simpl in *.
  rewrite Hq. unfold data_frame in Hw. rewrite <- Hc in Hw. rewrite Hw. done.
Qed.

Lemma sent_fresh a s it rest :
  sender_inv a → queues a !! Z.to_nat s = Some (it :: rest) →
  dget (pending a) (s, q_message it, q_index it) = None.
Proof.
  intros I Hq. apply dget_None. intros Hk%(si_pending a I).
  destruct Hk as (_ & _ & Hk). specialize (Hk _ it Hq ltac:(left) eq_refl). lia.
Qed.

Lemma sent_pending_ok now a s active it rest wire :
  sender_inv a → 0 ≤ s < max_streams (a_limits a) → queues a !! Z.to_nat s = Some (it :: rest) →
  ∀ key, key ∈ dkeys (pending (sent_state now s active it rest wire a)) →
  pending_ok (sent_state now s active it rest wire a) key.
Proof.
  intros I Hs Hq [[s' m'] i'] Hk.
  destruct (si_queue a I s _ ltac:(lia) Hq) as [Hall Hn].
  assert (item_ok (payload_of a) (next_of a s) it) as Hit by by apply Forall_cons in Hall as [? _].
  rewrite fmap_cons in Hn. apply NoDup_cons in Hn as [Hn _].
  assert (((s', m', i') = (s, q_message it, q_index it)) ∨ (s', m', i') ∈ dkeys (pending a)) as Hk'.
  { revert Hk. unfold sent_state. destruct a; simpl. apply elem_of_dkeys_dset. }
  unfold pending_ok.
  assert (∀ q x, queues (sent_state now s active it rest wire a) !! Z.to_nat s' = Some q → x ∈ q →
    s' = s ∧ x ∈ pop_sent it rest ∨ s' ≠ s ∧ queues a !! Z.to_nat s' = Some q) as Hcase.
  { intros q x Hq' Hx. destruct (decide (s' = s)) as [->|Hne]; [left|right].
    - revert Hq'. unfold sent_state. destruct a; simpl in *.
      rewrite list_lookup_insert_eq by (by eapply lookup_lt_Some). by intros [= <-].
    - assert (0 ≤ s' ∧ Z.to_nat s' ≠ Z.to_nat s) as [Hp Hz].
      { destruct Hk' as [[= -> -> ->]|Hk']; [done|]. pose proof (si_pending a I _ Hk') as (Hs' & _). lia. }
      split; [done|]. revert Hq'. unfold sent_state. destruct a; simpl in *.
      by rewrite list_lookup_insert_ne by done. }
  assert (∀ x, x ∈ rest → q_message x ≠ q_message it) as Hrest.
  { intros x Hx Hm. apply Hn. rewrite <- Hm. by apply list_elem_of_fmap_2. }
  destruct Hk' as [[= -> -> ->]|Hk'].
  - destruct Hit as (Hm & Hd & Hc & Hc' & Hi). split; [by destruct a|]. split; [by destruct a|].
    intros q x Hq' Hx Hm'. destruct (Hcase q x Hq' Hx) as [[_ Hx']|[]]; [|done].
    apply pop_sent_elem in Hx' as [->|Hx']; [simpl; lia|]. by apply Hrest in Hx'.
  - destruct (si_pending a I _ Hk') as (Hs' & Hm' & Hi').
    split; [by destruct a|]. split; [by destruct a|].
    intros q x Hq' Hx Hmx. destruct (Hcase q x Hq' Hx) as [[-> Hx']|[_ Hq'']]; [|by eapply Hi'].
    apply pop_sent_elem in Hx' as [->|Hx'].
    + simpl in *. pose proof (Hi' _ it Hq ltac:(left) Hmx). lia.
    + eapply Hi'; [done| |done]. by right.
Qed.

(** [active_streams] keeps listing exactly the streams with queued chunks. *)
Lemma sent_active now a s active it rest wire :
  sender_inv a → 0 ≤ s → active_streams a = s :: active → queues a !! Z.to_nat s = Some (it :: rest) →
  let a' := sent_state now s active it rest wire a in
  NoDup (active_streams a') ∧
  ∀ s', s' ∈ active_streams a' ↔ 0 ≤ s' ∧ ∃ it q, queues a' !! Z.to_nat s' = Some (it :: q).
Proof.
  intros I Hs Ha Hq a'. pose proof (si_active_nodup a I) as Hn. pose proof (si_active a I) as Hact.
  rewrite Ha in Hn. apply NoDup_cons in Hn as [Hsn Hn]. rewrite Ha in Hact.
  pose proof (lookup_lt_Some _ _ _ Hq) as Hlt.
  assert (active_streams a' = match pop_sent it rest with [] => active | _ => active ++ [s] end) as Ea
    by by destruct a.
  assert (queues a' = <[Z.to_nat s := pop_sent it rest]> (queues a)) as Eq by by destruct a.
  clearbody a'. rewrite Ea, Eq. split.
  - destruct (pop_sent it rest); [done|]. apply NoDup_app. split_and!; [done| |apply NoDup_singleton].
    intros x Hx ->%list_elem_of_singleton. done.
  - intros s'. destruct (decide (s' = s)) as [->|Hne].
    + rewrite list_lookup_insert_eq by done. destruct (pop_sent it rest) as [|y ys].
      * split; [done|]. by intros (_ & ? & ? & ?).
      * rewrite elem_of_app, list_elem_of_singleton. split; [by eauto|by right].
    + transitivity (s' ∈ s :: active).
      { rewrite elem_of_cons. destruct (pop_sent it rest);
          rewrite ?elem_of_app, ?list_elem_of_singleton; naive_solver. }
      rewrite Hact. split; intros (Hp & x & q & Hl); (split; [done|]); exists x, q;
        revert Hl; by rewrite list_lookup_insert_ne by lia.
Qed.

Lemma sent_state_inv now a s active it rest wire :
  sender_inv a → zlen (pending a) < window a → active_streams a = s :: active →
  0 ≤ s < max_streams (a_limits a) → queues a !! Z.to_nat s = Some (it :: rest) →
  sender_inv (sent_state now s active it rest wire a).
Proof.
  intros I Hwin Ha Hs Hq. pose proof (sent_fresh a s it rest I Hq) as Hfresh.
  pose proof (sent_pending_ok now a s active it rest wire I Hs Hq) as Hpend.
  pose proof (sent_active now a s active it rest wire I ltac:(lia) Ha Hq) as [Hact1 Hact2].
  pose proof (lookup_lt_Some _ _ _ Hq) as Hlt. constructor; try done.
  all: try (destruct a; apply I).
  - destruct a; simpl. rewrite length_insert. apply (si_queues_len _ I).
  - intros s' q Hs' Hq'. destruct (decide (s' = s)) as [->|Hne].
    + revert Hq'. pose proof (si_queue a I s _ Hs' Hq) as Hok. destruct a; simpl in *.
      rewrite list_lookup_insert_eq by done. intros [= <-]. by apply queue_ok_pop.
    + pose proof (si_queue a I s' q Hs') as Hok. revert Hq'. destruct a; simpl in *.
      rewrite list_lookup_insert_ne by lia. done.
  - destruct a; simpl. apply dwf_dset, (si_pending_wf _ I).
  - intros key x. pose proof (si_attempts a I key x) as Hat. destruct a; simpl in *.
    intros [[-> ->]|Hin]%elem_of_dset_inv; [simpl; lia|by apply Hat].
  - intros s' m Hs'. pose proof (si_owed a I s' m Hs') as Ho. destruct a; simpl in *.
    rewrite (unsent_insert _ _ _ _ _ _ (proj1 Hs) Hs' Hq). unfold pcount in *.
    rewrite dsum_dset_None by done. rewrite Ho. clear Ho. simpl.
    destruct (bool_decide (s' = s)) eqn:Es; bool_simpl.
    + subst. rewrite qunsent_pop. unfold unsent. simpl. rewrite Hq. simpl.
      destruct (Z.eqb_spec (q_message it) m) as [->|Hne].
      * rewrite bool_decide_true by done. lia.
      * rewrite bool_decide_false by congruence. lia.
    + rewrite bool_decide_false by congruence. lia.
  - pose proof (si_total a I) as Ht. destruct a; simpl in *.
    rewrite (total_unsent_insert _ _ _ _ Hq), queue_unsent_pop. unfold zlen in *.
    rewrite length_dset_None by done. lia.
  - destruct a; unfold window, zlen in *; simpl in *. rewrite length_dset_None by done. lia.
Qed.

Definition unsent_total (a : adapter) : Z := total_unsent (queues a).

(** A turn of the loop succeeds, keeps the invariant, moves one chunk from
    [queues] to [pending] and touches nothing else. *)
Definition same_config (a a' : adapter) : Prop :=
  a_limits a' = a_limits a ∧ a_codec a' = a_codec a ∧ a_policy a' = a_policy a ∧
  a_extensions a' = a_extensions a.

Lemma sent_state_effect now a s active it rest wire :
  sender_inv a → queues a !! Z.to_nat s = Some (it :: rest) →
  let a' := sent_state now s active it rest wire a in
  zlen (pending a') = zlen (pending a) + 1 ∧ unsent_total a' = unsent_total a - 1 ∧
  a' = set_active (active_streams a') (set_queues (queues a') (set_pending (pending a') a)).
Proof.
  intros I Hq. pose proof (sent_fresh a s it rest I Hq) as Hf. destruct a; simpl in *.
  split_and!; [| |done].
  - unfold zlen. rewrite length_dset_None by done. lia.
  - unfold unsent_total. simpl. rewrite (total_unsent_insert _ _ _ _ Hq), queue_unsent_pop. lia.
Qed.

(** ** The loop of [outbound] as a relation *)
Inductive outbound_run (now : Q) : adapter → list bytes → adapter → Prop :=
| run_stop a : window a ≤ zlen (pending a) ∨ active_streams a = [] → outbound_run now a [] a
| run_step a s active it rest wire ws a' :
    zlen (pending a) < window a →
    active_streams a = s :: active →
    0 ≤ s < max_streams (a_limits a) →
    queues a !! Z.to_nat s = Some (it :: rest) →
    encode (a_codec a) (data_frame (payload_of a) s (q_message it) (q_data it) (q_index it)) = Ok wire →
    outbound_run now (sent_state now s active it rest wire a) ws a' →
    outbound_run now a (wire :: ws) a'.

Lemma window_sent now s active it rest wire a :
  window (sent_state now s active it rest wire a) = window a.
Proof. by destruct a. Qed.

Lemma outbound_loop_run now fuel a :
  sender_inv a → window a - zlen (pending a) ≤ Z.of_nat fuel →
  ∃ ws a', outbound_loop fuel now a = (Ok ws, a') ∧ outbound_run now a ws a'.
Proof.
  revert a. induction fuel as [|fuel IH]; intros a I Hf; simpl;
    destruct (Z.ltb_spec (zlen (pending a)) (window a)) as [Hlt|Hge];
    try (eexists [], a; split; [done|constructor; by left]); [lia|].
  destruct (active_streams a) as [|s active] eqn:Ha.
  { eexists [], a. split; [done|constructor; by right]. }
  destruct (step_run now a s active I Ha) as (it & rest & wire & Hq & Hs & Hw & Hstep).
  unfold mbind, M_bind. rewrite Hstep.
  destruct (IH (sent_state now s active it rest wire a)) as (ws & a' & Hl & Hr).
  { by apply sent_state_inv. }
  { rewrite window_sent. destruct (sent_state_effect now a s active it rest wire I Hq) as [-> _]. lia. }
  rewrite Hl. eexists _, a'. split; [done|]. econstructor; eauto.
Qed.

Lemma outbound_run_inv now a ws a' : outbound_run now a ws a' → sender_inv a → sender_inv a'.
Proof. induction 1; [done|]. intros I. by apply IHoutbound_run, sent_state_inv. Qed.

(** What a run changes, and where it stops. *)
Lemma outbound_run_effect now a ws a' :
  outbound_run now a ws a' → sender_inv a →
  zlen (pending a') = zlen (pending a) + zlen ws ∧
  unsent_total a' = unsent_total a - zlen ws ∧
  a' = set_active (active_streams a') (set_queues (queues a') (set_pending (pending a') a)) ∧
  (zlen (pending a') = window a ∨ active_streams a' = []).
Proof.
  induction 1 as [a Hstop|a s active it rest wire ws a' Hlt Ha Hs Hq Hw Hrun IH]; intros I.
  - rewrite zlen_nil. split_and!; [lia|lia|by destruct a|].
    pose proof (si_window a I). destruct Hstop; [left; lia|by right].
  - destruct IH as (E1 & E2 & E3 & E4); [by apply sent_state_inv|].
    destruct (sent_state_effect now a s active it rest wire I Hq) as (F1 & F2 & F3).
    rewrite zlen_cons, window_sent in *. split_and!; [lia|lia| |done].
    rewrite E3. by destruct a, a'.
Qed.

(** [outbound] on an open adapter: it returns, with the frames of a run. *)
Lemma outbound_ok now a :
  sender_inv a → closed a = false →
  ∃ ws a', outbound now a = (Ok ws, a') ∧ outbound_run now a ws a'.
Proof.
  intros I Hc. unfold outbound, _ensure_open, mget, mraise_if, mlift, mbind, M_bind. rewrite Hc. simpl.
  apply outbound_loop_run; [done|]. pose proof (zlen_nonneg (pending a)). lia.
Qed.

(** No queue holds a chunk when no stream is active. *)
Lemma inactive_drained a : sender_inv a → active_streams a = [] → ∀ q, q ∈ queues a → q = [].
Proof.
  intros I Ha q (i & Hi)%list_elem_of_lookup. destruct q as [|it q]; [done|]. exfalso.
  assert (Z.of_nat i ∈ active_streams a) as Hin.
  { apply (si_active a I). split; [lia|]. rewrite Nat2Z.id. eauto. }
  rewrite Ha in Hin. by apply not_elem_of_nil in Hin.
Qed.

Lemma drained_total qs : (∀ q, q ∈ qs → q = []) → total_unsent qs = 0.
Proof.
  induction qs as [|q qs IH]; simpl; [done|]. intros Hq. rewrite (Hq q) by left.
  rewrite IH by (intros; apply Hq; by right). done.
Qed.

Lemma active_unsent a : sender_inv a → active_streams a ≠ [] → 1 ≤ unsent_total a.
Proof.
  intros I Ha. destruct (active_streams a) as [|s l] eqn:E; [done|].
  assert (s ∈ active_streams a) as Hs by (rewrite E; left).
  apply (si_active a I) in Hs as (Hs & it & q & Hq).
  pose proof (total_unsent_insert (queues a) _ _ [] Hq) as Ht.
  assert (0 ≤ total_unsent (<[Z.to_nat s:=[]]> (queues a))) as Hn.
  { apply total_unsent_nonneg. intros i q' Hi. destruct (decide (i = Z.to_nat s)) as [->|Hne].
    - rewrite list_lookup_insert_eq in Hi by (by eapply lookup_lt_Some). by injection Hi as <-.
    - rewrite list_lookup_insert_ne in Hi by done.
      eapply queue_unsent_nonneg, (si_queue a I (Z.of_nat i)); [lia|by rewrite Nat2Z.id]. }
  destruct (si_queue a I s _ Hs Hq) as [Hall Hnd].
  apply Forall_cons in Hall as [(_ & _ & _ & _ & Hi) Hall].
  assert (0 ≤ queue_unsent q).
  { eapply queue_unsent_nonneg. split; [done|]. by apply NoDup_cons in Hnd as [_ ?]. }
  unfold unsent_total. simpl in Ht. unfold item_unsent in Ht. lia.
Qed.
End Steps.

(** ** The other methods *)
Lemma make_adapter_inv core key side exts lim transport a :
  limits_ok lim → make_adapter core key side exts lim transport = Ok a →
  sender_inv a ∧ closed a = false.
Proof.
  intros Hl Hm. unfold make_adapter in Hm. inv_ok.
  destruct (dget PROFILES v) as [pol|] eqn:Hp; [|done]. inv_ok. subst a. split; [|done].
  pose proof (PROFILES_bounds _ _ Hp) as [_ Hw]. pose proof (make_codec_ok _ _ _ _ _ Hv1) as Hc.
  assert (∀ s q, replicate (Z.to_nat (max_streams lim)) ([] : list queued) !! s = Some q → q = []) as Hrep.
  { intros s q. by intros [-> _]%lookup_replicate. }
  assert (total_unsent (replicate (Z.to_nat (max_streams lim)) []) = 0) as Ht.
  { apply drained_total. intros q Hq. by apply elem_of_replicate in Hq as [-> _]. }
  assert (∀ s, default 0 (replicate (Z.to_nat (max_streams lim)) 0 !! s) = 0) as Hz.
  { intros s. destruct (_ !! _) as [z|] eqn:E; simpl; [|done]. by apply lookup_replicate in E as [-> _]. }
  constructor; simpl; unfold next_of; simpl;
    try done; try lia; try (by constructor); try apply length_replicate;
    try (by intros ? ?%not_elem_of_nil).
  - unfold make_codec in Hv1. inv_ok. by subst.
  - intros s. rewrite Hz. lia.
  - intros s q _ ->%Hrep. by split; constructor.
  - intros s. split; [by intros ?%not_elem_of_nil|]. by intros (_ & it & q & E%Hrep).
  - by intros ? ? ?%not_elem_of_nil.
  - by intros ? ? ? ?%not_elem_of_nil.
  - intros s m _. unfold remaining, pcount, unsent. simpl. destruct (_ !! _) as [q|] eqn:E; [|done].
    apply Hrep in E. by subst.
  - pose proof (lok_inflight lim Hl). pose proof (lok_message lim Hl). lia.
  - unfold window, zlen. simpl. pose proof (lok_window lim Hl). pose proof (lok_frames lim Hl).
    destruct (Z.eqb_spec (window_frames lim) 0); lia.
Qed.

(** The guards of [send] under which it enqueues. *)
Definition send_ok (s : Z) (data : bytes) (a : adapter) : Prop :=
  0 ≤ s < max_streams (a_limits a) ∧ data ≠ [] ∧ zlen data ≤ max_message (a_limits a) ∧
  chunk_count (payload_of a) data ≤ 65535 ∧ buffered a + zlen data ≤ max_inflight (a_limits a) ∧
  zlen (outgoing a) < 4096 ∧ next_of a s < 2 ^ 64 - 1.

Definition enqueued (s : Z) (data : bytes) (a : adapter) : adapter :=
  enqueue s (next_of a s) data (chunk_count (payload_of a) data) a.

Lemma next_of_enqueued s data a s' :
  sender_inv a → 0 ≤ s < max_streams (a_limits a) → 0 ≤ s' →
  next_of (enqueued s data a) s' = next_of a s' + (if bool_decide (s' = s) then 1 else 0).
Proof.
  intros I Hs Hs'. pose proof (si_next_len a I). unfold enqueued, next_of.
  destruct a; simpl in *. case_bool_decide as E.
  - subst. rewrite list_lookup_insert_eq by lia. simpl. lia.
  - rewrite list_lookup_insert_ne by lia. simpl. lia.
Qed.

Lemma queue_lookup a s : sender_inv a → 0 ≤ s < max_streams (a_limits a) →
  ∃ q, queues a !! Z.to_nat s = Some q.
Proof. intros I Hs. apply lookup_lt_is_Some. rewrite (si_queues_len a I). lia. Qed.

Lemma enqueued_queues s data a q :
  queues a !! Z.to_nat s = Some q →
  queues (enqueued s data a) =
  <[Z.to_nat s := q ++ [Queued (next_of a s) data 0 (chunk_count (payload_of a) data)]]> (queues a).
Proof. intros Hq. unfold enqueued. destruct a; simpl in *. by rewrite Hq. Qed.

Lemma enqueued_fresh s a : sender_inv a → 0 ≤ s →
  dget (outgoing a) (s, next_of a s) = None ∧ pcount (pending a) (s, next_of a s) = 0 ∧
  unsent (queues a) (s, next_of a s) = 0.
Proof.
  intros I Hs. split_and!.
  - destruct (dget _ _) as [o|] eqn:E; [|done]. apply dget_elem_of in E.
    apply (si_outgoing a I) in E. lia.
  - apply pcount_zero. intros [[s' m] i] Hk%(si_pending a I) [= -> ->].
    destruct Hk as (_ & Hk & _). lia.
  - unfold unsent. simpl. destruct (queues a !! Z.to_nat s) as [q|] eqn:Hq; [|done]. simpl.
    destruct (si_queue a I s q Hs Hq) as [Hall _]. apply qunsent_notin.
    intros (it & Hm & Hit)%list_elem_of_fmap. rewrite Forall_forall in Hall.
    destruct (Hall it Hit) as [Hb _]. lia.
Qed.

Lemma queue_ok_mono p b b' q : b ≤ b' → queue_ok p b q → queue_ok p b' q.
Proof.
  intros Hb [Hq Hn]. split; [|done]. eapply Forall_impl; [done|]. intros it (Hm & Hr).
  split; [lia|done].
Qed.

Lemma queue_ok_snoc p b q data :
  queue_ok p b q → 0 ≤ b → data ≠ [] → 1 ≤ p → chunk_count p data ≤ 65535 →
  queue_ok p (b + 1) (q ++ [Queued b data 0 (chunk_count p data)]).
Proof.
  intros Hq Hb Hd Hp Hc. split.
  - apply Forall_app. split; [apply (queue_ok_mono p b); [lia|done]|]. apply Forall_singleton.
    pose proof (chunk_count_bounds p data Hp Hd). unfold item_ok. simpl. split_and!; try done; lia.
  - rewrite fmap_app. apply NoDup_app. destruct Hq as [Hall Hn].
    split_and!; [done| |apply NoDup_singleton].
    intros m (it & -> & Hit)%list_elem_of_fmap Hm%list_elem_of_singleton.
    rewrite Forall_forall in Hall. destruct (Hall it Hit) as [Hb' _]. simpl in Hm. lia.
Qed.

Lemma enqueued_active s data a : sender_inv a → 0 ≤ s < max_streams (a_limits a) →
  let a' := enqueued s data a in
  NoDup (active_streams a') ∧
  ∀ s', s' ∈ active_streams a' ↔ 0 ≤ s' ∧ ∃ it q, queues a' !! Z.to_nat s' = Some (it :: q).
Proof.
  intros I Hs a'. destruct (queue_lookup a s I Hs) as [q Hq].
  pose proof (lookup_lt_Some _ _ _ Hq) as Hlt.
  pose proof (si_active_nodup a I) as Hn. pose proof (si_active a I) as Hact.
  assert (queues a' = _) as Eq by by apply enqueued_queues.
  assert (active_streams a' = match q with [] => active_streams a ++ [s] | _ => active_streams a end) as Ea.
  { unfold a', enqueued. destruct a; simpl in *. rewrite Hq. by destruct q. }
  clearbody a'. rewrite Ea, Eq. split.
  - destruct q; [|done]. apply NoDup_app. split_and!; [done| |apply NoDup_singleton].
    intros x Hx ->%list_elem_of_singleton. apply Hact in Hx as (_ & ? & ? & ?). congruence.
  - intros s'. destruct (decide (s' = s)) as [->|Hne].
    + rewrite list_lookup_insert_eq by done. split.
      * intros _. split; [lia|]. destruct q; simpl; eauto.
      * intros _. destruct q as [|it q].
        { apply elem_of_app. right. by apply list_elem_of_singleton. }
        apply Hact. split; [lia|]. eauto.
    + transitivity (s' ∈ active_streams a).
      { destruct q; [|done]. rewrite elem_of_app, list_elem_of_singleton. naive_solver. }
      rewrite Hact. split; intros (Hp & x & q' & Hl); (split; [done|]); exists x, q';
        revert Hl; by rewrite list_lookup_insert_ne by lia.
Qed.

Lemma enqueued_inv s data a : sender_inv a → send_ok s data a → sender_inv (enqueued s data a).
Proof.
  intros I (Hs & Hd & Hlen & Hc & Hbuf & Hout & Hnext).
  destruct (queue_lookup a s I Hs) as [q Hq].
  pose proof (enqueued_queues s data a q Hq) as Eq.
  pose proof (enqueued_active s data a I Hs) as [Hact1 Hact2].
  pose proof (lookup_lt_Some _ _ _ Hq) as Hlt.
  destruct (enqueued_fresh s a I ltac:(lia)) as (Ho & Hpc & Hun).
  pose proof (si_codec a I) as [Hpay _]. pose proof (si_next a I s) as Hn0.
  assert (1 ≤ payload_of a) as Hpay' by (unfold payload_of; lia).
  destruct (chunk_count_bounds (payload_of a) data Hpay' Hd) as (Hcount & _).
  assert (outgoing (enqueued s data a) = dset (outgoing a) (s, next_of a s)
            (Outgoing (chunk_count (payload_of a) data) (zlen data))) as Eo by by destruct a.
  assert (pending (enqueued s data a) = pending a) as Ep by by destruct a.
  assert (buffered (enqueued s data a) = buffered a + zlen data) as Eb by by destruct a.
  constructor; try done.
  all: try (destruct a; apply I).
  - destruct a; simpl. rewrite length_insert. apply (si_next_len _ I).
  - intros s'. destruct (decide (0 ≤ s')) as [Hs'|Hneg].
    + rewrite next_of_enqueued by done. pose proof (si_next a I s'). case_bool_decide; subst; lia.
    + replace (next_of _ s') with (next_of (enqueued s data a) 0)
        by (unfold next_of; by replace (Z.to_nat s') with (Z.to_nat 0) by lia).
      rewrite next_of_enqueued by (done || lia). pose proof (si_next a I 0). case_bool_decide; subst; lia.
  - rewrite Eq, length_insert. destruct a; apply (si_queues_len _ I).
  - intros s' q' Hs' Hq'. rewrite next_of_enqueued by done. rewrite Eq in Hq'.
    replace (payload_of (enqueued s data a)) with (payload_of a) by by destruct a.
    case_bool_decide as E.
    + subst. rewrite list_lookup_insert_eq in Hq' by done. injection Hq' as <-.
      apply queue_ok_snoc; try done; [by apply (si_queue a I)|lia].
    + rewrite list_lookup_insert_ne in Hq' by lia. rewrite Z.add_0_r. by apply (si_queue a I).
  - rewrite Ep. intros [[s' m] i] Hk. pose proof (si_pending a I _ Hk) as (Hs' & Hm & Hi).
    split; [by destruct a|]. split; [rewrite next_of_enqueued by (done || lia); case_bool_decide; lia|].
    rewrite Eq. intros q' it Hq' Hit Hmm. destruct (decide (s' = s)) as [->|Hne].
    + rewrite list_lookup_insert_eq in Hq' by done. injection Hq' as <-.
      apply elem_of_app in Hit as [Hit|Hit%list_elem_of_singleton]; [by eapply Hi|subst it].
      simpl in Hmm. lia.
    + rewrite list_lookup_insert_ne in Hq' by lia. by eapply Hi.
  - rewrite Eo. apply dwf_dset, I.
  - rewrite Eo. intros s' m o Hin. replace (max_streams _) with (max_streams (a_limits a)) by by destruct a.
    apply elem_of_dset_inv in Hin as [(Hkey & ->)|Hin]; simpl.
    + injection Hkey as -> ->. rewrite next_of_enqueued, bool_decide_true by (done || lia).
      assert (1 ≤ zlen data); [|lia]. destruct data; [done|]. rewrite zlen_cons.
      pose proof (zlen_nonneg data). lia.
    + pose proof (si_outgoing a I _ _ _ Hin) as (Hs' & Hm & Hr).
      rewrite next_of_enqueued by (done || lia). case_bool_decide; lia.
  - intros s' m Hs'. pose proof (si_owed a I s' m Hs') as Hw. rewrite Ep, Eo, Eq.
    rewrite (unsent_insert _ _ _ _ _ _ (proj1 Hs) Hs' Hq). unfold remaining in *. rewrite dget_dset.
    destruct (decide ((s', m) = (s, next_of a s))) as [[= -> ->]|Hne].
    + rewrite !bool_decide_true by done. rewrite qunsent_app, Hpc. simpl.
      unfold item_unsent. simpl. unfold unsent in Hun. simpl in Hun. rewrite Hq in Hun. simpl in Hun.
      rewrite Hun, Z.eqb_refl. lia.
    + rewrite (bool_decide_false ((s', m) = _)) by done. case_bool_decide as E; [|done].
      subst. rewrite qunsent_app. simpl. destruct (Z.eqb_spec (next_of a s) m); [congruence|].
      unfold unsent in Hw. simpl in Hw. rewrite Hq in Hw. simpl in Hw. lia.
  - rewrite Eo, Ep, Eq, dsum_dset_None by done. rewrite (total_unsent_insert _ _ _ _ Hq), queue_unsent_app.
    pose proof (si_total a I). simpl. unfold item_unsent. simpl. lia.
  - rewrite Eb, Eo, dsum_dset_None by done. pose proof (si_buffered a I). simpl. lia.
  - rewrite Eb. by destruct a.
  - rewrite Eo. unfold zlen in *. rewrite length_dset_None by done. lia.
Qed.
