(* ===== verification/S6naSender.v ===== *)
(** * S6NA: every method preserves the sender's invariant

    [send], [send_flow_controlled], [outbound], acknowledgements, [retransmit],
    [extension] and [close], with the behaviour of each on its error branches. *)
From Stdlib Require Import QArith Qabs Qminmax.
From S2P Require Import Prelude Dict PyStr PyText PyValue Json JsonRound StrictJson Sha256 S6naCodec S6naAdapter S6naInvariant.
#[global] Open Scope Z_scope.

Section Sender.
Context `{AEADLaws}.

(** ** [send] *)
Lemma send_check_Ok s data a n :
  send_check s data a = Ok n ↔
  n = chunk_count (payload_of a) data ∧ 0 ≤ s < max_streams (a_limits a) ∧ data ≠ [] ∧
  zlen data ≤ max_message (a_limits a) ∧ chunk_count (payload_of a) data ≤ 65535.
Proof.
  unfold send_check. split.
  - intros Hs. inv_ok. bool_simpl. split_and!; try done; lia.
  - intros (-> & Hs & Hd & Hl & Hc). replace (0 <=? s) with true by lia.
    replace (s <? _) with true by lia. simpl. rewrite bool_decide_false by done. simpl.
    replace (max_message (a_limits a) <? zlen data) with false by lia. simpl.
    by replace (65535 <? _) with false by lia.
Qed.

(** [send] either raises and leaves the adapter as it was, or enqueues the
    message and runs [outbound]. *)
Lemma send_cases now s data a :
  sender_inv a → closed a = false →
  (∃ e, send now s data a = (Raise e, a) ∧ ¬ send_ok s data a) ∨
  (∃ ws a', send now s data a = (Ok ws, a') ∧ send_ok s data a ∧
            outbound_run now (enqueued s data a) ws a').
Proof.
  intros I Hc. unfold send, _ensure_open, mget, mraise_if, mlift, mmod, mbind, M_bind.
  rewrite Hc. simpl. destruct (send_check s data a) as [n|e] eqn:Hchk.
  2: { left. exists e. split; [done|]. intros Hok.
       assert (send_check s data a = Ok (chunk_count (payload_of a) data)); [|congruence].
       apply send_check_Ok. unfold send_ok in Hok. naive_solver. }
  apply send_check_Ok in Hchk as (-> & Hs & Hd & Hl & Hcnt).
  destruct ((max_inflight (a_limits a) <? buffered a + zlen data) || (4096 <=? zlen (outgoing a))) eqn:Hfull.
  { left. eexists. split; [done|]. unfold send_ok. apply orb_true_iff in Hfull. lia. }
  simpl. fold (next_of a s). apply orb_false_iff in Hfull.
  destruct (Z.leb_spec (2 ^ 64 - 1) (next_of a s)) as [Hx|Hx].
  { left. eexists. split; [done|]. unfold send_ok. lia. }
  simpl. fold (enqueued s data a). right.
  assert (send_ok s data a) as Hok by (unfold send_ok; split_and!; try done; lia).
  assert (closed (enqueued s data a) = false) as Hc' by by destruct a.
  destruct (outbound_ok now _ (enqueued_inv s data a I Hok) Hc') as (ws & a' & Ho & Hr).
  by eauto 6.
Qed.

Lemma send_accepts now s data a :
  sender_inv a → closed a = false → send_ok s data a →
  ∃ ws a', send now s data a = (Ok ws, a') ∧ outbound_run now (enqueued s data a) ws a'.
Proof.
  intros I Hc Hok. destruct (send_cases now s data a I Hc) as [(e & _ & Hn)|(ws & a' & ? & _ & ?)]; [done|].
  by eauto.
Qed.

Lemma outbound_closed now a : closed a = true →
  outbound now a = (raise AdapterClosed "S6NA adapter is closed", a).
Proof. intros Hc. unfold outbound, _ensure_open, mget, mraise_if, mlift, mbind, M_bind. by rewrite Hc. Qed.

Lemma send_closed now s data a : closed a = true →
  send now s data a = (raise AdapterClosed "S6NA adapter is closed", a).
Proof. intros Hc. unfold send, _ensure_open, mget, mraise_if, mlift, mbind, M_bind. by rewrite Hc. Qed.

(** ** Flow control *)
Lemma enqueued_total s data a : sender_inv a → 0 ≤ s < max_streams (a_limits a) → data ≠ [] →
  unsent_total (enqueued s data a) = unsent_total a + chunk_count (payload_of a) data ∧
  pending (enqueued s data a) = pending a ∧ window (enqueued s data a) = window a.
Proof.
  intros I Hs Hd. destruct (queue_lookup a s I Hs) as [q Hq]. unfold unsent_total.
  rewrite (enqueued_queues s data a q Hq), (total_unsent_insert _ _ _ _ Hq), queue_unsent_app.
  simpl. unfold item_unsent. simpl. split_and!; [lia|by destruct a|by destruct a].
Qed.

(** The credit an open adapter reports is room in the window: everything it
    owes, sent or queued, and the credit together fit. *)
Lemma credit_room a : sender_inv a → 0 < application_credit a →
  zlen (pending a) + unsent_total a + application_credit a ≤ window a ∧
  zlen (outgoing a) + application_credit a ≤ 4096.
Proof.
  intros I. unfold application_credit. destruct (closed a); [lia|].
  pose proof (si_total a I). unfold unsent_total. lia.
Qed.

Lemma send_flow_cases now s data a r a' :
  send_flow_controlled now s data a = (r, a') →
  (∃ e, r = Raise e ∧ a' = a) ∨
  chunk_count (payload_of a) data ≤ application_credit a ∧ 0 ≤ s < max_streams (a_limits a) ∧
  data ≠ [] ∧ send now s data a = (r, a').
Proof.
  unfold send_flow_controlled, _ensure_open, mget, mraise_if, mlift, mbind, M_bind.
  destruct (closed a); simpl; [intros [= <- <-]; by eauto|].
  destruct (send_check s data a) as [n|e] eqn:Hchk; [|intros [= <- <-]; by eauto].
  apply send_check_Ok in Hchk as (-> & Hs & Hd & Hl & Hcnt).
  destruct (Z.ltb_spec (application_credit a) (chunk_count (payload_of a) data)) as [Hx|Hx]; simpl.
  - intros [= <- <-]. by eauto.
  - intros Hsend. right. split_and!; try done; lia.
Qed.

(** A send within the credit leaves no chunk queued. *)
Lemma flow_send_drains now s data a ws a' :
  sender_inv a → closed a = false → send_flow_controlled now s data a = (Ok ws, a') →
  active_streams a' = [] ∧ zlen ws = unsent_total a + chunk_count (payload_of a) data.
Proof.
  intros I Hc Hf. apply send_flow_cases in Hf as [(e & ? & _)|(Hcr & Hs & Hd & Hf)]; [done|].
  destruct (send_cases now s data a I Hc) as [(e & ? & _)|(ws' & a'' & Hs' & Hok & Hr)]; [congruence|].
  rewrite Hf in Hs'. injection Hs' as <- <-.
  pose proof (enqueued_inv s data a I Hok) as I'. pose proof (outbound_run_inv _ _ _ _ Hr I') as I''.
  destruct (outbound_run_effect _ _ _ _ Hr I') as (E1 & E2 & E3 & E4).
  destruct (enqueued_total s data a I Hs Hd) as (F1 & F2 & F3). rewrite F1, F2, F3 in *.
  pose proof (si_codec a I) as [Hp _].
  destruct (chunk_count_bounds (payload_of a) data ltac:(unfold payload_of; lia) Hd) as [Hcnt _].
  destruct (credit_room a I ltac:(lia)) as [Hroom _].
  assert (active_streams a' = []) as Ha.
  { destruct E4 as [E4|E4]; [|done]. destruct (decide (active_streams a' = [])) as [|Hne]; [done|].
    pose proof (active_unsent a' I'' Hne). lia. }
  split; [done|]. pose proof (inactive_drained a' I'' Ha) as Hdr. apply drained_total in Hdr.
  unfold unsent_total in *. lia.
Qed.

(** ** Acknowledgements *)

(** The part of the state the sender's invariant reads. *)
Definition sender_view (a : adapter) :=
  (a_limits a, a_codec a, a_policy a, next_message a, pending a, queues a, active_streams a,
   outgoing a, buffered a).

Lemma sender_view_inv a a' : sender_view a' = sender_view a → sender_inv a → sender_inv a'.
Proof.
  destruct a, a'. unfold sender_view. simpl. intros [= -> -> -> -> -> -> -> -> ->] I.
  constructor; apply I.
Qed.

(** What acknowledging [key] does to the accounting. *)
Definition settle (key : Z * Z * Z) (o : out_item) (a : adapter) : adapter :=
  let a := set_pending (ddel (pending a) key) a in
  if o_remaining o - 1 =? 0
  then set_outgoing (ddel (outgoing a) key.1) (buffered a - o_length o) a
  else set_outgoing (dset (outgoing a) key.1 (Outgoing (o_remaining o - 1) (o_length o))) (buffered a) a.

Lemma pcount_pos pend key it : dget pend key = Some it → 1 ≤ pcount pend key.1.
Proof.
  intros Hk%dget_elem_of. pose proof (dsum_elem_le (λ k (_ : pending_item),
    if bool_decide (k.1 = key.1) then 1 else 0) pend key it) as Hle.
  cbv beta in Hle. rewrite (bool_decide_true (key.1 = key.1)) in Hle by done. apply Hle; [|done]. intros. case_bool_decide; lia.
Qed.

Lemma unsent_nonneg a s m : sender_inv a → 0 ≤ s → 0 ≤ unsent (queues a) (s, m).
Proof.
  intros I Hs. unfold unsent. simpl. destruct (queues a !! Z.to_nat s) as [q|] eqn:Hq; [|done].
  by eapply qunsent_nonneg, (si_queue a I).
Qed.

(** A pending frame belongs to a message of [outgoing]: [receive] never looks
    up a missing key. *)
Lemma pending_outgoing a key it :
  sender_inv a → dget (pending a) key = Some it → is_Some (dget (outgoing a) key.1).
Proof.
  intros I Hk. destruct key as [[s m] i]. simpl.
  pose proof (si_pending a I _ (dget_Some_key _ _ _ Hk)) as (Hs & _).
  pose proof (si_owed a I s m ltac:(lia)) as Ho. pose proof (pcount_pos _ _ _ Hk) as Hp. simpl in Hp.
  pose proof (unsent_nonneg a s m I ltac:(lia)). unfold remaining in Ho.
  destruct (dget (outgoing a) (s, m)); [by eexists|lia].
Qed.

Lemma pcount_ddel pend key it sm :
  dwf pend → dget pend key = Some it →
  pcount (ddel pend key) sm = pcount pend sm - (if bool_decide (key.1 = sm) then 1 else 0).
Proof. intros Hwf Hk. unfold pcount. by rewrite (dsum_ddel_Some _ _ _ _ Hwf Hk). Qed.

(** Bookkeeping of the outgoing table under [settle]. *)
Lemma settle_outgoing a key o :
  sender_inv a → dget (outgoing a) key.1 = Some o → 1 ≤ o_remaining o →
  let a' := settle key o a in
  dwf (outgoing a') ∧
  (∀ sm, remaining (outgoing a') sm = remaining (outgoing a) sm - (if bool_decide (key.1 = sm) then 1 else 0)) ∧
  dsum (λ _ o, o_remaining o) (outgoing a') = dsum (λ _ o, o_remaining o) (outgoing a) - 1 ∧
  (∀ sm x, (sm, x) ∈ outgoing a' → 1 ≤ o_remaining x ∧ ∃ y, (sm, y) ∈ outgoing a ∧ o_length x = o_length y) ∧
  buffered a' = dsum (λ _ o, o_length o) (outgoing a') ∧ buffered a' ≤ buffered a ∧
  zlen (outgoing a') ≤ zlen (outgoing a).
Proof.
  intros I Ho Hr. pose proof (si_outgoing_wf a I) as Hwf. pose proof (si_buffered a I) as Hb.
  destruct key as [[s m] i]. simpl in Ho. pose proof (dget_elem_of _ _ _ Ho) as Hin.
  destruct (si_outgoing a I _ _ _ Hin) as (_ & _ & _ & Hlen).
  pose proof (si_outgoing a I) as Hout.
  unfold settle. simpl. destruct (Z.eqb_spec (o_remaining o - 1) 0) as [Hz|Hz]; destruct a; simpl in *;
    unfold remaining, zlen in *; split_and!.
  - by apply dwf_ddel.
  - intros sm. destruct (decide ((s, m) = sm)) as [<-|Hne].
    + rewrite dget_ddel_eq, Ho, bool_decide_true by done. lia.
    + rewrite dget_ddel_ne, bool_decide_false by done. lia.
  - rewrite (dsum_ddel_Some _ _ _ _ Hwf Ho). lia.
  - intros [s' m'] x [Hne Hx]%elem_of_ddel. pose proof (Hout _ _ _ Hx). split; [lia|by eauto].
  - rewrite (dsum_ddel_Some _ _ _ _ Hwf Ho). lia.
  - lia.
  - pose proof (length_ddel_le outgoing (s, m)). lia.
  - by apply dwf_dset.
  - intros sm. rewrite dget_dset. destruct (decide ((s, m) = sm)) as [<-|Hne].
    + rewrite !bool_decide_true, Ho by done. simpl. lia.
    + rewrite !bool_decide_false by congruence. lia.
  - rewrite (dsum_dset_Some _ _ _ _ _ Ho). simpl. lia.
  - intros [s' m'] x [(Hk & ->)|Hx]%elem_of_dset_inv; simpl.
    + injection Hk as -> ->. split; [lia|by eauto].
    + pose proof (Hout _ _ _ Hx). split; [lia|by eauto].
  - rewrite (dsum_dset_Some _ _ _ _ _ Ho). simpl. lia.
  - lia.
  - rewrite (length_dset_Some _ _ _ _ Ho). lia.
Qed.

Lemma settle_inv a key it o :
  sender_inv a → dget (pending a) key = Some it → dget (outgoing a) key.1 = Some o →
  sender_inv (settle key o a).
Proof.
  intros I Hk Ho. assert (1 ≤ o_remaining o) as Hr.
  { destruct key as [[s m] i]. apply dget_elem_of in Ho. apply (si_outgoing a I) in Ho. lia. }
  destruct (settle_outgoing a key o I Ho Hr) as (Hwf & Hrem & Htot & Hel & Hbuf & Hle & Hlen).
  assert (∃ og bu, settle key o a = set_outgoing og bu (set_pending (ddel (pending a) key) a)) as (og & bu & E).
  { unfold settle. destruct (_ =? _); destruct a; simpl; eauto. }
  pose proof (si_pending_wf a I) as Hpwf. pose proof (length_ddel_Some _ _ _ Hpwf Hk) as Hplen.
  rewrite E in *. destruct a; simpl in *. constructor; simpl; try done; try apply I.
  - by apply dwf_ddel.
  - intros k [_ Hin]%elem_of_dkeys_ddel. apply (si_pending _ I _ Hin).
  - intros k x [_ Hin]%elem_of_ddel. by apply (si_attempts _ I k).
  - intros s m x Hx. destruct (Hel _ _ Hx) as (? & y & Hy & ->). apply (si_outgoing _ I) in Hy.
    simpl in Hy. unfold next_of in *. simpl in *. lia.
  - intros s m Hs. rewrite Hrem, (pcount_ddel _ _ _ _ Hpwf Hk).
    pose proof (si_owed _ I s m Hs) as Hw. simpl in Hw. lia.
  - pose proof (si_total _ I) as Ht. simpl in Ht. unfold zlen in *. lia.
  - pose proof (si_inflight _ I) as Hi. simpl in Hi. lia.
  - pose proof (si_out_count _ I) as Hi. simpl in Hi. lia.
  - pose proof (si_window _ I) as Hw. unfold window, zlen in *. simpl in *. lia.
Qed.

Lemma sample_view x a : sender_view (_sample x a) = sender_view a ∧ closed (_sample x a) = closed a.
Proof. unfold _sample. destruct a; simpl. destruct rtt as [[? ?]|]; done. Qed.

(** [receive] of an acknowledgement never raises. *)
Lemma receive_ack_ok now f a :
  sender_inv a →
  ∃ a', receive_ack now f a = (Ok (Received [] [] []), a') ∧ sender_inv a' ∧
        closed a' = closed a ∧
        pending a' = ddel (pending a) (f_stream f, f_message f, f_index f) ∧ queues a' = queues a.
Proof.
  intros I. unfold receive_ack. set (key := (f_stream f, f_message f, f_index f)).
  destruct (dget (pending a) key) as [it|] eqn:Hk.
  2: { exists a. split_and!; try done. by rewrite ddel_notin. }
  destruct (pending_outgoing a key it I Hk) as [o Ho].
  replace (dget (outgoing (set_pending _ a)) key.1) with (Some o) by (by destruct a).
  pose proof (settle_inv a key it o I Hk Ho) as I'.
  change (if o_remaining o - 1 =? 0 then _ else _) with (settle key o a).
  assert (pending (settle key o a) = ddel (pending a) key ∧ queues (settle key o a) = queues a ∧
          closed (settle key o a) = closed a) as (E1 & E2 & E3).
  { unfold settle. destruct (_ =? _); by destruct a. }
  destruct (pi_retried it).
  { eexists. split_and!; done. }
  destruct (sample_view (Qmax 0 (now - pi_sent it)) (settle key o a)) as [Hv Hc].
  eexists. split; [done|]. split; [by eapply sender_view_inv|].
  injection Hv as ? ? ? ? ? ? ? ? ?. split_and!; congruence.
Qed.

(** ** Retransmission *)
Lemma repend_inv a key it it' :
  sender_inv a → dget (pending a) key = Some it → 0 ≤ pi_attempts it' ≤ 8 →
  sender_inv (set_pending (dset (pending a) key it') a).
Proof.
  intros I Hk Hat. pose proof (dkeys_dset_Some _ _ it' _ Hk) as Hkeys.
  pose proof (length_dset_Some _ _ it' _ Hk) as Hlen. destruct a; simpl in *.
  constructor; simpl; try apply I.
  - apply dwf_dset, (si_pending_wf _ I).
  - rewrite Hkeys. apply (si_pending _ I).
  - intros k x [(-> & ->)|Hin]%elem_of_dset_inv; [done|by apply (si_attempts _ I k)].
  - intros s m Hs. pose proof (si_owed _ I s m Hs) as Ho. simpl in Ho. unfold pcount in *.
    rewrite (dsum_dset_Some _ _ _ _ _ Hk). lia.
  - pose proof (si_total _ I) as Ht. simpl in Ht. unfold zlen in *. by rewrite Hlen.
  - pose proof (si_window _ I) as Hw. unfold window, zlen in *. simpl in *. by rewrite Hlen.
Qed.

(** What [resend] does to one frame. *)
Definition resent (now : Q) (timeout : Q) (it : pending_item) : pending_item :=
  Pending (pi_wire it) (now + Qmin 5 (timeout * inject_Z (2 ^ (pi_attempts it + 1))))%Q
    (pi_attempts it + 1) (pi_size it) (pi_sent it) true.

Lemma resend_ok now items a :
  sender_inv a → dwf items → (∀ k it, (k, it) ∈ items → dget (pending a) k = Some it) →
  ∃ r a', resend now items a = (r, a') ∧ sender_inv a' ∧
    a' = set_pending (pending a') a ∧ dkeys (pending a') = dkeys (pending a) ∧
    match r with
    | Ok ws => ws = (pi_wire <$> (filter (λ it, Qle_bool (pi_deadline it) now) items.*2)) ∧
               (∀ k it, (k, it) ∈ items → Qle_bool (pi_deadline it) now → pi_attempts it < 8)
    | Raise e => exn_cls e = AdapterRetryLimit ∧
                 ∃ k it, (k, it) ∈ items ∧ pi_attempts it = 8 ∧ Qle_bool (pi_deadline it) now
    end.
Proof.
  revert a. induction items as [|[key it] items IH]; intros a I Hwf Hin.
  { exists (Ok []), a. split_and!; try done; [by destruct a|]. by intros ? ? ?%not_elem_of_nil. }
  assert (dwf items ∧ key ∉ dkeys items) as [Hwf' Hkey].
  { unfold dwf, dkeys in *. simpl in Hwf. apply NoDup_cons in Hwf. naive_solver. }
  cbn [resend]. rewrite fmap_cons. cbn [snd].
  destruct (Qle_bool (pi_deadline it) now) eqn:Hdue; cbn [negb].
  2: { destruct (IH a I Hwf') as (r & a' & Hr & I' & Ea & Ek & Hspec).
       { intros k x Hx. apply Hin. by right. }
       exists r, a'. split_and!; try done. destruct r as [ws|e].
       - rewrite filter_cons_False by (rewrite Hdue; by intros []). destruct Hspec as [-> Hat]. split; [done|].
         intros k x [[= -> ->]|Hx]%elem_of_cons; [rewrite Hdue; by intros []|by eapply Hat].
       - destruct Hspec as (? & k & x & Hx & ?). split; [done|]. exists k, x. split; [by right|done]. }
  assert (dget (pending a) key = Some it) as Hk by (apply Hin; left).
  pose proof (si_attempts a I key it (dget_elem_of _ _ _ Hk)) as Hat.
  destruct (Z.leb_spec 8 (pi_attempts it)) as [H8|H8].
  { exists (raise AdapterRetryLimit "retransmission limit reached"), a.
    split_and!; try done; [by destruct a|]. split; [done|]. exists key, it.
    split_and!; [left|lia|by rewrite Hdue]. }
  change (Pending _ _ _ _ _ true) with (resent now (rto a) it).
  pose proof (repend_inv a key it (resent now (rto a) it) I Hk ltac:(simpl; lia)) as I1.
  destruct (IH (set_pending (dset (pending a) key (resent now (rto a) it)) a) I1 Hwf')
    as (r & a' & Hr & I' & Ea & Ek & Hspec).
  { intros k x Hx. assert (k ≠ key).
    { intros ->. apply Hkey. unfold dkeys. apply list_elem_of_fmap. by exists (key, x). }
    replace (pending (set_pending _ a)) with (dset (pending a) key (resent now (rto a) it)) by by destruct a.
    rewrite dget_dset_ne by done. apply Hin. by right. }
  unfold mbind, M_bind. rewrite Hr. clear Hr.
  assert (a' = set_pending (pending a') a) as Ea' by (rewrite Ea; by destruct a, a').
  assert (dkeys (pending a') = dkeys (pending a)) as Ek'.
  { rewrite Ek. replace (pending (set_pending _ a)) with (dset (pending a) key (resent now (rto a) it)) by by destruct a.
    by eapply dkeys_dset_Some. }
  destruct r as [ws|e]; eexists _, a'; (split; [done|]); (split; [done|]); (split; [done|]); (split; [done|]).
  - rewrite filter_cons_True by (rewrite Hdue; done). destruct Hspec as [-> Hat']. split; [done|].
    intros k x [[= -> ->]|Hx]%elem_of_cons; [done|by eapply Hat'].
  - destruct Hspec as (? & k & x & Hx & ?). split; [done|]. exists k, x. split; [by right|done].
Qed.

Lemma expire_fold now items a :
  let a' := foldl (λ a kv, if Qle_bool (in_deadline kv.2) now
                           then set_incoming (ddel (incoming a) kv.1) (incoming_bytes a - in_bytes kv.2) a
                           else a) a items in
  a' = set_incoming (incoming a') (incoming_bytes a') a.
Proof.
  revert a. induction items as [|kv items IH]; intros a; simpl; [by destruct a|].
  rewrite IH at 1. destruct (Qle_bool _ _); [|by destruct a].
  set (b := foldl _ _ items). by destruct a, b.
Qed.

Lemma expire_view now a : sender_view (expire now a) = sender_view a ∧ closed (expire now a) = closed a
  ∧ rto (expire now a) = rto a.
Proof. pose proof (expire_fold now (incoming a) a) as E. unfold expire. simpl in E. rewrite E. by destruct a. Qed.

(** [retransmit] on an open adapter: the invariant survives every outcome; a
    failure means some frame had its eight retries. *)
Lemma retransmit_ok now a :
  sender_inv a → closed a = false →
  ∃ r a', retransmit now a = (r, a') ∧ sender_inv a' ∧ closed a' = false ∧
    match r with
    | Ok ws => ∃ ws1 ws2, ws = ws1 ++ ws2 ∧
        ws1 = (pi_wire <$> (filter (λ it, Qle_bool (pi_deadline it) now) (pending a).*2))
    | Raise e => exn_cls e = AdapterRetryLimit ∧
        ∃ k it, (k, it) ∈ pending a ∧ pi_attempts it = 8 ∧ Qle_bool (pi_deadline it) now
    end.
Proof.
  intros I Hc. unfold retransmit, _ensure_open, mget, mraise_if, mlift, mmod, mbind, M_bind. rewrite Hc. simpl.
  destruct (expire_view now a) as (Hv & Hcl & _). pose proof (sender_view_inv _ _ Hv I) as I1.
  assert (pending (expire now a) = pending a) as Ep by (by injection Hv).
  destruct (resend_ok now (pending (expire now a)) (expire now a) I1) as (r & a1 & Hr & I2 & Ea & _ & Hspec).
  { apply I1. } { intros k it Hin. apply elem_of_dget; [apply I1|done]. }
  rewrite Hr. rewrite Ep in Hspec.
  assert (closed a1 = false) as Hc1 by (rewrite Ea; destruct (expire now a); simpl in *; congruence).
  destruct r as [ws|e]; [|by eauto 8].
  destruct (outbound_ok now a1 I2 Hc1) as (ws2 & a2 & Ho & Hrun). rewrite Ho.
  pose proof (outbound_run_inv _ _ _ _ Hrun I2) as I3.
  destruct (outbound_run_effect _ _ _ _ Hrun I2) as (_ & _ & E & _).
  eexists _, a2. split; [done|]. split; [done|]. split; [rewrite E; by destruct a1|].
  exists ws, ws2. destruct Hspec as [-> _]. done.
Qed.
End Sender.
