(* ===== verification/S6naReceiver.v ===== *)
(** * S6NA: reassembly

    The receiver's invariant over [incoming], [incoming_bytes] and the
    completed window, its preservation by [receive] and [retransmit], and the
    correctness of the joined message. *)
From Stdlib Require Import QArith Qabs Qminmax.
From S2P Require Import Prelude Dict PyStr PyText PyValue Json JsonRound StrictJson Sha256 S6naCodec S6naAdapter S6naInvariant S6naSender.
#[global] Open Scope Z_scope.

Definition parts_bytes (parts : list (Z * bytes)) : Z := dsum (λ _ b, zlen b) parts.

Record incoming_ok (lim : limits) (st : incoming_state) : Prop := {
  io_count : 1 ≤ in_count st ≤ 65535;
  io_wf : dwf (in_parts st);
  io_parts : ∀ i b, (i, b) ∈ in_parts st → 0 ≤ i < in_count st ∧ b ≠ [];
  io_bytes : in_bytes st = parts_bytes (in_parts st);
  io_limit : in_bytes st ≤ max_message lim;
}.

Record receiver_inv (a : adapter) : Prop := {
  ri_wf : dwf (incoming a);
  ri_ok : ∀ k st, (k, st) ∈ incoming a → incoming_ok (a_limits a) st ∧ 1 ≤ zlen (in_parts st) < in_count st;
  ri_count : zlen (incoming a) ≤ 4096;
  ri_bytes : incoming_bytes a = dsum (λ _ st, in_bytes st) (incoming a);
  ri_limit : incoming_bytes a ≤ max_inflight (a_limits a);
  ri_order : ∀ k, k ∈ completed a ↔ k ∈ completed_order a;
  ri_nodup : NoDup (completed_order a);
  ri_window : zlen (completed_order a) ≤ 4096;
}.

Lemma make_adapter_receiver core key side exts lim transport a :
  limits_ok lim → make_adapter core key side exts lim transport = Ok a → receiver_inv a.
Proof.
  intros Hl Hm. unfold make_adapter in Hm. inv_ok.
  destruct (dget PROFILES v) as [pol|] eqn:Hp; [|done]. inv_ok. subst a.
  pose proof (lok_inflight lim Hl). pose proof (lok_message lim Hl).
  constructor; simpl; try done; try lia; try (by constructor).
  - by intros ? ? ?%not_elem_of_nil.
  - intros k. split; [by intros ?%not_elem_of_empty|by intros ?%not_elem_of_nil].
Qed.

(** ** Joining the parts *)
Definition index_range (count : Z) : list Z := Z.of_nat <$> seq 0 (Z.to_nat count).

Lemma elem_of_index_range count i : i ∈ index_range count ↔ 0 ≤ i < count.
Proof.
  unfold index_range. rewrite list_elem_of_fmap. setoid_rewrite elem_of_seq. split.
  - intros (n & -> & Hn). lia.
  - intros Hi. exists (Z.to_nat i). lia.
Qed.

Lemma NoDup_index_range count : NoDup (index_range count).
Proof. apply (NoDup_fmap_2 Z.of_nat), NoDup_seq. Qed.

Lemma length_index_range count : length (index_range count) = Z.to_nat count.
Proof. unfold index_range. by rewrite length_fmap, length_seq. Qed.

(** A full reassembly has every index. *)
Lemma parts_full (parts : list (Z * bytes)) count :
  dwf parts → (∀ i b, (i, b) ∈ parts → 0 ≤ i < count) → zlen parts = count →
  dkeys parts ≡ₚ index_range count.
Proof.
  intros Hwf Hin Hlen. apply submseteq_length_Permutation.
  - apply NoDup_submseteq; [done|]. intros i Hi. apply elem_of_index_range.
    unfold dkeys in Hi. apply list_elem_of_fmap in Hi as ([j b] & -> & Hj). by eapply Hin.
  - rewrite length_index_range. unfold dkeys. rewrite length_fmap. unfold zlen in Hlen. lia.
Qed.

Lemma join_parts_spec parts count (g : Z → bytes) :
  (∀ i, 0 ≤ i < count → dget parts i = Some (g i)) →
  join_parts parts count = Ok (concat (g <$> index_range count)).
Proof.
  intros Hg. unfold join_parts. fold (index_range count).
  assert (∀ l, (∀ i, i ∈ l → 0 ≤ i < count) →
    map_res (λ i, match dget parts i with Some b => Ok b | None => raise KeyError "parts" end) l
    = Ok (g <$> l)) as Hm; [|by rewrite Hm by (intros i; apply elem_of_index_range)].
  induction l as [|i l IH]; intros Hl; [done|]. simpl. rewrite (Hg i) by (apply Hl; left).
  simpl. rewrite IH; [done|]. intros j Hj. apply Hl. by right.
Qed.

Lemma zlen_concat (ls : list bytes) : zlen (concat ls) = foldr (λ b acc, zlen b + acc) 0 ls.
Proof. induction ls as [|b ls IH]; [done|]. simpl. rewrite zlen_app, IH. done. Qed.

Lemma foldr_zlen_perm (l l' : list bytes) :
  l ≡ₚ l' → foldr (λ b acc, zlen b + acc) 0 l = foldr (λ b acc, zlen b + acc) 0 l'.
Proof. induction 1; simpl; lia. Qed.

Lemma dsum_values (parts : list (Z * bytes)) :
  parts_bytes parts = foldr (λ b acc, zlen b + acc) 0 parts.*2.
Proof. unfold parts_bytes, dsum. induction parts as [|[i b] parts IH]; simpl; [done|]. by rewrite IH. Qed.

(** Joining a full reassembly succeeds, with the counted number of bytes. *)
Lemma join_parts_full parts count :
  dwf parts → (∀ i b, (i, b) ∈ parts → 0 ≤ i < count) → zlen parts = count →
  ∃ data, join_parts parts count = Ok data ∧ zlen data = parts_bytes parts ∧
          data = concat ((λ i, default [] (dget parts i)) <$> index_range count).
Proof.
  intros Hwf Hin Hlen. pose proof (parts_full parts count Hwf Hin Hlen) as Hperm.
  exists (concat ((λ i, default [] (dget parts i)) <$> index_range count)). split_and!; [| |done].
  - apply join_parts_spec. intros i Hi. destruct (dget parts i) eqn:E; [done|].
    apply dget_None in E. exfalso. apply E. rewrite Hperm. by apply elem_of_index_range.
  - rewrite zlen_concat, dsum_values. apply foldr_zlen_perm. rewrite <- Hperm. unfold dkeys.
    rewrite <- list_fmap_compose. apply reflexive_eq. apply list_fmap_ext.
    intros n [i b] Hn. simpl. apply list_elem_of_lookup_2 in Hn. by rewrite (elem_of_dget _ _ _ Hwf Hn).
Qed.

(** ** One data frame *)
Definition fkey (f : frame) : Z * Z := (f_stream f, f_message f).

Definition base_state (now : Q) (lim : limits) (f : frame) (known : option incoming_state) : incoming_state :=
  default (Incoming (f_count f) [] 0 (now + inject_Z (reassembly_seconds lim))%Q) known.

Definition add_part (f : frame) (st : incoming_state) : incoming_state :=
  if dmem (in_parts st) (f_index f) then st
  else Incoming (in_count st) (dset (in_parts st) (f_index f) (f_payload f))
         (in_bytes st + zlen (f_payload f)) (in_deadline st).

(** The state of the message after the frame, and the adapter holding it. *)
Definition next_state (now : Q) (f : frame) (a : adapter) : incoming_state :=
  add_part f (base_state now (a_limits a) f (dget (incoming a) (fkey f))).
Definition part_total (now : Q) (f : frame) (a : adapter) : Z :=
  incoming_bytes a - in_bytes (base_state now (a_limits a) f (dget (incoming a) (fkey f)))
  + in_bytes (next_state now f a).
Definition stored (now : Q) (f : frame) (a : adapter) : adapter :=
  set_incoming (dset (incoming a) (fkey f) (next_state now f a)) (part_total now f a) a.
Definition finished (now : Q) (f : frame) (a : adapter) : adapter :=
  _remember (fkey f)
    (set_incoming (ddel (dset (incoming a) (fkey f) (next_state now f a)) (fkey f))
                  (part_total now f a - in_bytes (next_state now f a)) a).

(** The guards of the data branch. *)
Definition part_ok (now : Q) (f : frame) (a : adapter) : Prop :=
  let st := base_state now (a_limits a) f (dget (incoming a) (fkey f)) in
  f_payload f ≠ [] ∧
  (dget (incoming a) (fkey f) = None → zlen (incoming a) < 4096) ∧
  in_count st = f_count f ∧
  part_total now f a ≤ max_inflight (a_limits a) ∧
  in_bytes (next_state now f a) ≤ max_message (a_limits a).

Definition frame_range (f : frame) : Prop := 0 ≤ f_index f < f_count f ∧ f_count f ≤ 65535.

Lemma base_state_ok now f a :
  receiver_inv a → frame_range f → limits_ok (a_limits a) →
  let st := base_state now (a_limits a) f (dget (incoming a) (fkey f)) in
  incoming_ok (a_limits a) st ∧ 0 ≤ zlen (in_parts st) < in_count st.
Proof.
  intros R Hf Hl. unfold frame_range in Hf. simpl.
  destruct (dget (incoming a) (fkey f)) as [st|] eqn:E; simpl.
  - apply dget_elem_of in E. destruct (ri_ok a R _ _ E). split; [done|lia].
  - split; [|unfold zlen; simpl; lia]. pose proof (lok_message _ Hl).
    constructor; simpl; try done; try lia; [apply dwf_nil|]. by intros ? ? ?%not_elem_of_nil.
Qed.

Lemma add_part_ok lim f st :
  incoming_ok lim st → zlen (in_parts st) < in_count st → in_count st = f_count f →
  frame_range f → f_payload f ≠ [] → in_bytes (add_part f st) ≤ max_message lim →
  incoming_ok lim (add_part f st) ∧ in_count (add_part f st) = f_count f ∧
  1 ≤ zlen (in_parts (add_part f st)) ≤ in_count st ∧
  in_bytes st ≤ in_bytes (add_part f st) ∧ is_Some (dget (in_parts (add_part f st)) (f_index f)).
Proof.
  intros Hst Hlt Hc Hr Hp. unfold add_part, dmem, frame_range in *. pose proof (zlen_nonneg (f_payload f)).
  destruct (dget (in_parts st) (f_index f)) as [b|] eqn:E; simpl; intros Hb.
  - split_and!; try done; try lia.
    apply dget_elem_of in E. destruct (in_parts st); [by apply not_elem_of_nil in E|].
    rewrite zlen_cons. pose proof (zlen_nonneg l). lia.
  - pose proof (length_dset_None _ _ (f_payload f) E). pose proof (zlen_nonneg (in_parts st)).
    split_and!; try done; unfold zlen in *; try lia; [|rewrite dget_dset_eq; by eexists].
    destruct Hst. constructor; simpl; try done; [by apply dwf_dset| |].
    + intros i b [(-> & ->)|Hin]%elem_of_dset_inv; [split; [lia|done]|by apply io_parts0].
    + unfold parts_bytes in *. rewrite dsum_dset_None by done. rewrite io_bytes0. done.
Qed.

(** The data branch: refused without a trace, stored, or finished. *)
Lemma receive_data_cases now ack f a :
  receiver_inv a → limits_ok (a_limits a) → frame_range f →
  (¬ part_ok now f a ∧ ∃ e, receive_data now ack f a = (Raise e, a)) ∨
  (part_ok now f a ∧ zlen (in_parts (next_state now f a)) < f_count f ∧
   receive_data now ack f a = (Ok (Received [ack] [] []), stored now f a)) ∨
  (part_ok now f a ∧ zlen (in_parts (next_state now f a)) = f_count f ∧ ∃ data,
   join_parts (in_parts (next_state now f a)) (f_count f) = Ok data ∧
   receive_data now ack f a = (Ok (Received [ack] [(f_stream f, data)] []), finished now f a)).
Proof.
  intros R Hl Hf. pose proof (base_state_ok now f a R Hf Hl) as [Hbase Hblen].
  unfold part_ok, part_total, finished, stored, part_total, next_state in *.
  unfold receive_data, mget, mraise_if, mlift, mmod, mbind, M_bind, mret, M_ret.
  fold (fkey f). simpl in Hbase, Hblen |- *.
  destruct (decide (f_payload f = [])) as [Hp|Hp].
  { rewrite bool_decide_true by done. left. split; [tauto|]. by eexists. }
  rewrite bool_decide_false by done. simpl.
  set (known := dget (incoming a) (fkey f)) in *.
  fold (base_state now (a_limits a) f known).
  destruct (match known with None => 4096 <=? zlen (incoming a) | Some _ => false end) eqn:Hfull; simpl.
  { left. split; [|by eexists]. destruct known; [done|]. intros (_ & Hn & _). specialize (Hn eq_refl). lia. }
  assert (known = None → zlen (incoming a) < 4096) as Hroom by (intros ->; lia).
  set (st := base_state now (a_limits a) f known) in *.
  destruct (Z.eqb_spec (in_count st) (f_count f)) as [Hc|Hc]; simpl; [|left; split; [tauto|by eexists]].
  unfold add_part. destruct (dmem (in_parts st) (f_index f)) eqn:Hm; simpl.
  - right. left.
    assert (f_payload f ≠ [] ∧ (known = None → zlen (incoming a) < 4096) ∧ in_count st = f_count f ∧
            incoming_bytes a - in_bytes st + in_bytes st ≤ max_inflight (a_limits a) ∧
            in_bytes st ≤ max_message (a_limits a)) as Hok.
    { split_and!; try done; [pose proof (ri_limit a R); lia|apply Hbase]. }
    split; [done|]. split; [lia|]. replace (zlen (in_parts st) =? f_count f) with false by lia.
    by replace (incoming_bytes a - in_bytes st + in_bytes st) with (incoming_bytes a) by lia.
  - replace (incoming_bytes a - in_bytes st + (in_bytes st + zlen (f_payload f)))
      with (incoming_bytes a + zlen (f_payload f)) by lia.
    destruct (Z.ltb_spec (max_inflight (a_limits a)) (incoming_bytes a + zlen (f_payload f))); simpl;
      [left; split; [lia|by eexists]|].
    destruct (Z.ltb_spec (max_message (a_limits a)) (in_bytes st + zlen (f_payload f))); simpl;
      [left; split; [lia|by eexists]|].
    destruct (add_part_ok (a_limits a) f st) as (Hok & _ & Hlen & _); try done; try lia.
    { unfold add_part. rewrite Hm. simpl. lia. }
    unfold add_part in Hok, Hlen. rewrite Hm in Hok, Hlen. simpl in Hlen.
    destruct (Z.eqb_spec (zlen (dset (in_parts st) (f_index f) (f_payload f))) (f_count f)) as [Hfin|Hfin];
      simpl; right; [right|left; split_and!; try done; lia].
    destruct Hok as [_ Hwf Hpart Hby _]. simpl in *.
    destruct (join_parts_full _ (f_count f) Hwf) as (data & Hj & Hlen' & _); [|done|].
    { intros i b Hin. rewrite <- Hc. by eapply Hpart. }
    rewrite Hj. simpl. replace (max_message (a_limits a) <? zlen data) with false by lia. simpl.
    split_and!; try done; try lia. exists data. split; [done|]. f_equal. by destruct a.
Qed.

(** ** The completed window *)
Lemma remember_view k a : sender_view (_remember k a) = sender_view a ∧ closed (_remember k a) = closed a ∧
  incoming (_remember k a) = incoming a ∧ incoming_bytes (_remember k a) = incoming_bytes a ∧
  a_extensions (_remember k a) = a_extensions a.
Proof. unfold _remember. destruct (_ <? _), (completed_order a ++ [k]); by destruct a. Qed.

(** [_remember] of a new key: the set stays the set of the queue, which keeps
    at most 4096 keys and drops only its oldest. *)
Lemma remember_window k a :
  (∀ x, x ∈ completed a ↔ x ∈ completed_order a) → NoDup (completed_order a) →
  zlen (completed_order a) ≤ 4096 → k ∉ completed a →
  let a' := _remember k a in
  (∀ x, x ∈ completed a' ↔ x ∈ completed_order a') ∧ NoDup (completed_order a') ∧
  zlen (completed_order a') ≤ 4096 ∧ k ∈ completed a' ∧
  (zlen (completed_order a) < 4096 → completed_order a' = completed_order a ++ [k]).
Proof.
  intros Hset Hn Hlen Hk. assert (k ∉ completed_order a) as Hk' by by rewrite <- Hset.
  assert (NoDup (completed_order a ++ [k])) as Hn'.
  { apply NoDup_app. split_and!; [done| |apply NoDup_singleton].
    intros x Hx ->%list_elem_of_singleton. done. }
  assert (∀ x, x ∈ {[k]} ∪ completed a ↔ x ∈ completed_order a ++ [k]) as Hset'.
  { intros x. rewrite elem_of_union, elem_of_singleton, elem_of_app, list_elem_of_singleton, Hset. tauto. }
  unfold _remember. cbn zeta. rewrite zlen_app, zlen_cons, zlen_nil.
  destruct (Z.ltb_spec 4096 (zlen (completed_order a) + (1 + 0))) as [Hfull|Hroom].
  - destruct (completed_order a) as [|oldest order] eqn:E; [by rewrite zlen_nil in Hfull|].
    change ((oldest :: order) ++ [k]) with (oldest :: (order ++ [k])) in *.
    apply NoDup_cons in Hn' as [Ho Hn']. rewrite zlen_cons in *.
    assert (zlen (order ++ [k]) = zlen order + 1) as El by (rewrite zlen_app; done).
    destruct a; simpl in *. rewrite El. split_and!; try done; try lia.
    + intros x. rewrite elem_of_difference, Hset', elem_of_singleton, elem_of_cons. naive_solver.
    + rewrite elem_of_difference, elem_of_union, !elem_of_singleton. split; [by left|].
      intros ->. apply Hk'. left.
  - destruct a; simpl in *. rewrite zlen_app, zlen_cons, zlen_nil. split_and!; try done; try lia.
    rewrite elem_of_union, elem_of_singleton. by left.
Qed.

(** ** Preservation *)
Lemma stored_inv now f a :
  receiver_inv a → limits_ok (a_limits a) → frame_range f → part_ok now f a → fkey f ∉ completed a →
  zlen (in_parts (next_state now f a)) < f_count f → receiver_inv (stored now f a).
Proof.
  intros R Hl Hf (Hp & Hroom & Hc & Htot & Hmax) Hdone Hlt.
  pose proof (base_state_ok now f a R Hf Hl) as [Hb Hbl]. unfold next_state in Hmax, Hlt.
  destruct (add_part_ok _ f _ Hb (proj2 Hbl) Hc Hf Hp Hmax) as (Hok & Hcnt & Hlen & Hby & _).
  unfold stored. fold (next_state now f a) in *. set (st' := next_state now f a) in *.
  assert (dsum (λ _ st, in_bytes st) (dset (incoming a) (fkey f) st') = part_total now f a) as Hsum.
  { unfold part_total. fold st'. rewrite (ri_bytes a R). unfold base_state.
    destruct (dget (incoming a) (fkey f)) as [st|] eqn:E; simpl.
    - by rewrite (dsum_dset_Some _ _ _ _ _ E).
    - rewrite dsum_dset_None by done. lia. }
  destruct R. destruct a; simpl in *. constructor; simpl; try done.
  - by apply dwf_dset.
  - intros k st [(-> & ->)|Hin]%elem_of_dset_inv; [split; [done|lia]|by eapply ri_ok0].
  - unfold zlen. destruct (dget incoming (fkey f)) eqn:E.
    + rewrite (length_dset_Some _ _ _ _ E). done.
    + rewrite length_dset_None by done. specialize (Hroom eq_refl). unfold zlen in Hroom. lia.
Qed.

Lemma finished_inv now f a :
  receiver_inv a → limits_ok (a_limits a) → fkey f ∉ completed a → receiver_inv (finished now f a).
Proof.
  intros R Hl Hdone. unfold finished.
  assert (part_total now f a - in_bytes (next_state now f a) =
          dsum (λ _ st, in_bytes st) (ddel (incoming a) (fkey f)) ∧
          ddel (dset (incoming a) (fkey f) (next_state now f a)) (fkey f) = ddel (incoming a) (fkey f))
    as [Hsum Hdel].
  { unfold part_total, base_state. split.
    - destruct (dget (incoming a) (fkey f)) as [st|] eqn:E; simpl.
      + rewrite (dsum_ddel_Some _ _ _ _ (ri_wf a R) E), (ri_bytes a R). lia.
      + rewrite ddel_notin by done. rewrite (ri_bytes a R). lia.
    - apply ddel_dset. }
  rewrite Hsum, Hdel. clear Hsum Hdel.
  set (b := set_incoming _ _ a).
  assert (completed b = completed a ∧ completed_order b = completed_order a) as [Ec Eo] by by destruct a.
  destruct (remember_window (fkey f) b) as (W1 & W2 & W3 & W4 & _); rewrite ?Ec, ?Eo;
    [apply (ri_order a R)|apply (ri_nodup a R)|apply (ri_window a R)|done|].
  destruct (remember_view (fkey f) b) as (V1 & V2 & V3 & V4 & V5).
  assert (a_limits (_remember (fkey f) b) = a_limits a) as El.
  { unfold sender_view in V1. injection V1. intros. etransitivity; [eassumption|]. by destruct a. }
  assert (∀ k st, (k, st) ∈ ddel (incoming a) (fkey f) → 0 ≤ in_bytes st) as Hnn.
  { intros k st [_ Hin]%elem_of_ddel. destruct (ri_ok a R _ _ Hin) as [[_ _ _ -> _] _].
    apply dsum_nonneg. intros. apply zlen_nonneg. }
  constructor; rewrite ?V3, ?V4, ?El; try done.
  - destruct a; apply dwf_ddel, R.
  - intros k st Hin. apply (ri_ok a R k). destruct a. by apply elem_of_ddel in Hin as [_ ?].
  - pose proof (length_ddel_le (incoming a) (fkey f)). pose proof (ri_count a R). destruct a.
    unfold zlen in *. simpl in *. lia.
  - by destruct a.
  - pose proof (ri_limit a R) as Hlim. rewrite (ri_bytes a R) in Hlim.
    assert (dsum (λ _ st, in_bytes st) (ddel (incoming a) (fkey f)) ≤ dsum (λ _ st, in_bytes st) (incoming a)).
    { destruct (dget (incoming a) (fkey f)) as [st|] eqn:E; [|by rewrite ddel_notin].
      rewrite (dsum_ddel_Some _ _ _ _ (ri_wf a R) E). apply dget_elem_of in E.
      destruct (ri_ok a R _ _ E) as [[_ _ _ Hb _] _]. rewrite Hb.
      pose proof (dsum_nonneg (λ _ b, zlen b) (in_parts st) (λ _ _ _, zlen_nonneg _)) as Hz.
      unfold parts_bytes. lia. }
    destruct a; simpl in *. lia.
Qed.

Definition receiver_view (a : adapter) :=
  (a_limits a, incoming a, incoming_bytes a, completed a, completed_order a).

Lemma receiver_view_inv a a' : receiver_view a' = receiver_view a → receiver_inv a → receiver_inv a'.
Proof.
  destruct a, a'. unfold receiver_view. simpl. intros [= -> -> -> -> ->] R. constructor; apply R.
Qed.

(** Dropping overdue reassemblies. *)
Lemma drop_incoming_inv a k st :
  receiver_inv a → dget (incoming a) k = Some st →
  receiver_inv (set_incoming (ddel (incoming a) k) (incoming_bytes a - in_bytes st) a).
Proof.
  intros R E. pose proof (dget_elem_of _ _ _ E) as Hin. destruct (ri_ok a R _ _ Hin) as [[_ _ _ Hb _] _].
  pose proof (dsum_nonneg (λ _ b, zlen b) (in_parts st) (λ _ _ _, zlen_nonneg _)) as Hz.
  fold (parts_bytes (in_parts st)) in Hz. pose proof (length_ddel_le (incoming a) k).
  destruct R. destruct a; simpl in *. constructor; simpl; try done.
  - by apply dwf_ddel.
  - intros k' st' [_ ?]%elem_of_ddel. by eapply ri_ok0.
  - unfold zlen in *. lia.
  - rewrite (dsum_ddel_Some _ _ _ _ ri_wf0 E). lia.
  - lia.
Qed.

Lemma expire_fold_inv now items a :
  receiver_inv a → dwf items → (∀ k st, (k, st) ∈ items → dget (incoming a) k = Some st) →
  receiver_inv (foldl (λ a kv, if Qle_bool (in_deadline kv.2) now
    then set_incoming (ddel (incoming a) kv.1) (incoming_bytes a - in_bytes kv.2) a else a) a items).
Proof.
  revert a. induction items as [|[k st] items IH]; intros a R Hwf Hin; [done|].
  assert (dwf items ∧ k ∉ dkeys items) as [Hwf' Hk].
  { unfold dwf, dkeys in *. simpl in Hwf. apply NoDup_cons in Hwf. naive_solver. }
  simpl. destruct (Qle_bool (in_deadline st) now).
  - apply IH; [apply drop_incoming_inv; [done|apply Hin; left]|done|].
    intros k' st' Hin'. replace (incoming (set_incoming _ _ a)) with (ddel (incoming a) k) by by destruct a.
    rewrite dget_ddel_ne; [apply Hin; by right|]. intros ->. apply Hk. unfold dkeys.
    apply list_elem_of_fmap. by exists (k, st').
  - apply IH; [done..|]. intros k' st' Hin'. apply Hin. by right.
Qed.

Lemma expire_inv now a : receiver_inv a → receiver_inv (expire now a).
Proof.
  intros R. apply expire_fold_inv; [done|apply R|]. intros k st Hin. apply elem_of_dget; [apply R|done].
Qed.

Section Receive.
Context `{AEADLaws} (nfc : pystr → pystr).

Lemma decode_range c w f : wf_bytes w = true → decode c w = Ok f → frame_range f ∧ 0 ≤ f_stream f < c_streams c
  ∧ 0 ≤ f_message f < 2 ^ 64 ∧ is_kind (f_kind f) = true.
Proof.
  intros Hw Hd. unfold decode in Hd. inv_ok. destruct (unseal _ _ _ _) as [p|]; [|done]. inv_ok. subst f.
  pose proof (wf_bytes_take 32 w Hw) as Hw32.
  pose proof (hfield_range 8 8 _ Hw32). pose proof (hfield_range 16 8 _ Hw32).
  pose proof (hfield_range 24 2 _ Hw32). pose proof (hfield_range 26 2 _ Hw32).
  change (256 ^ Z.of_nat 8) with (2 ^ 64) in *. change (256 ^ Z.of_nat 2) with 65536 in *.
  unfold frame_range. cbn [f_kind f_stream f_message f_index f_count f_payload].
  bool_simpl. split_and!; try done; lia.
Qed.

(** The frame an acknowledgement of [f] carries. *)
Definition ack_frame (f : frame) : frame :=
  Frame ACK (f_stream f) (f_message f) (f_index f) (f_count f) [].

Lemma ack_encodes c f : codec_ok c → frame_range f → 0 ≤ f_stream f < c_streams c →
  0 ≤ f_message f < 2 ^ 64 → ∃ w, encode c (ack_frame f) = Ok w.
Proof.
  intros [Hp Hs] [Hi Hc] Hst Hm. apply encode_total. unfold frame_ok, ack_frame. simpl.
  change (zlen []) with 0. split_and!; try done; lia.
Qed.

(** [receive] on an open adapter, case by case. *)
Inductive receive_outcome (now : Q) (a : adapter) (wire : bytes) : result received → adapter → Prop :=
| rc_refused e : receive_outcome now a wire (Raise e) a
| rc_ack f a' :
    decode (a_codec a) wire = Ok f → f_kind f = ACK → receive_ack now f a = (Ok (Received [] [] []), a') →
    receive_outcome now a wire (Ok (Received [] [] [])) a'
| rc_duplicate f ack :
    decode (a_codec a) wire = Ok f → f_kind f ≠ ACK → fkey f ∈ completed a →
    encode (a_codec a) (ack_frame f) = Ok ack →
    receive_outcome now a wire (Ok (Received [ack] [] [])) a
| rc_extension f ack name value :
    decode (a_codec a) wire = Ok f → f_kind f = EXTENSION → fkey f ∉ completed a →
    encode (a_codec a) (ack_frame f) = Ok ack →
    extension_check nfc (a_extensions a) (f_payload f) = Ok (name, value) →
    receive_outcome now a wire (Ok (Received [ack] [] [(f_stream f, name, value)])) (_remember (fkey f) a)
| rc_stored f ack :
    decode (a_codec a) wire = Ok f → f_kind f = DATA → fkey f ∉ completed a →
    encode (a_codec a) (ack_frame f) = Ok ack → part_ok now f a →
    zlen (in_parts (next_state now f a)) < f_count f →
    receive_outcome now a wire (Ok (Received [ack] [] [])) (stored now f a)
| rc_finished f ack data :
    decode (a_codec a) wire = Ok f → f_kind f = DATA → fkey f ∉ completed a →
    encode (a_codec a) (ack_frame f) = Ok ack → part_ok now f a →
    zlen (in_parts (next_state now f a)) = f_count f →
    join_parts (in_parts (next_state now f a)) (f_count f) = Ok data →
    receive_outcome now a wire (Ok (Received [ack] [(f_stream f, data)] [])) (finished now f a).

Lemma receive_cases now wire a r a' :
  sender_inv a → receiver_inv a → wf_bytes wire = true → receive nfc now wire a = (r, a') →
  receive_outcome now a wire r a'.
Proof.
  intros I R Hw. unfold receive, _ensure_open, mget, mraise_if, mlift, mmod, mbind, M_bind, mret, M_ret.
  destruct (closed a); simpl; [intros [= <- <-]; constructor|].
  destruct (decode (a_codec a) wire) as [f|e] eqn:Hd; [|intros [= <- <-]; constructor].
  destruct (decode_range _ _ _ Hw Hd) as (Hfr & Hs & Hm & Hkind).
  destruct (Z.eqb_spec (f_kind f) ACK) as [Hk|Hk].
  { destruct (receive_ack_ok now f a I) as (a'' & Ha & _). rewrite Ha. intros [= <- <-]. by eapply rc_ack. }
  fold (ack_frame f) (fkey f).
  destruct (ack_encodes (a_codec a) f (si_codec a I) Hfr Hs Hm) as [ack Hack]. rewrite Hack.
  case_bool_decide as Hdone. { intros [= <- <-]. by eapply rc_duplicate. }
  destruct (Z.eqb_spec (f_kind f) EXTENSION) as [Hx|Hx].
  { destruct (extension_check nfc (a_extensions a) (f_payload f)) as [[name value]|e] eqn:Hev;
      intros [= <- <-]; [by eapply rc_extension|constructor]. }
  assert (f_kind f = DATA) as Hdata.
  { unfold is_kind in Hkind. unfold ACK, EXTENSION, DATA in *. lia. }
  destruct (receive_data_cases now ack f a R (si_limits a I) Hfr)
    as [(_ & e & ->)|[(Hp & Hl & ->)|(Hp & Hl & data & Hj & ->)]]; intros [= <- <-].
  - constructor.
  - by apply rc_stored.
  - by eapply rc_finished.
Qed.

Lemma sample_receiver x a : receiver_view (_sample x a) = receiver_view a.
Proof. unfold _sample. destruct a; simpl. destruct rtt as [[? ?]|]; done. Qed.

Lemma receive_ack_receiver now f a : receiver_view (receive_ack now f a).2 = receiver_view a.
Proof.
  unfold receive_ack. destruct (dget (pending a) _) as [it|]; [|done].
  destruct (dget (outgoing _) _) as [o|]; [|by destruct a]. simpl.
  destruct (pi_retried it); rewrite ?sample_receiver; destruct (_ =? _); by destruct a.
Qed.

(** [receive] preserves both invariants whatever the bytes. *)
Lemma receive_preserves now wire a :
  sender_inv a → receiver_inv a → wf_bytes wire = true →
  sender_inv (receive nfc now wire a).2 ∧ receiver_inv (receive nfc now wire a).2.
Proof.
  intros I R Hw. destruct (receive nfc now wire a) as [r a'] eqn:E. simpl.
  pose proof (receive_cases _ _ _ _ _ I R Hw E) as Hc.
  destruct Hc as [e|f a' Hd Hk Ha|f ack|f ack name value Hd Hk Hn|f ack Hd Hk Hn Hack Hp Hl|f ack data Hd Hk Hn Hack Hp Hl Hj].
  - done.
  - destruct (receive_ack_ok now f a I) as (a'' & Ha' & I' & _). rewrite Ha in Ha'. injection Ha' as <-.
    split; [done|]. pose proof (receive_ack_receiver now f a) as Hv. rewrite Ha in Hv.
    by eapply receiver_view_inv.
  - done.
  - destruct (remember_view (fkey f) a) as (V1 & V2 & V3 & V4 & V5).
    split; [by eapply sender_view_inv|].
    pose proof (remember_window (fkey f) a (ri_order a R) (ri_nodup a R) (ri_window a R) Hn) as (W1 & W2 & W3 & _).
    assert (a_limits (_remember (fkey f) a) = a_limits a) as El by (by unfold sender_view in V1; injection V1).
    constructor; rewrite ?V3, ?V4, ?El; try done; apply R.
  - split; [eapply sender_view_inv; [|done]; by destruct a|].
    destruct (decode_range _ _ _ Hw Hd) as (Hfr & _). apply stored_inv; try done. apply I.
  - split; [|apply finished_inv; [done|apply I|done]].
    eapply sender_view_inv; [|done]. unfold finished.
    destruct (remember_view (fkey f) (set_incoming (ddel (dset (incoming a) (fkey f) (next_state now f a)) (fkey f))
      (part_total now f a - in_bytes (next_state now f a)) a)) as (-> & _). by destruct a.
Qed.
End Receive.
