(* ===== verification/S6naSystem.v ===== *)
(** * S6NA: the adapter as a state machine

    The methods as the operations of a state machine, the invariant of every
    reachable adapter, and the theorems about single methods. *)
From Stdlib Require Import QArith Qabs Qminmax.
From S2P Require Import Prelude Dict PyStr PyText PyValue Json JsonRound StrictJson Sha256 S6naCodec S6naAdapter S6naInvariant S6naSender S6naReceiver.
#[global] Open Scope Z_scope.

(** A closed adapter holds nothing. *)
Definition idle (a : adapter) : Prop :=
  pending a = [] ∧ active_streams a = [] ∧ (∀ q, q ∈ queues a → q = []) ∧ outgoing a = [] ∧
  incoming a = [] ∧ buffered a = 0 ∧ incoming_bytes a = 0 ∧ completed a = ∅ ∧ completed_order a = [].

Record adapter_inv (a : adapter) : Prop := {
  ai_sender : sender_inv a;
  ai_receiver : receiver_inv a;
  ai_rto : ((1 # 20) <= rto a /\ rto a <= 5)%Q;
  ai_closed : closed a = true → idle a;
}.

Inductive op :=
| OpSend (now : Q) (stream : Z) (data : bytes)
| OpFlow (now : Q) (stream : Z) (data : bytes)
| OpOutbound (now : Q)
| OpReceive (now : Q) (wire : bytes)
| OpRetransmit (now : Q)
| OpExtension (stream : Z) (name : pystr) (value : pyval)
| OpClose.

(** The bytes an operation is given are bytes. *)
Definition op_wf (o : op) : bool :=
  match o with OpReceive _ w => wf_bytes w | _ => true end.

Section System.
Context `{AEADLaws} (nfc : pystr → pystr).

Definition run_op (o : op) (a : adapter) : adapter :=
  match o with
  | OpSend now s d => (send now s d a).2
  | OpFlow now s d => (send_flow_controlled now s d a).2
  | OpOutbound now => (outbound now a).2
  | OpReceive now w => (receive nfc now w a).2
  | OpRetransmit now => (retransmit now a).2
  | OpExtension s n v => (extension s n v a).2
  | OpClose => close a
  end.

Lemma rto_sample x a : ((1 # 20) <= rto (_sample x a) /\ rto (_sample x a) <= 5)%Q.
Proof.
  unfold _sample. destruct (rtt a) as [[sr rv]|]; destruct a; simpl;
    (split; [apply Q.le_max_l|apply Q.max_lub; [done|apply Q.le_min_l]]).
Qed.

(** Sequence numbers only move forward: the invariant survives the bump of
    [extension]. *)
Lemma bump_inv a s n :
  sender_inv a → next_of a s ≤ n < 2 ^ 64 → 0 ≤ s →
  sender_inv (set_next (<[Z.to_nat s := n]> (next_message a)) a).
Proof.
  intros I Hn Hs. assert (∀ s', 0 ≤ s' → next_of a s' ≤ next_of (set_next (<[Z.to_nat s := n]> (next_message a)) a) s' ≤ 2 ^ 64 - 1) as Hmono.
  { intros s' Hs'. pose proof (si_next a I s'). unfold next_of in *. destruct a; simpl in *.
    destruct (decide (Z.to_nat s' = Z.to_nat s)) as [E|E].
    - rewrite E in *. destruct (decide (Z.to_nat s < length next_message)%nat).
      + rewrite list_lookup_insert_eq by done. simpl. lia.
      + rewrite list_insert_ge by lia. lia.
    - rewrite list_lookup_insert_ne by done. lia. }
  pose proof (si_next a I) as Hnx.
  constructor; try (destruct a; apply I).
  - pose proof (si_next_len a I). destruct a; simpl in *. by rewrite length_insert.
  - intros s'. destruct (decide (0 ≤ s')) as [Hp|Hp].
    + pose proof (Hmono s' Hp). pose proof (Hnx s'). lia.
    + pose proof (Hmono 0 ltac:(lia)). pose proof (Hnx 0). unfold next_of in *.
      replace (Z.to_nat s') with (Z.to_nat 0) by lia. lia.
  - intros s' q Hs' Hq. apply (queue_ok_mono _ (next_of a s')); [by apply Hmono|].
    pose proof (si_queue a I s' q Hs') as Hok. destruct a. by apply Hok.
  - intros [[s' m] i] Hk. pose proof (si_pending a I (s', m, i)) as Hpd.
    assert (pending_ok a (s', m, i)) as (Hp1 & Hp2 & Hp3) by (apply Hpd; by destruct a).
    pose proof (Hmono s' ltac:(lia)).
    split; [by destruct a|]. split; [lia|]. by destruct a.
  - intros s' m o Ho. pose proof (si_outgoing a I s' m o) as Hout.
    assert ((s', m, o) ∈ outgoing a) as Hin by by destruct a. apply Hout in Hin.
    pose proof (Hmono s' ltac:(lia)). destruct a; simpl in *. lia.
Qed.

Lemma extension_state s n v a :
  (extension s n v a).2 = a ∨
  0 ≤ s ∧ next_of a s < 2 ^ 64 - 1 ∧
  (extension s n v a).2 = set_next (<[Z.to_nat s := next_of a s + 1]> (next_message a)) a.
Proof.
  unfold extension, _ensure_open, mget, mraise_if, mlift, mmod, mbind, M_bind.
  destruct (closed a); simpl; [by left|].
  destruct (negb ((0 <=? s) && (s <? max_streams (a_limits a)))) eqn:Hs; simpl; [by left|].
  destruct (negb (bool_decide (n ∈ a_extensions a))); simpl; [by left|].
  destruct (_portable _) as [p|e]; simpl; [|by left]. fold (next_of a s).
  destruct (Z.leb_spec (2 ^ 64 - 1) (next_of a s)); simpl; [by left|]. right. split_and!; try done. lia.
Qed.

Lemma close_inv a : sender_inv a → receiver_inv a → sender_inv (close a) ∧ receiver_inv (close a).
Proof.
  intros I R. unfold close. destruct (closed a); [done|].
  pose proof (lok_inflight _ (si_limits a I)). pose proof (lok_message _ (si_limits a I)).
  assert (∀ i q, ((λ _ : list queued, []) <$> queues a) !! i = Some q → q = ([] : list queued)) as Hq.
  { intros i q. rewrite list_lookup_fmap. destruct (queues a !! i); by intros [= <-]. }
  split.
  - assert (total_unsent ((λ _, []) <$> queues a) = 0) as Ht.
    { apply drained_total. intros q (i & Hi)%list_elem_of_lookup. by eapply Hq. }
    constructor; simpl; try done; try lia; try (by constructor); try solve [apply I].
    + rewrite length_fmap. apply I.
    + intros s q Hs Hl. apply Hq in Hl. subst. by split; constructor.
    + intros s. split; [by intros ?%not_elem_of_nil|]. intros (_ & it & q & Hl). by apply Hq in Hl.
    + by intros ? ?%not_elem_of_nil.
    + by intros ? ? ?%not_elem_of_nil.
    + by intros ? ? ? ?%not_elem_of_nil.
    + intros s m Hs. unfold remaining, pcount, unsent. simpl.
      destruct (((λ _, []) <$> queues a) !! Z.to_nat s) as [q|] eqn:E; simpl; [|done]. apply Hq in E. by subst.
    + pose proof (si_window a I). unfold window, zlen in *. simpl. lia.
  - constructor; simpl; try done; try lia; try (by constructor).
    + by intros ? ? ?%not_elem_of_nil.
    + intros k. split; [by intros ?%not_elem_of_empty|by intros ?%not_elem_of_nil].
Qed.

Lemma closed_noop o a : closed a = true → run_op o a = a.
Proof.
  intros Hc. destruct o; simpl; unfold send, send_flow_controlled, outbound, receive, retransmit, extension, close,
    _ensure_open, mget, mraise_if, mlift, mbind, M_bind; by rewrite Hc.
Qed.

(** What [outbound] leaves alone. *)
Lemma outbound_run_rest now a ws a' :
  outbound_run now a ws a' → sender_inv a →
  receiver_view a' = receiver_view a ∧ rto a' = rto a ∧ closed a' = closed a.
Proof.
  intros Hr I. destruct (outbound_run_effect _ _ _ _ Hr I) as (_ & _ & E & _). rewrite E. by destruct a.
Qed.

Lemma adapter_inv_run now a ws a' :
  outbound_run now a ws a' → adapter_inv a → closed a = false → adapter_inv a'.
Proof.
  intros Hr [I R T C] Hc. destruct (outbound_run_rest _ _ _ _ Hr I) as (Hv & Ht & Hcl).
  constructor; [by eapply outbound_run_inv|by eapply receiver_view_inv|by rewrite Ht|]. congruence.
Qed.

Lemma send_inv now s d a : adapter_inv a → closed a = false → adapter_inv (send now s d a).2.
Proof.
  intros Ha Hc. pose proof Ha as [I R T C].
  destruct (send_cases now s d a I Hc) as [(e & -> & _)|(ws & a' & -> & Hok & Hr)]; [done|].
  simpl. eapply adapter_inv_run; [done| |by destruct a].
  constructor; [by apply enqueued_inv|eapply receiver_view_inv; [|done]; by destruct a|by destruct a|].
  by destruct a; simpl in *; rewrite Hc.
Qed.

Lemma receive_rto now w a :
  adapter_inv a → wf_bytes w = true → closed a = false →
  let a' := (receive nfc now w a).2 in ((1 # 20) <= rto a' /\ rto a' <= 5)%Q ∧ closed a' = false.
Proof.
  intros [I R T C] Hw Hc. destruct (receive nfc now w a) as [r a'] eqn:E. simpl.
  destruct (receive_cases nfc _ _ _ _ _ I R Hw E) as [e|f a' Hd Hk Ha| |f| |f]; try done.
  - revert Ha. unfold receive_ack. destruct (dget (pending a) _) as [it|]; [|by intros [= <-]].
    destruct (dget (outgoing _) _) as [o|]; [|done]. intros [= <-].
    destruct (pi_retried it).
    + destruct (_ =? _); by destruct a.
    + split; [apply rto_sample|]. destruct (sample_view (Qmax 0 (now - pi_sent it))%Q a) as [_ _].
      match goal with |- closed (_sample ?x ?b) = _ => destruct (sample_view x b) as [_ ->] end.
      destruct (_ =? _); by destruct a.
  - unfold _remember. destruct (_ <? _), (completed_order a ++ _); by destruct a.
  - by destruct a.
  - unfold finished, _remember. destruct (_ <? _), (completed_order _ ++ _); by destruct a.
Qed.

Lemma retransmit_rest now a :
  adapter_inv a → closed a = false →
  receiver_inv (retransmit now a).2 ∧ rto (retransmit now a).2 = rto a.
Proof.
  intros [I R T C] Hc.
  unfold retransmit, _ensure_open, mget, mraise_if, mlift, mmod, mbind, M_bind. rewrite Hc. simpl.
  destruct (expire_view now a) as (Hv & Hcl & Hrto). pose proof (sender_view_inv _ _ Hv I) as I1.
  pose proof (expire_inv now a R) as R1.
  destruct (resend_ok now (pending (expire now a)) (expire now a) I1) as (r & a1 & Hr & I2 & Ea & _ & _).
  { apply I1. } { intros k it Hin. apply elem_of_dget; [apply I1|done]. }
  rewrite Hr.
  assert (receiver_view a1 = receiver_view (expire now a) ∧ rto a1 = rto a ∧ closed a1 = false) as (Ev & Er & Ec).
  { rewrite Ea. rewrite <- Hrto, <- Hc, <- Hcl. by destruct (expire now a). }
  pose proof (receiver_view_inv _ _ Ev R1) as R2.
  destruct r as [ws|e]; [|done]. destruct (outbound_ok now a1 I2 Ec) as (ws2 & a2 & Ho & Hrun). rewrite Ho.
  destruct (outbound_run_rest _ _ _ _ Hrun I2) as (Hv2 & Ht2 & _). simpl.
  split; [by eapply receiver_view_inv|congruence].
Qed.

Lemma run_op_inv o a : op_wf o = true → adapter_inv a → adapter_inv (run_op o a).
Proof.
  intros Hw Ha. destruct (closed a) eqn:Hc; [by rewrite closed_noop|]. pose proof Ha as [I R T C].
  destruct o as [now s d|now s d|now|now w|now|s n v|]; simpl in *.
  - by apply send_inv.
  - destruct (send_flow_controlled now s d a) as [r a'] eqn:E. simpl.
    apply send_flow_cases in E as [(e & _ & ->)|(_ & _ & _ & E)]; [done|].
    pose proof (send_inv now s d a Ha Hc) as Hi. by rewrite E in Hi.
  - destruct (outbound_ok now a I Hc) as (ws & a' & -> & Hr). by eapply adapter_inv_run.
  - destruct (receive_preserves nfc now w a I R Hw). destruct (receive_rto now w a Ha Hw Hc) as [? Hcl].
    constructor; try done. by rewrite Hcl.
  - destruct (retransmit_rest now a Ha Hc) as [? Hrto].
    destruct (retransmit_ok now a I Hc) as (r & a' & E & I' & Hc' & _).
    rewrite E in *. simpl in *. constructor; try done; [by rewrite Hrto|by rewrite Hc'].
  - destruct (extension_state s n v a) as [->|(Hs & Hn & ->)]; [done|].
    pose proof (si_next a I s). constructor; [apply bump_inv; try done; lia| |by destruct a|].
    + eapply receiver_view_inv; [|done]. by destruct a.
    + destruct a; simpl in *. by rewrite Hc.
  - destruct (close_inv a I R) as [I' R']. constructor; [done|done|unfold close; rewrite Hc; by destruct a|].
    unfold close. rewrite Hc. intros _. unfold idle. simpl. split_and!; try done.
    intros q (q' & -> & _)%list_elem_of_fmap. done.
Qed.

Lemma make_adapter_adapter_inv core key side exts lim transport a :
  limits_ok lim → make_adapter core key side exts lim transport = Ok a → adapter_inv a ∧ idle a.
Proof.
  intros Hl Hm. destruct (make_adapter_inv _ _ _ _ _ _ _ Hl Hm) as [I Hc].
  pose proof (make_adapter_receiver _ _ _ _ _ _ _ Hl Hm) as R.
  unfold make_adapter in Hm. inv_ok. destruct (dget PROFILES v) as [pol|]; [|done]. inv_ok. subst a.
  split; [constructor; done|]. unfold idle. simpl. split_and!; try done.
  intros q Hq. by apply elem_of_replicate in Hq as [-> _].
Qed.

(** The adapters a program can reach. *)
Inductive reachable : adapter → Prop :=
| reach_make core key side exts lim transport a :
    limits_ok lim → make_adapter core key side exts lim transport = Ok a → reachable a
| reach_op o a : reachable a → op_wf o = true → reachable (run_op o a).
End System.
