(* ===== verification/S6naLink.v ===== *)
(** * S6NA: two adapters over an unreliable network

    A sender, a receiver and a network that loses, duplicates, reorders and
    injects.  Whatever the schedule, every message the receiver hands over is,
    byte for byte, a message the sender was given on that stream; and chunks in
    any order, with any duplicates, reassemble to the message exactly once. *)
From Stdlib Require Import QArith Qabs Qminmax.
From S2P Require Import Prelude Dict PyStr PyText PyValue Json JsonRound StrictJson Sha256 S6naCodec S6naAdapter S6naInvariant S6naSender S6naReceiver S6naSystem.
#[global] Open Scope Z_scope.

(** ** Splitting and joining *)
Lemma concat_chunks_prefix payload data n :
  1 ≤ payload →
  concat (chunk payload data <$> (Z.of_nat <$> seq 0 n)) = take (n * Z.to_nat payload) data.
Proof.
  intros Hp. induction n as [|n IH]; [done|]. rewrite seq_S, !fmap_app, concat_app, IH. simpl.
  rewrite app_nil_r. unfold chunk, slice.
  replace (Z.to_nat (Z.of_nat n * payload + payload - Z.of_nat n * payload)) with (Z.to_nat payload) by lia.
  replace (Z.to_nat (Z.of_nat n * payload)) with (n * Z.to_nat payload)%nat by nia.
  rewrite take_take_drop. f_equal. lia.
Qed.

(** Joining all chunks gives the message back. *)
Lemma concat_chunks payload data :
  1 ≤ payload → data ≠ [] →
  concat (chunk payload data <$> index_range (chunk_count payload data)) = data.
Proof.
  intros Hp Hd. unfold index_range. rewrite concat_chunks_prefix by done.
  destruct (chunk_count_bounds payload data Hp Hd) as (Hc & _ & Hl). apply take_ge.
  unfold zlen in Hl. nia.
Qed.

Lemma join_chunks payload data parts :
  1 ≤ payload → data ≠ [] → dwf parts → zlen parts = chunk_count payload data →
  (∀ i b, (i, b) ∈ parts → 0 ≤ i < chunk_count payload data ∧ b = chunk payload data i) →
  join_parts parts (chunk_count payload data) = Ok data.
Proof.
  intros Hp Hd Hwf Hlen Hin. rewrite <- (concat_chunks payload data) at 2 by done.
  apply join_parts_spec. intros i Hi.
  pose proof (parts_full parts _ Hwf (λ i b H, proj1 (Hin i b H)) Hlen) as Hperm.
  destruct (dget parts i) as [b|] eqn:E.
  - apply dget_elem_of in E. by destruct (Hin _ _ E) as [_ ->].
  - apply dget_None in E. exfalso. apply E. rewrite Hperm. by apply elem_of_index_range.
Qed.

(** ** The log of sent messages *)
Definition msg_log := list ((Z * Z) * bytes).

Section Link.
Context `{AEADLaws} (nfc : pystr → pystr).

(** A wire that carries a chunk of a logged message. *)
Definition logged_wire (c : codec) (log : msg_log) (w : bytes) : Prop :=
  ∃ s m d i, dget log (s, m) = Some d ∧ 0 ≤ i < chunk_count (c_payload c) d ∧
             encode c (data_frame (c_payload c) s m d i) = Ok w.

Record log_inv (a : adapter) (log : msg_log) : Prop := {
  lg_fresh : ∀ s m d, dget log (s, m) = Some d → 0 ≤ s ∧ m < next_of a s;
  lg_data : ∀ k d, dget log k = Some d → d ≠ [] ∧ wf_bytes d = true;
  lg_queue : ∀ s q it, 0 ≤ s → queues a !! Z.to_nat s = Some q → it ∈ q →
    dget log (s, q_message it) = Some (q_data it);
  lg_pending : ∀ k it, (k, it) ∈ pending a → logged_wire (a_codec a) log (pi_wire it);
}.

Lemma logged_wire_mono c log k d w :
  dget log k = None → logged_wire c log w → logged_wire c (log ++ [(k, d)]) w.
Proof.
  intros Hk (s & m & d' & i & Hl & Hi & He). exists s, m, d', i. split_and!; try done; try lia.
  rewrite dget_app. by rewrite Hl.
Qed.

Lemma logged_wire_same c c' log w : c' = c → logged_wire c log w → logged_wire c' log w.
Proof. by intros ->. Qed.

(** A run of [outbound] emits only chunks of logged messages. *)
Lemma outbound_run_log now a ws a' log :
  outbound_run now a ws a' → sender_inv a → log_inv a log →
  log_inv a' log ∧ Forall (logged_wire (a_codec a) log) ws.
Proof.
  induction 1 as [a Hstop|a s active it rest wire ws a' Hlt Ha Hs Hq Hw Hrun IH]; intros I L; [by split|].
  assert (dget log (s, q_message it) = Some (q_data it)) as Hit.
  { eapply (lg_queue a log L); [lia|done|left]. }
  destruct (si_queue a I s _ ltac:(lia) Hq) as [Hall _]. apply Forall_cons in Hall as [Hok _].
  destruct Hok as (_ & _ & Hc & _ & Hi).
  assert (logged_wire (a_codec a) log wire) as Hlog.
  { exists s, (q_message it), (q_data it), (q_index it). split_and!; try done; unfold payload_of in *; lia. }
  destruct IH as [L' Hws].
  - by apply sent_state_inv.
  - constructor.
    + intros s' m d Hd. pose proof (lg_fresh a log L s' m d Hd). by destruct a.
    + apply (lg_data a log L).
    + intros s' q x Hs' Hq' Hx. destruct (decide (s' = s)) as [->|Hne].
      * replace (queues (sent_state _ _ _ _ _ _ a)) with (<[Z.to_nat s := pop_sent it rest]> (queues a))
          in Hq' by by destruct a.
        rewrite list_lookup_insert_eq in Hq' by (by eapply lookup_lt_Some). injection Hq' as <-.
        apply pop_sent_elem in Hx as [->|Hx]; [done|].
        eapply (lg_queue a log L); [lia|done|by right].
      * replace (queues (sent_state _ _ _ _ _ _ a)) with (<[Z.to_nat s := pop_sent it rest]> (queues a))
          in Hq' by by destruct a.
        rewrite list_lookup_insert_ne in Hq' by lia. by eapply (lg_queue a log L).
    + intros k x. pose proof (lg_pending a log L k x) as Hp. destruct a; simpl in *.
      intros [[-> ->]|Hin]%elem_of_dset_inv; [done|by apply Hp].
  - split; [done|]. constructor; [done|]. eapply Forall_impl; [done|]. intros w. apply logged_wire_same.
    by destruct a.
Qed.

Lemma enqueued_log s d a log :
  sender_inv a → send_ok s d a → wf_bytes d = true → log_inv a log →
  dget log (s, next_of a s) = None ∧ log_inv (enqueued s d a) (log ++ [((s, next_of a s), d)]).
Proof.
  intros I (Hs & Hd & _) Hw L. assert (dget log (s, next_of a s) = None) as Hf.
  { destruct (dget log _) eqn:E; [|done]. apply (lg_fresh a log L) in E. lia. }
  split; [done|]. destruct (queue_lookup a s I Hs) as [q Hq]. constructor.
  - intros s' m d'. rewrite dget_app. destruct (dget log (s', m)) as [x|] eqn:E.
    + intros [= <-]. pose proof (lg_fresh a log L _ _ _ E). split; [lia|].
      rewrite next_of_enqueued by (done || lia). case_bool_decide; lia.
    + simpl. case_bool_decide as Ek; [|done]. injection Ek as -> ->. intros _. split; [lia|].
      rewrite next_of_enqueued, bool_decide_true by (done || lia). lia.
  - intros k d'. rewrite dget_app. destruct (dget log k) as [x|] eqn:E.
    + intros [= <-]. by apply (lg_data a log L) in E.
    + simpl. case_bool_decide; [|done]. by intros [= <-].
  - intros s' q' it Hs' Hq' Hit. rewrite (enqueued_queues s d a q Hq) in Hq'. rewrite dget_app.
    destruct (decide (s' = s)) as [->|Hne].
    + rewrite list_lookup_insert_eq in Hq' by (by eapply lookup_lt_Some). injection Hq' as <-.
      apply elem_of_app in Hit as [Hit|Hit%list_elem_of_singleton].
      * by rewrite (lg_queue a log L s q it Hs' Hq Hit).
      * subst it. simpl. rewrite Hf. simpl. by rewrite bool_decide_true.
    + rewrite list_lookup_insert_ne in Hq' by lia. by rewrite (lg_queue a log L s' q' it Hs' Hq' Hit).
  - intros k it Hin. apply (logged_wire_same (a_codec a)); [by destruct a|]. apply logged_wire_mono; [done|].
    apply (lg_pending a log L k). by destruct a.
Qed.

Lemma log_inv_view a a' log : sender_view a' = sender_view a → log_inv a log → log_inv a' log.
Proof.
  destruct a, a'. unfold sender_view. simpl. intros [= -> -> -> -> -> -> -> -> ->] L. constructor; apply L.
Qed.

(** Retransmissions repeat what is pending. *)
Lemma resend_wires (P : bytes → Prop) now items a :
  (∀ k it, (k, it) ∈ pending a → P (pi_wire it)) → (∀ k it, (k, it) ∈ items → P (pi_wire it)) →
  (∀ k it, (k, it) ∈ pending (resend now items a).2 → P (pi_wire it)) ∧
  ∀ ws, (resend now items a).1 = Ok ws → Forall P ws.
Proof.
  revert a. induction items as [|[key it] items IH]; intros a Hp Hi; cbn [resend].
  { split; [done|]. by intros ws [= <-]. }
  destruct (negb (Qle_bool (pi_deadline it) now)).
  { apply IH; [done|]. intros k x Hx. apply (Hi k). by right. }
  destruct (8 <=? pi_attempts it); [by split|].
  unfold mbind, M_bind. match goal with |- context [resend now items ?b] => specialize (IH b) end.
  destruct IH as [IH1 IH2].
  - intros k x. assert (P (pi_wire it)) by (apply (Hi key); left).
    destruct a; simpl in *. intros [(-> & ->)|Hx]%elem_of_dset_inv; [done|by eapply Hp].
  - intros k x Hx. apply (Hi k). by right.
  - destruct (resend now items _) as [[ws|e] a']; simpl in *; (split; [done|]); [|done].
    intros ws' [= <-]. constructor; [apply (Hi key); left|by apply IH2].
Qed.

Lemma resend_state now items a : ∃ p, (resend now items a).2 = set_pending p a.
Proof.
  revert a. induction items as [|[key it] items IH]; intros a; cbn [resend]; [exists (pending a); by destruct a|].
  destruct (negb (Qle_bool (pi_deadline it) now)); [apply IH|].
  destruct (8 <=? pi_attempts it); [exists (pending a); by destruct a|].
  unfold mbind, M_bind. match goal with |- context [resend now items ?b] => destruct (IH b) as [p Hp] end.
  exists p. destruct (resend now items _) as [[ws|e] a']; simpl in *; subst; by destruct a.
Qed.

(** ** The sender's steps on the log *)
Definition a_sent (r : result (list bytes)) : list bytes := match r with Ok ws => ws | Raise _ => [] end.

(** The data wires an operation of the sender puts on the network, and the log
    after it. *)
Definition op_wires (o : op) (a : adapter) : list bytes :=
  match o with
  | OpSend now s d => a_sent (send now s d a).1
  | OpFlow now s d => a_sent (send_flow_controlled now s d a).1
  | OpOutbound now => a_sent (outbound now a).1
  | OpRetransmit now => a_sent (retransmit now a).1
  | _ => []
  end.

Definition op_log (o : op) (a : adapter) (log : msg_log) : msg_log :=
  match o with
  | OpSend now s d => if is_ok (send now s d a).1 then log ++ [((s, next_of a s), d)] else log
  | OpFlow now s d => if is_ok (send_flow_controlled now s d a).1 then log ++ [((s, next_of a s), d)] else log
  | _ => log
  end.

Definition data_wf (o : op) : bool :=
  match o with OpSend _ _ d | OpFlow _ _ d => wf_bytes d | _ => op_wf o end.

Definition log_extends (log log' : msg_log) : Prop := ∀ k d, dget log k = Some d → dget log' k = Some d.

Lemma log_extends_snoc log k d : dget log k = None → log_extends log (log ++ [(k, d)]).
Proof. intros Hk k' d' Hd. rewrite dget_app, Hd. done. Qed.

(** What a step of the sender guarantees. *)
Definition sender_step_ok (a a' : adapter) (log log' : msg_log) (ws : list bytes) : Prop :=
  log_inv a' log' ∧ a_codec a' = a_codec a ∧ Forall (logged_wire (a_codec a) log') ws ∧ log_extends log log'.

Lemma run_codec now a ws a' : outbound_run now a ws a' → sender_inv a → a_codec a' = a_codec a.
Proof. intros Hr I. destruct (outbound_run_effect _ _ _ _ Hr I) as (_ & _ & -> & _). by destruct a. Qed.

Lemma send_log now s d a log :
  adapter_inv a → closed a = false → wf_bytes d = true → log_inv a log →
  sender_step_ok a (send now s d a).2 log
    (if is_ok (send now s d a).1 then log ++ [((s, next_of a s), d)] else log) (a_sent (send now s d a).1).
Proof.
  intros [I R T C] Hc Hw L. unfold sender_step_ok, log_extends.
  destruct (send_cases now s d a I Hc) as [(e & -> & _)|(ws & a' & -> & Hok & Hr)]; simpl.
  { split_and!; try done. }
  destruct (enqueued_log s d a log I Hok Hw L) as [Hf L'].
  pose proof (enqueued_inv s d a I Hok) as I'.
  destruct (outbound_run_log _ _ _ _ _ Hr I' L') as [L'' Hws].
  assert (a_codec (enqueued s d a) = a_codec a) as Ec by by destruct a.
  split_and!; [done|by rewrite (run_codec _ _ _ _ Hr I')|by rewrite <- Ec|by apply log_extends_snoc].
Qed.

Lemma retransmit_log now a log :
  adapter_inv a → closed a = false → log_inv a log →
  sender_step_ok a (retransmit now a).2 log log (a_sent (retransmit now a).1).
Proof.
  intros [I R T C] Hc L. unfold sender_step_ok, log_extends, retransmit, _ensure_open.
  unfold mget, mraise_if, mlift, mmod, mbind, M_bind. rewrite Hc. simpl.
  destruct (expire_view now a) as (Hv & Hcl & _).
  pose proof (sender_view_inv _ _ Hv I) as I1. pose proof (log_inv_view _ _ _ Hv L) as L1.
  assert (a_codec (expire now a) = a_codec a) as Ec by (by injection Hv). set (b := expire now a) in *.
  destruct (resend_ok now (pending b) b I1 (si_pending_wf b I1)) as (r & a1 & Hr & I2 & Ea & _ & _).
  { intros k it Hin. apply elem_of_dget; [apply I1|done]. }
  destruct (resend_wires (logged_wire (a_codec b) log) now (pending b) b (lg_pending b log L1) (lg_pending b log L1))
    as [Hp Hws]. rewrite Hr in *. simpl in Hp, Hws.
  assert (a_codec a1 = a_codec b) as Ec1 by (rewrite Ea; by destruct b).
  assert (log_inv a1 log) as L2.
  { constructor; [| |rewrite Ea|by rewrite Ec1].
    - intros s m d Hd. pose proof (lg_fresh b log L1 s m d Hd). rewrite Ea. by destruct b.
    - apply (lg_data b log L1).
    - intros s q it Hs Hq. apply (lg_queue b log L1 s q); [done|]. by destruct b. }
  assert (closed a1 = false) as Hc1 by (rewrite Ea, <- Hc, <- Hcl; by destruct b).
  destruct r as [ws|e]; simpl; [|split_and!; try done; congruence].
  destruct (outbound_ok now a1 I2 Hc1) as (ws2 & a2 & Ho & Hrun). rewrite Ho. simpl.
  destruct (outbound_run_log _ _ _ _ _ Hrun I2 L2) as [L3 Hws2].
  split_and!; [done|rewrite (run_codec _ _ _ _ Hrun I2); congruence| |done].
  apply Forall_app. rewrite <- Ec. split; [by apply Hws|]. by rewrite <- Ec1.
Qed.

Lemma receive_ack_config now f a a' r :
  receive_ack now f a = (Ok r, a') → a_codec a' = a_codec a ∧ next_message a' = next_message a.
Proof.
  unfold receive_ack. destruct (dget (pending a) _) as [it|]; [|by intros [= _ <-]].
  destruct (dget (outgoing _) _) as [o|]; [|done]. intros [= _ <-].
  destruct (pi_retried it); [destruct (_ =? _); by destruct a|].
  match goal with |- a_codec (_sample ?x ?b) = _ ∧ _ => destruct (sample_view x b) as [Hv _] end.
  injection Hv as ? E1 ? E2 ? ? ? ? ?. rewrite E1, E2. destruct (_ =? _); by destruct a.
Qed.

Lemma finished_view now f a : sender_view (finished now f a) = sender_view a.
Proof.
  unfold finished. match goal with |- context [_remember ?k ?b] => destruct (remember_view k b) as (Hv & _) end.
  rewrite Hv. by destruct a.
Qed.

Lemma receive_codec now w a :
  adapter_inv a → wf_bytes w = true → a_codec (receive nfc now w a).2 = a_codec a.
Proof.
  intros [I R T C] Hw. destruct (receive nfc now w a) as [r a'] eqn:E. simpl.
  destruct (receive_cases nfc _ _ _ _ _ I R Hw E) as [e|f a' Hd Hk Ha| |f| |f]; try done.
  - by destruct (receive_ack_config now f a a' _ Ha).
  - destruct (remember_view (fkey f) a) as (Hv & _). by injection Hv.
  - by destruct a.
  - pose proof (finished_view now f a) as Hv. by injection Hv.
Qed.

Lemma receive_log now w a log :
  adapter_inv a → wf_bytes w = true → log_inv a log →
  log_inv (receive nfc now w a).2 log.
Proof.
  intros [I R T C] Hw L. destruct (receive nfc now w a) as [r a'] eqn:E. simpl.
  destruct (receive_cases nfc _ _ _ _ _ I R Hw E) as [e|f a' Hd Hk Ha| |f| |f]; try done.
  - destruct (receive_ack_ok now f a I) as (a'' & Ha' & I' & _ & Hp & Hq). rewrite Ha in Ha'.
    injection Ha' as <-.
    destruct (receive_ack_config now f a a' _ Ha) as [Ec En].
    constructor.
    + intros s m d Hlog. unfold next_of. rewrite En. by apply (lg_fresh a log L s m d).
    + apply (lg_data a log L).
    + rewrite Hq. apply (lg_queue a log L).
    + rewrite Hp, Ec. intros k it [_ Hin]%elem_of_ddel. by apply (lg_pending a log L k).
  - destruct (remember_view (fkey f) a) as (Hv & _). by eapply log_inv_view.
  - eapply log_inv_view; [|done]. by destruct a.
  - eapply log_inv_view; [apply finished_view|done].
Qed.

(** Every operation of the sender keeps the log and emits only logged chunks. *)
Lemma sender_step o a log :
  adapter_inv a → data_wf o = true → log_inv a log →
  sender_step_ok a (run_op nfc o a) log (op_log o a log) (op_wires o a).
Proof.
  intros Ha Hw L. pose proof Ha as [I R T C].
  assert (sender_step_ok a a log log []) as Hnop by (unfold sender_step_ok, log_extends; split_and!; done).
  destruct (closed a) eqn:Hc.
  { rewrite closed_noop by done. destruct o; simpl; unfold send, send_flow_controlled, outbound, retransmit,
      _ensure_open, mget, mraise_if, mlift, mbind, M_bind; rewrite ?Hc; done. }
  destruct o as [now s d|now s d|now|now w|now|s n v|]; simpl in *.
  - by apply send_log.
  - destruct (send_flow_controlled now s d a) as [r a'] eqn:E.
    apply send_flow_cases in E as [(e & -> & ->)|(_ & _ & _ & E)]; [done|]. simpl.
    pose proof (send_log now s d a log Ha Hc Hw L) as Hs. by rewrite E in Hs.
  - destruct (outbound_ok now a I Hc) as (ws & a' & -> & Hr). simpl.
    destruct (outbound_run_log _ _ _ _ _ Hr I L) as [L' Hws]. unfold sender_step_ok, log_extends.
    split_and!; try done. by eapply run_codec.
  - unfold sender_step_ok, log_extends. split_and!; try done; [by apply receive_log|by apply receive_codec].
  - by apply retransmit_log.
  - destruct (extension_state s n v a) as [->|(Hs & Hn & ->)]; [done|].
    unfold sender_step_ok, log_extends. split_and!; try done; [|by destruct a].
    pose proof L as [L1 L2 L3 L4]. constructor; try done; try (by destruct a).
    intros s' m d Hd. destruct (L1 s' m d Hd) as [Hs' Hm]. split; [done|].
    unfold next_of in *. destruct a; simpl in *. destruct (decide (Z.to_nat s' = Z.to_nat s)) as [Es|Es].
    + rewrite Es in *. destruct (decide (Z.to_nat s < length next_message)%nat).
      * rewrite list_lookup_insert_eq by done. simpl. lia.
      * rewrite list_insert_ge by lia. lia.
    + by rewrite list_lookup_insert_ne.
  - unfold close. rewrite Hc. unfold sender_step_ok, log_extends. split_and!; try done.
    pose proof L as [L1 L2 L3 L4]. constructor; simpl; try done.
    + intros s q it Hs. rewrite list_lookup_fmap. destruct (queues a !! _); [|done]. intros [= <-].
      by intros ?%not_elem_of_nil.
    + by intros ? ? ?%not_elem_of_nil.
Qed.

(** ** The link *)
Record link := MkLink {
  l_sender : adapter; l_receiver : adapter;
  l_log : msg_log;                              (* ghost: what [send] accepted *)
  l_wires : list bytes;                         (* every data wire ever emitted *)
  l_delivered : list ((Z * Z) * (Z * bytes));   (* messages handed over, with their keys *)
  l_history : list (Z * Z);                     (* ghost: the keys completed so far *)
}.

Definition wire_key (b : adapter) (w : bytes) : Z * Z :=
  match decode (a_codec b) w with Ok f => fkey f | Raise _ => (0, 0) end.

Definition handed (b : adapter) (w : bytes) (r : result received) : list ((Z * Z) * (Z * bytes)) :=
  match r with Ok r => (λ m, (wire_key b w, m)) <$> r_messages r | Raise _ => [] end.

Definition completes (b : adapter) (w : bytes) (r : result received) : list (Z * Z) :=
  match r with
  | Ok (Received _ [] []) => []
  | Ok _ => [wire_key b w]
  | Raise _ => []
  end.

Inductive link_step : link → link → Prop :=
| ls_sender o l :
    data_wf o = true →
    link_step l (MkLink (run_op nfc o (l_sender l)) (l_receiver l) (op_log o (l_sender l) (l_log l))
                   (l_wires l ++ op_wires o (l_sender l)) (l_delivered l) (l_history l))
| ls_receiver o l :
    (∀ now w, o ≠ OpReceive now w) →
    link_step l (MkLink (l_sender l) (run_op nfc o (l_receiver l)) (l_log l) (l_wires l)
                   (l_delivered l) (l_history l))
| ls_deliver now w l :
    (* the network: any data wire ever emitted, or bytes that do not
       authenticate as a data frame *)
    wf_bytes w = true →
    (w ∈ l_wires l ∨ ∀ f, decode (a_codec (l_receiver l)) w = Ok f → f_kind f ≠ DATA) →
    link_step l (let '(r, b) := receive nfc now w (l_receiver l) in
                 MkLink (l_sender l) b (l_log l) (l_wires l)
                   (l_delivered l ++ handed (l_receiver l) w r)
                   (l_history l ++ completes (l_receiver l) w r)).

Inductive link_reachable : link → Prop :=
| lr_init core key exts exts' lim transport a b :
    limits_ok lim →
    make_adapter core key 0 exts lim transport = Ok a →
    make_adapter core key 1 exts' lim transport = Ok b →
    link_reachable (MkLink a b [] [] [] [])
| lr_step l l' : link_reachable l → link_step l l' → link_reachable l'.

(** A reassembly holds chunks of the logged message. *)
Definition partial_ok (payload : Z) (log : msg_log) (k : Z * Z) (st : incoming_state) : Prop :=
  ∃ d, dget log k = Some d ∧ in_count st = chunk_count payload d ∧
       ∀ i p, (i, p) ∈ in_parts st → p = chunk payload d i.

Record link_inv (l : link) : Prop := {
  li_sender : adapter_inv (l_sender l);
  li_receiver : adapter_inv (l_receiver l);
  li_peers : peers (a_codec (l_sender l)) (a_codec (l_receiver l));
  li_log : log_inv (l_sender l) (l_log l);
  li_wires : Forall (logged_wire (a_codec (l_sender l)) (l_log l)) (l_wires l);
  li_partial : ∀ k st, (k, st) ∈ incoming (l_receiver l) →
    partial_ok (payload_of (l_sender l)) (l_log l) k st;
  li_delivered : ∀ k s d, (k, (s, d)) ∈ l_delivered l → k.1 = s ∧ dget (l_log l) k = Some d;
  li_history : zlen (l_history l) ≤ 4096 →
    NoDup (l_history l) ∧ (l_delivered l).*1 `sublist_of` l_history l ∧
    (closed (l_receiver l) = false → completed_order (l_receiver l) = l_history l);
}.

Lemma logged_wire_extends c log log' w : log_extends log log' → logged_wire c log w → logged_wire c log' w.
Proof. intros Hx (s & m & d & i & Hd & Hr). exists s, m, d, i. split; [by apply Hx|done]. Qed.

(** A delivered data wire decodes to the chunk the sender cut. *)
Lemma logged_decode c c' log w f :
  codec_ok c → peers c c' → (∀ k d, dget log k = Some d → wf_bytes d = true) →
  logged_wire c log w → decode c' w = Ok f →
  ∃ s m d i, dget log (s, m) = Some d ∧ 0 ≤ i < chunk_count (c_payload c) d ∧ f = data_frame (c_payload c) s m d i.
Proof.
  intros Hc Hp Hlog (s & m & d & i & Hd & Hi & He) Hf. exists s, m, d, i. split_and!; try done; try lia.
  rewrite (decode_encode _ _ _ _ Hc Hp He) in Hf; [by injection Hf|simpl|done].
  apply wf_bytes_take, wf_bytes_drop. by eapply Hlog.
Qed.

(** The receiver's other methods only forget reassemblies. *)
Definition forgets (b b' : adapter) : Prop :=
  a_codec b' = a_codec b ∧ (∀ x, x ∈ incoming b' → x ∈ incoming b) ∧
  (closed b' = false → closed b = false ∧ completed_order b' = completed_order b).

Lemma forgets_refl b : forgets b b.
Proof. by unfold forgets. Qed.

Lemma forgets_run now a ws a' : outbound_run now a ws a' → sender_inv a → forgets a a'.
Proof.
  intros Hr I. destruct (outbound_run_effect _ _ _ _ Hr I) as (_ & _ & E & _). rewrite E.
  unfold forgets. by destruct a.
Qed.

Lemma forgets_trans a b c : forgets a b → forgets b c → forgets a c.
Proof. unfold forgets. naive_solver congruence. Qed.

Lemma expire_forgets now a : forgets a (expire now a).
Proof.
  unfold expire. generalize (incoming a) at 1. intros items. revert a.
  induction items as [|kv items IH]; intros a; simpl; [apply forgets_refl|].
  eapply forgets_trans; [|apply IH]. destruct (Qle_bool _ _); [|apply forgets_refl].
  unfold forgets. destruct a, kv; simpl. split_and!; try done. intros [k st] Hx.
  by apply elem_of_ddel in Hx as [_ ?].
Qed.

Lemma receiver_op o b :
  (∀ now w, o ≠ OpReceive now w) → adapter_inv b → forgets b (run_op nfc o b).
Proof.
  intros Ho Hb. destruct (closed b) eqn:Hc; [rewrite closed_noop by done; apply forgets_refl|].
  pose proof Hb as [I R T C].
  assert (∀ now s d, forgets b (send now s d b).2) as Hsend.
  { intros now s d. destruct (send_cases now s d b I Hc) as [(e & -> & _)|(ws & b' & -> & Hok & Hr)];
      [apply forgets_refl|]. eapply forgets_trans; [|eapply forgets_run; [done|by apply enqueued_inv]].
    unfold forgets. by destruct b. }
  destruct o as [now s d|now s d|now|now w|now|s n v|]; simpl.
  - apply Hsend.
  - destruct (send_flow_controlled now s d b) as [r b'] eqn:E.
    apply send_flow_cases in E as [(e & _ & ->)|(_ & _ & _ & E)]; [apply forgets_refl|].
    specialize (Hsend now s d). by rewrite E in Hsend.
  - destruct (outbound_ok now b I Hc) as (ws & b' & -> & Hr). by eapply forgets_run.
  - by destruct (Ho now w).
  - unfold retransmit, _ensure_open, mget, mraise_if, mlift, mmod, mbind, M_bind. rewrite Hc. simpl.
    eapply forgets_trans; [apply (expire_forgets now)|].
    destruct (expire_view now b) as (Hv & Hcl & _). pose proof (sender_view_inv _ _ Hv I) as I1.
    destruct (resend_ok now _ _ I1 (si_pending_wf _ I1)) as (r & b1 & Hr & I2 & Ea & _).
    { intros k it Hin. apply elem_of_dget; [apply I1|done]. }
    rewrite Hr. assert (forgets (expire now b) b1 ∧ closed b1 = false) as [Hf Hc1].
    { rewrite Ea. split; [unfold forgets; by destruct (expire now b)|]. rewrite <- Hc, <- Hcl.
      by destruct (expire now b). }
    destruct r as [ws|e]; [|done]. destruct (outbound_ok now b1 I2 Hc1) as (ws2 & b2 & Ho2 & Hrun).
    rewrite Ho2. eapply forgets_trans; [done|]. by eapply forgets_run.
  - destruct (extension_state s n v b) as [->|(_ & _ & ->)]; unfold forgets; by destruct b.
  - unfold close. rewrite Hc. unfold forgets. simpl. split_and!; try done. by intros ? ?%not_elem_of_nil.
Qed.

Lemma link_inv_sender o l :
  data_wf o = true → link_inv l →
  link_inv (MkLink (run_op nfc o (l_sender l)) (l_receiver l) (op_log o (l_sender l) (l_log l))
              (l_wires l ++ op_wires o (l_sender l)) (l_delivered l) (l_history l)).
Proof.
  intros Hw [A B P L W Q D Hi]. destruct (sender_step o _ _ A Hw L) as (L' & Hc & Hws & Hx).
  constructor; simpl; try done.
  - apply run_op_inv; [|done]. by destruct o.
  - by rewrite Hc.
  - rewrite Hc. apply Forall_app. split; [|done]. eapply Forall_impl; [done|].
    intros w. by apply logged_wire_extends.
  - intros k st Hin. destruct (Q k st Hin) as (d & Hd & Hr). exists d. unfold payload_of in *. rewrite Hc.
    split; [by apply Hx|done].
  - intros k s d Hin. destruct (D k s d Hin). split; [done|by apply Hx].
Qed.

Lemma link_inv_receiver o l :
  (∀ now w, o ≠ OpReceive now w) → link_inv l →
  link_inv (MkLink (l_sender l) (run_op nfc o (l_receiver l)) (l_log l) (l_wires l)
              (l_delivered l) (l_history l)).
Proof.
  intros Ho [A B P L W Q D Hi]. destruct (receiver_op o _ Ho B) as (Hc & Hin & Hcl).
  constructor; simpl; try done.
  - apply run_op_inv; [|done]. destruct o; try done. by destruct (Ho now wire).
  - by rewrite Hc.
  - intros k st Hk. by apply Q, Hin.
  - intros Hz. destruct (Hi Hz) as (? & ? & Hord). split_and!; try done. intros Hf.
    destruct (Hcl Hf) as [Hf' ->]. by apply Hord.
Qed.

(** A chunk added to a partial reassembly of its message. *)
Lemma next_partial now log s m d i b :
  let p := payload_of b in let f := data_frame p s m d i in
  dget log (s, m) = Some d → part_ok now f b →
  (∀ st, dget (incoming b) (s, m) = Some st → partial_ok p log (s, m) st) →
  in_count (next_state now f b) = chunk_count p d ∧
  ∀ j x, (j, x) ∈ in_parts (next_state now f b) → x = chunk p d j.
Proof.
  intros p f Hd (_ & _ & Hc & _) Hst. unfold next_state, add_part. change (fkey f) with (s, m) in *.
  set (st := base_state now (a_limits b) f (dget (incoming b) (s, m))) in *.
  assert (∀ j x, (j, x) ∈ in_parts st → x = chunk p d j) as Hparts.
  { unfold st, base_state. destruct (dget (incoming b) (s, m)) as [st0|] eqn:E; simpl.
    - destruct (Hst _ eq_refl) as (d' & Hd' & _ & Hp). assert (d' = d) as -> by congruence. done.
    - by intros ? ? ?%not_elem_of_nil. }
  destruct (dmem (in_parts st) (f_index f)); [done|]. simpl. split; [done|].
  intros j x [(-> & ->)|Hin]%elem_of_dset_inv; [done|by apply Hparts].
Qed.

Lemma next_complete now s m d i b data :
  let p := payload_of b in let f := data_frame p s m d i in
  receiver_inv b → limits_ok (a_limits b) → frame_range f → 1 ≤ p → d ≠ [] → part_ok now f b →
  in_count (next_state now f b) = chunk_count p d →
  (∀ j x, (j, x) ∈ in_parts (next_state now f b) → x = chunk p d j) →
  zlen (in_parts (next_state now f b)) = f_count f →
  join_parts (in_parts (next_state now f b)) (f_count f) = Ok data → data = d.
Proof.
  intros p f R Hl Hf Hp Hd Hok Hcnt Hparts Hz Hj.
  pose proof (base_state_ok now f b R Hf Hl) as [Hb Hbl]. destruct Hok as (Hpay & _ & Hc & _ & Hm).
  destruct (add_part_ok _ f _ Hb (proj2 Hbl) Hc Hf Hpay Hm) as ([_ Hwf Hr _ _] & Hcnt' & _).
  fold (next_state now f b) in *.
  assert (join_parts (in_parts (next_state now f b)) (chunk_count p d) = Ok d) as Hj'.
  { apply join_chunks; try done. intros j x Hin. split; [|by apply Hparts].
    destruct (Hr _ _ Hin) as [Hj' _]. rewrite Hcnt in Hj'. done. }
  change (f_count f) with (chunk_count p d) in Hj. congruence.
Qed.

Lemma history_snoc (h : list (Z * Z)) (dl : list (Z * Z)) k (order : list (Z * Z)) :
  (zlen h ≤ 4096 → NoDup h ∧ dl `sublist_of` h ∧ order = h) → k ∉ order →
  zlen (h ++ [k]) ≤ 4096 →
  NoDup (h ++ [k]) ∧ dl `sublist_of` h ++ [k] ∧ dl ++ [k] `sublist_of` h ++ [k] ∧ order ++ [k] = h ++ [k] ∧
  zlen order < 4096.
Proof.
  rewrite zlen_app, zlen_cons, zlen_nil. intros Hh Hk Hz. destruct Hh as (Hn & Hs & ->); [lia|].
  split_and!; try done; [| | |lia].
  - apply NoDup_app. split_and!; [done| |apply NoDup_singleton]. intros x Hx ->%list_elem_of_singleton. done.
  - by apply sublist_inserts_r.
  - by apply sublist_app.
Qed.

(** Which data frames reach the receiver. *)
Lemma delivered_chunk l w f :
  link_inv l → wf_bytes w = true →
  (w ∈ l_wires l ∨ ∀ f, decode (a_codec (l_receiver l)) w = Ok f → f_kind f ≠ DATA) →
  decode (a_codec (l_receiver l)) w = Ok f → f_kind f = DATA →
  ∃ s m d i, dget (l_log l) (s, m) = Some d ∧ d ≠ [] ∧
             f = data_frame (payload_of (l_receiver l)) s m d i ∧ frame_range f.
Proof.
  intros [A B P L W Q D Hi] Hw Hsrc Hd Hk. destruct Hsrc as [Hin|Hn]; [|by apply Hn in Hd].
  rewrite Forall_forall in W. specialize (W w Hin).
  destruct (decode_range _ _ _ Hw Hd) as (Hr & _).
  pose proof P as (_ & _ & Hpay & _). unfold payload_of. rewrite <- Hpay.
  destruct (logged_decode _ _ _ _ _ (si_codec _ (ai_sender _ A)) P (λ k d Hk, proj2 (lg_data _ _ L k d Hk)) W Hd)
    as (s & m & d & i & Hlog & Hi' & Hf). exists s, m, d, i.
  split_and!; try done. by destruct (lg_data _ _ L _ _ Hlog).
Qed.

Lemma deliver_unchanged l b' :
  link_inv l → adapter_inv b' → receiver_view b' = receiver_view (l_receiver l) →
  a_codec b' = a_codec (l_receiver l) → closed b' = closed (l_receiver l) →
  link_inv (MkLink (l_sender l) b' (l_log l) (l_wires l) (l_delivered l) (l_history l)).
Proof.
  intros [A B P L W Q D Hi] B' Hv Hc Hcl. injection Hv as _ Ei _ _ Eo.
  constructor; simpl; try done; [by rewrite Hc|by rewrite Ei|].
  intros Hz. rewrite Eo, Hcl. by apply Hi.
Qed.

Lemma completed_fresh b k : receiver_inv b → k ∉ completed b → k ∉ completed_order b.
Proof. intros R Hk. by rewrite <- (ri_order b R). Qed.

Lemma incoming_stored now f b : incoming (stored now f b) = dset (incoming b) (fkey f) (next_state now f b).
Proof. by destruct b. Qed.

(** The reassemblies of the receiver, seen with its own chunk size. *)
Lemma receiver_partial l k st :
  link_inv l → dget (incoming (l_receiver l)) k = Some st →
  partial_ok (payload_of (l_receiver l)) (l_log l) k st.
Proof.
  intros Hl Hst. pose proof (li_peers l Hl) as (_ & _ & Hpay & _). unfold payload_of. rewrite <- Hpay.
  apply (li_partial l Hl). by apply dget_elem_of.
Qed.

Lemma deliver_stored now l s m d i :
  let f := data_frame (payload_of (l_receiver l)) s m d i in
  let b' := stored now f (l_receiver l) in
  link_inv l → adapter_inv b' → closed (l_receiver l) = false → dget (l_log l) (s, m) = Some d →
  part_ok now f (l_receiver l) →
  link_inv (MkLink (l_sender l) b' (l_log l) (l_wires l) (l_delivered l) (l_history l)).
Proof.
  intros f b' Hl B' Hcl Hlog Hp.
  destruct (next_partial now (l_log l) s m d i (l_receiver l) Hlog Hp (λ st, receiver_partial l _ st Hl))
    as [Hcnt Hparts].
  pose proof Hl as [A B P L W Q D Hi]. pose proof P as (_ & _ & Hpay & _).
  assert (a_codec b' = a_codec (l_receiver l) ∧ completed_order b' = completed_order (l_receiver l)) as [Hc Ho].
  { unfold b', stored. by destruct (l_receiver l). }
  constructor; simpl; try done; [by rewrite Hc| |].
  - intros k st. unfold b'. rewrite incoming_stored. intros [(-> & ->)|Hin]%elem_of_dset_inv; [|by apply Q].
    exists d. unfold payload_of in *. rewrite Hpay. done.
  - intros Hh. destruct (Hi Hh) as (? & ? & Hord). split_and!; try done. intros _. rewrite Ho. by apply Hord.
Qed.

Lemma finished_order now f b :
  receiver_inv b → fkey f ∉ completed b →
  incoming (finished now f b) = ddel (incoming b) (fkey f) ∧
  (zlen (completed_order b) < 4096 → completed_order (finished now f b) = completed_order b ++ [fkey f]).
Proof.
  intros R Hn. unfold finished. match goal with |- context [_remember _ ?x] => set (b0 := x) end.
  destruct (remember_view (fkey f) b0) as (_ & _ & Ei & _).
  assert (completed b0 = completed b ∧ completed_order b0 = completed_order b ∧
          incoming b0 = ddel (incoming b) (fkey f)) as (Ec & Eo & Ei0).
  { unfold b0. destruct b; simpl. split_and!; try done. by rewrite ddel_dset. }
  pose proof (remember_window (fkey f) b0) as Hrw. rewrite Ec, Eo in Hrw.
  destruct (Hrw (ri_order b R) (ri_nodup b R) (ri_window b R) Hn) as (_ & _ & _ & _ & Ho).
  split; [by rewrite Ei, Ei0|done].
Qed.

Lemma deliver_finished now l s m d i :
  let f := data_frame (payload_of (l_receiver l)) s m d i in
  let b' := finished now f (l_receiver l) in
  link_inv l → adapter_inv b' → a_codec b' = a_codec (l_receiver l) → closed (l_receiver l) = false →
  dget (l_log l) (s, m) = Some d → (s, m) ∉ completed (l_receiver l) →
  link_inv (MkLink (l_sender l) b' (l_log l) (l_wires l) (l_delivered l ++ [((s, m), (s, d))])
              (l_history l ++ [(s, m)])).
Proof.
  intros f b' Hl B' Hc Hcl Hlog Hn. pose proof Hl as [A B P L W Q D Hi].
  pose proof (ai_receiver _ B) as R. destruct (finished_order now f _ R Hn) as [Ei Ho].
  constructor; simpl; try done; [by rewrite Hc| | |].
  - intros k st. unfold b'. rewrite Ei. intros [_ Hin]%elem_of_ddel. by apply Q.
  - intros k s' d' [Hin|Hin]%elem_of_app; [by apply D|]. apply list_elem_of_singleton in Hin.
    injection Hin as -> -> ->. done.
  - intros Hh. destruct (history_snoc (l_history l) (l_delivered l).*1 (s, m) (completed_order (l_receiver l)))
      as (F1 & _ & F3 & F4 & F5); try done; [naive_solver|by apply completed_fresh|].
    rewrite fmap_app. simpl. split_and!; try done. intros _. unfold b'. by rewrite Ho.
Qed.

Lemma link_inv_deliver now w l :
  wf_bytes w = true →
  (w ∈ l_wires l ∨ ∀ f, decode (a_codec (l_receiver l)) w = Ok f → f_kind f ≠ DATA) →
  link_inv l →
  link_inv (let '(r, b) := receive nfc now w (l_receiver l) in
            MkLink (l_sender l) b (l_log l) (l_wires l) (l_delivered l ++ handed (l_receiver l) w r)
              (l_history l ++ completes (l_receiver l) w r)).
Proof.
  intros Hw Hsrc Hl. pose proof Hl as [A B P L W Q D Hi].
  pose proof (run_op_inv nfc (OpReceive now w) _ Hw B) as B'. simpl in B'.
  pose proof (receive_codec now w _ B Hw) as Hcodec.
  destruct (closed (l_receiver l)) eqn:Hcl.
  { unfold receive, _ensure_open, mget, mraise_if, mlift, mbind, M_bind. rewrite Hcl. simpl.
    rewrite !app_nil_r. by destruct l. }
  pose proof (receive_rto nfc now w _ B Hw Hcl) as [_ Hcl'].
  destruct (receive nfc now w (l_receiver l)) as [r b'] eqn:E. simpl in B', Hcodec, Hcl'.
  pose proof B as [I R _ _].
  destruct (receive_cases nfc _ _ _ _ _ I R Hw E)
    as [e|f b' Hd Hk Ha|f ack Hd|f ack name v Hd Hk Hn _ _|f ack Hd Hk Hn _ Hp Hz|f ack d Hd Hk Hn _ Hp Hz Hj];
    unfold handed, completes, wire_key; simpl; rewrite ?Hd, ?app_nil_r; simpl.
  - by apply deliver_unchanged.
  - apply deliver_unchanged; try done; [|congruence].
    pose proof (receive_ack_receiver now f (l_receiver l)) as Hv. by rewrite Ha in Hv.
  - by apply deliver_unchanged.
  - destruct (remember_view (fkey f) (l_receiver l)) as (_ & _ & Ei & _).
    destruct (remember_window (fkey f) _ (ri_order _ R) (ri_nodup _ R) (ri_window _ R) Hn) as (_ & _ & _ & _ & Ho).
    constructor; simpl; try done; [by rewrite Hcodec|by rewrite Ei|].
    intros Hz. destruct (history_snoc (l_history l) (l_delivered l).*1 (fkey f) (completed_order (l_receiver l)))
      as (F1 & F2 & _ & F4 & F5); try done; [naive_solver|by apply completed_fresh|].
    split_and!; try done. intros _. by rewrite Ho.
  - destruct (delivered_chunk l w f Hl Hw Hsrc Hd Hk) as (s & m & d & i & Hlog & _ & -> & _).
    by apply deliver_stored.
  - destruct (delivered_chunk l w f Hl Hw Hsrc Hd Hk) as (s & m & dd & i & Hlog & Hd0 & -> & Hfr).
    assert (1 ≤ payload_of (l_receiver l)) as Hp1 by (destruct (si_codec _ I); unfold payload_of; lia).
    destruct (next_partial now (l_log l) s m dd i _ Hlog Hp (λ st, receiver_partial l _ st Hl)) as [Hcnt Hparts].
    assert (d = dd) as -> by (by eapply (next_complete now s m dd i _ d R (si_limits _ I))).
    by apply deliver_finished.
Qed.

Lemma link_inv_init core key exts exts' lim transport a b :
  limits_ok lim → make_adapter core key 0 exts lim transport = Ok a →
  make_adapter core key 1 exts' lim transport = Ok b → link_inv (MkLink a b [] [] [] []).
Proof.
  intros Hl Ha Hb. pose proof (make_adapter_adapter_inv _ _ _ _ _ _ _ Hl Ha) as (Ia & Ea).
  pose proof (make_adapter_adapter_inv _ _ _ _ _ _ _ Hl Hb) as (Ib & Eb).
  unfold idle in *. destruct Ea as (Ea1 & _ & Ea3 & _). destruct Eb as (_ & _ & _ & _ & Eb5 & _ & _ & _ & Eb9).
  constructor; simpl; try done.
  - unfold make_adapter in Ha, Hb. inv_ok. rewrite Hv in Hv0. injection Hv0 as <-.
    destruct (dget PROFILES v) as [pol|]; [|done]. inv_ok. subst. simpl.
    match goal with Ha : make_codec _ _ 0 _ = _, Hb : make_codec _ _ 1 _ = _ |- _ =>
      exact (make_codec_peers _ _ _ _ _ Ha Hb) end.
  - constructor; simpl; try done.
    + intros s q it _ Hq Hit. rewrite (Ea3 q) in Hit by (by eapply list_elem_of_lookup_2).
      by apply not_elem_of_nil in Hit.
    + rewrite Ea1. by intros ? ? ?%not_elem_of_nil.
  - rewrite Eb5. by intros ? ? ?%not_elem_of_nil.
  - by intros ? ? ? ?%not_elem_of_nil.
  - intros _. split_and!; try done; [constructor].
Qed.

Lemma link_reachable_inv l : link_reachable l → link_inv l.
Proof.
  induction 1 as [core key exts exts' lim tr a b Hl Ha Hb|l l' _ IH Hs];
    [exact (link_inv_init _ _ _ _ _ _ _ _ Hl Ha Hb)|].
  destruct Hs; [by apply link_inv_sender|by apply link_inv_receiver|by apply link_inv_deliver].
Qed.
End Link.
