(* ===== verification/S6naReassembly.v ===== *)
(** * S6NA: reassembly in any order

    The chunks of one message, received in any order and with any
    repetitions, are handed over exactly once and complete. *)
From Stdlib Require Import QArith Qabs Qminmax.
From S2P Require Import Prelude Dict PyStr PyText PyValue Json JsonRound StrictJson Sha256 S6naCodec S6naAdapter S6naInvariant S6naSender S6naReceiver S6naSystem S6naLink.
#[global] Open Scope Z_scope.

Definition sum_chunks (p : Z) (d : bytes) (idx : list Z) : Z := foldr (λ i acc, zlen (chunk p d i) + acc) 0 idx.

Lemma sum_chunks_perm p d idx js : idx ≡ₚ js → sum_chunks p d idx = sum_chunks p d js.
Proof. unfold sum_chunks. induction 1; simpl; lia. Qed.

Lemma sum_chunks_submseteq p d idx js : idx ⊆+ js → sum_chunks p d idx ≤ sum_chunks p d js.
Proof.
  intros (ks & Hp)%submseteq_Permutation. rewrite (sum_chunks_perm p d js _ Hp).
  unfold sum_chunks. rewrite foldr_app. clear Hp. induction idx as [|i idx IH]; simpl; [|lia].
  induction ks as [|k ks IH]; simpl; [lia|]. pose proof (zlen_nonneg (chunk p d k)). lia.
Qed.

Lemma sum_chunks_all p d : 1 ≤ p → d ≠ [] → sum_chunks p d (index_range (chunk_count p d)) = zlen d.
Proof.
  intros Hp Hd. pose proof (f_equal zlen (concat_chunks p d Hp Hd)) as E. rewrite zlen_concat in E.
  rewrite <- E. clear E. unfold sum_chunks.
  induction (index_range (chunk_count p d)) as [|i idx IH]; simpl; [done|]. by rewrite IH.
Qed.

(** Parts that are distinct chunks of [d]. *)
Definition chunk_parts (p : Z) (d : bytes) (parts : list (Z * bytes)) : Prop :=
  dwf parts ∧ ∀ i x, (i, x) ∈ parts → 0 ≤ i < chunk_count p d ∧ x = chunk p d i.

Lemma chunk_parts_bytes p d parts :
  1 ≤ p → d ≠ [] → chunk_parts p d parts → parts_bytes parts ≤ zlen d.
Proof.
  intros Hp Hd [Hwf Hin].
  assert (parts_bytes parts = sum_chunks p d (dkeys parts)) as ->.
  { clear Hwf. unfold parts_bytes, dsum, sum_chunks, dkeys.
    induction parts as [|[i x] parts IH]; simpl; [done|].
    rewrite IH by (intros; apply Hin; by right). destruct (Hin i x ltac:(left)) as [_ ->]. done. }
  rewrite <- (sum_chunks_all p d) by done. apply sum_chunks_submseteq, NoDup_submseteq; [done|].
  intros i Hi. apply elem_of_index_range. apply list_elem_of_fmap in Hi as ([j x] & -> & Hj). by eapply Hin.
Qed.

Section Reassembly.
Context `{AEADLaws} (nfc : pystr → pystr).

(** Receive a list of wires, collecting the messages handed over. *)
Fixpoint receive_all (now : Q) (ws : list bytes) (b : adapter) : result (list (Z * bytes)) * adapter :=
  match ws with
  | [] => (Ok [], b)
  | w :: ws =>
      let '(r, b) := receive nfc now w b in
      match r with
      | Raise e => (Raise e, b)
      | Ok r => let '(rs, b) := receive_all now ws b in ((λ l, r_messages r ++ l) <$> rs, b)
      end
  end.

Definition parts_at (b : adapter) (k : Z * Z) : list (Z * bytes) :=
  match dget (incoming b) k with Some st => in_parts st | None => [] end.

(** [b] is collecting message [k] and has room for all of [d]. *)
Record collecting (b : adapter) (k : Z * Z) (d : bytes) : Prop := {
  co_inv : adapter_inv b;
  co_open : closed b = false;
  co_new : k ∉ completed b;
  co_data : d ≠ [] ∧ zlen d ≤ max_message (a_limits b);
  co_parts : chunk_parts (payload_of b) d (parts_at b k);
  co_count : ∀ st, dget (incoming b) k = Some st → in_count st = chunk_count (payload_of b) d;
  co_room : dget (incoming b) k = None → zlen (incoming b) < 4096;
  co_bytes : incoming_bytes b - parts_bytes (parts_at b k) + zlen d ≤ max_inflight (a_limits b);
}.

Lemma collecting_step now b c s m d i w :
  collecting b (s, m) d → codec_ok c → peers c (a_codec b) → wf_bytes d = true →
  0 ≤ i < chunk_count (payload_of b) d →
  encode c (data_frame (payload_of b) s m d i) = Ok w →
  let f := data_frame (payload_of b) s m d i in
  ∃ ack, (receive nfc now w b = (Ok (Received [ack] [] []), stored now f b) ∧
          zlen (in_parts (next_state now f b)) < f_count f) ∨
         (receive nfc now w b = (Ok (Received [ack] [(s, d)] []), finished now f b) ∧ part_ok now f b).
Proof.
  intros [A Hop Hnew [Hd Hmax] Hparts Hcount Hroom Hbytes] Hc Hp Hw Hi He f.
  pose proof A as [I R _ _]. pose proof Hp as (_ & _ & Hpay & _).
  assert (wf_bytes (chunk (payload_of b) d i) = true) as Hwc by by apply wf_bytes_take, wf_bytes_drop.
  pose proof (decode_encode _ _ _ _ Hc Hp He Hwc ltac:(done)) as Hdec. fold f in Hdec.
  destruct (decode_range _ _ _ (encode_wf _ _ _ He Hwc) Hdec) as (Hfr & Hs & Hm & _).
  assert (1 ≤ payload_of b) as Hp1 by (destruct (si_codec b I); unfold payload_of; lia).
  destruct (base_state_ok now f b R Hfr (si_limits b I)) as [Hb Hbl].
  assert (in_parts (base_state now (a_limits b) f (dget (incoming b) (fkey f))) = parts_at b (s, m)) as Ep.
  { unfold parts_at, base_state. change (fkey f) with (s, m). by destruct (dget (incoming b) (s, m)). }
  assert (chunk_parts (payload_of b) d (in_parts (next_state now f b))) as Hnext.
  { unfold next_state, add_part. rewrite Ep. destruct (dmem _ _); [by rewrite Ep|]. simpl.
    destruct Hparts as [Hwf Hin]. split; [by apply dwf_dset|].
    intros j x [(-> & ->)|Hj]%elem_of_dset_inv; [done|by apply Hin]. }
  assert (in_bytes (next_state now f b) = parts_bytes (in_parts (next_state now f b))) as Eb.
  { destruct Hb as [_ _ _ Hby _]. unfold next_state, add_part, dmem.
    destruct (dget (in_parts _) (f_index f)) eqn:Em; cbn [in_bytes in_parts]; [done|].
    rewrite Hby. unfold parts_bytes. by rewrite dsum_dset_None. }
  pose proof (chunk_parts_bytes _ _ _ Hp1 Hd Hnext) as Hle.
  assert (part_ok now f b) as Hok.
  { unfold part_ok. pose proof (chunk_nonempty _ _ _ Hp1 Hd Hi) as Hne. split_and!.
    - intros E. change (f_payload f) with (chunk (payload_of b) d i) in E. rewrite E in Hne.
      unfold zlen in Hne. simpl in Hne. lia.
    - done.
    - unfold base_state. change (fkey f) with (s, m).
      destruct (dget (incoming b) (s, m)) as [st|] eqn:E; [by apply Hcount|done].
    - unfold part_total. destruct Hb as [_ _ _ Hby _]. rewrite Ep in Hby. lia.
    - lia. }
  destruct (ack_encodes (a_codec b) f (si_codec b I) Hfr Hs Hm) as [ack Hack]. exists ack.
  assert (receive nfc now w b = receive_data now ack f b) as Er.
  { unfold receive, _ensure_open, mget, mraise_if, mlift, mbind, M_bind. rewrite Hop. simpl. rewrite Hdec.
    change (f_kind f =? ACK) with false. cbv iota. change (Frame ACK _ _ _ _ _) with (ack_frame f).
    rewrite Hack. change (f_stream f, f_message f) with (s, m). rewrite bool_decide_false by done. done. }
  destruct (receive_data_cases now ack f b R (si_limits b I) Hfr)
    as [(Hn & _)|[(_ & Hl & Hr)|(_ & Hl & data & Hj & Hr)]]; [done|left; by rewrite Er|right].
  rewrite Er, Hr. destruct Hnext as [Hwf Hin].
  assert (join_parts (in_parts (next_state now f b)) (f_count f) = Ok d) as Hj'.
  { apply join_chunks; done. }
  rewrite Hj' in Hj. by injection Hj as <-.
Qed.

Lemma parts_at_stored now f b : parts_at (stored now f b) (fkey f) = in_parts (next_state now f b).
Proof. unfold parts_at. rewrite incoming_stored, dget_dset_eq. done. Qed.

Lemma next_parts_keys now f b j :
  j ∈ dkeys (in_parts (next_state now f b)) ↔ j = f_index f ∨ j ∈ dkeys (parts_at b (fkey f)).
Proof.
  assert (in_parts (base_state now (a_limits b) f (dget (incoming b) (fkey f))) = parts_at b (fkey f)) as Ep.
  { unfold parts_at, base_state. by destruct (dget (incoming b) (fkey f)). }
  unfold next_state, add_part, dmem. rewrite Ep.
  destruct (dget (parts_at b (fkey f)) (f_index f)) eqn:E; cbn [in_parts].
  - rewrite Ep. split; [by right|]. intros [->|?]; [|done]. by eapply dget_Some_key.
  - apply elem_of_dkeys_dset.
Qed.

(** Storing a chunk keeps collecting. *)
Lemma collecting_stored now b c s m d i w ack :
  let f := data_frame (payload_of b) s m d i in
  collecting b (s, m) d → codec_ok c → peers c (a_codec b) → wf_bytes d = true →
  0 ≤ i < chunk_count (payload_of b) d → encode c f = Ok w →
  receive nfc now w b = (Ok (Received [ack] [] []), stored now f b) →
  collecting (stored now f b) (s, m) d.
Proof.
  intros f Hco Hc Hp Hw Hi He Hr. pose proof Hco as [A Hop Hnew [Hd Hmax] [Hwf Hin] Hcount Hroom Hbytes].
  assert (wf_bytes w = true) as Hww.
  { eapply encode_wf; [done|]. by apply wf_bytes_take, wf_bytes_drop. }
  pose proof (run_op_inv nfc (OpReceive now w) b Hww A) as A'. simpl in A'. rewrite Hr in A'. simpl in A'.
  assert (payload_of (stored now f b) = payload_of b ∧ a_limits (stored now f b) = a_limits b ∧
          completed (stored now f b) = completed b ∧ closed (stored now f b) = closed b ∧
          incoming_bytes (stored now f b) = part_total now f b) as (E1 & E2 & E3 & E4 & E5) by (by destruct b).
  assert (in_parts (base_state now (a_limits b) f (dget (incoming b) (s, m))) = parts_at b (s, m)) as Ep.
  { unfold parts_at, base_state. by destruct (dget (incoming b) (s, m)). }
  assert (parts_at (stored now f b) (s, m) = in_parts (next_state now f b)) as Ep'
    by apply (parts_at_stored now f b).
  assert (in_bytes (base_state now (a_limits b) f (dget (incoming b) (s, m))) = parts_bytes (parts_at b (s, m))) as Eb.
  { rewrite <- Ep. unfold base_state. destruct (dget (incoming b) (s, m)) as [st|] eqn:E; simpl; [|done].
    apply dget_elem_of in E. by destruct (ri_ok b (ai_receiver b A) _ _ E) as [[_ _ _ ? _] _]. }
  assert (in_bytes (next_state now f b) = parts_bytes (in_parts (next_state now f b))) as Eb'.
  { assert ((s, m, next_state now f b) ∈ incoming (stored now f b)) as Hel.
    { rewrite incoming_stored. apply dget_elem_of, dget_dset_eq. }
    by destruct (ri_ok _ (ai_receiver _ A') _ _ Hel) as [[_ _ _ ? _] _]. }
  constructor; rewrite ?E1, ?E2, ?E3, ?E4, ?E5; try done.
  - rewrite Ep'. unfold next_state, add_part, dmem. change (fkey f) with (s, m). rewrite Ep.
    destruct (dget (parts_at b (s, m)) (f_index f)); cbn [in_parts]; [by rewrite Ep|].
    split; [by apply dwf_dset|]. intros j x [(-> & ->)|Hj]%elem_of_dset_inv; [done|by apply Hin].
  - intros st. rewrite incoming_stored, dget_dset_eq. intros [= <-].
    unfold next_state, add_part. change (fkey f) with (s, m).
    destruct (dmem _ _); cbn [in_count]; unfold base_state;
      (destruct (dget (incoming b) (s, m)) as [st|] eqn:E; [by apply Hcount|done]).
  - rewrite incoming_stored, dget_dset_eq. done.
  - rewrite Ep'. unfold part_total. change (fkey f) with (s, m). lia.
Qed.

(** After completion every further chunk is only acknowledged. *)
Lemma completed_step now b c s m d i w :
  adapter_inv b → closed b = false → (s, m) ∈ completed b → codec_ok c → peers c (a_codec b) →
  wf_bytes d = true → encode c (data_frame (payload_of b) s m d i) = Ok w →
  ∃ ack, receive nfc now w b = (Ok (Received [ack] [] []), b).
Proof.
  intros A Hop Hdone Hc Hp Hw He. pose proof A as [I R _ _]. set (f := data_frame _ _ _ _ _) in *.
  assert (wf_bytes (chunk (payload_of b) d i) = true) as Hwc by by apply wf_bytes_take, wf_bytes_drop.
  pose proof (decode_encode _ _ _ _ Hc Hp He Hwc ltac:(done)) as Hdec.
  destruct (decode_range _ _ _ (encode_wf _ _ _ He Hwc) Hdec) as (Hfr & Hs & Hm & _).
  destruct (ack_encodes (a_codec b) f (si_codec b I) Hfr Hs Hm) as [ack Hack]. exists ack.
  unfold receive, _ensure_open, mget, mraise_if, mlift, mbind, M_bind. rewrite Hop. simpl. rewrite Hdec.
  change (f_kind f =? ACK) with false. cbv iota. change (Frame ACK _ _ _ _ _) with (ack_frame f).
  rewrite Hack. change (f_stream f, f_message f) with (s, m). by rewrite bool_decide_true.
Qed.

Definition chunk_wires (c : codec) (p s m : Z) (d : bytes) (idx : list Z) (ws : list bytes) : Prop :=
  Forall2 (λ i w, encode c (data_frame p s m d i) = Ok w) idx ws.

Lemma receive_all_done now b c s m d idx ws :
  adapter_inv b → closed b = false → (s, m) ∈ completed b → codec_ok c → peers c (a_codec b) →
  wf_bytes d = true → chunk_wires c (payload_of b) s m d idx ws → receive_all now ws b = (Ok [], b).
Proof.
  intros A Hop Hdone Hc Hp Hw Hws. induction Hws as [|i w idx ws He Hws IH]; [done|]. simpl.
  destruct (completed_step now b c s m d i w) as [ack ->]; try done. by rewrite IH.
Qed.

Lemma receive_all_collecting now b c s m d idx ws :
  collecting b (s, m) d → codec_ok c → peers c (a_codec b) → wf_bytes d = true →
  Forall (λ i, 0 ≤ i < chunk_count (payload_of b) d) idx →
  (∀ j, 0 ≤ j < chunk_count (payload_of b) d → j ∈ dkeys (parts_at b (s, m)) ∨ j ∈ idx) →
  (∃ j, 0 ≤ j < chunk_count (payload_of b) d ∧ j ∉ dkeys (parts_at b (s, m))) →
  chunk_wires c (payload_of b) s m d idx ws →
  ∃ b', receive_all now ws b = (Ok [(s, d)], b') ∧ (s, m) ∈ completed b' ∧ closed b' = false.
Proof.
  intros Hco Hc Hp Hw Hidx Hcover Hmiss Hws. revert b Hco Hp Hidx Hcover Hmiss Hws.
  revert ws. induction idx as [|i idx IH]; intros ws b Hco Hp Hidx Hcover Hmiss Hws.
  { exfalso. destruct Hmiss as (j & Hj & Hn). destruct (Hcover j Hj) as [?|Hin]; [done|].
    by apply not_elem_of_nil in Hin. }
  inversion Hws as [|? w ? ws' He Hws']; subst. apply Forall_cons in Hidx as [Hi Hidx]. simpl.
  destruct (collecting_step now b c s m d i w Hco Hc Hp Hw Hi He) as [ack [[Hr Hl]|[Hr Hok]]]; rewrite Hr; cbn [r_messages].
  - pose proof (collecting_stored now b c s m d i w ack Hco Hc Hp Hw Hi He Hr) as Hco'.
    set (f := data_frame (payload_of b) s m d i) in *. set (b' := stored now f b) in *.
    assert (payload_of b' = payload_of b ∧ a_codec b' = a_codec b) as [E1 E2] by (by destruct b).
    assert (∀ j, j ∈ dkeys (parts_at b' (s, m)) ↔ j = i ∨ j ∈ dkeys (parts_at b (s, m))) as Hkeys.
    { intros j. pose proof (next_parts_keys now f b j) as Hk. rewrite <- (parts_at_stored now f b) in Hk. done. }
    destruct (IH ws' b' Hco') as (b'' & -> & Hdone & Hop); rewrite ?E1, ?E2; try done.
    + intros j Hj. rewrite Hkeys. destruct (Hcover j Hj) as [?|[->|?]%elem_of_cons]; auto.
    + destruct (decide (Exists (λ j, j ∉ dkeys (parts_at b' (s, m))) (index_range (chunk_count (payload_of b) d))))
        as [Hex|Hall].
      * apply Exists_exists in Hex as (j & Hj & Hn). apply elem_of_index_range in Hj. by exists j.
      * exfalso. apply not_Exists_Forall in Hall; [|intros j; apply _].
        pose proof (co_parts _ _ _ Hco') as [Hwf _].
        assert (index_range (chunk_count (payload_of b) d) ⊆+ dkeys (parts_at b' (s, m))) as Hsub.
        { apply NoDup_submseteq; [apply NoDup_index_range|]. intros j Hj. rewrite Forall_forall in Hall.
          specialize (Hall j Hj). by apply dec_stable in Hall. }
        apply submseteq_length in Hsub. rewrite length_index_range in Hsub.
        change (parts_at b' (s, m)) with (parts_at (stored now f b) (fkey f)) in Hsub.
        rewrite (parts_at_stored now f b) in Hsub. unfold dkeys in Hsub.
        rewrite length_fmap in Hsub. unfold zlen in Hl. change (f_count f) with (chunk_count (payload_of b) d) in Hl. lia.
    + exists b''. done.
  - set (f := data_frame (payload_of b) s m d i) in *.
    pose proof Hco as [A Hop Hnew _ _ _ _ _]. pose proof A as [I R _ _].
    assert (wf_bytes w = true) as Hww.
    { eapply encode_wf; [done|]. by apply wf_bytes_take, wf_bytes_drop. }
    pose proof (run_op_inv nfc (OpReceive now w) b Hww A) as A'. simpl in A'.
    pose proof (receive_codec nfc now w b A Hww) as Ec. pose proof (receive_rto nfc now w b A Hww Hop) as [_ Hop'].
    rewrite Hr in A', Ec, Hop'. simpl in A', Ec, Hop'.
    assert ((s, m) ∈ completed (finished now f b)) as Hdone.
    { unfold finished. match goal with |- context [_remember _ ?x] => set (b0 := x) end.
      assert (completed b0 = completed b ∧ completed_order b0 = completed_order b) as [F1 F2] by (by destruct b).
      pose proof (remember_window (s, m) b0) as Hrw. rewrite F1, F2 in Hrw.
      by destruct (Hrw (ri_order b R) (ri_nodup b R) (ri_window b R) Hnew) as (_ & _ & _ & ? & _). }
    assert (payload_of (finished now f b) = payload_of b) as Epay by (unfold payload_of; by rewrite Ec).
    rewrite (receive_all_done now (finished now f b) c s m d idx ws'); try done;
      [|by rewrite Ec|by rewrite Epay]. simpl. by exists (finished now f b).
Qed.
End Reassembly.
