(* ===== verification/S6naClaims.v ===== *)
(** * S6NA: what the adapter promises

    The theorems of the network adapter, with the concrete runs that show
    their hypotheses can hold.  The runs use the toy cipher of [S6naCodec]. *)
From Stdlib Require Import QArith Qabs Qminmax.
From S2P Require Import Prelude Dict PyStr PyText PyValue Json JsonRound StrictJson Sha256 S6naCodec.
From S2P Require Import S6naAdapter S6naInvariant S6naSender S6naReceiver S6naSystem S6naLink.
From S2P Require Import S6naReassembly.
#[global] Open Scope Z_scope.

#[local] Existing Instance toy_aead.
#[local] Existing Instance toy_laws.

(** ** A concrete pair of adapters *)
Definition demo_limits : limits := Limits 1024 2 2048 8 30 1 64 2.
Definition demo_key : bytes := replicate 32 7.
Definition demo_data : bytes := str "a message that does not fit into a single frame of sixty-four bytes, so it is cut".
Definition demo_nfc : pystr → pystr := id.

Definition demo_dummy : adapter :=
  Adapter demo_limits (Codec [] [] 0 0) (Policy "" 0 0 "") [] [] [] [] [] [] 0 0 ∅ [] [] None 0 false.
Definition made (side : Z) : adapter :=
  match make_adapter (str "go") demo_key side [] demo_limits None with Ok a => a | Raise _ => demo_dummy end.
Definition demo_a : adapter := Eval vm_compute in made 0.
Definition demo_b : adapter := Eval vm_compute in made 1.

Lemma demo_limits_ok : limits_ok demo_limits.
Proof. constructor; simpl; lia. Qed.
Lemma demo_a_made : make_adapter (str "go") demo_key 0 [] demo_limits None = Ok demo_a.
Proof. vm_compute. reflexivity. Qed.
Lemma demo_b_made : make_adapter (str "go") demo_key 1 [] demo_limits None = Ok demo_b.
Proof. vm_compute. reflexivity. Qed.
Lemma demo_a_inv : adapter_inv demo_a.
Proof. by apply (make_adapter_adapter_inv _ _ _ _ _ _ _ demo_limits_ok demo_a_made). Qed.
Lemma demo_b_inv : adapter_inv demo_b.
Proof. by apply (make_adapter_adapter_inv _ _ _ _ _ _ _ demo_limits_ok demo_b_made). Qed.
Lemma demo_peers : codec_ok (a_codec demo_a) ∧ peers (a_codec demo_a) (a_codec demo_b).
Proof.
  destruct (si_codec _ (ai_sender _ demo_a_inv)). split; [by constructor|]. vm_compute. by repeat split.
Qed.

(** The same network steps as [link_step], as functions. *)
Definition link_sends (o : op) (l : link) : link :=
  MkLink (run_op demo_nfc o (l_sender l)) (l_receiver l) (op_log o (l_sender l) (l_log l))
    (l_wires l ++ op_wires o (l_sender l)) (l_delivered l) (l_history l).
Definition link_receives (now : Q) (w : bytes) (l : link) : link :=
  let '(r, b) := receive demo_nfc now w (l_receiver l) in
  MkLink (l_sender l) b (l_log l) (l_wires l) (l_delivered l ++ handed (l_receiver l) w r)
    (l_history l ++ completes (l_receiver l) w r).

Definition demo_link0 : link := MkLink demo_a demo_b [] [] [] [].
Definition demo_link1 : link := Eval vm_compute in link_sends (OpSend 0 1 demo_data) demo_link0.
Definition demo_wire (i : nat) : bytes := default [] (l_wires demo_link1 !! i).
Definition demo_link2 : link := Eval vm_compute in link_receives 1 (demo_wire 1) demo_link1.
Definition demo_link3 : link := Eval vm_compute in link_receives 1 (demo_wire 0) demo_link2.

Lemma demo_chunk0 : encode (a_codec demo_a) (data_frame (payload_of demo_b) 1 0 demo_data 0) = Ok (demo_wire 0).
Proof. vm_compute. reflexivity. Qed.
Lemma demo_chunk1 : encode (a_codec demo_a) (data_frame (payload_of demo_b) 1 0 demo_data 1) = Ok (demo_wire 1).
Proof. vm_compute. reflexivity. Qed.

Lemma demo_sends l : link_sends (OpSend 0 1 demo_data) demo_link0 = l → link_step demo_nfc demo_link0 l.
Proof. intros <-. by apply ls_sender. Qed.

Lemma demo_receives now w l l' :
  wf_bytes w = true → w ∈ l_wires l → link_receives now w l = l' → link_step demo_nfc l l'.
Proof. intros Hw Hin <-. apply (ls_deliver demo_nfc now w l); [done|by left]. Qed.

Lemma demo_link_reachable : link_reachable demo_nfc demo_link3.
Proof.
  eapply lr_step; [eapply lr_step; [eapply lr_step; [by eapply lr_init; [apply demo_limits_ok|apply demo_a_made|apply demo_b_made]|]|]|].
  - apply demo_sends. vm_compute. reflexivity.
  - apply (demo_receives 1 (demo_wire 1)); [vm_compute; reflexivity|apply list_elem_of_In; vm_compute; tauto|vm_compute; reflexivity].
  - apply (demo_receives 1 (demo_wire 0)); [vm_compute; reflexivity|apply list_elem_of_In; vm_compute; tauto|vm_compute; reflexivity].
Qed.

(** ** The link: two adapters and a network that loses, repeats and reorders *)

(** C1: Whatever the network loses, repeats or reorders, a message handed over
    by [receive] is one that [send] accepted on the same stream under the same
    sequence number, byte for byte. *)
Theorem delivery_sound `{AEADLaws} nfc l k s d :
  link_reachable nfc l → (k, (s, d)) ∈ l_delivered l → k.1 = s ∧ dget (l_log l) k = Some d.
Proof. intros Hl. apply (li_delivered _ (link_reachable_inv nfc l Hl)). Qed.

Lemma delivery_sound_witness : dget (l_log demo_link3) (1, 0) = Some demo_data.
Proof.
  apply (delivery_sound demo_nfc demo_link3 (1, 0) 1 demo_data demo_link_reachable).
  apply list_elem_of_In. vm_compute. tauto.
Defined.

(** C2: As long as the receiver has completed at most 4096 messages - the size
    of its duplicate window - no message is handed over twice. *)
Theorem delivery_once `{AEADLaws} nfc l :
  link_reachable nfc l → zlen (l_history l) ≤ 4096 → NoDup (l_delivered l).*1.
Proof.
  intros Hl Hh. destruct (li_history _ (link_reachable_inv nfc l Hl) Hh) as (Hn & Hs & _).
  by eapply sublist_NoDup.
Qed.

Lemma delivery_once_witness : NoDup (l_delivered demo_link3).*1.
Proof. apply (delivery_once demo_nfc demo_link3 demo_link_reachable). vm_compute. discriminate. Defined.

(** C3: Progress of reassembly: the chunks of a message, in any order and with
    any repetitions, are all accepted, and together hand the message over
    exactly once. *)
Theorem reassembly_any_order `{AEADLaws} nfc now b c s m d idx ws :
  adapter_inv b → closed b = false → (s, m) ∉ completed b → dget (incoming b) (s, m) = None →
  zlen (incoming b) < 4096 → incoming_bytes b + zlen d ≤ max_inflight (a_limits b) →
  d ≠ [] → zlen d ≤ max_message (a_limits b) → wf_bytes d = true →
  codec_ok c → peers c (a_codec b) →
  (∀ i, i ∈ idx ↔ 0 ≤ i < chunk_count (payload_of b) d) →
  chunk_wires c (payload_of b) s m d idx ws →
  ∃ b', receive_all nfc now ws b = (Ok [(s, d)], b') ∧ (s, m) ∈ completed b'.
Proof.
  intros A Hop Hn Hi Hr Hb Hd Hm Hw Hc Hp Hidx Hws.
  assert (parts_at b (s, m) = []) as Ep by (unfold parts_at; by rewrite Hi).
  assert (1 ≤ chunk_count (payload_of b) d) as Hc1.
  { apply chunk_count_bounds; [destruct (si_codec _ (ai_sender _ A)); unfold payload_of; lia|done]. }
  destruct (receive_all_collecting nfc now b c s m d idx ws) as (b' & ? & ? & _); try done.
  - constructor; try done; [|by rewrite Hi|rewrite Ep; change (parts_bytes []) with 0; lia].
    rewrite Ep. split; [apply dwf_nil|]. by intros ? ? ?%not_elem_of_nil.
  - apply Forall_forall. intros i. by apply Hidx.
  - intros j Hj. right. by apply Hidx.
  - exists 0. split; [lia|]. rewrite Ep. by apply not_elem_of_nil.
  - by exists b'.
Qed.

Lemma reassembly_any_order_witness :
  ∃ b', receive_all demo_nfc 1 [demo_wire 1; demo_wire 1; demo_wire 0; demo_wire 1] demo_b = (Ok [(1, demo_data)], b') ∧
        (1, 0) ∈ completed b'.
Proof.
  apply (reassembly_any_order demo_nfc 1 demo_b (a_codec demo_a) 1 0 demo_data [1; 1; 0; 1]).
  - apply demo_b_inv.
  - reflexivity.
  - apply not_elem_of_empty.
  - reflexivity.
  - vm_compute; reflexivity.
  - vm_compute; discriminate.
  - discriminate.
  - vm_compute; discriminate.
  - vm_compute; reflexivity.
  - apply demo_peers.
  - apply demo_peers.
  - intros i. change (chunk_count (payload_of demo_b) demo_data) with 2. rewrite list_elem_of_In. simpl. lia.
  - constructor; [exact demo_chunk1|]. constructor; [exact demo_chunk1|]. constructor; [exact demo_chunk0|].
    constructor; [exact demo_chunk1|constructor].
Defined.

(** ** The adapter's own bookkeeping *)

(** C4: In every reachable adapter the accounting is exact and bounded: the
    bytes accepted and not yet acknowledged, the frames in flight, the open
    reassemblies, the duplicate window and the retransmission timeout all stay
    within the limits the adapter was made with; every frame in flight or still
    queued is owed by exactly one outgoing message. *)
Theorem adapter_bounded `{AEADLaws} nfc a :
  reachable nfc a →
  buffered a = dsum (λ _ o, o_length o) (outgoing a) ∧ buffered a ≤ max_inflight (a_limits a) ∧
  dsum (λ _ o, o_remaining o) (outgoing a) = zlen (pending a) + unsent_total a ∧
  zlen (outgoing a) ≤ 4096 ∧ zlen (pending a) ≤ window a ∧
  incoming_bytes a = dsum (λ _ st, in_bytes st) (incoming a) ∧
  incoming_bytes a ≤ max_inflight (a_limits a) ∧ zlen (incoming a) ≤ 4096 ∧
  (size (completed a) ≤ 4096)%nat ∧ ((1 # 20) <= rto a <= 5)%Q ∧
  (∀ s, s ∈ active_streams a ↔ 0 ≤ s ∧ ∃ it q, queues a !! Z.to_nat s = Some (it :: q)).
Proof.
  intros Hr. assert (adapter_inv a) as [I R T _].
  { induction Hr as [????????? Hm|o a Hr IH Ho]; [by eapply make_adapter_adapter_inv|by apply run_op_inv]. }
  destruct I, R. split_and!; try done; [|apply T|apply T].
  replace (completed a) with (list_to_set (C := gset (Z * Z)) (completed_order a)).
  - rewrite size_list_to_set by done. unfold zlen in *. lia.
  - apply set_eq. intros x. by rewrite elem_of_list_to_set, ri_order.
Qed.

Definition demo_sent : adapter := run_op demo_nfc (OpSend 0 1 demo_data) demo_a.

Lemma adapter_bounded_witness : zlen (pending demo_sent) ≤ window demo_sent ∧ buffered demo_sent ≤ 2048.
Proof.
  assert (reachable demo_nfc demo_sent) as Hr.
  { apply reach_op; [|done]. eapply reach_make; [apply demo_limits_ok|apply demo_a_made]. }
  destruct (adapter_bounded demo_nfc demo_sent Hr) as (_ & Hb & _ & _ & Hw & _). by split.
Defined.

(** [send] on an open adapter is total and decides by its guards alone: it
    refuses without changing anything, or queues every chunk of the message and
    emits frames until the window is full or the queues are empty. *)
Theorem send_spec `{AEADLaws} now s data a :
  adapter_inv a → closed a = false →
  (¬ send_ok s data a ∧ ∃ e, send now s data a = (Raise e, a)) ∨
  (send_ok s data a ∧ ∃ ws a', send now s data a = (Ok ws, a') ∧ adapter_inv a' ∧
     zlen (pending a') = zlen (pending a) + zlen ws ∧
     unsent_total a' + zlen ws = unsent_total a + chunk_count (payload_of a) data ∧
     (zlen (pending a') = window a ∨ unsent_total a' = 0)).
Proof.
  intros A Hop. pose proof A as [I _ _ _].
  destruct (send_cases now s data a I Hop) as [(e & He & Hn)|(ws & a' & He & Hok & Hr)]; [left; by eauto|].
  right. split; [done|]. exists ws, a'. pose proof Hok as (Hs & Hd & _).
  destruct (enqueued_total s data a I Hs Hd) as (Ht & Hpe & Hw).
  pose proof (send_inv now s data a A Hop) as A'. rewrite He in A'. simpl in A'.
  assert (sender_inv (enqueued s data a)) as Ie by by apply enqueued_inv.
  destruct (outbound_run_effect _ _ _ _ Hr Ie) as (E1 & E2 & _ & E3).
  rewrite Hpe in E1. rewrite Hw in E3. split_and!; try done; [lia|].
  destruct E3 as [E3|E3]; [by left|right]. apply drained_total. apply inactive_drained; [apply A'|done].
Qed.

Lemma send_spec_witness : ∃ ws a', send 0 1 demo_data demo_a = (Ok ws, a') ∧ zlen ws = 2.
Proof.
  destruct (send_spec 0 1 demo_data demo_a demo_a_inv eq_refl) as [[Hn _]|(_ & ws & a' & Hs & _ & Hp & Ht & Hz)].
  - exfalso. apply Hn. unfold send_ok. vm_compute. intuition discriminate.
  - exists ws, a'. split; [done|]. vm_compute (window demo_a) in Hz.
    change (chunk_count (payload_of demo_a) demo_data) with 2 in Ht.
    change (unsent_total demo_a) with 0 in Ht. change (zlen (pending demo_a)) with 0 in Hp. lia.
Defined.

(** A flow-controlled send never leaves anything behind: what it accepts is
    on the wire at once, with everything queued before it. *)
Theorem flow_controlled_immediate `{AEADLaws} now s data a ws a' :
  adapter_inv a → closed a = false → send_flow_controlled now s data a = (Ok ws, a') →
  adapter_inv a' ∧ (∀ q, q ∈ queues a' → q = []) ∧ active_streams a' = [] ∧
  zlen ws = unsent_total a + chunk_count (payload_of a) data.
Proof.
  intros A Hop Hs. destruct (flow_send_drains now s data a ws a' (ai_sender _ A) Hop Hs) as [Ha Hw].
  assert (adapter_inv a') as A'.
  { apply send_flow_cases in Hs as [(e & He & _)|(_ & _ & _ & He)]; [done|].
    pose proof (send_inv now s data a A Hop) as Hi. by rewrite He in Hi. }
  split_and!; try done. by apply inactive_drained; [apply A'|].
Qed.

Lemma flow_controlled_immediate_witness :
  ∃ ws a', send_flow_controlled 0 1 demo_data demo_a = (Ok ws, a') ∧ active_streams a' = [].
Proof.
  destruct (send_flow_controlled 0 1 demo_data demo_a) as [r a'] eqn:E. destruct r as [ws|e].
  - exists ws, a'. split; [done|].
    by apply (flow_controlled_immediate 0 1 demo_data demo_a ws a' demo_a_inv eq_refl E).
  - assert (is_ok (send_flow_controlled 0 1 demo_data demo_a).1 = true) as Hok by (vm_compute; reflexivity).
    rewrite E in Hok. discriminate.
Defined.



(** An acknowledgement settles exactly the frame it names - a repeated or
    unknown one changes no frame - and never fails or emits anything. *)
Theorem ack_settles `{AEADLaws} now f a :
  adapter_inv a → f_kind f = ACK →
  ∃ a', receive_ack now f a = (Ok (Received [] [] []), a') ∧
    pending a' = ddel (pending a) (f_stream f, f_message f, f_index f) ∧
    queues a' = queues a ∧ sender_inv a' ∧ buffered a' ≤ max_inflight (a_limits a').
Proof.
  intros A Hk. destruct (receive_ack_ok now f a (ai_sender _ A)) as (a' & E & I' & _ & Hp & Hq).
  exists a'. split_and!; try done. apply I'.
Qed.

Lemma ack_settles_witness :
  ∃ a', receive_ack 1 (Frame ACK 1 0 1 2 []) demo_a = (Ok (Received [] [] []), a') ∧ pending a' = [].
Proof.
  destruct (ack_settles 1 (Frame ACK 1 0 1 2 []) demo_a demo_a_inv eq_refl) as (a' & E & Hp & _).
  exists a'. split; [done|]. rewrite Hp. reflexivity.
Defined.

(** A closed adapter holds nothing, and no method changes it again; sending
    and pumping are refused with [AdapterClosed]. *)
Theorem closed_is_final `{AEADLaws} nfc a now s data o :
  adapter_inv a →
  let c := close a in
  idle c ∧ run_op nfc o c = c ∧
  send now s data c = (raise AdapterClosed "S6NA adapter is closed", c) ∧
  outbound now c = (raise AdapterClosed "S6NA adapter is closed", c).
Proof.
  intros A c. assert (closed c = true) as Hc by (unfold c, close; by destruct (closed a) eqn:E).
  pose proof (run_op_inv nfc OpClose a eq_refl A) as A'. simpl in A'.
  split_and!; [by apply (ai_closed _ A')|by apply closed_noop|by apply send_closed|by apply outbound_closed].
Qed.

(** ** The codec *)

(** What one end encodes, the other end decodes to the same frame. *)
Theorem codec_roundtrip `{AEADLaws} key payload ms c c' f w :
  make_codec key payload 0 ms = Ok c → make_codec key payload 1 ms = Ok c' →
  encode c f = Ok w → wf_bytes (f_payload f) = true → (f_kind f = ACK → f_payload f = []) →
  decode c' w = Ok f ∧ zlen w = 48 + zlen (f_payload f).
Proof.
  intros Hc Hc' He Hw Ha. split; [|by eapply encode_length].
  exact (decode_encode c c' f w (make_codec_ok _ _ _ _ _ Hc) (make_codec_peers _ _ _ _ _ Hc Hc') He Hw Ha).
Qed.

Definition codec_at (side : Z) : codec :=
  match make_codec demo_key 64 side 2 with Ok c => c | Raise _ => Codec [] [] 0 0 end.
Definition demo_frame : frame := Frame DATA 1 5 0 1 (str "payload").

Definition codec0 : codec := Eval vm_compute in codec_at 0.
Definition codec1 : codec := Eval vm_compute in codec_at 1.
Definition frame_wire : bytes := Eval vm_compute in
  match encode codec0 demo_frame with Ok w => w | Raise _ => [] end.

(** C31: The wire format is canonical: bytes that decode are exactly what the
    peer's encoder writes for the decoded frame, so no two datagrams mean the
    same frame. *)
Theorem codec_canonical `{AEADLaws} key payload ms c c' f w :
  make_codec key payload 0 ms = Ok c → make_codec key payload 1 ms = Ok c' →
  wf_bytes w = true → decode c' w = Ok f → encode c f = Ok w.
Proof.
  intros Hc Hc' Hw Hd.
  exact (proj1 (encode_decode c c' f w (make_codec_ok _ _ _ _ _ Hc) (make_codec_peers _ _ _ _ _ Hc Hc') Hw Hd)).
Qed.

Lemma codec_canonical_witness : encode codec0 demo_frame = Ok frame_wire.
Proof.
  refine (codec_canonical demo_key 64 2 codec0 codec1 demo_frame frame_wire _ _ _ _); vm_compute; reflexivity.
Defined.
