(* ===== verification/Limits.v ===== *)
(** * Resource limits

    [Crosed/limits.py]: the host budget, the operator policy and the resolver
    that turns a profile's capacity model into effective limits.  Documents are
    JSON values; the sections of a profile's limit model are objects (a
    section of another type raises [TypeError] here). *)
From S2P Require Import Prelude Dict PyStr PyText PyValue Json JsonRound Sha256.

Definition MAX_INTEGER : Z := 2 ^ 53 - 1.

Definition canonical (value : pyval) : pystr := dumps_canonical value.

(** [integer]: a plain integer within the portable range. *)
Definition integer (value : pyval) (name : string) (minimum : Z) : result Z :=
  match value with
  | VInt z => if between minimum z MAX_INTEGER then Ok z
              else raise ValueError ("InvalidLimitInteger: " +:+ name)
  | _ => raise ValueError ("InvalidLimitInteger: " +:+ name)
  end.

(** ** The host budget *)
Record host_budget := HostBudget {
  memory_bytes : Z; fd_ceiling : Z; cpu_units : Z; platform : pystr;
  memory_sources : list pystr; fd_sources : list pystr; cpu_sources : list pystr }.

Definition sources_ok (values : list pyval) : bool :=
  (zlen values <=? 8) &&
  forallb (λ v, match v with VStr s => between 1 (zlen s) 128 | _ => false end) values.

Definition str_values (values : list pyval) : list pystr :=
  (λ v, match v with VStr s => s | _ => [] end) <$> values.

(** [HostBudget.__init__] with its [__post_init__]. *)
Definition make_host (memory fds cpu plat : pyval) (msrc fsrc csrc : list pyval) : result host_budget :=
  memory ← integer memory "memory_bytes" 1;
  fds ← integer fds "fd_ceiling" 1;
  cpu ← integer cpu "cpu_units" 1;
  match plat with
  | VStr plat =>
      _ ← raise_if (negb (between 1 (zlen plat) 64)) ValueError "InvalidHostBudgetPlatform";
      _ ← raise_if (negb (sources_ok msrc && sources_ok fsrc && sources_ok csrc)) ValueError
            "InvalidHostBudgetSources";
      Ok (HostBudget memory fds cpu plat (str_values msrc) (str_values fsrc) (str_values csrc))
  | _ => raise ValueError "InvalidHostBudgetPlatform"
  end.

Definition strs (l : list pystr) : pyval := VList (VStr <$> l).

Definition host_to_dict (h : host_budget) : pyval :=
  VDict (mkdict [("schema", VStr (str "shadow6.host-budget.v1")); ("platform", VStr (platform h));
    ("memory_bytes", VInt (memory_bytes h)); ("fd_ceiling", VInt (fd_ceiling h));
    ("cpu_units", VInt (cpu_units h)); ("memory_sources", strs (memory_sources h));
    ("fd_sources", strs (fd_sources h)); ("cpu_sources", strs (cpu_sources h))]).

Definition host_from_dict (value : pyval) : result host_budget :=
  match value with
  | VDict d =>
      _ ← raise_if (negb (keys_exact d ["schema"; "platform"; "memory_bytes"; "fd_ceiling"; "cpu_units";
                                        "memory_sources"; "fd_sources"; "cpu_sources"])
                    || negb (eq_str (vget_none d "schema") "shadow6.host-budget.v1"))
            ValueError "InvalidHostBudgetSchema";
      match vget_none d "memory_sources", vget_none d "fd_sources", vget_none d "cpu_sources" with
      | VList m, VList f, VList c =>
          make_host (vget_none d "memory_bytes") (vget_none d "fd_ceiling") (vget_none d "cpu_units")
            (vget_none d "platform") m f c
      | _, _, _ => raise ValueError "InvalidHostBudgetSources"
      end
  | _ => raise ValueError "InvalidHostBudgetSchema"
  end.

(** ** Operator policy *)
Definition default_policy : pyval :=
  VDict (mkdict [("mode", VStr (str "safe")); ("operator_overrides", VDict [])]).

Definition validate_policy (value : pyval) : result pyval :=
  let value := if is_none value then default_policy else value in
  match value with
  | VDict d =>
      _ ← raise_if (negb (keys_exact d ["mode"; "operator_overrides"])
                    || negb (in_strs (vget_none d "mode") ["safe"; "elastic"; "custom"])) ValueError
            "InvalidLimitsPolicy";
      match vget_none d "operator_overrides" with
      | VDict overrides =>
          _ ← raise_if (64 <? zlen overrides) ValueError "InvalidLimitsPolicy";
          _ ← raise_if (negb (eq_str (vget_none d "mode") "custom") && negb (bool_decide (overrides = [])))
                ValueError "OperatorOverridesRequireCustomMode";
          _ ← for_each (λ kv,
                _ ← raise_if (negb (between 1 (zlen kv.1) 64)) ValueError "InvalidLimitDimension";
                _ ← integer kv.2 "operator_overrides" 1;
                Ok tt) overrides;
          json_loads (canonical value)
      | _ => raise ValueError "InvalidLimitsPolicy"
      end
  | _ => raise ValueError "InvalidLimitsPolicy"
  end.

(** ** Resolving one dimension of a profile *)
Record capacity := Capacity {
  memory_per_unit : Z; fds_per_unit : Z; native_ceiling : option Z; mutable : bool }.

(** An optional integer of the model: [None] or a checked [integer]. *)
Definition opt_integer (v : pyval) (name : string) : result (option Z) :=
  if is_none v then Ok None else Some <$> integer v name 1.

Definition read_capacity (name : string) (v : pyval) : result capacity :=
  match v with
  | VDict d =>
      _ ← raise_if (negb (keys_exact d ["memory_per_unit"; "fds_per_unit"; "native_ceiling"; "mutable"]))
            ValueError "InvalidCapacityModel";
      memory_cost ← integer (vget_none d "memory_per_unit") name 0;
      fd_cost ← integer (vget_none d "fds_per_unit") name 0;
      native ← opt_integer (vget_none d "native_ceiling") name;
      match vget_none d "mutable" with
      | VBool b => Ok (Capacity memory_cost fd_cost native b)
      | _ => raise ValueError "InvalidLimitMutability"
      end
  | _ => raise ValueError "InvalidCapacityModel"
  end.

Definition opt_min (x : Z) (o : option Z) : Z := match o with Some y => Z.min x y | None => x end.

(** [min(ceilings)]. *)
Definition host_ceiling (host : host_budget) (c : capacity) : Z :=
  let x := MAX_INTEGER in
  let x := if memory_per_unit c =? 0 then x else Z.min x (memory_bytes host / 2 / memory_per_unit c) in
  let x := if fds_per_unit c =? 0 then x else Z.min x (Z.max 0 (fd_ceiling host - 64) / fds_per_unit c) in
  opt_min x (native_ceiling c).

Definition opt_int (o : option Z) : pyval := match o with Some z => VInt z | None => VNone end.

(** The sections of a limit model, read once. *)
Record limit_model := LimitModel {
  m_hard : pydict; m_safe : pydict; m_recommended : pydict; m_capacity : pydict; m_enforced : pydict }.

(** The value chosen for a dimension: the request, the safe default or the
    recommendation scaled by the CPUs, under the ceilings. *)
Definition effective_limit (mode : pyval) (safe recommended : Z) (hard : option Z) (ceiling cpus : Z)
    (request : option Z) : Z :=
  let candidate :=
    match request with
    | Some z => z
    | None => if in_strs mode ["safe"; "custom"] then safe else Z.min MAX_INTEGER (recommended * cpus)
    end in
  Z.min (Z.min candidate ceiling) (match hard with Some h => h | None => MAX_INTEGER end).

(** The body of the loop of [LimitResolver.resolve] for one dimension: its row
    and its effective value. *)
Definition resolve_dimension (m : limit_model) (mode : pyval) (overrides : pydict) (host : host_budget)
    (name : pystr) : result (pyval * Z) :=
  let item (d : pydict) := match dget d name with Some v => Ok v | None => raise KeyError "dimension" end in
  safe ← (v ← item (m_safe m); integer v "dimension" 1);
  recommended ← (v ← item (m_recommended m); integer v "dimension" 1);
  hard ← (v ← item (m_hard m); opt_integer v "dimension");
  cap ← (v ← item (m_capacity m); read_capacity "dimension" v);
  let ceiling := host_ceiling host cap in
  let request := match dget overrides name with Some (VInt z) => Some z | _ => None end in
  _ ← raise_if (match request with
                | Some z => match hard with Some h => h <? z | None => false end || (ceiling <? z)
                | None => false
                end) ValueError "LimitRequestExceedsCeiling";
  let value := effective_limit mode safe recommended hard ceiling (cpu_units host) request in
  _ ← raise_if (value <? 1) ValueError "HostBudgetInsufficient";
  _ ← raise_if (negb (mutable cap) && negb (value =? safe)) ValueError "LimitNotRuntimeConfigurable";
  enforcer ← item (m_enforced m);
  match enforcer with
  | VStr (c :: s) =>
      Ok (VDict (mkdict [("safe_default", VInt safe); ("recommended", VInt recommended);
            ("operator_request", opt_int request); ("host_derived_ceiling", VInt ceiling);
            ("hard_protocol_limit", opt_int hard); ("implementation_ceiling", opt_int (native_ceiling cap));
            ("effective", VInt value);
            ("source", match request with Some _ => VStr (str "operator") | None => mode end);
            ("enforced_by", VStr (c :: s)); ("enforcement", VStr (str "required-before-ready"))]), value)
  | _ => raise ValueError "MissingLimitEnforcer"
  end.

Definition same_keys (a b : pydict) : bool :=
  forallb (λ kv, dmem b kv.1) a && forallb (λ kv, dmem a kv.1) b.

Definition read_model (v : pyval) : result limit_model :=
  match v with
  | VDict d =>
      _ ← raise_if (negb (keys_exact d ["schema"; "hard_protocol_limits"; "safe_defaults";
                                        "recommended_limits"; "capacity_models"; "enforced_by"])
                    || negb (eq_str (vget_none d "schema") "shadow6.profile-limits.v1"))
            ValueError "InvalidProfileLimitsModel";
      hard ← as_dict (vget_none d "hard_protocol_limits");
      safe ← as_dict (vget_none d "safe_defaults");
      recommended ← as_dict (vget_none d "recommended_limits");
      capacities ← as_dict (vget_none d "capacity_models");
      enforced ← as_dict (vget_none d "enforced_by");
      _ ← raise_if (negb (same_keys hard safe && same_keys recommended safe
                          && same_keys capacities safe && same_keys enforced safe))
            ValueError "LimitDimensionMismatch";
      Ok (LimitModel hard safe recommended capacities enforced)
  | _ => raise ValueError "InvalidProfileLimitsModel"
  end.

(** [LimitResolver.resolve]: the document of the [LimitResolution]. *)
Definition resolve (profile : pydict) (policy : pyval) (host : host_budget) : result pyval :=
  policy ← validate_policy policy;
  p ← as_dict policy;
  m ← read_model (vget_none profile "limit_model");
  overrides ← as_dict (vget_none p "operator_overrides");
  _ ← raise_if (negb (forallb (λ kv, dmem (m_safe m) kv.1) overrides)) ValueError "UnknownLimitOverride";
  let mode := vget_none p "mode" in
  dims ← map_res (λ name, r ← resolve_dimension m mode overrides host name; Ok (name, r))
           (sort_keys (m_safe m)).*1;
  id ← field profile "id";
  Ok (VDict (mkdict [("schema", VStr (str "shadow6.limit-resolution.v1")); ("profile", id);
        ("mode", mode); ("policy", policy); ("host_budget", host_to_dict host);
        ("dimensions", VDict ((λ d : pystr * (pyval * Z), (d.1, d.2.1)) <$> dims));
        ("effective_limits", VDict ((λ d, (d.1, VInt d.2.2)) <$> dims));
        ("model_digest", VStr (str "sha256:" ++ sha256_hex (canonical (vget_none profile "limit_model"))))])).

(** [LimitResolution.to_dict]. *)
Definition resolution_to_dict (document : pyval) : result pyval := json_loads (canonical document).

(** [LimitResolver.validate]; [current] is what [HostBudget.capture] returns
    when the host is checked. *)
Definition validate (resolution : pyval) (profile : pydict) (policy : pyval)
    (current : option host_budget) : result pyval :=
  match resolution with
  | VDict d =>
      _ ← raise_if (negb (keys_exact d ["schema"; "profile"; "mode"; "policy"; "host_budget"; "dimensions";
                                        "effective_limits"; "model_digest"])) ValueError
            "InvalidLimitResolutionSchema";
      host ← host_from_dict (vget_none d "host_budget");
      document ← resolve profile (if is_none policy then vget_none d "policy" else policy) host;
      expected ← resolution_to_dict document;
      _ ← raise_if (negb (bool_decide (canonical expected = canonical resolution))) ValueError
            "LimitResolutionDrift";
      _ ← raise_if (match current with
                    | Some h => negb (py_eqb (host_to_dict h) (host_to_dict host))
                    | None => false
                    end) ValueError "HostBudgetDrift: stop and explicitly relock; no dynamic shrink";
      Ok expected
  | _ => raise ValueError "InvalidLimitResolutionSchema"
  end.

(** ** Component limits *)

(** The inner [limit]. *)
Definition limit (row : pydict) (name : string) (default low high : Z) : result Z :=
  match vget_or row name (VInt default) with
  | VInt z => if between low z high then Ok z else raise ValueError ("InvalidComponentLimit: " +:+ name)
  | _ => raise ValueError ("InvalidComponentLimit: " +:+ name)
  end.

(** A planned component: its document row with the two estimates it carries. *)
Record planned := Planned { pl_fds : Z; pl_memory : Z; pl_row : pyval }.

Definition plan_gate (gate : pyval) : result planned :=
  match gate with
  | VDict gate =>
      match vget_or gate "limits" (VDict []) with
      | VDict values =>
          _ ← raise_if (negb (keys_within values ["max_connections"; "max_frame_bytes"; "idle_seconds"]))
                ValueError "InvalidGateLimitConfig";
          connections ← limit values "max_connections" 128 1 4096;
          frame ← limit values "max_frame_bytes" 65507 1024 65507;
          idle ← limit values "idle_seconds" 120 5 86400;
          let fds := 16 + 2 * connections in
          let memory := connections * frame in
          Ok (Planned fds memory (VDict (mkdict
            [("max_connections", VInt connections); ("max_frame_bytes", VInt frame);
             ("idle_seconds", VInt idle); ("estimated_fds", VInt fds);
             ("estimated_memory_bytes", VInt memory); ("enforced_by", VStr (str "Gate.config.limits"))])))
      | _ => raise ValueError "InvalidGateLimitConfig"
      end
  | _ => raise ValueError "InvalidGateLimitConfig"
  end.

(** The inner [number] of the envelope: a decimal string. *)
Definition number (envelope : pydict) (name : string) (default low high : Z) : result Z :=
  match vget_or envelope name (VStr (dec default)) with
  | VStr raw =>
      _ ← raise_if (bool_decide (raw = []) || negb (forallb is_digit raw)) ValueError
            ("InvalidComponentLimit: " +:+ name);
      _ ← raise_if (4300 <? zlen raw) ValueError "Exceeds the limit (4300 digits) for integer string conversion";
      let value := dec_value raw in
      _ ← raise_if (negb (between low value high)) ValueError ("InvalidComponentLimit: " +:+ name);
      Ok value
  | _ => raise ValueError ("InvalidComponentLimit: " +:+ name)
  end.

Definition plan_envelope (envelope : pyval) : result planned :=
  match envelope with
  | VDict envelope =>
      sessions ← number envelope "max_sessions" 32 1 128;
      preauth ← number envelope "max_preauth" 16 1 128;
      frame ← number envelope "max_frame" 16384 256 65507;
      idle ← number envelope "idle_timeout" 30 1 300;
      _ ← raise_if (sessions <? preauth) ValueError "EnvelopePreauthExceedsSessions";
      let webrtc := eq_str (vget_none envelope "carrier") "webrtc" in
      let signalling := if webrtc then 4 * sessions else 0 in
      let fds := 16 + 2 * sessions + (if signalling =? 0 then 0 else 1 + signalling) in
      let memory := 2 * sessions * frame + (if signalling =? 0 then 0 else signalling * 32768) in
      Ok (Planned fds memory (VDict (mkdict
        [("max_sessions", VInt sessions); ("max_preauth", VInt preauth); ("max_frame", VInt frame);
         ("idle_timeout", VInt idle); ("estimated_fds", VInt fds); ("estimated_memory_bytes", VInt memory);
         ("signalling_client_limit", VInt signalling);
         ("enforced_by", VStr (str "S6EPE.config.max_sessions/max_preauth/max_frame" ++
            (if signalling =? 0 then [] else str "; S6SG1 bounded semaphore from resolved session limit")))])))
  | _ => raise ValueError "InvalidEnvelopeLimitConfig"
  end.

Definition feature_fields : list (string * list string) :=
  [("spa_config", ["enabled"; "listen_host"; "secret"; "knock_port"; "public_tcp_port"; "agent_tcp_port"; "unlock_window"]);
   ("lpd_limiter", ["enabled"; "rate"; "burst"; "public_port"; "agent_port"]);
   ("anti_probe", ["enabled"; "public_port"; "local_port"; "max_fails"; "ban_duration_sec"]);
   ("stealth_timing", ["enabled"; "broker_wss_addr"; "server_name"; "chaff_interval_ms"; "jitter_min_ms"; "jitter_max_ms"]);
   ("broker_shield", ["enabled"; "public_host"; "public_port"; "local_broker_port"; "secret_path"; "max_conn_per_ip"; "tls_cert_file"; "tls_key_file"])].

(** A guard feature: its object and its [enabled] flag. *)
Definition guard_feature (guard : pydict) (name : string) : result (pydict * bool) :=
  match vget_or guard name (VDict []) with
  | VDict d =>
      match vget_or d "enabled" (VBool false) with
      | VBool b => Ok (d, b)
      | _ => raise ValueError "InvalidGuardLimitConfig"
      end
  | _ => raise ValueError "InvalidGuardLimitConfig"
  end.

Definition guard_shape (guard : pydict) : result unit :=
  for_each (λ nf, f ← guard_feature guard nf.1;
                  raise_if (negb (keys_within f.1 nf.2)) ValueError "InvalidGuardLimitConfig") feature_fields.

Definition guard_per_ip (shield : pydict) : result Z :=
  match vget_or shield "max_conn_per_ip" (VInt 0) with
  | VInt z => if between 0 z 10000 then Ok z else raise ValueError "InvalidGuardLimitConfig"
  | _ => raise ValueError "InvalidGuardLimitConfig"
  end.

Definition plan_guard (guard : pyval) : result planned :=
  match guard with
  | VDict guard =>
      _ ← raise_if (negb (keys_within guard ["role"; "target_backend"; "spa_config"; "lpd_limiter"; "anti_probe";
                                             "stealth_timing"; "broker_shield"]))
            ValueError "InvalidGuardLimitConfig";
      _ ← guard_shape guard;
      spa ← guard_feature guard "spa_config";
      lpd ← guard_feature guard "lpd_limiter";
      probe ← guard_feature guard "anti_probe";
      timing ← guard_feature guard "stealth_timing";
      shield ← guard_feature guard "broker_shield";
      let role := vget_none guard "role" in
      _ ← raise_if (negb (in_strs role ["agent_guard"; "client_guard"; "broker_guard"])
                    || (eq_str role "agent_guard" && negb (spa.2 || lpd.2 || probe.2))
                    || (eq_str role "client_guard" && negb timing.2)
                    || (eq_str role "broker_guard" && negb shield.2)) ValueError "InvalidGuardLimitConfig";
      per_ip ← guard_per_ip shield.1;
      let per_ip := if (shield.2 : bool) then (if per_ip =? 0 then 64 else per_ip) else 0 in
      let on (b : bool) (z : Z) := if b then z else 0 in
      let spa_connections := on spa.2 256 in
      let broker_connections := on shield.2 256 in
      let datagram_workers := on lpd.2 256 in
      let tracked := on spa.2 (2 * 50000) + on lpd.2 50000 + on probe.2 (3 * 50000) + broker_connections in
      let listeners := on spa.2 2 + on lpd.2 2 + on probe.2 1 + on shield.2 1 in
      let fds := 16 + listeners + 2 * spa_connections + datagram_workers + 2 * broker_connections in
      let memory := tracked * 512 + spa_connections * 80 * 1024 + broker_connections * 96 * 1024
                    + datagram_workers * 16 * 1024 in
      Ok (Planned fds memory (VDict (mkdict
        [("max_tracked_ips", VInt 50000); ("max_active_connections", VInt (spa_connections + broker_connections));
         ("max_active_datagram_workers", VInt datagram_workers);
         ("max_connections_per_ip", VInt per_ip); ("tracked_state_entries", VInt tracked);
         ("estimated_fds", VInt fds); ("estimated_memory_bytes", VInt memory);
         ("enforced_by", VStr (str "Guard.maxTrackedIPs/SPA-slots/BrokerShield-boundedListener"))])))
  | _ => raise ValueError "InvalidGuardLimitConfig"
  end.

Definition plan_credited (credited : pyval) : result planned :=
  match credited with
  | VDict credited =>
      _ ← raise_if (negb (keys_within credited ["schema"; "core"; "key_file"; "bind"; "peer"; "side"; "stream"; "limits"])
                    || negb (keys_cover credited ["schema"; "core"; "key_file"; "bind"; "peer"])
                    || negb (eq_str (vget_none credited "schema") "shadow6.s6na-attachment.v1"))
            ValueError "InvalidCreditedLimitConfig";
      match vget_or credited "limits" (VDict []) with
      | VDict limits =>
          _ ← raise_if (negb (keys_within limits ["max_message"; "max_streams"; "max_inflight"; "max_window";
                                "reassembly_seconds"; "max_extensions"; "payload_bytes"; "window_frames"]))
                ValueError "InvalidCreditedLimitConfig";
          max_message ← limit limits "max_message" (16 * 1024 * 1024) 1024 (256 * 1024 * 1024);
          max_streams ← limit limits "max_streams" 64 1 4096;
          max_inflight ← limit limits "max_inflight" (16 * 1024 * 1024) 1024 (512 * 1024 * 1024);
          max_window ← limit limits "max_window" 64 1 4096;
          reassembly_seconds ← limit limits "reassembly_seconds" 30 1 300;
          max_extensions ← limit limits "max_extensions" 16 0 128;
          payload_bytes ← limit limits "payload_bytes" 0 0 65536;
          window_frames ← limit limits "window_frames" 0 0 4096;
          _ ← raise_if ((max_inflight <? max_message)
                        || (negb (payload_bytes =? 0) && (payload_bytes <? 64)))
                ValueError "InvalidCreditedLimitConfig";
          let payload := if payload_bytes =? 0 then 65536 else payload_bytes in
          let window := Z.min max_window (if window_frames =? 0 then 64 else window_frames) in
          let memory := 2 * max_inflight + window * (payload + 128) + 8192 * 512 + max_streams * 256 in
          Ok (Planned 17 memory (VDict (mkdict
            [("max_message", VInt max_message); ("max_streams", VInt max_streams);
             ("max_inflight", VInt max_inflight); ("max_window", VInt max_window);
             ("reassembly_seconds", VInt reassembly_seconds); ("max_extensions", VInt max_extensions);
             ("payload_bytes", VInt payload); ("window_frames", VInt window); ("estimated_fds", VInt 17);
             ("estimated_memory_bytes", VInt memory);
             ("enforced_by", VStr (str "S6NA.Limits/DataFrameCredit/UDP-peer-pin"))])))
      | _ => raise ValueError "InvalidCreditedLimitConfig"
      end
  | _ => raise ValueError "InvalidCreditedLimitConfig"
  end.

(** One optional input of [resolve_components]. *)
Definition plan_input (inputs : pydict) (name : string) (plan : pyval → result planned)
    : result (list (string * planned)) :=
  match vget_none inputs name with
  | VNone => Ok []
  | v => (λ p, [(name, p)]) <$> plan v
  end.

Definition sum_by (f : planned → Z) (output : list (string * planned)) : Z :=
  foldr (λ kv acc, f kv.2 + acc) 0 output.
Definition max_by (f : planned → Z) (output : list (string * planned)) : Z :=
  foldr (λ kv acc, Z.max (f kv.2) acc) 0 output.

Definition resolve_components (inputs : pyval) (host : host_budget) (process_fds : pyval) : result pyval :=
  match inputs with
  | VDict inputs =>
      _ ← raise_if (negb (keys_within inputs ["gate"; "envelope"; "guard"; "credited"])) ValueError
            "InvalidComponentLimitsInput";
      process_fds ← integer process_fds "process_fds" 1;
      gate ← plan_input inputs "gate" plan_gate;
      envelope ← plan_input inputs "envelope" plan_envelope;
      guard ← plan_input inputs "guard" plan_guard;
      credited ← plan_input inputs "credited" plan_credited;
      let output := gate ++ envelope ++ guard ++ credited in
      let peak_fds := max_by pl_fds output in
      let total_fds := sum_by pl_fds output in
      let total_memory := sum_by pl_memory output in
      _ ← raise_if (process_fds <? peak_fds) ValueError "ComponentLimitExceedsProcessFds";
      _ ← raise_if (fd_ceiling host <? total_fds) ValueError "ComponentLimitExceedsHostFds";
      _ ← raise_if (memory_bytes host / 2 <? total_memory) ValueError "ComponentLimitExceedsHostMemory";
      Ok (VDict (mkdict [("schema", VStr (str "shadow6.component-limit-resolution.v1"));
            ("process_fds", VInt process_fds); ("estimated_peak_process_fds", VInt peak_fds);
            ("estimated_total_fds", VInt total_fds); ("estimated_total_memory_bytes", VInt total_memory);
            ("host_budget", host_to_dict host);
            ("components", VDict ((λ kv, (str kv.1, pl_row kv.2)) <$> output))]))
  | _ => raise ValueError "InvalidComponentLimitsInput"
  end.

Definition validate_components (resolution inputs : pyval) (host : host_budget) (process_fds : pyval)
    : result pyval :=
  match resolution with
  | VDict d =>
      _ ← raise_if (negb (keys_exact d ["schema"; "process_fds"; "estimated_peak_process_fds";
                           "estimated_total_fds"; "estimated_total_memory_bytes"; "host_budget"; "components"]))
            ValueError "InvalidComponentLimitsSchema";
      expected ← resolve_components inputs host process_fds;
      _ ← raise_if (negb (bool_decide (canonical expected = canonical resolution))) ValueError
            "ComponentLimitsDrift";
      Ok expected
  | _ => raise ValueError "InvalidComponentLimitsSchema"
  end.
