(* ===== verification/LimitsFacts.v ===== *)
(** * Resource limits: theorems

    The effective limits respect every ceiling of their model, the component
    plan fits the host, and a resolution validates against its own inputs. *)
From S2P Require Import Prelude Dict PyStr PyText PyValue Json JsonRound JsonDocs StrictJson Sha256 Limits.

Lemma integer_Ok v name minimum z : integer v name minimum = Ok z → v = VInt z ∧ minimum ≤ z ≤ MAX_INTEGER.
Proof.
  destruct v; try done. simpl. destruct (between _ _ _) eqn:E; [|done].
  intros [= ->]. apply between_spec in E. done.
Qed.

Lemma integer_refl name minimum z : minimum ≤ z ≤ MAX_INTEGER → integer (VInt z) name minimum = Ok z.
Proof. intros H. simpl. by rewrite (proj2 (between_spec _ _ _) H). Qed.

(** What the host budget guarantees of itself. *)
Definition host_wf (h : host_budget) : Prop :=
  1 ≤ memory_bytes h ≤ MAX_INTEGER ∧ 1 ≤ fd_ceiling h ≤ MAX_INTEGER ∧ 1 ≤ cpu_units h ≤ MAX_INTEGER ∧
  1 ≤ zlen (platform h) ≤ 64 ∧
  Forall (λ l, zlen l ≤ 8 ∧ Forall (λ s, 1 ≤ zlen s ≤ 128) l) [memory_sources h; fd_sources h; cpu_sources h].

Lemma sources_ok_spec l :
  sources_ok l = true → zlen (str_values l) ≤ 8 ∧ Forall (λ s, 1 ≤ zlen s ≤ 128) (str_values l).
Proof.
  unfold sources_ok, str_values. intros [Hl Hf]%andb_true_iff. split.
  - unfold zlen in *. rewrite length_fmap. lia.
  - apply Forall_fmap. apply Forall_forall. intros v Hv. rewrite forallb_forall in Hf.
    apply list_elem_of_In in Hv. specialize (Hf v Hv). destruct v; try done. simpl. by apply between_spec.
Qed.

Lemma sources_ok_strs l :
  zlen l ≤ 8 → Forall (λ s, 1 ≤ zlen s ≤ 128) l → sources_ok (VStr <$> l) = true ∧ str_values (VStr <$> l) = l.
Proof.
  intros Hl Hf. unfold sources_ok, str_values. split.
  - apply andb_true_iff. split; [unfold zlen in *; rewrite length_fmap; lia|].
    apply forallb_forall. intros v Hv. apply list_elem_of_In, list_elem_of_fmap in Hv as (s & -> & Hs).
    rewrite Forall_forall in Hf. by apply between_spec, Hf.
  - rewrite <- list_fmap_compose. clear. induction l as [|s l IH]; [done|]. rewrite fmap_cons, IH. done.
Qed.

Lemma make_host_wf m f c p ms fs cs h : make_host m f c p ms fs cs = Ok h → host_wf h.
Proof.
  unfold make_host. intros H. inv_ok. destruct p; try done. inv_ok. subst h.
  apply integer_Ok in Hv as [_ ?], Hv0 as [_ ?], Hv1 as [_ ?]. bool_simpl.
  rewrite between_spec in *. unfold host_wf. simpl. split_and!; try done; try lia.
  repeat constructor; by apply sources_ok_spec.
Qed.

Lemma make_host_refl h :
  host_wf h →
  make_host (VInt (memory_bytes h)) (VInt (fd_ceiling h)) (VInt (cpu_units h)) (VStr (platform h))
    (VStr <$> memory_sources h) (VStr <$> fd_sources h) (VStr <$> cpu_sources h) = Ok h.
Proof.
  intros (Hm & Hf & Hc & Hp & Hs). apply Forall_cons in Hs as [[M1 M2] Hs].
  apply Forall_cons in Hs as [[F1 F2] Hs]. apply Forall_cons in Hs as [[C1 C2] _].
  unfold make_host. rewrite !integer_refl by done. simpl.
  destruct (sources_ok_strs _ M1 M2) as [-> ->], (sources_ok_strs _ F1 F2) as [-> ->],
    (sources_ok_strs _ C1 C2) as [-> ->].
  rewrite (proj2 (between_spec _ _ _) Hp). simpl. by destruct h.
Qed.

(** ** Ceilings *)

(** [value] respects the capacity model of its dimension on this host. *)
Definition within (host : host_budget) (cap : capacity) (hard : option Z) (value : Z) : Prop :=
  1 ≤ value ≤ MAX_INTEGER ∧
  value * memory_per_unit cap ≤ memory_bytes host / 2 ∧
  value * fds_per_unit cap ≤ Z.max 0 (fd_ceiling host - 64) ∧
  match native_ceiling cap with Some n => value ≤ n | None => True end ∧
  match hard with Some h => value ≤ h | None => True end.

Lemma host_ceiling_within host cap v :
  0 ≤ memory_per_unit cap → 0 ≤ fds_per_unit cap → 0 ≤ memory_bytes host → 1 ≤ v ≤ host_ceiling host cap →
  v ≤ MAX_INTEGER ∧ v * memory_per_unit cap ≤ memory_bytes host / 2 ∧
  v * fds_per_unit cap ≤ Z.max 0 (fd_ceiling host - 64) ∧
  match native_ceiling cap with Some n => v ≤ n | None => True end.
Proof.
  intros Hm Hf Hh Hv. unfold host_ceiling in Hv.
  assert (∀ x c, 0 < c → v ≤ x / c → v * c ≤ x) as Hdiv.
  { intros x c Hc Hx. pose proof (Z.mul_div_le x c Hc). nia. }
  assert (0 ≤ memory_bytes host / 2) by (apply Z.div_pos; lia).
  set (x2 := if fds_per_unit cap =? 0 then _ else _) in Hv.
  assert (v ≤ x2) as H2 by (unfold opt_min in Hv; destruct (native_ceiling cap); lia).
  assert (match native_ceiling cap with Some n => v ≤ n | None => True end) as Hn.
  { unfold opt_min in Hv. destruct (native_ceiling cap); [lia|done]. }
  set (x1 := if memory_per_unit cap =? 0 then _ else _) in x2. unfold x2 in H2.
  assert (v ≤ x1) as H1 by (destruct (fds_per_unit cap =? 0); lia).
  split_and!; [|destruct (Z.eqb_spec (memory_per_unit cap) 0) as [E|E]|destruct (Z.eqb_spec (fds_per_unit cap) 0) as [E|E]|done].
  - unfold x1 in H1. destruct (memory_per_unit cap =? 0); lia.
  - rewrite E. lia.
  - apply Hdiv; [lia|]. unfold x1 in H1. lia.
  - rewrite E. lia.
  - apply Hdiv; lia.
Qed.

Lemma read_capacity_Ok name v cap :
  read_capacity name v = Ok cap → 0 ≤ memory_per_unit cap ∧ 0 ≤ fds_per_unit cap.
Proof.
  unfold read_capacity. destruct v; try done. intros H. inv_ok.
  destruct (vget_none d "mutable"); try done. inv_ok. subst cap. simpl.
  apply integer_Ok in Hv0 as [_ ?], Hv1 as [_ ?]. lia.
Qed.

(** One resolved dimension: within every ceiling, and the safe default when
    the implementation cannot change it at run time. *)
Definition dimension_ok (m : limit_model) (host : host_budget) (name : pystr) (value : Z) : Prop :=
  ∃ safe hard cap capv,
    dget (m_safe m) name = Some (VInt safe) ∧
    dget (m_capacity m) name = Some capv ∧ read_capacity "dimension" capv = Ok cap ∧
    dget (m_hard m) name = Some (opt_int hard) ∧
    within host cap hard value ∧ (mutable cap = false → value = safe).

Lemma opt_integer_Ok v name o : opt_integer v name = Ok o → v = opt_int o.
Proof.
  unfold opt_integer. destruct (is_none v) eqn:E.
  - intros [= <-]. by destruct v.
  - destruct (integer v name 1) as [z|] eqn:Ez; [|done]. intros [= <-]. by apply integer_Ok in Ez as [-> _].
Qed.

Lemma resolve_dimension_ok m mode ov host name row value :
  host_wf host → resolve_dimension m mode ov host name = Ok (row, value) → dimension_ok m host name value.
Proof.
  intros (Hmem & Hfd & Hcpu & _) H. unfold resolve_dimension in H. inv_ok.
  destruct (dget (m_safe m) name) as [sv|] eqn:Es; [|done].
  destruct (dget (m_recommended m) name) as [rv|]; [|done].
  destruct (dget (m_hard m) name) as [hv|] eqn:Eh; [|done].
  destruct (dget (m_capacity m) name) as [cv|] eqn:Ec; [|done]. inv_ok. subst.
  apply integer_Ok in Hv as [-> Hsafe]. apply opt_integer_Ok in Hv1 as ->.
  pose proof (read_capacity_Ok _ _ _ Hv2) as [Hc1 Hc2].
  destruct v6 as [| | | |[|c s]| |]; try done. inv_ok. clear H.
  match goal with E : ?x = value |- _ => set (y := x) in *; symmetry in E; subst value end.
  exists v, v1, v2. eexists. split_and!; try done.
  - bool_simpl. assert (1 ≤ y ≤ host_ceiling host v2) as Hle by (split; [lia|unfold y, effective_limit; lia]).
    destruct (host_ceiling_within host v2 y Hc1 Hc2 ltac:(lia) Hle) as (? & ? & ? & ?).
    unfold within. split_and!; try done; try lia.
    unfold y, effective_limit. destruct v1; [lia|done].
  - intros Hmut. match goal with E : negb (mutable v2) && _ = false |- _ => rewrite Hmut in E; simpl in E end.
    bool_simpl. done.
Qed.

(** ** The whole resolution *)
Definition resolution_doc (profile : pydict) (id mode policy : pyval) (host : host_budget)
    (dims : list (pystr * (pyval * Z))) : pyval :=
  VDict (mkdict [("schema", VStr (str "shadow6.limit-resolution.v1")); ("profile", id);
    ("mode", mode); ("policy", policy); ("host_budget", host_to_dict host);
    ("dimensions", VDict ((λ d : pystr * (pyval * Z), (d.1, d.2.1)) <$> dims));
    ("effective_limits", VDict ((λ d, (d.1, VInt d.2.2)) <$> dims));
    ("model_digest", VStr (str "sha256:" ++ sha256_hex (canonical (vget_none profile "limit_model"))))]).

Lemma resolve_inv profile policy host doc :
  resolve profile policy host = Ok doc →
  ∃ pol p m ov dims id,
    validate_policy policy = Ok pol ∧ pol = VDict p ∧ read_model (vget_none profile "limit_model") = Ok m ∧
    vget_none p "operator_overrides" = VDict ov ∧ vget profile "id" = Some id ∧
    Forall2 (λ name d, d.1 = name ∧ resolve_dimension m (vget_none p "mode") ov host name = Ok d.2)
      (sort_keys (m_safe m)).*1 dims ∧
    doc = resolution_doc profile id (vget_none p "mode") pol host dims.
Proof.
  unfold resolve. intros H. inv_ok. destruct v as [| | | | | |p]; try done. simpl in *. inv_ok. subst v0.
  destruct (vget_none p "operator_overrides") as [| | | | | |ov] eqn:Eo; try done. simpl in *. inv_ok. subst v2 doc.
  apply map_res_Ok in Hv4. apply field_Ok in Hv5.
  eexists _, p, v1, ov, v4, v5. split_and!; try done.
  eapply Forall2_impl; [done|]. intros name [n r] Hd. cbv beta in Hd.
  apply bind_Ok_inv in Hd as (r' & Hr & [= <- <-]). done.
Qed.

Lemma resolve_dims m mode ov host names dims :
  host_wf host →
  Forall2 (λ name d, d.1 = name ∧ resolve_dimension m mode ov host name = Ok d.2) names dims →
  ∀ name row value, (name, (row, value)) ∈ dims → dimension_ok m host name value.
Proof.
  intros Hh. induction 1 as [|name d names dims [Hn Hd] _ IH]; [by intros ? ? ? ?%not_elem_of_nil|].
  intros name' row value [Heq|Hin]%elem_of_cons; [|by eapply IH]. subst d. simpl in *. subst.
  by eapply resolve_dimension_ok.
Qed.

Lemma norm_strs l : norm (strs l) = strs l.
Proof. unfold strs. simpl. f_equal. rewrite <- list_fmap_compose. by apply list_fmap_ext. Qed.

Lemma host_round h d : host_wf h → norm (host_to_dict h) = VDict d → host_from_dict (VDict d) = Ok h.
Proof.
  intros Hh E. unfold host_to_dict in E. set (hd := mkdict _) in E.
  assert (d = sort_keys ((λ kv, (kv.1, norm kv.2)) <$> hd)) as -> by (by injection E). clear E.
  assert (dwf hd) as Hwf by by apply mkdict_wf.
  unfold host_from_dict. rewrite (keys_exact_norm hd) by done. rewrite !vget_norm by done.
  unfold hd, vget_none. rewrite !vget_mkdict. simpl. rewrite <- !list_fmap_compose.
  by apply make_host_refl.
Qed.

(** ** Resolutions are portable documents *)
Lemma json_ok_int z : - MAX_INTEGER ≤ z ≤ MAX_INTEGER → json_ok (VInt z).
Proof. intros Hz. constructor. by apply safe_int_ok. Qed.

Definition host_scalar (h : host_budget) : Prop :=
  Forall (λ s, forallb is_scalar s = true) (platform h :: memory_sources h ++ fd_sources h ++ cpu_sources h).

Lemma json_ok_strs l : Forall (λ s, forallb is_scalar s = true) l → json_ok (strs l).
Proof. intros Hl. constructor. apply Forall_fmap. eapply Forall_impl; [done|]. by constructor. Qed.

Lemma host_json_ok h : host_wf h → host_scalar h → json_ok (host_to_dict h).
Proof.
  intros (Hm & Hf & Hc & _) Hs. apply Forall_cons in Hs as [Hp Hs].
  apply Forall_app in Hs as [S1 Hs]. apply Forall_app in Hs as [S2 S3].
  apply json_ok_mkdict; [done|]. repeat (apply Forall_cons; split; [simpl|]); [..|constructor];
    first [apply json_ok_lit|by constructor|by apply json_ok_int; lia|by apply json_ok_strs].
Qed.

Lemma opt_integer_range v name o : opt_integer v name = Ok o → json_ok (opt_int o).
Proof.
  unfold opt_integer. destruct (is_none v); [by intros [= <-]; constructor|].
  destruct (integer v name 1) as [z|] eqn:E; [|done]. intros [= <-]. apply integer_Ok in E as [_ ?].
  apply json_ok_int. lia.
Qed.

Lemma read_capacity_native name v cap : read_capacity name v = Ok cap → json_ok (opt_int (native_ceiling cap)).
Proof.
  unfold read_capacity. destruct v; try done. intros H. inv_ok. destruct (vget_none d "mutable"); try done.
  inv_ok. subst cap. simpl. by eapply opt_integer_range.
Qed.

Lemma resolve_dimension_json m mode ov host name row value :
  host_wf host → json_ok mode → json_ok (VDict ov) → json_ok (VDict (m_enforced m)) →
  resolve_dimension m mode ov host name = Ok (row, value) → json_ok row ∧ json_ok (VInt value).
Proof.
  intros (Hmem & Hfd & Hcpu & _) Hmode Hov Henf H. unfold resolve_dimension in H. inv_ok.
  destruct (dget (m_safe m) name) as [sv|] eqn:Es; [|done].
  destruct (dget (m_recommended m) name) as [rv|]; [|done].
  destruct (dget (m_hard m) name) as [hv|] eqn:Eh; [|done].
  destruct (dget (m_capacity m) name) as [cv|] eqn:Ec; [|done].
  destruct (dget (m_enforced m) name) as [ev|] eqn:Ee; [|done]. inv_ok. subst.
  apply integer_Ok in Hv as [-> Hsafe], Hv0 as [-> Hrec]. apply opt_integer_range in Hv1.
  pose proof (read_capacity_Ok _ _ _ Hv2) as [Hc1 Hc2].
  pose proof (read_capacity_native _ _ _ Hv2) as Hnat.
  destruct v6 as [| | | |[|c s]| |]; try done.
  match type of H with Ok (?r, ?x) = Ok _ => assert (r = row ∧ x = value) as [<- <-] by by injection H end.
  match goal with E : (effective_limit ?a ?b ?c' ?d ?e ?f ?g <? 1) = false |- _ =>
    set (eff := effective_limit a b c' d e f g) in * end.
  bool_simpl. assert (1 ≤ eff ≤ host_ceiling host v2) as Hle by (split; [lia|unfold eff, effective_limit; lia]).
  assert (host_ceiling host v2 ≤ MAX_INTEGER) as Hmax.
  { unfold host_ceiling, opt_min. destruct (memory_per_unit v2 =? 0), (fds_per_unit v2 =? 0), (native_ceiling v2); lia. }
  assert (json_ok (opt_int (match dget ov name with Some (VInt z) => Some z | _ => None end))) as Hreq.
  { destruct (dget ov name) as [[| |z| | | |]|] eqn:E; try constructor.
    destruct (json_ok_dget _ _ _ Hov E) as [Hz _]. by inversion Hz. }
  assert (json_ok (VInt eff)) as Heff by (apply json_ok_int; lia).
  assert (json_ok (match (match dget ov name with Some (VInt z) => Some z | _ => None end) with
                   | Some _ => VStr (str "operator") | None => mode end)) as Hsrc.
  { destruct (dget ov name) as [[]|]; try done. apply json_ok_lit. }
  destruct (json_ok_dget _ _ _ Henf Ee) as [Hen _].
  split; [|done]. apply json_ok_mkdict; [done|].
  repeat (apply Forall_cons; split; [cbn [snd]|]); [..|constructor];
    first [done|apply json_ok_lit|by apply json_ok_int; lia].
Qed.

Lemma validate_policy_json policy pol :
  json_ok policy → validate_policy policy = Ok pol → json_ok pol ∧ ∃ p, pol = VDict p.
Proof.
  intros Hp H. unfold validate_policy in H.
  assert (json_ok (if is_none policy then default_policy else policy)) as Hp'.
  { destruct policy; simpl; try done. apply json_ok_mkdict; [done|].
    repeat constructor. }
  destruct (if is_none policy then default_policy else policy) as [| | | | | |d]; try done. inv_ok.
  destruct (vget_none d "operator_overrides"); try done. inv_ok.
  unfold canonical, dumps_canonical in H. rewrite json_loads_dumps in H by (apply canonical_opts_ok || done).
  injection H as <-. split; [by apply (norm_ok (VDict d))|]. by eexists.
Qed.

(** The policy recorded in a resolution is a fixed point of [validate_policy]. *)
Lemma validate_policy_idem policy pol :
  json_ok policy → validate_policy policy = Ok pol → validate_policy pol = Ok pol.
Proof.
  intros Hp H. pose proof (validate_policy_json _ _ Hp H) as [Hpol (p & ->)]. unfold validate_policy in H.
  assert (json_ok (if is_none policy then default_policy else policy)) as Hp'.
  { destruct policy; simpl; try done. apply json_ok_mkdict; [done|]. repeat constructor. }
  destruct (if is_none policy then default_policy else policy) as [| | | | | |d]; try done. inv_ok.
  destruct (vget_none d "operator_overrides") as [| | | | | |ov] eqn:Eo; try done. inv_ok.
  unfold canonical, dumps_canonical in H. rewrite json_loads_dumps in H by (apply canonical_opts_ok || done).
  assert (p = sort_keys ((λ kv, (kv.1, norm kv.2)) <$> d)) as -> by (by injection H).
  assert (dwf d) as Hwf by by inversion Hp'.
  assert (norm (vget_none d "mode") = vget_none d "mode") as Em.
  { bool_simpl. by destruct (vget_none d "mode"). }
  unfold validate_policy. cbn [is_none]. rewrite !vget_norm, Eo, Em by done.
  bool_simpl. rewrite keys_exact_norm by done.
  match goal with E : in_strs _ _ = true |- _ => rewrite E end.
  cbn [negb orb raise_if mbind result_bind norm].
  assert (zlen (sort_keys ((λ kv, (kv.1, norm kv.2)) <$> ov)) = zlen ov) as El.
  { unfold zlen. rewrite sort_keys_perm, length_fmap. done. }
  assert (bool_decide (sort_keys ((λ kv : pystr * pyval, (kv.1, norm kv.2)) <$> ov) = []) = bool_decide (ov = [])) as Eb.
  { destruct ov as [|x ov]; [done|]. rewrite (bool_decide_false (_ :: _ = [])) by done.
    apply bool_decide_false. intros E. rewrite E in El. by unfold zlen in El. }
  rewrite El, Eb. match goal with E : zlen ov ≤ 64 |- _ => replace (64 <? zlen ov) with false by lia end.
  match goal with E : _ && negb (bool_decide (ov = [])) = false |- _ => rewrite E end.
  cbn [raise_if mbind result_bind].
  replace (for_each _ (sort_keys _)) with (Ok tt : result unit).
  - cbn [mbind result_bind]. unfold canonical, dumps_canonical.
    rewrite json_loads_dumps; [|apply canonical_opts_ok|done]. cbn [do_sort canonical_opts].
    f_equal. apply (norm_idem (VDict d)).
  - symmetry. apply for_each_Ok. apply for_each_Ok in Hv2. rewrite Forall_forall in Hv2.
    apply Forall_forall. intros [k v] Hkv. rewrite sort_keys_perm in Hkv.
    apply list_elem_of_fmap in Hkv as ([k' v'] & [= -> ->] & Hin). specialize (Hv2 _ Hin). simpl in Hv2 |- *.
    apply bind_Ok_inv in Hv2 as (u & Hu & Hv'). rewrite Hu. simpl.
    apply bind_Ok_inv in Hv' as (z & Hz & _). apply integer_Ok in Hz as [-> Hz].
    simpl norm. by rewrite integer_refl.
Qed.

Lemma hex_digit_scalar n : 0 ≤ n < 16 → is_scalar (hex_digit n) = true.
Proof. intros Hn. unfold hex_digit, is_scalar, is_surrogate, between. destruct (n <? 10) eqn:E; lia. Qed.

Lemma scalar_hex m : forallb is_scalar (sha256_hex m) = true.
Proof.
  unfold sha256_hex, bytes_hex. generalize (sha256_wf m). generalize (sha256 m). intros b Hb.
  induction b as [|x b IH]; [done|]. simpl in Hb. apply andb_true_iff in Hb as [Hx Hb]. simpl.
  unfold is_byte in Hx. apply between_spec in Hx.
  rewrite !hex_digit_scalar by (div_lia || lia). simpl. by apply IH.
Qed.

Lemma read_model_json v m :
  json_ok v → read_model v = Ok m → json_ok (VDict (m_safe m)) ∧ json_ok (VDict (m_enforced m)).
Proof.
  intros Hv H. unfold read_model in H. destruct v as [| | | | | |d]; try done. inv_ok. subst m. simpl.
  pose proof (json_ok_vget d "safe_defaults" Hv) as H1. pose proof (json_ok_vget d "enforced_by" Hv) as H2.
  destruct (vget_none d "safe_defaults"), (vget_none d "enforced_by"); try done. simpl in *. by simplify_eq.
Qed.

Lemma resolve_json_ok profile policy host doc :
  json_ok (VDict profile) → json_ok policy → host_wf host → host_scalar host →
  resolve profile policy host = Ok doc → json_ok doc.
Proof.
  intros Hpr Hpo Hh Hs H. apply resolve_inv in H as (pol & p & m & ov & dims & id & Hpol & -> & Hm & Eo & Hid & Hd & ->).
  pose proof (validate_policy_json _ _ Hpo Hpol) as [Hp _].
  destruct (read_model_json _ _ (json_ok_vget profile "limit_model" Hpr) Hm) as [Hsafe Henf].
  pose proof (json_ok_vget p "operator_overrides" Hp) as Hov. rewrite Eo in Hov.
  assert (NoDup dims.*1 ∧ Forall (λ d, forallb is_scalar d.1 = true ∧ json_ok d.2.1 ∧ json_ok (VInt d.2.2)) dims) as [Hn Hj].
  { assert (dims.*1 = (sort_keys (m_safe m)).*1) as E.
    { clear -Hd. induction Hd as [|name d names dims [Hn _] _ IH]; [done|]. rewrite fmap_cons. by rewrite IH, Hn. }
    rewrite E. split.
    - apply (dwf_sort_keys (m_safe m)). by inversion Hsafe.
    - apply Forall_forall. intros d Hin.
      assert (d.1 ∈ (sort_keys (m_safe m)).*1) as Hk by (rewrite <- E; by apply list_elem_of_fmap_2).
      assert (resolve_dimension m (vget_none p "mode") ov host d.1 = Ok d.2) as Hr.
      { clear -Hd Hin. induction Hd as [|name x names dims [Hn Hx] _ IH]; [by apply not_elem_of_nil in Hin|].
        apply elem_of_cons in Hin as [->|Hin]; [by rewrite Hn|by apply IH]. }
      destruct d as [n [row v]]. simpl in *.
      destruct (resolve_dimension_json _ _ _ _ _ _ _ Hh (json_ok_vget p "mode" Hp) Hov Henf Hr).
      split_and!; try done. rewrite sort_keys_perm in Hk. apply list_elem_of_fmap in Hk as ([k w] & -> & Hkw).
      inversion Hsafe as [| | | | |? _ Hf]; subst. rewrite Forall_forall in Hf. by destruct (Hf _ Hkw). }
  apply json_ok_mkdict; [done|].
  repeat (apply Forall_cons; split; [cbn [snd]|]); [..|constructor];
    try done; try apply json_ok_lit; try by apply json_ok_vget.
  - by destruct (json_ok_dget profile (str "id") id Hpr Hid).
  - by apply host_json_ok.
  - constructor; [unfold dwf, dkeys; by rewrite <- list_fmap_compose|]. apply Forall_fmap.
    eapply Forall_impl; [done|]. intros d (? & ? & ?). done.
  - constructor; [unfold dwf, dkeys; by rewrite <- list_fmap_compose|]. apply Forall_fmap.
    eapply Forall_impl; [done|]. intros d (? & ? & ?). done.
  - constructor. rewrite forallb_app, scalar_str. apply scalar_hex.
Qed.

Lemma resolution_to_dict_ok doc : json_ok doc → resolution_to_dict doc = Ok (norm doc).
Proof.
  intros Hj. unfold resolution_to_dict, canonical, dumps_canonical.
  by rewrite json_loads_dumps by (apply canonical_opts_ok || done).
Qed.

(** A stored resolution validates, against the policy it was made from and
    against the policy it records. *)
Lemma validate_resolve profile policy host doc stored :
  json_ok (VDict profile) → json_ok policy → host_wf host → host_scalar host →
  resolve profile policy host = Ok doc → resolution_to_dict doc = Ok stored →
  validate stored profile policy (Some host) = Ok stored ∧ validate stored profile VNone (Some host) = Ok stored.
Proof.
  intros Hpr Hpo Hh Hs H Hst. pose proof (resolve_json_ok _ _ _ _ Hpr Hpo Hh Hs H) as Hj.
  rewrite resolution_to_dict_ok in Hst by done. injection Hst as <-.
  pose proof H as H'. apply resolve_inv in H' as (pol & p & m & ov & dims & id & Hpol & -> & Hm & Eo & Hid & Hd & ->).
  pose proof (validate_policy_idem _ _ Hpo Hpol) as Hidem.
  assert (∀ policy', (if is_none policy' then norm (VDict p) else policy') = policy ∨
                     (if is_none policy' then norm (VDict p) else policy') = VDict p →
    resolve profile (if is_none policy' then norm (VDict p) else policy') host =
    Ok (resolution_doc profile id (vget_none p "mode") (VDict p) host dims)) as Hres.
  { intros policy' [->| ->]; [done|]. unfold resolve in H |- *. rewrite Hidem. rewrite Hpol in H. done. }
  assert (norm (VDict p) = VDict p) as Hnorm.
  { pose proof (validate_policy_json _ _ Hpo Hpol) as [Hp _].
    unfold validate_policy in Hidem. simpl in Hidem. inv_ok. destruct (vget_none p "operator_overrides"); try done.
    inv_ok. unfold canonical, dumps_canonical in Hidem.
    rewrite json_loads_dumps in Hidem by (apply canonical_opts_ok || done).
    assert (Ok (norm (VDict p)) = Ok (VDict p)) as E by exact Hidem.
    revert E. generalize (norm (VDict p)). by intros ? [= ->]. }
  assert (∀ policy', policy' = policy ∨ policy' = VNone →
    validate (norm (resolution_doc profile id (vget_none p "mode") (VDict p) host dims)) profile policy' (Some host) =
    Ok (norm (resolution_doc profile id (vget_none p "mode") (VDict p) host dims))) as Hmain.
  { intros policy' Hpolicy'. unfold resolution_doc in *. set (l := mkdict _) in *.
    assert (dwf l) as Hwf by by apply mkdict_wf. cbn [norm]. unfold validate.
    rewrite (keys_exact_norm l) by done. rewrite !vget_norm by done. cbn [negb raise_if mbind result_bind].
    replace (vget_none l "host_budget") with (host_to_dict host) by (unfold vget_none, l; by rewrite vget_mkdict).
    replace (vget_none l "policy") with (VDict p) by (unfold vget_none, l; by rewrite vget_mkdict).
    destruct (norm (host_to_dict host)) as [| | | | | |hd] eqn:Ehd; try done.
    rewrite (host_round host hd Hh Ehd). cbn [mbind result_bind].
    rewrite Hres by (rewrite Hnorm; destruct Hpolicy' as [-> | ->]; [destruct policy; simpl; auto|by right]).
    cbn [mbind result_bind]. rewrite resolution_to_dict_ok by done. cbn [mbind result_bind norm].
    rewrite bool_decide_true by done. cbn [negb raise_if mbind result_bind].
    rewrite py_eqb_refl by (by apply json_ok_wf, host_json_ok). done. }
  auto.
Qed.

(** ** Component plans *)

(** The row of a planned component carries its two estimates. *)
Definition plan_row_ok (p : planned) : Prop :=
  ∃ row, pl_row p = VDict row ∧ vget_none row "estimated_fds" = VInt (pl_fds p) ∧
         vget_none row "estimated_memory_bytes" = VInt (pl_memory p).

Ltac plan_row :=
  inv_ok; match goal with H : Planned _ _ _ = _ |- _ => rewrite <- H end; eexists; split; [reflexivity|];
  cbn [pl_fds pl_memory]; doc_lookup; done.

Lemma plan_gate_row v p : plan_gate v = Ok p → plan_row_ok p.
Proof.
  unfold plan_gate, plan_row_ok. intros H. destruct v; try done. destruct (vget_or _ _ _); try done. plan_row.
Qed.
Lemma plan_envelope_row v p : plan_envelope v = Ok p → plan_row_ok p.
Proof. unfold plan_envelope, plan_row_ok. intros H. destruct v; try done. plan_row. Qed.
Lemma plan_guard_row v p : plan_guard v = Ok p → plan_row_ok p.
Proof. unfold plan_guard, plan_row_ok. intros H. destruct v; try done. plan_row. Qed.
Lemma plan_credited_row v p : plan_credited v = Ok p → plan_row_ok p.
Proof.
  unfold plan_credited, plan_row_ok. intros H. destruct v; try done. inv_ok. destruct (vget_or _ _ _); try done. plan_row.
Qed.

Lemma plan_input_rows inputs name plan out :
  (∀ v p, plan v = Ok p → plan_row_ok p) → plan_input inputs name plan = Ok out →
  Forall (λ kv : string * planned, plan_row_ok kv.2) out.
Proof.
  intros Hp. unfold plan_input. destruct (vget_none inputs name) eqn:E; intros H;
    try (by injection H as <-; constructor);
    destruct (plan _) as [p|] eqn:Ep; try done; simpl in H; injection H as <-; repeat constructor; by eapply Hp.
Qed.

Lemma max_by_le f output kv : kv ∈ output → f kv.2 ≤ max_by f output.
Proof.
  induction output as [|x output IH]; [by intros ?%not_elem_of_nil|]. simpl.
  intros [->|Hin]%elem_of_cons; [lia|]. specialize (IH Hin). lia.
Qed.

Lemma resolve_components_ok inputs host process_fds doc :
  resolve_components inputs host process_fds = Ok doc →
  ∃ d fds (output : list (string * planned)),
    doc = VDict d ∧ process_fds = VInt fds ∧
    vget_none d "components" = VDict ((λ kv, (str kv.1, pl_row kv.2)) <$> output) ∧
    Forall (λ kv : string * planned, plan_row_ok kv.2 ∧ pl_fds kv.2 ≤ fds) output ∧
    sum_by pl_fds output ≤ fd_ceiling host ∧ sum_by pl_memory output ≤ memory_bytes host / 2.
Proof.
  unfold resolve_components. intros H. destruct inputs as [| | | | | |inputs]; try done.
  apply bind_Ok_inv in H as ([] & _ & H). apply bind_Ok_inv in H as (fds & Hf & H).
  apply bind_Ok_inv in H as (g & Hg & H). apply bind_Ok_inv in H as (e & He & H).
  apply bind_Ok_inv in H as (gu & Hgu & H). apply bind_Ok_inv in H as (c & Hc & H). cbv zeta in H.
  set (output := g ++ e ++ gu ++ c) in *.
  apply bind_Ok_inv in H as ([] & G1 & H). apply bind_Ok_inv in H as ([] & G2 & H). apply bind_Ok_inv in H as ([] & G3 & H).
  apply raise_if_Ok in G1, G2, G3. bool_simpl. apply integer_Ok in Hf as [-> _].
  eexists _, fds, output. split_and!; [by injection H|done|by doc_lookup| |lia|lia].
  apply Forall_forall. intros kv Hkv. split.
  - assert (Forall (λ kv : string * planned, plan_row_ok kv.2) output) as Hall; [|by eapply Forall_forall in Hall].
    unfold output. rewrite !Forall_app. split_and!.
    + eapply plan_input_rows; [apply plan_gate_row|done].
    + eapply plan_input_rows; [apply plan_envelope_row|done].
    + eapply plan_input_rows; [apply plan_guard_row|done].
    + eapply plan_input_rows; [apply plan_credited_row|done].
  - pose proof (max_by_le pl_fds output kv Hkv). lia.
Qed.
