(* ===== verification/NativeProfiles.v ===== *)
(** * Native profiles

    [Crosed/native_profiles.py]: the catalogue of core/transport profiles, the
    selection and binding of a profile, and the checks of a native
    configuration against a locked profile.  Records are JSON objects, with the
    key order of the source. *)
From S2P Require Import Prelude Dict PyStr PyText PyValue Json JsonRound JsonDocs Sha256 Limits LimitsFacts.

Definition SCHEMA : string := "shadow6.native-profile.v1".
Definition ROLES : list string := ["broker"; "agent"; "client"].

(** One row of [_ROWS]. *)
Record row := Row {
  r_family : string; r_directory : string; r_transport : string; r_config : string;
  r_toolchain : string; r_limit : Z; r_alias : string }.

Definition _ROWS : list row :=
  [Row "go" "Go" "kcp" "kcp" "go" 64 "go";
   Row "rust" "Rust" "quic" "quic" "cargo" 256 "rust";
   Row "gleam" "Gleam" "secure-stream" "secure-stream" "gleam" 1 "gleam";
   Row "ada" "Ada" "cell-relay" "cell-relay" "gnatmake" 1 "ada";
   Row "nim" "Nim" "webrtc" "webrtc" "nim" 1 "nim";
   Row "pony" "Pony" "udp" "udp" "ponyc" 1172 "pony";
   Row "zig" "Zig" "enet" "enet" "zig" 16 "zig";
   Row "d" "D" "secure-stream" "secure-stream" "ldc2" 1 "d";
   Row "cpp" "Cpp" "sctp-tls13" "sctp" "c++" 64 "cpp";
   Row "idris" "Idris" "udp" "udp" "idris2" 1024 "idris";
   Row "hare" "Hare" "udp" "udp" "hare" 978 "hare";
   Row "carp" "Carp" "udp" "udp" "carp" 986 "carp";
   Row "gleam" "Gleam" "micro-mux" "micro-mux" "gleam" 65465 "gleam-mux"].

Definition _MESSAGE_MODES (alias : string) : option string :=
  if bool_decide (alias ∈ ["pony"; "hare"; "carp"; "idris"]) then Some "seqpacket-fd"%string
  else if bool_decide (alias = "gleam-mux"%string) then Some "localhost-udp-datagram-proxy"%string
  else None.

Definition seqpacket_boundary (limit : Z) : pydict := mkdict
  [("kind", txt "message"); ("mode", txt "seqpacket-fd"); ("roles", txts ["client"]); ("max_record", VInt limit);
   ("message_preserving", VBool true); ("backpressure", txt "native-window");
   ("endpoint_discovery", txt "stdout-ready-jsonl-v1");
   ("producer_send_success", txt "kernel-queue-only"); ("oversize", txt "discard-record-continue");
   ("transient_error", txt "retry-eagain-eintr"); ("hard_error", txt "fail-closed");
   ("eof", txt "empty-record-drain"); ("close", txt "drain-accepted-then-stop")].

Definition udp_boundary (limit : Z) : pydict := mkdict
  [("kind", txt "message"); ("mode", txt "localhost-udp-datagram-proxy"); ("roles", txts ["client"]);
   ("message_preserving", VBool true); ("ordered", VBool false); ("reliable", VBool false);
   ("delivery", txt "best-effort"); ("backpressure", txt "udp-datagram-loss"); ("max_record", VInt limit);
   ("listener_ownership", txt "core"); ("endpoint_discovery", txt "stdout-ready-jsonl-v1");
   ("listener_ready", txt "bound-and-listening"); ("local_peer_limit", VInt 1);
   ("oversize", txt "discard-datagram")].

Definition stream_boundary (limit : Z) : pydict := mkdict
  [("kind", txt "stream"); ("mode", txt "localhost-tcp-proxy"); ("roles", txts ["client"]);
   ("full_duplex", VBool true); ("ordered", VBool true); ("reliable", VBool true);
   ("backpressure", txt "tcp-flow-control"); ("half_close", VBool true); ("listener_ownership", txt "core");
   ("endpoint_discovery", txt "stdout-ready-jsonl-v1"); ("listener_ready", txt "bound-and-listening");
   ("local_connection_limit", VInt limit); ("shutdown", txt "close-active-flows");
   ("eof", txt "propagate-half-close"); ("connection_mapping", txt "one-local-connection-per-native-flow")].

Definition _boundary (limit : Z) (alias : string) : pydict :=
  match _MESSAGE_MODES alias with
  | Some mode => if bool_decide (mode = "seqpacket-fd"%string) then seqpacket_boundary limit else udp_boundary limit
  | None => stream_boundary limit
  end.

(** The keys of a boundary that are numeric limits, with their values. *)
Definition boundary_limits (boundary : pydict) : list (string * pyval) :=
  omap (λ key, (λ v, (key, v)) <$> vget boundary key)
       ["max_record"; "local_connection_limit"; "local_peer_limit"]%string.

(** [_limit_model]. *)
Definition _limit_model (boundary : pydict) : pyval :=
  let limits := boundary_limits boundary in
  let record (key : string) := bool_decide (key = "max_record"%string) in
  let seqpacket := eq_str (vget_none boundary "mode") "seqpacket-fd" in
  let udp := eq_str (vget_none boundary "mode") "localhost-udp-datagram-proxy" in
  let model (first : pyval) (each : string → pyval → pyval) : pyval :=
    VDict (mkdict (("process_fds"%string, first) :: ((λ kv, (kv.1, each kv.1 kv.2)) <$> limits))) in
  let capacity (memory fds : Z) (native : pyval) (mutable : bool) : pyval :=
    VDict (mkdict [("memory_per_unit", VInt memory); ("fds_per_unit", VInt fds); ("native_ceiling", native);
                   ("mutable", VBool mutable)]) in
  VDict (mkdict
    [("schema", txt "shadow6.profile-limits.v1");
     ("hard_protocol_limits", model VNone (λ key value, if record key then value else VNone));
     ("safe_defaults", model (VInt 512) (λ _ value, value));
     ("recommended_limits", model (VInt 1024) (λ _ value, value));
     ("capacity_models", model (capacity 1024 1 VNone true)
        (λ key value, capacity (if record key then 1 else 131072) (if record key then 0 else 2) value
                        (record key && negb udp)));
     ("enforced_by", model (txt "supervisor.kernel.RLIMIT_NOFILE")
        (λ key _, if record key && seqpacket then txt "supervisor.application-record-adapter"
                  else txt "core.native-boundary"))]).

Definition realization_doc (r : row) (seqpacket : bool) : pyval :=
  VDict (mkdict [("schema", txt "shadow6.core-config.v1"); ("version", txt "1");
    ("launcher", if seqpacket then txt "native-files" else txt "native-config");
    ("source", if seqpacket then txt "CLI/native_config.py" else txt "Deployment/native_realization.py");
    ("materialReferences",
       if bool_decide (r_family r ∈ ["ada"; "nim"; "d"]%string)
       then VList [VDict (mkdict [("role", txt "broker"); ("fields", txts ["tls_cert"; "tls_key"]);
                                  ("requiredTogether", VBool true); ("maxBytes", VInt 16384)])]
       else VList [])]).

Definition readiness_doc (boundary : pydict) : pyval :=
  VDict (mkdict [("applicationEvent", vget_none boundary "endpoint_discovery");
    ("acknowledgement", txt "identity-owned-endpoint-and-material-recheck");
    ("processAliveSufficient", VBool false); ("clientStartup", txt "owned-application-endpoint");
    ("agentStartup", txt "owned-listener-or-declared-control-peer");
    ("brokerStartup", txt "owned-listener"); ("controlPeerProves", txt "tcp-connection-only")]).

Definition attachment_doc (boundary : pydict) (seqpacket : bool) : pyval :=
  VDict (mkdict [("kind", vget_none boundary "kind"); ("mode", vget_none boundary "mode");
    ("adapter", if seqpacket
       then VDict (mkdict [("kind", txt "local-record-relay"); ("pendingRecordsPerDirection", VInt 1);
                           ("activePeers", VInt 1); ("drainSeconds", VInt 8);
                           ("sendSuccess", txt "local-kernel-queue-only")])
       else VNone);
    ("transport", if eq_str (vget_none boundary "mode") "localhost-tcp-proxy" then txt "tcp"
                  else if seqpacket then txt "unix-seqpacket" else txt "udp");
    ("roles", vget_none boundary "roles"); ("unsupportedError", txt "UnsupportedApplicationBoundary")]).

(** [_record]. *)
Definition _record (r : row) : pydict :=
  let boundary := _boundary (r_limit r) (r_alias r) in
  let seqpacket := eq_str (vget_none boundary "mode") "seqpacket-fd" in
  let only (f lib : string) : pyval := if bool_decide (r_family r = f) then txts [lib] else VList [] in
  mkdict
    [("schema", txt SCHEMA); ("id", txt (r_family r +:+ "-" +:+ r_transport r)); ("core", txt (r_family r));
     ("primary", VBool (bool_decide (r_alias r = r_family r))); ("roles", txts ROLES);
     ("nativeTransport", txt (r_transport r)); ("configTransport", txt (r_config r));
     ("applicationBoundary", VDict boundary);
     ("artifact", txt ("Core-" +:+ r_directory r +:+ "/shadow6-" +:+ r_family r));
     ("benchmarkAlias", txt (r_alias r));
     ("realization", realization_doc r seqpacket);
     ("requirements", VDict (mkdict [("toolchains", txts [r_toolchain r]); ("libraries", only "nim" "libdatachannel");
        ("kernelFeatures", only "cpp" "sctp"); ("platformContract", txt ("Core-" +:+ r_directory r +:+ "/README.md"))]));
     ("readiness", readiness_doc boundary);
     ("observation", VDict (mkdict [("contract", txt "Deployment/runtime_observation.py");
        ("required", txts ["process-identity"; "parent-child"; "owned-endpoint"; "actual-transport"; "readiness";
                           "material-digests"; "component-health"]);
        ("platformDegradation", txt "explicit-supervisor-capabilities")]));
     ("shutdown", VDict (mkdict [("eof", vget_none boundary "eof");
        ("halfClose", vget_or boundary "half_close" (VBool false));
        ("drain", vget_or boundary "close" (vget_or boundary "shutdown" (txt "no-delivery-guarantee")))]));
     ("limits", VDict (mkdict (boundary_limits boundary)));
     ("limit_model", _limit_model boundary);
     ("nativeSecurity", VDict (mkdict [("authority", txt "Crosed/security_capabilities.json");
        ("core", txt ("shadow6-" +:+ r_family r))]));
     ("composition", VDict (mkdict [("authority", txt "Deployment/service_composition.py"); ("routes", txt "S6P1.routes");
        ("nativeTranslation", VBool false); ("components", txts ["BrokerSet"; "Gate"; "Guard"; "S6EPE"; "S6NA"]);
        ("admission", txt "explicit-policy-and-boundary-validation")]));
     ("attachment", attachment_doc boundary seqpacket);
     ("featureReport", VDict (mkdict [("core", txt ("shadow6-" +:+ r_family r));
        ("transport", txt (if bool_decide (r_alias r = "gleam-mux"%string) then "secure-stream" else r_transport r));
        ("boundaryMode", vget_none boundary "mode")]))].

Definition _PROFILES : list pydict := _record <$> _ROWS.

Definition is_primary (p : pydict) : bool := is_true (vget_none p "primary").
Definition CORE_IDS : list pyval := (λ p, vget_none p "core") <$> filter (λ p, is_primary p) _PROFILES.

(** [core in CORE_IDS] for a string, and the profiles of a core. *)
Definition profiles (core : pyval) : result (list pydict) :=
  _ ← raise_if (negb (is_none core) && negb (is_str core && existsb (py_eqb core) CORE_IDS)) ValueError "UnknownCore";
  Ok (filter (λ p, is_none core || py_eqb (vget_none p "core") core) _PROFILES).

Definition profile_matches (profile : pyval) (p : pydict) : bool :=
  if is_none profile then is_primary p else py_eqb (vget_none p "id") profile.

Definition select_profile (core profile : pyval) : result pydict :=
  _ ← raise_if (negb (is_str core) || (negb (is_none profile) && negb (is_str profile))) ValueError
        "InvalidCoreProfileBinding";
  candidates ← profiles core;
  match filter (λ p, profile_matches profile p) candidates with
  | [p] => Ok p
  | _ => raise ValueError "InvalidCoreProfileBinding"
  end.

Definition profile_digest (profile : pyval) : result pystr :=
  match profile with
  | VDict d =>
      _ ← raise_if (negb (is_str (vget_none d "core")) || negb (is_str (vget_none d "id"))) ValueError
            "InvalidCoreProfileBinding";
      canonical ← select_profile (vget_none d "core") (vget_none d "id");
      _ ← raise_if (negb (bool_decide (dumps_canonical profile = dumps_canonical (VDict canonical)))) ValueError
            "NativeProfileContractDrift";
      Ok (str "sha256:" ++ sha256_hex (dumps_canonical (VDict canonical)))
  | _ => raise ValueError "InvalidCoreProfileBinding"
  end.

Definition application_boundaries (core : pyval) : result (list pyval) :=
  ps ← profiles core; Ok ((λ p, vget_none p "applicationBoundary") <$> (ps : list pydict)).

(** [transport_map] and [artifact_map], as ordered maps. *)
Definition transport_map (configuration : bool) : pydict :=
  let name := if configuration then "configTransport"%string else "nativeTransport"%string in
  dict_of ((λ p, (str "shadow6-" ++ as_text (vget_none p "core"), vget_none p name))
           <$> filter (λ p, is_primary p) _PROFILES).

Definition artifact_map (benchmark : bool) : pydict :=
  dict_of ((λ p, (if benchmark then as_text (vget_none p "benchmarkAlias")
                  else str "shadow6-" ++ as_text (vget_none p "core"), vget_none p "artifact"))
           <$> filter (λ p, benchmark || is_primary p) _PROFILES).

Definition topology_profile (core : pyval) (settings : pydict) : result pydict :=
  let profile_id := vget_none settings "native_profile" in
  match vget_none settings "gleam_transport" with
  | VNone => select_profile core profile_id
  | VStr legacy =>
      _ ← raise_if (negb (eq_str core "gleam")) ValueError
            "InvalidCoreProfileBinding: gleam_transport applies only to Gleam";
      legacy_profile ← select_profile core (VStr (str "gleam-" ++ legacy));
      _ ← raise_if (negb (is_none profile_id) && negb (py_eqb profile_id (vget_none legacy_profile "id"))) ValueError
            "InvalidCoreProfileBinding: conflicting legacy transport";
      select_profile core (vget_none legacy_profile "id")
  | _ => raise ValueError "InvalidCoreProfileBinding: gleam_transport applies only to Gleam"
  end.

(** ** Bindings *)
Definition bind_profile (core profile : pyval) : result pydict :=
  selected ← select_profile core profile;
  digest ← profile_digest (VDict selected);
  Ok (mkdict [("schema", txt "shadow6.profile-binding.v1"); ("core", core); ("profile", vget_none selected "id");
              ("contractDigest", VStr digest)]).

(** [re.fullmatch(r'sha256:[0-9a-f]{64}', s)]. *)
Definition is_digest (s : pystr) : bool :=
  starts_with (str "sha256:") s && hex_lower 64 (drop 7 s).

Definition validate_profile_binding (binding : pyval) (core : pyval) (current : bool) : result pydict :=
  match binding with
  | VDict b =>
      _ ← raise_if (negb (keys_exact b ["schema"; "core"; "profile"; "contractDigest"])
                    || negb (eq_str (vget_none b "schema") "shadow6.profile-binding.v1")
                    || negb (is_str (vget_none b "core")) || negb (is_str (vget_none b "profile"))
                    || negb (truthy (vget_none b "profile")) || negb (is_str (vget_none b "contractDigest"))
                    || negb (is_digest (as_text (vget_none b "contractDigest"))))
            ValueError "InvalidProfileBinding";
      selected ← select_profile (vget_none b "core") (vget_none b "profile");
      _ ← raise_if (negb (is_none core) && negb (py_eqb (vget_none b "core") core)) ValueError
            "InvalidCoreProfileBinding";
      if current then
        digest ← profile_digest (VDict selected);
        _ ← raise_if (negb (bool_decide (as_text (vget_none b "contractDigest") = digest))) ValueError
              "ProfileBindingDrift: explicitly stop and reconfigure/relock";
        Ok selected
      else Ok selected
  | _ => raise ValueError "InvalidProfileBinding"
  end.

(** ** Native configurations *)

(** The transport selectors of a configuration and of its role's section. *)
Definition selectors (native : pydict) (role : pyval) : list pyval :=
  let section := match role with VStr r => default VNone (dget native r) | _ => VNone end in
  omap (λ v, match v with VDict d => vget d "transport" | _ => None end) [VDict native; section].

(** The application boundaries the routes of a context ask for. *)
Definition requested_boundaries (context : pydict) : result (list pyval) :=
  routes ← field context "routes";
  match routes with
  | VList routes =>
      fold_res (λ acc route,
        match route with
        | VDict r =>
            let b := vget_none r "boundary" in
            if truthy b then
              _ ← raise_if (negb (hashable b)) TypeError "unhashable type"; Ok (acc ++ [b])
            else Ok acc
        | _ => raise AttributeError "get"
        end) [] routes
  | _ => raise TypeError "not iterable"
  end.

Definition validate_profile_realization (binding native : pyval) (context : option pydict) : result pydict :=
  selected ← validate_profile_binding binding VNone true;
  match native with
  | VDict n =>
      let role := vget_none n "role" in
      _ ← raise_if (negb (is_none role) && negb (in_strs role ROLES)) ValueError
            "ProfileConfigMismatch: role is outside Profile contract";
      let core := vget_none selected "core" in
      _ ← raise_if (match vget n "core" with
                    | Some c => negb (py_eqb c core || py_eqb c (VStr (str "shadow6-" ++ as_text core)))
                    | None => false
                    end) ValueError "ProfileConfigMismatch: native Core identity differs";
      let chosen := selectors n role in
      _ ← raise_if (existsb (λ v, negb (py_eqb v (vget_none selected "configTransport"))) chosen) ValueError
            "ProfileConfigMismatch: transport differs from locked Profile";
      _ ← raise_if (negb (is_primary selected) && bool_decide (chosen = [])
                    && in_strs role ["agent"; "client"]) ValueError
            "ProfileConfigMismatch: explicit non-primary transport required";
      match context with
      | None => Ok selected
      | Some context =>
          requested ← requested_boundaries context;
          boundary ← as_dict (vget_none selected "applicationBoundary");
          _ ← raise_if (existsb (λ b, negb (py_eqb b (vget_none boundary "kind"))) requested) ValueError
                "ProfileCapabilityMismatch: S6P1 application boundary differs";
          Ok selected
      end
  | _ => raise ValueError "ProfileConfigMismatch: native configuration must be an object"
  end.

(** [Path(p).is_absolute()] on a POSIX system. *)
Definition is_absolute (path : pystr) : bool := starts_with (str "/") path.

(** A bounded absolute path without NUL. *)
Definition material_path (v : pyval) (message : string) : result pystr :=
  match v with
  | VStr path =>
      match utf8 path with
      | None => raise UnicodeError "surrogates not allowed"
      | Some b =>
          _ ← raise_if ((4096 <? zlen b) || negb (is_absolute path) || bool_decide (0 ∈ path)) ValueError message;
          Ok path
      end
  | _ => raise ValueError message
  end.

(** The material one reference of a profile names in a native configuration. *)
Definition reference_paths (native reference : pydict) : result (list (pystr * pystr)) :=
  match dget native (as_text (vget_none reference "role")) with
  | Some (VDict value) =>
      fields ← as_list (vget_none reference "fields");
      let present := filter (λ f, truthy (default VNone (dget value (as_text f)))) fields in
      _ ← raise_if (truthy (vget_none reference "requiredTogether") && negb (bool_decide (present = []))
                    && negb (zlen present =? zlen fields)) ValueError
            "ProfileMaterialMismatch: complete TLS material required";
      map_res (λ f,
        path ← material_path (default VNone (dget value (as_text f)))
                 "ProfileMaterialMismatch: bounded absolute material path required";
        Ok (as_text (vget_none reference "role") ++ str "." ++ as_text f, path)) present
  | _ => Ok []
  end.

Definition native_material_paths (binding native : pyval) : result (list (pystr * pystr)) :=
  selected ← validate_profile_realization binding native None;
  n ← as_dict native;
  realization ← as_dict (vget_none selected "realization");
  references ← as_list (vget_none realization "materialReferences");
  found ← map_res (λ v, reference ← as_dict v; reference_paths n reference) references;
  let result := dict_of (concat found) in
  _ ← raise_if (negb (bool_decide (NoDup (dvalues result)))) ValueError
        "ProfileMaterialMismatch: material paths must be distinct";
  Ok result.

(** * Native profiles: selection, bindings and limits

    What [select_profile] selects, that a binding validates as long as the
    catalogue is the one it was made from, and that every profile's limit model
    resolves on a host with enough memory and descriptors. *)

Lemma py_eqb_str v s : py_eqb v (VStr s) = true ↔ v = VStr s.
Proof.
  destruct v; simpl; try (by split).
  split; [by intros ->%bool_decide_eq_true|]. intros [= ->]. by apply bool_decide_eq_true.
Qed.

(** ** Facts of the catalogue, by evaluation *)
Definition reselects (p : pydict) : bool :=
  bool_decide (select_profile (vget_none p "core") (vget_none p "id") = Ok p).
Definition shaped (p : pydict) : bool :=
  is_str (vget_none p "core") && is_str (vget_none p "id") && truthy (vget_none p "id") && json_okb (VDict p).

Lemma catalogue_reselects : forallb reselects _PROFILES = true.
Proof. vm_compute. reflexivity. Qed.
Lemma catalogue_shaped : forallb shaped _PROFILES = true.
Proof. vm_compute. reflexivity. Qed.

Lemma profile_facts p : p ∈ _PROFILES →
  (∃ core id, vget_none p "core" = VStr core ∧ vget_none p "id" = VStr id ∧ id ≠ []) ∧
  select_profile (vget_none p "core") (vget_none p "id") = Ok p ∧ json_ok (VDict p).
Proof.
  intros Hp%list_elem_of_In.
  pose proof (proj1 (forallb_forall _ _) catalogue_reselects _ Hp) as H1.
  pose proof (proj1 (forallb_forall _ _) catalogue_shaped _ Hp) as H2.
  unfold reselects in H1. unfold shaped in H2. apply bool_decide_eq_true in H1.
  rewrite !andb_true_iff in H2. destruct H2 as [[[H2 H3] H4] H5].
  apply is_str_spec in H2 as [core Hc]. apply is_str_spec in H3 as [id Hi]. rewrite Hi in H4. simpl in H4.
  split_and!; [|done|by apply json_okb_ok]. exists core, id. split_and!; try done. intros ->. done.
Qed.

Lemma filter_single {A} (f : A → bool) l p : filter (λ x, f x) l = [p] → p ∈ l ∧ f p = true.
Proof.
  intros Hf. assert (p ∈ filter (λ x, f x) l) as Hin by (rewrite Hf; left).
  apply list_elem_of_filter in Hin as [H1 H2]. split; [done|by apply Is_true_true].
Qed.

(** [select_profile] returns the one matching record of the catalogue. *)
Lemma select_profile_Ok core profile p :
  select_profile core profile = Ok p →
  p ∈ _PROFILES ∧ vget_none p "core" = core ∧
  (if is_none profile then is_primary p = true else vget_none p "id" = profile).
Proof.
  unfold select_profile, profiles. intros H.
  apply bind_Ok_inv in H as ([] & Hg & H). apply bind_Ok_inv in H as (cs & Hc & H).
  apply bind_Ok_inv in Hc as ([] & _ & Hc).
  assert (cs = filter (λ p, is_none core || py_eqb (vget_none p "core") core) _PROFILES) as -> by (by injection Hc).
  destruct (filter (λ p, profile_matches profile p) _) as [|q [|]] eqn:Ef; try done.
  assert (q = p) as -> by (by injection H).
  apply (filter_single (profile_matches profile)) in Ef as [Hin Hm].
  apply list_elem_of_filter in Hin as [Hcore Hin]. apply Is_true_true in Hcore.
  clear H Hc. unfold raise_if in Hg. destruct core as [| | | |core| |]; try discriminate Hg.
  rewrite orb_false_l, py_eqb_str in Hcore. split_and!; [done|done|].
  unfold profile_matches in Hm. destruct profile as [| | | |id| |]; try done. by apply py_eqb_str in Hm.
Qed.

Lemma profile_digest_self p : p ∈ _PROFILES →
  profile_digest (VDict p) = Ok (str "sha256:" ++ sha256_hex (dumps_canonical (VDict p))).
Proof.
  intros Hp. destruct (profile_facts p Hp) as ((core & id & Hc & Hi & _) & Hs & _).
  unfold profile_digest. rewrite Hs, Hc, Hi. cbn [is_str negb orb raise_if mbind result_bind].
  rewrite bool_decide_true by done. done.
Qed.

Lemma is_digest_sha m : is_digest (str "sha256:" ++ sha256_hex m) = true.
Proof. unfold is_digest. apply andb_true_iff. split; [done|]. apply sha256_hex_lower. Qed.

(** ** Bindings *)
Lemma binding_validates core profile b :
  bind_profile core profile = Ok b →
  ∃ selected, validate_profile_binding (VDict b) core true = Ok selected ∧
    select_profile core profile = Ok selected ∧ vget_none b "profile" = vget_none selected "id" ∧
    vget_none b "core" = core.
Proof.
  unfold bind_profile. intros H. apply bind_Ok_inv in H as (p & Hs & H). apply bind_Ok_inv in H as (dg & Hd & H).
  destruct (select_profile_Ok _ _ _ Hs) as (Hp & Hc & _).
  destruct (profile_facts p Hp) as ((c & id & Ec & Ei & Hid) & Hre & _).
  rewrite (profile_digest_self p Hp) in Hd.
  assert (dg = str "sha256:" ++ sha256_hex (dumps_canonical (VDict p))) as -> by (by injection Hd). clear Hd.
  set (dg := str "sha256:" ++ _) in *.
  assert (b = mkdict [("schema", txt "shadow6.profile-binding.v1"); ("core", core);
    ("profile", vget_none p "id"); ("contractDigest", VStr dg)]) as -> by (by injection H). clear H.
  assert (is_digest dg = true) as Hdg by apply is_digest_sha.
  exists p. subst core. doc_lookup. split_and!; try done.
  unfold validate_profile_binding. doc_lookup. rewrite Ec, Ei. rewrite Ec, Ei in Hre.
  cbn [is_str as_text is_none negb orb andb]. rewrite Hdg.
  change (keys_exact _ _) with true. change (eq_str _ _) with true.
  replace (truthy (VStr id)) with true by (simpl; by rewrite bool_decide_false).
  cbn [negb orb andb raise_if mbind result_bind]. rewrite Hre. cbn [mbind result_bind].
  rewrite (proj2 (py_eqb_str _ _) eq_refl). cbn [negb andb raise_if mbind result_bind].
  rewrite (profile_digest_self p Hp). cbn [mbind result_bind]. rewrite bool_decide_true by done. done.
Qed.

(** ** The limit models of the catalogue *)

(** The safe default of a dimension fits a host with 64 MiB and 576
    descriptors: all that [resolve_dimension] asks of it in safe mode. *)
Definition dimension_safe (m : limit_model) (name : pystr) : bool :=
  match dget (m_safe m) name, dget (m_recommended m) name, dget (m_hard m) name,
        dget (m_capacity m) name, dget (m_enforced m) name with
  | Some (VInt safe), Some recommended, Some hard, Some cap, Some (VStr (_ :: _)) =>
      between 1 safe MAX_INTEGER && is_ok (integer recommended "dimension" 1) &&
      match opt_integer hard "dimension", read_capacity "dimension" cap with
      | Ok hard, Ok cap =>
          match hard with Some h => safe <=? h | None => true end &&
          match native_ceiling cap with Some n => safe <=? n | None => true end &&
          between 0 (memory_per_unit cap) MAX_INTEGER && between 0 (fds_per_unit cap) MAX_INTEGER &&
          (safe * memory_per_unit cap <=? 33554432) && (safe * fds_per_unit cap <=? 512)
      | _, _ => false
      end
  | _, _, _, _, _ => false
  end.

Definition roomy (host : host_budget) : Prop := 67108864 ≤ memory_bytes host ∧ 576 ≤ fd_ceiling host.

Lemma ceiling_roomy host cap safe :
  roomy host → 1 ≤ safe ≤ MAX_INTEGER → 0 ≤ memory_per_unit cap → 0 ≤ fds_per_unit cap →
  match native_ceiling cap with Some n => safe <=? n | None => true end = true →
  safe * memory_per_unit cap ≤ 33554432 → safe * fds_per_unit cap ≤ 512 →
  safe ≤ host_ceiling host cap.
Proof.
  intros [Hm Hf] Hs Hc1 Hc2 Hn H1 H2. unfold host_ceiling, opt_min.
  assert (33554432 ≤ memory_bytes host / 2) by (apply Z.div_le_lower_bound; lia).
  destruct (Z.eqb_spec (memory_per_unit cap) 0), (Z.eqb_spec (fds_per_unit cap) 0);
    repeat match goal with
    | |- context [?a / memory_per_unit cap] =>
        lazymatch goal with
        | _ : safe ≤ a / memory_per_unit cap |- _ => fail
        | _ => assert (safe ≤ a / memory_per_unit cap) by (apply Z.div_le_lower_bound; nia)
        end
    | |- context [?a / fds_per_unit cap] =>
        lazymatch goal with
        | _ : safe ≤ a / fds_per_unit cap |- _ => fail
        | _ => assert (safe ≤ a / fds_per_unit cap) by (apply Z.div_le_lower_bound; nia)
        end
    end;
    destruct (native_ceiling cap); lia.
Qed.

Lemma resolve_dimension_safe m host name :
  roomy host → dimension_safe m name = true →
  ∃ row safe, dget (m_safe m) name = Some (VInt safe) ∧
    resolve_dimension m (txt "safe") [] host name = Ok (row, safe).
Proof.
  intros Hh. unfold dimension_safe, resolve_dimension.
  destruct (dget (m_safe m) name) as [[| |safe| | | |]|]; try done.
  destruct (dget (m_recommended m) name) as [rv|]; [|done]. destruct (dget (m_hard m) name) as [hv|]; [|done].
  destruct (dget (m_capacity m) name) as [cv|]; [|done].
  destruct (dget (m_enforced m) name) as [[| | | |[|c s]| |]|]; try done.
  intros [[Hs Hr]%andb_true_iff Hc]%andb_true_iff.
  destruct (integer rv "dimension" 1) as [recommended|] eqn:Er; [|done].
  destruct (opt_integer hv "dimension") as [hard|] eqn:Eh; [|done].
  destruct (read_capacity "dimension" cv) as [cap|] eqn:Ec; [|done].
  rewrite !andb_true_iff, !between_spec in Hc. destruct Hc as [[[[[Hhard Hnat] Hm] Hf] H1] H2].
  rewrite between_spec in Hs.
  pose proof (ceiling_roomy host cap safe Hh ltac:(lia) ltac:(lia) ltac:(lia) Hnat ltac:(lia) ltac:(lia)) as Hle.
  cbn [mbind result_bind]. rewrite integer_refl by lia. cbn [mbind result_bind].
  rewrite Er. cbn [mbind result_bind]. rewrite Eh. cbn [mbind result_bind]. rewrite Ec.
  cbn [mbind result_bind dget raise_if].
  unfold effective_limit. change (in_strs (txt "safe") ["safe"; "custom"]) with true. cbv beta zeta iota.
  assert (Z.min (Z.min safe (host_ceiling host cap)) (match hard with Some h => h | None => MAX_INTEGER end) = safe)
    as -> by (destruct hard; lia).
  replace (safe <? 1) with false by lia. rewrite Z.eqb_refl, andb_false_r. cbn [raise_if mbind result_bind]. by eauto.
Qed.

Definition model_safe (p : pydict) : bool :=
  match read_model (vget_none p "limit_model") with
  | Ok m => forallb (dimension_safe m) (sort_keys (m_safe m)).*1
  | Raise _ => false
  end.

Lemma catalogue_safe : forallb model_safe _PROFILES = true.
Proof. vm_compute. reflexivity. Qed.

Lemma resolve_dimensions_safe m host names :
  roomy host → forallb (dimension_safe m) names = true →
  ∃ dims, map_res (λ name, r ← resolve_dimension m (txt "safe") [] host name; Ok (name, r)) names = Ok dims ∧
    dims.*1 = names ∧
    Forall (λ d : pystr * (pyval * Z), dget (m_safe m) d.1 = Some (VInt d.2.2)) dims.
Proof.
  intros Hh. induction names as [|name names IH]; simpl; [by exists []|].
  intros [Hn Hns]%andb_true_iff. destruct (IH Hns) as (dims & -> & <- & Hd).
  destruct (resolve_dimension_safe m host name Hh Hn) as (row & safe & Es & ->). simpl.
  eexists. split_and!; [done|done|]. by constructor.
Qed.

Lemma default_policy_reads : validate_policy VNone = Ok default_policy.
Proof. vm_compute. reflexivity. Qed.

(** Every profile of the catalogue resolves on a roomy host under the default
    policy, with exactly its safe defaults. *)
Lemma catalogue_resolves p host :
  p ∈ _PROFILES → roomy host →
  ∃ doc m dims,
    resolve p VNone host = Ok (VDict doc) ∧ read_model (vget_none p "limit_model") = Ok m ∧
    vget_none doc "effective_limits" = VDict ((λ d : pystr * Z, (d.1, VInt d.2)) <$> dims) ∧
    dims.*1 = (sort_keys (m_safe m)).*1 ∧
    Forall (λ d : pystr * Z, dget (m_safe m) d.1 = Some (VInt d.2)) dims.
Proof.
  intros Hp Hh. pose proof Hp as Hp'%list_elem_of_In.
  pose proof (proj1 (forallb_forall _ _) catalogue_safe _ Hp') as Hs. unfold model_safe in Hs.
  destruct (profile_facts p Hp) as ((core & id & _ & Hid & _) & _).
  unfold resolve. rewrite default_policy_reads. cbn [mbind result_bind as_dict default_policy].
  destruct (read_model (vget_none p "limit_model")) as [m|] eqn:Em; [|done].
  cbn [mbind result_bind]. doc_lookup. cbn [mbind result_bind as_dict forallb negb raise_if].
  destruct (resolve_dimensions_safe m host _ Hh Hs) as (dims & Hd & Hn & Hf). unfold txt in Hd. rewrite Hd.
  cbn [mbind result_bind]. unfold field. unfold vget_none in Hid. destruct (vget p "id") as [v|]; [|done].
  cbn [mbind result_bind]. eexists _, m, ((λ d, (d.1, d.2.2)) <$> dims). split_and!; [done|done| | |].
  - doc_lookup. by rewrite <- list_fmap_compose.
  - rewrite <- list_fmap_compose. done.
  - by apply Forall_fmap.
Qed.
