(* ===== verification/FeatureContract.v ===== *)
(** * Feature reports and ready events

    [Crosed/feature_contract.py]: the contract of the reports a core prints
    about itself and of the event by which it announces its local endpoint.
    The tables are computed from the catalogue of [NativeProfiles], as in the
    source.  [runtime_environment], which reads the process environment and the
    file system, is not modelled. *)
From S2P Require Import Prelude Dict PyStr PyText PyValue Json JsonRound JsonDocs Sha256 NativeProfiles.

Definition TRANSPORTS : pydict := transport_map false.
Definition CORE_PATHS : pydict := artifact_map false.

Definition CAPABILITY_LEVELS : list (pystr * Z) :=
  [(str "observe.version", 1); (str "observe.health", 1); (str "policy.request", 2); (str "policy.config", 2);
   (str "transport.metadata", 3); (str "transport.application", 3); (str "identity.assert", 4);
   (str "identity.resolve", 4); (str "core.lifecycle", 5); (str "core.hook", 5)].

Definition BOOLEAN_FIELDS : list string :=
  ["crosed_compiled"; "app_transport"; "qubes_isolation"; "gate_compiled"; "gate_enabled_by_default"; "utf8"].
Definition COMMON_FIELDS : list string :=
  BOOLEAN_FIELDS ++ ["core"; "version"; "crosed_max_level"; "crosed_capabilities"].

Definition boundary_of (p : pydict) : pydict :=
  match vget_none p "applicationBoundary" with VDict b => b | _ => [] end.
Definition limits_of (p : pydict) : pydict := match vget_none p "limits" with VDict d => d | _ => [] end.
Definition core_name (p : pydict) : pystr := str "shadow6-" ++ as_text (vget_none p "core").

Definition is_seqpacket (p : pydict) : bool := eq_str (vget_none (boundary_of p) "mode") "seqpacket-fd".
Definition is_stream (p : pydict) : bool := eq_str (vget_none (boundary_of p) "kind") "stream".

Definition APP_TRANSPORT_MODES : pydict :=
  dict_of ((λ p, (core_name p, txts ["udp"; "seqpacket-fd"])) <$> filter (λ p, is_seqpacket p) _PROFILES).
Definition SEQPACKET_MAX_RECORD : pydict :=
  dict_of ((λ p, (core_name p, vget_none (limits_of p) "max_record")) <$> filter (λ p, is_seqpacket p) _PROFILES).
Definition STREAM_CONNECTION_LIMIT : pydict :=
  dict_of ((λ p, (core_name p, vget_none (limits_of p) "local_connection_limit")) <$> filter (λ p, is_stream p) _PROFILES).

(** ** The credited boundary *)
Definition credited_boundary : pydict := mkdict
  [("kind", txt "credited"); ("mode", txt "s6na-companion"); ("credit_unit", txt "data-frames");
   ("max_window", VInt 64); ("backpressure", txt "explicit-credit"); ("backpressure_error", txt "S6NA_BACKPRESSURE");
   ("close", txt "invalidate-credit"); ("closed_error", txt "S6NA_CLOSED");
   ("retry_exhaustion", txt "S6NA_RETRY_EXHAUSTED")].

Definition CREDITED_BOUNDARY_FIELDS : list string :=
  ["kind"; "mode"; "credit_unit"; "max_window"; "backpressure"; "backpressure_error"; "close"; "closed_error";
   "retry_exhaustion"].

Definition validate_application_boundary (boundary : pyval) : result pyval :=
  match boundary with
  | VDict b =>
      _ ← raise_if (negb (keys_exact b CREDITED_BOUNDARY_FIELDS) || negb (py_eqb boundary (VDict credited_boundary)))
            ValueError "invalid credited application boundary";
      Ok boundary
  | _ => raise ValueError "invalid credited application boundary"
  end.

(** ** Feature reports *)
Definition EXTRA_FIELDS (core : pystr) : list string :=
  if bool_decide (core = str "shadow6-ada") then ["cell_size"]
  else if bool_decide (core = str "shadow6-d") then ["better_c"]
  else if bool_decide (core = str "shadow6-nim") then ["memory_model"]
  else if bool_decide (core = str "shadow6-cpp") then ["standalone"; "control_protocol"; "data_transport"; "max_sessions"]
  else [].

(** [re.fullmatch(r"[0-9]+\.[0-9]+\.[0-9]+(?:[-+][a-zA-Z0-9.-]{1,32})?", s)]. *)
Definition digits_then (k : pystr → bool) (s : pystr) : bool :=
  let '(d, r) := take_while is_digit s in negb (bool_decide (d = [])) && k r.
Definition dot_then (k : pystr → bool) (s : pystr) : bool :=
  match s with 46 :: r => k r | _ => false end.
Definition version_suffix (s : pystr) : bool :=
  match s with
  | [] => true
  | c :: r => ((c =? 45) || (c =? 43)) && re_class (λ c, is_alnum c || (c =? 46) || (c =? 45)) 1 32 r
  end.
Definition version_re : pystr → bool :=
  digits_then (dot_then (digits_then (dot_then (digits_then version_suffix)))).

Definition envelope_fields : list string :=
  ["available"; "implementation"; "mode"; "native_protocol_unchanged"; "preauth_identity_disclosure";
   "public_core_listener_required"].

Definition check_envelope (envelope : pyval) : result unit :=
  match envelope with
  | VNone => Ok tt
  | VDict e =>
      raise_if (negb (keys_exact e envelope_fields) || negb (is_bool (vget_none e "available"))
                || negb (eq_str (vget_none e "implementation") "ocaml")
                || negb (eq_str (vget_none e "mode") "authenticated-envelope")
                || negb (is_bool (vget_none e "native_protocol_unchanged"))
                || negb (is_bool (vget_none e "preauth_identity_disclosure"))
                || negb (is_bool (vget_none e "public_core_listener_required")))
        ValueError "invalid privacy envelope capability"
  | _ => raise ValueError "invalid privacy envelope capability"
  end.

(** The capability list: at most ten distinct strings, each within the level. *)
Definition capability_list (v : pyval) : result (list pystr) :=
  match v with
  | VList l =>
      _ ← raise_if ((10 <? zlen l) || negb (forallb is_str l) || negb (bool_decide (NoDup (as_text <$> l))))
            ValueError "invalid capability list";
      Ok (as_text <$> l)
  | _ => raise ValueError "invalid capability list"
  end.

Definition capability_exceeds (level : Z) (c : pystr) : bool :=
  match dget CAPABILITY_LEVELS c with Some l => level <? l | None => true end.

(** The level, the capabilities and the flags they must agree with. *)
Definition check_capabilities (report : pydict) : result (Z * list pystr) :=
  match vget_none report "crosed_max_level" with
  | VInt level =>
      _ ← raise_if (negb (between 0 level 5)) ValueError "invalid Crosed level";
      caps ← capability_list (vget_none report "crosed_capabilities");
      _ ← raise_if (existsb (capability_exceeds level) caps) ValueError "capability exceeds reported level";
      _ ← raise_if (negb (py_eqb (vget_none report "crosed_compiled") (VBool (0 <? level)))) ValueError
            "contradictory Crosed build flags";
      _ ← raise_if (bool_decide (str "transport.application" ∈ caps) && negb (truthy (vget_none report "app_transport")))
            ValueError "application capability without application transport";
      Ok (level, caps)
  | _ => raise ValueError "invalid Crosed level"
  end.

Definition sorted_opts : dump_opts := DumpOpts true true (str ", ") (str ": ").

(** The declared transport modes and application boundaries. *)
Definition check_boundaries (core : pystr) (report : pydict) : result unit :=
  let modes := vget_none report "app_transport_modes" in
  let expected := dget APP_TRANSPORT_MODES core in
  _ ← match expected with
      | None => raise_if (negb (is_none modes)) ValueError
                  "application transport modes are not declared for this Core"
      | Some e => raise_if (negb (py_eqb modes e)) ValueError "invalid application transport modes"
      end;
  match vget_none report "application_boundaries" with
  | VNone => raise_if (match expected with Some _ => true | None => truthy (vget_none report "app_transport") end)
               ValueError "application boundary contracts required for declared application transport"
  | boundaries =>
      declared ← application_boundaries (VStr (remove_prefix (str "shadow6-") core));
      raise_if (negb (bool_decide (dumps sorted_opts boundaries = dumps sorted_opts (VList declared))))
        ValueError "invalid application boundary contracts"
  end.

(** An optional field with its only admissible value. *)
Definition check_field (report : pydict) (name : string) (good : pyval → bool) (message : string) : result unit :=
  match vget report name with
  | Some v => raise_if (negb (good v)) ValueError message
  | None => Ok tt
  end.

Definition check_extras (core : pystr) (report : pydict) : result unit :=
  _ ← check_field report "transport" (λ v, py_eqb v (default VNone (dget TRANSPORTS core))) "incorrect Core transport";
  _ ← check_field report "cell_size" (λ v, int_between 512 v 512) "invalid cell size";
  _ ← check_field report "better_c" is_true "Core-D must use betterC";
  _ ← check_field report "memory_model" (λ v, in_strs v ["arc"; "orc"]) "Nim requires ARC/ORC";
  _ ← check_field report "standalone" is_true "invalid C++ feature field: standalone";
  _ ← check_field report "control_protocol" (λ v, eq_str v "shadow6-cpp-wss-v1") "invalid C++ feature field: control_protocol";
  _ ← check_field report "data_transport" (λ v, eq_str v "sctp-tls13") "invalid C++ feature field: data_transport";
  check_field report "max_sessions" (λ v, int_between 16 v 16) "invalid C++ feature field: max_sessions".

Definition validate_feature_report (report : pyval) (expected_core : option pystr) : result pydict :=
  match report with
  | VDict r =>
      match vget_none r "core" with
      | VStr core =>
          _ ← raise_if (negb (dmem TRANSPORTS core)
                        || match expected_core with Some e => negb (bool_decide (core = e)) | None => false end)
                ValueError "unknown or mismatched Core identity";
          _ ← raise_if (negb (keys_cover r COMMON_FIELDS)
                        || negb (keys_within r (COMMON_FIELDS ++ ["transport"; "app_transport_modes";
                                   "application_boundaries"; "privacy_envelope"] ++ EXTRA_FIELDS core)))
                ValueError "unknown or missing feature-report fields";
          _ ← raise_if (existsb (λ f, negb (is_bool (vget_none r f))) BOOLEAN_FIELDS) ValueError
                "feature flags must be booleans";
          _ ← check_envelope (vget_none r "privacy_envelope");
          _ ← raise_if (match vget_none r "version" with VStr v => negb (version_re v) | _ => true end) ValueError
                "invalid Core version";
          _ ← check_capabilities r;
          _ ← raise_if (truthy (vget_none r "gate_enabled_by_default") && negb (truthy (vget_none r "gate_compiled")))
                ValueError "Gate enabled but not compiled";
          _ ← check_boundaries core r;
          _ ← check_extras core r;
          Ok r
      | _ => raise ValueError "feature report must identify its Core"
      end
  | _ => raise ValueError "feature report must identify its Core"
  end.

(** ** Ready events *)
Definition endpoint_ok (mode endpoint : pyval) : result unit :=
  if eq_str mode "seqpacket-fd" then
    match endpoint with
    | VDict e => raise_if (negb (keys_exact e ["fd"]) || negb (int_between 0 (vget_none e "fd") 1048576)) ValueError
                   "invalid ready application descriptor"
    | _ => raise ValueError "invalid ready application descriptor"
    end
  else
    match endpoint with
    | VDict e => raise_if (negb (keys_exact e ["host"; "port"]) || negb (eq_str (vget_none e "host") "127.0.0.1")
                           || negb (int_between 1 (vget_none e "port") 65535)) ValueError
                   "ready endpoint must be a valid loopback endpoint"
    | _ => raise ValueError "ready endpoint must be a valid loopback endpoint"
    end.

Definition declares (kind mode : pyval) (boundary : pyval) : bool :=
  match boundary with
  | VDict b => py_eqb (vget_none b "kind") kind && py_eqb (vget_none b "mode") mode
  | _ => false
  end.

Definition validate_ready_event (event expected_core expected_role : pyval) : result pydict :=
  match event with
  | VDict e =>
      _ ← raise_if (negb (keys_exact e ["event"; "schema"; "core"; "role"; "application_boundary"])) ValueError
            "unknown or missing ready-event fields";
      let core := vget_none e "core" in
      _ ← raise_if (negb (hashable core)) TypeError "unhashable type";
      _ ← raise_if (negb (is_str core && dmem TRANSPORTS (as_text core))
                    || (negb (is_none expected_core) && negb (py_eqb core expected_core))) ValueError
            "unknown or mismatched ready-event Core";
      _ ← raise_if (negb (eq_str (vget_none e "event") "shadow6.ready") || negb (int_between 1 (vget_none e "schema") 1))
            ValueError "invalid ready-event type or schema";
      _ ← raise_if (negb (py_eqb (vget_none e "role") expected_role) || negb (eq_str expected_role "client")) ValueError
            "ready event is outside the declared application role";
      match vget_none e "application_boundary" with
      | VDict b =>
          _ ← raise_if (negb (keys_exact b ["kind"; "mode"; "endpoint"])) ValueError
                "invalid ready-event application boundary";
          declared ← application_boundaries (VStr (remove_prefix (str "shadow6-") (as_text core)));
          _ ← raise_if (negb (existsb (declares (vget_none b "kind") (vget_none b "mode")) declared)) ValueError
                "ready event does not identify a declared application boundary";
          _ ← endpoint_ok (vget_none b "mode") (vget_none b "endpoint");
          Ok e
      | _ => raise ValueError "invalid ready-event application boundary"
      end
  | _ => raise ValueError "unknown or missing ready-event fields"
  end.

(** * Feature reports and ready events: what acceptance means *)

Lemma sorted_opts_ok : opts_ok sorted_opts.
Proof. exists [32], [32]. done. Qed.

Lemma sorted_dumps_inj v w :
  json_ok v → json_ok w → dumps sorted_opts v = dumps sorted_opts w → norm v = norm w.
Proof.
  intros Hv Hw E. pose proof (json_loads_dumps sorted_opts v sorted_opts_ok Hv) as H1.
  rewrite E, (json_loads_dumps sorted_opts w sorted_opts_ok Hw) in H1. by injection H1.
Qed.

Lemma check_capabilities_Ok r level caps :
  check_capabilities r = Ok (level, caps) →
  vget_none r "crosed_max_level" = VInt level ∧ 0 ≤ level ≤ 5 ∧
  vget_none r "crosed_capabilities" = VList (VStr <$> caps) ∧ NoDup caps ∧
  (∀ c, c ∈ caps → ∃ l, dget CAPABILITY_LEVELS c = Some l ∧ l ≤ level) ∧
  py_eqb (vget_none r "crosed_compiled") (VBool (0 <? level)) = true ∧
  (str "transport.application" ∈ caps → truthy (vget_none r "app_transport") = true).
Proof.
  unfold check_capabilities. destruct (vget_none r "crosed_max_level") as [| |lv| | | |]; try done. intros H.
  inv_ok. bool_simpl. subst. rewrite between_spec in *.
  unfold capability_list in *. destruct (vget_none r "crosed_capabilities") as [| | | | |l|]; try done. inv_ok. bool_simpl. subst.
  split_and!; try done; try lia.
  - f_equal. rewrite <- list_fmap_compose.
    match goal with H : forallb is_str l = true |- _ => revert H end. clear. induction l as [|v l IH]; [done|].
    cbn [forallb]. intros [(s & ->)%is_str_spec Hl]%andb_true_iff. rewrite fmap_cons. cbn. f_equal. by apply IH.
  - intros c Hc. match goal with H : existsb _ _ = false |- _ => rename H into He end.
    destruct (dget CAPABILITY_LEVELS c) as [lc|] eqn:El.
    + exists lc. split; [done|]. destruct (Z.leb_spec lc level); [done|]. exfalso.
      assert (existsb (capability_exceeds level) (as_text <$> l) = true) as Ht; [|congruence].
      apply existsb_exists. exists c. split; [by apply list_elem_of_In|]. unfold capability_exceeds. rewrite El. lia.
    + exfalso. assert (existsb (capability_exceeds level) (as_text <$> l) = true) as Ht; [|congruence].
      apply existsb_exists. exists c. split; [by apply list_elem_of_In|]. unfold capability_exceeds. by rewrite El.
  - intros Hin. match goal with H : (_ && _) = false |- _ => rewrite bool_decide_true, andb_true_l in H by done; by bool_simpl end.
Qed.

Lemma capability_level_pos c l : dget CAPABILITY_LEVELS c = Some l → 1 ≤ l.
Proof.
  intros H%dget_elem_of. unfold CAPABILITY_LEVELS in H.
  repeat (apply elem_of_cons in H as [[= -> ->]|H]; [lia|]). by apply not_elem_of_nil in H.
Qed.

(** What an accepted report guarantees. *)
Lemma feature_report_sound report expected r :
  json_ok report → validate_feature_report report expected = Ok r →
  report = VDict r ∧
  ∃ core level caps,
    vget_none r "core" = VStr core ∧ is_Some (dget TRANSPORTS core) ∧
    (∀ e, expected = Some e → core = e) ∧
    check_capabilities r = Ok (level, caps) ∧ (level = 0 → caps = []) ∧
    (∀ v, vget r "transport" = Some v → py_eqb v (default VNone (dget TRANSPORTS core)) = true) ∧
    ∀ v, vget_none r "application_boundaries" = v → v ≠ VNone →
      ∃ declared, application_boundaries (VStr (remove_prefix (str "shadow6-") core)) = Ok declared ∧
        dumps sorted_opts v = dumps sorted_opts (VList declared).
Proof.
  unfold validate_feature_report. intros Hj H. destruct report as [| | | | | |d]; try done.
  destruct (vget_none d "core") as [| | | |core| |] eqn:Ec; try done.
  repeat (apply bind_Ok_inv in H as (? & ? & H)). assert (d = r) as -> by (by injection H). clear H.
  repeat match goal with H : raise_if _ _ _ = Ok _ |- _ => apply raise_if_Ok in H end.
  split; [done|]. match goal with H : check_capabilities r = Ok ?x |- _ => destruct x as [level caps]; rename H into Hcap end.
  exists core, level, caps. split_and!; try done.
  - match goal with H : (negb (dmem TRANSPORTS core) || _) = false |- _ => apply orb_false_iff in H as [Hm _] end.
    apply negb_false_iff in Hm. unfold dmem in Hm. destruct (dget TRANSPORTS core); [by eexists|done].
  - intros e ->. match goal with H : (negb (dmem TRANSPORTS core) || _) = false |- _ => apply orb_false_iff in H as [_ Hm] end.
    by bool_simpl.
  - intros ->. destruct caps as [|c caps]; [done|]. exfalso.
    apply check_capabilities_Ok in Hcap as (_ & _ & _ & _ & Hc & _).
    destruct (Hc c ltac:(left)) as (l & Hl%capability_level_pos & ?). lia.
  - match goal with H : check_extras _ _ = Ok _ |- _ => unfold check_extras in H; apply bind_Ok_inv in H as ([] & Ht & _) end.
    intros v Hv. unfold check_field in Ht. rewrite Hv in Ht. apply raise_if_Ok in Ht. by bool_simpl.
  - intros v Hv Hn. match goal with H : check_boundaries _ _ = Ok _ |- _ => unfold check_boundaries in H; apply bind_Ok_inv in H as ([] & _ & Hb) end.
    rewrite Hv in Hb. destruct v; try done; apply bind_Ok_inv in Hb as (declared & Hd & Hb); exists declared;
      (split; [done|]); apply raise_if_Ok in Hb; by bool_simpl.
Qed.

(** What an accepted ready event announces. *)
Lemma ready_event_sound event expected_core expected_role e :
  validate_ready_event event expected_core expected_role = Ok e →
  event = VDict e ∧
  ∃ core b endpoint declared,
    vget_none e "core" = VStr core ∧ is_Some (dget TRANSPORTS core) ∧
    vget_none e "application_boundary" = VDict b ∧ vget_none b "endpoint" = VDict endpoint ∧
    application_boundaries (VStr (remove_prefix (str "shadow6-") core)) = Ok declared ∧
    existsb (declares (vget_none b "kind") (vget_none b "mode")) declared = true ∧
    if eq_str (vget_none b "mode") "seqpacket-fd"
    then ∃ fd, vget_none endpoint "fd" = VInt fd ∧ 0 ≤ fd ≤ 1048576
    else vget_none endpoint "host" = txt "127.0.0.1" ∧ ∃ port, vget_none endpoint "port" = VInt port ∧ 1 ≤ port ≤ 65535.
Proof.
  unfold validate_ready_event. intros H. destruct event as [| | | | | |d]; try done.
  repeat (apply bind_Ok_inv in H as (? & ? & H)).
  destruct (vget_none d "application_boundary") as [| | | | | |b] eqn:Eb; try done.
  apply bind_Ok_inv in H as (? & ? & H). apply bind_Ok_inv in H as (declared & Hd & H).
  apply bind_Ok_inv in H as (? & Hdecl & H). apply bind_Ok_inv in H as (? & Hend & H).
  assert (d = e) as -> by (by injection H). clear H.
  repeat match goal with H : raise_if _ _ _ = Ok _ |- _ => apply raise_if_Ok in H end.
  match goal with H : (negb (is_str _ && _) || _) = false |- _ => apply orb_false_iff in H as [Hc _] end.
  apply negb_false_iff in Hc. apply andb_true_iff in Hc as [(core & Hc)%is_str_spec Hm]. rewrite Hc in *.
  cbn [as_text] in *. apply negb_false_iff in Hdecl.
  split; [done|]. exists core, b. unfold dmem in Hm. destruct (dget TRANSPORTS core) eqn:Et; [|done].
  assert (∃ endpoint, vget_none b "endpoint" = VDict endpoint) as [endpoint Ee].
  { clear - Hend. unfold endpoint_ok in Hend. destruct (vget_none b "endpoint"); try (by destruct (eq_str _ _)); by eexists. }
  exists endpoint, declared. split_and!; try done. rewrite Ee in Hend. unfold endpoint_ok in Hend.
  destruct (eq_str (vget_none b "mode") "seqpacket-fd"); apply raise_if_Ok in Hend; bool_simpl.
  - match goal with H : int_between _ _ _ = true |- _ => apply int_between_spec in H as (fd & ? & ?) end. by exists fd.
  - match goal with H : int_between _ _ _ = true |- _ => apply int_between_spec in H as (port & ? & ?) end.
    match goal with H : eq_str _ _ = true |- _ => apply eq_str_spec in H end. split; [done|]. by exists port.
Qed.

(** ** Every primary core has an acceptable report *)
Definition plain_report (p : pydict) : pydict :=
  mkdict [("crosed_compiled", VBool false); ("app_transport", VBool true); ("qubes_isolation", VBool false);
          ("gate_compiled", VBool false); ("gate_enabled_by_default", VBool false); ("utf8", VBool true);
          ("core", VStr (core_name p)); ("version", txt "1.0.0"); ("crosed_max_level", VInt 0);
          ("crosed_capabilities", VList []); ("transport", vget_none p "nativeTransport");
          ("application_boundaries", match application_boundaries (vget_none p "core") with
                                     | Ok l => VList l | Raise _ => VNone end)]
  ++ match dget APP_TRANSPORT_MODES (core_name p) with
     | Some m => mkdict [("app_transport_modes", m)] | None => [] end.

Definition report_accepted (p : pydict) : bool :=
  negb (is_primary p) || bool_decide (validate_feature_report (VDict (plain_report p)) (Some (core_name p))
                                      = Ok (plain_report p)).

Lemma catalogue_reports : forallb report_accepted _PROFILES = true.
Proof. vm_compute. reflexivity. Qed.
