(* ===== verification/LimitsClaims.v ===== *)
(** * Resource limits and native profiles: what they promise *)
From S2P Require Import Prelude Dict PyStr PyText PyValue Json JsonRound JsonDocs Sha256 Limits.
From S2P Require Import LimitsFacts NativeProfiles FeatureContract.

(** ** A concrete host and profile *)
Definition demo_host : host_budget :=
  HostBudget 1073741824 4096 4 (str "linux") [str "sysconf"] [str "rlimit"] [str "affinity"].
Definition demo_profile : pydict := _record (Row "go" "Go" "kcp" "kcp" "go" 64 "go").

Lemma demo_host_wf : host_wf demo_host.
Proof.
  assert (∃ h, h = demo_host ∧ make_host (VInt 1073741824) (VInt 4096) (VInt 4) (txt "linux") [txt "sysconf"] [txt "rlimit"]
    [txt "affinity"] = Ok h) as (h & -> & Hh) by (eexists; split; reflexivity).
  by eapply make_host_wf.
Qed.
Lemma demo_host_scalar : host_scalar demo_host.
Proof. unfold host_scalar. repeat (apply Forall_cons; split; [reflexivity|]). by apply Forall_nil. Qed.
Lemma demo_profile_in : demo_profile ∈ _PROFILES.
Proof. apply list_elem_of_here. Qed.
Lemma demo_profile_json : json_ok (VDict demo_profile).
Proof. apply json_okb_ok. vm_compute. reflexivity. Qed.

Definition demo_resolution : pyval := Eval vm_compute in
  match resolve demo_profile VNone demo_host with Ok d => d | Raise _ => VNone end.
Definition demo_stored : pyval := Eval vm_compute in
  match resolution_to_dict demo_resolution with Ok d => d | Raise _ => VNone end.
Lemma demo_resolves : resolve demo_profile VNone demo_host = Ok demo_resolution.
Proof. vm_compute. reflexivity. Qed.
Lemma demo_stores : resolution_to_dict demo_resolution = Ok demo_stored.
Proof. vm_compute. reflexivity. Qed.

(** ** Limits *)

(** C33: Every effective limit that a resolution reports is at least one, fits
    half of the host's memory and its descriptors less the reserve of 64 at the
    declared cost per unit, and respects the implementation's ceiling and the
    protocol's hard limit; a dimension that cannot be changed at run time has
    its safe default. *)
Theorem resolved_within_budget profile policy host doc name value :
  host_wf host → resolve profile policy host = Ok (VDict doc) →
  vget_none doc "effective_limits" = VDict value →
  ∀ v, (name, v) ∈ value → ∃ z m, v = VInt z ∧ read_model (vget_none profile "limit_model") = Ok m ∧ dimension_ok m host name z.
Proof.
  intros Hh Hr He v Hv. apply resolve_inv in Hr as (pol & p & m & ov & dims & id & _ & _ & Hm & _ & _ & Hd & E).
  unfold resolution_doc in E. injection E as ->. doc_lookup. injection He as <-.
  apply list_elem_of_fmap in Hv as ([n [row z]] & [= -> ->] & Hin). exists z, m. split_and!; try done.
  by eapply resolve_dims.
Qed.

Definition demo_effective : pydict := Eval vm_compute in
  match demo_resolution with VDict d => match vget_none d "effective_limits" with VDict e => e | _ => [] end | _ => [] end.
Definition demo_fields : pydict := Eval vm_compute in match demo_resolution with VDict d => d | _ => [] end.

Lemma resolved_within_budget_witness :
  ∃ z m, VInt 512 = VInt z ∧ read_model (vget_none demo_profile "limit_model") = Ok m ∧
    dimension_ok m demo_host (str "process_fds") z.
Proof.
  apply (resolved_within_budget demo_profile VNone demo_host demo_fields (str "process_fds") demo_effective).
  - apply demo_host_wf.
  - apply demo_resolves.
  - vm_compute. reflexivity.
  - apply list_elem_of_In. vm_compute. tauto.
Defined.

(** A resolution that was written to the lock and read back validates
    against the same profile and host, with the policy given again or taken
    from the lock: relocking is needed only after a change. *)
Theorem lock_validates profile policy host doc stored :
  json_ok (VDict profile) → json_ok policy → host_wf host → host_scalar host →
  resolve profile policy host = Ok doc → resolution_to_dict doc = Ok stored →
  validate stored profile policy (Some host) = Ok stored ∧ validate stored profile VNone (Some host) = Ok stored.
Proof. apply validate_resolve. Qed.

Lemma lock_validates_witness : validate demo_stored demo_profile VNone (Some demo_host) = Ok demo_stored.
Proof.
  refine (proj1 (lock_validates demo_profile VNone demo_host demo_resolution demo_stored _ _ _ _ _ _)).
  - apply demo_profile_json.
  - apply ok_none.
  - apply demo_host_wf.
  - apply demo_host_scalar.
  - apply demo_resolves.
  - apply demo_stores.
Defined.

(** A host budget survives the lock: its document, with sorted keys as
    [json] reads it back, gives the same budget. *)
Theorem host_budget_roundtrip m f c p ms fs cs h d :
  make_host m f c p ms fs cs = Ok h → norm (host_to_dict h) = VDict d → host_from_dict (VDict d) = Ok h.
Proof. intros Hm. apply host_round. by eapply make_host_wf. Qed.

Lemma host_budget_roundtrip_witness :
  ∃ d, norm (host_to_dict demo_host) = VDict d ∧ host_from_dict (VDict d) = Ok demo_host.
Proof.
  eexists. split; [reflexivity|].
  apply (host_budget_roundtrip (VInt 1073741824) (VInt 4096) (VInt 4) (txt "linux") [txt "sysconf"] [txt "rlimit"]
           [txt "affinity"]); reflexivity.
Defined.

(** Every profile of the catalogue resolves under the default policy on a
    host with 64 MiB and 576 descriptors, and its effective limits are exactly
    its safe defaults. *)
Theorem catalogue_always_resolves p host :
  p ∈ _PROFILES → 67108864 ≤ memory_bytes host → 576 ≤ fd_ceiling host →
  ∃ doc m dims,
    resolve p VNone host = Ok (VDict doc) ∧ read_model (vget_none p "limit_model") = Ok m ∧
    vget_none doc "effective_limits" = VDict ((λ d : pystr * Z, (d.1, VInt d.2)) <$> dims) ∧
    dims.*1 = (sort_keys (m_safe m)).*1 ∧
    Forall (λ d : pystr * Z, dget (m_safe m) d.1 = Some (VInt d.2)) dims.
Proof. intros Hp H1 H2. by apply catalogue_resolves. Qed.

Lemma catalogue_always_resolves_witness :
  ∃ doc, resolve demo_profile VNone (HostBudget 67108864 576 1 (str "linux") [] [] []) = Ok (VDict doc).
Proof.
  destruct (catalogue_always_resolves demo_profile (HostBudget 67108864 576 1 (str "linux") [] [] []) demo_profile_in
              ltac:(simpl; lia) ltac:(simpl; lia)) as (doc & _ & _ & E & _). by exists doc.
Defined.

(** A component plan that is accepted fits the host: its busiest process
    fits the process descriptor limit, its components together fit the host's
    descriptors and half of its memory, and every row carries the estimates that
    were added up. *)
Theorem component_plan_fits inputs host process_fds doc :
  resolve_components inputs host process_fds = Ok doc →
  ∃ d fds (output : list (string * planned)),
    doc = VDict d ∧ process_fds = VInt fds ∧
    vget_none d "components" = VDict ((λ kv, (str kv.1, pl_row kv.2)) <$> output) ∧
    Forall (λ kv : string * planned, plan_row_ok kv.2 ∧ pl_fds kv.2 ≤ fds) output ∧
    sum_by pl_fds output ≤ fd_ceiling host ∧ sum_by pl_memory output ≤ memory_bytes host / 2.
Proof. apply resolve_components_ok. Qed.

Definition demo_inputs : pyval := VDict (mkdict
  [("gate", VDict []); ("credited", VDict (mkdict [("schema", txt "shadow6.s6na-attachment.v1"); ("core", txt "go");
     ("key_file", txt "k"); ("bind", txt "b"); ("peer", txt "p")]))])%string.
Definition demo_plan : pyval := Eval vm_compute in
  match resolve_components demo_inputs demo_host (VInt 512) with Ok d => d | Raise _ => VNone end.
Lemma component_plan_fits_witness : ∃ d, demo_plan = VDict d.
Proof.
  destruct (component_plan_fits demo_inputs demo_host (VInt 512) demo_plan) as (d & _ & _ & E & _);
    [vm_compute; reflexivity|by exists d].
Defined.

(** ** Profiles *)

(** A profile binding validates against the catalogue it was made from, and
    selects the profile it names. *)
Theorem binding_accepted core profile b :
  bind_profile core profile = Ok b →
  ∃ selected, validate_profile_binding (VDict b) core true = Ok selected ∧
    select_profile core profile = Ok selected ∧ vget_none b "profile" = vget_none selected "id".
Proof. intros Hb. destruct (binding_validates core profile b Hb) as (s & ? & ? & ? & _). by exists s. Qed.

(** An accepted feature report names a known core and the expected one,
    claims only capabilities within its level - none at level zero - agrees
    with its build flag, and declares the core's transport and exactly the
    application boundaries of the catalogue. *)
Theorem feature_report_accepted report expected r :
  json_ok report → validate_feature_report report expected = Ok r →
  ∃ core level caps,
    vget_none r "core" = VStr core ∧ is_Some (dget TRANSPORTS core) ∧ (∀ e, expected = Some e → core = e) ∧
    vget_none r "crosed_max_level" = VInt level ∧ 0 ≤ level ≤ 5 ∧
    vget_none r "crosed_capabilities" = VList (VStr <$> caps) ∧ NoDup caps ∧
    (∀ c, c ∈ caps → ∃ l, dget CAPABILITY_LEVELS c = Some l ∧ l ≤ level) ∧ (level = 0 → caps = []) ∧
    py_eqb (vget_none r "crosed_compiled") (VBool (0 <? level)) = true ∧
    ∀ v, vget_none r "application_boundaries" = v → v ≠ VNone →
      ∃ declared, application_boundaries (VStr (remove_prefix (str "shadow6-") core)) = Ok declared ∧
        dumps sorted_opts v = dumps sorted_opts (VList declared).
Proof.
  intros Hj Hv. destruct (feature_report_sound report expected r Hj Hv)
    as (_ & core & level & caps & Hc & Ht & He & Hcap & H0 & _ & Hb).
  apply check_capabilities_Ok in Hcap as (H1 & H2 & H3 & H4 & H5 & H6 & _).
  exists core, level, caps. split_and!; try done; lia.
Qed.

Definition demo_report : pydict := Eval vm_compute in plain_report demo_profile.
Lemma feature_report_accepted_witness :
  ∃ core level (caps : list pystr), vget_none demo_report "core" = VStr core ∧ vget_none demo_report "crosed_max_level" = VInt level ∧
    (level = 0 → caps = []).
Proof.
  destruct (feature_report_accepted (VDict demo_report) (Some (str "shadow6-go")) demo_report)
    as (core & level & caps & H1 & _ & _ & H2 & _ & _ & _ & _ & H3 & _).
  - apply json_okb_ok. vm_compute. reflexivity.
  - vm_compute. reflexivity.
  - by exists core, level, caps.
Defined.

(** An accepted ready event names a declared application boundary of its
    core and an endpoint that is a bounded descriptor or a loopback port. *)
Theorem ready_event_accepted event expected_core expected_role e :
  validate_ready_event event expected_core expected_role = Ok e →
  ∃ core b endpoint declared,
    vget_none e "core" = VStr core ∧ vget_none e "application_boundary" = VDict b ∧
    vget_none b "endpoint" = VDict endpoint ∧
    application_boundaries (VStr (remove_prefix (str "shadow6-") core)) = Ok declared ∧
    existsb (declares (vget_none b "kind") (vget_none b "mode")) declared = true ∧
    if eq_str (vget_none b "mode") "seqpacket-fd"
    then ∃ fd, vget_none endpoint "fd" = VInt fd ∧ 0 ≤ fd ≤ 1048576
    else vget_none endpoint "host" = txt "127.0.0.1" ∧ ∃ port, vget_none endpoint "port" = VInt port ∧ 1 ≤ port ≤ 65535.
Proof.
  intros Hv. apply ready_event_sound in Hv as (_ & core & b & ep & dl & H1 & _ & H2 & H3 & H4 & H5 & H6).
  by exists core, b, ep, dl.
Qed.

Definition demo_ready : pydict := mkdict
  [("event", txt "shadow6.ready"); ("schema", VInt 1); ("core", txt "shadow6-go"); ("role", txt "client");
   ("application_boundary", VDict (mkdict [("kind", txt "stream"); ("mode", txt "localhost-tcp-proxy");
      ("endpoint", VDict (mkdict [("host", txt "127.0.0.1"); ("port", VInt 1086)]))]))]%string.
Lemma ready_event_accepted_witness : ∃ core, vget_none demo_ready "core" = VStr core.
Proof.
  destruct (ready_event_accepted (VDict demo_ready) VNone (txt "client") demo_ready) as (core & b & ep & dl & H1 & _);
    [vm_compute; reflexivity|by exists core].
Defined.

(** Every primary profile of the catalogue has an acceptable report. *)
Theorem catalogue_reports_accepted p :
  p ∈ _PROFILES → is_primary p = true →
  validate_feature_report (VDict (plain_report p)) (Some (core_name p)) = Ok (plain_report p).
Proof.
  intros Hp%list_elem_of_In Hpr. pose proof (proj1 (forallb_forall _ _) catalogue_reports p Hp) as Hr.
  unfold report_accepted in Hr. rewrite Hpr in Hr. by apply bool_decide_eq_true in Hr.
Qed.

Lemma catalogue_reports_accepted_witness :
  validate_feature_report (VDict (plain_report demo_profile)) (Some (core_name demo_profile)) = Ok (plain_report demo_profile).
Proof. exact (catalogue_reports_accepted demo_profile demo_profile_in eq_refl). Defined.
