(* ===== verification/ShadowProtocols.v ===== *)
(** * Application protocols

    [Application-Layer/shadow_protocols.py]: the canonical form, length-prefixed
    frames, the decoder factory, signed identity assertions, the replay window
    and encrypted chat.  [nfc] is Unicode normalisation; clock readings and the
    bytes of [os.urandom] are arguments. *)
From S2P Require Import Prelude Dict PyStr PyText PyValue Json JsonFacts JsonRound StrictJson Sha256 Base64 Signing S6naCodec.

Definition MAX_FRAME : Z := 1048576.
Definition MAX_TEXT : Z := 65536.

Definition is_name_char (c : Z) : bool := is_alnum c || (c =? 46) || (c =? 95) || (c =? 45).

(** [IDENTITY_RE] and [DOMAIN_RE] under [fullmatch]. *)
Definition identity_re (s : pystr) : bool := re_head is_alnum is_name_char 0 63 s.
Definition domain_re (s : pystr) : bool :=
  re_head is_lower (λ c, is_lower c || is_digit c || (c =? 45)) 0 31 s.

Section Protocols.
Context (nfc : pystr → pystr).

(** ** [canonical] *)
Definition check_str (budget : Z) (item : pystr) : result Z :=
  match utf8 item with
  | None => raise ProtocolError "invalid Unicode scalar"
  | Some b =>
      _ ← raise_if ((MAX_FRAME <? zlen b) || bool_decide (0 ∈ item)) ProtocolError
            "unsafe or oversized JSON string";
      Ok (budget + zlen b)
  end.

(** The count every visited item adds, and the tests before its type. *)
Definition check_enter (budget depth : Z) (is_float : bool) : result Z :=
  let budget := budget + 1 in
  _ ← raise_if (1048576 <? budget) ProtocolError "JSON document exceeds size limit";
  _ ← raise_if ((32 <? depth) || is_float) ProtocolError
        "manifest nesting is excessive or contains a float";
  Ok budget.

(** [check]: the budget is threaded through as the [nonlocal] variable. *)
Fixpoint check (depth : Z) (item : pyval) (budget : Z) {struct item} : result Z :=
  budget ← check_enter budget depth (match item with VFloat _ => true | _ => false end);
  match item with
  | VDict d =>
      (fix go (d : pydict) (budget : Z) : result Z :=
         match d with
         | [] => Ok budget
         | kv :: d =>
             _ ← raise_if (256 <? zlen kv.1) ProtocolError "invalid manifest key";
             budget ← check_enter budget (depth + 1) false;
             budget ← check_str budget kv.1;
             budget ← check (depth + 1) kv.2 budget;
             go d budget
         end) d budget
  | VList l =>
      (fix go (l : list pyval) (budget : Z) : result Z :=
         match l with
         | [] => Ok budget
         | x :: l => budget ← check (depth + 1) x budget; go l budget
         end) l budget
  | VStr s => check_str budget s
  | VInt z => _ ← raise_if (9007199254740991 <? Z.abs z) ProtocolError "integer is not exactly portable";
              Ok budget
  | _ => Ok budget
  end.

Definition canonical (value : pyval) : result bytes :=
  _ ← check 0 value 0;
  let encoded := dumps_canonical value in
  _ ← raise_if (1048576 <? zlen encoded) ProtocolError "JSON document exceeds size limit";
  _ ← reraise [ValueError] ProtocolError "invalid portable JSON"
        (strict_json nfc 1048576 MAX_FRAME (JBytes encoded));
  Ok encoded.

(** [strict_json] of this module: an object in canonical reach. *)
Definition proto_json (data : bytes) (limit : Z) : result pydict :=
  _ ← raise_if (limit <? zlen data) ProtocolError "JSON document exceeds size limit";
  value ← reraise [UnicodeError; ValueError; RecursionError] ProtocolError "invalid UTF-8 JSON"
            (match utf8_decode data with
             | None => raise UnicodeError "invalid utf-8"
             | Some text => strict_json nfc limit MAX_FRAME (JText text)
             end);
  match value with
  | VDict d => _ ← canonical value; Ok d
  | _ => raise ProtocolError "JSON document must be an object"
  end.

Definition normalized_text (value : pyval) : result pystr :=
  match value with
  | VStr s =>
      let normalized := nfc s in
      match utf8 normalized with
      | None => raise ProtocolError "text contains an invalid Unicode scalar"
      | Some encoded =>
          _ ← raise_if (bool_decide (encoded = []) || (MAX_TEXT <? zlen encoded)
                        || bool_decide (0 ∈ normalized)) ProtocolError
                "UTF-8 text is empty, oversized, or contains NUL";
          Ok normalized
      end
  | _ => raise ProtocolError "text must be a string"
  end.

(** ** Frames *)
Definition encode_frame (document : pyval) : result bytes :=
  match document with
  | VDict _ =>
      payload ← canonical document;
      _ ← raise_if (MAX_FRAME <? zlen payload) ProtocolError "application frame exceeds 1 MiB";
      Ok (be_encode 4 (zlen payload) ++ payload)
  | _ => raise ProtocolError "application frame must be an object"
  end.

Definition decode_frame (frame : bytes) : result pydict :=
  _ ← raise_if (zlen frame <? 4) ProtocolError "truncated application frame";
  let length := be_decode (take 4 frame) in
  _ ← raise_if ((MAX_FRAME <? length) || negb (zlen frame =? length + 4)) ProtocolError
        "invalid application frame length";
  reraise [UnicodeError; JSONDecodeError] ProtocolError "invalid UTF-8 JSON application frame"
    (proto_json (drop 4 frame) MAX_FRAME).

(** ** The replay window *)
Record replay := Replay { rw_limit : Z; rw_seen : list (pystr * Z) }.

Definition make_replay (limit : pyval) : result replay :=
  if int_between 1 limit 65536
  then match limit with VInt z => Ok (Replay z []) | _ => raise TypeError "limit" end
  else raise ProtocolError "invalid replay window capacity".

Definition purge (now : Z) (seen : list (pystr * Z)) : list (pystr * Z) :=
  filter (λ kv, now ≤ kv.2) seen.

Definition accept_until (message_id : pystr) (expires_at now : Z) : M replay unit :=
  _ ← mraise_if ((256 <? zlen message_id) || negb (between now expires_at (now + 3600))) ProtocolError
        "invalid replay key or expiration";
  _ ← mmod (λ w, Replay (rw_limit w) (purge now (rw_seen w)));
  refused ← mget (λ w, dmem (rw_seen w) message_id || (rw_limit w <=? zlen (rw_seen w)));
  _ ← mraise_if refused ProtocolError "replayed or saturated message";
  mmod (λ w, Replay (rw_limit w) (dset (rw_seen w) message_id expires_at)).

Definition accept (message_id : pystr) (timestamp now : Z) : M replay unit :=
  _ ← mraise_if (300 <? Z.abs (now - timestamp)) ProtocolError
        "replayed, stale, or saturated ShadowChat message";
  accept_until message_id (timestamp + 300) now.

(** ** Signed identity assertions *)
Context `{Signing} `{AEAD}.

Record identity := Identity { id_name : pystr; id_key : bytes }.

Definition public_hex (i : identity) : pystr := bytes_hex (public_key (id_key i)).

Definition assertion_body (issuer subject domain : pystr) (issued_at expires_at : Z) (nonce : bytes)
    (claims : pydict) : list (string * pyval) :=
  [("protocol", VStr (str "shadow.identity")); ("version", VInt 1); ("issuer", VStr issuer);
   ("subject", VStr subject); ("domain", VStr domain); ("issued_at", VInt issued_at);
   ("expires_at", VInt expires_at); ("nonce", VStr (bytes_hex nonce)); ("claims", VDict claims)].

Definition assertion (i : identity) (subject domain : pystr) (claims : pydict) (ttl : Z)
    (now : Z) (nonce : bytes) : result pydict :=
  _ ← raise_if (negb (identity_re subject) || negb (domain_re domain)) ProtocolError
        "invalid assertion subject or compartment domain";
  encoded ← canonical (VDict claims);
  _ ← raise_if ((16384 <? zlen encoded) || negb (between 1 ttl 3600)) ProtocolError
        "invalid assertion claims or TTL";
  let body := assertion_body (id_name i) subject domain now (now + ttl) nonce claims in
  message ← canonical (VDict (mkdict body));
  Ok (mkdict (body ++ [("signature", VStr (bytes_hex (sign (id_key i) message)))])).

Definition str_field (d : pydict) (k : string) : option pystr :=
  match vget_none d k with VStr s => Some s | _ => None end.
Definition int_field (d : pydict) (k : string) : option Z :=
  match vget_none d k with VInt z => Some z | _ => None end.

Definition str_test (p : pystr → bool) (v : pyval) : bool := match v with VStr s => p s | _ => false end.

(** The signature test [verify] and [decrypt] share: hexadecimal encodings,
    then the signature over the canonical form without its own field. *)
Definition signed_by (document : pydict) (public : pystr) : result unit :=
  match vget_none document "signature" with
  | VStr signature =>
      _ ← raise_if (negb (hex_lower 128 signature)) ValueError "invalid signature encoding";
      _ ← raise_if (negb (hex_lower 64 public)) ValueError "invalid key encoding";
      message ← canonical (VDict (ddel document (str "signature")));
      match fromhex signature, fromhex public with
      | Some s, Some p => raise_if (negb (verify_sig p s message)) InvalidSignature "signature"
      | _, _ => raise ValueError "non-hexadecimal number found"
      end
  | _ => raise ValueError "invalid signature encoding"
  end.

Definition identity_fields : list string :=
  ["protocol"; "version"; "issuer"; "subject"; "domain"; "issued_at"; "expires_at"; "nonce"; "claims"; "signature"].

(** [ShadowIdentity.verify] up to the replay window. *)
Definition verify_assertion (document : pydict) (issuer_public_hex : pystr) (allowed_domains : list pystr)
    (now : Z) : result pydict :=
  let get := vget_none document in
  _ ← raise_if (negb (keys_exact document identity_fields)
                || negb (eq_str (get "protocol") "shadow.identity")
                || negb (int_between 1 (get "version") 1)) ProtocolError "invalid ShadowIdentity schema";
  _ ← canonical (VDict document);
  _ ← raise_if (negb (str_test identity_re (get "issuer")) || negb (str_test identity_re (get "subject")))
        ProtocolError "invalid identity name";
  _ ← raise_if (negb (str_test domain_re (get "domain"))) ProtocolError "invalid identity domain";
  match get "issued_at", get "expires_at", get "claims" with
  | VInt issued_at, VInt expires_at, claims =>
      _ ← raise_if (negb (between 1 (expires_at - issued_at) 3600)) ProtocolError
            "invalid identity validity window";
      match claims with
      | VDict claims =>
          encoded ← canonical (VDict claims);
          _ ← raise_if ((16384 <? zlen encoded) || negb (str_test (hex_lower 32) (get "nonce"))) ProtocolError
                "invalid identity claims or nonce";
          _ ← raise_if (negb (str_test (λ s, bool_decide (s ∈ allowed_domains)) (get "domain"))
                        || negb (between issued_at now expires_at)) ProtocolError
                "identity domain denied or assertion expired";
          _ ← reraise [ValueError; InvalidSignature] ProtocolError "invalid ShadowIdentity signature"
                (signed_by document issuer_public_hex);
          Ok claims
      | _ => raise ProtocolError "invalid identity claims or nonce"
      end
  | _, _, _ => raise ProtocolError "invalid identity validity window"
  end.

(** [ShadowIdentity.verify] with a replay window. *)
Definition verify (document : pydict) (issuer_public_hex : pystr) (allowed_domains : list pystr)
    (now : Z) : M replay pydict :=
  claims ← mlift (verify_assertion document issuer_public_hex allowed_domains now);
  _ ← accept_until (issuer_public_hex ++ str ":" ++ default [] (str_field document "nonce"))
        (default 0 (int_field document "expires_at")) now;
  mret claims.

(** ** ShadowChat *)
Record chat := Chat { ch_key : bytes; ch_sender : identity }.

Definition make_chat (session_key : bytes) (sender : identity) : result chat :=
  _ ← raise_if (negb (zlen session_key =? 32)) ProtocolError "ShadowChat session key must be 32 bytes";
  Ok (Chat session_key sender).

Definition chat_metadata (sender recipient : pystr) (message_id : pystr) (timestamp : Z) (nonce : pystr)
    : list (string * pyval) :=
  [("protocol", VStr (str "shadow.chat")); ("version", VInt 1); ("sender", VStr sender);
   ("recipient", VStr recipient); ("message_id", VStr message_id); ("timestamp", VInt timestamp);
   ("nonce", VStr nonce)].

Definition encrypt (c : chat) (recipient : pystr) (text : pyval) (now : Z) (nonce id : bytes) : result pydict :=
  _ ← raise_if (negb (identity_re recipient)) ProtocolError "invalid ShadowChat recipient";
  text ← normalized_text text;
  let metadata := chat_metadata (id_name (ch_sender c)) recipient (bytes_hex id) now (b64encode nonce) in
  aad ← canonical (VDict (mkdict metadata));
  let ciphertext := seal (ch_key c) nonce (default [] (utf8 text)) aad in
  let document := metadata ++ [("ciphertext", VStr (b64encode ciphertext))] in
  message ← canonical (VDict (mkdict document));
  Ok (mkdict (document ++ [("signature", VStr (bytes_hex (sign (id_key (ch_sender c)) message)))])).

Definition chat_fields : list string :=
  ["protocol"; "version"; "sender"; "recipient"; "message_id"; "timestamp"; "nonce"; "ciphertext"; "signature"].

(** The encodings and the signature of a chat document: nonce and ciphertext. *)
Definition chat_encodings (document : pydict) (sender_public_hex : pystr) : result (bytes * bytes) :=
  match vget_none document "signature", vget_none document "nonce", vget_none document "ciphertext" with
  | VStr signature, VStr nonce, VStr ciphertext =>
      _ ← raise_if (negb (hex_lower 128 signature)) ValueError "invalid signature encoding";
      _ ← raise_if (negb (hex_lower 64 sender_public_hex)) ValueError "invalid sender key";
      _ ← raise_if (negb (zlen nonce =? 16) || (4 * ((MAX_TEXT + 18) / 3) <? zlen ciphertext)) ValueError
            "invalid ciphertext or nonce size";
      _ ← signed_by document sender_public_hex;
      match b64decode nonce, b64decode ciphertext with
      | Some n, Some c => Ok (n, c)
      | _, _ => raise ValueError "invalid base64"
      end
  | _, _, _ => raise ValueError "invalid signature encoding"
  end.

Definition chat_open (c : chat) (document : pydict) (nonce ciphertext : bytes) : result pystr :=
  let metadata := (λ k, (k, vget_none document k)) <$>
    ["protocol"; "version"; "sender"; "recipient"; "message_id"; "timestamp"; "nonce"] in
  aad ← canonical (VDict (mkdict metadata));
  _ ← raise_if (negb (zlen nonce =? 12)) ValueError "Nonce must be 12 bytes";
  match unseal (ch_key c) nonce ciphertext aad with
  | None => raise InvalidTag "tag"
  | Some plain => match utf8_decode plain with
                  | None => raise UnicodeError "invalid utf-8"
                  | Some text => Ok text
                  end
  end.

(** [ShadowChat.decrypt] up to the replay window. *)
Definition decrypt_document (c : chat) (document : pydict) (sender_public_hex : pystr) : result pystr :=
  let get := vget_none document in
  _ ← raise_if (negb (keys_exact document chat_fields) || negb (eq_str (get "protocol") "shadow.chat")
                || negb (int_between 1 (get "version") 1)) ProtocolError "invalid ShadowChat schema";
  _ ← canonical (VDict document);
  _ ← raise_if (negb (str_test (λ s, bool_decide (s = id_name (ch_sender c))) (get "recipient"))) ProtocolError
        "ShadowChat recipient does not match local identity";
  _ ← raise_if (negb (str_test identity_re (get "sender")) || negb (is_int (get "timestamp"))) ProtocolError
        "invalid ShadowChat sender or timestamp";
  _ ← raise_if (negb (str_test (hex_lower 32) (get "message_id"))) ProtocolError "invalid ShadowChat message id";
  nc ← reraise [ValueError; InvalidSignature] ProtocolError "invalid ShadowChat encoding or signature"
         (chat_encodings document sender_public_hex);
  plaintext ← reraise [ValueError; UnicodeError; InvalidTag] ProtocolError
                "ShadowChat authentication or UTF-8 decoding failed" (chat_open c document nc.1 nc.2);
  normalized ← normalized_text (VStr plaintext);
  _ ← raise_if (negb (bool_decide (normalized = plaintext))) ProtocolError "ShadowChat plaintext must be NFC";
  Ok normalized.

Definition decrypt (c : chat) (document : pydict) (sender_public_hex : pystr) (now : Z) : M replay pystr :=
  text ← mlift (decrypt_document c document sender_public_hex);
  _ ← accept (sender_public_hex ++ str ":" ++ default [] (str_field document "message_id"))
        (default 0 (int_field document "timestamp")) now;
  mret text.

(** ** The decoder factory *)
Definition protocol_re (s : pystr) : bool :=
  starts_with (str "shadow.") s &&
  re_head is_lower (λ c, is_lower c || is_digit c || (c =? 46) || (c =? 45)) 1 63 (drop 7 s).

(** A decoder may change the state it closes over. *)
Definition decoder (S A : Type) := pydict → M S A.
Definition factory (S A : Type) := list ((pystr * Z) * decoder S A).

Definition register {S A} (f : factory S A) (protocol : pystr) (version : Z) (d : decoder S A)
    : result (factory S A) :=
  _ ← raise_if (negb (protocol_re protocol) || negb (between 1 version 255)) ProtocolError
        "invalid protocol identifier or version";
  _ ← raise_if (dmem f (protocol, version)) ProtocolError "protocol version is already registered";
  Ok (dset f (protocol, version) d).

Definition factory_decode {S A} (f : factory S A) (frame : bytes) : M S A :=
  document ← mlift (decode_frame frame);
  match vget_none document "protocol", vget_none document "version" with
  | VStr protocol, VInt version =>
      match dget f (protocol, version) with
      | None => mraise ProtocolError "unsupported protocol or version"
      | Some d => d document
      end
  | _, _ => mraise ProtocolError "invalid protocol identifier or version type"
  end.

(** What the default decoders return, and the windows they close over. *)
Inductive decoded := Claims (claims : pydict) | ChatText (text : pystr).
Record windows := Windows { w_identity : replay; w_chat : replay }.

Definition on_identity {A} (m : M replay A) : M windows A := λ w,
  let '(r, x) := m (w_identity w) in (r, Windows x (w_chat w)).
Definition on_chat {A} (m : M replay A) : M windows A := λ w,
  let '(r, x) := m (w_chat w) in (r, Windows (w_identity w) x).

(** [default_factory]; [now] is the clock the decoders read. *)
Definition default_factory (identity_key : option pystr) (allowed_domains : list pystr)
    (c : option chat) (sender_key : option pystr) (now : Z) : result (factory windows decoded) :=
  f ← match identity_key with
      | Some key => register [] (str "shadow.identity") 1
                      (λ doc, claims ← on_identity (verify doc key allowed_domains now); mret (Claims claims))
      | None => Ok []
      end;
  match c, sender_key with
  | Some c, Some key =>
      register f (str "shadow.chat") 1 (λ doc, text ← on_chat (decrypt c doc key now); mret (ChatText text))
  | None, None => Ok f
  | _, _ => raise ProtocolError "chat factory requires both receiver and trusted sender key"
  end.
End Protocols.
