(* ===== verification/ShadowCanonical.v ===== *)
(** * Canonical documents of the application protocols

    What [canonical] accepts, that its form depends only on the document up to
    key order, and that a document survives framing. *)
From S2P Require Import Prelude Dict PyStr PyText PyValue Json JsonFacts JsonRound JsonDocs StrictJson Sha256 Base64 Signing S6naCodec ShadowProtocols.

(** ** The budget of [check] *)
Definition usize (s : pystr) : Z := match utf8 s with Some b => zlen b | None => 0 end.

Fixpoint weight (v : pyval) : Z :=
  match v with
  | VStr s => 1 + usize s
  | VList l => 1 + foldr (λ x acc, weight x + acc) 0 l
  | VDict d => 1 + foldr (λ kv acc, 1 + usize kv.1 + weight kv.2 + acc) 0 d
  | _ => 1
  end.

Definition str_local (s : pystr) : Prop := (∃ b, utf8 s = Some b ∧ zlen b ≤ MAX_FRAME) ∧ 0 ∉ s.

Inductive local_ok : Z → pyval → Prop :=
| lo_none d : d ≤ 32 → local_ok d VNone
| lo_bool d b : d ≤ 32 → local_ok d (VBool b)
| lo_int d z : d ≤ 32 → Z.abs z ≤ 9007199254740991 → local_ok d (VInt z)
| lo_str d s : d ≤ 32 → str_local s → local_ok d (VStr s)
| lo_list d l : d ≤ 32 → Forall (local_ok (d + 1)) l → local_ok d (VList l)
| lo_dict d kvs : d ≤ 32 →
    Forall (λ kv, zlen kv.1 ≤ 256 ∧ d + 1 ≤ 32 ∧ str_local kv.1 ∧ local_ok (d + 1) kv.2) kvs →
    local_ok d (VDict kvs).

Lemma usize_nonneg s : 0 ≤ usize s.
Proof. unfold usize. destruct (utf8 s); [apply zlen_nonneg|done]. Qed.

Lemma weight_pos v : 1 ≤ weight v.
Proof.
  induction v as [| | | |s|l IH|d IH] using pyval_ind; simpl; try lia.
  - pose proof (usize_nonneg s). lia.
  - induction IH; simpl; lia.
  - induction IH as [|[k v] d Hv _ IHd]; simpl in *; [lia|]. pose proof (usize_nonneg k). lia.
Qed.

Lemma check_str_Ok b s b' : check_str b s = Ok b' ↔ str_local s ∧ b' = b + usize s.
Proof.
  unfold check_str, str_local, usize. destruct (utf8 s) as [u|]; [|split; [done|by intros [[(?&?&?) ?] ?]]].
  split.
  - intros H. inv_ok. bool_simpl. split; [split; [by exists u|done]|done].
  - intros [[(u' & [= <-] & Hl) Hz] ->]. rewrite bool_decide_false by done.
    by replace (MAX_FRAME <? zlen u) with false by lia.
Qed.

Lemma check_enter_Ok b depth f b' :
  check_enter b depth f = Ok b' ↔ b' = b + 1 ∧ b + 1 ≤ 1048576 ∧ depth ≤ 32 ∧ f = false.
Proof.
  unfold check_enter. split.
  - intros H. inv_ok. bool_simpl. split_and!; try done; lia.
  - intros (-> & Hb & Hd & ->). replace (1048576 <? b + 1) with false by lia. simpl.
    by replace (32 <? depth) with false by lia.
Qed.

Lemma check_sound v depth b b' : check depth v b = Ok b' → local_ok depth v ∧ b' = b + weight v.
Proof.
  revert depth b b'. induction v as [|bb|z|r|s|l IH|d IH] using pyval_ind; intros depth b b' H; cbn [check] in H;
    apply bind_Ok_inv in H as (b1 & (-> & Hb & Hd & Hf)%check_enter_Ok & H); try discriminate Hf.
  - injection H as <-. by split; [constructor|].
  - injection H as <-. by split; [constructor|].
  - inv_ok. subst b'. bool_simpl. split; [by constructor|done].
  - apply check_str_Ok in H as [Hs ->]. split; [by constructor|]. simpl. lia.
  - assert (Forall (local_ok (depth + 1)) l ∧ b' = b + 1 + foldr (λ x acc, weight x + acc) 0 l) as [Hl ->];
      [|split; [by constructor|simpl; lia]].
    clear Hb. revert H. generalize (b + 1). clear b. induction IH as [|x l Hx _ IHl]; intros b H.
    + injection H as <-. split; [constructor|simpl; lia].
    + apply bind_Ok_inv in H as (b2 & [Hx1 ->]%Hx & H). apply IHl in H as [Hl ->].
      split; [by constructor|simpl; lia].
  - assert (Forall (λ kv, zlen kv.1 ≤ 256 ∧ depth + 1 ≤ 32 ∧ str_local kv.1 ∧ local_ok (depth + 1) kv.2) d ∧
            b' = b + 1 + foldr (λ kv acc, 1 + usize kv.1 + weight kv.2 + acc) 0 d) as [Hl ->];
      [|split; [by constructor|simpl; lia]].
    clear Hb. revert H. generalize (b + 1). clear b. induction IH as [|[k v] d Hx _ IHl]; intros b H.
    + injection H as <-. split; [constructor|simpl; lia].
    + simpl in Hx. apply bind_Ok_inv in H as ([] & Hk & H). apply raise_if_Ok in Hk.
      apply bind_Ok_inv in H as (b2 & (-> & _ & Hd' & _)%check_enter_Ok & H).
      apply bind_Ok_inv in H as (b3 & [Hs ->]%check_str_Ok & H).
      apply bind_Ok_inv in H as (b4 & [Hx1 ->]%Hx & H). apply IHl in H as [Hl ->]. simpl in *.
      split; [constructor; [|done]; split_and!; try done; simpl; lia|simpl; lia].
Qed.

Lemma check_complete v depth b :
  local_ok depth v → b + weight v ≤ 1048576 → check depth v b = Ok (b + weight v).
Proof.
  revert depth b. induction v as [|bb|z|r|s|l IH|d IH] using pyval_ind; intros depth b Hl Hw; cbn [check];
    inversion Hl; subst.
  1-3: rewrite (proj2 (check_enter_Ok b depth false (b + 1))) by (simpl in Hw; split_and!; try done; lia);
       cbn [mbind result_bind].
  - done.
  - done.
  - by replace (9007199254740991 <? Z.abs z) with false by lia.
  - pose proof (usize_nonneg s). simpl in Hw.
    rewrite (proj2 (check_enter_Ok b depth false (b + 1))) by (split_and!; try done; lia). cbn [mbind result_bind].
    apply check_str_Ok. split; [done|]. simpl. lia.
  - assert (0 ≤ foldr (λ x acc, weight x + acc) 0 l) as Hn.
    { clear. induction l as [|x l IHl]; simpl; [lia|]. pose proof (weight_pos x). lia. }
    simpl in Hw. rewrite (proj2 (check_enter_Ok b depth false (b + 1))) by (split_and!; try done; lia).
    cbn [mbind result_bind weight]. rewrite Z.add_assoc. rewrite Z.add_assoc in Hw. clear Hn Hl.
    revert Hw. generalize (b + 1). clear b. induction IH as [|x l Hx _ IHl]; intros b Hw; cbn [foldr] in *.
    + f_equal. lia.
    + apply Forall_cons in H2 as [Hx1 Hl1].
      assert (0 ≤ foldr (λ x acc, weight x + acc) 0 l).
      { clear. induction l as [|y l IHl]; simpl; [lia|]. pose proof (weight_pos y). lia. }
      rewrite Hx by (done || lia). cbn [mbind result_bind]. rewrite IHl by (done || lia). f_equal. lia.
  - assert (∀ d : pydict, 0 ≤ foldr (λ kv acc, 1 + usize kv.1 + weight kv.2 + acc) 0 d) as Hn.
    { clear. induction d as [|[k v] d IHd]; simpl; [lia|]. pose proof (weight_pos v). pose proof (usize_nonneg k). lia. }
    pose proof (Hn d) as Hn0. simpl in Hw.
    rewrite (proj2 (check_enter_Ok b depth false (b + 1))) by (split_and!; try done; lia).
    cbn [mbind result_bind weight]. rewrite Z.add_assoc. rewrite Z.add_assoc in Hw. clear Hn0 Hl.
    revert Hw. generalize (b + 1). clear b. induction IH as [|[k v] d Hx _ IHl]; intros b Hw; cbn [foldr fst snd] in *.
    + f_equal. lia.
    + apply Forall_cons in H2 as [(Hk & Hd & Hs & Hx1) Hl1]. cbn [fst snd] in *.
      pose proof (Hn d). pose proof (usize_nonneg k). pose proof (weight_pos v).
      replace (256 <? zlen k) with false by lia. cbn [raise_if mbind result_bind].
      rewrite (proj2 (check_enter_Ok b (depth + 1) false (b + 1))) by (split_and!; try done; lia).
      cbn [mbind result_bind]. rewrite (proj2 (check_str_Ok _ k _)) by done. cbn [mbind result_bind].
      rewrite Hx by (done || lia). cbn [mbind result_bind]. rewrite IHl by (done || lia). f_equal. lia.
Qed.

Lemma weight_norm v : weight (norm v) = weight v.
Proof.
  induction v as [| | | |s|l IH|d IH] using pyval_ind; try done.
  - cbn [norm weight]. f_equal. induction IH as [|x l Hx _ IHl]; [done|]. rewrite fmap_cons. cbn [foldr]. lia.
  - rewrite norm_dict. cbn [weight]. f_equal. transitivity (foldr (λ kv acc, 1 + usize kv.1 + weight kv.2 + acc) 0 (nfields d)).
    + assert (∀ d1 d2 : pydict, d1 ≡ₚ d2 → foldr (λ kv acc, 1 + usize kv.1 + weight kv.2 + acc) 0 d1 =
        foldr (λ kv acc, 1 + usize kv.1 + weight kv.2 + acc) 0 d2) as Hp by (induction 1; simpl; lia).
      apply Hp, sort_keys_perm.
    + unfold nfields. induction IH as [|[k v] d Hx _ IHl]; [done|]. rewrite fmap_cons. cbn [foldr fst snd] in *. lia.
Qed.

Lemma local_norm v depth : local_ok depth v → local_ok depth (norm v).
Proof.
  revert depth. induction v as [| | | |s|l IH|d IH] using pyval_ind; intros depth H; try done; inversion H; subst.
  - cbn [norm]. constructor; [done|]. apply Forall_fmap. rewrite Forall_forall in *. intros x Hx. apply IH; auto.
  - rewrite norm_dict. constructor; [done|]. rewrite sort_keys_perm. unfold nfields. apply Forall_fmap.
    rewrite Forall_forall in *. intros [k v] Hx. specialize (H3 _ Hx). simpl in *.
    destruct H3 as (? & ? & ? & ?). split_and!; try done. by apply (IH _ Hx).
Qed.

Lemma utf8_char_escape c u : utf8_char c = Some u → zlen u ≤ zlen (escape_char true c).
Proof.
  unfold utf8_char. destruct (negb (is_scalar c)) eqn:Es; [done|]. apply negb_false_iff in Es.
  assert (1 ≤ zlen (escape_char true c) ∧ (128 ≤ c → 6 ≤ zlen (escape_char true c)) ∧
          (65536 ≤ c → 12 ≤ zlen (escape_char true c))) as (H1 & H6 & H12).
  { unfold escape_char. 
    repeat match goal with |- context [if ?b then _ else _] => destruct b eqn:? end;
      unfold zlen; simpl; rewrite ?between_spec, ?Z.eqb_eq in *; split_and!; try lia;
      try (intros; exfalso; unfold between in *; lia). }
  destruct (Z.ltb_spec c 128); [intros [= <-]; unfold zlen at 1; simpl; lia|].
  destruct (Z.ltb_spec c 2048); [intros [= <-]; unfold zlen at 1; simpl; lia|].
  destruct (Z.ltb_spec c 65536); [intros [= <-]; unfold zlen at 1; simpl; lia|].
  intros [= <-]; unfold zlen at 1; simpl; lia.
Qed.

Lemma utf8_escape s : usize s ≤ zlen (concat (escape_char true <$> s)).
Proof.
  unfold usize. destruct (utf8 s) as [u|] eqn:E; [|apply zlen_nonneg].
  revert u E. induction s as [|c s IH]; intros u; [by intros [= <-]|].
  rewrite fmap_cons. cbn [utf8 concat].
  destruct (utf8_char c) as [uc|] eqn:Ec; [|done]. destruct (utf8 s) as [us|]; [|done]. intros [= <-].
  rewrite !zlen_app. pose proof (utf8_char_escape _ _ Ec). specialize (IH us eq_refl). lia.
Qed.

Lemma zlen_quote s : usize s + 2 ≤ zlen (quote true s).
Proof. unfold quote. rewrite zlen_cons, zlen_app. pose proof (utf8_escape s). change (zlen [34]) with 1. lia. Qed.

Lemma zlen_join {A} (f : A → pystr) (w : A → Z) sep l :
  (∀ x, x ∈ l → w x ≤ zlen (f x)) → foldr (λ x acc, w x + acc) 0 l ≤ zlen (join sep (f <$> l)).
Proof.
  induction l as [|x l IH]; intros Hw; [unfold zlen; simpl; lia|].
  rewrite fmap_cons. assert (w x ≤ zlen (f x)) by (apply Hw; left).
  assert (foldr (λ x acc, w x + acc) 0 l ≤ zlen (join sep (f <$> l))) by (apply IH; intros; apply Hw; by right).
  destruct l as [|y l]; cbn [foldr join fmap list_fmap] in *; [lia|].
  rewrite !zlen_app. pose proof (zlen_nonneg sep). lia.
Qed.

(** The text of a value is at least as long as its budget. *)
Lemma weight_print v depth : local_ok depth v → weight v ≤ zlen (print canonical_opts v).
Proof.
  revert depth. induction v as [|bb|z|r|s|l IH|d IH] using pyval_ind; intros depth H; inversion H; subst.
  - done.
  - by destruct bb.
  - cbn [weight print]. destruct (dec_head z) as (c & t & -> & _). rewrite zlen_cons.
    pose proof (zlen_nonneg t). lia.
  - simpl. pose proof (zlen_quote s). lia.
  - cbn [weight print]. rewrite zlen_cons, zlen_app. change (zlen [93]) with 1.
    pose proof (zlen_join (print canonical_opts) weight (do_item canonical_opts) l) as Hj.
    rewrite Forall_forall in IH, H3. specialize (Hj (λ x Hx, IH x Hx _ (H3 x Hx))). lia.
  - cbn [weight print]. rewrite zlen_cons, zlen_app. change (zlen [125]) with 1.
    pose proof (zlen_join (λ kv : pystr * pyval, quote true kv.1 ++ str ":" ++ print canonical_opts kv.2)
      (λ kv, 1 + usize kv.1 + weight kv.2) (do_item canonical_opts) d) as Hj.
    cbn [do_ascii do_colon canonical_opts] in *. rewrite Forall_forall in IH, H3.
    enough (foldr (λ kv acc, 1 + usize kv.1 + weight kv.2 + acc) 0 d ≤ zlen (join (do_item canonical_opts)
      ((λ kv : pystr * pyval, quote true kv.1 ++ str ":" ++ print canonical_opts kv.2) <$> d))) by (simpl in *; lia).
    apply Hj. intros [k v] Hkv. destruct (H3 _ Hkv) as (_ & _ & _ & Hv). specialize (IH _ Hkv _ Hv). cbn [fst snd] in *.
    rewrite !zlen_app. pose proof (zlen_quote k). change (zlen (str ":")) with 1. lia.
Qed.

(** ** [canonical] *)
Section Canonical.
Context (nfc : pystr → pystr).

Lemma local_json_ok v depth : val_wf v → local_ok depth v → json_ok v.
Proof.
  revert depth. induction v as [|bb|z|r|s|l IH|d IH] using pyval_ind; intros depth Hw H; inversion H; subst;
    inversion Hw; subst; try (by constructor).
  - constructor. apply safe_int_ok. unfold MAX_SAFE. lia.
  - constructor. destruct H3 as [(b & Hb & _) _]. apply utf8_Some; by exists b.
  - constructor. rewrite Forall_forall in *. intros x Hx. eapply IH; eauto.
  - constructor; [done|]. rewrite Forall_forall in *. intros [k v] Hx. destruct (H3 _ Hx) as (_ & _ & [(b & Hb & _) _] & Hv).
    cbn [fst snd] in *. split; [apply utf8_Some; by exists b|]. eapply (IH _ Hx); [by apply (H4 _ Hx)|done].
Qed.

Lemma strict_json_canonical limit v :
  1 ≤ limit → portable nfc MAX_FRAME 0 (norm v) → zlen (dumps_canonical v) ≤ limit →
  strict_json nfc limit MAX_FRAME (JBytes (dumps_canonical v)) = Ok (norm v).
Proof.
  intros Hl Hp Hlen. apply (strict_json_print nfc limit MAX_FRAME canonical_opts (norm v));
    try done; [apply canonical_opts_ok].
Qed.

Lemma canonical_Ok v b :
  val_wf v → canonical nfc v = Ok b →
  b = dumps_canonical v ∧ json_ok v ∧ local_ok 0 v ∧ portable nfc MAX_FRAME 0 (norm v) ∧ zlen b ≤ 1048576.
Proof.
  intros Hw H. unfold canonical in H. inv_ok. apply check_sound in Hv as [Hl _].
  pose proof (local_json_ok _ _ Hw Hl) as Hj. subst b.
  apply strict_json_of_print in Hv1 as (_ & Hp & Hlen); [|done]. done.
Qed.

Lemma canonical_intro v :
  local_ok 0 v → portable nfc MAX_FRAME 0 (norm v) → zlen (dumps_canonical v) ≤ 1048576 →
  canonical nfc v = Ok (dumps_canonical v).
Proof.
  intros Hl Hp Hlen. unfold canonical.
  assert (weight v ≤ 1048576) as Hw.
  { rewrite <- weight_norm. pose proof (weight_print _ _ (local_norm _ _ Hl)) as Hx.
    unfold dumps_canonical, dumps in Hlen. cbn [do_sort canonical_opts] in Hlen. lia. }
  rewrite check_complete by (done || lia). cbn [mbind result_bind].
  replace (1048576 <? zlen (dumps_canonical v)) with false by lia. cbn [raise_if mbind result_bind].
  by rewrite strict_json_canonical by (done || lia).
Qed.

(** The canonical form of the read-back document is the same bytes. *)
Lemma canonical_norm v b : val_wf v → canonical nfc v = Ok b → canonical nfc (norm v) = Ok b.
Proof.
  intros Hw H. apply canonical_Ok in H as (-> & Hj & Hl & Hp & Hlen); [|done].
  assert (dumps_canonical (norm v) = dumps_canonical v) as E.
  { unfold dumps_canonical, dumps. cbn [do_sort canonical_opts]. by rewrite norm_idem. }
  rewrite <- E. apply canonical_intro; [by apply local_norm|by rewrite norm_idem|by rewrite E].
Qed.

(** ** Frames *)
Lemma frame_roundtrip d w :
  val_wf (VDict d) → encode_frame nfc (VDict d) = Ok w →
  decode_frame nfc w = Ok (sort_keys (nfields d)).
Proof.
  intros Hw H. unfold encode_frame in H. apply bind_Ok_inv in H as (p0 & Hv & H).
  apply bind_Ok_inv in H as ([] & _ & H).
  assert (w = be_encode 4 (zlen p0) ++ p0) as -> by (by injection H). clear H.
  pose proof (canonical_norm _ _ Hw Hv) as Hcn.
  apply canonical_Ok in Hv as (-> & Hj & Hl & Hp & Hlen); [|done].
  set (p := dumps_canonical (VDict d)) in *. pose proof (zlen_nonneg p).
  assert (zlen (be_encode 4 (zlen p) ++ p) = 4 + zlen p) as El.
  { by rewrite zlen_app. }
  unfold decode_frame. rewrite El.
  rewrite take_app_length', drop_app_length' by (by rewrite be_encode_length).
  rewrite be_decode_encode by (simpl; unfold MAX_FRAME in *; lia).
  replace (4 + zlen p <? 4) with false by lia. cbn [raise_if mbind result_bind].
  replace (MAX_FRAME <? zlen p) with false by (unfold MAX_FRAME; lia).
  replace (4 + zlen p =? zlen p + 4) with true by lia. cbn [orb negb raise_if mbind result_bind].
  unfold proto_json. replace (MAX_FRAME <? zlen p) with false by (unfold MAX_FRAME; lia).
  cbn [raise_if mbind result_bind]. pose proof (dumps_canonical_ascii _ Hj) as Hasc. fold p in Hasc.
  rewrite (utf8_decode_ascii p Hasc), strict_json_text by done.
  unfold p. rewrite strict_json_canonical by (done || (unfold MAX_FRAME; lia)). fold p.
  cbn [reraise mbind result_bind]. rewrite norm_dict. rewrite <- norm_dict, Hcn. done.
Qed.
End Canonical.
