(* ===== verification/ShadowFacts.v ===== *)
(** * Application protocols: theorems

    Signed assertions and chat messages survive signing, framing and reading;
    what a successful verification guarantees; the replay window. *)
From S2P Require Import Prelude Dict PyStr PyText PyValue Json JsonFacts JsonRound JsonDocs StrictJson Sha256 Base64 Signing S6naCodec ShadowProtocols ShadowCanonical.

Lemma hex_lower_readback n b : wf_bytes b = true → zlen b = n → hex_lower (2 * n) (bytes_hex b) = true.
Proof. apply hex_lower_bytes_hex. Qed.

Section Facts.
Context (nfc : pystr → pystr) `{SigningLaws} `{AEADLaws}.

(** The signature over a document is found again after framing. *)
Lemma signed_readback body key message :
  let doc := mkdict (body ++ [("signature", VStr (bytes_hex (sign key message)))]) in
  bool_decide (NoDup (body ++ [("signature", VNone)]).*1) = true →
  val_wf (VDict (mkdict body)) → canonical nfc (VDict (mkdict body)) = Ok message →
  signed_by nfc (sort_keys (nfields doc)) (bytes_hex (public_key key)) = Ok tt.
Proof.
  intros doc Hn Hw Hm. unfold signed_by.
  assert (bool_decide (NoDup (body ++ [("signature", VStr (bytes_hex (sign key message)))]).*1) = true) as Hn'.
  { rewrite !fmap_app in *. done. }
  assert (dwf doc) as Hwf by by apply mkdict_wf.
  rewrite vget_readback by done.
  assert (vget_none doc "signature" = VStr (bytes_hex (sign key message))) as ->.
  { unfold vget_none, doc. rewrite vget_mkdict, dget_app.
    destruct (dget body "signature") as [x|] eqn:E; [|by simpl].
    apply bool_decide_eq_true in Hn'. rewrite fmap_app in Hn'. apply NoDup_app in Hn' as (_ & Hd & _).
    destruct (Hd "signature"); [by eapply (dget_Some_key body)|left]. }
  cbn [norm].
  assert (hex_lower 128 (bytes_hex (sign key message)) = true) as ->.
  { apply (hex_lower_bytes_hex _ 64); [apply sign_wf|]. unfold zlen. by rewrite sign_length. }
  assert (hex_lower 64 (bytes_hex (public_key key)) = true) as ->.
  { apply (hex_lower_bytes_hex _ 32); [apply public_key_wf|]. unfold zlen. by rewrite public_key_length. }
  cbn [negb raise_if mbind result_bind].
  assert (canonical nfc (VDict (ddel (sort_keys (nfields doc)) (str "signature"))) = Ok message) as ->.
  { pose proof Hm as Hc. apply canonical_Ok in Hm as (-> & Hj & Hl & Hp & Hlen); [|done].
    set (u := ddel _ _). assert (norm (VDict u) = norm (VDict (mkdict body))) as En.
    { unfold u, doc. rewrite norm_ddel by done. by rewrite ddel_mkdict_snoc. }
    assert (dumps_canonical (VDict u) = dumps_canonical (VDict (mkdict body))) as Ed.
    { unfold dumps_canonical, dumps. cbn [do_sort canonical_opts]. by rewrite En. }
    rewrite <- Ed. apply canonical_intro; [|by rewrite En|by rewrite Ed].
    assert (u = ddel (sort_keys (nfields doc)) (str "signature")) as Eu by done.
    inversion Hl as [| | | | |? ? Hd0 Hf]; subst. constructor; [lia|].
    apply Forall_forall. intros kv Hkv. rewrite Forall_forall in Hf.
    assert (kv ∈ nfields (mkdict body)) as Hkv'.
    { rewrite <- (ddel_mkdict_snoc body "signature" (VStr (bytes_hex (sign key (dumps_canonical (VDict (mkdict body))))))) by done.
      rewrite <- ddel_nfields. unfold u in Hkv. fold doc. rewrite (ddel_perm _ _ _ (sort_keys_perm (nfields doc))) in Hkv. done. }
    unfold nfields in Hkv'. apply list_elem_of_fmap in Hkv' as ([k v] & -> & Hkv'). specialize (Hf _ Hkv').
    cbn [fst snd] in *. destruct Hf as (? & ? & ? & ?). split_and!; try done. by apply local_norm. }
  cbn [mbind result_bind]. rewrite !fromhex_hex by (apply sign_wf || apply public_key_wf).
  by rewrite verify_sign.
Qed.

Lemma vget_doc l k : vget_none (mkdict l) k = default VNone (dget l k).
Proof. unfold vget_none. by rewrite vget_mkdict. Qed.

(** ** Identity assertions *)
Lemma assertion_Ok i subject domain claims ttl now nonce doc :
  assertion nfc i subject domain claims ttl now nonce = Ok doc →
  let body := assertion_body (id_name i) subject domain now (now + ttl) nonce claims in
  identity_re subject = true ∧ domain_re domain = true ∧ 1 ≤ ttl ≤ 3600 ∧
  (∃ c, canonical nfc (VDict claims) = Ok c ∧ zlen c ≤ 16384) ∧
  ∃ m, canonical nfc (VDict (mkdict body)) = Ok m ∧
       doc = mkdict (body ++ [("signature", VStr (bytes_hex (sign (id_key i) m)))]).
Proof.
  intros Ha body. unfold assertion in Ha. apply bind_Ok_inv in Ha as ([] & Hg & Ha).
  apply bind_Ok_inv in Ha as (c & Hc & Ha). apply bind_Ok_inv in Ha as ([] & Hg2 & Ha).
  apply bind_Ok_inv in Ha as (m & Hm & Ha). apply raise_if_Ok in Hg, Hg2. bool_simpl.
  rewrite between_spec in *. split; [done|]. split; [done|]. split; [done|]. split; [by exists c|].
  exists m. split; [done|]. symmetry. by injection Ha.
Qed.

(** An assertion, framed and read back, verifies under its issuer's key while
    it is valid, and gives the claims. *)
Lemma assertion_verifies i subject domain claims ttl now nonce doc w doc' allowed t :
  identity_re (id_name i) = true → wf_bytes nonce = true → length nonce = 16%nat → val_wf (VDict claims) →
  assertion nfc i subject domain claims ttl now nonce = Ok doc →
  encode_frame nfc (VDict doc) = Ok w → decode_frame nfc w = Ok doc' →
  domain ∈ allowed → now ≤ t ≤ now + ttl →
  verify_assertion nfc doc' (public_hex i) allowed t = Ok (sort_keys (nfields claims)).
Proof.
  intros Hid Hnw Hnl Hcw Ha Hw Hd Hdom Ht.
  apply assertion_Ok in Ha as (Hsub & Hdo & Httl & (c & Hc & Hcl) & m & Hm & ->).
  set (body := assertion_body _ _ _ _ _ _ _) in *.
  set (doc := mkdict (body ++ _)) in *.
  assert (val_wf (VDict (mkdict body))) as Hbw.
  { constructor; [by apply mkdict_wf|]. unfold mkdict. apply Forall_fmap.
    repeat (apply Forall_cons; split; [try (by constructor); try done|]); constructor. }
  assert (val_wf (VDict doc)) as Hdw.
  { constructor; [by apply mkdict_wf|]. unfold doc, mkdict. rewrite fmap_app. apply Forall_app. split.
    - by inversion Hbw.
    - repeat constructor. }
  assert (dwf doc) as Hwf by (by apply mkdict_wf).
  rewrite (frame_roundtrip nfc doc w Hdw Hw) in Hd.
  assert (doc' = sort_keys (nfields doc)) as -> by (by injection Hd). clear Hd.
  assert (∃ b, canonical nfc (VDict (sort_keys (nfields doc))) = Ok b) as [b Hb].
  { unfold encode_frame in Hw. apply bind_Ok_inv in Hw as (b & Hb & _). exists b. by apply (canonical_norm nfc (VDict doc)). }
  unfold verify_assertion. rewrite (keys_exact_readback doc identity_fields) by done.
  rewrite !(vget_readback doc) by done. unfold doc. rewrite !vget_doc.
  change (default VNone (dget (body ++ _) "protocol")) with (VStr (str "shadow.identity")).
  change (default VNone (dget (body ++ _) "version")) with (VInt 1).
  change (default VNone (dget (body ++ _) "issuer")) with (VStr (id_name i)).
  change (default VNone (dget (body ++ _) "subject")) with (VStr subject).
  change (default VNone (dget (body ++ _) "domain")) with (VStr domain).
  change (default VNone (dget (body ++ _) "issued_at")) with (VInt now).
  change (default VNone (dget (body ++ _) "expires_at")) with (VInt (now + ttl)).
  change (default VNone (dget (body ++ _) "nonce")) with (VStr (bytes_hex nonce)).
  change (default VNone (dget (body ++ _) "claims")) with (VDict claims).
  fold doc. rewrite norm_dict. cbn [norm eq_str int_between str_test].
  rewrite bool_decide_true by done. cbn [negb orb between Z.leb andb raise_if mbind result_bind].
  rewrite Hb. cbn [mbind result_bind]. rewrite Hid, Hsub, Hdo. cbn [negb orb raise_if mbind result_bind].
  replace (now + ttl - now) with ttl by lia.
  rewrite (proj2 (between_spec 1 ttl 3600)) by done. cbn [negb raise_if mbind result_bind].
  assert (canonical nfc (VDict (sort_keys (nfields claims))) = Ok c) as -> by (by apply (canonical_norm nfc (VDict claims))).
  cbn [mbind result_bind]. replace (16384 <? zlen c) with false by lia.
  rewrite (hex_lower_bytes_hex _ 16) by (done || (unfold zlen; by rewrite Hnl)).
  rewrite bool_decide_true by done. rewrite (proj2 (between_spec now t (now + ttl))) by done.
  cbn [negb orb raise_if mbind result_bind]. unfold public_hex, doc. rewrite (signed_readback body) by done. done.
Qed.

(** What a successful verification guarantees. *)
Lemma verify_assertion_sound doc public allowed t claims :
  verify_assertion nfc doc public allowed t = Ok claims →
  ∃ issued expires domain signature key message,
    vget_none doc "issued_at" = VInt issued ∧ vget_none doc "expires_at" = VInt expires ∧
    issued ≤ t ≤ expires ∧ expires - issued ≤ 3600 ∧
    vget_none doc "domain" = VStr domain ∧ domain ∈ allowed ∧ vget_none doc "claims" = VDict claims ∧
    vget_none doc "signature" = VStr (signature) ∧ fromhex public = Some key ∧
    canonical nfc (VDict (ddel doc (str "signature"))) = Ok message ∧
    ∃ s, fromhex signature = Some s ∧ verify_sig key s message = true.
Proof.
  unfold verify_assertion. intros Hv. inv_ok.
  destruct (vget_none doc "issued_at") as [| |issued| | | |]; try done.
  destruct (vget_none doc "expires_at") as [| |expires| | | |]; try done.
  destruct (vget_none doc "claims") as [| | | | | |cl] eqn:Ecl; inv_ok; try done. subst cl.
  destruct (vget_none doc "domain") as [| | | |domain| |] eqn:Edom; try done.
  unfold signed_by in *. destruct (vget_none doc "signature") as [| | | |sg| |] eqn:Esg; try done. inv_ok.
  destruct (fromhex sg) as [s|] eqn:Es; [|done]. destruct (fromhex public) as [key|] eqn:Ek; [|done].
  inv_ok. bool_simpl. rewrite between_spec in *. simpl in *. bool_simpl.
  exists issued, expires, domain, sg, key. eexists. split_and!; try done; try lia. by exists s.
Qed.
End Facts.

(** ** The replay window *)
Lemma accept_until_cases id e now w :
  (∃ x, accept_until id e now w = (Raise x, w) ∨
        accept_until id e now w = (Raise x, Replay (rw_limit w) (purge now (rw_seen w)))) ∨
  (now ≤ e ≤ now + 3600 ∧ dget (purge now (rw_seen w)) id = None ∧
   zlen (purge now (rw_seen w)) < rw_limit w ∧
   accept_until id e now w = (Ok tt, Replay (rw_limit w) (dset (purge now (rw_seen w)) id e))).
Proof.
  unfold accept_until, mraise_if, mlift, mmod, mget, mbind, M_bind.
  destruct ((256 <? zlen id) || negb (between now e (now + 3600))) eqn:E; simpl; [left; by eauto|].
  bool_simpl. rewrite between_spec in *.
  destruct (dmem (purge now (rw_seen w)) id || (rw_limit w <=? zlen (purge now (rw_seen w)))) eqn:E2; simpl.
  - left. by eauto.
  - right. apply orb_false_iff in E2 as [E2 E3]. unfold dmem in E2.
    destruct (dget _ id) eqn:Ed; [done|]. split_and!; try done; lia.
Qed.

Definition window_ok (w : replay) : Prop := dwf (rw_seen w) ∧ zlen (rw_seen w) ≤ rw_limit w.

Lemma purge_wf now seen : dwf seen → dwf (purge now seen) ∧ zlen (purge now seen) ≤ zlen seen.
Proof.
  unfold dwf, dkeys, purge, zlen. intros Hn. split.
  - induction seen as [|[k v] seen IH]; [done|]. rewrite fmap_cons in Hn. apply NoDup_cons in Hn as [Hk Hn].
    rewrite filter_cons. destruct (decide _); [|by apply IH]. rewrite fmap_cons. apply NoDup_cons.
    split; [|by apply IH]. intros Hin. apply Hk. apply list_elem_of_fmap in Hin as (kv & -> & Hkv).
    apply list_elem_of_filter in Hkv as [_ Hkv]. by apply list_elem_of_fmap_2.
  - pose proof (length_filter (λ kv : pystr * Z, now ≤ kv.2) seen). lia.
Qed.

Lemma purge_keeps now seen id e : now ≤ e → dwf seen → dget seen id = Some e → dget (purge now seen) id = Some e.
Proof.
  intros Hn Hwf Hid. apply elem_of_dget; [by apply purge_wf|]. unfold purge. apply list_elem_of_filter.
  split; [done|]. by apply dget_elem_of.
Qed.

Lemma accept_until_window id e now w : window_ok w → window_ok (accept_until id e now w).2.
Proof.
  intros [Hwf Hl]. destruct (purge_wf now _ Hwf) as [Hp1 Hp2].
  destruct (accept_until_cases id e now w) as [(x & [->| ->])|(_ & Hd & Hlt & ->)]; [done|split; simpl; [done|lia]|].
  split; simpl; [by apply dwf_dset|]. unfold zlen in *. rewrite length_dset_None by done. lia.
Qed.

Lemma accept_until_remembers id e id' e' now w :
  window_ok w → now ≤ e → dget (rw_seen w) id = Some e →
  dget (rw_seen (accept_until id' e' now w).2) id = Some e.
Proof.
  intros [Hwf Hl] Hn Hid. pose proof (purge_keeps now _ _ _ Hn Hwf Hid) as Hp.
  destruct (accept_until_cases id' e' now w) as [(x & [->| ->])|(_ & Hd & _ & ->)]; [done|done|]. simpl.
  rewrite dget_dset. case_bool_decide as E; [|done]. subst. congruence.
Qed.

(** A sequence of calls, each with its identifier, expiry and clock reading. *)
Definition replay_calls (calls : list (pystr * Z * Z)) (w : replay) : replay :=
  foldl (λ w c, (accept_until c.1.1 c.1.2 c.2 w).2) w calls.

Lemma replay_calls_remember calls id e w :
  window_ok w → Forall (λ c, c.2 ≤ e) calls → dget (rw_seen w) id = Some e →
  window_ok (replay_calls calls w) ∧ dget (rw_seen (replay_calls calls w)) id = Some e.
Proof.
  revert w. induction calls as [|c calls IH]; intros w Hw Hc Hid; simpl; [done|].
  apply Forall_cons in Hc as [Hc Hcs]. apply IH; [by apply accept_until_window|done|].
  by apply accept_until_remembers.
Qed.

Lemma accept_until_refused id e e' now w :
  window_ok w → now ≤ e → dget (rw_seen w) id = Some e → ∃ x, (accept_until id e' now w).1 = Raise x.
Proof.
  intros [Hwf _] Hn Hid. pose proof (purge_keeps now _ _ _ Hn Hwf Hid) as Hp.
  destruct (accept_until_cases id e' now w) as [(x & [->| ->])|(_ & Hd & _)]; [by exists x|by exists x|congruence].
Qed.
