(* ===== verification/ShadowClaims.v ===== *)
(** * Application protocols and bounded JSON: what they promise *)
From S2P Require Import Prelude Dict PyStr PyText PyValue Json JsonFacts JsonRound JsonDocs StrictJson.
From S2P Require Import Sha256 Base64 Signing S6naCodec ShadowProtocols ShadowCanonical ShadowFacts.

#[local] Existing Instance toy_signing.
#[local] Existing Instance toy_signing_laws.
#[local] Existing Instance toy_aead.
#[local] Existing Instance toy_laws.

(** ** Bounded JSON *)

(** C34: Whatever [strict_json] returns is portable: nested at most 16 deep, every
    integer within the 53-bit range, every string valid Unicode in NFC without
    NUL and within the string limit, no duplicate keys and no floats. *)
Theorem strict_json_bounded nfc limit sl data v :
  strict_json nfc limit sl data = Ok v → portable nfc sl 0 v ∧ no_float v.
Proof. apply strict_json_portable. Qed.

Lemma strict_json_bounded_witness : portable id STRING_LIMIT 0 (VList [VInt 1]) ∧ no_float (VList [VInt 1]).
Proof. apply (strict_json_bounded id 65536 STRING_LIMIT (JText (str "[1]"))). vm_compute. reflexivity. Defined.

(** A portable document that is printed with any of the separators and
    within the size limit is read back, with its keys sorted exactly when they
    were sorted on output. *)
Theorem strict_json_reads_printed nfc limit sl o v :
  1 ≤ limit → 1 ≤ sl ≤ 16 * 1024 * 1024 → opts_ok o → opts_plain o →
  portable nfc sl 0 v → zlen (dumps o v) ≤ limit →
  strict_json nfc limit sl (JBytes (dumps o v)) = Ok (if do_sort o then norm v else v).
Proof. apply strict_json_dumps. Qed.

Lemma strict_json_reads_printed_witness :
  strict_json id 100 100 (JBytes (dumps canonical_opts (VDict (mkdict [("b", VInt 1); ("a", VNone)]%string))))
  = Ok (VDict (mkdict [("a", VNone); ("b", VInt 1)]%string)).
Proof.
  refine (strict_json_reads_printed id 100 100 canonical_opts (VDict (mkdict [("b", VInt 1); ("a", VNone)]%string)) _ _ _ _ _ _).
  - lia.
  - lia.
  - apply canonical_opts_ok.
  - done.
  - apply (strict_json_portable id 100 100 (JText (dumps compact_opts (VDict (mkdict [("b", VInt 1); ("a", VNone)]%string))))).
    vm_compute. reflexivity.
  - vm_compute. discriminate.
Defined.

(** ** Frames *)

(** A document that can be framed is read back from its frame, with its keys
    in canonical order. *)
Theorem frame_reads_back nfc d w :
  val_wf (VDict d) → encode_frame nfc (VDict d) = Ok w → decode_frame nfc w = Ok (sort_keys (nfields d)).
Proof. apply frame_roundtrip. Qed.

Definition demo_doc : pydict := mkdict [("kind", VStr (str "hello")); ("count", VInt 3)]%string.
Definition demo_frame : bytes := Eval vm_compute in match encode_frame id (VDict demo_doc) with Ok w => w | Raise _ => [] end.
Lemma demo_doc_wf : val_wf (VDict demo_doc).
Proof. apply json_ok_wf, json_okb_ok. vm_compute. reflexivity. Qed.

Lemma frame_reads_back_witness : decode_frame id demo_frame = Ok (sort_keys (nfields demo_doc)).
Proof. apply (frame_reads_back id demo_doc demo_frame demo_doc_wf). vm_compute. reflexivity. Defined.

(** ** Signed assertions *)

(** C35: An assertion that was issued, framed and read back verifies for its
    issuer at every moment of its validity, in an allowed domain, and yields
    the claims. *)
Theorem assertion_end_to_end nfc `{SigningLaws} i subject domain claims ttl now nonce doc w doc' allowed t :
  identity_re (id_name i) = true → wf_bytes nonce = true → length nonce = 16%nat → val_wf (VDict claims) →
  assertion nfc i subject domain claims ttl now nonce = Ok doc →
  encode_frame nfc (VDict doc) = Ok w → decode_frame nfc w = Ok doc' →
  domain ∈ allowed → now ≤ t ≤ now + ttl →
  verify_assertion nfc doc' (public_hex i) allowed t = Ok (sort_keys (nfields claims)).
Proof. intros. by eapply assertion_verifies. Qed.

Definition demo_id : identity := Identity (str "alice.node") (replicate 32 9).
Definition demo_claims : pydict := mkdict [("role", VStr (str "client"))]%string.
Definition demo_nonce : bytes := replicate 16 7.
Definition demo_assertion : pydict := Eval vm_compute in
  match assertion id demo_id (str "alice.node") (str "ops") demo_claims 60 1000 demo_nonce with Ok d => d | Raise _ => [] end.
Definition demo_wire : bytes := Eval vm_compute in
  match encode_frame id (VDict demo_assertion) with Ok w => w | Raise _ => [] end.
Definition demo_read : pydict := Eval vm_compute in
  match decode_frame id demo_wire with Ok d => d | Raise _ => [] end.

Lemma assertion_end_to_end_witness :
  verify_assertion id demo_read (public_hex demo_id) [str "ops"] 1030 = Ok (sort_keys (nfields demo_claims)).
Proof.
  refine (assertion_end_to_end id demo_id (str "alice.node") (str "ops") demo_claims 60 1000 demo_nonce demo_assertion
            demo_wire demo_read [str "ops"] 1030 _ _ _ _ _ _ _ _ _).
  - vm_compute. reflexivity.
  - reflexivity.
  - reflexivity.
  - apply json_ok_wf, json_okb_ok. vm_compute. reflexivity.
  - vm_compute. reflexivity.
  - vm_compute. reflexivity.
  - vm_compute. reflexivity.
  - apply list_elem_of_here.
  - lia.
Defined.

(** C36: Whatever [verify] accepts carries a valid signature of the given key over
    the canonical form of the document without its signature, is in its validity
    window of at most an hour, and names an allowed domain. *)
Theorem assertion_sound nfc `{Signing} doc public allowed t claims :
  verify_assertion nfc doc public allowed t = Ok claims →
  ∃ issued expires domain signature key message,
    vget_none doc "issued_at" = VInt issued ∧ vget_none doc "expires_at" = VInt expires ∧
    issued ≤ t ≤ expires ∧ expires - issued ≤ 3600 ∧
    vget_none doc "domain" = VStr domain ∧ domain ∈ allowed ∧ vget_none doc "claims" = VDict claims ∧
    vget_none doc "signature" = VStr signature ∧ fromhex public = Some key ∧
    canonical nfc (VDict (ddel doc (str "signature"))) = Ok message ∧
    ∃ s, fromhex signature = Some s ∧ verify_sig key s message = true.
Proof. apply verify_assertion_sound. Qed.

Lemma assertion_sound_witness : ∃ issued expires, vget_none demo_read "issued_at" = VInt issued ∧
  vget_none demo_read "expires_at" = VInt expires ∧ issued ≤ 1030 ≤ expires.
Proof.
  destruct (assertion_sound id demo_read (public_hex demo_id) [str "ops"] 1030 (sort_keys (nfields demo_claims)))
    as (i & e & _ & _ & _ & _ & H1 & H2 & H3 & _); [vm_compute; reflexivity|]. by exists i, e.
Defined.

(** ** The replay window *)

(** C37: An identifier accepted until some time is refused at every call up to
    that time, whatever other calls come in between, and the window never grows
    beyond its capacity. *)
Theorem replay_refused calls id e now0 w w' e' now :
  window_ok w → accept_until id e now0 w = (Ok tt, w') →
  Forall (λ c : pystr * Z * Z, c.2 ≤ e) calls → now ≤ e →
  window_ok (replay_calls calls w') ∧ ∃ x, (accept_until id e' now (replay_calls calls w')).1 = Raise x.
Proof.
  intros Hw Ha Hc Hn. pose proof (accept_until_window id e now0 w Hw) as Hw'. rewrite Ha in Hw'. simpl in Hw'.
  assert (dget (rw_seen w') id = Some e) as Hid.
  { destruct (accept_until_cases id e now0 w) as [(x & [E|E])|(_ & _ & _ & E)]; rewrite E in Ha; [done|done|].
    injection Ha as <-. simpl. apply dget_dset_eq. }
  destruct (replay_calls_remember calls id e w' Hw' Hc Hid) as [Hw2 Hid2].
  split; [done|]. by eapply accept_until_refused.
Qed.

Lemma replay_refused_witness :
  window_ok (Replay 4 [(str "m", 100)]) ∧ ∃ x, (accept_until (str "m") 120 90 (Replay 4 [(str "m", 100); (str "n", 95)])).1 = Raise x.
Proof.
  assert (window_ok (Replay 4 [])) as H0 by (split; [apply dwf_nil|vm_compute; discriminate]).
  destruct (replay_refused [(str "n", 95, 80)] (str "m") 100 10 (Replay 4 []) (Replay 4 [(str "m", 100)]) 120 90 H0)
    as [_ Hx]; [reflexivity|by repeat constructor|lia|]. split; [|exact Hx].
  split; [by apply NoDup_singleton|vm_compute; discriminate].
Defined.
