(* ===== verification/Net.v ===== *)
(** * Addresses and URLs

    What the sources use of Python's [str] splitting methods, of the module
    [ipaddress] and of [urllib.parse.urlsplit].  Case mapping and NFKC
    normalisation of non-ASCII text come from the Unicode tables and are the
    parameters [lower] and [nfkc]; ASCII text is mapped here. *)
From S2P Require Import Prelude PyStr PyText.

(** ** Splitting strings at a character *)

(** [s.partition(c)]: before, whether [c] occurs, after. *)
Fixpoint partition_at (c : Z) (s : pystr) : pystr * bool * pystr :=
  match s with
  | [] => ([], false, [])
  | x :: s' => if x =? c then ([], true, s')
               else let '(a, f, b) := partition_at c s' in (x :: a, f, b)
  end.

(** [s.rpartition(c)]. *)
Definition rpartition_at (c : Z) (s : pystr) : pystr * bool * pystr :=
  let '(a, f, b) := partition_at c (rev s) in
  if f : bool then (rev b, true, rev a) else ([], false, s).

(** [s.split(c)]. *)
Fixpoint split_at_char (c : Z) (s : pystr) : list pystr :=
  match s with
  | [] => [[]]
  | x :: s' => if x =? c then [] :: split_at_char c s'
               else match split_at_char c s' with
                    | p :: ps => (x :: p) :: ps
                    | [] => [[x]]
                    end
  end.

(** What follows the longest prefix without [p]. *)
Fixpoint drop_until (p : Z → bool) (s : pystr) : pystr :=
  match s with
  | [] => []
  | c :: s' => if p c then s else drop_until p s'
  end.

Definition has_char (c : Z) (s : pystr) : bool := bool_decide (c ∈ s).

Definition ascii_lower (c : Z) : Z := if is_upper c then c + 32 else c.

(** [s.lower()]. *)
Definition lower_text (lower : pystr → pystr) (s : pystr) : pystr :=
  if forallb is_ascii s then ascii_lower <$> s else lower s.

(** ** IP addresses *)
Inductive ip_address := IPv4 (n : Z) | IPv6 (n : Z) (scope : option pystr).

#[global] Instance ip_address_eq_dec : EqDecision ip_address.
Proof. solve_decision. Defined.

(** One decimal octet: at most three digits, no leading zero. *)
Definition parse_octet (s : pystr) : option Z :=
  if bool_decide (s = []) || negb (forallb is_digit s) || (3 <? zlen s)
     || (negb (zlen s =? 1) && starts_with (str "0") s)
  then None
  else let v := dec_value s in if 255 <? v then None else Some v.

Definition parse_ipv4 (s : pystr) : option Z :=
  match split_at_char 46 s with
  | [a; b; c; d] =>
      a ← parse_octet a; b ← parse_octet b; c ← parse_octet c; d ← parse_octet d;
      Some (((a * 256 + b) * 256 + c) * 256 + d)
  | _ => None
  end.

Definition hex_number (s : pystr) : option Z :=
  foldl (λ acc c, acc ← acc; v ← hex_value c; Some (acc * 16 + v)) (Some 0) s.

Definition parse_hextet (s : pystr) : option Z :=
  if bool_decide (s = []) || negb (forallb is_hex s) || (4 <? zlen s) then None else hex_number s.

(** The hextets of the textual parts, [Z] each. *)
Fixpoint parse_hextets (acc : Z) (parts : list pystr) : option Z :=
  match parts with
  | [] => Some acc
  | p :: parts => v ← parse_hextet p; parse_hextets (acc * 65536 + v) parts
  end.

(** The positions of the empty inner parts. *)
Definition empty_inner (parts : list pystr) : list nat :=
  filter (λ i, parts !! i = Some []) (seq 1 (length parts - 2)).

Definition hex4_of (n : Z) : pystr :=
  hex_digit (n / 4096 mod 16) :: hex_digit (n / 256 mod 16) :: hex_digit (n / 16 mod 16) :: [hex_digit (n mod 16)].

(** The last part may be an IPv4 address; it stands for two hextets. *)
Definition expand_tail (parts : list pystr) : option (list pystr) :=
  match rev parts with
  | last :: front =>
      if has_char 46 last then
        n ← parse_ipv4 last; Some (rev front ++ [hex4_of (n / 65536); hex4_of (n mod 65536)])
      else Some parts
  | [] => None
  end.

Definition parse_ipv6 (s : pystr) : option Z :=
  let parts := split_at_char 58 s in
  if bool_decide (s = []) || (zlen parts <? 3) then None else
  parts ← expand_tail parts;
  if 9 <? zlen parts then None else
  match empty_inner parts with
  | [] =>
      if negb (zlen parts =? 8) then None else parse_hextets 0 parts
  | [skip] =>
      let first_empty := bool_decide (parts !! 0%nat = Some []) in
      let last_empty := bool_decide (parts !! (length parts - 1)%nat = Some []) in
      let hi := (skip - (if first_empty then 1 else 0))%nat in
      let lo := (length parts - skip - 1 - (if last_empty then 1 else 0))%nat in
      if (first_empty && negb (hi =? 0)%nat) || (last_empty && negb (lo =? 0)%nat)
         || (8 <=? Z.of_nat (hi + lo)) then None
      else
        h ← parse_hextets 0 (take hi parts);
        l ← parse_hextets 0 (drop (length parts - lo) parts);
        Some (h * 65536 ^ (8 - Z.of_nat hi) + l)
  | _ => None
  end.

(** [ipaddress.ip_address(text)]; [None] is its [ValueError]. *)
Definition parse_ip (s : pystr) : option ip_address :=
  if has_char 47 s then None else
  match parse_ipv4 s with
  | Some n => Some (IPv4 n)
  | None =>
      let '(addr, sep, scope) := partition_at 37 s in
      if (sep : bool) && (bool_decide (scope = []) || has_char 37 scope) then None
      else (λ n, IPv6 n (if sep : bool then Some scope else None)) <$> parse_ipv6 addr
  end.

Definition is_unspecified (a : ip_address) : bool :=
  match a with IPv4 n | IPv6 n _ => n =? 0 end.
Definition is_loopback (a : ip_address) : bool :=
  match a with IPv4 n => n / 2 ^ 24 =? 127 | IPv6 n _ => n =? 1 end.
Definition is_multicast (a : ip_address) : bool :=
  match a with IPv4 n => n / 2 ^ 28 =? 14 | IPv6 n _ => n / 2 ^ 120 =? 255 end.

(** [str(IPv4Address(n))]. *)
Definition ipv4_text (n : Z) : pystr :=
  dec (n / 2 ^ 24) ++ str "." ++ dec (n / 2 ^ 16 mod 256) ++ str "." ++ dec (n / 2 ^ 8 mod 256) ++ str "."
  ++ dec (n mod 256).

Example ip_a : parse_ip (str "127.0.0.1") = Some (IPv4 2130706433). Proof. vm_compute. reflexivity. Qed.
Example ip_b : parse_ip (str "::1") = Some (IPv6 1 None). Proof. vm_compute. reflexivity. Qed.
Example ip_c : parse_ip (str "fe80::1:2%eth0") = Some (IPv6 (65152 * 2 ^ 112 + 65538) (Some (str "eth0"))).
Proof. vm_compute. reflexivity. Qed.
Example ip_d : parse_ip (str "::ffff:1.2.3.4") = Some (IPv6 (65535 * 2 ^ 32 + 16909060) None).
Proof. vm_compute. reflexivity. Qed.
Example ip_e : parse_ip (str "1:2::3::4") = None. Proof. vm_compute. reflexivity. Qed.
Example ip_f : parse_ip (str "127.0.0.01") = None. Proof. vm_compute. reflexivity. Qed.
Example ip_g : parse_ip (str "1:2:3:4:5:6:7:8") = Some (IPv6 5192455318486707404433266433261576 None).
Proof. vm_compute. reflexivity. Qed.

(** ** [urlsplit] *)
Record url := Url {
  scheme : pystr; netloc : pystr; path : pystr; query : pystr; fragment : pystr }.

Section Url.
Context (nfkc lower : pystr → pystr).

Definition is_alpha (c : Z) : bool := is_lower c || is_upper c.
Definition scheme_char (c : Z) : bool := is_alnum c || one_of "+-." c.

(** The bracketed host: an IPv6 address, or an address of a future version. *)
Definition bracketed_ok (host : pystr) : bool :=
  if starts_with (str "v") host then
    let '(hex, found, rest) := partition_at 46 (drop 1 host) in
    (found : bool) && negb (bool_decide (hex = [])) && forallb is_hex hex
    && negb (bool_decide (rest = [])) && negb (has_char 10 rest)
  else match parse_ip host with Some (IPv6 _ _) => true | _ => false end.

Definition check_bracketed_netloc (netloc : pystr) : bool :=
  let '(_, _, hostport) := rpartition_at 64 netloc in
  let '(before, open, bracketed) := partition_at 91 hostport in
  if open : bool then
    let '(host, _, port) := partition_at 93 bracketed in
    bool_decide (before = []) && (bool_decide (port = []) || starts_with (str ":") port) && bracketed_ok host
  else let '(host, _, _) := partition_at 58 hostport in bracketed_ok host.

(** No delimiter may appear when a non-ASCII authority is normalised. *)
Definition check_netloc (netloc : pystr) : bool :=
  forallb is_ascii netloc ||
  (let n := filter (λ c, negb (one_of "@:#?" c)) netloc in
   bool_decide (n = nfkc n) || negb (existsb (one_of "/?#@:") (nfkc n))).

(** The authority ends at the first of [/?#]. *)
Fixpoint split_netloc (s : pystr) : pystr * pystr :=
  match s with
  | [] => ([], [])
  | c :: s' => if one_of "/?#" c then ([], s) else let '(a, b) := split_netloc s' in (c :: a, b)
  end.

(** Leading control characters and spaces are dropped, tabs and line ends
    everywhere. *)
Definition strip_url (text : pystr) : pystr :=
  filter (λ c, negb ((c =? 9) || (c =? 10) || (c =? 13))) (drop_until (λ c, negb (between 0 c 32)) text).

Definition urlsplit (text : pystr) : result url :=
  let text := strip_url text in
  let '(before, found, after) := partition_at 58 text in
  let '(scheme, rest) :=
    match before with
    | c :: _ => if (found : bool) && is_alpha c && forallb scheme_char before
                then (ascii_lower <$> before, after) else ([], text)
    | [] => ([], text)
    end in
  let '(netloc, rest) := if starts_with (str "//") rest then split_netloc (drop 2 rest) else ([], rest) in
  let opened := has_char 91 netloc in
  let closed := has_char 93 netloc in
  _ ← raise_if (negb (Bool.eqb opened closed)) ValueError "Invalid IPv6 URL";
  _ ← raise_if (opened && closed && negb (check_bracketed_netloc netloc)) ValueError "Invalid IPv6 URL";
  let '(rest, _, fragment) := partition_at 35 rest in
  let '(path, _, query) := partition_at 63 rest in
  _ ← raise_if (negb (check_netloc netloc)) ValueError "netloc contains invalid characters under NFKC normalization";
  Ok (Url scheme netloc path query fragment).

(** The properties of a split URL. *)
Definition userinfo (u : url) : option (pystr * option pystr) :=
  let '(info, have, _) := rpartition_at 64 (netloc u) in
  if have : bool then
    let '(name, found, password) := partition_at 58 info in
    Some (name, if found : bool then Some password else None)
  else None.

Definition hostinfo (u : url) : pystr * pystr :=
  let '(_, _, info) := rpartition_at 64 (netloc u) in
  let '(_, open, bracketed) := partition_at 91 info in
  if open : bool then
    let '(host, _, port) := partition_at 93 bracketed in
    let '(_, _, port) := partition_at 58 port in (host, port)
  else let '(host, _, port) := partition_at 58 info in (host, port).

Definition hostname (u : url) : option pystr :=
  let host := (hostinfo u).1 in
  if bool_decide (host = []) then None
  else let '(h, found, zone) := partition_at 37 host in
       Some (lower_text lower h ++ (if found : bool then 37 :: zone else [])).

Definition port (u : url) : result (option Z) :=
  let p := (hostinfo u).2 in
  if bool_decide (p = []) then Ok None
  else
    _ ← raise_if (negb (forallb is_digit p)) ValueError "Port could not be cast to integer value";
    _ ← raise_if (4300 <? zlen p) ValueError "Exceeds the limit (4300 digits) for integer string conversion";
    let z := dec_value p in
    _ ← raise_if (65535 <? z) ValueError "Port out of range 0-65535";
    Ok (Some z).
End Url.

Example url_a : urlsplit id (str "tcp://user:pw@[::1]:99/x?q#f")
  = Ok (Url (str "tcp") (str "user:pw@[::1]:99") (str "/x") (str "q") (str "f")).
Proof. vm_compute. reflexivity. Qed.
Example url_b : option_map (hostname id) (match urlsplit id (str "TCP://LocalHost:80") with Ok u => Some u | _ => None end)
  = Some (Some (str "localhost")).
Proof. vm_compute. reflexivity. Qed.
