(* ===== verification/JoinCode.v ===== *)
(** * Join codes, protocol envelopes and credentials

    [Public6/join_code.py]: the 40-character join codes and the keys derived
    from them, the S6P1 protocol envelope, Passport and Visa credentials, the
    long invitation and the public-node profile.  The clock, the random bytes
    and what is read from the network or the file system are arguments.
    [provision] and [install_peer], which write files, are not modelled. *)
From S2P Require Import Prelude Dict PyStr PyText PyValue Json JsonRound JsonDocs StrictJson Sha256 Signing Base64 Net.

Definition MODES : list (Z * string) := [(1, "directory"%string); (2, "manual"%string); (3, "ipv4-https"%string)].
Definition CORE_NAMES : list string :=
  ["go"; "rust"; "gleam"; "ada"; "nim"; "pony"; "zig"; "d"; "cpp"; "idris"; "hare"; "carp"].
Definition PROFILE_SCHEMA : string := "shadow6.public-node-profile.v1".
Definition INVITATION_PREFIX : pystr := str "S6INV1.".
Definition PROTOCOL_PREFIX : pystr := str "S6P1.".
Definition PROTOCOL_MAX_BYTES : Z := 262144.
Definition PASSPORT_PREFIX : pystr := str "S6PASS1.".
Definition VISA_PREFIX : pystr := str "S6VISA1.".
Definition PASSPORT_SCHEMA : string := "shadow6.passport.v1".
Definition VISA_SCHEMA : string := "shadow6.visa.v1".
Definition MAX_CREDENTIAL_BYTES : Z := 32768.

(** Character classes of the regular expressions. *)
Definition name_char (c : Z) : bool := is_alnum c || one_of "._-" c.
Definition scope_char (c : Z) : bool := is_alnum c || one_of "._:-" c.

(** ** Tokens *)
Definition _token_bytes (token prefix : pystr) : result bytes :=
  let payload := drop (length prefix) token in
  _ ← raise_if (bool_decide (payload = []) || negb (forallb is_urlsafe payload)) ValueError "invalid token alphabet";
  match urlsafe_decode payload with
  | None => raise ValueError "Incorrect padding"
  | Some raw =>
      _ ← raise_if (negb (bool_decide (urlsafe_encode raw = payload))) ValueError "noncanonical token encoding";
      Ok raw
  end.

Definition make_token (prefix : pystr) (raw : bytes) : pystr := prefix ++ urlsafe_encode raw.

Definition _credential_bytes (value : pydict) : bytes := dumps_canonical (VDict value).

(** ** Join codes *)
Record code_info := CodeInfo {
  ci_mode : string; ci_lookup : pystr; ci_https : option (pystr * Z) }.

(** [random n] is [os.urandom(n)]. *)
Definition issue (random : nat → bytes) (mode : pystr) (host : option pystr) (port : pyval) : result pystr :=
  match list_find (λ m, mode = str m.2) MODES with
  | None => raise ValueError "unknown join-code mode"
  | Some (_, (number, name)) =>
      raw ← (if number =? 3 then
               match parse_ip (default [] host) with
               | None => raise ValueError "does not appear to be an IPv4 or IPv6 address"
               | Some address =>
                   match address with
                   | IPv4 n =>
                       _ ← raise_if (is_unspecified address || is_multicast address || is_loopback address) ValueError
                             "IPv4 HTTPS mode requires a reachable public IPv4 address";
                       match port with
                       | VInt p =>
                           _ ← raise_if (negb (between 1 p 65535)) ValueError "invalid HTTPS port";
                           Ok (number :: be_encode 4 n ++ be_encode 2 p ++ random 23%nat)
                       | _ => raise ValueError "invalid HTTPS port"
                       end
                   | IPv6 _ _ => raise ValueError "IPv4 HTTPS mode requires a reachable public IPv4 address"
                   end
               end
             else
               _ ← raise_if (match host with Some _ => true | None => false end || negb (is_none port)) ValueError
                     "host and port are only encoded in IPv4 HTTPS mode";
               Ok (number :: random 29%nat));
      Ok (urlsafe_encode raw)
  end.

Definition decode (code : pyval) : result code_info :=
  match code with
  | VStr code =>
      _ ← raise_if (negb (re_class is_urlsafe 40 40 code)) ValueError
            "join code must contain exactly 40 base64url characters";
      match urlsafe_decode code with
      | Some (version :: rest) =>
          let raw := version :: rest in
          match dget MODES version with
          | Some mode =>
              _ ← raise_if (negb (zlen raw =? 30) || negb (bool_decide (urlsafe_encode raw = code))) ValueError
                    "invalid join-code version or encoding";
              let lookup := sha256_hex raw in
              if version =? 3 then
                let port := be_decode (slice 5 7 raw) in
                _ ← raise_if (port =? 0) ValueError "invalid HTTPS port";
                Ok (CodeInfo mode lookup (Some (ipv4_text (be_decode (slice 1 5 raw)), port)))
              else Ok (CodeInfo mode lookup None)
          | None => raise ValueError "invalid join-code version or encoding"
          end
      | _ => raise ValueError "invalid join-code version or encoding"
      end
  | _ => raise ValueError "join code must contain exactly 40 base64url characters"
  end.

Definition profile_id (code : pyval) : result pystr := i ← decode code; Ok (take 16 (ci_lookup i)).

Definition core_purpose (core role : pystr) : pystr := str "core:" ++ core ++ str ":" ++ role.

(** The purposes a key is derived for. *)
Definition known_purpose (purpose : pystr) : bool :=
  str_in purpose ["admission"; "gate"] ||
  existsb (λ core, existsb (λ role, bool_decide (purpose = core_purpose (str core) (str role))) ["client"; "agent"])
    CORE_NAMES.

Definition seed_message (code purpose : pystr) : bytes :=
  str "shadow6.public-node.v1" ++ [0] ++ purpose ++ [0] ++ default [] (urlsafe_decode code).

Definition peer_seed (code : pyval) (purpose : pystr) : result bytes :=
  _ ← raise_if (negb (known_purpose purpose)) ValueError "unknown key purpose";
  _ ← decode code;
  Ok (sha256 (seed_message (as_text code) purpose)).

(** ** Membership in a JSON value: [x in v] *)
Definition py_in (x : pystr) (v : pyval) : result bool :=
  match v with
  | VList l => Ok (existsb (py_eqb (VStr x)) l)
  | VStr s => Ok (is_infix x s)
  | VDict d => Ok (dmem d x)
  | _ => raise TypeError "argument is not iterable"
  end.

(** [x not in d.get(k, ()) and "all" not in d.get(k, ())]. *)
Definition outside (x : pystr) (claim : pydict) (name : string) : result bool :=
  let v := vget_or claim name (VList []) in
  here ← py_in x v;
  if here : bool then Ok false else all ← py_in (str "all") v; Ok (negb all).

Section JoinCode.
Context (nfc : pystr → pystr) `{Signing}.

Definition peer_public (code : pyval) (purpose : pystr) : result pystr :=
  seed ← peer_seed code purpose; Ok (bytes_hex (public_key seed)).

Definition portable_json (limit : Z) (data : json_input) : result pyval := strict_json nfc limit STRING_LIMIT data.

(** ** The protocol envelope *)
Definition envelope_fields : list string :=
  ["schema"; "version"; "purpose"; "core"; "role"; "identity"; "routes"; "components"; "credentials"].
Definition envelope_roles : list string := ["broker"; "agent"; "client"; "gate"; "relay"; "plugin"; "all"].

Definition core_id_ok (v : pyval) : bool :=
  match v with VStr c => re_head is_alnum scope_char 0 63 c | _ => false end.

Definition core_scope_ok (scope : pyval) : bool :=
  let ids := match scope with VList l => l | _ => [scope] end in
  between 1 (zlen ids) 16 && forallb core_id_ok ids && bool_decide (NoDup ids)
  && negb (is_list scope && existsb (λ v, eq_str v "all") ids).

Definition pack_protocol (envelope : pyval) : result pystr :=
  match envelope with
  | VDict e =>
      _ ← raise_if (negb (keys_within e envelope_fields)) ValueError "invalid Shadow6 protocol envelope";
      _ ← raise_if (negb (keys_cover e envelope_fields)
                    || negb (eq_str (vget_none e "schema") "shadow6.protocol-envelope.v1")
                    || negb (int_between 1 (vget_none e "version") 1)) ValueError
            "invalid Shadow6 protocol envelope schema";
      _ ← raise_if (match vget_none e "purpose" with VStr p => negb (between 1 (zlen p) 64) | _ => true end) ValueError
            "invalid envelope purpose";
      _ ← raise_if (negb (core_scope_ok (vget_none e "core"))) ValueError "invalid envelope Core scope";
      _ ← raise_if (negb (in_strs (vget_none e "role") envelope_roles)) ValueError "invalid envelope role";
      _ ← raise_if (negb (is_dict (vget_none e "identity")) || negb (is_list (vget_none e "routes"))
                    || negb (is_dict (vget_none e "components")) || negb (is_dict (vget_none e "credentials")))
            ValueError "invalid envelope sections";
      let raw := dumps_canonical envelope in
      _ ← portable_json PROTOCOL_MAX_BYTES (JBytes raw);
      let token := make_token PROTOCOL_PREFIX raw in
      _ ← raise_if (PROTOCOL_MAX_BYTES <? zlen token) ValueError "protocol envelope is oversized";
      Ok token
  | _ => raise ValueError "invalid Shadow6 protocol envelope"
  end.

Definition unpack_protocol (token : pyval) : result pyval :=
  match token with
  | VStr token =>
      _ ← raise_if (negb (starts_with PROTOCOL_PREFIX token) || (PROTOCOL_MAX_BYTES <? zlen token)) ValueError
            "invalid Shadow6 protocol envelope";
      value ← reraise_all ValueError "invalid Shadow6 protocol envelope encoding"
                (raw ← _token_bytes token PROTOCOL_PREFIX; portable_json PROTOCOL_MAX_BYTES (JBytes raw));
      _ ← pack_protocol value;
      Ok value
  | _ => raise ValueError "invalid Shadow6 protocol envelope"
  end.

Definition community_protocol (envelope : pydict) (community passport : pyval) : result pystr :=
  match community with
  | VStr community =>
      _ ← raise_if (negb (re_class name_char 1 64 community)) ValueError "invalid community identifier";
      let value := vset envelope "purpose" (VStr (str "community:" ++ community)) in
      credentials ← (v ← field value "credentials"; as_dict v);
      pack_protocol (VDict (vset value "credentials" (VDict (vset credentials "admission" passport))))
  | _ => raise ValueError "invalid community identifier"
  end.

(** ** Credentials *)
Definition _issuer_claim (claim : pydict) : result bytes :=
  match vget_none claim "issuer" with
  | VStr issuer =>
      _ ← raise_if (negb (hex_lower 64 issuer)) ValueError "signed credential requires an Ed25519 issuer";
      match fromhex issuer with Some b => Ok b | None => raise ValueError "non-hexadecimal number found" end
  | _ => raise ValueError "signed credential requires an Ed25519 issuer"
  end.

Definition _sign_claim (claim : pydict) (issuer_key : bytes) : result pydict :=
  _ ← raise_if (negb (zlen issuer_key =? 32)) ValueError "issuer key must be a 32-byte Ed25519 seed";
  let claim := vset claim "issuer" (VStr (bytes_hex (public_key issuer_key))) in
  Ok (vset claim "signature" (VStr (bytes_hex (sign issuer_key (_credential_bytes claim))))).

Definition scope_item (limit : Z) (s : pystr) : bool := re_class scope_char 1 limit s.

(** [now] is [int(time.time())]. *)
Definition issue_passport (now : Z) (subject : pystr) (components roles : list pystr) (ttl : Z)
    (issuer_key : option bytes) : result pystr :=
  _ ← raise_if (negb (between 1 (zlen subject) 128) || negb (between 1 ttl 604800)) ValueError "invalid passport claim";
  _ ← raise_if (negb (forallb (scope_item 64) components)) ValueError "invalid passport components";
  _ ← raise_if (negb (forallb (scope_item 32) roles)) ValueError "invalid passport roles";
  let claim := mkdict
    [("schema", txt PASSPORT_SCHEMA); ("subject", VStr subject);
     ("components", VList (VStr <$> sorted_set components)); ("roles", VList (VStr <$> sorted_set roles));
     ("issued_at", VInt now); ("expires_at", VInt (now + ttl))] in
  claim ← match issuer_key with Some k => _sign_claim claim k | None => Ok claim end;
  Ok (make_token PASSPORT_PREFIX (_credential_bytes claim)).

Definition credential_schema (prefix : pystr) : option string :=
  if bool_decide (prefix = PASSPORT_PREFIX) then Some PASSPORT_SCHEMA
  else if bool_decide (prefix = VISA_PREFIX) then Some VISA_SCHEMA else None.

Definition credential_fields (prefix : pystr) : list string :=
  if bool_decide (prefix = PASSPORT_PREFIX)
  then ["schema"; "subject"; "components"; "roles"; "issued_at"; "expires_at"]
  else ["schema"; "subject"; "audience"; "component"; "passport_expires_at"; "passport_digest"; "issued_at"; "expires_at"].

(** The signature branch. *)
Definition check_signature (value : pydict) (require_signature : bool) : result unit :=
  match vget_none value "signature", vget_none value "issuer" with
  | VNone, VNone => raise_if require_signature ValueError "unsigned credential is not accepted"
  | VStr signature, VStr issuer =>
      let unsigned := ddel value (str "signature") in
      reraise_all ValueError "invalid credential signature"
        (_ ← raise_if (negb (hex_lower 64 issuer) || negb (hex_lower 128 signature)) ValueError
               "invalid signature encoding";
         match fromhex issuer, fromhex signature with
         | Some key, Some s => raise_if (negb (verify_sig key s (_credential_bytes unsigned))) InvalidSignature ""
         | _, _ => raise ValueError "non-hexadecimal number found"
         end)
  | _, _ => raise ValueError "incomplete credential signature"
  end.

(** [a > b] between an integer and a JSON value. *)
Definition int_gt (a : Z) (v : pyval) : result bool :=
  match v with
  | VInt b => Ok (b <? a)
  | VBool b => Ok (Z.b2z b <? a)
  | VFloat r => Ok (negb (dec_leb (a, 0) (float_parts r)))
  | _ => raise TypeError "'>' not supported"
  end.

Definition verify_credential (now : Z) (token : pyval) (prefix : pystr) (require_signature : bool) : result pydict :=
  match token with
  | VStr token =>
      _ ← raise_if (negb (starts_with prefix token) || (MAX_CREDENTIAL_BYTES <? zlen token)) ValueError "invalid credential";
      value ← reraise_all ValueError "invalid credential encoding"
                (raw ← _token_bytes token prefix; portable_json MAX_CREDENTIAL_BYTES (JBytes raw));
      match credential_schema prefix, value with
      | Some schema, VDict value =>
          _ ← raise_if (negb (eq_str (vget_none value "schema") schema)) ValueError "invalid credential schema";
          let required := credential_fields prefix in
          _ ← raise_if (negb (keys_within value (required ++ ["issuer"; "signature"])) || negb (keys_cover value required))
                ValueError "invalid credential fields";
          match vget_none value "issued_at", vget_none value "expires_at" with
          | VInt issued, VInt expires =>
              _ ← raise_if ((expires <? issued) || (expires <=? now)) ValueError "expired credential";
              _ ← check_signature value require_signature;
              if bool_decide (prefix = VISA_PREFIX) then
                outlives ← int_gt expires (vget_none value "passport_expires_at");
                _ ← raise_if outlives ValueError "Visa outlives Passport";
                Ok value
              else Ok value
          | _, _ => raise ValueError "expired credential"
          end
      | _, _ => raise ValueError "invalid credential schema"
      end
  | _ => raise ValueError "invalid credential"
  end.

Definition passport_digest (claim : pydict) : pystr := sha256_hex (_credential_bytes (ddel claim (str "signature"))).

Definition issue_visa (now : Z) (passport : pyval) (audience component : pystr) (ttl : Z)
    (issuer_key : option bytes) : result pystr :=
  claim ← verify_credential now passport PASSPORT_PREFIX false;
  _ ← raise_if (negb (re_class scope_char 1 128 audience) || negb (re_class scope_char 1 64 component)) ValueError
        "invalid visa audience or component";
  _ ← raise_if (negb (between 1 ttl 86400)) ValueError "invalid visa lifetime";
  out ← outside component claim "components";
  _ ← raise_if out ValueError "Passport does not authorize Visa component";
  match issuer_key with
  | Some key =>
      _ ← raise_if (negb (truthy (vget_none claim "issuer"))) ValueError
            "a signed Passport and issuer key are required for Visa issuance";
      match vget_none claim "expires_at" with
      | VInt expires =>
          let visa := mkdict
            [("schema", txt VISA_SCHEMA); ("subject", vget_none claim "subject"); ("audience", VStr audience);
             ("component", VStr component); ("passport_expires_at", VInt expires);
             ("passport_digest", VStr (passport_digest claim));
             ("issued_at", VInt now); ("expires_at", VInt (Z.min (now + ttl) expires))] in
          visa ← _sign_claim visa key;
          _ ← raise_if (negb (py_eqb (vget_none visa "issuer") (vget_none claim "issuer"))) ValueError
                "Visa issuer key does not match Passport issuer";
          Ok (make_token VISA_PREFIX (_credential_bytes visa))
      | _ => raise TypeError "'<' not supported"
      end
  | None => raise ValueError "a signed Passport and issuer key are required for Visa issuance"
  end.

Definition verify_passport_visa (now : Z) (envelope : pyval) (allowed_communities : list pystr)
    (visa_free require_signed : bool) : result bool :=
  _ ← pack_protocol envelope;
  e ← as_dict envelope;
  let purpose := as_text (vget_none e "purpose") in
  if negb (starts_with (str "community:") purpose) then Ok true
  else
    let community := drop 10 purpose in
    credentials ← as_dict (vget_none e "credentials");
    match vget_none credentials "admission" with
    | VStr admission =>
        if bool_decide (admission = str "visa-free") then Ok visa_free
        else if negb (bool_decide (community ∈ allowed_communities)) || negb (between 1 (zlen admission) MAX_CREDENTIAL_BYTES)
        then Ok false
        else if starts_with PASSPORT_PREFIX admission then
          _ ← verify_credential now (VStr admission) PASSPORT_PREFIX require_signed; Ok true
        else if starts_with VISA_PREFIX admission then
          _ ← verify_credential now (VStr admission) VISA_PREFIX require_signed; Ok true
        else Ok (negb require_signed)
    | _ => Ok false
    end.

(** ** Public-node profiles *)
Definition profile_fields : list string := ["schema"; "lookup_id"; "tenant"; "admission_public_key"; "routes"].
Definition route_fields : list string :=
  ["core"; "transport"; "gate_host"; "gate_port"; "gate_public_key"; "native_broker_public_key";
   "native_client_public_key"; "native_agent_public_key"; "default_agent_id"; "default_agent_public_key"].

Definition is_key (v : pyval) : bool := match v with VStr s => hex_lower 64 s | _ => false end.

(** The Gate address of a route. *)
Definition check_gate_host (v : pyval) : result unit :=
  match v with
  | VStr host =>
      match parse_ip host with
      | Some a => raise_if (is_unspecified a || is_multicast a) ValueError "invalid Gate address"
      | None => raise ValueError "does not appear to be an IPv4 or IPv6 address"
      end
  | _ => raise ValueError "invalid Gate address"
  end.

(** The native keys of a route are the ones derived from the code. *)
Definition check_native_key (code : pyval) (core : pystr) (route : pydict) (name : string) (role : string) : result unit :=
  expected ← peer_public code (core_purpose core (str role));
  raise_if (negb (py_eqb (vget_none route name) (VStr expected))) ValueError
    "native Core identity does not match join code".

Definition check_default_agent (route : pydict) : result unit :=
  match vget_none route "default_agent_id", vget_none route "default_agent_public_key" with
  | VStr id, VStr key =>
      _ ← raise_if (negb (Bool.eqb (truthy (VStr id)) (truthy (VStr key)))) ValueError "incomplete default Agent identity";
      raise_if (negb (bool_decide (id = [])) && (negb (re_class name_char 1 64 id) || negb (hex_lower 64 key))) ValueError
        "invalid default Agent identity"
  | _, _ => raise ValueError "incomplete default Agent identity"
  end.

(** One route; [seen] are the cores of the routes before it. *)
Definition check_route (code : pyval) (seen : list pystr) (route : pyval) : result (list pystr) :=
  match route with
  | VDict r =>
      _ ← raise_if (negb (keys_exact r route_fields)) ValueError "unknown Core route field";
      match vget_none r "core" with
      | VStr core =>
          _ ← raise_if (negb (str_in core CORE_NAMES) || bool_decide (core ∈ seen)) ValueError
                "invalid or duplicate Core route";
          _ ← raise_if (negb (in_strs (vget_none r "transport") ["tcp"; "udp"])) ValueError "invalid Core carrier";
          _ ← check_gate_host (vget_none r "gate_host");
          _ ← raise_if (negb (is_key (vget_none r "gate_public_key"))) ValueError "invalid Gate public key";
          _ ← raise_if (negb (is_key (vget_none r "native_broker_public_key"))) ValueError
                "invalid native Broker public key";
          _ ← check_native_key code core r "native_client_public_key" "client";
          _ ← check_native_key code core r "native_agent_public_key" "agent";
          _ ← check_default_agent r;
          _ ← raise_if (negb (int_between 1024 (vget_none r "gate_port") 65534)) ValueError "invalid fixed Gate port";
          Ok (seen ++ [core])
      | _ => raise ValueError "invalid or duplicate Core route"
      end
  | _ => raise ValueError "unknown Core route field"
  end.

Definition validate_profile (data : bytes) (code : pyval) : result pydict :=
  _ ← raise_if (negb (between 1 (zlen data) 65536)) ValueError "profile is empty or oversized";
  match utf8_decode data with
  | None => raise UnicodeError "invalid start byte"
  | Some text =>
      value ← portable_json 262144 (JText text);
      match value with
      | VDict v =>
          _ ← raise_if (negb (keys_exact v profile_fields) || negb (eq_str (vget_none v "schema") PROFILE_SCHEMA))
                ValueError "profile does not match join code";
          info ← decode code;
          _ ← raise_if (negb (py_eqb (vget_none v "lookup_id") (VStr (ci_lookup info)))) ValueError
                "profile does not match join code";
          admission ← peer_public code (str "admission");
          _ ← raise_if (negb (py_eqb (vget_none v "admission_public_key") (VStr admission))) ValueError
                "profile admission identity does not match code";
          _ ← raise_if (match vget_none v "tenant" with VStr t => negb (re_class name_char 1 64 t) | _ => true end)
                ValueError "invalid tenant";
          match vget_none v "routes" with
          | VList routes =>
              _ ← raise_if (negb (between 1 (zlen routes) 12)) ValueError "invalid Core routes";
              _ ← fold_res (check_route code) [] routes;
              Ok v
          | _ => raise ValueError "invalid Core routes"
          end
      | _ => raise ValueError "profile does not match join code"
      end
  end.

(** ** Long invitations *)
Definition pack_invitation (code profile gate_public_key : pyval) : result pystr :=
  _ ← raise_if (negb (is_key gate_public_key)) ValueError "invalid Gate public key";
  _ ← validate_profile (dumps compact_opts profile) code;
  let payload := VDict (mkdict [("schema", txt "shadow6.invitation.v1"); ("code", code);
                                ("gate_public_key", gate_public_key); ("profile", profile)]) in
  let token := make_token INVITATION_PREFIX (dumps_canonical payload) in
  _ ← raise_if (16384 <? zlen token) ValueError "invitation is oversized";
  Ok token.

(** [[r["gate_public_key"] for r in routes]]. *)
Definition gate_keys (routes : pyval) : result (list pyval) :=
  match routes with
  | VList l => map_res (λ r, d ← as_dict r; field d "gate_public_key") l
  | VStr [] | VDict [] => Ok []
  | _ => raise TypeError "not iterable"
  end.

Definition unpack_invitation (token : pyval) : result pydict :=
  match token with
  | VStr token =>
      _ ← raise_if (negb (starts_with INVITATION_PREFIX token) || (16384 <? zlen token)) ValueError
            "invalid long invitation";
      value ← reraise_all ValueError "invalid long invitation encoding"
                (raw ← _token_bytes token INVITATION_PREFIX; portable_json 262144 (JBytes raw));
      match value with
      | VDict v =>
          _ ← raise_if (negb (keys_exact v ["schema"; "code"; "gate_public_key"; "profile"])
                        || negb (eq_str (vget_none v "schema") "shadow6.invitation.v1")) ValueError
                "invalid long invitation schema";
          match vget_none v "profile" with
          | VDict profile =>
              _ ← (if truthy (vget_none profile "routes")
                   then _ ← validate_profile (dumps compact_opts (VDict profile)) (vget_none v "code"); Ok tt
                   else Ok tt);
              routes ← field profile "routes";
              keys ← gate_keys routes;
              _ ← raise_if (negb (existsb (λ k, py_eqb k (vget_none v "gate_public_key")) keys)) ValueError
                    "invitation Gate key does not match profile";
              Ok v
          | _ => raise AttributeError "get"
          end
      | _ => raise ValueError "invalid long invitation schema"
      end
  | _ => raise ValueError "invalid long invitation"
  end.

(** ** Admission *)
Definition resolve_credentials (now : Z) (credentials : pyval) (require_signature : bool) : result pydict :=
  match credentials with
  | VDict c =>
      let one (name : string) (prefix : pystr) :=
        let token := vget_none c name in
        if is_none token then Ok []
        else claim ← verify_credential now token prefix require_signature; Ok [(str name, VDict claim)] in
      passport ← one "passport"%string PASSPORT_PREFIX;
      visa ← one "visa"%string VISA_PREFIX;
      invitation ← (let token := vget_none c "public6_invitation" in
                    if is_none token then Ok []
                    else v ← unpack_invitation token; Ok [(str "public6_invitation", VDict v)]);
      Ok (passport ++ visa ++ invitation)
  | _ => raise ValueError "invalid credentials section"
  end.

Definition require_credential_scope (claim : pydict) (component role audience : option pystr) : result unit :=
  _ ← match component with
      | Some c => if has_key claim "component" then Ok tt
                  else out ← outside c claim "components";
                       raise_if out ValueError "credential does not authorize this component"
      | None => Ok tt
      end;
  _ ← match role with
      | Some r => out ← outside r claim "roles"; raise_if out ValueError "credential does not authorize this role"
      | None => Ok tt
      end;
  _ ← match audience with
      | Some a => let v := vget_none claim "audience" in
                  raise_if (negb (is_none v || py_eqb v (VStr a))) ValueError "credential audience mismatch"
      | None => Ok tt
      end;
  match component with
  | Some c => raise_if (has_key claim "component" && negb (py_eqb (vget_none claim "component") (VStr c))) ValueError
                "credential component mismatch"
  | None => Ok tt
  end.

(** The Visa of an envelope must descend from its Passport. *)
Definition check_visa (visa : pydict) (passport : option pydict) (component audience : option pystr) : result unit :=
  _ ← require_credential_scope visa component None audience;
  match passport with
  | None => raise ValueError "Visa requires its parent Passport"
  | Some passport =>
      _ ← raise_if (negb (py_eqb (vget_none visa "subject") (vget_none passport "subject"))) ValueError
            "Visa subject does not match Passport";
      _ ← raise_if (negb (py_eqb (vget_none visa "issuer") (vget_none passport "issuer"))) ValueError
            "Visa issuer does not match Passport";
      raise_if (negb (py_eqb (vget_none visa "passport_digest") (VStr (passport_digest passport)))) ValueError
        "Visa is not derived from this Passport"
  end.

Definition claim_of (claims : pydict) (name : string) : option pydict :=
  match vget claims name with Some (VDict d) => Some d | _ => None end.

Definition resolve_protocol_envelope (now : Z) (token : pyval) (component role audience : option pystr)
    (allowed_communities : list pystr) (visa_free require_signature : bool) : result (pyval * pydict) :=
  envelope ← unpack_protocol token;
  e ← as_dict envelope;
  components ← as_dict (vget_none e "components");
  _ ← match component with
      | Some c => let advertised := default VNone (dget components c) in
                  raise_if (negb (is_none advertised) && negb (is_true advertised)) ValueError
                    "S6P1 envelope does not advertise this component"
      | None => Ok tt
      end;
  _ ← match role with
      | Some r => raise_if (negb (py_eqb (vget_none e "role") (VStr r) || eq_str (vget_none e "role") "all")) ValueError
                    "S6P1 envelope role mismatch"
      | None => Ok tt
      end;
  admitted ← verify_passport_visa now envelope allowed_communities visa_free require_signature;
  _ ← raise_if (negb admitted) ValueError "S6P1 community admission was rejected";
  claims ← resolve_credentials now (vget_none e "credentials") require_signature;
  let passport := claim_of claims "passport" in
  _ ← match passport with Some p => require_credential_scope p component role None | None => Ok tt end;
  _ ← match claim_of claims "visa" with Some v => check_visa v passport component audience | None => Ok tt end;
  Ok (envelope, claims).

(** ** Resolving a code to a profile

    [fetch url] is the HTTPS request without redirects: the status and at most
    65537 bytes; [private_file path] is [_private_file(path, 65536)]. *)
Definition resolve (fetch : pystr → result (Z * bytes)) (private_file : pystr → result bytes)
    (nfkc lower : pystr → pystr) (code : pyval) (directory manual_profile : option pystr) (manual_pin : pyval)
    : result pydict :=
  info ← decode code;
  let manual := bool_decide (ci_mode info = "manual"%string) in
  data ← (if manual then
            _ ← raise_if (match directory with Some _ => true | None => false end) ValueError
                  "manual mode does not use a directory";
            match manual_profile with
            | None => raise ValueError "manual mode requires an owner-only profile file"
            | Some path => private_file path
            end
          else
            _ ← raise_if (match manual_profile with Some _ => true | None => false end || negb (is_none manual_pin))
                  ValueError "unexpected manual profile or pin";
            origin ← match ci_https info with
                     | None =>
                         match directory with
                         | None => raise ValueError "directory mode requires a trusted HTTPS directory"
                         | Some d =>
                             u ← urlsplit nfkc d;
                             let user := match userinfo u with
                                         | Some (name, password) =>
                                             negb (bool_decide (name = [])) || negb (bool_decide (default [] password = []))
                                         | None => false
                                         end in
                             _ ← raise_if (negb (bool_decide (scheme u = str "https"))
                                           || match hostname lower u with None => true | Some _ => false end
                                           || user || negb (bool_decide (query u = []))
                                           || negb (bool_decide (fragment u = []))) ValueError
                                   "directory must be a trusted HTTPS origin";
                             Ok (rev (drop_until (λ c, negb (c =? 47)) (rev d)))
                         end
                     | Some (host, port) =>
                         _ ← raise_if (match directory with Some _ => true | None => false end) ValueError
                               "IPv4 code already contains its HTTPS origin";
                         Ok (str "https://" ++ host ++ str ":" ++ dec port)
                     end;
            response ← fetch (origin ++ str "/.well-known/shadow6/" ++ ci_lookup info ++ str ".json");
            _ ← raise_if (negb (response.1 =? 200)) ValueError "profile lookup failed";
            Ok response.2);
  profile ← validate_profile data code;
  _ ← (if manual then
         routes ← as_list (vget_none profile "routes");
         match routes with
         | [VDict r] => raise_if (negb (is_key manual_pin) || negb (py_eqb (vget_none r "gate_public_key") manual_pin))
                          ValueError "manual mode requires a separately verified full Gate public key"
         | _ => raise ValueError "manual mode requires a separately verified full Gate public key"
         end
       else Ok tt);
  Ok profile.
End JoinCode.

(** * Envelopes, credentials and codes: round trips and soundness *)

(** ** Tokens *)
Lemma token_bytes_make prefix raw :
  wf_bytes raw = true → raw ≠ [] → _token_bytes (make_token prefix raw) prefix = Ok raw.
Proof.
  intros Hw Hn. unfold _token_bytes, make_token. rewrite drop_app_length.
  rewrite bool_decide_false by (by intros ?%urlsafe_encode_nil). rewrite urlsafe_chars by done.
  cbn [orb negb raise_if mbind result_bind]. rewrite urlsafe_roundtrip by done.
  rewrite bool_decide_true by done. done.
Qed.

Lemma token_bytes_Ok token prefix raw :
  _token_bytes token prefix = Ok raw → starts_with prefix token = true → token = make_token prefix raw.
Proof.
  unfold _token_bytes, make_token. intros H Hp. rewrite (starts_with_inv _ _ Hp).
  apply bind_Ok_inv in H as ([] & _ & H). destruct (urlsafe_decode _) as [r|]; [|done].
  apply bind_Ok_inv in H as ([] & Hr & H). apply raise_if_Ok in Hr. bool_simpl.
  assert (r = raw) as -> by (by injection H). by rewrite Hr.
Qed.

(** ** The protocol envelope *)
Section Facts.
Context (nfc : pystr → pystr) `{SigningLaws}.

Lemma keys_exact_split d names : keys_within d names = true → keys_cover d names = true → keys_exact d names = true.
Proof. unfold keys_exact. by intros -> ->. Qed.

Lemma norm_core_scope v : core_scope_ok v = true → norm v = v.
Proof.
  unfold core_scope_ok. rewrite !andb_true_iff. intros [[[_ Hs] _] _].
  destruct v as [| | | | |l|d]; try done. simpl. f_equal.
  rewrite forallb_forall in Hs. rewrite <- (list_fmap_id l) at 2. apply list_fmap_ext. intros i x Hx.
  specialize (Hs x ltac:(by apply list_elem_of_In, list_elem_of_lookup; exists i)). by destruct x.
Qed.

(** The checks of [pack_protocol] before encoding. *)
Definition envelope_ok (e : pydict) : Prop :=
  keys_exact e envelope_fields = true ∧ eq_str (vget_none e "schema") "shadow6.protocol-envelope.v1" = true ∧
  int_between 1 (vget_none e "version") 1 = true ∧
  (∃ p, vget_none e "purpose" = VStr p ∧ 1 ≤ zlen p ≤ 64) ∧ core_scope_ok (vget_none e "core") = true ∧
  in_strs (vget_none e "role") envelope_roles = true ∧ is_dict (vget_none e "identity") = true ∧
  is_list (vget_none e "routes") = true ∧ is_dict (vget_none e "components") = true ∧
  is_dict (vget_none e "credentials") = true.

Lemma pack_protocol_Ok v token :
  pack_protocol nfc v = Ok token ↔
  ∃ e, v = VDict e ∧ envelope_ok e ∧
    is_ok (portable_json nfc PROTOCOL_MAX_BYTES (JBytes (dumps_canonical v))) = true ∧
    token = make_token PROTOCOL_PREFIX (dumps_canonical v) ∧ zlen token ≤ PROTOCOL_MAX_BYTES.
Proof.
  unfold pack_protocol, envelope_ok. split.
  - intros Hp. destruct v as [| | | | | |e]; try done. exists e.
    repeat (apply bind_Ok_inv in Hp as (? & ? & Hp)).
    assert (token = make_token PROTOCOL_PREFIX (dumps_canonical (VDict e))) as -> by (by injection Hp). clear Hp.
    repeat match goal with Hg : raise_if _ _ _ = Ok _ |- _ => apply raise_if_Ok in Hg end. bool_simpl.
    match goal with Hg : match vget_none e "purpose" with _ => _ end = false |- _ => rename Hg into Hpu end.
    destruct (vget_none e "purpose") as [| | | |p| |]; try done. apply negb_false_iff in Hpu. rewrite between_spec in Hpu.
    match goal with Hg : portable_json _ _ _ = Ok _ |- _ => rewrite Hg end.
    split_and!; try done; try lia; [by apply keys_exact_split|by exists p].
  - intros (e & -> & (Hk & -> & -> & (p & -> & Hp) & -> & -> & Hi & Hr & Hc & Hcr) & Hj & -> & Hl).
    apply andb_true_iff in Hk as [-> ->]. rewrite Hi, Hr, Hc, Hcr. rewrite (proj2 (between_spec _ _ _) Hp).
    cbn [negb orb raise_if mbind result_bind]. destruct (portable_json nfc _ _); [|done].
    cbn [mbind result_bind]. replace (_ <? _) with false by lia. done.
Qed.

Lemma envelope_ok_norm e : dwf e → envelope_ok e → envelope_ok (sort_keys (nfields e)).
Proof.
  intros Hd (Hk & Hs & Hv & (p & Hp & Hl) & Hc & Hr & Hi & Hro & Hco & Hcr). unfold envelope_ok.
  rewrite !vget_readback by done. rewrite (norm_core_scope _ Hc). split_and!; try done.
  - by apply keys_exact_readback.
  - apply eq_str_spec in Hs. by rewrite Hs.
  - apply int_between_spec in Hv as (z & -> & Hz). by apply int_between_spec; exists z.
  - exists p. by rewrite Hp.
  - apply in_strs_spec in Hr as (s & Hs' & ->). apply in_strs_spec. by exists s.
  - apply is_dict_spec in Hi as [d ->]. done.
  - apply is_list_spec in Hro as [d ->]. done.
  - apply is_dict_spec in Hco as [d ->]. done.
  - apply is_dict_spec in Hcr as [d ->]. done.
Qed.

(** Reading back what was packed. *)
Lemma unpack_pack_protocol v token :
  json_ok v → pack_protocol nfc v = Ok token →
  unpack_protocol nfc (VStr token) = Ok (norm v) ∧ pack_protocol nfc (norm v) = Ok token.
Proof.
  intros Hj Hp. pose proof Hp as (e & -> & He & Hok & -> & Hl)%pack_protocol_Ok.
  assert (dwf e) as Hd by (by inversion Hj).
  destruct (portable_json nfc PROTOCOL_MAX_BYTES (JBytes (dumps_canonical (VDict e)))) as [w|] eqn:Ew; [|done].
  pose proof (strict_json_of_print _ _ _ _ _ Hj Ew) as (-> & _ & _).
  assert (pack_protocol nfc (norm (VDict e)) = Ok (make_token PROTOCOL_PREFIX (dumps_canonical (VDict e)))) as Hp'.
  { apply pack_protocol_Ok. exists (sort_keys (nfields e)). rewrite dumps_norm, Ew. split_and!; try done.
    by apply envelope_ok_norm. }
  split; [|done]. unfold unpack_protocol.
  assert (starts_with PROTOCOL_PREFIX (make_token PROTOCOL_PREFIX (dumps_canonical (VDict e))) = true) as -> by apply starts_with_app.
  replace (PROTOCOL_MAX_BYTES <? _) with false by lia. cbn [negb orb raise_if mbind result_bind].
  rewrite token_bytes_make.
  - cbn [mbind result_bind]. rewrite Ew. cbn [reraise_all mbind result_bind]. by rewrite Hp'.
  - apply ascii_wf. by apply dumps_canonical_ascii.
  - destruct (dumps_canonical_dict e) as [r ->]. done.
Qed.
End Facts.
