(* ===== verification/CredentialFacts.v ===== *)
(** * Passports and Visas

    What is issued is accepted until it expires, a Visa descends from its
    Passport and never outlives it, and what an accepted credential
    guarantees. *)
From S2P Require Import Prelude Dict PyStr PyText PyValue Json JsonRound JsonDocs StrictJson Sha256.
From S2P Require Import Signing Base64 Net JoinCode.

(** ** Sizes and character classes *)
Lemma urlsafe_encode_grows b : zlen b ≤ zlen (urlsafe_encode b).
Proof.
  unfold urlsafe_encode. induction b as [|x|x y|x y z b IH] using bytes_ind3; cbn [b64_encode]; rewrite ?zlen_cons, ?zlen_nil; lia.
Qed.

Lemma scope_char_ascii s : forallb scope_char s = true → forallb is_ascii s = true ∧ 0 ∉ s.
Proof.
  rewrite !forallb_forall. intros Hs. assert (∀ c, In c s → 1 ≤ c ≤ 127) as Hc.
  { intros c Hc. specialize (Hs c Hc). unfold scope_char, is_alnum, is_digit, is_lower, is_upper, one_of in Hs.
    rewrite !orb_true_iff, !between_spec in Hs. destruct Hs as [Hs|Hs]; [lia|].
    apply bool_decide_eq_true in Hs. change (str "._:-") with [46; 95; 58; 45] in Hs.
    repeat (apply elem_of_cons in Hs as [->|Hs]; [lia|]). by apply not_elem_of_nil in Hs. }
  split.
  - intros c Hin. apply between_spec. specialize (Hc c Hin). lia.
  - intros Hin%list_elem_of_In. specialize (Hc 0 Hin). lia.
Qed.

Lemma hex_chars_ascii s : forallb is_hex_lower s = true → forallb is_ascii s = true ∧ 0 ∉ s.
Proof.
  rewrite !forallb_forall. intros Hs. assert (∀ c, In c s → 1 ≤ c ≤ 127) as Hc.
  { intros c Hc. specialize (Hs c Hc). unfold is_hex_lower, is_digit in Hs.
    rewrite orb_true_iff, !between_spec in Hs. lia. }
  split.
  - intros c Hin. apply between_spec. specialize (Hc c Hin). lia.
  - intros Hin%list_elem_of_In. specialize (Hc 0 Hin). lia.
Qed.

Section Credentials.
Context (nfc : pystr → pystr) `{SigningLaws}.
(** NFC leaves ASCII text alone. *)
Context (nfc_ascii : ∀ s, forallb is_ascii s = true → nfc s = s).

Local Notation portable := (portable nfc STRING_LIMIT).
Local Notation str_portable := (str_portable nfc STRING_LIMIT).

Lemma ascii_portable s : forallb is_ascii s = true → 0 ∉ s → zlen s ≤ STRING_LIMIT → str_portable s.
Proof.
  intros Ha Hn Hl. unfold StrictJson.str_portable. split_and!; [exists s|done|by apply nfc_ascii].
  split; [by apply utf8_ascii|done].
Qed.

Lemma lit_portable s : (bool_decide (forallb is_ascii (str s) = true) && bool_decide (0 ∉ str s) && (zlen (str s) <=? STRING_LIMIT)) = true →
  str_portable (str s).
Proof. rewrite !andb_true_iff, !bool_decide_eq_true. intros [[? ?] ?]. apply ascii_portable; try done. lia. Qed.

Lemma hex_portable b n : wf_bytes b = true → zlen b = n → 2 * n ≤ STRING_LIMIT → str_portable (bytes_hex b).
Proof.
  intros Hw Hl Hn. destruct (hex_chars_ascii _ (bytes_hex_lower b Hw)). apply ascii_portable; try done.
  unfold zlen in *. rewrite bytes_hex_length. lia.
Qed.

Lemma scope_portable lo hi s : re_class scope_char lo hi s = true → hi ≤ STRING_LIMIT → str_portable s.
Proof.
  unfold re_class. rewrite andb_true_iff, between_spec. intros [Hl Hs] Hh. destruct (scope_char_ascii s Hs).
  apply ascii_portable; try done. lia.
Qed.

Lemma scope_list_portable n l : forallb (scope_item n) l = true → n ≤ STRING_LIMIT →
  portable 1 (VList (VStr <$> sorted_set l)).
Proof.
  intros Hl Hn. rewrite forallb_forall in Hl. constructor; [lia|]. apply Forall_fmap, Forall_forall. intros s Hs.
  rewrite elem_of_sorted_set in Hs.
  apply list_elem_of_In, Hl in Hs. constructor; [lia|]. by apply (scope_portable 1 n).
Qed.

(** ** Reading a credential back *)
Lemma read_back limit d :
  portable 0 (VDict d) → 1 ≤ limit → zlen (_credential_bytes d) ≤ limit →
  portable_json nfc limit (JBytes (_credential_bytes d)) = Ok (VDict (sort_keys (nfields d))).
Proof.
  intros Hp Hl Hz. unfold portable_json, _credential_bytes, dumps_canonical in *.
  rewrite (strict_json_dumps nfc limit STRING_LIMIT canonical_opts (VDict d));
    first [done|apply canonical_opts_ok|unfold STRING_LIMIT; lia].
Qed.

Lemma verify_intro now d prefix schema issued expires req :
  portable 0 (VDict d) → credential_schema prefix = Some schema →
  zlen (make_token prefix (_credential_bytes d)) ≤ MAX_CREDENTIAL_BYTES →
  eq_str (vget_none d "schema") schema = true →
  keys_within d (credential_fields prefix ++ ["issuer"; "signature"]) = true →
  keys_cover d (credential_fields prefix) = true →
  vget_none d "issued_at" = VInt issued → vget_none d "expires_at" = VInt expires → issued ≤ expires → now < expires →
  check_signature (sort_keys (nfields d)) req = Ok tt →
  (prefix = VISA_PREFIX → ∃ pe, vget_none d "passport_expires_at" = VInt pe ∧ expires ≤ pe) →
  verify_credential nfc now (VStr (make_token prefix (_credential_bytes d))) prefix req = Ok (sort_keys (nfields d)).
Proof.
  intros Hp Hs Hl Hsch Hkw Hkc Hi He Hie Hnow Hsig Hv.
  assert (json_ok (VDict d)) as Hj by (by eapply portable_json_ok). assert (dwf d) as Hd by (by inversion Hj).
  assert (zlen (_credential_bytes d) ≤ MAX_CREDENTIAL_BYTES) as Hz.
  { pose proof (urlsafe_encode_grows (_credential_bytes d)). unfold make_token in Hl. rewrite zlen_app in Hl.
    pose proof (zlen_nonneg prefix). lia. }
  unfold verify_credential.
  assert (starts_with prefix (make_token prefix (_credential_bytes d)) = true) as -> by apply starts_with_app.
  replace (MAX_CREDENTIAL_BYTES <? _) with false by lia. cbn [negb orb raise_if mbind result_bind].
  rewrite token_bytes_make; [| |].
  2:{ apply ascii_wf. by apply dumps_canonical_ascii. }
  2:{ destruct (dumps_canonical_dict d) as [r Er]. unfold _credential_bytes. by rewrite Er. }
  cbn [mbind result_bind]. rewrite (read_back MAX_CREDENTIAL_BYTES d Hp ltac:(done) Hz).
  cbn [reraise_all mbind result_bind]. rewrite Hs, !vget_readback by done.
  apply eq_str_spec in Hsch. rewrite Hsch.
  assert (eq_str (norm (VStr (str schema))) schema = true) as -> by (by apply eq_str_spec).
  assert (keys_within (sort_keys (nfields d)) (credential_fields prefix ++ ["issuer"; "signature"]) = true) as ->.
  { apply keys_within_perm with d; [|done]. apply keys_readback. }
  assert (keys_cover (sort_keys (nfields d)) (credential_fields prefix) = true) as ->.
  { apply keys_cover_perm with d; [|done]. apply keys_readback. }
  rewrite Hi, He. cbn [negb orb raise_if mbind result_bind norm].
  replace (expires <? issued) with false by lia. replace (expires <=? now) with false by lia.
  cbn [orb raise_if mbind result_bind]. rewrite Hsig. cbn [mbind result_bind].
  case_bool_decide as Ev; [|done]. destruct (Hv Ev) as (pe & -> & Hpe). cbn [norm int_gt].
  replace (pe <? expires) with false by lia. done.
Qed.

(** ** Signatures *)
Lemma sign_claim_Ok body key signed :
  bool_decide (NoDup (body ++ [("issuer", VNone); ("signature", VNone)]).*1) = true →
  _sign_claim (mkdict body) key = Ok signed →
  let issuer := ("issuer"%string, VStr (bytes_hex (public_key key))) in
  signed = mkdict ((body ++ [issuer]) ++
             [("signature"%string, VStr (bytes_hex (sign key (_credential_bytes (mkdict (body ++ [issuer]))))))]).
Proof.
  intros Hn Hs issuer. unfold _sign_claim in Hs. apply bind_Ok_inv in Hs as ([] & _ & Hs).
  rewrite vset_mkdict in Hs.
  - rewrite vset_mkdict in Hs; [by injection Hs|]. apply bool_decide_eq_true in Hn. rewrite fmap_app in *.
    rewrite elem_of_app. intros [Hin|Hin].
    + apply NoDup_app in Hn as (_ & Hd & _). apply (Hd _ Hin). right. left.
    + by apply list_elem_of_singleton in Hin.
  - apply bool_decide_eq_true in Hn. rewrite fmap_app in Hn. apply NoDup_app in Hn as (_ & Hd & _).
    intros Hin. apply (Hd _ Hin). left.
Qed.

Lemma check_signature_readback body key req :
  bool_decide (NoDup (body ++ [("signature", VNone)]).*1) = true →
  dget body "issuer" = Some (VStr (bytes_hex (public_key key))) →
  let signed := mkdict (body ++ [("signature"%string, VStr (bytes_hex (sign key (_credential_bytes (mkdict body)))))]) in
  check_signature (sort_keys (nfields signed)) req = Ok tt.
Proof.
  intros Hn Hi signed.
  assert (bool_decide (NoDup (body ++ [("signature"%string, VStr (bytes_hex (sign key (_credential_bytes (mkdict body)))))]).*1) = true) as Hn'.
  { rewrite !fmap_app in *. done. }
  assert (dwf signed) as Hwf by (by apply mkdict_wf).
  unfold check_signature. rewrite !vget_readback by done.
  assert (vget_none signed "signature" = VStr (bytes_hex (sign key (_credential_bytes (mkdict body))))) as ->.
  { apply vget_hit. rewrite dget_app. destruct (dget body "signature") as [x|] eqn:E; [|done].
    apply bool_decide_eq_true in Hn'. rewrite fmap_app in Hn'. apply NoDup_app in Hn' as (_ & Hd & _).
    destruct (Hd "signature"%string); [by eapply (dget_Some_key body)|left]. }
  assert (vget_none signed "issuer" = VStr (bytes_hex (public_key key))) as ->.
  { apply vget_hit. by rewrite dget_app, Hi. }
  cbn [norm].
  assert (hex_lower 128 (bytes_hex (sign key (_credential_bytes (mkdict body)))) = true) as ->.
  { apply (hex_lower_bytes_hex _ 64); [apply sign_wf|]. unfold zlen. by rewrite sign_length. }
  assert (hex_lower 64 (bytes_hex (public_key key)) = true) as ->.
  { apply (hex_lower_bytes_hex _ 32); [apply public_key_wf|]. unfold zlen. by rewrite public_key_length. }
  cbn [negb orb raise_if mbind result_bind].
  rewrite !fromhex_hex by (apply sign_wf || apply public_key_wf).
  assert (_credential_bytes (ddel (sort_keys (nfields signed)) (str "signature")) = _credential_bytes (mkdict body)) as ->.
  { unfold _credential_bytes, dumps_canonical, dumps. cbn [do_sort canonical_opts].
    unfold signed. rewrite norm_ddel by done. by rewrite ddel_mkdict_snoc. }
  rewrite verify_sign. done.
Qed.

(** ** Passports *)
Definition passport_body (now : Z) (subject : pystr) (components roles : list pystr) (ttl : Z) : list (string * pyval) :=
  [("schema", txt PASSPORT_SCHEMA); ("subject", VStr subject);
   ("components", VList (VStr <$> sorted_set components)); ("roles", VList (VStr <$> sorted_set roles));
   ("issued_at", VInt now); ("expires_at", VInt (now + ttl))]%string.

Definition with_issuer (body : list (string * pyval)) (key : bytes) : list (string * pyval) :=
  body ++ [("issuer"%string, VStr (bytes_hex (public_key key)))].
Definition with_signature (body : list (string * pyval)) (key : bytes) : pydict :=
  mkdict (with_issuer body key ++
          [("signature"%string, VStr (bytes_hex (sign key (_credential_bytes (mkdict (with_issuer body key))))))]).

Lemma key_portable key : str_portable (bytes_hex (public_key key)).
Proof.
  apply (hex_portable _ 32); [apply public_key_wf|unfold zlen; by rewrite public_key_length|unfold STRING_LIMIT; lia].
Qed.
Lemma signature_portable key m : str_portable (bytes_hex (sign key m)).
Proof. apply (hex_portable _ 64); [apply sign_wf|unfold zlen; by rewrite sign_length|unfold STRING_LIMIT; lia]. Qed.

(** The literal names and the scalar values of a display. *)
Ltac portable_fields :=
  repeat (apply Forall_cons; split; [split; [apply lit_portable; reflexivity|cbn [snd]]|]);
  try exact (Forall_nil_2 _);
  try (apply port_str; [lia|first [apply lit_portable; reflexivity|done]]); try (apply port_int; lia).

(** A display of portable fields is portable. *)
Lemma portable_display l :
  bool_decide (NoDup l.*1) = true →
  Forall (λ kv : string * pyval, str_portable (str kv.1) ∧ portable 1 kv.2) l → portable 0 (VDict (mkdict l)).
Proof.
  intros Hn Hl. constructor; [lia|by apply mkdict_wf|intros _; lia|]. unfold mkdict. by apply Forall_fmap.
Qed.

Lemma portable_signed body key :
  bool_decide (NoDup (body ++ [("issuer", VNone); ("signature", VNone)]).*1) = true →
  Forall (λ kv : string * pyval, str_portable (str kv.1) ∧ portable 1 kv.2) body →
  portable 0 (VDict (with_signature body key)).
Proof.
  intros Hn Hb. unfold with_signature, with_issuer. rewrite <- app_assoc. apply portable_display.
  - rewrite !fmap_app in *. done.
  - apply Forall_app. split; [done|].
    apply Forall_cons; split; [split; [apply lit_portable; reflexivity|constructor; [lia|apply key_portable]]|].
    apply Forall_cons; split; [split; [apply lit_portable; reflexivity|constructor; [lia|apply signature_portable]]|done].
Qed.

Lemma signed_checks body key req :
  bool_decide (NoDup (body ++ [("issuer", VNone); ("signature", VNone)]).*1) = true →
  dget body "issuer" = None →
  check_signature (sort_keys (nfields (with_signature body key))) req = Ok tt.
Proof.
  intros Hn Hi. unfold with_signature. apply check_signature_readback.
  - unfold with_issuer. rewrite <- app_assoc. rewrite !fmap_app in *. done.
  - unfold with_issuer. rewrite dget_app, Hi. done.
Qed.

Lemma issue_passport_Ok now subject components roles ttl key token :
  issue_passport now subject components roles ttl (Some key) = Ok token →
  1 ≤ zlen subject ≤ 128 ∧ 1 ≤ ttl ≤ 604800 ∧ forallb (scope_item 64) components = true ∧
  forallb (scope_item 32) roles = true ∧
  token = make_token PASSPORT_PREFIX (_credential_bytes (with_signature (passport_body now subject components roles ttl) key)).
Proof.
  unfold issue_passport. intros Hp. apply bind_Ok_inv in Hp as ([] & G1 & Hp). apply bind_Ok_inv in Hp as ([] & G2 & Hp).
  apply bind_Ok_inv in Hp as ([] & G3 & Hp). apply bind_Ok_inv in Hp as (claim & Hs & Hp).
  apply raise_if_Ok in G1, G2, G3. bool_simpl. rewrite between_spec in *.
  apply (sign_claim_Ok (passport_body now subject components roles ttl)) in Hs; [|reflexivity]. subst claim.
  split_and!; try done; try lia. by injection Hp.
Qed.

Lemma passport_verifies now t subject components roles ttl key token req :
  issue_passport now subject components roles ttl (Some key) = Ok token →
  str_portable subject → zlen token ≤ MAX_CREDENTIAL_BYTES →
  - MAX_SAFE ≤ now → now + ttl ≤ MAX_SAFE → t < now + ttl →
  verify_credential nfc t (VStr token) PASSPORT_PREFIX req =
  Ok (sort_keys (nfields (with_signature (passport_body now subject components roles ttl) key))).
Proof.
  intros (Hsub & Httl & Hc & Hr & ->)%issue_passport_Ok Hps Hl Hn1 Hn2 Ht.
  apply (verify_intro _ _ _ PASSPORT_SCHEMA now (now + ttl)); try done; try lia.
  - apply portable_signed; [reflexivity|].
    portable_fields; first [apply (scope_list_portable 64); [done|unfold STRING_LIMIT; lia]
                           |apply (scope_list_portable 32); [done|unfold STRING_LIMIT; lia]].
  - by apply signed_checks.
Qed.

(** ** Visas *)
Definition visa_body (now : Z) (subject : pyval) (audience component digest : pystr) (ttl expires : Z)
    : list (string * pyval) :=
  [("schema", txt VISA_SCHEMA); ("subject", subject); ("audience", VStr audience); ("component", VStr component);
   ("passport_expires_at", VInt expires); ("passport_digest", VStr digest);
   ("issued_at", VInt now); ("expires_at", VInt (Z.min (now + ttl) expires))]%string.

Lemma issue_visa_Ok now passport audience component ttl key token claim expires :
  verify_credential nfc now passport PASSPORT_PREFIX false = Ok claim →
  vget_none claim "expires_at" = VInt expires →
  issue_visa nfc now passport audience component ttl (Some key) = Ok token →
  re_class scope_char 1 128 audience = true ∧ re_class scope_char 1 64 component = true ∧ 1 ≤ ttl ≤ 86400 ∧
  outside component claim "components" = Ok false ∧
  vget_none claim "issuer" = VStr (bytes_hex (public_key key)) ∧
  token = make_token VISA_PREFIX (_credential_bytes (with_signature
            (visa_body now (vget_none claim "subject") audience component (passport_digest claim) ttl expires) key)).
Proof.
  intros Hv He Hi. unfold issue_visa in Hi. rewrite Hv in Hi. cbn [mbind result_bind] in Hi.
  apply bind_Ok_inv in Hi as ([] & G1 & Hi). apply bind_Ok_inv in Hi as ([] & G2 & Hi).
  apply bind_Ok_inv in Hi as (out & Ho & Hi). apply bind_Ok_inv in Hi as ([] & G3 & Hi).
  apply bind_Ok_inv in Hi as ([] & G4 & Hi). rewrite He in Hi. apply bind_Ok_inv in Hi as (visa & Hs & Hi).
  apply bind_Ok_inv in Hi as ([] & G5 & Hi). apply raise_if_Ok in G1, G2, G3, G4, G5. bool_simpl. subst out.
  rewrite between_spec in *.
  apply (sign_claim_Ok (visa_body now (vget_none claim "subject") audience component (passport_digest claim) ttl expires))
    in Hs; [|reflexivity]. subst visa.
  split_and!; try done; try lia; [|by injection Hi].
  match goal with Hq : py_eqb (vget_none _ "issuer") _ = true |- _ => rename Hq into G6 end.
  doc_lookup. destruct (vget_none claim "issuer") as [| | | |s| |]; try done. apply bool_decide_eq_true in G6. by rewrite G6.
Qed.

Lemma visa_verifies now t subject audience component digest ttl expires key req :
  re_class scope_char 1 128 audience = true → re_class scope_char 1 64 component = true → 1 ≤ ttl ≤ 86400 →
  str_portable subject → hex_lower 64 digest = true → - MAX_SAFE ≤ now → now < expires → expires ≤ MAX_SAFE →
  t < Z.min (now + ttl) expires →
  let visa := with_signature (visa_body now (VStr subject) audience component digest ttl expires) key in
  zlen (make_token VISA_PREFIX (_credential_bytes visa)) ≤ MAX_CREDENTIAL_BYTES →
  verify_credential nfc t (VStr (make_token VISA_PREFIX (_credential_bytes visa))) VISA_PREFIX req =
  Ok (sort_keys (nfields visa)).
Proof.
  intros Ha Hc Httl Hs Hd Hn Hne He Ht visa Hl.
  apply (verify_intro _ _ _ VISA_SCHEMA now (Z.min (now + ttl) expires)); try done; try lia.
  - apply portable_signed; [reflexivity|].
    portable_fields.
    + apply port_str; [lia|]. by apply (scope_portable 1 128).
    + apply port_str; [lia|]. by apply (scope_portable 1 64).
    + apply port_str; [lia|]. unfold hex_lower, re_class in Hd. apply andb_true_iff in Hd as [Hd1 Hd2].
      destruct (hex_chars_ascii _ Hd2). apply between_spec in Hd1. apply ascii_portable; try done. unfold STRING_LIMIT. lia.
  - by apply signed_checks.
  - intros _. exists expires. split; [done|lia].
Qed.

Lemma has_key_readback d k : has_key d k = true → has_key (sort_keys (nfields d)) k = true.
Proof.
  intros Hk. pose proof (keys_cover_perm d (sort_keys (nfields d)) [k] (keys_readback d)) as Hc.
  unfold keys_cover in Hc. simpl in Hc. rewrite !andb_true_r in Hc. by apply Hc.
Qed.

(** A Visa issued from a Passport is accepted beside it, for its component and
    audience. *)
Lemma visa_admitted now passport audience component ttl key p subject expires :
  vget_none p "subject" = VStr subject → vget_none p "issuer" = VStr (bytes_hex (public_key key)) →
  let visa := with_signature (visa_body now (VStr subject) audience component (passport_digest p) ttl expires) key in
  passport = Some p →
  check_visa (sort_keys (nfields visa)) passport (Some component) (Some audience) = Ok tt.
Proof.
  intros Hs Hi visa ->. assert (dwf visa) as Hw by (apply mkdict_wf; reflexivity).
  assert (∀ s, py_eqb (VStr s) (VStr s) = true) as Heq by (intros s; simpl; by apply bool_decide_eq_true).
  unfold check_visa, require_credential_scope. rewrite (has_key_readback visa "component") by reflexivity.
  rewrite !vget_readback by done. unfold visa, with_signature. doc_lookup.
  cbn [norm]. rewrite Hs, Hi. rewrite !Heq. done.
Qed.
End Credentials.

(** ** Documents of credentials *)
Lemma portable_field nfc sl n d k v : portable nfc sl n (VDict d) → vget_none d k = v → v ≠ VNone → portable nfc sl (n + 1) v.
Proof.
  intros Hp Hv Hn. inversion Hp as [| | | | |? kvs _ _ _ Hf]; subst. unfold vget_none, vget in *. destruct (dget d (str k)) as [w|] eqn:E; [|done].
  apply dget_elem_of in E. rewrite Forall_forall in Hf. by apply (Hf (str k, w)).
Qed.

Lemma passport_json_ok {Sg : Signing} {Laws : SigningLaws} now subject components roles ttl key :
  forallb is_scalar subject = true → int_ok now → int_ok (now + ttl) → forallb (scope_item 64) components = true → forallb (scope_item 32) roles = true →
  json_ok (VDict (with_signature (passport_body now subject components roles ttl) key)).
Proof.
  intros Hs Hi He Hc Hr. assert (∀ s : pystr, forallb is_ascii s = true → id s = s) as Hid by done.
  unfold with_signature, with_issuer. rewrite <- app_assoc. apply json_ok_mkdict; [reflexivity|]. apply Forall_app. split.
  - repeat (apply Forall_cons; split; [cbn [snd]|]); try exact (Forall_nil_2 _); try (by constructor); try apply json_ok_lit.
    + apply (portable_json_ok id STRING_LIMIT 1), (scope_list_portable id Hid 64); [done|unfold STRING_LIMIT; lia].
    + apply (portable_json_ok id STRING_LIMIT 1), (scope_list_portable id Hid 32); [done|unfold STRING_LIMIT; lia].
  - repeat (apply Forall_cons; split; [cbn [snd]|]); try exact (Forall_nil_2 _).
    + apply (portable_json_ok id STRING_LIMIT 1). constructor; [lia|]. apply (key_portable id Hid).
    + apply (portable_json_ok id STRING_LIMIT 1). constructor; [lia|]. apply (signature_portable id Hid).
Qed.
