(* ===== verification/AdmissionFacts.v ===== *)
(** * Admission: soundness of verification, join codes and derived keys *)
From S2P Require Import Prelude Dict PyStr PyText PyValue Json JsonRound JsonDocs StrictJson Sha256.
From S2P Require Import Signing Base64 Net JoinCode.

Section Admission.
Context (nfc : pystr → pystr) `{Signing}.

(** The signature of a claim verifies under the issuer it names. *)
Definition signed_claim (value : pydict) : Prop :=
  ∃ issuer signature key s,
    vget_none value "issuer" = VStr issuer ∧ vget_none value "signature" = VStr signature ∧
    fromhex issuer = Some key ∧ fromhex signature = Some s ∧
    verify_sig key s (_credential_bytes (ddel value (str "signature"))) = true.

Lemma check_signature_sound value req :
  check_signature value req = Ok tt →
  signed_claim value ∨ (req = false ∧ vget_none value "issuer" = VNone ∧ vget_none value "signature" = VNone).
Proof.
  unfold check_signature, signed_claim. intros Hc.
  destruct (vget_none value "signature") as [| | | |sg| |], (vget_none value "issuer") as [| | | |is_| |]; try done.
  - right. apply raise_if_Ok in Hc. by destruct req.
  - left. apply reraise_all_Ok in Hc. apply bind_Ok_inv in Hc as ([] & _ & Hc).
    destruct (fromhex is_) as [key|] eqn:E1; [|done]. destruct (fromhex sg) as [s|] eqn:E2; [|done].
    apply raise_if_Ok in Hc. apply negb_false_iff in Hc. by exists is_, sg, key, s.
Qed.

(** What an accepted credential guarantees. *)
Definition credential_ok (now : Z) (prefix : pystr) (req : bool) (value : pydict) : Prop :=
  ∃ issued expires,
    vget_none value "issued_at" = VInt issued ∧ vget_none value "expires_at" = VInt expires ∧
    issued ≤ expires ∧ now < expires ∧ (req = true → signed_claim value) ∧
    (prefix = VISA_PREFIX → int_gt expires (vget_none value "passport_expires_at") = Ok false).

Lemma verify_credential_sound now token prefix req value :
  verify_credential nfc now token prefix req = Ok value → credential_ok now prefix req value.
Proof.
  unfold verify_credential. intros Hv. destruct token as [| | | |token| |]; try done.
  apply bind_Ok_inv in Hv as ([] & _ & Hv). apply bind_Ok_inv in Hv as (v & _ & Hv).
  destruct (credential_schema prefix); [|done]. destruct v as [| | | | | |d]; try done.
  apply bind_Ok_inv in Hv as ([] & _ & Hv). apply bind_Ok_inv in Hv as ([] & _ & Hv).
  destruct (vget_none d "issued_at") as [| |issued| | | |] eqn:Ei; try done.
  destruct (vget_none d "expires_at") as [| |expires| | | |] eqn:Ee; try done.
  apply bind_Ok_inv in Hv as ([] & Ht & Hv). apply bind_Ok_inv in Hv as ([] & Hs & Hv).
  apply raise_if_Ok in Ht. apply orb_false_iff in Ht as [Ht1 Ht2]. apply check_signature_sound in Hs.
  assert (req = true → signed_claim d) as Hsig by (intros ->; by destruct Hs as [?|[? _]]).
  case_bool_decide as Ep.
  - apply bind_Ok_inv in Hv as (out & Ho & Hv). apply bind_Ok_inv in Hv as ([] & Hr & Hv).
    apply raise_if_Ok in Hr. subst out. assert (d = value) as -> by (by injection Hv).
    exists issued, expires. split_and!; try done; lia.
  - assert (d = value) as -> by (by injection Hv). exists issued, expires. split_and!; try done; lia.
Qed.

Lemma claim_of_app d d' name :
  claim_of (d ++ d') name = match vget d name with Some _ => claim_of d name | None => claim_of d' name end.
Proof. unfold claim_of, vget. rewrite dget_app. by destruct (dget d (str name)). Qed.

Lemma resolve_credentials_Ok now credentials req claims :
  resolve_credentials nfc now credentials req = Ok claims →
  (∀ p, claim_of claims "passport" = Some p → credential_ok now PASSPORT_PREFIX req p) ∧
  (∀ v, claim_of claims "visa" = Some v → credential_ok now VISA_PREFIX req v).
Proof.
  unfold resolve_credentials. intros Hr. destruct credentials as [| | | | | |c]; try done. cbv zeta in Hr.
  apply bind_Ok_inv in Hr as (ps & Hp & Hr). apply bind_Ok_inv in Hr as (vs & Hv & Hr).
  apply bind_Ok_inv in Hr as (is_ & Hi & Hr). assert (ps ++ vs ++ is_ = claims) as <- by (by injection Hr). clear Hr.
  assert (ps = [] ∨ ∃ p, ps = [(str "passport", VDict p)] ∧ credential_ok now PASSPORT_PREFIX req p) as Hps.
  { destruct (is_none (vget_none c "passport")) in Hp; [left; by injection Hp|]. apply bind_Ok_inv in Hp as (p & Hp & E). right. exists p.
    apply verify_credential_sound in Hp. by injection E. }
  assert (vs = [] ∨ ∃ v, vs = [(str "visa", VDict v)] ∧ credential_ok now VISA_PREFIX req v) as Hvs.
  { destruct (is_none (vget_none c "visa")) in Hv; [left; by injection Hv|]. apply bind_Ok_inv in Hv as (v & Hv & E). right. exists v.
    apply verify_credential_sound in Hv. by injection E. }
  assert (is_ = [] ∨ ∃ i, is_ = [(str "public6_invitation", VDict i)]) as His.
  { destruct (is_none (vget_none c "public6_invitation")) in Hi; [left; by injection Hi|]. apply bind_Ok_inv in Hi as (i & Hi & E). right. exists i. by injection E. }
  clear Hp Hv Hi. unfold claim_of, vget.
  destruct Hps as [->|(p & -> & Hp)], Hvs as [->|(v & -> & Hv)], His as [->|(i & ->)]; (split; intros x Hx);
    try discriminate Hx; by injection Hx as <-.
Qed.

(** What a successful [resolve_protocol_envelope] guarantees. *)
Lemma resolve_envelope_sound now token component role audience allowed visa_free req e claims :
  resolve_protocol_envelope nfc now token component role audience allowed visa_free req = Ok (e, claims) →
  unpack_protocol nfc token = Ok e ∧
  (∀ p, claim_of claims "passport" = Some p →
    credential_ok now PASSPORT_PREFIX req p ∧ require_credential_scope p component role None = Ok tt) ∧
  (∀ v, claim_of claims "visa" = Some v → ∃ p, claim_of claims "passport" = Some p ∧
    credential_ok now VISA_PREFIX req v ∧ check_visa v (Some p) component audience = Ok tt).
Proof.
  unfold resolve_protocol_envelope. intros Hr.
  apply bind_Ok_inv in Hr as (env & Hu & Hr). apply bind_Ok_inv in Hr as (d & _ & Hr).
  apply bind_Ok_inv in Hr as (cs & _ & Hr). apply bind_Ok_inv in Hr as ([] & _ & Hr).
  apply bind_Ok_inv in Hr as ([] & _ & Hr). apply bind_Ok_inv in Hr as (adm & _ & Hr).
  apply bind_Ok_inv in Hr as ([] & _ & Hr). apply bind_Ok_inv in Hr as (cl & Hc & Hr).
  apply bind_Ok_inv in Hr as ([] & Hp & Hr). apply bind_Ok_inv in Hr as ([] & Hv & Hr).
  assert (env = e ∧ cl = claims) as [-> ->] by (by injection Hr). clear Hr.
  apply resolve_credentials_Ok in Hc as [Hc1 Hc2]. split; [done|]. split.
  - intros p Ep. rewrite Ep in Hp. split; [by apply Hc1|done].
  - intros v Ev. rewrite Ev in Hv. destruct (claim_of claims "passport") as [p|] eqn:Ep.
    + exists p. split_and!; [done|by apply Hc2|done].
    + unfold check_visa in Hv. apply bind_Ok_inv in Hv as ([] & _ & Hv). done.
Qed.

(** The role a Passport must carry to be admitted in it. *)
Lemma scope_role p component role :
  require_credential_scope p component (Some role) None = Ok tt → outside role p "roles" = Ok false.
Proof.
  unfold require_credential_scope. intros Hs. apply bind_Ok_inv in Hs as ([] & _ & Hs).
  apply bind_Ok_inv in Hs as ([] & Ho & _). apply bind_Ok_inv in Ho as (out & Ho & Hr).
  apply raise_if_Ok in Hr. by subst out.
Qed.
End Admission.

(** ** Derived keys *)
Lemma known_purpose_text p : known_purpose p = true → 0 ∉ p.
Proof.
  unfold known_purpose. rewrite orb_true_iff. intros Hp.
  assert (∃ s, s ∈ (str <$> ["admission"; "gate"]) ++ (core ← CORE_NAMES; (λ role, core_purpose (str core) (str role)) <$> ["client"; "agent"]) ∧ p = s) as (s & Hs & ->).
  { destruct Hp as [Hp|Hp].
    - apply existsb_exists in Hp as (x & Hx & E%bool_decide_eq_true). exists p. split; [|done]. subst p.
      apply elem_of_app. left. apply list_elem_of_fmap_2. by apply list_elem_of_In.
    - apply existsb_exists in Hp as (c & Hc & Hp). apply existsb_exists in Hp as (r & Hr & E%bool_decide_eq_true).
      exists p. split; [|done]. subst p. apply elem_of_app. right. apply list_elem_of_bind. exists c.
      split; [|by apply list_elem_of_In]. apply list_elem_of_fmap. exists r. split; [done|by apply list_elem_of_In]. }
  revert Hs. set (l := _ ++ _). assert (forallb (λ s, negb (bool_decide (0 ∈ s))) l = true) as Hl by (vm_compute; reflexivity).
  intros Hs%list_elem_of_In. apply (proj1 (forallb_forall _ _) Hl) in Hs. by bool_simpl.
Qed.

Lemma zero_terminated_inj (p p' r r' : pystr) :
  0 ∉ p → 0 ∉ p' → p ++ [0] ++ r = p' ++ [0] ++ r' → p = p' ∧ r = r'.
Proof.
  revert p'. induction p as [|c p IH]; intros [|c' p'] Hp Hp' E; simpl in *.
  - split; [done|]. by injection E.
  - exfalso. injection E as E1 _. apply Hp'. subst. left.
  - exfalso. injection E as E1 _. apply Hp. subst. left.
  - injection E as -> E. rewrite not_elem_of_cons in Hp, Hp'. destruct (IH p') as [-> ->]; naive_solver.
Qed.

(** The hashed messages of two derivations differ unless code and purpose agree. *)
Lemma seed_message_inj code code' p p' :
  known_purpose p = true → known_purpose p' = true → seed_message code p = seed_message code' p' →
  p = p' ∧ default [] (urlsafe_decode code) = default [] (urlsafe_decode code').
Proof.
  intros Hp%known_purpose_text Hp'%known_purpose_text E. unfold seed_message in E.
  apply app_inv_head, app_inv_head in E. by apply zero_terminated_inj.
Qed.

Lemma decode_Ok code info :
  decode (VStr code) = Ok info →
  ∃ raw, urlsafe_decode code = Some raw ∧ length raw = 30%nat ∧ urlsafe_encode raw = code ∧ ci_lookup info = sha256_hex raw.
Proof.
  unfold decode. intros Hd. apply bind_Ok_inv in Hd as ([] & _ & Hd).
  destruct (urlsafe_decode code) as [[|v rest]|] eqn:E; try done. exists (v :: rest).
  destruct (dget MODES v) as [mode|]; [|done]. apply bind_Ok_inv in Hd as ([] & Hg & Hd).
  apply raise_if_Ok in Hg. bool_simpl. unfold zlen in *. split_and!; try done; [lia|].
  destruct (v =? 3).
  - apply bind_Ok_inv in Hd as ([] & _ & Hd). by injection Hd as <-.
  - by injection Hd as <-.
Qed.

(** ** Issued codes decode *)
Lemma urlsafe_encode_length b k : length b = (3 * k)%nat → length (urlsafe_encode b) = (4 * k)%nat.
Proof.
  unfold urlsafe_encode. revert k. induction b as [|x|x y|x y z b IH] using bytes_ind3; intros k Hk; simpl in Hk; try lia.
  - simpl. lia.
  - cbn [b64_encode length]. rewrite (IH (k - 1)%nat) by lia. lia.
Qed.

Lemma parse_octet_range s v : parse_octet s = Some v → 0 ≤ v ≤ 255.
Proof.
  unfold parse_octet. destruct (_ || _) eqn:E; [done|]. destruct (Z.ltb_spec 255 (dec_value s)); [done|].
  intros [= <-]. split; [|lia]. rewrite !orb_false_iff in E. destruct E as [[[_ Hd] _] _]. apply negb_false_iff in Hd.
  unfold dec_value. rewrite forallb_forall in Hd.
  assert (∀ acc, 0 ≤ acc → 0 ≤ foldl (λ acc c, acc * 10 + (c - 48)) acc s) as Hf; [|by apply Hf].
  revert Hd. clear. induction s as [|c s IH]; simpl; intros Hd acc Ha; [done|].
  apply IH; [by intros x Hx; apply Hd; right|]. pose proof (Hd c (or_introl eq_refl)) as Hc. apply between_spec in Hc. lia.
Qed.

Lemma parse_ipv4_range s n : parse_ipv4 s = Some n → 0 ≤ n < 2 ^ 32.
Proof.
  unfold parse_ipv4. destruct (split_at_char 46 s) as [|a [|b [|c [|d [|]]]]]; try done. intros Hp.
  destruct (parse_octet a) as [va|] eqn:Ea; [|done]. destruct (parse_octet b) as [vb|] eqn:Eb; [|done].
  destruct (parse_octet c) as [vc|] eqn:Ec; [|done]. destruct (parse_octet d) as [vd|] eqn:Ed; [|done].
  simpl in Hp. injection Hp as <-. apply parse_octet_range in Ea, Eb, Ec, Ed. lia.
Qed.

Lemma parse_ip_v4 s n : parse_ip s = Some (IPv4 n) → 0 ≤ n < 2 ^ 32.
Proof.
  unfold parse_ip. destruct (has_char 47 s); [done|]. destruct (parse_ipv4 s) as [m|] eqn:E.
  - intros [= <-]. by eapply parse_ipv4_range.
  - destruct (partition_at 37 s) as [[a f] b]. destruct (_ && _); [done|]. by destruct (parse_ipv6 a).
Qed.

(** Decoding a freshly encoded code of 30 bytes. *)
Lemma decode_fresh number rest mode :
  dget MODES number = Some mode → wf_bytes (number :: rest) = true → length rest = 29%nat →
  (number = 3 → be_decode (slice 5 7 (number :: rest)) ≠ 0) →
  decode (VStr (urlsafe_encode (number :: rest))) =
  Ok (CodeInfo mode (sha256_hex (number :: rest))
        (if number =? 3 then Some (ipv4_text (be_decode (slice 1 5 (number :: rest))), be_decode (slice 5 7 (number :: rest)))
         else None)).
Proof.
  intros Hm Hw Hl Hp. set (raw := number :: rest) in *. unfold decode.
  assert (re_class is_urlsafe 40 40 (urlsafe_encode raw) = true) as ->.
  { unfold re_class. rewrite urlsafe_chars, andb_true_r by done. apply between_spec. unfold zlen.
    rewrite (urlsafe_encode_length raw 10) by (unfold raw; simpl; lia). lia. }
  cbn [negb raise_if mbind result_bind]. rewrite urlsafe_roundtrip by done. unfold raw at 1. rewrite Hm. fold raw.
  replace (zlen raw =? 30) with true by (unfold zlen, raw; simpl length; rewrite Hl; done).
  rewrite bool_decide_true by done. cbn [negb orb raise_if mbind result_bind].
  destruct (Z.eqb_spec number 3) as [->|]; [|done].
  replace (be_decode (slice 5 7 raw) =? 0) with false by (symmetry; apply Z.eqb_neq; by apply Hp). done.
Qed.

Lemma issue_decodes random mode host port code :
  (∀ n, length (random n) = n ∧ wf_bytes (random n) = true) →
  issue random mode host port = Ok code →
  ∃ info, decode (VStr code) = Ok info ∧ str (ci_mode info) = mode ∧
    (ci_https info = None ∨ ∃ n p, parse_ip (default [] host) = Some (IPv4 n) ∧ port = VInt p ∧
       ci_https info = Some (ipv4_text n, p)).
Proof.
  intros Hr Hi. unfold issue in Hi.
  destruct (list_find (λ m : Z * string, mode = str m.2) MODES) as [[i [number name]]|] eqn:Ef; [|done].
  apply list_find_Some in Ef as (Hm & -> & _).
  assert (dget MODES number = Some name) as Hd.
  { apply elem_of_dget; [|by eapply list_elem_of_lookup_2]. apply (bool_decide_eq_true_1 (NoDup (dkeys MODES))). reflexivity. }
  assert (is_byte number = true) as Hb.
  { apply dget_elem_of in Hd. unfold MODES in Hd. repeat (apply elem_of_cons in Hd as [[= -> ->]|Hd]; [done|]).
    by apply not_elem_of_nil in Hd. }
  apply bind_Ok_inv in Hi as (raw & Hraw & Hi). assert (urlsafe_encode raw = code) as <- by (by injection Hi). clear Hi.
  destruct (Z.eqb_spec number 3) as [->|Hn3].
  - destruct (parse_ip (default [] host)) as [[n|n s]|] eqn:Ea; try done.
    apply bind_Ok_inv in Hraw as ([] & _ & Hraw). destruct port as [| |p| | | |]; try done.
    apply bind_Ok_inv in Hraw as ([] & Hp & Hraw). apply raise_if_Ok in Hp. apply negb_false_iff, between_spec in Hp.
    set (rest := be_encode 4 n ++ be_encode 2 p ++ random 23%nat) in *.
    assert (raw = 3 :: rest) as -> by (by injection Hraw). clear Hraw.
    destruct (Hr 23%nat) as [Hl Hw]. pose proof (parse_ip_v4 _ _ Ea) as Hn.
    assert (be_decode (slice 1 5 (3 :: rest)) = n) as E1.
    { change (be_decode (take 4 (be_encode 4 n ++ be_encode 2 p ++ random 23%nat)) = n).
      rewrite take_app_length' by (by rewrite be_encode_length). apply be_decode_encode. done. }
    assert (be_decode (slice 5 7 (3 :: rest)) = p) as E2.
    { change (be_decode (take 2 (drop 4 (be_encode 4 n ++ be_encode 2 p ++ random 23%nat))) = p).
      rewrite drop_app_length' by (by rewrite be_encode_length).
      rewrite take_app_length' by (by rewrite be_encode_length). apply be_decode_encode. lia. }
    rewrite (decode_fresh 3 rest name Hd).
    + eexists. split; [done|]. split; [done|]. right. exists n, p. cbn [Z.eqb Pos.eqb ci_https]. by rewrite E1, E2.
    + unfold rest. unfold wf_bytes in *. cbn [forallb]. rewrite !forallb_app.
      pose proof (be_encode_wf 4 n) as W1. pose proof (be_encode_wf 2 p) as W2. unfold wf_bytes in W1, W2. by rewrite W1, W2, Hw.
    + unfold rest. rewrite !length_app, !be_encode_length. lia.
    + intros _. rewrite E2. lia.
  - apply bind_Ok_inv in Hraw as ([] & _ & Hraw). destruct (Hr 29%nat) as [Hl Hw].
    assert (raw = number :: random 29%nat) as -> by (by injection Hraw).
    rewrite (decode_fresh number _ name Hd); [|unfold wf_bytes; simpl; by rewrite Hb|done|done].
    eexists. split; [done|]. split; [done|]. left. simpl. by destruct (Z.eqb_spec number 3).
Qed.
