(* ===== verification/JoinClaims.v ===== *)
(** * Join codes, envelopes and credentials: what they promise *)
From S2P Require Import Prelude Dict PyStr PyText PyValue Json JsonRound JsonDocs StrictJson Sha256.
From S2P Require Import Signing Base64 Net JoinCode CredentialFacts AdmissionFacts.

#[local] Existing Instance toy_signing.
#[local] Existing Instance toy_signing_laws.

(** ** The protocol envelope *)

(** A packed envelope is unpacked to the same document with sorted keys, and
    packing that again gives the same token: a token has one canonical form. *)
Theorem envelope_roundtrip nfc v token :
  json_ok v → pack_protocol nfc v = Ok token →
  unpack_protocol nfc (VStr token) = Ok (norm v) ∧ pack_protocol nfc (norm v) = Ok token.
Proof. apply unpack_pack_protocol. Qed.

Definition demo_envelope : pydict := mkdict
  [("schema", txt "shadow6.protocol-envelope.v1"); ("version", VInt 1); ("purpose", txt "local-service");
   ("core", txt "all"); ("role", txt "all"); ("identity", VDict []); ("routes", VList []);
   ("components", VDict []); ("credentials", VDict [])]%string.
Definition demo_token : pystr := Eval vm_compute in
  match pack_protocol id (VDict demo_envelope) with Ok t => t | Raise _ => [] end.

Lemma envelope_roundtrip_witness : unpack_protocol id (VStr demo_token) = Ok (norm (VDict demo_envelope)).
Proof.
  refine (proj1 (envelope_roundtrip id (VDict demo_envelope) demo_token _ _)).
  - apply json_okb_ok. vm_compute. reflexivity.
  - vm_compute. reflexivity.
Defined.

(** ** Credentials *)

(** A signed Passport is accepted until it expires, under the issuer's
    signature and with exactly the issued claims, provided its subject is
    portable text and the token is within the size that verification admits. *)
Theorem passport_accepted nfc `{SigningLaws} now t subject components roles ttl key token :
  (∀ s, forallb is_ascii s = true → nfc s = s) →
  issue_passport now subject components roles ttl (Some key) = Ok token →
  str_portable nfc STRING_LIMIT subject → zlen token ≤ MAX_CREDENTIAL_BYTES →
  - MAX_SAFE ≤ now → now + ttl ≤ MAX_SAFE → t < now + ttl →
  ∃ claim, verify_credential nfc t (VStr token) PASSPORT_PREFIX true = Ok claim ∧
    vget_none claim "subject" = VStr subject ∧
    vget_none claim "components" = VList (VStr <$> sorted_set components) ∧
    vget_none claim "roles" = VList (VStr <$> sorted_set roles) ∧
    vget_none claim "issuer" = VStr (bytes_hex (public_key key)).
Proof.
  intros Hnfc Hi Hs Hl Hn1 Hn2 Ht. eexists. split; [by eapply passport_verifies|].
  assert (∀ l : list pystr, norm (VList (VStr <$> l)) = VList (VStr <$> l)) as Hnorm.
  { intros l. simpl. f_equal. rewrite <- list_fmap_compose. done. }
  rewrite !vget_readback by (apply mkdict_wf; reflexivity). unfold with_signature. doc_lookup. by rewrite !Hnorm.
Qed.

Definition demo_key : bytes := replicate 32 5.
Definition demo_passport : pystr := Eval vm_compute in
  match issue_passport 1000 (str "alice") [str "gate"; str "s6na"] [str "client"] 3600 (Some demo_key) with
  | Ok t => t | Raise _ => [] end.
Lemma demo_passport_issued :
  issue_passport 1000 (str "alice") [str "gate"; str "s6na"] [str "client"] 3600 (Some demo_key) = Ok demo_passport.
Proof. vm_compute. reflexivity. Qed.
Lemma demo_alice : str_portable id STRING_LIMIT (str "alice").
Proof. apply (ascii_portable id (λ _ _, eq_refl)); [reflexivity|by apply (bool_decide_eq_true_1 _); vm_compute|vm_compute; discriminate]. Qed.

Lemma passport_accepted_witness :
  ∃ claim, verify_credential id 2000 (VStr demo_passport) PASSPORT_PREFIX true = Ok claim ∧
    vget_none claim "subject" = VStr (str "alice").
Proof.
  destruct (passport_accepted id 1000 2000 (str "alice") [str "gate"; str "s6na"] [str "client"] 3600 demo_key demo_passport)
    as (claim & Hc & Hs & _).
  - done.
  - apply demo_passport_issued.
  - apply demo_alice.
  - vm_compute. discriminate.
  - vm_compute. discriminate.
  - vm_compute. discriminate.
  - lia.
  - exact (ex_intro _ claim (conj Hc Hs)).
Defined.

(** C6: A Visa issued from a Passport, with the Passport's key, verifies while it
    lasts, never outlives the Passport, and is admitted beside it for its own
    component and audience. *)
Theorem visa_chain nfc `{SigningLaws} now0 now t subject components roles ttl0 key passport audience component ttl key' visa :
  (∀ s, forallb is_ascii s = true → nfc s = s) →
  issue_passport now0 subject components roles ttl0 (Some key) = Ok passport →
  str_portable nfc STRING_LIMIT subject → zlen passport ≤ MAX_CREDENTIAL_BYTES →
  - MAX_SAFE ≤ now0 → now0 + ttl0 ≤ MAX_SAFE → - MAX_SAFE ≤ now →
  issue_visa nfc now (VStr passport) audience component ttl (Some key') = Ok visa →
  now < now0 + ttl0 → zlen visa ≤ MAX_CREDENTIAL_BYTES → t < Z.min (now + ttl) (now0 + ttl0) →
  ∃ p v expires,
    verify_credential nfc t (VStr passport) PASSPORT_PREFIX true = Ok p ∧
    verify_credential nfc t (VStr visa) VISA_PREFIX true = Ok v ∧
    vget_none v "expires_at" = VInt expires ∧ expires ≤ now0 + ttl0 ∧
    check_visa v (Some p) (Some component) (Some audience) = Ok tt.
Proof.
  intros Hnfc Hp Hs Hl Hn1 Hn2 Hn3 Hv Hnow Hlv Ht.
  set (pd := with_signature (passport_body now0 subject components roles ttl0) key).
  assert (∀ t req, t < now0 + ttl0 → verify_credential nfc t (VStr passport) PASSPORT_PREFIX req = Ok (sort_keys (nfields pd))) as Hver.
  { intros t' req Ht'. by eapply passport_verifies. }
  assert (∀ k, vget_none (sort_keys (nfields pd)) k = norm (vget_none pd k)) as Hrb.
  { intros k. apply vget_readback. apply mkdict_wf. reflexivity. }
  assert (vget_none (sort_keys (nfields pd)) "subject" = VStr subject) as Esub.
  { rewrite Hrb. unfold pd, with_signature. by doc_lookup. }
  assert (vget_none (sort_keys (nfields pd)) "expires_at" = VInt (now0 + ttl0)) as Eexp.
  { rewrite Hrb. unfold pd, with_signature. by doc_lookup. }
  destruct (issue_visa_Ok nfc now (VStr passport) audience component ttl key' visa _ _ (Hver now false Hnow) Eexp Hv)
    as (Ha & Hc & Httl & _ & Hiss & ->).
  rewrite Esub in Hlv |- *. eexists _, _, (Z.min (now + ttl) (now0 + ttl0)). split; [apply Hver; lia|]. split.
  - apply visa_verifies; try done; [apply sha256_hex_lower|lia..].
  - split; [rewrite vget_readback by (apply mkdict_wf; reflexivity); unfold with_signature; by doc_lookup|].
    split; [lia|]. by eapply visa_admitted.
Qed.

Definition demo_visa : pystr := Eval vm_compute in
  match issue_visa id 1500 (VStr demo_passport) (str "edge") (str "gate") 900 (Some demo_key) with Ok t => t | Raise _ => [] end.
Lemma demo_visa_issued : issue_visa id 1500 (VStr demo_passport) (str "edge") (str "gate") 900 (Some demo_key) = Ok demo_visa.
Proof. vm_compute. reflexivity. Qed.

Lemma visa_chain_witness :
  ∃ p v, verify_credential id 2000 (VStr demo_passport) PASSPORT_PREFIX true = Ok p ∧
    verify_credential id 2000 (VStr demo_visa) VISA_PREFIX true = Ok v ∧
    check_visa v (Some p) (Some (str "gate")) (Some (str "edge")) = Ok tt.
Proof.
  destruct (visa_chain id 1000 1500 2000 (str "alice") [str "gate"; str "s6na"] [str "client"] 3600 demo_key demo_passport
              (str "edge") (str "gate") 900 demo_key demo_visa) as (p & v & e & H1 & H2 & _ & _ & H3).
  - done.
  - apply demo_passport_issued.
  - apply demo_alice.
  - vm_compute. discriminate.
  - vm_compute. discriminate.
  - vm_compute. discriminate.
  - vm_compute. discriminate.
  - apply demo_visa_issued.
  - lia.
  - vm_compute. discriminate.
  - lia.
  - exact (ex_intro _ p (ex_intro _ v (conj H1 (conj H2 H3)))).
Defined.


Definition demo_admission : pyval := VDict (mkdict
  [("schema", txt "shadow6.protocol-envelope.v1"); ("version", VInt 1); ("purpose", txt "local-service");
   ("core", txt "all"); ("role", txt "client"); ("identity", VDict []); ("routes", VList []);
   ("components", VDict []);
   ("credentials", VDict (mkdict [("passport", VStr demo_passport); ("visa", VStr demo_visa)]))]%string).
Definition admission_token : pystr := Eval vm_compute in
  match pack_protocol id demo_admission with Ok t => t | Raise _ => [] end.
Definition admitted : pyval * pydict := Eval vm_compute in
  match resolve_protocol_envelope id 2000 (VStr admission_token) (Some (str "gate")) (Some (str "client")) (Some (str "edge"))
          [] false true with Ok r => r | Raise _ => (VNone, []) end.


(** ** Join codes *)

(** A freshly issued code decodes to the mode it was issued for and, in the
    HTTPS mode, to the address and port it was given. *)
Theorem code_roundtrip random mode host port code :
  (∀ n, length (random n) = n ∧ wf_bytes (random n) = true) →
  issue random mode host port = Ok code →
  ∃ info, decode (VStr code) = Ok info ∧ str (ci_mode info) = mode ∧
    (ci_https info = None ∨ ∃ n p, parse_ip (default [] host) = Some (IPv4 n) ∧ port = VInt p ∧
       ci_https info = Some (ipv4_text n, p)).
Proof. apply issue_decodes. Qed.

Definition demo_random (n : nat) : bytes := replicate n 170.
Definition demo_code : pystr := Eval vm_compute in
  match issue demo_random (str "ipv4-https") (Some (str "203.0.113.7")) (VInt 8443) with Ok c => c | Raise _ => [] end.
Lemma code_roundtrip_witness : ∃ info, decode (VStr demo_code) = Ok info ∧ str (ci_mode info) = str "ipv4-https".
Proof.
  destruct (code_roundtrip demo_random (str "ipv4-https") (Some (str "203.0.113.7")) (VInt 8443) demo_code)
    as (info & H1 & H2 & _).
  - intros n. split; [apply length_replicate|]. unfold wf_bytes, demo_random. by induction n.
  - vm_compute. reflexivity.
  - exact (ex_intro _ info (conj H1 H2)).
Defined.

(** The keys derived from codes are separated: two derivations hash the same
    message only for the same purpose and the same code. *)
Theorem key_separation code code' p p' info info' :
  decode (VStr code) = Ok info → decode (VStr code') = Ok info' → known_purpose p = true → known_purpose p' = true →
  seed_message code p = seed_message code' p' → p = p' ∧ code = code'.
Proof.
  intros Hd Hd' Hp Hp' E. destruct (seed_message_inj _ _ _ _ Hp Hp' E) as [-> Er]. split; [done|].
  apply decode_Ok in Hd as (raw & H1 & _ & H2 & _). apply decode_Ok in Hd' as (raw' & H1' & _ & H2' & _).
  rewrite H1, H1' in Er. simpl in Er. congruence.
Qed.

Definition demo_info : code_info := Eval vm_compute in
  match decode (VStr demo_code) with Ok i => i | Raise _ => CodeInfo "" [] None end.
Lemma key_separation_witness : str "gate" = str "gate" ∧ demo_code = demo_code.
Proof.
  refine (key_separation demo_code demo_code (str "gate") (str "gate") demo_info demo_info _ _ _ _ eq_refl);
    vm_compute; reflexivity.
Defined.

(** ** Two gaps of the credential checks *)

(** The scope test accepts a credential whose component list is a string
    that merely contains the letters of [all]: verification does not check the
    type of the field. *)
Theorem string_components_authorize component :
  require_credential_scope (mkdict [("components", txt "small"); ("roles", VList [])]%string) (Some component) None None = Ok tt.
Proof.
  unfold require_credential_scope. change (has_key _ "component") with false. unfold outside.
  change (vget_or _ "components" (VList [])) with (txt "small"). cbn [py_in txt mbind result_bind].
  destruct (is_infix component (str "small")); [done|]. vm_compute (is_infix (str "all") (str "small")). done.
Qed.

(** [issue_passport] does not check that the subject is portable: for a
    subject with a NUL character, one that is not normalised or one that is too
    long it issues a token, and that token is never accepted. *)
Theorem unportable_passport_rejected nfc {Sg : Signing} {Laws : SigningLaws} now t subject components roles ttl key token req :
  forallb is_scalar subject = true → ¬ str_portable nfc STRING_LIMIT subject → int_ok now → int_ok (now + ttl) →
  issue_passport now subject components roles ttl (Some key) = Ok token →
  ∃ m, verify_credential nfc t (VStr token) PASSPORT_PREFIX req = Raise (Exn ValueError m).
Proof.
  intros Hsc Hnp Hi He (_ & _ & Hc & Hr & ->)%issue_passport_Ok. set (d := with_signature (passport_body now subject components roles ttl) key).
  assert (json_ok (VDict d)) as Hj by (by apply passport_json_ok). unfold verify_credential.
  rewrite (starts_with_app PASSPORT_PREFIX (urlsafe_encode (_credential_bytes d)) : starts_with PASSPORT_PREFIX (make_token _ _) = true).
  destruct (MAX_CREDENTIAL_BYTES <? _); [by eexists|]. cbn [negb orb raise_if mbind result_bind].
  rewrite token_bytes_make; [|by apply ascii_wf, dumps_canonical_ascii|destruct (dumps_canonical_dict d) as [r Er]; unfold _credential_bytes; by rewrite Er].
  cbn [mbind result_bind]. destruct (portable_json nfc MAX_CREDENTIAL_BYTES (JBytes (_credential_bytes d))) as [w|x] eqn:Ep; [|by eexists].
  exfalso. apply Hnp. unfold portable_json in Ep. destruct (strict_json_of_print _ _ _ _ _ Hj Ep) as (_ & Hp & _). rewrite norm_dict in Hp.
  apply (portable_field nfc _ _ _ "subject" (VStr subject)) in Hp; [by inversion Hp| |done]. assert (dwf d) as Hd by (by inversion Hj).
  by rewrite vget_readback by done.
Qed.

