(* ===== verification/BrokerSet.v ===== *)
(** * Native topologies and BrokerSets

    [Deployment/topology_contract.py]: which Core engine a set of nodes may use,
    and [Deployment/broker_set.py]: the BrokerSet routes of an S6P1 envelope,
    the choice of a Broker, and the Gate configuration that realizes a set.
    The random choice and the test of a Unix socket's directory are arguments. *)
From S2P Require Import Prelude Dict PyStr PyText PyValue Net.

(** ** [topology_contract.py] *)
Definition engine_re (s : pystr) : bool := re_head is_lower (λ c, is_lower c || is_digit c || (c =? 45)) 0 63 s.

Definition engine_id (value : pyval) : result pystr :=
  match value with
  | VStr s =>
      let identity := remove_prefix (str "shadow6-") s in
      _ ← raise_if (negb (engine_re identity)) ValueError "invalid topology engine";
      Ok identity
  | _ => raise ValueError "invalid topology engine"
  end.

Definition selected_engine (engines role : pyval) : result pystr :=
  _ ← raise_if (is_none engines || match engines with VList [] => true | _ => false end) ValueError "CoreSelectionRequired";
  known ← in_set role ["broker"; "agent"; "client"];
  _ ← raise_if (negb known) ValueError "invalid topology role";
  match engines with
  | VList l =>
      _ ← raise_if (negb (between 1 (zlen l) 12)) ValueError "exactly one core engine required";
      selected ← map_res engine_id l;
      _ ← raise_if (negb (bool_decide (NoDup selected))) ValueError "duplicate core engine";
      if (zlen selected =? 2) && eq_str role "broker" && bool_decide (str "zig" ∈ selected) then
        match filter (λ e, e ≠ str "zig") selected with
        | ordinary :: _ =>
            _ ← raise_if (negb (str_in ordinary ["go"; "rust"])) ValueError
                  "Zig broker control exception requires Go or Rust";
            Ok ordinary
        | [] => raise RuntimeError "StopIteration"
        end
      else
        match selected with
        | [e] => Ok e
        | _ => raise ValueError "exactly one core engine required; Zig exception is broker-only"
        end
  | _ => raise ValueError "exactly one core engine required"
  end.

Definition check_node_binding (engine core role : pyval) : result pystr :=
  known ← in_set role ["broker"; "agent"; "client"; "gate"];
  _ ← raise_if (negb known) ValueError "invalid topology role";
  c ← engine_id core;
  e ← engine_id engine;
  _ ← raise_if (negb (bool_decide (c = e))) ValueError
        "all broker, agent, and client nodes must use the same core engine; CoreBinding conflicts with topology engine";
  engine_id engine.

(** One turn of the loop over the bindings; the first core becomes the engine. *)
Definition topology_step (engine : pyval) (binding : pyval) : result pyval :=
  match binding with
  | VDict b =>
      _ ← raise_if (negb (keys_exact b ["role"; "core"])) ValueError "invalid topology binding";
      let engine := if is_none engine then vget_none b "core" else engine in
      _ ← check_node_binding engine (vget_none b "core") (vget_none b "role");
      Ok engine
  | _ => raise ValueError "invalid topology binding"
  end.

Definition check_topology (bindings engine : pyval) : result pydict :=
  match bindings with
  | VList l =>
      _ ← raise_if (negb (between 1 (zlen l) 256)) ValueError "topology requires 1..256 native bindings";
      engine ← fold_res topology_step engine l;
      e ← engine_id engine;
      Ok (mkdict [("schema", txt "shadow6.topology-compatibility.v1"); ("engine", VStr e);
                  ("nativeTranslation", VBool false)])
  | _ => raise ValueError "topology requires 1..256 native bindings"
  end.

(** ** [broker_set.py] *)
Section BrokerSet.
Context (nfkc lower : pystr → pystr).

(** [PurePosixPath(path).parts] has a ['..']. *)
Definition has_dotdot (path : pystr) : bool := bool_decide (str ".." ∈ split_at_char 47 path).

(** [{"ws": 80, "wss": 443}.get(scheme)]. *)
Definition default_port (s : pystr) : Z :=
  if bool_decide (s = str "ws") then 80 else if bool_decide (s = str "wss") then 443 else 0.

(** [parsed.username or parsed.password]. *)
Definition has_credentials (u : url) : bool :=
  match userinfo u with
  | Some (name, password) => negb (bool_decide (name = [])) || negb (bool_decide (default [] password = []))
  | None => false
  end.

Definition endpoint (value : pyval) : result url :=
  match value with
  | VStr s =>
      _ ← raise_if ((512 <? zlen s) || existsb (λ c, c <? 33) s) ValueError "invalid BrokerSet endpoint";
      parsed ← urlsplit nfkc (if is_infix (str "://") s || starts_with (str "unix:") s then s else str "tcp://" ++ s);
      if bool_decide (scheme parsed = str "unix") then
        _ ← raise_if (negb (bool_decide (netloc parsed = [])) || negb (bool_decide (query parsed = []))
                      || negb (bool_decide (fragment parsed = [])) || negb (starts_with (str "/") (path parsed)))
              ValueError "invalid Unix stream endpoint";
        match utf8 (path parsed) with
        | None => raise UnicodeError "surrogates not allowed"
        | Some b =>
            _ ← raise_if ((103 <? zlen b) || has_dotdot (path parsed)) ValueError "invalid Unix stream endpoint";
            Ok parsed
        end
      else
        p ← reraise [ValueError] ValueError "invalid BrokerSet port" (port parsed);
        let p := match default 0 p with 0 => default_port (scheme parsed) | n => n end in
        _ ← raise_if (negb (str_in (scheme parsed) ["tcp"; "udp"; "ws"; "wss"; "quic"])
                      || match hostname lower parsed with None => true | Some h => bool_decide (h = []) end
                      || (p =? 0) || has_credentials parsed
                      || negb (bool_decide (query parsed = [])) || negb (bool_decide (fragment parsed = [])))
              ValueError "invalid BrokerSet endpoint";
        Ok parsed
  | _ => raise ValueError "invalid BrokerSet endpoint"
  end.

(** [private_dir path]: the directory of the socket exists, belongs to the
    user and is closed to others. *)
Definition private_endpoint (private_dir : pystr → bool) (value : pyval) : result bool :=
  parsed ← endpoint value;
  if bool_decide (scheme parsed = str "unix") then Ok (private_dir (path parsed))
  else match parse_ip (default [] (hostname lower parsed)) with
       | Some a => Ok (is_loopback a)
       | None => Ok false
       end.

Definition id_char (c : Z) : bool := is_alnum c || one_of "._-" c.
Definition identity_char (c : Z) : bool := is_alnum c || one_of "._:-" c.

Definition check_member (seen : list pystr) (member : pyval) : result (list pystr) :=
  match member with
  | VDict m =>
      _ ← raise_if (negb (keys_within m ["identity"; "endpoint"; "public_key"; "priority"])
                    || negb (keys_cover m ["identity"; "endpoint"])) ValueError
            "invalid BrokerSet member; observed health belongs in runtime";
      _ ← raise_if (match vget_none m "identity" with VStr s => negb (re_class identity_char 1 128 s) | _ => true end)
            ValueError "invalid broker identity";
      _ ← endpoint (vget_none m "endpoint");
      let e := as_text (vget_none m "endpoint") in
      _ ← raise_if (bool_decide (e ∈ seen)) ValueError "duplicate broker endpoint";
      _ ← raise_if (has_key m "public_key"
                    && match vget_none m "public_key" with VStr s => negb (hex_lower 64 s) | _ => true end) ValueError
            "invalid broker trust key";
      _ ← raise_if (negb (int_between 0 (vget_or m "priority" (VInt 0)) 65535)) ValueError "invalid broker priority";
      Ok (seen ++ [e])
  | _ => raise ValueError "invalid BrokerSet member; observed health belongs in runtime"
  end.

(** One route; [ids] are the BrokerSet identifiers seen before it. *)
Definition check_broker_route (ids : list pystr) (route : pyval) : result (list pystr) :=
  match route with
  | VDict r =>
      if negb (eq_str (vget_none r "kind") "broker_set") then Ok ids else
      _ ← raise_if (negb (keys_within r ["kind"; "id"; "policy"; "members"; "boundary"; "engine"])
                    || negb (keys_cover r ["kind"; "id"; "policy"; "members"])) ValueError
            "invalid BrokerSet route fields";
      _ ← (if has_key r "engine" then
             e ← engine_id (vget_none r "engine");
             raise_if (negb (py_eqb (VStr e) (vget_none r "engine"))) ValueError
               "BrokerSet engine requires a canonical Core identity"
           else Ok tt);
      match vget_none r "id" with
      | VStr i =>
          _ ← raise_if (negb (re_class id_char 1 64 i) || bool_decide (i ∈ ids)) ValueError "invalid/duplicate BrokerSet id";
          known ← in_set (vget_none r "policy") ["priority"; "round_robin"; "random"];
          _ ← raise_if (negb known) ValueError "invalid BrokerSet policy";
          bounded ← (if has_key r "boundary" then in_set (vget_none r "boundary") ["stream"; "message"; "credited"]
                     else Ok true);
          _ ← raise_if (negb bounded) ValueError "invalid boundary";
          match vget_none r "members" with
          | VList members =>
              _ ← raise_if (negb (between 1 (zlen members) 16)) ValueError "BrokerSet requires 1..16 members";
              _ ← fold_res check_member [] members;
              Ok (ids ++ [i])
          | _ => raise ValueError "BrokerSet requires 1..16 members"
          end
      | _ => raise ValueError "invalid/duplicate BrokerSet id"
      end
  | _ => raise ValueError "S6P1 route must be an object"
  end.

Definition validate_routes (routes : pyval) : result (list pyval) :=
  match routes with
  | VList l =>
      _ ← raise_if (256 <? zlen l) ValueError "bounded S6P1 routes required";
      _ ← fold_res check_broker_route [] l;
      Ok l
  | _ => raise ValueError "bounded S6P1 routes required"
  end.

(** ** The choice of a Broker *)
Definition member_endpoint (m : pydict) : pystr := as_text (vget_none m "endpoint").
Definition member_priority (m : pydict) : Z := match vget_or m "priority" (VInt 0) with VInt z => z | _ => 0 end.

(** [min(usable, key=priority)]: the first of the smallest. *)
Fixpoint min_priority (best : pydict) (l : list pydict) : pydict :=
  match l with
  | [] => best
  | m :: l => min_priority (if member_priority m <? member_priority best then m else best) l
  end.

Definition observed (observations : pydict) (m : pydict) : pyval :=
  default (txt "unknown") (dget observations (member_endpoint m)).
Definition is_usable (observations : pydict) (m : pydict) : bool := negb (eq_str (observed observations m) "unavailable").

(** The member the policy chooses among the usable ones; [pick] is the number
    drawn by the random source. *)
Definition choose (policy : pyval) (cursor pick : Z) (usable : list pydict) : option pydict :=
  match usable with
  | [] => None
  | m :: l =>
      if eq_str policy "priority" then Some (min_priority m l)
      else if eq_str policy "round_robin" then usable !! Z.to_nat (cursor mod zlen usable)
      else usable !! Z.to_nat (pick mod zlen usable)
  end.

(** Every member declares the same trust key. *)
Definition shared_key (members : list pydict) : bool :=
  match members with
  | [] => false
  | m :: _ => let key := vget_none m "public_key" in
              negb (is_none key) && forallb (λ m', py_eqb (vget_none m' "public_key") key) members
  end.

Definition realize (route : pyval) (adapter : pystr) (observations : pydict) (cursor pick : Z) : result pydict :=
  _ ← validate_routes (VList [route]);
  r ← as_dict route;
  _ ← raise_if (negb (eq_str (vget_none r "kind") "broker_set")) ValueError "BrokerSet required";
  ms ← as_list (vget_none r "members");
  members ← map_res as_dict ms;
  _ ← raise_if ((1 <? zlen members) && negb (str_in adapter ["gate"; "broker-set-selector"])) ValueError
        "capability unavailable: native-single adapter supports one Broker; select a BrokerSet peripheral adapter";
  _ ← raise_if (negb (str_in adapter ["native-single"; "gate"; "broker-set-selector"])) ValueError "unknown BrokerSet adapter";
  _ ← raise_if (cursor <? 0) ValueError "invalid selection cursor";
  _ ← for_each (λ kv : pystr * pyval,
        _ ← raise_if (negb (bool_decide (kv.1 ∈ member_endpoint <$> members))) ValueError "invalid observed BrokerSet health";
        known ← in_set kv.2 ["unknown"; "available"; "unavailable"];
        raise_if (negb known) ValueError "invalid observed BrokerSet health") observations;
  let usable := filter (λ m, is_usable observations m) members in
  let policy := vget_none r "policy" in
  match choose policy cursor pick usable with
  | None => raise ValueError "BrokerSet has no available endpoint"
  | Some chosen =>
      _ ← (if bool_decide (adapter = str "gate") then
             _ ← raise_if (negb (shared_key members)) ValueError
                   "capability unavailable: Gate BrokerSet requires one explicit shared trust identity";
             raise_if (eq_str policy "priority") ValueError
               "capability unavailable: Gate supports round_robin/random selection"
           else Ok tt);
      Ok (mkdict [("brokerSet", vget_none r "id"); ("adapter", VStr adapter); ("selected", VDict chosen);
                  ("endpoints", VList ((λ m, VStr (member_endpoint m)) <$> usable)); ("policy", policy);
                  ("health", VDict (dict_of ((λ m, (member_endpoint m, observed observations m)) <$> members)));
                  ("sessionMigration", VBool false); ("stateReplication", VBool false)])
  end.

(** ** The Gate configuration of a BrokerSet *)
Definition url_port (u : url) : Z := match port u with Ok (Some p) => p | _ => 0 end.
Definition same_scheme (u v : url) : bool := bool_decide (scheme u = scheme v).

Definition gate_patch (route : pyval) (upstream : bool) : result pydict :=
  result ← realize route (str "gate") [] 0 0;
  r ← as_dict route;
  es ← as_list (vget_none result "endpoints");
  parsed ← map_res endpoint es;
  match parsed with
  | [] => raise IndexError "list index out of range"
  | p :: _ =>
      let one_transport := forallb (λ q, str_in (scheme q) ["tcp"; "udp"] && same_scheme q p) parsed in
      if upstream then
        _ ← raise_if (negb one_transport) ValueError "Gate upstreams require one TCP/UDP transport";
        Ok (mkdict [("protocol", VList [VStr (scheme p)]); ("upstreams", VList ((λ q, VStr (netloc q)) <$> parsed));
                    ("load_balance", vget_none r "policy")])
      else
        _ ← raise_if (negb one_transport || negb (forallb (λ q, url_port q =? url_port p) parsed)) ValueError
              "capability unavailable: Gate remote hosts require one TCP/UDP transport and a shared port";
        _ ← raise_if (existsb (λ q, match parse_ip (default [] (hostname lower q)) with None => true | _ => false end) parsed)
              ValueError "Gate remote hosts require IP addresses";
        ms ← as_list (vget_none r "members");
        members ← map_res as_dict ms;
        Ok (mkdict
          [("protocol", VList [VStr (scheme p)]);
           ("remote_hosts", VList ((λ q, VStr (default [] (hostname lower q))) <$> parsed));
           ("mtd", VDict (mkdict [("enabled", VBool false); ("period_seconds", VInt 300); ("min_port", VInt (url_port p));
                                  ("max_port", VInt (url_port p)); ("grace_seconds", VInt 15)]));
           ("peer_public_keys", VList (match members with m :: _ => [vget_none m "public_key"] | [] => [] end));
           ("load_balance", vget_none r "policy")])
  end.
End BrokerSet.

(** * Topologies and BrokerSets: facts *)

(** ** Topologies *)

(** A binding that a topology over the engine [e] may contain. *)
Definition binds (e : pystr) (v : pyval) : Prop :=
  ∃ b role, v = VDict b ∧ keys_exact b ["role"; "core"] = true ∧ vget_none b "role" = VStr role ∧
    str_in role ["broker"; "agent"; "client"; "gate"] = true ∧ engine_id (vget_none b "core") = Ok e.

Lemma check_node_binding_Ok engine core role e :
  check_node_binding engine core role = Ok e ↔
  (∃ r, role = VStr r ∧ str_in r ["broker"; "agent"; "client"; "gate"] = true) ∧ engine_id core = Ok e ∧ engine_id engine = Ok e.
Proof.
  unfold check_node_binding. split.
  - intros (k & Hk & H)%bind_Ok_inv. apply in_set_Ok in Hk as ->. apply bind_Ok_inv in H as ([] & Hr%raise_if_Ok & H).
    apply bind_Ok_inv in H as (c & Hc & H). apply bind_Ok_inv in H as (e' & He & H).
    apply bind_Ok_inv in H as ([] & Ec%raise_if_Ok & H). bool_simpl. subst c.
    rewrite He in H. injection H as <-. split; [|done]. apply in_strs_spec in Hr as (s & Hs & ->). exists (str s). split; [done|].
    unfold str_in. apply existsb_exists. exists s. split; [by apply list_elem_of_In|by apply bool_decide_true].
  - intros ((r & -> & Hr) & Hc & He). unfold in_set. cbn [hashable mbind result_bind].
    replace (in_strs (VStr r) _) with true by (symmetry; exact Hr). rewrite Hc, He. cbn [mbind result_bind negb raise_if].
    by rewrite bool_decide_true.
Qed.

Lemma engine_not_none v e : engine_id v = Ok e → is_none v = false.
Proof. by destruct v. Qed.

Lemma topology_step_Ok engine v engine' :
  topology_step engine v = Ok engine' ↔
  ∃ e, binds e v ∧ engine_id engine' = Ok e ∧
    ((engine = VNone ∧ ∃ b, v = VDict b ∧ engine' = vget_none b "core") ∨ (engine ≠ VNone ∧ engine' = engine)).
Proof.
  unfold topology_step, binds. split.
  - destruct v as [| | | | | |b]; try done. intros ([] & Hk%raise_if_Ok & H)%bind_Ok_inv. apply negb_false_iff in Hk.
    apply bind_Ok_inv in H as (e & He & [= <-]). apply check_node_binding_Ok in He as ((r & Hr & Hin) & Hc & He).
    exists e. split; [by exists b, r|]. split; [done|]. destruct engine; simpl; [left; eauto|right..]; done.
  - intros (e & (b & r & -> & Hk & Hr & Hin & Hc) & He & Heng). rewrite Hk. cbn [negb raise_if mbind result_bind].
    assert ((if is_none engine then vget_none b "core" else engine) = engine') as ->.
    { destruct Heng as [(-> & b' & [= <-] & ->)|[Hne ->]]; [done|]. by destruct engine. }
    rewrite (proj2 (check_node_binding_Ok engine' (vget_none b "core") (vget_none b "role") e)); [done|].
    split_and!; [by exists r|done|done].
Qed.

Lemma topology_fold_Ok l engine engine' e :
  engine_id engine' = Ok e →
  fold_res topology_step engine l = Ok engine' →
  Forall (binds e) l ∧ (engine = engine' ∨ engine = VNone ∧ ∃ b l', l = VDict b :: l' ∧ engine' = vget_none b "core").
Proof.
  revert engine. induction l as [|v l IH]; intros engine He Hf; simpl in Hf; [injection Hf as <-; by split; [constructor|left]|].
  apply bind_Ok_inv in Hf as (mid & Hm & Hf). destruct (IH mid He Hf) as [Hl Hmid].
  apply topology_step_Ok in Hm as (e' & Hb & He' & Hor).
  assert (mid = engine') as ->.
  { destruct Hmid as [->|(-> & _)]; [done|]. by apply engine_not_none in He'. }
  assert (e' = e) as -> by congruence. split; [by constructor|].
  destruct Hor as [(-> & b & -> & ->)|[? ->]]; [right; eauto|by left].
Qed.

Lemma topology_fold_intro l engine e :
  engine_id engine = Ok e → Forall (binds e) l → fold_res topology_step engine l = Ok engine.
Proof.
  intros He. induction 1 as [|v l Hv _ IH]; [done|]. cbn [fold_res].
  rewrite (proj2 (topology_step_Ok engine v engine)); [exact IH|].
  exists e. split_and!; [done|done|]. right. split; [|done]. intros ->. done.
Qed.

(** The check of a topology, against the direct statement: between one and 256
    bindings, all of one engine, the given one if there is one. *)
Lemma check_topology_spec l engine d :
  check_topology (VList l) engine = Ok d ↔
  ∃ e, 1 ≤ zlen l ≤ 256 ∧ Forall (binds e) l ∧ (engine ≠ VNone → engine_id engine = Ok e) ∧
    d = mkdict [("schema"%string, txt "shadow6.topology-compatibility.v1"); ("engine"%string, VStr e); ("nativeTranslation"%string, VBool false)].
Proof.
  unfold check_topology. split.
  - intros ([] & Hl%raise_if_Ok & H)%bind_Ok_inv. apply negb_false_iff, between_spec in Hl.
    apply bind_Ok_inv in H as (engine' & Hf & H). apply bind_Ok_inv in H as (e & He & H).
    assert (d = mkdict [("schema"%string, txt "shadow6.topology-compatibility.v1"); ("engine"%string, VStr e); ("nativeTranslation"%string, VBool false)])
      as -> by (by injection H). clear H.
    destruct (topology_fold_Ok _ _ _ _ He Hf) as [Hb Hor]. exists e. split_and!; [lia..|done| |done].
    intros Hne. by destruct Hor as [->|[-> _]].
  - intros (e & Hl & Hb & Hne & ->). apply between_spec in Hl. rewrite Hl. cbn [negb raise_if mbind result_bind].
    destruct (decide (engine = VNone)) as [->|Hn].
    + destruct l as [|v l]; [done|]. pose proof Hb as [(b & r & -> & Hk & Hr & Hin & Hc) Hb']%Forall_cons. cbn [fold_res].
      rewrite (proj2 (topology_step_Ok VNone (VDict b) (vget_none b "core"))); [|by exists e; split_and!; [exists b, r|done|left; eauto]].
      cbn [mbind result_bind]. rewrite (topology_fold_intro l (vget_none b "core") e Hc Hb'). cbn [mbind result_bind]. by rewrite Hc.
    + rewrite (topology_fold_intro l engine e (Hne Hn) Hb). cbn [mbind result_bind]. by rewrite (Hne Hn).
Qed.

(** ** Members and routes *)
Section Facts.
Context (nfkc lower : pystr → pystr).

Record member_ok (m : pydict) : Prop := {
  mo_endpoint : ∃ s u, vget_none m "endpoint" = VStr s ∧ endpoint nfkc lower (VStr s) = Ok u;
  mo_key : vget_none m "public_key" = VNone ∨ ∃ k, vget_none m "public_key" = VStr k ∧ hex_lower 64 k = true;
  mo_priority : vget_or m "priority" (VInt 0) = VInt (member_priority m) ∧ 0 ≤ member_priority m ≤ 65535 }.

Lemma endpoint_text v u : endpoint nfkc lower v = Ok u → ∃ s, v = VStr s.
Proof. destruct v; try done. eauto. Qed.

Lemma no_key_none d k : has_key d k = false → vget_none d k = VNone.
Proof. unfold has_key, dmem, vget_none, vget. by destruct (dget d (str k)). Qed.

Lemma check_member_Ok seen v seen' :
  check_member nfkc lower seen v = Ok seen' →
  ∃ m, v = VDict m ∧ member_ok m ∧ member_endpoint m ∉ seen ∧ seen' = seen ++ [member_endpoint m].
Proof.
  destruct v as [| | | | | |m]; try done. unfold check_member.
  intros ([] & Hk%raise_if_Ok & H)%bind_Ok_inv. apply bind_Ok_inv in H as ([] & Hi%raise_if_Ok & H).
  apply bind_Ok_inv in H as (u & Hu & H). apply bind_Ok_inv in H as ([] & Hs%raise_if_Ok & H).
  apply bind_Ok_inv in H as ([] & Hp%raise_if_Ok & H). apply bind_Ok_inv in H as ([] & Hr%raise_if_Ok & H).
  assert (seen' = seen ++ [member_endpoint m]) as -> by (by injection H). clear H.
  exists m. split; [done|]. bool_simpl. split; [|done]. destruct (endpoint_text _ _ Hu) as [s Hs'].
  split; [exists s, u; rewrite <- Hs'; done| |].
  - apply andb_false_iff in Hp as [Hp|Hp]; [left; by apply no_key_none|].
    right. destruct (vget_none m "public_key"); try done. bool_simpl. eauto.
  - unfold member_priority. destruct (vget_or m "priority" (VInt 0)) as [| |z| | | |]; try done. by apply between_spec in Hr.
Qed.

Lemma check_members_Ok seen l seen' :
  NoDup seen → fold_res (check_member nfkc lower) seen l = Ok seen' →
  ∃ ms, l = VDict <$> ms ∧ Forall member_ok ms ∧ seen' = seen ++ (member_endpoint <$> ms) ∧ NoDup seen'.
Proof.
  revert seen. induction l as [|v l IH]; intros seen Hnd Hf; cbn [fold_res] in Hf.
  - injection Hf as <-. exists []. by rewrite app_nil_r.
  - apply bind_Ok_inv in Hf as (mid & Hm & Hf). apply check_member_Ok in Hm as (m & -> & Hm & Hnew & ->).
    apply IH in Hf as (ms & -> & Hms & -> & Hnd'); [|apply NoDup_app; split_and!; [done|set_solver|apply NoDup_singleton]].
    exists (m :: ms). rewrite fmap_cons, <- app_assoc in *. split_and!; try done. by constructor.
Qed.

Record broker_route_ok (r : pydict) (ms : list pydict) : Prop := {
  bo_id : ∃ i, vget_none r "id" = VStr i ∧ re_class id_char 1 64 i = true;
  bo_policy : ∃ p, p ∈ ["priority"; "round_robin"; "random"]%string ∧ vget_none r "policy" = txt p;
  bo_members : vget_none r "members" = VList (VDict <$> ms);
  bo_count : 1 ≤ zlen ms ≤ 16;
  bo_valid : Forall member_ok ms;
  bo_distinct : NoDup (member_endpoint <$> ms) }.

Lemma zlen_fmap {A B} (f : A → B) l : zlen (f <$> l) = zlen l.
Proof. unfold zlen. by rewrite length_fmap. Qed.

Lemma broker_route_Ok ids r ids' :
  check_broker_route nfkc lower ids (VDict r) = Ok ids' → eq_str (vget_none r "kind") "broker_set" = true →
  ∃ ms i, broker_route_ok r ms ∧ vget_none r "id" = VStr i ∧ i ∉ ids ∧ ids' = ids ++ [i].
Proof.
  intros H Hk. unfold check_broker_route in H. rewrite Hk in H. cbn [negb] in H.
  apply bind_Ok_inv in H as ([] & _ & H). apply bind_Ok_inv in H as ([] & _ & H).
  destruct (vget_none r "id") as [| | | |i| |] eqn:Ei; try done.
  apply bind_Ok_inv in H as ([] & Hi%raise_if_Ok & H). apply bind_Ok_inv in H as (k & Hp & H).
  apply in_set_Ok in Hp as ->. apply bind_Ok_inv in H as ([] & Hp%raise_if_Ok & H).
  apply bind_Ok_inv in H as (b & _ & H). apply bind_Ok_inv in H as ([] & _ & H).
  destruct (vget_none r "members") as [| | | | |l|] eqn:Em; try done.
  apply bind_Ok_inv in H as ([] & Hl%raise_if_Ok & H). apply bind_Ok_inv in H as (seen & Hms & H).
  assert (ids' = ids ++ [i]) as -> by (by injection H). clear H. bool_simpl. apply between_spec in Hl.
  apply check_members_Ok in Hms as (ms & -> & Hms & -> & Hnd); [|constructor]. rewrite zlen_fmap in Hl.
  exists ms, i. split_and!; try done. split; try done; [by exists i|].
  apply in_strs_spec in Hp as (p & ? & ?). by exists p.
Qed.

Lemma fmap_dict_inv (ms : list pydict) l : map_res as_dict (VDict <$> ms) = Ok l → l = ms.
Proof.
  revert l. induction ms as [|m ms IH]; intros l; [by intros [= <-]|]. rewrite fmap_cons. cbn [map_res as_dict mbind result_bind].
  intros (l' & Hl & [= <-])%bind_Ok_inv. f_equal. by apply IH.
Qed.

Lemma map_as_dict (ms : list pydict) : map_res as_dict (VDict <$> ms) = Ok ms.
Proof. apply map_res_Ok. induction ms; constructor; done. Qed.

(** What [realize] returns. *)
Definition realized (r : pydict) (ms : list pydict) (adapter : pystr) (obs : pydict) (chosen : pydict) : pydict :=
  mkdict [("brokerSet", vget_none r "id"); ("adapter", VStr adapter); ("selected", VDict chosen);
          ("endpoints", VList ((λ m, VStr (member_endpoint m)) <$> filter (λ m, is_usable obs m) ms));
          ("policy", vget_none r "policy");
          ("health", VDict (dict_of ((λ m, (member_endpoint m, observed obs m)) <$> ms)));
          ("sessionMigration", VBool false); ("stateReplication", VBool false)]%string.

Lemma realize_Ok route adapter obs cursor pick d :
  realize nfkc lower route adapter obs cursor pick = Ok d →
  ∃ r ms chosen, route = VDict r ∧ broker_route_ok r ms ∧ eq_str (vget_none r "kind") "broker_set" = true ∧
    choose (vget_none r "policy") cursor pick (filter (λ m, is_usable obs m) ms) = Some chosen ∧
    (1 < zlen ms → str_in adapter ["gate"; "broker-set-selector"] = true) ∧
    (adapter = str "gate" → shared_key ms = true ∧ vget_none r "policy" ≠ txt "priority") ∧
    d = realized r ms adapter obs chosen.
Proof.
  unfold realize. intros (routes & Hv & H)%bind_Ok_inv. unfold validate_routes in Hv. cbn [fold_res] in Hv.
  apply bind_Ok_inv in Hv as ([] & _ & Hv). apply bind_Ok_inv in Hv as (ids & Hv & _). apply bind_Ok_inv in Hv as (ids' & Hv & _).
  apply bind_Ok_inv in H as (r & Hr & H). destruct route as [| | | | | |r']; try done. injection Hr as ->.
  apply bind_Ok_inv in H as ([] & Hk%raise_if_Ok & H). apply negb_false_iff in Hk.
  apply broker_route_Ok in Hv as (ms & i & Hro & _); [|done].
  apply bind_Ok_inv in H as (l & Hl & H). rewrite (bo_members _ _ Hro) in Hl. injection Hl as <-.
  apply bind_Ok_inv in H as (ms' & Hms & H). apply fmap_dict_inv in Hms as ->.
  apply bind_Ok_inv in H as ([] & Ha%raise_if_Ok & H). apply bind_Ok_inv in H as ([] & _ & H).
  apply bind_Ok_inv in H as ([] & _ & H). apply bind_Ok_inv in H as ([] & _ & H).
  destruct (choose _ _ _ _) as [chosen|] eqn:Ec; [|done].
  apply bind_Ok_inv in H as ([] & Hg & H).
  assert (d = realized r ms adapter obs chosen) as -> by (by injection H). clear H.
  exists r, ms, chosen. split_and!; try done.
  - intros Hlen. apply andb_false_iff in Ha as [Ha|Ha]; bool_simpl; [lia|done].
  - intros ->. rewrite bool_decide_true in Hg by done. apply bind_Ok_inv in Hg as ([] & Hs%raise_if_Ok & Hg).
    apply raise_if_Ok in Hg. bool_simpl. split; [done|]. intros E. by rewrite E in Hg.
Qed.

(** ** The choice *)
Lemma min_priority_spec best l :
  min_priority best l ∈ best :: l ∧ ∀ m, m ∈ best :: l → member_priority (min_priority best l) ≤ member_priority m.
Proof.
  revert best. induction l as [|m l IH]; intros best; cbn [min_priority].
  { split; [by left|]. intros m Hm. apply list_elem_of_singleton in Hm as ->. lia. }
  destruct (Z.ltb_spec (member_priority m) (member_priority best)) as [E|E];
    [destruct (IH m) as [Hin Hle]|destruct (IH best) as [Hin Hle]]; split; try set_solver;
    intros x [->|[->|Hx]%elem_of_cons]%elem_of_cons.
  - specialize (Hle m ltac:(by left)). lia.
  - by apply Hle; left.
  - by apply Hle; right.
  - by apply Hle; left.
  - specialize (Hle best ltac:(by left)). lia.
  - by apply Hle; right.
Qed.

Lemma choose_spec policy cursor pick us m :
  choose policy cursor pick us = Some m →
  m ∈ us ∧ (policy = txt "priority" → ∀ m', m' ∈ us → member_priority m ≤ member_priority m').
Proof.
  unfold choose. destruct us as [|m0 l]; [done|]. destruct (eq_str policy "priority") eqn:Ep.
  - intros [= <-]. destruct (min_priority_spec m0 l). done.
  - intros H. split; [destruct (eq_str policy "round_robin"); by eapply list_elem_of_lookup_2|].
    intros ->. done.
Qed.

Lemma choose_some policy cursor pick us : us ≠ [] → is_Some (choose policy cursor pick us).
Proof.
  unfold choose. destruct us as [|m l]; [done|]. intros _. destruct (eq_str policy "priority"); [eauto|].
  assert (0 < zlen (m :: l)) as Hpos by (rewrite zlen_cons; pose proof (zlen_nonneg l); lia).
  destruct (eq_str policy "round_robin"); apply lookup_lt_is_Some; unfold zlen in *;
    [pose proof (Z.mod_pos_bound cursor (Z.of_nat (length (m :: l))))|pose proof (Z.mod_pos_bound pick (Z.of_nat (length (m :: l))))]; lia.
Qed.

(** The residues of [n] consecutive numbers are the numbers below [n]. *)
Lemma residues c n : 0 < n → (λ i, (c + i) mod n) <$> seqZ 0 n ≡ₚ seqZ 0 n.
Proof.
  intros Hn. apply submseteq_length_Permutation; [|by rewrite length_fmap]. apply NoDup_submseteq.
  - apply NoDup_fmap_2_strong; [|apply NoDup_seqZ]. intros i j Hi%elem_of_seqZ Hj%elem_of_seqZ E.
    rewrite (Z.mod_eq (c + i) n), (Z.mod_eq (c + j) n) in E by lia.
    generalize dependent ((c + i) / n). intros a E. generalize dependent ((c + j) / n). intros b E.
    destruct (Z.lt_trichotomy a b) as [?|[->|?]]; nia.
  - intros x (i & -> & _)%list_elem_of_fmap. apply elem_of_seqZ. pose proof (Z.mod_pos_bound (c + i) n). lia.
Qed.

Lemma list_by_index {A} (l : list A) : (λ i, l !! Z.to_nat i) <$> seqZ 0 (zlen l) = Some <$> l.
Proof.
  apply list_eq. intros k. rewrite !list_lookup_fmap. destruct (decide (k < length l)%nat) as [Hk|Hk].
  - rewrite lookup_seqZ_lt by (unfold zlen; lia). simpl. replace (Z.to_nat (0 + Z.of_nat k)) with k by lia.
    destruct (lookup_lt_is_Some_2 l k Hk) as [x Hx]. by rewrite Hx.
  - rewrite lookup_seqZ_ge by (unfold zlen; lia). simpl. rewrite lookup_ge_None_2; [done|lia].
Qed.

(** Round robin: consecutive cursors take every usable member once. *)
Lemma round_robin_permutes c pick us :
  us ≠ [] → (λ i, choose (txt "round_robin") (c + i) pick us) <$> seqZ 0 (zlen us) ≡ₚ Some <$> us.
Proof.
  intros Hus. rewrite <- list_by_index.
  transitivity ((λ i, us !! Z.to_nat i) <$> ((λ i, (c + i) mod zlen us) <$> seqZ 0 (zlen us))).
  - rewrite <- list_fmap_compose. apply Permutation_refl'. apply list_fmap_ext. intros k i _. destruct us; done.
  - apply fmap_Permutation. apply residues. destruct us; [done|]. rewrite zlen_cons. pose proof (zlen_nonneg us). lia.
Qed.

Lemma shared_key_spec ms :
  shared_key ms = true → Forall member_ok ms →
  ∃ k, hex_lower 64 k = true ∧ ∀ m, m ∈ ms → vget_none m "public_key" = VStr k.
Proof.
  unfold shared_key. destruct ms as [|m0 l]; [done|]. intros [Hn Hall]%andb_true_iff Hok.
  pose proof Hok as [[_ Hk _] _]%Forall_cons. destruct Hk as [E|(k & E & Hx)]; [by rewrite E in Hn|].
  exists k. split; [done|]. intros m Hm. rewrite Forall_forall in Hok. specialize (Hok m Hm).
  apply forallb_forall with (x := m) in Hall; [|by apply list_elem_of_In]. rewrite E in Hall.
  destruct (mo_key _ Hok) as [E'|(k' & E' & _)]; rewrite E' in Hall |- *; [done|]. simpl in Hall. bool_simpl. by subst.
Qed.
End Facts.
