(* ===== verification/CoreCatalog.v ===== *)
(** * The Core catalog

    [Deployment/core_catalog.py]: the descriptors of the built-in Cores, the
    contract of imported ones, the resolution of requirements and the Core
    binding.  The installation (its root, the platform, which files exist and
    their digests) and the home-relative expansion of paths are arguments; the
    file of imported descriptors is what was read from it. *)
From S2P Require Import Prelude Dict PyStr PyText PyValue Json JsonRound JsonDocs StrictJson Sha256 NativeProfiles Net.

Definition DESCRIPTOR_SCHEMA : string := "shadow6.core-descriptor.v1".
Definition CONFIG_SCHEMA : string := "shadow6.core-config.v1".

(** [re.compile(r"^[A-Za-z0-9][A-Za-z0-9._:-]{0,63}$")], as [fullmatch] uses it. *)
Definition _ID (s : pystr) : bool := re_head is_alnum (λ c, is_alnum c || one_of "._:-" c) 0 63 s.

(** [s.title()] on ASCII text. *)
Fixpoint title_from (inside : bool) (s : pystr) : pystr :=
  match s with
  | [] => []
  | c :: s =>
      let cased := is_lower c || is_upper c in
      (if inside then ascii_lower c else if is_lower c then c - 32 else c) :: title_from cased s
  end.
Definition title (s : pystr) : pystr := title_from false s.

(** The installation a catalog describes. *)
Record installation := Installation {
  i_root : pystr; i_system : pystr; i_machine : pystr; i_envelope : bool; i_digest : pystr → option pystr }.

Definition _schema (core : pystr) : pydict := mkdict
  [("schema", txt CONFIG_SCHEMA); ("version", txt "1"); ("core", VStr core);
   ("fields", VList [VDict (mkdict
     [("id", txt "config_path"); ("type", txt "path"); ("required", VBool true); ("optional", VBool false);
      ("description", txt "Path to the Core-specific configuration file"); ("secret", VBool false);
      ("restartRequired", VBool true); ("roles", txts ["broker"; "agent"; "client"]);
      ("dependencies", VList []); ("conflicts", VList []); ("hasDefault", VBool false)])])].

(** [list(dict.fromkeys(...))]: the first occurrences. *)
Definition from_keys (l : list pyval) : list pyval :=
  foldl (λ acc v, if existsb (py_eqb v) acc then acc else acc ++ [v]) [] l.

Definition _descriptor (i : installation) (core : pyval) : result pydict :=
  profile ← select_profile core VNone;
  boundaries ← application_boundaries core;
  kinds ← map_res (λ b, d ← as_dict b; field d "kind") boundaries;
  realization ← as_dict (vget_none profile "realization");
  let name := as_text core in
  Ok (mkdict
    [("schema", txt DESCRIPTOR_SCHEMA); ("id", core); ("displayName", VStr (str "Shadow6 " ++ title name ++ str " Core"));
     ("implementation", VDict (mkdict [("name", core); ("version", txt "unknown"); ("language", core)]));
     ("executable", VStr (i_root i ++ str "/" ++ as_text (vget_none profile "artifact"))); ("binaryDigest", VNone);
     ("publisher", txt "Shadow6"); ("source", txt "builtin"); ("trust", VDict (mkdict [("status", txt "builtin")]));
     ("protocolFamily", txt "core-native"); ("applicationBoundaries", VList (from_keys kinds));
     ("guarantees", VDict []); ("limits", VDict []); ("roles", txts ["broker"; "agent"; "client"]);
     ("platforms", VList [VStr (ascii_lower <$> i_system i)]); ("architectures", VList [VStr (i_machine i)]);
     ("featureReportDigest", VNone); ("configurationSchema", VDict (_schema name)); ("configurationSchemaVersion", txt "1");
     ("launchAdapter", vget_none realization "launcher");
     ("privacyEnvelope", VDict (mkdict
        [("available", VBool (i_envelope i)); ("implementation", txt "ocaml"); ("mode", txt "authenticated-envelope");
         ("nativeProtocolUnchanged", VBool true); ("preauthIdentityDisclosure", VBool false);
         ("publicCoreListenerRequired", VBool false)]))]).

(** [_ID.fullmatch(str(value.get("id", "")))]. *)
Definition id_matches (v : pyval) : bool :=
  match v with
  | VStr s => _ID s
  | VInt z => _ID (dec z)
  | VBool _ | VNone => true
  | VFloat r => _ID r
  | VList _ | VDict _ => false
  end.

(** [any(x not in {names} for x in l)], left to right. *)
Fixpoint any_outside (names : list string) (l : list pyval) : result bool :=
  match l with
  | [] => Ok false
  | v :: l => known ← in_set v names; if known : bool then any_outside names l else Ok true
  end.

Definition descriptor_fields : list string :=
  ["schema"; "id"; "displayName"; "implementation"; "executable"; "binaryDigest"; "publisher"; "source"; "trust";
   "protocolFamily"; "applicationBoundaries"; "guarantees"; "limits"; "roles"; "platforms"; "architectures";
   "featureReportDigest"; "configurationSchema"; "configurationSchemaVersion"; "privacyEnvelope"; "launchAdapter"].

(** A nonempty list of known names. *)
Definition check_names (v : pyval) (names : list string) (message : string) : result unit :=
  match v with
  | VList (x :: l) => outside ← any_outside names (x :: l); raise_if outside ValueError message
  | _ => raise ValueError message
  end.

Section Catalog.
Context (nfc : pystr → pystr).

Definition validate_descriptor (value : pyval) : result pydict :=
  _ ← strict_json nfc LIMIT STRING_LIMIT (JBytes (dumps default_opts value));
  match value with
  | VDict d =>
      _ ← raise_if (negb (eq_str (vget_none d "schema") DESCRIPTOR_SCHEMA) || negb (id_matches (vget_or d "id" (VStr []))))
            ValueError "invalid Core descriptor";
      match vget_none d "configurationSchema" with
      | VDict c =>
          _ ← raise_if (negb (eq_str (vget_none c "schema") CONFIG_SCHEMA)) ValueError
                "Core descriptor requires a configuration schema";
          _ ← raise_if (negb (py_eqb (vget_none c "core") (vget_none d "id"))) ValueError
                "Core descriptor/schema identity mismatch";
          _ ← raise_if (negb (keys_within d descriptor_fields)) ValueError "unknown Core descriptor field";
          _ ← check_names (vget_none d "applicationBoundaries") ["stream"; "message"; "credited"] "invalid application boundaries";
          _ ← check_names (vget_none d "roles") ["broker"; "agent"; "client"; "gate"] "invalid descriptor roles";
          adapter ← in_set (vget_or d "launchAdapter" (txt "native-config")) ["native-config"; "native-files"];
          _ ← raise_if (negb adapter) ValueError "unsupported launch adapter";
          _ ← raise_if (match vget_none d "executable" with VStr p => negb (is_absolute p) | _ => true end) ValueError
                "absolute Core executable required";
          _ ← raise_if (negb (keys_cover d ["displayName"; "implementation"; "protocolFamily"; "applicationBoundaries"; "roles"]))
                ValueError "Core descriptor missing field";
          Ok d
      | _ => raise ValueError "Core descriptor requires a configuration schema"
      end
  | _ => raise ValueError "invalid Core descriptor"
  end.

(** [for x in v]. *)
Definition py_iter (v : pyval) : result (list pyval) :=
  match v with
  | VList l => Ok l
  | VStr s => Ok ((λ c, VStr [c]) <$> s)
  | VDict d => Ok (VStr <$> dkeys d)
  | _ => raise TypeError "object is not iterable"
  end.

(** [absolute p] is [str(Path(p).expanduser().absolute())]. *)
Definition validate_config (absolute : pystr → pystr) (descriptor config : pyval) : result pydict :=
  d ← validate_descriptor descriptor;
  match config with
  | VDict c =>
      schema ← as_dict (vget_none d "configurationSchema");
      v ← field schema "fields";
      fs ← py_iter v;
      fields ← map_res as_dict fs;
      ids ← map_res (λ f, i ← field f "id"; if hashable i then Ok i else raise TypeError "unhashable type") fields;
      _ ← raise_if (existsb (λ kv : pystr * pyval, negb (existsb (py_eqb (VStr kv.1)) ids)) c) ValueError
            "unknown Core configuration field";
      _ ← for_each (λ f : pydict,
            required ← field f "required";
            raise_if (truthy required
                      && match vget_none f "id" with VStr k => negb (dmem c k) | _ => true end) ValueError
              "missing Core configuration field") fields;
      match vget_none c "config_path" with
      | VStr p =>
          match utf8 p with
          | None => raise UnicodeError "surrogates not allowed"
          | Some b =>
              _ ← raise_if (bool_decide (p = []) || (4096 <? zlen b) || bool_decide (0 ∈ p)) ValueError
                    "config_path requires a bounded nonempty path";
              Ok (mkdict [("config_path", VStr (absolute p))])
          end
      | _ => raise ValueError "config_path requires a bounded nonempty path"
      end
  | _ => raise ValueError "Core configuration must be an object"
  end.

(** ** The catalog: descriptors by identity, in insertion order

    An imported descriptor may have an identity that is not a string; the keys
    are values. *)
Definition catalog : Type := list (pyval * pydict).

Fixpoint item_get (items : catalog) (k : pyval) : option pydict :=
  match items with
  | [] => None
  | (k', d) :: items => if py_eqb k' k then Some d else item_get items k
  end.
Fixpoint item_set (items : catalog) (k : pyval) (d : pydict) : catalog :=
  match items with
  | [] => [(k, d)]
  | (k', d') :: items => if py_eqb k' k then (k', d) :: items else (k', d') :: item_set items k d
  end.

Definition builtin_items (i : installation) : result catalog :=
  map_res (λ c, d ← _descriptor i c; Ok (c, d)) CORE_IDS.

Definition is_builtin (v : pyval) : bool := existsb (py_eqb v) CORE_IDS.

(** [json.loads(json.dumps(item))]. *)
Definition json_copy (d : pydict) : result pydict := v ← json_loads (dumps default_opts (VDict d)); as_dict v.

Definition register (descriptor : pyval) : M catalog pydict :=
  d ← mlift (validate_descriptor descriptor);
  source ← mlift (field d "source");
  _ ← mraise_if (eq_str source "builtin" && negb (is_builtin (vget_none d "id"))) ValueError "unknown builtin Core";
  copy ← mlift (json_copy d);
  _ ← mmod (λ items, item_set items (vget_none d "id") copy);
  mret copy.

Fixpoint load_items (items : pydict) : M catalog unit :=
  match items with
  | [] => mret tt
  | (identity, VDict item) :: items =>
      _ ← mraise_if (is_builtin (VStr identity) || negb (py_eqb (vget_none item "id") (VStr identity))
                     || negb (eq_str (vget_none item "source") "imported")) ValueError
            "imported descriptors cannot replace built-in Core identities";
      _ ← register (VDict item);
      load_items items
  | (identity, _) :: _ =>
      if is_builtin (VStr identity)
      then mraise ValueError "imported descriptors cannot replace built-in Core identities"
      else mraise AttributeError "get"
  end.

(** [stored] is the content of the descriptor file, if it exists. *)
Definition _load_imported (stored : option bytes) : M catalog unit :=
  match stored with
  | None => mret tt
  | Some raw =>
      items ← mlift (strict_json nfc LIMIT STRING_LIMIT (JBytes raw));
      match items with
      | VDict items =>
          _ ← mraise_if (128 <? zlen items) ValueError "invalid imported Core catalog";
          load_items items
      | _ => mraise ValueError "invalid imported Core catalog"
      end
  end.

Definition make_catalog (i : installation) (stored : option bytes) : result catalog :=
  items ← builtin_items i;
  match _load_imported stored items with
  | (Ok _, items) => Ok items
  | (Raise e, _) => Raise e
  end.

Definition set_default (d : pydict) (k : string) (v : pyval) : pydict :=
  if has_key d k then d else vset d k v.

(** ** The document of the imported descriptors

    [json.dumps({k: v for k, v in items if k not in CORE_IDS}, sort_keys=True)]:
    sorting keys of different types raises; [sorted] compares integers and
    booleans as numbers, and JSON writes every key as text.  The document has
    its keys in that order at the top and sorted below. *)
Definition imported (items : catalog) : catalog := filter (λ kv, negb (is_builtin kv.1)) items.

Definition number_key (v : pyval) : option Z :=
  match v with VInt z => Some z | VBool b => Some (Z.b2z b) | _ => None end.

Fixpoint insert_number (kv : Z * (pystr * pyval)) (l : list (Z * (pystr * pyval))) : list (Z * (pystr * pyval)) :=
  match l with
  | [] => [kv]
  | kv' :: l' => if kv.1 <=? kv'.1 then kv :: l else kv' :: insert_number kv l'
  end.

Definition key_text (v : pyval) : pystr :=
  match v with
  | VStr s => s
  | VInt z => dec z
  | VBool b => str (if b then "true" else "false")
  | _ => str "null"
  end.

Definition imported_document (items : catalog) : result pyval :=
  let rows := imported items in
  let doc := (λ kv : pyval * pydict, (key_text kv.1, norm (VDict kv.2))) <$> rows in
  if forallb (λ kv, is_str kv.1) rows then Ok (VDict (sort_keys doc))
  else match mapM (λ kv : pyval * pydict, n ← number_key kv.1; Some (n, (key_text kv.1, norm (VDict kv.2)))) rows, rows with
       | Some l, _ => Ok (VDict (foldr insert_number [] l).*2)
       | None, [_] => Ok (VDict doc)
       | None, _ => raise TypeError "'<' not supported between instances"
       end.

(** [import_file] of the bytes of a file; it returns the descriptor and the
    bytes it writes to the descriptor file. *)
Definition import_file (raw : bytes) : M catalog (pydict * bytes) :=
  _ ← mraise_if (262144 <? zlen raw) ValueError "descriptor size limit";
  value ← mlift (strict_json nfc LIMIT STRING_LIMIT (JBytes raw));
  match value with
  | VDict d =>
      let d := set_default d "source" (txt "imported") in
      let d := set_default d "trust" (VDict (mkdict [("status", txt "unverified")])) in
      _ ← mraise_if (is_builtin (vget_none d "id") || negb (eq_str (vget_none d "source") "imported")) ValueError
            "cannot import over a builtin Core";
      item ← register (VDict d);
      items ← mget id;
      doc ← mlift (imported_document items);
      let data := dumps default_opts doc in
      _ ← mraise_if (LIMIT <? zlen data) ValueError "state size limit";
      mret (item, data)
  | _ => mraise AttributeError "setdefault"
  end.

(** ** Looking up and resolving *)

(** [[self._items[k] for k in sorted(self._items)]]. *)
Definition list_items (items : catalog) : result (list pydict) :=
  if forallb (λ kv, is_str kv.1) items
  then Ok (sort_keys ((λ kv : pyval * pydict, (as_text kv.1, kv.2)) <$> items)).*2
  else raise TypeError "'<' not supported between instances".

Definition inspect (items : catalog) (core : pyval) : result pydict :=
  if hashable core then
    match item_get items core with Some d => Ok d | None => raise ValueError "unknown Core identity" end
  else raise TypeError "unhashable type".

Definition meets (item : pydict) (requirement : pystr * pyval) : bool :=
  let actual := default VNone (dget item requirement.1) in
  match actual with
  | VList l => forallb (λ v, existsb (λ x, py_eqb x v) l) (match requirement.2 with VList ws => ws | w => [w] end)
  | _ => py_eqb actual requirement.2
  end.

(** The candidates and the rejections; [core] is [None] when nothing is
    requested. *)
Definition resolve_core (items : catalog) (requirements : pydict) (core : pyval) : result pydict :=
  l ← list_items items;
  let requested := truthy core in
  let asked (d : pydict) := negb requested || py_eqb (vget_none d "id") core in
  let matches := filter (λ d, asked d && forallb (meets d) requirements) l in
  let reject (d : pydict) : option pyval :=
    if negb (asked d) then Some (VDict (mkdict [("core", vget_none d "id"); ("reason", txt "not explicitly requested")]))
    else if forallb (meets d) requirements then None
    else Some (VDict (mkdict [("core", vget_none d "id"); ("reason", txt "requirements not met")])) in
  Ok (mkdict [("schema", txt "shadow6.core-resolution.v1"); ("candidates", VList (VDict <$> matches));
              ("rejected", VList (omap reject l)); ("bindingRequired", VBool (negb requested));
              ("ambiguous", VBool (1 <? zlen matches))]).

Definition sha256_text (v : pyval) : pyval := VStr (str "sha256:" ++ sha256_hex (dumps_canonical v)).

Definition binding (i : installation) (absolute : pystr → pystr) (items : catalog) (core config : pyval)
    (version : option pystr) : result pydict :=
  _ ← raise_if (is_none core || eq_str core "") ValueError "CoreSelectionRequired";
  d ← inspect items core;
  normalized ← validate_config absolute (VDict d) config;
  version ← match version with
            | Some (c :: s) => Ok (VStr (c :: s))
            | _ => implementation ← as_dict (vget_none d "implementation"); field implementation "version"
            end;
  schema_version ← field d "configurationSchemaVersion";
  Ok (mkdict
    [("core", core); ("version", version);
     ("binaryDigest", match i_digest i (as_text (vget_none d "executable")) with Some h => VStr h | None => VNone end);
     ("featureReportDigest", vget_none d "featureReportDigest"); ("configSchemaVersion", schema_version);
     ("config", VDict normalized); ("descriptorDigest", sha256_text (VDict d)); ("configDigest", sha256_text (VDict normalized))]).
End Catalog.

(** * The Core catalog: facts *)

(** ** Identities of built-in Cores are strings *)
Lemma core_ids_text c : c ∈ CORE_IDS → ∃ s, c = VStr s.
Proof.
  intros H. assert (forallb is_str CORE_IDS = true) as Hall by (vm_compute; reflexivity).
  apply forallb_forall with (x := c) in Hall; [|by apply list_elem_of_In]. by apply is_str_spec.
Qed.

Lemma py_eqb_text k s : py_eqb k (VStr s) = true ↔ k = VStr s.
Proof.
  split; [|intros ->; simpl; by apply bool_decide_true].
  destruct k; simpl; try done; intros H; bool_simpl; by subst.
Qed.

Lemma py_eqb_text_l k s : py_eqb (VStr s) k = true ↔ k = VStr s.
Proof.
  split; [|intros ->; simpl; by apply bool_decide_true].
  destruct k; simpl; try done; intros H; bool_simpl; by subst.
Qed.

Lemma is_builtin_spec v : is_builtin v = true ↔ v ∈ CORE_IDS.
Proof.
  unfold is_builtin. rewrite existsb_exists. split.
  - intros (c & Hc%list_elem_of_In & He). destruct (core_ids_text c Hc) as [s ->]. apply py_eqb_text in He as ->. done.
  - intros Hv. exists v. split; [by apply list_elem_of_In|]. destruct (core_ids_text v Hv) as [s ->]. by apply py_eqb_text.
Qed.

Lemma item_get_set_other items k d s : py_eqb k (VStr s) = false → item_get (item_set items k d) (VStr s) = item_get items (VStr s).
Proof.
  intros Hk. induction items as [|[k' d'] items IH]; cbn [item_set item_get]; [by rewrite Hk|].
  destruct (py_eqb k' k) eqn:E; cbn [item_get]; [|by rewrite IH].
  destruct (py_eqb k' (VStr s)) eqn:E'; [|done]. apply py_eqb_text in E' as ->. apply py_eqb_text_l in E as ->.
  rewrite (proj2 (py_eqb_text (VStr s) s) eq_refl) in Hk. done.
Qed.

Lemma item_get_set_eq items s d : item_get (item_set items (VStr s) d) (VStr s) = Some d.
Proof.
  induction items as [|[k' d'] items IH]; cbn [item_set item_get]; [by rewrite (proj2 (py_eqb_text (VStr s) s) eq_refl)|].
  destruct (py_eqb k' (VStr s)) eqn:E; cbn [item_get]; rewrite E; done.
Qed.

Section Facts.
Context (nfc : pystr → pystr).

Lemma validate_descriptor_Ok v d : validate_descriptor nfc v = Ok d → v = VDict d.
Proof.
  unfold validate_descriptor. intros (w & _ & H)%bind_Ok_inv. destruct v as [| | | | | |d0]; try done.
  apply bind_Ok_inv in H as ([] & _ & H). destruct (vget_none d0 "configurationSchema"); try done.
  repeat (apply bind_Ok_inv in H as (? & _ & H)). by injection H as <-.
Qed.

(** Registering changes nothing but the entry of the descriptor's identity. *)
Lemma register_inv v items r items' :
  register nfc v items = (r, items') →
  items' = items ∨ ∃ d copy, v = VDict d ∧ items' = item_set items (vget_none d "id") copy ∧ r = Ok copy ∧ json_copy d = Ok copy ∧
    validate_descriptor nfc v = Ok d.
Proof.
  unfold register. intros H. destruct (M_lift_inv _ _ _ _ _ H) as [(d & Hd & H1)|[-> _]]; [|by left].
  destruct (M_lift_inv _ _ _ _ _ H1) as [(src & _ & H2)|[-> _]]; [|by left].
  destruct (M_lift_inv _ _ _ _ _ H2) as [([] & _ & H3)|[-> _]]; [|by left].
  destruct (M_lift_inv _ _ _ _ _ H3) as [(copy & Hc & H4)|[-> _]]; [|by left].
  injection H4 as <- <-. right. exists d, copy. split_and!; try done. by apply validate_descriptor_Ok.
Qed.

Lemma register_other v d items r items' s :
  register nfc v items = (r, items') → v = VDict d → py_eqb (vget_none d "id") (VStr s) = false →
  item_get items' (VStr s) = item_get items (VStr s).
Proof.
  intros [->|(d' & copy & -> & -> & _)]%register_inv [= ->] Hs; [done|]. by apply item_get_set_other.
Qed.

Lemma builtin_differs v c s : is_builtin v = false → c ∈ CORE_IDS → c = VStr s → py_eqb v (VStr s) = false.
Proof.
  intros Hv Hc ->. destruct (py_eqb v (VStr s)) eqn:E; [|done]. apply py_eqb_text in E as ->.
  by rewrite (proj2 (is_builtin_spec _) Hc) in Hv.
Qed.

(** No import replaces a built-in descriptor. *)
Lemma import_keeps raw items r items' core :
  import_file nfc raw items = (r, items') → core ∈ CORE_IDS → item_get items' core = item_get items core.
Proof.
  intros H Hc. destruct (core_ids_text core Hc) as [s Es]. unfold import_file in H.
  destruct (M_lift_inv _ _ _ _ _ H) as [([] & _ & H1)|[-> _]]; [|done].
  destruct (M_lift_inv _ _ _ _ _ H1) as [(v & _ & H2)|[-> _]]; [|done].
  destruct v as [| | | | | |d]; try (injection H2 as _ <-; done). clear H H1.
  set (d' := set_default _ "trust" _) in H2.
  destruct (M_lift_inv _ _ _ _ _ H2) as [([] & Hg%raise_if_Ok & H3)|[-> _]]; [|done]. apply orb_false_iff in Hg as [Hg _].
  assert (∀ i4 r', register nfc (VDict d') items = (r', i4) → item_get i4 core = item_get items core) as Hreg.
  { intros i4 r' Hr. subst core. eapply register_other; [exact Hr|reflexivity|]. by eapply builtin_differs. }
  destruct (M_bind_inv _ _ _ _ _ H3) as [(item & i4 & Hr & H4)|(e & He & _)]; [|by eapply Hreg].
  rewrite <- (Hreg _ _ Hr). clear -H4. change (mget id ≫= ?k) with (λ i : catalog, k i i) in H4. cbv beta in H4.
  destruct (M_lift_inv _ _ _ _ _ H4) as [(doc & _ & H6)|[-> _]]; [|done].
  destruct (M_lift_inv _ _ _ _ _ H6) as [([] & _ & H7)|[-> _]]; [|done]. injection H7 as _ <-. done.
Qed.

(** Nor does the stored file. *)
Lemma load_items_keeps l items r items' core :
  load_items nfc l items = (r, items') → core ∈ CORE_IDS → item_get items' core = item_get items core.
Proof.
  intros H Hc. destruct (core_ids_text core Hc) as [s Es]. revert items H.
  induction l as [|[identity v] l IH]; intros items H; cbn [load_items] in H; [injection H as _ <-; done|].
  destruct v as [| | | | | |item]; try (by destruct (is_builtin (VStr identity)); injection H as _ <-).
  destruct (M_lift_inv _ _ _ _ _ H) as [([] & Hg%raise_if_Ok & H1)|[-> _]]; [|done].
  apply orb_false_iff in Hg as [Hg _]. apply orb_false_iff in Hg as [Hb Hid].
  apply negb_false_iff, py_eqb_text in Hid.
  assert (∀ i4 r', register nfc (VDict item) items = (r', i4) → item_get i4 core = item_get items core) as Hreg.
  { intros i4 r' Hr. subst core. eapply register_other; [exact Hr|reflexivity|]. rewrite Hid. by eapply builtin_differs. }
  destruct (M_bind_inv _ _ _ _ _ H1) as [(it & i4 & Hr & H4)|(e & He & _)]; [|by eapply Hreg].
  rewrite <- (Hreg _ _ Hr). by apply IH.
Qed.

Lemma load_imported_keeps stored items r items' core :
  _load_imported nfc stored items = (r, items') → core ∈ CORE_IDS → item_get items' core = item_get items core.
Proof.
  unfold _load_imported. destruct stored as [raw|]; [|intros [= _ <-]; done]. intros H Hc.
  destruct (M_lift_inv _ _ _ _ _ H) as [(v & _ & H1)|[-> _]]; [|done].
  destruct v as [| | | | | |l]; try (injection H1 as _ <-; done).
  destruct (M_lift_inv _ _ _ _ _ H1) as [([] & _ & H2)|[-> _]]; [|done].
  by eapply load_items_keeps.
Qed.
End Facts.
