(* ===== verification/Context.v ===== *)
(** * Portable contexts

    [Deployment/protocol_context.py]: an S6P1 envelope as deployment intent -
    its validation, digest, agreement with a Core binding, and the admission of
    the local components that realize it. *)
From S2P Require Import Prelude Dict PyStr PyText PyValue Json JsonRound JsonDocs StrictJson Sha256 Signing Base64.
From S2P Require Import NativeProfiles Net JoinCode AdmissionFacts BrokerSet CoreCatalog.

Definition _LOCAL : list string :=
  ["pid"; "processIdentity"; "pidfd"; "binaryDigest"; "config_path"; "configPath"; "telemetry"; "runtime"].

(** The inner [check]: local material somewhere in the document. *)
Fixpoint has_local (item : pyval) : bool :=
  match item with
  | VDict d => existsb (λ kv : pystr * pyval, str_in kv.1 _LOCAL) d || existsb (λ kv : pystr * pyval, has_local kv.2) d
  | VList l => existsb has_local l
  | _ => false
  end.

Section Context.
Context (nfc nfkc lower : pystr → pystr) `{Signing}.

Definition validate_context (value : pyval) : result pydict :=
  value ← match value with VStr _ => unpack_protocol nfc value | _ => Ok value end;
  token ← pack_protocol nfc value;
  _ ← raise_if (has_local value) ValueError "local runtime/realization material cannot enter S6P1";
  v ← as_dict value;
  _ ← validate_routes nfkc lower (vget_none v "routes");
  w ← unpack_protocol nfc (VStr token);
  as_dict w.

Definition minimal_context (core : option pystr) : result pydict :=
  validate_context (VDict (mkdict
    [("schema", txt "shadow6.protocol-envelope.v1"); ("version", VInt 1); ("purpose", txt "local-service");
     ("core", VStr (match core with Some (c :: s) => c :: s | _ => str "all" end)); ("role", txt "all");
     ("identity", VDict []); ("routes", VList []); ("components", VDict []); ("credentials", VDict [])])).

Definition context_digest (value : pyval) : result pystr :=
  c ← validate_context value;
  token ← pack_protocol nfc (VDict c);
  Ok (str "sha256:" ++ sha256_hex token).

Definition core_allowed (scope core : pyval) : bool :=
  match scope with
  | VList l => existsb (λ x, py_eqb x core) l
  | _ => eq_str scope "all" || py_eqb scope core
  end.

(** One route against the Core. *)
Definition check_route_binding (context descriptor : pydict) (core : pyval) (route : pyval) : result unit :=
  r ← as_dict route;
  _ ← (if eq_str (vget_none r "kind") "broker_set" && has_key r "engine" then
         let role := vget_none context "role" in
         _ ← check_node_binding (vget_none r "engine") core (if eq_str role "all" then txt "client" else role);
         Ok tt
       else Ok tt);
  let boundary := vget_none r "boundary" in
  declared ← as_list (vget_none descriptor "applicationBoundaries");
  raise_if (truthy boundary && negb (existsb (λ x, py_eqb x boundary) declared)) ValueError
    "capability unavailable: application boundary".

Definition check_binding (context : pyval) (core : pyval) (items : catalog) : result pydict :=
  c ← validate_context context;
  descriptor ← inspect items core;
  _ ← raise_if (negb (core_allowed (vget_none c "core") core)) ValueError "S6P1 core scope conflicts with explicit CoreBinding";
  roles ← as_list (vget_none descriptor "roles");
  let scope := vget_none c "role" in
  _ ← raise_if (negb (eq_str scope "all") && negb (existsb (λ x, py_eqb x scope) roles)) ValueError
        "capability unavailable: Core role";
  routes ← as_list (vget_none c "routes");
  _ ← for_each (check_route_binding c descriptor core) routes;
  Ok descriptor.

(** The role that is asked for: the explicit one, else the context's own. *)
Definition asked_role (c : pydict) (role : option pystr) : option pystr :=
  match role with
  | Some r => Some r
  | None => if eq_str (vget_none c "role") "all" then None else Some (as_text (vget_none c "role"))
  end.

Definition admit_context (now : Z) (context : pyval) (component role : option pystr) : result pydict :=
  c ← validate_context context;
  token ← pack_protocol nfc (VDict c);
  r ← resolve_protocol_envelope nfc now (VStr token) component (asked_role c role) None [] false true;
  as_dict r.1.

Definition MANAGED : list string := ["gate"; "guard"; "s6epe"].

Definition admit_component (now : Z) (c : pydict) (native_role : option pystr) (components : list pystr) (component : string)
    : result unit :=
  cs ← as_dict (vget_none c "components");
  let present := bool_decide (str component ∈ components) in
  _ ← raise_if (is_true (vget_none cs component) && negb present) ValueError
        "capability unavailable: S6P1 component requires an explicit local realization";
  if present then _ ← admit_context now (VDict c) (Some (str component)) native_role; Ok tt else Ok tt.

Definition admit_realization (now : Z) (context : pyval) (native_role : option pystr) (components : list pystr)
    : result pydict :=
  c ← validate_context context;
  creds ← as_dict (vget_none c "credentials");
  _ ← raise_if (eq_str (vget_none c "role") "all" && match native_role with None => true | Some _ => false end
                && (has_key creds "passport" || has_key creds "visa")) ValueError
        "capability unavailable: credential-bearing deployment requires an explicit logical or native role";
  c ← admit_context now (VDict c) None native_role;
  _ ← raise_if (negb (forallb (λ x, str_in x MANAGED) components)) ValueError "unknown managed component realization";
  _ ← for_each (admit_component now c native_role components) MANAGED;
  Ok c.
End Context.

(** * Portable contexts: facts *)

(** ** Sorting the keys changes no check *)
Lemma existsb_perm {A} (f : A → bool) l l' : l ≡ₚ l' → existsb f l = existsb f l'.
Proof.
  intros Hp. apply eq_iff_eq_true. rewrite !existsb_exists.
  split; intros (x & Hx & Hf); exists x; split; try done; apply list_elem_of_In in Hx; apply list_elem_of_In;
    by rewrite Hp in Hx || rewrite Hp.
Qed.

Lemma existsb_fmap {A B} (f : B → bool) (g : A → B) l : existsb f (g <$> l) = existsb (λ x, f (g x)) l.
Proof. induction l as [|x l IH]; [done|]. rewrite fmap_cons. simpl. by rewrite IH. Qed.

Lemma existsb_ext_Forall {A} (f g : A → bool) l : Forall (λ x, f x = g x) l → existsb f l = existsb g l.
Proof. induction 1 as [|x l Hx _ IH]; [done|]. simpl. by rewrite Hx, IH. Qed.

Lemma has_local_norm v : has_local (norm v) = has_local v.
Proof.
  induction v as [| | | | |l IH|d IH] using pyval_ind; try done; cbn [norm has_local].
  - rewrite existsb_fmap. by apply existsb_ext_Forall.
  - rewrite !(existsb_perm _ _ _ (sort_keys_perm _)), !existsb_fmap. f_equal. by apply existsb_ext_Forall.
Qed.

Section Facts.
Context (nfc nfkc lower : pystr → pystr).

Lemma endpoint_norm v : endpoint nfkc lower (norm v) = endpoint nfkc lower v.
Proof. by destruct v. Qed.

Lemma engine_id_norm v : engine_id (norm v) = engine_id v.
Proof. by destruct v. Qed.

Lemma check_member_norm seen v : val_wf v → check_member nfkc lower seen (norm v) = check_member nfkc lower seen v.
Proof.
  intros Hwf. destruct v as [| | | | | |m]; try done. rewrite norm_dict. inversion Hwf as [| | | | | |? Hd _]; subst.
  unfold check_member. rewrite !vget_readback, !vget_or_readback by done. autorewrite with readback. rewrite endpoint_norm.
  by destruct (vget_none m "identity"), (vget_none m "public_key"), (vget_or m "priority" (VInt 0)).
Qed.

Lemma check_members_norm seen l :
  Forall val_wf l → fold_res (check_member nfkc lower) seen (norm <$> l) = fold_res (check_member nfkc lower) seen l.
Proof.
  intros Hl. revert seen. induction Hl as [|v l Hv _ IH]; intros seen; [done|]. rewrite fmap_cons. cbn [fold_res].
  rewrite check_member_norm by done. destruct (check_member _ _ seen v) as [s|e]; [apply IH|done].
Qed.

Lemma py_eqb_str_norm e v : py_eqb (VStr e) (norm v) = py_eqb (VStr e) v.
Proof. by destruct v. Qed.

Lemma check_broker_route_norm ids v :
  val_wf v → check_broker_route nfkc lower ids (norm v) = check_broker_route nfkc lower ids v.
Proof.
  intros Hwf. destruct v as [| | | | | |r]; try done. pose proof (val_wf_vget r "members" Hwf) as Hm.
  rewrite norm_dict. inversion Hwf as [| | | | | |? Hd _]; subst. unfold check_broker_route.
  rewrite !vget_readback by done. autorewrite with readback. rewrite engine_id_norm.
  destruct (negb (eq_str (vget_none r "kind") "broker_set")); [done|].
  destruct (raise_if _ _ _) as [[]|e]; [|done]. cbn [mbind result_bind].
  assert (∀ e, py_eqb (VStr e) (norm (vget_none r "engine")) = py_eqb (VStr e) (vget_none r "engine")) as He by (intros; apply py_eqb_str_norm).
  destruct (has_key r "engine").
  1: destruct (engine_id (vget_none r "engine")) as [e|e]; [|done]; cbn [mbind result_bind]; rewrite He;
     destruct (raise_if _ _ _) as [[]|e']; [|done].
  all: cbn [mbind result_bind]; destruct (vget_none r "id") as [| | | |i| |]; try done; cbn [norm];
    destruct (vget_none r "members") as [| | | | |l|]; try done; cbn [norm]; rewrite zlen_fmap;
    inversion Hm as [| | | | |? Hl|]; subst; by rewrite (check_members_norm [] l Hl).
Qed.

Lemma validate_routes_norm v :
  val_wf v → is_ok (validate_routes nfkc lower (norm v)) = is_ok (validate_routes nfkc lower v).
Proof.
  intros Hwf. destruct v as [| | | | |l|]; try done. cbn [norm]. unfold validate_routes. rewrite zlen_fmap.
  destruct (raise_if _ _ _) as [[]|e]; [|done]. cbn [mbind result_bind].
  inversion Hwf as [| | | | |? Hl|]; subst.
  assert (∀ ids, fold_res (check_broker_route nfkc lower) ids (norm <$> l) = fold_res (check_broker_route nfkc lower) ids l) as ->.
  { clear Hwf. induction Hl as [|v l Hv _ IH]; intros ids; [done|]. rewrite fmap_cons. cbn [fold_res].
    rewrite check_broker_route_norm by done. destruct (check_broker_route _ _ ids v); [apply IH|done]. }
  by destruct (fold_res _ _ l).
Qed.

(** ** Validated contexts *)
Lemma unpack_json_ok t w : unpack_protocol nfc (VStr t) = Ok w → json_ok w.
Proof.
  unfold unpack_protocol. intros ([] & _ & H)%bind_Ok_inv. apply bind_Ok_inv in H as (v & Hv%reraise_all_Ok & H).
  apply bind_Ok_inv in H as (tok & _ & [= <-]). apply bind_Ok_inv in Hv as (raw & _ & Hv).
  unfold portable_json in Hv. apply strict_json_portable in Hv as [Hp _]. by eapply portable_json_ok.
Qed.

(** A context that can be validated: its canonical form and its token. *)
Definition context_of (w : pyval) (token : pystr) (c : pydict) : Prop :=
  json_ok w ∧ pack_protocol nfc w = Ok token ∧ VDict c = norm w ∧ has_local w = false ∧
  ∃ e, w = VDict e ∧ is_ok (validate_routes nfkc lower (vget_none e "routes")) = true.

Lemma context_validates w token c : (∀ t, w ≠ VStr t) → context_of w token c → validate_context nfc nfkc lower w = Ok c.
Proof.
  intros Hs (Hj & Hp & Hc & Hl & e & -> & Hr). unfold validate_context. cbn [mbind result_bind]. rewrite Hp. cbn [mbind result_bind].
  rewrite Hl. cbn [raise_if mbind result_bind as_dict]. destruct (validate_routes _ _ _); [|done]. cbn [mbind result_bind].
  destruct (unpack_pack_protocol nfc _ _ Hj Hp) as [-> _]. cbn [mbind result_bind]. by rewrite <- Hc.
Qed.

Lemma validate_context_inv v c :
  (∀ t, v ≠ VStr t) → json_ok v → validate_context nfc nfkc lower v = Ok c → ∃ token, context_of v token c.
Proof.
  intros Hs Hj H. unfold validate_context in H. apply bind_Ok_inv in H as (w & Hw & H).
  assert (w = v) as -> by (destruct v; first [congruence | exfalso; by eapply Hs]). apply bind_Ok_inv in H as (token & Hp & H).
  apply bind_Ok_inv in H as ([] & Hl%raise_if_Ok & H). apply bind_Ok_inv in H as (e & He & H).
  assert (v = VDict e) as -> by (by destruct v; try discriminate He; injection He as ->).
  apply bind_Ok_inv in H as (rs & Hr & H). apply bind_Ok_inv in H as (w & Hw' & H).
  destruct (unpack_pack_protocol nfc _ _ Hj Hp) as [Hu _]. rewrite Hu in Hw'.
  assert (w = norm (VDict e)) as -> by congruence. rewrite norm_dict in H. injection H as <-.
  exists token. split_and!; try done. exists e. split; [done|]. by rewrite Hr.
Qed.

Lemma validate_token_inv t c :
  validate_context nfc nfkc lower (VStr t) = Ok c → ∃ w token, unpack_protocol nfc (VStr t) = Ok w ∧ context_of w token c.
Proof.
  intros H. unfold validate_context in H. apply bind_Ok_inv in H as (w & Hw & H). pose proof (unpack_json_ok _ _ Hw) as Hj.
  assert (validate_context nfc nfkc lower w = Ok c) as Hv.
  { unfold validate_context. by destruct w. }
  destruct (validate_context_inv w c) as [token Ht]; [|done|done|by exists w, token].
  intros t' ->. apply bind_Ok_inv in H as (? & Hp & _). done.
Qed.

Lemma context_of_norm w token c : context_of w token c → context_of (norm w) token c.
Proof.
  intros (Hj & Hp & Hc & Hl & e & -> & Hr). destruct (unpack_pack_protocol nfc _ _ Hj Hp) as [_ Hp'].
  assert (dwf e) as Hd by (by inversion Hj).
  split_and!; [by apply norm_ok|done|by rewrite norm_idem|by rewrite has_local_norm|].
  rewrite norm_dict. exists (sort_keys (nfields e)). split; [done|]. rewrite vget_readback by done. rewrite validate_routes_norm; [done|].
  apply val_wf_vget. by apply json_ok_wf.
Qed.

(** Validating is idempotent, and a context and its token mean the same. *)
Lemma context_fixpoint w token c :
  context_of w token c →
  validate_context nfc nfkc lower (VDict c) = Ok c ∧ pack_protocol nfc (VDict c) = Ok token ∧
  validate_context nfc nfkc lower (VStr token) = Ok c ∧
  context_digest nfc nfkc lower (VDict c) = Ok (str "sha256:" ++ sha256_hex token).
Proof.
  intros Hctx. pose proof (context_of_norm _ _ _ Hctx) as Hn. pose proof Hn as (Hj & Hp & Hc & Hl & Hr).
  rewrite norm_idem in Hc. rewrite <- Hc in Hn, Hp. assert (validate_context nfc nfkc lower (VDict c) = Ok c) as Hv
    by (eapply context_validates; [intros t; discriminate|exact Hn]).
  split_and!; [done|done| |by unfold context_digest; rewrite Hv; cbn [mbind result_bind]; rewrite Hp].
  destruct Hctx as (Hj0 & Hp0 & Hc0 & _). destruct (unpack_pack_protocol nfc _ _ Hj0 Hp0) as [Hu _].
  unfold validate_context. rewrite Hu. cbn [mbind result_bind]. rewrite <- Hc0.
  unfold validate_context in Hv. exact Hv.
Qed.

Definition context_input (v : pyval) : Prop := json_ok v ∨ ∃ t, v = VStr t.

Lemma validate_input v c :
  context_input v → validate_context nfc nfkc lower v = Ok c → ∃ w token, context_of w token c.
Proof.
  intros Hi Hv. assert (is_str v = true → ∃ t, v = VStr t) as Ht by apply is_str_spec.
  destruct (is_str v) eqn:E; [|destruct Hi as [Hj|[t ->]]; [|done]].
  - destruct (Ht eq_refl) as [t ->]. destruct (validate_token_inv t c Hv) as (w & token & _ & H). eauto.
  - destruct (validate_context_inv v c) as [token H]; [by intros t ->|done|done|eauto].
Qed.

Lemma validated_json_ok v c : context_input v → validate_context nfc nfkc lower v = Ok c → json_ok (VDict c).
Proof. intros Hi Hv. destruct (validate_input v c Hi Hv) as (w & token & Hj & _ & -> & _). by apply norm_ok. Qed.

(** ** Admission *)
Context `{Signing}.

(** [admit_context] returns the validated context itself, and its token was admitted. *)
Lemma admit_Ok now v component role c' :
  context_input v → admit_context nfc nfkc lower now v component role = Ok c' →
  validate_context nfc nfkc lower v = Ok c' ∧ ∃ token claims, pack_protocol nfc (VDict c') = Ok token ∧
    resolve_protocol_envelope nfc now (VStr token) component (asked_role c' role) None [] false true = Ok (VDict c', claims).
Proof.
  intros Hi Ha. unfold admit_context in Ha. apply bind_Ok_inv in Ha as (c & Hc & Ha). apply bind_Ok_inv in Ha as (token & Hp & Ha).
  apply bind_Ok_inv in Ha as ([e claims] & Hr & Ha). cbn [fst] in Ha.
  destruct (validate_input v c Hi Hc) as (w & token' & Hw). destruct (context_fixpoint _ _ _ Hw) as (_ & Hp' & _).
  rewrite Hp' in Hp. injection Hp as ->. pose proof (resolve_envelope_sound _ _ _ _ _ _ _ _ _ _ _ Hr) as [Hu _].
  destruct Hw as (Hj & Hpw & Hcw & _). destruct (unpack_pack_protocol nfc _ _ Hj Hpw) as [Hu' _]. rewrite Hu' in Hu.
  injection Hu as <-. rewrite <- Hcw in Hr, Ha. injection Ha as <-. split; [done|]. by exists token, claims.
Qed.

Lemma admit_realization_Ok now v role components c :
  context_input v → admit_realization nfc nfkc lower now v role components = Ok c →
  validate_context nfc nfkc lower v = Ok c ∧ (∀ x, x ∈ components → str_in x MANAGED = true) ∧
  ∀ m, m ∈ MANAGED → ∃ cs, vget_none c "components" = VDict cs ∧
    (vget_none cs m = VBool true → str m ∈ components) ∧
    (str m ∈ components → ∃ token claims, pack_protocol nfc (VDict c) = Ok token ∧
       resolve_protocol_envelope nfc now (VStr token) (Some (str m)) (asked_role c role) None [] false true = Ok (VDict c, claims)).
Proof.
  intros Hi Ha. unfold admit_realization in Ha. apply bind_Ok_inv in Ha as (c0 & Hc0 & Ha).
  apply bind_Ok_inv in Ha as (creds & _ & Ha). apply bind_Ok_inv in Ha as ([] & _ & Ha).
  apply bind_Ok_inv in Ha as (c1 & Had & Ha). apply bind_Ok_inv in Ha as ([] & Hm%raise_if_Ok & Ha).
  apply bind_Ok_inv in Ha as ([] & Hall & [= <-]). apply negb_false_iff in Hm.
  assert (context_input (VDict c0)) as Hi0 by (left; by eapply validated_json_ok).
  destruct (validate_input v c0 Hi Hc0) as (w & tok & Hw). destruct (context_fixpoint _ _ _ Hw) as (Hfix & _).
  destruct (admit_Ok _ _ _ _ _ Hi0 Had) as [Hv1 _]. rewrite Hfix in Hv1. injection Hv1 as <-.
  split; [done|]. split.
  { intros x Hx. apply forallb_forall with (x := x) in Hm; [done|]. by apply list_elem_of_In. }
  intros m Hin. apply for_each_Ok in Hall. rewrite Forall_forall in Hall. specialize (Hall m Hin). unfold admit_component in Hall.
  apply bind_Ok_inv in Hall as (cs & Hcs & Hall). apply bind_Ok_inv in Hall as ([] & Hd%raise_if_Ok & Hall).
  exists cs. split; [by destruct (vget_none c0 "components"); try discriminate Hcs; injection Hcs as ->|].
  split; [intros E; rewrite E in Hd; simpl in Hd; bool_simpl; done|].
  intros Hp. rewrite bool_decide_true in Hall by done. apply bind_Ok_inv in Hall as (c1 & Hadm & _).
  destruct (admit_Ok _ _ _ _ _ Hi0 Hadm) as [Hv2 Hr]. rewrite Hfix in Hv2. injection Hv2 as <-. exact Hr.
Qed.

Lemma scope_component p component role :
  require_credential_scope p (Some component) role None = Ok tt →
  outside component p "components" = Ok false ∨ vget_none p "component" = VStr component.
Proof.
  unfold require_credential_scope. intros Hs. apply bind_Ok_inv in Hs as ([] & Hc & Hs).
  apply bind_Ok_inv in Hs as ([] & _ & Hs). apply bind_Ok_inv in Hs as ([] & _ & Hs). apply raise_if_Ok in Hs.
  destruct (has_key p "component").
  - right. simpl in Hs. apply negb_false_iff in Hs. destruct (vget_none p "component"); try done. simpl in Hs. bool_simpl. by subst.
  - left. apply bind_Ok_inv in Hc as (out & Ho & Hr%raise_if_Ok). by subst out.
Qed.
End Facts.
