(* ===== verification/Composition.v ===== *)
(** * Composition of the optional layers

    [Deployment/service_composition.py]: which chains of Guard, privacy
    envelope, Gate and Core are accepted, how a BrokerSet is realized by the
    native configuration or by a Gate, and the credential files of the
    components.  [private_dir] is the file-system test of [private_endpoint]. *)
From S2P Require Import Prelude Dict PyStr PyText PyValue NativeProfiles Net BrokerSet CoreCatalog.

(** [f'[{host}]:{port}' if ':' in host else f'{host}:{port}'].  Only integers
    and strings can stand where a port is; every other value is refused when the
    text is parsed. *)
Definition listener_text (host port : pyval) : result pystr :=
  match host with
  | VStr h =>
      p ← match port with
          | VInt z => Ok (dec z)
          | VStr s => Ok s
          | _ => raise ValueError "invalid BrokerSet port"
          end;
      Ok (if has_char 58 h then str "[" ++ h ++ str "]:" ++ p else h ++ str ":" ++ p)
  | VList _ | VDict _ => raise ValueError "invalid BrokerSet endpoint"
  | _ => raise TypeError "argument is not iterable"
  end.

Section Composition.
Context (nfkc lower : pystr → pystr) (private_dir : pystr → bool).
Let endpoint := endpoint nfkc lower.
Let private_endpoint := private_endpoint nfkc lower private_dir.

Definition same_address (a b : url) : bool :=
  if bool_decide (scheme a = str "unix") || bool_decide (scheme b = str "unix")
  then bool_decide (scheme a = scheme b) && bool_decide (path a = path b)
  else bool_decide (hostname lower a = hostname lower b) && bool_decide (port a = port b).

Definition same_endpoint (left right : pyval) : result bool :=
  a ← endpoint left; b ← endpoint right; Ok (same_address a b).

Definition validate_envelope_pair (client server : pydict) : result pydict :=
  _ ← raise_if (negb (eq_str (vget_none client "role") "client") || negb (eq_str (vget_or server "role" (txt "server")) "server"))
        ValueError "explicit envelope client/server roles required";
  let mode (d : pydict) := vget_or d "mode" (txt "stream") in
  let carrier (d : pydict) := vget_or d "carrier" (txt "raw") in
  _ ← raise_if (negb (py_eqb (mode client) (mode server) && py_eqb (carrier client) (carrier server))) ValueError
        "envelope pair mode/carrier mismatch";
  listen ← field client "listen";
  p ← private_endpoint listen;
  _ ← raise_if (negb p) ValueError "envelope pair native sides must be private";
  upstream ← field server "upstream";
  q ← private_endpoint upstream;
  _ ← raise_if (negb q) ValueError "envelope pair native sides must be private";
  cu ← field client "upstream"; sl ← field server "listen";
  same ← same_endpoint cu sl;
  _ ← raise_if (negb same) ValueError "envelope pair outer endpoints mismatch";
  Ok (mkdict [("schema", txt "shadow6.envelope-pair-composition.v1"); ("mode", mode server); ("carrier", carrier server);
              ("sourceCompatibilityClaim", VBool false); ("runtimeCapabilityClaim", VBool false)]).

(** The Gate behind an envelope: its listener is the envelope's upstream, and
    its own upstreams are private. *)
Definition check_gate_behind (envelope gate : pydict) : result unit :=
  _ ← raise_if (negb (eq_str (vget_none gate "role") "server")) ValueError
        "capability unavailable: EPE -> Gate -> Core requires a Gate server realization";
  target ← listener_text (vget_or gate "listen_host" (txt "0.0.0.0")) (vget_none gate "listen_port");
  upstream ← field envelope "upstream";
  p ← private_endpoint (VStr target);
  same ← (if p : bool then same_endpoint upstream (VStr target) else Ok false);
  _ ← raise_if (negb same) ValueError "EPE upstream must match the private Gate listener";
  let protocol := if eq_str (vget_or envelope "mode" (txt "stream")) "stream" then "tcp"%string else "udp"%string in
  _ ← raise_if (negb (py_eqb (vget_none gate "protocol") (VList [txt protocol]))) ValueError
        "EPE/Gate transport boundary mismatch";
  targets ← (let u := vget_none gate "upstreams" in
             if truthy u then py_iter u else Ok [vget_or gate "upstream" (txt "")]);
  open ← any_res (λ e, p ← private_endpoint e; Ok (negb p)) targets;
  raise_if open ValueError "Gate upstream Core endpoints must be private".

(** The fields through which each Guard feature forwards. *)
Definition guard_ports : list (string * string) :=
  [("spa_config", "agent_tcp_port"); ("lpd_limiter", "agent_port"); ("anti_probe", "local_port");
   ("broker_shield", "local_broker_port")]%string.

Definition port_value (u : url) : pyval := match port u with Ok (Some p) => VInt p | _ => VNone end.

Definition check_guard_feature (guard : pydict) (listen : url) (feature : string * string) : result unit :=
  match vget_or guard feature.1 (VDict []) with
  | VDict setting =>
      raise_if (is_true (vget_none setting "enabled") && negb (py_eqb (vget_none setting feature.2) (port_value listen)))
        ValueError "Guard forwarding must target the EPE admission listener"
  | _ => raise AttributeError "get"
  end.

Definition validate_composition (privacy : pyval) (envelope gate guard : option pydict) : result pydict :=
  let enveloped := eq_str privacy "envelope" in
  gate_layers ← match gate with
                | Some g => _ ← raise_if (negb (is_true (vget_none g "enabled"))) ValueError
                                  "Gate composition requires explicit enabled: true";
                            Ok ["Gate"%string]
                | None => Ok []
                end;
  epe_layers ← (if enveloped then
                  match envelope with
                  | None => raise ValueError "EPE configuration required"
                  | Some e =>
                      _ ← raise_if (eq_str (vget_none e "carrier") "webrtc"
                                    && (match gate with Some _ => true | None => false end
                                        || match guard with Some _ => true | None => false end)) ValueError
                            "capability unavailable: WebRTC S6EPE cannot compose with Gate or Guard";
                      upstream ← field e "upstream";
                      p ← private_endpoint upstream;
                      _ ← raise_if (negb p) ValueError "EPE native boundary must be private";
                      _ ← match gate with Some g => check_gate_behind e g | None => Ok tt end;
                      Ok ["S6EPE"%string]
                  end
                else Ok []);
  guard_layers ← match guard with
                 | Some g =>
                     _ ← (if enveloped then
                            match envelope with
                            | Some e => listen ← field e "listen";
                                        u ← endpoint listen;
                                        for_each (check_guard_feature g u) guard_ports
                            | None => raise TypeError "'NoneType' object is not subscriptable"
                            end
                          else Ok tt);
                     Ok ["Guard"%string]
                 | None => Ok []
                 end;
  Ok (mkdict [("layers", txts (guard_layers ++ epe_layers ++ gate_layers ++ ["Core"%string]));
              ("sessionAdmission", txt (if enveloped then "S6EPE" else "native"));
              ("outerEncryptedCamouflage", VBool false)]).

(** ** BrokerSets in the native configuration *)

(** The broker endpoints of a native configuration, in document order. *)
Fixpoint collect (value : pyval) : result (list pystr) :=
  match value with
  | VDict d =>
      (fix go (d : pydict) : result (list pystr) :=
         match d with
         | [] => Ok []
         | (key, child) :: d =>
             here ← (if str_in key ["broker_addr"; "broker_address"] then
                       match child with VStr s => Ok [s] | _ => raise ValueError "invalid native broker endpoint" end
                     else if str_in key ["broker_addrs"] then
                       match child with
                       | VList (x :: l) =>
                           _ ← raise_if (negb (forallb is_str (x :: l))) ValueError "invalid native broker endpoints";
                           Ok (as_text <$> x :: l)
                       | _ => raise ValueError "invalid native broker endpoints"
                       end
                     else collect child);
             rest ← go d;
             Ok (here ++ rest)
         end) d
  | VList l =>
      (fix go (l : list pyval) : result (list pystr) :=
         match l with [] => Ok [] | v :: l => here ← collect v; rest ← go l; Ok (here ++ rest) end) l
  | _ => Ok []
  end.

Definition is_pool (route : pyval) : bool :=
  match route with VDict r => eq_str (vget_none r "kind") "broker_set" | _ => false end.

Definition broker_realization (context : pydict) (native : pyval) (gate : option pydict) (pick : Z) : result pydict :=
  routes ← as_list (vget_none context "routes");
  match filter (λ r, is_pool r) routes with
  | [] => Ok (mkdict [("adapter", txt "native-single"); ("brokerSets", VList [])])
  | route :: rest =>
      _ ← raise_if (negb (bool_decide (rest = []))) ValueError
            "capability unavailable: one native broker control endpoint cannot realize multiple BrokerSets";
      r ← as_dict route;
      targets ← collect native;
      let client := match gate with Some g => eq_str (vget_none g "role") "client" | None => false end in
      match gate, client with
      | Some g, true =>
          patch ← gate_patch nfkc lower route false;
          _ ← raise_if (negb (is_true (vget_none g "enabled"))
                        || existsb (λ kv : pystr * pyval, negb (py_eqb (default VNone (dget g kv.1)) kv.2)) patch) ValueError
                "Gate realization differs from S6P1 BrokerSet routes/trust/policy";
          let host := vget_none g "listen_host" in
          let port := vget_none g "listen_port" in
          _ ← raise_if (negb (is_str host) || negb (is_int port)) ValueError
                "Gate BrokerSet requires an explicit private local endpoint";
          local ← listener_text host port;
          p ← private_endpoint (VStr local);
          _ ← raise_if (negb p) ValueError "Gate BrokerSet native-facing endpoint must be loopback";
          match targets with
          | [t] =>
              same ← same_endpoint (VStr t) (VStr local);
              _ ← raise_if (negb same) ValueError
                    "capability unavailable: native broker endpoint must explicitly target the Gate BrokerSet listener";
              Ok (mkdict [("adapter", txt "gate"); ("brokerSets", VList [vget_none r "id"]); ("gatePatch", VDict patch);
                          ("nativeEndpoint", VStr t)])
          | _ => raise ValueError
                   "capability unavailable: native broker endpoint must explicitly target the Gate BrokerSet listener"
          end
      | _, _ =>
          d ← realize nfkc lower route (str "native-single") [] 0 pick;
          ms ← as_list (vget_none r "members");
          first ← match ms with VDict m :: _ => Ok (member_endpoint m) | _ => raise IndexError "list index out of range" end;
          _ ← raise_if (negb (eq_str (vget_none context "role") "broker") && negb (bool_decide (targets = [first]))) ValueError
                "capability unavailable: native broker endpoint does not realize the S6P1 route";
          Ok (mkdict [("adapter", txt "native-single"); ("brokerSets", VList [vget_none r "id"])])
      end
  end.
End Composition.

(** ** The credential files of a component *)
Definition guard_files : list string := ["tls_cert_file"; "tls_key_file"].

Definition component_material_paths (component : pystr) (config : pyval) : result (list (pystr * pystr)) :=
  match config with
  | VDict config =>
      _ ← raise_if (negb (str_in component ["gate"; "guard"])) ValueError "invalid component material declaration";
      if bool_decide (component = str "gate") then Ok [] else
      match vget_or config "broker_shield" (VDict []) with
      | VDict shield =>
          let present := filter (λ f, truthy (vget_none shield f)) guard_files in
          _ ← raise_if (negb (bool_decide (present = [])) && negb (zlen present =? zlen guard_files)) ValueError
                "complete Guard TLS material required";
          found ← map_res (λ f,
                    p ← material_path (vget_none shield f) "Guard TLS material requires bounded absolute paths";
                    Ok (str "guard.broker_shield." ++ str f, p)) present;
          _ ← raise_if (negb (bool_decide (NoDup (found : list (pystr * pystr)).*2))) ValueError
                "Guard TLS material paths must be distinct";
          Ok found
      | _ => raise ValueError "invalid Guard broker_shield"
      end
  | _ => raise ValueError "invalid component material declaration"
  end.

(** * Composition: facts *)

Section Facts.
Context (nfkc lower : pystr → pystr) (private_dir : pystr → bool).

(** ** The patch of a Gate *)
Lemma all_usable (ms : list pydict) : filter (λ m, is_usable [] m) ms = ms.
Proof. induction ms as [|m ms IH]; [done|]. rewrite filter_cons_True by done. by rewrite IH. Qed.

Definition gate_member (p : Z) (k s : pystr) (m : pydict) : Prop :=
  vget_none m "public_key" = VStr k ∧
  ∃ u a, endpoint nfkc lower (VStr (member_endpoint m)) = Ok u ∧ scheme u = s ∧ url_port u = p ∧
    parse_ip (default [] (hostname lower u)) = Some a.

Lemma gate_patch_Ok route patch :
  gate_patch nfkc lower route false = Ok patch →
  ∃ r ms k p s us, route = VDict r ∧ broker_route_ok nfkc lower r ms ∧ Forall (gate_member p k s) ms ∧ str_in s ["tcp"; "udp"] = true ∧
    Forall2 (λ m u, endpoint nfkc lower (VStr (member_endpoint m)) = Ok u) ms us ∧
    vget_none patch "peer_public_keys" = VList [VStr k] ∧ vget_none patch "protocol" = VList [VStr s] ∧
    vget_none patch "remote_hosts" = VList ((λ u, VStr (default [] (hostname lower u))) <$> us).
Proof.
  unfold gate_patch. intros (res & Hr & H)%bind_Ok_inv.
  apply realize_Ok in Hr as (r & ms & chosen & -> & Hro & Hk & Hc & _ & Hg & ->). destruct (Hg eq_refl) as [Hs _].
  apply bind_Ok_inv in H as (r' & [= <-] & H). apply bind_Ok_inv in H as (es & Hes & H).
  unfold realized in Hes. doc_lookup. rewrite all_usable in Hes. injection Hes as <-.
  apply bind_Ok_inv in H as (us & Hus & H). destruct us as [|u us']; [done|]. set (us := u :: us') in *.
  apply bind_Ok_inv in H as ([] & Ht%raise_if_Ok & H). apply bind_Ok_inv in H as ([] & Hip%raise_if_Ok & H).
  rewrite (bo_members _ _ _ _ Hro) in H. apply bind_Ok_inv in H as (l & [= <-] & H).
  rewrite map_as_dict in H. cbn [mbind result_bind] in H.
  apply orb_false_iff in Ht as [Ht Hp]. apply negb_false_iff in Ht, Hp.
  apply map_res_Ok, Forall2_fmap_l in Hus.
  destruct (shared_key_spec _ _ _ Hs (bo_valid _ _ _ _ Hro)) as (k & _ & Hkey).
  exists r, ms, k, (url_port u), (scheme u), us. split; [done|]. split; [done|].
  rewrite !forallb_forall in Ht, Hp. split_and!.
  - apply Forall_forall. intros m Hm. split; [by apply Hkey|].
    apply list_elem_of_lookup_1 in Hm as [i Hi]. destruct (Forall2_lookup_l _ _ _ _ _ Hus Hi) as (v & Hvi & Hv).
    pose proof (list_elem_of_lookup_2 _ _ _ Hvi) as Hvu%list_elem_of_In.
    specialize (Ht v Hvu). specialize (Hp v Hvu). apply andb_true_iff in Ht as [_ Hsch]. apply bool_decide_eq_true in Hsch.
    apply Z.eqb_eq in Hp. destruct (parse_ip (default [] (hostname lower v))) as [a|] eqn:Ea.
    + by exists v, a.
    + exfalso. assert (existsb (λ q, match parse_ip (default [] (hostname lower q)) with None => true | _ => false end) us = true) as E.
      { apply existsb_exists. exists v. split; [done|]. by rewrite Ea. }
      by rewrite E in Hip.
  - specialize (Ht u ltac:(by left)). by apply andb_true_iff in Ht as [? _].
  - done.
  - destruct ms as [|m ms']; [by inversion Hus|]. injection H as <-. doc_lookup.
    by rewrite (Hkey m ltac:(by left)).
  - injection H as <-. by doc_lookup.
  - injection H as <-. by doc_lookup.
Qed.

(** ** The layers *)
Definition gate_link (e g : pydict) : Prop :=
  vget_none g "enabled" = VBool true ∧ vget_none g "role" = txt "server" ∧
  ∃ target upstream, listener_text (vget_or g "listen_host" (txt "0.0.0.0")) (vget_none g "listen_port") = Ok target ∧
    vget e "upstream" = Some upstream ∧ private_endpoint nfkc lower private_dir (VStr target) = Ok true ∧
    same_endpoint nfkc lower upstream (VStr target) = Ok true ∧
    ∃ targets, (if truthy (vget_none g "upstreams") then py_iter (vget_none g "upstreams")
                else Ok [vget_or g "upstream" (txt "")]) = Ok targets ∧
      Forall (λ t, private_endpoint nfkc lower private_dir t = Ok true) targets.

Lemma check_gate_behind_Ok e g :
  vget_none g "enabled" = VBool true → check_gate_behind nfkc lower private_dir e g = Ok tt → gate_link e g.
Proof.
  intros Hen. unfold check_gate_behind. intros ([] & Hr%raise_if_Ok & H)%bind_Ok_inv.
  apply negb_false_iff, eq_str_spec in Hr. apply bind_Ok_inv in H as (target & Ht & H).
  apply bind_Ok_inv in H as (up & Hu%field_Ok & H). apply bind_Ok_inv in H as (p & Hp & H).
  apply bind_Ok_inv in H as (same & Hsame & H). apply bind_Ok_inv in H as ([] & Hs%raise_if_Ok & H).
  apply negb_false_iff in Hs. subst same. destruct p; [|done].
  apply bind_Ok_inv in H as ([] & _ & H). apply bind_Ok_inv in H as (targets & Hts & H).
  apply bind_Ok_inv in H as (open & Ho & H%raise_if_Ok). subst open. apply any_res_false in Ho.
  split_and!; [done|done|]. exists target, up. split_and!; try done. exists targets. split; [done|].
  eapply Forall_impl; [exact Ho|]. intros t (b & Hb & Hn)%bind_Ok_inv. injection Hn as Hn. apply negb_false_iff in Hn. by subst b.
Qed.

Definition guard_link (e g : pydict) : Prop :=
  ∃ listen u, vget e "listen" = Some listen ∧ endpoint nfkc lower listen = Ok u ∧
    ∀ feature name, (feature, name) ∈ guard_ports → ∀ setting, vget g feature = Some (VDict setting) →
      vget_none setting "enabled" = VBool true → py_eqb (vget_none setting name) (port_value u) = true.

Lemma composition_Ok privacy envelope gate guard d :
  validate_composition nfkc lower private_dir privacy envelope gate guard = Ok d →
  vget_none d "layers" = txts
    ((match guard with Some _ => ["Guard"%string] | None => [] end) ++
     (if eq_str privacy "envelope" then ["S6EPE"%string] else []) ++
     (match gate with Some _ => ["Gate"%string] | None => [] end) ++ ["Core"%string]) ∧
  (privacy = txt "envelope" → ∃ e upstream, envelope = Some e ∧ vget e "upstream" = Some upstream ∧
     private_endpoint nfkc lower private_dir upstream = Ok true ∧
     (vget_none e "carrier" = txt "webrtc" → gate = None ∧ guard = None) ∧
     (∀ g, gate = Some g → gate_link e g) ∧ (∀ g, guard = Some g → guard_link e g)).
Proof.
  unfold validate_composition. intros (gl & Hg & H)%bind_Ok_inv.
  apply bind_Ok_inv in H as (el & He & H). apply bind_Ok_inv in H as (ul & Hu & H).
  injection H as <-. doc_lookup.
  assert (gl = match gate with Some _ => ["Gate"%string] | None => [] end ∧ ∀ g, gate = Some g → vget_none g "enabled" = VBool true)
    as [-> Hgate].
  { destruct gate as [g|]; [|by injection Hg as <-]. apply bind_Ok_inv in Hg as ([] & Hen%raise_if_Ok & [= <-]).
    split; [done|]. intros g' [= <-]. by destruct (vget_none g "enabled") as [|[]| | | | |]. }
  assert (ul = match guard with Some _ => ["Guard"%string] | None => [] end) as ->.
  { destruct guard as [g|]; [|by injection Hu as <-]. by apply bind_Ok_inv in Hu as ([] & _ & [= <-]). }
  split.
  - destruct (eq_str privacy "envelope"); [|by injection He as <-]. destruct envelope as [e|]; [|done].
    repeat (apply bind_Ok_inv in He as (? & _ & He)). by injection He as <-.
  - intros Hpr. assert (eq_str privacy "envelope" = true) as Epr by (by apply eq_str_spec). rewrite Epr in He, Hu.
    destruct envelope as [e|]; [|done]. apply bind_Ok_inv in He as ([] & Hw%raise_if_Ok & He).
    apply bind_Ok_inv in He as (up & Hup%field_Ok & He). apply bind_Ok_inv in He as (p & Hp & He).
    apply bind_Ok_inv in He as ([] & Hpt%raise_if_Ok & He). apply negb_false_iff in Hpt. subst p.
    apply bind_Ok_inv in He as ([] & Hcg & _). exists e, up. split_and!; try done.
    + intros Hc. rewrite Hc in Hw. change (eq_str (txt "webrtc") "webrtc") with true in Hw. simpl in Hw. by destruct gate, guard.
    + intros g Eg. subst gate. apply check_gate_behind_Ok; [by apply Hgate|done].
    + intros g Eg. subst guard. apply bind_Ok_inv in Hu as ([] & Hu & _). apply bind_Ok_inv in Hu as (listen & Hl%field_Ok & Hu).
      apply bind_Ok_inv in Hu as (u & Heu & Hu). exists listen, u. split_and!; try done.
      apply for_each_Ok in Hu. rewrite Forall_forall in Hu. intros feature name Hin setting Hs Hen.
      specialize (Hu _ Hin). unfold check_guard_feature in Hu. cbn [fst snd] in Hu.
      unfold vget_or in Hu. rewrite Hs in Hu. simpl in Hu. apply raise_if_Ok in Hu. rewrite Hen in Hu. simpl in Hu.
      by apply negb_false_iff in Hu.
Qed.

(** ** A BrokerSet behind a Gate *)
Lemma patch_applied (g patch : pydict) k v :
  existsb (λ kv : pystr * pyval, negb (py_eqb (default VNone (dget g kv.1)) kv.2)) patch = false →
  vget_none patch k = v → v ≠ VNone → py_eqb (vget_none g k) v = true.
Proof.
  intros Hp Hv Hn. unfold vget_none, vget in Hv. destruct (dget patch (str k)) as [w|] eqn:E; [|by subst v]. simpl in Hv. subst w.
  apply dget_elem_of in E. destruct (py_eqb (vget_none g k) v) eqn:Eq; [done|]. exfalso.
  assert (existsb (λ kv : pystr * pyval, negb (py_eqb (default VNone (dget g kv.1)) kv.2)) patch = true) as Ht; [|by rewrite Ht in Hp].
  apply existsb_exists. exists (str k, v). split; [by apply list_elem_of_In|]. cbn [fst snd]. by apply negb_true_iff.
Qed.

Lemma broker_realization_gate context native g pick d :
  broker_realization nfkc lower private_dir context native (Some g) pick = Ok d →
  vget_none d "adapter" = txt "gate" →
  ∃ t local r ms k p s, collect native = Ok [t] ∧
    listener_text (vget_none g "listen_host") (vget_none g "listen_port") = Ok local ∧
    private_endpoint nfkc lower private_dir (VStr local) = Ok true ∧
    same_endpoint nfkc lower (VStr t) (VStr local) = Ok true ∧ vget_none g "enabled" = VBool true ∧
    broker_route_ok nfkc lower r ms ∧ Forall (gate_member p k s) ms ∧
    py_eqb (vget_none g "peer_public_keys") (VList [VStr k]) = true.
Proof.
  unfold broker_realization. intros (routes & Hro & H)%bind_Ok_inv Ha. destruct (filter _ routes) as [|route rest].
  { injection H as <-. by doc_lookup. }
  apply bind_Ok_inv in H as ([] & _ & H). apply bind_Ok_inv in H as (r & Hr & H). apply bind_Ok_inv in H as (targets & Ht & H).
  destruct (eq_str (vget_none g "role") "client").
  2: { repeat (apply bind_Ok_inv in H as (? & _ & H)). injection H as <-. by doc_lookup. }
  apply bind_Ok_inv in H as (patch & Hp & H). apply bind_Ok_inv in H as ([] & Hg%raise_if_Ok & H).
  apply orb_false_iff in Hg as [Hen Hpatch]. apply bind_Ok_inv in H as ([] & _ & H).
  apply bind_Ok_inv in H as (local & Hl & H). apply bind_Ok_inv in H as (pr & Hpr & H).
  apply bind_Ok_inv in H as ([] & Hpt%raise_if_Ok & H). apply negb_false_iff in Hpt. subst pr.
  destruct targets as [|t [|]]; try done. apply bind_Ok_inv in H as (same & Hs & H).
  apply bind_Ok_inv in H as ([] & Hst%raise_if_Ok & H). apply negb_false_iff in Hst. subst same.
  destruct (gate_patch_Ok _ _ Hp) as (r' & ms & k & p & s & us & _ & Hok & Hms & _ & _ & Hkeys & _).
  exists t, local, r', ms, k, p, s. split_and!; try done.
  - by destruct (vget_none g "enabled") as [|[]| | | | |].
  - by eapply patch_applied.
Qed.
End Facts.
