(* ===== verification/ConfigStore.v ===== *)
(** * Managed configurations

    [Deployment/config_store.py]: which keys are secret, the redacted view of a
    configuration and of a change, the merge that lets an editor keep secrets it
    cannot see, and the store of one service: its draft and its
    content-addressed snapshots.  The store is the service's own directory; the
    lower-case mapping, the native check and the order of a directory scan are
    arguments. *)
From S2P Require Import Prelude Dict PyStr PyText PyValue Json StrictJson Sha256 Net NativeProfiles.

Definition MAX_CONFIG : Z := 65536.
Definition SECRET_KEYS : list string :=
  ["private_key"; "secret"; "shared_secret"; "auth_key"; "psk"; "password"; "key"; "key_material"; "tls_key"; "tls_key_pem";
   "token"; "bearer_token"; "secret_key"; "encryption_key"].
Definition FORBIDDEN_KEYS : list string := ["on_success"; "command"; "shell"; "post_command"; "pre_command"].

Definition digest (raw : bytes) : pystr := str "sha256:" ++ sha256_hex raw.

(** [s.endswith(suffix)]. *)
Definition ends_with (suffix s : pystr) : bool := bool_decide (drop (length s - length suffix) s = suffix).

(** [key.replace('~', '~0').replace('/', '~1')]. *)
Definition escape_key (key : pystr) : pystr :=
  mjoin ((λ c, if c =? 126 then str "~0" else if c =? 47 then str "~1" else [c]) <$> key).

Section Config.
Context (lower : pystr → pystr).

Definition secret_key (key : pystr) : bool :=
  let value := lower_text lower key in
  str_in value SECRET_KEYS
  || existsb (λ s, ends_with (str s) value) ["_secret"; "_password"; "_private_key"; "_token"]%string
  || existsb (λ part, str_in part ["secret"; "password"; "token"; "credential"; "credentials"; "private"]) (split_at_char 95 value)
  || str_in value ["api_key"; "signing_key"; "bearer"].

Definition hidden (value : pyval) : pyval := VDict (mkdict [("secret", VBool true); ("present", VBool (negb (is_none value)))]).

Fixpoint redact (value : pyval) (key : pystr) {struct value} : pyval :=
  if secret_key key then hidden value
  else match value with
       | VDict d => VDict ((λ kv : pystr * pyval, (kv.1, redact kv.2 kv.1)) <$> d)
       | VList l => VList ((λ v, redact v []) <$> l)
       | _ => value
       end.

(** The changes that [view] reports: fields in document order, then the removed
    ones. *)
Fixpoint view_changes (document old : pyval) (path : pystr) {struct document} : list pyval :=
  match document with
  | VDict d =>
      let at_key k := path ++ str "/" ++ escape_key k in
      (fix go (d : pydict) : list pyval :=
         match d with
         | [] => []
         | (key, value) :: d =>
             let before := match old with VDict o => default VNone (dget o key) | _ => VNone end in
             (if is_none old || py_eqb before value then []
              else if secret_key key then
                [VDict (mkdict [("field", VStr (at_key key)); ("secret", VBool true); ("before", txt "redacted"); ("after", txt "redacted")])]
              else match value, before with
                   | VDict _, VDict _ => view_changes value before (at_key key)
                   | _, _ => [VDict (mkdict [("field", VStr (at_key key)); ("before", redact before key); ("after", redact value key)])]
                   end) ++ go d
         end) d
      ++ match old with
         | VDict o =>
             (λ key, VDict (mkdict [("field", VStr (at_key key)); ("removed", VBool true); ("secret", VBool (secret_key key))]))
             <$> sorted_set (filter (λ k, dmem d k = false) (dkeys o))
         | _ => []
         end
  | _ => []
  end.

Definition view (document : pyval) (old : pyval) : result (pyval * list pyval) :=
  match document with
  | VDict _ => Ok (redact document [], view_changes document old [])
  | _ => raise AttributeError "items"
  end.

(** [{'unchanged': True}]. *)
Definition unchanged : pyval := VDict (mkdict [("unchanged", VBool true)]).

(** [merge_secrets] on a dictionary, [merge_array] on a list, other values as
    they are. *)
Fixpoint merge (value old : pyval) {struct value} : result pyval :=
  match value with
  | VDict d =>
      out ← (fix go (d : pydict) : result pydict :=
               match d with
               | [] => Ok []
               | (key, v) :: d =>
                   let before := match old with VDict o => default VNone (dget o key) | _ => VNone end in
                   _ ← raise_if (str_in (lower_text lower key) FORBIDDEN_KEYS && negb (eq_str v "" || is_none v)) ValueError
                         "HostCommandConfigurationRejected";
                   w ← (if secret_key key && py_eqb v unchanged then
                          _ ← raise_if (is_none before) ValueError "SecretReplacementRequired"; Ok before
                        else merge v before);
                   rest ← go d;
                   Ok ((key, w) :: rest)
               end) d;
      Ok (VDict out)
  | VList l =>
      out ← (fix go (l : list pyval) (i : nat) : result (list pyval) :=
               match l with
               | [] => Ok []
               | v :: l =>
                   let before := match old with VList o => default VNone (o !! i) | _ => VNone end in
                   w ← merge v before;
                   rest ← go l (S i);
                   Ok (w :: rest)
               end) l 0%nat;
      Ok (VList out)
  | _ => Ok value
  end.

Definition merge_secrets (document old : pyval) : result pyval :=
  match document with
  | VDict _ => merge document old
  | _ => raise ValueError "InvalidManagedConfiguration"
  end.

(** ** The store of a service *)
Record store := Store { st_draft : option bytes; st_materials : list (pystr * bytes) }.

Definition material_name (raw : bytes) : pystr := str "material-" ++ sha256_hex raw ++ str ".json".

Section Store.
Context (nfc : pystr → pystr) (native_check : pydict → pydict → result pystr).

Definition inspect (name : pystr) (s : store) : result pydict :=
  match st_draft s with
  | None => Ok (mkdict [("schema", txt "shadow6.managed-config.v1"); ("name", VStr name); ("exists", VBool false); ("digest", VNone);
                        ("document", VNone)])
  | Some raw =>
      document ← strict_json nfc MAX_CONFIG STRING_LIMIT (JBytes raw);
      v ← view document VNone;
      Ok (mkdict [("schema", txt "shadow6.managed-config.v1"); ("name", VStr name); ("exists", VBool true);
                  ("digest", VStr (digest raw)); ("document", v.1)])
  end.

Record edit := Edit {
  e_core : pyval; e_profile : pyval; e_document : json_input; e_expected : option pystr; e_role : option pystr }.

(** [native_check selected merged] is the validation by the native authority. *)
Definition prepare (name : pystr) (e : edit) (s : store) : result (bytes * pydict) :=
  let actual := digest <$> st_draft s in
  _ ← raise_if (negb (bool_decide (actual = e_expected e))) ValueError "ReviewedConfigurationChanged";
  incoming ← strict_json nfc MAX_CONFIG STRING_LIMIT (e_document e);
  old ← match st_draft s with
        | Some raw => strict_json nfc MAX_CONFIG STRING_LIMIT (JBytes raw)
        | None => Ok VNone
        end;
  merged ← merge_secrets incoming old;
  m ← as_dict merged;
  _ ← raise_if (match e_role e with Some r => negb (py_eqb (vget_none m "role") (VStr r)) | None => false end) ValueError
        "ConfigurationRoleMismatch";
  b ← bind_profile (e_core e) (e_profile e);
  selected ← validate_profile_realization (VDict b) merged None;
  let raw := dumps_canonical merged in
  _ ← raise_if (MAX_CONFIG <? zlen raw) ValueError "ManagedConfigurationTooLarge";
  validation ← native_check selected m;
  v ← view merged old;
  Ok (raw, mkdict
    [("schema", txt "shadow6.managed-config-review.v1"); ("name", VStr name); ("core", e_core e); ("profile", e_profile e);
     ("previousDigest", match actual with Some h => VStr h | None => VNone end); ("digest", VStr (digest raw));
     ("document", v.1); ("changes", VList v.2); ("saved", VBool false); ("applied", VBool false);
     ("nativeValidation", VStr validation);
     ("evidence", txt "strict portable JSON, Profile and existing native configuration authority; material planning follows save")]).

Definition review_digest (review : pydict) : pystr := digest (dumps_canonical (VDict review)).

Definition save (name : pystr) (confirmed : bool) (expected_review_digest : pystr) (e : edit) : M store pydict := λ s,
  (_ ← mraise_if (negb confirmed) ValueError "ExplicitHumanConfirmationRequired";
   r ← mlift (prepare name e s);
   let '(raw, review) := (r : bytes * pydict) in
   _ ← mraise_if (negb (bool_decide (review_digest review = expected_review_digest))) ValueError "ReviewedConfigurationChanged";
   let material := material_name raw in
   _ ← match dget (st_materials s) material with
       | None =>
           _ ← mraise_if (16 <=? zlen (st_materials s)) ValueError "ManagedConfigurationCapacity";
           mmod (λ s, Store (st_draft s) (dset (st_materials s) material raw))
       | Some stored => mraise_if (negb (bool_decide (stored = raw))) ValueError "ManagedConfigurationMaterialChanged"
       end;
   _ ← mmod (λ s, Store (Some raw) (st_materials s));
   mret (vset (vset review "saved" (VBool true)) "native_config" (VStr material))) s.

(** A name of the form [material-<64 hex digits>.json], and its digest. *)
Definition material_digest (name : pystr) : option pystr :=
  let h := take 64 (drop 9 name) in
  if starts_with (str "material-") name && hex_lower 64 h && bool_decide (drop 73 name = str ".json") then Some h else None.

(** One entry of the directory scan. *)
Definition reclaim_entry (protected : list pystr) (entry : pystr) : M store Z := λ s,
  match material_digest entry with
  | None => (Ok 0, s)
  | Some h =>
      if bool_decide (entry ∈ protected) then (Ok 0, s)
      else match dget (st_materials s) entry with
           | None => (raise FileNotFoundError "material", s)
           | Some raw =>
               if bool_decide (sha256_hex raw = h) then (Ok 1, Store (st_draft s) (ddel (st_materials s) entry))
               else (raise ValueError "ManagedConfigurationMaterialChanged", s)
           end
  end.

Fixpoint reclaim_entries (protected entries : list pystr) : M store Z :=
  match entries with
  | [] => mret 0
  | entry :: entries => n ← reclaim_entry protected entry; m ← reclaim_entries protected entries; mret (n + m)
  end.

(** [in_use] are the snapshots that registered services refer to, [registered]
    says whether this service is one of them, [scan] the first 64 entries. *)
Definition reclaim (name : pystr) (confirmed discard_draft registered : bool) (expected_digest : pyval)
    (in_use scan : list pystr) : M store pydict := λ s,
  (_ ← mraise_if (negb confirmed) ValueError "ExplicitHumanConfirmationRequired";
   _ ← mraise_if (discard_draft && registered) ValueError "ManagedConfigurationInUse";
   current ← mlift (inspect name s);
   _ ← mraise_if (negb (py_eqb (vget_none current "digest") expected_digest)) ValueError "ReviewedConfigurationChanged";
   let own := match st_draft s with
              | Some raw => if discard_draft then [] else [material_name raw]
              | None => []
              end in
   removed ← reclaim_entries (own ++ in_use) scan;
   _ ← (if discard_draft then mmod (λ s, Store None (st_materials s)) else mret tt);
   mret (mkdict [("schema", txt "shadow6.managed-config-reclaim.v1"); ("name", VStr name); ("removedSnapshots", VInt removed);
                 ("activeMaterialsPreserved", VBool true); ("draftDiscarded", VBool discard_draft)])) s.
End Store.
End Config.
