(* ===== verification/ConfigFacts.v ===== *)
(** * Managed configurations: facts *)
From S2P Require Import Prelude Dict PyStr PyText PyValue Json StrictJson Sha256 Net NativeProfiles ConfigStore.

Section Facts.
Context (lower : pystr → pystr).

(** ** Redaction *)
Lemma empty_not_secret : secret_key lower [] = false.
Proof. reflexivity. Qed.

(** Two values of the key [key] that agree on everything that is not secret. *)
Inductive agree : pystr → pyval → pyval → Prop :=
| agree_secret key v w : secret_key lower key = true → is_none v = is_none w → agree key v w
| agree_same key v : agree key v v
| agree_list key l l' : Forall2 (agree []) l l' → agree key (VList l) (VList l')
| agree_dict key d d' : Forall2 (λ a b : pystr * pyval, a.1 = b.1 ∧ agree a.1 a.2 b.2) d d' → agree key (VDict d) (VDict d').

Lemma redact_hidden v key : secret_key lower key = true → redact lower v key = hidden v.
Proof. intros Hk. destruct v; simpl; by rewrite Hk. Qed.

Lemma hidden_none v w : is_none v = is_none w → hidden v = hidden w.
Proof. unfold hidden. by intros ->. Qed.

Lemma redact_agree key v w : agree key v w → redact lower v key = redact lower w key.
Proof.
  revert key w. induction v as [| | | | |l IH|d IH] using pyval_ind; intros key w Ha; inversion Ha as [? ? ? Hk Hn| |? ? l' Hl|? ? d' Hd];
    subst; try done; try (rewrite !redact_hidden by done; by apply hidden_none); simpl; destruct (secret_key lower key); try done; f_equal.
  - clear Ha. induction Hl as [|x y l l' Hxy _ IHl]; [done|]. apply Forall_cons in IH as [Hx Hl]. rewrite !fmap_cons. f_equal; auto.
  - clear Ha. induction Hd as [|[k x] [k' y] d d' [Hk Hxy] _ IHd]; [done|]. apply Forall_cons in IH as [Hx Hl]. simpl in Hk, Hxy, Hx. subst k'.
    rewrite !fmap_cons. simpl. f_equal; [f_equal|]; auto.
Qed.

(** No secret key anywhere. *)
Fixpoint public (v : pyval) : bool :=
  match v with
  | VDict d => forallb (λ kv : pystr * pyval, negb (secret_key lower kv.1) && public kv.2) d
  | VList l => forallb public l
  | _ => true
  end.

Lemma redact_public v key : public v = true → secret_key lower key = false → redact lower v key = v.
Proof.
  revert key. induction v as [| | | | |l IH|d IH] using pyval_ind; intros key Hp Hk; simpl; rewrite Hk; try done; f_equal; simpl in Hp.
  - rewrite forallb_forall in Hp. rewrite Forall_forall in IH. rewrite <- (list_fmap_id l) at 2. apply list_fmap_ext.
    intros i v Hv%list_elem_of_lookup_2. apply IH; [done|by apply Hp, list_elem_of_In|apply empty_not_secret].
  - rewrite forallb_forall in Hp. rewrite Forall_forall in IH. rewrite <- (list_fmap_id d) at 2. apply list_fmap_ext.
    intros i [k v] Hv%list_elem_of_lookup_2. simpl. pose proof (Hp (k, v) (proj1 (list_elem_of_In _ _) Hv)) as [Hs Hpv]%andb_true_iff.
    apply negb_true_iff in Hs. unfold id. f_equal. by apply (IH _ Hv).
Qed.

(** ** Merging *)
Definition forbidden (key : pystr) : bool := str_in (lower_text lower key) FORBIDDEN_KEYS.

(** A forbidden key is no secret key. *)
Lemma forbidden_not_secret key : forbidden key = true → secret_key lower key = false.
Proof.
  unfold forbidden, str_in, FORBIDDEN_KEYS. intros H. unfold secret_key.
  repeat (apply orb_true_iff in H as [H|H]; [apply bool_decide_eq_true in H; rewrite H; reflexivity|]). done.
Qed.

(** No host command is configured, at any depth. *)
Fixpoint clean (v : pyval) : bool :=
  match v with
  | VDict d => forallb (λ kv : pystr * pyval, (negb (forbidden kv.1) || (eq_str kv.2 "" || is_none kv.2)) && clean kv.2) d
  | VList l => forallb clean l
  | _ => true
  end.

(** What an editor that cannot see the secrets sends back. *)
Fixpoint mask (v : pyval) : pyval :=
  match v with
  | VDict d => VDict ((λ kv : pystr * pyval, (kv.1, if secret_key lower kv.1 && negb (is_none kv.2) then unchanged else mask kv.2)) <$> d)
  | VList l => VList (mask <$> l)
  | _ => v
  end.

(** The loops of [merge] over a dictionary and a list. *)
Definition before_key (old : pyval) (key : pystr) : pyval := match old with VDict o => default VNone (dget o key) | _ => VNone end.
Definition before_index (old : pyval) (i : nat) : pyval := match old with VList o => default VNone (o !! i) | _ => VNone end.

Definition merge_field (old : pyval) (kv : pystr * pyval) : result (pystr * pyval) :=
  _ ← raise_if (forbidden kv.1 && negb (eq_str kv.2 "" || is_none kv.2)) ValueError "HostCommandConfigurationRejected";
  w ← (if secret_key lower kv.1 && py_eqb kv.2 unchanged then
         _ ← raise_if (is_none (before_key old kv.1)) ValueError "SecretReplacementRequired"; Ok (before_key old kv.1)
       else merge lower kv.2 (before_key old kv.1));
  Ok (kv.1, w).

Lemma merge_dict d old : merge lower (VDict d) old = (out ← map_res (merge_field old) d; Ok (VDict out)).
Proof.
  cbn [merge]. f_equal. induction d as [|[key v] d IH]; [done|]. cbn [map_res]. rewrite <- IH. unfold merge_field at 1. cbn [fst snd].
  fold (forbidden key). fold (before_key old key).
  destruct (forbidden key && negb (eq_str v "" || is_none v)); [reflexivity|]. cbn [raise_if mbind result_bind].
  destruct (secret_key lower key && py_eqb v unchanged); [by destruct (is_none (before_key old key))|].
  by destruct (merge lower v (before_key old key)).
Qed.

Definition merge_item (old : pyval) (iv : nat * pyval) : result pyval := merge lower iv.2 (before_index old iv.1).

Lemma merge_list l old : merge lower (VList l) old = (out ← map_res (merge_item old) (zip (seq 0 (length l)) l); Ok (VList out)).
Proof.
  cbn [merge]. f_equal. generalize 0%nat. induction l as [|v l IH]; intros i; [done|]. cbn [length seq zip zip_with map_res].
  unfold merge_item at 1. cbn [fst snd]. fold (before_index old i). by rewrite IH.
Qed.

Lemma map_res_fmap {A B C} (f : B → result C) (g : A → B) l : map_res f (g <$> l) = map_res (λ x, f (g x)) l.
Proof. induction l as [|x l IH]; [done|]. rewrite fmap_cons. cbn [map_res]. by rewrite IH. Qed.

Lemma map_res_id {A} (f : A → result A) l : (∀ x, x ∈ l → f x = Ok x) → map_res f l = Ok l.
Proof.
  intros Hf. apply map_res_Ok. induction l as [|x l IH]; constructor; [apply Hf; by left|].
  apply IH. intros y Hy. apply Hf. by right.
Qed.

Lemma zip_seq_elem {A} (l : list A) k i v : (i, v) ∈ zip (seq k (length l)) l → (k ≤ i)%nat ∧ l !! (i - k)%nat = Some v.
Proof.
  revert k. induction l as [|x l IH]; intros k; simpl; [by intros []%not_elem_of_nil|].
  intros [[= -> ->]|H]%elem_of_cons; [rewrite Nat.sub_diag; by split|].
  destruct (IH (S k) H) as [? Hl]. split; [lia|]. replace (i - k)%nat with (S (i - S k)) by lia. done.
Qed.

(** Sending a configuration back with its secrets masked changes nothing. *)
Lemma merge_mask v : val_wf v → clean v = true → merge lower (mask v) v = Ok v.
Proof.
  induction v as [| | | | |l IH|d IH] using pyval_ind; intros Hwf Hc; try done; cbn [mask].
  - rewrite merge_list. inversion Hwf as [| | | | |? Hl|]; subst. simpl in Hc. rewrite forallb_forall in Hc. rewrite Forall_forall in IH, Hl.
    rewrite length_fmap. assert (map_res (merge_item (VList l)) (zip (seq 0 (length l)) (mask <$> l)) = Ok l) as ->; [|done].
    apply map_res_Ok. apply Forall2_lookup. intros i. destruct (l !! i) as [v|] eqn:Ei.
    + assert (zip (seq 0 (length l)) (mask <$> l) !! i = Some (i, mask v)) as ->.
      { apply lookup_zip_with_Some. exists i, (mask v). split_and!; try done; [|by rewrite list_lookup_fmap, Ei].
        apply lookup_seq_lt. by eapply lookup_lt_Some. }
      constructor. unfold merge_item, before_index. cbn [fst snd]. rewrite Ei. simpl.
      apply list_elem_of_lookup_2 in Ei. apply IH; [done|by apply Hl|by apply Hc, list_elem_of_In].
    + assert (zip (seq 0 (length l)) (mask <$> l) !! i = None) as ->; [|constructor].
      apply lookup_ge_None in Ei. apply lookup_ge_None. rewrite length_zip_with, length_seq. lia.
  - rewrite merge_dict, map_res_fmap. inversion Hwf as [| | | | | |? Hd Hf]; subst. simpl in Hc. rewrite forallb_forall in Hc.
    rewrite Forall_forall in IH, Hf. rewrite map_res_id; [done|]. intros [k v] Hin. unfold merge_field. cbn [fst snd].
    assert (before_key (VDict d) k = v) as -> by (unfold before_key; by rewrite (elem_of_dget _ _ _ Hd Hin)).
    pose proof (Hc _ (proj1 (list_elem_of_In _ _) Hin)) as [Hfb Hcv]%andb_true_iff. cbn [fst snd] in Hfb, Hcv.
    destruct (secret_key lower k && negb (is_none v)) eqn:Es.
    + apply andb_true_iff in Es as [Es En]. destruct (forbidden k) eqn:Ef; [by rewrite (forbidden_not_secret k Ef) in Es|].
      cbn [andb raise_if mbind result_bind]. rewrite Es. change (py_eqb unchanged unchanged) with true. cbn [andb].
      apply negb_true_iff in En. by rewrite En.
    + assert (forbidden k && negb (eq_str (mask v) "" || is_none (mask v)) = false) as ->.
      { apply andb_false_iff. destruct (forbidden k); [right|by left]. simpl in Hfb. apply orb_true_iff in Hfb as [E%eq_str_spec| E].
        - by subst v. - by destruct v. }
      cbn [raise_if mbind result_bind].
      assert (secret_key lower k && py_eqb (mask v) unchanged = false) as ->.
      { apply andb_false_iff in Es as [->|Es]; [done|]. apply negb_false_iff in Es. destruct v; try done. by rewrite andb_false_r. }
      pose proof (IH _ Hin (Hf _ Hin) Hcv) as Hm. cbn [snd] in Hm. by rewrite Hm.
Qed.

(** What a merge produces configures no host command, if the old
    configuration did not. *)
Lemma merge_clean v old w : clean old = true → merge lower v old = Ok w → clean w = true.
Proof.
  revert old w. induction v as [| | | | |l IH|d IH] using pyval_ind; intros old w Hc Hm; try (by injection Hm as <-).
  - rewrite merge_list in Hm. apply bind_Ok_inv in Hm as (out & Ho & [= <-]). simpl. apply forallb_forall. intros x Hx%list_elem_of_In.
    apply map_res_Ok in Ho. apply list_elem_of_lookup_1 in Hx as [i Hi]. destruct (Forall2_lookup_r _ _ _ _ _ Ho Hi) as ([j v] & Hj & Hjx).
    apply list_elem_of_lookup_2, zip_seq_elem in Hj as [_ Hj%list_elem_of_lookup_2]. rewrite Forall_forall in IH.
    apply (IH v Hj (before_index old j)); [|exact Hjx]. unfold before_index. destruct old as [| | | | |o|]; try done.
    destruct (o !! j) as [y|] eqn:Ey; [|done]. simpl in Hc |- *. rewrite forallb_forall in Hc.
    apply Hc, list_elem_of_In. by eapply list_elem_of_lookup_2.
  - rewrite merge_dict in Hm. apply bind_Ok_inv in Hm as (out & Ho & [= <-]). simpl. apply forallb_forall. intros [k x] Hx%list_elem_of_In.
    apply map_res_Ok in Ho. apply list_elem_of_lookup_1 in Hx as [i Hi]. destruct (Forall2_lookup_r _ _ _ _ _ Ho Hi) as ([k' v] & Hj & Hjx).
    apply list_elem_of_lookup_2 in Hj. unfold merge_field in Hjx. cbn [fst snd] in Hjx |- *.
    apply bind_Ok_inv in Hjx as ([] & Hf%raise_if_Ok & Hjx). apply bind_Ok_inv in Hjx as (y & Hy & [= -> ->]).
    assert (clean (before_key old k) = true) as Hb.
    { unfold before_key. destruct old as [| | | | | |o]; try done. destruct (dget o k) as [z|] eqn:Ez; [|done]. simpl in Hc |- *.
      rewrite forallb_forall in Hc. apply dget_elem_of, list_elem_of_In, Hc, andb_true_iff in Ez as [_ Ez]. done. }
    rewrite Forall_forall in IH. specialize (IH _ Hj). cbn [snd] in IH. apply andb_true_iff.
    destruct (secret_key lower k && py_eqb v unchanged) eqn:Es.
    + apply bind_Ok_inv in Hy as ([] & _ & [= <-]). split; [|done]. apply andb_true_iff in Es as [Es _].
      destruct (forbidden k) eqn:Ef; [by rewrite (forbidden_not_secret k Ef) in Es|done].
    + split; [|by eapply IH]. destruct (forbidden k); [|done]. simpl in Hf |- *. apply negb_false_iff, orb_true_iff in Hf as [E%eq_str_spec|E].
      * subst v. by injection Hy as <-.
      * destruct v; try done. injection Hy as <-. done.
Qed.

(** ** The store *)
Context (nfc : pystr → pystr) (native_check : pydict → pydict → result pystr).

Record store_ok (s : store) : Prop := {
  so_wf : dwf (st_materials s);
  so_bounded : zlen (st_materials s) ≤ 16;
  so_addressed : ∀ name raw, dget (st_materials s) name = Some raw → name = material_name raw;
  so_draft : ∀ raw, st_draft s = Some raw → dget (st_materials s) (material_name raw) = Some raw }.

Lemma material_digest_name raw : material_digest (material_name raw) = Some (sha256_hex raw).
Proof.
  pose proof (sha256_hex_lower raw) as Hh. unfold hex_lower, re_class in Hh. pose proof Hh as [Hlen Hch]%andb_true_iff.
  apply between_spec in Hlen. assert (length (sha256_hex raw) = 64%nat) as Hl by (unfold zlen in Hlen; lia).
  unfold material_digest, material_name.
  replace (drop 9 (str "material-" ++ sha256_hex raw ++ str ".json")) with (sha256_hex raw ++ str ".json") by reflexivity.
  assert (take 64 (sha256_hex raw ++ str ".json") = sha256_hex raw) as -> by (rewrite <- Hl; apply take_app_length).
  rewrite starts_with_app.
  replace (drop 73 (str "material-" ++ sha256_hex raw ++ str ".json")) with (str ".json").
  2: { rewrite app_assoc. symmetry. apply drop_app_length'. by rewrite length_app, Hl. }
  rewrite bool_decide_true by done. unfold hex_lower, re_class. by rewrite Hh.
Qed.

Lemma store_ok_draft s raw : store_ok s → dget (st_materials s) (material_name raw) = Some raw → store_ok (Store (Some raw) (st_materials s)).
Proof. intros [Hw Hb Ha Hd] Hm. split; simpl; try done. by intros ? [= <-]. Qed.

Lemma store_ok_add s raw :
  store_ok s → dget (st_materials s) (material_name raw) = None → zlen (st_materials s) < 16 →
  store_ok (Store (st_draft s) (dset (st_materials s) (material_name raw) raw)).
Proof.
  intros [Hw Hb Ha Hd] Hn Hl. split; simpl.
  - by apply dwf_dset.
  - unfold zlen in *. rewrite length_dset_None by done. lia.
  - intros name r. rewrite dget_dset. case_decide; [intros [= <-]; done|apply Ha].
  - intros r Hr. rewrite dget_dset. case_decide as E; [|by apply Hd]. specialize (Hd r Hr). by rewrite E, Hn in Hd.
Qed.

(** [save] writes what was reviewed, on top of the draft that was reviewed. *)
Lemma save_Ok name confirmed expected e s r s' :
  store_ok s → save lower nfc native_check name confirmed expected e s = (Ok r, s') →
  confirmed = true ∧ ∃ raw review, prepare lower nfc native_check name e s = Ok (raw, review) ∧ review_digest review = expected ∧
    st_draft s' = Some raw ∧ dget (st_materials s') (material_name raw) = Some raw ∧ digest <$> st_draft s = e_expected e.
Proof.
  intros Hs H. unfold save in H. destruct (M_lift_inv _ _ _ _ _ H) as [([] & Hc%raise_if_Ok & H1)|(_ & x & _ & ?)]; [|done]. clear H.
  destruct (M_lift_inv _ _ _ _ _ H1) as [([raw review] & Hp & H2)|(_ & x & _ & ?)]; [|done]. clear H1.
  destruct (M_lift_inv _ _ _ _ _ H2) as [([] & Hr%raise_if_Ok & H3)|(_ & x & _ & ?)]; [|done]. clear H2. bool_simpl.
  split; [done|]. exists raw, review. split; [done|]. split; [done|].
  assert (digest <$> st_draft s = e_expected e) as He.
  { unfold prepare in Hp. apply bind_Ok_inv in Hp as ([] & Hd%raise_if_Ok & _). by bool_simpl. }
  destruct (dget (st_materials s) (material_name raw)) as [stored|] eqn:Em.
  - destruct (M_lift_inv _ _ _ _ _ H3) as [([] & Hst%raise_if_Ok & H4)|(_ & x & _ & ?)]; [|done]. injection H4 as <- <-. simpl. bool_simpl.
    by subst stored.
  - destruct (M_bind_Ok _ _ _ _ _ H3) as ([] & s1 & Hadd & H4). injection H4 as <- <-.
    destruct (M_lift_inv _ _ _ _ _ Hadd) as [([] & _ & H5)|(_ & x & _ & ?)]; [|done]. injection H5 as <-. simpl.
    split_and!; try done. apply dget_dset_eq.
Qed.

Lemma save_store_ok name confirmed expected e s r s' :
  store_ok s → save lower nfc native_check name confirmed expected e s = (r, s') → store_ok s'.
Proof.
  intros Hs H. unfold save in H. destruct (M_lift_inv _ _ _ _ _ H) as [([] & _ & H1)|[-> _]]; [|done]. clear H.
  destruct (M_lift_inv _ _ _ _ _ H1) as [([raw review] & _ & H2)|[-> _]]; [|done]. clear H1.
  destruct (M_lift_inv _ _ _ _ _ H2) as [([] & _ & H3)|[-> _]]; [|done]. clear H2.
  destruct (dget (st_materials s) (material_name raw)) as [stored|] eqn:Em.
  - destruct (M_lift_inv _ _ _ _ _ H3) as [([] & Hst%raise_if_Ok & H4)|[-> _]]; [|done]. injection H4 as _ <-. bool_simpl. subst stored.
    by apply store_ok_draft.
  - destruct (M_bind_inv _ _ _ _ _ H3) as [([] & s1 & Hadd & H4)|(x & Hadd & _)].
    + injection H4 as _ <-. destruct (M_lift_inv _ _ _ _ _ Hadd) as [([] & Hl%raise_if_Ok & H5)|(_ & x & _ & ?)]; [|done].
      injection H5 as <-. simpl. apply Z.leb_gt in Hl. pose proof (store_ok_add _ _ Hs Em Hl) as Hs1.
      apply (store_ok_draft _ raw) in Hs1; [done|]. apply dget_dset_eq.
    + destruct (M_lift_inv _ _ _ _ _ Hadd) as [([] & _ & H5)|[-> _]]; [by injection H5|done].
Qed.

(** A scan sees snapshots that exist, each once. *)
Definition honest_scan (s : store) (scan : list pystr) : Prop :=
  NoDup scan ∧ ∀ e, e ∈ scan → is_Some (material_digest e) → is_Some (dget (st_materials s) e).

(** The snapshots that are left after a scan. *)
Definition kept (protected scan : list pystr) (l : list (pystr * bytes)) : list (pystr * bytes) :=
  foldl (λ l e, match material_digest e with Some _ => if bool_decide (e ∈ protected) then l else ddel l e | None => l end) l scan.

Lemma reclaim_entries_run protected scan s :
  dwf (st_materials s) → (∀ name raw, dget (st_materials s) name = Some raw → name = material_name raw) → honest_scan s scan →
  ∃ n, reclaim_entries protected scan s = (Ok n, Store (st_draft s) (kept protected scan (st_materials s))).
Proof.
  revert s. induction scan as [|e scan IH]; intros s Hw Ha [Hnd Hsc].
  { exists 0. destruct s. done. }
  apply NoDup_cons in Hnd as [Hnew Hnd]. cbn [reclaim_entries kept foldl]. unfold mbind, M_bind, reclaim_entry.
  destruct (material_digest e) as [h|] eqn:Eh.
  2: { destruct (IH s) as [n ->]; [done|done|split; [done|]; intros; apply Hsc; [by right|done]|]. by exists (0 + n). }
  destruct (bool_decide (e ∈ protected)) eqn:Ep.
  { destruct (IH s) as [n ->]; [done|done|split; [done|]; intros; apply Hsc; [by right|done]|]. by exists (0 + n). }
  destruct (Hsc e ltac:(by left) ltac:(by rewrite Eh)) as [raw Er]. rewrite Er. pose proof (Ha _ _ Er) as ->.
  rewrite material_digest_name in Eh. injection Eh as <-. rewrite bool_decide_true by done.
  destruct (IH (Store (st_draft s) (ddel (st_materials s) (material_name raw)))) as [n Hn]; simpl.
  - by apply dwf_ddel.
  - intros name r. destruct (decide (name = material_name raw)) as [->|Hne]; [by rewrite dget_ddel_eq|]. rewrite dget_ddel_ne by done. apply Ha.
  - split; [done|]. intros e' He' Hd. simpl. rewrite dget_ddel_ne; [apply Hsc; [by right|done]|]. by intros ->.
  - rewrite Hn. by exists (1 + n).
Qed.

Lemma kept_cons protected x scan l :
  kept protected (x :: scan) l =
  kept protected scan (match material_digest x with Some _ => if bool_decide (x ∈ protected) then l else ddel l x | None => l end).
Proof. done. Qed.

Lemma kept_protected protected scan l e : e ∈ protected → dget (kept protected scan l) e = dget l e.
Proof.
  intros He. revert l. induction scan as [|x scan IH]; intros l; [done|]. rewrite kept_cons.
  rewrite IH. destruct (material_digest x); [|done]. case_bool_decide; [done|]. apply dget_ddel_ne. by intros ->.
Qed.

Lemma kept_sub protected scan l : dwf l →
  dwf (kept protected scan l) ∧ zlen (kept protected scan l) ≤ zlen l ∧ ∀ e raw, dget (kept protected scan l) e = Some raw → dget l e = Some raw.
Proof.
  revert l. induction scan as [|x scan IH]; intros l Hl; [split_and!; try done; lia|]. rewrite kept_cons.
  destruct (material_digest x); [|by apply IH]. case_bool_decide; [by apply IH|].
  destruct (IH (ddel l x)) as (H1 & H2 & H3); [by apply dwf_ddel|]. split_and!; [done| |].
  - pose proof (length_ddel_le l x). unfold zlen in *. lia.
  - intros e raw He. specialize (H3 e raw He). destruct (decide (e = x)) as [->|Hne]; [by rewrite dget_ddel_eq in H3|].
    by rewrite dget_ddel_ne in H3.
Qed.

(** [reclaim] keeps the store in order, keeps what services refer to, and
    keeps the draft unless it is discarded. *)
Lemma reclaim_ok name confirmed discard registered expected in_use scan s r s' :
  store_ok s → honest_scan s scan →
  reclaim lower nfc name confirmed discard registered expected in_use scan s = (r, s') →
  store_ok s' ∧ (∀ e, e ∈ in_use → dget (st_materials s') e = dget (st_materials s) e) ∧
  (st_draft s' = st_draft s ∨ discard = true ∧ registered = false ∧ st_draft s' = None).
Proof.
  intros Hs Hsc H. unfold reclaim in H. destruct (M_lift_inv _ _ _ _ _ H) as [([] & _ & H1)|[-> _]]; [|auto]. clear H.
  destruct (M_lift_inv _ _ _ _ _ H1) as [([] & Hg%raise_if_Ok & H2)|[-> _]]; [|auto]. clear H1.
  destruct (M_lift_inv _ _ _ _ _ H2) as [(cur & _ & H3)|[-> _]]; [|auto]. clear H2.
  destruct (M_lift_inv _ _ _ _ _ H3) as [([] & _ & H4)|[-> _]]; [|auto]. clear H3.
  set (own := match st_draft s with Some raw => if discard then [] else [material_name raw] | None => [] end) in H4.
  destruct (reclaim_entries_run (own ++ in_use) scan s (so_wf _ Hs) (so_addressed _ Hs) Hsc) as [n Hn].
  unfold mbind, M_bind in H4. rewrite Hn in H4. clear Hn. destruct (kept_sub (own ++ in_use) scan _ (so_wf _ Hs)) as (K1 & K2 & K3).
  assert (∀ e, e ∈ own ++ in_use → dget (kept (own ++ in_use) scan (st_materials s)) e = dget (st_materials s) e) as K4
    by (intros; by apply kept_protected).
  destruct discard; injection H4 as _ <-; simpl; (split; [|split; [intros e He; apply K4; apply elem_of_app; by right|]]).
  - split; simpl; [done|pose proof (so_bounded _ Hs); lia|intros; by apply (so_addressed _ Hs), K3|done].
  - right. by destruct registered.
  - split; simpl; [done|pose proof (so_bounded _ Hs); lia|intros; by apply (so_addressed _ Hs), K3|].
    intros raw Hr. rewrite K4; [by apply (so_draft _ Hs)|]. apply elem_of_app. left. unfold own. rewrite Hr. by left.
  - by left.
Qed.
End Facts.
