(* ===== verification/ConnectionPlan.v ===== *)
(** * Connection plans

    [Deployment/connection_plan.py]: the plan that joins a context, a Core, its
    profile binding and the observed runtime; the choice of the session kind;
    and the budgets of the local sessions.  What the registry, the file system
    and the sockets return are arguments. *)
From S2P Require Import Prelude Dict PyStr PyText PyValue Json StrictJson Sha256 Signing Base64.
From S2P Require Import Net JoinCode BrokerSet NativeProfiles CoreCatalog Context ConfigStore.

Definition application_adapter (profile : pyval) (provider : pystr) : result pydict :=
  match profile with
  | VDict p =>
      _ ← raise_if (negb (is_str (vget_none p "id")) || negb (str_in provider ["native"; "s6na"])) ValueError
            "InvalidApplicationAdapterBinding";
      match vget_none p "applicationBoundary" with
      | VDict contract =>
          known ← in_set (vget_none contract "kind") ["stream"; "message"];
          _ ← raise_if (negb known) ValueError "UnsupportedApplicationBoundary";
          let kind := vget_none contract "kind" in
          Ok (mkdict (if bool_decide (provider = str "s6na")
                      then [("provider", VStr provider); ("profile", vget_none p "id"); ("boundary", kind);
                            ("mode", txt "transparent-profile"); ("recordPreserving", VBool (eq_str kind "message"))]
                      else [("provider", VStr provider); ("profile", vget_none p "id"); ("boundary", kind);
                            ("mode", txt "profile-native")])%string)
      | _ => raise ValueError "UnsupportedApplicationBoundary"
      end
  | _ => raise ValueError "InvalidApplicationAdapterBinding"
  end.

Definition role_re (s : pystr) : bool := re_class identity_char 1 32 s.

(** The boundaries the routes of a context ask for, as a sorted set of names.
    Only the boundary of a BrokerSet is validated with the context: a set cannot
    hold a list or a dictionary, names and numbers cannot be sorted together,
    and a number is a boundary of no Core. *)
Definition route_boundaries (routes : list pyval) : result (list pystr) :=
  ds ← map_res as_dict routes;
  let asked := filter (λ v, truthy v = true) ((λ r : pydict, vget_none r "boundary") <$> ds) in
  _ ← raise_if (existsb (λ v, negb (hashable v)) asked) TypeError "unhashable type";
  _ ← raise_if (existsb is_str asked && existsb (λ v, negb (is_str v)) asked) TypeError "'<' not supported between instances";
  _ ← raise_if (existsb (λ v, negb (is_str v)) asked) ValueError "capability unavailable: application boundary";
  Ok (sorted_set (as_text <$> asked)).

(** [v in l] for a list of a descriptor. *)
Definition member_of (v : pyval) (l : list pyval) : bool := existsb (λ x, py_eqb x v) l.

Section Plan.
Context (nfc nfkc lower : pystr → pystr) `{Signing}.

(** The BrokerSet routes, realized. *)
Definition realize_pool (adapter : pystr) (pick : Z) (route : pyval) : result (list pyval) :=
  r ← as_dict route;
  if eq_str (vget_none r "kind") "broker_set" then
    pool ← realize nfkc lower route adapter [] 0 pick;
    if bool_decide (adapter = str "gate")
    then patch ← gate_patch nfkc lower route false; Ok [VDict (vset pool "gateConfigPatch" (VDict patch))]
    else Ok [VDict pool]
  else Ok [].

(** The observed endpoint against the Core and the context: the boundary of the
    plan. *)
Definition observed_boundary (descriptor : pydict) (effective_role : pyval) (boundary endpoint readiness : pyval) : result pyval :=
  if negb (eq_str readiness "application-ready") then Ok boundary else
  roles ← as_list (vget_none descriptor "roles");
  _ ← raise_if (negb (member_of (txt "client") roles)) ValueError
        "capability unavailable: observed client role is not declared by Core";
  declared ← as_list (vget_none descriptor "applicationBoundaries");
  match endpoint with
  | VDict e =>
      let b := vget_none e "boundary" in
      _ ← raise_if (negb (member_of b declared)) ValueError
            "capability unavailable: observed application boundary is not declared by Core";
      _ ← raise_if (negb (in_strs effective_role ["all"; "client"])) ValueError
            "observed client application endpoint conflicts with S6P1 role";
      _ ← raise_if (truthy boundary && negb (py_eqb boundary b)) ValueError
            "observed application boundary conflicts with S6P1 routes";
      Ok b
  | _ => raise ValueError "capability unavailable: observed application boundary is not declared by Core"
  end.

(** The locked profile against the boundary and the observed mode. *)
Definition check_profile (profile : option pydict) (boundary endpoint readiness : pyval) : result unit :=
  match profile with
  | None => Ok tt
  | Some p =>
      contract ← as_dict (vget_none p "applicationBoundary");
      _ ← raise_if (negb (is_none boundary) && negb (py_eqb boundary (vget_none contract "kind"))) ValueError
            "ProfileCapabilityMismatch: application boundary differs from ProfileBinding";
      if eq_str readiness "application-ready" then
        e ← as_dict endpoint;
        raise_if (negb (py_eqb (vget_none e "mode") (vget_none contract "mode"))) ValueError
          "ProfileCapabilityMismatch: observed attachment mode differs"
      else Ok tt
  end.

(** The attachments that a plan may launch. *)
Definition is_attach (readiness endpoint : pyval) : bool :=
  match endpoint with
  | VDict e => eq_str readiness "application-ready" && eq_str (vget_none e "boundary") "stream"
               && eq_str (vget_none e "mode") "localhost-tcp-proxy"
               && eq_str (vget_none e "observation") "structured-ready-event"
  | _ => false
  end.
Definition is_message_attach (readiness endpoint : pyval) : bool :=
  match endpoint with
  | VDict e => eq_str readiness "application-ready" && eq_str (vget_none e "boundary") "message"
               && ((eq_str (vget_none e "mode") "localhost-udp-datagram-proxy"
                    && eq_str (vget_none e "observation") "structured-ready-event")
                   || (eq_str (vget_none e "mode") "seqpacket-fd"
                       && eq_str (vget_none e "observation") "supervisor-owned-record-adapter"))
  | _ => false
  end.

(** The document of an accepted plan. *)
Definition plan_document (source requested : pyval) (digest : pystr) (effective_role : pyval) (binding profile_binding : pyval)
    (observed : pydict) (boundary : pyval) (pools : list pyval) (declared : list pyval) (invitation : pyval) : pydict :=
  let endpoint := vget_none observed "endpoint" in
  let readiness := vget_or observed "readiness" (txt "unavailable") in
  let attach := is_attach readiness endpoint in
  let message_attach := is_message_attach readiness endpoint in
  mkdict
    [("schema", txt "shadow6.connection-plan.v1"); ("source", source); ("core", requested); ("contextDigest", VStr digest);
     ("role", effective_role); ("binding", binding); ("profileBinding", profile_binding);
     ("lockDigest", vget_none observed "lockDigest");
     ("runtimeIdentity", VDict (omap (λ k, (λ v, (str k, v)) <$> vget observed k) ["pid"; "processIdentity"]%string));
     ("endpoint", endpoint); ("readiness", readiness); ("applicationBoundary", boundary);
     ("abi", if truthy boundary then txt "S6ABI/1" else VNone);
     ("endpointFraming", if message_attach then txt "native-application-records"
                         else if attach then txt "native-application-bytes"
                         else if truthy endpoint then txt "core-native" else VNone);
     ("brokerSets", VList pools); ("state", txt "planned"); ("connected", VBool false);
     ("capability", VDict (mkdict
        [("available", VBool (negb (is_none boundary) && member_of boundary declared));
         ("sessionLaunch", txt (if message_attach then "local-application-message"
                                else if attach then "local-application-stream" else "unavailable"));
         ("reason", txt (if message_attach then
                           "Use --records or libshadow6 send_record/receive_record; native record boundaries and limits are preserved"
                         else if attach then "Use --stdio or libshadow6.connect to attach to the observed client proxy"
                         else "Native endpoint needs its declared application adapter; no uniform session launcher is advertised"))]));
     ("provisioning", VDict (mkdict [("public6", VBool (eq_str source "public6" || is_str invitation))]))].

(** The Core that the plan is made for. *)
Definition requested_core (core : pyval) (binding : pyval) : result pyval :=
  b ← match binding with
      | VDict d => Ok d
      | VNone => Ok []
      | _ => raise TypeError "indices must be integers"
      end;
  _ ← (if truthy core && truthy binding then
         c ← field b "core";
         raise_if (negb (py_eqb c core)) ValueError "explicit Core differs from locked CoreBinding"
       else Ok tt);
  let requested := if truthy core then core else vget_none b "core" in
  _ ← raise_if (negb (truthy requested)) ValueError "CoreSelectionRequired";
  Ok requested.

Definition connection_plan (now pick : Z) (context : pyval) (items : catalog) (core binding : pyval) (runtime : pydict)
    (source : pyval) (adapter : option pystr) (role : option pystr) (profile_binding : pyval) : result pydict :=
  _ ← raise_if (match role with Some r => negb (role_re r) | None => false end) ValueError "invalid requested role";
  let adapter := match adapter with Some (c :: s) => c :: s | _ => str "native-single" end in
  c ← validate_context nfc nfkc lower context;
  creds ← as_dict (vget_none c "credentials");
  let invitation := vget_none creds "public6_invitation" in
  c ← admit_context nfc nfkc lower now (VDict c) (if truthy invitation then Some (str "public6") else None) role;
  let effective_role := match role with Some (r :: s) => VStr (r :: s) | _ => vget_none c "role" end in
  requested ← requested_core core binding;
  routes ← as_list (vget_none c "routes");
  kinds ← route_boundaries routes;
  let requirements : pydict :=
    (if eq_str effective_role "all" then [] else [(str "roles", effective_role)])
    ++ (if bool_decide (kinds = []) then [] else [(str "applicationBoundaries", VList (VStr <$> kinds))]) in
  resolution ← resolve_core items requirements requested;
  found ← as_list (vget_none resolution "candidates");
  candidates ← map_res as_dict found;
  let candidates := filter (λ d, core_allowed (vget_none c "core") (vget_none d "id")) candidates in
  descriptor ← check_binding nfc nfkc lower (VDict c) requested items;
  profile ← match profile_binding with
            | VNone => Ok None
            | _ => p ← validate_profile_binding profile_binding requested true; Ok (Some p)
            end;
  _ ← raise_if (negb (existsb (λ d, py_eqb (vget_none d "id") requested) candidates)) ValueError
        "capability unavailable: explicit Core does not satisfy context";
  _ ← raise_if (1 <? zlen kinds) ValueError "AmbiguousApplicationBoundary: select one application boundary";
  let boundary := match kinds with k :: _ => VStr k | [] => VNone end in
  pools ← map_res (realize_pool adapter pick) routes;
  let endpoint := vget_none runtime "endpoint" in
  let readiness := vget_or runtime "readiness" (txt "unavailable") in
  boundary ← observed_boundary descriptor effective_role boundary endpoint readiness;
  _ ← check_profile profile boundary endpoint readiness;
  declared ← as_list (vget_none descriptor "applicationBoundaries");
  digest ← context_digest nfc nfkc lower (VDict c);
  Ok (plan_document source requested digest effective_role binding profile_binding runtime boundary (concat pools) declared invitation).

(** ** Resolving a named service *)

(** Keys whose value belongs to the security policy of a native configuration. *)
Definition sensitive (key : pystr) : bool :=
  secret_key lower key
  || existsb (λ w, is_infix (str w) (lower_text lower key)) ["pubkey"; "public_key"; "allowed"; "verify"; "certificate"; "tls"]%string.

Fixpoint security (value : pyval) : pyval :=
  match value with
  | VDict d =>
      VDict ((fix go (d : pydict) : pydict :=
                match d with
                | [] => []
                | (k, v) :: d =>
                    if sensitive k then (k, v) :: go d
                    else if is_dict v || is_list v then (k, security v) :: go d else go d
                end) d)
  | VList l =>
      VList ((fix go (l : list pyval) : list pyval :=
                match l with
                | [] => []
                | v :: l => if is_dict v || is_list v then security v :: go l else go l
                end) l)
  | _ => VNone
  end.

Definition field_dict (d : pydict) (k : string) : result pydict := v ← field d k; as_dict v.
(** [(d.get(k) or {})]. *)
Definition opt_dict (d : pydict) (k : string) : result pydict :=
  match vget_none d k with VDict x => Ok x | v => if truthy v then raise AttributeError "get" else Ok [] end.

Section Resolve.
Context (read : pystr → result bytes).

Definition config_path (binding : pydict) : result pystr :=
  config ← field_dict binding "config"; p ← field config "config_path"; Ok (as_text p).

(** The role that is asked for must be the one of the locked configuration. *)
Definition check_locked_role (binding material : pydict) (role : pystr) : result unit :=
  path ← config_path binding;
  data ← read path;
  expected ← field material "nativeConfigDigest";
  _ ← raise_if (negb (py_eqb (VStr (digest data)) expected)) ValueError "deployment drift during connection resolution";
  native ← reraise [ValueError] ValueError "capability unavailable: named deployment role cannot be verified"
             (strict_json nfc LIMIT STRING_LIMIT (JBytes data));
  match native with
  | VDict n =>
      match vget_none n "role" with
      | VStr r => raise_if (negb (bool_decide (r = role))) ValueError "requested role differs from locked native realization"
      | _ => raise ValueError "capability unavailable: named deployment role cannot be verified"
      end
  | _ => raise ValueError "capability unavailable: named deployment role cannot be verified"
  end.

Definition material_subset (material : pydict) : pydict :=
  mkdict ((λ k, (k, vget_none material k)) <$> ["nativeMaterialDigests"; "componentMaterialDigests"; "envelopeTlsDigests"]%string).

(** The identity of the policy of a service. *)
Definition security_policy (item material : pydict) (context_id : pystr) (native : pyval) : result pyval :=
  spec ← field_dict item "spec";
  privacy ← field item "privacy";
  attachment ← opt_dict material "creditedAttachment";
  Ok (VDict (mkdict [("privacy", privacy); ("limits", vget_none spec "limits"); ("context", VStr context_id);
                     ("credentials", security native); ("materials", VDict (material_subset material));
                     ("creditedKey", vget_none attachment "keyDigest")])).

(** What a named service adds to its plan. *)
Definition service_plan (item material binding : pydict) (context profile_binding : pyval) (plan : pydict) : result pydict :=
  path ← config_path binding;
  data ← read path;
  native ← strict_json nfc LIMIT STRING_LIMIT (JBytes data);
  context_id ← context_digest nfc nfkc lower context;
  policy ← security_policy item material context_id native;
  observation ← opt_dict item "runtimeObservation";
  core ← field binding "core";
  profile ← validate_profile_binding profile_binding core true;
  let attachment := vget_none material "creditedAttachment" in
  adapter ← application_adapter (VDict profile) (str (if truthy attachment then "s6na" else "native"));
  let plan := vset plan "securityPolicyDigest" (VStr (digest (dumps_canonical policy))) in
  let plan := vset plan "readinessEvidence" (vget_or item "readinessEvidence" (VDict [])) in
  let plan := vset plan "transportReadiness" (vget_or observation "transportReadiness" (txt "unavailable")) in
  let plan := vset plan "effectiveLimits" (vget_or observation "effectiveLimits" (VDict [])) in
  let plan := vset plan "applicationAdapter" (VDict adapter) in
  if truthy attachment then
    a ← as_dict attachment;
    maximum ← field a "boundaryMaximum";
    capability ← field_dict plan "capability";
    let capability := vset capability "sessionLaunch" (txt "s6na-transparent-profile") in
    let capability := vset capability "reason"
      (txt "The locked S6NA endpoint supplies a bounded credited socket boundary; no native adapter bypass") in
    Ok (vset (vset plan "creditedBoundaryMaximum" maximum) "capability" (VDict capability))
  else Ok plan.

(** [service] is what the registry returns for the service, if one is named. *)
Definition resolve_connection (now pick : Z) (items : catalog) (service : option (pydict * pydict)) (context : pyval)
    (core binding : pyval) (runtime : pydict) (source : pyval) (adapter role : option pystr) (profile_binding : pyval)
    : result pydict :=
  match service with
  | Some (item, material) =>
      _ ← raise_if (negb (is_none context)) ValueError "choose one connection resolve source";
      context ← field item "protocolContext";
      binding ← field_dict item "coreBinding";
      runtime ← (v ← field item "runtime"; if truthy v then as_dict v else Ok []);
      let profile_binding := vget_none item "profileBinding" in
      bound ← field binding "core";
      _ ← validate_profile_binding profile_binding bound true;
      _ ← match role with
          | Some r =>
              c ← as_dict context;
              own ← field c "role";
              if eq_str own "all" then check_locked_role binding material r else Ok tt
          | None => Ok tt
          end;
      deployed ← (b ← field_dict material "brokerRealization"; v ← field b "adapter"; Ok (as_text v));
      _ ← raise_if (match adapter with Some a => negb (bool_decide (a = deployed)) | None => false end) ValueError
            "requested connection adapter differs from locked service realization";
      _ ← raise_if (is_none context) ValueError "S6P1 context required";
      plan ← connection_plan now pick context items core (VDict binding) runtime (txt "named-service") (Some deployed) role profile_binding;
      service_plan item material binding context profile_binding plan
  | None =>
      _ ← raise_if (is_none context) ValueError "S6P1 context required";
      connection_plan now pick context items core binding runtime source adapter role profile_binding
  end.
End Resolve.
End Plan.
