(* ===== verification/PlanFacts.v ===== *)
(** * Connection plans: facts *)
From S2P Require Import Prelude Dict PyStr PyText PyValue Json JsonRound JsonDocs StrictJson Sha256 Signing Base64.
From S2P Require Import Net JoinCode AdmissionFacts BrokerSet NativeProfiles CoreCatalog.
From S2P Require Import Context ConnectionPlan.

Lemma as_list_Ok v l : as_list v = Ok l → v = VList l.
Proof. destruct v; try done. by intros [= ->]. Qed.
Lemma as_dict_Ok v d : as_dict v = Ok d → v = VDict d.
Proof. destruct v; try done. by intros [= ->]. Qed.

Lemma route_boundaries_Ok routes kinds :
  route_boundaries routes = Ok kinds →
  (∀ k, k ∈ kinds → ∃ r, VDict r ∈ routes ∧ vget_none r "boundary" = VStr k ∧ truthy (VStr k) = true) ∧
  (∀ r, VDict r ∈ routes → truthy (vget_none r "boundary") = true → ∃ k, vget_none r "boundary" = VStr k ∧ k ∈ kinds).
Proof.
  unfold route_boundaries. intros (ds & Hds & H)%bind_Ok_inv. apply map_res_Ok in Hds.
  apply bind_Ok_inv in H as ([] & _ & H). apply bind_Ok_inv in H as ([] & _ & H).
  apply bind_Ok_inv in H as ([] & Hs%raise_if_Ok & H). injection H as <-.
  set (asked := filter _ _) in *.
  assert (∀ v, v ∈ asked → ∃ s, v = VStr s) as Htext.
  { intros v Hv. apply is_str_spec. destruct (is_str v) eqn:E; [done|]. exfalso. rewrite <- not_true_iff_false, existsb_exists in Hs.
    apply Hs. exists v. split; [by apply list_elem_of_In|by rewrite E]. }
  assert (∀ r, r ∈ ds ↔ VDict r ∈ routes) as Hroutes.
  { intros r. split; intros Hr; apply list_elem_of_lookup_1 in Hr as [i Hi].
    - destruct (Forall2_lookup_r _ _ _ _ _ Hds Hi) as (x & Hx & ->%as_dict_Ok). by eapply list_elem_of_lookup_2.
    - destruct (Forall2_lookup_l _ _ _ _ _ Hds Hi) as (x & Hx & E). injection E as ->. by eapply list_elem_of_lookup_2. }
  split.
  - intros k Hk. apply (proj1 (elem_of_sorted_set _ _)), list_elem_of_fmap in Hk as (v & -> & Hv).
    destruct (Htext v Hv) as [s ->]. apply list_elem_of_filter in Hv as [Ht Hv]. apply list_elem_of_fmap in Hv as (r & Ev & Hr).
    exists r. split_and!; [by apply Hroutes|done|done].
  - intros r Hr Ht. apply Hroutes in Hr. assert (vget_none r "boundary" ∈ asked) as Hin.
    { apply list_elem_of_filter. split; [done|]. apply list_elem_of_fmap. eauto. }
    destruct (Htext _ Hin) as [k Ek]. exists k. split; [done|]. apply elem_of_sorted_set, list_elem_of_fmap.
    exists (vget_none r "boundary"). split; [by rewrite Ek|done].
Qed.

Section Facts.
Context (nfc nfkc lower : pystr → pystr) {Sg : Signing}.

(** A Core that a context may be bound to. *)
Record bound (c : pydict) (core : pyval) (items : catalog) (descriptor : pydict) : Prop := {
  bd_inspect : inspect items core = Ok descriptor;
  bd_scope : core_allowed (vget_none c "core") core = true;
  bd_role : ∃ roles, vget_none descriptor "roles" = VList roles ∧
    (vget_none c "role" = txt "all" ∨ existsb (λ x, py_eqb x (vget_none c "role")) roles = true);
  bd_routes : ∀ r, (∃ routes, vget_none c "routes" = VList routes ∧ VDict r ∈ routes) → truthy (vget_none r "boundary") = true →
    ∃ declared, vget_none descriptor "applicationBoundaries" = VList declared ∧ member_of (vget_none r "boundary") declared = true }.

Lemma check_binding_Ok c core items descriptor :
  validate_context nfc nfkc lower (VDict c) = Ok c →
  check_binding nfc nfkc lower (VDict c) core items = Ok descriptor → bound c core items descriptor.
Proof.
  intros Hfix Hb. unfold check_binding in Hb. rewrite Hfix in Hb. cbn [mbind result_bind] in Hb.
  apply bind_Ok_inv in Hb as (d & Hi & Hb). apply bind_Ok_inv in Hb as ([] & Hs%raise_if_Ok & Hb).
  apply bind_Ok_inv in Hb as (roles & Hr%as_list_Ok & Hb). apply bind_Ok_inv in Hb as ([] & Hro%raise_if_Ok & Hb).
  apply bind_Ok_inv in Hb as (routes & Hrt%as_list_Ok & Hb). apply bind_Ok_inv in Hb as ([] & Hall & Hb).
  assert (d = descriptor) as -> by (by injection Hb). clear Hb. split; [done|by apply negb_false_iff in Hs| |].
  - exists roles. split; [done|]. apply andb_false_iff in Hro as [E|E]; apply negb_false_iff in E; [left; by apply eq_str_spec|by right].
  - intros r (rs & Ers & Hin) Ht. rewrite Ers in Hrt. injection Hrt as ->. apply for_each_Ok in Hall. rewrite Forall_forall in Hall.
    specialize (Hall _ Hin). unfold check_route_binding in Hall. apply bind_Ok_inv in Hall as (r' & [= <-] & Hall).
    apply bind_Ok_inv in Hall as ([] & _ & Hall). apply bind_Ok_inv in Hall as (declared & Hd%as_list_Ok & Hall).
    apply raise_if_Ok in Hall. rewrite Ht in Hall. simpl in Hall. apply negb_false_iff in Hall. by exists declared.
Qed.

(** The boundary of a plan is the routes' one or the observed one. *)
Lemma observed_boundary_Ok descriptor role boundary endpoint readiness b :
  observed_boundary descriptor role boundary endpoint readiness = Ok b →
  (eq_str readiness "application-ready" = false ∧ b = boundary) ∨
  (readiness = txt "application-ready" ∧ ∃ e declared, endpoint = VDict e ∧ b = vget_none e "boundary" ∧
     vget_none descriptor "applicationBoundaries" = VList declared ∧ member_of b declared = true ∧
     in_strs role ["all"; "client"] = true ∧ (truthy boundary = true → py_eqb boundary b = true)).
Proof.
  unfold observed_boundary. destruct (eq_str readiness "application-ready") eqn:Er; simpl; [|intros [= <-]; by left].
  intros (roles & _ & H)%bind_Ok_inv. apply bind_Ok_inv in H as ([] & _ & H). apply bind_Ok_inv in H as (declared & Hd%as_list_Ok & H).
  destruct endpoint as [| | | | | |e]; try done. apply bind_Ok_inv in H as ([] & Hm%raise_if_Ok & H).
  apply bind_Ok_inv in H as ([] & Hr%raise_if_Ok & H). apply bind_Ok_inv in H as ([] & Hb%raise_if_Ok & H).
  injection H as <-. right. split; [by apply eq_str_spec|]. exists e, declared. apply negb_false_iff in Hm, Hr.
  split_and!; try done. intros Ht. rewrite Ht in Hb. simpl in Hb. by apply negb_false_iff in Hb.
Qed.

Definition plan_ok (c : pydict) (requested : pyval) (items : catalog) (profile_binding : pyval) (d : pydict) : Prop :=
  ∃ descriptor b,
    bound c requested items descriptor ∧ vget_none d "core" = requested ∧ vget_none d "applicationBoundary" = b ∧
    vget_none d "connected" = VBool false ∧ vget_none d "profileBinding" = profile_binding ∧
    (vget_none d "readiness" = txt "application-ready" → ∃ e, vget_none d "endpoint" = VDict e ∧ b = vget_none e "boundary") ∧
    (truthy b = true → ∃ declared, vget_none descriptor "applicationBoundaries" = VList declared ∧ member_of b declared = true) ∧
    (∀ r, (∃ routes, vget_none c "routes" = VList routes ∧ VDict r ∈ routes) → truthy (vget_none r "boundary") = true →
       py_eqb (vget_none r "boundary") b = true) ∧
    (profile_binding ≠ VNone → ∃ p contract, validate_profile_binding profile_binding requested true = Ok p ∧
       vget_none p "applicationBoundary" = VDict contract ∧ (b ≠ VNone → py_eqb b (vget_none contract "kind") = true)).

Lemma connection_plan_Ok now pick context items core binding runtime source adapter role profile_binding d :
  context_input context →
  connection_plan nfc nfkc lower now pick context items core binding runtime source adapter role profile_binding = Ok d →
  ∃ c requested, validate_context nfc nfkc lower context = Ok c ∧ requested_core core binding = Ok requested ∧
    (∃ component token claims, pack_protocol nfc (VDict c) = Ok token ∧
       resolve_protocol_envelope nfc now (VStr token) component (asked_role c role) None [] false true = Ok (VDict c, claims)) ∧
    plan_ok c requested items profile_binding d.
Proof.
  intros Hi Hp. unfold connection_plan in Hp. apply bind_Ok_inv in Hp as ([] & _ & Hp).
  apply bind_Ok_inv in Hp as (c & Hc & Hp). apply bind_Ok_inv in Hp as (creds & _ & Hp).
  apply bind_Ok_inv in Hp as (c' & Ha & Hp). destruct (validate_input _ _ _ _ _ Hi Hc) as (w & tok & Hw).
  destruct (context_fixpoint _ _ _ _ _ _ Hw) as (Hfix & _).
  assert (context_input (VDict c)) as Hi' by (left; by eapply validated_json_ok).
  destruct (admit_Ok _ _ _ _ _ _ _ _ Hi' Ha) as [Hv Hadm]. rewrite Hfix in Hv. injection Hv as <-.
  apply bind_Ok_inv in Hp as (requested & Hq & Hp). apply bind_Ok_inv in Hp as (routes & Hrt%as_list_Ok & Hp).
  apply bind_Ok_inv in Hp as (kinds & Hk & Hp). apply bind_Ok_inv in Hp as (res & _ & Hp).
  apply bind_Ok_inv in Hp as (found & _ & Hp). apply bind_Ok_inv in Hp as (cands & _ & Hp).
  apply bind_Ok_inv in Hp as (descriptor & Hb & Hp). apply (check_binding_Ok _ _ _ _ Hfix) in Hb.
  apply bind_Ok_inv in Hp as (profile & Hpr & Hp). apply bind_Ok_inv in Hp as ([] & _ & Hp).
  apply bind_Ok_inv in Hp as ([] & Hone%raise_if_Ok & Hp). apply Z.ltb_ge in Hone.
  apply bind_Ok_inv in Hp as (pools & _ & Hp). apply bind_Ok_inv in Hp as (b & Hbd & Hp).
  apply bind_Ok_inv in Hp as ([] & Hcp & Hp). apply bind_Ok_inv in Hp as (declared & Hd%as_list_Ok & Hp).
  apply bind_Ok_inv in Hp as (digest & _ & Hp).
  exists c, requested. split; [done|]. split; [done|]. split.
  { destruct Hadm as (token & claims & ? & ?). by eexists _, token, claims. }
  destruct (route_boundaries_Ok _ _ Hk) as [Hkr Hrk].
  exists descriptor, b. split; [done|].
  assert (d = plan_document source requested digest (match role with Some (r :: s) => VStr (r :: s) | _ => vget_none c "role" end)
    binding profile_binding runtime b (concat pools) declared (vget_none creds "public6_invitation")) as -> by (by injection Hp).
  unfold plan_document. doc_lookup. split_and!; try done.
  - intros Er. destruct (observed_boundary_Ok _ _ _ _ _ _ Hbd) as [[Hn _]|(_ & e & decl & Ee & Eb & _)]; [by rewrite Er in Hn|].
    by exists e.
  - intros Ht. exists declared. split; [done|]. destruct (observed_boundary_Ok _ _ _ _ _ _ Hbd) as [[_ ->]|(_ & e & decl & _ & _ & Hd' & Hm & _)].
    + destruct kinds as [|k kinds']; [done|]. destruct (Hkr k ltac:(by left)) as (r & Hr & Eb & Htr).
      destruct (bd_routes _ _ _ _ Hb r) as (decl & Hd' & Hm); [by exists routes|by rewrite Eb|].
      rewrite Hd in Hd'. injection Hd' as <-. by rewrite Eb in Hm.
    + rewrite Hd in Hd'. by injection Hd' as <-.
  - intros r (rs & Ers & Hr) Ht. rewrite Hrt in Ers. injection Ers as <-. destruct (Hrk r Hr Ht) as (k & Ek & Hin).
    destruct kinds as [|k' [|]]; [set_solver| |unfold zlen in Hone; simpl in Hone; lia].
    apply list_elem_of_singleton in Hin as <-. rewrite Ek.
    destruct (observed_boundary_Ok _ _ _ _ _ _ Hbd) as [[_ ->]|(_ & e & decl & _ & _ & _ & _ & _ & Hob)].
    + simpl. by apply bool_decide_true.
    + apply Hob. by rewrite <- Ek.
  - intros Hn. assert (∃ p, profile = Some p ∧ validate_profile_binding profile_binding requested true = Ok p) as (p & -> & Hvp).
    { destruct profile_binding; [done|..]; apply bind_Ok_inv in Hpr as (p & Hvp & [= <-]); eauto. }
    unfold check_profile in Hcp. apply bind_Ok_inv in Hcp as (contract & Hct%as_dict_Ok & Hcp).
    apply bind_Ok_inv in Hcp as ([] & Hkd%raise_if_Ok & _). exists p, contract. split_and!; try done.
    intros Hne. destruct b; try done; simpl in Hkd; by apply negb_false_iff in Hkd.
Qed.
End Facts.
