(* ===== verification/Sessions.v ===== *)
(** * Local application sessions

    [Deployment/connection_plan.py]: which session a plan opens, and the two
    sessions with their lifetime and byte budgets.  The clock is an argument;
    so is what the kernel does with a record - whether it takes it, and what it
    hands over.  A session is modelled from the moment its socket is connected. *)
From Stdlib Require Import QArith.
From S2P Require Import Prelude Dict PyStr PyText PyValue NativeProfiles.
#[local] Open Scope Z_scope.

(** ** Which session *)
Inductive session_kind := StreamSession | MessageSession.

Definition open_local_session (plan : pyval) : result session_kind :=
  match plan with
  | VDict p =>
      let provider := match vget_none p "applicationAdapter" with VDict a => vget_none a "provider" | _ => VNone end in
      _ ← raise_if (eq_str provider "s6na") ValueError "UnsupportedApplicationBoundary: credited provider required";
      profile ← match vget_none p "profileBinding" with
                | VNone => Ok None
                | b => s ← validate_profile_binding b (vget_none p "core") true; Ok (Some s)
                end;
      let boundary := vget_none p "applicationBoundary" in
      boundary ← match vget_none p "endpoint" with
                 | VDict e =>
                     let seen := vget_none e "boundary" in
                     if eq_str (vget_none p "readiness") "application-ready" && negb (is_none seen) then
                       _ ← raise_if (negb (is_none boundary) && negb (py_eqb boundary seen)) ValueError
                             "ProfileCapabilityMismatch: observed application boundary differs";
                       Ok seen
                     else Ok boundary
                 | _ => Ok boundary
                 end;
      boundary ← match profile with
                 | Some s =>
                     contract ← as_dict (vget_none s "applicationBoundary");
                     let expected := vget_none contract "kind" in
                     _ ← raise_if (negb (is_none boundary) && negb (py_eqb boundary expected)) ValueError
                           "ProfileCapabilityMismatch: application boundary differs from ProfileBinding";
                     Ok expected
                 | None => Ok boundary
                 end;
      boundary ← match vget_none p "applicationAdapter" with
                 | VDict a =>
                     if eq_str provider "native" then
                       let declared := vget_none a "boundary" in
                       _ ← raise_if (negb (is_none boundary) && negb (py_eqb declared boundary)) ValueError
                             "ProfileCapabilityMismatch: native adapter boundary differs";
                       Ok (if is_none boundary then declared else boundary)
                     else Ok boundary
                 | _ => Ok boundary
                 end;
      if eq_str boundary "message" then Ok MessageSession
      else if eq_str boundary "stream" then Ok StreamSession
      else if eq_str boundary "credited" then raise ValueError "UnsupportedApplicationBoundary: credited provider required"
      else if negb (eq_str (vget_none p "readiness") "application-ready")
      then raise ValueError "capability unavailable: application endpoint is not ready"
      else raise ValueError "UnsupportedApplicationBoundary: no locked local application boundary"
  | _ => raise ValueError "UnsupportedApplicationBoundary: connection plan required"
  end.

(** ** The byte stream *)
Definition LIFETIME : Q := 300.
Definition BUDGET : Z := 16 * 1024 * 1024.

Record stream_session := Stream { ss_deadline : Q; ss_remaining : Z; ss_open : bool }.

Definition open_stream (now : Q) : stream_session := Stream (now + LIFETIME)%Q BUDGET true.

Definition close_stream (s : stream_session) : stream_session := Stream (ss_deadline s) (ss_remaining s) false.

Definition stream_budget (now : Q) (size : Z) : M stream_session unit := λ s,
  if Qle_bool (ss_deadline s) now || (ss_remaining s <? size)
  then (raise ValueError "local session lifetime/byte budget exhausted", close_stream s)
  else (Ok tt, Stream (ss_deadline s) (ss_remaining s - size) (ss_open s)).

(** [socket.sendall] and [socket.recv] on a closed socket raise. *)
Definition stream_socket : M stream_session unit := λ s,
  if ss_open s then (Ok tt, s) else (raise OSError "Bad file descriptor", s).

(** The bytes that [send] writes to the socket. *)
Definition send_stream (now : Q) (data : bytes) : M stream_session bytes :=
  _ ← stream_budget now (zlen data);
  _ ← stream_socket;
  mret data.

(** [incoming] is what has arrived at the socket; [later] is the time when
    [recv] returns. *)
Definition receive_stream (now later : Q) (size : Z) (incoming : bytes) : M stream_session bytes :=
  _ ← mraise_if (negb (between 1 size 65536)) ValueError "invalid receive bound";
  _ ← stream_budget now 0;
  _ ← stream_socket;
  n ← mget (λ s, Z.min size (if ss_remaining s =? 0 then 1 else ss_remaining s));
  let data := take (Z.to_nat n) incoming in
  _ ← stream_budget later (zlen data);
  mret data.

(** ** Application records *)
Record message_session := Messages {
  ms_max_record : Z; ms_seqpacket : bool; ms_eof : bool; ms_write_closed : bool;
  ms_deadline : Q; ms_remaining : Z; ms_open : bool }.

(** [effective] is the limit of the plan, [max_record] the profile's. *)
Definition open_messages (now : Q) (max_record : Z) (effective : pyval) (seqpacket : bool) : result message_session :=
  match effective with
  | VInt n =>
      _ ← raise_if (negb (between 1 n max_record)) ValueError "InvalidApplicationRecordLimit";
      Ok (Messages n seqpacket false false (now + LIFETIME)%Q BUDGET true)
  | _ => raise ValueError "InvalidApplicationRecordLimit"
  end.

Definition close_messages (s : message_session) : message_session :=
  Messages (ms_max_record s) (ms_seqpacket s) (ms_eof s) (ms_write_closed s) (ms_deadline s) (ms_remaining s) false.
Definition spend (n : Z) (s : message_session) : message_session :=
  Messages (ms_max_record s) (ms_seqpacket s) (ms_eof s) (ms_write_closed s) (ms_deadline s) (ms_remaining s - n) (ms_open s).
Definition write_closed (s : message_session) : message_session :=
  Messages (ms_max_record s) (ms_seqpacket s) (ms_eof s) true (ms_deadline s) (ms_remaining s) (ms_open s).
Definition reached_eof (s : message_session) : message_session :=
  Messages (ms_max_record s) (ms_seqpacket s) true (ms_write_closed s) (ms_deadline s) (ms_remaining s) (ms_open s).

Definition message_budget (now : Q) (count : Z) : M message_session unit := λ s,
  if Qle_bool (ms_deadline s) now || (ms_remaining s <? count)
  then (raise ValueError "ApplicationSessionBudgetExhausted", close_messages s) else (Ok tt, s).

(** A closed session has no socket. *)
Definition message_socket : M message_session unit := λ s,
  if ms_open s then (Ok tt, s) else (raise AttributeError "send", s).

Definition finish (now : Q) : M message_session (list bytes) :=
  seqpacket ← mget ms_seqpacket;
  _ ← mraise_if (negb seqpacket) ValueError "UnsupportedApplicationEOF: best-effort datagram boundary";
  closed ← mget ms_write_closed;
  if closed : bool then mret [] else
  _ ← message_budget now 0;
  _ ← message_socket;
  _ ← mmod write_closed;
  mret [[]].

(** [taken] is the number of bytes the kernel took, [None] if it would block.
    The result lists the records put on the socket. *)
Definition send_record (now : Q) (data : bytes) (taken : option Z) : M message_session (list bytes) :=
  limit ← mget ms_max_record;
  _ ← mraise_if (limit <? zlen data) ValueError "OversizedApplicationRecord";
  closed ← mget ms_write_closed;
  _ ← mraise_if closed ValueError "ApplicationWriteClosed";
  _ ← message_budget now (zlen data);
  seqpacket ← mget ms_seqpacket;
  if seqpacket && bool_decide (data = []) then finish now else
  _ ← message_socket;
  match taken with
  | None => mraise BlockingIOError "ApplicationBackpressure"
  | Some count =>
      _ ← mraise_if (negb (count =? zlen data)) ValueError "ApplicationRecordPartialSend";
      _ ← mmod (spend count);
      mret [data]
  end.

(** [record] is the record at the socket, [truncated] the kernel's flag. *)
Definition receive_record (now later : Q) (record : bytes) (truncated : bool) : M message_session bytes :=
  _ ← message_budget now 0;
  _ ← message_socket;
  limit ← mget ms_max_record;
  _ ← mraise_if (truncated || (limit <? zlen record)) ValueError "OversizedApplicationRecord";
  _ ← message_budget later (zlen record);
  _ ← mmod (spend (zlen record));
  seqpacket ← mget ms_seqpacket;
  _ ← (if seqpacket && bool_decide (record = []) then mmod reached_eof else mret tt);
  mret record.
