(* ===== verification/SessionFacts.v ===== *)
(** * Local sessions: budgets along every run *)
From Stdlib Require Import QArith.
From S2P Require Import Prelude Dict PyStr PyText PyValue NativeProfiles Sessions.
#[local] Open Scope Z_scope.

(** ** The byte stream *)
Inductive stream_op := SSend (now : Q) (data : bytes) | SReceive (now later : Q) (size : Z) (incoming : bytes) | SClose.

Definition stream_step (o : stream_op) (s : stream_session) : result bytes * stream_session :=
  match o with
  | SSend now data => send_stream now data s
  | SReceive now later size incoming => receive_stream now later size incoming s
  | SClose => (Ok [], close_stream s)
  end.

Definition moved (r : result bytes) : Z := match r with Ok b => zlen b | Raise _ => 0 end.
Definition starts (o : stream_op) : option Q :=
  match o with SSend now _ | SReceive now _ _ _ => Some now | SClose => None end.

(** The bytes a run transfers, and where it ends. *)
Fixpoint run_stream (ops : list stream_op) (s : stream_session) : Z * stream_session :=
  match ops with
  | [] => (0, s)
  | o :: ops => let '(r, s1) := stream_step o s in let '(n, s2) := run_stream ops s1 in (moved r + n, s2)
  end.

Definition stream_next (s s' : stream_session) (r : result bytes) : Prop :=
  0 ≤ ss_remaining s' ∧ moved r ≤ ss_remaining s - ss_remaining s' ∧ ss_deadline s' = ss_deadline s ∧
  (ss_open s = false → ss_open s' = false ∧ moved r = 0).

Lemma stream_budget_cases now size s r s' :
  stream_budget now size s = (r, s') →
  (r = Ok tt ∧ s' = Stream (ss_deadline s) (ss_remaining s - size) (ss_open s) ∧ Qle_bool (ss_deadline s) now = false ∧ size ≤ ss_remaining s) ∨
  (∃ e, r = Raise e) ∧ s' = close_stream s.
Proof.
  unfold stream_budget. destruct (Qle_bool (ss_deadline s) now) eqn:E1; simpl; [intros [= <- <-]; right; eauto|].
  destruct (Z.ltb_spec (ss_remaining s) size); intros [= <- <-]; [right; eauto|left; done].
Qed.

Lemma send_stream_next now data s r s' :
  0 ≤ ss_remaining s → send_stream now data s = (r, s') →
  stream_next s s' r ∧ (moved r ≠ 0 → Qle_bool (ss_deadline s) now = false).
Proof.
  intros H0 H. unfold send_stream in H. pose proof (zlen_nonneg data) as Hd. unfold stream_next.
  destruct (M_bind_inv _ _ _ _ _ H) as [([] & s1 & Hb & H1)|(e & Hb & ->)]; clear H.
  - destruct (stream_budget_cases _ _ _ _ _ Hb) as [(_ & -> & Hl & Hs)|[[e He] _]]; [|done].
    unfold mbind, M_bind, stream_socket in H1. destruct s as [dl rem []]; simpl in *; injection H1 as <- <-; simpl;
      split; try done; split_and!; try done; lia.
  - destruct (stream_budget_cases _ _ _ _ _ Hb) as [(He & _)|[_ ->]]; [done|]. simpl. split; [|done]. split_and!; try done; lia.
Qed.

Lemma receive_stream_next now later size incoming s r s' :
  0 ≤ ss_remaining s → receive_stream now later size incoming s = (r, s') →
  stream_next s s' r ∧ (moved r ≠ 0 → Qle_bool (ss_deadline s) now = false).
Proof.
  intros H0 H. unfold receive_stream in H. destruct (M_lift_inv _ _ _ _ _ H) as [([] & _ & H1)|(-> & e & _ & ->)]; clear H.
  2: { split; [|done]. unfold stream_next. simpl. split_and!; try done; lia. }
  destruct (M_bind_inv _ _ _ _ _ H1) as [([] & s1 & Hb & H2)|(e & Hb & ->)]; clear H1.
  2: { destruct (stream_budget_cases _ _ _ _ _ Hb) as [(He & _)|[_ ->]]; [done|]. split; [|done]. unfold stream_next. simpl.
       split_and!; try done; lia. }
  destruct (stream_budget_cases _ _ _ _ _ Hb) as [(_ & -> & Hl & _)|[[e He] _]]; [|done].
  rewrite Z.sub_0_r in H2. destruct s as [dl rem open]; simpl in *.
  unfold mbind at 1, M_bind at 1, stream_socket in H2. simpl in H2. destruct open.
  2: { injection H2 as <- <-. split; [|done]. unfold stream_next. simpl. split_and!; try done; lia. }
  rewrite M_get_bind in H2. set (data := take _ incoming) in H2.
  destruct (M_bind_inv _ _ _ _ _ H2) as [([] & s2 & Hb2 & H3)|(e & Hb2 & ->)]; clear H2.
  - destruct (stream_budget_cases _ _ _ _ _ Hb2) as [(_ & -> & Hl2 & Hs)|[[e He] _]]; [|done]. simpl in Hs.
    injection H3 as <- <-. split; [|done]. unfold stream_next. simpl. split_and!; try done; lia.
  - destruct (stream_budget_cases _ _ _ _ _ Hb2) as [(He & _)|[_ ->]]; [done|]. split; [|done]. unfold stream_next. simpl.
    split_and!; try done; lia.
Qed.

Lemma stream_step_next o s r s' :
  0 ≤ ss_remaining s → stream_step o s = (r, s') →
  stream_next s s' r ∧ (moved r ≠ 0 → ∃ now, starts o = Some now ∧ Qle_bool (ss_deadline s) now = false).
Proof.
  intros H0 H. destruct o as [now data|now later size incoming|]; simpl in H.
  - destruct (send_stream_next _ _ _ _ _ H0 H) as [? Ht]. split; [done|]. intros Hm. exists now. auto.
  - destruct (receive_stream_next _ _ _ _ _ _ _ H0 H) as [? Ht]. split; [done|]. intros Hm. exists now. auto.
  - injection H as <- <-. split; [|done]. unfold stream_next, moved, zlen. simpl. split_and!; try done; lia.
Qed.

Lemma run_stream_budget ops s n s' :
  0 ≤ ss_remaining s → run_stream ops s = (n, s') →
  0 ≤ ss_remaining s' ∧ n ≤ ss_remaining s - ss_remaining s' ∧ ss_deadline s' = ss_deadline s ∧ (ss_open s = false → n = 0).
Proof.
  revert s n. induction ops as [|o ops IH]; intros s n H0 H; simpl in H; [injection H as <- <-; split_and!; try done; lia|].
  destruct (stream_step o s) as [r s1] eqn:E1. destruct (run_stream ops s1) as [n2 s2] eqn:E2. injection H as <- <-.
  destruct (stream_step_next _ _ _ _ H0 E1) as [(H1 & Hm & Hd & Hc) _].
  destruct (IH _ _ H1 E2) as (H2 & Hn & Hd2 & Hc2). split_and!; [done|lia|congruence|].
  intros Hs. destruct (Hc Hs) as [Hs1 ->]. rewrite (Hc2 Hs1). lia.
Qed.

(** ** Application records *)
Inductive message_op :=
| MSend (now : Q) (data : bytes) (taken : option Z)
| MReceive (now later : Q) (record : bytes) (truncated : bool)
| MFinish (now : Q)
| MClose.

(** The records an operation puts on the socket and those it hands over. *)
Definition message_step (o : message_op) (s : message_session) : (list bytes * list bytes) * message_session :=
  match o with
  | MSend now data taken => match send_record now data taken s with (Ok l, s') => ((l, []), s') | (Raise _, s') => (([], []), s') end
  | MReceive now later record truncated =>
      match receive_record now later record truncated s with (Ok b, s') => (([], [b]), s') | (Raise _, s') => (([], []), s') end
  | MFinish now => match finish now s with (Ok l, s') => ((l, []), s') | (Raise _, s') => (([], []), s') end
  | MClose => (([], []), close_messages s)
  end.

Fixpoint run_messages (ops : list message_op) (s : message_session) : (list bytes * list bytes) * message_session :=
  match ops with
  | [] => (([], []), s)
  | o :: ops =>
      let '((out, inc), s1) := message_step o s in
      let '((out', inc'), s2) := run_messages ops s1 in
      ((out ++ out', inc ++ inc'), s2)
  end.

Definition total (l : list bytes) : Z := foldr (λ b acc, zlen b + acc) 0 l.

Lemma total_app l k : total (l ++ k) = total l + total k.
Proof. induction l as [|b l IH]; simpl; lia. Qed.

(** What one operation may do to a session. *)
Record message_next (s s' : message_session) (out inc : list bytes) : Prop := {
  mn_static : ms_max_record s' = ms_max_record s ∧ ms_seqpacket s' = ms_seqpacket s ∧ ms_deadline s' = ms_deadline s;
  mn_budget : 0 ≤ ms_remaining s' ∧ total out + total inc = ms_remaining s - ms_remaining s';
  mn_records : Forall (λ b, zlen b ≤ ms_max_record s) out ∧ Forall (λ b, zlen b ≤ ms_max_record s) inc;
  mn_closed : ms_open s = false → ms_open s' = false ∧ out = [] ∧ inc = [];
  mn_eof : ms_seqpacket s = true →
    (ms_write_closed s' = ms_write_closed s ∧ Forall (λ b, b ≠ []) out ∧ (ms_write_closed s = true → out = [])) ∨
    (ms_write_closed s = false ∧ ms_write_closed s' = true ∧ out = [[]]) }.

Lemma message_next_refl s : 0 ≤ ms_remaining s → message_next s s [] [].
Proof. intros H0. split; try done; [simpl; lia|]. intros _. left. done. Qed.

Lemma message_next_close s : 0 ≤ ms_remaining s → message_next s (close_messages s) [] [].
Proof. intros H0. split; try done; [simpl; lia|]. intros _. left. done. Qed.

Lemma message_budget_cases now count s r s' :
  message_budget now count s = (r, s') →
  (r = Ok tt ∧ s' = s ∧ count ≤ ms_remaining s) ∨ (∃ e, r = Raise e) ∧ s' = close_messages s.
Proof.
  unfold message_budget. destruct (Qle_bool _ _); simpl; [intros [= <- <-]; right; eauto|].
  destruct (Z.ltb_spec (ms_remaining s) count); intros [= <- <-]; [right; eauto|left; done].
Qed.

Lemma message_socket_cases s r s' :
  message_socket s = (r, s') → s' = s ∧ (r = Ok tt ∧ ms_open s = true ∨ (∃ e, r = Raise e) ∧ ms_open s = false).
Proof. unfold message_socket. destruct (ms_open s); intros [= <- <-]; split; eauto. Qed.

Ltac message_budget_step H :=
  let Hb := fresh "Hb" in let H1 := fresh "Hn" in let Hle := fresh "Hle" in let E := fresh "E" in let e := fresh "e" in
  destruct (M_bind_inv _ _ _ _ _ H) as [([] & ? & Hb & H1)|(e & Hb & ->)]; clear H;
  [destruct (message_budget_cases _ _ _ _ _ Hb) as [(_ & -> & Hle)|[[e E] _]]; [rename H1 into H; clear Hb|done]
  |destruct (message_budget_cases _ _ _ _ _ Hb) as [(E & _)|[_ ->]]; [done|]].

Ltac message_socket_step H :=
  let Hb := fresh "Hb" in let H1 := fresh "Hn" in let Ho := fresh "Ho" in let E := fresh "E" in let e := fresh "e" in
  destruct (M_bind_inv _ _ _ _ _ H) as [([] & ? & Hb & H1)|(e & Hb & ->)]; clear H;
  [destruct (message_socket_cases _ _ _ Hb) as [-> [[_ Ho]|[[e E] _]]]; [rename H1 into H; clear Hb|done]
  |destruct (message_socket_cases _ _ _ Hb) as [-> [[E _]|[_ Ho]]]; [done|]].

Lemma finish_next now s r s' :
  0 ≤ ms_remaining s → 0 ≤ ms_max_record s → finish now s = (r, s') →
  message_next s s' (match r with Ok l => l | Raise _ => [] end) [].
Proof.
  intros H0 Hmax H. unfold finish in H. rewrite M_get_bind in H.
  destruct (M_lift_inv _ _ _ _ _ H) as [([] & Hseq%raise_if_Ok & H1)|(-> & e & _ & ->)]; clear H; [|by apply message_next_refl].
  rewrite M_get_bind in H1. destruct (ms_write_closed s) eqn:Ew; [injection H1 as <- <-; by apply message_next_refl|].
  message_budget_step H1; [|by apply message_next_close]. message_socket_step H1; [|by apply message_next_refl].
  injection H1 as <- <-. split; unfold total, zlen; simpl; try done.
  - lia.
  - split; [|done]. constructor; [cbn; lia|done].
  - congruence.
  - intros _. right. done.
Qed.

Lemma send_record_next now data taken s r s' :
  0 ≤ ms_remaining s → 0 ≤ ms_max_record s → send_record now data taken s = (r, s') →
  message_next s s' (match r with Ok l => l | Raise _ => [] end) [].
Proof.
  intros H0 Hmax H. unfold send_record in H. rewrite M_get_bind in H.
  destruct (M_lift_inv _ _ _ _ _ H) as [([] & Hl%raise_if_Ok & H1)|(-> & e & _ & ->)]; clear H; [|by apply message_next_refl].
  rewrite M_get_bind in H1.
  destruct (M_lift_inv _ _ _ _ _ H1) as [([] & Hw%raise_if_Ok & H2)|(-> & e & _ & ->)]; clear H1; [|by apply message_next_refl].
  message_budget_step H2; [|by apply message_next_close]. rewrite M_get_bind in H2.
  destruct (ms_seqpacket s && bool_decide (data = [])) eqn:Ef; [by eapply finish_next|].
  message_socket_step H2; [|by apply message_next_refl].
  destruct taken as [count|]; [|injection H2 as <- <-; by apply message_next_refl].
  destruct (M_lift_inv _ _ _ _ _ H2) as [([] & Hc%raise_if_Ok & H3)|(-> & e & _ & ->)]; clear H2; [|by apply message_next_refl].
  injection H3 as <- <-. bool_simpl. pose proof (zlen_nonneg data). subst count. split; simpl; try done.
  - lia.
  - split; [|done]. by constructor.
  - congruence.
  - intros Hq. left. rewrite Hq in Ef. simpl in Ef. apply bool_decide_eq_false in Ef. split; [done|]. split; [by repeat constructor|congruence].
Qed.

Lemma receive_record_next now later record truncated s r s' :
  0 ≤ ms_remaining s → receive_record now later record truncated s = (r, s') →
  message_next s s' [] (match r with Ok b => [b] | Raise _ => [] end).
Proof.
  intros H0 H. unfold receive_record in H. message_budget_step H; [|by apply message_next_close].
  message_socket_step H; [|by apply message_next_refl]. rewrite M_get_bind in H.
  destruct (M_lift_inv _ _ _ _ _ H) as [([] & Hl%raise_if_Ok & H1)|(-> & e & _ & ->)]; clear H; [|by apply message_next_refl].
  message_budget_step H1; [|by apply message_next_close]. apply orb_false_iff in Hl as [_ Hl]. apply Z.ltb_ge in Hl.
  pose proof (zlen_nonneg record). unfold mbind, M_bind, mmod, mget in H1. simpl in H1.
  destruct (ms_seqpacket s && bool_decide (record = [])); injection H1 as <- <-; split; simpl; try done; try lia;
    try (by repeat constructor); try congruence; intros _; by left.
Qed.

Lemma message_step_next o s out inc s' :
  0 ≤ ms_remaining s → 0 ≤ ms_max_record s → message_step o s = ((out, inc), s') → message_next s s' out inc.
Proof.
  intros H0 Hmax H. destruct o as [now data taken|now later record truncated|now|]; simpl in H.
  - destruct (send_record now data taken s) as [[l|e] s1] eqn:E; injection H as <- <- <-;
      by apply (send_record_next now data taken s _ s1 H0 Hmax) in E.
  - destruct (receive_record now later record truncated s) as [[l|e] s1] eqn:E; injection H as <- <- <-;
      by apply (receive_record_next now later record truncated s _ s1 H0) in E.
  - destruct (finish now s) as [[l|e] s1] eqn:E; injection H as <- <- <-; by apply (finish_next now s _ s1 H0 Hmax) in E.
  - injection H as <- <- <-. by apply message_next_close.
Qed.

(** Everything a run sends ends with at most one empty record, the end of
    stream, after which nothing follows. *)
Definition eof_last (closed : bool) (out : list bytes) : Prop :=
  ∃ l, Forall (λ b, b ≠ []) l ∧ out = l ++ (if closed then [[]] else []).

Lemma run_messages_stay_closed ops s out inc s' :
  0 ≤ ms_remaining s → 0 ≤ ms_max_record s → ms_seqpacket s = true → run_messages ops s = ((out, inc), s') →
  ms_write_closed s = true → ms_write_closed s' = true.
Proof.
  revert s out inc. induction ops as [|o ops IH]; intros s out inc H0 Hmax Hq H Hw; simpl in H; [by injection H as _ _ <-|].
  destruct (message_step o s) as [[o1 i1] s1] eqn:E1. destruct (run_messages ops s1) as [[o2 i2] s2] eqn:E2. injection H as _ _ <-.
  destruct (message_step_next _ _ _ _ _ H0 Hmax E1) as [(Em & Eq & _) [Hb _] _ _ He].
  eapply (IH s1); [done|congruence|congruence|done|]. destruct (He Hq) as [(-> & _)|(? & ? & _)]; congruence.
Qed.

Lemma run_messages_next ops s out inc s' :
  0 ≤ ms_remaining s → 0 ≤ ms_max_record s → run_messages ops s = ((out, inc), s') →
  0 ≤ ms_remaining s' ∧ total out + total inc = ms_remaining s - ms_remaining s' ∧
  Forall (λ b, zlen b ≤ ms_max_record s) out ∧ Forall (λ b, zlen b ≤ ms_max_record s) inc ∧
  (ms_open s = false → out = [] ∧ inc = []) ∧
  (ms_seqpacket s = true → ms_write_closed s = true → out = []) ∧
  (ms_seqpacket s = true → ms_write_closed s = false → eof_last (ms_write_closed s') out).
Proof.
  revert s out inc. induction ops as [|o ops IH]; intros s out inc H0 Hmax H; simpl in H.
  { injection H as <- <- <-. simpl. split_and!; try done; try lia. intros _ ->. by exists []. }
  destruct (message_step o s) as [[o1 i1] s1] eqn:E1. destruct (run_messages ops s1) as [[o2 i2] s2] eqn:E2. injection H as <- <- <-.
  destruct (message_step_next _ _ _ _ _ H0 Hmax E1) as [(Em & Eq & Ed) [Hb Ht] [Ho Hi] Hc He].
  destruct (IH s1 o2 i2) as (Hb2 & Ht2 & Ho2 & Hi2 & Hc2 & Hw2 & He2); [done|by rewrite Em|done|].
  rewrite Em in Ho2, Hi2. rewrite Eq in Hw2, He2. rewrite !total_app. split_and!; try (by apply Forall_app); try lia; try done.
  - intros Hs. destruct (Hc Hs) as (Hs1 & -> & ->). destruct (Hc2 Hs1) as [-> ->]. done.
  - intros Hq Hs. destruct (He Hq) as [(E & _ & Hn)|(E & _)]; [|congruence]. rewrite (Hn Hs), (Hw2 Hq); [done|congruence].
  - intros Hq Hs. destruct (He Hq) as [(E & Hne & _)|(_ & E & ->)].
    + destruct (He2 Hq ltac:(congruence)) as (l & Hl & ->). exists (o1 ++ l). split; [by apply Forall_app|by rewrite app_assoc].
    + rewrite (Hw2 Hq E), (run_messages_stay_closed ops s1 o2 i2 s2); try congruence. by exists [].
Qed.
