(* ===== verification/ServiceFacts.v ===== *)
(** * Named services: from the registry to an open session *)
From S2P Require Import Prelude Dict PyStr PyText PyValue Json JsonRound JsonDocs StrictJson Sha256 Signing Base64.
From S2P Require Import Net JoinCode AdmissionFacts BrokerSet NativeProfiles CoreCatalog.
From S2P Require Import Context ConfigStore ConnectionPlan PlanFacts Sessions.

(** ** Reading a document that was extended *)
Lemma vget_vset_eq d k v : vget_none (vset d k v) k = v.
Proof. unfold vget_none, vget, vset. by rewrite dget_dset_eq. Qed.
Lemma vget_vset_ne d k k' v : k' ≠ k → vget_none (vset d k v) k' = vget_none d k'.
Proof. intros Hk. unfold vget_none, vget, vset. rewrite dget_dset_ne; [done|]. by intros ->%(inj str). Qed.

Ltac doc_extended :=
  repeat (rewrite vget_vset_eq || rewrite vget_vset_ne by (intros E; discriminate E)).

(** ** Profile bindings name one profile *)
Lemma validate_binding_fun b c1 c2 p1 p2 :
  validate_profile_binding b c1 true = Ok p1 → validate_profile_binding b c2 true = Ok p2 → p1 = p2.
Proof.
  unfold validate_profile_binding. destruct b as [| | | | | |b]; try done. intros H1 H2.
  apply bind_Ok_inv in H1 as ([] & _ & H1). apply bind_Ok_inv in H1 as (s1 & Hs1 & H1). apply bind_Ok_inv in H1 as ([] & _ & H1).
  apply bind_Ok_inv in H1 as (d1 & _ & H1). apply bind_Ok_inv in H1 as ([] & _ & H1).
  apply bind_Ok_inv in H2 as ([] & _ & H2). apply bind_Ok_inv in H2 as (s2 & Hs2 & H2). apply bind_Ok_inv in H2 as ([] & _ & H2).
  apply bind_Ok_inv in H2 as (d2 & _ & H2). apply bind_Ok_inv in H2 as ([] & _ & H2). congruence.
Qed.

Lemma application_adapter_Ok p provider a :
  application_adapter (VDict p) provider = Ok a →
  vget_none a "provider" = VStr provider ∧
  ∃ contract kind, vget_none p "applicationBoundary" = VDict contract ∧ vget_none contract "kind" = txt kind ∧
    kind ∈ ["stream"; "message"]%string ∧ vget_none a "boundary" = txt kind.
Proof.
  unfold application_adapter. intros ([] & _ & H)%bind_Ok_inv. destruct (vget_none p "applicationBoundary") as [| | | | | |contract]; try done.
  apply bind_Ok_inv in H as (known & Hk & H). apply in_set_Ok in Hk as ->. apply bind_Ok_inv in H as ([] & Hk%raise_if_Ok & H).
  apply negb_false_iff, in_strs_spec in Hk as (kind & Hin & Ek).
  assert (a = mkdict (if bool_decide (provider = str "s6na")
    then [("provider", VStr provider); ("profile", vget_none p "id"); ("boundary", vget_none contract "kind");
          ("mode", txt "transparent-profile"); ("recordPreserving", VBool (eq_str (vget_none contract "kind") "message"))]
    else [("provider", VStr provider); ("profile", vget_none p "id"); ("boundary", vget_none contract "kind");
          ("mode", txt "profile-native")])%string) as -> by (by injection H).
  split; [by case_bool_decide; doc_lookup|]. exists contract, kind. split_and!; try done.
  case_bool_decide; doc_lookup; done.
Qed.

Section Facts.
Context (nfc nfkc lower : pystr → pystr) {Sg : Signing} (read : pystr → result bytes).

(** The fields that a named service adds to a plan. *)
Definition added : list string :=
  ["securityPolicyDigest"; "readinessEvidence"; "transportReadiness"; "effectiveLimits"; "applicationAdapter";
   "creditedBoundaryMaximum"; "capability"].

Lemma service_plan_Ok item material binding context pb plan d :
  service_plan nfc nfkc lower read item material binding context pb plan = Ok d →
  (∀ k, k ∉ added → vget_none d k = vget_none plan k) ∧
  ∃ core p a, validate_profile_binding pb core true = Ok p ∧
    application_adapter (VDict p) (str (if truthy (vget_none material "creditedAttachment") then "s6na" else "native")) = Ok a ∧
    vget_none d "applicationAdapter" = VDict a.
Proof.
  unfold service_plan. intros (path & _ & H)%bind_Ok_inv. apply bind_Ok_inv in H as (data & _ & H).
  apply bind_Ok_inv in H as (native & _ & H). apply bind_Ok_inv in H as (cid & _ & H). apply bind_Ok_inv in H as (policy & _ & H).
  apply bind_Ok_inv in H as (obs & _ & H). apply bind_Ok_inv in H as (core & _ & H). apply bind_Ok_inv in H as (p & Hp & H).
  apply bind_Ok_inv in H as (a & Ha & H). unfold added. destruct (truthy (vget_none material "creditedAttachment")).
  - apply bind_Ok_inv in H as (att & _ & H). apply bind_Ok_inv in H as (maxi & _ & H). apply bind_Ok_inv in H as (cap & _ & H).
    injection H as <-. split; [|exists core, p, a; by doc_extended].
    intros k Hk. rewrite !not_elem_of_cons in Hk. destruct Hk as (? & ? & ? & ? & ? & ? & ? & _). by rewrite !vget_vset_ne by done.
  - injection H as <-. split; [|exists core, p, a; by doc_extended].
    intros k Hk. rewrite !not_elem_of_cons in Hk. destruct Hk as (? & ? & ? & ? & ? & ? & ? & _). by rewrite !vget_vset_ne by done.
Qed.

Lemma resolve_service_Ok now pick items item material core binding runtime source adapter role pb d :
  context_input (vget_none item "protocolContext") →
  resolve_connection nfc nfkc lower read now pick items (Some (item, material)) VNone core binding runtime source adapter role pb = Ok d →
  ∃ bnd c requested plan p a,
    vget_none item "coreBinding" = VDict bnd ∧ requested_core core (VDict bnd) = Ok requested ∧
    validate_context nfc nfkc lower (vget_none item "protocolContext") = Ok c ∧
    plan_ok c requested items (vget_none item "profileBinding") plan ∧
    validate_profile_binding (vget_none item "profileBinding") requested true = Ok p ∧
    application_adapter (VDict p) (str (if truthy (vget_none material "creditedAttachment") then "s6na" else "native")) = Ok a ∧
    vget_none d "applicationAdapter" = VDict a ∧ (∀ k, k ∉ added → vget_none d k = vget_none plan k).
Proof.
  intros Hi H. unfold resolve_connection in H. apply bind_Ok_inv in H as ([] & _ & H).
  apply bind_Ok_inv in H as (ctx & Hctx%field_Ok & H). apply bind_Ok_inv in H as (bnd & Hb & H).
  apply bind_Ok_inv in Hb as (bv & Hb%field_Ok & Hbd%as_dict_Ok). subst bv.
  apply bind_Ok_inv in H as (rt & _ & H). apply bind_Ok_inv in H as (bound & _ & H). apply bind_Ok_inv in H as (p0 & Hp0 & H).
  apply bind_Ok_inv in H as ([] & _ & H). apply bind_Ok_inv in H as (dep & _ & H). apply bind_Ok_inv in H as ([] & _ & H).
  apply bind_Ok_inv in H as ([] & _ & H). apply bind_Ok_inv in H as (plan & Hplan & H).
  assert (vget_none item "protocolContext" = ctx) as Ec by (unfold vget_none; by rewrite Hctx).
  assert (vget_none item "coreBinding" = VDict bnd) as Eb by (unfold vget_none; by rewrite Hb).
  rewrite Ec in *. apply connection_plan_Ok in Hplan as (c & requested & Hc & Hr & _ & Hok); [|done].
  apply service_plan_Ok in H as (Hkeep & core' & p & a & Hp & Ha & Had).
  assert (vget_none item "profileBinding" ≠ VNone) as Hn by (intros E; by rewrite E in Hp).
  destruct Hok as (desc & b & H1 & H2 & H3 & H4 & H5 & H6 & H7 & H8 & H9). destruct (H9 Hn) as (p1 & contract & Hp1 & H10).
  pose proof (validate_binding_fun _ _ _ _ _ Hp Hp1) as ->.
  exists bnd, c, requested, plan, p1, a. split_and!; try done. exists desc, b. split_and!; try done.
Qed.

(** A plan with a native adapter opens the session of its profile; one with a
    credited attachment opens none. *)
Lemma service_session now pick items item material core binding runtime source adapter role pb d :
  context_input (vget_none item "protocolContext") →
  resolve_connection nfc nfkc lower read now pick items (Some (item, material)) VNone core binding runtime source adapter role pb = Ok d →
  if truthy (vget_none material "creditedAttachment")
  then open_local_session (VDict d) = raise ValueError "UnsupportedApplicationBoundary: credited provider required"
  else ∃ p contract kind, validate_profile_binding (vget_none item "profileBinding") (vget_none d "core") true = Ok p ∧
    vget_none p "applicationBoundary" = VDict contract ∧ vget_none contract "kind" = txt kind ∧
    open_local_session (VDict d) = Ok (if bool_decide (kind = "message"%string) then MessageSession else StreamSession).
Proof.
  intros Hi H. apply resolve_service_Ok in H as (bnd & c & requested & plan & p & a & _ & _ & _ & Hok & Hp & Ha & Had & Hkeep); [|done].
  destruct (application_adapter_Ok _ _ _ Ha) as (Hprov & contract & kind & Hcon & Hkind & Hin & Hbd).
  assert (∀ k, bool_decide (k ∉ added) = true → vget_none d k = vget_none plan k) as Hget
    by (intros k Hk%bool_decide_eq_true; by apply Hkeep).
  unfold open_local_session. rewrite Had, Hprov. destruct (truthy (vget_none material "creditedAttachment")); [reflexivity|].
  change (eq_str (VStr (str "native")) "s6na") with false. cbn [raise_if mbind result_bind].
  destruct Hok as (desc & b & _ & Ecore & Ebound & _ & Epb & Eready & _ & _ & Hprof).
  assert (vget_none item "profileBinding" ≠ VNone) as Hn by (intros E; by rewrite E in Hp).
  destruct (Hprof Hn) as (p' & contract' & Hp' & Hcon' & Hb). rewrite Hp in Hp'. injection Hp' as <-. rewrite Hcon in Hcon'. injection Hcon' as <-.
  assert (b = VNone ∨ b = txt kind) as Hbk.
  { destruct (decide (b = VNone)) as [->|Hne]; [by left|right]. specialize (Hb Hne). rewrite Hkind in Hb. destruct b; try done.
    simpl in Hb. apply bool_decide_eq_true in Hb. by subst. }
  rewrite !(Hget "profileBinding"), !(Hget "applicationBoundary"), !(Hget "endpoint"), !(Hget "readiness"), !(Hget "core") by reflexivity.
  rewrite Epb, Ecore, Ebound. exists p, contract, kind. split_and!; try done.
  assert (match vget_none item "profileBinding" with VNone => Ok None
          | v => s ← validate_profile_binding v requested true; Ok (Some s) end = Ok (Some p)) as ->.
  { destruct (vget_none item "profileBinding"); try done; rewrite Hp; done. }
  cbn [mbind result_bind].
  assert (py_eqb (txt kind) (txt kind) = true) as Erefl by (simpl; by apply bool_decide_true).
  set (step := match vget_none plan "endpoint" with VDict _ => _ | _ => _ end).
  assert (step = Ok b) as ->.
  { unfold step. destruct (vget_none plan "endpoint") as [| | | | | |e] eqn:Ee; try done.
    destruct (eq_str (vget_none plan "readiness") "application-ready") eqn:Er; [|done]. apply eq_str_spec in Er.
    destruct (Eready Er) as (e' & [= <-] & <-). destruct Hbk as [->| ->]; [done|]. cbn [is_none negb andb txt].
    by rewrite Erefl. }
  cbn [mbind result_bind]. rewrite Hcon. cbn [as_dict mbind result_bind]. rewrite Hkind.
  assert (negb (is_none b) && negb (py_eqb b (txt kind)) = false) as -> by (destruct Hbk as [->| ->]; [done|by rewrite Erefl]).
  cbn [raise_if mbind result_bind]. change (eq_str (VStr (str "native")) "native") with true.
  cbv iota. rewrite Hbd, Erefl. cbn [negb andb is_none txt raise_if mbind result_bind].
  apply elem_of_cons in Hin as [->|Hin]; [reflexivity|]. apply list_elem_of_singleton in Hin as ->. reflexivity.
Qed.
End Facts.
