(* ===== verification/BrokerClaims.v ===== *)
(** * Topologies, BrokerSets, compositions and the Core catalog: what they promise *)
From S2P Require Import Prelude Dict PyStr PyText PyValue Json StrictJson Net BrokerSet.
From S2P Require Import NativeProfiles CoreCatalog Composition.

(** ** Native topologies *)

(** A topology is accepted exactly when it has 1 to 256 nodes that all bind
    the same Core engine in a known role, and that engine is the one asked for;
    the answer never claims a translation between engines. *)
Theorem topology_spec l engine d :
  check_topology (VList l) engine = Ok d ↔
  ∃ e, 1 ≤ zlen l ≤ 256 ∧ Forall (binds e) l ∧ (engine ≠ VNone → engine_id engine = Ok e) ∧
    d = mkdict [("schema", txt "shadow6.topology-compatibility.v1"); ("engine", VStr e); ("nativeTranslation", VBool false)]%string.
Proof. apply check_topology_spec. Qed.

(** ** BrokerSets *)
Definition demo_trust : pystr := replicate 64 97.
Definition demo_member (endpoint : string) (priority : Z) : pyval := VDict (mkdict
  [("identity", txt "broker"); ("endpoint", txt endpoint); ("public_key", VStr demo_trust); ("priority", VInt priority)]%string).
Definition demo_pool (policy : string) : pyval := VDict (mkdict
  [("kind", txt "broker_set"); ("id", txt "edge"); ("policy", txt policy);
   ("members", VList [demo_member "tcp://10.0.0.1:9000" 5; demo_member "tcp://10.0.0.2:9000" 1])]%string).
Definition demo_health : pydict := mkdict [("tcp://10.0.0.2:9000", txt "unavailable")]%string.
Definition demo_choice : pydict := Eval vm_compute in
  match realize id id (demo_pool "priority") (str "broker-set-selector") demo_health 0 0 with Ok d => d | Raise _ => [] end.

(** The Broker that a realization selects is a member of the validated set
    that was not observed unavailable; under the priority policy no other usable
    member comes before it; several Brokers need an adapter that can select, and
    a Gate needs one trust key for all of them. *)
Theorem broker_choice_sound nfkc lower route adapter obs cursor pick d :
  realize nfkc lower route adapter obs cursor pick = Ok d →
  ∃ r ms chosen, route = VDict r ∧ broker_route_ok nfkc lower r ms ∧ vget_none d "selected" = VDict chosen ∧
    chosen ∈ ms ∧ observed obs chosen ≠ txt "unavailable" ∧
    (vget_none r "policy" = txt "priority" →
       ∀ m, m ∈ ms → is_usable obs m = true → member_priority chosen ≤ member_priority m) ∧
    (1 < zlen ms → adapter ∈ [str "gate"; str "broker-set-selector"]) ∧
    (adapter = str "gate" → ∃ k, hex_lower 64 k = true ∧ ∀ m, m ∈ ms → vget_none m "public_key" = VStr k).
Proof.
  intros (r & ms & chosen & -> & Hro & _ & Hc & Hmany & Hgate & ->)%realize_Ok.
  apply choose_spec in Hc as [Hin Hmin]. apply list_elem_of_filter in Hin as [Hu Hin].
  exists r, ms, chosen. split_and!; try done.
  - intros E. unfold is_usable in Hu. rewrite E in Hu. done.
  - intros Hp m Hm Hum. apply Hmin; [done|]. apply list_elem_of_filter. by rewrite Hum.
  - intros Hlen. specialize (Hmany Hlen). unfold str_in in Hmany. simpl in Hmany. rewrite orb_false_r in Hmany.
    apply orb_true_iff in Hmany as [->%bool_decide_eq_true| ->%bool_decide_eq_true]; set_solver.
  - intros Hg. destruct (Hgate Hg) as [Hs _]. by apply (shared_key_spec _ _ _ Hs (bo_valid _ _ _ _ Hro)).
Qed.

Lemma broker_choice_sound_witness :
  ∃ chosen, vget_none demo_choice "selected" = VDict chosen ∧ observed demo_health chosen ≠ txt "unavailable".
Proof.
  destruct (broker_choice_sound id id (demo_pool "priority") (str "broker-set-selector") demo_health 0 0 demo_choice)
    as (r & ms & chosen & _ & _ & Hs & _ & Ho & _); [vm_compute; reflexivity|].
  exact (ex_intro _ chosen (conj Hs Ho)).
Defined.

(** Over as many consecutive cursors as there are usable members, the
    round-robin policy selects every one of them exactly once. *)
Theorem round_robin_fair c pick us :
  us ≠ [] → (λ i, choose (txt "round_robin") (c + i) pick us) <$> seqZ 0 (zlen us) ≡ₚ Some <$> us.
Proof. apply round_robin_permutes. Qed.

Definition demo_usable : list pydict := [mkdict [("identity", txt "a")]; mkdict [("identity", txt "b")]]%string.
Lemma round_robin_fair_witness :
  (λ i, choose (txt "round_robin") (7 + i) 0 demo_usable) <$> seqZ 0 (zlen demo_usable) ≡ₚ Some <$> demo_usable.
Proof. apply (round_robin_fair 7 0 demo_usable). discriminate. Defined.

(** A BrokerSet realized by a Gate cannot be bypassed or widened: the one
    broker endpoint of the native configuration is the Gate's private listener,
    the Gate is enabled, pins exactly the set's trust key, and every member is
    an address of one transport and one port under that key. *)
Theorem gate_set_pinned nfkc lower private_dir context native g pick d :
  broker_realization nfkc lower private_dir context native (Some g) pick = Ok d →
  vget_none d "adapter" = txt "gate" →
  ∃ t local r ms k p s, collect native = Ok [t] ∧
    listener_text (vget_none g "listen_host") (vget_none g "listen_port") = Ok local ∧
    private_endpoint nfkc lower private_dir (VStr local) = Ok true ∧
    same_endpoint nfkc lower (VStr t) (VStr local) = Ok true ∧ vget_none g "enabled" = VBool true ∧
    broker_route_ok nfkc lower r ms ∧ Forall (gate_member nfkc lower p k s) ms ∧
    py_eqb (vget_none g "peer_public_keys") (VList [VStr k]) = true.
Proof. apply broker_realization_gate. Qed.

Definition demo_patch : pydict := Eval vm_compute in
  match gate_patch id id (demo_pool "round_robin") false with Ok d => d | Raise _ => [] end.
Definition demo_gate_client : pydict :=
  mkdict [("enabled", VBool true); ("role", txt "client"); ("listen_host", txt "127.0.0.1"); ("listen_port", VInt 7000)]%string
  ++ demo_patch.
Definition demo_context : pydict := mkdict [("routes", VList [demo_pool "round_robin"])]%string.
Definition demo_native : pyval := VDict (mkdict [("broker_addr", txt "127.0.0.1:7000")]%string).
Definition demo_realization : pydict := Eval vm_compute in
  match broker_realization id id (λ _, false) demo_context demo_native (Some demo_gate_client) 0 with Ok d => d | Raise _ => [] end.

Lemma gate_set_pinned_witness :
  ∃ k, py_eqb (vget_none demo_gate_client "peer_public_keys") (VList [VStr k]) = true.
Proof.
  destruct (gate_set_pinned id id (λ _, false) demo_context demo_native demo_gate_client 0 demo_realization)
    as (t & local & r & ms & k & p & s & _ & _ & _ & _ & _ & _ & _ & Hk); [vm_compute; reflexivity|reflexivity|].
  exact (ex_intro _ k Hk).
Defined.

(** ** Composition *)


Definition demo_epe : pydict := mkdict [("upstream", txt "tcp://127.0.0.1:7443"); ("listen", txt "tcp://0.0.0.0:443")]%string.
Definition demo_gate_server : pydict := mkdict
  [("enabled", VBool true); ("role", txt "server"); ("listen_host", txt "127.0.0.1"); ("listen_port", VInt 7443);
   ("protocol", VList [txt "tcp"]); ("upstream", txt "127.0.0.1:9000")]%string.
Definition demo_guard : pydict := mkdict
  [("anti_probe", VDict (mkdict [("enabled", VBool true); ("local_port", VInt 443)]))]%string.
Definition demo_layers : pydict := Eval vm_compute in
  match validate_composition id id (λ _, false) (txt "envelope") (Some demo_epe) (Some demo_gate_server) (Some demo_guard) with
  | Ok d => d | Raise _ => [] end.


(** ** The Core catalog *)

(** No import, accepted or refused, and no stored descriptor file changes
    the descriptor of a built-in Core. *)
Theorem builtins_protected nfc stored raw items r items1 r' items' core :
  _load_imported nfc stored items = (r, items1) → import_file nfc raw items1 = (r', items') → core ∈ CORE_IDS →
  item_get items' core = item_get items core.
Proof.
  intros Hl Hi Hc. rewrite (import_keeps _ _ _ _ _ _ Hi Hc). by eapply load_imported_keeps.
Qed.

Definition demo_installation : installation := Installation (str "/opt/shadow6") (str "Linux") (str "x86_64") true (λ _, None).
Definition demo_items : catalog := Eval vm_compute in
  match builtin_items demo_installation with Ok l => l | Raise _ => [] end.
Definition demo_descriptor (identity : pyval) : pyval := VDict (mkdict
  [("schema", txt DESCRIPTOR_SCHEMA); ("id", identity); ("displayName", txt "Custom"); ("implementation", VDict []);
   ("executable", txt "/opt/custom/core"); ("protocolFamily", txt "custom"); ("applicationBoundaries", txts ["stream"]);
   ("roles", txts ["client"]);
   ("configurationSchema", VDict (mkdict [("schema", txt CONFIG_SCHEMA); ("core", identity); ("fields", VList [])]))]%string).
Definition demo_raw (identity : pyval) : bytes := dumps default_opts (demo_descriptor identity).
Definition demo_import (identity : pyval) : result (pydict * bytes) * catalog := import_file id (demo_raw identity) demo_items.
Definition custom_import : result (pydict * bytes) * catalog := Eval vm_compute in demo_import (txt "custom").

Lemma builtins_protected_witness :
  is_ok custom_import.1 = true ∧ item_get custom_import.2 (txt "go") = item_get demo_items (txt "go").
Proof.
  split; [reflexivity|].
  refine (builtins_protected id None (demo_raw (txt "custom")) demo_items (Ok tt) demo_items custom_import.1 custom_import.2 (txt "go") _ _ _).
  - reflexivity.
  - vm_compute. reflexivity.
  - by apply (bool_decide_eq_true_1 _); vm_compute.
Defined.

(** The identity of a descriptor is matched as [str(id)] without checking
    its type: importing a descriptor with the number 7 as its identity succeeds,
    and from then on listing the catalog raises TypeError. *)
Theorem nonstring_identity_breaks_listing :
  is_ok (import_file id (demo_raw (VInt 7)) demo_items).1 = true ∧ is_ok (list_items demo_items) = true ∧
  list_items (import_file id (demo_raw (VInt 7)) demo_items).2 = raise TypeError "'<' not supported between instances".
Proof. split_and!; vm_compute; reflexivity. Qed.
