(* ===== verification/PlanClaims.v ===== *)
(** * Contexts, plans, configurations and sessions: what they promise *)
From Stdlib Require Import QArith.
From S2P Require Import Prelude Dict PyStr PyText PyValue Json JsonRound JsonDocs StrictJson Sha256 Signing Base64.
From S2P Require Import Net JoinCode CredentialFacts AdmissionFacts BrokerSet NativeProfiles CoreCatalog.
From S2P Require Import Context ConfigStore ConfigFacts ConnectionPlan PlanFacts Sessions SessionFacts ServiceFacts.
#[local] Open Scope Z_scope.
#[local] Existing Instance toy_signing.

(** ** Portable contexts *)

(** A context has one canonical form: what validation returns validates to
    itself, packs to one token, that token validates to the same context, and the
    digest of the context is the hash of the token. *)
Theorem context_canonical nfc nfkc lower v c :
  context_input v → validate_context nfc nfkc lower v = Ok c →
  validate_context nfc nfkc lower (VDict c) = Ok c ∧
  ∃ token, pack_protocol nfc (VDict c) = Ok token ∧ validate_context nfc nfkc lower (VStr token) = Ok c ∧
    context_digest nfc nfkc lower (VDict c) = Ok (str "sha256:" ++ sha256_hex token).
Proof.
  intros Hi Hv. destruct (validate_input _ _ _ _ _ Hi Hv) as (w & token & Hw).
  destruct (context_fixpoint _ _ _ _ _ _ Hw) as (H1 & H2 & H3 & H4). split; [done|]. by exists token.
Qed.

Definition plan_key : bytes := replicate 32 5.
Definition plan_passport : pystr := Eval vm_compute in
  match issue_passport 1000 (str "alice") [str "gate"; str "core"] [str "client"] 3600 (Some plan_key) with
  | Ok t => t | Raise _ => [] end.
Definition plan_route : pyval := VDict (mkdict
  [("kind", txt "broker_set"); ("id", txt "edge"); ("policy", txt "priority"); ("boundary", txt "stream");
   ("members", VList [VDict (mkdict [("identity", txt "b"); ("endpoint", txt "tcp://10.0.0.1:9000")])])]%string).
Definition plan_context : pyval := VDict (mkdict
  [("schema", txt "shadow6.protocol-envelope.v1"); ("version", VInt 1); ("purpose", txt "local-service");
   ("core", txt "all"); ("role", txt "client"); ("identity", VDict []); ("routes", VList [plan_route]);
   ("components", VDict (mkdict [("gate", VBool true)]));
   ("credentials", VDict (mkdict [("passport", VStr plan_passport)]))]%string).
Definition plan_validated := Eval vm_compute in
  match validate_context id id id plan_context with Ok c => c | Raise _ => [] end.
Lemma plan_context_input : context_input plan_context.
Proof. left. apply json_okb_ok. vm_compute. reflexivity. Qed.

Lemma context_canonical_witness :
  ∃ token, pack_protocol id (VDict plan_validated) = Ok token ∧ validate_context id id id (VStr token) = Ok plan_validated.
Proof.
  destruct (context_canonical id id id plan_context plan_validated) as [_ (token & H1 & H2 & _)];
    [apply plan_context_input|vm_compute; reflexivity|].
  exact (ex_intro _ token (conj H1 H2)).
Defined.



(** ** Connection plans *)

(** C9: An accepted plan is sound: its context is validated and was admitted
    with signatures required; its Core is the requested one, in the context's
    scope and role; its boundary is declared by the Core, equals the one of every
    route that names one, and the locked profile's; and it never claims to be
    connected. *)
Theorem plan_sound nfc nfkc lower {Sg : Signing} now pick context items core binding runtime source adapter role profile_binding d :
  context_input context →
  connection_plan nfc nfkc lower now pick context items core binding runtime source adapter role profile_binding = Ok d →
  ∃ c requested, validate_context nfc nfkc lower context = Ok c ∧ requested_core core binding = Ok requested ∧
    (∃ component token claims, pack_protocol nfc (VDict c) = Ok token ∧
       resolve_protocol_envelope nfc now (VStr token) component (asked_role c role) None [] false true = Ok (VDict c, claims)) ∧
    plan_ok c requested items profile_binding d.
Proof. apply connection_plan_Ok. Qed.

Definition plan_installation : installation := Installation (str "/opt/shadow6") (str "Linux") (str "x86_64") true (λ _, None).
Definition plan_items : catalog := Eval vm_compute in match builtin_items plan_installation with Ok l => l | Raise _ => [] end.
Definition plan_profile : pyval := Eval vm_compute in
  match bind_profile (txt "go") VNone with Ok b => VDict b | Raise _ => VNone end.
Definition demo_plan := Eval vm_compute in
  match connection_plan id id id 2000 0 plan_context plan_items (txt "go") VNone [] (txt "s6p1") None None plan_profile with
  | Ok d => d | Raise _ => [] end.

Lemma plan_sound_witness :
  ∃ c requested, requested_core (txt "go") VNone = Ok requested ∧ plan_ok c requested plan_items plan_profile demo_plan.
Proof.
  destruct (plan_sound id id id 2000 0 plan_context plan_items (txt "go") VNone [] (txt "s6p1") None None plan_profile demo_plan)
    as (c & q & _ & H1 & _ & H2); [apply plan_context_input|vm_compute; reflexivity|].
  exact (ex_intro _ c (ex_intro _ q (conj H1 H2))).
Defined.

(** The plan of a named service opens exactly the session of its locked
    profile - a message session for a message boundary, a stream otherwise; with
    a credited attachment the native session is refused, so the attachment
    cannot be bypassed. *)
Theorem service_session_opens nfc nfkc lower {Sg : Signing} read now pick items item material core binding runtime source adapter role pb d :
  context_input (vget_none item "protocolContext") →
  resolve_connection nfc nfkc lower read now pick items (Some (item, material)) VNone core binding runtime source adapter role pb = Ok d →
  if truthy (vget_none material "creditedAttachment")
  then open_local_session (VDict d) = raise ValueError "UnsupportedApplicationBoundary: credited provider required"
  else ∃ p contract kind, validate_profile_binding (vget_none item "profileBinding") (vget_none d "core") true = Ok p ∧
    vget_none p "applicationBoundary" = VDict contract ∧ vget_none contract "kind" = txt kind ∧
    open_local_session (VDict d) = Ok (if bool_decide (kind = "message"%string) then MessageSession else StreamSession).
Proof. apply service_session. Qed.
