(* ===== verification/ConfigClaims.v ===== *)
(** * Managed configurations and local sessions: what they promise *)
From Stdlib Require Import QArith.
From S2P Require Import Prelude Dict PyStr PyText PyValue Json JsonRound JsonDocs StrictJson Sha256 Net NativeProfiles.
From S2P Require Import ConfigStore ConfigFacts Sessions SessionFacts.
#[local] Open Scope Z_scope.

(** ** Configurations *)

(** C38: The redacted view shows nothing of a secret but its presence: two
    configurations that agree outside their secret keys, at every depth, have the
    same view; and what has no secret key is shown as it is. *)
Theorem redaction_noninterference lower v w :
  agree lower [] v w → redact lower v [] = redact lower w [] ∧ (public lower v = true → redact lower v [] = v).
Proof. intros Ha. split; [by apply redact_agree|]. intros Hp. by apply redact_public. Qed.

Definition demo_config (secret : string) : pydict := mkdict
  [("role", txt "client"); ("tls", VDict (mkdict [("tls_key", txt secret); ("port", VInt 443)]))]%string.

Lemma demo_agree : agree id [] (VDict (demo_config "one")) (VDict (demo_config "two")).
Proof.
  apply agree_dict. constructor; [split; [reflexivity|apply agree_same]|]. constructor; [|constructor].
  split; [reflexivity|]. apply agree_dict. constructor; [split; [reflexivity|by apply agree_secret]|].
  constructor; [split; [reflexivity|apply agree_same]|constructor].
Qed.

Lemma redaction_noninterference_witness : redact id (VDict (demo_config "one")) [] = redact id (VDict (demo_config "two")) [].
Proof. apply (redaction_noninterference id (VDict (demo_config "one")) (VDict (demo_config "two"))), demo_agree. Defined.

(** C39: An editor that sends a configuration back with every secret masked
    changes nothing: the merge restores each secret from the stored document, at
    every depth, in dictionaries and lists. *)
Theorem secrets_survive_edit lower d :
  val_wf (VDict d) → clean lower (VDict d) = true → merge_secrets lower (mask lower (VDict d)) (VDict d) = Ok (VDict d).
Proof. intros Hwf Hc. exact (merge_mask lower (VDict d) Hwf Hc). Qed.

Lemma secrets_survive_edit_witness :
  merge_secrets id (mask id (VDict (demo_config "one"))) (VDict (demo_config "one")) = Ok (VDict (demo_config "one")).
Proof. refine (secrets_survive_edit id (demo_config "one") _ _); [apply json_ok_wf, json_okb_ok; vm_compute; reflexivity|reflexivity]. Defined.

(** No accepted edit of a configuration without host commands puts one in,
    at any depth, whatever document is sent. *)
Theorem commands_never_configured lower incoming old merged :
  clean lower old = true → merge_secrets lower incoming old = Ok merged → clean lower merged = true.
Proof. intros Hc Hm. destruct incoming; try done. by eapply merge_clean. Qed.

Lemma commands_never_configured_witness : clean id (VDict (demo_config "one")) = true.
Proof.
  refine (commands_never_configured id (mask id (VDict (demo_config "one"))) (VDict (demo_config "one")) (VDict (demo_config "one")) _ _);
    vm_compute; reflexivity.
Defined.

Definition demo_document : bytes := Eval vm_compute in dumps default_opts (VDict (mkdict [("role"%string, txt "client")])).
Definition demo_edit : edit := Edit (txt "go") VNone (JBytes demo_document) None None.
Definition empty_store : store := Store None [].
Definition demo_native_check (_ _ : pydict) : result pystr := Ok (str "shape").
Definition demo_prepared := Eval vm_compute in prepare id id demo_native_check (str "edge") demo_edit empty_store.
Definition demo_review : pystr := match demo_prepared with Ok (_, review) => review_digest review | Raise _ => [] end.
Definition demo_saved := Eval vm_compute in save id id demo_native_check (str "edge") true demo_review demo_edit empty_store.

Lemma empty_store_ok : store_ok empty_store.
Proof. split; simpl; try done. constructor. Qed.

(** A successful save was confirmed, was computed from the draft whose
    digest the editor had seen, and stores exactly the bytes whose review digest
    was confirmed, both as the draft and as its snapshot. *)
Theorem save_reviewed lower nfc native_check name confirmed expected e s r s' :
  store_ok s → save lower nfc native_check name confirmed expected e s = (Ok r, s') →
  confirmed = true ∧ ∃ raw review, prepare lower nfc native_check name e s = Ok (raw, review) ∧ review_digest review = expected ∧
    st_draft s' = Some raw ∧ dget (st_materials s') (material_name raw) = Some raw ∧ digest <$> st_draft s = e_expected e.
Proof. apply save_Ok. Qed.


Definition demo_scan : list pystr := Eval vm_compute in (st_materials demo_saved.2).*1.
Definition demo_digest : pyval := match st_draft demo_saved.2 with Some raw => VStr (digest raw) | None => VNone end.
Definition demo_reclaimed := Eval vm_compute in
  reclaim id id (str "edge") true true false demo_digest demo_scan demo_scan demo_saved.2.


(** ** Sessions *)

(** Whatever sequence of calls a stream session serves, the bytes it moves
    stay within its budget of 16 MiB, its deadline never moves, and a closed
    session moves nothing more. *)
Theorem stream_within_budget now ops more n s m s' :
  run_stream ops (open_stream now) = (n, s) → run_stream more (close_stream s) = (m, s') →
  n ≤ BUDGET ∧ 0 ≤ ss_remaining s ∧ ss_deadline s = (now + LIFETIME)%Q ∧ m = 0.
Proof.
  intros H1 H2. assert (0 ≤ BUDGET) as Hb by (vm_compute; discriminate).
  destruct (run_stream_budget _ (open_stream now) _ _ Hb H1) as (Hr & Hn & Hd & _).
  destruct (run_stream_budget _ (close_stream s) _ _ Hr H2) as (_ & _ & _ & Hm). unfold open_stream in *. simpl in *.
  split_and!; [lia|done|done|by apply Hm].
Qed.

Definition demo_ops : list stream_op := [SSend 1 [1; 2; 3]; SReceive 2 3 16 [4; 5]].
Definition demo_stream := Eval vm_compute in run_stream demo_ops (open_stream 0).
Lemma stream_within_budget_witness : demo_stream.1 ≤ BUDGET.
Proof.
  refine (proj1 (stream_within_budget 0 demo_ops [] demo_stream.1 demo_stream.2 0 (close_stream demo_stream.2) _ _));
    vm_compute; reflexivity.
Defined.

(** Whatever sequence of calls a message session serves, every record sent
    or handed over is within the locked record limit, what is spent of the
    budget is exactly what was moved, and on a record-preserving socket the
    records sent end with at most one empty record, the end of stream. *)
Theorem message_records_bounded now max_record effective seqpacket s ops out inc s' :
  open_messages now max_record effective seqpacket = Ok s → run_messages ops s = ((out, inc), s') →
  total out + total inc = BUDGET - ms_remaining s' ∧ 0 ≤ ms_remaining s' ∧
  Forall (λ b, zlen b ≤ max_record) out ∧ Forall (λ b, zlen b ≤ max_record) inc ∧
  (seqpacket = true → eof_last (ms_write_closed s') out).
Proof.
  unfold open_messages. destruct effective as [| |n| | | |]; try done. intros ([] & Hb%raise_if_Ok & Hs)%bind_Ok_inv Hr.
  injection Hs as <-. apply negb_false_iff, between_spec in Hb.
  assert (0 ≤ BUDGET) as Hbu by (vm_compute; discriminate).
  destruct (run_messages_next _ (Messages n seqpacket false false (now + LIFETIME)%Q BUDGET true) _ _ _ Hbu ltac:(simpl; lia) Hr) as (H1 & H2 & H3 & H4 & _ & _ & H5). simpl in *.
  split_and!; try done; [eapply Forall_impl; [exact H3|]|eapply Forall_impl; [exact H4|]|by intros ->; apply H5];
    intros b Hbl; simpl in Hbl; lia.
Qed.

Definition demo_messages := Eval vm_compute in Messages 1024 true false false (0 + LIFETIME)%Q BUDGET true.
Definition demo_mops : list message_op := [MSend 1 [1; 2; 3] (Some 3); MReceive 2 3 [4] false; MSend 4 [] None; MSend 5 [6] (Some 1)].
Definition demo_records := Eval vm_compute in run_messages demo_mops demo_messages.
Lemma message_records_bounded_witness : eof_last (ms_write_closed demo_records.2) demo_records.1.1.
Proof.
  destruct (message_records_bounded 0 65536 (VInt 1024) true demo_messages demo_mops demo_records.1.1 demo_records.1.2 demo_records.2)
    as (_ & _ & _ & _ & H); [vm_compute; reflexivity..|]. exact (H eq_refl).
Defined.
