(* ===== verification/Handles.v ===== *)
(** * Capability handles of application sessions

    [Deployment/session_handles.py]: a process keeps its open sessions under
    random handles.  The manager is written against the interface [Session], as
    the code is against the sessions' methods; the sessions are objects of a
    heap, so that a table entry is a reference and [is] compares references.
    Every reading of the clock, every handle drawn and what the kernel does
    during a call are arguments. *)
From Stdlib Require Import QArith Qround.
From stdpp Require Import functions.
From S2P Require Import Prelude Dict PyStr PyText PyValue.
#[local] Open Scope Z_scope.

(** What happens during one call on a socket: when it starts and returns, what
    arrives, the kernel's truncation flag, how much of a record is taken ([None]:
    it would block), and whether the socket's timeout expires first. *)
Record io := Io { io_now : Q; io_later : Q; io_bytes : bytes; io_truncated : bool; io_taken : option Z; io_timeout : bool }.

(** What the manager uses of a session. *)
Class Session (T : Type) := {
  s_deadline : T → Q;
  s_remaining : T → Z;
  s_max_record : T → Z;
  s_eof : T → bool;
  s_write_closed : T → bool;
  (** its socket is open *)
  s_open : T → bool;
  (** [hasattr(session, 'detach')], and [session.stop.is_set()] for these *)
  s_detachable : T → bool;
  s_stopped : T → bool;
  s_receive : io → Z → M T bytes;
  s_receive_record : io → M T bytes;
  s_send : io → bytes → M T unit;
  s_send_record : io → bytes → M T unit;
  s_close : T → T;
  s_detach : T → T }.

Definition MAX_SESSIONS : Z := 64.
Definition MAX_READ_BYTES : Z := 65536.
Definition MAX_WRITE_BYTES : Z := 32768.
Definition MAX_TIMEOUT_MS : Z := 5000.

Record entry := Entry { e_service : pystr; e_lock : pystr; e_plan : pystr; e_message : bool; e_session : nat }.
#[global] Instance entry_eq_dec : EqDecision entry.
Proof. solve_decision. Defined.

Record manager (T : Type) := Manager {
  m_limit : Z; m_entries : list (pystr * entry); m_transfers : list (pystr * entry); m_heap : nat → T; m_next : nat }.
Arguments Manager {T} _ _ _ _ _.
Arguments m_limit {T} _.
Arguments m_entries {T} _.
Arguments m_transfers {T} _.
Arguments m_heap {T} _.
Arguments m_next {T} _.

Record metadata := Metadata { md_handle : pystr; md_message : bool; md_lifetime : Z; md_bytes : Z; md_record : option Z }.

Section Manager.
Context {T : Type} `{!Inhabited T, !Session T}.
Implicit Types (m : manager T) (h : pystr) (e : entry).

Definition set_entries (d : list (pystr * entry)) m : manager T := Manager (m_limit m) d (m_transfers m) (m_heap m) (m_next m).
Definition set_transfers (d : list (pystr * entry)) m : manager T := Manager (m_limit m) (m_entries m) d (m_heap m) (m_next m).
Definition set_session (i : nat) (s : T) m : manager T :=
  Manager (m_limit m) (m_entries m) (m_transfers m) (<[i := s]> (m_heap m)) (m_next m).
Definition session m e : T := m_heap m (e_session e).

Definition make_manager (limit : pyval) : result (manager T) :=
  match limit with
  | VInt n => _ ← raise_if (negb (between 1 n MAX_SESSIONS)) ValueError "InvalidApplicationSessionLimit";
              Ok (Manager n [] [] (λ _, inhabitant) 0%nat)
  | _ => raise ValueError "InvalidApplicationSessionLimit"
  end.

(** [int] of a nonnegative number rounds down. *)
Definition _remaining_ms (now : Q) (s : T) : Z := Z.max 0 (Qfloor ((s_deadline s - now) * 1000)%Q).

Definition _metadata (now : Q) h e m : metadata :=
  Metadata h (e_message e) (_remaining_ms now (session m e)) (Z.max 0 (s_remaining (session m e)))
    (if e_message e then Some (s_max_record (session m e)) else None).

Definition _close_entry e m : manager T := set_session (e_session e) (s_close (session m e)) m.

Definition expired (now : Q) m (he : pystr * entry) : bool := Qle_bool (s_deadline (session m he.2)) now.
Definition finished m (he : pystr * entry) : bool := s_stopped (session m he.2).

Definition _reap_locked (now : Q) m : manager T :=
  let m := fold_left (λ m he, _close_entry he.2 (set_entries (ddel (m_entries m) he.1) m)) (List.filter (expired now m) (m_entries m)) m in
  fold_left (λ m he, set_transfers (ddel (m_transfers m) he.1) m) (List.filter (finished m) (m_transfers m)) m.

(** A new object on the heap. *)
Definition alloc (s : T) : M (manager T) nat := λ m,
  (Ok (m_next m), Manager (m_limit m) (m_entries m) (m_transfers m) (<[m_next m := s]> (m_heap m)) (S (m_next m))).

(** [opened] is what opening a session for the plan gives, with its boundary;
    [draws] are the handles drawn; the result is [None] while every drawn handle
    is in use. *)
Definition open (now later : Q) (service lock_digest plan_digest : pyval) (opened : result (bool * T)) (draws : list pystr)
    : M (manager T) (option metadata) :=
  match service, lock_digest, plan_digest with
  | VStr service, VStr lock_digest, VStr plan_digest =>
      '(message, s) ← mlift opened;
      i ← alloc s;
      let e := Entry service lock_digest plan_digest message i in
      _ ← mmod (_reap_locked now);
      full ← mget (λ m, m_limit m <=? zlen (m_entries m) + zlen (m_transfers m));
      if full : bool then _ ← mmod (_close_entry e); mraise ValueError "ApplicationSessionCapacityReached" else
      draw ← mget (λ m, List.find (λ h, negb (dmem (m_entries m) h)) draws);
      match draw with
      | None => mret None
      | Some h => _ ← mmod (λ m, set_entries (dset (m_entries m) h e) m); mget (λ m, Some (_metadata later h e m))
      end
  | _, _, _ => mraise ValueError "InvalidApplicationSessionBinding"
  end.

Definition handle_of (handle : pyval) : result pystr :=
  match handle with
  | VStr h => _ ← raise_if (negb (between 32 (zlen h) 128)) ValueError "InvalidApplicationSessionHandle"; Ok h
  | _ => raise ValueError "InvalidApplicationSessionHandle"
  end.

Definition _entry (now : Q) (handle : pyval) : M (manager T) (pystr * entry) :=
  h ← mlift (handle_of handle);
  _ ← mmod (_reap_locked now);
  e ← mget (λ m, dget (m_entries m) h);
  match e with
  | None => mraise ValueError "ApplicationSessionExpiredOrUnknown"
  | Some e => mret (h, e)
  end.

(** The timeout that is set on the socket. *)
Definition _set_timeout (now : Q) (s : T) (timeout_ms : pyval) : result Q :=
  match timeout_ms with
  | VInt ms =>
      _ ← raise_if (negb (between 1 ms MAX_TIMEOUT_MS)) ValueError "InvalidApplicationSessionTimeout";
      let remaining := (s_deadline s - now)%Q in
      _ ← raise_if (Qle_bool remaining 0) ValueError "ApplicationSessionExpiredOrUnknown";
      _ ← raise_if (negb (s_open s)) OSError "Bad file descriptor";
      let asked := (inject_Z ms / 1000)%Q in
      Ok (if Qle_bool asked remaining then asked else remaining)
  | _ => raise ValueError "InvalidApplicationSessionTimeout"
  end.

Definition _ensure_current h e : M (manager T) unit :=
  current ← mget (λ m, dget (m_entries m) h);
  mraise_if (negb (bool_decide (current = Some e))) ValueError "ApplicationSessionExpiredOrUnknown".

(** Run a method of the session of an entry; the object is changed in place. *)
Definition call {A} e (f : M T A) : M (manager T) (result A) := λ m,
  let '(r, s) := f (session m e) in (Ok r, set_session (e_session e) s m).

Definition close (handle : pyval) : M (manager T) bool :=
  h ← mlift (handle_of handle);
  found ← mget (λ m, dget (m_entries m) h);
  match found with
  | Some e => _ ← mmod (λ m, set_entries (ddel (m_entries m) h) m); _ ← mmod (_close_entry e); mret true
  | None =>
      lent ← mget (λ m, dget (m_transfers m) h);
      match lent with
      | Some e => _ ← mmod (λ m, set_transfers (ddel (m_transfers m) h) m); _ ← mmod (_close_entry e); mret true
      | None => mret false
      end
  end.

(** [meta] is the clock when the result is written. *)
Definition read (now at_io meta : Q) (i : io) (handle max_bytes timeout_ms : pyval) : M (manager T) (metadata * bytes * bool) :=
  max_bytes ← mlift (match max_bytes with
                     | VInt n => _ ← raise_if (negb (between 1 n MAX_READ_BYTES)) ValueError "InvalidApplicationSessionReadBound"; Ok n
                     | _ => raise ValueError "InvalidApplicationSessionReadBound"
                     end);
  '(h, e) ← _entry now handle;
  _ ← _ensure_current h e;
  bound ← mget (λ m, s_max_record (session m e));
  _ ← mraise_if (e_message e && (max_bytes <? bound)) ValueError "MessageReadBoundTooSmall";
  s ← mget (λ m, session m e);
  _ ← mlift (_set_timeout at_io s timeout_ms);
  r ← call e (if e_message e then s_receive_record i else s_receive i max_bytes);
  match r with
  | Raise x =>
      if isa (exn_cls x) TimeoutError then mraise TimeoutError "ApplicationSessionTimeout"
      else _ ← close handle; mlift (Raise x)
  | Ok data =>
      eof ← mget (λ m, if e_message e then s_eof (session m e) else bool_decide (data = []));
      md ← mget (_metadata meta h e);
      if eof : bool then
        _ ← close handle;
        mret (Metadata (md_handle md) (md_message md) 0 (md_bytes md) (md_record md), data, true)
      else mret (md, data, false)
  end.

Definition write (now at_io meta : Q) (i : io) (handle : pyval) (data : bytes) (timeout_ms : pyval) : M (manager T) (metadata * Z * bool) :=
  _ ← mraise_if (MAX_WRITE_BYTES <? zlen data) ValueError "InvalidApplicationSessionWriteBound";
  '(h, e) ← _entry now handle;
  _ ← _ensure_current h e;
  s ← mget (λ m, session m e);
  _ ← mlift (_set_timeout at_io s timeout_ms);
  r ← call e (if e_message e then s_send_record i data else s_send i data);
  match r with
  | Raise x =>
      if isa (exn_cls x) TimeoutError then mraise TimeoutError "ApplicationSessionTimeout"
      else if isa (exn_cls x) BlockingIOError then mlift (Raise x)
      else _ ← close handle; mlift (Raise x)
  | Ok _ => md ← mget (_metadata meta h e); closed ← mget (λ m, s_write_closed (session m e)); mret (md, zlen data, closed)
  end.

(** The descriptor is handed to the caller; a session that can be detached stays
    in [_transfers] until its worker has stopped. *)
Definition transfer_fd (now : Q) (handle : pyval) : M (manager T) unit :=
  '(h, e) ← _entry now handle;
  _ ← _ensure_current h e;
  _ ← mmod (λ m, set_entries (ddel (m_entries m) h) m);
  keep ← mget (λ m, s_detachable (session m e));
  _ ← mmod (λ m, set_session (e_session e) (s_detach (session m e)) m);
  if keep : bool then mmod (λ m, set_transfers (dset (m_transfers m) h e) m) else mret tt.

Fixpoint close_handles (handles : list pystr) (closed : Z) : M (manager T) Z :=
  match handles with
  | [] => mret closed
  | h :: handles => ok ← close (VStr h); close_handles handles (if ok : bool then closed + 1 else closed)
  end.

Definition of_service (service : pystr) (he : pystr * entry) : bool := bool_decide (e_service he.2 = service).

Definition close_service (service : pystr) : M (manager T) Z :=
  handles ← mget (λ m, (List.filter (of_service service) (m_entries m)).*1 ++ (List.filter (of_service service) (m_transfers m)).*1);
  close_handles handles 0.

Definition close_all : M (manager T) Z :=
  handles ← mget (λ m, (m_entries m).*1 ++ (m_transfers m).*1);
  close_handles handles 0.
End Manager.
