(* ===== verification/HandleSpec.v ===== *)
(** * What the handle manager promises: an abstract table of live sessions

    The specification knows neither references nor lazy reaping nor the two
    tables' bookkeeping: a handle denotes a session as long as its deadline has
    not passed, and a transferred session is lent until its worker stops. *)
From Stdlib Require Import QArith.
From stdpp Require Import functions.
From S2P Require Import Prelude Dict PyStr PyText PyValue Handles.
#[local] Open Scope Z_scope.

(** What the interface promises to the manager: input and output never move the
    deadline, and leave the socket open unless they fail for good. *)
Definition goes_on {A} (r : result A) : bool :=
  match r with Ok _ => true | Raise x => isa (exn_cls x) TimeoutError || isa (exn_cls x) BlockingIOError end.

Definition keeps {T A} (deadline : T → Q) (opened : T → bool) (f : M T A) : Prop :=
  ∀ s r s', f s = (r, s') → deadline s' = deadline s ∧ (opened s = true → goes_on r = true → opened s' = true).
Definition well_behaved {T A} `{!Session T} (f : M T A) : Prop := keeps s_deadline s_open f.

Class SessionLaws (T : Type) `{!Session T} : Prop := {
  close_shuts s : s_open (s_close s) = false;
  detach_gives s : s_open (s_detach s) = false;
  receive_behaves i n : well_behaved (s_receive i n);
  receive_record_behaves i : well_behaved (s_receive_record i);
  send_behaves i b : well_behaved (s_send i b);
  send_record_behaves i b : well_behaved (s_send_record i b) }.

Section Spec.
Context {T : Type} `{!Inhabited T, !Session T}.

(** The operations, each with the clock when it starts. *)
Inductive op :=
| OOpen (now later : Q) (service lock_digest plan_digest : pyval) (opened : result (bool * T)) (draws : list pystr)
| ORead (now at_io meta : Q) (i : io) (handle max_bytes timeout_ms : pyval)
| OWrite (now at_io meta : Q) (i : io) (handle : pyval) (data : bytes) (timeout_ms : pyval)
| OClose (now : Q) (handle : pyval)
| OTransfer (now : Q) (handle : pyval)
| OCloseService (now : Q) (service : pystr)
| OCloseAll (now : Q).

Inductive response :=
| ROpened (md : option metadata) | RRead (x : metadata * bytes * bool) | RWritten (x : metadata * Z * bool)
| RClosed (b : bool) | RTransferred | RCount (n : Z).

Definition op_time (o : op) : Q :=
  match o with
  | OOpen now _ _ _ _ _ _ | ORead now _ _ _ _ _ _ | OWrite now _ _ _ _ _ _ | OClose now _ | OTransfer now _ | OCloseService now _
  | OCloseAll now => now
  end.

Definition respond {A} (f : A → response) (c : M (manager T) A) : M (manager T) response := x ← c; mret (f x).

Definition step (o : op) : M (manager T) response :=
  match o with
  | OOpen now later service lock_digest plan_digest opened draws =>
      respond ROpened (open now later service lock_digest plan_digest opened draws)
  | ORead now at_io meta i handle max_bytes timeout_ms => respond RRead (read now at_io meta i handle max_bytes timeout_ms)
  | OWrite now at_io meta i handle data timeout_ms => respond RWritten (write now at_io meta i handle data timeout_ms)
  | OClose _ handle => respond RClosed (close handle)
  | OTransfer now handle => respond (λ _, RTransferred) (transfer_fd now handle)
  | OCloseService _ service => respond RCount (close_service service)
  | OCloseAll _ => respond RCount close_all
  end.

(** ** The abstract table *)
Record held := Held { h_service : pystr; h_message : bool; h_session : T }.
Record spec := Spec { live : gmap pystr held; lent : gmap pystr held }.

Definition in_time (now : Q) (v : held) : bool := negb (Qle_bool (s_deadline (h_session v)) now).
Definition expire (now : Q) (a : spec) : spec := Spec (filter (λ hv, in_time now hv.2 = true) (live a)) (lent a).
Definition update (h : pystr) (v : held) (s : T) (a : spec) : spec := Spec (<[h := Held (h_service v) (h_message v) s]> (live a)) (lent a).
Definition forget (h : pystr) (a : spec) : spec := Spec (delete h (live a)) (lent a).

Definition describe (now : Q) (h : pystr) (v : held) : metadata :=
  Metadata h (h_message v) (_remaining_ms now (h_session v)) (Z.max 0 (s_remaining (h_session v)))
    (if h_message v then Some (s_max_record (h_session v)) else None).

Definition timeout_ok (at_io : Q) (s : T) (timeout_ms : pyval) : result unit :=
  match timeout_ms with
  | VInt ms => _ ← raise_if (negb (between 1 ms MAX_TIMEOUT_MS)) ValueError "InvalidApplicationSessionTimeout";
               raise_if (Qle_bool (s_deadline s - at_io)%Q 0) ValueError "ApplicationSessionExpiredOrUnknown"
  | _ => raise ValueError "InvalidApplicationSessionTimeout"
  end.

Definition find (h : pystr) (a : spec) : result held :=
  match live a !! h with Some v => Ok v | None => raise ValueError "ApplicationSessionExpiredOrUnknown" end.

(** Reading: the answer, and what becomes of the table. *)
Definition spec_read (at_io meta : Q) (i : io) (h : pystr) (n : Z) (timeout_ms : pyval) (v : held) (a : spec) : result response * spec :=
  match (_ ← raise_if (h_message v && (n <? s_max_record (h_session v))) ValueError "MessageReadBoundTooSmall";
         timeout_ok at_io (h_session v) timeout_ms) with
  | Raise x => (Raise x, a)
  | Ok _ =>
      let '(r, s) := (if h_message v then s_receive_record i else s_receive i n) (h_session v) in
      match r with
      | Raise x => if isa (exn_cls x) TimeoutError then (raise TimeoutError "ApplicationSessionTimeout", update h v s a) else (Raise x, forget h a)
      | Ok data =>
          let md := describe meta h (Held (h_service v) (h_message v) s) in
          if (if h_message v then s_eof s else bool_decide (data = []))
          then (Ok (RRead (Metadata h (md_message md) 0 (md_bytes md) (md_record md), data, true)), forget h a)
          else (Ok (RRead (md, data, false)), update h v s a)
      end
  end.

Definition spec_write (at_io meta : Q) (i : io) (h : pystr) (data : bytes) (timeout_ms : pyval) (v : held) (a : spec) : result response * spec :=
  match timeout_ok at_io (h_session v) timeout_ms with
  | Raise x => (Raise x, a)
  | Ok _ =>
      let '(r, s) := (if h_message v then s_send_record i data else s_send i data) (h_session v) in
      match r with
      | Raise x =>
          if isa (exn_cls x) TimeoutError then (raise TimeoutError "ApplicationSessionTimeout", update h v s a)
          else if isa (exn_cls x) BlockingIOError then (Raise x, update h v s a)
          else (Raise x, forget h a)
      | Ok _ => (Ok (RWritten (describe meta h (Held (h_service v) (h_message v) s), zlen data, s_write_closed s)), update h v s a)
      end
  end.

Definition guarded (c : result (pystr * held)) (a : spec) (k : pystr → held → result response * spec) : result response * spec :=
  match c with Raise x => (Raise x, a) | Ok (h, v) => k h v end.

Definition lookup_handle (handle : pyval) (a : spec) : result (pystr * held) := h ← handle_of handle; v ← find h a; Ok (h, v).

(** The allowed answers and next tables of an operation on a table without
    expired sessions.  A handle that is closed after its deadline may or may not
    be reported as found; the count of closed handles is not specified. *)
Definition spec_step (limit : Z) (o : op) (a : spec) (r : result response) (a' : spec) : Prop :=
  match o with
  | OOpen now later service lock_digest plan_digest opened draws =>
      match service, lock_digest, plan_digest, opened with
      | VStr service, VStr _, VStr _, Ok (message, s) =>
          if limit <=? Z.of_nat (size (live a) + size (lent a))
          then r = raise ValueError "ApplicationSessionCapacityReached" ∧ a' = a
          else ∃ h, h ∈ draws ∧ live a !! h = None ∧ r = Ok (ROpened (Some (describe later h (Held service message s)))) ∧
                 a' = expire now (Spec (<[h := Held service message s]> (live a)) (lent a))
      | VStr _, VStr _, VStr _, Raise x => r = Raise x ∧ a' = a
      | _, _, _, _ => r = raise ValueError "InvalidApplicationSessionBinding" ∧ a' = a
      end
  | ORead _ at_io meta i handle max_bytes timeout_ms =>
      match max_bytes with
      | VInt n => if between 1 n MAX_READ_BYTES
                  then guarded (lookup_handle handle a) a (λ h v, spec_read at_io meta i h n timeout_ms v a) = (r, a')
                  else r = raise ValueError "InvalidApplicationSessionReadBound" ∧ a' = a
      | _ => r = raise ValueError "InvalidApplicationSessionReadBound" ∧ a' = a
      end
  | OWrite _ at_io meta i handle data timeout_ms =>
      if MAX_WRITE_BYTES <? zlen data then r = raise ValueError "InvalidApplicationSessionWriteBound" ∧ a' = a
      else guarded (lookup_handle handle a) a (λ h v, spec_write at_io meta i h data timeout_ms v a) = (r, a')
  | OClose _ handle =>
      match handle_of handle with
      | Raise x => r = Raise x ∧ a' = a
      | Ok h => a' = Spec (delete h (live a)) (delete h (lent a)) ∧
                ∃ b, r = Ok (RClosed b) ∧ (is_Some (live a !! h) → b = true)
      end
  | OTransfer _ handle =>
      match lookup_handle handle a with
      | Raise x => r = Raise x ∧ a' = a
      | Ok (h, v) => r = Ok RTransferred ∧
          let v' := Held (h_service v) (h_message v) (s_detach (h_session v)) in
          a' = Spec (delete h (live a)) (if s_detachable (h_session v) && negb (s_stopped (h_session v')) then <[h := v']> (lent a) else lent a)
      end
  | OCloseService _ service =>
      a' = Spec (filter (λ hv, h_service hv.2 ≠ service) (live a)) (filter (λ hv, h_service hv.2 ≠ service) (lent a)) ∧
      ∃ n, r = Ok (RCount n)
  | OCloseAll _ => a' = Spec ∅ ∅ ∧ ∃ n, r = Ok (RCount n)
  end.
End Spec.
Arguments op : clear implicits.
Arguments held : clear implicits.
Arguments spec : clear implicits.
