(* ===== verification/HandleFacts.v ===== *)
(** * The handle manager: invariant and refinement *)
From Stdlib Require Import QArith.
From stdpp Require Import functions.
From S2P Require Import Prelude Dict PyStr PyText PyValue Handles HandleSpec.
#[local] Open Scope Z_scope.

(** ** Dictionaries and finite maps *)
Lemma dict_lookup {V W} (f : V → W) (d : list (pystr * V)) h :
  (list_to_map (prod_map id f <$> d) : gmap pystr W) !! h = f <$> dget d h.
Proof.
  induction d as [|[k v] d IH]; [done|]. change (prod_map id f <$> (k, v) :: d) with ((k, f v) :: (prod_map id f <$> d)).
  rewrite list_to_map_cons, lookup_insert. cbn [dget]. rewrite IH. case_bool_decide; case_decide; subst; congruence || done.
Qed.

Lemma size_of_dict {V W} (f : V → W) (d : list (pystr * V)) (m : gmap pystr W) :
  dwf d → (∀ h, m !! h = f <$> dget d h) → size m = length d.
Proof.
  intros Hd Hm. replace m with (list_to_map (M := gmap pystr W) (prod_map id f <$> d)) by (apply map_eq; intros h; by rewrite dict_lookup).
  rewrite map_size_list_to_map, length_fmap; [done|]. rewrite <- list_fmap_compose. exact Hd.
Qed.

Lemma dget_filter {V} (p : V → bool) (d : list (pystr * V)) h :
  dwf d → dget (List.filter (λ kv, p kv.2) d) h = match dget d h with Some v => if p v then Some v else None | None => None end.
Proof.
  unfold dwf, dkeys. induction d as [|[k v] d IH]; intros Hd; [done|]. apply NoDup_cons in Hd as [Hk Hd]. cbn [List.filter dget snd].
  case_bool_decide as E.
  - subst k. destruct (p v) eqn:Ep; cbn [dget]; [by rewrite bool_decide_true|]. rewrite IH by done.
    destruct (dget d h) eqn:Eg; [|done]. apply dget_Some_key in Eg. done.
  - destruct (p v); cbn [dget]; [rewrite bool_decide_false by done|]; by apply IH.
Qed.

Section Facts.
Context {T : Type} `{!Inhabited T, !Session T}.
Implicit Types (m : manager T) (h : pystr) (e : entry).

(** ** The invariant

    The tables hold each session once and together at most [limit] of them; the
    sessions that can be used are open, and a socket that is open can be used
    through a handle, except for the session [x] that is being opened. *)
Definition known m h e : Prop := dget (m_entries m) h = Some e ∨ dget (m_transfers m) h = Some e.

Record wf_but (x : option nat) m := {
  wf_entries : dwf (m_entries m);
  wf_transfers : dwf (m_transfers m);
  wf_disjoint h e e' : dget (m_entries m) h = Some e → dget (m_transfers m) h = Some e' → False;
  wf_refs h h' e e' : known m h e → known m h' e' → e_session e = e_session e' → h = h';
  wf_alloc h e : known m h e → (e_session e < m_next m)%nat;
  wf_new h e : known m h e → x ≠ Some (e_session e);
  wf_handles h e : known m h e → 32 ≤ zlen h ≤ 128;
  wf_open h e : dget (m_entries m) h = Some e → s_open (session m e) = true;
  wf_owned i : (i < m_next m)%nat → s_open (m_heap m i) = true → x = Some i ∨ ∃ h e, dget (m_entries m) h = Some e ∧ e_session e = i;
  wf_limit : zlen (m_entries m) + zlen (m_transfers m) ≤ m_limit m }.
Definition wf : manager T → Prop := wf_but None.

(** ** The abstraction *)
Definition hold m e : held T := Held (e_service e) (e_message e) (session m e).
Definition abs_map m (keep : entry → bool) (d : list (pystr * entry)) : gmap pystr (held T) :=
  list_to_map (prod_map id (hold m) <$> List.filter (λ he, keep he.2) d).
Definition abs (now : Q) m : spec T :=
  Spec (abs_map m (λ e, negb (Qle_bool (s_deadline (session m e)) now)) (m_entries m))
       (abs_map m (λ e, negb (s_stopped (session m e))) (m_transfers m)).

(** What a handle denotes. *)
Definition seen now m h : option (held T) :=
  match dget (m_entries m) h with Some e => if Qle_bool (s_deadline (session m e)) now then None else Some (hold m e) | None => None end.
Definition given m h : option (held T) :=
  match dget (m_transfers m) h with Some e => if s_stopped (session m e) then None else Some (hold m e) | None => None end.

Lemma abs_lookup m keep d h :
  dwf d → abs_map m keep d !! h = match dget d h with Some e => if keep e then Some (hold m e) else None | None => None end.
Proof.
  intros Hd. unfold abs_map. rewrite dict_lookup, dget_filter by done. destruct (dget d h); [|done]. by destruct (keep e).
Qed.

Lemma abs_live x now m h : wf_but x m → live (abs now m) !! h = seen now m h.
Proof.
  intros Hm. cbn [live abs]. rewrite abs_lookup by (by eapply wf_entries). unfold seen. destruct (dget _ _); [|done]. by destruct (Qle_bool _ _).
Qed.

Lemma abs_lent x now m h : wf_but x m → lent (abs now m) !! h = given m h.
Proof.
  intros Hm. cbn [lent abs]. rewrite abs_lookup by (by eapply wf_transfers). unfold given. destruct (dget _ _); [|done]. by destruct (s_stopped _).
Qed.

(** The abstract table is what the handles denote. *)
Lemma abs_intro x now m a :
  wf_but x m → (∀ h, live a !! h = seen now m h) → (∀ h, lent a !! h = given m h) → abs now m = a.
Proof.
  intros Hm H1 H2. destruct a as [l g]. unfold abs in *. pose proof (λ h, abs_live x now m h Hm) as A1. pose proof (λ h, abs_lent x now m h Hm) as A2.
  cbn in *. f_equal; apply map_eq; intros h; [by rewrite A1, H1|by rewrite A2, H2].
Qed.

(** ** Leaving the tables *)
Lemma known_frame x m h h' e e' : wf_but x m → known m h e → known m h' e' → h' ≠ h → e_session e' ≠ e_session e.
Proof. intros Hm H H' Hne E. apply Hne. by eapply (wf_refs x m Hm h' h e' e). Qed.

(** The session of a usable handle leaves the table, closed or given away. *)
Record gone m h e m' : Prop := {
  lf_entry : dget (m_entries m) h = Some e;
  lf_limit : m_limit m' = m_limit m;
  lf_entries : m_entries m' = ddel (m_entries m) h;
  lf_transfers : m_transfers m' = m_transfers m;
  lf_next : m_next m' = m_next m;
  lf_heap j : j ≠ e_session e → m_heap m' j = m_heap m j;
  lf_shut : s_open (m_heap m' (e_session e)) = false }.

Lemma known_gone m h e m' h' e' : gone m h e m' → known m' h' e' → known m h' e'.
Proof.
  intros L. unfold known. rewrite (lf_entries _ _ _ _ L), (lf_transfers _ _ _ _ L). intros [H|H]; [left|by right].
  destruct (decide (h' = h)) as [->|Hne]; [by rewrite dget_ddel_eq in H|by rewrite dget_ddel_ne in H].
Qed.

Lemma gone_session x m h e m' h' e' : wf_but x m → gone m h e m' → known m h' e' → h' ≠ h → session m' e' = session m e'.
Proof.
  intros Hm L H' Hne. unfold session. apply (lf_heap _ _ _ _ L). eapply known_frame; [done| |done|done]. left. apply (lf_entry _ _ _ _ L).
Qed.

Lemma gone_wf x m h e m' : wf_but x m → gone m h e m' → wf_but x m'.
Proof.
  intros Hm L. pose proof (λ h' e', known_gone m h e m' h' e' L) as Hk.
  assert (∀ h' e', dget (m_entries m') h' = Some e' → h' ≠ h ∧ dget (m_entries m) h' = Some e') as He.
  { intros h' e'. rewrite (lf_entries _ _ _ _ L). destruct (decide (h' = h)) as [->|Hne]; [by rewrite dget_ddel_eq|by rewrite dget_ddel_ne]. }
  split; rewrite ?(lf_transfers _ _ _ _ L), ?(lf_next _ _ _ _ L), ?(lf_limit _ _ _ _ L).
  - rewrite (lf_entries _ _ _ _ L). by apply dwf_ddel, (wf_entries x m Hm).
  - apply (wf_transfers x m Hm).
  - intros h' e1 e2 [_ H1]%He H2. by eapply (wf_disjoint x m Hm).
  - intros h1 h2 e1 e2 H1%Hk H2%Hk. by apply (wf_refs x m Hm).
  - intros h1 e1 H1%Hk. by eapply (wf_alloc x m Hm).
  - intros h1 e1 H1%Hk. by eapply (wf_new x m Hm).
  - intros h1 e1 H1%Hk. by eapply (wf_handles x m Hm).
  - intros h1 e1 [Hne H1]%He. rewrite (gone_session x m h e m' h1 e1 Hm L (or_introl H1) Hne). by eapply (wf_open x m Hm).
  - intros i Hi Ho. destruct (decide (i = e_session e)) as [->|Hne]; [by rewrite (lf_shut _ _ _ _ L) in Ho|].
    rewrite (lf_heap _ _ _ _ L) in Ho by done. destruct (wf_owned x m Hm i Hi Ho) as [?|(h' & e' & Hd & <-)]; [by left|right].
    exists h', e'. split; [|done]. rewrite (lf_entries _ _ _ _ L), dget_ddel_ne; [done|]. intros ->. rewrite (lf_entry _ _ _ _ L) in Hd.
    injection Hd as <-. by apply Hne.
  - pose proof (wf_limit x m Hm). rewrite (lf_entries _ _ _ _ L). pose proof (length_ddel_le (m_entries m) h). unfold zlen in *. lia.
Qed.

Lemma gone_seen x now m h e m' h' : wf_but x m → gone m h e m' → seen now m' h' = if decide (h' = h) then None else seen now m h'.
Proof.
  intros Hm L. unfold seen. rewrite (lf_entries _ _ _ _ L). case_decide as E; [subst; by rewrite dget_ddel_eq|]. rewrite dget_ddel_ne by done.
  destruct (dget (m_entries m) h') as [e'|] eqn:Ed; [|done]. unfold hold. by rewrite (gone_session x m h e m' h' e' Hm L (or_introl Ed) E).
Qed.

Lemma gone_given x m h e m' h' : wf_but x m → gone m h e m' → given m' h' = given m h'.
Proof.
  intros Hm L. unfold given. rewrite (lf_transfers _ _ _ _ L). destruct (dget (m_transfers m) h') as [e'|] eqn:Ed; [|done].
  unfold hold. rewrite (gone_session x m h e m' h' e' Hm L (or_intror Ed)); [done|]. intros ->.
  exact (wf_disjoint x m Hm h e e' (lf_entry _ _ _ _ L) Ed).
Qed.
(** A transferred session leaves the table. *)
Record ended m h e m' : Prop := {
  en_entry : dget (m_transfers m) h = Some e;
  en_limit : m_limit m' = m_limit m;
  en_entries : m_entries m' = m_entries m;
  en_transfers : m_transfers m' = ddel (m_transfers m) h;
  en_next : m_next m' = m_next m;
  en_heap j : j ≠ e_session e → m_heap m' j = m_heap m j;
  en_shut : s_open (m_heap m' (e_session e)) = false }.

Lemma lent_shut x m h e : wf_but x m → dget (m_transfers m) h = Some e → s_open (session m e) = false.
Proof.
  intros Hm H. destruct (s_open (session m e)) eqn:E; [|done]. exfalso.
  destruct (wf_owned x m Hm (e_session e)) as [?|(h' & e' & Hd & Es)]; [eapply (wf_alloc x m Hm h); by right|done| |].
  - eapply (wf_new x m Hm h); [by right|done].
  - assert (h' = h) as -> by (eapply (wf_refs x m Hm h' h e' e); [by left|by right|done]). by eapply (wf_disjoint x m Hm).
Qed.

Lemma ended_wf x m h e m' : wf_but x m → ended m h e m' → wf_but x m'.
Proof.
  intros Hm L. assert (known m h e) as Hkn by (right; apply (en_entry _ _ _ _ L)).
  assert (∀ h' e', known m' h' e' → known m h' e') as Hk.
  { intros h' e'. unfold known. rewrite (en_entries _ _ _ _ L), (en_transfers _ _ _ _ L). intros [H|H]; [by left|right].
    destruct (decide (h' = h)) as [->|Hne]; [by rewrite dget_ddel_eq in H|by rewrite dget_ddel_ne in H]. }
  assert (∀ h' e', dget (m_entries m) h' = Some e' → h' ≠ h) as Hne.
  { intros h' e' Hd ->. exact (wf_disjoint x m Hm h e' e Hd (en_entry _ _ _ _ L)). }
  split; rewrite ?(en_entries _ _ _ _ L), ?(en_next _ _ _ _ L), ?(en_limit _ _ _ _ L).
  - apply (wf_entries x m Hm).
  - rewrite (en_transfers _ _ _ _ L). by apply dwf_ddel, (wf_transfers x m Hm).
  - intros h' e1 e2 H1. rewrite (en_transfers _ _ _ _ L), dget_ddel_ne by (by eapply Hne). exact (wf_disjoint x m Hm h' e1 e2 H1).
  - intros h1 h2 e1 e2 H1%Hk H2%Hk. by apply (wf_refs x m Hm).
  - intros h1 e1 H1%Hk. by eapply (wf_alloc x m Hm).
  - intros h1 e1 H1%Hk. by eapply (wf_new x m Hm).
  - intros h1 e1 H1%Hk. by eapply (wf_handles x m Hm).
  - intros h1 e1 H1. unfold session. rewrite (en_heap _ _ _ _ L); [by eapply (wf_open x m Hm)|].
    eapply known_frame; [done|done|by left|by eapply Hne].
  - intros i Hi Ho. destruct (decide (i = e_session e)) as [->|Hi2]; [by rewrite (en_shut _ _ _ _ L) in Ho|].
    rewrite (en_heap _ _ _ _ L) in Ho by done. by apply (wf_owned x m Hm).
  - pose proof (wf_limit x m Hm). rewrite (en_transfers _ _ _ _ L). pose proof (length_ddel_le (m_transfers m) h). unfold zlen in *. lia.
Qed.

Lemma ended_session x m h e m' h' e' : wf_but x m → ended m h e m' → known m h' e' → h' ≠ h → session m' e' = session m e'.
Proof.
  intros Hm L H' Hne. apply (en_heap _ _ _ _ L). eapply known_frame; [done| |done|done]. right. apply (en_entry _ _ _ _ L).
Qed.

Lemma ended_seen x now m h e m' h' : wf_but x m → ended m h e m' → seen now m' h' = seen now m h'.
Proof.
  intros Hm L. unfold seen. rewrite (en_entries _ _ _ _ L). destruct (dget (m_entries m) h') as [e'|] eqn:Ed; [|done].
  unfold hold. rewrite (ended_session x m h e m' h' e' Hm L (or_introl Ed)); [done|]. intros ->.
  exact (wf_disjoint x m Hm h e' e Ed (en_entry _ _ _ _ L)).
Qed.

Lemma ended_given x m h e m' h' : wf_but x m → ended m h e m' → given m' h' = if decide (h' = h) then None else given m h'.
Proof.
  intros Hm L. unfold given. rewrite (en_transfers _ _ _ _ L). case_decide as E; [subst; by rewrite dget_ddel_eq|]. rewrite dget_ddel_ne by done.
  destruct (dget (m_transfers m) h') as [e'|] eqn:Ed; [|done]. unfold hold. by rewrite (ended_session x m h e m' h' e' Hm L (or_intror Ed) E).
Qed.

(** ** Reaping *)
Context {Laws : SessionLaws T}.

Lemma close_entry_gone m h e : dget (m_entries m) h = Some e → gone m h e (_close_entry e (set_entries (ddel (m_entries m) h) m)).
Proof.
  intros H. split; try done.
  - intros j Hj. cbn. by apply fn_lookup_insert_ne.
  - cbn. rewrite fn_lookup_insert. apply close_shuts.
Qed.

Lemma close_lent_ended m h e : dget (m_transfers m) h = Some e → ended m h e (_close_entry e (set_transfers (ddel (m_transfers m) h) m)).
Proof.
  intros H. split; try done.
  - intros j Hj. cbn. by apply fn_lookup_insert_ne.
  - cbn. rewrite fn_lookup_insert. apply close_shuts.
Qed.

Lemma drop_lent_ended x m h e : wf_but x m → dget (m_transfers m) h = Some e → ended m h e (set_transfers (ddel (m_transfers m) h) m).
Proof. intros Hm H. split; try done. by eapply lent_shut. Qed.

Lemma reap_entries_spec x now l m :
  wf_but x m → NoDup l.*1 → (∀ h e, (h, e) ∈ l → dget (m_entries m) h = Some e) →
  let m' := fold_left (λ m he, _close_entry he.2 (set_entries (ddel (m_entries m) he.1) m)) l m in
  wf_but x m' ∧ m_transfers m' = m_transfers m ∧ m_limit m' = m_limit m ∧ m_next m' = m_next m ∧
  (∀ h, dget (m_entries m') h = if decide (h ∈ l.*1) then None else dget (m_entries m) h) ∧
  (∀ h, seen now m' h = if decide (h ∈ l.*1) then None else seen now m h) ∧ (∀ h, given m' h = given m h) ∧
  (∀ i, (∀ h e, (h, e) ∈ l → i ≠ e_session e) → m_heap m' i = m_heap m i).
Proof.
  revert m. induction l as [|[h e] l IH]; intros m Hm Hn Hl; cbn [fold_left fst snd].
  { split_and!; try done; intros; case_decide as E; try done; by apply not_elem_of_nil in E. }
  apply NoDup_cons in Hn as [Hh Hn]. cbn [fmap list_fmap] in Hh. assert (dget (m_entries m) h = Some e) as He by (apply Hl; left).
  pose proof (close_entry_gone m h e He) as L. set (m1 := _close_entry e (set_entries (ddel (m_entries m) h) m)) in *.
  destruct (IH m1) as (H1 & H2 & H3 & H4 & H5 & H6 & H7 & H8).
  { by eapply gone_wf. } { done. }
  { intros h' e' Hin. rewrite (lf_entries _ _ _ _ L), dget_ddel_ne; [apply Hl; by right|]. intros ->. apply Hh. apply list_elem_of_fmap. by exists (h, e'). }
  split_and!; try done.
  - intros h'. rewrite H5, (lf_entries _ _ _ _ L). cbn [fmap list_fmap fst]. repeat case_decide; set_unfold; try tauto.
    + destruct (decide (h' = h)) as [->|Hne]; [by rewrite dget_ddel_eq|tauto].
    + by rewrite dget_ddel_ne by tauto.
  - intros h'. rewrite H6, (gone_seen x now m h e m1 h' Hm L). cbn [fmap list_fmap fst]. repeat case_decide; set_unfold; tauto.
  - intros h'. by rewrite H7, (gone_given x m h e m1 h' Hm L).
  - intros i Hi. rewrite H8; [|intros h' e' Hin; apply (Hi h'); by right]. apply (lf_heap _ _ _ _ L). apply (Hi h). left.
Qed.
Lemma reap_transfers_spec x l m :
  wf_but x m → NoDup l.*1 → (∀ h e, (h, e) ∈ l → dget (m_transfers m) h = Some e) →
  let m' := fold_left (λ m he, set_transfers (ddel (m_transfers m) he.1) m) l m in
  wf_but x m' ∧ m_entries m' = m_entries m ∧ m_limit m' = m_limit m ∧ m_next m' = m_next m ∧ m_heap m' = m_heap m ∧
  (∀ h, dget (m_transfers m') h = if decide (h ∈ l.*1) then None else dget (m_transfers m) h).
Proof.
  revert m. induction l as [|[h e] l IH]; intros m Hm Hn Hl; cbn [fold_left fst snd].
  { split_and!; try done; intros; case_decide as E; try done; by apply not_elem_of_nil in E. }
  apply NoDup_cons in Hn as [Hh Hn]. cbn [fmap list_fmap] in Hh. assert (dget (m_transfers m) h = Some e) as He by (apply Hl; left).
  pose proof (drop_lent_ended x m h e Hm He) as L. set (m1 := set_transfers (ddel (m_transfers m) h) m) in *.
  destruct (IH m1) as (H1 & H2 & H3 & H4 & H5 & H6).
  { by eapply ended_wf. } { done. }
  { intros h' e' Hin. rewrite (en_transfers _ _ _ _ L), dget_ddel_ne; [apply Hl; by right|]. intros ->. apply Hh. apply list_elem_of_fmap. by exists (h, e'). }
  split_and!; try done. intros h'. rewrite H6, (en_transfers _ _ _ _ L). cbn [fmap list_fmap fst]. repeat case_decide; set_unfold; try tauto.
  - destruct (decide (h' = h)) as [->|Hne]; [by rewrite dget_ddel_eq|tauto].
  - by rewrite dget_ddel_ne by tauto.
Qed.

Lemma filter_rows {V} (p : pystr * V → bool) (d : list (pystr * V)) :
  dwf d → NoDup (List.filter p d).*1 ∧ (∀ h v, (h, v) ∈ List.filter p d ↔ dget d h = Some v ∧ p (h, v) = true).
Proof.
  intros Hd. split.
  - unfold dwf, dkeys in Hd. induction d as [|x d IH]; [constructor|]. apply NoDup_cons in Hd as [Hx Hd]. cbn [List.filter].
    destruct (p x); [|by apply IH]. cbn [fmap list_fmap]. apply NoDup_cons. split; [|by apply IH]. intros (y & E & Hy)%list_elem_of_fmap.
    apply Hx. rewrite E. apply list_elem_of_fmap. exists y. split; [done|]. apply list_elem_of_In, filter_In in Hy as [Hy _]. by apply list_elem_of_In.
  - intros h v. rewrite list_elem_of_In, filter_In, <- list_elem_of_In. split; intros [H1 H2]; (split; [|done]).
    + by apply elem_of_dget.
    + by apply dget_elem_of.
Qed.

(** Nothing in the tables waits to be reaped. *)
Definition reaped now m : Prop :=
  (∀ h e, dget (m_entries m) h = Some e → Qle_bool (s_deadline (session m e)) now = false) ∧
  (∀ h e, dget (m_transfers m) h = Some e → s_stopped (session m e) = false).

(** Reaping cannot be seen through the handles. *)
Lemma reap_spec x now m :
  wf_but x m →
  let m' := _reap_locked now m in
  wf_but x m' ∧ m_limit m' = m_limit m ∧ m_next m' = m_next m ∧ reaped now m' ∧
  (∀ h, seen now m' h = seen now m h) ∧ (∀ h, given m' h = given m h) ∧ (∀ i, x = Some i → m_heap m' i = m_heap m i).
Proof.
  intros Hm. unfold _reap_locked. destruct (filter_rows (expired now m) (m_entries m) (wf_entries x m Hm)) as [Hn Hin].
  set (l := List.filter (expired now m) (m_entries m)) in *.
  destruct (reap_entries_spec x now l m Hm Hn) as (H1 & H2 & H3 & H4 & H5 & H6 & H7 & H8); [intros h e Hi; by apply Hin|].
  set (m1 := fold_left _ l m) in *. cbv zeta.
  destruct (filter_rows (finished m1) (m_transfers m1) (wf_transfers x m1 H1)) as [Hn2 Hin2].
  set (k := List.filter (finished m1) (m_transfers m1)) in *.
  destruct (reap_transfers_spec x k m1 H1 Hn2) as (K1 & K2 & K3 & K4 & K5 & K6); [intros h e Hi; by apply Hin2|].
  set (m2 := fold_left _ k m1) in *.
  assert (∀ e, session m2 e = session m1 e) as Es by (intros e; unfold session; by rewrite K5).
  assert (∀ h, h ∈ l.*1 → seen now m h = None) as Hl.
  { intros h ([h' e] & -> & [Hd He]%Hin)%list_elem_of_fmap. cbn. unfold seen. rewrite Hd. unfold expired in He. cbn in He. by rewrite He. }
  split_and!; [done|by rewrite K3|by rewrite K4|split|..].
  - intros h e. rewrite K2, Es, H5. case_decide as E; [done|]. intros Hd. destruct (Qle_bool _ now) eqn:Ex; [|done]. exfalso. apply E.
    apply list_elem_of_fmap. exists (h, e). split; [done|]. apply Hin. split; [done|]. unfold expired. cbn [snd].
    unfold session in Ex |- *. rewrite H8 in Ex; [done|]. intros h' e' Hi. apply (known_frame x m h' h e' e Hm); [left; by destruct (proj1 (Hin h' e') Hi)|by left|].
    intros <-. apply E. apply list_elem_of_fmap. by exists (h, e').
  - intros h e. rewrite Es, K6. case_decide as E; [done|]. intros Hd. destruct (s_stopped _) eqn:Ex; [|done]. exfalso. apply E.
    apply list_elem_of_fmap. exists (h, e). split; [done|]. by apply Hin2.
  - intros h. transitivity (seen now m1 h).
    + unfold seen, hold. rewrite K2. destruct (dget _ _); [|done]. by rewrite Es.
    + rewrite H6. case_decide as E; [|done]. by rewrite Hl.
  - intros h. rewrite <- H7. unfold given, hold. rewrite K6. destruct (dget (m_transfers m1) h) as [e|] eqn:Ed; [|by case_decide].
    case_decide as E; [|by rewrite Es]. apply list_elem_of_fmap in E as ([h' e'] & -> & [Hd Hf]%Hin2). cbn in *. rewrite Ed in Hd. injection Hd as <-.
    unfold finished in Hf. cbn in Hf. by rewrite Hf.
  - intros i Hi. rewrite K5. apply H8. intros h e [Hd _]%Hin ->. eapply (wf_new x m Hm h e); [by left|done].
Qed.
End Facts.
