(* ===== verification/HandleRefine.v ===== *)
(** * The handle manager refines its specification *)
From Stdlib Require Import QArith.
From stdpp Require Import functions.
From S2P Require Import Prelude Dict PyStr PyText PyValue Handles HandleSpec HandleFacts.
#[local] Open Scope Z_scope.

Section Refine.
Context {T : Type} `{!Inhabited T, !Session T} {Laws : SessionLaws T}.
Implicit Types (m : manager T) (h : pystr) (e : entry).

(** ** Changing a session in place *)
Record touched m h e (s : T) m' : Prop := {
  tc_entry : dget (m_entries m) h = Some e;
  tc_limit : m_limit m' = m_limit m;
  tc_entries : m_entries m' = m_entries m;
  tc_transfers : m_transfers m' = m_transfers m;
  tc_next : m_next m' = m_next m;
  tc_heap j : m_heap m' j = if decide (j = e_session e) then s else m_heap m j }.

Lemma touch m h e s : dget (m_entries m) h = Some e → touched m h e s (set_session (e_session e) s m).
Proof.
  intros H. split; try done. intros j. cbn. case_decide as E; [subst; apply fn_lookup_insert|by apply fn_lookup_insert_ne].
Qed.

Lemma touched_wf m h e s m' : wf m → touched m h e s m' → s_open s = true → wf m'.
Proof.
  intros Hm L Hs. assert (∀ h' e', known m' h' e' → known m h' e') as Hk
    by (intros h' e'; unfold known; by rewrite (tc_entries _ _ _ _ _ L), (tc_transfers _ _ _ _ _ L)).
  split; rewrite ?(tc_entries _ _ _ _ _ L), ?(tc_transfers _ _ _ _ _ L), ?(tc_next _ _ _ _ _ L), ?(tc_limit _ _ _ _ _ L).
  - apply (wf_entries _ _ Hm).
  - apply (wf_transfers _ _ Hm).
  - apply (wf_disjoint _ _ Hm).
  - intros h1 h2 e1 e2 H1%Hk H2%Hk. by apply (wf_refs _ _ Hm).
  - intros h1 e1 H1%Hk. by eapply (wf_alloc _ _ Hm).
  - done.
  - intros h1 e1 H1%Hk. by eapply (wf_handles _ _ Hm).
  - intros h1 e1 H1. unfold session. rewrite (tc_heap _ _ _ _ _ L). case_decide; [done|]. by eapply (wf_open _ _ Hm).
  - intros i Hi. rewrite (tc_heap _ _ _ _ _ L). case_decide as E; [|by apply (wf_owned _ _ Hm)]. intros _. right. exists h, e.
    split; [apply (tc_entry _ _ _ _ _ L)|done].
  - apply (wf_limit _ _ Hm).
Qed.

Lemma touched_session m h e s m' h' e' :
  wf m → touched m h e s m' → known m h' e' → session m' e' = if decide (h' = h) then s else session m e'.
Proof.
  intros Hm L Hk. unfold session. rewrite (tc_heap _ _ _ _ _ L). assert (known m h e) as Hke by (left; apply (tc_entry _ _ _ _ _ L)).
  repeat case_decide; try done; exfalso.
  - by eapply (wf_refs _ _ Hm h' h) in Hk.
  - subst h'. destruct Hk as [Hd|Hd].
    + rewrite (tc_entry _ _ _ _ _ L) in Hd. by injection Hd as ->.
    + exact (wf_disjoint _ _ Hm h e e' (tc_entry _ _ _ _ _ L) Hd).
Qed.

(** The table is updated at the handle. *)
Lemma touched_abs now m h e s m' :
  wf m → touched m h e s m' → s_open s = true → s_deadline s = s_deadline (session m e) → Qle_bool (s_deadline (session m e)) now = false →
  wf m' ∧ m_limit m' = m_limit m ∧ abs now m' = update h (hold m e) s (abs now m).
Proof.
  intros Hm L Ho Hd Hx. pose proof (touched_wf m h e s m' Hm L Ho) as Hm'. split_and!; [done|apply (tc_limit _ _ _ _ _ L)|].
  apply (abs_intro None); [done| |].
  - intros h'. cbn [live update]. unfold seen. rewrite (tc_entries _ _ _ _ _ L). destruct (decide (h' = h)) as [->|Hne].
    + rewrite lookup_insert_eq, (tc_entry _ _ _ _ _ L). unfold hold.
      rewrite (touched_session m h e s m' h e Hm L (or_introl (tc_entry _ _ _ _ _ L))), decide_True by done. by rewrite Hd, Hx.
    + rewrite lookup_insert_ne by done. rewrite (abs_live None) by done. unfold seen.
      destruct (dget (m_entries m) h') as [e'|] eqn:Ed; [|done]. unfold hold.
      by rewrite (touched_session m h e s m' h' e' Hm L (or_introl Ed)), decide_False by done.
  - intros h'. cbn [lent update]. rewrite (abs_lent None) by done. unfold given. rewrite (tc_transfers _ _ _ _ _ L).
    destruct (dget (m_transfers m) h') as [e'|] eqn:Ed; [|done]. unfold hold.
    rewrite (touched_session m h e s m' h' e' Hm L (or_intror Ed)), decide_False; [done|]. intros ->.
    exact (wf_disjoint _ _ Hm h e e' (tc_entry _ _ _ _ _ L) Ed).
Qed.

Lemma gone_abs now m h e m' : wf m → gone m h e m' → wf m' ∧ m_limit m' = m_limit m ∧ abs now m' = forget h (abs now m).
Proof.
  intros Hm L. pose proof (gone_wf None m h e m' Hm L) as Hm'. split_and!; [done|apply (lf_limit _ _ _ _ L)|]. apply (abs_intro None); [done| |].
  - intros h'. cbn [live forget]. rewrite (gone_seen None now m h e m' h' Hm L), lookup_delete, (abs_live None) by done.
    repeat case_decide; congruence.
  - intros h'. cbn [lent forget]. by rewrite (gone_given None m h e m' h' Hm L), (abs_lent None).
Qed.

Lemma reap_abs now m : wf m → wf (_reap_locked now m) ∧ reaped now (_reap_locked now m) ∧ m_limit (_reap_locked now m) = m_limit m ∧
  abs now (_reap_locked now m) = abs now m.
Proof.
  intros Hm. destruct (reap_spec None now m Hm) as (H1 & H2 & _ & H4 & H5 & H6 & _). split_and!; [done|done|done|]. apply (abs_intro None); [done| |].
  - intros h. by rewrite (abs_live None), H5.
  - intros h. by rewrite (abs_lent None), H6.
Qed.

(** ** Finding the entry of a handle *)
Definition found now handle m (r : result (pystr * entry)) m' : Prop :=
  wf m' ∧ m_limit m' = m_limit m ∧ abs now m' = abs now m ∧
  match lookup_handle handle (abs now m) with
  | Raise x => r = Raise x
  | Ok (h, v) => ∃ e, r = Ok (h, e) ∧ dget (m_entries m') h = Some e ∧ v = hold m' e ∧ handle_of handle = Ok h ∧ reaped now m'
  end.

Lemma entry_found now handle m r m' : wf m → _entry now handle m = (r, m') → found now handle m r m'.
Proof.
  intros Hm H. unfold found, lookup_handle. unfold _entry in H. destruct (M_lift_inv _ _ _ _ _ H) as [(h & Hh & H1)|(-> & x & Hx & ->)]; clear H.
  2: { rewrite Hx. split_and!; done. }
  rewrite Hh. cbn [mbind result_bind]. destruct (reap_abs now m Hm) as (W & Re & Hl & Ha).
  unfold mbind at 1, M_bind at 1, mmod in H1. rewrite M_get_bind in H1. unfold find. rewrite <- Ha, (abs_live None) by done. unfold seen.
  destruct (dget (m_entries (_reap_locked now m)) h) as [e|] eqn:Ed; injection H1 as <- <-; (split_and!; [done..|]).
  - rewrite (proj1 Re h e Ed). cbn [mbind result_bind]. exists e. done.
  - done.
Qed.
Lemma ensure_current_ok m h e : dget (m_entries m) h = Some e → _ensure_current h e m = (Ok tt, m).
Proof. intros H. unfold _ensure_current. rewrite M_get_bind, H, bool_decide_true by done. done. Qed.

(** Every operation on a handle starts by finding its entry. *)
Lemma with_entry {A} now handle (k : pystr → entry → M (manager T) A) m r m' :
  wf m → ('(h, e) ← _entry now handle; _ ← _ensure_current h e; k h e) m = (r, m') →
  (∃ x, lookup_handle handle (abs now m) = Raise x ∧ r = Raise x ∧ wf m' ∧ m_limit m' = m_limit m ∧ abs now m' = abs now m) ∨
  ∃ h e m1, lookup_handle handle (abs now m) = Ok (h, hold m1 e) ∧ dget (m_entries m1) h = Some e ∧ handle_of handle = Ok h ∧
    wf m1 ∧ reaped now m1 ∧ m_limit m1 = m_limit m ∧ abs now m1 = abs now m ∧ k h e m1 = (r, m').
Proof.
  intros Hm H. destruct (M_bind_inv _ _ _ _ _ H) as [([h e] & m1 & He & H2)|(x & He & ->)]; clear H;
    pose proof (entry_found _ _ _ _ _ Hm He) as (W & Hl & Ha & F); destruct (lookup_handle handle (abs now m)) as [[h' v]|x'] eqn:El.
  - right. destruct F as (e' & [= <- <-] & Hd & -> & Hh & Re). exists h, e, m1. split_and!; try done.
    unfold mbind, M_bind in H2. by rewrite (ensure_current_ok m1 h e Hd) in H2.
  - discriminate F.
  - by destruct F as (? & ? & _).
  - left. injection F as <-. by exists x.
Qed.

(** ** Closing *)
Lemma close_gone m h e s handle :
  dget (m_entries m) h = Some e → handle_of handle = Ok h →
  ∃ m', close handle (set_session (e_session e) s m) = (Ok true, m') ∧ gone m h e m'.
Proof.
  intros He Hh. unfold close. eexists. split.
  { unfold mbind at 1, M_bind at 1, mlift. rewrite Hh. cbn iota. rewrite M_get_bind. cbn [m_entries set_session]. rewrite He. reflexivity. }
  split; try done.
  - intros j Hj. cbn. rewrite !fn_lookup_insert_ne by done. done.
  - cbn. rewrite fn_lookup_insert. apply close_shuts.
Qed.

Definition shut h (a : spec T) : spec T := Spec (delete h (live a)) (delete h (lent a)).

Lemma close_refines now handle m r m' :
  wf m → close handle m = (r, m') →
  wf m' ∧ m_limit m' = m_limit m ∧
  match handle_of handle with
  | Raise x => r = Raise x ∧ m' = m
  | Ok h => abs now m' = shut h (abs now m) ∧ ∃ b, r = Ok b ∧ (is_Some (live (abs now m) !! h) → b = true)
  end.
Proof.
  intros Hm H. unfold close in H. destruct (M_lift_inv _ _ _ _ _ H) as [(h & Hh & H1)|(-> & x & Hx & ->)]; clear H; [rewrite Hh|by rewrite Hx].
  rewrite M_get_bind in H1. destruct (dget (m_entries m) h) as [e|] eqn:Ed.
  - injection H1 as <- <-. pose proof (close_entry_gone m h e Ed) as L. destruct (gone_abs now _ _ _ _ Hm L) as (W & Hl & Ha).
    split_and!; [done|done| |by exists true]. rewrite Ha. unfold forget, shut. f_equal. rewrite delete_id; [done|].
    rewrite (abs_lent None) by done. unfold given. destruct (dget (m_transfers m) h) eqn:Et; [|done]. by destruct (wf_disjoint _ _ Hm h e e0).
  - rewrite M_get_bind in H1. assert (live (abs now m) !! h = None) as Hn by (rewrite (abs_live None) by done; unfold seen; by rewrite Ed).
    destruct (dget (m_transfers m) h) as [e|] eqn:Et; injection H1 as <- <-.
    + pose proof (close_lent_ended m h e Et) as L. pose proof (ended_wf None _ _ _ _ Hm L) as W. split_and!; [done|done| |by exists true].
      apply (abs_intro None); [done| |]; intros h'; cbn [live lent shut].
      * rewrite delete_id by done. by rewrite (ended_seen None now m h e _ h' Hm L), (abs_live None).
      * rewrite (ended_given None m h e _ h' Hm L), lookup_delete, (abs_lent None) by done. repeat case_decide; congruence.
    + split_and!; [done|done| |exists false; split; [done|rewrite Hn; by intros []]]. unfold shut. rewrite !delete_id; [by destruct (abs now m)| |done].
      rewrite (abs_lent None) by done. unfold given. by rewrite Et.
Qed.

Lemma close_handles_refines now hs n m r m' :
  wf m → Forall (λ h, 32 ≤ zlen h ≤ 128) hs → close_handles hs n m = (r, m') →
  wf m' ∧ m_limit m' = m_limit m ∧ (∃ k, r = Ok k) ∧
  (∀ h, live (abs now m') !! h = if decide (h ∈ hs) then None else live (abs now m) !! h) ∧
  (∀ h, lent (abs now m') !! h = if decide (h ∈ hs) then None else lent (abs now m) !! h).
Proof.
  revert n m. induction hs as [|h hs IH]; intros n m Hm Hl H.
  { injection H as <- <-. split_and!; [done|done|by eexists|..]; intros h; by rewrite decide_False by apply not_elem_of_nil. }
  apply Forall_cons in Hl as [Hh Hl]. cbn [close_handles] in H. destruct (close (VStr h) m) as [r1 m1] eqn:Ec.
  pose proof (close_refines now _ _ _ _ Hm Ec) as (W & Hlim & Hc). unfold handle_of in Hc. rewrite (proj2 (between_spec 32 (zlen h) 128)) in Hc by lia.
  cbn in Hc. destruct Hc as (Ha & b & -> & _). unfold mbind, M_bind in H. rewrite Ec in H.
  destruct (IH _ _ W Hl H) as (W' & Hlim' & Hr & H1 & H2). split_and!; [done|congruence|done|..]; intros h'; rewrite ?H1, ?H2, Ha; cbn [live lent shut];
    rewrite lookup_delete; repeat case_decide; subst; set_unfold; tauto || naive_solver.
Qed.

(** ** Using a session *)
Lemma set_timeout_ok at_io (s : T) timeout_ms :
  s_open s = true →
  match timeout_ok at_io s timeout_ms with Raise x => _set_timeout at_io s timeout_ms = Raise x | Ok _ => ∃ t, _set_timeout at_io s timeout_ms = Ok t end.
Proof.
  intros Ho. unfold timeout_ok, _set_timeout. destruct timeout_ms; try done. destruct (negb _); [done|]. cbn [raise_if mbind result_bind].
  destruct (Qle_bool _ 0); [done|]. cbn [raise_if mbind result_bind]. rewrite Ho. by eexists.
Qed.

Lemma call_eq {A} e (f : M T A) m r s : f (session m e) = (r, s) → call e f m = (Ok r, set_session (e_session e) s m).
Proof. intros H. unfold call. by rewrite H. Qed.

(** What the state is after a call that went on. *)
Lemma called_abs {A} now m h e (f : M T A) r s :
  wf m → reaped now m → dget (m_entries m) h = Some e → well_behaved f → f (session m e) = (r, s) → goes_on r = true →
  let m' := set_session (e_session e) s m in
  wf m' ∧ m_limit m' = m_limit m ∧ abs now m' = update h (hold m e) s (abs now m) ∧ session m' e = s.
Proof.
  intros Hm Re He Hf Hr Hg. destruct (Hf _ _ _ Hr) as [Hd Ho]. specialize (Ho (wf_open _ _ Hm h e He) Hg).
  destruct (touched_abs now m h e s _ Hm (touch m h e s He) Ho Hd (proj1 Re h e He)) as (? & ? & ?). split_and!; try done.
  unfold session. cbn. apply fn_lookup_insert.
Qed.
Lemma metadata_describe now h e m s : session m e = s → _metadata now h e m = describe now h (Held (e_service e) (e_message e) s).
Proof. intros <-. done. Qed.

(** A session that is given away is kept among the transfers. *)
Lemma lend_abs now m h e m' :
  wf m → gone m h e m' → dget (m_entries m) h = Some e →
  let m2 := set_transfers (dset (m_transfers m') h e) m' in
  wf m2 ∧ abs now m2 = Spec (live (abs now m')) (if s_stopped (session m' e) then lent (abs now m') else <[h := hold m' e]> (lent (abs now m'))).
Proof.
  intros Hm L Hd. pose proof (gone_wf None m h e m' Hm L) as Hm'. assert (dget (m_transfers m') h = None) as Hn.
  { rewrite (lf_transfers _ _ _ _ L). destruct (dget (m_transfers m) h) eqn:Et; [|done]. by destruct (wf_disjoint _ _ Hm h e e0). }
  assert (dget (m_entries m') h = None) as Hn' by (rewrite (lf_entries _ _ _ _ L); apply dget_ddel_eq).
  set (m2 := set_transfers (dset (m_transfers m') h e) m').
  assert (∀ h' e', known m2 h' e' → (h' = h ∧ e' = e) ∨ h' ≠ h ∧ known m' h' e') as Hk.
  { intros h' e'. unfold known, m2. cbn [m_entries m_transfers set_transfers]. destruct (decide (h' = h)) as [->|Hne].
    - rewrite dget_dset_eq, Hn'. intros [|[= ->]]; [done|by left].
    - rewrite dget_dset_ne by done. auto. }
  assert (∀ h' e', known m' h' e' → known m h' e') as Hk' by (intros h' e'; exact (known_gone m h e m' h' e' L)).
  assert (wf m2) as W.
  { split; try apply (wf_entries _ _ Hm').
    - apply dwf_dset, (wf_transfers _ _ Hm').
    - intros h' e1 e2. unfold m2. cbn [m_entries m_transfers set_transfers]. destruct (decide (h' = h)) as [->|Hne]; [by rewrite Hn'|].
      rewrite dget_dset_ne by done. exact (wf_disjoint _ _ Hm' h' e1 e2).
    - intros h1 h2 e1 e2 [[-> ->]|[N1 K1]]%Hk [[-> ->]|[N2 K2]]%Hk Eq; try done.
      + exfalso. apply (known_frame None m h h2 e e2 Hm (or_introl Hd) (Hk' _ _ K2) N2). done.
      + exfalso. apply (known_frame None m h h1 e e1 Hm (or_introl Hd) (Hk' _ _ K1) N1). done.
      + by apply (wf_refs _ _ Hm' h1 h2 e1 e2).
    - intros h1 e1 [[-> ->]|[_ K1]]%Hk; [|by apply (wf_alloc _ _ Hm' h1)]. cbn. rewrite (lf_next _ _ _ _ L). apply (wf_alloc _ _ Hm h). by left.
    - done.
    - intros h1 e1 [[-> ->]|[_ K1]]%Hk; [|by apply (wf_handles _ _ Hm' h1 e1)]. apply (wf_handles _ _ Hm h e). by left.
    - apply (wf_open _ _ Hm').
    - apply (wf_owned _ _ Hm').
    - pose proof (wf_limit _ _ Hm). cbn. rewrite (lf_limit _ _ _ _ L), (lf_entries _ _ _ _ L). unfold zlen in *.
      rewrite (length_dset_None _ _ _ Hn), (lf_transfers _ _ _ _ L). pose proof (length_ddel_Some _ _ _ (wf_entries _ _ Hm) Hd). lia. }
  split; [done|]. apply (abs_intro None); [done| |]; intros h'; cbn [live lent].
  - by rewrite (abs_live None).
  - unfold given, m2. cbn [m_transfers set_transfers]. rewrite dget_dset. change (session (set_transfers _ m')) with (session m').
    change (hold (set_transfers _ m')) with (hold m'). case_bool_decide as E; [subst h'|].
    + destruct (s_stopped (session m' e)); [|by rewrite lookup_insert_eq]. rewrite (abs_lent None) by done. unfold given. by rewrite Hn.
    + destruct (s_stopped (session m' e)); rewrite ?lookup_insert_ne by done; by rewrite (abs_lent None).
Qed.

(** The states before and after an operation agree with the specification. *)
Definition refines (o : op T) m (r : result response) m' : Prop :=
  wf m' ∧ m_limit m' = m_limit m ∧ spec_step (m_limit m) o (abs (op_time o) m) r (abs (op_time o) m').

Lemma respond_inv {A} (f : A → response) (c : M (manager T) A) m r m' :
  respond f c m = (r, m') → ∃ r0, c m = (r0, m') ∧ r = (f <$> r0).
Proof.
  unfold respond. intros H. destruct (M_bind_inv _ _ _ _ _ H) as [(a & m1 & Hc & Hr)|(x & Hc & ->)]; [|by exists (Raise x)].
  injection Hr as <- <-. by exists (Ok a).
Qed.

(** A step that neither fails nor changes the state. *)
Lemma M_pure_bind {S A B} (c : M S A) (k : A → M S B) a s : c s = (Ok a, s) → (c ≫= k) s = k a s.
Proof. intros H. unfold mbind, M_bind. by rewrite H. Qed.

Lemma read_refines now at_io meta i handle max_bytes timeout_ms m r m' :
  wf m → step (ORead now at_io meta i handle max_bytes timeout_ms) m = (r, m') →
  refines (ORead now at_io meta i handle max_bytes timeout_ms) m r m'.
Proof.
  intros Hm (r0 & H & ->)%respond_inv. unfold refines. cbn [spec_step op_time]. unfold read in H.
  destruct (M_lift_inv _ _ _ _ _ H) as [(n & Hn & H1)|(-> & x & Hx & ->)]; clear H.
  2: { split_and!; [done|done|]. destruct max_bytes; try (injection Hx as <-; done). destruct (between 1 z MAX_READ_BYTES); [done|]. by injection Hx as <-. }
  destruct max_bytes; try done. apply bind_Ok_inv in Hn as ([] & Hb%raise_if_Ok & Hn). apply negb_false_iff in Hb. rewrite Hb. injection Hn as ->.
  destruct (with_entry now handle _ m r0 m' Hm H1) as [(x & -> & -> & W & Hl & Ha)|(h & e & m1 & El & Hd & Hh & W & Re & Hl & Ha & H2)]; clear H1;
    [rewrite Ha; by split_and!|rewrite El, !M_get_bind in *].
  cbn [guarded]. unfold spec_read. cbn [h_message h_session hold]. rewrite <- Ha, <- Hl.
  assert (s_open (session m1 e) = true) as Ho by (by eapply (wf_open _ _ W)).
  destruct (M_lift_inv _ _ _ _ _ H2) as [([] & Hg%raise_if_Ok & H3)|(-> & x & [Hg ->]%raise_if_Raise & ->)]; clear H2; rewrite Hg; [|by split_and!].
  cbn [raise_if mbind result_bind]. rewrite M_get_bind in H3. pose proof (set_timeout_ok at_io (session m1 e) timeout_ms Ho) as Ht.
  destruct (timeout_ok at_io (session m1 e) timeout_ms) as [[]|x]; [destruct Ht as [t Ht]|]; rewrite Ht in H3; [|by injection H3 as <- <-].
  rewrite (M_pure_bind (mlift (Ok t)) _ t m1 eq_refl) in H3.
  set (f := if e_message e then s_receive_record i else s_receive i n) in *.
  assert (well_behaved f) as Hf by (unfold f; destruct (e_message e); [apply receive_record_behaves|apply receive_behaves]).
  destruct (f (session m1 e)) as [rr s] eqn:Ef. unfold mbind at 1, M_bind at 1 in H3. rewrite (call_eq e f m1 rr s Ef) in H3.
  destruct rr as [data|x].
  - destruct (called_abs now m1 h e f _ s W Re Hd Hf Ef eq_refl) as (W2 & Hl2 & Ha2 & Es). rewrite !M_get_bind, Es, (metadata_describe _ _ _ _ _ Es) in H3.
    destruct (if e_message e then s_eof s else bool_decide (data = [])).
    + destruct (close_gone m1 h e s handle Hd Hh) as (m2 & Hc & L). unfold mbind, M_bind in H3. rewrite Hc in H3. injection H3 as <- <-.
      destruct (gone_abs now _ _ _ _ W L) as (W3 & Hl3 & Ha3). split_and!; [done|done|]. by rewrite Ha3.
    + injection H3 as <- <-. split_and!; [done|done|]. by rewrite Ha2.
  - destruct (isa (exn_cls x) TimeoutError) eqn:Et.
    + injection H3 as <- <-. destruct (called_abs now m1 h e f _ s W Re Hd Hf Ef) as (W2 & Hl2 & Ha2 & _); [cbn; by rewrite Et|].
      split_and!; [done|done|]. by rewrite Ha2.
    + destruct (close_gone m1 h e s handle Hd Hh) as (m2 & Hc & L). unfold mbind, M_bind in H3. rewrite Hc in H3. injection H3 as <- <-.
      destruct (gone_abs now _ _ _ _ W L) as (W3 & Hl3 & Ha3). split_and!; [done|done|]. by rewrite Ha3.
Qed.

Lemma write_refines now at_io meta i handle data timeout_ms m r m' :
  wf m → step (OWrite now at_io meta i handle data timeout_ms) m = (r, m') →
  refines (OWrite now at_io meta i handle data timeout_ms) m r m'.
Proof.
  intros Hm (r0 & H & ->)%respond_inv. unfold refines. cbn [spec_step op_time]. unfold write in H.
  destruct (M_lift_inv _ _ _ _ _ H) as [([] & Hn%raise_if_Ok & H1)|(-> & x & [Hx ->]%raise_if_Raise & ->)]; clear H; [rewrite Hn|by rewrite Hx].
  destruct (with_entry now handle _ m r0 m' Hm H1) as [(x & -> & -> & W & Hl & Ha)|(h & e & m1 & El & Hd & Hh & W & Re & Hl & Ha & H2)]; clear H1;
    [rewrite Ha; by split_and!|rewrite El, !M_get_bind in *].
  cbn [guarded]. unfold spec_write. cbn [h_message h_session hold]. rewrite <- Ha, <- Hl.
  assert (s_open (session m1 e) = true) as Ho by (by eapply (wf_open _ _ W)).
  pose proof (set_timeout_ok at_io (session m1 e) timeout_ms Ho) as Ht.
  destruct (timeout_ok at_io (session m1 e) timeout_ms) as [[]|x]; [destruct Ht as [t Ht]|]; rewrite Ht in H2; [|by injection H2 as <- <-].
  rewrite (M_pure_bind (mlift (Ok t)) _ t m1 eq_refl) in H2.
  set (f := if e_message e then s_send_record i data else s_send i data) in *.
  assert (well_behaved f) as Hf by (unfold f; destruct (e_message e); [apply send_record_behaves|apply send_behaves]).
  destruct (f (session m1 e)) as [rr s] eqn:Ef. unfold mbind at 1, M_bind at 1 in H2. rewrite (call_eq e f m1 rr s Ef) in H2.
  destruct rr as [[]|x].
  - destruct (called_abs now m1 h e f _ s W Re Hd Hf Ef eq_refl) as (W2 & Hl2 & Ha2 & Es). rewrite !M_get_bind, Es, (metadata_describe _ _ _ _ _ Es) in H2.
    injection H2 as <- <-. split_and!; [done|done|]. by rewrite Ha2.
  - pose proof (called_abs now m1 h e f _ s W Re Hd Hf Ef) as Hgo. cbn [goes_on] in Hgo.
    destruct (isa (exn_cls x) TimeoutError) eqn:Et; [|destruct (isa (exn_cls x) BlockingIOError) eqn:Eb].
    1, 2: injection H2 as <- <-; destruct (Hgo eq_refl) as (W2 & Hl2 & Ha2 & _); (split_and!; [done|done|]); by rewrite Ha2.
    destruct (close_gone m1 h e s handle Hd Hh) as (m2 & Hc & L). unfold mbind, M_bind in H2. rewrite Hc in H2. injection H2 as <- <-.
    destruct (gone_abs now _ _ _ _ W L) as (W3 & Hl3 & Ha3). split_and!; [done|done|]. by rewrite Ha3.
Qed.
Lemma transfer_refines now handle m r m' :
  wf m → step (OTransfer now handle) m = (r, m') → refines (OTransfer now handle) m r m'.
Proof.
  intros Hm (r0 & H & ->)%respond_inv. unfold refines. cbn [spec_step op_time]. unfold transfer_fd in H.
  destruct (with_entry now handle _ m r0 m' Hm H) as [(x & -> & -> & W & Hl & Ha)|(h & e & m1 & El & Hd & Hh & W & Re & Hl & Ha & H2)]; clear H;
    [rewrite Ha; by split_and!|rewrite El].
  unfold mbind at 1, M_bind at 1, mmod at 1 in H2. rewrite M_get_bind in H2. unfold mbind at 1, M_bind at 1, mmod at 1 in H2.
  change (session (set_entries (ddel (m_entries m1) h) m1) e) with (session m1 e) in H2.
  set (m2 := set_session (e_session e) (s_detach (session m1 e)) (set_entries (ddel (m_entries m1) h) m1)) in *.
  assert (gone m1 h e m2) as L.
  { split; try done; [intros j Hj; cbn; by apply fn_lookup_insert_ne|]. cbn. rewrite fn_lookup_insert. apply detach_gives. }
  destruct (gone_abs now _ _ _ _ W L) as (W2 & Hl2 & Ha2). assert (session m2 e = s_detach (session m1 e)) as Es by (unfold session; cbn; apply fn_lookup_insert).
  cbn [h_session hold h_service h_message]. rewrite <- Ha. destruct (s_detachable (session m1 e)).
  2: { injection H2 as <- <-. split_and!; [done|congruence|done|]. by rewrite Ha2. }
  change (mmod (λ m, set_transfers (dset (m_transfers m) h e) m) m2) with (Ok tt : result unit, set_transfers (dset (m_transfers m2) h e) m2) in H2.
  apply pair_equal_spec in H2 as [<- <-]. destruct (lend_abs now m1 h e m2 W L Hd) as (W3 & Ha3). cbn [andb].
  split_and!; [done|cbn; congruence|done|]. rewrite Ha3, Ha2. unfold hold. rewrite Es. cbv zeta.
  cbn [live lent forget h_session h_service h_message]. by destruct (s_stopped (s_detach (session m1 e))).
Qed.
(** ** Opening *)
Lemma alloc_wf now m s :
  wf m → let m' := (alloc s m).2 in
  wf_but (Some (m_next m)) m' ∧ (∀ h, seen now m' h = seen now m h) ∧ (∀ h, given m' h = given m h) ∧ m_heap m' (m_next m) = s.
Proof.
  intros Hm. cbn [alloc snd]. set (m' := Manager _ _ _ _ _).
  assert (∀ h e, known m h e → session m' e = session m e) as Hs.
  { intros h e Hk. unfold session, m'. cbn. apply fn_lookup_insert_ne. pose proof (wf_alloc _ _ Hm h e Hk). lia. }
  split_and!.
  - split; try apply Hm.
    + intros h e Hk. pose proof (wf_alloc _ _ Hm h e Hk). cbn. lia.
    + intros h e Hk [= E]. pose proof (wf_alloc _ _ Hm h e Hk). lia.
    + intros h e Hd. rewrite (Hs h e (or_introl Hd)). by apply (wf_open _ _ Hm h).
    + intros i Hi Ho. destruct (decide (i = m_next m)) as [->|Hne]; [by left|right]. unfold m' in *. cbn in *.
      rewrite fn_lookup_insert_ne in Ho by done. destruct (wf_owned _ _ Hm i) as [?|?]; [lia|done|done|done].
  - intros h. unfold seen, hold. change (m_entries m') with (m_entries m). destruct (dget (m_entries m) h) as [e|] eqn:E; [|done].
    by rewrite (Hs h e (or_introl E)).
  - intros h. unfold given, hold. change (m_transfers m') with (m_transfers m). destruct (dget (m_transfers m) h) as [e|] eqn:E; [|done].
    by rewrite (Hs h e (or_intror E)).
  - unfold m'. cbn. apply fn_lookup_insert.
Qed.

(** After reaping, the table is as large as the two dictionaries. *)
Lemma reaped_size x now m : wf_but x m → reaped now m → Z.of_nat (size (live (abs now m)) + size (lent (abs now m))) = zlen (m_entries m) + zlen (m_transfers m).
Proof.
  intros Hm [R1 R2]. unfold zlen. rewrite (size_of_dict (hold m) (m_entries m) _ (wf_entries _ _ Hm)), (size_of_dict (hold m) (m_transfers m) _ (wf_transfers _ _ Hm)); [lia|..].
  - intros h. rewrite (abs_lent x) by done. unfold given. destruct (dget _ _) eqn:E; [|done]. by rewrite (R2 _ _ E).
  - intros h. rewrite (abs_live x) by done. unfold seen. destruct (dget _ _) eqn:E; [|done]. by rewrite (R1 _ _ E).
Qed.

(** The new session is refused and closed. *)
Lemma refuse_abs now m e :
  wf_but (Some (e_session e)) m → wf (_close_entry e m) ∧ abs now (_close_entry e m) = abs now m.
Proof.
  intros Hm. assert (∀ h e', known m h e' → session (_close_entry e m) e' = session m e') as Hs.
  { intros h e' Hk. unfold session. cbn. apply fn_lookup_insert_ne. intros E. apply (wf_new _ _ Hm h e' Hk). by rewrite E. }
  assert (wf (_close_entry e m)) as W.
  { split; try apply Hm; try done.
    - intros h e' Hd. rewrite (Hs h e' (or_introl Hd)). by apply (wf_open _ _ Hm h).
    - intros i Hi Ho. right. cbn in Ho. destruct (decide (i = e_session e)) as [->|Hne]; [by rewrite fn_lookup_insert, close_shuts in Ho|].
      rewrite fn_lookup_insert_ne in Ho by done. by destruct (wf_owned _ _ Hm i Hi Ho) as [[= ?]|?]. }
  split; [done|]. apply (abs_intro None); [done| |]; intros h.
  - rewrite (abs_live (Some (e_session e))) by done. unfold seen, hold. cbn [m_entries _close_entry set_session].
    destruct (dget (m_entries m) h) as [e'|] eqn:E; [|done]. by rewrite (Hs h e' (or_introl E)).
  - rewrite (abs_lent (Some (e_session e))) by done. unfold given, hold. cbn [m_transfers _close_entry set_session].
    destruct (dget (m_transfers m) h) as [e'|] eqn:E; [|done]. by rewrite (Hs h e' (or_intror E)).
Qed.

(** The new session is admitted under a fresh handle. *)
Lemma admit_wf m h e :
  wf_but (Some (e_session e)) m → (e_session e < m_next m)%nat → s_open (session m e) = true → dget (m_entries m) h = None → dget (m_transfers m) h = None →
  32 ≤ zlen h ≤ 128 → zlen (m_entries m) + zlen (m_transfers m) < m_limit m → wf (set_entries (dset (m_entries m) h e) m).
Proof.
  intros Hm Hi Ho Hn Hn' Hh Hlim. set (m' := set_entries _ m).
  assert (∀ h' e', known m' h' e' → (h' = h ∧ e' = e) ∨ h' ≠ h ∧ known m h' e') as Hk.
  { intros h' e'. unfold known, m'. cbn [m_entries m_transfers set_entries]. destruct (decide (h' = h)) as [->|Hne].
    - rewrite dget_dset_eq, Hn'. intros [[= ->]|]; [by left|done].
    - rewrite dget_dset_ne by done. auto. }
  split; try apply Hm; try done.
  - apply dwf_dset, (wf_entries _ _ Hm).
  - intros h' e1 e2 H1 H2. assert (known m' h' e1) as [[-> ->]|[Hne [K|K]]]%Hk by (by left).
    + cbn in H2. by rewrite Hn' in H2.
    + by apply (wf_disjoint _ _ Hm h' e1 e2).
    + cbn in H1. rewrite dget_dset_ne in H1 by done. by apply (wf_disjoint _ _ Hm h' e1 e2).
  - intros h1 h2 e1 e2 [[-> ->]|[_ K1]]%Hk [[-> ->]|[_ K2]]%Hk Eq; try done.
    + destruct (wf_new _ _ Hm h2 e2 K2). by rewrite Eq.
    + destruct (wf_new _ _ Hm h1 e1 K1). by rewrite Eq.
    + by apply (wf_refs _ _ Hm h1 h2 e1 e2).
  - intros h1 e1 [[-> ->]|[_ K1]]%Hk; [done|by apply (wf_alloc _ _ Hm h1 e1)].
  - intros h1 e1 [[-> ->]|[_ K1]]%Hk; [done|by apply (wf_handles _ _ Hm h1 e1)].
  - intros h1 e1 H1. change (session m' e1) with (session m e1). cbn in H1. rewrite dget_dset in H1.
    case_bool_decide; [by injection H1 as <-|by apply (wf_open _ _ Hm h1)].
  - intros i Hi' Ho'. right. destruct (wf_owned _ _ Hm i Hi' Ho') as [[= <-]|(h' & e' & Hd & He)].
    + exists h, e. split; [apply dget_dset_eq|done].
    + exists h', e'. split; [|done]. cbn. rewrite dget_dset_ne; [done|]. intros ->. congruence.
  - cbn. unfold zlen in *. rewrite (length_dset_None _ _ _ Hn). lia.
Qed.

Lemma admit_abs now m h e :
  wf_but (Some (e_session e)) m → wf (set_entries (dset (m_entries m) h e) m) →
  abs now (set_entries (dset (m_entries m) h e) m) = expire now (Spec (<[h := hold m e]> (live (abs now m))) (lent (abs now m))).
Proof.
  intros Hm W. set (m' := set_entries _ m) in *. apply (abs_intro None); [done| |]; intros h'; cbn [live lent expire].
  - apply option_eq. intros v. rewrite map_lookup_filter_Some, lookup_insert_Some, (abs_live (Some (e_session e))) by done.
    unfold seen, in_time. cbn [snd m_entries set_entries m']. change (session m') with (session m). change (hold m') with (hold m). rewrite dget_dset.
    case_bool_decide as E; [subst h'|].
    + destruct (Qle_bool (s_deadline (session m e)) now) eqn:Ex; split; try done.
      * intros [[[_ <-]|[? _]] Hx]; [|done]. cbn in Hx. by rewrite Ex in Hx.
      * intros [[[_ <-]|[? _]] _]; done.
      * intros [= <-]. cbn. rewrite Ex. auto.
    + destruct (dget (m_entries m) h') as [e'|] eqn:Ed; [|split; [intros [[[? _]|[_ ?]] _]; congruence|done]].
      destruct (Qle_bool (s_deadline (session m e')) now) eqn:Ex; (split; [intros [[[? _]|[_ ?]] _]; congruence|]); [done|].
      intros [= <-]. cbn. rewrite Ex. auto.
  - by rewrite (abs_lent (Some (e_session e))).
Qed.

(** What is assumed of an operation: a session that was opened is open, and the
    handles drawn have the length of [token_urlsafe(32)] and do not collide with
    a transferred session's, and one of them is unused. *)
Definition op_ok (o : op T) m : Prop :=
  match o with
  | OOpen _ _ _ _ _ opened draws =>
      (∀ message s, opened = Ok (message, s) → s_open s = true) ∧ (∀ h, h ∈ draws → 32 ≤ zlen h ≤ 128 ∧ dget (m_transfers m) h = None) ∧
      (∃ h, h ∈ draws ∧ dget (m_entries m) h = None)
  | _ => True
  end.

Lemma ddel_sub {V} (d : list (pystr * V)) h k v : dget (ddel d k) h = Some v → dget d h = Some v.
Proof. destruct (decide (h = k)) as [->|Hne]; [by rewrite dget_ddel_eq|by rewrite dget_ddel_ne]. Qed.

Lemma reap_sub now m h e :
  (dget (m_transfers (_reap_locked now m)) h = Some e → dget (m_transfers m) h = Some e) ∧
  (dget (m_entries (_reap_locked now m)) h = Some e → dget (m_entries m) h = Some e).
Proof.
  unfold _reap_locked. set (m1 := fold_left _ (List.filter (expired now m) (m_entries m)) m).
  assert (m_transfers m1 = m_transfers m ∧ (dget (m_entries m1) h = Some e → dget (m_entries m) h = Some e)) as [<- H1].
  { unfold m1. generalize (List.filter (expired now m) (m_entries m)). intros l. clear m1. revert m. induction l as [|x l IH]; intros m; [done|].
    cbn [fold_left]. destruct (IH (_close_entry x.2 (set_entries (ddel (m_entries m) x.1) m))) as [-> H]. split; [done|].
    intros Hd%H. by apply ddel_sub in Hd. }
  cut (∀ l m', (dget (m_transfers (fold_left (λ m he, set_transfers (ddel (m_transfers m) he.1) m) l m')) h = Some e → dget (m_transfers m') h = Some e) ∧
               m_entries (fold_left (λ m (he : pystr * entry), set_transfers (ddel (m_transfers m) he.1) m) l m') = m_entries m').
  { intros Hc. destruct (Hc (List.filter (finished m1) (m_transfers m1)) m1) as [Ht He]. cbv zeta. rewrite He. auto. }
  intros l. induction l as [|x l IH]; intros m'; [done|]. cbn [fold_left]. destruct (IH (set_transfers (ddel (m_transfers m') x.1) m')) as [Ht ->].
  split; [|done]. intros Hd%Ht. by apply ddel_sub in Hd.
Qed.

Lemma open_refines now later service lock_digest plan_digest opened draws m r m' :
  let o := OOpen now later service lock_digest plan_digest opened draws in
  wf m → op_ok o m → step o m = (r, m') → refines o m r m'.
Proof.
  cbv zeta. intros Hm (Hop & Hdr & Hfr) (r0 & H & ->)%respond_inv. unfold refines. cbn [spec_step op_time]. unfold open in H.
  destruct service as [| | | |service| |], lock_digest as [| | | |lk| |], plan_digest as [| | | |pl| |]; try (injection H as <- <-; by split_and!).
  destruct opened as [[message s]|x]; [|by injection H as <- <-]. specialize (Hop message s eq_refl). unfold mbind at 1, M_bind at 1, mlift in H.
  destruct (alloc_wf now m s Hm) as (W0 & Hs0 & Hg0 & Hn0). unfold mbind at 1, M_bind at 1 in H. change (alloc s m) with (Ok (m_next m), (alloc s m).2) in H.
  set (m0 := (alloc s m).2) in *. set (e := Entry service lk pl message (m_next m)) in *. unfold mbind at 1, M_bind at 1, mmod in H.
  destruct (reap_spec (Some (m_next m)) now m0 W0) as (W1 & Hl1 & Hx1 & R1 & Hs1 & Hg1 & Hh1). set (m1 := _reap_locked now m0) in *.
  assert (abs now m1 = abs now m) as Ha.
  { apply (abs_intro (Some (m_next m))); [done| |]; intros h; [by rewrite (abs_live None), Hs1, Hs0|by rewrite (abs_lent None), Hg1, Hg0]. }
  assert (session m1 e = s) as Es by (unfold session; cbn; by rewrite (Hh1 _ eq_refl), Hn0). rewrite M_get_bind in H.
  change (m_limit m0) with (m_limit m) in Hl1. rewrite Hl1, <- (reaped_size _ _ _ W1 R1), Ha in H.
  destruct (m_limit m <=? Z.of_nat (size (live (abs now m)) + size (lent (abs now m)))) eqn:Ef.
  { destruct (proj1 (pair_equal_spec (raise ValueError "ApplicationSessionCapacityReached") r0 (_close_entry e m1) m') H) as [<- <-].
    destruct (refuse_abs now m1 e W1) as [W2 Ha2]. split_and!; [done|done|done|by rewrite Ha2]. }
  rewrite M_get_bind in H. destruct (List.find _ draws) as [h|] eqn:Eh.
  - apply List.find_some in Eh as [Hin%list_elem_of_In Hfree%negb_true_iff]. destruct (Hdr h Hin) as [Hlen Htr].
    unfold dmem in Hfree. destruct (dget (m_entries m1) h) eqn:Ed; [done|].
    assert (dget (m_transfers m1) h = None) as Htr1 by (destruct (dget (m_transfers m1) h) eqn:E; [|done]; apply reap_sub in E; cbn in E; congruence).
    assert (wf (set_entries (dset (m_entries m1) h e) m1)) as W2.
    { apply admit_wf; try done; [rewrite Hx1; cbn; lia|by rewrite Es|]. apply Z.leb_gt in Ef. rewrite <- (reaped_size _ _ _ W1 R1), Ha, Hl1. lia. }
    pose proof (admit_abs now m1 h e W1 W2) as Ha2.
    destruct (proj1 (pair_equal_spec (Ok (Some (_metadata later h e m1))) r0 (set_entries (dset (m_entries m1) h e) m1) m') H) as [<- <-].
    split_and!; [done|done|]. exists h. split_and!; [done| | |].
    + rewrite <- Ha, (abs_live (Some (m_next m))) by done. unfold seen. by rewrite Ed.
    + cbn [fmap result_fmap]. do 3 f_equal. apply metadata_describe. exact Es.
    + rewrite Ha2, Ha. unfold hold. by rewrite Es.
  - destruct Hfr as (h & Hin & Hfree). apply List.find_none with (x := h) in Eh; [|by apply list_elem_of_In].
    apply negb_false_iff in Eh. unfold dmem in Eh. destruct (dget (m_entries m1) h) eqn:Ed; [|done].
    apply reap_sub in Ed. cbn in Ed. congruence.
Qed.
(** ** Closing many handles *)
Lemma rows_ok m (p : pystr * entry → bool) :
  wf m → Forall (λ h, 32 ≤ zlen h ≤ 128) ((List.filter p (m_entries m)).*1 ++ (List.filter p (m_transfers m)).*1).
Proof.
  intros Hm. destruct (filter_rows p _ (wf_entries _ _ Hm)) as [_ H1], (filter_rows p _ (wf_transfers _ _ Hm)) as [_ H2].
  apply Forall_app. split; apply Forall_forall; intros h ([h' e] & -> & Hin)%list_elem_of_fmap; apply (wf_handles _ _ Hm h' e);
    [left; by apply H1 in Hin as [? _]|right; by apply H2 in Hin as [? _]].
Qed.

(** The handles of a kind are among those that are closed exactly when they
    denote a session of that kind. *)
Lemma rows_member m (p : pystr * entry → bool) h :
  wf m → h ∈ (List.filter p (m_entries m)).*1 ++ (List.filter p (m_transfers m)).*1 ↔
    ∃ e, known m h e ∧ p (h, e) = true.
Proof.
  intros Hm. destruct (filter_rows p _ (wf_entries _ _ Hm)) as [_ H1], (filter_rows p _ (wf_transfers _ _ Hm)) as [_ H2].
  rewrite elem_of_app, !list_elem_of_fmap. split.
  - intros [([h' e] & -> & [? ?]%H1)|([h' e] & -> & [? ?]%H2)]; exists e; (split; [|done]); [by left|by right].
  - intros (e & [Hd|Hd] & Hp); [left|right]; exists (h, e); (split; [done|]); [by apply H1|by apply H2].
Qed.

Lemma close_rows now (p : pystr * entry → bool) (q : held T → bool) m r m' :
  wf m → (∀ h e, p (h, e) = q (hold m e)) →
  close_handles ((List.filter p (m_entries m)).*1 ++ (List.filter p (m_transfers m)).*1) 0 m = (r, m') →
  wf m' ∧ m_limit m' = m_limit m ∧ (∃ k, r = Ok k) ∧
  abs now m' = Spec (filter (λ hv, q hv.2 = false) (live (abs now m))) (filter (λ hv, q hv.2 = false) (lent (abs now m))).
Proof.
  intros Hm Hq H. destruct (close_handles_refines now _ _ _ _ _ Hm (rows_ok m p Hm) H) as (W & Hl & Hk & H1 & H2). split_and!; [done..|].
  destruct (abs now m') as [l g]. cbn [live lent] in *. f_equal; apply map_eq; intros h; [rewrite H1|rewrite H2]; apply option_eq; intros v;
    rewrite map_lookup_filter_Some; [rewrite (abs_live None) by done|rewrite (abs_lent None) by done]; unfold seen, given.
  - destruct (dget (m_entries m) h) as [e|] eqn:Ed; [|case_decide; split; [done|by intros []|done|by intros []]].
    case_decide as E; destruct (Qle_bool _ _); try (split; [done|by intros []]).
    + apply (rows_member m p h Hm) in E as (e' & Hk' & Hp). split; [done|]. intros [[= <-] Hf]. destruct Hk' as [Hk'|Hk'].
      * rewrite Ed in Hk'. injection Hk' as <-. rewrite (Hq h e) in Hp. cbn in Hf. congruence.
      * by destruct (wf_disjoint _ _ Hm h e e').
    + split; [|by intros []]. intros [= <-]. split; [done|]. apply not_true_iff_false. cbn. rewrite <- (Hq h). intros Hp. apply E.
      apply rows_member; [done|]. exists e. split; [by left|done].
  - destruct (dget (m_transfers m) h) as [e|] eqn:Ed; [|case_decide; split; [done|by intros []|done|by intros []]].
    case_decide as E; destruct (s_stopped _); try (split; [done|by intros []]).
    + apply (rows_member m p h Hm) in E as (e' & Hk' & Hp). split; [done|]. intros [[= <-] Hf]. destruct Hk' as [Hk'|Hk'].
      * by destruct (wf_disjoint _ _ Hm h e' e).
      * rewrite Ed in Hk'. injection Hk' as <-. rewrite (Hq h e) in Hp. cbn in Hf. congruence.
    + split; [|by intros []]. intros [= <-]. split; [done|]. apply not_true_iff_false. cbn. rewrite <- (Hq h). intros Hp. apply E.
      apply rows_member; [done|]. exists e. split; [by right|done].
Qed.

Lemma close_entries handle m r m' h' :
  close handle m = (r, m') → dget (m_entries m') h' = match handle_of handle with Ok h => dget (ddel (m_entries m) h) h' | Raise _ => dget (m_entries m) h' end.
Proof.
  intros H. unfold close in H. destruct (M_lift_inv _ _ _ _ _ H) as [(h & Hh & H1)|(-> & x & Hx & _)]; clear H; [rewrite Hh|by rewrite Hx].
  rewrite M_get_bind in H1. destruct (dget (m_entries m) h) as [e|] eqn:Ed; [by injection H1 as <- <-|].
  rewrite (ddel_notin _ _ Ed). rewrite M_get_bind in H1. destruct (dget (m_transfers m) h); by injection H1 as <- <-.
Qed.

Lemma close_handles_entries hs n m r m' :
  Forall (λ h, 32 ≤ zlen h ≤ 128) hs → close_handles hs n m = (r, m') →
  ∀ h, dget (m_entries m') h = if decide (h ∈ hs) then None else dget (m_entries m) h.
Proof.
  revert n m. induction hs as [|h hs IH]; intros n m Hl H h'.
  { injection H as <- <-. by rewrite decide_False by apply not_elem_of_nil. }
  apply Forall_cons in Hl as [Hh Hl]. cbn [close_handles] in H. destruct (close (VStr h) m) as [r1 m1] eqn:Ec.
  pose proof (λ h', close_entries _ _ _ _ h' Ec) as He. unfold handle_of in He. rewrite (proj2 (between_spec 32 (zlen h) 128)) in He by lia. cbn in He.
  assert (∃ b, r1 = Ok b) as [b ->].
  { revert Ec. unfold close, handle_of. rewrite (proj2 (between_spec 32 (zlen h) 128)) by lia. cbn. unfold mbind, M_bind, mlift, mget. cbn.
    destruct (dget (m_entries m) h); [|destruct (dget (m_transfers m) h)]; intros [= <- <-]; by eexists. }
  unfold mbind, M_bind in H. rewrite Ec in H. rewrite (IH _ _ Hl H h'), He. destruct (decide (h' = h)) as [->|Hne].
  - rewrite dget_ddel_eq, (decide_True (P := h ∈ h :: hs)) by left. by case_decide.
  - rewrite dget_ddel_ne by done. repeat case_decide; set_unfold; naive_solver.
Qed.

Lemma filter_all {V} (d : list V) : List.filter (λ _, true) d = d.
Proof. induction d as [|x d IH]; [done|]. cbn. by rewrite IH. Qed.

Lemma close_all_empties m r m' : wf m → close_all m = (r, m') → wf m' ∧ ∀ h, dget (m_entries m') h = None.
Proof.
  intros Hm H. unfold close_all in H. rewrite M_get_bind in H. pose proof (rows_ok m (λ _, true) Hm) as Hl. rewrite !filter_all in Hl. split.
  - by apply (close_handles_refines 0 _ _ _ _ _ Hm Hl H).
  - intros h. rewrite (close_handles_entries _ _ _ _ _ Hl H h). case_decide as E; [done|]. apply dget_None. intros Hk. apply E. apply elem_of_app. by left.
Qed.

Lemma step_refines o m r m' : wf m → op_ok o m → step o m = (r, m') → refines o m r m'.
Proof.
  intros Hm Hok H. destruct o.
  - by apply open_refines.
  - by apply read_refines.
  - by apply write_refines.
  - apply respond_inv in H as (r0 & H & ->). destruct (close_refines now _ _ _ _ Hm H) as (W & Hl & Hc). unfold refines. cbn [spec_step op_time].
    destruct (handle_of handle) as [h|x]; split_and!; try done.
    + apply Hc.
    + destruct Hc as (_ & b & -> & Hb). by exists b.
    + destruct Hc as [-> _]. done.
    + by destruct Hc as [_ ->].
  - by apply transfer_refines.
  - apply respond_inv in H as (r0 & H & ->). unfold close_service in H. rewrite M_get_bind in H.
    destruct (close_rows now (of_service service) (λ v, bool_decide (h_service v = service)) m r0 m' Hm) as (W & Hl & [k ->] & Ha); [done|done|].
    unfold refines. cbn [spec_step op_time]. split_and!; [done|done| |by exists k]. rewrite Ha.
    f_equal; apply map_filter_ext; intros i v _; cbn; by rewrite bool_decide_eq_false.
  - apply respond_inv in H as (r0 & H & ->). unfold close_all in H. rewrite M_get_bind in H.
    destruct (close_rows now (λ _, true) (λ _, true) m r0 m' Hm) as (W & Hl & [k ->] & Ha); [done|by rewrite !filter_all|].
    unfold refines. cbn [spec_step op_time]. split_and!; [done|done| |by exists k]. rewrite Ha.
    f_equal; apply map_empty; intros h; apply map_lookup_filter_None; right; done.
Qed.
End Refine.
