(* ===== verification/AppSessions.v ===== *)
(** * The sessions behind the handles

    The byte streams and record sessions of [Deployment/connection_plan.py] and
    the local end of a credited boundary ([libshadow6/credited_boundary.py]) as
    one type of session, with the methods that [session_handles.py] calls.  The
    worker thread of a credited boundary is not modelled: when it stops and what
    it has delivered are part of the environment. *)
From Stdlib Require Import QArith.
From S2P Require Import Prelude Dict PyStr PyText PyValue S6naCodec S6naAdapter Sessions Handles HandleSpec.
#[local] Open Scope Z_scope.

(** ** Timeouts of the local sessions

    A timeout expires in the system call, after the budget has been charged. *)
Definition stream_receive (i : io) (size : Z) : M stream_session bytes :=
  if io_timeout i then
    _ ← mraise_if (negb (between 1 size 65536)) ValueError "invalid receive bound";
    _ ← stream_budget (io_now i) 0; _ ← stream_socket; mraise TimeoutError "timed out"
  else receive_stream (io_now i) (io_later i) size (io_bytes i).

Definition stream_send (i : io) (data : bytes) : M stream_session unit :=
  if io_timeout i then _ ← stream_budget (io_now i) (zlen data); _ ← stream_socket; mraise TimeoutError "timed out"
  else _ ← send_stream (io_now i) data; mret tt.

Definition message_receive (i : io) : M message_session bytes :=
  if io_timeout i then _ ← message_budget (io_now i) 0; _ ← message_socket; mraise TimeoutError "timed out"
  else receive_record (io_now i) (io_later i) (io_bytes i) (io_truncated i).

Definition message_send (i : io) (data : bytes) : M message_session unit := _ ← send_record (io_now i) data (io_taken i); mret tt.

(** ** The credited boundary *)
Record credited_boundary := Credited {
  c_max_record : Z; c_deadline : Q; c_remaining : Z; c_stopped : bool; c_open : bool }.

(** [free] says that one of the 64 workers is available. *)
Definition make_credited (now lifetime : Q) (free : bool) (a : adapter) (kind max_record : pyval) : result credited_boundary :=
  known ← in_set kind ["stream"; "message"];
  match max_record with
  | VInt n =>
      _ ← raise_if (negb known || negb (between 1 n 65536)) ValueError "InvalidCreditedBoundary";
      _ ← raise_if (Qle_bool lifetime 0 || negb (Qle_bool lifetime 300)) ValueError "InvalidCreditedLifetime";
      _ ← raise_if (negb free) ValueError "ApplicationSessionCapacityReached";
      let largest := Z.min (Z.min n (max_message (a_limits a))) (c_payload (a_codec a) * window a) in
      Ok (Credited largest (now + lifetime)%Q (16 * 1024 * 1024) false true)
  | _ => raise ValueError "InvalidCreditedBoundary"
  end.

Definition credited_socket (i : io) : M credited_boundary unit := λ c,
  (if negb (c_open c) then raise OSError "Bad file descriptor" else if io_timeout i then raise TimeoutError "timed out" else Ok tt, c).

Definition credited_close (c : credited_boundary) : credited_boundary := Credited (c_max_record c) (c_deadline c) (c_remaining c) true false.
Definition credited_detach (c : credited_boundary) : credited_boundary :=
  Credited (c_max_record c) (c_deadline c) (c_remaining c) (c_stopped c) false.

Definition credited_send (i : io) (data : bytes) : M credited_boundary unit := credited_socket i.
Definition credited_receive (i : io) (size : Z) : M credited_boundary bytes :=
  _ ← credited_socket i; mret (take (Z.to_nat size) (io_bytes i)).
Definition credited_send_record (i : io) (data : bytes) : M credited_boundary unit :=
  limit ← mget c_max_record;
  _ ← mraise_if (limit <? zlen data) ValueError "OversizedApplicationRecord";
  credited_socket i.
Definition credited_receive_record (i : io) : M credited_boundary bytes :=
  _ ← credited_socket i;
  limit ← mget c_max_record;
  let data := take (Z.to_nat (limit + 1)) (io_bytes i) in
  _ ← mraise_if (limit <? zlen data) ValueError "OversizedApplicationRecord";
  mret data.

(** ** One type of session *)
Inductive app_session := AStream (s : stream_session) | AMessage (s : message_session) | ACredited (c : credited_boundary).

Definition on {T A} (inject : T → app_session) (f : M T A) (s : T) : result A * app_session := let '(r, s') := f s in (r, inject s').
Definition no_method {A} : M app_session A := mraise AttributeError "no such method".

#[global] Instance app_inhabited : Inhabited app_session := populate (ACredited (Credited 0 0 0 true false)).

#[global] Instance app_session_ops : Session app_session := {
  s_deadline s := match s with AStream s => ss_deadline s | AMessage s => ms_deadline s | ACredited c => c_deadline c end;
  s_remaining s := match s with AStream s => ss_remaining s | AMessage s => ms_remaining s | ACredited c => c_remaining c end;
  s_max_record s := match s with AStream _ => 0 | AMessage s => ms_max_record s | ACredited c => c_max_record c end;
  s_eof s := match s with AMessage s => ms_eof s | _ => false end;
  s_write_closed s := match s with AMessage s => ms_write_closed s | _ => false end;
  s_open s := match s with AStream s => ss_open s | AMessage s => ms_open s | ACredited c => c_open c end;
  s_detachable s := match s with ACredited _ => true | _ => false end;
  s_stopped s := match s with ACredited c => c_stopped c | _ => false end;
  s_receive i n s := match s with
    | AStream s => on AStream (stream_receive i n) s
    | ACredited c => on ACredited (credited_receive i n) c
    | AMessage m => on AMessage (_ ← (limit ← mget ms_max_record; mraise_if (n <? limit) ValueError "UnsupportedPartialRecordReceive"); message_receive i) m
    end;
  s_receive_record i s := match s with
    | AStream s => no_method (AStream s)
    | AMessage s => on AMessage (message_receive i) s
    | ACredited c => on ACredited (credited_receive_record i) c
    end;
  s_send i b s := match s with
    | AStream s => on AStream (stream_send i b) s
    | AMessage s => on AMessage (message_send i b) s
    | ACredited c => on ACredited (credited_send i b) c
    end;
  s_send_record i b s := match s with
    | AStream s => no_method (AStream s)
    | AMessage s => on AMessage (message_send i b) s
    | ACredited c => on ACredited (credited_send_record i b) c
    end;
  s_close s := match s with AStream s => AStream (close_stream s) | AMessage s => AMessage (close_messages s) | ACredited c => ACredited (credited_close c) end;
  s_detach s := match s with AStream s => AStream (close_stream s) | AMessage s => AMessage (close_messages s) | ACredited c => ACredited (credited_detach c) end }.

(** The largest record of a credited boundary: the adapter's message size and
    what the plan declares. *)
Definition credited_maximum (plan : pydict) (a : adapter) : result pyval :=
  let effective := match vget_or plan "effectiveLimits" (VDict []) with VDict l => Ok (vget_or l "max_record" (VInt 65536)) | _ => raise AttributeError "get" end in
  effective ← effective;
  match vget_or plan "creditedBoundaryMaximum" (VInt 65536), effective with
  | VInt x, VInt y => Ok (VInt (Z.min (Z.min (max_message (a_limits a)) x) y))
  | _, _ => raise TypeError "min"
  end.

(** Which session a plan opens and whether its boundary keeps records: over the
    S6NA adapter [credited] of the service, or a local session at [now];
    [max_record] and [seqpacket] are the attachment's. *)
Definition open_for (now : Q) (plan : pydict) (credited : result adapter) (free : bool) (max_record : Z) (seqpacket : bool)
    : result (bool * app_session) :=
  let adapter := match vget_none plan "applicationAdapter" with VDict a => a | _ => [] end in
  if eq_str (vget_none adapter "provider") "s6na" then
    a ← credited;
    kind ← field adapter "boundary";
    maximum ← credited_maximum plan a;
    c ← make_credited now 300 free a kind maximum;
    Ok (eq_str kind "message", ACredited c)
  else
    kind ← open_local_session (VDict plan);
    match kind with
    | StreamSession => Ok (false, AStream (open_stream now))
    | MessageSession =>
        let effective := match vget_none plan "effectiveLimits" with VDict l => vget_or l "max_record" (VInt max_record) | _ => VInt max_record end in
        s ← open_messages now max_record effective seqpacket; Ok (true, AMessage s)
    end.

(** ** They keep the interface's promises *)
Create HintDb keeps.

Section Keeps.
Context {T : Type} (d : T → Q) (o : T → bool).

Lemma keeps_bind {A B} (f : M T A) (k : A → M T B) : keeps d o f → (∀ a, keeps d o (k a)) → keeps d o (f ≫= k).
Proof.
  intros Hf Hk s r s' H. destruct (M_bind_inv _ _ _ _ _ H) as [(a & s1 & H1 & H2)|(x & H1 & ->)].
  - destruct (Hf _ _ _ H1) as [E1 O1], (Hk a _ _ _ H2) as [E2 O2]. split; [congruence|]. intros Ho Hg. apply O2; [|done]. by apply O1.
  - destruct (Hf _ _ _ H1) as [E1 O1]. split; [done|]. intros Ho Hg. by apply O1.
Qed.

Lemma keeps_still {A} (f : M T A) : (∀ s, (f s).2 = s) → keeps d o f.
Proof. intros Hf s r s' H. specialize (Hf s). rewrite H in Hf. cbn in Hf. by subst. Qed.

Lemma keeps_mod (g : T → T) : (∀ s, d (g s) = d s ∧ o (g s) = o s) → keeps d o (mmod g).
Proof. intros Hg s r s' [= <- <-]. destruct (Hg s) as [-> ->]. done. Qed.
End Keeps.

Lemma stream_budget_keeps now n : keeps ss_deadline ss_open (stream_budget now n).
Proof. intros s r s' H. unfold stream_budget in H. destruct (_ || _); by injection H as <- <-. Qed.

Lemma message_budget_keeps now n : keeps ms_deadline ms_open (message_budget now n).
Proof. intros s r s' H. unfold message_budget in H. destruct (_ || _); by injection H as <- <-. Qed.

Lemma stream_socket_keeps : keeps ss_deadline ss_open stream_socket.
Proof. apply keeps_still. intros s. unfold stream_socket. by destruct (ss_open s). Qed.

Lemma message_socket_keeps : keeps ms_deadline ms_open message_socket.
Proof. apply keeps_still. intros s. unfold message_socket. by destruct (ms_open s). Qed.

#[local] Hint Resolve stream_budget_keeps message_budget_keeps stream_socket_keeps message_socket_keeps : keeps.
Ltac keep :=
  repeat first
    [ solve [auto with keeps]
    | apply keeps_bind; [|intros ?]
    | apply keeps_mod; by intros ?
    | match goal with |- keeps _ _ (match ?x with _ => _ end) => destruct x end
    | apply keeps_still; by intros ? ].

Lemma stream_receive_keeps i n : keeps ss_deadline ss_open (stream_receive i n).
Proof. unfold stream_receive, receive_stream. keep. Qed.

Lemma stream_send_keeps i b : keeps ss_deadline ss_open (stream_send i b).
Proof. unfold stream_send, send_stream. keep. Qed.

Lemma message_receive_keeps i : keeps ms_deadline ms_open (message_receive i).
Proof. unfold message_receive, receive_record. keep. Qed.

Lemma message_send_keeps i b : keeps ms_deadline ms_open (message_send i b).
Proof. unfold message_send, send_record, finish. keep. Qed.

Lemma credited_socket_keeps i : keeps c_deadline c_open (credited_socket i).
Proof. by apply keeps_still. Qed.

#[local] Hint Resolve credited_socket_keeps : keeps.

Lemma on_keeps {T A} (d : T → Q) (o : T → bool) (inject : T → app_session) (f : M T A) s r s' :
  (∀ x, s_deadline (inject x) = d x ∧ s_open (inject x) = o x) → keeps d o f → on inject f s = (r, s') →
  s_deadline s' = d s ∧ (o s = true → goes_on r = true → s_open s' = true).
Proof.
  intros Hi Hf H. unfold on in H. destruct (f s) as [r1 s1] eqn:E. injection H as <- <-. destruct (Hi s1) as [-> ->]. by apply (Hf _ _ _ E).
Qed.

#[global] Instance app_session_laws : SessionLaws app_session.
Proof.
  split; [by intros []|by intros []|..].
  - intros i n [s|s|c] r s' H; (eapply on_keeps in H; [exact H|done|]).
    + apply stream_receive_keeps.
    + apply keeps_bind; [keep|intros _; apply message_receive_keeps].
    + unfold credited_receive. keep.
  - intros i [s|s|c] r s' H; [by injection H as <- <-|..]; (eapply on_keeps in H; [exact H|done|]).
    + apply message_receive_keeps.
    + unfold credited_receive_record. keep.
  - intros i b [s|s|c] r s' H; (eapply on_keeps in H; [exact H|done|]).
    + apply stream_send_keeps.
    + apply message_send_keeps.
    + unfold credited_send. keep.
  - intros i b [s|s|c] r s' H; [by injection H as <- <-|..]; (eapply on_keeps in H; [exact H|done|]).
    + apply message_send_keeps.
    + unfold credited_send_record. keep.
Qed.

(** What is opened for a plan is open, and a record of a message boundary fits
    into the adapter's window. *)
Lemma make_credited_Ok now lifetime free a kind n c :
  make_credited now lifetime free a kind n = Ok c → c_open c = true ∧ c_max_record c ≤ c_payload (a_codec a) * window a ∧ c_max_record c ≤ 65536.
Proof.
  unfold make_credited. intros (known & _ & H)%bind_Ok_inv. destruct n; try done.
  apply bind_Ok_inv in H as ([] & [_ Hb%negb_false_iff%between_spec]%raise_if_Ok%orb_false_iff & H).
  apply bind_Ok_inv in H as (_ & _ & H). apply bind_Ok_inv in H as (_ & _ & H). injection H as <-. cbn. split_and!; [done|lia|lia].
Qed.

Lemma open_for_open now plan credited free n seqpacket message s :
  open_for now plan credited free n seqpacket = Ok (message, s) → s_open s = true.
Proof.
  unfold open_for. destruct (eq_str _ "s6na").
  - intros (a & _ & H)%bind_Ok_inv. apply bind_Ok_inv in H as (kind & _ & H). apply bind_Ok_inv in H as (k & _ & H).
    apply bind_Ok_inv in H as (c & Hc%make_credited_Ok & H). injection H as <- <-. apply Hc.
  - intros ([] & _ & H)%bind_Ok_inv; [by injection H as <- <-|]. apply bind_Ok_inv in H as (x & Hx & H). injection H as <- <-.
    unfold open_messages in Hx. destruct (match vget_none plan "effectiveLimits" with VDict l => _ | _ => _ end); try done.
    apply bind_Ok_inv in Hx as (_ & _ & Hx). by injection Hx as <-.
Qed.
