(* ===== verification/HandleClaims.v ===== *)
(** * Capability handles: what the manager promises *)
From Stdlib Require Import QArith.
From S2P Require Import Prelude Dict PyStr PyText PyValue Sessions Handles HandleSpec HandleFacts HandleRefine AppSessions.
#[local] Open Scope Z_scope.

Section Runs.
Context {T : Type} `{!Inhabited T, !Session T} {Laws : SessionLaws T}.

(** A run of the manager: operations in the order of the clock. *)
Inductive run : Q → manager T → list (op T * result response) → Q → manager T → Prop :=
| run_nil t m : run t m [] t m
| run_cons t m o r m1 tr t' m' :
    (t <= op_time o)%Q → op_ok o m → step o m = (r, m1) → run (op_time o) m1 tr t' m' → run t m ((o, r) :: tr) t' m'.

(** A run of the specification: sessions expire, then the operation is applied. *)
Inductive spec_run (limit : Z) : spec T → list (op T * result response) → spec T → Prop :=
| spec_nil a : spec_run limit a [] a
| spec_cons a o r a1 tr a' :
    spec_step limit o (expire (op_time o) a) r a1 → spec_run limit a1 tr a' → spec_run limit a ((o, r) :: tr) a'.

Lemma later_expired (d t t' : Q) : (t <= t')%Q → Qle_bool d t = true → Qle_bool d t' = true.
Proof. rewrite !Qle_bool_iff. intros H1 H2. by eapply Qle_trans. Qed.

Lemma abs_later t t' (m : manager T) : wf m → (t <= t')%Q → abs t' m = expire t' (abs t m).
Proof.
  intros Hm Ht. apply (abs_intro None); [done| |]; intros h; cbn [live lent expire].
  - apply option_eq. intros v. rewrite map_lookup_filter_Some, (abs_live None) by done. unfold seen, in_time. cbn [snd].
    destruct (dget (m_entries m) h) as [e|]; [|naive_solver].
    destruct (Qle_bool (s_deadline (session m e)) t) eqn:E.
    + rewrite (later_expired _ _ _ Ht E). naive_solver.
    + destruct (Qle_bool (s_deadline (session m e)) t') eqn:E'; (split; [intros [[= <-] Hx]; cbn in Hx; by rewrite E' in Hx || done|]).
      * done.
      * intros [= <-]. cbn. by rewrite E'.
  - by rewrite (abs_lent None).
Qed.

Lemma run_refines t m tr t' m' : wf m → run t m tr t' m' → wf m' ∧ m_limit m' = m_limit m ∧ spec_run (m_limit m) (abs t m) tr (abs t' m').
Proof.
  intros Hm H. induction H as [t m|t m o r m1 tr t' m' Ht Hok Hs Hr IH]; [split_and!; [done|done|constructor]|].
  destruct (step_refines o m r m1 Hm Hok Hs) as (W & Hl & Hsp). destruct (IH W) as (W' & Hl' & Hrun). split_and!; [done|congruence|].
  apply spec_cons with (abs (op_time o) m1); [by rewrite <- (abs_later t) by done|]. by rewrite <- Hl.
Qed.

Lemma new_manager_wf limit m : make_manager (T := T) limit = Ok m → wf m ∧ 1 ≤ m_limit m ≤ MAX_SESSIONS ∧ ∀ t, abs t m = Spec ∅ ∅.
Proof.
  unfold make_manager. destruct limit; try done. intros ([] & Hb%raise_if_Ok & H)%bind_Ok_inv. injection H as <-.
  apply negb_false_iff, between_spec in Hb. split_and!; [|cbn; lia|cbn; lia|done].
  split; try done.
  - constructor.
  - constructor.
  - intros h h' e e' [|]; done.
  - intros h e [|]; done.
  - intros h e [|]; done.
  - intros i Hi. cbn in Hi. lia.
  - unfold zlen. cbn. lia.
Qed.
End Runs.

(** ** The manager implements its specification *)


(** C16: No socket is lost or used twice: along every run at most [limit]
    sessions are held, every open socket is reached through exactly one handle,
    every session that a handle still denotes is open, and [close_all] leaves no
    open socket. *)
Theorem handles_own_sockets {T} `{!Inhabited T, !Session T, !SessionLaws T} limit (m0 : manager T) t0 tr t m :
  make_manager limit = Ok m0 → run t0 m0 tr t m →
  zlen (m_entries m) + zlen (m_transfers m) ≤ m_limit m ∧
  (∀ i, (i < m_next m)%nat → s_open (m_heap m i) = true →
     ∃ h, (∃ e, dget (m_entries m) h = Some e ∧ e_session e = i) ∧ ∀ h' e', dget (m_entries m) h' = Some e' → e_session e' = i → h' = h) ∧
  (∀ h e, dget (m_entries m) h = Some e → s_open (session m e) = true) ∧
  (∀ r m', close_all m = (r, m') → ∀ i, (i < m_next m')%nat → s_open (m_heap m' i) = false).
Proof.
  intros Hm Hr. destruct (new_manager_wf _ _ Hm) as (W0 & _ & _). destruct (run_refines _ _ _ _ _ W0 Hr) as (W & _ & _).
  split_and!; [apply (wf_limit _ _ W)| |apply (wf_open _ _ W)|].
  - intros i Hi Ho. destruct (wf_owned _ _ W i Hi Ho) as [?|(h & e & Hd & He)]; [done|]. exists h. split; [by exists e|].
    intros h' e' Hd' He'. eapply (wf_refs _ _ W h' h e' e); [by left|by left|congruence].
  - intros r m' H i Hi. destruct (close_all_empties m r m' W H) as [W' He]. destruct (s_open (m_heap m' i)) eqn:Eo; [|done].
    destruct (wf_owned _ _ W' i Hi Eo) as [?|(h & e & Hd & _)]; [done|]. by rewrite He in Hd.
Qed.

(** ** A run *)
Definition handle_a : pystr := replicate 43 97.
Definition handle_b : pystr := replicate 43 98.
Definition quiet (now : Q) (b : bytes) : io := Io now now b false (Some (zlen b)) false.

Definition demo_ops : list (op app_session) :=
  [ OOpen 10 10 (txt "web") (txt "l") (txt "p") (Ok (false, AStream (open_stream 10))) [handle_a];
    OOpen 11 11 (txt "web") (txt "l") (txt "p") (Ok (true, ACredited (Credited 64 40 1000 false true))) [handle_a; handle_b];
    OWrite 12 12 12 (quiet 12 [104; 105]) (VStr handle_a) [104; 105] (VInt 100);
    ORead 13 13 13 (quiet 13 [111; 107]) (VStr handle_b) (VInt 64) (VInt 100);
    OTransfer 14 (VStr handle_b);
    ORead 400 400 400 (quiet 400 []) (VStr handle_a) (VInt 64) (VInt 100);
    OCloseAll 401 ].

Fixpoint run_ops (ops : list (op app_session)) (m : manager app_session) : list (op app_session * result response) * manager app_session :=
  match ops with
  | [] => ([], m)
  | o :: ops => let '(r, m1) := step o m in let '(tr, m') := run_ops ops m1 in ((o, r) :: tr, m')
  end.

Definition demo_manager : manager app_session := Manager 2 [] [] (λ _, inhabitant) 0%nat.

(** A session that has expired cannot be read. *)
Example demo_answers :
  (run_ops demo_ops demo_manager).1.*2 =
  [Ok (ROpened (Some (Metadata handle_a false 300000 16777216 None))); Ok (ROpened (Some (Metadata handle_b true 29000 1000 (Some 64))));
   Ok (RWritten (Metadata handle_a false 298000 16777214 None, 2, false)); Ok (RRead (Metadata handle_b true 27000 1000 (Some 64), [111; 107], false));
   Ok RTransferred; raise ValueError "ApplicationSessionExpiredOrUnknown"; Ok (RCount 1)].
Proof. vm_compute. reflexivity. Qed.

Definition op_okb (o : op app_session) (m : manager app_session) : bool :=
  match o with
  | OOpen _ _ _ _ _ opened draws =>
      match opened with Ok (_, s) => s_open s | Raise _ => true end
      && forallb (λ h, between 32 (zlen h) 128 && negb (dmem (m_transfers m) h)) draws && existsb (λ h, negb (dmem (m_entries m) h)) draws
  | _ => true
  end.

Lemma op_okb_ok o m : op_okb o m = true → op_ok o m.
Proof.
  destruct o; try done. cbn [op_okb op_ok]. intros [[Ho Hd]%andb_true_iff He]%andb_true_iff. split_and!.
  - intros message s ->. done.
  - rewrite forallb_forall in Hd. intros h Hh%list_elem_of_In%Hd. apply andb_true_iff in Hh as [Hb%between_spec Hm%negb_true_iff].
    split; [done|]. unfold dmem in Hm. by destruct (dget _ h).
  - apply existsb_exists in He as (h & Hh%list_elem_of_In & Hm%negb_true_iff). exists h. split; [done|]. unfold dmem in Hm. by destruct (dget _ h).
Qed.

Fixpoint admissible (t : Q) (ops : list (op app_session)) (m : manager app_session) : bool :=
  match ops with
  | [] => true
  | o :: ops => Qle_bool t (op_time o) && op_okb o m && admissible (op_time o) ops (step o m).2
  end.
Definition last_time (t : Q) (ops : list (op app_session)) : Q := foldl (λ _ o, op_time o) t ops.

Lemma run_ops_run ops t m : admissible t ops m = true → run t m (run_ops ops m).1 (last_time t ops) (run_ops ops m).2.
Proof.
  revert t m. induction ops as [|o ops IH]; intros t m; cbn [admissible run_ops]; [intros _; apply run_nil|].
  intros [[Ht%Qle_bool_iff Ho%op_okb_ok]%andb_true_iff H]%andb_true_iff. destruct (step o m) as [r m1] eqn:E. specialize (IH _ _ H). cbn [snd] in IH.
  destruct (run_ops ops m1) as [tr m'] eqn:E'. by eapply run_cons.
Qed.

Lemma demo_run : run 0 demo_manager (run_ops demo_ops demo_manager).1 401 (run_ops demo_ops demo_manager).2.
Proof. apply (run_ops_run demo_ops 0). vm_compute. reflexivity. Qed.


Lemma handles_own_sockets_witness :
  zlen (m_entries (run_ops demo_ops demo_manager).2) + zlen (m_transfers (run_ops demo_ops demo_manager).2) ≤ 2.
Proof.
  exact (proj1 (handles_own_sockets (VInt 2) demo_manager 0 (run_ops demo_ops demo_manager).1 401 (run_ops demo_ops demo_manager).2 eq_refl demo_run)).
Defined.
