(* ===== verification/Detector.v ===== *)
(** * Packet features of the detector

    [Detector/detector_core.py], class [TrafficFeatures]: the extraction of
    features from an Ethernet frame and the five-tuple of its flow.  Reading
    outside a frame raises [IndexError] or [struct.error], as in Python.  The
    entropy of a payload is a binary64 computation and an argument. *)
From S2P Require Import Prelude PyStr.

(** [struct.unpack_from("!H", packet, i)[0]]. *)
Definition u16_at (packet : bytes) (i : Z) : result Z :=
  match slice i (i + 2) packet with
  | [h; l] => Ok (h * 256 + l)
  | _ => raise StructError "unpack_from requires a buffer"
  end.

(** The loop over VLAN tags; [None]: the frame is cut off. *)
Fixpoint skip_vlan (n : nat) (packet : bytes) (ethertype offset : Z) : result (option (Z * Z)) :=
  match n with
  | O => Ok (Some (ethertype, offset))
  | S n =>
      if negb ((ethertype =? 0x8100) || (ethertype =? 0x88A8)) then Ok (Some (ethertype, offset))
      else if zlen packet <? offset + 4 then Ok None
      else e ← u16_at packet (offset + 2); skip_vlan n packet e (offset + 4)
  end.

(** The protocol, where its header starts and where the packet ends. *)
Definition ipv4_header (packet : bytes) (offset : Z) : result (option (Z * Z * Z)) :=
  if zlen packet <? offset + 20 then Ok None else
  version_ihl ← index packet offset;
  if negb (Z.shiftr version_ihl 4 =? 4) then Ok None else
  let ip_header_len := Z.land version_ihl 0x0F * 4 in
  if (ip_header_len <? 20) || (zlen packet <? offset + ip_header_len) then Ok None else
  total_len ← u16_at packet (offset + 2);
  if total_len <? ip_header_len then Ok None else
  let payload_end := Z.min (zlen packet) (offset + total_len) in
  fragment ← u16_at packet (offset + 6);
  if negb (Z.land fragment 0x1FFF =? 0) then Ok None else
  protocol ← index packet (offset + 9);
  Ok (Some (protocol, offset + ip_header_len, payload_end)).

(** The IPv6 extension headers, at most eight of them. *)
Fixpoint ipv6_extensions (n : nat) (packet : bytes) (payload_end protocol offset : Z) : result (option (Z * Z)) :=
  match n with
  | O => Ok (Some (protocol, offset))
  | S n =>
      if negb (bool_decide (protocol ∈ [0; 43; 44; 60; 51])) then Ok (Some (protocol, offset))
      else if protocol =? 44 then
        if payload_end <? offset + 8 then Ok None else
        fragment ← u16_at packet (offset + 2);
        if negb (Z.land fragment 0xFFF8 =? 0) then Ok None else
        next_header ← index packet offset;
        ipv6_extensions n packet payload_end next_header (offset + 8)
      else
        if payload_end <? offset + 2 then Ok None else
        next_header ← index packet offset;
        length_byte ← index packet (offset + 1);
        let unit := if protocol =? 51 then 4 else 8 in
        let extension_len := (length_byte + (if protocol =? 51 then 2 else 1)) * unit in
        if (extension_len <=? 0) || (payload_end <? offset + extension_len) then Ok None
        else ipv6_extensions n packet payload_end next_header (offset + extension_len)
  end.

Definition ipv6_header (packet : bytes) (offset : Z) : result (option (Z * Z * Z)) :=
  if zlen packet <? offset + 40 then Ok None else
  version ← index packet offset;
  if negb (Z.shiftr version 4 =? 6) then Ok None else
  payload_len ← u16_at packet (offset + 4);
  let payload_end := Z.min (zlen packet) (offset + 40 + payload_len) in
  protocol ← index packet (offset + 6);
  r ← ipv6_extensions 8 packet payload_end protocol (offset + 40);
  Ok ((λ pt, (pt, payload_end)) <$> (r : option (Z * Z))).

Definition network_header (packet : bytes) (ethertype offset : Z) : result (option (Z * Z * Z)) :=
  if ethertype =? 0x0800 then ipv4_header packet offset
  else if ethertype =? 0x86DD then ipv6_header packet offset
  else Ok None.

(** Whether it is TCP, and the payload. *)
Definition transport_payload (packet : bytes) (protocol offset payload_end : Z) : result (Z * bytes) :=
  if protocol =? 6 then
    if offset + 20 <=? payload_end then
      byte ← index packet (offset + 12);
      let tcp_header_len := Z.shiftr byte 4 * 4 in
      if (20 <=? tcp_header_len) && (offset + tcp_header_len <=? payload_end)
      then Ok (1, slice (offset + tcp_header_len) payload_end packet) else Ok (1, [])
    else Ok (1, [])
  else if (protocol =? 17) && (offset + 8 <=? payload_end) then
    udp_len ← u16_at packet (offset + 4);
    if 8 <=? udp_len then Ok (0, slice (offset + 8) (Z.min payload_end (offset + udp_len)) packet) else Ok (0, [])
  else Ok (0, []).

Section Features.
Context {F : Type} (zero : F) (calculate_entropy : bytes → F).

Definition extract_features (packet : bytes) : result (Z * F * Z * Z) :=
  let packet_length := zlen packet in
  let nothing := (packet_length, zero, 0, 0) in
  if packet_length <? 14 then Ok nothing else
  ethertype ← u16_at packet 12;
  vlan ← skip_vlan 2 packet ethertype 14;
  match vlan with
  | None => Ok nothing
  | Some (ethertype, offset) =>
      header ← network_header packet ethertype offset;
      match header with
      | None => Ok nothing
      | Some (protocol, transport_offset, payload_end) =>
          t ← transport_payload packet protocol transport_offset payload_end;
          let '(is_tcp, payload) := (t : Z * bytes) in
          Ok (packet_length, calculate_entropy (take 256 payload), is_tcp, zlen payload)
      end
  end.
End Features.

(** ** The flow of a packet *)

(** The loop over VLAN tags of [flow_key]: a frame that is cut off ends it. *)
Fixpoint flow_vlan (n : nat) (packet : bytes) (ethertype offset : Z) : result (Z * Z) :=
  match n with
  | O => Ok (ethertype, offset)
  | S n =>
      if negb ((ethertype =? 0x8100) || (ethertype =? 0x88A8)) || (zlen packet <? offset + 4) then Ok (ethertype, offset)
      else e ← u16_at packet (offset + 2); flow_vlan n packet e (offset + 4)
  end.

Record flow := Flow { f_source : bytes; f_destination : bytes; f_source_port : Z; f_destination_port : Z }.

(** Addresses, protocol and where the ports are. *)
Definition flow_addresses (packet : bytes) (ethertype offset : Z) : result (bytes * bytes * Z * Z) :=
  let unknown := ([], [], -1, zlen packet) in
  if (ethertype =? 0x0800) && (offset + 20 <=? zlen packet) then
    first ← index packet offset;
    let ihl := Z.land first 0x0F * 4 in
    if (Z.shiftr first 4 =? 4) && (20 <=? ihl) && (offset + ihl <=? zlen packet) then
      protocol ← index packet (offset + 9);
      Ok (slice (offset + 12) (offset + 16) packet, slice (offset + 16) (offset + 20) packet, protocol, offset + ihl)
    else Ok unknown
  else if (ethertype =? 0x86DD) && (offset + 40 <=? zlen packet) then
    first ← index packet offset;
    if Z.shiftr first 4 =? 6 then
      protocol ← index packet (offset + 6);
      Ok (slice (offset + 8) (offset + 24) packet, slice (offset + 24) (offset + 40) packet, protocol, offset + 40)
    else Ok unknown
  else Ok unknown.

(** [a < b] on byte strings and on tuples. *)
Fixpoint bytes_ltb (a b : bytes) : bool :=
  match a, b with
  | _, [] => false
  | [], _ :: _ => true
  | x :: a, y :: b => (x <? y) || ((x =? y) && bytes_ltb a b)
  end.

Definition flow_ltb (a b : flow) : bool :=
  bytes_ltb (f_source a) (f_source b) || (bool_decide (f_source a = f_source b) &&
  (bytes_ltb (f_destination a) (f_destination b) || (bool_decide (f_destination a = f_destination b) &&
  ((f_source_port a <? f_source_port b) || ((f_source_port a =? f_source_port b) &&
   (f_destination_port a <? f_destination_port b)))))).

Definition reverse_flow (f : flow) : flow :=
  Flow (f_destination f) (f_source f) (f_destination_port f) (f_source_port f).

(** [min(forward, reverse)]. *)
Definition canonical_flow (f : flow) : flow := if flow_ltb (reverse_flow f) f then reverse_flow f else f.

(** The protocol and the flow; the source returns them as one tuple. *)
Definition flow_key (packet : bytes) (directional : bool) : result (Z * flow) :=
  if zlen packet <? 14 then Ok (-1, Flow [] [] 0 0) else
  ethertype ← u16_at packet 12;
  v ← flow_vlan 2 packet ethertype 14;
  let '(ethertype, offset) := (v : Z * Z) in
  a ← flow_addresses packet ethertype offset;
  let '(source, destination, protocol, transport_offset) := (a : bytes * bytes * Z * Z) in
  ports ← (if ((protocol =? 6) || (protocol =? 17)) && (transport_offset + 4 <=? zlen packet) then
             s ← u16_at packet transport_offset;
             d ← u16_at packet (transport_offset + 2);
             Ok (s, d)
           else Ok (0, 0));
  let '(source_port, destination_port) := (ports : Z * Z) in
  let forward := Flow source destination source_port destination_port in
  Ok (protocol, if directional then forward else canonical_flow forward).

(** * Packet features: every frame is read within its bounds *)

(** ** Slices *)
Lemma zlen_slice {A} (l : list A) i j : 0 ≤ i → i ≤ j → j ≤ zlen l → zlen (slice i j l) = j - i.
Proof. intros H0 H1 H2. unfold slice, zlen in *. rewrite length_take, length_drop. lia. Qed.

Lemma u16_at_Ok packet i : 0 ≤ i → i + 2 ≤ zlen packet → ∃ h l, u16_at packet i = Ok (h * 256 + l) ∧ h ∈ packet ∧ l ∈ packet.
Proof.
  intros H0 H1. pose proof (zlen_slice packet i (i + 2) H0 ltac:(lia) H1) as Hl. unfold u16_at.
  assert (∀ x, x ∈ slice i (i + 2) packet → x ∈ packet) as Hin.
  { intros x Hx. unfold slice in Hx. apply elem_of_take in Hx as (k & Hk & _). rewrite lookup_drop in Hk. by eapply list_elem_of_lookup_2. }
  destruct (slice i (i + 2) packet) as [|h [|l [|]]] eqn:E; unfold zlen in Hl; simpl in Hl; try lia.
  exists h, l. split_and!; [done|apply Hin; set_solver..].
Qed.

Lemma wf_byte packet x : wf_bytes packet = true → x ∈ packet → 0 ≤ x < 256.
Proof. unfold wf_bytes. rewrite forallb_forall. intros Hw Hx%list_elem_of_In. apply Hw, between_spec in Hx. lia. Qed.

(** Reading a field that the guards have shown to be inside the frame. *)
Ltac read_u16 Hh Hl :=
  match goal with
  | |- context [mbind _ (u16_at ?p ?i)] =>
      let h := fresh "h" in let l := fresh "l" in let E := fresh in
      destruct (u16_at_Ok p i) as (h & l & E & Hh & Hl); [lia|lia|]; rewrite E; clear E; cbn [mbind result_bind]
  end.
Ltac read_byte Hb :=
  match goal with
  | |- context [mbind _ (index ?p ?i)] =>
      let b := fresh "b" in let E := fresh in
      destruct (index_lt p i) as (b & E & Hb); [lia|]; rewrite E; clear E; cbn [mbind result_bind];
      apply list_elem_of_lookup_2 in Hb
  end.
Ltac cut_off := exists None; split; [reflexivity|done].
Ltac branch_on E := match goal with |- context [if ?c then _ else _] => destruct c eqn:E end.

Section Bounds.
Context (packet : bytes) (Hwf : wf_bytes packet = true).

Lemma skip_vlan_Ok n e o : 14 ≤ o ≤ zlen packet →
  ∃ r, skip_vlan n packet e o = Ok r ∧ ∀ e' o', r = Some (e', o') → 14 ≤ o' ≤ zlen packet.
Proof.
  revert e o. induction n as [|n IH]; intros e o Ho; cbn [skip_vlan]; [eexists; split; [done|]; by intros ? ? [= <- <-]|].
  branch_on E; [eexists; split; [done|]; by intros ? ? [= <- <-]|]. destruct (Z.ltb_spec (zlen packet) (o + 4)); [cut_off|].
  read_u16 Hh Hl. apply IH. lia.
Qed.

Lemma ipv4_header_Ok o : 14 ≤ o ≤ zlen packet →
  ∃ r, ipv4_header packet o = Ok r ∧ ∀ p t e, r = Some (p, t, e) → 14 ≤ t ≤ e ∧ e ≤ zlen packet.
Proof.
  intros Ho. unfold ipv4_header. destruct (Z.ltb_spec (zlen packet) (o + 20)); [cut_off|]. read_byte Hb. branch_on E; [cut_off|].
  branch_on E'; [cut_off|]. apply orb_false_iff in E' as [E1%Z.ltb_ge E2%Z.ltb_ge]. read_u16 Hh Hl. branch_on E3; [cut_off|]. apply Z.ltb_ge in E3.
  read_u16 Hh' Hl'. branch_on E4; [cut_off|]. read_byte Hp. eexists. split; [reflexivity|]. intros ? ? ? [= <- <- <-]. lia.
Qed.

Lemma ipv6_extensions_Ok n e p o : 14 ≤ o ≤ e → e ≤ zlen packet →
  ∃ r, ipv6_extensions n packet e p o = Ok r ∧ ∀ p' t, r = Some (p', t) → 14 ≤ t ≤ e.
Proof.
  revert p o. induction n as [|n IH]; intros p o Ho He; cbn [ipv6_extensions]; [eexists; split; [done|]; by intros ? ? [= <- <-]|].
  branch_on E; [eexists; split; [done|]; by intros ? ? [= <- <-]|]. destruct (p =? 44).
  - destruct (Z.ltb_spec e (o + 8)); [cut_off|]. read_u16 Hh Hl. branch_on E'; [cut_off|]. read_byte Hb. apply IH; lia.
  - destruct (Z.ltb_spec e (o + 2)); [cut_off|]. read_byte Hb. read_byte Hb'. branch_on E'; [cut_off|].
    apply orb_false_iff in E' as [E1%Z.leb_gt E2%Z.ltb_ge]. apply IH; lia.
Qed.

Lemma network_header_Ok k o : 14 ≤ o ≤ zlen packet →
  ∃ r, network_header packet k o = Ok r ∧ ∀ p t e, r = Some (p, t, e) → 14 ≤ t ≤ e ∧ e ≤ zlen packet.
Proof.
  intros Ho. unfold network_header. destruct (k =? 2048); [by apply ipv4_header_Ok|]. destruct (k =? 34525); [|cut_off].
  unfold ipv6_header. destruct (Z.ltb_spec (zlen packet) (o + 40)); [cut_off|]. read_byte Hb. branch_on E; [cut_off|]. read_u16 Hh Hl.
  read_byte Hb'. apply (wf_byte _ _ Hwf) in Hh, Hl.
  destruct (ipv6_extensions_Ok 8 (Z.min (zlen packet) (o + 40 + (h * 256 + l))) b0 (o + 40)) as (r & -> & Hr); [lia|lia|].
  cbn [mbind result_bind]. eexists. split; [reflexivity|]. intros p t e Hs. destruct r as [[p' t']|]; [|done].
  injection Hs as <- <- <-. specialize (Hr _ _ eq_refl). lia.
Qed.

Lemma transport_payload_Ok p t e : 14 ≤ t ≤ e → e ≤ zlen packet →
  ∃ tcp i j, transport_payload packet p t e = Ok (tcp, slice i j packet) ∧ tcp = Z.b2z (p =? 6) ∧ 14 ≤ i ≤ j ∧ j ≤ e.
Proof.
  intros Ht He. unfold transport_payload.
  assert (slice t t packet = []) as Hnil by (unfold slice; by rewrite Z.sub_diag).
  destruct (p =? 6).
  - exists 1. destruct (Z.leb_spec (t + 20) e); [|exists t, t; rewrite Hnil; split_and!; done || lia]. read_byte Hb. branch_on E.
    + apply andb_true_iff in E as [E1%Z.leb_le E2%Z.leb_le]. eexists _, _. split; [reflexivity|]. split_and!; try done; lia.
    + exists t, t. rewrite Hnil. split_and!; done || lia.
  - exists 0. branch_on E; [|exists t, t; rewrite Hnil; split_and!; done || lia]. apply andb_true_iff in E as [_ E2%Z.leb_le]. read_u16 Hh Hl.
    branch_on E; [|exists t, t; rewrite Hnil; split_and!; done || lia]. apply Z.leb_le in E. eexists _, _. split; [reflexivity|].
    split_and!; try done; lia.
Qed.

(** Extraction is total: whatever the frame claims about its lengths, the
    payload it reports is a slice of the frame behind the Ethernet header. *)
Lemma extract_features_Ok {F} (zero : F) (entropy : bytes → F) :
  ∃ e tcp n, extract_features zero entropy packet = Ok (zlen packet, e, tcp, n) ∧
    (tcp = 0 ∨ tcp = 1) ∧
    ((e = zero ∧ tcp = 0 ∧ n = 0) ∨
     ∃ i j, 14 ≤ i ≤ j ∧ j ≤ zlen packet ∧ n = j - i ∧ e = entropy (take 256 (slice i j packet))).
Proof.
  assert (∀ r, r = Ok (zlen packet, zero, 0, 0) → ∃ e tcp n, r = Ok (zlen packet, e, tcp, n) ∧ (tcp = 0 ∨ tcp = 1) ∧
    ((e = zero ∧ tcp = 0 ∧ n = 0) ∨ ∃ i j, 14 ≤ i ≤ j ∧ j ≤ zlen packet ∧ n = j - i ∧ e = entropy (take 256 (slice i j packet)))) as Hnone.
  { intros r ->. eexists _, _, _. split; [done|]. split; [by left|by left]. }
  unfold extract_features. destruct (Z.ltb_spec (zlen packet) 14); [by apply Hnone|]. read_u16 Hh Hl.
  destruct (skip_vlan_Ok 2 (h * 256 + l) 14) as (v & -> & Hv); [lia|]. cbn [mbind result_bind].
  destruct v as [[k o]|]; [|by apply Hnone]. specialize (Hv _ _ eq_refl).
  destruct (network_header_Ok k o Hv) as (r & -> & Hr). cbn [mbind result_bind].
  destruct r as [[[p t] e]|]; [|by apply Hnone]. destruct (Hr _ _ _ eq_refl) as [H1 H2].
  destruct (transport_payload_Ok p t e H1 H2) as (tcp & i & j & -> & -> & Hi & Hj). cbn [mbind result_bind].
  eexists _, _, _. split; [reflexivity|]. split; [destruct (p =? 6); auto|]. right. exists i, j. split_and!; try lia; [|done].
  apply zlen_slice; lia.
Qed.
End Bounds.

(** ** Flows *)
Lemma bytes_ltb_irrefl a : bytes_ltb a a = false.
Proof. induction a as [|x a IH]; simpl; [done|]. rewrite Z.ltb_irrefl, Z.eqb_refl, IH. done. Qed.

Lemma bytes_ltb_total a b : bytes_ltb a b = false → bytes_ltb b a = false → a = b.
Proof.
  revert b. induction a as [|x a IH]; intros [|y b]; simpl; try done. intros [H1 H2]%orb_false_iff [H3 H4]%orb_false_iff.
  apply Z.ltb_ge in H1, H3. assert (x = y) as -> by lia. rewrite Z.eqb_refl in H2, H4. f_equal. by apply IH.
Qed.

Lemma bytes_ltb_asym a b : bytes_ltb a b = true → bytes_ltb b a = false.
Proof.
  revert b. induction a as [|x a IH]; intros [|y b]; simpl; try done. intros [H%Z.ltb_lt|[H%Z.eqb_eq H']%andb_true_iff]%orb_true_iff.
  - apply orb_false_iff. split; [apply Z.ltb_ge; lia|]. apply andb_false_iff. left. apply Z.eqb_neq. lia.
  - subst. rewrite Z.ltb_irrefl, Z.eqb_refl. simpl. by apply IH.
Qed.

Lemma flow_ltb_total f g : flow_ltb f g = false → flow_ltb g f = false → f = g.
Proof.
  destruct f as [s d sp dp], g as [s' d' sp' dp']. unfold flow_ltb. simpl. intros [H1 H2]%orb_false_iff [H3 H4]%orb_false_iff.
  pose proof (bytes_ltb_total _ _ H1 H3) as <-. rewrite bool_decide_true in H2, H4 by done. simpl in H2, H4.
  apply orb_false_iff in H2 as [H2 H5], H4 as [H4 H6]. pose proof (bytes_ltb_total _ _ H2 H4) as <-.
  rewrite bool_decide_true in H5, H6 by done. simpl in H5, H6. apply orb_false_iff in H5 as [H5 H7], H6 as [H6 H8].
  apply Z.ltb_ge in H5, H6. assert (sp = sp') as <- by lia. rewrite Z.eqb_refl in H7, H8. simpl in H7, H8. apply Z.ltb_ge in H7, H8.
  f_equal. lia.
Qed.

Lemma flow_ltb_asym f g : flow_ltb f g = true → flow_ltb g f = false.
Proof.
  destruct f as [s d sp dp], g as [s' d' sp' dp']. unfold flow_ltb. simpl. intros [H|[H1 H]%andb_true_iff]%orb_true_iff.
  - rewrite (bytes_ltb_asym _ _ H). simpl. case_bool_decide as E; [|done]. subst. by rewrite bytes_ltb_irrefl in H.
  - apply bool_decide_eq_true in H1 as ->. rewrite bytes_ltb_irrefl, bool_decide_true by done. simpl.
    apply orb_true_iff in H as [H|[H1 H]%andb_true_iff].
    + rewrite (bytes_ltb_asym _ _ H). simpl. case_bool_decide as E; [|done]. subst. by rewrite bytes_ltb_irrefl in H.
    + apply bool_decide_eq_true in H1 as ->. rewrite bytes_ltb_irrefl, bool_decide_true by done. simpl.
      apply orb_false_iff. apply orb_true_iff in H as [H%Z.ltb_lt|[H1%Z.eqb_eq H%Z.ltb_lt]%andb_true_iff].
      * split; [apply Z.ltb_ge; lia|]. apply andb_false_iff. left. apply Z.eqb_neq. lia.
      * subst. split; [apply Z.ltb_irrefl|]. apply andb_false_iff. right. apply Z.ltb_ge. lia.
Qed.

Lemma reverse_reverse f : reverse_flow (reverse_flow f) = f.
Proof. by destruct f. Qed.

(** The canonical flow is the same exactly for a flow and its reverse. *)
Lemma canonical_flow_spec f g : canonical_flow f = canonical_flow g ↔ g = f ∨ g = reverse_flow f.
Proof.
  assert (∀ h, canonical_flow h = h ∨ canonical_flow h = reverse_flow h) as Hc.
  { intros h. unfold canonical_flow. destruct (flow_ltb _ _); auto. }
  split.
  - intros E. destruct (Hc f) as [H1|H1], (Hc g) as [H2|H2]; rewrite H1, H2 in E.
    + by left. + right. by rewrite E, reverse_reverse. + right. done.
    + left. by rewrite <- (reverse_reverse f), <- (reverse_reverse g), E.
  - intros [->| ->]; [done|]. unfold canonical_flow. rewrite reverse_reverse.
    destruct (flow_ltb (reverse_flow f) f) eqn:E1.
    + by rewrite (flow_ltb_asym _ _ E1).
    + destruct (flow_ltb f (reverse_flow f)) eqn:E2; [done|]. by apply flow_ltb_total.
Qed.

(** The key of a flow is total, and undirected keys are canonical. *)
Lemma flow_vlan_Ok packet n e o : 14 ≤ o ≤ zlen packet → ∃ e' o', flow_vlan n packet e o = Ok (e', o') ∧ 14 ≤ o'.
Proof.
  revert e o. induction n as [|n IH]; intros e o Ho; cbn [flow_vlan]; [exists e, o; split; [done|lia]|].
  branch_on E; [exists e, o; split; [done|lia]|]. apply orb_false_iff in E as [_ E%Z.ltb_ge]. read_u16 Hh Hl. apply IH. lia.
Qed.

Lemma flow_addresses_Ok packet k o : 14 ≤ o → 14 ≤ zlen packet → ∃ s d p t, flow_addresses packet k o = Ok (s, d, p, t) ∧ 14 ≤ t.
Proof.
  intros Ho Hl. unfold flow_addresses. branch_on E.
  - apply andb_true_iff in E as [_ E%Z.leb_le]. read_byte Hb. branch_on E1; [|eexists _, _, _, _; by split].
    apply andb_true_iff in E1 as [E1 _]. apply andb_true_iff in E1 as [_ E1%Z.leb_le]. read_byte Hp.
    eexists _, _, _, _. split; [reflexivity|lia].
  - branch_on E'; [|eexists _, _, _, _; by split]. apply andb_true_iff in E' as [_ E'%Z.leb_le]. read_byte Hb.
    branch_on E1; [|eexists _, _, _, _; by split]. read_byte Hp. eexists _, _, _, _. split; [reflexivity|lia].
Qed.

Lemma flow_key_Ok packet :
  ∃ p f, flow_key packet true = Ok (p, f) ∧ flow_key packet false = Ok (p, canonical_flow f).
Proof.
  unfold flow_key. destruct (Z.ltb_spec (zlen packet) 14); [by eexists _, _|]. read_u16 Hh Hl.
  destruct (flow_vlan_Ok packet 2 (h * 256 + l) 14) as (k & o & -> & Ho); [lia|]. cbn [mbind result_bind].
  destruct (flow_addresses_Ok packet k o) as (s & d & p & t & -> & Ht); [lia|lia|]. cbn [mbind result_bind].
  branch_on E; [|by eexists _, _]. apply andb_true_iff in E as [_ E%Z.leb_le].
  do 2 (read_u16 Hh' Hl'; clear Hh' Hl'). by eexists _, _.
Qed.
