(* ===== verification/Forest.v ===== *)
(** * The random forest of the detector

    [Detector/detector_core.py], class [SafeRandomForestModel]: the validation
    of a model document and the prediction.  Numbers become binary64 values
    with the rounding of [float]; a loop of the source that is not structural
    has the number of nodes as its fuel. *)
From Stdlib Require Import SpecFloat.
From S2P Require Import Prelude Dict PyStr PyText PyValue Json StrictJson.

Definition RF_FORMAT : string := "shadow6-random-forest-v1".
Definition RF_FEATURES : list string := ["packet_length"; "entropy"; "is_tcp"; "payload_size"; "iat"].
Definition MAX_TREES : Z := 2000.
Definition MAX_TREE_NODES : Z := 2000000.
Definition MAX_CLASSES : Z := 256.

(** ** [float] *)

(** [m * 10^e] rounded to the nearest binary64, ties to even. *)
Definition double (m e : Z) : spec_float :=
  match m with
  | 0 => S754_zero false
  | Zpos p | Zneg p =>
      let s := m <? 0 in
      if 0 <=? e then binary_normalize 53 1024 (if s then - (Zpos p * 10 ^ e) else Zpos p * 10 ^ e) 0 s
      else match 10 ^ (- e) with
           | Zpos q => let '(mz, ez, lz) := SFdiv_core_binary 53 1024 (Zpos p) 0 (Zpos q) 0 in
                       binary_round_aux 53 1024 s mz ez lz
           | _ => S754_nan
           end
  end.

(** [float(v)] for a number that is not a boolean; an integer beyond the range
    of binary64 raises. *)
Definition py_float (v : pyval) : result spec_float :=
  match v with
  | VInt z => match double z 0 with
              | S754_infinity _ => raise OverflowError "int too large to convert to float"
              | f => Ok f
              end
  | VFloat raw => let '(m, e) := float_parts raw in Ok (double m e)
  | _ => raise TypeError "float() argument"
  end.

Definition is_finite (f : spec_float) : bool :=
  match f with S754_zero _ | S754_finite _ _ _ => true | _ => false end.

Definition is_number (v : pyval) : bool := match v with VInt _ | VFloat _ => true | _ => false end.

(** [isinstance(v, bool) or not isinstance(v, (int, float)) or not math.isfinite(float(v))]. *)
Definition not_finite (v : pyval) : result bool :=
  if is_number v then f ← py_float v; Ok (negb (is_finite f)) else Ok true.

(** ** The model *)
Record tree := Tree { children_left : list Z; children_right : list Z; feature : list Z; threshold : list pyval; value : list pyval }.
Record forest := Forest { classes : list Z; estimators : list tree }.

Definition as_int (v : pyval) : option Z := match v with VInt z => Some z | _ => None end.

Definition tree_fields : list string := ["children_left"; "children_right"; "feature"; "threshold"; "value"].

(** A class score: a finite number that is not negative. *)
Definition bad_score (v : pyval) : result bool :=
  bad ← not_finite v;
  if bad : bool then Ok true else f ← py_float v; Ok (negb (SFleb (S754_zero false) f)).

Definition positive (v : pyval) : result bool := f ← py_float v; Ok (SFltb (S754_zero false) f).

(** [incoming[child] += 1], after the test of the edge. *)
Definition add_edge (node : Z) (incoming : list Z) (child : Z) : result (list Z) :=
  _ ← raise_if (negb (between 0 child (zlen incoming - 1)) || (child =? node)) ValueError "model contains an invalid tree edge";
  Ok (alter (Z.add 1) (Z.to_nat child) incoming).

(** The class scores of a node. *)
Definition check_scores (n_classes : Z) (leaf : bool) (scores : pyval) : result unit :=
  match scores with
  | VList [VList l] =>
      _ ← raise_if (negb (zlen l =? n_classes)) ValueError "model class scores are invalid";
      bad ← any_res bad_score l;
      _ ← raise_if bad ValueError "model class scores are invalid";
      if leaf : bool then
        votes ← any_res positive l;
        raise_if (negb votes) ValueError "model leaf has no class votes"
      else Ok tt
  | _ => raise ValueError "model class scores are invalid"
  end.

(** One turn of the loop over the nodes. *)
Definition check_node (n_classes : Z) (features : list Z) (values : list pyval) (st : Z * list Z) (children : Z * Z)
    : result (Z * list Z) :=
  let '(node, incoming) := st in
  let '(left_child, right_child) := children in
  incoming ← (if left_child =? right_child then
                _ ← raise_if (negb (left_child =? -1)) ValueError "model leaf markers are invalid"; Ok incoming
              else
                f ← index features node;
                _ ← raise_if (negb (between 0 f (zlen RF_FEATURES - 1))) ValueError "model contains an invalid feature index";
                incoming ← add_edge node incoming left_child;
                add_edge node incoming right_child);
  scores ← index values node;
  _ ← check_scores n_classes (left_child =? -1) scores;
  Ok (node + 1, incoming).

(** The nodes that are reached from the root; [None] is an exhausted fuel. *)
Definition reach_child (st : list Z * list Z) (child : Z) : result (list Z * list Z) :=
  let '(reachable, pending) := st in
  _ ← raise_if (bool_decide (child ∈ reachable)) ValueError "model contains a cycle or duplicate edge";
  Ok (child :: reachable, child :: pending).

(** [pending] has its top first. *)
Fixpoint reach (fuel : nat) (lefts rights : list Z) (reachable pending : list Z) : option (result (list Z)) :=
  match pending with
  | [] => Some (Ok reachable)
  | node :: pending =>
      match fuel with
      | O => None
      | S fuel =>
          match (l ← index lefts node;
                 if l =? -1 then Ok (reachable, pending)
                 else r ← index rights node; st ← reach_child (reachable, pending) l; reach_child st r) with
          | Ok (reachable, pending) => reach fuel lefts rights reachable pending
          | Raise e => Some (Raise e)
          end
      end
  end.

Definition check_tree (n_classes : Z) (total_nodes : Z) (v : pyval) : result (Z * tree) :=
  match v with
  | VDict d =>
      _ ← raise_if (negb (keys_exact d tree_fields)) ValueError "model tree contains missing or unknown fields";
      match vget_none d "children_left", vget_none d "children_right", vget_none d "feature", vget_none d "threshold",
            vget_none d "value" with
      | VList l, VList r, VList f, VList thresholds, VList values =>
          let node_count := zlen l in
          _ ← raise_if ((node_count =? 0) || negb ((zlen r =? node_count) && (zlen f =? node_count)
                        && (zlen thresholds =? node_count) && (zlen values =? node_count))) ValueError
                "model tree arrays have inconsistent lengths";
          let total_nodes := total_nodes + node_count in
          _ ← raise_if (MAX_TREE_NODES <? total_nodes) ValueError "model has too many nodes";
          match mapM as_int l, mapM as_int r, mapM as_int f with
          | Some lefts, Some rights, Some features =>
              bad ← any_res not_finite thresholds;
              _ ← raise_if bad ValueError "model thresholds must be finite numbers";
              st ← fold_res (check_node n_classes features values) (0, replicate (length l) 0) (zip lefts rights);
              let incoming := (st : Z * list Z).2 in
              root ← index incoming 0;
              _ ← raise_if (negb (root =? 0) || existsb (λ c, negb (c =? 1)) (drop 1 incoming)) ValueError
                    "model is not a rooted tree";
              match reach (length l) lefts rights [0] [0] with
              | None => raise RuntimeError "unreachable"
              | Some r =>
                  reachable ← r;
                  _ ← raise_if (negb (zlen reachable =? node_count)) ValueError "model contains unreachable nodes";
                  Ok (total_nodes, Tree lefts rights features thresholds values)
              end
          | _, _, _ => raise ValueError "model tree indices must be integers"
          end
      | _, _, _, _, _ => raise ValueError "model tree arrays are invalid"
      end
  | _ => raise ValueError "model tree contains missing or unknown fields"
  end.

Fixpoint check_trees (n_classes total_nodes : Z) (l : list pyval) : result (list tree) :=
  match l with
  | [] => Ok []
  | v :: l =>
      r ← check_tree n_classes total_nodes v;
      let '(total_nodes, t) := (r : Z * tree) in
      ts ← check_trees n_classes total_nodes l;
      Ok (t :: ts)
  end.

Definition make_forest (data : pyval) : result forest :=
  match data with
  | VDict d =>
      _ ← raise_if (negb (keys_exact d ["format"; "features"; "classes"; "estimators"])) ValueError
            "model document contains missing or unknown fields";
      _ ← raise_if (negb (eq_str (vget_none d "format") RF_FORMAT && py_eqb (vget_none d "features") (txts RF_FEATURES))) ValueError
            "unsupported model format or feature schema";
      classes ← match vget_none d "classes" with
                | VList l =>
                    _ ← raise_if (negb (between 1 (zlen l) MAX_CLASSES)) ValueError "model classes are invalid";
                    match mapM as_int l with
                    | Some cs => _ ← raise_if (negb (bool_decide (NoDup cs))) ValueError "model classes are invalid"; Ok cs
                    | None => raise ValueError "model classes are invalid"
                    end
                | _ => raise ValueError "model classes are invalid"
                end;
      match vget_none d "estimators" with
      | VList l =>
          _ ← raise_if (negb (between 1 (zlen l) MAX_TREES)) ValueError "model tree count is invalid";
          ts ← check_trees (zlen classes) 0 l;
          Ok (Forest classes ts)
      | _ => raise ValueError "model tree count is invalid"
      end
  | _ => raise ValueError "model document contains missing or unknown fields"
  end.

Definition MAX_MODEL_BYTES : Z := 64 * 1024 * 1024.

(** [load] of the bytes of a model file; what is longer than the limit is
    refused by the reader. *)
Definition load (nfc : pystr → pystr) (raw : bytes) : result forest :=
  data ← strict_json_full nfc MAX_MODEL_BYTES STRING_LIMIT true false (JBytes raw);
  make_forest data.

(** ** Prediction *)

(** The walk from a node to a leaf; [seen] counts the steps.  The guard of the
    source on [seen] bounds it, so the number of nodes is enough fuel. *)
Fixpoint walk (fuel : nat) (t : tree) (row : list pyval) (node seen : Z) : option (result Z) :=
  match (l ← index (children_left t) node; r ← index (children_right t) node; Ok (l, r)) with
  | Raise e => Some (Raise e)
  | Ok (l, r) =>
      if l =? r then Some (Ok node) else
      match fuel with
      | O => None
      | S fuel =>
          match (f ← index (feature t) node;
                 _ ← raise_if (negb (between 0 f (zlen row - 1))) ValueError "model contains an invalid feature index";
                 v ← index row f; x ← py_float v; w ← index (threshold t) node; y ← py_float w;
                 let child := if SFleb x y then l else r in
                 _ ← raise_if (negb (between 0 child (zlen (feature t) - 1)) || (zlen (feature t) <? seen + 1)) ValueError
                       "model contains an invalid tree graph";
                 Ok child) with
          | Ok child => walk fuel t row child (seen + 1)
          | Raise e => Some (Raise e)
          end
      end
  end.

(** [max(range(len(values)), key=...)]: the first index of the greatest. *)
Fixpoint argmax (best : Z) (score : spec_float) (i : Z) (l : list pyval) : result Z :=
  match l with
  | [] => Ok best
  | v :: l => x ← py_float v; if SFltb score x then argmax i x (i + 1) l else argmax best score (i + 1) l
  end.

(** The class a tree votes for. *)
Definition vote (cs : list Z) (row : list pyval) (t : tree) : result Z :=
  match walk (S (length (feature t))) t row 0 0 with
  | None => raise RuntimeError "unreachable"
  | Some r =>
      node ← r;
      values ← index (value t) node;
      let values := match values with VList [VList l] => VList l | v => v end in
      l ← as_list values;
      match l with
      | [] => raise ValueError "max() iterable argument is empty"
      | v :: l => x ← py_float v; i ← argmax 0 x 1 l; index cs i
      end
  end.

(** [votes.most_common(1)[0][0]]: the first class with the most votes. *)
Definition count_vote (votes : list (Z * Z)) (c : Z) : list (Z * Z) := dset votes c (default 0 (dget votes c) + 1).

Fixpoint most_common (best : Z * Z) (l : list (Z * Z)) : Z :=
  match l with
  | [] => best.1
  | kv :: l => most_common (if best.2 <? kv.2 then kv else best) l
  end.

Definition predict_row (m : forest) (row : list pyval) : result Z :=
  _ ← raise_if (negb (zlen row =? zlen RF_FEATURES)) ValueError "prediction row must contain five finite numeric features";
  bad ← any_res not_finite row;
  _ ← raise_if bad ValueError "prediction row must contain five finite numeric features";
  cs ← map_res (vote (classes m) row) (estimators m);
  match foldl count_vote [] cs with
  | [] => raise IndexError "list index out of range"
  | kv :: l => Ok (most_common kv l)
  end.

Definition predict (m : forest) (rows : list (list pyval)) : result (list Z) := map_res (predict_row m) rows.

(** * The random forest: accepted models are trees, and prediction is total *)

(** ** Edges *)

(** The children of a node. *)
Definition kids (lr : Z * Z) : list Z := if lr.1 =? lr.2 then [] else [lr.1; lr.2].
Definition all_kids (l : list (Z * Z)) : list Z := concat (kids <$> l).

Definition occurrences (c : Z) (l : list Z) : Z := zlen (filter (λ x, x = c) l).

Lemma occurrences_app c l k : occurrences c (l ++ k) = occurrences c l + occurrences c k.
Proof. unfold occurrences. by rewrite filter_app, zlen_app. Qed.
Lemma occurrences_cons c x l : occurrences c (x :: l) = (if decide (x = c) then 1 else 0) + occurrences c l.
Proof. unfold occurrences. rewrite filter_cons. case_decide; [rewrite zlen_cons|]; lia. Qed.
Lemma occurrences_nonneg c l : 0 ≤ occurrences c l.
Proof. apply zlen_nonneg. Qed.
Lemma occurrences_elem c l : c ∈ l → 1 ≤ occurrences c l.
Proof.
  induction l as [|x l IH]; [by intros []%not_elem_of_nil|]. rewrite occurrences_cons. pose proof (occurrences_nonneg c l).
  intros [->|Hin]%elem_of_cons; [rewrite decide_True by done; lia|]. specialize (IH Hin). case_decide; lia.
Qed.

Lemma occurrences_not_elem c l : c ∉ l → occurrences c l = 0.
Proof.
  induction l as [|x l IH]; [done|]. intros [Hx Hl]%not_elem_of_cons. rewrite occurrences_cons, IH by done.
  rewrite decide_False by congruence. done.
Qed.

Lemma occurrences_NoDup l : (∀ c, c ∈ l → occurrences c l ≤ 1) → NoDup l.
Proof.
  induction l as [|x l IH]; intros H; [constructor|]. constructor.
  - intros Hx. specialize (H x ltac:(by left)). rewrite occurrences_cons, decide_True in H by done.
    pose proof (occurrences_elem x l Hx). lia.
  - apply IH. intros c Hc. specialize (H c ltac:(by right)). rewrite occurrences_cons in H. case_decide; lia.
Qed.

(** A chain from the root, last node first. *)
Section Tree.
Context (t : tree).

Definition child (i c : Z) : Prop :=
  ∃ l r, children_left t !! Z.to_nat i = Some l ∧ children_right t !! Z.to_nat i = Some r ∧ l ≠ r ∧ (c = l ∨ c = r) ∧ 0 ≤ i.

Inductive chain : list Z → Prop :=
| chain_root : chain [0]
| chain_step c v p : chain (v :: p) → child v c → chain (c :: v :: p).

Record tree_ok (k : Z) : Prop := {
  to_count : 0 < zlen (children_left t);
  to_right : zlen (children_right t) = zlen (children_left t);
  to_feature : zlen (feature t) = zlen (children_left t);
  to_threshold : zlen (threshold t) = zlen (children_left t);
  to_value : zlen (value t) = zlen (children_left t);
  to_kids : ∀ i c, child i c → 0 ≤ c < zlen (children_left t) ∧ ∃ f, feature t !! Z.to_nat i = Some f ∧ 0 ≤ f < 5;
  to_parent : ∀ i j c, child i c → child j c → i = j;
  to_root : ∀ i, ¬ child i 0;
  to_numbers : Forall (λ v, ∃ f, py_float v = Ok f) (threshold t);
  to_scores : ∀ i v, value t !! i = Some v → ∃ l, v = VList [VList l] ∧ zlen l = k ∧ Forall (λ s, ∃ f, py_float s = Ok f) l }.

Lemma chain_parent p a c b : chain p → p = a ++ c :: b → c = 0 ∨ ∃ u q, b = u :: q ∧ child u c.
Proof.
  intros Hp. revert a. induction Hp as [|c' v p Hp IH Hc]; intros a E.
  - destruct a as [|x a]; [injection E as <- <-; by left|]. destruct a; discriminate.
  - destruct a as [|x a]; [injection E as <- <-; right; eauto|]. injection E as _ E. by eapply IH.
Qed.

Lemma chain_NoDup k p : tree_ok k → chain p → NoDup p.
Proof.
  intros Ht. induction 1 as [|c v p Hp IH Hc]; [apply NoDup_singleton|]. constructor; [|done]. intros Hin.
  apply list_elem_of_split in Hin as (a & b & E). destruct (chain_parent _ _ _ _ Hp E) as [->|(u & q & -> & Hu)].
  - by eapply to_root.
  - pose proof (to_parent _ Ht _ _ _ Hc Hu) as <-. rewrite E in IH. destruct a as [|x a]; injection E as -> ->.
    + simpl in IH. apply NoDup_cons in IH as [IH _]. apply IH. by left.
    + simpl in IH. apply NoDup_cons in IH as [IH _]. apply IH, elem_of_app. right. right. by left.
Qed.

Lemma chain_range k p : tree_ok k → chain p → Forall (λ i, 0 ≤ i < zlen (children_left t)) p.
Proof.
  intros Ht. induction 1 as [|c v p Hp IH Hc]; [by repeat constructor; [|apply (to_count _ Ht)]|].
  constructor; [by apply (to_kids _ Ht v)|done].
Qed.

Lemma range_length (l : list Z) n : NoDup l → Forall (λ i, 0 ≤ i < n) l → zlen l ≤ n ∨ l = [].
Proof.
  intros Hnd Hr. destruct l as [|x l]; [by right|left]. set (q := x :: l) in *.
  assert (q ⊆+ seqZ 0 n) as Hs.
  { apply NoDup_submseteq; [done|]. intros y Hy. rewrite Forall_forall in Hr. apply elem_of_seqZ. specialize (Hr y Hy). lia. }
  apply submseteq_length in Hs. rewrite length_seqZ in Hs. rewrite Forall_forall in Hr. specialize (Hr x ltac:(by left)). unfold zlen. lia.
Qed.

Lemma chain_length k p : tree_ok k → chain p → zlen p ≤ zlen (children_left t).
Proof.
  intros Ht Hp. destruct (range_length p (zlen (children_left t))) as [H| ->]; [by eapply chain_NoDup|by eapply chain_range|done|].
  inversion Hp.
Qed.

(** A node is reached in one way. *)
Lemma chain_unique k i p q : tree_ok k → chain (i :: p) → chain (i :: q) → p = q.
Proof.
  intros Ht. revert i q. induction p as [|v p IH]; intros i q Hp Hq.
  - inversion Hp; subst. inversion Hq as [|? v ? Hv Hc]; subst; [done|]. exfalso. by eapply to_root.
  - inversion Hp as [|? ? ? Hv Hc]; subst. inversion Hq as [|? w q' Hw Hc']; subst; [exfalso; by eapply to_root|].
    pose proof (to_parent _ Ht _ _ _ Hc Hc') as <-. f_equal. by eapply IH.
Qed.
End Tree.

(** ** What the loop over the nodes checks *)
Lemma add_edge_Ok node inc c inc' :
  add_edge node inc c = Ok inc' →
  0 ≤ c < zlen inc ∧ length inc' = length inc ∧
  ∀ x, 0 ≤ x → inc' !! Z.to_nat x = (λ n, n + occurrences x [c]) <$> inc !! Z.to_nat x.
Proof.
  unfold add_edge. intros ([] & Hb%raise_if_Ok & H)%bind_Ok_inv. injection H as <-. apply orb_false_iff in Hb as [Hb _].
  apply negb_false_iff, between_spec in Hb. split; [lia|]. split; [apply length_alter|]. intros x Hx.
  rewrite occurrences_cons. change (occurrences x []) with 0. case_decide as E.
  - subst. rewrite list_lookup_alter_eq. destruct (inc !! Z.to_nat x); simpl; f_equal; lia.
  - rewrite list_lookup_alter_ne by lia. destruct (inc !! Z.to_nat x); simpl; f_equal; lia.
Qed.

Lemma bad_score_Ok v : bad_score v = Ok false → ∃ f, py_float v = Ok f.
Proof.
  unfold bad_score. intros (bad & Hb & H)%bind_Ok_inv. destruct bad; [done|]. apply bind_Ok_inv in H as (f & Hf & _). eauto.
Qed.

Lemma not_finite_Ok v : not_finite v = Ok false → ∃ f, py_float v = Ok f.
Proof. unfold not_finite. destruct (is_number v); [|done]. intros (f & Hf & _)%bind_Ok_inv. eauto. Qed.

Lemma check_scores_Ok k leaf v :
  check_scores k leaf v = Ok tt → ∃ l, v = VList [VList l] ∧ zlen l = k ∧ Forall (λ s, ∃ f, py_float s = Ok f) l.
Proof.
  unfold check_scores. destruct v as [| | | | |[|[| | | | |l|] [|]]|]; try done. intros ([] & Hk%raise_if_Ok & H)%bind_Ok_inv.
  apply bind_Ok_inv in H as (bad & Hb & H). apply bind_Ok_inv in H as ([] & Hbad%raise_if_Ok & _). subst bad.
  exists l. split; [done|]. split; [apply negb_false_iff in Hk; by apply Z.eqb_eq in Hk|]. apply any_res_false in Hb.
  eapply Forall_impl; [exact Hb|]. apply bad_score_Ok.
Qed.

Lemma check_node_Ok k features values node inc lr node' inc' :
  0 ≤ node → check_node k features values (node, inc) lr = Ok (node', inc') →
  node' = node + 1 ∧ length inc' = length inc ∧
  (∀ x, 0 ≤ x → inc' !! Z.to_nat x = (λ n, n + occurrences x (kids lr)) <$> inc !! Z.to_nat x) ∧
  (∀ c, c ∈ kids lr → 0 ≤ c < zlen inc ∧ ∃ f, features !! Z.to_nat node = Some f ∧ 0 ≤ f < 5) ∧
  (lr.1 = lr.2 → lr.1 = -1) ∧
  ∃ v, values !! Z.to_nat node = Some v ∧ ∃ l, v = VList [VList l] ∧ zlen l = k ∧ Forall (λ s, ∃ f, py_float s = Ok f) l.
Proof.
  intros H0 H. destruct lr as [l r]. unfold check_node in H. apply bind_Ok_inv in H as (inc1 & Hi & H).
  apply bind_Ok_inv in H as (v & Hv & H). apply bind_Ok_inv in H as ([] & Hs & H).
  assert (node' = node + 1 ∧ inc' = inc1) as [-> ->] by (by injection H). clear H. split; [done|].
  apply index_Ok in Hv; [|done]. apply check_scores_Ok in Hs. unfold kids. cbn [fst snd].
  assert (∃ v0, values !! Z.to_nat node = Some v0 ∧ ∃ l0, v0 = VList [VList l0] ∧ zlen l0 = k ∧ Forall (λ s, ∃ f, py_float s = Ok f) l0)
    as Hval by eauto. destruct (Z.eqb_spec l r) as [->|Hne].
  - apply bind_Ok_inv in Hi as ([] & Hm%raise_if_Ok & [= <-]). apply negb_false_iff, Z.eqb_eq in Hm.
    split_and!; try done; [|by intros c []%not_elem_of_nil].
    intros x _. change (occurrences x []) with 0. destruct (inc !! Z.to_nat x); simpl; f_equal; lia.
  - apply bind_Ok_inv in Hi as (f & Hf & Hi). apply bind_Ok_inv in Hi as ([] & Hfb%raise_if_Ok & Hi).
    apply negb_false_iff, between_spec in Hfb. change (zlen RF_FEATURES - 1) with 4 in Hfb.
    apply bind_Ok_inv in Hi as (inc2 & H1 & H2). apply add_edge_Ok in H1 as (Hl & Hlen1 & Hc1), H2 as (Hr & Hlen2 & Hc2).
    apply index_Ok in Hf; [|done]. split_and!; [congruence| | |done|].
    + intros x Hx. rewrite Hc2, Hc1 by done. rewrite !occurrences_cons. change (occurrences x []) with 0.
      destruct (inc !! Z.to_nat x); simpl; f_equal. lia.
    + unfold zlen in Hr. rewrite Hlen1 in Hr. intros c Hc. split; [|exists f; split; [done|lia]].
      apply elem_of_cons in Hc as [->| ->%list_elem_of_singleton]; unfold zlen in *; lia.
    + done.
Qed.

Lemma check_nodes_Ok k features values lrs node inc st :
  0 ≤ node → fold_res (check_node k features values) (node, inc) lrs = Ok st →
  length st.2 = length inc ∧
  (∀ x, 0 ≤ x → st.2 !! Z.to_nat x = (λ n, n + occurrences x (all_kids lrs)) <$> inc !! Z.to_nat x) ∧
  (∀ i lr, lrs !! i = Some lr →
     (∀ c, c ∈ kids lr → 0 ≤ c < zlen inc ∧ ∃ f, features !! (Z.to_nat node + i)%nat = Some f ∧ 0 ≤ f < 5) ∧
     (lr.1 = lr.2 → lr.1 = -1) ∧
     ∃ v, values !! (Z.to_nat node + i)%nat = Some v ∧
       ∃ l, v = VList [VList l] ∧ zlen l = k ∧ Forall (λ s, ∃ f, py_float s = Ok f) l).
Proof.
  revert node inc. induction lrs as [|lr lrs IH]; intros node inc H0 H.
  - injection H as <-. split_and!; try done. intros x _. change (occurrences x (all_kids [])) with 0. simpl.
    destruct (inc !! Z.to_nat x); simpl; f_equal; lia.
  - cbn [fold_res] in H. apply bind_Ok_inv in H as ([node1 inc1] & H1 & H).
    apply check_node_Ok in H1 as (-> & Hlen & Hocc & Hk & Hm & Hv); [|done]. apply IH in H as (Hlen' & Hocc' & Hall); [|lia].
    split_and!; [congruence| |].
    + intros x Hx. rewrite Hocc', Hocc by done. unfold all_kids. rewrite fmap_cons. cbn [concat]. rewrite occurrences_app.
      destruct (inc !! Z.to_nat x); simpl; f_equal. fold (all_kids lrs). lia.
    + intros [|i] lr' Hi; [injection Hi as <-; rewrite Nat.add_0_r; done|].
      destruct (Hall i lr' Hi) as (Hc & Hm' & Hval). replace (Z.to_nat (node + 1) + i)%nat with (Z.to_nat node + S i)%nat in Hc, Hval by lia.
      split_and!; [|done|done]. intros c Hin. destruct (Hc c Hin) as [Hr ?]. unfold zlen in *. rewrite Hlen in Hr. done.
Qed.

(** Distinct lists of a duplicate-free concatenation share nothing. *)
Lemma concat_unique (ls : list (list Z)) i j a b (c : Z) :
  NoDup (concat ls) → ls !! i = Some a → ls !! j = Some b → c ∈ a → c ∈ b → i = j.
Proof.
  revert i j. induction ls as [|x ls IH]; intros i j Hnd Hi Hj Ha Hb; [done|]. cbn [concat] in Hnd. apply NoDup_app in Hnd as (_ & Hd & Hnd).
  assert (∀ n y, ls !! n = Some y → c ∈ y → c ∈ concat ls) as Hin.
  { intros n y Hn Hc. apply list_elem_of_In, in_concat. exists y. split; [apply list_elem_of_In; by eapply list_elem_of_lookup_2|by apply list_elem_of_In]. }
  destruct i as [|i], j as [|j]; simpl in Hi, Hj; [done|injection Hi as ->|injection Hj as ->|f_equal; by eapply IH];
    exfalso; eapply Hd; eauto.
Qed.

(** ** Reachability *)

(** The children of a node stay in range. *)
Definition closed_edges (lefts rights : list Z) : Prop :=
  length rights = length lefts ∧
  ∀ i l r, lefts !! i = Some l → rights !! i = Some r → l ≠ -1 → 0 ≤ l < zlen lefts ∧ 0 ≤ r < zlen lefts.

Lemma reach_child_Ok reachable pending c r p :
  reach_child (reachable, pending) c = Ok (r, p) → c ∉ reachable ∧ r = c :: reachable ∧ p = c :: pending.
Proof. unfold reach_child. intros ([] & Hc%raise_if_Ok & [= <- <-])%bind_Ok_inv. apply bool_decide_eq_false in Hc. done. Qed.

Definition in_range (n : Z) (l : list Z) : Prop := NoDup l ∧ Forall (λ i, 0 ≤ i < n) l.

Lemma in_range_le n l : 0 ≤ n → in_range n l → zlen l ≤ n.
Proof. intros Hn [Hnd Hr]. destruct (range_length l n Hnd Hr) as [| ->]; [done|]. rewrite zlen_nil. lia. Qed.

(** The loop ends within its fuel, and everything it has put on the stack
    satisfies what its parent does. *)
Lemma reach_Ok (P : Z → Prop) lefts rights fuel reachable pending :
  closed_edges lefts rights →
  (∀ i l r, lefts !! Z.to_nat i = Some l → rights !! Z.to_nat i = Some r → 0 ≤ i → l ≠ -1 → P i → P l ∧ P r) →
  in_range (zlen lefts) reachable → (∀ i, i ∈ pending → i ∈ reachable) → Forall P reachable →
  zlen lefts - zlen reachable + zlen pending ≤ Z.of_nat fuel →
  ∃ r, reach fuel lefts rights reachable pending = Some r ∧ ∀ l, r = Ok l → in_range (zlen lefts) l ∧ Forall P l.
Proof.
  intros [Hlen Hcl] HP. revert reachable pending. induction fuel as [|fuel IH]; intros reachable pending Hr Hsub Hall Hm;
    destruct pending as [|i pending]; cbn [reach]; try (eexists; split; [reflexivity|]; by intros l [= <-]).
  - exfalso. pose proof (in_range_le _ _ (zlen_nonneg lefts) Hr). rewrite zlen_cons in Hm. pose proof (zlen_nonneg pending). lia.
  - assert (i ∈ reachable) as Hi by (apply Hsub; by left). pose proof Hr as [Hnd Hrange]. rewrite Forall_forall in Hrange, Hall.
    pose proof (Hrange i Hi) as Hir. destruct (index_lt lefts i Hir) as (l & El & Hl). rewrite El. cbn [mbind result_bind].
    rewrite zlen_cons in Hm. destruct (Z.eqb_spec l (-1)) as [->|Hne].
    + apply IH; [done|by intros j Hj; apply Hsub; right|by apply Forall_forall|lia].
    + destruct (index_lt rights i) as (r & Er & Hri); [unfold zlen in *; lia|]. rewrite Er. cbn [mbind result_bind].
      destruct (Hcl _ _ _ Hl Hri Hne) as [Hlr Hrr]. destruct (HP i l r Hl Hri ltac:(lia) Hne (Hall i Hi)) as [Pl Pr].
      destruct (reach_child (reachable, pending) l) as [[r1 p1]|e] eqn:E1; cbn [mbind result_bind]; [|by eexists].
      apply reach_child_Ok in E1 as (Hl1 & -> & ->).
      destruct (reach_child (l :: reachable, l :: pending) r) as [[r2 p2]|e] eqn:E2; [|by eexists].
      apply reach_child_Ok in E2 as (Hl2 & -> & ->). apply IH.
      * split; [by repeat constructor|]. constructor; [done|]. constructor; [done|by apply Forall_forall].
      * intros j [->|[->|Hj]%elem_of_cons]%elem_of_cons; [by left|by right; left|]. right. right. apply Hsub. by right.
      * constructor; [done|]. constructor; [done|by apply Forall_forall].
      * rewrite !zlen_cons. lia.
Qed.

Lemma in_range_full n l i : in_range n l → zlen l = n → 0 ≤ i < n → i ∈ l.
Proof.
  intros [Hnd Hr] Hl Hi. assert (l ≡ₚ seqZ 0 n) as Hp.
  { apply submseteq_length_Permutation.
    - apply NoDup_submseteq; [done|]. intros y Hy. rewrite Forall_forall in Hr. apply elem_of_seqZ. specialize (Hr y Hy). lia.
    - rewrite length_seqZ. unfold zlen in Hl. lia. }
  rewrite Hp. apply elem_of_seqZ. lia.
Qed.

(** ** Accepted trees *)
Lemma child_kids t i c :
  child t i c ↔ 0 ≤ i ∧ ∃ lr, zip (children_left t) (children_right t) !! Z.to_nat i = Some lr ∧ c ∈ kids lr.
Proof.
  unfold child, kids. split.
  - intros (l & r & Hl & Hr & Hne & Hc & Hi). split; [done|]. exists (l, r). split; [apply lookup_zip_with_Some; eauto 6|]. cbn [fst snd].
    rewrite (proj2 (Z.eqb_neq l r) Hne). destruct Hc as [->| ->]; [by left|right; by left].
  - intros (Hi & lr & Hlr & Hc). apply lookup_zip_with_Some in Hlr as (l & r & -> & Hl & Hr). cbn [fst snd] in Hc.
    exists l, r. destruct (Z.eqb_spec l r); [by apply not_elem_of_nil in Hc|]. split_and!; try done.
    apply elem_of_cons in Hc as [?| ?%list_elem_of_singleton]; auto.
Qed.

Lemma incoming_kids (lrs : list (Z * Z)) (inc : list Z) :
  0 < zlen inc → (∀ c, c ∈ all_kids lrs → 0 ≤ c < zlen inc) →
  (∀ x, 0 ≤ x < zlen inc → inc !! Z.to_nat x = Some (occurrences x (all_kids lrs))) →
  index inc 0 = Ok 0 → existsb (λ c, negb (c =? 1)) (drop 1 inc) = false → NoDup (all_kids lrs) ∧ 0 ∉ all_kids lrs.
Proof.
  intros Hpos Hr Hocc H0 H1. apply index_Ok in H0; [|done]. rewrite Hocc in H0 by lia. injection H0 as H0. split.
  - apply occurrences_NoDup. intros c Hc. specialize (Hr c Hc). destruct (decide (c = 0)) as [->|Hne]; [lia|].
    assert (occurrences c (all_kids lrs) ∈ drop 1 inc) as Hin.
    { apply list_elem_of_lookup. exists (Z.to_nat c - 1)%nat. rewrite lookup_drop. replace (1 + (Z.to_nat c - 1))%nat with (Z.to_nat c) by lia.
      by apply Hocc. }
    destruct (Z.eqb_spec (occurrences c (all_kids lrs)) 1) as [|E]; [lia|]. exfalso.
    assert (existsb (λ c, negb (c =? 1)) (drop 1 inc) = true) as Ht; [|congruence]. apply existsb_exists.
    eexists. split; [by apply list_elem_of_In|]. by apply negb_true_iff, Z.eqb_neq.
  - intros Hin%occurrences_elem. lia.
Qed.

Lemma mapM_as_int l zs : mapM as_int l = Some zs → length zs = length l.
Proof. intros H%mapM_Some. symmetry. by eapply Forall2_length. Qed.

(** The arrays of a tree whose nodes were checked. *)
Lemma nodes_checked k lefts rights features thresholds values st :
  0 < zlen lefts → zlen rights = zlen lefts → zlen features = zlen lefts → zlen thresholds = zlen lefts → zlen values = zlen lefts →
  any_res not_finite thresholds = Ok false →
  fold_res (check_node k features values) (0, replicate (length lefts) 0) (zip lefts rights) = Ok st →
  index st.2 0 = Ok 0 → existsb (λ c, negb (c =? 1)) (drop 1 st.2) = false →
  tree_ok (Tree lefts rights features thresholds values) k ∧ closed_edges lefts rights.
Proof.
  intros Hpos Hlr Hlf Hlt Hlv Hth Hst Hroot Hone. apply check_nodes_Ok in Hst as (Hlen & Hocc & Hall); [|done].
  rewrite length_replicate in Hlen. assert (zlen st.2 = zlen lefts) as Hz by (unfold zlen; by rewrite Hlen).
  assert (zlen (replicate (length lefts) 0) = zlen lefts) as Hrep by (unfold zlen; by rewrite length_replicate).
  assert (∀ i c, child (Tree lefts rights features thresholds values) i c →
    0 ≤ c < zlen lefts ∧ ∃ f, features !! Z.to_nat i = Some f ∧ 0 ≤ f < 5) as Hkids.
  { intros i c (Hi & lr & Hz' & Hc)%child_kids. destruct (Hall _ _ Hz') as (Hk & _). rewrite Hrep in Hk. by apply Hk. }
  destruct (incoming_kids (zip lefts rights) st.2) as [Hnd Hno]; [lia| | |done|done|].
  { intros c Hc. rewrite Hz. unfold all_kids in Hc. apply list_elem_of_In, in_concat in Hc as (ks & Hks & Hc).
    apply list_elem_of_In, list_elem_of_fmap in Hks as (lr & -> & Hlr').
    apply list_elem_of_lookup_1 in Hlr' as [i Hi]. destruct (Hall _ _ Hi) as (Hk & _). rewrite Hrep in Hk. by apply Hk, list_elem_of_In. }
  { intros x Hx. rewrite Hocc, lookup_replicate_2 by (unfold zlen in *; lia). done. }
  split; [split; simpl; try done|].
  - intros i j c (Hi & lr & Hli & Hc)%child_kids (Hj & lr' & Hlj & Hc')%child_kids. simpl in *.
    enough (Z.to_nat i = Z.to_nat j) by lia.
    eapply (concat_unique (kids <$> zip lefts rights) _ _ (kids lr) (kids lr') c); try done; by rewrite list_lookup_fmap, ?Hli, ?Hlj.
  - intros i (_ & lr & Hli & Hc)%child_kids. apply Hno. unfold all_kids. apply list_elem_of_In, in_concat. exists (kids lr).
    split; [apply list_elem_of_In, list_elem_of_fmap; exists lr; split; [done|by eapply list_elem_of_lookup_2]|by apply list_elem_of_In].
  - apply any_res_false in Hth. eapply Forall_impl; [exact Hth|]. apply not_finite_Ok.
  - intros i v Hv. destruct (lookup_lt_is_Some_2 (zip lefts rights) i) as [lr Hli].
    { apply lookup_lt_Some in Hv. rewrite length_zip_with. unfold zlen in *. lia. }
    destruct (Hall _ _ Hli) as (_ & _ & v' & Hv' & Hs). simpl in Hv'. rewrite Hv in Hv'. by injection Hv' as <-.
  - split; [unfold zlen in *; lia|]. intros i l r Hl Hr Hne.
    assert (zip lefts rights !! i = Some (l, r)) as Hli by (apply lookup_zip_with_Some; eauto 6).
    destruct (Hall _ _ Hli) as (Hk & Hm & _). rewrite Hrep in Hk. unfold kids in Hk. cbn [fst snd] in Hk, Hm.
    destruct (Z.eqb_spec l r) as [->|Hne']; [by specialize (Hm eq_refl)|]. split; apply Hk; set_solver.
Qed.

(** An accepted tree: well shaped, and every node is reached from the root. *)
Record accepted (k : Z) (t : tree) : Prop := {
  ac_ok : tree_ok t k;
  ac_reached : ∀ i, 0 ≤ i < zlen (children_left t) → ∃ p, chain t (i :: p) }.

Lemma check_tree_Ok k total v total' t : check_tree k total v = Ok (total', t) → accepted k t.
Proof.
  unfold check_tree. destruct v as [| | | | | |d]; try done. intros ([] & _ & H)%bind_Ok_inv.
  destruct (vget_none d "children_left") as [| | | | |l|], (vget_none d "children_right") as [| | | | |r|],
    (vget_none d "feature") as [| | | | |f|], (vget_none d "threshold") as [| | | | |ths|], (vget_none d "value") as [| | | | |vals|];
    try done. apply bind_Ok_inv in H as ([] & Hlen%raise_if_Ok & H). apply bind_Ok_inv in H as ([] & _ & H).
  destruct (mapM as_int l) as [lefts|] eqn:El, (mapM as_int r) as [rights|] eqn:Er, (mapM as_int f) as [features|] eqn:Ef; try done.
  apply mapM_as_int in El, Er, Ef. apply bind_Ok_inv in H as (bad & Hth & H). apply bind_Ok_inv in H as ([] & Hbad%raise_if_Ok & H). subst bad.
  apply bind_Ok_inv in H as (st & Hst & H). apply bind_Ok_inv in H as (root & Hroot & H). apply bind_Ok_inv in H as ([] & Hone%raise_if_Ok & H).
  apply orb_false_iff in Hlen as [Hpos Hlen], Hone as [H0 H1]. apply negb_false_iff in Hlen, H0. apply Z.eqb_neq in Hpos.
  apply Z.eqb_eq in H0. subst root. rewrite !andb_true_iff, !Z.eqb_eq in Hlen. destruct Hlen as [[[Hr Hf] Hts] Hvs]. rewrite <- El in Hst.
  destruct (nodes_checked k lefts rights features ths vals st) as [Hok Hcl]; try done; try (unfold zlen in *; lia).
  set (t0 := Tree lefts rights features ths vals) in *.
  assert (∀ i, (∃ p, chain t0 (i :: p)) → ∀ l r, lefts !! Z.to_nat i = Some l → rights !! Z.to_nat i = Some r → 0 ≤ i → l ≠ -1 →
    (∃ p, chain t0 (l :: p)) ∧ (∃ p, chain t0 (r :: p))) as Hstep.
  { intros i [p Hp] l0 r0 Hl0 Hr0 Hi Hne. destruct (proj2 Hcl _ _ _ Hl0 Hr0 Hne) as [Hlr Hrr].
    assert (l0 ≠ r0) as Hd.
    { intros <-. apply check_nodes_Ok in Hst as (_ & _ & Hall); [|done].
      destruct (Hall (Z.to_nat i) (l0, l0)) as (_ & Hm & _); [apply lookup_zip_with_Some; eauto 6|]. cbn in Hm. auto. }
    split; exists (i :: p); constructor; try done; exists l0, r0; auto 6. }
  destruct (reach_Ok (λ i, ∃ p, chain t0 (i :: p)) lefts rights (length l) [0] [0]) as (res & Er' & Hres); try done.
  { intros i l0 r0 Hl0 Hr0 Hi Hne Hp. by eapply Hstep. }
  { split; [apply NoDup_singleton|]. constructor; [unfold zlen in *; lia|done]. }
  { constructor; [|done]. exists []. constructor. }
  { rewrite !zlen_cons, !zlen_nil. unfold zlen. lia. }
  rewrite Er' in H. apply bind_Ok_inv in H as (reachable & -> & H). apply bind_Ok_inv in H as ([] & Hn%raise_if_Ok & H).
  assert (t = t0) as -> by (by injection H). split; [done|]. intros i Hi. destruct (Hres _ eq_refl) as [Hrg HP].
  apply negb_false_iff, Z.eqb_eq in Hn. rewrite Forall_forall in HP. apply HP. eapply in_range_full; [exact Hrg| |exact Hi].
  rewrite Hn. unfold zlen. by rewrite El.
Qed.

Lemma check_trees_Ok k total l ts : check_trees k total l = Ok ts → Forall (accepted k) ts ∧ length ts = length l.
Proof.
  revert total ts. induction l as [|v l IH]; intros total ts H; cbn [check_trees] in H; [by injection H as <-|].
  apply bind_Ok_inv in H as ([total' t] & Ht & H). apply bind_Ok_inv in H as (ts' & Hts & [= <-]).
  apply check_tree_Ok in Ht. destruct (IH _ _ Hts) as [Hall Hl]. split; [by constructor|simpl; by rewrite Hl].
Qed.

Record forest_ok (m : forest) : Prop := {
  fo_classes : 1 ≤ zlen (classes m) ∧ NoDup (classes m);
  fo_trees : estimators m ≠ [];
  fo_accepted : Forall (accepted (zlen (classes m))) (estimators m) }.

Lemma make_forest_Ok data m : make_forest data = Ok m → forest_ok m.
Proof.
  unfold make_forest. destruct data as [| | | | | |d]; try done. intros ([] & _ & H)%bind_Ok_inv.
  apply bind_Ok_inv in H as ([] & _ & H). apply bind_Ok_inv in H as (cs & Hcs & H).
  destruct (vget_none d "estimators") as [| | | | |l|]; try done. apply bind_Ok_inv in H as ([] & Hl%raise_if_Ok & H).
  apply bind_Ok_inv in H as (ts & Hts & [= <-]). apply negb_false_iff, between_spec in Hl.
  destruct (check_trees_Ok _ _ _ _ Hts) as [Hall Hlen]. split; simpl; [|intros ->; unfold zlen in Hl; simpl in Hlen; lia|done].
  destruct (vget_none d "classes") as [| | | | |c|]; try done. apply bind_Ok_inv in Hcs as ([] & Hc%raise_if_Ok & Hcs).
  apply negb_false_iff, between_spec in Hc. destruct (mapM as_int c) as [zs|] eqn:E; [|done]. apply mapM_as_int in E.
  apply bind_Ok_inv in Hcs as ([] & Hn%raise_if_Ok & [= <-]). apply negb_false_iff, bool_decide_eq_true in Hn.
  split; [unfold zlen in *; lia|done].
Qed.

(** ** Prediction *)

(** A row that prediction admits. *)
Definition row_ok (row : list pyval) : Prop := zlen row = 5 ∧ Forall (λ v, ∃ f, py_float v = Ok f) row.

Lemma index_Forall {A} (P : A → Prop) l i : Forall P l → 0 ≤ i < zlen l → ∃ x, index l i = Ok x ∧ P x.
Proof.
  intros Hall Hi. destruct (index_lt l i Hi) as (x & E & Hx). exists x. split; [done|]. rewrite Forall_forall in Hall.
  by apply Hall, (list_elem_of_lookup_2 _ _ _ Hx).
Qed.

Lemma walk_Ok k t row fuel node p :
  accepted k t → row_ok row → chain t (node :: p) → zlen (children_left t) - zlen p ≤ Z.of_nat fuel →
  ∃ leaf, walk fuel t row node (zlen p) = Some (Ok leaf) ∧ 0 ≤ leaf < zlen (children_left t) ∧ ∀ c, ¬ child t leaf c.
Proof.
  intros [Hok _] [Hrow Hnum]. revert node p. induction fuel as [|fuel IH]; intros node p Hc Hf;
    pose proof (chain_length _ _ _ Hok Hc) as Hlen; rewrite zlen_cons in Hlen;
    pose proof (chain_range _ _ _ Hok Hc) as [Hn _]%Forall_cons.
  { exfalso. lia. }
  pose proof (to_right _ _ Hok) as HR. pose proof (to_feature _ _ Hok) as HF. pose proof (to_threshold _ _ Hok) as HT.
  cbn [walk]. destruct (index_lt (children_left t) node Hn) as (l & El & Hl). rewrite El. cbn [mbind result_bind].
  destruct (index_lt (children_right t) node ltac:(lia)) as (r & Er & Hr). rewrite Er. cbn [mbind result_bind].
  destruct (Z.eqb_spec l r) as [->|Hne].
  { exists node. split_and!; try lia; [done|]. intros c (l' & r' & Hl' & Hr' & Hd & _). congruence. }
  assert (∀ c, c = l ∨ c = r → child t node c) as Hch by (intros c Hcc; exists l, r; split_and!; try done; lia).
  destruct (to_kids _ _ Hok _ _ (Hch l ltac:(by left))) as [_ (f & Ef & Hfr)]. apply index_Ok in Ef; [|lia]. rewrite Ef. cbn [mbind result_bind].
  assert (negb (between 0 f (zlen row - 1)) = false) as -> by (apply negb_false_iff, between_spec; lia). cbn [raise_if mbind result_bind].
  destruct (index_Forall _ row f Hnum ltac:(lia)) as (v & Ev & x & Ex). rewrite Ev. cbn [mbind result_bind]. rewrite Ex. cbn [mbind result_bind].
  destruct (index_Forall _ (threshold t) node (to_numbers _ _ Hok) ltac:(lia)) as (w & Ew & y & Ey). rewrite Ew. cbn [mbind result_bind].
  rewrite Ey. cbn [mbind result_bind]. set (c := if SFleb x y then l else r).
  assert (child t node c) as Hcc by (apply Hch; unfold c; destruct (SFleb x y); auto).
  pose proof (chain_step _ _ _ _ Hc Hcc) as Hc'. pose proof (chain_length _ _ _ Hok Hc') as Hlen'. rewrite !zlen_cons in Hlen'.
  destruct (to_kids _ _ Hok _ _ Hcc) as [Hcr _].
  assert (negb (between 0 c (zlen (feature t) - 1)) || (zlen (feature t) <? zlen p + 1) = false) as ->.
  { apply orb_false_iff. split; [apply negb_false_iff, between_spec; lia|apply Z.ltb_ge; lia]. }
  cbn [raise_if mbind result_bind]. specialize (IH c (node :: p) Hc'). rewrite zlen_cons in IH. rewrite Z.add_comm. apply IH. lia.
Qed.

Lemma argmax_Ok l best s i :
  Forall (λ v, ∃ f, py_float v = Ok f) l → 0 ≤ best < i → ∃ j, argmax best s i l = Ok j ∧ 0 ≤ j < i + zlen l.
Proof.
  revert best s i. induction l as [|v l IH]; intros best s i Hall Hb; cbn [argmax]; [exists best; unfold zlen; simpl; split; [done|lia]|].
  apply Forall_cons in Hall as [[f Hf] Hall]. rewrite Hf. cbn [mbind result_bind]. rewrite zlen_cons.
  destruct (SFltb s f).
  - destruct (IH i f (i + 1) Hall ltac:(lia)) as (j & -> & Hj). exists j. split; [done|lia].
  - destruct (IH best s (i + 1) Hall ltac:(lia)) as (j & -> & Hj). exists j. split; [done|lia].
Qed.

Lemma vote_Ok cs t row : 1 ≤ zlen cs → accepted (zlen cs) t → row_ok row → ∃ c, vote cs row t = Ok c ∧ c ∈ cs.
Proof.
  intros Hk Ht Hrow. pose proof (ac_ok _ _ Ht) as Hok. unfold vote.
  destruct (walk_Ok _ t row (S (length (feature t))) 0 [] Ht Hrow) as (leaf & Ew & Hleaf & _); [constructor| |].
  { pose proof (to_feature _ _ Hok). unfold zlen in *. simpl. lia. }
  change (zlen []) with 0 in Ew. rewrite Ew. cbn [mbind result_bind]. destruct (index_lt (value t) leaf) as (v & -> & Hv); [by rewrite (to_value _ _ Hok)|]. cbn [mbind result_bind].
  destruct (to_scores _ _ Hok _ _ Hv) as (l & -> & Hl & Hnum). cbn [as_list mbind result_bind]. destruct l as [|s l].
  { rewrite zlen_nil in Hl. lia. }
  apply Forall_cons in Hnum as [[f Hf] Hnum]. rewrite Hf. cbn [mbind result_bind].
  destruct (argmax_Ok l 0 f 1 Hnum ltac:(lia)) as (j & -> & Hj). cbn [mbind result_bind]. rewrite zlen_cons in Hl.
  destruct (index_lt cs j ltac:(lia)) as (c & -> & Hc). exists c. split; [done|]. by eapply list_elem_of_lookup_2.
Qed.

(** ** Counting votes *)
Lemma count_votes_get cs votes c :
  dget (foldl count_vote votes cs) c =
  match dget votes c with
  | Some n => Some (n + occurrences c cs)
  | None => if decide (c ∈ cs) then Some (occurrences c cs) else None
  end.
Proof.
  revert votes. induction cs as [|x cs IH]; intros votes; cbn [foldl].
  - change (occurrences c []) with 0. rewrite decide_False by apply not_elem_of_nil. destruct (dget votes c); [f_equal; lia|done].
  - rewrite IH. unfold count_vote. rewrite dget_dset, occurrences_cons. destruct (decide (c = x)) as [->|Hne].
    + destruct (dget votes x); simpl; repeat case_decide; try congruence; try (f_equal; lia); set_solver.
    + destruct (dget votes c); simpl; repeat case_decide; try congruence; try (f_equal; lia); set_solver.
Qed.

Lemma count_votes_wf cs votes : dwf votes → dwf (foldl count_vote votes cs).
Proof. revert votes. induction cs as [|x cs IH]; intros votes Hw; [done|]. apply IH. by apply dwf_dset. Qed.

Lemma most_common_spec best l :
  ∃ n, (most_common best l, n) ∈ best :: l ∧ ∀ c m, (c, m) ∈ best :: l → m ≤ n.
Proof.
  revert best. induction l as [|kv l IH]; intros best; cbn [most_common].
  - exists best.2. split; [apply elem_of_cons; left; by destruct best|]. intros c m [<-|[]%not_elem_of_nil]%elem_of_cons. done.
  - destruct (Z.ltb_spec best.2 kv.2) as [H|H].
    + destruct (IH kv) as (n & Hin & Hmax). exists n. split; [by right|]. intros c m [<-|Hc]%elem_of_cons; [|by eapply Hmax].
      specialize (Hmax kv.1 kv.2 ltac:(apply elem_of_cons; left; by destruct kv)). simpl in *. lia.
    + destruct (IH best) as (n & Hin & Hmax). exists n.
      split; [apply elem_of_cons in Hin as [->|Hin]; [by left|right; by right]|].
      intros c m [<-|[<-|Hc]%elem_of_cons]%elem_of_cons; [by eapply Hmax; left| |by eapply Hmax; right].
      specialize (Hmax best.1 best.2 ltac:(apply elem_of_cons; left; by destruct best)). simpl in *. lia.
Qed.

(** A validated model predicts a class for every admitted row: each tree walks
    to a leaf and votes, and the class has the most votes. *)
Lemma predict_row_Ok m row :
  forest_ok m → row_ok row → any_res not_finite row = Ok false →
  ∃ c cs, predict_row m row = Ok c ∧ Forall2 (λ t x, vote (classes m) row t = Ok x) (estimators m) cs ∧
    c ∈ classes m ∧ c ∈ cs ∧ ∀ c', occurrences c' cs ≤ occurrences c cs.
Proof.
  intros [[Hk _] Hne Hall] Hrow Hfin. unfold predict_row.
  assert (negb (zlen row =? zlen RF_FEATURES) = false) as -> by (apply negb_false_iff, Z.eqb_eq; apply Hrow).
  cbn [raise_if mbind result_bind]. rewrite Hfin. cbn [raise_if mbind result_bind].
  assert (∃ cs, map_res (vote (classes m) row) (estimators m) = Ok cs ∧ Forall (λ c, c ∈ classes m) cs) as (cs & Hcs & Hin).
  { clear Hne. induction Hall as [|t ts Ht _ IH]; [by exists []|]. destruct IH as (cs & Hcs & Hin).
    destruct (vote_Ok _ _ _ Hk Ht Hrow) as (c & Hc & Hcin). exists (c :: cs). cbn [map_res]. rewrite Hc. cbn [mbind result_bind].
    rewrite Hcs. split; [done|by constructor]. }
  rewrite Hcs. cbn [mbind result_bind]. apply map_res_Ok in Hcs.
  assert (∀ c n, dget (foldl count_vote [] cs) c = Some n ↔ c ∈ cs ∧ n = occurrences c cs) as Hget.
  { intros c n. rewrite count_votes_get. simpl. case_decide; split; [intros [= <-]|intros [_ ->]|done|tauto]; done. }
  pose proof (count_votes_wf cs [] dwf_nil) as Hw. destruct (foldl count_vote [] cs) as [|kv l] eqn:E.
  { exfalso. destruct cs as [|c cs]; [inversion Hcs; congruence|].
    pose proof (proj2 (Hget c (occurrences c (c :: cs))) ltac:(split; [by left|done])). done. }
  destruct (most_common_spec kv l) as (n & Hn & Hmax). apply (elem_of_dget _ _ _ Hw) in Hn. apply Hget in Hn as [Hc ->].
  exists (most_common kv l), cs. rewrite Forall_forall in Hin. split_and!; try done; [by apply Hin|].
  intros c'. destruct (decide (c' ∈ cs)) as [Hc'|Hc'].
  - apply (Hmax c'), dget_elem_of, Hget. done.
  - rewrite (occurrences_not_elem c' cs Hc'). apply occurrences_nonneg.
Qed.
