(* ===== verification/DetectorClaims.v ===== *)
(** * The detector: what it promises *)
From Stdlib Require Import SpecFloat.
From S2P Require Import Prelude Dict PyStr PyText PyValue Detector Forest.

(** ** Packets *)

(** Feature extraction never fails, whatever a frame claims about its
    lengths, tags, fragments and extension headers: it reports the length of the
    frame, and either nothing or the entropy and size of a slice of the frame
    that starts behind the Ethernet header and ends within the frame. *)
Theorem features_in_bounds {F} (zero : F) (entropy : bytes → F) packet :
  wf_bytes packet = true →
  ∃ e tcp n, extract_features zero entropy packet = Ok (zlen packet, e, tcp, n) ∧
    (tcp = 0 ∨ tcp = 1) ∧
    ((e = zero ∧ tcp = 0 ∧ n = 0) ∨
     ∃ i j, 14 ≤ i ≤ j ∧ j ≤ zlen packet ∧ n = j - i ∧ e = entropy (take 256 (slice i j packet))).
Proof. intros Hwf. by apply extract_features_Ok. Qed.

(** A UDP datagram from 10.0.0.1:1000 to 10.0.0.2:2000 with five bytes of
    payload, and the packet of the opposite direction. *)
Definition demo_udp (src dst : Z) (sport dport : Z) : bytes :=
  replicate 12 0 ++ [8; 0] ++
  [69; 0; 0; 33; 0; 0; 0; 0; 64; 17; 0; 0; 10; 0; 0; src; 10; 0; 0; dst] ++
  be_encode 2 sport ++ be_encode 2 dport ++ [0; 13; 0; 0] ++ [104; 101; 108; 108; 111].

Lemma features_in_bounds_witness :
  ∃ e tcp n, extract_features 0 (λ b, foldr Z.add 0 b) (demo_udp 1 2 1000 2000) = Ok (zlen (demo_udp 1 2 1000 2000), e, tcp, n) ∧
    (tcp = 0 ∨ tcp = 1).
Proof.
  destruct (features_in_bounds 0 (λ b, foldr Z.add 0 b) (demo_udp 1 2 1000 2000)) as (e & tcp & n & H1 & H2 & _); [reflexivity|].
  exact (ex_intro _ e (ex_intro _ tcp (ex_intro _ n (conj H1 H2)))).
Defined.

(** The key of a flow is total, and two packets have the same undirected key
    exactly when they have the same protocol and the same addresses and ports,
    up to swapping source and destination. *)
Theorem flow_key_undirected packet packet' :
  flow_key packet false = flow_key packet' false ↔
  ∃ protocol f g, flow_key packet true = Ok (protocol, f) ∧ flow_key packet' true = Ok (protocol, g) ∧ (g = f ∨ g = reverse_flow f).
Proof.
  destruct (flow_key_Ok packet) as (p & f & E1 & E2), (flow_key_Ok packet') as (p' & g & E1' & E2'). rewrite E1, E2, E1', E2'. split.
  - intros [= <- E]. exists p, f, g. split_and!; try done. by apply canonical_flow_spec.
  - intros (q & f' & g' & [= <- <-] & [= <- <-] & H). do 2 f_equal. by apply canonical_flow_spec.
Qed.

(** ** The random forest *)

(** A model that is accepted is a forest: in each of its trees every node is
    reached from the root in exactly one way. *)
Theorem forest_is_forest data m t i :
  make_forest data = Ok m → t ∈ estimators m → 0 ≤ i < zlen (children_left t) →
  ∃ p, chain t (i :: p) ∧ ∀ q, chain t (i :: q) → q = p.
Proof.
  intros Hm%make_forest_Ok Ht Hi. pose proof (fo_accepted _ Hm) as Hall. rewrite Forall_forall in Hall. specialize (Hall t Ht).
  destruct (ac_reached _ _ Hall i Hi) as [p Hp]. exists p. split; [done|]. intros q Hq.
  by eapply chain_unique; [apply (ac_ok _ _ Hall)| |].
Qed.

Definition demo_tree : pyval := VDict (mkdict
  [("children_left", VList [VInt 1; VInt (-1); VInt (-1)]); ("children_right", VList [VInt 2; VInt (-1); VInt (-1)]);
   ("feature", VList [VInt 1; VInt (-2); VInt (-2)]); ("threshold", VList [VFloat (str "4.5"); VInt (-2); VInt (-2)]);
   ("value", VList [VList [VList [VInt 3; VInt 3]]; VList [VList [VInt 0; VInt 3]]; VList [VList [VInt 3; VFloat (str "0.0")]]])]%string).
Definition demo_model : pyval := VDict (mkdict
  [("format", txt RF_FORMAT); ("features", txts RF_FEATURES); ("classes", VList [VInt 0; VInt 1]); ("estimators", VList [demo_tree])]%string).
Definition demo_forest := Eval vm_compute in match make_forest demo_model with Ok m => m | Raise _ => Forest [] [] end.
Definition demo_first := Eval vm_compute in match estimators demo_forest with t :: _ => t | [] => Tree [] [] [] [] [] end.

Lemma forest_is_forest_witness : ∃ p, chain demo_first (2 :: p) ∧ ∀ q, chain demo_first (2 :: q) → q = p.
Proof.
  refine (forest_is_forest demo_model demo_forest demo_first 2 _ _ _); [vm_compute; reflexivity|by left|].
  split; [discriminate|reflexivity].
Defined.

(** C29: Prediction with an accepted model is total: for every row of five finite
    numbers each tree walks to a leaf within its own size and votes for one of
    the model's classes, and the prediction is a class with the most votes. *)
Theorem forest_predicts data m rows :
  make_forest data = Ok m → Forall (λ row, zlen row = 5 ∧ any_res not_finite row = Ok false) rows →
  ∃ predictions, predict m rows = Ok predictions ∧
    Forall2 (λ row c, ∃ cs, Forall2 (λ t x, vote (classes m) row t = Ok x) (estimators m) cs ∧
      c ∈ classes m ∧ c ∈ cs ∧ ∀ c', occurrences c' cs ≤ occurrences c cs) rows predictions.
Proof.
  intros Hm%make_forest_Ok Hrows. unfold predict. induction Hrows as [|row rows [Hlen Hfin] _ (ps & Hps & IH)]; [exists []; by split|].
  destruct (predict_row_Ok m row Hm) as (c & cs & Hc & Hrest); [split; [done|]|done|].
  { apply any_res_false in Hfin. eapply Forall_impl; [exact Hfin|]. apply not_finite_Ok. }
  exists (c :: ps). cbn [map_res]. rewrite Hc. cbn [mbind result_bind]. rewrite Hps. split; [done|]. constructor; [by exists cs|done].
Qed.

Definition demo_row : list pyval := [VInt 60; VFloat (str "1.25"); VInt 1; VInt 5; VFloat (str "0.001")].
Lemma forest_predicts_witness : ∃ predictions, predict demo_forest [demo_row] = Ok predictions.
Proof.
  destruct (forest_predicts demo_model demo_forest [demo_row]) as (ps & Hps & _);
    [vm_compute; reflexivity|constructor; [split; vm_compute; reflexivity|constructor]|].
  exact (ex_intro _ ps Hps).
Defined.

(** A packet with low entropy is classified as a probe by the sample model. *)
Example demo_prediction : predict demo_forest [demo_row] = Ok [1].
Proof. vm_compute. reflexivity. Qed.
