(* ===== verification/Abi.v ===== *)
(** * The process boundary: S6AR1 messages and S6ABI/1 frames

    [Control-Center/s6ar.py]: the envelope of requests, responses and events;
    [Deployment/shadow6_abi.py]: control, data and record frames.  Identifiers
    drawn by [uuid4] are arguments. *)
From S2P Require Import Prelude Dict PyStr PyText PyValue Json JsonFacts JsonRound JsonDocs StrictJson Sha256 Signing.
From S2P Require Import Base64 Net JoinCode CredentialFacts BrokerSet.

(** ** [s6ar.py] *)
Definition AR_PREFIX : pystr := str "S6AR1.".
Definition MAX_SIZE : Z := 262144.
Definition AR_SCHEMA : string := "shadow6.api-receiver-router.v1".

Definition short_name (s : pystr) : bool := re_class id_char 1 64 s.
Definition long_name (s : pystr) : bool := re_class identity_char 1 128 s.
Definition code_name (s : pystr) : bool := re_class identity_char 1 64 s.

(** [re.fullmatch(p, str(v))]: the text of a number, a truth value or [None] may
    match, that of a list or a dictionary never does; a float is refused when
    the message is read back. *)
Definition text_of (v : pyval) : pystr :=
  match v with
  | VStr s => s
  | VInt z => dec z
  | VBool b => str (if b then "True" else "False")
  | VNone => str "None"
  | VFloat r => r
  | VList _ | VDict _ => str "[]"
  end.
Definition text_matches (p : pystr → bool) (v : pyval) : bool := p (text_of v).

Definition check_receiver (r : pydict) : result unit :=
  _ ← raise_if (negb (keys_within r ["component"; "instance"]) || negb (text_matches short_name (vget_or r "component" (VStr []))))
        ValueError "invalid S6AR1 receiver";
  raise_if (has_key r "instance" && negb (text_matches long_name (vget_none r "instance"))) ValueError "invalid S6AR1 receiver instance".

Definition hop_ok (v : pyval) : bool := match v with VStr s => long_name s | _ => false end.

Definition check_router (r : pydict) : result unit :=
  _ ← raise_if (negb (keys_within r ["route"; "hops"; "timeout_ms"]) || negb (text_matches long_name (vget_or r "route" (VStr []))))
        ValueError "invalid S6AR1 route";
  _ ← raise_if (has_key r "hops" && match vget_none r "hops" with
                                    | VList l => (16 <? zlen l) || negb (forallb hop_ok l)
                                    | _ => true
                                    end) ValueError "invalid S6AR1 route hops";
  raise_if (has_key r "timeout_ms" && negb (int_between 1 (vget_none r "timeout_ms") 300000)) ValueError "invalid S6AR1 route timeout".

Definition error_ok (v : pyval) : bool :=
  match v with
  | VDict e =>
      keys_within e ["code"; "message"; "details"] && text_matches code_name (vget_or e "code" (VStr []))
      && match vget_none e "message" with VStr s => zlen s <=? 512 | _ => false end
  | _ => false
  end.

Definition check_payload (kind : pyval) (p : pydict) : result unit :=
  if eq_str kind "request" then
    _ ← raise_if (negb (keys_within p ["action"; "correlation_id"; "params"; "context"])
                  || negb (text_matches short_name (vget_or p "action" (VStr [])))) ValueError "invalid S6AR1 action";
    _ ← raise_if (negb (text_matches long_name (vget_or p "correlation_id" (VStr [])))) ValueError "missing S6AR1 correlation_id";
    _ ← raise_if (has_key p "params" && negb (is_dict (vget_none p "params"))) ValueError "invalid S6AR1 params";
    raise_if (has_key p "context" && match vget_none p "context" with
                                     | VStr s => negb (starts_with (str "S6P1.") s)
                                     | _ => true
                                     end) ValueError "invalid S6P1 context"
  else if eq_str kind "response" then
    _ ← raise_if (negb (keys_within p ["correlation_id"; "result"; "error"])
                  || negb (text_matches long_name (vget_or p "correlation_id" (VStr [])))) ValueError "missing S6AR1 correlation_id";
    _ ← raise_if (Bool.eqb (has_key p "result") (has_key p "error")) ValueError "response must contain exactly one result or error";
    raise_if (has_key p "error" && negb (error_ok (vget_none p "error"))) ValueError "invalid S6AR1 error"
  else
    _ ← raise_if (negb (keys_within p ["event"; "correlation_id"; "data"])
                  || negb (text_matches long_name (vget_or p "event" (VStr [])))) ValueError "invalid S6AR1 event";
    raise_if (has_key p "correlation_id" && negb (text_matches long_name (vget_none p "correlation_id"))) ValueError
      "invalid S6AR1 event correlation".

Definition ar_fields : list string := ["schema"; "version"; "kind"; "receiver"; "router"; "payload"].
Definition ar_kinds : list string := ["request"; "response"; "event"].

Definition check_sections (kind receiver router payload : pyval) : result unit :=
  match receiver, router, payload with
  | VDict r, VDict o, VDict p => _ ← check_receiver r; _ ← check_router o; check_payload kind p
  | _, _, _ => raise ValueError "invalid S6AR1 sections"
  end.

Definition check_ar (message : pyval) : result unit :=
  match message with
  | VDict m =>
      _ ← raise_if (negb (keys_within m ar_fields) || negb (keys_cover m ar_fields)) ValueError "invalid S6AR1 message";
      _ ← raise_if (negb (eq_str (vget_none m "schema") AR_SCHEMA) || negb (int_between 1 (vget_none m "version") 1)) ValueError
            "invalid S6AR1 schema";
      _ ← raise_if (negb (in_strs (vget_none m "kind") ar_kinds)) ValueError "invalid S6AR1 kind";
      check_sections (vget_none m "kind") (vget_none m "receiver") (vget_none m "router") (vget_none m "payload")
  | _ => raise ValueError "invalid S6AR1 message"
  end.

Section Messages.
Context (nfc : pystr → pystr).

Definition pack (message : pyval) : result pystr :=
  _ ← check_ar message;
  let raw := dumps_canonical message in
  _ ← strict_json nfc MAX_SIZE STRING_LIMIT (JBytes raw);
  let token := AR_PREFIX ++ urlsafe_encode raw in
  _ ← raise_if (MAX_SIZE <? zlen token) ValueError "S6AR1 message is oversized";
  Ok token.

Definition unpack (token : pyval) : result pyval :=
  match token with
  | VStr token =>
      _ ← raise_if (negb (starts_with AR_PREFIX token) || (MAX_SIZE <? zlen token)) ValueError "invalid S6AR1 message";
      let text := drop (length AR_PREFIX) token in
      _ ← raise_if (bool_decide (text = []) || negb (forallb is_urlsafe text)) ValueError "invalid S6AR1 alphabet";
      value ← reraise_all ValueError "invalid S6AR1 encoding"
                match urlsafe_decode text with
                | None => raise ValueError "Incorrect padding"
                | Some raw => strict_json nfc MAX_SIZE STRING_LIMIT (JBytes raw)
                end;
      _ ← pack value;
      Ok value
  | _ => raise ValueError "invalid S6AR1 message"
  end.

Definition to_rpc (message : pydict) : result pydict :=
  kind ← field message "kind";
  _ ← raise_if (negb (eq_str kind "request")) ValueError "S6AR1 message is not a request";
  receiver ← (v ← field message "receiver"; as_dict v);
  component ← field receiver "component";
  payload ← (v ← field message "payload"; as_dict v);
  action ← match vget_none payload "action" with
           | VStr a => _ ← raise_if (negb (short_name a)) ValueError "invalid S6AR1 action"; Ok a
           | _ => raise ValueError "invalid S6AR1 action"
           end;
  params ← match vget_or payload "params" (VDict []) with
           | VDict d => Ok d
           | _ => raise ValueError "invalid S6AR1 params"
           end;
  identity ← field payload "correlation_id";
  Ok (mkdict [("id", identity); ("method", VStr (text_of component ++ str "." ++ action)); ("params", VDict params)]).

(** The outcome of a call: a result or an error. *)
Definition response_for (message : pydict) (outcome : pyval + pyval) : result pystr :=
  payload ← (v ← field message "payload"; as_dict v);
  identity ← field payload "correlation_id";
  receiver ← field message "receiver";
  router ← field message "router";
  pack (VDict (mkdict
    [("schema", txt AR_SCHEMA); ("version", VInt 1); ("kind", txt "response"); ("receiver", receiver); ("router", router);
     ("payload", VDict (mkdict [("correlation_id", identity);
                                match outcome with inl r => ("result"%string, r) | inr e => ("error"%string, e) end]))])).

(** [response_for] with its optional arguments, [None] for the missing one. *)
Definition response_for_args (message : pydict) (value error : pyval) : result pystr :=
  _ ← raise_if (Bool.eqb (is_none value) (is_none error)) ValueError "provide exactly one S6AR1 result or error";
  response_for message (if is_none error then inl value else inr error).

Definition error_for (message : pydict) (code text : pystr) (details : option pydict) : result pystr :=
  response_for message (inr (VDict (mkdict
    (("code", VStr code) :: ("message", VStr text) ::
     match details with Some d => [("details", VDict d)] | None => [] end)%string))).

Definition request_message (component route action identity : pystr) (params : pydict) (context : option pystr) : pydict := mkdict
  [("schema", txt AR_SCHEMA); ("version", VInt 1); ("kind", txt "request");
   ("receiver", VDict (mkdict [("component", VStr component)])); ("router", VDict (mkdict [("route", VStr route)]));
   ("payload", VDict (mkdict (("action", VStr action) :: ("correlation_id", VStr identity) :: ("params", VDict params) ::
                              match context with Some c => [("context", VStr c)] | None => [] end)))]%string.

(** [correlation_id or uuid.uuid4().hex]. *)
Definition request (uuid component route action : pystr) (correlation_id : option pystr) (params : pydict) (context : option pystr)
    : result pystr :=
  let identity := match correlation_id with Some (c :: s) => c :: s | _ => uuid end in
  pack (VDict (request_message component route action identity params context)).
End Messages.

(** ** [shadow6_abi.py] *)
Definition ABI_VERSION : string := "S6ABI/1".
Definition MAX_CONTROL : Z := 262144.
Definition MAX_DATA : Z := 16 * 1024 * 1024.
Definition MAX_META : Z := 65536.
Definition STATES : list string := ["accepted"; "queued"; "delivered"; "backpressure"; "closed"; "retry_exhausted"].
Definition METHODS : list string :=
  ["capabilities"; "open"; "status"; "send"; "receive"; "credit"; "half_close"; "pause"; "resume"; "close"].

Fixpoint has_float (v : pyval) : bool :=
  match v with
  | VFloat _ => true
  | VDict d => existsb (λ kv : pystr * pyval, has_float kv.2) d
  | VList l => existsb has_float l
  | _ => false
  end.
Definition _reject_float (v : pyval) : result unit :=
  raise_if (has_float v) ValueError "floating-point values are not permitted in S6ABI".

Definition _token (v : pyval) (size : Z) : result pystr :=
  match v with
  | VStr s => _ ← raise_if (negb (between 1 (zlen s) size)) ValueError "invalid token"; Ok s
  | _ => raise ValueError "invalid token"
  end.

Definition control_fields : list string := ["abi"; "kind"; "id"; "method"; "state"; "session"; "payload"].

Section Frames.
Context (nfc : pystr → pystr).

Definition _check_message (value : pyval) : result pydict :=
  match value with
  | VDict m =>
      _ ← raise_if (negb (keys_within m control_fields) || negb (keys_cover m control_fields)) ValueError "invalid S6ABI control frame";
      _ ← raise_if (negb (eq_str (vget_none m "abi") ABI_VERSION) || negb (in_strs (vget_none m "kind") ar_kinds)) ValueError
            "invalid S6ABI version or kind";
      _ ← _token (vget_none m "id") 128;
      method ← in_set (vget_none m "method") METHODS;
      _ ← raise_if (negb method) ValueError "unsupported S6ABI method";
      state ← in_set (vget_none m "state") STATES;
      _ ← raise_if (negb state) ValueError "invalid S6ABI state";
      _ ← _token (vget_none m "session") 128;
      match vget_none m "payload" with
      | VDict payload =>
          _ ← _reject_float value;
          let raw := dumps_canonical value in
          _ ← strict_json nfc MAX_CONTROL MAX_CONTROL (JBytes raw);
          _ ← raise_if (MAX_CONTROL <? zlen raw) ValueError "S6ABI control frame is oversized";
          _ ← raise_if (eq_str (vget_none m "method") "send" && has_key payload "data"
                        && match vget_none payload "data" with VStr s => MAX_DATA * 2 <? zlen s | _ => true end) ValueError
                "S6ABI send payload is oversized";
          Ok m
      | _ => raise ValueError "S6ABI payload must be an object"
      end
  | _ => raise ValueError "invalid S6ABI control frame"
  end.

Definition control_message (kind identity method state session : pystr) (payload : pydict) : pydict := mkdict
  [("abi", txt ABI_VERSION); ("kind", VStr kind); ("id", VStr identity); ("method", VStr method); ("state", VStr state);
   ("session", VStr session); ("payload", VDict payload)]%string.

(** [correlation_id or str(uuid.uuid4())]. *)
Definition encode_control (uuid method : pystr) (payload : pydict) (session state kind : pystr) (correlation_id : option pystr)
    : result bytes :=
  let identity := match correlation_id with Some (c :: s) => c :: s | _ => uuid end in
  let message := control_message kind identity method state session payload in
  _ ← _check_message (VDict message);
  let raw := dumps_canonical (VDict message) in
  Ok (be_encode 4 (zlen raw) ++ raw).

Definition decode_control (frame : bytes) : result pydict :=
  _ ← raise_if (zlen frame <? 4) ValueError "truncated S6ABI control frame";
  let size := be_decode (take 4 frame) in
  _ ← raise_if ((MAX_CONTROL <? size) || negb (zlen frame =? size + 4)) ValueError "invalid S6ABI control frame length";
  value ← strict_json nfc MAX_CONTROL MAX_CONTROL (JBytes (drop 4 frame));
  _check_message value.

Definition data_meta (session : pystr) (sequence : Z) (final message : bool) : pydict := mkdict
  [("abi", txt ABI_VERSION); ("session", VStr session); ("sequence", VInt sequence);
   ("flags", VInt (Z.lor (if final then 1 else 0) (if message then 2 else 0)))]%string.

Definition encode_data (data : bytes) (session : pystr) (sequence : Z) (final message : bool) : result bytes :=
  _ ← raise_if (MAX_DATA <? zlen data) ValueError "S6ABI data frame is oversized";
  _ ← raise_if (negb (between 1 (zlen session) 128) || negb (between 0 sequence (2 ^ 53 - 1))) ValueError "invalid S6ABI data metadata";
  let meta := dumps_canonical (VDict (data_meta session sequence final message)) in
  _ ← raise_if (MAX_META <? zlen meta) ValueError "S6ABI data metadata is oversized";
  Ok (be_encode 4 (zlen meta) ++ be_encode 4 (zlen data) ++ meta ++ data).

Definition meta_fields : list string := ["abi"; "session"; "sequence"; "flags"].

(** [set(meta) != {...}] for a value that is not a dictionary: the characters
    of a text, the elements of a list; a number has none.  A list of exactly the
    names passes the test and is then indexed by a name. *)
Definition meta_dict (meta : pyval) : result pydict :=
  match meta with
  | VDict d => _ ← raise_if (negb (keys_within d meta_fields && keys_cover d meta_fields)) ValueError "invalid S6ABI data metadata"; Ok d
  | VList l => if forallb hashable l && negb (forallb (λ v, in_strs v meta_fields) l && forallb (λ f, existsb (λ v, eq_str v f) l) meta_fields)
               then raise ValueError "invalid S6ABI data metadata" else raise TypeError "meta"
  | VStr _ => raise ValueError "invalid S6ABI data metadata"
  | _ => raise TypeError "object is not iterable"
  end.

Record data_frame := DataFrame { df_session : pystr; df_sequence : Z; df_final : bool; df_message : bool; df_data : bytes }.

Definition decode_data (frame : bytes) : result data_frame :=
  _ ← raise_if (zlen frame <? 8) ValueError "truncated S6ABI data frame";
  let meta_size := be_decode (take 4 frame) in
  let data_size := be_decode (take 4 (drop 4 frame)) in
  _ ← raise_if ((MAX_META <? meta_size) || (MAX_DATA <? data_size) || negb (zlen frame =? 8 + meta_size + data_size)) ValueError
        "invalid S6ABI data frame length";
  v ← strict_json nfc MAX_META STRING_LIMIT (JBytes (slice 8 (8 + meta_size) frame));
  meta ← meta_dict v;
  _ ← raise_if (negb (eq_str (vget_none meta "abi") ABI_VERSION) || negb (int_between 0 (vget_none meta "sequence") (2 ^ 63 - 1))
                || negb (int_between 0 (vget_none meta "flags") 3)) ValueError "invalid S6ABI data metadata";
  session ← _token (vget_none meta "session") 128;
  match vget_none meta "sequence", vget_none meta "flags" with
  | VInt sequence, VInt flags =>
      Ok (DataFrame session sequence (Z.testbit flags 0) (Z.testbit flags 1) (drop (Z.to_nat (8 + meta_size)) frame))
  | _, _ => raise ValueError "invalid S6ABI data metadata"
  end.
End Frames.

Definition capability_payload (feature_report : pyval) (boundary : pyval) (core : pystr) (limits : pydict) : result pydict :=
  _ ← raise_if (negb (in_strs boundary ["stream"; "message"; "credited"]) || bool_decide (core = [])) ValueError "invalid S6ABI capability";
  _ ← _reject_float feature_report;
  let guarantee (v : pyval) := if is_bool v then v else VNone in
  Ok (mkdict
    [("abi", txt ABI_VERSION); ("core", VStr core); ("boundary", boundary);
     ("guarantees", VDict (mkdict
        [("ordered", guarantee (vget_none limits "ordered")); ("reliable", guarantee (vget_none limits "reliable"));
         ("fullDuplex", guarantee (vget_or limits "fullDuplex" (vget_none limits "full_duplex")))]));
     ("limits", VDict limits); ("featureReport", feature_report)]).

Definition s6ar_request (nfc : pystr → pystr) (uuid method : pystr) (params : pydict) (context : option pystr) : result pystr :=
  let '(component, _, action) := partition_at 46 method in
  _ ← raise_if (bool_decide (component = []) || bool_decide (action = [])) ValueError "S6AR1 method must be component.action";
  request nfc uuid component (str "default") action None params context.

Definition encode_record (data : bytes) (max_record : Z) : result bytes :=
  _ ← raise_if (negb (between 1 max_record 65536)) ValueError "invalid application record limit";
  _ ← raise_if (max_record <? zlen data) ValueError "OversizedApplicationRecord";
  Ok (be_encode 4 (zlen data) ++ data).

Definition decode_record (frame : bytes) (max_record : Z) : result bytes :=
  _ ← raise_if (negb (between 1 max_record 65536)) ValueError "invalid application record limit";
  _ ← raise_if (zlen frame <? 4) ValueError "truncated application record";
  let size := be_decode (take 4 frame) in
  _ ← raise_if ((max_record <? size) || negb (zlen frame =? size + 4)) ValueError "OversizedApplicationRecord or invalid record length";
  Ok (drop 4 frame).

(** * S6AR1 messages and S6ABI/1 frames: round trips *)

(** ** Reading a message back changes no check *)
Lemma text_of_norm v : text_of (norm v) = text_of v.
Proof. by destruct v. Qed.
Lemma text_matches_norm p v : text_matches p (norm v) = text_matches p v.
Proof. unfold text_matches. by rewrite text_of_norm. Qed.
Lemma hop_ok_norm v : hop_ok (norm v) = hop_ok v.
Proof. by destruct v. Qed.
#[local] Hint Rewrite text_matches_norm hop_ok_norm : readback.

Lemma forallb_norm (f : pyval → bool) l : (∀ v, f (norm v) = f v) → forallb f (norm <$> l) = forallb f l.
Proof. intros Hf. induction l as [|v l IH]; [done|]. rewrite fmap_cons. simpl. by rewrite Hf, IH. Qed.

Ltac readback d := rewrite ?(vget_readback d), ?(vget_or_readback d) by done; autorewrite with readback.

Section Norm.
Context (d : pydict) (Hwf : val_wf (VDict d)).

Let Hd : dwf d.
Proof. by inversion Hwf. Qed.

Lemma check_receiver_norm : check_receiver (sort_keys (nfields d)) = check_receiver d.
Proof. unfold check_receiver. by readback d. Qed.

Lemma check_router_norm : check_router (sort_keys (nfields d)) = check_router d.
Proof.
  unfold check_router. readback d. destruct (vget_none d "hops") as [| | | | |l|]; try done. cbn [norm].
  rewrite (forallb_norm hop_ok l hop_ok_norm). unfold zlen. by rewrite length_fmap.
Qed.

Lemma error_ok_norm : error_ok (norm (VDict d)) = error_ok (VDict d).
Proof. rewrite norm_dict. unfold error_ok. readback d. by destruct (vget_none d "message"). Qed.
End Norm.

Lemma check_payload_norm kind p : val_wf (VDict p) → check_payload (norm kind) (sort_keys (nfields p)) = check_payload kind p.
Proof.
  intros Hwf. assert (dwf p) as Hd by (by inversion Hwf). unfold check_payload. readback p.
  assert (error_ok (norm (vget_none p "error")) = error_ok (vget_none p "error")) as ->.
  { pose proof (val_wf_vget p "error" Hwf) as He. destruct (vget_none p "error"); try done. by apply error_ok_norm. }
  by destruct (vget_none p "context").
Qed.

Lemma check_sections_norm kind r o p :
  val_wf r → val_wf o → val_wf p → check_sections (norm kind) (norm r) (norm o) (norm p) = check_sections kind r o p.
Proof.
  intros Hr Ho Hp. destruct r as [| | | | | |r], o as [| | | | | |o], p as [| | | | | |p]; try done. rewrite !norm_dict. unfold check_sections.
  by rewrite (check_receiver_norm r Hr), (check_router_norm o Ho), (check_payload_norm kind p Hp).
Qed.

Lemma check_ar_norm v : val_wf v → check_ar (norm v) = check_ar v.
Proof.
  intros Hwf. destruct v as [| | | | | |m]; try done. assert (dwf m) as Hd by (by inversion Hwf). rewrite norm_dict. unfold check_ar. readback m.
  rewrite check_sections_norm; [done|by apply val_wf_vget..].
Qed.

(** ** S6AR1 round trips *)
Section Messages.
Context (nfc : pystr → pystr).

Lemma pack_Ok v token :
  json_ok v → pack nfc v = Ok token →
  (∃ d, v = VDict d) ∧ token = AR_PREFIX ++ urlsafe_encode (dumps_canonical v) ∧ zlen token ≤ MAX_SIZE ∧
  strict_json nfc MAX_SIZE STRING_LIMIT (JBytes (dumps_canonical v)) = Ok (norm v) ∧ check_ar v = Ok tt.
Proof.
  intros Hj Hp. unfold pack in Hp. apply bind_Ok_inv in Hp as ([] & Hc & Hp). apply bind_Ok_inv in Hp as (w & Hw & Hp).
  apply bind_Ok_inv in Hp as ([] & Hl%raise_if_Ok & Hp).
  assert (token = AR_PREFIX ++ urlsafe_encode (dumps_canonical v)) as -> by (by injection Hp). apply Z.ltb_ge in Hl.
  pose proof (strict_json_of_print _ _ _ _ _ Hj Hw) as (-> & _). split_and!; try done. destruct v; try done. eauto.
Qed.

Lemma ar_unpack_pack v token :
  json_ok v → pack nfc v = Ok token → unpack nfc (VStr token) = Ok (norm v) ∧ pack nfc (norm v) = Ok token.
Proof.
  intros Hj Hp. pose proof Hp as ([d ->] & -> & Hl & Hs & Hc)%pack_Ok; [|done].
  assert (pack nfc (norm (VDict d)) = Ok (AR_PREFIX ++ urlsafe_encode (dumps_canonical (VDict d)))) as Hp'.
  { unfold pack. rewrite check_ar_norm by (by apply json_ok_wf). unfold pack in Hp. by rewrite dumps_norm. }
  split; [|done]. unfold unpack. rewrite starts_with_app, drop_app_length. replace (MAX_SIZE <? _) with false by lia.
  cbn [negb orb raise_if mbind result_bind].
  assert (wf_bytes (dumps_canonical (VDict d)) = true) as Hw by (by apply ascii_wf, dumps_canonical_ascii).
  rewrite urlsafe_chars by done. rewrite bool_decide_false.
  2: { intros E%urlsafe_encode_nil. destruct (dumps_canonical_dict d) as [r Er]. by rewrite Er in E. }
  cbn [negb orb raise_if mbind result_bind]. rewrite urlsafe_roundtrip by done. rewrite Hs. cbn [reraise_all mbind result_bind].
  by rewrite Hp'.
Qed.
End Messages.

(** ** From a request to a call *)
Lemma vget_read d k : dwf d → vget (sort_keys (nfields d)) k = norm <$> vget d k.
Proof.
  intros Hd. unfold vget, nfields. rewrite dget_sort_keys by (unfold dwf; by rewrite dkeys_fmap_snd). by rewrite dget_fmap_snd.
Qed.

Lemma field_read d k v : dwf d → vget d k = Some v → field (sort_keys (nfields d)) k = Ok (norm v).
Proof. intros Hd Hv. apply field_Ok. by rewrite vget_read, Hv. Qed.

Section Rpc.
Context (nfc : pystr → pystr).

Lemma request_checks component route action identity params context :
  check_ar (VDict (request_message component route action identity params context)) = Ok tt → short_name action = true.
Proof.
  unfold check_ar. intros (? & _ & H)%bind_Ok_inv. apply bind_Ok_inv in H as (? & _ & H). apply bind_Ok_inv in H as (? & _ & H).
  unfold request_message in H. repeat doc_lookup. unfold check_sections in H. apply bind_Ok_inv in H as (? & _ & H).
  apply bind_Ok_inv in H as (? & _ & H). unfold check_payload in H. change (eq_str (txt "request") "request") with true in H. cbv iota in H.
  apply bind_Ok_inv in H as ([] & Hg%raise_if_Ok & _). apply orb_false_iff in Hg as [_ Hg]. apply negb_false_iff in Hg. exact Hg.
Qed.

(** The message that a request is read back to. *)
Lemma request_rpc component route action identity params context token :
  json_ok (VDict (request_message component route action identity params context)) →
  pack nfc (VDict (request_message component route action identity params context)) = Ok token →
  ∃ m, unpack nfc (VStr token) = Ok (VDict m) ∧
    to_rpc m = Ok (mkdict [("id", VStr identity); ("method", VStr (component ++ str "." ++ action)); ("params", norm (VDict params))]%string).
Proof.
  intros Hj Hp. pose proof (ar_unpack_pack nfc _ _ Hj Hp) as [Hu _]. rewrite norm_dict in Hu. eexists. split; [exact Hu|].
  apply pack_Ok in Hp as (_ & _ & _ & _ & Hc%request_checks); [|done].
  set (msg := request_message component route action identity params context) in *.
  assert (dwf msg) as Hd by (by inversion Hj). unfold to_rpc.
  rewrite (field_read msg "kind" (txt "request") Hd eq_refl). cbn [mbind result_bind norm txt].
  change (eq_str (VStr (str "request")) "request") with true. cbn [negb raise_if mbind result_bind].
  rewrite (field_read msg "receiver" (VDict (mkdict [("component"%string, VStr component)])) Hd eq_refl). cbn [mbind result_bind norm as_dict].
  change (field (sort_keys _) "component") with (Ok (VStr component) : result pyval). cbn [mbind result_bind].
  set (pd := mkdict (("action", VStr action) :: ("correlation_id", VStr identity) :: ("params", VDict params) ::
                     match context with Some c => [("context", VStr c)] | None => [] end)%string).
  assert (dwf pd) as Hpd by (apply mkdict_wf; by destruct context).
  rewrite (field_read msg "payload" (VDict pd) Hd eq_refl), norm_dict. cbn [mbind result_bind as_dict].
  assert (∀ k v, vget pd k = Some v → vget (sort_keys (nfields pd)) k = Some (norm v)) as Hread
    by (intros k v Hk; by rewrite vget_read, Hk).
  assert (vget_none (sort_keys (nfields pd)) "action" = VStr action) as -> by (unfold vget_none; by rewrite (Hread "action"%string (VStr action) eq_refl)).
  rewrite Hc. cbn [negb raise_if mbind result_bind].
  assert (vget_or (sort_keys (nfields pd)) "params" (VDict []) = VDict (sort_keys (nfields params))) as ->
    by (unfold vget_or; by rewrite (Hread "params"%string (VDict params) eq_refl)).
  cbn [mbind result_bind]. rewrite (field_read pd "correlation_id" (VStr identity) Hpd eq_refl). done.
Qed.

Lemma request_read component route action identity params context token m :
  json_ok (VDict (request_message component route action identity params context)) →
  pack nfc (VDict (request_message component route action identity params context)) = Ok token → unpack nfc (VStr token) = Ok (VDict m) →
  json_ok (VDict m) ∧ ∃ p, vget m "payload" = Some (VDict p) ∧ vget p "correlation_id" = Some (VStr identity) ∧
    is_Some (vget m "receiver") ∧ is_Some (vget m "router").
Proof.
  intros Hj Hp Hu. rewrite (proj1 (ar_unpack_pack nfc _ _ Hj Hp)) in Hu. pose proof (norm_ok _ Hj) as Hn. rewrite norm_dict in Hu, Hn.
  injection Hu as <-. split; [done|]. assert (dwf (request_message component route action identity params context)) as Hd by (by inversion Hj).
  set (pd := mkdict (("action", VStr action) :: ("correlation_id", VStr identity) :: ("params", VDict params) ::
                     match context with Some c => [("context", VStr c)] | None => [] end)%string).
  exists (sort_keys (nfields pd)). rewrite !vget_read by (done || (apply mkdict_wf; by destruct context)).
  split_and!; [by rewrite <- norm_dict|done|by eexists..].
Qed.

(** The response to a message carries its correlation identifier. *)
Lemma response_correlates m p identity receiver router outcome token :
  json_ok (VDict m) → json_ok (match outcome with inl v | inr v => v end) →
  vget m "payload" = Some (VDict p) → vget p "correlation_id" = Some identity → vget m "receiver" = Some receiver →
  vget m "router" = Some router → response_for nfc m outcome = Ok token →
  ∃ w q, unpack nfc (VStr token) = Ok (VDict w) ∧ vget w "kind" = Some (txt "response") ∧
    vget w "receiver" = Some (norm receiver) ∧ vget w "payload" = Some (VDict q) ∧ vget q "correlation_id" = Some (norm identity) ∧
    vget q "result" = match outcome with inl v => Some (norm v) | inr _ => None end ∧
    vget q "error" = match outcome with inl _ => None | inr v => Some (norm v) end.
Proof.
  intros Hm Ho Hp Hi Hr Hro H. unfold response_for in H. rewrite (proj2 (field_Ok m "payload" _) Hp) in H. cbn [mbind result_bind as_dict] in H.
  rewrite (proj2 (field_Ok p "correlation_id" _) Hi), (proj2 (field_Ok m "receiver" _) Hr), (proj2 (field_Ok m "router" _) Hro) in H.
  cbn [mbind result_bind] in H.
  pose proof (proj1 (json_ok_dget _ _ _ Hm Hp)) as Hjp. pose proof (proj1 (json_ok_dget _ _ _ Hjp Hi)) as Hji.
  pose proof (proj1 (json_ok_dget _ _ _ Hm Hr)) as Hjr. pose proof (proj1 (json_ok_dget _ _ _ Hm Hro)) as Hjo.
  set (pd := mkdict [("correlation_id"%string, identity); match outcome with inl r => ("result"%string, r) | inr e => ("error"%string, e) end]) in H.
  assert (json_ok (VDict pd)) as Hpd.
  { apply json_ok_mkdict; [by destruct outcome|]. repeat constructor; [done|by destruct outcome]. }
  set (msg := mkdict _) in H. assert (json_ok (VDict msg)) as Hmsg.
  { apply json_ok_mkdict; [reflexivity|]. repeat (constructor; [first [apply json_ok_lit|done|by constructor]|]). constructor. }
  pose proof (ar_unpack_pack nfc _ _ Hmsg H) as [Hu _]. assert (dwf msg) as Hdm by (by inversion Hmsg). assert (dwf pd) as Hdp by (by inversion Hpd).
  exists (sort_keys (nfields msg)), (sort_keys (nfields pd)). rewrite !vget_read by done. split_and!; try done.
  - by destruct outcome.
  - by destruct outcome.
Qed.
End Rpc.

(** ** S6ABI frames *)
Lemma has_float_json v : json_ok v → has_float v = false.
Proof.
  induction v as [| | | | |l IH|d IH] using pyval_ind; intros Hj; try done; inversion Hj as [| | | |? Hl|? _ Hf]; subst; simpl;
    apply not_true_iff_false; rewrite existsb_exists; intros (x & Hx%list_elem_of_In & Ht); rewrite Forall_forall in IH.
  - rewrite Forall_forall in Hl. by rewrite (IH x Hx (Hl x Hx)) in Ht.
  - rewrite Forall_forall in Hf. destruct (Hf x Hx) as [_ Hv]. by rewrite (IH x Hx Hv) in Ht.
Qed.

Lemma _token_norm v n : _token (norm v) n = _token v n.
Proof. by destruct v. Qed.

Lemma be4 n rest : 0 ≤ n < 2 ^ 32 → be_decode (take 4 (be_encode 4 n ++ rest)) = n ∧ drop 4 (be_encode 4 n ++ rest) = rest.
Proof.
  intros Hn. rewrite take_app_length', drop_app_length' by (by rewrite be_encode_length). split; [|done].
  by rewrite be_decode_encode.
Qed.

Lemma zlen_be4 n : zlen (be_encode 4 n) = 4.
Proof. unfold zlen. by rewrite be_encode_length. Qed.

Section Frames.
Context (nfc : pystr → pystr).

Lemma check_message_norm m :
  json_ok (VDict m) → _check_message nfc (VDict m) = Ok m → _check_message nfc (norm (VDict m)) = Ok (sort_keys (nfields m)).
Proof.
  intros Hj H. pose proof (norm_ok _ Hj) as Hn. assert (dwf m) as Hd by (by inversion Hj). pose proof (json_ok_vget m "payload" Hj) as Hjp.
  rewrite norm_dict in Hn |- *. unfold _check_message in H |- *. readback m. rewrite !_token_norm, <- norm_dict, dumps_norm.
  unfold _reject_float in H |- *. rewrite norm_dict in *. rewrite (has_float_json _ Hn). rewrite (has_float_json _ Hj) in H.
  destruct (vget_none m "payload") as [| | | | | |p] eqn:Ep; try (repeat (apply bind_Ok_inv in H as (? & _ & H)); discriminate H).
  rewrite (norm_dict p). assert (dwf p) as Hp by (by inversion Hjp). rewrite has_key_read, vget_readback by done.
  repeat (apply bind_Ok_inv in H as (? & ? & H)). repeat match goal with Hs : _ = Ok _ |- _ => rewrite Hs; clear Hs; cbn [mbind result_bind] end.
  destruct (vget_none p "data"); cbn [norm] in *; match goal with Hs : _ = Ok _ |- _ => by rewrite Hs end.
Qed.

Lemma check_message_Ok m d :
  json_ok (VDict m) → _check_message nfc (VDict m) = Ok d →
  d = m ∧ strict_json nfc MAX_CONTROL MAX_CONTROL (JBytes (dumps_canonical (VDict m))) = Ok (norm (VDict m)) ∧
  zlen (dumps_canonical (VDict m)) ≤ MAX_CONTROL.
Proof.
  intros Hj H. unfold _check_message in H. do 5 (apply bind_Ok_inv in H as (? & _ & H)). do 3 (apply bind_Ok_inv in H as (? & _ & H)).
  destruct (vget_none m "payload"); try done. apply bind_Ok_inv in H as (? & _ & H). apply bind_Ok_inv in H as (w & Hw & H).
  apply bind_Ok_inv in H as ([] & Hl%raise_if_Ok & H). apply bind_Ok_inv in H as (? & _ & H). injection H as <-.
  pose proof (strict_json_of_print _ _ _ _ _ Hj Hw) as (-> & _ & ?). done.
Qed.

Lemma check_message_names kind identity method state session payload d :
  _check_message nfc (VDict (control_message kind identity method state session payload)) = Ok d →
  (∃ k, k ∈ ar_kinds ∧ kind = str k) ∧ (∃ k, k ∈ METHODS ∧ method = str k) ∧ (∃ k, k ∈ STATES ∧ state = str k).
Proof.
  unfold _check_message. intros (_ & _ & H)%bind_Ok_inv. unfold control_message in H. repeat doc_lookup.
  apply bind_Ok_inv in H as ([] & [_ Hk%negb_false_iff]%raise_if_Ok%orb_false_iff & H). apply bind_Ok_inv in H as (? & _ & H).
  apply bind_Ok_inv in H as (bm & Hm & H). apply bind_Ok_inv in H as ([] & Hbm%raise_if_Ok & H).
  apply bind_Ok_inv in H as (bs & Hs & H). apply bind_Ok_inv in H as ([] & Hbs%raise_if_Ok & H).
  apply negb_false_iff in Hbm, Hbs. subst. apply in_set_Ok in Hm, Hs. symmetry in Hm, Hs. apply in_strs_spec in Hk, Hm, Hs.
  destruct Hk as (k & ? & [= ->]), Hm as (k' & ? & [= ->]), Hs as (k'' & ? & [= ->]). eauto 10.
Qed.

Lemma control_roundtrip uuid method payload session state kind correlation frame :
  let identity := match correlation with Some (c :: s) => c :: s | _ => uuid end in
  json_ok (VDict (control_message kind identity method state session payload)) →
  encode_control nfc uuid method payload session state kind correlation = Ok frame →
  decode_control nfc frame = Ok (sort_keys (nfields (control_message kind identity method state session payload))).
Proof.
  cbv zeta. unfold encode_control. set (m := control_message _ _ _ _ _ _). intros Hj (d & Hc & H)%bind_Ok_inv.
  pose proof (check_message_Ok _ _ Hj Hc) as (-> & Hs & Hl). set (raw := dumps_canonical (VDict m)) in *.
  assert (frame = be_encode 4 (zlen raw) ++ raw) as -> by (by injection H). pose proof (zlen_nonneg raw).
  destruct (be4 (zlen raw) raw) as [E1 E2]; [unfold MAX_CONTROL in Hl; lia|]. unfold decode_control. rewrite E1, E2, zlen_app, zlen_be4.
  replace (4 + zlen raw <? 4) with false by lia. replace (MAX_CONTROL <? zlen raw) with false by lia.
  replace (4 + zlen raw =? zlen raw + 4) with true by lia. cbn [orb negb raise_if mbind result_bind].
  rewrite Hs. cbn [mbind result_bind]. by apply check_message_norm.
Qed.

Lemma record_roundtrip data n frame : encode_record data n = Ok frame → decode_record frame n = Ok data.
Proof.
  unfold encode_record. intros ([] & Hn%raise_if_Ok & H)%bind_Ok_inv. apply bind_Ok_inv in H as ([] & Hl%raise_if_Ok & H).
  assert (frame = be_encode 4 (zlen data) ++ data) as -> by (by injection H). pose proof (zlen_nonneg data). apply Z.ltb_ge in Hl.
  pose proof Hn as Hb%negb_false_iff. apply between_spec in Hb. destruct (be4 (zlen data) data) as [E1 E2]; [lia|].
  unfold decode_record. rewrite Hn, E1, E2, zlen_app, zlen_be4. cbn [raise_if mbind result_bind].
  replace (4 + zlen data <? 4) with false by lia. replace (n <? zlen data) with false by lia.
  replace (4 + zlen data =? zlen data + 4) with true by lia. done.
Qed.

(** Every record frame is the frame of what it is decoded to. *)
Lemma record_canonical frame n data : wf_bytes frame = true → decode_record frame n = Ok data → encode_record data n = Ok frame.
Proof.
  intros Hw. unfold decode_record. intros ([] & Hn%raise_if_Ok & H)%bind_Ok_inv. apply bind_Ok_inv in H as ([] & H4%raise_if_Ok & H).
  apply bind_Ok_inv in H as ([] & Hl%raise_if_Ok & H). injection H as <-. apply orb_false_iff in Hl as [Hmax Hlen].
  apply negb_false_iff, Z.eqb_eq in Hlen. apply Z.ltb_ge in Hmax, H4. unfold encode_record. rewrite Hn. cbn [raise_if mbind result_bind].
  assert (zlen (drop 4 frame) = be_decode (take 4 frame)) as E by (unfold zlen in *; rewrite length_drop; lia). rewrite E.
  replace (n <? be_decode (take 4 frame)) with false by lia. cbn [raise_if mbind result_bind]. f_equal.
  assert (length (take 4 frame) = 4%nat) as L by (rewrite length_take; unfold zlen in *; lia).
  rewrite <- L at 1. rewrite be_encode_decode, take_drop; [done|]. unfold wf_bytes in *. rewrite forallb_forall in Hw |- *.
  intros x Hx. apply Hw. rewrite <- (take_drop 4 frame), in_app_iff. by left.
Qed.

Context (nfc_ascii : ∀ s, forallb is_ascii s = true → nfc s = s).

Lemma data_roundtrip data session sequence final message frame :
  encode_data data session sequence final message = Ok frame → str_portable nfc STRING_LIMIT session →
  decode_data nfc frame = Ok (DataFrame session sequence final message data).
Proof.
  unfold encode_data. intros ([] & Hd%raise_if_Ok & H)%bind_Ok_inv Hs. apply bind_Ok_inv in H as ([] & Hm%raise_if_Ok & H).
  apply bind_Ok_inv in H as ([] & Hml%raise_if_Ok & H). set (md := data_meta session sequence final message) in *.
  set (meta := dumps_canonical (VDict md)) in *.
  assert (frame = be_encode 4 (zlen meta) ++ be_encode 4 (zlen data) ++ meta ++ data) as -> by (by injection H). clear H.
  apply orb_false_iff in Hm as [Hses Hseq]. apply negb_false_iff in Hses, Hseq. apply between_spec in Hseq. apply Z.ltb_ge in Hd, Hml.
  pose proof (zlen_nonneg meta). pose proof (zlen_nonneg data). unfold MAX_META, MAX_DATA in *.
  unfold decode_data. destruct (be4 (zlen meta) (be_encode 4 (zlen data) ++ meta ++ data)) as [E1 E2]; [lia|]. rewrite E1, E2.
  destruct (be4 (zlen data) (meta ++ data)) as [E3 E4]; [lia|]. rewrite E3, !zlen_app, !zlen_be4.
  replace (4 + (4 + (zlen meta + zlen data)) <? 8) with false by lia. unfold MAX_META, MAX_DATA.
  replace (65536 <? zlen meta) with false by lia. replace (16 * 1024 * 1024 <? zlen data) with false by lia.
  replace (4 + (4 + (zlen meta + zlen data)) =? 8 + zlen meta + zlen data) with true by lia. cbn [orb negb raise_if mbind result_bind].
  assert (drop 8 (be_encode 4 (zlen meta) ++ be_encode 4 (zlen data) ++ meta ++ data) = meta ++ data) as E8.
  { change 8%nat with (4 + 4)%nat. by rewrite <- drop_drop, E2, E4. }
  assert (slice 8 (8 + zlen meta) (be_encode 4 (zlen meta) ++ be_encode 4 (zlen data) ++ meta ++ data) = meta) as ->.
  { unfold slice. change (Z.to_nat 8) with 8%nat. rewrite E8. apply take_app_length'. unfold zlen. lia. }
  assert (drop (Z.to_nat (8 + zlen meta)) (be_encode 4 (zlen meta) ++ be_encode 4 (zlen data) ++ meta ++ data) = data) as ->.
  { replace (Z.to_nat (8 + zlen meta)) with (8 + length meta)%nat by (unfold zlen; lia). rewrite <- drop_drop, E8. by apply drop_app_length'. }
  assert (strict_json nfc 65536 STRING_LIMIT (JBytes meta) = Ok (VDict (sort_keys (nfields md)))) as ->.
  { apply (read_back nfc 65536 md); [|lia|done]. apply (portable_display nfc); [reflexivity|].
    repeat (apply Forall_cons; split; [split; [apply (lit_portable nfc nfc_ascii); reflexivity|cbn [snd]]|]); try exact (Forall_nil_2 _).
    - constructor; [lia|]. apply (lit_portable nfc nfc_ascii). reflexivity.
    - by constructor; [lia|].
    - constructor; [lia|]. unfold MAX_SAFE. lia.
    - constructor; [lia|]. unfold MAX_SAFE. destruct final, message; vm_compute; split; discriminate. }
  cbn [mbind result_bind meta_dict]. rewrite keys_within_readback, keys_cover_readback.
  change (keys_within md meta_fields && keys_cover md meta_fields) with true. cbn [negb raise_if mbind result_bind].
  assert (dwf md) as Hdm by (apply mkdict_wf; reflexivity). rewrite !vget_readback by done. autorewrite with readback. rewrite _token_norm.
  change (vget_none md "abi") with (txt ABI_VERSION). change (vget_none md "sequence") with (VInt sequence).
  change (vget_none md "session") with (VStr session).
  change (vget_none md "flags") with (VInt (Z.lor (if final then 1 else 0) (if message then 2 else 0))).
  change (eq_str (txt ABI_VERSION) ABI_VERSION) with true. unfold int_between. rewrite (proj2 (between_spec 0 sequence (2 ^ 63 - 1))) by lia.
  assert (between 0 (Z.lor (if final then 1 else 0) (if message then 2 else 0)) 3 = true) as -> by (by destruct final, message).
  cbn [negb orb raise_if mbind result_bind _token norm]. rewrite Hses. cbn [negb raise_if mbind result_bind]. by destruct final, message.
Qed.
End Frames.
