(* ===== verification/AbiClaims.v ===== *)
(** * The process boundary: what its messages and frames promise *)
From S2P Require Import Prelude Dict PyStr PyText PyValue Json JsonRound JsonDocs StrictJson Base64 Net CredentialFacts BrokerSet Abi.

(** ** Calls *)

(** A call survives the boundary.  The token of a request is read back, the
    call that is made from it has the request's correlation identifier, the
    method [component.action] and the request's parameters; and whatever the
    outcome, the response to it is read back as a response that carries the same
    identifier and exactly that result or that error. *)
Theorem rpc_exchange nfc uuid component route action correlation params context token :
  let identity := match correlation with Some (c :: s) => c :: s | _ => uuid end in
  json_ok (VDict (request_message component route action identity params context)) →
  request nfc uuid component route action correlation params context = Ok token →
  ∃ m, unpack nfc (VStr token) = Ok (VDict m) ∧
    to_rpc m = Ok (mkdict [("id", VStr identity); ("method", VStr (component ++ str "." ++ action)); ("params", norm (VDict params))]%string) ∧
    ∀ outcome reply, json_ok (match outcome with inl v | inr v => v end) → response_for nfc m outcome = Ok reply →
      ∃ w q, unpack nfc (VStr reply) = Ok (VDict w) ∧ vget w "kind" = Some (txt "response") ∧
        vget w "payload" = Some (VDict q) ∧ vget q "correlation_id" = Some (VStr identity) ∧
        vget q "result" = match outcome with inl v => Some (norm v) | inr _ => None end ∧
        vget q "error" = match outcome with inl _ => None | inr v => Some (norm v) end.
Proof.
  cbv zeta. unfold request. set (identity := match correlation with Some (c :: s) => c :: s | _ => uuid end). intros Hj Hp.
  destruct (request_rpc nfc _ _ _ _ _ _ _ Hj Hp) as (m & Hu & Hr). exists m. split_and!; [done|done|]. intros outcome reply Ho Hres.
  destruct (request_read nfc _ _ _ _ _ _ _ m Hj Hp Hu) as (Hm & p & E1 & E2 & [r E3] & [o E4]).
  destruct (response_correlates nfc m p _ _ _ outcome reply Hm Ho E1 E2 E3 E4 Hres) as (w & q & ? & ? & _ & ? & ? & ? & ?).
  by exists w, q.
Qed.

Definition demo_params : pydict := mkdict [("peer", txt "b"); ("depth", VInt 2)]%string.
Definition demo_token := Eval vm_compute in
  match request id (str "u1") (str "core") (str "default") (str "status") None demo_params None with Ok t => t | Raise _ => [] end.
Lemma rpc_exchange_witness :
  ∃ m, unpack id (VStr demo_token) = Ok (VDict m) ∧
    to_rpc m = Ok (mkdict [("id", txt "u1"); ("method", txt "core.status"); ("params", norm (VDict demo_params))]%string).
Proof.
  destruct (rpc_exchange id (str "u1") (str "core") (str "default") (str "status") None demo_params None demo_token)
    as (m & H1 & H2 & _); [apply json_okb_ok; vm_compute; reflexivity|vm_compute; reflexivity|].
  exact (ex_intro _ m (conj H1 H2)).
Defined.

(** ** Frames *)

(** A control frame is read back to the message it was made from, with the
    keys in canonical order; the message has the declared version, kind, method
    and state. *)
Theorem control_frame_roundtrip nfc uuid method payload session state kind correlation frame :
  let m := control_message kind (match correlation with Some (c :: s) => c :: s | _ => uuid end) method state session payload in
  json_ok (VDict m) → encode_control nfc uuid method payload session state kind correlation = Ok frame →
  zlen frame ≤ 4 + MAX_CONTROL ∧ decode_control nfc frame = Ok (sort_keys (nfields m)) ∧
  (∃ k, k ∈ ar_kinds ∧ kind = str k) ∧ (∃ k, k ∈ METHODS ∧ method = str k) ∧ (∃ k, k ∈ STATES ∧ state = str k).
Proof.
  cbv zeta. intros Hj H. pose proof (control_roundtrip nfc _ _ _ _ _ _ _ _ Hj H) as Hr. unfold encode_control in H.
  apply bind_Ok_inv in H as (d & Hc & H). pose proof (check_message_Ok nfc _ _ Hj Hc) as (-> & _ & Hl).
  destruct (check_message_names nfc _ _ _ _ _ _ _ Hc) as (? & ? & ?). set (raw := dumps_canonical _) in *.
  assert (frame = be_encode 4 (zlen raw) ++ raw) as -> by (by injection H). rewrite zlen_app, zlen_be4. split_and!; try done. lia.
Qed.

Definition demo_control := Eval vm_compute in
  match encode_control id (str "u1") (str "send") (mkdict [("data", txt "aGk")]%string) (str "s") (str "queued") (str "event") None with
  | Ok f => f | Raise _ => [] end.
Lemma control_frame_roundtrip_witness :
  decode_control id demo_control =
  Ok (sort_keys (nfields (control_message (str "event") (str "u1") (str "send") (str "queued") (str "s") (mkdict [("data", txt "aGk")]%string)))).
Proof.
  exact (proj1 (proj2 (control_frame_roundtrip id (str "u1") (str "send") (mkdict [("data", txt "aGk")]%string) (str "s") (str "queued")
                         (str "event") None demo_control ltac:(apply json_okb_ok; vm_compute; reflexivity) ltac:(vm_compute; reflexivity)))).
Defined.

(** A data frame with a portable session name is read back to its session,
    sequence number, flags and bytes. *)
Theorem data_frame_roundtrip nfc data session sequence final message frame :
  (∀ s, forallb is_ascii s = true → nfc s = s) → str_portable nfc STRING_LIMIT session →
  encode_data data session sequence final message = Ok frame →
  decode_data nfc frame = Ok (DataFrame session sequence final message data).
Proof. intros Hn Hs H. by eapply data_roundtrip. Qed.

Definition demo_data := Eval vm_compute in match encode_data [0; 255] (str "s-1") 7 true false with Ok f => f | Raise _ => [] end.
Lemma data_frame_roundtrip_witness : decode_data id demo_data = Ok (DataFrame (str "s-1") 7 true false [0; 255]).
Proof.
  apply (data_frame_roundtrip id [0; 255] (str "s-1") 7 true false demo_data);
    [done|by apply (lit_portable id (λ _ _, eq_refl))|vm_compute; reflexivity].
Defined.

(** The hypothesis of the previous property is needed: a session name that is not
    portable is framed and then refused by the reader. *)
Definition demo_nul := Eval vm_compute in match encode_data [] [0] 0 false false with Ok f => f | Raise _ => [] end.
Theorem data_frame_unreadable :
  encode_data [] [0] 0 false false = Ok demo_nul ∧ ∃ m, decode_data id demo_nul = Raise (Exn ValueError m).
Proof. split; [reflexivity|]. eexists. vm_compute. reflexivity. Qed.

(** Record framing is a bijection between the records within the limit and
    the frames that are accepted: reading undoes writing and only written frames
    are read. *)
Theorem record_frames_exact data frame n :
  wf_bytes frame = true → decode_record frame n = Ok data ↔ encode_record data n = Ok frame.
Proof. intros Hw. split; [by apply record_canonical|by apply record_roundtrip]. Qed.

Lemma record_frames_exact_witness : decode_record [0; 0; 0; 2; 104; 105] 16 = Ok [104; 105].
Proof. apply (record_frames_exact [104; 105] [0; 0; 0; 2; 104; 105] 16); reflexivity. Defined.
