(* ===== verification/Plugins.v ===== *)
(** * Signed plugins

    [Plugin-System/shadow6_plugins.py] and the document that
    [Plugin-System/sign_plugin.py] signs: the canonical form, trust stores,
    manifests and their signatures, the request/response session and the
    boundary around a plugin process.  What is read from the plugin directory and
    what the isolated process does with its input are arguments. *)
From S2P Require Import Prelude Dict PyStr PyText PyValue Json JsonRound JsonDocs StrictJson Sha256 Signing Net.

Definition ID_RE (s : pystr) : bool := re_head is_lower (λ c, is_lower c || is_digit c || (c =? 45)) 1 63 s.

(** Three numbers separated by full stops, and an optional suffix after a
    hyphen. *)
Fixpoint span (p : Z → bool) (s : pystr) : pystr * pystr :=
  match s with
  | [] => ([], [])
  | c :: s' => if p c then let '(a, b) := span p s' in (c :: a, b) else ([], s)
  end.
Definition digits1 (s : pystr) : bool := negb (bool_decide (s = [])) && forallb is_digit s.
Definition VERSION_RE (s : pystr) : bool :=
  let '(major, _, rest) := partition_at 46 s in
  let '(minor, _, rest) := partition_at 46 rest in
  let '(patch, rest) := span is_digit rest in
  digits1 major && digits1 minor && digits1 patch
  && match rest with
     | [] => true
     | c :: tail => (c =? 45) && negb (bool_decide (tail = [])) && forallb (λ c, is_lower c || is_digit c || one_of ".-" c) tail
     end.

(** At least two labels of lower-case letters, digits and hyphens that start
    with a letter, separated by full stops. *)
Definition label (s : pystr) : bool := match s with [] => false | c :: s => is_lower c && forallb (λ c, is_lower c || is_digit c || (c =? 45)) s end.
Definition CAPABILITY_RE (s : pystr) : bool := let l := split_at_char 46 s in (2 <=? zlen l) && forallb label l.

Definition KNOWN_CAPABILITIES : list string :=
  ["game.local"; "hook.mtd.before"; "hook.mtd.after"; "rpc.target.authorize"; "telemetry.read";
   "slot.lifecycle.before-start"; "slot.lifecycle.after-stop"; "slot.config.validate"; "slot.transport.observe";
   "slot.transport.transform"; "slot.protocol.factory"; "slot.chat.filter"; "slot.identity.verify"; "slot.security.policy";
   "slot.telemetry.sink"; "slot.assistant.eye"; "slot.assistant.hand"; "slot.init.decorate"; "slot.ui.panel"].

(** ** The canonical form *)
Definition plugin_if (c : bool) (m : string) : result unit := raise_if c PluginError m.

Definition check_str (s : pystr) (budget : Z) : result Z :=
  match utf8 s with
  | None => raise PluginError "invalid Unicode scalar"
  | Some b => _ ← plugin_if ((65536 <? zlen b) || bool_decide (0 ∈ s)) "JSON string exceeds safety or size limit"; Ok (budget + zlen b)
  end.

(** The tests on every item, and the budget after it. *)
Definition enter (depth budget : Z) (float : bool) : result Z :=
  _ ← plugin_if (1048576 <? budget + 1) "JSON document exceeds size limit";
  _ ← plugin_if ((32 <? depth) || float) "manifest nesting is excessive or contains a float";
  Ok (budget + 1).

Fixpoint check_item (depth : Z) (item : pyval) (budget : Z) : result Z :=
  budget ← enter depth budget (match item with VFloat _ => true | _ => false end);
  match item with
  | VDict d =>
      (fix fields (d : pydict) (budget : Z) : result Z :=
         match d with
         | [] => Ok budget
         | (key, child) :: d =>
             _ ← plugin_if (256 <? zlen key) "invalid manifest key";
             budget ← (budget ← enter (depth + 1) budget false; check_str key budget);
             budget ← check_item (depth + 1) child budget;
             fields d budget
         end) d budget
  | VList l =>
      (fix items (l : list pyval) (budget : Z) : result Z :=
         match l with
         | [] => Ok budget
         | child :: l => budget ← check_item (depth + 1) child budget; items l budget
         end) l budget
  | VStr s => check_str s budget
  | VInt z => _ ← plugin_if (9007199254740991 <? Z.abs z) "integer is not exactly portable"; Ok budget
  | VBool _ | VNone => Ok budget
  | VFloat _ => raise PluginError "unsupported manifest value"
  end.

Section Plugins.
Context (nfc : pystr → pystr).

Definition plugin_canonical (value : pyval) : result bytes :=
  _ ← check_item 0 value 0;
  let encoded := dumps_canonical value in
  _ ← plugin_if (1048576 <? zlen encoded) "JSON document exceeds size limit";
  _ ← reraise [ValueError] PluginError "invalid portable JSON" (strict_json nfc 1048576 STRING_LIMIT (JBytes encoded));
  Ok encoded.

Definition plugin_json (data : bytes) (limit : Z) : result pydict :=
  _ ← plugin_if (limit <? zlen data) "JSON document exceeds size limit";
  value ← reraise [UnicodeError; ValueError; RecursionError] PluginError "invalid UTF-8 JSON"
            match utf8_decode data with
            | None => raise UnicodeError "utf-8"
            | Some text => strict_json nfc limit STRING_LIMIT (JText text)
            end;
  match value with
  | VDict d => _ ← plugin_canonical value; Ok d
  | _ => raise PluginError "JSON document must be an object"
  end.

(** ** Trust stores *)
Definition trust_entry (row : pystr * pyval) : result (pystr * bytes) :=
  _ ← plugin_if (negb (ID_RE row.1)) "trust store contains an invalid signer name";
  match row.2 with
  | VStr hex => if hex_lower 64 hex
                then match fromhex hex with
                     | Some key => _ ← plugin_if (negb (zlen key =? 32)) "invalid Ed25519 public key length for signer"; Ok (row.1, key)
                     | None => raise PluginError "invalid public key for signer"
                     end
                else raise PluginError "invalid public key for signer"
  | _ => raise PluginError "invalid public key for signer"
  end.

(** [raw] is what was read from the trust store's path. *)
Definition _load_trust_store (raw : result bytes) : result (list (pystr * bytes)) :=
  data ← raw;
  document ← plugin_json data 65536;
  match vget_none document "signers" with
  | VDict signers =>
      _ ← plugin_if (negb (keys_within document ["signers"] && keys_cover document ["signers"]) || negb (between 1 (zlen signers) 256))
            "trust store must contain at least one signer";
      map_res trust_entry signers
  | _ => raise PluginError "trust store must contain at least one signer"
  end.

Record registry := Registry { trusted_signers : list (pystr * bytes); granted_capabilities : list pystr }.

Definition subset (a b : list pystr) : bool := forallb (λ x, bool_decide (x ∈ b)) a.
Definition known_capabilities : list pystr := str <$> KNOWN_CAPABILITIES.

Definition make_registry (trust_store : result bytes) (granted : list pystr) : result registry :=
  signers ← _load_trust_store trust_store;
  _ ← plugin_if (negb (subset granted known_capabilities)) "unknown granted capabilities";
  Ok (Registry signers granted).

(** ** Manifests *)
Record manifest := Manifest {
  plugin_id : pystr; plugin_name : pystr; plugin_version : pystr; entrypoint : pystr; capabilities : list pystr; hooks : list pystr;
  timeout_seconds : Z; max_output_bytes : Z; signer : pystr; code : bytes }.

Definition manifest_fields : list string :=
  ["schema_version"; "id"; "name"; "version"; "runtime"; "entrypoint"; "capabilities"; "hooks"; "timeout_seconds"; "max_output_bytes";
   "sha256"; "signer"; "signature"].

Definition _signed_payload (document : pydict) : result bytes := plugin_canonical (VDict (ddel document (str "signature"))).

Definition entry_name_ok (s : pystr) : bool :=
  let n := (length s - 3)%nat in
  bool_decide (drop n s = str ".py") && re_head is_alnum (λ c, is_alnum c || one_of "_.-" c) 0 127 (take n s).

(** A list of at most 32 distinct capability names. *)
Definition name_list (v : pyval) (what : string) : result (list pystr) :=
  match v with
  | VList l =>
      _ ← plugin_if ((32 <? zlen l) || negb (forallb (λ x, match x with VStr s => CAPABILITY_RE s | _ => false end) l)) what;
      Ok (omap (λ x, match x with VStr s => Some s | _ => None end) l)
  | _ => raise PluginError what
  end.

Definition check_capabilities (r : registry) (v : pyval) : result (list pystr) :=
  caps ← name_list v "invalid capability list";
  _ ← plugin_if (negb (bool_decide (NoDup caps))) "duplicate plugin capability";
  _ ← plugin_if (negb (subset caps known_capabilities)) "unknown plugin capabilities";
  _ ← plugin_if (negb (subset caps (granted_capabilities r))) "plugin capabilities were not granted";
  Ok caps.

Definition check_hooks (caps : list pystr) (v : pyval) : result (list pystr) :=
  hooks ← name_list v "invalid hook list";
  _ ← plugin_if (negb (bool_decide (NoDup hooks)) || negb (subset hooks caps)) "hooks must be unique and have matching signed capabilities";
  Ok hooks.

Definition bounded_int (v : pyval) (lo hi : Z) (what : string) : result Z :=
  match v with VInt z => _ ← plugin_if (negb (between lo z hi)) what; Ok z | _ => raise PluginError what end.

Definition str_where (v : pyval) (p : pystr → bool) (what : string) : result pystr :=
  match v with VStr s => _ ← plugin_if (negb (p s)) what; Ok s | _ => raise PluginError what end.

Context {Sg : Signing}.

Definition check_manifest_signature (r : registry) (document : pydict) : result pystr :=
  signer ← str_where (vget_none document "signer") ID_RE "invalid signer";
  match dget (trusted_signers r) signer with
  | None => raise PluginError "untrusted plugin signer"
  | Some key =>
      _ ← reraise [TypeError; ValueError; InvalidSignature] PluginError "plugin manifest signature verification failed"
            match vget_none document "signature" with
            | VStr s =>
                _ ← raise_if (negb (hex_lower 128 s)) ValueError "invalid signature encoding";
                match fromhex s with
                | Some signature => payload ← _signed_payload document; raise_if (negb (verify_sig key signature payload)) InvalidSignature ""
                | None => raise ValueError "non-hexadecimal number found"
                end
            | _ => raise ValueError "invalid signature encoding"
            end;
      Ok signer
  end.

(** [raw] is what was read from [plugin.json] of the plugin's directory,
    [read_entry] reads a file beside it. *)
Definition load_manifest (r : registry) (id : pystr) (raw : result bytes) (read_entry : pystr → result bytes) : result manifest :=
  _ ← plugin_if (negb (ID_RE id)) "invalid plugin id";
  data ← raw;
  document ← plugin_json data 65536;
  _ ← plugin_if (negb (keys_within document manifest_fields && keys_cover document manifest_fields)) "manifest fields differ from schema";
  _ ← plugin_if (negb (int_between 1 (vget_none document "schema_version") 1) || negb (eq_str (vget_none document "runtime") "python3"))
        "unsupported plugin schema or runtime";
  _ ← plugin_if (negb (py_eqb (vget_none document "id") (VStr id)) || negb (match vget_none document "id" with VStr s => ID_RE s | _ => false end))
        "manifest id does not match its directory";
  name ← str_where (vget_none document "name") (λ s, between 1 (zlen s) 100) "invalid plugin display name";
  version ← str_where (vget_none document "version") VERSION_RE "invalid plugin version";
  entry ← str_where (vget_none document "entrypoint") entry_name_ok "entrypoint must be a local Python filename";
  code ← read_entry entry;
  digest ← str_where (vget_none document "sha256") (hex_lower 64) "invalid plugin code digest";
  _ ← plugin_if (negb (bool_decide (sha256_hex code = digest))) "plugin code digest mismatch";
  caps ← check_capabilities r (vget_none document "capabilities");
  hooks ← check_hooks caps (vget_none document "hooks");
  timeout ← bounded_int (vget_none document "timeout_seconds") 1 30 "plugin timeout must be between 1 and 30 seconds";
  output_limit ← bounded_int (vget_none document "max_output_bytes") 1024 1048576 "plugin output limit is out of range";
  signer ← check_manifest_signature r document;
  Ok (Manifest id name version entry caps hooks timeout output_limit signer code).

(** The signing tool: [code] is the entry point's contents. *)
Definition sign_document (key : bytes) (signer : pystr) (code : bytes) (document : pydict) : pydict :=
  let d := dset document (str "sha256") (VStr (sha256_hex code)) in
  let d := dset d (str "signer") (VStr signer) in
  let d := ddel d (str "signature") in
  dset d (str "signature") (VStr (bytes_hex (sign key (dumps_canonical (VDict d))))).

(** ** Running a plugin

    [execute] is the isolated process: from the code and its input to its exit
    status, output and diagnostics; it raises when it cannot be started or runs
    out of time. *)
Context (execute : bytes → bytes → result (Z * bytes * bytes)).

Definition sorted_names (l : list pystr) : list pystr := (sort_keys ((λ x, (x, tt)) <$> l)).*1.

Definition grant_request (m : manifest) (request : pydict) : result pydict :=
  match vget_none request "capabilities" with
  | VNone => Ok (dset request (str "capabilities") (VList (VStr <$> sorted_names (capabilities m))))
  | VList l =>
      let names := omap (λ x, match x with VStr s => Some s | _ => None end) l in
      _ ← plugin_if (negb (zlen names =? zlen l) || negb (bool_decide (NoDup names))) "invalid OCAP capability attenuation";
      _ ← plugin_if (negb (subset names (capabilities m))) "OCAP capability exceeds plugin grant";
      Ok request
  | _ => raise PluginError "invalid OCAP capability attenuation"
  end.

Definition run_plugin (m : manifest) (request : pydict) : result pydict :=
  request ← grant_request m request;
  encoded ← plugin_canonical (VDict request);
  _ ← plugin_if (65536 <? zlen encoded) "plugin request exceeds 65536 bytes";
  '(status, output, errors) ← execute (code m) (encoded ++ [10]);
  _ ← plugin_if (negb (status =? 0)) "plugin exited with status";
  _ ← plugin_if (max_output_bytes m <? zlen output) "plugin output exceeds its manifest limit";
  _ ← plugin_if (negb (bool_decide (errors = []))) "plugin wrote unexpected diagnostic output";
  plugin_json output (max_output_bytes m).

(** [registry.discover()] and [registry.load], as they find the directory. *)
Definition dispatch_hook (discovered : list pystr) (load : pystr → result manifest) (hook : pystr) (payload : pyval)
    : result (list (pystr * pydict)) :=
  _ ← plugin_if (negb (CAPABILITY_RE hook) || negb (starts_with (str "hook.") hook)) "invalid hook name";
  fold_res (λ results id,
    m ← load id;
    if bool_decide (hook ∈ hooks m) then
      _ ← plugin_if (negb (bool_decide (hook ∈ capabilities m))) "plugin declared hook without matching capability";
      response ← run_plugin m (mkdict [("protocol", txt "shadow6.plugin.v1"); ("event", VStr hook); ("payload", payload)]%string);
      Ok (dset results id response)
    else Ok results) [] discovered.

(** ** Request/response sessions *)
Definition MAX_FRAME : Z := 65536.
Definition MAX_IN_FLIGHT : Z := 16.

Record rpc_session := Rpc { rpc_manifest : manifest; rpc_capabilities : list pystr; last_id : Z; rpc_closed : bool; active : Z }.

Definition make_rpc (m : manifest) (caps : option (list pystr)) : result rpc_session :=
  let granted := default (capabilities m) caps in
  _ ← plugin_if (negb (subset granted (capabilities m))) "OCAP capability exceeds plugin grant";
  Ok (Rpc m granted 0 false 0).

Definition rpc_encode (message : pydict) : result bytes :=
  payload ← plugin_canonical (VDict message);
  _ ← plugin_if (MAX_FRAME - 4 <? zlen payload) "Plugin RPC frame exceeds 65532 bytes";
  Ok (be_encode 4 (zlen payload) ++ payload).

Definition rpc_decode (frame : bytes) : result pydict :=
  _ ← plugin_if (zlen frame <? 4) "truncated Plugin RPC frame";
  let size := be_decode (take 4 frame) in
  _ ← plugin_if ((MAX_FRAME - 4 <? size) || negb (zlen frame =? size + 4)) "invalid Plugin RPC frame length";
  plugin_json (drop 4 frame) 1048576.

Definition rpc_close : M rpc_session unit := mmod (λ s, Rpc (rpc_manifest s) (rpc_capabilities s) (last_id s) true (active s)).

Definition method_re (s : pystr) : bool :=
  starts_with (str "plugin.") s && re_head is_lower (λ c, is_lower c || is_digit c || one_of "_.-" c) 0 63 (drop 7 s).

(** The part of [dispatch] under the lock: the identifier is taken. *)
Definition dispatch_begin (request : pydict) : M rpc_session Z :=
  closed ← mget rpc_closed;
  _ ← mraise_if closed PluginError "Plugin RPC session is closed";
  _ ← mraise_if (negb (keys_within request ["id"; "method"; "params"; "capabilities"])) PluginError "unknown Plugin RPC request field";
  id ← mlift (bounded_int (vget_none request "id") 1 (2 ^ 64 - 1) "Plugin RPC id must be a positive integer");
  last ← mget last_id;
  _ ← mraise_if (id <=? last) PluginError "Plugin RPC request replay or out of order";
  _ ← mmod (λ s, Rpc (rpc_manifest s) (rpc_capabilities s) id (rpc_closed s) (active s));
  busy ← mget active;
  _ ← mraise_if (MAX_IN_FLIGHT <=? busy) PluginError "too many Plugin RPC requests";
  _ ← mmod (λ s, Rpc (rpc_manifest s) (rpc_capabilities s) (last_id s) (rpc_closed s) (active s + 1));
  mret id.

Definition dispatch_end : M rpc_session unit :=
  mmod (λ s, Rpc (rpc_manifest s) (rpc_capabilities s) (last_id s) (rpc_closed s) (active s - 1)).

(** [len(l) == len(set(l))]. *)
Fixpoint distinct (l : list pyval) : bool :=
  match l with [] => true | x :: l => negb (existsb (py_eqb x) l) && distinct l end.

(** [set(requested) <= self.capabilities] on a list whose elements may be
    anything that can be hashed. *)
Definition dispatch_call (s : rpc_session) (request : pydict) : result pydict :=
  method ← str_where (vget_none request "method") method_re "invalid Plugin RPC method";
  let requested := vget_or request "capabilities" (VList (VStr <$> sorted_names (rpc_capabilities s))) in
  match requested with
  | VList l =>
      _ ← raise_if (negb (forallb hashable l)) TypeError "unhashable type";
      _ ← plugin_if (negb (distinct l)) "invalid OCAP capability attenuation";
      _ ← plugin_if (negb (forallb (λ x, match x with VStr c => bool_decide (c ∈ rpc_capabilities s) | _ => false end) l))
            "OCAP capability exceeds session grant";
      match vget_or request "params" (VDict []) with
      | VDict params =>
          run_plugin (rpc_manifest s) (mkdict
            [("protocol", txt "shadow6.plugin.rpc.v1"); ("method", VStr method); ("capabilities", requested); ("params", VDict params)]%string)
      | _ => raise PluginError "Plugin RPC params must be an object"
      end
  | _ => raise PluginError "invalid OCAP capability attenuation"
  end.

(** The response to a call; an error that is not the plugin's is raised. *)
Definition rpc_response (id : Z) (r : result pydict) : result pydict :=
  match r with
  | Ok result => Ok (mkdict [("id", VInt id); ("ok", VBool true); ("result", VDict result)]%string)
  | Raise x => if isa (exn_cls x) PluginError
               then Ok (mkdict [("id", VInt id); ("ok", VBool false); ("error", VStr (take 256 (str (exn_msg x))))]%string)
               else Raise x
  end.

Definition dispatch (request : pydict) : M rpc_session pydict :=
  id ← dispatch_begin request;
  s ← mget (λ s, s);
  let r := rpc_response id (dispatch_call s request) in
  _ ← dispatch_end;
  mlift r.
End Plugins.

(** * Plugins: what loading, running and calling guarantee *)

Lemma raise_if_inv {c cls m} {u : unit} : raise_if c cls m = Ok u → c = false.
Proof. by destruct c. Qed.

(** Unfold one step of a successful computation. *)
Tactic Notation "step_in" hyp(H) ident(x) ident(E) := apply bind_Ok_inv in H as (x & E & H).

Lemma str_where_Ok v p what s : str_where v p what = Ok s ↔ v = VStr s ∧ p s = true.
Proof.
  unfold str_where, plugin_if. destruct v as [| | | |t| |]; try (split; [done|by intros [? _]]). split.
  - intros ([] & Hp%raise_if_Ok%negb_false_iff & [= <-])%bind_Ok_inv. done.
  - intros [[= <-] Hp]. by rewrite Hp.
Qed.

Lemma bounded_int_Ok v lo hi what z : bounded_int v lo hi what = Ok z ↔ v = VInt z ∧ lo ≤ z ≤ hi.
Proof.
  unfold bounded_int, plugin_if. destruct v as [| |t| | | |]; try (split; [done|by intros [? _]]). split.
  - intros ([] & Hp%raise_if_Ok%negb_false_iff%between_spec & [= <-])%bind_Ok_inv. done.
  - intros [[= <-] Hp%between_spec]. by rewrite Hp.
Qed.

Lemma subset_spec a b : subset a b = true ↔ ∀ x, x ∈ a → x ∈ b.
Proof.
  unfold subset. rewrite forallb_forall. setoid_rewrite <- list_elem_of_In. split; intros H x Hx.
  - specialize (H x Hx). by apply bool_decide_eq_true in H.
  - apply bool_decide_eq_true. by apply H.
Qed.

(** The strings of a list of JSON values. *)
Definition strings_of (l : list pyval) : list pystr := omap (λ x, match x with VStr s => Some s | _ => None end) l.

Lemma strings_of_all (p : pystr → bool) l :
  forallb (λ x, match x with VStr s => p s | _ => false end) l = true → l = VStr <$> strings_of l ∧ Forall (λ s, p s = true) (strings_of l).
Proof.
  induction l as [|x l IH]; [done|]. cbn [forallb]. intros [Hx Hl]%andb_true_iff. destruct x; try done. destruct (IH Hl) as [E F].
  split; [|by constructor]. change (VStr s :: l = VStr s :: (VStr <$> strings_of l)). by rewrite <- E.
Qed.

Lemma strings_of_fmap l : strings_of (VStr <$> l) = l.
Proof. induction l as [|s l IH]; [done|]. change (s :: strings_of (VStr <$> l) = s :: l). by rewrite IH. Qed.

Lemma strings_of_le l : (length (strings_of l) ≤ length l)%nat.
Proof. unfold strings_of. induction l as [|[] l IH]; cbn; lia. Qed.

Lemma strings_of_length l : zlen (strings_of l) = zlen l → l = VStr <$> strings_of l.
Proof.
  unfold zlen. induction l as [|x l IH]; [done|]. pose proof (strings_of_le l). destruct x; cbn [length];
    try (change (length (strings_of (_ :: l))) with (length (strings_of l)); lia).
  change (strings_of (VStr s :: l)) with (s :: strings_of l). cbn [length]. intros Hl. cbn [fmap list_fmap]. f_equal. apply IH. lia.
Qed.

Lemma name_list_Ok v what l :
  name_list v what = Ok l ↔ v = VList (VStr <$> l) ∧ zlen l ≤ 32 ∧ Forall (λ s, CAPABILITY_RE s = true) l.
Proof.
  unfold name_list, plugin_if. destruct v as [| | | | |k|]; try (split; [done|by intros [? _]]). split.
  - intros ([] & [Hlen%Z.ltb_ge Hall%negb_false_iff]%raise_if_Ok%orb_false_iff & [= <-])%bind_Ok_inv.
    destruct (strings_of_all _ _ Hall) as [E F]. fold (strings_of k). split_and!; [by rewrite <- E| |done].
    rewrite E in Hlen. unfold zlen in *. by rewrite length_fmap in Hlen.
  - intros ([= ->] & Hlen & F). unfold zlen in *. rewrite length_fmap. destruct (Z.ltb_spec 32 (Z.of_nat (length l))); [lia|].
    assert (forallb (λ x, match x with VStr s => CAPABILITY_RE s | _ => false end) (VStr <$> l) = true) as ->.
    { rewrite forallb_forall. intros x (s & -> & Hs)%list_elem_of_In%list_elem_of_fmap. rewrite Forall_forall in F. by apply F. }
    cbn. f_equal. apply strings_of_fmap.
Qed.

Section Facts.
Context (nfc : pystr → pystr).

Lemma plugin_canonical_Ok v b :
  plugin_canonical nfc v = Ok b →
  b = dumps_canonical v ∧ zlen b ≤ 1048576 ∧ ∃ w, strict_json nfc 1048576 STRING_LIMIT (JBytes b) = Ok w.
Proof.
  unfold plugin_canonical, plugin_if. intros (n & _ & H)%bind_Ok_inv. step_in H u Hl. apply raise_if_inv, Z.ltb_ge in Hl. step_in H w Hw.
  apply reraise_Ok in Hw. assert (b = dumps_canonical v) as -> by (by injection H). eauto.
Qed.

Lemma plugin_json_Ok data limit d :
  plugin_json nfc data limit = Ok d →
  json_ok (VDict d) ∧ zlen data ≤ limit ∧ ∃ text, utf8_decode data = Some text ∧ strict_json nfc limit STRING_LIMIT (JText text) = Ok (VDict d).
Proof.
  unfold plugin_json, plugin_if. intros ([] & Hl%raise_if_Ok%Z.ltb_ge & H)%bind_Ok_inv. step_in H v Hv. apply reraise_Ok in Hv.
  destruct v as [| | | | | |d']; try done. step_in H b Hb. injection H as <-. destruct (utf8_decode data) as [text|]; [|done].
  pose proof (strict_json_portable _ _ _ _ _ Hv) as [Hp _]. split_and!; [by eapply portable_json_ok|done|eauto].
Qed.

Lemma plugin_capabilities_Ok r v caps :
  check_capabilities r v = Ok caps ↔
  v = VList (VStr <$> caps) ∧ zlen caps ≤ 32 ∧ Forall (λ s, CAPABILITY_RE s = true) caps ∧ NoDup caps ∧
  (∀ c, c ∈ caps → c ∈ known_capabilities) ∧ (∀ c, c ∈ caps → c ∈ granted_capabilities r).
Proof.
  unfold check_capabilities, plugin_if. split.
  - intros H. step_in H l Hl. apply name_list_Ok in Hl as (-> & Hl1 & Hl2). step_in H u H1. apply raise_if_inv, negb_false_iff, bool_decide_eq_true in H1.
    step_in H u2 H2. apply raise_if_inv, negb_false_iff in H2. step_in H u3 H3. apply raise_if_inv, negb_false_iff in H3. injection H as <-.
    split_and!; try done; by apply subset_spec.
  - intros (-> & Hl & HF & Hn & Hk & Hg). rewrite (proj2 (name_list_Ok _ _ caps)) by done. cbn [mbind result_bind].
    rewrite bool_decide_true by done. rewrite (proj2 (subset_spec _ _) Hk), (proj2 (subset_spec _ _) Hg). done.
Qed.

Lemma check_hooks_Ok caps v hs :
  check_hooks caps v = Ok hs ↔
  v = VList (VStr <$> hs) ∧ zlen hs ≤ 32 ∧ Forall (λ s, CAPABILITY_RE s = true) hs ∧ NoDup hs ∧ (∀ h, h ∈ hs → h ∈ caps).
Proof.
  unfold check_hooks, plugin_if. split.
  - intros H. step_in H l Hl. apply name_list_Ok in Hl as (-> & Hl1 & Hl2). step_in H u H1. apply raise_if_inv, orb_false_iff in H1 as [H1 H2].
    apply negb_false_iff in H1, H2. apply bool_decide_eq_true in H1. injection H as <-. split_and!; try done. by apply subset_spec.
  - intros (-> & Hl & HF & Hn & Hk). rewrite (proj2 (name_list_Ok _ _ hs)) by done. cbn [mbind result_bind].
    rewrite bool_decide_true by done. by rewrite (proj2 (subset_spec _ _) Hk).
Qed.

Context {Sg : Signing}.

(** The signature of a document by a trusted signer. *)
Definition signed_manifest (r : registry) (doc : pydict) (s : pystr) (payload : bytes) : Prop :=
  ∃ key hex sig, vget_none doc "signer" = VStr s ∧ ID_RE s = true ∧ dget (trusted_signers r) s = Some key ∧
    vget_none doc "signature" = VStr hex ∧ hex_lower 128 hex = true ∧ fromhex hex = Some sig ∧
    _signed_payload nfc doc = Ok payload ∧ verify_sig key sig payload = true.

Lemma check_signature_Ok r doc s :
  check_manifest_signature nfc r doc = Ok s ↔ ∃ payload, signed_manifest r doc s payload.
Proof.
  unfold check_manifest_signature, signed_manifest. split.
  - intros H. step_in H s' Hs. apply str_where_Ok in Hs as [Hs Hid]. destruct (dget _ s') as [key|] eqn:Ek; [|done]. step_in H u Hu.
    injection H as <-. apply reraise_Ok in Hu. destruct (vget_none doc "signature") as [| | | |hex| |]; try done.
    step_in Hu u1 Hh. apply raise_if_inv, negb_false_iff in Hh. destruct (fromhex hex) as [sig|] eqn:Ef; [|done]. step_in Hu payload Hp.
    apply raise_if_inv, negb_false_iff in Hu. exists payload, key, hex, sig. done.
  - intros (payload & key & hex & sig & Hs & Hid & Hk & Hx & Hh & Hf & Hp & Hv). rewrite (proj2 (str_where_Ok _ _ _ s)) by done.
    cbn [mbind result_bind]. rewrite Hk, Hx, Hh, Hf. cbn [negb raise_if mbind result_bind]. rewrite Hp. cbn [mbind result_bind]. by rewrite Hv.
Qed.

(** A document describes a plugin, apart from its code digest and signature. *)
Record described (r : registry) (id : pystr) (read_entry : pystr → result bytes) (doc : pydict) (m : manifest) : Prop := {
  de_schema : int_between 1 (vget_none doc "schema_version") 1 = true ∧ eq_str (vget_none doc "runtime") "python3" = true;
  de_id : ID_RE id = true ∧ vget_none doc "id" = VStr id ∧ plugin_id m = id;
  de_name : vget_none doc "name" = VStr (plugin_name m) ∧ between 1 (zlen (plugin_name m)) 100 = true;
  de_version : vget_none doc "version" = VStr (plugin_version m) ∧ VERSION_RE (plugin_version m) = true;
  de_entry : vget_none doc "entrypoint" = VStr (entrypoint m) ∧ entry_name_ok (entrypoint m) = true ∧ read_entry (entrypoint m) = Ok (code m);
  de_caps : check_capabilities r (vget_none doc "capabilities") = Ok (capabilities m);
  de_hooks : check_hooks (capabilities m) (vget_none doc "hooks") = Ok (hooks m);
  de_timeout : vget_none doc "timeout_seconds" = VInt (timeout_seconds m) ∧ 1 ≤ timeout_seconds m ≤ 30;
  de_output : vget_none doc "max_output_bytes" = VInt (max_output_bytes m) ∧ 1024 ≤ max_output_bytes m ≤ 1048576 }.

(** Everything that loading checks. *)
Record manifest_checked (r : registry) (id : pystr) (read_entry : pystr → result bytes) (doc : pydict) (m : manifest) : Prop := {
  mc_fields : keys_within doc manifest_fields && keys_cover doc manifest_fields = true;
  mc_described : described r id read_entry doc m;
  mc_digest : vget_none doc "sha256" = VStr (sha256_hex (code m));
  mc_signed : ∃ payload, signed_manifest r doc (signer m) payload }.

Lemma load_manifest_Ok r id raw read_entry m :
  load_manifest nfc r id raw read_entry = Ok m ↔
  ∃ data doc, raw = Ok data ∧ plugin_json nfc data 65536 = Ok doc ∧ manifest_checked r id read_entry doc m.
Proof.
  unfold load_manifest, plugin_if. split.
  - intros H. step_in H u0 Hid. apply raise_if_inv, negb_false_iff in Hid. step_in H data Hraw. step_in H doc Hdoc.
    step_in H u1 Hf. apply raise_if_inv, negb_false_iff in Hf. step_in H u2 Hs. apply raise_if_inv, orb_false_iff in Hs as [Hs1 Hs2].
    apply negb_false_iff in Hs1, Hs2. step_in H u3 Hi. apply raise_if_inv, orb_false_iff in Hi as [Hi _]. apply negb_false_iff in Hi.
    assert (vget_none doc "id" = VStr id) as Ei by (destruct (vget_none doc "id"); try done; by apply bool_decide_eq_true in Hi as ->).
    step_in H name Hn. apply str_where_Ok in Hn. step_in H version Hv. apply str_where_Ok in Hv. step_in H entry He. apply str_where_Ok in He as [He1 He2].
    step_in H body Hc. step_in H digest Hd. apply str_where_Ok in Hd as [Hd1 _]. step_in H u4 Hx. apply raise_if_inv, negb_false_iff, bool_decide_eq_true in Hx as <-.
    step_in H caps Hcaps. step_in H hs Hh. step_in H timeout Ht. apply bounded_int_Ok in Ht. step_in H out Ho. apply bounded_int_Ok in Ho.
    step_in H s Hsig. apply check_signature_Ok in Hsig. injection H as <-. exists data, doc. split_and!; [done|done|]. split; [done| |done|done]. by split.
  - intros (data & doc & -> & Hdoc & [Hf [[Hs1 Hs2] (Hid & Ei & <-) Hn Hv (He1 & He2 & He3) Hc Hh Ht Ho] Hd Hsig]).
    rewrite Hid. cbn [negb raise_if mbind result_bind]. rewrite Hdoc. cbn [mbind result_bind]. rewrite Hf, Hs1, Hs2, Ei, Hid. cbn [negb orb raise_if mbind result_bind].
    cbn [py_eqb]. rewrite bool_decide_true by done. cbn [negb orb raise_if mbind result_bind].
    rewrite (proj2 (str_where_Ok _ _ _ _) Hn). cbn [mbind result_bind]. rewrite (proj2 (str_where_Ok _ _ _ _) Hv). cbn [mbind result_bind].
    rewrite (proj2 (str_where_Ok _ _ _ _) (conj He1 He2)). cbn [mbind result_bind]. rewrite He3. cbn [mbind result_bind].
    rewrite (proj2 (str_where_Ok _ _ _ _) (conj Hd (sha256_hex_lower (code m)))). cbn [mbind result_bind]. rewrite bool_decide_true by done.
    cbn [negb raise_if mbind result_bind]. rewrite Hc. cbn [mbind result_bind]. rewrite Hh. cbn [mbind result_bind].
    rewrite (proj2 (bounded_int_Ok _ _ _ _ _) Ht). cbn [mbind result_bind]. rewrite (proj2 (bounded_int_Ok _ _ _ _ _) Ho). cbn [mbind result_bind].
    rewrite (proj2 (check_signature_Ok _ _ _) Hsig). by destruct m.
Qed.

(** ** The signing tool *)
Lemma sign_lookup key s body doc k :
  k ≠ "sha256"%string → k ≠ "signer"%string → k ≠ "signature"%string → vget_none (sign_document key s body doc) k = vget_none doc k.
Proof.
  intros H1 H2 H3. unfold vget_none, vget, sign_document.
  assert (str k ≠ str "sha256" ∧ str k ≠ str "signer" ∧ str k ≠ str "signature") as (K1 & K2 & K3) by (split_and!; by intros E%(inj str)).
  by rewrite dget_dset_ne, dget_ddel_ne, !dget_dset_ne.
Qed.

Lemma ddel_twice (d : pydict) k : ddel (ddel d k) k = ddel d k.
Proof. apply ddel_notin, dget_ddel_eq. Qed.

(** A signed document carries the digest, the signer and a signature that
    verifies. *)
Lemma sign_document_signed {Laws : SigningLaws} r key s body doc payload :
  let signed := sign_document key s body doc in
  ID_RE s = true → dget (trusted_signers r) s = Some (public_key key) → _signed_payload nfc signed = Ok payload →
  vget_none signed "sha256" = VStr (sha256_hex body) ∧ signed_manifest r signed s payload.
Proof.
  cbv zeta. intros Hid Hk Hp. unfold vget_none, vget.
  assert (str "sha256" ≠ str "signature" ∧ str "signer" ≠ str "signature" ∧ str "sha256" ≠ str "signer") as (K1 & K2 & K3) by done. split.
  - unfold sign_document. by rewrite dget_dset_ne, dget_ddel_ne, dget_dset_ne, dget_dset_eq.
  - pose proof (plugin_canonical_Ok _ _ Hp) as (-> & _ & _). set (d := ddel (dset (dset doc (str "sha256") (VStr (sha256_hex body))) (str "signer") (VStr s)) (str "signature")).
    exists (public_key key), (bytes_hex (sign key (dumps_canonical (VDict d)))), (sign key (dumps_canonical (VDict d))).
    assert (ddel (sign_document key s body doc) (str "signature") = d) as Ed by (unfold sign_document; rewrite ddel_dset; apply ddel_twice).
    split_and!; try done.
    + unfold vget_none, vget, sign_document. by rewrite dget_dset_ne, dget_ddel_ne, dget_dset_eq.
    + unfold vget_none, vget, sign_document. by rewrite dget_dset_eq.
    + apply (hex_lower_bytes_hex _ 64); [apply sign_wf|]. unfold zlen. by rewrite sign_length.
    + apply fromhex_hex, sign_wf.
    + rewrite Ed. apply verify_sign.
Qed.

(** ** Running within the grant *)

(** An input that declares only capabilities of [caps]. *)
Definition confined (caps : list pystr) (input : bytes) : Prop :=
  ∃ d l, input = dumps_canonical (VDict d) ++ [10] ∧ vget_none d "capabilities" = VList (VStr <$> l) ∧ (∀ c, c ∈ l → c ∈ caps) ∧ zlen input ≤ 65537.

Lemma grant_request_Ok m q q' :
  grant_request m q = Ok q' →
  ∃ l, vget_none q' "capabilities" = VList (VStr <$> l) ∧ (∀ c, c ∈ l → c ∈ capabilities m) ∧
    (vget_none q "capabilities" = VNone ∨ vget_none q "capabilities" = VList (VStr <$> l)).
Proof.
  unfold grant_request, plugin_if. destruct (vget_none q "capabilities") as [| | | | |k|] eqn:E; try done.
  - intros [= <-]. exists (sorted_names (capabilities m)). split_and!; [by unfold vget_none, vget; rewrite dget_dset_eq| |by left].
    intros c (x & -> & Hx)%list_elem_of_fmap. rewrite (sort_keys_perm _) in Hx. by apply list_elem_of_fmap in Hx as (y & -> & Hy).
  - fold (strings_of k). intros H. step_in H u Hu. apply raise_if_inv, orb_false_iff in Hu as [Hu _]. apply negb_false_iff, Z.eqb_eq in Hu.
    step_in H u1 Hs. apply raise_if_inv, negb_false_iff in Hs. injection H as <-. exists (strings_of k). rewrite <- (strings_of_length k Hu).
    split_and!; [done|by apply subset_spec|by right].
Qed.

(** The process sees nothing but the verified code and such an input. *)
Lemma run_plugin_confined execute execute' m q :
  (∀ input, confined (capabilities m) input → (∀ l, vget_none q "capabilities" = VList (VStr <$> l) → confined l input) →
    execute (code m) input = execute' (code m) input) →
  run_plugin nfc execute m q = run_plugin nfc execute' m q.
Proof.
  intros He. unfold run_plugin, plugin_if. destruct (grant_request m q) as [q'|] eqn:Eq; [|done]. cbn [mbind result_bind].
  destruct (plugin_canonical nfc (VDict q')) as [b|] eqn:Eb; [|done]. cbn [mbind result_bind]. destruct (Z.ltb_spec 65536 (zlen b)); [done|].
  cbn [raise_if mbind result_bind]. apply plugin_canonical_Ok in Eb as (-> & _ & _). apply grant_request_Ok in Eq as (l & Hl & Hc & Hq).
  assert (zlen (dumps_canonical (VDict q') ++ [10]) ≤ 65537) as Hz by (rewrite zlen_app; change (zlen [10]) with 1; lia).
  rewrite He; [done| |].
  - by exists q', l.
  - intros l' Hl'. destruct Hq as [Hq|Hq]; rewrite Hl' in Hq; [done|]. injection Hq as E. exists q', l. split_and!; try done.
    intros c Hin. by rewrite <- (strings_of_fmap l'), E, strings_of_fmap.
Qed.

(** ** Sessions *)
Lemma dispatch_begin_Ok q s id s' :
  dispatch_begin q s = (Ok id, s') →
  rpc_closed s = false ∧ last_id s < id ∧ active s < MAX_IN_FLIGHT ∧
  s' = Rpc (rpc_manifest s) (rpc_capabilities s) id (rpc_closed s) (active s + 1).
Proof.
  unfold dispatch_begin. rewrite M_get_bind. intros H. destruct (M_lift_inv _ _ _ _ _ H) as [([] & Hc%raise_if_inv & H1)|(_ & ? & _ & ?)]; [|done].
  clear H. destruct (M_lift_inv _ _ _ _ _ H1) as [([] & _ & H2)|(_ & ? & _ & ?)]; [|done]. clear H1.
  destruct (M_lift_inv _ _ _ _ _ H2) as [(i & Hi & H3)|(_ & ? & _ & ?)]; [|done]. clear H2. rewrite M_get_bind in H3.
  destruct (M_lift_inv _ _ _ _ _ H3) as [([] & Hl%raise_if_inv & H4)|(_ & ? & _ & ?)]; [|done]. clear H3.
  unfold mbind at 1, M_bind at 1, mmod at 1 in H4. rewrite M_get_bind in H4. destruct (M_lift_inv _ _ _ _ _ H4) as [([] & Ha%raise_if_inv & H5)|(_ & ? & _ & ?)]; [|done].
  injection H5 as <- <-. cbn in Ha. apply Z.leb_gt in Hl, Ha. split_and!; done.
Qed.

Lemma dispatch_begin_fail q s x s' :
  dispatch_begin q s = (Raise x, s') →
  rpc_manifest s' = rpc_manifest s ∧ rpc_capabilities s' = rpc_capabilities s ∧ rpc_closed s' = rpc_closed s ∧ active s' = active s ∧ last_id s ≤ last_id s'.
Proof.
  unfold dispatch_begin. rewrite M_get_bind. intros H. destruct (M_lift_inv _ _ _ _ _ H) as [([] & _ & H1)|(-> & _)]; [|by split_and!; try lia].
  clear H. destruct (M_lift_inv _ _ _ _ _ H1) as [([] & _ & H2)|(-> & _)]; [|by split_and!; try lia]. clear H1.
  destruct (M_lift_inv _ _ _ _ _ H2) as [(i & Hi & H3)|(-> & _)]; [|by split_and!; try lia]. clear H2. rewrite M_get_bind in H3.
  destruct (M_lift_inv _ _ _ _ _ H3) as [([] & Hl%raise_if_inv & H4)|(-> & _)]; [|by split_and!; try lia]. clear H3. apply Z.leb_gt in Hl.
  unfold mbind at 1, M_bind at 1, mmod at 1 in H4. rewrite M_get_bind in H4.
  destruct (M_lift_inv _ _ _ _ _ H4) as [([] & _ & H5)|(-> & _)]; [done|]. cbn. split_and!; try done. lia.
Qed.
End Facts.
