(* ===== verification/Slots.v ===== *)
(** * Extension slots

    [Slot-System/shadow6_slots.py]: which plugins are bound to a slot and what an
    invocation does with them.  [load] is the plugin registry and [run] the
    boundary around a plugin process, as [Plugins] defines them. *)
From S2P Require Import Prelude Dict PyStr PyText PyValue Json JsonRound JsonDocs StrictJson Plugins.

Definition MAX_BINDINGS : Z := 128.

Inductive slot_mode := Serial | Fanout | Pipeline | FirstSuccess | AllMustPass.
#[global] Instance slot_mode_eq_dec : EqDecision slot_mode.
Proof. solve_decision. Defined.

Record slot := Slot { level : Z; phase : string; mode : slot_mode; max_providers : Z }.

Definition SLOTS : list (pystr * slot) :=
  [(str "slot.lifecycle.before-start", Slot 3 "lifecycle" Serial 8);
   (str "slot.lifecycle.after-stop", Slot 3 "lifecycle" Serial 8);
   (str "slot.config.validate", Slot 3 "configuration" AllMustPass 8);
   (str "slot.transport.observe", Slot 0 "transport" Fanout 16);
   (str "slot.transport.transform", Slot 1 "transport" Pipeline 4);
   (str "slot.protocol.factory", Slot 1 "application" FirstSuccess 8);
   (str "slot.chat.filter", Slot 1 "application" Pipeline 8);
   (str "slot.identity.verify", Slot 2 "identity" AllMustPass 8);
   (str "slot.security.policy", Slot 2 "security" AllMustPass 8);
   (str "slot.telemetry.sink", Slot 0 "observability" Fanout 16);
   (str "slot.assistant.eye", Slot 0 "assistant" Fanout 16);
   (str "slot.assistant.hand", Slot 4 "assistant" Serial 4);
   (str "slot.init.decorate", Slot 3 "service" Pipeline 4);
   (str "slot.ui.panel", Slot 0 "presentation" Fanout 16)].

Record binding := Binding { b_slot : pystr; b_plugin : pystr; b_priority : Z; b_required : bool; b_enabled : bool }.

Definition slot_if (c : bool) (m : string) : result unit := raise_if c SlotError m.

Definition binding_fields : list string := ["slot"; "plugin"; "priority"; "required"; "enabled"].

(** The fields of one binding. *)
Definition read_binding (v : pyval) : result binding :=
  match v with
  | VDict d =>
      _ ← slot_if (negb (keys_within d binding_fields && keys_cover d binding_fields)) "each binding has an exact five-field schema";
      '(slot, plugin) ← match vget_none d "slot", vget_none d "plugin" with
                        | VStr slot, VStr plugin =>
                            _ ← slot_if (negb (dmem SLOTS slot) || negb (ID_RE plugin)) "binding references an unknown slot or invalid plugin";
                            Ok (slot, plugin)
                        | _, _ => raise SlotError "binding references an unknown slot or invalid plugin"
                        end;
      priority ← match vget_none d "priority" with
                 | VInt z => _ ← slot_if (negb (between 0 z 1000)) "binding priority must be an integer from 0 through 1000"; Ok z
                 | _ => raise SlotError "binding priority must be an integer from 0 through 1000"
                 end;
      match vget_none d "required", vget_none d "enabled" with
      | VBool required, VBool enabled => Ok (Binding slot plugin priority required enabled)
      | _, _ => raise SlotError "required and enabled must be booleans"
      end
  | _ => raise SlotError "each binding has an exact five-field schema"
  end.

Section Slots.
Context (load : pystr → result manifest) (run : manifest → pydict → result pydict).

(** The plugin is signed for the slot. *)
Definition signed_for (slot : pystr) (m : manifest) : bool := bool_decide (slot ∈ capabilities m) && bool_decide (slot ∈ hooks m).

Record binding_state := BindingState { seen : list (pystr * pystr); counts : list (pystr * Z); validated : list binding }.

Definition check_binding_row (st : binding_state) (v : pyval) : result binding_state :=
  b ← read_binding v;
  let key := (b_slot b, b_plugin b) in
  _ ← slot_if (bool_decide (key ∈ seen st)) "duplicate slot/provider binding";
  let count := default 0 (dget (counts st) (b_slot b)) + (if b_enabled b then 1 else 0) in
  _ ← slot_if (match dget SLOTS (b_slot b) with Some s => max_providers s <? count | None => true end) "slot exceeds its provider limit";
  m ← load (b_plugin b);
  _ ← slot_if (negb (signed_for (b_slot b) m)) "plugin is not signed for slot";
  Ok (BindingState (key :: seen st) (dset (counts st) (b_slot b) count) (validated st ++ [b])).

(** [sorted(validated, key=lambda item: (slot, priority, plugin))]: a stable
    sort by that key. *)
Definition binding_leb (a b : binding) : bool :=
  if bool_decide (b_slot a = b_slot b)
  then (b_priority a <? b_priority b) || (b_priority a =? b_priority b) && str_leb (b_plugin a) (b_plugin b)
  else str_leb (b_slot a) (b_slot b).
Fixpoint insert_binding (b : binding) (l : list binding) : list binding :=
  match l with
  | [] => [b]
  | c :: l' => if binding_leb b c then b :: l else c :: insert_binding b l'
  end.
Definition sort_bindings (l : list binding) : list binding := foldr insert_binding [] l.

(** [raw] is what was read from the binding document's path. *)
Definition load_bindings (nfc : pystr → pystr) (raw : result bytes) : result (list binding) :=
  document ← reraise [OSError; ValueError; PluginError] SlotError "invalid slot binding document"
               (data ← raw; plugin_json nfc data 1048576);
  _ ← slot_if (negb (keys_within document ["version"; "bindings"] && keys_cover document ["version"; "bindings"])
               || negb (int_between 1 (vget_none document "version") 1)) "slot document must contain exactly version=1 and bindings";
  match vget_none document "bindings" with
  | VList rows =>
      _ ← slot_if (MAX_BINDINGS <? zlen rows) "bindings must be a list with at most 128 entries";
      st ← fold_res check_binding_row (BindingState [] [] []) rows;
      Ok (sort_bindings (validated st))
  | _ => raise SlotError "bindings must be a list with at most 128 entries"
  end.

(** What one provider did. *)
Record provider_result := Provider { pr_plugin : pystr; pr_outcome : result pydict }.

(** The body of the loop's [try]: the result and the payload after it. *)
Definition provider_call (nfc : pystr → pystr) (definition : slot) (slot : pystr) (m : manifest) (current : pydict) : result (pydict * pydict) :=
  result ← run m (mkdict [("protocol", txt "shadow6.slot.v1"); ("slot", VStr slot); ("level", VInt (level definition)); ("payload", VDict current)]%string);
  _ ← plugin_canonical nfc (VDict result);
  current ← (if bool_decide (mode definition = Pipeline) then
               match vget_none result "payload" with
               | VDict replacement => Ok replacement
               | _ => raise SlotError "pipeline provider omitted object payload"
               end
             else Ok current);
  _ ← slot_if (bool_decide (mode definition = AllMustPass) && negb (match vget_none result "allow" with VBool true => true | _ => false end))
        "provider did not explicitly allow";
  Ok (result, current).

Fixpoint providers (nfc : pystr → pystr) (definition : slot) (slot : pystr) (bindings : list binding) (current : pydict)
    (results : list provider_result) : result (pydict * list provider_result) :=
  match bindings with
  | [] => Ok (current, results)
  | b :: bindings =>
      m ← load (b_plugin b);
      _ ← slot_if (negb (signed_for slot m)) "provider lost its signed slot capability";
      match provider_call nfc definition slot m current with
      | Ok (result, current) =>
          let results := results ++ [Provider (plugin_id m) (Ok result)] in
          if bool_decide (mode definition = FirstSuccess) then Ok (current, results) else providers nfc definition slot bindings current results
      | Raise x =>
          _ ← slot_if (b_required b || bool_decide (mode definition = Pipeline) || bool_decide (mode definition = AllMustPass))
                "required slot provider failed";
          providers nfc definition slot bindings current (results ++ [Provider (plugin_id m) (Raise x)])
      end
  end.

Definition invoke (nfc : pystr → pystr) (slot : pyval) (payload : pyval) (raw_bindings : result bytes) (allow_privileged : bool)
    : result (pydict * list provider_result) :=
  '(slot, definition) ← match slot with
                        | VStr s => match dget SLOTS s with Some d => Ok (s, d) | None => raise SlotError "unknown slot" end
                        | _ => raise SlotError "unknown slot"
                        end;
  _ ← slot_if ((3 <=? level definition) && negb allow_privileged) "level 3/4 slot requires explicit privileged approval";
  payload ← match payload with VDict d => Ok d | _ => raise SlotError "slot payload must be an object" end;
  encoded ← reraise [PluginError] SlotError "payload" (plugin_canonical nfc (VDict payload));
  _ ← slot_if (60000 <? zlen encoded) "slot payload is too large";
  all ← load_bindings nfc raw_bindings;
  let bindings := List.filter (λ b, bool_decide (b_slot b = slot) && b_enabled b) all in
  '(current, results) ← providers nfc definition slot bindings payload [];
  _ ← slot_if (negb (bool_decide (bindings = [])) && bool_decide (mode definition = FirstSuccess)
               && negb (existsb (λ p, is_ok (pr_outcome p)) results)) "no slot provider succeeded";
  Ok (current, results).
End Slots.

(** * Slots: bindings in order, providers in their modes *)

(** ** The order of the providers *)
Lemma binding_leb_total a b : binding_leb a b = true ∨ binding_leb b a = true.
Proof.
  unfold binding_leb. destruct (decide (b_slot a = b_slot b)) as [E|E].
  - rewrite !bool_decide_true by congruence. destruct (Z.lt_total (b_priority a) (b_priority b)) as [H|[H|H]].
    + left. destruct (Z.ltb_spec (b_priority a) (b_priority b)); [done|lia].
    + rewrite H, Z.ltb_irrefl, Z.eqb_refl. cbn. apply str_leb_total.
    + right. destruct (Z.ltb_spec (b_priority b) (b_priority a)); [done|lia].
  - rewrite !bool_decide_false by congruence. apply str_leb_total.
Qed.

Definition in_order (l : list binding) : Prop := Sorted (λ a b, binding_leb a b = true) l.

Lemma insert_binding_perm b l : insert_binding b l ≡ₚ b :: l.
Proof. induction l as [|c l IH]; [done|]. cbn. destruct (binding_leb b c); [done|]. by rewrite IH, Permutation_swap. Qed.

Lemma insert_binding_sorted b l : in_order l → in_order (insert_binding b l).
Proof.
  unfold in_order. induction l as [|c l IH]; intros Hs; [repeat constructor|]. cbn. destruct (binding_leb b c) eqn:E; [by constructor; [|constructor]|].
  assert (binding_leb c b = true) as E' by (destruct (binding_leb_total b c); congruence).
  inversion Hs as [|? ? Hl Hh]; subst. specialize (IH Hl). constructor; [done|]. destruct l as [|x l]; cbn in *; [by constructor|].
  destruct (binding_leb b x); constructor; [done|]. by inversion Hh.
Qed.

Lemma sort_bindings_perm l : sort_bindings l ≡ₚ l.
Proof. induction l as [|b l IH]; [done|]. cbn. by rewrite insert_binding_perm, IH. Qed.

Lemma sort_bindings_sorted l : in_order (sort_bindings l).
Proof. induction l as [|b l IH]; [constructor|]. by apply insert_binding_sorted. Qed.

Lemma list_filter_perm {A} (p : A → bool) l k : l ≡ₚ k → List.filter p l ≡ₚ List.filter p k.
Proof.
  induction 1 as [|x l k _ IH|x y l|l k j _ IH1 _ IH2]; cbn; [done| | |by etransitivity].
  - destruct (p x); [by constructor|done].
  - destruct (p x), (p y); [constructor|done..].
Qed.

(** Among the bindings of one slot the priorities do not decrease. *)
Lemma slot_priorities s l :
  in_order l → Sorted (λ a b, b_priority a ≤ b_priority b) (List.filter (λ b, bool_decide (b_slot b = s) && b_enabled b) l).
Proof.
  assert (∀ a b c, binding_leb a b = true → binding_leb b c = true → binding_leb a c = true) as Htr.
  { intros a b c. unfold binding_leb. repeat case_bool_decide; try congruence.
    - intros [?|[? ?]%andb_true_iff]%orb_true_iff [?|[? ?]%andb_true_iff]%orb_true_iff; bool_simpl; apply orb_true_iff;
        first [left; apply Z.ltb_lt; lia|right; apply andb_true_iff; split; [apply Z.eqb_eq; lia|by eapply str_leb_trans]].
    - intros P1 P2. assert (b_slot a = b_slot b) by (apply str_leb_antisym; congruence). congruence.
    - apply str_leb_trans. }
  intros Hs. apply Sorted_StronglySorted in Hs; [|exact Htr]. apply StronglySorted_Sorted.
  induction Hs as [|b l Hl IH Hb]; [constructor|]. cbn. destruct (bool_decide (b_slot b = s) && b_enabled b) eqn:E; [|done].
  constructor; [done|]. rewrite Forall_forall in Hb |- *. intros c [Hc Hf]%list_elem_of_In%filter_In. specialize (Hb c (proj2 (list_elem_of_In _ _) Hc)).
  apply andb_true_iff in E as [E%bool_decide_eq_true _], Hf as [Ef%bool_decide_eq_true _]. unfold binding_leb in Hb.
  rewrite bool_decide_true in Hb by congruence. apply orb_true_iff in Hb as [Hb|[Hb _]%andb_true_iff]; bool_simpl; lia.
Qed.

Section Facts.
Context (load : pystr → result manifest) (run : manifest → pydict → result pydict) (nfc : pystr → pystr).

(** ** The accepted bindings *)
Definition bound (b : binding) : Prop := dmem SLOTS (b_slot b) = true ∧ ∃ m, load (b_plugin b) = Ok m ∧ signed_for (b_slot b) m = true.
Definition count_of (s : pystr) (l : list binding) : Z := zlen (List.filter (λ b, bool_decide (b_slot b = s) && b_enabled b) l).

Record bindings_ok (st : binding_state) : Prop := {
  bo_seen : seen st ≡ₚ (λ b, (b_slot b, b_plugin b)) <$> validated st;
  bo_nodup : NoDup (seen st);
  bo_counts s : default 0 (dget (counts st) s) = count_of s (validated st);
  bo_limit s d : dget SLOTS s = Some d → count_of s (validated st) ≤ max_providers d;
  bo_bound : Forall bound (validated st) }.

Lemma count_of_app s l b : count_of s (l ++ [b]) = count_of s l + (if bool_decide (b_slot b = s) && b_enabled b then 1 else 0).
Proof. unfold count_of. rewrite List.filter_app, zlen_app. cbn. by destruct (_ && _). Qed.

Lemma check_row_ok st v st' : bindings_ok st → check_binding_row load st v = Ok st' → bindings_ok st'.
Proof.
  intros Hst H. unfold check_binding_row, slot_if in H. step_in H b Hb. step_in H u Hd. apply raise_if_inv, bool_decide_eq_false in Hd.
  step_in H u1 Hc. apply raise_if_inv in Hc. step_in H m Hm. step_in H u2 Hs. apply raise_if_inv, negb_false_iff in Hs. injection H as <-.
  destruct (dget SLOTS (b_slot b)) as [d|] eqn:Ed; [|done]. apply Z.ltb_ge in Hc. rewrite (bo_counts _ Hst) in Hc.
  split; cbn [seen counts validated].
  - rewrite fmap_app, (bo_seen _ Hst). cbn. by rewrite Permutation_app_comm.
  - constructor; [done|apply (bo_nodup _ Hst)].
  - intros s. rewrite dget_dset, count_of_app, !(bo_counts _ Hst). case_bool_decide as E.
    + subst s. rewrite bool_decide_true by done. cbn [andb default]. by destruct (b_enabled b).
    + rewrite bool_decide_false, (bo_counts _ Hst) by congruence. cbn [andb]. lia.
  - intros s d' Hd'. rewrite count_of_app. case_bool_decide as E.
    + subst s. rewrite Ed in Hd'. injection Hd' as <-. cbn [andb]. destruct (b_enabled b); lia.
    + cbn [andb]. pose proof (bo_limit _ Hst s d' Hd'). lia.
  - apply Forall_app. split; [apply (bo_bound _ Hst)|]. constructor; [|constructor]. split; [unfold dmem; by rewrite Ed|]. by exists m.
Qed.

Lemma load_bindings_Ok raw l :
  load_bindings load nfc raw = Ok l →
  in_order l ∧ Forall bound l ∧ NoDup ((λ b, (b_slot b, b_plugin b)) <$> l) ∧ (∀ s d, dget SLOTS s = Some d → count_of s l ≤ max_providers d).
Proof.
  unfold load_bindings. intros H. step_in H doc Hdoc. step_in H u Hu. destruct (vget_none doc "bindings") as [| | | | |rows|]; try done.
  step_in H u1 Hl. step_in H st Hst. injection H as <-.
  assert (bindings_ok st) as Hok.
  { revert Hst. assert (bindings_ok (BindingState [] [] [])) as H0.
    { split; try done; [constructor|]. intros s d Hd. change (count_of s []) with 0.
      assert (Forall (λ x : pystr * slot, 0 ≤ max_providers x.2) SLOTS) as HF by (repeat constructor; cbn; lia).
      apply dget_elem_of in Hd. rewrite Forall_forall in HF. apply (HF _ Hd). }
    clear Hl. revert H0. generalize (BindingState [] [] []). induction rows as [|v rows IH]; intros st0 H0; [by intros [= <-]|].
    cbn [fold_res]. intros Hst. step_in Hst st1 H1. eapply IH; [|exact Hst]. by eapply check_row_ok. }
  pose proof (sort_bindings_perm (validated st)) as Hp. split_and!.
  - apply sort_bindings_sorted.
  - rewrite Hp. apply (bo_bound _ Hok).
  - rewrite Hp. rewrite <- (bo_seen _ Hok). apply (bo_nodup _ Hok).
  - intros s d Hd. assert (count_of s (sort_bindings (validated st)) = count_of s (validated st)) as ->.
    { unfold count_of, zlen. f_equal. by apply Permutation_length, list_filter_perm. }
    by apply (bo_limit _ Hok).
Qed.
(** ** The providers of an invocation *)
Definition served_by (s : pystr) (b : binding) (p : provider_result) : Prop :=
  ∃ m, load (b_plugin b) = Ok m ∧ signed_for s m = true ∧ pr_plugin p = plugin_id m ∧ (b_required b = true → is_ok (pr_outcome p) = true).

(** The result of a provider in its slot. *)
Definition passed (d : slot) (p : provider_result) : Prop :=
  match pr_outcome p with
  | Ok r => mode d = AllMustPass → vget_none r "allow" = VBool true
  | Raise _ => mode d ≠ AllMustPass ∧ mode d ≠ Pipeline
  end.

(** The payload after the providers: the last replacement of a pipeline. *)
Definition replaced (p : provider_result) (current : pydict) : pydict :=
  match pr_outcome p with Ok r => match vget_none r "payload" with VDict d => d | _ => current end | Raise _ => current end.

Lemma provider_call_Ok d s m current r current' :
  provider_call run nfc d s m current = Ok (r, current') →
  (mode d = AllMustPass → vget_none r "allow" = VBool true) ∧
  current' = if bool_decide (mode d = Pipeline) then replaced (Provider (plugin_id m) (Ok r)) current else current.
Proof.
  unfold provider_call, slot_if. intros H. step_in H res Hr. step_in H u Hu. step_in H cur Hc. step_in H u1 Ha. apply raise_if_inv in Ha.
  injection H as <- <-. split.
  - intros Em. rewrite bool_decide_true in Ha by done. apply negb_false_iff in Ha. destruct (vget_none res "allow") as [|[]| | | | |]; done.
  - unfold replaced. cbn [pr_outcome]. destruct (bool_decide (mode d = Pipeline)); [|congruence]. destruct (vget_none res "payload"); try done; by injection Hc.
Qed.

Definition run_through (d : slot) (results : list provider_result) (current : pydict) : pydict :=
  if bool_decide (mode d = Pipeline) then fold_left (λ cur p, replaced p cur) results current else current.

Lemma run_through_cons d p results current :
  run_through d (p :: results) current = run_through d results (if bool_decide (mode d = Pipeline) then replaced p current else current).
Proof. unfold run_through. by case_bool_decide. Qed.

Lemma providers_Ok d s bs current results out results' :
  providers load run nfc d s bs current results = Ok (out, results') →
  ∃ new, results' = results ++ new ∧ Forall2 (served_by s) (take (length new) bs) new ∧ Forall (passed d) new ∧ out = run_through d new current ∧
    (mode d ≠ FirstSuccess → length new = length bs) ∧
    (mode d = FirstSuccess → (∀ p, p ∈ removelast new → is_ok (pr_outcome p) = false) ∧
                             (length new = length bs ∨ ∃ p, last new = Some p ∧ is_ok (pr_outcome p) = true)).
Proof.
  revert current results. induction bs as [|b bs IH]; intros current results; cbn [providers]; unfold slot_if.
  - intros [= <- <-]. exists []. rewrite app_nil_r. split_and!; try done; [by unfold run_through; case_bool_decide|].
    intros _. split; [intros p Hp; by apply not_elem_of_nil in Hp|by left].
  - intros H. step_in H m Hm. step_in H u Hs. apply raise_if_inv, negb_false_iff in Hs.
    destruct (provider_call run nfc d s m current) as [[r cur]|x] eqn:Ec.
    + apply provider_call_Ok in Ec as [Ha ->]. set (p := Provider (plugin_id m) (Ok r)) in *.
      assert (served_by s b p) as Hsb by (by exists m). case_bool_decide as Ef.
      * injection H as <- <-. exists [p]. split_and!; try done.
        -- cbn [length take]. rewrite take_0. by repeat constructor.
        -- by repeat constructor.
        -- intros _. split; [intros q Hq; by apply not_elem_of_nil in Hq|]. right. by exists p.
      * destruct (IH _ _ H) as (new & -> & H1 & H2 & -> & H3 & _). exists (p :: new). rewrite <- app_assoc. split_and!; try done.
        -- by constructor.
        -- by constructor.
        -- by rewrite run_through_cons.
        -- intros Hn. cbn. by rewrite (H3 Hn).
    + step_in H u1 Hreq. apply raise_if_inv, orb_false_iff in Hreq as [[Hb Hp]%orb_false_iff Hall]. apply bool_decide_eq_false in Hp, Hall.
      set (p := Provider (plugin_id m) (Raise x)) in *. assert (served_by s b p) as Hsb by (exists m; split_and!; try done; congruence).
      destruct (IH _ _ H) as (new & -> & H1 & H2 & -> & H3 & H4). exists (p :: new). rewrite <- app_assoc. split_and!; try done.
      * by constructor.
      * by constructor.
      * intros Hn. cbn. by rewrite (H3 Hn).
      * intros Hn. destruct (H4 Hn) as [H5 H6]. split.
        -- destruct new as [|q new]; [intros q Hq; by apply not_elem_of_nil in Hq|]. intros q' [->|Hq]%elem_of_cons; [done|]. by apply H5.
        -- destruct H6 as [H6|(q & Hq & Hok)]; [left; cbn; by rewrite H6|right]. exists q. split; [|done]. by destruct new.
Qed.
End Facts.
