(* ===== verification/PluginClaims.v ===== *)
(** * Plugins and slots: what they promise *)
From S2P Require Import Prelude Dict PyStr PyText PyValue Json JsonRound JsonDocs StrictJson Sha256 Signing Net Plugins Slots.
#[local] Existing Instance toy_signing.
#[local] Existing Instance toy_signing_laws.

(** ** Loading *)

(** C20: A plugin that loads is the one that a trusted signer signed: the code has
    the digest in the manifest, the signature over the canonical manifest without
    its signature verifies under the signer's key in the trust store, and the
    capabilities are those of the manifest, known, granted, and cover the hooks. *)
Theorem plugin_load_sound nfc {Sg : Signing} r id raw read_entry m :
  load_manifest nfc r id raw read_entry = Ok m →
  ∃ data doc key hex sig, raw = Ok data ∧ plugin_json nfc data 65536 = Ok doc ∧
    plugin_id m = id ∧ read_entry (entrypoint m) = Ok (code m) ∧ vget_none doc "sha256" = VStr (sha256_hex (code m)) ∧
    vget_none doc "signer" = VStr (signer m) ∧ dget (trusted_signers r) (signer m) = Some key ∧
    vget_none doc "signature" = VStr hex ∧ fromhex hex = Some sig ∧
    verify_sig key sig (dumps_canonical (VDict (ddel doc (str "signature")))) = true ∧
    vget_none doc "capabilities" = VList (VStr <$> capabilities m) ∧
    (∀ c, c ∈ capabilities m → c ∈ known_capabilities ∧ c ∈ granted_capabilities r) ∧ (∀ h, h ∈ hooks m → h ∈ capabilities m).
Proof.
  intros (data & doc & Hr & Hd & C)%load_manifest_Ok. destruct (mc_signed _ _ _ _ _ _ C) as (payload & key & hex & sig & H1 & H2 & H3 & H4 & H5 & H6 & H7 & H8).
  apply plugin_canonical_Ok in H7 as (-> & _ & _). destruct (mc_described _ _ _ _ _ _ C) as [_ (_ & _ & Hi) _ _ (_ & _ & He) Hc Hh _ _].
  apply plugin_capabilities_Ok in Hc as (Hl & _ & _ & _ & Hk & Hg). apply check_hooks_Ok in Hh as (_ & _ & _ & _ & Hh).
  pose proof (mc_digest _ _ _ _ _ _ C).
  exists data, doc, key, hex, sig. split_and!; try done. intros c Hc. auto.
Qed.

(** What the signing tool signs is loaded: when a document that describes a
    plugin is signed with the key of a trusted signer and read back, the registry
    returns that plugin with exactly the code that was signed. *)
Theorem signed_plugin_loads nfc {Sg : Signing} {Laws : SigningLaws} r id key document read_entry m data :
  let signed := sign_document key (signer m) (code m) document in
  described r id read_entry document m → ID_RE (signer m) = true → dget (trusted_signers r) (signer m) = Some (public_key key) →
  keys_within signed manifest_fields && keys_cover signed manifest_fields = true → is_ok (_signed_payload nfc signed) = true →
  plugin_json nfc data 65536 = Ok signed → load_manifest nfc r id (Ok data) read_entry = Ok m.
Proof.
  cbv zeta. intros D Hid Hk Hf Hp Hj. destruct (_signed_payload nfc _) as [payload|] eqn:Ep; [|done].
  destruct (sign_document_signed nfc r key (signer m) (code m) document payload Hid Hk Ep) as [Hd Hs].
  apply load_manifest_Ok. exists data, (sign_document key (signer m) (code m) document). split_and!; [done|done|].
  split; [done| |done|by exists payload]. destruct D. split; by rewrite ?sign_lookup.
Qed.

Definition demo_code : bytes := str "print(1)".
Definition demo_signer : pystr := str "release".
Definition demo_key : bytes := replicate 32 7.
Definition demo_registry : registry := Registry [(demo_signer, public_key demo_key)] known_capabilities.
Definition demo_document : pydict := mkdict
  [("schema_version", VInt 1); ("id", txt "chat-filter"); ("name", txt "Filter"); ("version", txt "1.0.2-rc.1"); ("runtime", txt "python3");
   ("entrypoint", txt "main.py"); ("capabilities", VList [txt "slot.chat.filter"; txt "game.local"]); ("hooks", VList [txt "slot.chat.filter"]);
   ("timeout_seconds", VInt 3); ("max_output_bytes", VInt 4096)]%string.
Definition demo_manifest : manifest :=
  Manifest (str "chat-filter") (str "Filter") (str "1.0.2-rc.1") (str "main.py") [str "slot.chat.filter"; str "game.local"]
    [str "slot.chat.filter"] 3 4096 demo_signer demo_code.
Definition demo_raw := Eval vm_compute in dumps compact_opts (VDict (sign_document demo_key demo_signer demo_code demo_document)).
Definition demo_read (name : pystr) : result bytes := if bool_decide (name = str "main.py") then Ok demo_code else raise FileNotFoundError "entry".

Lemma demo_described : described demo_registry (str "chat-filter") demo_read demo_document demo_manifest.
Proof. split; vm_compute; by repeat split. Qed.

Lemma plugin_load_sound_witness :
  ∃ data doc key hex sig, plugin_json id data 65536 = Ok doc ∧ dget (trusted_signers demo_registry) demo_signer = Some key ∧ fromhex hex = Some sig ∧
    verify_sig key sig (dumps_canonical (VDict (ddel doc (str "signature")))) = true.
Proof.
  destruct (plugin_load_sound id demo_registry (str "chat-filter") (Ok demo_raw) demo_read demo_manifest)
    as (data & doc & key & hex & sig & _ & H1 & _ & _ & _ & _ & H2 & _ & H3 & H4 & _); [vm_compute; reflexivity|].
  exact (ex_intro _ data (ex_intro _ doc (ex_intro _ key (ex_intro _ hex (ex_intro _ sig (conj H1 (conj H2 (conj H3 H4)))))))).
Defined.

(** ** Running and calling *)

(** C23: A plugin process is confined: whatever the request, the only input it can
    be given is one that declares capabilities of the signed manifest, and in a
    session only capabilities of the session's grant - two processes that behave
    alike on those inputs cannot be told apart. *)
Theorem plugin_confined nfc execute execute' m s request :
  (∀ input, confined (capabilities m) input → execute (code m) input = execute' (code m) input) →
  run_plugin nfc execute m request = run_plugin nfc execute' m request ∧
  ((∀ input, confined (rpc_capabilities s) input → execute (code (rpc_manifest s)) input = execute' (code (rpc_manifest s)) input) →
   dispatch nfc execute request s = dispatch nfc execute' request s).
Proof.
  intros He. split; [apply run_plugin_confined; intros input Hi _; by apply He|]. intros Hs. unfold dispatch.
  destruct (dispatch_begin request s) as [[id|x] s1] eqn:E; unfold mbind, M_bind; rewrite E; [|done]. cbn.
  apply dispatch_begin_Ok in E as (_ & _ & _ & ->). f_equal. f_equal. unfold dispatch_call, plugin_if. cbn [rpc_manifest rpc_capabilities].
  destruct (str_where _ _ _) as [method|]; [|done]. cbn [mbind result_bind].
  destruct (vget_or request "capabilities" _) as [| | | | |l|]; try done. destruct (negb (forallb hashable l)); [done|]. cbn [raise_if mbind result_bind].
  destruct (negb (distinct l)); [done|]. cbn [raise_if mbind result_bind]. destruct (forallb _ l) eqn:Ec; [|done]. cbn [negb raise_if mbind result_bind].
  destruct (vget_or request "params" _); try done. apply run_plugin_confined. intros input _ Hc. apply Hs.
  apply (strings_of_all (λ c, bool_decide (c ∈ rpc_capabilities s))) in Ec as [El Hl]. doc_lookup.
  destruct (Hc (strings_of l)) as (d0 & k & Hd & Hk & Hsub & Hz); [by rewrite <- El|]. exists d0, k. split_and!; try done.
  intros c Hin%Hsub. rewrite Forall_forall in Hl. specialize (Hl c Hin). by apply bool_decide_eq_true in Hl.
Qed.

(** Two processes that differ only on an empty input. *)
Definition slow (_ input : bytes) : result (Z * bytes * bytes) := raise PluginError "timeout".
Definition quick (_ input : bytes) : result (Z * bytes * bytes) := match input with [] => Ok (0, str "{}", []) | _ => raise PluginError "timeout" end.

Lemma plugin_confined_witness :
  run_plugin id slow demo_manifest (mkdict [("action", txt "new")]%string) = run_plugin id quick demo_manifest (mkdict [("action", txt "new")]%string).
Proof.
  apply (plugin_confined id slow quick demo_manifest (Rpc demo_manifest [] 0 false 0)).
  intros input (d & l & -> & _). unfold slow, quick. by destruct (dumps_canonical (VDict d)).
Defined.

(** The calls of a session by several threads: a call begins and ends under the
    lock, in any interleaving.  [running] are the identifiers of the calls that
    have begun and not ended, [accepted] those of all calls in their order. *)
Record rpc_state := RpcState { rs_session : rpc_session; running : list Z; accepted : list Z }.

Inductive rpc_step : rpc_state → rpc_state → Prop :=
| rpc_begin s run acc request id s' :
    dispatch_begin request s = (Ok id, s') → rpc_step (RpcState s run acc) (RpcState s' (id :: run) (acc ++ [id]))
| rpc_refused s run acc request x s' :
    dispatch_begin request s = (Raise x, s') → rpc_step (RpcState s run acc) (RpcState s' run acc)
| rpc_end s run1 id run2 acc s' :
    dispatch_end s = (Ok tt, s') → rpc_step (RpcState s (run1 ++ id :: run2) acc) (RpcState s' (run1 ++ run2) acc)
| rpc_stop s run acc s' :
    rpc_close s = (Ok tt, s') → rpc_step (RpcState s run acc) (RpcState s' run acc).

Definition rpc_inv (m : manifest) (caps : list pystr) (t : rpc_state) : Prop :=
  rpc_manifest (rs_session t) = m ∧ rpc_capabilities (rs_session t) = caps ∧
  active (rs_session t) = zlen (running t) ∧ zlen (running t) ≤ MAX_IN_FLIGHT ∧ StronglySorted Z.lt (accepted t) ∧
  Forall (λ id, id ≤ last_id (rs_session t)) (accepted t).

Lemma sorted_snoc l x : StronglySorted Z.lt l → Forall (λ y, y < x) l → StronglySorted Z.lt (l ++ [x]).
Proof.
  induction 1 as [|y l Hl IH Hy]; intros HF; [repeat constructor|]. apply Forall_cons in HF as [Hyx HF]. cbn. constructor; [by apply IH|].
  apply Forall_app. split; [done|by repeat constructor].
Qed.

Lemma rpc_step_inv m caps t t' : rpc_inv m caps t → rpc_step t t' → rpc_inv m caps t'.
Proof.
  intros (Hm & Hc & Ha & Hl & Hs & HF) H. destruct H as [s run acc q id s' H|s run acc q x s' H|s run1 id run2 acc s' H|s run acc s' H]; unfold rpc_inv; cbn in *.
  - apply dispatch_begin_Ok in H as (_ & Hid & Hact & ->). cbn. rewrite zlen_cons. split_and!; try done; try lia.
    + apply sorted_snoc; [done|]. eapply Forall_impl; [exact HF|]. intros y Hy. cbn in Hy. lia.
    + apply Forall_app. split; [eapply Forall_impl; [exact HF|]; intros y Hy; cbn in Hy; lia|by repeat constructor].
  - apply dispatch_begin_fail in H as (-> & -> & _ & -> & Hle). split_and!; try done. eapply Forall_impl; [exact HF|]. intros y Hy. cbn in Hy. lia.
  - injection H as <-. cbn. rewrite zlen_app, zlen_cons in Ha, Hl. rewrite zlen_app. split_and!; try done; lia.
  - injection H as <-. by split_and!.
Qed.

(** C22: In every interleaving of the calls of a session the accepted identifiers
    strictly increase, so no request is replayed; the session counts the running
    calls exactly and never runs more than sixteen; its grant stays within the
    signed manifest. *)
Theorem rpc_no_replay m caps s t :
  make_rpc m caps = Ok s → rtc rpc_step (RpcState s [] []) t →
  StronglySorted Z.lt (accepted t) ∧ active (rs_session t) = zlen (running t) ∧ zlen (running t) ≤ MAX_IN_FLIGHT ∧
  (∀ c, c ∈ rpc_capabilities (rs_session t) → c ∈ capabilities m).
Proof.
  unfold make_rpc, plugin_if. intros H Hr. step_in H u Hs. apply raise_if_inv, negb_false_iff in Hs. injection H as <-.
  assert (rpc_inv m (default (capabilities m) caps) t) as (Hm & Hc & Ha & Hl & Hsort & _).
  { assert (rpc_inv m (default (capabilities m) caps) (RpcState (Rpc m (default (capabilities m) caps) 0 false 0) [] [])) as H0
      by (split_and!; try done; constructor).
    revert H0. induction Hr as [|t1 t2 t3 H1 _ IH]; [done|]. intros H0. apply IH. by eapply rpc_step_inv. }
  split_and!; try done. rewrite Hc. by apply subset_spec.
Qed.

Definition demo_call (n : Z) : pydict := mkdict [("id", VInt n); ("method", txt "plugin.invoke")]%string.
Lemma demo_calls :
  rtc rpc_step (RpcState (Rpc demo_manifest [str "game.local"] 0 false 0) [] [])
    (RpcState (Rpc demo_manifest [str "game.local"] 9 false 1) [9] [4; 9]).
Proof.
  eapply rtc_l; [eapply (rpc_begin _ _ _ (demo_call 4)); vm_compute; reflexivity|].
  eapply rtc_l; [eapply (rpc_refused _ _ _ (demo_call 4)); vm_compute; reflexivity|].
  eapply rtc_l; [eapply (rpc_begin _ _ _ (demo_call 9)); vm_compute; reflexivity|].
  eapply rtc_l; [eapply (rpc_end _ [9] 4 []); vm_compute; reflexivity|]. apply rtc_refl.
Qed.

Lemma rpc_no_replay_witness : StronglySorted Z.lt [4; 9].
Proof.
  exact (proj1 (rpc_no_replay demo_manifest (Some [str "game.local"]) _ (RpcState (Rpc demo_manifest [str "game.local"] 9 false 1) [9] [4; 9])
                  ltac:(vm_compute; reflexivity) demo_calls)).
Defined.

(** ** Slots *)


Definition demo_bindings : bytes := str "{'version':1,'bindings':[{'slot':'slot.chat.filter','plugin':'chat-filter','priority':5,'required':true,'enabled':true}]}".
Definition demo_bindings_raw : bytes := (λ c, if c =? 39 then 34 else c) <$> demo_bindings.
Definition demo_load (name : pystr) : result manifest := if bool_decide (name = str "chat-filter") then Ok demo_manifest else raise PluginError "missing".
Definition demo_run (_ : manifest) (request : pydict) : result pydict := Ok (mkdict [("payload", VDict (mkdict [("text", txt "clean")]))]%string).

