(* ===== verification/CapsuleBoundary.v ===== *)
(** * Capability capsules: registry, boundaries and readiness

    The documents of [Control-Center/capability_capsule.py]: the registry of
    Cores, the application boundaries a Core declares, the choice among them and
    the events by which a Core or the application-flow proxy announces itself.
    What the file system and the processes return are arguments. *)
From S2P Require Import Prelude Dict PyStr PyText PyValue Json StrictJson.

Definition MAX_REGISTRY : Z := 65536.
Definition MAX_FEATURE_REPORT : Z := 65536.
Definition MAX_RECORD : Z := 1172.
Definition _NAME (s : pystr) : bool := re_head (λ c, is_lower c || is_digit c) (λ c, is_lower c || is_digit c || (c =? 45)) 0 63 s.

(** What [lstat] and [fstat] return. *)
Record stat := Stat { st_regular : bool; st_uid : Z; st_mode : Z; st_size : Z; st_ino : Z; st_dev : Z; st_nlink : Z }.

(** An owner-only regular file within a size limit. *)
Definition unsafe_file (euid limit : Z) (s : stat) : bool :=
  negb (st_regular s) || negb (st_uid s =? euid) || negb (Z.land (st_mode s) 63 =? 0) || (limit <? st_size s).
Definition changed_file (before after : stat) : bool := negb (st_ino after =? st_ino before) || negb (st_dev after =? st_dev before).

(** A file as it is found by its name, opened and read. *)
Record file_view (A : Type) := FileView { fv_found : option stat; fv_symlink : bool; fv_opened : result stat; fv_content : result A }.
Arguments FileView {A} _ _ _ _.
Arguments fv_found {A} _.
Arguments fv_symlink {A} _.
Arguments fv_opened {A} _.
Arguments fv_content {A} _.

(** An entry of the registry. *)
Record capsule_spec := CapsuleSpec { cs_binary : pystr; cs_max_record : Z }.

Definition registry_entry (row : pystr * pyval) : result (pystr * capsule_spec) :=
  match row.2 with
  | VDict spec =>
      _ ← raise_if (negb (_NAME row.1) || negb (keys_within spec ["binary"; "max_record"])) ValueError "invalid capsule entry";
      match vget_none spec "binary", vget_or spec "max_record" (VInt MAX_RECORD) with
      | VStr (c :: binary), VInt maximum =>
          _ ← raise_if (negb (between 1 maximum MAX_RECORD)) ValueError "invalid capsule limits";
          Ok (row.1, CapsuleSpec (c :: binary) maximum)
      | VStr (_ :: _), _ => raise ValueError "invalid capsule limits"
      | _, _ => raise ValueError "invalid capsule entry"
      end
  | _ => raise ValueError "invalid capsule entry"
  end.

Section Documents.
Context (nfc : pystr → pystr).

Definition _strict_json (data : json_input) : result pyval := strict_json nfc MAX_FEATURE_REPORT STRING_LIMIT data.

Definition capsule_registry (euid : Z) (f : file_view pystr) : result (list (pystr * capsule_spec)) :=
  match fv_found f with
  | None => Ok []
  | Some metadata =>
      _ ← raise_if (unsafe_file euid MAX_REGISTRY metadata || fv_symlink f) PermissionError "unsafe capsule registry";
      opened ← fv_opened f;
      _ ← raise_if (unsafe_file euid MAX_REGISTRY opened || changed_file metadata opened) PermissionError
            "capsule registry changed while opening";
      raw ← fv_content f;
      size ← match utf8 raw with Some b => Ok (zlen b) | None => raise UnicodeError "surrogates not allowed" end;
      _ ← raise_if (MAX_REGISTRY <? size) ValueError "capsule registry is oversized";
      data ← _strict_json (JText raw);
      match data with
      | VDict d => _ ← raise_if (32 <? zlen d) ValueError "invalid capsule registry"; map_res registry_entry d
      | _ => raise ValueError "invalid capsule registry"
      end
  end.

(** [_safe_config]: [resolved] is the path after resolution; the file is opened
    only to compare it with the one that was found. *)
Definition _safe_config (euid : Z) (f : file_view pystr) : result pystr :=
  match fv_found f with
  | None => raise FileNotFoundError "client config"
  | Some metadata =>
      _ ← raise_if (unsafe_file euid 1048576 metadata || fv_symlink f || negb (st_nlink metadata =? 1)) PermissionError
            "client config must be a bounded owner-only regular file";
      resolved ← fv_content f;
      opened ← fv_opened f;
      _ ← raise_if (unsafe_file euid 1048576 opened || changed_file metadata opened || negb (st_nlink opened =? 1)) PermissionError
            "client config changed while opening";
      Ok resolved
  end.

(** ** Boundaries *)
Definition has_client (roles : list pyval) : bool := existsb (λ r, eq_str r "client") roles.

(** The datagram boundary, which only one Core offers. *)
Definition datagram_boundary (core : pystr) (b : pydict) : bool :=
  bool_decide (core = str "shadow6-gleam") && eq_str (vget_none b "kind") "message"
  && py_eqb (vget_none b "roles") (txts ["client"]) && is_true (vget_none b "message_preserving") && is_false (vget_none b "ordered")
  && is_false (vget_none b "reliable") && eq_str (vget_none b "delivery") "best-effort"
  && py_eqb (vget_none b "max_record") (VInt 65465) && eq_str (vget_none b "listener_ownership") "core"
  && eq_str (vget_none b "endpoint_discovery") "stdout-ready-jsonl-v1" && eq_str (vget_none b "listener_ready") "bound-and-listening".

(** Whether a declared boundary is appended to [choices]. *)
Definition client_choice (core : pystr) (boundary : pyval) : option pydict :=
  match boundary with
  | VDict b =>
      match vget_none b "roles" with
      | VList roles =>
          let mode := vget_none b "mode" in
          if negb (has_client roles) then None
          else if eq_str mode "seqpacket-fd" then
            if int_between 1 (vget_none b "max_record") MAX_RECORD then Some b else None
          else if eq_str mode "localhost-tcp-proxy" && eq_str (vget_none b "listener_ownership") "core" then
            if eq_str (vget_none b "endpoint_discovery") "stdout-ready-jsonl-v1" then Some b else None
          else if eq_str mode "localhost-udp-datagram-proxy" && datagram_boundary core b then Some b
          else None
      | _ => None
      end
  | _ => None
  end.

(** [ran] is the exit code and the output of [--feature-report]; [None]: it could
    not be run in time. *)
Definition _client_application_boundaries (ran : option (Z * bytes)) : result (list pydict) :=
  match ran with
  | None => raise ValueError "Core feature report unavailable"
  | Some (code, out) =>
      _ ← raise_if (negb (code =? 0) || (MAX_FEATURE_REPORT <? zlen out)) ValueError "Core feature report unavailable or oversized";
      report ← reraise [UnicodeError; JSONDecodeError] ValueError "Core feature report is invalid" (_strict_json (JBytes out));
      match report with
      | VDict r =>
          match vget_none r "application_boundaries", vget_none r "core" with
          | VList boundaries, VStr core =>
              _ ← raise_if (8 <? zlen boundaries) ValueError "Core does not declare application boundaries";
              let choices := omap (client_choice core) boundaries in
              _ ← raise_if (bool_decide (choices = [])) ValueError "Core declares no supported client application boundary";
              Ok ((λ c, vset c "core" (VStr core)) <$> choices)
          | _, _ => raise ValueError "Core does not declare application boundaries"
          end
      | _ => raise ValueError "Core does not declare application boundaries"
      end
  end.

Definition mode_of (b : pydict) : pyval := vget_none b "mode".

Definition _client_application_boundary (ran : option (Z * bytes)) (mode : pyval) : result pydict :=
  choices ← _client_application_boundaries ran;
  let selected :=
    if is_none mode then
      match List.find (λ b, eq_str (mode_of b) "localhost-tcp-proxy") choices with Some b => Some b | None => head choices end
    else List.find (λ b, py_eqb (mode_of b) mode) choices in
  match selected with
  | None => raise ValueError "requested application boundary is not declared by Core"
  | Some b => Ok b
  end.

(** ** Registered Cores with a client boundary

    [exe] resolves the executable of an entry, [report] runs it. *)
Section Candidates.
Context (exe : pystr → result pystr) (report : pystr → option (Z * bytes)).

Definition candidate_errors : list exn_class := [OSError; ValueError; TimeoutError].

Definition candidate_row (name : pystr) (b : pydict) : pyval := VDict (mkdict
  [("core", VStr name); ("identity", vget_none b "core"); ("boundary", VDict b)]).

Definition candidate_step (available : list pyval) (row : pystr * capsule_spec) : result (list pyval) :=
  match (binary ← exe (cs_binary row.2); _client_application_boundaries (report binary)) with
  | Raise e => if existsb (isa (exn_cls e)) candidate_errors then Ok available else Raise e
  | Ok boundaries =>
      let available := available ++ (candidate_row row.1 <$> boundaries) in
      _ ← raise_if (64 <? zlen available) ValueError "capsule candidate catalog exceeds its bound";
      Ok available
  end.

Definition candidates (euid : Z) (f : file_view pystr) : result pydict :=
  registered ← capsule_registry euid f;
  available ← fold_res candidate_step [] registered;
  Ok (mkdict [("schema", txt "shadow6.capability-capsule-candidates.v1"); ("candidates", VList available)]).
End Candidates.

(** ** Readiness *)

(** A line as [readline] returns it within the bound. *)
Definition whole_line (limit : Z) (line : bytes) : bool := (zlen line <=? limit) && bool_decide (last line = Some 10).

(** The event of a Core that owns its listener: [None] is a timeout, [Some None]
    the end of its output. *)
Definition boundary_event (expected_core : pyval) (mode : pyval) (first_line : option (option bytes)) : result (pystr * Z) :=
  match first_line with
  | None => raise TimeoutError "Core readiness event timed out"
  | Some None => raise ValueError "Core readiness event is missing or oversized"
  | Some (Some line) =>
      _ ← raise_if (negb (whole_line MAX_FEATURE_REPORT line)) ValueError "Core readiness event is missing or oversized";
      event ← reraise [UnicodeError; JSONDecodeError] ValueError "Core readiness event is invalid" (_strict_json (JBytes line));
      let expected_kind := if eq_str mode "localhost-tcp-proxy" then "stream" else "message" in
      match event with
      | VDict e =>
          _ ← raise_if (negb (eq_str (vget_none e "event") "shadow6.ready") || negb (int_between 1 (vget_none e "schema") 1)
                        || negb (py_eqb (vget_none e "core") expected_core) || negb (eq_str (vget_none e "role") "client")) ValueError
                "Core readiness event does not match its feature report";
          match vget_none e "application_boundary" with
          | VDict b =>
              _ ← raise_if (negb (eq_str (vget_none b "kind") expected_kind) || negb (py_eqb (vget_none b "mode") mode)) ValueError
                    "Core readiness endpoint is invalid";
              match vget_none b "endpoint" with
              | VDict endpoint =>
                  loopback ← in_set (vget_none endpoint "host") ["127.0.0.1"; "::1"];
                  match loopback, vget_none endpoint "host", vget_none endpoint "port" with
                  | true, VStr host, VInt port =>
                      _ ← raise_if (negb (between 1 port 65535)) ValueError "Core readiness endpoint is invalid";
                      Ok (host, port)
                  | _, _, _ => raise ValueError "Core readiness endpoint is invalid"
                  end
              | _ => raise ValueError "Core readiness endpoint is invalid"
              end
          | _ => raise ValueError "Core readiness endpoint is invalid"
          end
      | _ => raise ValueError "Core readiness event does not match its feature report"
      end
  end.

(** The event of the application-flow proxy: [None] is a timeout. *)
Definition proxy_event (protocol host port : pyval) (line : option bytes) : result unit :=
  match line with
  | None => raise TimeoutError "application-flow proxy readiness timed out"
  | Some line =>
      _ ← raise_if (negb (whole_line 4096 line)) ValueError "application-flow proxy readiness event is invalid";
      event ← reraise [UnicodeError; JSONDecodeError] ValueError "application-flow proxy readiness JSON is invalid" (_strict_json (JBytes line));
      match event with
      | VDict e =>
          raise_if (negb (eq_str (vget_none e "event") "shadow6.app-flow-proxy.ready") || negb (int_between 1 (vget_none e "schema") 1)
                    || negb (py_eqb (vget_none e "protocol") protocol) || negb (py_eqb (vget_none e "host") host)
                    || negb (py_eqb (vget_none e "port") port)) ValueError
            "application-flow proxy readiness event does not match request"
      | _ => raise ValueError "application-flow proxy readiness event does not match request"
      end
  end.
End Documents.
