(* ===== verification/Capsules.v ===== *)
(** * Capability capsules: processes and the table

    [Control-Center/capability_capsule.py]: a capsule is one or two process
    groups behind a random token, with a lifetime.  The operating system is the
    interface [Kernel]; a process is identified by its [Popen] object.  A capsule
    is an object of a heap, so that a thread may still hold one that has left the
    table.  What runs under one lock is one definition ([find_capsule], [pop],
    [close], [pause_section], ...), so that the threads can be interleaved
    between them.  Clock readings, tokens and what is read from files and pipes
    are arguments. *)
From Stdlib Require Import QArith Qround.
From S2P Require Import Prelude Dict PyStr PyText PyValue Json StrictJson CapsuleBoundary.
#[local] Open Scope Z_scope.

Inductive signal := SIGTERM | SIGCONT | SIGSTOP | SIGKILL.
#[global] Instance signal_eq_dec : EqDecision signal.
Proof. solve_decision. Defined.

(** A [Popen] object: its pid, and whether its output is a pipe. *)
Record process := Process { p_pid : Z; p_stdout : bool }.
#[global] Instance process_eq_dec : EqDecision process.
Proof. solve_decision. Defined.

(** What the capsules use of the operating system.  [k_poll]: [poll() is None];
    [k_wait]: [wait(timeout=1)] returns in time. *)
Class Kernel (K : Type) := {
  k_spawn : M K Z;
  k_poll : Z → K → bool * K;
  k_wait : Z → K → bool * K;
  k_killpg : Z → signal → M K unit;
  k_close_stdout : Z → K → K }.

Record capsule := Capsule {
  c_token : pystr; c_core : pystr; c_processes : list process; c_created : Q; c_ttl : Z;
  c_mode : pyval; c_endpoint : option (pystr * Z); c_paused : bool; c_closed : bool }.

Definition mark_closed (c : capsule) : capsule :=
  Capsule (c_token c) (c_core c) (c_processes c) (c_created c) (c_ttl c) (c_mode c) (c_endpoint c) (c_paused c) true.
Definition mark_paused (b : bool) (c : capsule) : capsule :=
  Capsule (c_token c) (c_core c) (c_processes c) (c_created c) (c_ttl c) (c_mode c) (c_endpoint c) b (c_closed c).

(** The descriptors that [start] opens for the proxy. *)
Inductive descriptor := Producer | Consumer | ReadyRead | ReadyWrite.
#[global] Instance descriptor_eq_dec : EqDecision descriptor.
Proof. solve_decision. Defined.

Record world (K : Type) := World { w_heap : list capsule; w_table : list (pystr * nat); w_fds : list descriptor; w_kernel : K }.
Arguments World {K} _ _ _ _.
Arguments w_heap {K} _.
Arguments w_table {K} _.
Arguments w_fds {K} _.
Arguments w_kernel {K} _.

Section Capsules.
Context {K : Type} `{!Kernel K}.
Implicit Types (w : world K) (k : K) (r : nat) (c : capsule).

Definition set_table (d : list (pystr * nat)) w : world K := World (w_heap w) d (w_fds w) (w_kernel w).
Definition set_fds (l : list descriptor) w : world K := World (w_heap w) (w_table w) l (w_kernel w).
Definition set_capsule r c w : world K := World (<[r := c]> (w_heap w)) (w_table w) (w_fds w) (w_kernel w).
Definition kernel {A} (f : M K A) : M (world K) A := λ w,
  let '(a, k) := f (w_kernel w) in (a, World (w_heap w) (w_table w) (w_fds w) k).
Definition ask {A} (f : K → A * K) : M K A := λ k, let '(a, k') := f k in (Ok a, k').

(** ** Processes *)

(** [try: os.killpg(...) except ProcessLookupError: pass]. *)
Definition killpg_if_exists (p : process) (s : signal) : M K unit := λ k,
  match k_killpg (p_pid p) s k with
  | (Raise e, k') => (if isa (exn_cls e) ProcessLookupError then Ok tt else Raise e, k')
  | ok => ok
  end.

Definition terminate (p : process) : M K unit :=
  running ← ask (k_poll (p_pid p));
  if running : bool then _ ← killpg_if_exists p SIGTERM; killpg_if_exists p SIGCONT else mret tt.

(** Wait for the end, by force if it does not come. *)
Definition wait_or_kill (p : process) : M K unit :=
  ended ← ask (k_wait (p_pid p));
  if ended : bool then mret tt else _ ← killpg_if_exists p SIGKILL; _ ← ask (k_wait (p_pid p)); mret tt.

Definition finish (p : process) : M K unit :=
  _ ← wait_or_kill p;
  if p_stdout p then mmod (k_close_stdout (p_pid p)) else mret tt.

Fixpoint each (f : process → M K unit) (l : list process) : M K unit :=
  match l with [] => mret tt | p :: l => _ ← f p; each f l end.

(** The processes of [Capsule.close]. *)
Definition close_processes (l : list process) : M K unit := _ ← each terminate l; each finish l.

(** Signal every running process; if that fails, undo it for those already done. *)
Fixpoint toggle (s undo : signal) (l done : list process) : M K unit :=
  match l with
  | [] => mret tt
  | p :: l =>
      running ← ask (k_poll (p_pid p));
      if running : bool then
        (λ k, match k_killpg (p_pid p) s k with
              | (Ok _, k') => toggle s undo l (done ++ [p]) k'
              | (Raise e, k') => (_ ← each (λ q, killpg_if_exists q undo) done; mlift (Raise e)) k'
              end) : M K unit
      else toggle s undo l done
  end.

(** ** Capsules and the table *)

(** A capsule that the heap holds; the code's references are never dangling. *)
Definition deref r : M (world K) capsule := λ w,
  match w_heap w !! r with Some c => (Ok c, w) | None => (raise RuntimeError "dangling reference", w) end.

Definition close r : M (world K) unit :=
  c ← deref r;
  if c_closed c then mret tt
  else _ ← mmod (set_capsule r (mark_closed c)); kernel (close_processes (c_processes c)).

Definition deadline c : Q := (c_created c + inject_Z (c_ttl c))%Q.
Definition expired (now : Q) c : bool := Qle_bool (deadline c) now.
Definition expired_ref (now : Q) w r : bool := match w_heap w !! r with Some c => expired now c | None => false end.

Definition pop (token : pystr) : M (world K) unit := mmod (λ w, set_table (ddel (w_table w) token) w).

(** The section of [_reap_expired] under the lock: the capsules to be closed. *)
Definition pop_expired (now : Q) : M (world K) (list nat) := λ w,
  let gone := List.filter (λ e, expired_ref now w e.2) (w_table w) in
  (Ok gone.*2, set_table (fold_left (λ d e, ddel d e.1) gone (w_table w)) w).

Fixpoint close_each (l : list nat) : M (world K) unit :=
  match l with [] => mret tt | r :: l => _ ← close r; close_each l end.

Definition _reap_expired (now : Q) : M (world K) Z := l ← pop_expired now; _ ← close_each l; mret (zlen l).

(** How long the reaper waits: until the next deadline, or for a wake-up. *)
Definition reaper_delay (now : Q) w : option Q :=
  let deadlines := omap (λ e, deadline <$> w_heap w !! e.2) (w_table w) in
  match deadlines with
  | [] => None
  | d :: l => let m := fold_left (λ a b, if Qle_bool a b then a else b) l d in
              Some (if Qle_bool 0 (m - now)%Q then (m - now)%Q else 0%Q)
  end.

(** [all(process.poll() is None for process in l)]. *)
Fixpoint all_running (l : list process) : M K bool :=
  match l with
  | [] => mret true
  | p :: l => running ← ask (k_poll (p_pid p)); if running : bool then all_running l else mret false
  end.

(** The section of [get] under the lock: the capsule, or one that has to be closed. *)
Inductive found := Live (r : nat) | Dead (r : nat).

Definition find_capsule (now : Q) (token : pystr) : M (world K) found :=
  entry ← mget (λ w, dget (w_table w) token);
  match entry with
  | None => mraise ValueError "capsule unavailable"
  | Some r =>
      c ← deref r;
      live ← (if expired now c then mret false else kernel (all_running (c_processes c)));
      if live : bool then mret (Live r) else _ ← pop token; mret (Dead r)
  end.

Definition get (now : Q) (token : pystr) : M (world K) nat :=
  x ← find_capsule now token;
  match x with Live r => mret r | Dead r => _ ← close r; mraise ValueError "capsule unavailable" end.

(** ** Operations on a capsule *)
Record summary := Summary {
  s_core : pystr; s_mode : pyval; s_paused : bool; s_pids : list Z; s_expires_in : Z; s_endpoint : option (pystr * Z) }.

(** [max(0, int(x))]: [int] rounds towards zero. *)
Definition summary_of (now : Q) c : summary :=
  Summary (c_core c) (c_mode c) (c_paused c) (p_pid <$> c_processes c) (Z.max 0 (Qfloor (deadline c - now)%Q)) (c_endpoint c).

Definition status (now later : Q) (token : pystr) : M (world K) summary :=
  r ← get now token; c ← deref r; mret (summary_of later c).

Definition list_capsules (now later : Q) : M (world K) (list summary) :=
  _ ← _reap_expired now;
  mget (λ w, omap (λ e, summary_of later <$> w_heap w !! e.2) (w_table w)).

(** What [pause] and [resume] do under the capsule's lock. *)
Definition pause_section r : M (world K) unit :=
  c ← deref r;
  _ ← mraise_if (c_closed c) ValueError "capsule unavailable";
  if c_paused c then mret tt
  else _ ← kernel (toggle SIGSTOP SIGCONT (c_processes c) []); mmod (set_capsule r (mark_paused true c)).

Definition resume_section r : M (world K) unit :=
  c ← deref r;
  _ ← mraise_if (c_closed c) ValueError "capsule unavailable";
  if c_paused c then _ ← kernel (toggle SIGCONT SIGSTOP (c_processes c) []); mmod (set_capsule r (mark_paused false c))
  else mret tt.

Definition pause (now now' later : Q) (token : pystr) : M (world K) summary :=
  r ← get now token; _ ← pause_section r; status now' later token.
Definition resume (now now' later : Q) (token : pystr) : M (world K) summary :=
  r ← get now token; _ ← resume_section r; status now' later token.
Definition stop (now : Q) (token : pystr) : M (world K) unit :=
  r ← get now token; _ ← pop token; close r.

(** ** Starting a capsule *)

(** The surroundings of a call: the registry and the client configuration as
    files, the resolution of executables, the feature report of a binary, the
    proxy named by the environment, and what arrives on the readiness pipes. *)
Record surroundings := Surroundings {
  e_euid : Z; e_registry : file_view pystr; e_config : file_view pystr;
  e_exe : pystr → result pystr; e_report : pystr → option (Z * bytes);
  e_proxy : option pystr; e_resolve : pystr → result pystr; e_python : option pystr; e_seqpacket : bool;
  e_proxy_line : option bytes; e_first_line : option (option bytes) }.

Record request := Request {
  q_core : pystr; q_protocol : pyval; q_host : pyval; q_port : pyval; q_max_record : pyval; q_ttl : pyval; q_mode : pyval }.

(** What is decided before a process is started. *)
Record launch := Launch {
  l_seqpacket : bool; l_protocol : pyval; l_host : pyval; l_limit : pyval; l_boundary : pydict; l_ttl : Z }.

Definition or_else (v : pyval) (s : string) : pyval := if truthy v then v else txt s.

(** The loopback endpoint of the proxy, and the proxy itself. *)
Definition proxy_request (e : surroundings) (q : request) : result (pyval * pyval) :=
  let protocol := or_else (q_protocol q) "tcp" in
  let host := or_else (q_host q) "127.0.0.1" in
  known ← in_set protocol ["tcp"; "udp"];
  loopback ← (if known : bool then in_set host ["127.0.0.1"; "::1"] else Ok false);
  _ ← raise_if (negb loopback || negb (int_between 1 (q_port q) 65535)) ValueError
        "seqpacket capsule requires a loopback protocol and port";
  match e_proxy e with
  | Some (x :: value) => _ ← e_resolve e (x :: value); Ok (protocol, host)
  | _ => raise ValueError "SHADOW6_APP_FLOW_PROXY is required"
  end.

(** The record limit of the proxy. *)
Definition proxy_limit (spec : capsule_spec) (boundary : pydict) (max_record : pyval) : result pyval :=
  match vget_none boundary "max_record" with
  | VInt declared =>
      let boundary_limit := Z.min (cs_max_record spec) declared in
      let requested := if is_none max_record then VInt boundary_limit else max_record in
      _ ← raise_if (negb (int_between 1 requested boundary_limit)) ValueError "max-record exceeds the Core application boundary";
      Ok requested
  | _ => raise TypeError "unorderable types"
  end.

Section Start.
Context (nfc : pystr → pystr).

Definition prepare (e : surroundings) (q : request) : result launch :=
  registry ← capsule_registry nfc (e_euid e) (e_registry e);
  match dget registry (q_core q) with
  | None => raise ValueError "Core is not registered for capsule use"
  | Some spec =>
      match q_ttl q with
      | VInt ttl =>
          _ ← raise_if (negb (between 30 ttl 300)) ValueError "capsule bounds exceeded";
          binary ← e_exe e (cs_binary spec);
          boundary ← _client_application_boundary nfc (e_report e binary) (q_mode q);
          if eq_str (mode_of boundary) "seqpacket-fd" then
            '(protocol, host) ← proxy_request e q;
            _ ← _safe_config (e_euid e) (e_config e);
            _ ← raise_if (bool_decide (e_python e = None)) FileNotFoundError "Python executable unavailable";
            limit ← proxy_limit spec boundary (q_max_record q);
            _ ← raise_if (negb (e_seqpacket e)) ValueError "SOCK_SEQPACKET is unavailable on this platform";
            Ok (Launch true protocol host limit boundary ttl)
          else
            _ ← _safe_config (e_euid e) (e_config e);
            _ ← raise_if (negb (is_none (q_protocol q)) || negb (is_none (q_host q)) || negb (is_none (q_port q))
                          || negb (is_none (q_max_record q))) ValueError
                  "Core-owned application boundaries do not accept proxy parameters";
            Ok (Launch false VNone VNone VNone boundary ttl)
      | _ => raise ValueError "capsule bounds exceeded"
      end
  end.

Definition open_fds (l : list descriptor) : M (world K) unit := mmod (λ w, set_fds (w_fds w ++ l) w).
Definition remove_one (d : descriptor) : list descriptor → list descriptor :=
  fix go l := match l with [] => [] | x :: l => if bool_decide (x = d) then l else x :: go l end.
Definition close_fd (d : descriptor) : M (world K) unit := mmod (λ w, set_fds (remove_one d (w_fds w)) w).

(** [poll() is not None] after the readiness event. *)
Definition still_running (p : process) (message : string) : M (world K) unit :=
  running ← kernel (ask (k_poll (p_pid p))); mraise_if (negb running) ValueError message.

(** [Capsule("", core, (process,), ...).close()] on a process that has no capsule yet. *)
Definition discard (p : process) : M (world K) unit := kernel (close_processes [p]).

Definition spawn (stdout : bool) : M (world K) process := pid ← kernel k_spawn; mret (Process pid stdout).

(** The local variables that the [except] and [finally] clauses of [start] read:
    the processes, and whether the pipe's descriptors are not yet -1. *)
Record locals := Locals { core_proc : option process; proxy_proc : option process; ready_read : bool; ready_write : bool }.

Definition inner {A} (f : M (world K) A) : M (world K * locals) A := λ wl, let '(a, w) := f wl.1 in (a, (w, wl.2)).
Definition assign (f : locals → locals) : M (world K * locals) unit := mmod (λ wl, (wl.1, f wl.2)).

(** The [try] block: the Core, then the proxy in front of it. *)
Definition pair_body (e : surroundings) (l : launch) (port : pyval) : M (world K * locals) (process * process) :=
  core ← inner (spawn false);
  _ ← assign (λ x, Locals (Some core) (proxy_proc x) (ready_read x) (ready_write x));
  proxy ← inner (spawn false);
  _ ← assign (λ x, Locals (core_proc x) (Some proxy) (ready_read x) (ready_write x));
  _ ← inner (close_fd ReadyWrite);
  _ ← assign (λ x, Locals (core_proc x) (proxy_proc x) (ready_read x) false);
  _ ← inner (mlift (proxy_event nfc (l_protocol l) (l_host l) port (e_proxy_line e)));
  _ ← inner (still_running proxy "application-flow proxy exited after readiness");
  _ ← assign (λ x, Locals (core_proc x) (proxy_proc x) false (ready_write x));
  mret (core, proxy).

Definition discard_opt (p : option process) : M (world K) unit := match p with Some p => discard p | None => mret tt end.
Definition close_if (b : bool) (d : descriptor) : M (world K) unit := if b then close_fd d else mret tt.

Definition start_pair (e : surroundings) (l : launch) (port : pyval) : M (world K) (process * process) := λ w,
  let '(_, w) := open_fds [Producer; Consumer; ReadyRead; ReadyWrite] w in
  let '(r, (w, x)) := pair_body e l port (w, Locals None None true true) in
  let '(r, w) := match r with
                 | Ok a => (Ok a, w)
                 | Raise err => (_ ← discard_opt (proxy_proc x); _ ← discard_opt (core_proc x); mlift (Raise err)) w
                 end in
  (r, ((_ ← close_fd Producer; _ ← close_fd Consumer; _ ← close_if (ready_read x) ReadyRead; close_if (ready_write x) ReadyWrite) w).2).

(** A Core that owns its listener. *)
Definition start_owned (e : surroundings) (l : launch) : M (world K) (process * (pystr * Z)) :=
  core ← spawn true;
  (λ w, match (endpoint ← mlift (boundary_event nfc (vget_none (l_boundary l) "core") (mode_of (l_boundary l)) (e_first_line e));
              _ ← still_running core "Core exited after announcing readiness";
              mret (core, endpoint)) w with
       | (Ok a, w') => (Ok a, w')
       | (Raise err, w') => (_ ← discard core; _ ← kernel (mmod (k_close_stdout (p_pid core))); mlift (Raise err)) w'
       end) : M (world K) (process * (pystr * Z)).

(** The answer of [start]. *)
Record started := Started {
  r_token : pystr; r_core : pystr; r_mode : pyval; r_pid : Z; r_expires_in : Z;
  r_proxy : option (Z * pyval * pyval * pyval); r_endpoint : option (pystr * Z) }.

(** The processes of a request: the Core, the proxy if there is one, and the
    endpoint of a Core that owns its listener. *)
Record running := Running { u_launch : launch; u_core : process; u_proxy : option process; u_endpoint : option (pystr * Z) }.

Definition start_processes (e : surroundings) (q : request) : M (world K) running :=
  l ← mlift (prepare e q);
  if l_seqpacket l then
    '(core, proxy) ← start_pair e l (q_port q); mret (Running l core (Some proxy) None)
  else
    '(core, endpoint) ← start_owned e l; mret (Running l core None (Some endpoint)).

Definition make_capsule (q : request) (u : running) (token : pystr) (created : Q) : capsule :=
  Capsule token (q_core q) (u_core u :: option_list (u_proxy u)) created (l_ttl (u_launch u)) (mode_of (l_boundary (u_launch u)))
    (u_endpoint u) false false.

(** [_CAPSULES[token] = capsule], with the new object on the heap. *)
Definition enter_capsule (c : capsule) : M (world K) unit :=
  mmod (λ w, World (w_heap w ++ [c]) (dset (w_table w) (c_token c) (length (w_heap w))) (w_fds w) (w_kernel w)).

Definition start (e : surroundings) (q : request) (token : pystr) (created : Q) : M (world K) started :=
  u ← start_processes e q;
  _ ← enter_capsule (make_capsule q u token created);
  mret (Started token (q_core q) (mode_of (l_boundary (u_launch u))) (p_pid (u_core u)) (l_ttl (u_launch u))
          ((λ p, (p_pid p, l_protocol (u_launch u), l_host (u_launch u), q_port q)) <$> u_proxy u) (u_endpoint u)).
End Start.
End Capsules.
