(* ===== verification/CapsuleKernel.v ===== *)
(** * Capability capsules: what the operating system promises

    The laws of [Kernel] and their consequences for the signal sequences of
    [Capsules]: closing ends every process, pausing and resuming reach all
    processes or none. *)
From S2P Require Import Prelude Dict PyStr PyText PyValue CapsuleBoundary Capsules.

(** What can be said of a process: it was started here, it has not ended, it is
    stopped. *)
Class KernelView (K : Type) := { k_known : K → Z → bool; k_alive : K → Z → bool; k_stopped : K → Z → bool }.

Section View.
Context {K : Type} `{!Kernel K, !KernelView K}.
Implicit Types (k : K) (p q : Z).

(** Time passes for the processes that are known: they may end at any moment,
    none comes back, and only those of [P] are stopped or continued. *)
Definition passes (P : Z → Prop) k k' : Prop :=
  ∀ q, k_known k q = true →
    k_known k' q = true ∧ (k_alive k' q = true → k_alive k q = true) ∧ (¬ P q → k_stopped k' q = k_stopped k q).

(** ... and no process is started. *)
Definition frame (P : Z → Prop) k k' : Prop := passes P k k' ∧ ∀ q, k_alive k' q = true → k_alive k q = true.

(** A process that has not ended is stopped ([b = true]) or running. *)
Definition halts (b : bool) k p : Prop := k_alive k p = true → k_stopped k p = b.

(** What a signal that was delivered does. *)
Definition delivered (s : signal) k' p : Prop :=
  match s with
  | SIGTERM => True
  | SIGCONT => halts false k' p
  | SIGSTOP => halts true k' p
  | SIGKILL => k_alive k' p = false
  end.

(** The documented behaviour of [Popen.poll], [Popen.wait] and [os.killpg] on
    groups that this process started: nobody else signals them, and a signal is
    refused only because the group is gone. *)
Class KernelLaws : Prop := {
  spawn_law k r k' : k_spawn k = (r, k') → passes (λ _, False) k k' ∧
    match r with
    | Ok p => k_known k p = false ∧ k_known k' p = true ∧ halts false k' p ∧ ∀ q, k_alive k' q = true → q = p ∨ k_alive k q = true
    | Raise _ => ∀ q, k_alive k' q = true → k_alive k q = true
    end;
  poll_law p k b k' : k_poll p k = (b, k') → frame (λ _, False) k k' ∧ (b = true → k_alive k p = true) ∧ (b = false → k_alive k' p = false);
  wait_law p k b k' : k_wait p k = (b, k') → frame (λ _, False) k k' ∧ (b = true → k_alive k' p = false);
  close_law p k : frame (λ _, False) k (k_close_stdout p k);
  killpg_law p s k r k' : k_known k p = true → k_killpg p s k = (r, k') → frame (λ q, q = p) k k' ∧
    match r with Ok _ => delivered s k' p | Raise e => exn_cls e = ProcessLookupError ∧ k_alive k' p = false end }.

(** ** Frames *)
Lemma passes_trans P k1 k2 k3 : passes P k1 k2 → passes P k2 k3 → passes P k1 k3.
Proof.
  intros H1 H2 q Hq. destruct (H1 q Hq) as (Hk & Ha & Hs). destruct (H2 q Hk) as (Hk' & Ha' & Hs').
  split; [done|split; [by auto|]]. intros Hn. by rewrite Hs', Hs.
Qed.

Lemma passes_known P k k' q : passes P k k' → k_known k q = true → k_known k' q = true.
Proof. intros H Hq. by destruct (H q Hq). Qed.

Lemma passes_dead P k k' q : passes P k k' → k_known k q = true → k_alive k q = false → k_alive k' q = false.
Proof. intros H Hq Hd. destruct (H q Hq) as (_ & Ha & _). destruct (k_alive k' q); [|done]. rewrite Ha in Hd; done. Qed.

Lemma passes_halts P k k' b q : passes P k k' → k_known k q = true → ¬ P q → halts b k q → halts b k' q.
Proof. intros H Hq Hn Hh Ha'. destruct (H q Hq) as (_ & Ha & ->); [|done]. auto. Qed.

Lemma frame_passes P k k' : frame P k k' → passes P k k'.
Proof. by intros []. Qed.

Lemma frame_refl P k : frame P k k.
Proof. by split; [intros q|]. Qed.

Lemma frame_trans P k1 k2 k3 : frame P k1 k2 → frame P k2 k3 → frame P k1 k3.
Proof. intros [H1 A1] [H2 A2]. split; [by eapply passes_trans|auto]. Qed.

Lemma frame_weaken (P Q : Z → Prop) k k' : (∀ q, P q → Q q) → frame P k k' → frame Q k k'.
Proof. intros HPQ [H A]. split; [|done]. intros q Hq. destruct (H q Hq) as (? & ? & ?). naive_solver. Qed.

Lemma frame_known P k k' q : frame P k k' → k_known k q = true → k_known k' q = true.
Proof. intros [H _]. by apply (passes_known P). Qed.

Lemma frame_dead P k k' q : frame P k k' → k_known k q = true → k_alive k q = false → k_alive k' q = false.
Proof. intros [H _]. by apply (passes_dead P). Qed.

Lemma frame_halts P k k' b q : frame P k k' → k_known k q = true → ¬ P q → halts b k q → halts b k' q.
Proof. intros [H _]. by apply (passes_halts P). Qed.

Lemma dead_halts b k p : k_alive k p = false → halts b k p.
Proof. intros H. unfold halts. by rewrite H. Qed.
End View.
#[global] Arguments KernelLaws K {_ _}.
#[export] Hint Resolve frame_refl frame_trans frame_known frame_dead frame_halts dead_halts : shadow6.

(** ** Signals to several processes *)
Notation pids := (fmap p_pid).

Section Signals.
Context {K : Type} `{!Kernel K, !KernelView K, !KernelLaws K}.
Implicit Types (k : K) (p : process) (l : list process).

Notation knows k l := (Forall (λ q, k_known k q = true) (pids l)).

Lemma knows_frame P k k' (l : list Z) : frame P k k' → Forall (λ q, k_known k q = true) l → Forall (λ q, k_known k' q = true) l.
Proof. intros H Hl. eapply Forall_impl; [exact Hl|]. cbn. eauto with shadow6. Qed.

(** A computation on one process that cannot fail and touches only it. *)
Definition touches (f : process → M K unit) (Post : K → Z → Prop) : Prop :=
  ∀ p k r k', k_known k (p_pid p) = true → f p k = (r, k') → r = Ok tt ∧ frame (λ q, q = p_pid p) k k' ∧ Post k' (p_pid p).

(** A fact about a process that others' signals do not change. *)
Definition stable (Post : K → Z → Prop) : Prop :=
  ∀ P k k' q, frame P k k' → k_known k q = true → ¬ P q → Post k q → Post k' q.

Lemma stable_dead : stable (λ k q, k_alive k q = false).
Proof. intros P k k' q Hf Hk _. by apply (frame_dead P). Qed.
Lemma stable_halts b : stable (halts b).
Proof. intros P k k' q Hf Hk Hn. by apply (frame_halts P). Qed.
Lemma stable_True : stable (λ _ _, True).
Proof. done. Qed.

Lemma signal_touches s : touches (λ p, killpg_if_exists p s) (delivered s).
Proof.
  intros p k r k' Hk. unfold killpg_if_exists. destruct (k_killpg (p_pid p) s k) as [[[]|e] k1] eqn:E; intros [= <- <-].
  - by destruct (killpg_law _ _ _ _ _ Hk E).
  - destruct (killpg_law _ _ _ _ _ Hk E) as (Hf & He & Hd). rewrite He. split; [done|split; [done|]]. destruct s; cbn; eauto with shadow6.
Qed.

Lemma frame_at p k k' : frame (λ _, False) k k' → frame (λ q, q = p_pid p) k k'.
Proof. by apply frame_weaken. Qed.

Lemma terminate_touches : touches terminate (λ _ _, True).
Proof.
  intros p k r k' Hk. unfold terminate, ask. cbn. unfold mbind, M_bind. destruct (k_poll (p_pid p) k) as [b k1] eqn:Ep.
  destruct (poll_law _ _ _ _ Ep) as (Hf & _). destruct b; [|intros [= <- <-]; by eauto using frame_at].
  destruct (killpg_if_exists p SIGTERM k1) as [r1 k2] eqn:E1.
  destruct (signal_touches _ _ _ _ _ (frame_known _ _ _ _ Hf Hk) E1) as (-> & Hf1 & _). intros E2.
  apply signal_touches in E2 as (-> & Hf2 & _); [|by eauto with shadow6]. split_and!; [done| |done].
  eapply frame_trans; [by apply frame_at|]. by eapply frame_trans.
Qed.

Lemma wait_or_kill_touches : touches wait_or_kill (λ k q, k_alive k q = false).
Proof.
  intros p k r k' Hk. unfold wait_or_kill, ask, mbind, M_bind. destruct (k_wait (p_pid p) k) as [b k1] eqn:Ew.
  destruct (wait_law _ _ _ _ Ew) as (Hf & Hb). assert (k_known k1 (p_pid p) = true) as Hk1 by eauto with shadow6.
  destruct b; [intros [= <- <-]; by eauto using frame_at|]. destruct (killpg_if_exists p SIGKILL k1) as [r2 k2] eqn:E.
  destruct (signal_touches _ _ _ _ _ Hk1 E) as (-> & Hf2 & Hd). destruct (k_wait (p_pid p) k2) as [b' k3] eqn:Ew3. intros [= <- <-].
  destruct (wait_law _ _ _ _ Ew3) as (Hf3 & _). split_and!; [done| |by eauto using frame_dead, frame_known].
  eapply frame_trans; [by apply frame_at|]. eapply frame_trans; [done|by apply frame_at].
Qed.

Lemma finish_touches : touches finish (λ k q, k_alive k q = false).
Proof.
  intros p k r k' Hk. unfold finish, mbind, M_bind. destruct (wait_or_kill p k) as [r1 k1] eqn:E.
  apply wait_or_kill_touches in E as (-> & Hf & Hd); [|done]. destruct (p_stdout p); intros [= <- <-]; [|done].
  pose proof (close_law (p_pid p) k1). split_and!; [done| |by eauto using frame_dead, frame_known].
  eapply frame_trans; [done|by apply frame_at].
Qed.

Lemma each_touches f Post l k r k' :
  touches f Post → stable Post → NoDup (pids l) → knows k l → each f l k = (r, k') →
  r = Ok tt ∧ frame (λ q, q ∈ pids l) k k' ∧ Forall (Post k') (pids l).
Proof.
  intros Hf Hs. revert k. induction l as [|p l IH]; intros k; cbn [each fmap list_fmap].
  { intros _ _ [= <- <-]. by eauto with shadow6. }
  rewrite NoDup_cons, Forall_cons. intros [Hni Hnd] [Hp Hl]. unfold mbind, M_bind. destruct (f p k) as [r1 k1] eqn:E.
  destruct (Hf _ _ _ _ Hp E) as (-> & Hf1 & HP). intros E2.
  destruct (IH k1 Hnd (knows_frame _ _ _ _ Hf1 Hl) E2) as (-> & Hf2 & HPs). split; [done|]. split.
  - eapply frame_trans; [eapply frame_weaken; [|exact Hf1]|eapply frame_weaken; [|exact Hf2]]; set_solver.
  - constructor; [|done]. eapply Hs; [exact Hf2| |done|done]. by eapply frame_known.
Qed.

(** [Capsule.close] ends every process of the capsule. *)
Lemma close_processes_spec l k r k' :
  NoDup (pids l) → knows k l → close_processes l k = (r, k') →
  r = Ok tt ∧ frame (λ q, q ∈ pids l) k k' ∧ Forall (λ q, k_alive k' q = false) (pids l).
Proof.
  intros Hnd Hk. unfold close_processes, mbind, M_bind. destruct (each terminate l k) as [r1 k1] eqn:E1.
  destruct (each_touches _ _ _ _ _ _ terminate_touches stable_True Hnd Hk E1) as (-> & Hf1 & _). intros E2.
  destruct (each_touches _ _ _ _ _ _ finish_touches stable_dead Hnd (knows_frame _ _ _ _ Hf1 Hk) E2) as (-> & Hf2 & Hd).
  eauto using frame_trans.
Qed.

(** The signal that brings a process into a state. *)
Definition to_state (b : bool) : signal := if b then SIGSTOP else SIGCONT.
Lemma to_state_delivered b k (p : Z) : delivered (to_state b) k p = halts b k p.
Proof. by destruct b. Qed.

(** All processes of a list are in a state, and one more that has ended. *)
Lemma all_halt_insert b k l1 p l2 :
  k_alive k (p_pid p) = false → Forall (halts b k) (pids (l1 ++ l2)) → Forall (halts b k) (pids (l1 ++ p :: l2)).
Proof. rewrite !fmap_app, !Forall_app. cbn. rewrite Forall_cons. intuition eauto with shadow6. Qed.

Lemma all_halt_frame P b k k' l :
  frame P k k' → knows k l → (∀ q, q ∈ pids l → ¬ P q) → Forall (halts b k) (pids l) → Forall (halts b k') (pids l).
Proof. intros Hf Hk Hn. rewrite !Forall_forall in *. intros H q Hq. eapply frame_halts; eauto. Qed.

(** The failure of a signal in the middle: the earlier ones are undone. *)
Lemma toggle_undo b done p l k1 k2 e :
  NoDup (pids (done ++ p :: l)) → k_alive k1 (p_pid p) = false → Forall (halts b k1) (pids l) → knows k1 (done ++ p :: l) →
  each (λ q, killpg_if_exists q (to_state b)) done k1 = (e, k2) →
  e = Ok tt ∧ frame (λ q, q ∈ pids done) k1 k2 ∧ Forall (halts b k2) (pids (done ++ p :: l)).
Proof.
  intros Hnd Hd Hl Hk E. rewrite fmap_app in *. cbn [fmap list_fmap] in *. apply NoDup_app in Hnd as (Hnd & Hdisj & _).
  apply Forall_app in Hk as [Hkd [Hkp Hkl]%Forall_cons].
  destruct (each_touches _ _ _ _ _ _ (signal_touches (to_state b)) (ltac:(destruct b; apply stable_halts)) Hnd Hkd E) as (-> & Hf & HP).
  split; [done|split; [done|]]. apply Forall_app; split; [by destruct b|]. constructor; [eauto using dead_halts, frame_dead|].
  eapply all_halt_frame; [exact Hf|done| |done]. intros q Hq Hin. apply (Hdisj q Hin). by right.
Qed.

(** Pausing ([b = true]) and resuming reach every process, or leave all as they were. *)
Lemma toggle_spec b l done k r k' :
  NoDup (pids (done ++ l)) → knows k (done ++ l) → Forall (halts b k) (pids done) → Forall (halts (negb b) k) (pids l) →
  toggle (to_state b) (to_state (negb b)) l done k = (r, k') →
  frame (λ q, q ∈ pids (done ++ l)) k k' ∧
  match r with
  | Ok _ => Forall (halts b k') (pids (done ++ l))
  | Raise e => exn_cls e = ProcessLookupError ∧ Forall (halts (negb b) k') (pids (done ++ l))
  end.
Proof.
  revert done k. induction l as [|p l IH]; intros done k Hnd Hk Hd Hl; cbn [toggle].
  { rewrite app_nil_r. intros [= <- <-]. by eauto with shadow6. }
  unfold mbind, M_bind, ask. destruct (k_poll (p_pid p) k) as [up k1] eqn:Ep. destruct (poll_law _ _ _ _ Ep) as (Hf & _ & Hdead).
  pose proof (knows_frame _ _ _ _ Hf Hk) as Hk1. apply Forall_cons in Hl as [_ Hl].
  assert (knows k done ∧ knows k l ∧ k_known k1 (p_pid p) = true) as (Hkd & Hkl & Hkp).
  { rewrite fmap_app in Hk, Hk1. apply Forall_app in Hk as [? [? ?]%Forall_cons]. apply Forall_app in Hk1 as [? [? ?]%Forall_cons]. done. }
  apply (all_halt_frame _ _ _ _ _ Hf Hkd) in Hd; [|tauto]. apply (all_halt_frame _ _ _ _ _ Hf Hkl) in Hl; [|tauto].
  apply (frame_weaken _ (λ q, q ∈ pids (done ++ p :: l))) in Hf; [|done]. destruct up.
  - destruct (k_killpg (p_pid p) (to_state b) k1) as [[[]|e] k2] eqn:E; destruct (killpg_law _ _ _ _ _ Hkp E) as (Hf2 & Hs).
    + rewrite to_state_delivered in Hs. assert (done ++ p :: l = (done ++ [p]) ++ l) as Hl2 by by rewrite <- app_assoc. rewrite Hl2 in *.
      pose proof (knows_frame _ _ _ _ Hf2 Hk1) as Hk2. rewrite !fmap_app in Hnd. apply NoDup_app in Hnd as (Hnd1 & Hdj & Hnd2).
      pose proof Hnd1 as (_ & Hdp & _)%NoDup_app. intros Et. apply IH in Et as (Hf3 & Hr); [| | | |].
      * split; [|done]. eapply frame_trans; [exact Hf|]. eapply frame_trans; [|exact Hf3]. eapply frame_weaken; [|exact Hf2].
        intros q ->. rewrite !fmap_app. set_solver.
      * rewrite !fmap_app. by apply NoDup_app.
      * done.
      * rewrite fmap_app, Forall_app. split; [|by repeat constructor]. rewrite !fmap_app in Hk1. apply Forall_app in Hk1 as [[? _]%Forall_app _].
        eapply all_halt_frame; [exact Hf2|done| |done]. intros q Hq ->. apply (Hdp _ Hq). by left.
      * rewrite !fmap_app in Hk1. apply Forall_app in Hk1 as [_ ?]. eapply all_halt_frame; [exact Hf2|done| |done].
        intros q Hq ->. apply (Hdj (p_pid p)); [set_solver|done].
    + destruct Hs as [He Hdp]. pose proof (knows_frame _ _ _ _ Hf2 Hk1) as Hk2.
      destruct (each (λ q, killpg_if_exists q (to_state (negb b))) done k2) as [r3 k3] eqn:E3. intros E4.
      assert (Forall (halts (negb b) k2) (pids l)) as Hl2.
      { rewrite fmap_app in Hnd, Hk1. apply NoDup_app in Hnd as (_ & _ & [Hni _]%NoDup_cons). apply Forall_app in Hk1 as [_ [_ ?]%Forall_cons].
        eapply all_halt_frame; [exact Hf2|done| |done]. by intros q Hq ->. }
      destruct (toggle_undo (negb b) done p l k2 k3 r3) as (-> & Hf3 & Hh); try done.
      cbn in E4. injection E4 as <- <-. split; [|done]. eapply frame_trans; [exact Hf|].
      eapply frame_trans; eapply frame_weaken; [|exact Hf2| |exact Hf3]; cbn; rewrite fmap_app; set_solver.
  - intros Et. pose proof Hnd as Hnd'. rewrite fmap_app in Hnd'. apply NoDup_app in Hnd' as (Hnd1 & Hdj & [Hni Hnd2]%NoDup_cons).
    assert (pids (done ++ l) ⊆ pids (done ++ p :: l)) as Hsub by (rewrite !fmap_app; set_solver).
    apply IH in Et as (Hf3 & Hr); [| |rewrite Forall_forall in *; by auto|done|done].
    + split; [eapply frame_trans; [exact Hf|]; eapply frame_weaken; [|exact Hf3]; set_solver|].
      assert (k_alive k' (p_pid p) = false) as Hd' by (eapply frame_dead; eauto).
      destruct r as [[]|e]; [|destruct Hr as [He Hr]; split; [done|]]; by apply all_halt_insert.
    + rewrite fmap_app. apply NoDup_app. split; [done|split; [|done]]. intros q Hq Hq2. apply (Hdj q Hq). by right.
Qed.
End Signals.
