(* ===== verification/CapsuleFacts.v ===== *)
(** * Capability capsules: the table in every interleaving

    The invariant of the table and the heap, its preservation by every section
    that runs under a lock, and the threads as a step relation. *)
From Stdlib Require Import QArith.
From S2P Require Import Prelude Dict PyStr PyText PyValue CapsuleBoundary Capsules CapsuleKernel.
#[local] Open Scope Z_scope.

Section Table.
Context {K : Type} `{!Kernel K, !KernelView K, !KernelLaws K}.
Implicit Types (w : world K) (k : K) (r : nat) (c : capsule) (t : pystr) (P : list nat) (Q : list Z).

Definition cpids (c : capsule) : list Z := pids (c_processes c).

(** What the processes of a capsule are doing: they have ended, or they do what
    the flag says. *)
Definition truthful k c : Prop :=
  if c_closed c then Forall (λ q, k_alive k q = false) (cpids c) else Forall (halts (c_paused c) k) (cpids c).

(** The processes belong to one capsule, or to a capsule that is being started
    ([Q]). *)
Record owned Q w : Prop := {
  ow_known q : q ∈ Q ∨ (∃ r c, w_heap w !! r = Some c ∧ q ∈ cpids c) → k_known (w_kernel w) q = true;
  ow_nodup r c : w_heap w !! r = Some c → NoDup (cpids c);
  ow_disjoint r r' c c' q : w_heap w !! r = Some c → w_heap w !! r' = Some c' → q ∈ cpids c → q ∈ cpids c' → r = r';
  ow_new r c q : w_heap w !! r = Some c → q ∈ cpids c → q ∉ Q }.

(** [P] are the capsules that a thread has taken out of the table and is about to
    close. *)
Record table_ok P w : Prop := {
  tb_keys : dwf (w_table w);
  tb_entry t r : (t, r) ∈ w_table w → r ∉ P ∧ ∃ c, w_heap w !! r = Some c ∧ c_token c = t ∧ c_closed c = false;
  tb_open r c : w_heap w !! r = Some c → c_closed c = false → (c_token c, r) ∈ w_table w ∨ r ∈ P;
  tb_pending r : r ∈ P → is_Some (w_heap w !! r);
  tb_tokens r r' c c' : w_heap w !! r = Some c → w_heap w !! r' = Some c' → c_token c = c_token c' → r = r' }.

Record winv P Q w : Prop := {
  wi_owned : owned Q w;
  wi_table : table_ok P w;
  wi_truth r c : w_heap w !! r = Some c → truthful (w_kernel w) c;
  wi_new q : q ∈ Q → halts false (w_kernel w) q }.

(** A thread that holds a reference sees the same capsule later. *)
Definition extends w w' : Prop := ∀ r c, w_heap w !! r = Some c → ∃ c', w_heap w' !! r = Some c' ∧ c_token c' = c_token c ∧ (c_closed c = true → c_closed c' = true) ∧ c_processes c' = c_processes c.

Lemma extends_refl w : extends w w.
Proof. intros r c. eauto. Qed.
Lemma extends_trans w1 w2 w3 : extends w1 w2 → extends w2 w3 → extends w1 w3.
Proof. intros H1 H2 r c Hr. destruct (H1 r c Hr) as (c1 & Hr1 & <- & ? & <-). destruct (H2 r c1 Hr1) as (c2 & ? & ? & ? & ?). eauto 7. Qed.

(** ** Kernel steps *)
Definition with_kernel k w : world K := World (w_heap w) (w_table w) (w_fds w) k.

Lemma truthful_frame F k k' c :
  passes F k k' → Forall (λ q, k_known k q = true) (cpids c) → (∀ q, q ∈ cpids c → ¬ F q) → truthful k c → truthful k' c.
Proof.
  intros Hf Hk Hn. unfold truthful. rewrite Forall_forall in Hk. destruct (c_closed c); rewrite !Forall_forall; intros H q Hq.
  - eapply passes_dead; eauto.
  - eapply passes_halts; eauto.
Qed.

Lemma owned_cap_known Q w r c : owned Q w → w_heap w !! r = Some c → Forall (λ q, k_known (w_kernel w) q = true) (cpids c).
Proof. intros Ho Hr. apply Forall_forall. intros q Hq. apply (ow_known _ _ Ho). eauto. Qed.

Lemma table_same P w w' : w_heap w' = w_heap w → w_table w' = w_table w → table_ok P w → table_ok P w'.
Proof. intros Hh Ht [Hd He Ho Hp Hu]. split; rewrite ?Hh, ?Ht; done. Qed.

Lemma owned_later F Q w w' : w_heap w' = w_heap w → passes F (w_kernel w) (w_kernel w') → owned Q w → owned Q w'.
Proof.
  intros Hh Hf [Hk Hn Hd Hnew]. split; rewrite Hh; [|done..]. intros q Hin. eapply passes_known; [exact Hf|]. by apply Hk.
Qed.

Lemma winv_quiet P Q w k' : winv P Q w → passes (λ _, False) (w_kernel w) k' → winv P Q (with_kernel k' w).
Proof.
  intros [Ho Ht Hc Hq] Hf. split; cbn; [by eapply (owned_later _ _ w)|by apply (table_same _ w)| |].
  - intros r c Hr. eapply truthful_frame; [exact Hf|by eapply owned_cap_known|tauto|by eapply Hc].
  - intros q Hin. eapply passes_halts; [exact Hf|apply (ow_known _ _ Ho); by left|tauto|by apply Hq].
Qed.

(** ** Changing the flags of a capsule *)
Lemma lookup_set_capsule r c c0 (h : list capsule) r' c' :
  h !! r = Some c0 → <[r := c]> h !! r' = Some c' → (r' = r ∧ c' = c) ∨ (r' ≠ r ∧ h !! r' = Some c').
Proof.
  intros Hr. pose proof (lookup_lt_Some _ _ _ Hr) as Hlt. destruct (decide (r' = r)) as [->|Hne].
  - rewrite list_lookup_insert_eq by done. intros [= <-]. by left.
  - rewrite list_lookup_insert_ne by done. by right.
Qed.

Lemma owned_set Q w r c c0 :
  owned Q w → w_heap w !! r = Some c0 → c_processes c = c_processes c0 → owned Q (set_capsule r c w).
Proof.
  intros [Hk Hn Hd Hnew] H0 Hp. assert (∀ r' c', <[r := c]> (w_heap w) !! r' = Some c' → ∃ c1, w_heap w !! r' = Some c1 ∧ cpids c' = cpids c1) as Hold.
  { intros r' c' [[-> ->]|[_ H]]%(lookup_set_capsule _ _ _ _ _ _ H0); [exists c0; unfold cpids; by rewrite Hp|eauto]. }
  split; cbn.
  - intros q [Hq|(r' & c' & (c1 & Hr & ->)%Hold & Hq)]; apply Hk; eauto 6.
  - intros r' c' (c1 & Hr & ->)%Hold. eauto.
  - intros r1 r2 c1 c2 q (d1 & Hr1 & ->)%Hold (d2 & Hr2 & ->)%Hold. eauto.
  - intros r1 c1 q (d1 & Hr1 & ->)%Hold. eauto.
Qed.

Lemma extends_set r c c0 w :
  w_heap w !! r = Some c0 → c_token c = c_token c0 → (c_closed c0 = true → c_closed c = true) → c_processes c = c_processes c0 → extends w (set_capsule r c w).
Proof.
  intros H0 Ht Hc Hp r' c' Hr. destruct (decide (r' = r)) as [->|Hne]; cbn.
  - rewrite list_lookup_insert_eq by (by eapply lookup_lt_Some). simplify_eq. eauto.
  - rewrite list_lookup_insert_ne by done. eauto.
Qed.

(** ** Closing *)
Lemma kernel_eq {A} (f : M K A) w a w' : kernel f w = (a, w') → ∃ k', f (w_kernel w) = (a, k') ∧ w' = with_kernel k' w.
Proof. unfold kernel. destruct (f (w_kernel w)) as [x k']. intros [= -> <-]. eauto. Qed.

Lemma table_set P w r c c0 :
  table_ok P w → w_heap w !! r = Some c0 → c_token c = c_token c0 → c_closed c = c_closed c0 ∨ r ∈ P → table_ok P (set_capsule r c w).
Proof.
  intros [Hd He Ho Hp Hu] H0 Ht Hc. split; cbn; [done| | | |].
  - intros t r' Hin. destruct (He t r' Hin) as (Hn & c' & Hr' & Ht' & Hc'). split; [done|]. destruct (decide (r' = r)) as [->|Hne].
    + exists c. rewrite list_lookup_insert_eq by (by eapply lookup_lt_Some). simplify_eq. destruct Hc as [->|]; done.
    + exists c'. by rewrite list_lookup_insert_ne.
  - intros r' c' [[-> ->]|[_ H]]%(lookup_set_capsule _ _ _ _ _ _ H0) Hc'; [|by apply Ho]. destruct Hc as [Hc|]; [|by right]. rewrite Ht. apply Ho; congruence.
  - intros r' Hin. apply list_lookup_insert_is_Some. by apply Hp.
  - intros r1 r2 c1 c2 [[-> ->]|[_ H1]]%(lookup_set_capsule _ _ _ _ _ _ H0) [[-> ->]|[_ H2]]%(lookup_set_capsule _ _ _ _ _ _ H0); [done|..];
      rewrite ?Ht; eauto.
Qed.

(** Signals to the processes of one capsule, with a change of its flags. *)
Lemma winv_update F P Q w k' r c c0 :
  winv P Q w → w_heap w !! r = Some c0 → c_token c = c_token c0 → c_processes c = c_processes c0 → c_closed c = c_closed c0 ∨ r ∈ P →
  frame F (w_kernel w) k' → (∀ q, F q → q ∈ cpids c0) → truthful k' c → winv P Q (with_kernel k' (set_capsule r c w)).
Proof.
  intros [Ho Ht Htr Hq] H0 Htok Hp Hc Hf%frame_passes HF Hct. split; cbn.
  - eapply (owned_later _ _ (set_capsule r c w)); [done|exact Hf|]. by eapply owned_set.
  - apply (table_same _ (set_capsule r c w)); [done|done|]. by eapply table_set.
  - intros r' c' [[-> ->]|[Hne H]]%(lookup_set_capsule _ _ _ _ _ _ H0); [done|].
    eapply truthful_frame; [exact Hf|by eapply owned_cap_known| |by eapply Htr]. intros q Hq1 Hq2%HF. apply Hne. by eapply (ow_disjoint _ _ Ho).
  - intros q Hin. eapply passes_halts; [exact Hf|apply (ow_known _ _ Ho); by left| |by apply Hq]. intros Hin2%HF. by eapply (ow_new _ _ Ho).
Qed.

(** A capsule that has been taken out of the table is closed for good. *)
Lemma close_spec P Q w r x w' :
  winv P Q w → r ∈ P → close r w = (x, w') →
  x = Ok tt ∧ winv P Q w' ∧ extends w w' ∧ w_table w' = w_table w ∧ ∃ c, w_heap w' !! r = Some c ∧ c_closed c = true.
Proof.
  intros Hw Hr. destruct (tb_pending _ _ (wi_table _ _ _ Hw) r Hr) as [c0 H0]. unfold close, deref, mbind, M_bind. rewrite H0.
  destruct (c_closed c0) eqn:Hc; [intros [= <- <-]; by eauto 9 using extends_refl|]. cbn. intros (k' & E & ->)%kernel_eq. cbn in E.
  apply close_processes_spec in E as (-> & Hf & Hdead); [|by eapply (ow_nodup _ _ (wi_owned _ _ _ Hw))|by eapply owned_cap_known, H0; apply Hw].
  split_and!; [done| |by apply (extends_set r (mark_closed c0) c0 w H0)|done|].
  - eapply winv_update; [done|exact H0|done|done|by right|exact Hf|done|done].
  - exists (mark_closed c0). split; [|done]. apply list_lookup_insert_eq. by eapply lookup_lt_Some.
Qed.

(** ** The table *)

(** A capsule that is closed no longer has to be closed. *)
Lemma winv_settled P P' Q w :
  winv P Q w → (∀ r, r ∈ P' → r ∈ P) → (∀ r c, r ∈ P → w_heap w !! r = Some c → c_closed c = false → r ∈ P') → winv P' Q w.
Proof.
  intros [Ho [Hd He Hop Hp Hu] Htr Hq] H1 H2. split; [done| |done|done]. split; [done| | |by auto|done].
  - intros t r Hin. destruct (He t r Hin) as [Hn Hc]. auto.
  - intros r c Hr Hc. destruct (Hop r c Hr Hc); eauto.
Qed.

(** Entries leave the table and become pending. *)
Lemma winv_take P Q w d l :
  winv P Q w → dwf d → (∀ t r, (t, r) ∈ w_table w ↔ (t, r) ∈ d ∨ ((t, r) ∈ w_table w ∧ r ∈ l)) → (∀ t r, (t, r) ∈ d → r ∉ l) →
  (∀ r, r ∈ l → is_Some (w_heap w !! r)) → winv (l ++ P) Q (set_table d w).
Proof.
  intros [[Hk Hn Hdj Hnew] [Hd He Hop Hp Hu] Htr Hq] Hwf Hin Hout Hl. split; cbn; [done| |done|done]. split; cbn; [done| | | |done].
  - intros t r Htr'. destruct (He t r) as [HnP Hc]; [apply Hin; by left|]. split; [|done]. rewrite elem_of_app. intros [Hr|Hr]; [by eapply Hout|done].
  - intros r c Hr Hc. rewrite elem_of_app. destruct (Hop r c Hr Hc) as [H|H]; [|by auto]. apply Hin in H as [H|[_ H]]; auto.
  - intros r [Hr|Hr]%elem_of_app; auto.
Qed.

Lemma winv_pop P Q w t r c :
  winv P Q w → w_heap w !! r = Some c → c_token c = t → winv (r :: P) Q (set_table (ddel (w_table w) t) w).
Proof.
  intros Hw Hr Ht. apply (winv_take P Q w _ [r]); [done|apply dwf_ddel, Hw| | |].
  - intros t' r'. rewrite elem_of_ddel, list_elem_of_singleton. split; [|tauto]. intros Hin. destruct (decide (t = t')) as [<-|Hne]; [|by left]. right. split; [done|].
    destruct (tb_entry _ _ (wi_table _ _ _ Hw) _ _ Hin) as (_ & c' & Hr' & Ht' & _). symmetry. eapply (tb_tokens _ _ (wi_table _ _ _ Hw)); [done|done|congruence].
  - intros t' r' [Hne Hin]%elem_of_ddel ->%list_elem_of_singleton. destruct (tb_entry _ _ (wi_table _ _ _ Hw) _ _ Hin) as (_ & c' & Hr' & Ht' & _). simplify_eq.
  - intros r' ->%list_elem_of_singleton. eauto.
Qed.

Lemma fold_ddel (gone : list (pystr * nat)) (d : list (pystr * nat)) t r :
  (t, r) ∈ fold_left (λ d e, ddel d e.1) gone d ↔ (t, r) ∈ d ∧ t ∉ gone.*1.
Proof.
  revert d. induction gone as [|[t' r'] gone IH]; intros d; cbn; [set_solver|]. rewrite IH, elem_of_ddel. set_solver.
Qed.

Lemma dwf_fold_ddel (gone : list (pystr * nat)) (d : list (pystr * nat)) : dwf d → dwf (fold_left (λ d e, ddel d e.1) gone d).
Proof. revert d. induction gone as [|e gone IH]; intros d Hd; cbn; [done|]. by apply IH, dwf_ddel. Qed.

(** What is left in the table has not expired. *)
Lemma pop_expired_spec P Q w now :
  winv P Q w → ∃ l w', pop_expired now w = (Ok l, w') ∧ winv (l ++ P) Q w' ∧ w_heap w' = w_heap w ∧ w_kernel w' = w_kernel w ∧
  (∀ t r, (t, r) ∈ w_table w' ↔ (t, r) ∈ w_table w ∧ expired_ref now w r = false) ∧
  (∀ r, r ∈ l ↔ ∃ t, (t, r) ∈ w_table w ∧ expired_ref now w r = true).
Proof.
  intros Hw. unfold pop_expired. set (gone := List.filter _ _).
  assert (∀ t r, (t, r) ∈ gone ↔ (t, r) ∈ w_table w ∧ expired_ref now w r = true) as Hgone.
  { intros t r. unfold gone. rewrite !list_elem_of_In, filter_In. done. }
  pose proof (tb_keys _ _ (wi_table _ _ _ Hw)) as Hd.
  assert (∀ t r, (t, r) ∈ w_table w → t ∈ gone.*1 ↔ expired_ref now w r = true) as Hkey.
  { intros t r Hin. split.
    - intros ([t' r'] & -> & [Hin' He]%Hgone)%list_elem_of_fmap. apply elem_of_dget in Hin, Hin'; [|done..]. cbn in *. by simplify_eq.
    - intros He. apply list_elem_of_fmap. exists (t, r). split; [done|]. by apply Hgone. }
  assert (∀ r, r ∈ gone.*2 ↔ ∃ t, (t, r) ∈ w_table w ∧ expired_ref now w r = true) as Hrefs.
  { intros r. rewrite list_elem_of_fmap. split.
    - intros ([t r'] & -> & H%Hgone). eauto.
    - intros (t & H%Hgone). by exists (t, r). }
  eexists _, _. split; [done|]. split; [|split_and!; [done|done| |done]].
  - apply winv_take; [done|by apply dwf_fold_ddel| | |].
    + intros t r. rewrite fold_ddel. split; [|tauto]. intros Hin. destruct (expired_ref now w r) eqn:E; [right|left]; split; try done.
      * apply Hrefs. eauto.
      * rewrite (Hkey _ _ Hin). by rewrite E.
    + intros t r [Hin Hn]%fold_ddel (t' & _ & He)%Hrefs. apply Hn. by apply (Hkey t r).
    + intros r (t & Hin & _)%Hrefs. destruct (tb_entry _ _ (wi_table _ _ _ Hw) _ _ Hin) as (_ & c & Hr & _). eauto.
  - intros t r. cbn. rewrite fold_ddel. split; intros [Hin H]; (split; [done|]); rewrite (Hkey _ _ Hin) in *; by destruct (expired_ref now w r).
Qed.

(** Closing what was taken out of the table. *)
Lemma close_each_spec l P Q w x w' :
  winv (l ++ P) Q w → close_each l w = (x, w') →
  x = Ok tt ∧ winv P Q w' ∧ extends w w' ∧ w_table w' = w_table w ∧ (∀ r, r ∈ l → ∃ c, w_heap w' !! r = Some c ∧ c_closed c = true).
Proof.
  revert w. induction l as [|r l IH]; intros w Hw; cbn [close_each].
  { intros [= <- <-]. split_and!; [done|done|apply extends_refl|done|by intros r ?%not_elem_of_nil]. }
  unfold mbind, M_bind. destruct (close r w) as [y w1] eqn:E. destruct (close_spec _ _ _ _ _ _ Hw (list_elem_of_here _ _) E) as (-> & Hw1 & He1 & Ht1 & c & Hc & Hcl).
  intros E2. apply IH in E2 as (-> & Hw2 & He2 & Ht2 & Hl).
  - split_and!; [done|done|by eapply extends_trans|congruence|]. intros r' [->|Hin]%elem_of_cons; [|by auto].
    destruct (He2 r c Hc) as (c' & Hc' & _ & Hcl' & _). eauto.
  - eapply winv_settled; [exact Hw1|set_solver|]. intros r' c' [->|Hin]%elem_of_cons Hr' Hc'; [|done]. congruence.
Qed.

(** ** The sections of [get], [pause] and [resume] *)
Lemma all_running_spec l k x k' :
  Forall (λ q, k_known k q = true) (pids l) → all_running l k = (x, k') →
  frame (λ _, False) k k' ∧ ∃ b, x = Ok b ∧ (b = true → Forall (λ q, k_alive k q = true) (pids l)).
Proof.
  revert k. induction l as [|p l IH]; intros k; cbn [all_running fmap list_fmap]; [intros _ [= <- <-]; by eauto with shadow6|].
  intros [Hp Hl]%Forall_cons. unfold mbind, M_bind, ask. destruct (k_poll (p_pid p) k) as [b k1] eqn:E. destruct (poll_law _ _ _ _ E) as (Hf & Hup & _).
  destruct b; [|intros [= <- <-]; split; [done|by exists false]]. intros E2.
  destruct (IH k1 (knows_frame _ _ _ _ Hf Hl) E2) as (Hf2 & b & -> & Hb). split; [by eapply frame_trans|]. exists b. split; [done|].
  intros Ht. constructor; [auto|]. rewrite Forall_forall in *. intros q Hq. apply Hf. by apply Hb.
Qed.

(** A capsule that may be handed out. *)
Definition usable (now : Q) w r : Prop :=
  ∃ c, w_heap w !! r = Some c ∧ c_closed c = false ∧ expired now c = false ∧ Forall (λ q, k_alive (w_kernel w) q = true) (cpids c).

Lemma find_capsule_spec P Q w now t x w' :
  winv P Q w → find_capsule now t w = (x, w') → w_heap w' = w_heap w ∧
  match x with
  | Ok (Live r) => dget (w_table w) t = Some r ∧ usable now w r ∧ winv P Q w' ∧ w_table w' = w_table w
  | Ok (Dead r) => dget (w_table w) t = Some r ∧ winv (r :: P) Q w' ∧ w_table w' = ddel (w_table w) t
  | Raise e => exn_cls e = ValueError ∧ dget (w_table w) t = None ∧ w' = w
  end.
Proof.
  intros Hw. unfold find_capsule. rewrite M_get_bind. destruct (dget (w_table w) t) as [r|] eqn:Et; [|by intros [= <- <-]].
  destruct (tb_entry _ _ (wi_table _ _ _ Hw) _ _ (dget_elem_of _ _ _ Et)) as (_ & c & Hr & Htok & Hc).
  unfold deref, mbind, M_bind. rewrite Hr. pose proof (owned_cap_known _ _ _ _ (wi_owned _ _ _ Hw) Hr) as Hk.
  assert (∃ b k', (if expired now c then mret false else kernel (all_running (c_processes c))) w = (Ok b, with_kernel k' w) ∧
    frame (λ _, False) (w_kernel w) k' ∧ (b = true → expired now c = false ∧ Forall (λ q, k_alive (w_kernel w) q = true) (cpids c))) as (b & k' & -> & Hf & Hb).
  { destruct (expired now c); [exists false, (w_kernel w); by destruct w|]. destruct (kernel _ w) as [y w1] eqn:E.
    apply kernel_eq in E as (k' & E & ->). apply all_running_spec in E as (Hf & b & -> & Hb); [|done]. exists b, k'. by auto. }
  pose proof (winv_quiet _ _ _ _ Hw (frame_passes _ _ _ Hf)) as Hw'. destruct b; intros [= <- <-]; (split; [done|]).
  - destruct (Hb eq_refl). split_and!; [done|by exists c|done|done].
  - split_and!; [done| |done]. by apply (winv_pop P Q (with_kernel k' w) t r c).
Qed.

(** [pause] and [resume] keep the flag truthful, also when a signal fails. *)
Lemma section_spec (b : bool) P Q w r c x w' :
  winv P Q w → w_heap w !! r = Some c →
  (if b then pause_section r else resume_section r) w = (x, w') →
  winv P Q w' ∧ extends w w' ∧ w_table w' = w_table w ∧
  (x = Ok tt → c_closed c = false ∧ ∃ c', w_heap w' !! r = Some c' ∧ c_paused c' = b ∧ c_closed c' = false) ∧
  (∀ e, x = Raise e → w_heap w' = w_heap w).
Proof.
  intros Hw Hr E. assert ((c_closed c = true ∧ w' = w ∧ (∃ e, x = Raise e)) ∨ (c_closed c = false ∧ c_paused c = b ∧ w' = w ∧ x = Ok tt) ∨
    (c_closed c = false ∧ c_paused c = negb b ∧
     (_ ← kernel (toggle (to_state b) (to_state (negb b)) (c_processes c) []); mmod (set_capsule r (mark_paused b c))) w = (x, w'))) as Hcase.
  { assert (∃ c', deref r w = (Ok c', w) ∧ c' = c) as (? & Hd & ->) by (unfold deref; rewrite Hr; eauto).
    destruct b; unfold pause_section, resume_section, mbind, M_bind in E; rewrite Hd in E; cbn in E;
      (destruct (c_closed c); [injection E as <- <-; by eauto|]); (destruct (c_paused c); cbn in E; [|]);
      first [by right; right|by right; left; injection E as <- <-]. }
  destruct Hcase as [(Hc & -> & e & ->)|[(Hc & Hp & -> & ->)|(Hc & Hp & E')]].
  { split_and!; by eauto using extends_refl. }
  { split_and!; by eauto using extends_refl. }
  clear E. unfold mbind, M_bind in E'. destruct (kernel _ w) as [y w1] eqn:E. apply kernel_eq in E as (k' & E & ->).
  pose proof (wi_truth _ _ _ Hw _ _ Hr) as Htr. unfold truthful in Htr. rewrite Hc, Hp in Htr.
  apply toggle_spec in E as (Hf & Hy); [|by eapply (ow_nodup _ _ (wi_owned _ _ _ Hw))|by eapply owned_cap_known, Hr; apply Hw|done|done]. cbn in Hf, Hy.
  destruct y as [[]|e]; cbn in E'; injection E' as <- <-.
  - split_and!.
    + change (set_capsule r (mark_paused b c) (with_kernel k' w)) with (with_kernel k' (set_capsule r (mark_paused b c) w)).
      eapply winv_update; [done|exact Hr|done|done|by left|exact Hf|done|]. unfold truthful. cbn. by rewrite Hc.
    + by apply (extends_set r (mark_paused b c) c w Hr).
    + done.
    + intros _. split; [done|]. exists (mark_paused b c). cbn. split_and!; [|done|done]. apply list_lookup_insert_eq. by eapply lookup_lt_Some.
    + done.
  - split_and!; [|by intros ??; eauto|done|done|done].
    replace (with_kernel k' w) with (with_kernel k' (set_capsule r c w)).
    2:{ destruct w. unfold set_capsule, with_kernel. cbn in *. by rewrite list_insert_id. }
    eapply winv_update; [done|exact Hr|done|done|by left|exact Hf|done|]. unfold truthful. rewrite Hc, Hp. by destruct Hy.
Qed.
End Table.
