(* ===== verification/CapsuleStart.v ===== *)
(** * Capability capsules: starting one

    What [start] decides before it starts a process, and that a start which
    fails leaves neither a process nor a descriptor behind. *)
From Stdlib Require Import QArith.
From S2P Require Import Prelude Dict PyStr PyText PyValue StrictJson CapsuleBoundary Capsules CapsuleKernel CapsuleFacts.
#[local] Open Scope Z_scope.

(** ** Descriptors *)
Lemma remove_one_perm d l : d ∈ l → l ≡ₚ d :: remove_one d l.
Proof.
  induction l as [|x l IH]; [by intros ?%not_elem_of_nil|]. cbn. case_bool_decide as E; [by subst|].
  intros [->|Hin]%elem_of_cons; [done|]. rewrite (IH Hin) at 1. apply Permutation_swap.
Qed.

Lemma remove_one_cons d l l' : l ≡ₚ d :: l' → remove_one d l ≡ₚ l'.
Proof.
  intros H. apply (Permutation_cons_inv (a := d)). rewrite <- remove_one_perm; [done|]. rewrite H. by left.
Qed.

(** ** What a capsule may be attached to *)

(** A boundary for clients that a capsule can serve: records of bounded size
    through the proxy, a stream whose listener the Core owns, or the datagrams of
    the one Core that offers them. *)
Inductive supported (core : pystr) (b : pydict) : Prop :=
| supported_records n : vget_none b "mode" = txt "seqpacket-fd" → vget_none b "max_record" = VInt n → 1 ≤ n ≤ MAX_RECORD → supported core b
| supported_stream : vget_none b "mode" = txt "localhost-tcp-proxy" → vget_none b "listener_ownership" = txt "core" →
    vget_none b "endpoint_discovery" = txt "stdout-ready-jsonl-v1" → supported core b
| supported_datagrams : vget_none b "mode" = txt "localhost-udp-datagram-proxy" → core = str "shadow6-gleam" →
    vget_none b "listener_ownership" = txt "core" → vget_none b "endpoint_discovery" = txt "stdout-ready-jsonl-v1" → supported core b.

Definition for_clients (b : pydict) : Prop := ∃ roles, vget_none b "roles" = VList roles ∧ txt "client" ∈ roles.

Lemma client_choice_Some core v b : client_choice core v = Some b → v = VDict b ∧ for_clients b ∧ supported core b.
Proof.
  destruct v as [| | | | | |d]; cbn [client_choice]; try done. destruct (vget_none d "roles") as [| | | | |roles|] eqn:Er; try done.
  destruct (has_client roles) eqn:Hc; [|done]. cbn [negb].
  assert (for_clients d) as Hf.
  { exists roles. split; [done|]. apply existsb_exists in Hc as (x & Hx & ->%eq_str_spec). by apply list_elem_of_In. }
  destruct (eq_str (vget_none d "mode") "seqpacket-fd") eqn:E1.
  { apply eq_str_spec in E1. destruct (int_between _ _ _) eqn:E2; [|done]. intros [= <-]. apply int_between_spec in E2 as (n & E2 & Hn).
    split_and!; [done|done|by eapply supported_records]. }
  destruct (_ && eq_str (vget_none d "listener_ownership") "core") eqn:E2.
  { bool_simpl. destruct (eq_str (vget_none d "endpoint_discovery") _) eqn:E3; [|done]. intros [= <-].
    repeat match goal with H : eq_str _ _ = true |- _ => apply eq_str_spec in H end. split_and!; [done|done|by apply supported_stream]. }
  destruct (_ && datagram_boundary core d) eqn:E3; [|done]. intros [= <-]. unfold datagram_boundary in E3. bool_simpl.
  repeat match goal with H : eq_str _ _ = true |- _ => apply eq_str_spec in H end. split_and!; [done|done|by apply supported_datagrams].
Qed.

(** What the Core's report says about the boundary that was selected. *)
Definition declared (nfc : pystr → pystr) (ran : option (Z * bytes)) (core : pystr) (b0 : pydict) : Prop :=
  ∃ out report bs, ran = Some (0, out) ∧ zlen out ≤ MAX_FEATURE_REPORT ∧ _strict_json nfc (JBytes out) = Ok (VDict report) ∧
    vget_none report "core" = VStr core ∧ vget_none report "application_boundaries" = VList bs ∧ VDict b0 ∈ bs.

(** The selected boundary is declared, for clients, supported, of the requested
    mode; without a request a stream is preferred. *)
Definition selected (nfc : pystr → pystr) (ran : option (Z * bytes)) (mode : pyval) (b : pydict) : Prop :=
  ∃ core b0, b = vset b0 "core" (VStr core) ∧ declared nfc ran core b0 ∧ for_clients b0 ∧ supported core b0 ∧
    if is_none mode then vget_none b0 "mode" = txt "localhost-tcp-proxy" ∨
      (∀ b1, declared nfc ran core b1 → client_choice core (VDict b1) = Some b1 → vget_none b1 "mode" ≠ txt "localhost-tcp-proxy")
    else py_eqb (vget_none b "mode") mode = true.

Lemma mode_of_vset b core : mode_of (vset b "core" core) = vget_none b "mode".
Proof. unfold mode_of, vget_none, vget, vset. by rewrite dget_dset_ne. Qed.

Lemma boundaries_Ok nfc ran l :
  _client_application_boundaries nfc ran = Ok l →
  ∃ core choices, l = (λ c, vset c "core" (VStr core)) <$> choices ∧
    (∀ b, b ∈ choices ↔ declared nfc ran core b ∧ client_choice core (VDict b) = Some b) .
Proof.
  destruct ran as [[code out]|]; [|done]. unfold _client_application_boundaries. intros H. inv_ok. bool_simpl. subst.
  destruct v0 as [| | | | | |report]; try done. destruct (vget_none report "application_boundaries") as [| | | | |bs|] eqn:Eb; try done.
  destruct (vget_none report "core") as [| | | |core| |] eqn:Ec; try done. inv_ok. subst. exists core, (omap (client_choice core) bs). split; [done|].
  intros b. rewrite list_elem_of_omap. split.
  - intros (x & Hx & Hc). pose proof (client_choice_Some _ _ _ Hc) as (-> & _). split; [|done]. by exists out, report, bs.
  - intros ((out' & report' & bs' & [= <-] & _ & Hs & Hc & Hbs & Hin) & Hch). exists (VDict b). split; [|done].
    unfold _strict_json in *. congruence.
Qed.

Lemma boundary_selected nfc ran mode b : _client_application_boundary nfc ran mode = Ok b → selected nfc ran mode b.
Proof.
  unfold _client_application_boundary. intros (l & Hl & H)%bind_Ok_inv. apply boundaries_Ok in Hl as (core & choices & -> & Hch).
  assert (∀ b, b ∈ (λ c, vset c "core" (VStr core)) <$> choices → ∃ b0, b = vset b0 "core" (VStr core) ∧ declared nfc ran core b0 ∧ for_clients b0 ∧ supported core b0) as Hin.
  { intros x (b0 & -> & [Hd Hc]%Hch)%list_elem_of_fmap. apply client_choice_Some in Hc as (_ & ? & ?). eauto 9. }
  unfold selected. destruct (is_none mode).
  - destruct (List.find _ _) as [b'|] eqn:Ef.
    + injection H as ->. apply find_some in Ef as [Hb Hm%eq_str_spec]. apply list_elem_of_In, Hin in Hb as (b0 & -> & Hd & Hc & Hs).
      exists core, b0. rewrite mode_of_vset in Hm. by eauto 9.
    + destruct (head _) as [b'|] eqn:Eh; [|done]. injection H as ->.
      assert (b ∈ (λ c, vset c "core" (VStr core)) <$> choices) as Hb. { destruct choices; [done|]. cbn in Eh. injection Eh as <-. by left. }
      apply Hin in Hb as (b0 & -> & Hd & Hc & Hs). exists core, b0. split_and!; try done. right. intros b1 Hd1 Hc1 Hm.
      assert (In (vset b1 "core" (VStr core)) ((λ c, vset c "core" (VStr core)) <$> choices)) as Hi.
      { apply list_elem_of_In, list_elem_of_fmap. exists b1. split; [done|]. by apply Hch. }
      apply (find_none _ _ Ef) in Hi. rewrite mode_of_vset, Hm in Hi. done.
  - destruct (List.find _ _) as [b'|] eqn:Ef; [|done]. injection H as ->. apply find_some in Ef as [Hb Hm].
    apply list_elem_of_In, Hin in Hb as (b0 & -> & Hd & Hc & Hs). exists core, b0. by eauto 9.
Qed.

(** A readiness event names a loopback endpoint. *)
Definition loopback (h : pystr) : Prop := h = str "127.0.0.1" ∨ h = str "::1".

Lemma loopback_text v : in_strs v ["127.0.0.1"; "::1"] = true → ∃ h, v = VStr h ∧ loopback h.
Proof. intros (s & Hs & ->)%in_strs_spec. exists (str s). split; [done|]. unfold loopback. set_unfold in Hs. naive_solver. Qed.

Lemma boundary_event_loopback nfc core mode line h port :
  boundary_event nfc core mode line = Ok (h, port) → loopback h ∧ 1 ≤ port ≤ 65535.
Proof.
  destruct line as [[line|]|]; try done. unfold boundary_event. intros H. inv_ok. destruct v0 as [| | | | | |e]; try done. inv_ok.
  destruct (vget_none e "application_boundary") as [| | | | | |b]; try done. inv_ok. destruct (vget_none b "endpoint") as [| | | | | |ep]; try done.
  inv_ok. match goal with H : in_set _ _ = Ok _ |- _ => apply in_set_Ok in H as -> end. destruct (in_strs _ _) eqn:Ei; [|done]. destruct (loopback_text _ Ei) as (h' & E & Hl). rewrite E in H.
  destruct (vget_none ep "port") as [| |n| | | |]; try done. inv_ok. bool_simpl. subst. simplify_eq. split; [done|]. by apply between_spec.
Qed.

(** ** What is decided before a process is started *)
Record launched (nfc : pystr → pystr) (e : surroundings) (q : request) (l : launch) : Prop := {
  la_ttl : q_ttl q = VInt (l_ttl l) ∧ 30 ≤ l_ttl l ≤ 300;
  la_core : ∃ registry spec binary, capsule_registry nfc (e_euid e) (e_registry e) = Ok registry ∧ dget registry (q_core q) = Some spec ∧
    e_exe e (cs_binary spec) = Ok binary ∧ selected nfc (e_report e binary) (q_mode q) (l_boundary l) ∧
    if l_seqpacket l then
      ∃ limit, l_limit l = VInt limit ∧ 1 ≤ limit ≤ cs_max_record spec ∧
        (∀ n, vget_none (l_boundary l) "max_record" = VInt n → limit ≤ n) ∧ (q_max_record q = VNone ∨ q_max_record q = VInt limit)
    else q_max_record q = VNone;
  la_mode : l_seqpacket l = eq_str (mode_of (l_boundary l)) "seqpacket-fd";
  la_config : ∃ path, _safe_config (e_euid e) (e_config e) = Ok path;
  la_proxy : if l_seqpacket l then
      (l_protocol l = txt "tcp" ∨ l_protocol l = txt "udp") ∧ (∃ h, l_host l = VStr h ∧ loopback h) ∧
      (∃ port, q_port q = VInt port ∧ 1 ≤ port ≤ 65535) ∧ ∃ proxy path, e_proxy e = Some proxy ∧ e_resolve e proxy = Ok path
    else q_protocol q = VNone ∧ q_host q = VNone ∧ q_port q = VNone }.

Lemma proxy_request_Ok e q protocol host :
  proxy_request e q = Ok (protocol, host) →
  (protocol = txt "tcp" ∨ protocol = txt "udp") ∧ (∃ h, host = VStr h ∧ loopback h) ∧ (∃ port, q_port q = VInt port ∧ 1 ≤ port ≤ 65535) ∧
  ∃ proxy path, e_proxy e = Some proxy ∧ e_resolve e proxy = Ok path.
Proof.
  unfold proxy_request. intros H. inv_ok. apply orb_false_iff in Hv1 as [Hlo Hport]. apply negb_false_iff in Hlo, Hport. subst v0.
  apply in_set_Ok in Hv. destruct v; [|done]. apply in_set_Ok in Hv0. symmetry in Hv, Hv0.
  destruct (e_proxy e) as [[|x value]|] eqn:Ep; try done. inv_ok. simplify_eq. split_and!.
  - apply in_strs_spec in Hv as (s & Hs & ->). set_unfold in Hs. naive_solver.
  - by apply loopback_text.
  - by apply int_between_spec.
  - eauto.
Qed.

Lemma proxy_limit_Ok spec b max_record v :
  proxy_limit spec b max_record = Ok v →
  ∃ limit, v = VInt limit ∧ 1 ≤ limit ≤ cs_max_record spec ∧ (∀ n, vget_none b "max_record" = VInt n → limit ≤ n) ∧
    (max_record = VNone ∨ max_record = VInt limit).
Proof.
  unfold proxy_limit. destruct (vget_none b "max_record") as [| |n| | | |]; try done. intros H. inv_ok. subst. bool_simpl.
  apply int_between_spec in Hv as (limit & E & Hl). exists limit. split; [done|]. split; [lia|]. split; [intros ? [= <-]; lia|].
  destruct max_record; cbn in E; by eauto.
Qed.

Lemma is_none_spec v : is_none v = true → v = VNone.
Proof. by destruct v. Qed.

Lemma prepare_Ok nfc e q l : prepare nfc e q = Ok l → launched nfc e q l.
Proof.
  unfold prepare. intros (registry & Hreg & H)%bind_Ok_inv. destruct (dget registry (q_core q)) as [spec|] eqn:Espec; [|done].
  destruct (q_ttl q) as [| |ttl| | | |] eqn:Ettl; try done. apply bind_Ok_inv in H as ([] & Httl & H). apply raise_if_Ok in Httl. bool_simpl.
  apply between_spec in Httl. apply bind_Ok_inv in H as (binary & Hexe & H). apply bind_Ok_inv in H as (b & Hb & H). apply boundary_selected in Hb.
  destruct (eq_str (mode_of b) "seqpacket-fd") eqn:Em.
  - apply bind_Ok_inv in H as ([protocol host] & Hpr & H). apply proxy_request_Ok in Hpr. inv_ok. subst. bool_simpl. apply proxy_limit_Ok in Hv1.
    split; cbn; [done| |done|by eauto|done]. exists registry, spec, binary. done.
  - inv_ok. subst. bool_simpl. repeat match goal with H : is_none _ = true |- _ => apply is_none_spec in H end.
    split; cbn; [done| |done|by eauto|done]. exists registry, spec, binary. done.
Qed.

Section Start.
Context {K : Type} `{!Kernel K, !KernelView K, !KernelLaws K} (nfc : pystr → pystr).
Implicit Types (w : world K) (k : K) (P : list nat) (Q : list Z) (p : process).

(** The table and the capsules are not touched. *)
Definition calm w w' : Prop := w_heap w' = w_heap w ∧ w_table w' = w_table w.
Lemma calm_trans w1 w2 w3 : calm w1 w2 → calm w2 w3 → calm w1 w3.
Proof. intros [H1 H2] [H3 H4]. split; congruence. Qed.

(** Only the processes of [l] may be running that were not running before. *)
Definition only_new (l : list Z) w w' : Prop := ∀ q, k_alive (w_kernel w') q = true → q ∈ l ∨ k_alive (w_kernel w) q = true.

Lemma only_new_trans l1 l2 l w1 w2 w3 :
  only_new l1 w1 w2 → only_new l2 w2 w3 → (∀ q, k_alive (w_kernel w3) q = true → q ∈ l1 ∨ q ∈ l2 → q ∈ l) → only_new l w1 w3.
Proof. intros H1 H2 Hl q Hq. destruct (H2 q Hq) as [|Hq2]; [eauto|]. destruct (H1 q Hq2); eauto. Qed.

Lemma winv_new_perm P Q Q' w : Q ≡ₚ Q' → winv P Q w → winv P Q' w.
Proof.
  intros HQ [[Hk Hn Hd Hnew] Ht Htr Hq]. split; [split|done|done|]; [..|intros q; rewrite <- HQ; apply Hq]; try done.
  - intros q. rewrite <- HQ. apply Hk.
  - intros r c q Hr Hin. rewrite <- HQ. by eapply Hnew.
Qed.

Lemma winv_fds l P Q w : winv P Q w → winv P Q (set_fds l w).
Proof. intros [[] Ht ? ?]. split; [by split|by apply (table_same _ w)|done|done]. Qed.

Lemma winv_spawn P Q w b x w' :
  winv P Q w → spawn b w = (x, w') → calm w w' ∧ w_fds w' = w_fds w ∧
  match x with
  | Ok p => p_pid p ∉ Q ∧ winv P (p_pid p :: Q) w' ∧ only_new [p_pid p] w w'
  | Raise _ => winv P Q w' ∧ only_new [] w w'
  end.
Proof.
  intros Hw. unfold spawn, mbind, M_bind. destruct (kernel k_spawn w) as [y w1] eqn:E. apply kernel_eq in E as (k' & E & ->).
  destruct (spawn_law _ _ _ E) as [Hf Hy]. pose proof (winv_quiet _ _ _ _ Hw Hf) as Hw'. destruct y as [pid|e]; intros [= <- <-]; (split; [done|split; [done|]]).
  - destruct Hy as (Hu & Hk & Hh & Hn). assert (pid ∉ Q) as HQ.
    { intros Hin. pose proof (ow_known _ _ (wi_owned _ _ _ Hw) pid (or_introl Hin)). congruence. }
    split; [done|]. split; [|intros q [->|]%Hn; [left; by left|by right]].
    destruct Hw' as [[Ho1 Ho2 Ho3 Ho4] Ht Htr Hq]. split; [|done|done|by intros q [->|?]%elem_of_cons; auto]. split; [|done|done|].
    + intros q [[->|Hin]%elem_of_cons|Hin]; [done|auto|auto].
    + intros r c q Hr Hin [->|HinQ]%elem_of_cons; [|by eapply Ho4].
      pose proof (ow_known _ _ (wi_owned _ _ _ Hw) pid (or_intror (ex_intro _ r (ex_intro _ c (conj Hr Hin))))). congruence.
  - split; [done|]. intros q Hq. right. by apply Hy.
Qed.

Lemma winv_discard P Q w p x w' :
  winv P (p_pid p :: Q) w → p_pid p ∉ Q → discard p w = (x, w') →
  x = Ok tt ∧ calm w w' ∧ w_fds w' = w_fds w ∧ winv P Q w' ∧ only_new [] w w' ∧ k_alive (w_kernel w') (p_pid p) = false.
Proof.
  intros [Ho Ht Htr Hq] HQ. unfold discard. intros (k' & E & ->)%kernel_eq.
  apply close_processes_spec in E as (-> & Hf & Hd); [|by apply NoDup_singleton|by repeat constructor; apply (ow_known _ _ Ho); left; left].
  cbn in Hd. apply Forall_cons in Hd as [Hd _]. do 3 (split; [done|]). split; [|split; [intros q Hq'; right; by apply Hf|exact Hd]].
  apply frame_passes in Hf. split; cbn.
  - destruct Ho as [Ho1 Ho2 Ho3 Ho4]. split; cbn; [|done|done|].
    + intros q Hin. eapply passes_known; [exact Hf|]. apply Ho1. destruct Hin; [left; by right|by right].
    + intros r c q Hr Hin HinQ. eapply Ho4; [done|done|by right].
  - by apply (table_same _ w).
  - intros r c Hr. eapply truthful_frame; [exact Hf|by eapply owned_cap_known| |by eapply Htr].
    intros q Hin ->%list_elem_of_singleton. eapply (ow_new _ _ Ho); [done|done|by left].
  - intros q Hin. eapply passes_halts; [exact Hf|apply (ow_known _ _ Ho); left; by right| |apply Hq; by right]. by intros ->%list_elem_of_singleton.
Qed.

Lemma winv_still_running P Q w p m x w' :
  winv P Q w → still_running p m w = (x, w') → calm w w' ∧ w_fds w' = w_fds w ∧ winv P Q w' ∧ only_new [] w w'.
Proof.
  intros Hw. unfold still_running, mbind, M_bind. destruct (kernel (ask (k_poll (p_pid p))) w) as [y w1] eqn:E. apply kernel_eq in E as (k' & E & ->).
  unfold ask in E. destruct (k_poll (p_pid p) (w_kernel w)) as [b k1] eqn:Ep. injection E as <- <-. destruct (poll_law _ _ _ _ Ep) as (Hf & _).
  assert (∀ y, y = (x, w') → y.2 = with_kernel k1 w → calm w w' ∧ w_fds w' = w_fds w ∧ winv P Q w' ∧ only_new [] w w') as Hgo.
  { intros ? -> [= ->]. split_and!; [done|done|by apply winv_quiet, frame_passes|]. intros q Hq. right. by apply Hf. }
  intros Hx. by apply (Hgo _ Hx).
Qed.

(** ** A Core that owns its listener *)
Lemma start_owned_spec e l P Q w x w' :
  winv P Q w → start_owned nfc e l w = (x, w') → calm w w' ∧ w_fds w' = w_fds w ∧
  match x with
  | Ok (core, endpoint) =>
      p_pid core ∉ Q ∧ winv P (p_pid core :: Q) w' ∧
      boundary_event nfc (vget_none (l_boundary l) "core") (mode_of (l_boundary l)) (e_first_line e) = Ok endpoint
  | Raise _ => winv P Q w' ∧ only_new [] w w'
  end.
Proof.
  intros Hw. unfold start_owned. unfold mbind at 1, M_bind at 1. destruct (spawn true w) as [[core|err] w1] eqn:Es;
    destruct (winv_spawn _ _ _ _ _ _ Hw Es) as (Hc1 & Hfd1 & H1); [|intros [= <- <-]; by tauto]. destruct H1 as (HQ & Hw1 & Hn1).
  assert (∀ (y : result (process * (pystr * Z))) w2 err, winv P (p_pid core :: Q) w2 → calm w w2 → w_fds w2 = w_fds w → only_new [p_pid core] w w2 →
    (_ ← discard core; _ ← kernel (mmod (k_close_stdout (p_pid core))); mlift (Raise err)) w2 = (y, w') →
    calm w w' ∧ w_fds w' = w_fds w ∧ (∃ e, y = Raise e) ∧ winv P Q w' ∧ only_new [] w w') as Hfail.
  { intros y w2 err Hw2 Hc2 Hfd2 Hn2. unfold mbind, M_bind. destruct (discard core w2) as [z w3] eqn:Ed.
    destruct (winv_discard _ _ _ _ _ _ Hw2 HQ Ed) as (-> & Hc3 & Hfd3 & Hw3 & Hn3 & Hdead). cbn. intros [= <- <-].
    pose proof (close_law (p_pid core) (w_kernel w3)) as Hf. split_and!; [by eapply calm_trans; [|exact Hc3]|cbn; congruence|eauto| |].
    - by apply winv_quiet, frame_passes.
    - intros q Hq%Hf. destruct (Hn3 q Hq) as [[]%not_elem_of_nil|Hq2]. destruct (Hn2 q Hq2) as [->%list_elem_of_singleton|]; [congruence|by right]. }
  unfold mlift at 1. unfold mbind at 1, M_bind at 1. destruct (boundary_event _ _ _ _) as [ep|err] eqn:Ee.
  - unfold mbind at 1, M_bind at 1. destruct (still_running core _ w1) as [[[]|err] w2] eqn:Er; destruct (winv_still_running _ _ _ _ _ _ _ Hw1 Er) as (Hc2 & Hfd2 & Hw2 & Hn2).
    + intros [= <- <-]. split_and!; try done; [by eapply calm_trans|congruence].
    + intros Hx. apply Hfail in Hx as (? & ? & [? ->] & ? & ?); [done|done|by eapply calm_trans|congruence|].
      eapply only_new_trans; [exact Hn1|exact Hn2|]. intros q _ [?|[]%not_elem_of_nil]; done.
  - intros Hx. apply Hfail in Hx as (? & ? & [? ->] & ? & ?); done.
Qed.

(** ** A Core with the proxy in front of it *)
Definition local_pids (x : locals) : list Z := pids (option_list (proxy_proc x) ++ option_list (core_proc x)).

Lemma inner_eq {A} (f : M (world K) A) w x a s :
  inner f (w, x) = (a, s) → ∃ w', f w = (a, w') ∧ s = (w', x).
Proof. unfold inner. cbn. destruct (f w) as [b w']. intros [= -> <-]. eauto. Qed.

Lemma inner_bind {A B} (f : M (world K) A) (g : A → M (world K * locals) B) w x :
  (inner f ≫= g) (w, x) = match f w with (Ok a, w') => g a (w', x) | (Raise e, w') => (Raise e, (w', x)) end.
Proof. unfold mbind, M_bind, inner. cbn. by destruct (f w) as [[]?]. Qed.

Lemma assign_bind {B} f (g : unit → M (world K * locals) B) w x : (assign f ≫= g) (w, x) = g tt (w, f x).
Proof. done. Qed.

(** How far the [try] block has come when it is left. *)
Definition pair_left P Q w (r : result (process * process)) w' (x : locals) : Prop :=
  calm w w' ∧ w_fds w' = (if ready_write x then w_fds w else remove_one ReadyWrite (w_fds w)) ∧
  NoDup (local_pids x ++ Q) ∧ winv P (local_pids x ++ Q) w' ∧ only_new (local_pids x) w w' ∧
  match r with
  | Ok (core, proxy) => x = Locals (Some core) (Some proxy) false false
  | Raise _ => ready_read x = true
  end.

Lemma pair_body_spec e l port P Q w r w' x :
  winv P Q w → NoDup Q → pair_body nfc e l port (w, Locals None None true true) = (r, (w', x)) → pair_left P Q w r w' x ∧
  (∀ a, r = Ok a → proxy_event nfc (l_protocol l) (l_host l) port (e_proxy_line e) = Ok tt).
Proof.
  intros Hw HQ. unfold pair_body. rewrite inner_bind. destruct (spawn false w) as [[core|err] w1] eqn:E1;
    destruct (winv_spawn _ _ _ _ _ _ Hw E1) as (Hc1 & Hfd1 & H1); [|intros [= <- <- <-]; by unfold pair_left; intuition].
  destruct H1 as (HQ1 & Hw1 & Hn1). rewrite assign_bind, inner_bind. cbn [core_proc proxy_proc ready_read ready_write].
  destruct (spawn false w1) as [[proxy|err] w2] eqn:E2; destruct (winv_spawn _ _ _ _ _ _ Hw1 E2) as (Hc2 & Hfd2 & H2).
  2:{ intros [= <- <- <-]. destruct H2 as [Hw2 Hn2]. split; [|done]. unfold pair_left. cbn. split; [by eapply calm_trans|].
      split; [congruence|]. split; [by constructor|]. split; [done|]. split; [|done]. eapply only_new_trans; [exact Hn1|exact Hn2|set_solver]. }
  destruct H2 as (HQ2 & Hw2 & Hn2). rewrite assign_bind, inner_bind. cbn [core_proc proxy_proc ready_read ready_write]. unfold close_fd at 1, mmod at 1. cbn [fst snd].
  rewrite assign_bind, inner_bind. cbn [core_proc proxy_proc ready_read ready_write]. unfold mlift.
  set (w3 := set_fds _ w2). assert (winv P (p_pid proxy :: p_pid core :: Q) w3) as Hw3 by by apply winv_fds.
  assert (calm w w3) as Hc3 by by eapply calm_trans. assert (w_fds w3 = remove_one ReadyWrite (w_fds w)) as Hfd3 by by cbn; rewrite Hfd2, Hfd1.
  assert (only_new [p_pid proxy; p_pid core] w w3) as Hn3.
  { eapply only_new_trans; [exact Hn1|exact Hn2|set_solver]. }
  assert (NoDup ([p_pid proxy; p_pid core] ++ Q)) as Hnd by (cbn; repeat constructor; done).
  destruct (proxy_event _ _ _ _ _) as [[]|err].
  2:{ intros [= <- <- <-]. split; [|done]. unfold pair_left. cbn. split; [done|]. split; [done|]. split; [done|]. split; [done|]. by split. }
  rewrite inner_bind. destruct (still_running proxy _ w3) as [[[]|err] w4] eqn:E4; destruct (winv_still_running _ _ _ _ _ _ _ Hw3 E4) as (Hc4 & Hfd4 & Hw4 & Hn4).
  all: assert (only_new [p_pid proxy; p_pid core] w w4) as Hn5 by (eapply only_new_trans; [exact Hn3|exact Hn4|set_solver]).
  all: assert (calm w w4) as Hc5 by by eapply calm_trans.
  all: cbn; intros [= <- <- <-]; split; [|done]; unfold pair_left; cbn; split; [done|]; split; [congruence|]; split; [done|]; split; [done|]; by split.
Qed.

(** The [except] clause ends what was started. *)
Lemma discard_locals P Q w x (err : exn) r w' :
  winv P (local_pids x ++ Q) w → NoDup (local_pids x ++ Q) →
  (_ ← discard_opt (proxy_proc x); _ ← discard_opt (core_proc x); mlift (Raise err : result (process * process))) w = (r, w') →
  r = Raise err ∧ calm w w' ∧ w_fds w' = w_fds w ∧ winv P Q w' ∧ only_new [] w w' ∧ (∀ q, q ∈ local_pids x → k_alive (w_kernel w') q = false).
Proof.
  unfold mbind, M_bind. destruct x as [core proxy rr rw]. unfold local_pids. cbn. intros Hw Hnd.
  assert (∀ o Q w y w1, winv P (pids (option_list o) ++ Q) w → NoDup (pids (option_list o) ++ Q) → discard_opt o w = (y, w1) →
    y = Ok tt ∧ calm w w1 ∧ w_fds w1 = w_fds w ∧ winv P Q w1 ∧ only_new [] w w1 ∧ (∀ q, q ∈ pids (option_list o) → k_alive (w_kernel w1) q = false)) as Hone.
  { intros [p|] Q1 w0 y w1; cbn.
    - intros H0 [Hni _]%NoDup_cons Ed. destruct (winv_discard _ _ _ _ _ _ H0 Hni Ed) as (-> & ? & ? & ? & ? & ?). intuition. set_solver.
    - intros H0 _ [= <- <-]. split_and!; try done; [by intros q ?; right|by intros q []%not_elem_of_nil]. }
  rewrite fmap_app, <- app_assoc in Hw, Hnd. destruct (discard_opt proxy w) as [y1 w1] eqn:E1. destruct (Hone _ _ _ _ _ Hw Hnd E1) as (-> & Hc1 & Hfd1 & Hw1 & Hn1 & Hd1).
  apply NoDup_app in Hnd as (_ & Hdj & Hnd). destruct (discard_opt core w1) as [y2 w2] eqn:E2.
  destruct (Hone _ _ _ _ _ Hw1 Hnd E2) as (-> & Hc2 & Hfd2 & Hw2 & Hn2 & Hd2). cbn. intros [= <- <-].
  split; [done|]. split; [by eapply calm_trans|]. split; [congruence|]. split; [done|]. split; [eapply only_new_trans; [exact Hn1|exact Hn2|set_solver]|].
  intros q. rewrite fmap_app. intros [Hq|Hq]%elem_of_app; [|auto]. destruct (k_alive (w_kernel w2) q) eqn:E; [|done].
  destruct (Hn2 q E) as [[]%not_elem_of_nil|Ha]. by rewrite Hd1 in Ha.
Qed.

(** The [finally] clause. *)
Definition close_descriptors (x : locals) (l : list descriptor) : list descriptor :=
  let l := remove_one Consumer (remove_one Producer l) in
  let l := if ready_read x then remove_one ReadyRead l else l in
  if ready_write x then remove_one ReadyWrite l else l.

Lemma finally_fds x w :
  ((_ ← close_fd Producer; _ ← close_fd Consumer; _ ← close_if (ready_read x) ReadyRead; close_if (ready_write x) ReadyWrite) w).2
  = set_fds (close_descriptors x (w_fds w)) w.
Proof. unfold close_descriptors. by destruct x as [? ? [] []]. Qed.

(** The descriptors that remain when the block is left: none, or the one that
    the code forgets. *)
Lemma descriptors_left x (l l' : list descriptor) :
  l' = (if ready_write x then l ++ [Producer; Consumer; ReadyRead; ReadyWrite] else remove_one ReadyWrite (l ++ [Producer; Consumer; ReadyRead; ReadyWrite])) →
  close_descriptors x l' ≡ₚ if ready_read x then l else ReadyRead :: l.
Proof.
  intros ->. unfold close_descriptors.
  assert (remove_one ReadyWrite (l ++ [Producer; Consumer; ReadyRead; ReadyWrite]) ≡ₚ Producer :: Consumer :: ReadyRead :: l) as H1.
  { apply remove_one_cons. rewrite (Permutation_app_comm l). cbn. solve_Permutation. }
  assert (l ++ [Producer; Consumer; ReadyRead; ReadyWrite] ≡ₚ Producer :: Consumer :: ReadyRead :: ReadyWrite :: l) as H2.
  { by rewrite (Permutation_app_comm l). }
  destruct (ready_write x).
  - do 2 apply remove_one_cons in H2. destruct (ready_read x).
    + apply remove_one_cons in H2. by apply remove_one_cons.
    + apply remove_one_cons. rewrite H2. solve_Permutation.
  - do 2 apply remove_one_cons in H1. destruct (ready_read x); [by apply remove_one_cons|done].
Qed.

Lemma start_pair_spec e l port P Q w r w' :
  winv P Q w → NoDup Q → start_pair nfc e l port w = (r, w') → calm w w' ∧
  match r with
  | Ok (core, proxy) =>
      NoDup (p_pid proxy :: p_pid core :: Q) ∧ winv P (p_pid proxy :: p_pid core :: Q) w' ∧
      proxy_event nfc (l_protocol l) (l_host l) port (e_proxy_line e) = Ok tt ∧ w_fds w' ≡ₚ ReadyRead :: w_fds w
  | Raise _ => winv P Q w' ∧ only_new [] w w' ∧ w_fds w' ≡ₚ w_fds w
  end.
Proof.
  intros Hw HQ. unfold start_pair. destruct (open_fds _ w) as [u w0] eqn:E0. injection E0 as <- <-.
  set (w0 := set_fds _ w). assert (winv P Q w0) as Hw0 by by apply winv_fds.
  destruct (pair_body nfc e l port (w0, Locals None None true true)) as [r1 [w1 x]] eqn:E1.
  destruct (pair_body_spec _ _ _ _ _ _ _ _ _ Hw0 HQ E1) as [(Hc1 & Hfd1 & Hnd & Hw1 & Hn1 & Hx) Hev]. destruct r1 as [[core proxy]|err].
  - subst x. rewrite finally_fds. intros [= <- <-]. split; [done|]. split; [done|]. split; [by apply winv_fds|]. split; [by eapply Hev|].
    by apply (descriptors_left (Locals (Some core) (Some proxy) false false) (w_fds w)).
  - destruct ((_ ← discard_opt (proxy_proc x); _ ← discard_opt (core_proc x); mlift (Raise err)) w1) as [r2 w2] eqn:E2.
    destruct (discard_locals _ _ _ _ _ _ _ Hw1 Hnd E2) as (-> & Hc2 & Hfd2 & Hw2 & Hn2 & Hd). rewrite finally_fds. intros [= <- <-].
    split; [destruct Hc1 as [Ha Hb], Hc2 as [Hc Hb2]; split; cbn; [by rewrite Hc, Ha|by rewrite Hb2, Hb]|]. split; [by apply winv_fds|]. split.
    + intros q Hq. destruct (Hn2 q Hq) as [[]%not_elem_of_nil|Hq1]. destruct (Hn1 q Hq1) as [Hin|]; [|by right]. apply Hd in Hin. cbn in Hq. congruence.
    + cbn. rewrite (descriptors_left x (w_fds w)); [by rewrite Hx|]. by rewrite Hfd2, Hfd1.
Qed.

(** ** The new capsule enters the table *)
Lemma winv_enter P Q w c :
  winv P (cpids c ++ Q) w → NoDup (cpids c ++ Q) → (∀ r c', w_heap w !! r = Some c' → c_token c' ≠ c_token c) →
  c_closed c = false → c_paused c = false →
  dget (w_table w) (c_token c) = None ∧ winv P Q (World (w_heap w ++ [c]) (dset (w_table w) (c_token c) (length (w_heap w))) (w_fds w) (w_kernel w)).
Proof.
  intros [[Hk Hn Hdj Hnew] [Hd He Hop Hp Hu] Htr Hq] Hnd Hfresh Hcl Hpa.
  assert (∀ r c', (w_heap w ++ [c]) !! r = Some c' → w_heap w !! r = Some c' ∨ (r = length (w_heap w) ∧ c' = c)) as Hl.
  { intros r c' [H|[Hge H]]%lookup_app_Some; [by left|right]. apply list_lookup_singleton_Some in H as [H0 <-]. split; [lia|done]. }
  assert (∀ r c', w_heap w !! r = Some c' → (w_heap w ++ [c]) !! r = Some c') as Hr by (intros; by apply lookup_app_l_Some).
  assert ((w_heap w ++ [c]) !! length (w_heap w) = Some c) as Hlast by by apply list_lookup_middle.
  assert (dget (w_table w) (c_token c) = None) as Ht.
  { destruct (dget (w_table w) (c_token c)) as [r|] eqn:E; [|done]. apply dget_elem_of, He in E as (_ & c' & Hr' & Ht & _). by apply Hfresh in Hr'. }
  assert (∀ r c', w_heap w !! r = Some c' → r ≠ length (w_heap w)) as Hlt by (intros r c' ?%lookup_lt_Some; lia).
  apply NoDup_app in Hnd as (Hnc & HcQ & HnQ). split; [done|]. split; [split|split| |]; cbn.
  - intros q [HqQ|(r & c' & [H|[-> ->]]%Hl & Hin)]; apply Hk; [left; set_solver|eauto 6|left; set_solver].
  - intros r c' [H|[-> ->]]%Hl; eauto.
  - intros r r' c1 c2 q [H|[-> ->]]%Hl [H'|[-> ->]]%Hl Hi Hi'; [by eauto| | |done].
    + destruct (Hnew _ _ _ H Hi). set_solver.
    + destruct (Hnew _ _ _ H' Hi'). set_solver.
  - intros r c' q [H|[-> ->]]%Hl Hi HiQ; [|by eapply HcQ]. destruct (Hnew _ _ _ H Hi). set_solver.
  - by apply dwf_dset.
  - rewrite dset_None by done. intros t r [Hin|[= -> ->]%list_elem_of_singleton]%elem_of_app.
    + destruct (He t r Hin) as (HnP & c' & Hc'). split; [done|]. exists c'. naive_solver.
    + split; [|by exists c]. intros [c' Hc']%Hp. by eapply Hlt.
  - rewrite dset_None by done. intros r c' [H|[-> ->]]%Hl Hc'; [|left; set_solver]. destruct (Hop r c' H Hc'); [left; set_solver|by right].
  - intros r [c' Hc']%Hp. eauto.
  - intros r r' c1 c2 [H|[-> ->]]%Hl [H'|[-> ->]]%Hl Heq; [by eauto| | |done]; exfalso; [by eapply Hfresh|by eapply Hfresh].
  - intros r c' [H|[-> ->]]%Hl; [by eapply Htr|]. unfold truthful. rewrite Hcl, Hpa. apply Forall_forall. intros q Hin. apply Hq. set_solver.
  - intros q Hin. apply Hq. set_solver.
Qed.

(** ** The processes of a request *)

(** What is known of the processes: which Core, and where its application reaches it. *)
Definition reachable (q : request) (u : running) : Prop :=
  match u_proxy u, u_endpoint u with
  | Some _, None => l_seqpacket (u_launch u) = true
  | None, Some (h, port) => l_seqpacket (u_launch u) = false ∧ loopback h ∧ 1 ≤ port ≤ 65535
  | _, _ => False
  end.

Lemma start_processes_spec e q P Q w x w' :
  winv P Q w → NoDup Q → start_processes nfc e q w = (x, w') → calm w w' ∧
  match x with
  | Ok u =>
      launched nfc e q (u_launch u) ∧ NoDup (pids (u_core u :: option_list (u_proxy u)) ++ Q) ∧
      winv P (pids (u_core u :: option_list (u_proxy u)) ++ Q) w' ∧ reachable q u ∧
      w_fds w' ≡ₚ (if l_seqpacket (u_launch u) then [ReadyRead] else []) ++ w_fds w
  | Raise _ => winv P Q w' ∧ only_new [] w w' ∧ w_fds w' ≡ₚ w_fds w
  end.
Proof.
  intros Hw HQ. unfold start_processes, mbind, M_bind, mlift. destruct (prepare nfc e q) as [l|err] eqn:El.
  2:{ intros [= <- <-]. split; [done|]. split; [done|]. split; [|done]. by intros q0 ?; right. }
  apply prepare_Ok in El. destruct (l_seqpacket l) eqn:Es.
  - destruct (start_pair nfc e l (q_port q) w) as [[[core proxy]|err] w1] eqn:E; destruct (start_pair_spec _ _ _ _ _ _ _ _ Hw HQ E) as [Hc H];
      intros [= <- <-]; (split; [done|]); [|done]. destruct H as (Hnd & Hw1 & Hev & Hfd). unfold reachable. cbn. rewrite Es.
    assert (p_pid proxy :: p_pid core :: Q ≡ₚ p_pid core :: p_pid proxy :: Q) as Hp by apply Permutation_swap. rewrite Hp in Hnd.
    split_and!; [done|done|by eapply winv_new_perm|done|done].
  - destruct (start_owned nfc e l w) as [[[core [h port]]|err] w1] eqn:E; destruct (start_owned_spec _ _ _ _ _ _ _ Hw E) as (Hc & Hfd & H);
      intros [= <- <-]; (split; [done|]); [|by rewrite Hfd; destruct H]. destruct H as (Hni & Hw1 & Hev%boundary_event_loopback). unfold reachable. cbn. rewrite Es, Hfd.
    destruct Hev as [Hl [Hp1 Hp2]]. split_and!; try done. by constructor.
Qed.
End Start.
