(* ===== verification/CapsuleThreads.v ===== *)
(** * Capability capsules: threads

    The callers and the reaper as threads that are interleaved between the
    sections under a lock, and the invariant of every interleaving.  The
    processes of a new capsule are started in one step: until it enters the table
    no other thread knows them. *)
From Stdlib Require Import QArith.
From S2P Require Import Prelude Dict PyStr PyText PyValue CapsuleBoundary Capsules CapsuleKernel CapsuleFacts CapsuleStart.
#[local] Open Scope Z_scope.

(** Where a thread is: between two calls, about to close capsules that it has
    taken out of the table, inside [pause], [resume] or [stop] with the capsule
    that [get] returned, or in [start] with its processes running. *)
Inductive thread :=
| Idle
| Closing (l : list nat)
| Pausing (t : pystr) (r : nat)
| Resuming (t : pystr) (r : nat)
| Stopping (t : pystr) (r : nat)
| Entering (q : request) (u : running).

Definition u_processes (u : running) : list process := u_core u :: option_list (u_proxy u).

Section Threads.
Context {K : Type} `{!Kernel K, !KernelView K, !KernelLaws K} (nfc : pystr → pystr).
Implicit Types (w : world K) (k : K) (r : nat) (t : pystr).

Inductive thread_step : thread → world K → thread → world K → Prop :=
| st_expire now w l w' : pop_expired now w = (Ok l, w') → thread_step Idle w (Closing l) w'
| st_live now t r w w' next : find_capsule now t w = (Ok (Live r), w') →
    next ∈ [Idle; Pausing t r; Resuming t r; Stopping t r] → thread_step Idle w next w'
| st_dead now t r w w' : find_capsule now t w = (Ok (Dead r), w') → thread_step Idle w (Closing [r]) w'
| st_unknown now t e w w' : find_capsule now t w = (Raise e, w') → thread_step Idle w Idle w'
| st_close r l w w' : close r w = (Ok tt, w') → thread_step (Closing (r :: l)) w (Closing l) w'
| st_close_fails r l e w w' : close r w = (Raise e, w') → thread_step (Closing (r :: l)) w Idle w'
| st_closed w : thread_step (Closing []) w Idle w
| st_pause t r x w w' : pause_section r w = (x, w') → thread_step (Pausing t r) w Idle w'
| st_resume t r x w w' : resume_section r w = (x, w') → thread_step (Resuming t r) w Idle w'
| st_stop t r w w' : pop t w = (Ok tt, w') → thread_step (Stopping t r) w (Closing [r]) w'
| st_start e q u w w' : start_processes nfc e q w = (Ok u, w') → thread_step Idle w (Entering q u) w'
| st_start_fails e q x w w' : start_processes nfc e q w = (Raise x, w') → thread_step Idle w Idle w'
| st_enter q u token created w w' :
    (∀ r c, w_heap w !! r = Some c → c_token c ≠ token) →
    enter_capsule (make_capsule q u token created) w = (Ok tt, w') → thread_step (Entering q u) w Idle w'.

(** One thread moves, or processes end. *)
Inductive step : list thread * world K → list thread * world K → Prop :=
| step_thread ts1 th ts2 w th' w' : thread_step th w th' w' → step (ts1 ++ th :: ts2, w) (ts1 ++ th' :: ts2, w')
| step_time ts w k' : frame (λ _, False) (w_kernel w) k' → step (ts, w) (ts, with_kernel k' w).

(** ** The invariant of all threads *)
Definition closes (th : thread) : list nat := match th with Closing l => l | _ => [] end.
Definition starts (th : thread) : list Z := match th with Entering _ u => pids (u_processes u) | _ => [] end.
Definition holds w (th : thread) : Prop :=
  match th with
  | Pausing t r | Resuming t r | Stopping t r => ∃ c, w_heap w !! r = Some c ∧ c_token c = t
  | _ => True
  end.

Record tinv (ts : list thread) w : Prop := {
  ti_world : winv (ts ≫= closes) (ts ≫= starts) w;
  ti_starts : NoDup (ts ≫= starts);
  ti_holds th : th ∈ ts → holds w th }.

Lemma holds_extends w w' th : extends w w' → holds w th → holds w' th.
Proof.
  intros He. destruct th; cbn; try done; intros (c & Hr & Ht); destruct (He _ _ Hr) as (c' & Hr' & Ht' & _); exists c'; split; congruence.
Qed.

Lemma same_heap_extends w w' : w_heap w' = w_heap w → extends w w'.
Proof. intros H r c. rewrite H. eauto. Qed.

(** What a step has to establish, seen from the thread that moves: the others
    still have [P] to close and [Q] in the making. *)
Lemma thread_step_inv P Q th w th' w' :
  thread_step th w th' w' → winv (closes th ++ P) (starts th ++ Q) w → NoDup (starts th ++ Q) → holds w th →
  winv (closes th' ++ P) (starts th' ++ Q) w' ∧ NoDup (starts th' ++ Q) ∧ extends w w' ∧ holds w' th'.
Proof.
  intros Hstep Hw Hnd Hh. destruct Hstep; cbn [closes starts app holds] in *.
  - destruct (pop_expired_spec _ _ _ now Hw) as (l' & w2 & E & Hw2 & Hheap & _). assert (l' = l ∧ w2 = w') as [-> ->] by (split; congruence). by eauto using same_heap_extends.
  - match goal with H : find_capsule _ _ _ = _ |- _ => destruct (find_capsule_spec _ _ _ _ _ _ _ Hw H) as (Hheap & Hget & Hu & Hw2 & Ht) end.
    assert (∃ c, w_heap w' !! r = Some c ∧ c_token c = t) as Hc.
    { destruct (tb_entry _ _ (wi_table _ _ _ Hw) _ _ (dget_elem_of _ _ _ Hget)) as (_ & c & Hr & Htok & _). rewrite Hheap. eauto. }
    set_unfold. destruct_or!; subst; cbn [closes starts app holds]; eauto using same_heap_extends.
  - match goal with H : find_capsule _ _ _ = _ |- _ => destruct (find_capsule_spec _ _ _ _ _ _ _ Hw H) as (Hheap & Hget & Hw2 & Ht) end.
    by eauto using same_heap_extends.
  - match goal with H : find_capsule _ _ _ = _ |- _ => destruct (find_capsule_spec _ _ _ _ _ _ _ Hw H) as (_ & _ & _ & ->) end. by eauto using extends_refl.
  - match goal with H : close _ _ = _ |- _ => destruct (close_spec _ _ _ _ _ _ Hw (list_elem_of_here _ _) H) as (_ & Hw2 & He & _ & c & Hc & Hcl) end.
    split_and!; [|done|done|done]. eapply winv_settled; [exact Hw2|set_solver|]. intros r' c' [->|Hin]%elem_of_cons Hr' Hc'; [congruence|done].
  - match goal with H : close _ _ = _ |- _ => by destruct (close_spec _ _ _ _ _ _ Hw (list_elem_of_here _ _) H) as (? & _) end.
  - by eauto using extends_refl.
  - destruct Hh as (c & Hr & _). match goal with H : pause_section _ _ = _ |- _ => destruct (section_spec true _ _ _ _ _ _ _ Hw Hr H) as (? & ? & _) end. done.
  - destruct Hh as (c & Hr & _). match goal with H : resume_section _ _ = _ |- _ => destruct (section_spec false _ _ _ _ _ _ _ Hw Hr H) as (? & ? & _) end. done.
  - destruct Hh as (c & Hr & Ht). match goal with H : pop _ _ = _ |- _ => injection H as <- end.
    split_and!; [by eapply winv_pop|done|by apply same_heap_extends|done].
  - match goal with H : start_processes _ _ _ _ = _ |- _ => destruct (start_processes_spec nfc _ _ _ _ _ _ _ Hw Hnd H) as ([Hheap _] & _ & Hnd' & Hw2 & _) end.
    by eauto using same_heap_extends.
  - match goal with H : start_processes _ _ _ _ = _ |- _ => destruct (start_processes_spec nfc _ _ _ _ _ _ _ Hw Hnd H) as ([Hheap _] & Hw2 & _) end.
    by eauto using same_heap_extends.
  - match goal with H : enter_capsule _ _ = _ |- _ => injection H as <- end.
    destruct (winv_enter nfc P Q w (make_capsule q u token created)) as [_ Hw2]; [done..|]. split_and!; [done| |intros r c Hr; exists c; split; [by apply lookup_app_l_Some|done]|done].
    by apply NoDup_app in Hnd as (_ & _ & ?).
Qed.

Lemma bind_middle {A} (f : thread → list A) ts1 th ts2 : (ts1 ++ th :: ts2) ≫= f ≡ₚ f th ++ (ts1 ++ ts2) ≫= f.
Proof. rewrite !bind_app, bind_cons. rewrite !(assoc_L (++)). by rewrite (Permutation_app_comm (ts1 ≫= f) (f th)). Qed.

Lemma winv_perm P P' Q Q' w : P ≡ₚ P' → Q ≡ₚ Q' → winv P Q w → winv P' Q' w.
Proof.
  intros HP HQ Hw. apply (winv_new_perm _ Q); [done|]. eapply winv_settled; [exact Hw|by intros r; rewrite HP|by intros r c; rewrite HP].
Qed.

Lemma step_inv s s' : step s s' → tinv s.1 s.2 → tinv s'.1 s'.2.
Proof.
  intros [ts1 th ts2 w th' w' Hs|ts w k' Hf] [Hw Hnd Hh]; cbn in *.
  - apply (thread_step_inv ((ts1 ++ ts2) ≫= closes) ((ts1 ++ ts2) ≫= starts)) in Hs as (Hw' & Hnd' & He & Hh').
    + split; [by eapply winv_perm; [symmetry; apply bind_middle..|]|by rewrite bind_middle|].
      intros th0 [Hin|[->|Hin]%elem_of_cons]%elem_of_app; [|done|]; (eapply holds_extends; [exact He|apply Hh; set_solver]).
    + by eapply winv_perm; [apply bind_middle..|].
    + by rewrite <- bind_middle.
    + apply Hh. set_solver.
  - split; [by apply winv_quiet, frame_passes|done|]. intros th Hin. apply (holds_extends w); [by apply same_heap_extends|by apply Hh].
Qed.

(** A process that has just been started: callers, and no capsule yet. *)
Definition initial (n : nat) k : list thread * world K := (replicate n Idle, World [] [] [] k).

Lemma initial_inv n k : tinv (initial n k).1 (initial n k).2.
Proof.
  assert (∀ A (f : thread → list A), f Idle = [] → replicate n Idle ≫= f = []) as Hnil.
  { intros A f Hf. induction n as [|n IH]; cbn; [done|]. by rewrite Hf. }
  split; cbn; rewrite ?Hnil by done.
  - split; [split|split| |]; cbn; try done; try (by intros ? ?%not_elem_of_nil); try (by intros ? ? ?%not_elem_of_nil).
    + intros q [?%not_elem_of_nil|(r & c & ? & _)]; done.
    + apply dwf_nil.
  - apply NoDup_nil_2.
  - intros th [-> _]%elem_of_replicate. done.
Qed.

Lemma reachable_inv n k s : rtc step (initial n k) s → tinv s.1 s.2.
Proof.
  intros H. assert (tinv (initial n k).1 (initial n k).2 → tinv s.1 s.2) as Hgo; [|by apply Hgo, initial_inv].
  induction H as [|s1 s2 s3 Hs _ IH]; [done|]. intros Hi. by apply IH, (step_inv s1).
Qed.

(** ** Whole calls *)

(** [get] hands out a capsule that lives, or ends the one under the token. *)
Lemma get_spec P Q w now t x w' :
  winv P Q w → get now t w = (x, w') → winv P Q w' ∧ extends w w' ∧
  match x with
  | Ok r => dget (w_table w) t = Some r ∧ usable now w r ∧ w_table w' = w_table w
  | Raise e => exn_cls e = ValueError ∧ w_table w' = ddel (w_table w) t ∧
      ∀ r, dget (w_table w) t = Some r → ∃ c, w_heap w' !! r = Some c ∧ c_closed c = true
  end.
Proof.
  intros Hw. unfold get, mbind, M_bind. destruct (find_capsule now t w) as [[[r|r]|e] w1] eqn:E;
    destruct (find_capsule_spec _ _ _ _ _ _ _ Hw E) as (Hheap & H).
  - intros [= <- <-]. destruct H as (? & ? & ? & ?). by eauto 6 using same_heap_extends.
  - destruct H as (Hget & Hw1 & Ht). destruct (close r w1) as [y w2] eqn:Ec.
    destruct (close_spec _ _ _ _ _ _ Hw1 (list_elem_of_here _ _) Ec) as (-> & Hw2 & He & Ht2 & c & Hc & Hcl). intros [= <- <-].
    split; [|split; [eapply extends_trans; [by apply same_heap_extends|done]|]].
    + eapply winv_settled; [exact Hw2|set_solver|]. intros r' c' [->|Hin]%elem_of_cons Hr' Hc'; [congruence|done].
    + split; [done|]. split; [congruence|]. intros r' Hr'. simplify_eq. eauto.
  - intros [= <- <-]. destruct H as (He & Hn & ->). split; [done|]. split; [apply extends_refl|]. split; [done|]. split; [|congruence].
    symmetry. by apply ddel_notin.
Qed.

Lemma stop_spec P Q w now t x w' :
  winv P Q w → stop now t w = (x, w') → winv P Q w' ∧ extends w w' ∧ w_table w' = ddel (w_table w) t ∧
  (∀ r, dget (w_table w) t = Some r → ∃ c, w_heap w' !! r = Some c ∧ c_closed c = true) ∧
  (x = Ok tt ∨ ∃ e, x = Raise e ∧ exn_cls e = ValueError).
Proof.
  intros Hw. unfold stop. unfold mbind at 1, M_bind at 1. destruct (get now t w) as [[r|e] w1] eqn:E; destruct (get_spec _ _ _ _ _ _ _ Hw E) as (Hw1 & He1 & H).
  - destruct H as (Hget & Hu & Ht). unfold mbind, M_bind, pop, mmod. intros Ec.
    destruct (tb_entry _ _ (wi_table _ _ _ Hw) _ _ (dget_elem_of _ _ _ Hget)) as (_ & c & Hr & Htok & _). destruct (He1 r c Hr) as (c1 & Hr1 & Htok1 & _).
    pose proof (winv_pop _ _ _ t _ _ Hw1 Hr1 (eq_trans Htok1 Htok)) as Hw2.
    destruct (close_spec _ _ _ _ _ _ Hw2 (list_elem_of_here _ _) Ec) as (-> & Hw3 & He & Ht3 & c3 & Hc & Hcl). split_and!.
    + eapply winv_settled; [exact Hw3|set_solver|]. intros r' c' [->|Hin]%elem_of_cons Hr' Hc'; [congruence|done].
    + eapply extends_trans; [exact He1|]. eapply extends_trans; [|exact He]. by apply same_heap_extends.
    + rewrite Ht3. cbn. by rewrite Ht.
    + intros r' Hr'. simplify_eq. eauto.
    + by left.
  - intros [= <- <-]. destruct H as (He & Ht & Hcl). split_and!; try done. right. eauto.
Qed.

Lemma reap_expired_spec P Q w now x w' :
  winv P Q w → _reap_expired now w = (x, w') → winv P Q w' ∧ extends w w' ∧ (∃ n, x = Ok n) ∧
  (∀ t r, (t, r) ∈ w_table w' ↔ (t, r) ∈ w_table w ∧ expired_ref now w r = false) ∧
  (∀ t r, (t, r) ∈ w_table w → expired_ref now w r = true → ∃ c, w_heap w' !! r = Some c ∧ c_closed c = true).
Proof.
  intros Hw. unfold _reap_expired, mbind, M_bind. destruct (pop_expired_spec _ _ _ now Hw) as (l & w1 & -> & Hw1 & Hheap & _ & Htab & Hl).
  destruct (close_each l w1) as [y w2] eqn:E. destruct (close_each_spec _ _ _ _ _ _ Hw1 E) as (-> & Hw2 & He & Ht & Hcl). intros [= <- <-].
  split_and!; [done|eapply extends_trans; [by apply same_heap_extends|done]|eauto|by rewrite Ht|]. intros t r Hin Hex. apply Hcl, Hl. eauto.
Qed.
End Threads.
