(* ===== verification/CapsuleSim.v ===== *)
(** * Capability capsules: an executable operating system

    Processes with the reactions to signals that the capsules rely on: a stopped
    process keeps a termination signal until it is continued, and every second
    process ignores it.  The laws of [Kernel] hold of it. *)
From stdpp Require Import functions.
From S2P Require Import Prelude Dict PyStr PyText PyValue CapsuleBoundary Capsules CapsuleKernel.

Record sim_process := SimProcess { x_alive : bool; x_stopped : bool; x_pending : bool }.
Record sim := Sim { x_procs : Z → sim_process; x_next : Z }.

(** Which processes ignore SIGTERM. *)
Definition stubborn (p : Z) : bool := Z.odd p.

Definition react (p : Z) (s : signal) (x : sim_process) : sim_process :=
  match s with
  | SIGTERM => if stubborn p then x else if x_stopped x then SimProcess (x_alive x) true true else SimProcess false (x_stopped x) false
  | SIGCONT => SimProcess (x_alive x && negb (x_pending x)) false false
  | SIGSTOP => SimProcess (x_alive x) true (x_pending x)
  | SIGKILL => SimProcess false (x_stopped x) (x_pending x)
  end.

Definition sim_alive (k : sim) (p : Z) : bool := (p <? x_next k) && x_alive (x_procs k p).

#[global] Instance sim_kernel : Kernel sim := {|
  k_spawn := λ k, (Ok (x_next k), Sim (<[x_next k := SimProcess true false false]> (x_procs k)) (x_next k + 1));
  k_poll := λ p k, (sim_alive k p, k);
  k_wait := λ p k, (negb (sim_alive k p), k);
  k_killpg := λ p s k, if sim_alive k p then (Ok tt, Sim (<[p := react p s (x_procs k p)]> (x_procs k)) (x_next k))
                       else (raise ProcessLookupError "no such process group", k);
  k_close_stdout := λ _ k, k |}.

#[global] Instance sim_view : KernelView sim := {|
  k_known := λ k p, p <? x_next k; k_alive := sim_alive; k_stopped := λ k p, x_stopped (x_procs k p) |}.

Lemma react_alive p s x : x_alive (react p s x) = true → x_alive x = true.
Proof. destruct s; cbn; [destruct (stubborn p), (x_stopped x)|intros [? _]%andb_true_iff|..]; done. Qed.

Lemma sim_killpg_frame p s (k : sim) :
  frame (λ q, q = p) k (Sim (<[p := react p s (x_procs k p)]> (x_procs k)) (x_next k)).
Proof.
  assert (∀ q, k_alive (Sim (<[p := react p s (x_procs k p)]> (x_procs k)) (x_next k)) q = true → k_alive k q = true) as Ha.
  { intros q. cbn. unfold sim_alive. cbn. intros [-> H]%andb_true_iff. destruct (decide (q = p)) as [->|Hne].
    - rewrite fn_lookup_insert in H. by rewrite (react_alive _ _ _ H).
    - by rewrite fn_lookup_insert_ne in H. }
  split; [|done]. intros q Hq. split_and!; [done|by apply Ha|]. intros Hne. cbn. by rewrite fn_lookup_insert_ne.
Qed.

#[global] Instance sim_laws : KernelLaws sim.
Proof.
  split.
  - intros k r k' [= <- <-]. set (k' := Sim _ _). assert (∀ q, k_alive k' q = true → q = x_next k ∨ k_alive k q = true) as Ha.
    { intros q. cbn. unfold sim_alive, k'. cbn. destruct (decide (q = x_next k)) as [->|Hne]; [by left|]. rewrite fn_lookup_insert_ne by done.
      intros [Hlt%Z.ltb_lt H]%andb_true_iff. right. rewrite H, andb_true_r. apply Z.ltb_lt. lia. }
    split.
    + intros q Hq%Z.ltb_lt. split_and!; [by apply Z.ltb_lt; cbn; lia|intros [->|]%Ha; [lia|done]|intros _; cbn; rewrite fn_lookup_insert_ne; [done|lia]].
    + split_and!; [by apply Z.ltb_ge; cbn; lia|by apply Z.ltb_lt; cbn; lia| |done]. intros _. cbn. by rewrite fn_lookup_insert.
  - intros p k b k' [= <- <-]. split; [apply frame_refl|]. done.
  - intros p k b k' [= <- <-]. split; [apply frame_refl|]. by intros ?%negb_true_iff.
  - intros p k. apply frame_refl.
  - intros p s k r k' _. cbn. destruct (sim_alive k p) eqn:E; intros [= <- <-]; [|split; [apply frame_refl|done]].
    split; [apply sim_killpg_frame|]. destruct s; cbn; unfold halts, sim_alive; cbn; rewrite ?fn_lookup_insert; try done. by rewrite andb_false_r.
Qed.

Definition sim_start : sim := Sim (λ _, SimProcess false false false) 100.
