(* ===== verification/CapsuleClaims.v ===== *)
(** * Capability capsules: what they promise *)
From Stdlib Require Import QArith.
From S2P Require Import Prelude Dict PyStr PyText PyValue Json StrictJson CapsuleBoundary Capsules CapsuleKernel CapsuleFacts CapsuleStart CapsuleThreads CapsuleSim.
#[local] Open Scope Z_scope.

Section Claims.
Context {K : Type} `{!Kernel K, !KernelView K, !KernelLaws K} (nfc : pystr → pystr).

(** The processes of a capsule have all ended. *)
Definition ended (k : K) (c : capsule) : Prop := Forall (λ q, k_alive k q = false) (pids (c_processes c)).

(** C17: No capsule is lost and none outlives its closing.  Whatever the
    interleaving of any number of callers with the reaper, and whenever processes
    end by themselves: a capsule that was started is closed and all its processes
    have ended, or it is open, its processes are stopped exactly if it says it is
    paused, and it is in the table under its own token or a thread is about to
    close it.  A token denotes an open capsule. *)
Theorem capsules_accounted n k ts w :
  rtc (step nfc) (initial n k) (ts, w) →
  (∀ r c, w_heap w !! r = Some c →
     (c_closed c = true ∧ ended (w_kernel w) c) ∨
     (c_closed c = false ∧ Forall (halts (c_paused c) (w_kernel w)) (pids (c_processes c)) ∧
      (dget (w_table w) (c_token c) = Some r ∨ ∃ l, Closing l ∈ ts ∧ r ∈ l))) ∧
  (∀ t r, dget (w_table w) t = Some r → ∃ c, w_heap w !! r = Some c ∧ c_token c = t ∧ c_closed c = false).
Proof.
  intros [Hw _ _]%reachable_inv. cbn in Hw. split.
  - intros r c Hr. pose proof (wi_truth _ _ _ Hw _ _ Hr) as Htr. unfold truthful in Htr. destruct (c_closed c) eqn:Hc; [by left|right].
    split; [done|split; [done|]]. destruct (tb_open _ _ (wi_table _ _ _ Hw) _ _ Hr Hc) as [Hin|Hin].
    + left. apply elem_of_dget; [apply Hw|done].
    + right. apply list_elem_of_bind in Hin as (th & Hin & Hth). destruct th; cbn in Hin; try by apply not_elem_of_nil in Hin. eauto.
  - intros t r Hd%dget_elem_of. by destruct (tb_entry _ _ (wi_table _ _ _ Hw) _ _ Hd) as (_ & c & ?); eauto.
Qed.



(** The reading end of the readiness pipe stays open after every successful start
    with a proxy. *)
Theorem proxy_pipe_leaks P Q (w w' : world K) e q token created s :
  winv P Q w → NoDup Q → start nfc e q token created w = (Ok s, w') → r_proxy s ≠ None → w_fds w' ≡ₚ ReadyRead :: w_fds w.
Proof.
  intros Hw Hnd. unfold start. unfold mbind at 1, M_bind at 1.
  destruct (start_processes nfc e q w) as [[u|err] w1] eqn:E; destruct (start_processes_spec nfc _ _ _ _ _ _ _ Hw Hnd E) as [_ H]; [|done].
  destruct H as (_ & _ & _ & Hreach & Hfd). intros [= <- <-]. cbn. unfold reachable in Hreach.
  destruct (u_proxy u), (u_endpoint u) as [[]|]; try done. by rewrite Hreach in Hfd.
Qed.
End Claims.

(** ** A concrete run

    A Core with a stream and a record boundary; its capsule is started with a
    proxy, paused, and stopped by another caller. *)
Definition doc (l : list (string * pyval)) : pystr := dumps compact_opts (VDict (mkdict l)).
Definition demo_stat : stat := Stat true 1000 384 100 7 8 1.
Definition demo_records : pydict := mkdict [("mode", txt "seqpacket-fd"); ("roles", txts ["client"]); ("max_record", VInt 1000)].
Definition demo_stream : pydict := mkdict
  [("kind", txt "stream"); ("mode", txt "localhost-tcp-proxy"); ("roles", txts ["client"]); ("listener_ownership", txt "core");
   ("endpoint_discovery", txt "stdout-ready-jsonl-v1")].
Definition demo_env : surroundings :=
  Surroundings 1000
    (FileView (Some demo_stat) false (Ok demo_stat)
       (Ok (doc [("demo", VDict (mkdict [("binary", txt "/opt/core"); ("max_record", VInt 512)]))])))
    (FileView (Some demo_stat) false (Ok demo_stat) (Ok (str "/etc/client.json")))
    Ok (λ _, Some (0, doc [("core", txt "shadow6-demo"); ("application_boundaries", VList [VDict demo_records; VDict demo_stream])]))
    (Some (str "/opt/proxy")) Ok (Some (str "/usr/bin/python3")) true
    (Some (doc [("event", txt "shadow6.app-flow-proxy.ready"); ("schema", VInt 1); ("protocol", txt "tcp"); ("host", txt "127.0.0.1");
                ("port", VInt 8080)] ++ [10]))
    (Some (Some (doc [("event", txt "shadow6.ready"); ("schema", VInt 1); ("core", txt "shadow6-demo"); ("role", txt "client");
                ("application_boundary", VDict (mkdict [("kind", txt "stream"); ("mode", txt "localhost-tcp-proxy");
                   ("endpoint", VDict (mkdict [("host", txt "127.0.0.1"); ("port", VInt 4001)]))]))] ++ [10]))).

Definition demo_request : request := Request (str "demo") VNone VNone (VInt 8080) VNone (VInt 60) (txt "seqpacket-fd").
Definition stream_request : request := Request (str "demo") VNone VNone VNone VNone (VInt 60) VNone.
Definition demo_running : running :=
  Running (Launch true (txt "tcp") (txt "127.0.0.1") (VInt 512) (vset demo_records "core" (txt "shadow6-demo")) 60)
    (Process 100 false) (Some (Process 101 false)) None.

Definition world0 : world sim := World [] [] [] sim_start.
Definition world1 : world sim := (start_processes id demo_env demo_request world0).2.
Definition world2 : world sim := (enter_capsule (make_capsule demo_request demo_running (str "T") 0) world1).2.
Definition world3 : world sim := (find_capsule 10 (str "T") world2).2.
Definition world4 : world sim := (pause_section 0 world3).2.
Definition world5 : world sim := (find_capsule 20 (str "T") world4).2.
Definition world6 : world sim := (pop (str "T") world5).2.

Lemma fst_is {A B} (p : A * B) a : p.1 = a → p = (a, p.2).
Proof. destruct p. by intros <-. Qed.

(** The capsule is started and paused. *)
Lemma demo_paused : rtc (step id) (initial 2 sim_start) ([Idle; Idle], world4).
Proof.
  eapply rtc_l. { apply (step_thread id [] Idle [Idle]), (st_start id demo_env demo_request demo_running world0 world1), fst_is. vm_compute. reflexivity. }
  eapply rtc_l. { apply (step_thread id [] _ [Idle]), (st_enter id demo_request demo_running (str "T") 0 world1 world2); [|reflexivity].
    intros r c Hr. exfalso. vm_compute in Hr. by destruct r. }
  eapply rtc_l. { eapply (step_thread id [] _ [Idle]), (st_live id 10 (str "T") 0 world2 world3 (Pausing (str "T") 0)); [apply fst_is; vm_compute; reflexivity|set_solver]. }
  eapply rtc_l. { apply (step_thread id [] _ [Idle]), (st_pause id (str "T") 0 (Ok tt) world3 world4), fst_is. vm_compute. reflexivity. }
  apply rtc_refl.
Qed.

(** Another caller has taken it out of the table and is about to close it. *)
Lemma demo_stopping : rtc (step id) (initial 2 sim_start) ([Idle; Closing [0%nat]], world6).
Proof.
  etrans; [apply demo_paused|].
  eapply rtc_l. { apply (step_thread id [Idle] _ []), (st_live id 20 (str "T") 0 world4 world5 (Stopping (str "T") 0)); [apply fst_is; vm_compute; reflexivity|set_solver]. }
  eapply rtc_l. { apply (step_thread id [Idle] _ []), (st_stop id (str "T") 0 world5 world6). reflexivity. }
  apply rtc_refl.
Qed.

Lemma capsules_accounted_witness :
  ∃ c, w_heap world6 !! 0%nat = Some c ∧ c_closed c = false ∧ c_paused c = true ∧ Forall (halts true (w_kernel world6)) [100; 101] ∧
    (dget (w_table world6) (str "T") = Some 0%nat ∨ ∃ l, Closing l ∈ [Idle; Closing [0%nat]] ∧ 0%nat ∈ l).
Proof.
  destruct (capsules_accounted id 2 sim_start _ world6 demo_stopping) as [H _].
  destruct (w_heap world6 !! 0%nat) as [c|] eqn:E; [|vm_compute in E; discriminate]. exists c. specialize (H _ _ E).
  assert (c_closed c = false ∧ c_paused c = true ∧ pids (c_processes c) = [100; 101] ∧ c_token c = str "T") as (Hc & Hp & Hl & Ht).
  { vm_compute in E. injection E as <-. by vm_compute. }
  destruct H as [[H _]|(_ & Hh & Hw)]; [congruence|]. rewrite Hp, Hl in Hh. rewrite Ht in Hw.
  exact (conj eq_refl (conj Hc (conj Hp (conj Hh Hw)))).
Defined.


