(* ===== verification/Attachment.v ===== *)
(** * The material of an S6NA attachment

    [Deployment/credited_attachment.py]: the private configuration and key of an
    attachment are checked and digested before a plan is locked to them.  What
    [private_read] returns for the configuration and for a key file, and whether
    the adapter's module is installed, are arguments. *)
From Stdlib Require Import QArith Qabs Qminmax.
From S2P Require Import Prelude Dict PyStr PyText PyValue Json JsonRound StrictJson Sha256 S6naCodec S6naAdapter.
From S2P Require Import S6naInvariant S6naSender S6naReceiver S6naSystem Net.
#[local] Open Scope Z_scope.

(** Map the Gleam companion profile onto its own S6NA policy. *)
Definition credited_core (core : pystr) (profile_binding : pyval) : pystr :=
  match profile_binding with
  | VDict b => if bool_decide (core = str "gleam") && eq_str (vget_none b "profile") "gleam-micro-mux" then str "gleam-mux" else core
  | _ => core
  end.

Definition attachment_allowed : list string := ["schema"; "core"; "key_file"; "bind"; "peer"; "side"; "stream"; "limits"].
Definition attachment_required : list string := ["schema"; "core"; "key_file"; "bind"; "peer"].

(** One endpoint: a literal address and a port; [low] is the least port. *)
Definition attachment_endpoint (low : Z) (peer : bool) (v : pyval) : result (ip_address * Z) :=
  match v with
  | VList [VStr host; VInt port] =>
      match parse_ip host with
      | None => raise ValueError "S6NA endpoints require literal IP addresses"
      | Some address =>
          _ ← raise_if (is_multicast address || (peer && is_unspecified address)) ValueError "invalid S6NA address";
          _ ← raise_if (negb (between low port 65535)) ValueError "invalid S6NA port";
          Ok (address, port)
      end
  | _ => raise ValueError "invalid S6NA endpoint"
  end.

Definition ip_version (a : ip_address) : Z := match a with IPv4 _ => 4 | IPv6 _ _ => 6 end.

(** The largest record of the credited boundary. *)
Definition boundary_maximum (lim : limits) (pol : policy) : Z :=
  let payload := if payload_bytes lim =? 0 then p_payload pol else payload_bytes lim in
  let window := Z.min (if window_frames lim =? 0 then p_window pol else window_frames lim) (max_window lim) in
  Z.min 65536 (Z.min (max_message lim) (payload * window)).

Record attachment := Attachment {
  at_config_path : pystr; at_config_digest : pystr; at_key_path : pystr; at_key_digest : pystr; at_core : pystr; at_maximum : Z }.

(** What the attachment says besides: the key, the direction, the stream and the limits. *)
Record material := Material { mt_key : bytes; mt_side : Z; mt_stream : Z; mt_limits : limits }.

Section Attachment.
Context (nfc : pystr → pystr).

(** The core of the attachment. *)
Definition attachment_core (v : pyval) (expected_core : option pystr) : result pystr :=
  match v with
  | VStr core =>
      _ ← raise_if (negb (forallb is_ascii core) || bool_decide (core = []) || (32 <? zlen core)) ValueError "invalid S6NA Profile family";
      _ ← raise_if (match expected_core with Some e => negb (bool_decide (core = e)) | None => false end) ValueError
            "S6NA attachment Core differs from Named Service";
      Ok core
  | _ => raise ValueError "invalid S6NA Profile family"
  end.

(** The key file, by its absolute path. *)
Definition attachment_key (read_key : pystr → result bytes) (v : pyval) : result (pystr * bytes) :=
  match v with
  | VStr path =>
      _ ← raise_if (negb (starts_with (str "/") path)) ValueError "S6NA key_file must be absolute";
      key ← read_key path;
      _ ← raise_if (negb (zlen key =? 32)) ValueError "S6NA key must contain exactly 32 bytes";
      Ok (path, key)
  | _ => raise ValueError "S6NA key_file must be absolute"
  end.

Definition attachment_limits (installed : bool) (v : pyval) : result limits :=
  match v with
  | VDict l =>
      _ ← raise_if (negb installed) ValueError "S6NA runtime module is unavailable";
      _ ← raise_if (negb (keys_within l limit_names)) ValueError "invalid S6NA limits";
      make_limits l
  | _ => raise ValueError "invalid S6NA limits"
  end.

(** Direction and stream. *)
Definition attachment_stream (lim : limits) (value : pydict) : result (Z * Z) :=
  match vget_or value "side" (VInt 0), vget_or value "stream" (VInt 0) with
  | VInt side, VInt stream =>
      _ ← raise_if (negb ((side =? 0) || (side =? 1))) ValueError "invalid S6NA direction";
      _ ← raise_if (negb ((0 <=? stream) && (stream <? max_streams lim))) ValueError "invalid S6NA application stream";
      Ok (side, stream)
  | VInt side, _ =>
      _ ← raise_if (negb ((side =? 0) || (side =? 1))) ValueError "invalid S6NA direction"; raise ValueError "invalid S6NA application stream"
  | _, _ => raise ValueError "invalid S6NA direction"
  end.

Definition validate_attachment_full (path : pystr) (config : result bytes) (read_key : pystr → result bytes) (installed : bool)
    (expected_core : option pystr) : result (attachment * material) :=
  config_bytes ← config;
  value ← strict_json nfc LIMIT STRING_LIMIT (JBytes config_bytes);
  match value with
  | VDict v =>
      _ ← raise_if (negb (keys_within v attachment_allowed) || negb (keys_cover v attachment_required)
                    || negb (eq_str (vget_none v "schema") "shadow6.s6na-attachment.v1")) ValueError "invalid S6NA attachment schema";
      core ← attachment_core (vget_none v "core") expected_core;
      '(key_path, key) ← attachment_key read_key (vget_none v "key_file");
      '(bind, _) ← attachment_endpoint 0 false (vget_none v "bind");
      '(peer, _) ← attachment_endpoint 1 true (vget_none v "peer");
      _ ← raise_if (negb (ip_version bind =? ip_version peer)) ValueError "S6NA address families differ";
      lim ← attachment_limits installed (vget_or v "limits" (VDict []));
      match dget PROFILES core with
      | None => raise ValueError "InvalidCreditedProfile"
      | Some pol =>
          '(side, stream) ← attachment_stream lim v;
          Ok (Attachment path (str "sha256:" ++ sha256_hex config_bytes) key_path (str "sha256:" ++ sha256_hex key) core (boundary_maximum lim pol),
              Material key side stream lim)
      end
  | _ => raise ValueError "invalid S6NA attachment schema"
  end.

(** [validate_attachment]: the digests, and nothing of the material itself. *)
Definition validate_attachment (path : pystr) (config : result bytes) (read_key : pystr → result bytes) (installed : bool)
    (expected_core : option pystr) : result attachment :=
  '(a, _) ← validate_attachment_full path config read_key installed expected_core; Ok a.
End Attachment.

(** * S6NA attachments: what is admitted can carry its records *)

Lemma bind_pair_Ok {A B C} (m : result (A * B)) (f : A → B → result C) c :
  ('(a, b) ← m; f a b) = Ok c → ∃ a b, m = Ok (a, b) ∧ f a b = Ok c.
Proof. destruct m as [[a b]|e]; [by eauto|done]. Qed.

(** What an accepted attachment is made of. *)
Lemma validated_material nfc path config read_key installed expected a m :
  validate_attachment_full nfc path config read_key installed expected = Ok (a, m) →
  limits_ok (mt_limits m) ∧ zlen (mt_key m) = 32 ∧ (mt_side m = 0 ∨ mt_side m = 1) ∧ 0 ≤ mt_stream m < max_streams (mt_limits m) ∧
  (∀ e, expected = Some e → at_core a = e) ∧ read_key (at_key_path a) = Ok (mt_key m) ∧ at_key_digest a = str "sha256:" ++ sha256_hex (mt_key m) ∧
  (∃ b, config = Ok b ∧ at_config_digest a = str "sha256:" ++ sha256_hex b) ∧
  ∃ pol, dget PROFILES (at_core a) = Some pol ∧ at_maximum a = boundary_maximum (mt_limits m) pol.
Proof.
  unfold validate_attachment_full. intros (b & -> & H)%bind_Ok_inv. apply bind_Ok_inv in H as (v & _ & H). destruct v as [| | | | | |v]; try done.
  apply bind_Ok_inv in H as (_ & _ & H). apply bind_Ok_inv in H as (core & Hcore & H). apply bind_pair_Ok in H as (kp & key & Hkey & H).
  apply bind_pair_Ok in H as (? & ? & _ & H). apply bind_pair_Ok in H as (? & ? & _ & H). apply bind_Ok_inv in H as (_ & _ & H).
  apply bind_Ok_inv in H as (lim & Hlim & H). destruct (dget PROFILES core) as [pol|] eqn:Hp; [|done].
  apply bind_pair_Ok in H as (side & stream & Hs & H). injection H as <- <-. cbn.
  assert (limits_ok lim) as Hl.
  { unfold attachment_limits in Hlim. destruct (vget_or _ _ _); try done. inv_ok. by eapply make_limits_ok. }
  assert (zlen key = 32 ∧ read_key kp = Ok key) as [Hk1 Hk2].
  { unfold attachment_key in Hkey. destruct (vget_none v "key_file") as [| | | |path'| |]; try done. inv_ok. bool_simpl. simplify_eq. done. }
  assert ((side = 0 ∨ side = 1) ∧ 0 ≤ stream < max_streams lim) as [Hside Hst].
  { unfold attachment_stream in Hs. destruct (vget_or v "side" (VInt 0)), (vget_or v "stream" (VInt 0)); try done; inv_ok; bool_simpl; simplify_eq; try done.
    match goal with H : (_ || _) = true |- _ => apply orb_true_iff in H end. rewrite !Z.eqb_eq in *. lia. }
  split_and!; try done; [lia|lia| |by eauto|by eauto]. intros e ->. unfold attachment_core in Hcore. destruct (vget_none v "core"); try done.
  inv_ok. bool_simpl. by subst.
Qed.

(** The adapter of an admitted attachment. *)
Definition adapter_of (a : attachment) (m : material) : result adapter :=
  make_adapter (at_core a) (mt_key m) (mt_side m) [] (mt_limits m) None.

(** The one case that the admission overlooks: a payload beyond the datagrams of
    the companion profile. *)
Definition mux_oversized (a : attachment) (m : material) : Prop := at_core a = str "gleam-mux" ∧ 1100 < payload_bytes (mt_limits m).

Lemma profile_payload core pol : dget PROFILES core = Some pol → 64 ≤ p_payload pol ≤ 65536.
Proof. intros H. by destruct (PROFILES_bounds _ _ H). Qed.

Lemma adapter_of_made nfc path config read_key installed expected a m :
  validate_attachment_full nfc path config read_key installed expected = Ok (a, m) → ¬ mux_oversized a m →
  ∃ ad, adapter_of a m = Ok ad ∧ a_limits ad = mt_limits m ∧ outgoing ad = [] ∧ buffered ad = 0 ∧ unsent_total ad = 0 ∧
    next_of ad (mt_stream m) = 0 ∧ at_maximum a ≤ payload_of ad * window ad ∧ 64 ≤ payload_of ad.
Proof.
  intros Hv Hm. destruct (validated_material _ _ _ _ _ _ _ _ Hv) as (Hl & Hk & Hs & Hst & _ & _ & _ & _ & pol & Hp & Hmax).
  unfold adapter_of, make_adapter, profile_name. cbn [mbind result_bind]. rewrite Hp.
  assert (bool_decide (at_core a = str "gleam-mux") && (p_payload pol <? payload_bytes (mt_limits m)) = false) as ->.
  { apply andb_false_iff. destruct (decide (at_core a = str "gleam-mux")) as [E|E]; [right|left; by apply bool_decide_eq_false].
    rewrite E in Hp. vm_compute in Hp. injection Hp as <-. apply Z.ltb_ge. cbn. unfold mux_oversized in Hm. destruct (Z.le_gt_cases (payload_bytes (mt_limits m)) 1100); [done|tauto]. }
  cbn [raise_if mbind result_bind]. set (payload := if payload_bytes (mt_limits m) =? 0 then _ else _).
  assert (64 ≤ payload ≤ 65536) as Hpay.
  { unfold payload. pose proof (profile_payload _ _ Hp). destruct (lok_payload _ Hl) as [->|]; [done|]. destruct (Z.eqb_spec (payload_bytes (mt_limits m)) 0); lia. }
  assert (make_codec (mt_key m) payload (mt_side m) (max_streams (mt_limits m)) =
    Ok (Codec (derive (mt_key m) (mt_side m)) (derive (mt_key m) (1 - mt_side m)) payload (max_streams (mt_limits m)))) as ->.
  { unfold make_codec. rewrite Hk. pose proof (lok_streams _ Hl). replace (between 64 payload 65536) with true by (symmetry; by apply between_spec).
    replace (between 1 _ 4096) with true by (symmetry; by apply between_spec). by destruct Hs as [-> | ->]. }
  cbn [mbind result_bind]. pose proof (lok_extensions _ Hl). cbn [remove_dups existsb]. replace (max_extensions (mt_limits m) <? zlen ([] : list pystr)) with false by (symmetry; apply Z.ltb_ge; rewrite zlen_nil; lia).
  cbn [orb raise_if mbind result_bind]. eexists. split; [done|]. cbn. split_and!; try done; [| |rewrite Hmax|lia].
  - unfold unsent_total. cbn. apply drained_total. intros q [-> _]%elem_of_replicate. done.
  - unfold next_of. cbn. destruct (replicate _ 0 !! _) as [z|] eqn:E; [|done]. by apply lookup_replicate in E as [-> _].
  - unfold boundary_maximum, window, payload_of, payload. cbn. lia.
Qed.

(** A record of the boundary has no more chunks than the window. *)
Lemma chunks_within payload window (data : bytes) : 64 ≤ payload → zlen data ≤ payload * window → chunk_count payload data ≤ window.
Proof.
  intros Hp Hd. unfold chunk_count. assert ((zlen data + payload - 1) / payload < window + 1); [|lia].
  apply Z.div_lt_upper_bound; lia.
Qed.


(** ** A concrete attachment *)
#[local] Existing Instance toy_aead.
#[local] Existing Instance toy_laws.
Definition demo_config (core : string) (payload : Z) : bytes := dumps compact_opts (VDict (mkdict
  [("schema", txt "shadow6.s6na-attachment.v1"); ("core", txt core); ("key_file", txt "/k");
   ("bind", VList [txt "127.0.0.1"; VInt 0]); ("peer", VList [txt "10.0.0.2"; VInt 4000]); ("stream", VInt 1);
   ("limits", VDict (mkdict [("payload_bytes", VInt payload); ("window_frames", VInt 4)]))])).
Definition demo_key : bytes := replicate 32 7.
Definition demo_attachment (core : string) (payload : Z) : result (attachment * material) :=
  validate_attachment_full id (str "/c") (Ok (demo_config core payload)) (λ _, Ok demo_key) true (Some (str core)).


(** An admitted attachment from which no adapter can be made. *)
Example oversized_mux_admitted : ∃ a m, demo_attachment "gleam-mux" 4096 = Ok (a, m) ∧ ∃ e, adapter_of a m = Raise e.
Proof.
  destruct (demo_attachment "gleam-mux" 4096) as [[a m]|e] eqn:E; [|cbv -[sha256_hex] in E; discriminate]. exists a, m. split; [reflexivity|].
  cbv -[sha256_hex] in E. injection E as <- <-. by eexists.
Qed.
