(* ===== verification/VirtualBroker.v ===== *)
(** * The virtual Broker

    [Public6/virtual_broker.py]: the configuration of a public node that relays
    tenants to real Brokers, the admission of a client, the bounded memory of used
    nonces, the rate limit of a tenant and the accounting of connections.  The
    sockets and the event loop are left out: what is read, the clock and the
    content of files are arguments, and a coroutine is split where it awaits.
    [isalnum] is [str.isalnum] of one character, a Unicode table. *)
From Stdlib Require Import QArith Qminmax.
From S2P Require Import Prelude Dict PyStr PyText PyValue Json StrictJson Sha256 Signing Base64 Net.
#[local] Open Scope Z_scope.

Definition VB_SCHEMA : string := "shadow6.virtual-broker.v1".
Definition CORES : list string := ["go"; "rust"; "gleam"; "ada"; "nim"; "pony"; "zig"; "d"; "cpp"; "idris"; "hare"; "carp"].
Definition DATAGRAM_CORES : list string := ["hare"; "carp"; "pony"; "idris"].

(** A host is what the configuration wrote: [ipaddress] also takes numbers. *)
Definition int_ip (n : Z) : option ip_address :=
  if between 0 n (2 ^ 32 - 1) then Some (IPv4 n) else if between 0 n (2 ^ 128 - 1) then Some (IPv6 n None) else None.
Definition ip_of (v : pyval) : option ip_address :=
  match v with VStr s => parse_ip s | VInt n => int_ip n | VBool b => int_ip (Z.b2z b) | _ => None end.

Notation endpoint := (pyval * Z)%type.
Notation route := (pystr * pystr)%type.

(** [ip_address(d["host"]).is_loopback] and a port. *)
Definition loopback_endpoint (d : pydict) (message : string) : result endpoint :=
  match ip_of (vget_none d "host") with
  | None => raise ValueError "not an IPv4 or IPv6 address"
  | Some a =>
      _ ← raise_if (negb (is_loopback a)) ValueError message;
      match vget_none d "port" with
      | VInt port => _ ← raise_if (negb (between 1 port 65535)) ValueError message; Ok (vget_none d "host", port)
      | _ => raise ValueError message
      end
  end.

(** [v in d] for a dictionary with string keys. *)
Definition known_key (keys : list pystr) (v : pyval) : result bool :=
  if hashable v then Ok (match v with VStr s => bool_decide (s ∈ keys) | _ => false end) else raise TypeError "unhashable type".

Record tenant := Tenant {
  t_id : pystr; t_keys : list bytes; t_approval : pystr; t_connections : Z; t_rate : Z; t_burst : Z }.

Record vb_config := Config {
  vb_listen : endpoint; vb_identity : bytes; vb_cores : list (pystr * endpoint); vb_tenants : list (pystr * tenant);
  vb_routes : list (route * endpoint); vb_relay : pystr; vb_approvals : list (pystr * pystr);
  vb_frame : Z; vb_handshake : Z; vb_idle : Z; vb_anonymous : list (Z * route); vb_datagrams : list (Z * route * pystr * bool) }.

Section Config.
Context (nfc : pystr → pystr) (isalnum : Z → bool).

Definition load_core (row : pystr * pyval) : result (pystr * endpoint) :=
  match row.2 with
  | VDict target =>
      _ ← raise_if (negb (str_in row.1 CORES) || negb (keys_exact target ["host"; "port"])) ValueError "invalid real Broker target";
      e ← loopback_endpoint target "invalid real Broker target"; Ok (row.1, e)
  | _ => raise ValueError "invalid real Broker target"
  end.

(** One public key of a tenant. *)
Definition decode64 (v : pyval) : result bytes :=
  match b64decode (as_text v) with Some k => Ok k | None => raise ValueError "invalid base64" end.
Definition key_text (v : pyval) : bool := match v with VStr s => zlen s =? 44 | _ => false end.

Definition tenant_fields : list string := ["id"; "public_keys"; "approval"; "max_connections"; "bytes_per_second"; "burst_bytes"].

Definition tenant_limit (item : pydict) (name : string) (low high : Z) : result Z :=
  match vget_none item name with
  | VInt n => _ ← raise_if (negb (between low n high)) ValueError ("invalid " +:+ name); Ok n
  | _ => raise ValueError ("invalid " +:+ name)
  end.

Definition tenant_id_ok (tid : pystr) : bool := between 1 (zlen tid) 64 && forallb (λ c, isalnum c || one_of "._-" c) tid.

Definition load_tenant (tenants : list (pystr * tenant)) (v : pyval) : result (list (pystr * tenant)) :=
  match v with
  | VDict item =>
      _ ← raise_if (negb (keys_exact item tenant_fields)) ValueError "unknown tenant field";
      match vget_none item "id" with
      | VStr tid =>
          _ ← raise_if (negb (tenant_id_ok tid) || dmem tenants tid) ValueError "invalid tenant id";
          _ ← raise_if (negb (in_strs (vget_none item "approval") ["default-approved"; "approval-required"])) ValueError "invalid approval mode";
          match vget_none item "public_keys" with
          | VList l =>
              _ ← raise_if ((32 <? zlen l) || negb (forallb key_text l)) ValueError "invalid tenant public key";
              keys ← map_res decode64 l;
              _ ← raise_if (negb (forallb (λ k, zlen k =? 32) keys)) ValueError "invalid tenant public key";
              connections ← tenant_limit item "max_connections" 1 1024;
              rate ← tenant_limit item "bytes_per_second" 1024 (2 ^ 30);
              burst ← tenant_limit item "burst_bytes" 1024 (2 ^ 30);
              Ok (dset tenants tid (Tenant tid keys (as_text (vget_none item "approval")) connections rate burst))
          | _ => raise ValueError "invalid tenant public key"
          end
      | _ => raise ValueError "invalid tenant id"
      end
  | _ => raise ValueError "unknown tenant field"
  end.

(** Routes to dedicated endpoints: [endpoints] are those already given away. *)
Definition load_route (tenants : list pystr) (cores : list pystr) (acc : list (route * endpoint)) (v : pyval) : result (list (route * endpoint)) :=
  match v with
  | VDict d =>
      _ ← raise_if (negb (keys_exact d ["tenant"; "core"; "host"; "port"])) ValueError "invalid tenant Core route";
      t ← known_key tenants (vget_none d "tenant");
      _ ← raise_if (negb t) ValueError "invalid tenant Core route";
      c ← known_key cores (vget_none d "core");
      _ ← raise_if (negb c) ValueError "invalid tenant Core route";
      e ← loopback_endpoint d "invalid tenant Core route";
      let key := (as_text (vget_none d "tenant"), as_text (vget_none d "core")) in
      _ ← raise_if (dmem acc key || bool_decide (e ∈ acc.*2)) ValueError "tenant Core routes must use dedicated real Broker endpoints";
      Ok (dset acc key e)
  | _ => raise ValueError "invalid tenant Core route"
  end.

(** The port and the route of a listener. *)
Definition listener_route (routes : list (route * endpoint)) (ports : list Z) (d : pydict) : option (Z * route) :=
  match vget_none d "port", vget_none d "tenant", vget_none d "core" with
  | VInt port, VStr t, VStr c => if between 1 port 65535 && bool_decide (port ∉ ports) && dmem routes (t, c) then Some (port, (t, c)) else None
  | _, _, _ => None
  end.

Definition load_anonymous (listen : Z) (routes : list (route * endpoint)) (acc : list (Z * route)) (v : pyval) : result (list (Z * route)) :=
  match v with
  | VDict d =>
      _ ← raise_if (negb (keys_exact d ["port"; "tenant"; "core"])) ValueError "invalid anonymous listener";
      match listener_route routes (listen :: acc.*1) d with
      | Some l => Ok (acc ++ [l])
      | None => raise ValueError "invalid anonymous listener"
      end
  | _ => raise ValueError "invalid anonymous listener"
  end.

Definition load_datagram (routes : list (route * endpoint)) (acc : list (Z * route * pystr * bool)) (v : pyval) : result (list (Z * route * pystr * bool)) :=
  match v with
  | VDict d =>
      _ ← raise_if (negb (keys_exact d ["port"; "tenant"; "core"; "carrier"; "anonymous"])) ValueError "invalid datagram listener";
      match listener_route routes ((λ x, x.1.1.1) <$> acc) d, vget_none d "anonymous" with
      | Some (port, r), VBool b =>
          _ ← raise_if (negb (str_in r.2 DATAGRAM_CORES) || negb (in_strs (vget_none d "carrier") ["gate"; "s6na"])) ValueError "invalid datagram listener";
          Ok (acc ++ [(port, r, as_text (vget_none d "carrier"), b)])
      | _, _ => raise ValueError "invalid datagram listener"
      end
  | _ => raise ValueError "invalid datagram listener"
  end.

Definition load_approval (tenants : list pystr) (acc : list (pystr * pystr)) (v : pyval) : result (list (pystr * pystr)) :=
  match v with
  | VDict d =>
      _ ← raise_if (negb (keys_exact d ["tenant"; "client"])) ValueError "invalid approval";
      t ← known_key tenants (vget_none d "tenant");
      _ ← raise_if (negb t) ValueError "invalid approval";
      match vget_none d "client" with
      | VStr client => _ ← raise_if (negb (between 1 (zlen client) 128)) ValueError "invalid approval"; Ok (acc ++ [(as_text (vget_none d "tenant"), client)])
      | _ => raise ValueError "invalid approval"
      end
  | _ => raise ValueError "invalid approval"
  end.

(** A list within bounds. *)
Definition bounded_list (v : pyval) (low high : Z) (message : string) : result (list pyval) :=
  match v with VList l => _ ← raise_if (negb (between low (zlen l) high)) ValueError message; Ok l | _ => raise ValueError message end.

Definition vb_limit (d : pydict) (name : string) (low high : Z) : result Z :=
  match vget_none d name with
  | VInt n => _ ← raise_if (negb (between low n high)) ValueError "limit outside safe bounds"; Ok n
  | _ => raise ValueError "limit outside safe bounds"
  end.

Definition vb_required : list string :=
  ["schema"; "listen"; "identity_key_file"; "cores"; "tenants"; "routes"; "approvals"; "guard"; "gate"; "c11relay"; "limits"].
Definition vb_optional : list string := ["anonymous_listeners"; "datagram_listeners"].

(** The tenants that somebody may use without a key. *)
Definition anonymous_tenants (anonymous : list (Z * route)) (datagrams : list (Z * route * pystr * bool)) : list pystr :=
  ((λ x, x.2.1) <$> anonymous) ++ ((λ x, x.1.1.2.1) <$> List.filter (λ x, x.2) datagrams).

(** [text] is the file as read and decoded, [read_key] reads a secret file. *)
Definition load_config (text : result pystr) (read_key : pystr → result bytes) : result vb_config :=
  text ← text;
  value ← strict_json nfc 262144 STRING_LIMIT (JText text);
  match value with
  | VDict v =>
      _ ← raise_if (negb (keys_within v (vb_required ++ vb_optional)) || negb (keys_cover v vb_required) || negb (eq_str (vget_none v "schema") VB_SCHEMA))
            ValueError "unknown virtual Broker schema or field";
      listen ← match vget_none v "listen" with
               | VDict l => _ ← raise_if (negb (keys_exact l ["host"; "port"])) ValueError "virtual Broker must listen behind Guard/Gate on loopback";
                            loopback_endpoint l "virtual Broker must listen behind Guard/Gate on loopback"
               | _ => raise ValueError "virtual Broker must listen behind Guard/Gate on loopback"
               end;
      _ ← raise_if (negb (py_eqb (vget_none v "guard") (VDict (mkdict [("required", VBool true)])))
                    || negb (py_eqb (vget_none v "gate") (VDict (mkdict [("required", VBool true)])))) ValueError "Guard and Gate are mandatory";
      cores ← match vget_none v "cores" with
              | VDict (row :: rows) => map_res load_core (row :: rows)
              | _ => raise ValueError "at least one real Broker is required"
              end;
      items ← bounded_list (vget_none v "tenants") 1 1024 "invalid tenant catalog";
      tenants ← fold_res load_tenant [] items;
      items ← bounded_list (vget_none v "routes") 1 (zlen tenants * 12) "invalid tenant route catalog";
      routes ← fold_res (load_route (dkeys tenants) (dkeys cores)) [] items;
      items ← bounded_list (vget_or v "anonymous_listeners" (VList [])) 0 32 "invalid anonymous listeners";
      anonymous ← fold_res (load_anonymous listen.2 routes) [] items;
      items ← bounded_list (vget_or v "datagram_listeners" (VList [])) 0 32 "invalid datagram listeners";
      datagrams ← fold_res (load_datagram routes) [] items;
      _ ← raise_if (existsb (λ t, bool_decide (t_keys t.2 = []) && bool_decide (t_id t.2 ∉ anonymous_tenants anonymous datagrams)) tenants) ValueError
            "tenant without keys needs an anonymous listener";
      limits ← match vget_none v "limits" with
               | VDict l => _ ← raise_if (negb (keys_exact l ["max_frame"; "handshake_seconds"; "idle_seconds"])) ValueError "invalid limits"; Ok l
               | _ => raise ValueError "invalid limits"
               end;
      frame ← vb_limit limits "max_frame" 1024 (16 * 1024 * 1024);
      handshake ← vb_limit limits "handshake_seconds" 1 30;
      idle ← vb_limit limits "idle_seconds" 5 3600;
      key ← match vget_none v "identity_key_file" with VStr p => read_key p | _ => raise TypeError "path expected" end;
      _ ← raise_if (negb (zlen key =? 32)) ValueError "identity key must contain exactly 32 bytes";
      relay ← match vget_none v "c11relay" with
              | VDict r =>
                  _ ← raise_if (negb (keys_exact r ["control_socket"])) ValueError "invalid C11Relay integration";
                  match vget_none r "control_socket" with
                  | VStr s => _ ← raise_if (negb (starts_with (str "/") s) || (4096 <? zlen s)) ValueError "invalid C11Relay integration"; Ok s
                  | _ => raise ValueError "invalid C11Relay integration"
                  end
              | _ => raise ValueError "invalid C11Relay integration"
              end;
      items ← bounded_list (vget_none v "approvals") 0 4096 "invalid approval catalog";
      approvals ← fold_res (load_approval (dkeys tenants)) [] items;
      Ok (Config listen key cores tenants routes relay approvals frame handshake idle anonymous datagrams)
  | _ => raise ValueError "unknown virtual Broker schema or field"
  end.
End Config.


(** ** The Broker *)
(** A client's connection to one tenant: the time is a rational number of seconds. *)
Record runtime := Runtime { r_active : Z; r_tokens : Q; r_updated : Q }.
Notation nonce_key := (pystr * bytes)%type.

Record broker := Broker {
  b_runtime : list (pystr * runtime); b_nonces : list (nonce_key * Z); b_expiry : list (Z * nonce_key); b_connections : Z }.

Definition set_nonces (nonces : list (nonce_key * Z)) (expiry : list (Z * nonce_key)) (b : broker) : broker :=
  Broker (b_runtime b) nonces expiry (b_connections b).
Definition set_runtime (tid : pystr) (r : runtime) (b : broker) : broker :=
  Broker (dset (b_runtime b) tid r) (b_nonces b) (b_expiry b) (b_connections b).
Definition add_connections (n : Z) (b : broker) : broker :=
  Broker (b_runtime b) (b_nonces b) (b_expiry b) (b_connections b + n).

Definition make_broker (c : vb_config) (now : Q) : broker :=
  Broker ((λ t, (t.1, Runtime 0 (inject_Z (t_burst t.2)) now)) <$> vb_tenants c) [] [] 0.

(** *** Rate limit *)
Inductive charged := Released | Delayed (delay : Q) | Refused.

(** [charge] up to its only [await], which lasts [delay]. *)
Definition charge (idle : Z) (t : tenant) (size : Z) (now : Q) (r : runtime) : charged * runtime :=
  let rate := inject_Z (t_rate t) in
  let tokens := (Qmin (inject_Z (t_burst t)) (r_tokens r + (now - r_updated r) * rate) - inject_Z size)%Q in
  if Qle_bool 0 tokens then (Released, Runtime (r_active r) tokens now)
  else let delay := (- tokens / rate)%Q in
       if Qle_bool delay (inject_Z idle) then (Delayed delay, Runtime (r_active r) tokens now)
       else (Refused, Runtime (r_active r) (tokens + inject_Z size)%Q now).

(** The wait is cancelled: the bytes are given back. *)
Definition refund (size : Z) (r : runtime) : runtime := Runtime (r_active r) (r_tokens r + inject_Z size)%Q (r_updated r).

(** *** Nonces
    The heap of [heapq] is its sorted list: its head is the least entry. *)
Definition expiry_leb (a b : Z * nonce_key) : bool :=
  if a.1 =? b.1 then if bool_decide (a.2.1 = b.2.1) then str_leb a.2.2 b.2.2 else str_leb a.2.1 b.2.1 else a.1 <? b.1.

Fixpoint heappush (q : list (Z * nonce_key)) (x : Z * nonce_key) : list (Z * nonce_key) :=
  match q with
  | [] => [x]
  | y :: q' => if expiry_leb x y then x :: q else y :: heappush q' x
  end.

Fixpoint expire_nonces (now : Z) (nonces : list (nonce_key * Z)) (queue : list (Z * nonce_key)) : list (nonce_key * Z) * list (Z * nonce_key) :=
  match queue with
  | [] => (nonces, [])
  | (expires, key) :: rest =>
      if expires <? now then expire_nonces now (if bool_decide (dget nonces key = Some expires) then ddel nonces key else nonces) rest
      else (nonces, queue)
  end.

(** *** Admission *)
Definition ADMISSION_SCHEMA : string := "shadow6.virtual-broker-admission.v1".
Definition admission_texts : list string := ["tenant"; "client"; "core"; "nonce"; "public_key"; "signature"].
Definition admission_fields : list string := ["schema"; "issued"; "expires"] ++ admission_texts.

Definition admission_request (nfc : pystr → pystr) (raw : bytes) : result pydict :=
  _ ← raise_if (16384 <? zlen raw) ValueError "admission request oversized";
  value ← strict_json nfc 262144 STRING_LIMIT (JBytes raw);
  match value with
  | VDict request =>
      _ ← raise_if (negb (keys_exact request admission_fields) || negb (eq_str (vget_none request "schema") ADMISSION_SCHEMA)) ValueError "invalid admission schema";
      _ ← raise_if (negb (forallb (λ n, is_str (vget_none request n)) admission_texts)) ValueError "invalid admission field type";
      Ok request
  | _ => raise ValueError "invalid admission schema"
  end.

(** What a client asks for. *)
Record admission := Admission { a_tenant : tenant; a_client : pystr; a_core : pystr; a_nonce : bytes; a_expires : Z; a_target : endpoint }.

Section Admit.
Context `{Signing} (nfc : pystr → pystr) (c : vb_config).

(** The credential of a request, before the memory of nonces. *)
Definition check_admission (raw : bytes) (now : Z) : result admission :=
  request ← admission_request nfc raw;
  let text name := as_text (vget_none request name) in
  match dget (vb_tenants c) (text "tenant") with
  | None => raise PermissionError "unknown tenant, client, or Core"
  | Some tenant =>
      match dget (vb_routes c) (t_id tenant, text "core") with
      | None => raise PermissionError "unknown tenant, client, or Core"
      | Some target =>
          _ ← raise_if (negb (between 1 (zlen (text "client")) 128)) PermissionError "unknown tenant, client, or Core";
          match vget_none request "issued", vget_none request "expires" with
          | VInt issued, VInt expires =>
              _ ← raise_if ((now + 30 <? issued) || (expires <? now) || negb (between 0 (expires - issued) 120)) PermissionError "expired admission";
              nonce ← decode64 (vget_none request "nonce");
              pub ← decode64 (vget_none request "public_key");
              sig ← decode64 (vget_none request "signature");
              _ ← raise_if (negb (zlen nonce =? 32) || negb (zlen pub =? 32) || negb (zlen sig =? 64) || bool_decide (pub ∉ t_keys tenant))
                    PermissionError "invalid admission credential";
              _ ← raise_if (negb (verify_sig pub sig (dumps_canonical (VDict (ddel request (str "signature")))))) PermissionError "invalid admission signature";
              _ ← raise_if (bool_decide (t_approval tenant = str "approval-required") && bool_decide ((t_id tenant, text "client") ∉ vb_approvals c))
                    PermissionError "connection requires operator approval";
              Ok (Admission tenant (text "client") (text "core") nonce expires target)
          | _, _ => raise PermissionError "expired admission"
          end
      end
  end.

Definition virtual_id (a : admission) : pystr :=
  bytes_hex (hmac_sha256 (vb_identity c) (dumps_canonical (VList [VStr (t_id (a_tenant a)); VStr (a_client a); VStr (a_core a)]))).

Definition remember_nonce (a : admission) (now : Z) : M broker unit := λ b,
  let key := (t_id (a_tenant a), a_nonce a) in
  let '(nonces, queue) := expire_nonces now (b_nonces b) (b_expiry b) in
  if dmem nonces key then (raise PermissionError "replayed admission", set_nonces nonces queue b)
  else if 65536 <=? zlen nonces then (raise PermissionError "admission replay capacity reached", set_nonces nonces queue b)
  else (Ok tt, set_nonces (dset nonces key (a_expires a)) (heappush queue (a_expires a, key)) b).

Definition admit_client (raw : bytes) (now : Z) : M broker (tenant * pystr * endpoint) :=
  a ← mlift (check_admission raw now);
  _ ← remember_nonce a now;
  mret (a_tenant a, virtual_id a, a_target a).

(** The admission of a datagram precedes its payload. *)
Definition datagram_size (n : Z) : bool := between 1 n (Z.min (vb_frame c) 65507).
Definition datagram_payload (raw : bytes) (r : route) (anonymous : bool) (now : Z) : M broker bytes :=
  _ ← mraise_if (negb (datagram_size (zlen raw))) ValueError "invalid datagram size";
  if anonymous then mret raw
  else
    _ ← mraise_if (zlen raw <? 3) ValueError "missing datagram admission";
    let size := be_decode (take 2 raw) in
    _ ← mraise_if (negb (between 1 size 16384) || (zlen raw <=? size + 2)) ValueError "invalid datagram admission";
    x ← admit_client (slice 2 (2 + size) raw) now;
    _ ← mraise_if (negb (bool_decide (t_id x.1.1 = r.1)) || negb (bool_decide (Some x.2 = dget (vb_routes c) r))) PermissionError "wrong datagram route";
    mret (drop (Z.to_nat (2 + size)) raw).

(** *** Connections
    A connection is a task of the event loop, known by its number.  The steps
    between two [await]s are one operation here; connecting a datagram socket
    to a numeric address does not suspend. *)
Definition bump (tid : pystr) (n : Z) (b : broker) : broker :=
  match dget (b_runtime b) tid with
  | Some r => set_runtime tid (Runtime (r_active r + n) (r_tokens r) (r_updated r)) b
  | None => b
  end.
Definition active_of (b : broker) (tid : pystr) : Z := default 0 (r_active <$> dget (b_runtime b) tid).

(** The quota of a tenant. *)
Definition enter (t : tenant) : M broker unit := λ b,
  if t_connections t <=? active_of b (t_id t) then (raise PermissionError "tenant connection quota reached", b)
  else (Ok tt, bump (t_id t) 1 b).

(** [input] is what the client sends before it stops or the deadline passes. *)
Definition readexactly (n : Z) (input : bytes) : result (bytes * bytes) :=
  _ ← raise_if (zlen input <? n) TimeoutError "the stream ended or the deadline passed";
  Ok (take (Z.to_nat n) input, drop (Z.to_nat n) input).

(** The admission request at the head of a stream. *)
Definition read_admission (input : bytes) : result bytes :=
  x ← readexactly 4 input;
  let size := be_decode x.1 in
  _ ← raise_if (negb (between 1 size 16384)) ValueError "invalid admission length";
  y ← readexactly size x.2; Ok y.1.

Definition find_tenant (tid : pystr) : result tenant :=
  match dget (vb_tenants c) tid with Some t => Ok t | None => raise KeyError "tenant" end.
Definition find_route (r : route) : result endpoint :=
  match dget (vb_routes c) r with Some e => Ok e | None => raise KeyError "route" end.

(** [handle] until it opens the upstream connection. *)
Definition handshake (anonymous : option route) (input : bytes) (now : Z) : M broker (tenant * endpoint) :=
  x ← match anonymous with
      | None => raw ← mlift (read_admission input); y ← admit_client raw now; mret (y.1.1, y.2)
      | Some r => t ← mlift (find_tenant r.1); e ← mlift (find_route r); mret (t, e)
      end;
  _ ← enter x.1; mret x.
End Admit.

Inductive task :=
| Handshake (anonymous : option route)                       (* [handle], not admitted yet *)
| Relay (tid : pystr)                                        (* [handle], counted for a tenant *)
| Datagram (raw : bytes) (r : route) (anonymous : bool)      (* [datagram], not started yet *)
| Exchange (tid : pystr)                                     (* [datagram], counted for a tenant *)
| Session (port : Z) (source : endpoint) (tid : pystr).      (* [receive_session] *)

(** The tenant a task is counted for. *)
Definition holds (k : task) : option pystr :=
  match k with Relay t | Exchange t | Session _ _ t => Some t | Handshake _ | Datagram _ _ _ => None end.

Record world := World { w_broker : broker; w_next : nat; w_tasks : list (nat * task) }.

Definition set_broker (b : broker) (w : world) : world := World b (w_next w) (w_tasks w).
Definition spawn (k : task) (w : world) : world := World (w_broker w) (S (w_next w)) (w_tasks w ++ [(w_next w, k)]).
Definition become (id : nat) (k : task) (w : world) : world := World (w_broker w) (w_next w) (dset (w_tasks w) id k).
Definition start_world (c : vb_config) (now : Q) : world := World (make_broker c now) 0 [].

(** The [finally] clauses: the counters are given back. *)
Definition finish (id : nat) (w : world) : world :=
  match dget (w_tasks w) id with
  | None => w
  | Some k =>
      let b := match holds k with Some t => bump t (-1) (w_broker w) | None => w_broker w end in
      World (add_connections (-1) b) (w_next w) (ddel (w_tasks w) id)
  end.

Definition has_session (port : Z) (source : endpoint) (w : world) : bool :=
  existsb (λ k, match k.2 with Session p s _ => (p =? port) && bool_decide (s = source) | _ => false end) (w_tasks w).

Section Serve.
Context `{Signing} (nfc : pystr → pystr) (c : vb_config).

Definition handle_start (anonymous : option route) (w : world) : world :=
  if 4096 <=? b_connections (w_broker w) then w
  else spawn (Handshake anonymous) (set_broker (add_connections 1 (w_broker w)) w).

Definition handle_body (id : nat) (input : bytes) (now : Z) (w : world) : world :=
  match dget (w_tasks w) id with
  | Some (Handshake anonymous) =>
      match handshake nfc c anonymous input now (w_broker w) with
      | (Ok x, b) => become id (Relay (t_id x.1)) (set_broker b w)
      | (Raise _, b) => finish id (set_broker b w)
      end
  | _ => w
  end.

Definition datagram_body (id : nat) (now : Z) (w : world) : world :=
  match dget (w_tasks w) id with
  | Some (Datagram raw r anonymous) =>
      match datagram_payload nfc c raw r anonymous now (w_broker w) with
      | (Ok _, b) =>
          match dget (vb_tenants c) r.1 with
          | Some t => if t_connections t <=? active_of b r.1 then finish id (set_broker b w)
                      else become id (Exchange r.1) (set_broker (bump r.1 1 b) w)
          | None => finish id (set_broker b w)
          end
      | (Raise _, b) => finish id (set_broker b w)
      end
  | _ => w
  end.

(** The socket family of an endpoint: [":" in host] needs text. *)
Definition host_family (e : endpoint) : result bool :=
  match e.1 with VStr s => Ok (bool_decide (58 ∈ s)) | _ => raise TypeError "argument of type 'int' is not iterable" end.

(** What the [except] clause of [serve_datagrams] takes: anything else ends the listener. *)
Definition datagram_caught : list exn_class := [OSError; ValueError; PermissionError; TimeoutError; StructError].
Definition caught (ds : list exn_class) (e : exn) : bool := existsb (isa (exn_cls e)) ds.

Notation listener := (Z * route * pystr * bool)%type.

(** A datagram of a listener without a session: [connected] tells whether the socket could be connected. *)
Definition open_session (l : listener) (source : endpoint) (connected : bool) (w : world) : result unit * world :=
  let '(port, r, _, _) := l in
  match find_tenant c r.1 with
  | Raise e => (Raise e, w)
  | Ok t =>
      if (4096 <=? b_connections (w_broker w)) || (t_connections t <=? active_of (w_broker w) r.1) then (Ok tt, w)
      else match (e ← find_route c r; host_family e) with
           | Raise e => (Raise e, w)
           | Ok _ => if connected then (Ok tt, spawn (Session port source r.1) (set_broker (add_connections 1 (bump r.1 1 (w_broker w))) w)) else (Ok tt, w)
           end
  end.

(** One turn of [serve_datagrams], until the charge: [Raise] when it ends the listener. *)
Definition receive_datagram (l : listener) (source : endpoint) (raw : bytes) (connected : bool) (now : Z) (w : world) : result unit * world :=
  let '(port, r, carrier, anonymous) := l in
  if bool_decide (carrier = str "gate") then
    (Ok tt, if 4096 <=? b_connections (w_broker w) then w
            else spawn (Datagram raw r anonymous) (set_broker (add_connections 1 (w_broker w)) w))
  else
    let '(x, b) := datagram_payload nfc c raw r anonymous now (w_broker w) in
    let w := set_broker b w in
    let '(y, w) := match x with
                   | Raise e => (Raise e, w)
                   | Ok _ => if has_session port source w then (Ok tt, w) else open_session l source connected w
                   end in
    match y with
    | Raise e => if caught datagram_caught e then (Ok tt, w) else (Raise e, w)
    | Ok _ => (Ok tt, w)
    end.

(** The traffic of a tenant. *)
Definition charge_tenant (tid : pystr) (size : Z) (now : Q) (w : world) : world :=
  match dget (vb_tenants c) tid, dget (b_runtime (w_broker w)) tid with
  | Some t, Some r => set_broker (set_runtime tid (charge (vb_idle c) t size now r).2 (w_broker w)) w
  | _, _ => w
  end.
Definition refund_tenant (tid : pystr) (size : Z) (w : world) : world :=
  match dget (b_runtime (w_broker w)) tid with
  | Some r => set_broker (set_runtime tid (refund size r) (w_broker w)) w
  | None => w
  end.

Inductive event :=
| EStart (anonymous : option route)
| EHandshake (id : nat) (input : bytes) (now : Z)
| EReceive (l : listener) (source : endpoint) (raw : bytes) (connected : bool) (now : Z)
| EDatagram (id : nat) (now : Z)
| ECharge (tid : pystr) (size : Z) (now : Q)
| ERefund (tid : pystr) (size : Z)
| EFinish (id : nat).

Definition turn (e : event) (w : world) : world :=
  match e with
  | EStart a => handle_start a w
  | EHandshake id input now => handle_body id input now w
  | EReceive l source raw connected now => (receive_datagram l source raw connected now w).2
  | EDatagram id now => datagram_body id now w
  | ECharge tid size now => charge_tenant tid size now w
  | ERefund tid size => refund_tenant tid size w
  | EFinish id => finish id w
  end.

Definition serve (es : list event) (w : world) : world := foldl (λ w e, turn e w) w es.
End Serve.
