(* ===== verification/VirtualFacts.v ===== *)
(** * The virtual Broker: its configuration, its nonces, its counters

    What [load_config] promises to the rest ([config_ok]), the memory of used
    nonces as a bounded map that forgets only what has expired, the token bucket
    as a bound on the traffic of a tenant, and the counters of connections as the
    number of live tasks. *)
From Stdlib Require Import QArith Qminmax Lqa.
From S2P Require Import Prelude Dict PyStr PyText PyValue Json StrictJson Sha256 Signing Base64 Net VirtualBroker.
#[local] Open Scope Z_scope.

Lemma fold_res_inv {A B} (I : B → Prop) (f : B → A → result B) l :
  (∀ b x b', I b → f b x = Ok b' → I b') → ∀ b b', I b → fold_res f b l = Ok b' → I b'.
Proof.
  intros Hf. induction l as [|x l IH]; intros b b' Hb H; cbn [fold_res] in H; [by simplify_eq|].
  apply bind_Ok_inv in H as (b1 & H1 & H). eauto.
Qed.

(** ** Configuration *)
Definition loopback (e : endpoint) : Prop := (∃ a, ip_of e.1 = Some a ∧ is_loopback a = true) ∧ 1 ≤ e.2 ≤ 65535.

Definition tenant_ok (tid : pystr) (t : tenant) : Prop :=
  t_id t = tid ∧ 1 ≤ t_connections t ≤ 1024 ∧ 1024 ≤ t_rate t ≤ 2 ^ 30 ∧ 1024 ≤ t_burst t ≤ 2 ^ 30.
Definition tenants_ok (ts : list (pystr * tenant)) : Prop := dwf ts ∧ ∀ tid t, (tid, t) ∈ ts → tenant_ok tid t.

Definition routes_ok (tenants cores : list pystr) (rs : list (route * endpoint)) : Prop :=
  dwf rs ∧ NoDup rs.*2 ∧ ∀ r e, (r, e) ∈ rs → r.1 ∈ tenants ∧ r.2 ∈ cores ∧ loopback e.

Record config_ok (c : vb_config) : Prop := {
  cf_listen : loopback (vb_listen c);
  cf_tenants : tenants_ok (vb_tenants c);
  cf_routes : routes_ok (dkeys (vb_tenants c)) (dkeys (vb_cores c)) (vb_routes c);
  cf_keyless : ∀ tid t, (tid, t) ∈ vb_tenants c → t_keys t = [] → tid ∈ anonymous_tenants (vb_anonymous c) (vb_datagrams c);
  cf_anonymous : ∀ l, l ∈ vb_anonymous c → is_Some (dget (vb_routes c) l.2);
  cf_datagrams : ∀ l, l ∈ vb_datagrams c → is_Some (dget (vb_routes c) l.1.1.2) }.

Lemma loopback_endpoint_Ok d m e : loopback_endpoint d m = Ok e → loopback e.
Proof.
  unfold loopback_endpoint. destruct (ip_of _) as [a|] eqn:Ha; [|done]. intros H. inv_ok. destruct (vget_none d "port") as [| |port| | | |]; try done.
  inv_ok. bool_simpl. subst e. split; [by exists a|by apply between_spec].
Qed.

Lemma tenant_limit_Ok item name low high n : tenant_limit item name low high = Ok n → low ≤ n ≤ high.
Proof. unfold tenant_limit. destruct (vget_none item name); try done. intros H. inv_ok. bool_simpl. subst. by apply between_spec. Qed.

Lemma load_tenant_Ok isalnum ts v ts' : tenants_ok ts → load_tenant isalnum ts v = Ok ts' → tenants_ok ts'.
Proof.
  intros [Hwf Hts]. unfold load_tenant. destruct v as [| | | | | |item]; try done. intros H. inv_ok.
  destruct (vget_none item "id") as [| | | |tid| |]; try done. inv_ok. destruct (vget_none item "public_keys"); try done. inv_ok.
  repeat match goal with K : tenant_limit _ _ _ _ = Ok _ |- _ => apply tenant_limit_Ok in K end. subst ts'.
  split; [by apply dwf_dset|]. intros tid' t Ht. apply elem_of_dset_inv in Ht as [[-> ->]|Ht]; [by split|apply Hts; tauto].
Qed.

Lemma known_key_Ok keys v : known_key keys v = Ok true → as_text v ∈ keys.
Proof. unfold known_key. destruct v; cbn; try done. intros [= H]. by bool_simpl. Qed.

Lemma load_route_Ok tenants cores rs v rs' : routes_ok tenants cores rs → load_route tenants cores rs v = Ok rs' → routes_ok tenants cores rs'.
Proof.
  intros (Hwf & Hnd & Hrs). unfold load_route. destruct v as [| | | | | |d]; try done. intros H. inv_ok. bool_simpl. subst.
  match goal with K : loopback_endpoint _ _ = Ok ?e |- _ => apply loopback_endpoint_Ok in K; rename e into e end.
  repeat match goal with K : known_key _ _ = Ok _ |- _ => apply known_key_Ok in K end.
  match goal with K : dmem rs ?k = false |- _ => rename K into Hk; assert (dget rs k = None) as Hnone by (unfold dmem in Hk; by destruct (dget rs k)) end.
  rewrite dset_None by done. split; [|split].
  - unfold dwf, dkeys. rewrite fmap_app. apply NoDup_app. split; [done|]. split; [|apply NoDup_singleton].
    intros x Hx ->%list_elem_of_singleton. by apply dget_None in Hnone.
  - rewrite fmap_app. apply NoDup_app. split; [done|]. split; [|apply NoDup_singleton]. intros x Hx ->%list_elem_of_singleton. done.
  - intros r e' [Hr|Hr%list_elem_of_singleton]%elem_of_app; [by apply Hrs|]. by simplify_eq.
Qed.

Lemma listener_route_Some routes ports d l : listener_route routes ports d = Some l → is_Some (dget routes l.2).
Proof.
  unfold listener_route. destruct (vget_none d "port"), (vget_none d "tenant"), (vget_none d "core"); try done.
  destruct (_ && dmem _ _) eqn:E; [|done]. intros [= <-]. bool_simpl. cbn. unfold dmem in E. by destruct (dget routes _).
Qed.

Lemma load_anonymous_Ok listen routes acc v acc' : (∀ l, l ∈ acc → is_Some (dget routes l.2)) →
  load_anonymous listen routes acc v = Ok acc' → ∀ l, l ∈ acc' → is_Some (dget routes l.2).
Proof.
  intros Ha. unfold load_anonymous. destruct v as [| | | | | |d]; try done. intros H. inv_ok. destruct (listener_route _ _ d) as [l|] eqn:E; [|done].
  inv_ok. subst. intros l' [Hl|Hl%list_elem_of_singleton]%elem_of_app; [by apply Ha|subst l'; by apply listener_route_Some in E].
Qed.

Lemma load_datagram_Ok routes acc v acc' : (∀ l, l ∈ acc → is_Some (dget routes l.1.1.2)) →
  load_datagram routes acc v = Ok acc' → ∀ l, l ∈ acc' → is_Some (dget routes l.1.1.2).
Proof.
  intros Ha. unfold load_datagram. destruct v as [| | | | | |d]; try done. intros H. inv_ok. destruct (listener_route _ _ d) as [[port r]|] eqn:E; [|done].
  destruct (vget_none d "anonymous"); try done. inv_ok. subst.
  intros l' [Hl|Hl%list_elem_of_singleton]%elem_of_app; [by apply Ha|subst l'; by apply listener_route_Some in E].
Qed.

(** The checks of [load_config] whose outcome the rest relies on. *)
Lemma load_config_Ok nfc isalnum text read_key c : load_config nfc isalnum text read_key = Ok c → config_ok c.
Proof.
  unfold load_config. intros (s & _ & (value & _ & H)%bind_Ok_inv)%bind_Ok_inv. destruct value as [| | | | | |v]; try done.
  apply bind_Ok_inv in H as (_ & _ & H). apply bind_Ok_inv in H as (listen & Hlisten & H). apply bind_Ok_inv in H as (_ & _ & H).
  apply bind_Ok_inv in H as (cores & _ & H). apply bind_Ok_inv in H as (ts & _ & (tenants & Htenants & H)%bind_Ok_inv).
  apply bind_Ok_inv in H as (rs & _ & (routes & Hroutes & H)%bind_Ok_inv). apply bind_Ok_inv in H as (xs & _ & (anonymous & Hanonymous & H)%bind_Ok_inv).
  apply bind_Ok_inv in H as (ds & _ & (datagrams & Hdatagrams & H)%bind_Ok_inv). apply bind_Ok_inv in H as (_ & Hkeyless%raise_if_Ok & H). inv_ok. subst c.
  assert (tenants_ok tenants) as Hts.
  { eapply (fold_res_inv tenants_ok) in Htenants; [done|intros ???; apply load_tenant_Ok|]. split; [apply dwf_nil|by intros ?? ?%not_elem_of_nil]. }
  constructor; cbn.
  - destruct (vget_none v "listen"); try done. inv_ok. by eapply loopback_endpoint_Ok.
  - done.
  - eapply (fold_res_inv (routes_ok _ _)) in Hroutes; [done|intros ???; apply load_route_Ok|].
    split; [apply dwf_nil|split; [constructor|by intros ?? ?%not_elem_of_nil]].
  - intros tid t Ht Hk. destruct (decide (tid ∈ anonymous_tenants anonymous datagrams)) as [|Hn]; [done|].
    destruct (proj2 Hts tid t Ht) as [Hid _]. enough (existsb (λ t, bool_decide (t_keys t.2 = []) && bool_decide (t_id t.2 ∉ anonymous_tenants anonymous datagrams)) tenants = true) by congruence.
    apply existsb_exists. exists (tid, t). split; [by apply list_elem_of_In|]. cbn. by rewrite Hid, !bool_decide_true.
  - refine (fold_res_inv (λ acc, ∀ l, l ∈ acc → is_Some (dget routes l.2)) _ _ _ [] _ _ Hanonymous); [intros ???; apply load_anonymous_Ok|by intros ? ?%not_elem_of_nil].
  - refine (fold_res_inv (λ acc : list (Z * route * pystr * bool), ∀ l, l ∈ acc → is_Some (dget routes l.1.1.2)) _ _ _ [] _ _ Hdatagrams);
      [intros ???; apply load_datagram_Ok|by intros ? ?%not_elem_of_nil].
Qed.

Lemma find_tenant_id c tid t : config_ok c → dget (vb_tenants c) tid = Some t → t_id t = tid.
Proof. intros Hc Ht. by apply (proj2 (cf_tenants c Hc)), dget_elem_of. Qed.

(** Endpoints belong to one route. *)
Lemma route_injective c r r' e : config_ok c → dget (vb_routes c) r = Some e → dget (vb_routes c) r' = Some e → r = r'.
Proof.
  intros [_ _ (_ & Hnd & _) _ _ _] H1%dget_elem_of H2%dget_elem_of.
  apply list_elem_of_lookup in H1 as [i Hi]. apply list_elem_of_lookup in H2 as [j Hj].
  assert (i = j) as ->; [|congruence]. eapply NoDup_lookup; [done| |]; rewrite list_lookup_fmap; [by rewrite Hi|by rewrite Hj].
Qed.

(** ** Nonces
    The heap holds exactly the entries of the dictionary, in the order of their expiry. *)
Definition swap (kv : nonce_key * Z) : Z * nonce_key := (kv.2, kv.1).
Record nonces_ok (nonces : list (nonce_key * Z)) (queue : list (Z * nonce_key)) : Prop := {
  no_wf : dwf nonces;
  no_perm : queue ≡ₚ swap <$> nonces;
  no_sorted : StronglySorted (λ a b, a.1 ≤ b.1) queue;
  no_bound : zlen nonces ≤ 65536 }.

Lemma expiry_leb_le a b : expiry_leb a b = true → a.1 ≤ b.1.
Proof. unfold expiry_leb. destruct (Z.eqb_spec a.1 b.1); [lia|]. intros ?. bool_simpl. lia. Qed.
Lemma expiry_leb_ge a b : expiry_leb a b = false → b.1 ≤ a.1.
Proof. unfold expiry_leb. destruct (Z.eqb_spec a.1 b.1); [lia|]. intros ?. bool_simpl. lia. Qed.

Lemma heappush_perm q x : heappush q x ≡ₚ x :: q.
Proof. induction q as [|y q IH]; cbn; [done|]. destruct (expiry_leb x y); [done|]. by rewrite IH, Permutation_swap. Qed.

Lemma heappush_sorted q x : StronglySorted (λ a b, a.1 ≤ b.1) q → StronglySorted (λ a b, a.1 ≤ b.1) (heappush q x).
Proof.
  induction q as [|y q IH]; cbn; intros Hq; [by repeat constructor|]. apply StronglySorted_inv in Hq as [Hq Hy].
  destruct (expiry_leb x y) eqn:E.
  - apply expiry_leb_le in E. constructor; [by constructor|]. constructor; [done|]. eapply Forall_impl; [done|]. cbn. lia.
  - apply expiry_leb_ge in E. constructor; [by apply IH|]. rewrite heappush_perm. by constructor.
Qed.

Lemma dget_perm {K} `{EqDecision K} {V} (d : list (K * V)) k v : dwf d → dget d k = Some v → d ≡ₚ (k, v) :: ddel d k.
Proof.
  induction d as [|[k' v'] d IH]; [done|]. cbn. intros [Hn Hd]%NoDup_cons. case_bool_decide as E.
  - intros [= ->]. subst k'. rewrite ddel_notin; [done|]. by apply dget_None.
  - intros Hk. rewrite (IH Hd Hk) at 1. apply Permutation_swap.
Qed.

(** Forgetting: what has expired goes, all the rest stays. *)
Lemma expire_nonces_spec now nonces queue nonces' queue' : nonces_ok nonces queue → expire_nonces now nonces queue = (nonces', queue') →
  nonces_ok nonces' queue' ∧ ∀ k, dget nonces' k = match dget nonces k with Some e => if e <? now then None else Some e | None => None end.
Proof.
  revert nonces. induction queue as [|[e key] queue IH]; intros nonces [Hwf Hp Hs Hb] H; cbn in H.
  - simplify_eq. apply Permutation_nil, fmap_nil_inv in Hp. subst. by split.
  - assert (dget nonces key = Some e) as Hk.
    { apply elem_of_dget; [done|]. assert ((e, key) ∈ swap <$> nonces) as ([k e'] & [= -> ->] & ?)%list_elem_of_fmap by (rewrite <- Hp; apply list_elem_of_here). done. }
    apply StronglySorted_inv in Hs as [Hs He]. destruct (Z.ltb_spec e now) as [Hlt|Hge].
    + rewrite bool_decide_true in H by done. apply IH in H as [H1 H2].
      * split; [done|]. intros k. rewrite H2. destruct (decide (k = key)) as [->|Hne].
        -- rewrite dget_ddel_eq, Hk. by destruct (Z.ltb_spec e now); [|lia].
        -- by rewrite dget_ddel_ne.
      * constructor; [by apply dwf_ddel|by apply (Permutation_cons_inv (a := (e, key))); rewrite Hp, (dget_perm nonces key e) at 1|done|]. pose proof (length_ddel_le nonces key). unfold zlen in *. lia.
    + injection H as <- <-. split; [by constructor; [| |constructor|]|]. intros k. destruct (dget nonces k) as [e'|] eqn:E; [|done].
      destruct (Z.ltb_spec e' now); [|done]. exfalso. apply dget_elem_of in E.
      assert ((e', k) ∈ (e, key) :: queue) as Hin by (rewrite Hp; apply list_elem_of_fmap; by exists (k, e')).
      apply elem_of_cons in Hin as [[= -> ->]|Hin]; [lia|]. rewrite Forall_forall in He. specialize (He _ Hin). cbn in He. lia.
Qed.

Definition broker_nonces (b : broker) : Prop := nonces_ok (b_nonces b) (b_expiry b).

Lemma remember_nonce_spec a now b r b' : broker_nonces b → remember_nonce a now b = (r, b') →
  broker_nonces b' ∧ b_runtime b' = b_runtime b ∧ b_connections b' = b_connections b ∧
  (∀ k e, dget (b_nonces b) k = Some e → now ≤ e → dget (b_nonces b') k = Some e) ∧
  (r = Ok tt → dget (b_nonces b') (t_id (a_tenant a), a_nonce a) = Some (a_expires a) ∧
               ∀ e, dget (b_nonces b) (t_id (a_tenant a), a_nonce a) = Some e → e < now).
Proof.
  intros Hb. unfold remember_nonce. destruct (expire_nonces now (b_nonces b) (b_expiry b)) as [nonces queue] eqn:E.
  destruct (expire_nonces_spec _ _ _ _ _ Hb E) as [Hok Hget].
  assert (∀ k e, dget (b_nonces b) k = Some e → now ≤ e → dget nonces k = Some e) as Hkeep.
  { intros k e Hk He. rewrite Hget, Hk. by destruct (Z.ltb_spec e now); [lia|]. }
  unfold dmem. destruct (dget nonces _) as [e0|] eqn:Hk; [intros [= <- <-]; by split_and!|].
  destruct (Z.leb_spec 65536 (zlen nonces)) as [|Hlen]; intros [= <- <-]; [by split_and!|].
  destruct Hok as [Hwf Hp Hs Hbd]. split; [|split; [done|split; [done|split]]].
  - constructor; cbn.
    + by apply dwf_dset.
    + rewrite heappush_perm, dset_None, fmap_app, Hp by done. cbn. by rewrite Permutation_app_comm.
    + by apply heappush_sorted.
    + unfold zlen in *. rewrite length_dset_None by done. lia.
  - cbn. intros k e Hk' He. rewrite dget_dset_ne; [by apply Hkeep|]. intros ->. by rewrite (Hkeep _ _ Hk' He) in Hk.
  - intros _. cbn. rewrite dget_dset_eq. split; [done|]. intros e He. rewrite Hget, He in Hk. by destruct (Z.ltb_spec e now).
Qed.

(** ** Rate limit
    The traffic of one tenant from a moment [t0] at which no charge waits:
    charges that went through at once, charges that wait until their due time,
    and a clock that never goes back. *)
Record traffic := Traffic { f_runtime : runtime; f_next : nat; f_waiting : list (nat * (Z * Q)); f_released : Z }.

(** The outcome of a charge of [size] bytes at [now]. *)
Definition settle (size : Z) (now : Q) (x : charged * runtime) (f : traffic) : traffic :=
  match x.1 with
  | Released => Traffic x.2 (f_next f) (f_waiting f) (f_released f + size)
  | Delayed d => Traffic x.2 (S (f_next f)) (f_waiting f ++ [(f_next f, (size, (now + d)%Q))]) (f_released f)
  | Refused => Traffic x.2 (f_next f) (f_waiting f) (f_released f)
  end.

Inductive traffic_run (t : tenant) (idle : Z) (t0 : Q) : Q → traffic → Prop :=
| run_start r : (r_updated r <= t0)%Q → traffic_run t idle t0 t0 (Traffic r 0 [] 0)
| run_charge clock f now size : traffic_run t idle t0 clock f → (clock <= now)%Q → 0 ≤ size →
    traffic_run t idle t0 now (settle size now (charge idle t size now (f_runtime f)) f)
| run_wake clock f now id size due : traffic_run t idle t0 clock f → (clock <= now)%Q →
    dget (f_waiting f) id = Some (size, due) → (due <= now)%Q →
    traffic_run t idle t0 now (Traffic (f_runtime f) (f_next f) (ddel (f_waiting f) id) (f_released f + size))
| run_cancel clock f now id size due : traffic_run t idle t0 clock f → (clock <= now)%Q →
    dget (f_waiting f) id = Some (size, due) →
    traffic_run t idle t0 now (Traffic (refund size (f_runtime f)) (f_next f) (ddel (f_waiting f) id) (f_released f)).

(** Bytes that wait, and those of them that are due by a time. *)
Definition owed (p : Q → bool) (l : list (nat * (Z * Q))) : Z := dsum (λ _ x, if p x.2 then x.1 else 0) l.
Definition due_by (T due : Q) : bool := Qle_bool due T.

Record traffic_ok (t : tenant) (t0 clock : Q) (f : traffic) : Prop := {
  to_wf : dwf (f_waiting f);
  to_next : ∀ id x, (id, x) ∈ f_waiting f → (id < f_next f)%nat ∧ 0 ≤ x.1;
  to_clock : (r_updated (f_runtime f) <= clock)%Q;
  to_start : (t0 <= clock)%Q;
  to_total : (f_waiting f = [] ∧ f_released f = 0) ∨ (r_tokens (f_runtime f) + inject_Z (f_released f + owed (λ _, true) (f_waiting f))
              <= inject_Z (t_burst t) + inject_Z (t_rate t) * (r_updated (f_runtime f) - t0))%Q;
  to_due : ∀ T, (clock <= T)%Q →
    (inject_Z (f_released f + owed (due_by T) (f_waiting f)) <= inject_Z (t_burst t) + inject_Z (t_rate t) * (T - t0))%Q }.

Lemma owed_app p l l' : owed p (l ++ l') = owed p l + owed p l'.
Proof. apply dsum_app. Qed.
Lemma owed_ddel p l id x : dwf l → dget l id = Some x → owed p (ddel l id) = owed p l - (if p x.2 then x.1 else 0).
Proof. intros Hwf Hx. unfold owed. rewrite (dsum_ddel_Some _ _ _ _ Hwf Hx). lia. Qed.

Lemma owed_le p l : (∀ id x, (id, x) ∈ l → 0 ≤ x.1) → owed p l ≤ owed (λ _, true) l.
Proof.
  unfold owed. induction l as [|[id x] l IH]; cbn; intros Hl; [done|]. pose proof (Hl id x (list_elem_of_here _ _)).
  assert (∀ id x, (id, x) ∈ l → 0 ≤ x.1) as Hl' by (intros; eapply Hl; by apply list_elem_of_further). specialize (IH Hl').
  unfold dsum in IH. destruct (p x.2); lia.
Qed.

(** Waiting ends when the bucket would be empty again. *)
Lemma due_covers (burst rate now tokens t0 T : Q) : (0 < rate)%Q → (now + (- tokens / rate) <= T)%Q →
  (burst + rate * (now - t0) - tokens <= burst + rate * (T - t0))%Q.
Proof.
  intros Hr HT. assert (rate * (now + (- tokens / rate)) == rate * now - tokens)%Q as E by (field; lra).
  apply (Qmult_le_l _ _ rate) in HT; [|done]. rewrite E in HT. lra.
Qed.

Lemma charge_tokens idle t size now r x r' : charge idle t size now r = (x, r') → r_updated r' = now ∧
  (r_tokens r' + inject_Z (if x is Refused then 0 else size) <= inject_Z (t_burst t))%Q ∧
  (r_tokens r' + inject_Z (if x is Refused then 0 else size) <= r_tokens r + (now - r_updated r) * inject_Z (t_rate t))%Q ∧
  match x with Released => (0 <= r_tokens r')%Q | Delayed d => d = (- r_tokens r' / inject_Z (t_rate t))%Q | Refused => True end.
Proof.
  unfold charge. set (m := Qmin _ _).
  assert (m <= r_tokens r + (now - r_updated r) * inject_Z (t_rate t))%Q as Hm by apply Q.le_min_r. assert (m <= inject_Z (t_burst t))%Q as Hm' by apply Q.le_min_l.
  destruct (Qle_bool 0 _) eqn:E; [|destruct (Qle_bool _ (inject_Z idle))]; intros [= <- <-]; cbn; (split; [done|]).
  - apply Qle_bool_iff in E. split_and!; [lra|lra|done].
  - split_and!; [lra|lra|done].
  - change (inject_Z 0) with 0%Q. split_and!; [lra|lra|done].
Qed.

(** After a charge the tokens cover what was let through and what waits. *)
Lemma charge_total idle t t0 clock f now size x r' : 0 < t_rate t → traffic_ok t t0 clock f → (clock <= now)%Q → charge idle t size now (f_runtime f) = (x, r') →
  (r_tokens r' + inject_Z (if x is Refused then 0 else size) + inject_Z (f_released f) + inject_Z (owed (λ _, true) (f_waiting f))
    <= inject_Z (t_burst t) + inject_Z (t_rate t) * (now - t0))%Q.
Proof.
  intros Hrate [_ _ _ Hstart Htotal _] Hnow E. destruct (charge_tokens _ _ _ _ _ _ _ E) as (_ & Hcap & Htok & _). destruct Htotal as [[-> ->]|Htotal].
  - assert (0 <= inject_Z (t_rate t))%Q as Hr by (change 0%Q with (inject_Z 0); rewrite <- Zle_Qle; lia).
    assert (0 <= inject_Z (t_rate t) * (now - t0))%Q by (apply Qmult_le_0_compat; [done|lra]). change (inject_Z (owed _ [])) with 0%Q. change (inject_Z 0) with 0%Q. lra.
  - rewrite inject_Z_plus in Htotal. lra.
Qed.

Lemma charge_ok t idle t0 clock f now size : 0 < t_rate t → traffic_ok t t0 clock f → (clock <= now)%Q → 0 ≤ size →
  traffic_ok t t0 now (settle size now (charge idle t size now (f_runtime f)) f).
Proof.
  intros Hrate Hf Hnow Hsize. destruct (charge _ _ _ _ _) as [x r'] eqn:E. pose proof (charge_total _ _ _ _ _ _ _ _ _ Hrate Hf Hnow E) as Htotal.
  destruct (charge_tokens _ _ _ _ _ _ _ E) as (Hu & _ & _ & Hx). assert (0 < inject_Z (t_rate t))%Q as Hr by (change 0%Q with (inject_Z 0); by rewrite <- Zlt_Qlt).
  destruct Hf as [Hwf Hnext Hclock Hstart _ Hdue]. assert (t0 <= now)%Q as Hnow0 by lra.
  assert (∀ p, owed p (f_waiting f) ≤ owed (λ _, true) (f_waiting f)) as Hle by (intros; apply owed_le; intros; by eapply Hnext).
  destruct x as [|d|]; cbn [settle fst snd]; constructor; cbn [f_waiting f_next f_runtime f_released]; try done; rewrite ?Hu; try apply Qle_refl.
  - right. rewrite !inject_Z_plus. lra.
  - intros T HT. specialize (Hle (due_by T)). rewrite Zle_Qle in Hle. rewrite !inject_Z_plus.
    assert (inject_Z (t_rate t) * now <= inject_Z (t_rate t) * T)%Q by (by apply Qmult_le_l). lra.
  - unfold dwf, dkeys. rewrite fmap_app. apply NoDup_app. split; [done|]. split; [|apply NoDup_singleton].
    intros id Hid ->%list_elem_of_singleton. apply list_elem_of_fmap in Hid as ([id' y] & Hy & Hid). apply Hnext in Hid. cbn in Hy, Hid. subst. lia.
  - intros id y [Hin|Hin%list_elem_of_singleton]%elem_of_app; [apply Hnext in Hin; lia|]. simplify_eq. cbn. lia.
  - right. rewrite owed_app. unfold owed at 2. cbn. rewrite Z.add_0_r, !inject_Z_plus. lra.
  - intros T HT. rewrite owed_app. unfold owed at 2. cbn. destruct (due_by T (now + d)) eqn:HD.
    + apply Qle_bool_iff in HD. subst d. apply (due_covers (inject_Z (t_burst t)) _ _ _ t0) in HD; [|done].
      specialize (Hle (due_by T)). rewrite Zle_Qle in Hle. rewrite Z.add_0_r, !inject_Z_plus. lra.
    + rewrite !Z.add_0_r. apply Hdue. lra.
  - right. rewrite inject_Z_plus. change (inject_Z 0) with 0%Q in Htotal. lra.
  - intros T HT. apply Hdue. lra.
Qed.

Lemma traffic_run_ok t idle t0 clock f : 0 < t_rate t → 0 ≤ t_burst t → traffic_run t idle t0 clock f → traffic_ok t t0 clock f.
Proof.
  intros Hrate Hburst. induction 1 as [r Hr|clock f now size _ IH Hnow Hsize|clock f now id size due _ IH Hnow Hid Hdue'|clock f now id size due _ IH Hnow Hid].
  - constructor; cbn [f_waiting f_next f_runtime f_released r_updated r_tokens]; [apply dwf_nil|by intros ?? ?%not_elem_of_nil|done|apply Qle_refl|by left|].
    intros T HT. assert (0 <= inject_Z (t_rate t))%Q by (change 0%Q with (inject_Z 0); rewrite <- Zle_Qle; lia).
    assert (0 <= inject_Z (t_rate t) * (T - t0))%Q by (apply Qmult_le_0_compat; [done|lra]). assert (0 <= inject_Z (t_burst t))%Q by (change 0%Q with (inject_Z 0); by rewrite <- Zle_Qle).
    change (inject_Z (0 + _)) with 0%Q. lra.
  - by eapply charge_ok.
  - destruct IH as [Hwf Hnext Hclock Hstart Htotal Hdue]. constructor; cbn [f_waiting f_next f_runtime f_released].
    + by apply dwf_ddel.
    + intros id' x [_ Hin]%elem_of_ddel. by apply Hnext.
    + lra.
    + lra.
    + right. destruct Htotal as [[Hnil _]|Htotal]; [by rewrite Hnil in Hid|]. rewrite (owed_ddel _ _ _ _ Hwf Hid). cbn.
      by replace (_ + _) with (f_released f + owed (λ _, true) (f_waiting f)) by lia.
    + intros T HT. rewrite (owed_ddel _ _ _ _ Hwf Hid). cbn. unfold due_by at 2. rewrite (proj2 (Qle_bool_iff due T)) by lra.
      replace (_ + _) with (f_released f + owed (due_by T) (f_waiting f)) by lia. apply Hdue. lra.
  - destruct IH as [Hwf Hnext Hclock Hstart Htotal Hdue]. constructor; cbn [f_waiting f_next f_runtime f_released refund r_tokens r_updated].
    + by apply dwf_ddel.
    + intros id' x [_ Hin]%elem_of_ddel. by apply Hnext.
    + lra.
    + lra.
    + right. destruct Htotal as [[Hnil _]|Htotal]; [by rewrite Hnil in Hid|]. rewrite (owed_ddel _ _ _ _ Hwf Hid). cbn. rewrite <- Qplus_assoc, <- inject_Z_plus.
      by replace (size + _) with (f_released f + owed (λ _, true) (f_waiting f)) by lia.
    + intros T HT. eapply Qle_trans; [|apply (Hdue T); lra]. rewrite <- Zle_Qle, (owed_ddel _ _ _ _ Hwf Hid). apply dget_elem_of, Hnext in Hid as [_ Hs]. cbn in *.
      destruct (due_by T due); lia.
Qed.

(** ** Admission *)
Section Facts.
Context `{Sig : Signing} (nfc : pystr → pystr) (c : vb_config).

(** What a request that passes has been checked for. *)
Record admission_checked (raw : bytes) (now : Z) (a : admission) : Prop := {
  ac_tenant : dget (vb_tenants c) (t_id (a_tenant a)) = Some (a_tenant a);
  ac_route : dget (vb_routes c) (t_id (a_tenant a), a_core a) = Some (a_target a);
  ac_fresh : now ≤ a_expires a ≤ now + 150;
  ac_approved : t_approval (a_tenant a) = str "approval-required" → (t_id (a_tenant a), a_client a) ∈ vb_approvals c;
  ac_signed : ∃ request pub sig, admission_request nfc raw = Ok request ∧ pub ∈ t_keys (a_tenant a) ∧
    vget_none request "tenant" = VStr (t_id (a_tenant a)) ∧ vget_none request "client" = VStr (a_client a) ∧
    vget_none request "core" = VStr (a_core a) ∧ vget_none request "expires" = VInt (a_expires a) ∧
    decode64 (vget_none request "nonce") = Ok (a_nonce a) ∧ decode64 (vget_none request "signature") = Ok sig ∧
    verify_sig pub sig (dumps_canonical (VDict (ddel request (str "signature")))) = true }.

Lemma admission_request_texts raw request name : admission_request nfc raw = Ok request → name ∈ admission_texts →
  vget_none request name = VStr (as_text (vget_none request name)).
Proof.
  unfold admission_request. intros H Hn. inv_ok. destruct v0 as [| | | | | |d]; try done. inv_ok. bool_simpl. subst d.
  match goal with K : forallb _ admission_texts = true |- _ => rewrite forallb_forall in K; specialize (K name); rename K into Ht end.
  apply list_elem_of_In, Ht in Hn. by destruct (vget_none request name).
Qed.

Lemma check_admission_Ok raw now a : config_ok c → check_admission nfc c raw now = Ok a → admission_checked raw now a.
Proof.
  intros Hc. unfold check_admission. intros (request & Hq & H)%bind_Ok_inv.
  pose proof (admission_request_texts _ _ "tenant" Hq ltac:(set_solver)) as Ht. pose proof (admission_request_texts _ _ "client" Hq ltac:(set_solver)) as Hcl.
  pose proof (admission_request_texts _ _ "core" Hq ltac:(set_solver)) as Hco.
  destruct (dget (vb_tenants c) _) as [t|] eqn:Et; [|done]. pose proof (find_tenant_id _ _ _ Hc Et) as Hid.
  destruct (dget (vb_routes c) _) as [target|] eqn:Er; [|done]. apply bind_Ok_inv in H as (_ & _ & H).
  destruct (vget_none request "issued") as [| |issued| | | |]; try done. destruct (vget_none request "expires") as [| |expires| | | |] eqn:Ee; try done.
  apply bind_Ok_inv in H as (_ & Htime%raise_if_Ok & H). apply bind_Ok_inv in H as (nonce & Hnonce & H). apply bind_Ok_inv in H as (pub & _ & H).
  apply bind_Ok_inv in H as (sig & Hsig & H). apply bind_Ok_inv in H as (_ & Hcred%raise_if_Ok & H). apply bind_Ok_inv in H as (_ & Hver%raise_if_Ok & H).
  apply bind_Ok_inv in H as (_ & Happ%raise_if_Ok & [= <-]). bool_simpl. match goal with K : between 0 _ 120 = true |- _ => apply between_spec in K end.
  constructor; cbn [a_tenant a_core a_client a_target a_expires a_nonce]; rewrite ?Hid; [done|by rewrite <- Hid|lia| |].
  - intros Hap. rewrite bool_decide_true, Hid in Happ by done. cbn in Happ. bool_simpl. by apply dec_stable.
  - exists request, pub, sig. repeat (split; [first [done|by apply dec_stable]|]). done.
Qed.

(** Admitting touches nothing but the memory of nonces. *)
Definition frame (b b' : broker) : Prop := broker_nonces b' ∧ b_runtime b' = b_runtime b ∧ b_connections b' = b_connections b.

Lemma admit_spec raw now b r b' : broker_nonces b → admit_client nfc c raw now b = (r, b') →
  frame b b' ∧ (∀ k e, dget (b_nonces b) k = Some e → now ≤ e → dget (b_nonces b') k = Some e) ∧
  ∀ x, r = Ok x → ∃ a, check_admission nfc c raw now = Ok a ∧ x = (a_tenant a, virtual_id c a, a_target a) ∧
    dget (b_nonces b') (t_id (a_tenant a), a_nonce a) = Some (a_expires a) ∧
    ∀ e, dget (b_nonces b) (t_id (a_tenant a), a_nonce a) = Some e → e < now.
Proof.
  intros Hb. unfold admit_client. intros [(a & Ha & H1)|(-> & e & _ & ->)]%M_lift_inv; [|by split_and!].
  apply M_bind_inv in H1 as [([] & b1 & H1 & [= <- <-])|(e & H1 & ->)]; destruct (remember_nonce_spec _ _ _ _ _ Hb H1) as (? & ? & ? & ? & H2); split_and!; try done.
  intros x [= <-]. exists a. split; [done|]. split; [done|]. by apply H2.
Qed.

Lemma datagram_payload_spec raw r anonymous now b x b' : broker_nonces b → datagram_payload nfc c raw r anonymous now b = (x, b') → frame b b'.
Proof.
  intros Hb. unfold datagram_payload. intros [(? & _ & H1)|(-> & _)]%M_lift_inv; [|done]. destruct anonymous; [by injection H1 as <- <-|].
  apply M_lift_inv in H1 as [(? & _ & H1)|(-> & _)]; [|done]. apply M_lift_inv in H1 as [(? & _ & H1)|(-> & _)]; [|done].
  apply M_bind_inv in H1 as [(y & b1 & H1 & H2)|(e & H1 & ->)]; destruct (admit_spec _ _ _ _ _ Hb H1) as [Hf _]; [|done].
  apply M_lift_inv in H2 as [(? & _ & H2)|(-> & _)]; [|done]. by injection H2 as <- <-.
Qed.

(** A tenant that [handle] may count a connection for. *)
Definition admitted_by (anonymous : option route) (input : bytes) (now : Z) : M broker (tenant * endpoint) :=
  match anonymous with
  | None => raw ← mlift (read_admission input); y ← admit_client nfc c raw now; mret (y.1.1, y.2)
  | Some r => t ← mlift (find_tenant c r.1); e ← mlift (find_route c r); mret (t, e)
  end.

Lemma admitted_by_spec anonymous input now b x b' : config_ok c → broker_nonces b → admitted_by anonymous input now b = (x, b') →
  frame b b' ∧ ∀ y, x = Ok y → dget (vb_tenants c) (t_id y.1) = Some y.1.
Proof.
  intros Hc Hb. unfold admitted_by. destruct anonymous as [r|].
  - intros [(t & Ht & H1)|(-> & e & _ & ->)]%M_lift_inv; [|done]. apply M_lift_inv in H1 as [(e & _ & H1)|(-> & e & _ & ->)]; [|done].
    injection H1 as <- <-. split; [done|]. intros y [= <-]. cbn. unfold find_tenant in Ht. destruct (dget (vb_tenants c) r.1) as [t'|] eqn:Et; [|done].
    injection Ht as ->. by rewrite (find_tenant_id _ _ _ Hc Et).
  - intros [(raw & _ & H1)|(-> & e & _ & ->)]%M_lift_inv; [|done]. apply M_bind_inv in H1 as [(y & b1 & H1 & [= <- <-])|(e & H1 & ->)];
      destruct (admit_spec _ _ _ _ _ Hb H1) as (Hf & _ & H2); (split; [done|]); [|done]. intros z [= <-].
    destruct (H2 y eq_refl) as (a & Ha & -> & _). by apply check_admission_Ok in Ha as [].
Qed.

(** ** Connections *)
Definition holders (tid : pystr) (ts : list (nat * task)) : Z := dsum (λ _ k, if bool_decide (holds k = Some tid) then 1 else 0) ts.

Record world_ok (w : world) : Prop := {
  wo_wf : dwf (w_tasks w);
  wo_next : ∀ id k, (id, k) ∈ w_tasks w → (id < w_next w)%nat;
  wo_count : b_connections (w_broker w) = zlen (w_tasks w);
  wo_limit : b_connections (w_broker w) ≤ 4096;
  wo_active : ∀ tid t, dget (vb_tenants c) tid = Some t → ∃ r, dget (b_runtime (w_broker w)) tid = Some r ∧
    r_active r = holders tid (w_tasks w) ∧ r_active r ≤ t_connections t;
  wo_nonces : broker_nonces (w_broker w);
  wo_sessions : ∀ i j p s t t', (i, Session p s t) ∈ w_tasks w → (j, Session p s t') ∈ w_tasks w → i = j }.

Lemma bump_runtime tid n b tid' : dget (b_runtime (bump tid n b)) tid' =
  if bool_decide (tid' = tid) then (λ r, Runtime (r_active r + n) (r_tokens r) (r_updated r)) <$> dget (b_runtime b) tid else dget (b_runtime b) tid'.
Proof.
  unfold bump. case_bool_decide as E; [subst tid'|]; destruct (dget (b_runtime b) tid) eqn:Hr; cbn; rewrite ?dget_dset_eq, ?dget_dset_ne by done; done.
Qed.
Lemma bump_rest tid n b : b_nonces (bump tid n b) = b_nonces b ∧ b_expiry (bump tid n b) = b_expiry b ∧ b_connections (bump tid n b) = b_connections b.
Proof. unfold bump. by destruct (dget _ _). Qed.
Lemma bump_nonces tid n b : broker_nonces b → broker_nonces (bump tid n b).
Proof. unfold broker_nonces. by destruct (bump_rest tid n b) as (-> & -> & _). Qed.

(** The counters after a change of one task. *)
Lemma bump_active b tid n ts ts' :
  (∀ tid' t, dget (vb_tenants c) tid' = Some t → ∃ r, dget (b_runtime b) tid' = Some r ∧ r_active r = holders tid' ts ∧ r_active r ≤ t_connections t) →
  (∀ tid', holders tid' ts' = holders tid' ts + (if bool_decide (tid' = tid) then n else 0)) →
  (∀ t, dget (vb_tenants c) tid = Some t → holders tid ts + n ≤ t_connections t) →
  ∀ tid' t, dget (vb_tenants c) tid' = Some t → ∃ r, dget (b_runtime (bump tid n b)) tid' = Some r ∧ r_active r = holders tid' ts' ∧ r_active r ≤ t_connections t.
Proof.
  intros Ha Hh Hle tid' t Ht. destruct (Ha _ _ Ht) as (r & Hr & Heq & Hmax). specialize (Hh tid'). rewrite bump_runtime. case_bool_decide as E.
  - subst tid'. rewrite Hr. eexists. split; [done|]. cbn. specialize (Hle t Ht). lia.
  - exists r. split; [done|]. lia.
Qed.

Lemma holders_snoc tid ts id k : holders tid (ts ++ [(id, k)]) = holders tid ts + (if bool_decide (holds k = Some tid) then 1 else 0).
Proof. unfold holders. rewrite dsum_app. cbn. lia. Qed.
Lemma holders_dset tid ts id k k' : dget ts id = Some k → holders tid (dset ts id k') =
  holders tid ts - (if bool_decide (holds k = Some tid) then 1 else 0) + (if bool_decide (holds k' = Some tid) then 1 else 0).
Proof. apply dsum_dset_Some. Qed.
Lemma holders_ddel tid ts id k : dwf ts → dget ts id = Some k → holders tid (ddel ts id) = holders tid ts - (if bool_decide (holds k = Some tid) then 1 else 0).
Proof. apply dsum_ddel_Some. Qed.
Lemma holder_bit (k : task) (tid t : pystr) : holds k = Some t → (if bool_decide (holds k = Some tid) then 1 else 0) = if bool_decide (tid = t) then 1 else 0.
Proof. intros ->. do 2 case_bool_decide; simplify_eq; done. Qed.
Lemma holder_zero (k : task) tid : holds k = None → (if bool_decide (holds k = Some tid) then 1 else 0) = 0.
Proof. by intros ->. Qed.

Lemma frame_ok w b : world_ok w → frame (w_broker w) b → world_ok (set_broker b w).
Proof. intros [? ? Hc ? ? ? ?] (Hn & Hr & Hcn). constructor; cbn; rewrite ?Hr, ?Hcn; done. Qed.

Lemma finish_ok id w : world_ok w → world_ok (finish id w).
Proof.
  intros Hw. pose proof Hw as [Hwf Hnext Hcount Hlimit Hactive Hnonces Hsess]. unfold finish. destruct (dget (w_tasks w) id) as [k|] eqn:Hk; [|done].
  pose proof (length_ddel_Some _ _ _ Hwf Hk) as Hlen. constructor; cbn [w_tasks w_next w_broker].
  - by apply dwf_ddel.
  - intros id' k' [_ Hin]%elem_of_ddel. eauto.
  - destruct (holds k) as [t|]; cbn; [rewrite (proj2 (proj2 (bump_rest t (-1) (w_broker w))))|]; unfold zlen in *; lia.
  - destruct (holds k) as [t|]; cbn; [rewrite (proj2 (proj2 (bump_rest t (-1) (w_broker w))))|]; lia.
  - destruct (holds k) as [t|] eqn:Ht; cbn [add_connections b_runtime].
    + apply (bump_active _ _ _ (w_tasks w)); [done| |].
      * intros tid. rewrite (holders_ddel _ _ _ _ Hwf Hk), (holder_bit _ _ _ Ht). case_bool_decide; lia.
      * intros t' Ht'. destruct (Hactive _ _ Ht') as (r & _ & ? & ?). lia.
    + intros tid t Htn. rewrite (holders_ddel _ _ _ _ Hwf Hk), (holder_zero _ _ Ht), Z.sub_0_r. eauto.
  - destruct (holds k); [by apply bump_nonces|done].
  - intros i j p s t t' [_ ?]%elem_of_ddel [_ ?]%elem_of_ddel. eauto.
Qed.

(** A new task, and the Broker that counts it. *)
Lemma spawn_with k b w : world_ok w → b_connections (w_broker w) < 4096 → b_connections b = b_connections (w_broker w) + 1 → broker_nonces b →
  (∀ tid t, dget (vb_tenants c) tid = Some t → ∃ r, dget (b_runtime b) tid = Some r ∧ r_active r = holders tid (w_tasks w ++ [(w_next w, k)]) ∧ r_active r ≤ t_connections t) →
  (∀ p s t, k = Session p s t → has_session p s w = false) → world_ok (spawn k (set_broker b w)).
Proof.
  intros [Hwf Hnext Hcount Hlimit Hactive Hnonces Hsess] Hlt Hb Hbn Hba Hk.
  assert (∀ i p s t t', (i, Session p s t) ∈ w_tasks w → k = Session p s t' → False) as Hnew.
  { intros i p s t t' Hi ->. specialize (Hk _ _ _ eq_refl). unfold has_session in Hk. rewrite <- not_true_iff_false in Hk. apply Hk, existsb_exists.
    exists (i, Session p s t). split; [by apply list_elem_of_In|]. cbn. by rewrite Z.eqb_refl, bool_decide_true. }
  constructor; cbn [spawn set_broker w_tasks w_next w_broker]; try done.
  - unfold dwf, dkeys. rewrite fmap_app. apply NoDup_app. split; [done|]. split; [|apply NoDup_singleton].
    intros id Hid ->%list_elem_of_singleton. apply list_elem_of_fmap in Hid as ([id' k'] & Hy & Hid). apply Hnext in Hid. cbn in Hy. subst. lia.
  - intros id k' [Hin|Hin%list_elem_of_singleton]%elem_of_app; [apply Hnext in Hin; lia|]. simplify_eq. lia.
  - rewrite zlen_app, zlen_cons, zlen_nil. lia.
  - lia.
  - intros i j p s t t' [Hi|Hi%list_elem_of_singleton]%elem_of_app [Hj|Hj%list_elem_of_singleton]%elem_of_app; simplify_eq; eauto; by destruct (Hnew _ _ _ _ _ ltac:(eassumption) eq_refl).
Qed.

Lemma spawn_ok k w : world_ok w → b_connections (w_broker w) < 4096 → holds k = None → world_ok (spawn k (set_broker (add_connections 1 (w_broker w)) w)).
Proof.
  intros Hw Hlt Hk. apply spawn_with; [done|done|done|apply Hw| |by intros ??? ->]. intros tid t Ht.
  rewrite holders_snoc, (holder_zero _ _ Hk), Z.add_0_r. by apply (wo_active w Hw).
Qed.

(** The counter of a tenant below its quota. *)
Lemma below_quota w tid t : world_ok w → dget (vb_tenants c) tid = Some t → active_of (w_broker w) tid < t_connections t → holders tid (w_tasks w) + 1 ≤ t_connections t.
Proof. intros Hw Ht. destruct (wo_active w Hw _ _ Ht) as (r & Hr & Ha & _). unfold active_of. rewrite Hr. cbn. lia. Qed.

Lemma spawn_session_ok w port source tid t : world_ok w → b_connections (w_broker w) < 4096 → dget (vb_tenants c) tid = Some t →
  active_of (w_broker w) tid < t_connections t → has_session port source w = false →
  world_ok (spawn (Session port source tid) (set_broker (add_connections 1 (bump tid 1 (w_broker w))) w)).
Proof.
  intros Hw Hlt Ht Ha Hs. apply spawn_with; [done|done| | | |by intros ??? [= <- <- <-]].
  - cbn. by rewrite (proj2 (proj2 (bump_rest _ _ _))).
  - apply (bump_nonces tid 1), Hw.
  - cbn [add_connections b_runtime]. apply (bump_active _ _ _ (w_tasks w)); [apply Hw| |].
    + intros tid'. by rewrite holders_snoc, (holder_bit _ _ tid) by done.
    + intros t' Ht'. simplify_eq. by eapply below_quota.
Qed.

(** A waiting task is counted for a tenant from now on. *)
Lemma become_ok w id k k' tid t : world_ok w → dget (w_tasks w) id = Some k → holds k = None → holds k' = Some tid → (∀ p s t, k' ≠ Session p s t) →
  dget (vb_tenants c) tid = Some t → active_of (w_broker w) tid < t_connections t → world_ok (become id k' (set_broker (bump tid 1 (w_broker w)) w)).
Proof.
  intros Hw Hid Hk Hk' Hs Ht Ha. pose proof Hw as [Hwf Hnext Hcount Hlimit Hactive Hnonces Hsess].
  assert (∀ i p s t, (i, Session p s t) ∈ dset (w_tasks w) id k' → (i, Session p s t) ∈ w_tasks w) as Hold.
  { intros i p s t' [[_ E]|?]%elem_of_dset_inv; [by destruct (Hs p s t')|done]. }
  constructor; cbn [become set_broker w_tasks w_next w_broker]; rewrite ?(proj2 (proj2 (bump_rest _ _ _))); try done.
  - by apply dwf_dset.
  - intros i x [[-> ->]|Hin]%elem_of_dset_inv; [by apply dget_elem_of, Hnext in Hid|eauto].
  - unfold zlen in *. by rewrite (length_dset_Some _ _ _ _ Hid).
  - apply (bump_active _ _ _ (w_tasks w)); [done| |].
    + intros tid'. rewrite (holders_dset _ _ _ _ _ Hid), (holder_zero _ _ Hk), (holder_bit _ _ _ Hk'). lia.
    + intros t' Ht'. simplify_eq. by eapply below_quota.
  - by apply bump_nonces.
  - eauto.
Qed.

(** The traffic of a tenant leaves its counter. *)
Lemma runtime_ok w tid r r' : world_ok w → dget (b_runtime (w_broker w)) tid = Some r → r_active r' = r_active r →
  world_ok (set_broker (set_runtime tid r' (w_broker w)) w).
Proof.
  intros Hw Hr Ha. pose proof Hw as [Hwf Hnext Hcount Hlimit Hactive Hnonces Hsess]. constructor; cbn [set_broker set_runtime w_broker w_tasks w_next b_runtime b_connections]; try done.
  intros tid' t Ht. destruct (Hactive _ _ Ht) as (r0 & Hr0 & ? & ?). destruct (decide (tid' = tid)) as [->|Hne].
  - exists r'. rewrite dget_dset_eq. rewrite Hr in Hr0. injection Hr0 as <-. rewrite Ha. by split.
  - exists r0. by rewrite dget_dset_ne.
Qed.

Lemma charge_active idle t size now r : r_active (charge idle t size now r).2 = r_active r.
Proof. unfold charge. destruct (Qle_bool _ _); [done|]. by destruct (Qle_bool _ _). Qed.

Lemma handle_start_ok anonymous w : world_ok w → world_ok (handle_start anonymous w).
Proof. intros Hw. unfold handle_start. destruct (Z.leb_spec 4096 (b_connections (w_broker w))); [done|by apply spawn_ok]. Qed.

Lemma handle_body_ok id input now w : config_ok c → world_ok w → world_ok (handle_body nfc c id input now w).
Proof.
  intros Hc Hw. unfold handle_body. destruct (dget (w_tasks w) id) as [k|] eqn:Hk; [|done]. destruct k as [anonymous| | | |]; try done.
  destruct (handshake _ _ _ _ _ _) as [x b] eqn:E. unfold handshake in E. fold (admitted_by anonymous input now) in E.
  apply M_bind_inv in E as [(y & b1 & H1 & H2)|(e & H1 & ->)]; destruct (admitted_by_spec _ _ _ _ _ _ Hc (wo_nonces w Hw) H1) as [Hf Ht];
    pose proof (frame_ok _ _ Hw Hf) as Hw1; [|by apply finish_ok].
  specialize (Ht y eq_refl). apply M_bind_inv in H2 as [([] & b2 & H2 & [= <- <-])|(e & H2 & ->)]; unfold enter in H2;
    destruct (Z.leb_spec (t_connections y.1) (active_of b1 (t_id y.1))) as [|Hlt]; simplify_eq; [|by apply finish_ok].
  by apply (become_ok (set_broker b1 w) id _ (Relay (t_id y.1)) (t_id y.1) y.1 Hw1 Hk).
Qed.

Lemma datagram_body_ok id now w : world_ok w → world_ok (datagram_body nfc c id now w).
Proof.
  intros Hw. unfold datagram_body. destruct (dget (w_tasks w) id) as [k|] eqn:Hk; [|done]. destruct k as [| |raw r anonymous| |]; try done.
  destruct (datagram_payload _ _ _ _ _ _ _) as [x b] eqn:E. pose proof (frame_ok _ _ Hw (datagram_payload_spec _ _ _ _ _ _ _ (wo_nonces w Hw) E)) as Hw1.
  destruct x as [payload|e]; [|by apply finish_ok]. destruct (dget (vb_tenants c) r.1) as [t|] eqn:Ht; [|by apply finish_ok].
  destruct (Z.leb_spec (t_connections t) (active_of b r.1)) as [|Hlt]; [by apply finish_ok|].
  by apply (become_ok (set_broker b w) id _ (Exchange r.1) r.1 t Hw1 Hk).
Qed.

Lemma open_session_ok l source connected w : world_ok w → has_session l.1.1.1 source w = false → world_ok (open_session c l source connected w).2.
Proof.
  destruct l as [[[port r] carrier] anonymous]. cbn. intros Hw Hs. unfold find_tenant. destruct (dget (vb_tenants c) r.1) as [t|] eqn:Ht; [|done].
  destruct (Z.leb_spec 4096 (b_connections (w_broker w))) as [|Hn]; [done|]. destruct (Z.leb_spec (t_connections t) (active_of (w_broker w) r.1)) as [|Ha]; [done|].
  cbn [orb]. destruct (find_route c r ≫= host_family); [|done]. destruct connected; [|done]. by eapply spawn_session_ok.
Qed.

Lemma receive_datagram_ok l source raw connected now w : world_ok w → world_ok (receive_datagram nfc c l source raw connected now w).2.
Proof.
  intros Hw. unfold receive_datagram. destruct l as [[[port r] carrier] anonymous]. case_bool_decide.
  { cbn. destruct (Z.leb_spec 4096 (b_connections (w_broker w))); [done|by apply spawn_ok]. }
  destruct (datagram_payload _ _ _ _ _ _ _) as [x b] eqn:E. pose proof (frame_ok _ _ Hw (datagram_payload_spec _ _ _ _ _ _ _ (wo_nonces w Hw) E)) as Hw1.
  assert (∀ (y : result unit) w', world_ok w' → world_ok (match y with Ok _ => (Ok tt, w') | Raise e => if caught datagram_caught e then (Ok tt, w') else (Raise e, w') end).2) as Hend.
  { intros [u|e] w' Hw'; [done|]. by destruct (caught _ e). }
  destruct x as [payload|e]; [|by apply (Hend (Raise e))]. destruct (has_session port source (set_broker b w)) eqn:Hs; [by apply (Hend (Ok tt))|].
  pose proof (open_session_ok (port, r, carrier, anonymous) source connected _ Hw1 Hs) as H1.
  destruct (open_session c _ source connected _) as [y w']. by apply Hend.
Qed.

Lemma turn_ok e w : config_ok c → world_ok w → world_ok (turn nfc c e w).
Proof.
  intros Hc Hw. destruct e; cbn [turn].
  - by apply handle_start_ok.
  - by apply handle_body_ok.
  - by apply receive_datagram_ok.
  - by apply datagram_body_ok.
  - unfold charge_tenant. destruct (dget (vb_tenants c) tid); [|done]. destruct (dget (b_runtime (w_broker w)) tid) eqn:Hr; [|done].
    eapply runtime_ok; [done|done|apply charge_active].
  - unfold refund_tenant. destruct (dget (b_runtime (w_broker w)) tid) eqn:Hr; [|done]. by eapply runtime_ok.
  - by apply finish_ok.
Qed.

Lemma start_world_ok now : config_ok c → world_ok (start_world c now).
Proof.
  intros Hc. constructor; cbn; try done; [apply dwf_nil|by intros ?? ?%not_elem_of_nil| | |by intros ?????? ?%not_elem_of_nil].
  - intros tid t Ht. exists (Runtime 0 (inject_Z (t_burst t)) now). split; [|apply dget_elem_of, (proj2 (cf_tenants c Hc)) in Ht as (_ & ? & _); split; [done|cbn; lia]].
    induction (vb_tenants c) as [|[k v] l IH]; cbn in *; [done|]. case_bool_decide; [by simplify_eq|by apply IH].
  - constructor; cbn; [apply dwf_nil|done|constructor|done].
Qed.

Lemma serve_ok es w : config_ok c → world_ok w → world_ok (serve nfc c es w).
Proof. intros Hc. revert w. unfold serve. induction es as [|e es IH]; intros w Hw; cbn; [done|]. by apply IH, turn_ok. Qed.
End Facts.
