(* ===== verification/VirtualClaims.v ===== *)
(** * What the virtual Broker promises

    Admission, isolation of tenants, no replay, the rate limit and the
    accounting of connections, along every sequence of events of the event
    loop, with a demonstration configuration for the witnesses. *)
From Stdlib Require Import QArith Qminmax Lqa.
From S2P Require Import Prelude Dict PyStr PyText PyValue Json StrictJson Sha256 Signing Base64 Net VirtualBroker VirtualFacts.
#[local] Open Scope Z_scope.

Section Traces.
Context `{Sig : Signing} (nfc : pystr → pystr) (c : vb_config).

(** The admission request inside a datagram. *)
Definition datagram_admission (raw : bytes) (anonymous : bool) : option bytes :=
  let size := be_decode (take 2 raw) in
  if datagram_size c (zlen raw) && negb anonymous && negb (zlen raw <? 3) && between 1 size 16384 && (size + 2 <? zlen raw)
  then Some (slice 2 (2 + size) raw) else None.

(** The request an event presents to [admit_client], and when. *)
Definition presented (e : event) (w : world) : option (bytes * Z) :=
  match e with
  | EHandshake id input now =>
      match dget (w_tasks w) id with
      | Some (Handshake None) => match read_admission input with Ok raw => Some (raw, now) | Raise _ => None end
      | _ => None
      end
  | EReceive (_, _, carrier, anonymous) _ raw _ now =>
      if bool_decide (carrier = str "gate") then None else (λ r, (r, now)) <$> datagram_admission raw anonymous
  | EDatagram id now =>
      match dget (w_tasks w) id with
      | Some (Datagram raw _ anonymous) => (λ r, (r, now)) <$> datagram_admission raw anonymous
      | _ => None
      end
  | _ => None
  end.

(** The admission an event makes. *)
Definition admits (b : broker) (x : bytes * Z) : option admission :=
  match check_admission nfc c x.1 x.2 with
  | Ok a => match (remember_nonce a x.2 b).1 with Ok _ => Some a | Raise _ => None end
  | Raise _ => None
  end.

Fixpoint admissions (es : list event) (w : world) : list admission :=
  match es with
  | [] => []
  | e :: es => option_list (presented e w ≫= admits (w_broker w)) ++ admissions es (turn nfc c e w)
  end.

(** The wall clock never goes back. *)
Definition clock_of (e : event) : option Z :=
  match e with EHandshake _ _ now | EReceive _ _ _ _ now | EDatagram _ now => Some now | _ => None end.
Fixpoint clocked (T : Z) (es : list event) : Prop :=
  match es with
  | [] => True
  | e :: es => T ≤ default T (clock_of e) ∧ clocked (default T (clock_of e)) es
  end.

Lemma presented_clock e w raw now : presented e w = Some (raw, now) → clock_of e = Some now.
Proof.
  destruct e; cbn; try done.
  - destruct (dget _ _) as [[[]| | | |]|]; try done. destruct (read_admission _); [|done]. by intros [= _ ->].
  - destruct l as [[[port r] carrier] anonymous]. case_bool_decide; [done|]. destruct (datagram_admission _ _); [|done]. by intros [= _ ->].
  - destruct (dget _ _) as [[| | | |]|]; try done. destruct (datagram_admission _ _); [|done]. by intros [= _ ->].
Qed.

(** The memory of nonces after an event. *)
Definition nonces_after (o : option (bytes * Z)) (b : broker) : list (nonce_key * Z) :=
  match o with Some (raw, now) => b_nonces (admit_client nfc c raw now b).2 | None => b_nonces b end.

Lemma datagram_payload_nonces raw r anonymous now b :
  b_nonces (datagram_payload nfc c raw r anonymous now b).2 = nonces_after ((λ x, (x, now)) <$> datagram_admission raw anonymous) b.
Proof.
  unfold datagram_payload, datagram_admission, mraise_if. destruct (datagram_size c (zlen raw)); [|done]. cbn -[admit_client]. destruct anonymous; [done|].
  destruct (Z.ltb_spec (zlen raw) 3); [done|]. cbn -[admit_client]. destruct (between 1 _ 16384); [|done]. cbn -[admit_client].
  rewrite Z.ltb_antisym. destruct (zlen raw <=? _); [done|]. cbn -[admit_client]. unfold mbind, M_bind, mlift. cbn -[admit_client].
  destruct (admit_client nfc c _ now b) as [[x|e] b']; [|done]. by destruct (negb _ || _).
Qed.

Lemma finish_nonces id w : b_nonces (w_broker (finish id w)) = b_nonces (w_broker w).
Proof. unfold finish. destruct (dget _ _) as [k|]; [|done]. cbn. destruct (holds k); [apply bump_rest|done]. Qed.

Lemma open_session_nonces l source connected w : b_nonces (w_broker (open_session c l source connected w).2) = b_nonces (w_broker w).
Proof.
  unfold open_session. destruct l as [[[port r] carrier] anonymous]. destruct (find_tenant c r.1); [|done]. destruct (_ || _); [done|].
  destruct (_ ≫= _); [|done]. destruct connected; [|done]. apply bump_rest.
Qed.

Lemma turn_nonces e w : b_nonces (w_broker (turn nfc c e w)) = nonces_after (presented e w) (w_broker w).
Proof.
  destruct e; cbn [turn presented].
  - unfold handle_start. by destruct (_ <=? _).
  - unfold handle_body. destruct (dget _ _) as [[a| | | |]|]; try done. destruct a as [r|].
    + unfold handshake, find_tenant, find_route, mbind, M_bind, mlift. destruct (dget (vb_tenants c) r.1) as [t|]; cbn; [|by rewrite finish_nonces].
      destruct (dget (vb_routes c) r); cbn; [|by rewrite finish_nonces]. unfold enter. destruct (_ <=? _); cbn; [by rewrite finish_nonces|apply bump_rest].
    + unfold handshake, mbind, M_bind, mlift. destruct (read_admission input) as [raw|e]; cbn -[admit_client]; [|by rewrite finish_nonces].
      destruct (admit_client nfc c raw now (w_broker w)) as [[x|e] b] eqn:E; cbn -[admit_client]; [|by rewrite finish_nonces].
      unfold enter. destruct (_ <=? _); cbn; [by rewrite finish_nonces|apply bump_rest].
  - unfold receive_datagram. destruct l as [[[port r] carrier] anonymous]. case_bool_decide; cbn [snd]; [by destruct (_ <=? _)|].
    rewrite <- (datagram_payload_nonces raw r anonymous now). destruct (datagram_payload _ _ _ _ _ _ _) as [[x|e] b]; cbn [snd]; [|by destruct (caught _ e)].
    destruct (has_session _ _ _); [done|]. pose proof (open_session_nonces (port, r, carrier, anonymous) source connected (set_broker b w)) as H1.
    destruct (open_session _ _ _ _ _) as [[u|e] w']; [done|]. by destruct (caught _ e).
  - unfold datagram_body. destruct (dget _ _) as [[| |raw r anonymous| |]|]; try done. rewrite <- (datagram_payload_nonces raw r anonymous now).
    destruct (datagram_payload _ _ _ _ _ _ _) as [[x|e] b]; cbn [snd]; [|by rewrite finish_nonces]. destruct (dget (vb_tenants c) r.1); [|by rewrite finish_nonces].
    destruct (_ <=? _); [by rewrite finish_nonces|apply bump_rest].
  - unfold charge_tenant. destruct (dget _ _); [|done]. by destruct (dget _ _).
  - unfold refund_tenant. by destruct (dget _ _).
  - apply finish_nonces.
Qed.

(** What an admission leaves behind. *)
Definition stamp (a : admission) : nonce_key * Z := (t_id (a_tenant a), a_nonce a, a_expires a).

Lemma admits_spec b raw now a : broker_nonces b → admits b (raw, now) = Some a → check_admission nfc c raw now = Ok a ∧
  dget (b_nonces (admit_client nfc c raw now b).2) (t_id (a_tenant a), a_nonce a) = Some (a_expires a) ∧
  ∀ e, dget (b_nonces b) (t_id (a_tenant a), a_nonce a) = Some e → e < now.
Proof.
  intros Hb. unfold admits, admit_client. cbn [fst snd]. destruct (check_admission nfc c raw now) as [a'|] eqn:Ha; [|done].
  destruct (remember_nonce a' now b) as [[[]|] b'] eqn:E; [|done]. intros [= ->]. destruct (remember_nonce_spec _ _ _ _ _ Hb E) as (_ & _ & _ & _ & H2).
  destruct (H2 eq_refl) as [H3 H4]. split; [done|]. split; [|done]. unfold mbind at 1, M_bind at 1, mlift. unfold mbind, M_bind. by rewrite E.
Qed.

(** No admission repeats one of the past: the past is remembered or has expired. *)
Lemma admissions_fresh es w T (seen : list (nonce_key * Z)) : config_ok c → world_ok c w → clocked T es →
  (∀ k x, (k, x) ∈ seen → dget (b_nonces (w_broker w)) k = Some x ∨ x < T) →
  NoDup (stamp <$> admissions es w) ∧ ∀ a, a ∈ admissions es w → stamp a ∉ seen.
Proof.
  intros Hc. revert w T seen. induction es as [|e es IH]; intros w T seen Hw Hclock Hseen; cbn [admissions]; [split; [constructor|by intros ? ?%not_elem_of_nil]|].
  destruct Hclock as [HT Hclock]. pose proof (turn_ok nfc c e w Hc Hw) as Hw'. pose proof (turn_nonces e w) as Hn. pose proof (wo_nonces c w Hw) as Hb.
  destruct (presented e w) as [[raw now]|] eqn:Hp; cbn [mbind option_bind nonces_after] in *; cycle 1.
  { apply (IH _ _ seen Hw' Hclock). intros k x Hk. rewrite Hn. destruct (Hseen k x Hk); [by left|right; lia]. }
  pose proof (presented_clock _ _ _ _ Hp) as Hcl. rewrite Hcl in HT, Hclock. cbn in HT, Hclock.
  destruct (admit_client nfc c raw now (w_broker w)) as [r b'] eqn:E. destruct (admit_spec nfc c _ _ _ _ _ Hb E) as (_ & Hkeep & _). cbn [snd] in Hn.
  assert (∀ k x, (k, x) ∈ seen → dget (b_nonces (w_broker (turn nfc c e w))) k = Some x ∨ x < now) as Hseen'.
  { intros k x Hk. rewrite Hn. destruct (Hseen k x Hk) as [H1|]; [|right; lia]. destruct (decide (now ≤ x)); [left; by apply Hkeep|right; lia]. }
  destruct (admits (w_broker w) (raw, now)) as [a|] eqn:Ha; [|by apply (IH _ now seen Hw' Hclock)].
  destruct (admits_spec _ _ _ _ Hb Ha) as (Hca & Hnew & Hold). rewrite E in Hnew. cbn [snd] in Hnew. pose proof (ac_fresh _ _ _ _ _ (check_admission_Ok _ _ _ _ _ Hc Hca)) as Hfresh.
  destruct (IH _ now (stamp a :: seen) Hw' Hclock) as [Hnd Hdis].
  { intros k x [[= -> ->]|Hk]%elem_of_cons; [left; by rewrite Hn|by apply Hseen']. }
  cbn [option_list app fmap list_fmap]. split.
  - constructor; [|done]. intros (a' & Heq & Hin)%list_elem_of_fmap. apply (Hdis a' Hin). rewrite <- Heq. apply list_elem_of_here.
  - intros a' [->|Hin]%elem_of_cons; [|by intros Hs; apply (Hdis a' Hin); apply list_elem_of_further].
    intros Hs. destruct (Hseen _ _ Hs) as [Hk|]; [|lia]. apply Hold in Hk. lia.
Qed.

(** ** Who is served *)
Notation anonymous := (anonymous_tenants (vb_anonymous c) (vb_datagrams c)).

(** The event loop starts connections only where the configuration listens. *)
Definition from_config (e : event) : Prop :=
  match e with
  | EStart (Some r) => ∃ port, (port, r) ∈ vb_anonymous c
  | EReceive l _ _ _ _ => l ∈ vb_datagrams c
  | _ => True
  end.

(** A tenant somebody without a key may use, or one of whom a client was admitted. *)
Definition entitled (past : list admission) (tid : pystr) : Prop :=
  tid ∈ anonymous ∨ ∃ a raw now, a ∈ past ∧ t_id (a_tenant a) = tid ∧ check_admission nfc c raw now = Ok a.

Definition task_served (past : list admission) (k : task) : Prop :=
  match k with
  | Handshake None => True
  | Handshake (Some r) => r.1 ∈ anonymous
  | Datagram _ r b => b = true → r.1 ∈ anonymous
  | Relay t | Exchange t | Session _ _ t => entitled past t
  end.
Definition served (past : list admission) (w : world) : Prop := ∀ id k, (id, k) ∈ w_tasks w → task_served past k.

Lemma entitled_more past past' tid : entitled past tid → entitled (past ++ past') tid.
Proof. intros [|(a & raw & now & Ha & ?)]; [by left|right]. exists a, raw, now. split; [apply elem_of_app; by left|done]. Qed.
Lemma served_more past past' w : served past w → served (past ++ past') w.
Proof.
  intros Hs id k Hk. specialize (Hs id k Hk). destruct k as [[]| | | |]; cbn in *; try done; by apply entitled_more.
Qed.

Lemma anonymous_stream port r : (port, r) ∈ vb_anonymous c → r.1 ∈ anonymous.
Proof. intros Hr. apply elem_of_app. left. apply list_elem_of_fmap. by exists (port, r). Qed.
Lemma anonymous_datagram port r carrier : (port, r, carrier, true) ∈ vb_datagrams c → r.1 ∈ anonymous.
Proof.
  intros Hr. apply elem_of_app. right. apply list_elem_of_fmap. exists (port, r, carrier, true). split; [done|].
  apply list_elem_of_In, filter_In. split; [by apply list_elem_of_In|done].
Qed.

Lemma admit_admits raw now b x b' : admit_client nfc c raw now b = (Ok x, b') → ∃ a, admits b (raw, now) = Some a ∧ check_admission nfc c raw now = Ok a ∧ x.1.1 = a_tenant a.
Proof.
  unfold admit_client, admits. intros [(a & Ha & H1)|(_ & e & _ & ?)]%M_lift_inv; [|done]. cbn [fst snd]. rewrite Ha.
  apply M_bind_Ok in H1 as ([] & b1 & H1 & [= <- <-]). rewrite H1. by exists a.
Qed.

Lemma datagram_payload_entitled raw r anon now b p b' past : datagram_payload nfc c raw r anon now b = (Ok p, b') → (anon = true → r.1 ∈ anonymous) →
  entitled (past ++ option_list (((λ x, (x, now)) <$> datagram_admission raw anon) ≫= admits b)) r.1.
Proof.
  unfold datagram_payload. intros [(? & H1%raise_if_Ok & H2)|(_ & e & _ & ?)]%M_lift_inv Ha; [|done]. destruct anon; [left; by apply Ha|].
  apply M_lift_inv in H2 as [(? & H2%raise_if_Ok & H3)|(_ & e & _ & ?)]; [|done]. apply M_lift_inv in H3 as [(? & H3%raise_if_Ok & H4)|(_ & e & _ & ?)]; [|done].
  apply M_bind_Ok in H4 as (y & b1 & H4 & H5). apply M_lift_inv in H5 as [(? & H5%raise_if_Ok & _)|(_ & e & _ & ?)]; [|done].
  destruct (admit_admits _ _ _ _ _ H4) as (a & Had & Hca & Hx). bool_simpl. unfold datagram_admission.
  assert (be_decode (take 2 raw) + 2 <? zlen raw = true) as -> by (apply Z.ltb_lt; lia). rewrite (proj2 (Z.ltb_ge (zlen raw) 3)) by lia.
  repeat match goal with K : _ = true |- _ => rewrite K end. cbn -[admits]. rewrite Had. right. exists a, (slice 2 (2 + be_decode (take 2 raw)) raw), now.
  split; [apply elem_of_app; right; apply list_elem_of_here|]. split; [congruence|done].
Qed.

Lemma served_finish past id w : served past w → served past (finish id w).
Proof. intros Hs. unfold finish. destruct (dget _ _); [|done]. intros id' k [_ Hk]%elem_of_ddel. by eapply Hs. Qed.
Lemma served_become past id k w : served past w → task_served past k → served past (become id k w).
Proof. intros Hs Hk id' k' [[-> ->]|H']%elem_of_dset_inv; [done|by eapply Hs]. Qed.
Lemma served_spawn past k w : served past w → task_served past k → served past (spawn k w).
Proof. intros Hs Hk id' k' [H'|H'%list_elem_of_singleton]%elem_of_app; [by eapply Hs|by simplify_eq]. Qed.

Lemma turn_served past e w : config_ok c → from_config e → served past w → served (past ++ option_list (presented e w ≫= admits (w_broker w))) (turn nfc c e w).
Proof.
  intros Hc He Hs0. pose proof (served_more _ (option_list (presented e w ≫= admits (w_broker w))) _ Hs0) as Hs.
  destruct e; cbn [turn presented from_config] in *; try done.
  - unfold handle_start. destruct (_ <=? _); [done|]. apply served_spawn; [done|]. destruct anonymous as [r|]; [|done]. destruct He as [port He]. by eapply anonymous_stream.
  - unfold handle_body. destruct (dget (w_tasks w) id) as [[a| | | |]|] eqn:Hk; try done. pose proof (Hs0 _ _ (dget_elem_of _ _ _ Hk)) as Ha.
    destruct (handshake _ _ _ _ _ _) as [[x|e] b] eqn:E; [|by apply served_finish]. apply served_become; [done|]. cbn [task_served].
    unfold handshake in E. apply M_bind_Ok in E as (y & b1 & H1 & H2). apply M_bind_Ok in H2 as (_ & b2 & _ & [= <- <-]). destruct a as [r|].
    + apply M_lift_inv in H1 as [(t & Ht & H1)|(_ & e & _ & ?)]; [|done]. apply M_lift_inv in H1 as [(e & _ & [= <- <-])|(_ & e & _ & ?)]; [|done].
      left. cbn in *. unfold find_tenant in Ht. destruct (dget (vb_tenants c) r.1) eqn:Et; [|done]. injection Ht as ->. by rewrite (find_tenant_id _ _ _ Hc Et).
    + apply M_lift_inv in H1 as [(raw & Hraw & H1)|(_ & e & _ & ?)]; [|done]. apply M_bind_Ok in H1 as (x & b3 & H1 & [= <- <-]).
      destruct (admit_admits _ _ _ _ _ H1) as (a & Had & Hca & Hx). rewrite Hraw. cbn -[admits]. rewrite Had, Hx. right. exists a, raw, now.
      split; [apply elem_of_app; right; apply list_elem_of_here|done].
  - unfold receive_datagram. destruct l as [[[port r] carrier] anon]. case_bool_decide; cbn [snd].
    + destruct (_ <=? _); [done|]. apply served_spawn; [done|]. intros ->. by eapply anonymous_datagram.
    + destruct (datagram_payload _ _ _ _ _ _ _) as [[x|e] b] eqn:E; [|by destruct (caught _ e)].
      apply (datagram_payload_entitled _ _ _ _ _ _ _ past) in E; [|intros ->; by eapply anonymous_datagram].
      destruct (has_session _ _ _); [done|]. destruct (open_session _ _ _ _ _) as [y w'] eqn:Eo.
      assert (served (past ++ option_list (((λ r, (r, now)) <$> datagram_admission raw anon) ≫= admits (w_broker w))) w') as Hw'.
      { unfold open_session in Eo. destruct (find_tenant c r.1); [|by simplify_eq]. destruct (_ || _); [by simplify_eq|]. destruct (find_route c r ≫= host_family); [|by simplify_eq].
        destruct connected; simplify_eq; [by apply served_spawn|done]. }
      destruct y as [|e]; [done|]. by destruct (caught _ e).
  - unfold datagram_body. destruct (dget (w_tasks w) id) as [[| |raw r anon| |]|] eqn:Hk; try done. pose proof (Hs0 _ _ (dget_elem_of _ _ _ Hk)) as Ha.
    destruct (datagram_payload _ _ _ _ _ _ _) as [[x|e] b] eqn:E; [|by apply served_finish].
    apply (datagram_payload_entitled _ _ _ _ _ _ _ past) in E; [|done]. destruct (dget (vb_tenants c) r.1); [|by apply served_finish].
    destruct (_ <=? _); [by apply served_finish|]. by apply served_become.
  - unfold charge_tenant. destruct (dget _ _); [|done]. by destruct (dget _ _).
  - unfold refund_tenant. by destruct (dget _ _).
  - by apply served_finish.
Qed.

Lemma serve_served es w past : config_ok c → Forall from_config es → served past w → served (past ++ admissions es w) (serve nfc c es w).
Proof.
  intros Hc Hes. revert w past. induction Hes as [|e es He _ IH]; intros w past Hs; cbn [admissions serve foldl]; [by rewrite app_nil_r|].
  rewrite app_assoc. by apply IH, turn_served.
Qed.
End Traces.


(** C25: Along every sequence of events under a clock that does not go back, no
    two admissions share tenant, nonce and expiry: a request that was admitted,
    however it is written again, is never admitted a second time, although the
    Broker forgets nonces and remembers at most 65536 of them. *)
Theorem vb_no_replay `{Signing} nfc isalnum text read_key c es t0 T :
  load_config nfc isalnum text read_key = Ok c → clocked T es →
  NoDup (stamp <$> admissions nfc c es (start_world c t0)) ∧
  zlen (b_nonces (w_broker (serve nfc c es (start_world c t0)))) ≤ 65536 ∧
  length (b_expiry (w_broker (serve nfc c es (start_world c t0)))) = length (b_nonces (w_broker (serve nfc c es (start_world c t0)))).
Proof.
  intros Hc%load_config_Ok Hes. pose proof (start_world_ok c t0 Hc) as Hw. split.
  - by apply (admissions_fresh nfc c es _ T [] Hc Hw Hes); intros k x ?%not_elem_of_nil.
  - destruct (wo_nonces c _ (serve_ok nfc c es _ Hc Hw)) as [_ Hp _ Hb]. split; [done|]. by rewrite Hp, length_fmap.
Qed.


(** C27: The connection counters are exact at every moment: the total is the
    number of live connections and stays within 4096, the counter of a tenant is
    the number of connections served for it and stays within its quota, and a
    datagram source has at most one session on a listener. *)
Theorem vb_connections_accounted `{Signing} nfc isalnum text read_key c es t0 :
  load_config nfc isalnum text read_key = Ok c →
  let w := serve nfc c es (start_world c t0) in
  b_connections (w_broker w) = zlen (w_tasks w) ∧ b_connections (w_broker w) ≤ 4096 ∧
  (∀ tid t, dget (vb_tenants c) tid = Some t → ∃ r, dget (b_runtime (w_broker w)) tid = Some r ∧
     r_active r = holders tid (w_tasks w) ∧ 0 ≤ r_active r ≤ t_connections t) ∧
  ∀ i j p s t t', (i, Session p s t) ∈ w_tasks w → (j, Session p s t') ∈ w_tasks w → i = j.
Proof.
  intros Hc%load_config_Ok w. destruct (serve_ok nfc c es _ Hc (start_world_ok c t0 Hc)) as [_ _ Hn Hl Ha _ Hs]. repeat (split; [done|]). split; [|done].
  intros tid t Ht. destruct (Ha _ _ Ht) as (r & Hr & Heq & Hle). exists r. split; [done|]. split; [done|]. split; [|done]. rewrite Heq.
  apply dsum_nonneg. intros ???. by case_bool_decide.
Qed.

(** C28: From any moment at which no charge waits, the bytes that the rate limit
    lets through for a tenant up to any later moment, whatever charges wait, are
    refused or are cancelled, are at most the burst plus the rate times the time
    that has passed: a quiet tenant does not save up more than its burst. *)
Theorem vb_rate_limited nfc isalnum text read_key c tid t t0 clock f :
  load_config nfc isalnum text read_key = Ok c → dget (vb_tenants c) tid = Some t → traffic_run t (vb_idle c) t0 clock f →
  (inject_Z (f_released f) <= inject_Z (t_burst t) + inject_Z (t_rate t) * (clock - t0))%Q.
Proof.
  intros Hc%load_config_Ok Ht Hf. apply dget_elem_of, (proj2 (cf_tenants c Hc)) in Ht as (_ & _ & Hr & Hb).
  apply traffic_run_ok in Hf as [_ Hn _ _ _ Hd]; [|lia..]. eapply Qle_trans; [|apply (Hd clock), Qle_refl]. rewrite <- Zle_Qle.
  assert (0 ≤ owed (due_by clock) (f_waiting f)); [|lia]. apply dsum_nonneg. intros k x [_ Hx]%Hn. by destruct (due_by _ _).
Qed.

(** ** A demonstration Broker
    One tenant with a key on a stream, one without on a datagram listener; a
    checksum poses as the signature scheme. *)
Definition demo_key : bytes := Z.of_nat <$> seq 0 32.
Definition demo_tag (m : bytes) : bytes := be_encode 32 (foldl (λ h x, (h * 31 + x) mod 2 ^ 64) 7 m).
#[local] Instance demo_signing : Signing :=
  {| public_key := λ k, k; sign := λ k m, k ++ demo_tag m; verify_sig := λ p s m, bool_decide (s = p ++ demo_tag m) |}.

Definition demo_row (id : string) (keys : list bytes) (approval : string) : pyval := VDict (mkdict
  [("id", txt id); ("public_keys", VList ((λ k, VStr (b64encode k)) <$> keys)); ("approval", txt approval);
   ("max_connections", VInt 1); ("bytes_per_second", VInt 1024); ("burst_bytes", VInt 2048)]).
Definition demo_endpoint (port : Z) : list (string * pyval) := [("host", txt "127.0.0.1"); ("port", VInt port)].
Definition demo_value : pyval := VDict (mkdict
  [("schema", txt VB_SCHEMA); ("listen", VDict (mkdict (demo_endpoint 7000))); ("identity_key_file", txt "/id"); ("cores", VDict (mkdict [("hare", VDict (mkdict (demo_endpoint 7100)))]));
   ("tenants", VList [demo_row "acme" [demo_key] "approval-required"; demo_row "open" [] "default-approved"]);
   ("routes", VList [VDict (mkdict ([("tenant", txt "acme"); ("core", txt "hare")] ++ demo_endpoint 7101)); VDict (mkdict ([("tenant", txt "open"); ("core", txt "hare")] ++ demo_endpoint 7102))]);
   ("approvals", VList [VDict (mkdict [("tenant", txt "acme"); ("client", txt "laptop")])]);
   ("guard", VDict (mkdict [("required", VBool true)])); ("gate", VDict (mkdict [("required", VBool true)])); ("c11relay", VDict (mkdict [("control_socket", txt "/run/relay")]));
   ("limits", VDict (mkdict [("max_frame", VInt 65536); ("handshake_seconds", VInt 5); ("idle_seconds", VInt 60)]));
   ("datagram_listeners", VList [VDict (mkdict [("port", VInt 7200); ("tenant", txt "open"); ("core", txt "hare"); ("carrier", txt "s6na"); ("anonymous", VBool true)])])]).
Definition demo_load : result vb_config := load_config id is_alnum (Ok (dumps compact_opts demo_value)) (λ _, Ok (repeat 9 32)).
Definition demo_config : vb_config := Eval vm_compute in match demo_load with Ok c => c | Raise _ => Config (VNone, 0) [] [] [] [] [] [] 0 0 0 [] [] end.
Lemma demo_loads : demo_load = Ok demo_config.
Proof. vm_compute. reflexivity. Qed.

Definition demo_unsigned (nonce : Z) : pydict := mkdict
  [("schema", txt ADMISSION_SCHEMA); ("tenant", txt "acme"); ("client", txt "laptop"); ("core", txt "hare"); ("issued", VInt 1000); ("expires", VInt 1060);
   ("nonce", VStr (b64encode (repeat nonce 32))); ("public_key", VStr (b64encode demo_key))].
Definition demo_raw (nonce : Z) : bytes :=
  dumps compact_opts (VDict (demo_unsigned nonce ++ mkdict [("signature", VStr (b64encode (sign demo_key (dumps_canonical (VDict (demo_unsigned nonce))))))])).
Definition demo_request : bytes := Eval vm_compute in demo_raw 1.
Definition demo_input : bytes := be_encode 4 (zlen demo_request) ++ demo_request.

Definition demo_admission : admission := Admission (default (Tenant [] [] [] 0 0 0) (dget (vb_tenants demo_config) (str "acme"))) (str "laptop") (str "hare") (repeat 1 32) 1060 (txt "127.0.0.1", 7101).
Lemma demo_checked : check_admission id demo_config demo_request 1010 = Ok demo_admission.
Proof. vm_compute. reflexivity. Qed.

Lemma demo_admitted : ∃ b, admit_client id demo_config demo_request 1010 (make_broker demo_config 0) = (Ok (a_tenant demo_admission, virtual_id demo_config demo_admission, a_target demo_admission), b).
Proof. unfold admit_client. rewrite demo_checked. eexists. reflexivity. Qed.


(** A signed client on the stream, a stranger on the anonymous datagram listener,
    the signed request once more on a new stream, and more of the stranger. *)
Definition demo_listener : Z * route * pystr * bool := (7200, (str "open", str "hare"), str "s6na", true).
Definition demo_events : list event :=
  [EStart None; EHandshake 0 demo_input 1010; EReceive demo_listener (txt "10.0.0.1", 4000) (str "hello") true 1011;
   EStart None; EHandshake 2 demo_input 1012; EReceive demo_listener (txt "10.0.0.1", 4000) (str "again") true 1013; ECharge (str "open") 5 1].

Lemma demo_tasks : w_tasks (serve id demo_config demo_events (start_world demo_config 0)) = [(0%nat, Relay (str "acme")); (1%nat, Session 7200 (txt "10.0.0.1", 4000) (str "open"))].
Proof. vm_compute. reflexivity. Qed.

Lemma demo_admissions : admissions id demo_config demo_events (start_world demo_config 0) = [demo_admission].
Proof. vm_compute. reflexivity. Qed.

Lemma demo_clocked : clocked 1000 demo_events.
Proof. cbn. lia. Qed.
Lemma demo_from_config : Forall (from_config demo_config) demo_events.
Proof. repeat constructor; cbn; apply list_elem_of_In; left; reflexivity. Qed.

Lemma vb_no_replay_witness : NoDup (stamp <$> admissions id demo_config demo_events (start_world demo_config 0)).
Proof. exact (proj1 (vb_no_replay id is_alnum _ _ demo_config demo_events 0 1000 demo_loads demo_clocked)). Defined.


Lemma vb_connections_accounted_witness : b_connections (w_broker (serve id demo_config demo_events (start_world demo_config 0))) = 2.
Proof. rewrite (proj1 (vb_connections_accounted id is_alnum _ _ demo_config demo_events 0 demo_loads)), demo_tasks. reflexivity. Defined.

(** 3000 bytes at once against a burst of 2048 and 1024 bytes per second: they wait. *)
Definition demo_traffic : traffic := Traffic (Runtime 0 (inject_Z 2048) 0) 0 [] 0.
Definition demo_charged : traffic := settle 3000 1 (charge 60 (a_tenant demo_admission) 3000 1 (f_runtime demo_traffic)) demo_traffic.
Lemma demo_traffic_run : traffic_run (a_tenant demo_admission) (vb_idle demo_config) 0 2 (Traffic (f_runtime demo_charged) 1 [] 3000).
Proof.
  eapply (run_wake _ _ _ 1 demo_charged 2 0 3000); [|by vm_compute|vm_compute; reflexivity|by vm_compute].
  apply (run_charge _ _ _ 0 demo_traffic 1 3000); [by apply run_start|by vm_compute|lia].
Qed.

Lemma vb_rate_limited_witness : (inject_Z 3000 <= inject_Z 2048 + inject_Z 1024 * (2 - 0))%Q.
Proof. exact (vb_rate_limited id is_alnum _ _ demo_config (str "acme") (a_tenant demo_admission) 0 2 _ demo_loads eq_refl demo_traffic_run). Defined.

(** ** A shared endpoint under two names
    Dedicated endpoints are compared as they are written: two names of one
    address pass the check, and two tenants share a real Broker. *)
Definition alias_routes : list pyval :=
  [VDict (mkdict [("tenant", txt "acme"); ("core", txt "hare"); ("host", txt "::1"); ("port", VInt 7101)]);
   VDict (mkdict [("tenant", txt "open"); ("core", txt "hare"); ("host", txt "0::1"); ("port", VInt 7101)])].
Example dedicated_endpoint_alias :
  fold_res (load_route [str "acme"; str "open"] [str "hare"]) [] alias_routes =
    Ok [((str "acme", str "hare"), (txt "::1", 7101)); ((str "open", str "hare"), (txt "0::1", 7101))] ∧
  ip_of (txt "::1") = ip_of (txt "0::1").
Proof. split; vm_compute; reflexivity. Qed.

(** A numeric host passes the check of the configuration, and the first datagram
    of a listener on that route ends the listener with an uncaught error. *)
Definition numeric_route : pyval := VDict (mkdict [("tenant", txt "open"); ("core", txt "hare"); ("host", VInt 2130706433); ("port", VInt 7102)]).
Definition numeric_config : vb_config :=
  Config (vb_listen demo_config) (vb_identity demo_config) (vb_cores demo_config) (vb_tenants demo_config) [((str "open", str "hare"), (VInt 2130706433, 7102))]
    (vb_relay demo_config) (vb_approvals demo_config) (vb_frame demo_config) (vb_handshake demo_config) (vb_idle demo_config) [] (vb_datagrams demo_config).
Example numeric_host_ends_listener : fold_res (load_route [str "open"] [str "hare"]) [] [numeric_route] = Ok (vb_routes numeric_config) ∧
  (receive_datagram id numeric_config demo_listener (txt "10.0.0.1", 4000) (str "hello") true 1011 (start_world numeric_config 0)).1 =
    raise TypeError "argument of type 'int' is not iterable".
Proof. split; vm_compute; reflexivity. Qed.
