(* ===== verification/Envelope.v ===== *)
(** * Envelope configurations

    [Deployment/service_runtime.py], the part that reads and admits the
    configuration of the privacy envelope in front of a service: lines of
    [key = value], the carrier with its TLS material, message channels, the
    replay file, and the private listener of the native configuration behind it.
    [digit] is the decimal value of a character for [int], a Unicode table;
    [private_dir] and [private_file] tell what the owner controls on disk. *)
From S2P Require Import Prelude Dict PyStr PyText PyValue Json StrictJson NativeProfiles Net BrokerSet.

(** ** Text *)
(** [str.isspace] of one character. *)
Definition is_space (c : Z) : bool :=
  between 9 c 13 || between 28 c 32 || (c =? 133) || (c =? 160) || (c =? 5760) || between 8192 c 8202 || (c =? 8232) || (c =? 8233)
  || (c =? 8239) || (c =? 8287) || (c =? 12288).

(** [s.strip()]. *)
Fixpoint lstrip (s : pystr) : pystr :=
  match s with [] => [] | c :: s' => if is_space c then lstrip s' else s end.
Definition strip (s : pystr) : pystr := rev (lstrip (rev (lstrip s))).

(** [s.splitlines()]: [line] is the line so far, in reverse. *)
Definition is_line_end (c : Z) : bool := between 10 c 13 || between 28 c 30 || (c =? 133) || (c =? 8232) || (c =? 8233).
Fixpoint split_lines (line : pystr) (s : pystr) : list pystr :=
  match s with
  | [] => match line with [] => [] | _ => [rev line] end
  | 13 :: 10 :: s' => rev line :: split_lines [] s'
  | c :: s' => if is_line_end c then rev line :: split_lines [] s' else split_lines (c :: line) s'
  end.
Definition splitlines (s : pystr) : list pystr := split_lines [] s.

Section Envelope.
Context (nfc nfkc lower : pystr → pystr) (digit : Z → option Z) (private_dir : pystr → bool) (private_file : pystr → Z → result bytes).

(** [int(s)]: a sign, digits, and single underscores between digits. *)
Fixpoint int_digits (acc : Z) (s : pystr) : option Z :=
  match s with
  | [] => Some acc
  | 95 :: c :: s' => match digit c with Some d => int_digits (acc * 10 + d) s' | None => None end
  | c :: s' => match digit c with Some d => int_digits (acc * 10 + d) s' | None => None end
  end.
Definition int_unsigned (s : pystr) : option Z :=
  match s with
  | [] | 95 :: _ => None
  | _ => if 4300 <? zlen (List.filter (λ c, negb (c =? 95)) s) then None else int_digits 0 s
  end.
Definition int_text (s : pystr) : option Z :=
  match strip s with
  | 43 :: s' => int_unsigned s'
  | 45 :: s' => Z.opp <$> int_unsigned s'
  | s' => int_unsigned s'
  end.

(** ** Fields *)
Definition envelope_line (fields : pydict) (line : pystr) : result pydict :=
  let line := strip line in
  if bool_decide (line = []) || starts_with (str "#") line then Ok fields
  else
    let '(key, separator, value) := partition_at 61 line in
    let key := strip key in
    _ ← raise_if (negb separator || bool_decide (key = []) || dmem fields key) ValueError "invalid envelope configuration fields";
    Ok (dset fields key (VStr (strip value))).

Definition parse_envelope (content : bytes) : result pydict :=
  match utf8_decode content with
  | Some text => fold_res envelope_line [] (splitlines text)
  | None => raise UnicodeError "invalid start byte"
  end.

Definition has_fields (fields : pydict) (names : list string) : bool := existsb (has_key fields) names.
Definition text_or (fields : pydict) (name default : string) : pystr := as_text (vget_or fields name (txt default)).
Definition text_of (fields : pydict) (name : string) : pystr := as_text (vget_none fields name).

(** ** TLS *)
Definition tls_keys : list string := ["tls_cert"; "tls_key"; "tls_ca"; "tls_peer_name"].
Definition tls_names : list (string * string) := [("envelopeTlsCert", "tls_cert"); ("envelopeTlsKey", "tls_key"); ("envelopeTlsCa", "tls_ca")]%string.

Definition envelope_tls_material (fields : pydict) : result (list (pystr * pystr)) :=
  let carrier := text_or fields "carrier" "raw" in
  if str_in carrier ["raw"; "sctp"; "webrtc"] then
    _ ← raise_if (bool_decide (carrier = str "sctp") && negb (eq_str (vget_none fields "mode") "message")) ValueError "SCTP requires message mode";
    _ ← raise_if (bool_decide (carrier = str "webrtc") && negb (eq_str (vget_none fields "mode") "message")) ValueError "WebRTC requires message mode";
    _ ← raise_if (has_fields fields tls_keys) ValueError "raw carrier rejects TLS material";
    Ok []
  else
    _ ← raise_if (negb (bool_decide (carrier = str "tls")) || negb (bool_decide (text_or fields "mode" "stream" = str "stream")) || negb (keys_cover fields tls_keys))
          ValueError "TLS carrier requires stream mode and complete material";
    _ ← raise_if (negb (re_class (λ c, is_alnum c || one_of ".:-" c) 1 253 (text_of fields "tls_peer_name"))) ValueError "invalid TLS peer name";
    let material := (λ n, (str n.1, text_of fields n.2)) <$> tls_names in
    _ ← raise_if (negb (bool_decide (NoDup material.*2)) || negb (forallb is_absolute material.*2)) ValueError "TLS material requires distinct absolute paths";
    _ ← raise_if (existsb (λ p, py_eqb (vget_none fields "metrics_path") (VStr p)) material.*2) ValueError "TLS material conflicts with metrics path";
    _ ← for_each (λ p, _ ← private_file p 16384; Ok tt) material.*2;
    Ok material.

(** ** Message mode *)
(** [p] is none of the paths the envelope already uses. *)
Definition path_taken (fields : pydict) (names : list string) (p : pystr) : bool := existsb (λ n, py_eqb (vget_none fields n) (VStr p)) names.

Definition check_webrtc (fields : pydict) : result unit :=
  _ ← raise_if (negb (keys_cover fields ["signal_path"; "signal_id"])) ValueError "WebRTC requires Named Service signalling handoff";
  sessions ← match int_text (text_or fields "max_sessions" "32") with Some n => Ok n | None => raise ValueError "invalid WebRTC session limit" end;
  _ ← raise_if (negb (between 1 sessions 128)) ValueError "invalid WebRTC session limit";
  let signal := text_of fields "signal_path" in
  size ← match utf8 signal with Some b => Ok (zlen b) | None => raise UnicodeError "surrogates not allowed" end;
  _ ← raise_if (negb (is_absolute signal) || (103 <? size) || path_taken fields ["metrics_path"; "listen"; "upstream"] signal) ValueError "invalid WebRTC signalling socket path";
  _ ← raise_if (negb (private_dir signal)) ValueError "WebRTC signalling directory must be private and owner-controlled";
  _ ← raise_if (negb (re_class (λ c, is_alnum c || one_of "._-" c) 1 31 (text_of fields "signal_id"))) ValueError "invalid WebRTC signalling service prefix";
  let metrics := text_of fields "metrics_path" in
  _ ← raise_if (bool_decide (metrics = [])) ValueError "WebRTC requires a session metrics path for readiness";
  _ ← raise_if (negb (is_absolute metrics) || path_taken fields ["signal_path"; "listen"; "upstream"] metrics) ValueError "invalid WebRTC session metrics path";
  raise_if (negb (private_dir metrics)) ValueError "WebRTC metrics directory must be private and owner-controlled".

(** One channel, [number:order:reliability]: its number and whether it is ordered and reliable. *)
Definition digits_re (s : pystr) : bool := negb (bool_decide (s = [])) && forallb is_digit s.
Definition int_digits_re (s : pystr) : result Z :=
  _ ← raise_if (4300 <? zlen s) ValueError "Exceeds the limit (4300 digits) for integer string conversion"; Ok (dec_value s).
Definition parse_channel (value : pystr) : result (Z * bool) :=
  let bad := raise ValueError "invalid message channel schema" in
  match split_at_char 58 value with
  | [n; order; policy] =>
      if digits_re n && str_in order ["ordered"; "unordered"] && bool_decide (policy = str "reliable")
      then (n ← int_digits_re n; Ok (n, bool_decide (order = str "ordered"))) else bad
  | [n; order; kind; budget] =>
      if digits_re n && str_in order ["ordered"; "unordered"] && str_in kind ["retransmits"; "lifetime"] && digits_re budget then
        n ← int_digits_re n;
        budget ← int_digits_re budget;
        _ ← raise_if (negb (if bool_decide (kind = str "retransmits") then between 0 budget 65535 else between 1 budget 60000)) ValueError "invalid message reliability budget";
        Ok (n, false)
      else bad
  | _ => bad
  end.

(** The channels seen so far, and whether a control channel is among them. *)
Definition check_channel (streams : Z) (acc : list Z * bool) (value : pystr) : result (list Z * bool) :=
  let '(seen, control) := acc in
  x ← parse_channel value;
  _ ← raise_if ((streams <=? x.1) || bool_decide (x.1 ∈ seen)) ValueError "duplicate/unavailable message stream";
  Ok (x.1 :: seen, control || ((x.1 =? 0) && x.2)).

Definition check_messages (fields : pydict) : result unit :=
  let carrier := vget_none fields "carrier" in
  _ ← raise_if (negb (in_strs carrier ["sctp"; "webrtc"])) ValueError "message mode requires SCTP or WebRTC carrier";
  _ ← (if eq_str carrier "webrtc" then check_webrtc fields
       else raise_if (has_fields fields ["signal_path"; "signal_id"]) ValueError "signal fields require WebRTC carrier");
  streams ← match int_text (text_or fields "sctp_streams" "4") with Some n => Ok n | None => raise ValueError "invalid literal for int()" end;
  _ ← raise_if (negb (between 1 streams 64)) ValueError "invalid SCTP stream budget";
  x ← fold_res (check_channel streams) ([], false) (split_at_char 44 (text_or fields "message_channels" "0:ordered:reliable"));
  _ ← raise_if (negb x.2) ValueError "ordered reliable message control channel required";
  raise_if (existsb (λ k, starts_with (str "unix:") (text_of fields k)) ["listen"; "upstream"]%string) ValueError "message carriers require IP endpoints".

(** ** Admission *)
Definition envelope_known : list string :=
  ["listen"; "upstream"; "mode"; "role"; "auth_key"; "max_frame"; "handshake_timeout"; "max_preauth"; "max_sessions"; "idle_timeout"; "session_timeout"; "metrics_path";
   "key_epoch"; "replay_path"; "padding_block"; "jitter_ms"; "cover_interval"; "cover_limit"; "shaping_budget"; "carrier"; "tls_cert"; "tls_key"; "tls_ca"; "tls_peer_name";
   "message_channels"; "sctp_streams"; "signal_path"; "signal_id"].

Definition check_replay (fields : pydict) (mode : pystr) : result unit :=
  if bool_decide (mode = str "datagram") then
    let replay := text_of fields "replay_path" in
    _ ← raise_if (bool_decide (replay = []) || negb (is_absolute replay) || path_taken fields ["metrics_path"; "listen"; "upstream"] replay)
          ValueError "datagram mode requires a distinct absolute persistent replay_path";
    _ ← raise_if (negb (private_dir replay)) ValueError "persistent replay directory must be private and owner-controlled";
    match private_file replay 400000 with
    | Ok _ => Ok tt
    | Raise e => if isa (exn_cls e) FileNotFoundError then Ok tt
                 else if isa (exn_cls e) OSError then raise ValueError "invalid private persistent replay state" else Raise e
    end
  else raise_if (has_key fields "replay_path") ValueError "persistent replay_path is datagram-only".

Definition validate_envelope (fields : pydict) : result unit :=
  _ ← raise_if (negb (keys_within fields envelope_known)) ValueError "unknown envelope configuration field";
  _ ← raise_if (negb (bool_decide (text_or fields "role" "server" = str "server"))) ValueError "privacy=envelope requires a server admission boundary";
  let mode := text_or fields "mode" "stream" in
  _ ← raise_if (negb (str_in mode ["stream"; "datagram"; "message"])) ValueError "invalid envelope mode";
  _ ← (if bool_decide (mode = str "message") then check_messages fields
       else raise_if (has_fields fields ["message_channels"; "sctp_streams"]) ValueError "message fields require message mode");
  _ ← check_replay fields mode;
  _ ← raise_if (negb (keys_cover fields ["listen"; "upstream"; "auth_key"])) ValueError "envelope requires listen/upstream/auth_key";
  _ ← envelope_tls_material fields;
  _ ← endpoint nfkc lower (vget_none fields "listen");
  private ← private_endpoint nfkc lower private_dir (vget_none fields "upstream");
  raise_if (negb private) ValueError "envelope invariant: native upstream must be literal loopback".

(** ** The native listener behind the envelope *)
(** [str(child)] of a host that is an IP address: text or a number. *)
Definition host_text (v : pyval) : pystr := match v with VStr s => s | VInt n => dec n | VBool b => str (if b then "True" else "False") | _ => [] end.
Definition host_address (v : pyval) : option ip_address :=
  match v with
  | VStr s => parse_ip s
  | VInt n => if between 0 n (2 ^ 32 - 1) then Some (IPv4 n) else if between 0 n (2 ^ 128 - 1) then Some (IPv6 n None) else None
  | VBool b => Some (IPv4 (Z.b2z b))
  | _ => None
  end.

(** The listeners one field of an object declares. *)
Definition scan_field (item : pydict) (key : pystr) (child : pyval) : result (list pystr) :=
  let listen := match child with VStr s => if str_in key ["listen_addr"; "listen_address"; "listen"] then [s] else [] | _ => [] end in
  host ← (if bool_decide (key = str "listen_host") then
            _ ← raise_if (negb (match host_address child with Some a => is_loopback a | None => false end)) ValueError "envelope invariant: public native listen_host rejected";
            let h := host_text child in Ok [(if has_char 58 h then str "[" ++ h ++ str "]" else h) ++ str ":1"]
          else Ok []);
  _ ← raise_if (bool_decide (key = str "listen_port") && negb (has_key item "listen_host")) ValueError
        "capability unavailable: native listen_port has no verifiable private host";
  Ok (listen ++ host).

Fixpoint scan_listeners (v : pyval) : result (list pystr) :=
  match v with
  | VDict d =>
      (fix go (rest : pydict) : result (list pystr) :=
         match rest with
         | [] => Ok []
         | kv :: rest => own ← scan_field d kv.1 kv.2; inner ← scan_listeners kv.2; more ← go rest; Ok (own ++ inner ++ more)
         end) d
  | VList l =>
      (fix go (rest : list pyval) : result (list pystr) :=
         match rest with [] => Ok [] | x :: rest => own ← scan_listeners x; more ← go rest; Ok (own ++ more) end) l
  | _ => Ok []
  end.

Definition validate_native_private (config : pystr) : result unit :=
  content ← private_file config LIMIT;
  value ← strict_json nfc LIMIT STRING_LIMIT (JBytes content);
  found ← scan_listeners value;
  _ ← raise_if (bool_decide (found = [])) ValueError "capability unavailable: native private listener contract unavailable";
  public ← any_res (λ t, p ← private_endpoint nfkc lower private_dir (VStr t); Ok (negb p)) found;
  raise_if public ValueError "envelope invariant: public native endpoint rejected".
End Envelope.

Example envelope_lines : parse_envelope (str "# gate" ++ [13; 10] ++ str " mode = stream " ++ [10; 10] ++ str "auth_key=a=b") =
  Ok (mkdict [("mode", txt "stream"); ("auth_key", txt "a=b")]).
Proof. vm_compute. reflexivity. Qed.
