(* ===== verification/Registry.v ===== *)
(** * The service registry

    [Deployment/service_registry.py]: named services with an explicit Core
    binding, kept in one private file; the deployment lock that pins the material
    of a service; its supervisor process from launch to removal.

    A transaction reloads the file and works on the loaded records.  What the
    rest of the host does is a sequence of [host] states, one for every time the
    registry looks: files, clocks and processes may change between any two looks.
    The material of a service is computed from one state. *)
From S2P Require Import Prelude Dict PyStr PyText PyValue Json StrictJson Sha256 Signing Net NativeProfiles Limits JoinCode.
From S2P Require Import BrokerSet CoreCatalog Context Composition ConfigStore ConnectionPlan Attachment Envelope.

Definition MAX_REGISTRY_BYTES : Z := 64 * 1024 * 1024.
Definition REGISTRY_BYTES_PER_SERVICE : Z := 512.
Definition SERVICE_MEMORY_RESERVE : Z := 64 * 1024.
Definition SERVICE_FD_RESERVE : Z := 8.
Definition REGISTRY_SCHEMA : string := "shadow6.service-registry.v2".
Definition LOCK_SCHEMA : string := "shadow6.deployment-lock.v2".

Definition service_capacity (memory fds : Z) : Z :=
  Z.min (Z.max 1 (memory / SERVICE_MEMORY_RESERVE)) (Z.min (Z.max 1 (fds / SERVICE_FD_RESERVE)) (MAX_REGISTRY_BYTES / REGISTRY_BYTES_PER_SERVICE)).

Definition encoded (v : pyval) : bytes := dumps_canonical v.

(** [NAME]: namespace/name. *)
Definition name_part (s : pystr) : bool := re_head is_alnum (λ c, is_alnum c || one_of "._-" c) 0 63 s.
Definition NAME (s : pystr) : bool :=
  match split_at_char 47 s with [a; b] => name_part a && name_part b | _ => false end.

(** ** The host *)
Record process := Process { pr_pid : Z; pr_identity : pystr }.
#[global] Instance process_eq_dec : EqDecision process.
Proof. solve_decision. Defined.

(** How a write of a file ends: the directory may fail to sync after the file is replaced. *)
Inductive written := Written | NotWritten (e : exn) | WrittenThen (e : exn).

Record host := Host {
  h_now : Z;                                        (* int(time.time()) *)
  h_late : bool;                                    (* the deadline of a wait has passed *)
  h_lock : result unit;                             (* the directory and the lock of the registry *)
  h_io : result unit;                               (* reading the registry *)
  h_write : written;
  h_read : pystr → Z → result bytes;                (* private_read *)
  h_died : process → bool;
  h_stops : bool;                                   (* SIGTERM takes effect within the deadline *)
  h_start : pydict → result process;                (* runtime.start with a launch plan *)
  h_executable : pystr → result pystr;              (* runtime.executable *)
  h_executable_digest : pystr → result pystr;
  h_installation : installation;
  h_absolute : pystr → pystr;
  h_native_files : pyval → result unit;             (* validate_native_file_config *)
  h_runtime_paths : result (list (pystr * pystr));  (* runtime_material_paths *)
  h_runtime_digest : pystr → pystr → result pystr;
  h_private_dir : pystr → bool;
  h_credited : bool;                                (* the S6NA module is installed *)
  h_budget : result host_budget;                    (* HostBudget.capture *)
  h_observe : pydict → result (option (pyval * pyval * option pyval));
                                                    (* runtime.observe: endpoint, readiness, observation *)
  h_evidence : pyval → pyval → pyval;               (* readiness_evidence *)
  h_draft_path : pystr → result pystr;              (* ConfigStore.path *)
  h_unlink : result unit;                           (* removing the files of a runtime *)
  h_available : pyval → pyval → result pydict;      (* inspect_profile *)
  h_metrics : pyval → result pyval;                 (* read_metrics *)
  h_pick : Z }.

(** ** The registry *)
Record reg := Reg {
  r_services : pydict;
  r_file : option bytes;
  r_live : list process;                            (* supervisors started and not stopped *)
  r_launched : list (pystr * pydict);               (* every plan that was started, with its service *)
  r_look : nat }.

Definition set_services (s : pydict) (r : reg) : reg := Reg s (r_file r) (r_live r) (r_launched r) (r_look r).
Definition set_file (b : bytes) (r : reg) : reg := Reg (r_services r) (Some b) (r_live r) (r_launched r) (r_look r).
Definition set_live (l : list process) (r : reg) : reg := Reg (r_services r) (r_file r) l (r_launched r) (r_look r).
Definition add_launch (p : process) (name : pystr) (plan : pydict) (r : reg) : reg :=
  Reg (r_services r) (r_file r) (r_live r ++ [p]) (r_launched r ++ [(name, plan)]) (r_look r).

(** [try: m except ...: handler]. *)
Definition mtry {S A} (m : M S A) (handler : exn → M S A) : M S A := λ s,
  match m s with (Raise e, s') => handler e s' | x => x end.
Definition catch_classes {S A} (ds : list exn_class) (handler : exn → M S A) (e : exn) : M S A :=
  if existsb (isa (exn_cls e)) ds then handler e else mlift (Raise e).

Definition set_all (d : pydict) (l : list (string * pyval)) : pydict := foldl (λ d kv, vset d kv.1 kv.2) d l.
Definition pop_key (d : pydict) (k : string) : pydict := ddel d (str k).
Definition sub_dict (d : pydict) (k : string) : pydict := match vget_none d k with VDict x => x | _ => [] end.

(** [digest] of the fields of a record. *)
Definition dict_digest (d : pydict) : pystr := digest (encoded (VDict d)).
Definition lock_digest (item : pydict) : pyval := vget_none (sub_dict item "deploymentLock") "digest".

(** [item.get('runtime', {})] used as a mapping. *)
Definition runtime_of (item : pydict) : result pydict :=
  match vget item "runtime" with None => Ok [] | Some (VDict d) => Ok d | Some _ => raise AttributeError "get" end.

Definition process_of (runtime : pydict) : option process :=
  match vget_none runtime "pid", vget_none runtime "processIdentity" with
  | VInt pid, VStr token => if 1 <? pid then Some (Process pid token) else None
  | _, _ => None
  end.

Section Registry.
Context (nfc nfkc lower : pystr → pystr) (digit : Z → option Z) `{Sig : Signing} (dir : pystr) (items : catalog) (hosts : nat → host).

Notation validate_context := (validate_context nfc nfkc lower).
Notation check_binding := (check_binding nfc nfkc lower).
Notation context_digest := (context_digest nfc nfkc lower).
Notation admit_context := (admit_context nfc nfkc lower).
Notation json := (strict_json nfc LIMIT STRING_LIMIT).

(** The next look at the host. *)
Definition ask : M reg host := λ r, (Ok (hosts (r_look r)), Reg (r_services r) (r_file r) (r_live r) (r_launched r) (S (r_look r))).

Definition catalog_binding (h : host) (core config : pyval) : result pydict :=
  binding nfc (h_installation h) (h_absolute h) items core config None.

(** ** Records *)
Definition spec_fields : list string := ["ttl"; "envelope_config"; "metrics_path"; "gate_config"; "guard_config"; "credited_config"; "limits"].
Definition spec_paths : list string := ["envelope_config"; "metrics_path"; "gate_config"; "guard_config"; "credited_config"].

Definition _spec (spec : pyval) : result unit :=
  match spec with
  | VDict d =>
      _ ← raise_if (negb (keys_within d spec_fields)) ValueError "unknown service specification field";
      _ ← raise_if (negb (int_between 30 (vget_or d "ttl" (VInt 3600)) 86400)) ValueError "service ttl must be 30..86400 seconds";
      _ ← validate_policy (vget_none d "limits");
      raise_if (existsb (λ k, match vget d k with None => false | Some (VStr p) => negb (is_absolute p) | Some _ => true end) spec_paths) ValueError
        "service file references must be absolute paths"
  | _ => raise ValueError "unknown service specification field"
  end.

Definition binding_fields : list string := ["core"; "version"; "binaryDigest"; "featureReportDigest"; "configSchemaVersion"; "config"; "configDigest"].
Definition lock_base : list string := ["schema"; "digest"; "coreBinding"].
Definition lock_shapes : list (list string) :=
  [lock_base; lock_base ++ ["contextDigest"]; lock_base ++ ["contextDigest"; "limitResolution"]; lock_base ++ ["contextDigest"; "limitResolution"; "componentLimits"];
   lock_base ++ ["profileBinding"; "contextDigest"]; lock_base ++ ["profileBinding"; "contextDigest"; "limitResolution"];
   lock_base ++ ["profileBinding"; "contextDigest"; "limitResolution"; "componentLimits"]].
Definition runtime_fields : list string :=
  ["pid"; "processIdentity"; "readiness"; "state"; "core"; "lockDigest"; "endpoint"; "privacy"; "startedAt"; "expiresAt"].
Definition item_fields : list string :=
  ["name"; "protocolContext"; "spec"; "privacy"; "privacyTelemetry"; "coreBinding"; "profileBinding"; "state"; "deploymentLock"; "runtime"].
Definition states : list string := ["unresolved"; "ready"; "locked"; "applied"; "running"; "stopped"; "exited"; "stale"; "degraded"; "failed"].

(** [re.fullmatch(r'[0-9a-f-]{36}:[0-9]+', s)]. *)
Definition identity_re (s : pystr) : bool :=
  re_class (λ c, is_hex_lower c || (c =? 45)) 36 36 (take 36 s) && match drop 36 s with 58 :: rest => negb (bool_decide (rest = [])) && forallb is_digit rest | _ => false end.

Definition check_core_binding (h : host) (v : pyval) : result unit :=
  match v with
  | VNone => Ok tt
  | VDict b =>
      _ ← raise_if (negb (keys_exact b binding_fields) && negb (keys_exact b ("descriptorDigest"%string :: binding_fields))) ValueError "invalid Core binding";
      _ ← raise_if (negb (hashable (vget_none b "core"))) TypeError "unhashable type";
      _ ← raise_if (match item_get items (vget_none b "core") with Some _ => false | None => true end) ValueError "invalid Core binding";
      _ ← catalog_binding h (vget_none b "core") (vget_none b "config"); Ok tt
  | _ => raise ValueError "invalid Core binding"
  end.

Definition check_lock (v : pyval) : result unit :=
  match v with
  | VNone => Ok tt
  | VDict l =>
      _ ← raise_if (negb (existsb (keys_exact l) lock_shapes) || negb (eq_str (vget_none l "schema") LOCK_SCHEMA)) ValueError "invalid deployment lock";
      if has_key l "profileBinding" then
        b ← as_dict (vget_none l "coreBinding"); core ← field b "core";
        _ ← validate_profile_binding (vget_none l "profileBinding") core false; Ok tt
      else Ok tt
  | _ => raise ValueError "invalid deployment lock"
  end.

Definition check_runtime (v : pyval) : result unit :=
  match v with
  | VNone => Ok tt
  | VDict p =>
      _ ← raise_if (negb (keys_exact p runtime_fields || keys_exact p ("profileBinding"%string :: runtime_fields))
                    || match vget_none p "pid" with VInt n => n <=? 1 | _ => true end
                    || match vget_none p "processIdentity" with VStr s => negb (identity_re s) | _ => true end) ValueError
            "invalid runtime identity; legacy simulated state needs explicit recreation";
      _ ← (if has_key p "profileBinding" then _ ← validate_profile_binding (vget_none p "profileBinding") (vget_none p "core") false; Ok tt else Ok tt);
      raise_if (negb (is_int (vget_none p "startedAt")) || negb (is_int (vget_none p "expiresAt"))) ValueError "invalid runtime timestamps"
  | _ => raise ValueError "invalid runtime identity; legacy simulated state needs explicit recreation"
  end.

Definition core_of (binding : pyval) : option pystr := match binding with VDict b => Some (as_text (vget_none b "core")) | _ => None end.

(** A record from before portable contexts: only one without intent migrates. *)
Definition migrate_item (h : host) (item : pydict) : result pydict :=
  if has_key item "protocolContext" then Ok item
  else
    _ ← raise_if (negb (is_none (vget_none item "runtime"))) ValueError "legacy runtime cannot establish S6P1 intent; stop/recreate explicitly";
    legacy ← as_dict (vget_or item "spec" (VDict []));
    let private := VDict (mkdict [("mode", txt "private")]) in
    _ ← raise_if (negb (py_eqb (vget_or legacy "endpoint" private) private)) ValueError "ambiguous legacy endpoint; supply an explicit S6P1 context";
    _ ← match vget_none item "coreBinding" with
        | VDict b =>
            config ← as_dict (vget_none b "config"); path ← field config "config_path";
            native ← match (c ← h_read h (as_text path) LIMIT; json (JBytes c)) with
                     | Ok v => Ok v
                     | Raise e => if existsb (isa (exn_cls e)) [ValueError; OSError] then Ok VNone else Raise e
                     end;
            raise_if (negb (py_eqb native (VDict []))) ValueError "legacy native intent requires explicit S6P1 recreation; no semantics guessed"
        | _ => Ok tt
        end;
    context ← minimal_context nfc nfkc lower (core_of (vget_none item "coreBinding"));
    Ok (set_all (pop_key item "deploymentLock")
          [("protocolContext", VDict context); ("spec", VDict (pop_key legacy "endpoint"));
           ("state", txt (if truthy (vget_none item "coreBinding") then "ready" else "unresolved"))]).

Definition load_item (h : host) (row : pystr * pyval) : result (pystr * pyval) :=
  match row.2 with
  | VDict item =>
      _ ← raise_if (negb (NAME row.1) || negb (keys_within item item_fields) || negb (py_eqb (vget_none item "name") (VStr row.1))) ValueError "invalid named service record";
      known ← in_set (vget_none item "state") states;
      _ ← raise_if (negb known) ValueError "invalid service state";
      let binding := vget_none item "coreBinding" in
      _ ← check_core_binding h binding;
      _ ← (if is_none (vget_none item "profileBinding") then Ok tt
           else _ ← raise_if (is_none binding) ValueError "ProfileBinding requires CoreBinding";
                b ← as_dict binding; _ ← validate_profile_binding (vget_none item "profileBinding") (vget_none b "core") false; Ok tt);
      _ ← check_lock (vget_none item "deploymentLock");
      _ ← check_runtime (vget_none item "runtime");
      item ← migrate_item h item;
      context ← validate_context (vget_none item "protocolContext");
      _ ← match binding with VDict b => _ ← check_binding (VDict context) (vget_none b "core") items; Ok tt | _ => Ok tt end;
      _ ← _spec (vget_or item "spec" (VDict []));
      _ ← raise_if (negb (in_strs (vget_none item "privacy") ["native"; "envelope"])) ValueError "invalid privacy mode";
      Ok (row.1, VDict (vset item "protocolContext" (VDict context)))
  | _ => raise ValueError "invalid named service record"
  end.

(** The records of the file, and whether its schema is an old one. *)
Definition parse_registry (h : host) (content : bytes) : result (pydict * bool) :=
  data ← json (JBytes content);
  match data with
  | VDict d =>
      _ ← raise_if (negb (keys_exact d ["schema"; "services"]) || negb (in_strs (vget_none d "schema") [REGISTRY_SCHEMA; "shadow6.service-registry.v1"])) ValueError
            "invalid service registry";
      match vget_none d "services" with
      | VDict rows =>
          _ ← raise_if (MAX_REGISTRY_BYTES / REGISTRY_BYTES_PER_SERVICE <? zlen rows) ValueError "invalid service registry";
          services ← map_res (load_item h) rows;
          Ok (services, negb (eq_str (vget_none d "schema") REGISTRY_SCHEMA))
      | _ => raise ValueError "invalid service registry"
      end
  | _ => raise ValueError "invalid service registry"
  end.

(** Reading the registry file. *)
Definition read_registry (limit : Z) : M reg bytes :=
  h ← ask;
  _ ← mlift (h_io h);
  file ← mget r_file;
  match file with
  | None => mraise FileNotFoundError "No such file or directory"
  | Some b => _ ← mraise_if (limit <? zlen b) ValueError "private file requires stable owner-controlled regular file, mode 0600 and bounded size"; mret b
  end.

Definition _load : M reg bool :=
  content ← mtry (c ← read_registry MAX_REGISTRY_BYTES; mret (Some c)) (catch_classes [FileNotFoundError] (λ _, mret None));
  match content with
  | None => _ ← mmod (set_services []); mret false
  | Some c => h ← ask; x ← mlift (parse_registry h c); _ ← mmod (set_services x.1); mret x.2
  end.

Definition atomic_write (data : bytes) (limit : Z) (store : bytes → reg → reg) : M reg unit :=
  _ ← mraise_if (limit <? zlen data) ValueError "state size limit";
  h ← ask;
  match h_write h with
  | Written => mmod (store data)
  | NotWritten e => mlift (Raise e)
  | WrittenThen e => _ ← mmod (store data); mlift (Raise e)
  end.

Definition registry_document (services : pydict) : bytes :=
  encoded (VDict (mkdict [("schema", txt REGISTRY_SCHEMA); ("services", VDict services)])) ++ [10].

Definition _save : M reg unit :=
  services ← mget r_services;
  atomic_write (registry_document services) MAX_REGISTRY_BYTES set_file.

(** [@transaction]: the calls inside a transaction are calls of the bodies. *)
Definition transaction {A} (m : M reg A) : M reg A :=
  h ← ask;
  _ ← mlift (h_lock h);
  pending ← _load;
  _ ← (if pending : bool then _save else mret tt);
  m.

(** ** Looking at a service *)
Definition inspect (name : pystr) : M reg pydict :=
  services ← mget r_services;
  match dget services name with
  | None => mraise ValueError "unknown named service"
  | Some v => mlift (as_dict v)
  end.

Definition put_item (name : pystr) (item : pydict) : M reg unit := mmod (λ r, set_services (dset (r_services r) name (VDict item)) r).
(** [item[...] = ...] of a record of the registry. *)
Definition update_item (name : pystr) (f : pydict → pydict) : M reg unit := item ← inspect name; put_item name (f item).

Definition set_state (name : pystr) (state : string) : M reg unit := update_item name (λ item, vset item "state" (txt state)).

Definition item_binding (item : pydict) : result pydict :=
  match vget_none item "coreBinding" with
  | VDict b => _ ← raise_if (negb (truthy (vget_none b "core"))) ValueError "service has unresolved Core binding"; Ok b
  | _ => raise ValueError "service has unresolved Core binding"
  end.
Definition require_binding (name : pystr) : M reg pydict := item ← inspect name; mlift (item_binding item).

Definition item_profile (item : pydict) : result pydict :=
  _ ← raise_if (is_none (vget_none item "profileBinding")) ValueError
        "ProfileBinding required; explicitly stop and service configure with --core/--profile, then relock/apply";
  b ← item_binding item;
  _ ← validate_profile_binding (vget_none item "profileBinding") (vget_none b "core") true;
  as_dict (vget_none item "profileBinding").
Definition require_profile_binding (name : pystr) : M reg pydict := item ← inspect name; mlift (item_profile item).

Definition alive (runtime : pydict) : M reg bool :=
  h ← ask; live ← mget r_live;
  mret (match process_of runtime with Some p => bool_decide (p ∈ (live : list process)) && negb (h_died h p) | None => false end).

Definition alive_item (item : pydict) : M reg bool := runtime ← mlift (runtime_of item); alive runtime.

(** [runtime.stop]: a process that has ended by itself is not an error. *)
Definition runtime_stop (runtime : pydict) : M reg unit :=
  running ← alive runtime;
  if (running : bool) then
    h ← ask;
    match process_of runtime with
    | Some p => if h_died h p then mret tt
                else if h_stops h then mmod (λ r, set_live (filter (λ q : process, q ≠ p) (r_live r)) r)
                else mraise ValueError "service shutdown timed out; state retained"
    | None => mret tt
    end
  else mret tt.

Definition runtime_start (name : pystr) (plan : pydict) : M reg pydict :=
  h ← ask;
  p ← mlift (h_start h plan);
  _ ← mmod (add_launch p name plan);
  mret (mkdict [("pid", VInt (pr_pid p)); ("processIdentity", VStr (pr_identity p)); ("readiness", txt "unavailable")]).

(** ** Material
    Everything a deployment consists of, with the digests of its files. *)
Definition file_digest (h : host) (limit : Z) (row : pystr * pystr) : result (pystr * pyval) :=
  c ← h_read h row.2 limit; Ok (row.1, VStr (digest c)).
Definition texts (l : list (pystr * pystr)) : pyval := VDict ((λ kv, (kv.1, VStr kv.2)) <$> l).

(** [digest(Path(executable(path)).read_bytes())]. *)
Definition binary_digest (h : host) (path : pystr) : result pyval := _ ← h_executable h path; d ← h_executable_digest h path; Ok (VStr d).

Definition component_binary (h : host) (component : string) : pystr :=
  i_root (h_installation h) ++ str "/" ++ title (str component) ++ str "/shadow6-" ++ str component.
Definition envelope_binary (h : host) : pystr := i_root (h_installation h) ++ str "/OCaml/privacy_envelope/shadow6-privacy-envelope".

Definition attachment_dict (a : attachment) : pyval := VDict (mkdict
  [("configPath", VStr (at_config_path a)); ("configDigest", VStr (at_config_digest a)); ("keyPath", VStr (at_key_path a));
   ("keyDigest", VStr (at_key_digest a)); ("core", VStr (at_core a)); ("boundaryMaximum", VInt (at_maximum a))]).

(** The role and the identity of the native configuration against the context. *)
Definition check_native_intent (context : pydict) (native : pyval) : result unit :=
  match native with
  | VDict n =>
      role ← field context "role";
      _ ← raise_if (has_key n "role" && negb (eq_str role "all") && negb (py_eqb role (vget_none n "role"))) ValueError "native role realization differs from S6P1";
      identity ← (v ← field context "identity"; as_dict v);
      if is_none (vget_none identity "id") then Ok tt
      else
        let section := match vget_none n "role" with VStr r => default VNone (dget n r) | _ => VNone end in
        let native_id := match section with VDict s => vget_none s "id" | _ => vget_none n "id" end in
        raise_if (negb (py_eqb native_id (vget_none identity "id"))) ValueError "native identity realization differs from S6P1"
  | _ => Ok tt
  end.

Definition credited_material (h : host) (item context : pydict) (native : pyval) (core : pystr) (profile : pydict) : result (list (string * pyval)) :=
  spec ← as_dict (vget_none item "spec");
  match vget_none spec "credited_config" with
  | VStr (c :: p) =>
      let path := c :: p in
      _ ← raise_if (negb (in_strs (vget_none context "role") ["client"; "all"])
                    || match native with VDict n => negb (eq_str (vget_none n "role") "client") | _ => true end) ValueError
            "S6NA credited attachment requires a realized client service";
      a ← validate_attachment nfc path (h_read h path 16384) (λ p, h_read h p 32) (h_credited h) (Some (credited_core core (VDict profile)));
      Ok [("creditedAttachment", attachment_dict a)]
  | _ => Ok []
  end.

(** The envelope: its fields, and what it adds to the material. *)
Definition envelope_material (h : host) (item binding profile selected : pydict) : result (option pydict * list (string * pyval)) :=
  if eq_str (vget_none item "privacy") "envelope" then
    spec ← as_dict (vget_none item "spec");
    match vget_none spec "envelope_config" with
    | VStr (c :: p) =>
        content ← h_read h (c :: p) LIMIT;
        fields ← parse_envelope content;
        _ ← raise_if (truthy (vget_none spec "metrics_path") && negb (py_eqb (vget_none fields "metrics_path") (vget_none spec "metrics_path"))) ValueError
              "service metrics path must match envelope metrics_path";
        _ ← validate_envelope nfkc lower digit (h_private_dir h) (h_read h) fields;
        _ ← raise_if (eq_str (vget_none fields "carrier") "webrtc"
                      && (negb (eq_str (vget_none profile "core") "nim") || negb (eq_str (vget_none selected "transport") "webrtc"))) ValueError
              "WebRTC S6EPE bridge requires the explicitly bound Nim/WebRTC Profile";
        path ← config_path binding;
        _ ← validate_native_private nfc nfkc lower (h_private_dir h) (h_read h) path;
        tls ← envelope_tls_material (h_read h) fields;
        digests ← map_res (file_digest h 16384) tls;
        binary ← binary_digest h (envelope_binary h);
        Ok (Some fields, [("envelopeTlsMaterial", texts tls); ("envelopeTlsDigests", VDict digests); ("envelopeConfigDigest", VStr (digest content)); ("envelopeBinaryDigest", binary)])
    | _ => raise ValueError "envelope privacy requires --envelope-config"
    end
  else Ok (None, []).

(** Gate or Guard: its configuration, and what it adds to the material. *)
Definition component_material (h : host) (item : pydict) (component : string) : result (option pydict * list (string * pyval)) :=
  spec ← as_dict (vget_none item "spec");
  match vget_none spec (component +:+ "_config") with
  | VStr (c :: p) =>
      content ← h_read h (c :: p) LIMIT;
      parsed ← json (JBytes content);
      value ← match parsed with VDict d => Ok d | _ => raise AttributeError "get" end;
      let gate := bool_decide (component = "gate"%string) in
      _ ← (if eq_str (vget_none item "privacy") "envelope" && gate then
             match host_address (vget_or value "listen_host" (txt "0.0.0.0")) with
             | Some a => raise_if (negb (is_loopback a)) ValueError "envelope invariant: Gate listener must be private behind EPE"
             | None => raise ValueError "does not appear to be an IPv4 or IPv6 address"
             end
           else Ok tt);
      _ ← raise_if (gate && negb (is_true (vget_none value "enabled"))) ValueError "explicit Gate composition requires enabled: true";
      again ← h_read h (c :: p) LIMIT;
      binary ← binary_digest h (component_binary h component);
      Ok (Some value, [(component +:+ "ConfigDigest", VStr (digest again)); (component +:+ "BinaryDigest", binary)])
  | _ => Ok (None, [])
  end.

Definition optional_paths (component : string) (value : option pydict) : result (list (pystr * pystr)) :=
  match value with Some d => component_material_paths (str component) (VDict d) | None => Ok [] end.

Definition realized_components (item : pydict) (gate guard : option pydict) : list pystr :=
  (if gate is Some _ then [str "gate"] else []) ++ (if guard is Some _ then [str "guard"] else [])
  ++ (if eq_str (vget_none item "privacy") "envelope" then [str "s6epe"] else []).

Definition material_of (h : host) (name : pystr) (item : pydict) : result pydict :=
  b ← item_binding item;
  let core := vget_none b "core" in
  _ ← check_binding (vget_none item "protocolContext") core items;
  current ← catalog_binding h core (vget_none b "config");
  _ ← raise_if (negb (py_eqb (VDict current) (VDict b))) ValueError "Core binding drift; explicitly reconfigure";
  descriptor ← CoreCatalog.inspect items core;
  installed ← h_executable_digest h (as_text (vget_none descriptor "executable"));
  _ ← raise_if (negb (py_eqb (VStr installed) (vget_none b "binaryDigest"))) ValueError "Core binary drift; explicitly reconfigure";
  path ← config_path b;
  content ← h_read h path LIMIT;
  let native := match json (JBytes content) with Ok v => v | Raise _ => VNone end in
  context ← as_dict (vget_none item "protocolContext");
  profile ← item_profile item;
  selected ← validate_profile_realization (VDict profile) native (Some context);
  realization ← as_dict (vget_none selected "realization");
  _ ← (if eq_str (vget_none realization "launcher") "native-files" then h_native_files h native else Ok tt);
  _ ← check_native_intent context native;
  natives ← native_material_paths (VDict profile) native;
  native_digests ← map_res (file_digest h 16384) natives;
  credited ← credited_material h item context native (as_text core) profile;
  runtimes ← h_runtime_paths h;
  runtime_digests ← map_res (λ row : pystr * pystr, d ← h_runtime_digest h row.1 row.2; Ok (row.1, VStr d)) runtimes;
  envelope ← envelope_material h item b profile selected;
  gate ← component_material h item "gate";
  guard ← component_material h item "guard";
  gate_files ← optional_paths "gate" gate.1;
  guard_files ← optional_paths "guard" guard.1;
  let files := dict_of (gate_files ++ guard_files) in
  file_digests ← map_res (file_digest h 16384) files;
  let native_role := match native with VDict n => match vget_none n "role" with VStr r => Some r | _ => None end | _ => None end in
  _ ← admit_realization nfc nfkc lower (h_now h) (VDict context) native_role (realized_components item gate.1 guard.1);
  broker ← broker_realization nfkc lower (h_private_dir h) context native gate.1 (h_pick h);
  composition ← validate_composition nfkc lower (h_private_dir h) (vget_none item "privacy") envelope.1 gate.1 guard.1;
  context_id ← context_digest (VDict context);
  Ok (mkdict ([("contextDigest", VStr context_id); ("name", VStr name); ("spec", vget_none item "spec"); ("privacy", vget_none item "privacy"); ("binding", VDict b);
               ("profileBinding", VDict profile); ("nativeConfigDigest", VStr (digest content));
               ("nativeMaterials", texts natives); ("nativeMaterialDigests", VDict native_digests)] ++ credited ++
              [("runtimeMaterials", texts runtimes); ("runtimeMaterialDigests", VDict runtime_digests)] ++ envelope.2 ++ gate.2 ++ guard.2 ++
              [("componentMaterials", texts files); ("componentMaterialDigests", VDict file_digests);
               ("brokerRealization", VDict broker); ("composition", VDict composition)])).

Definition _material (name : pystr) : M reg pydict := item ← inspect name; h ← ask; mlift (material_of h name item).

(** ** Lock and apply *)
Definition limit_input (h : host) (path : pyval) (limit : Z) (name : string) : result (list (string * pyval)) :=
  match path with
  | VStr (c :: p) => content ← h_read h (c :: p) limit; v ← json (JBytes content); Ok [(name, v)]
  | _ => Ok []
  end.

Definition component_inputs (h : host) (item : pydict) : result pydict :=
  spec ← as_dict (vget_none item "spec");
  gate ← limit_input h (vget_none spec "gate_config") LIMIT "gate";
  guard ← limit_input h (vget_none spec "guard_config") LIMIT "guard";
  credited ← limit_input h (vget_none spec "credited_config") 16384 "credited";
  envelope ← (if eq_str (vget_none item "privacy") "envelope" then
                path ← field spec "envelope_config";
                content ← h_read h (as_text path) LIMIT; fields ← parse_envelope content; Ok [("envelope"%string, VDict fields)]
              else Ok []);
  Ok (mkdict (gate ++ guard ++ credited ++ envelope)).
Definition _component_limit_inputs (name : pystr) : M reg pydict := item ← inspect name; h ← ask; mlift (component_inputs h item).

Definition spec_limits (item : pydict) : result pyval := spec ← as_dict (vget_none item "spec"); Ok (vget_none spec "limits").

(** [LimitResolver().resolve(...).to_dict()] on the host as it is. *)
Definition resolve_limits (h : host) (item : pydict) : result pydict :=
  binding ← item_profile item;
  profile ← validate_profile_binding (VDict binding) VNone true;
  policy ← spec_limits item;
  budget ← h_budget h;
  document ← Limits.resolve profile policy budget;
  d ← resolution_to_dict document;
  as_dict d.

(** The host and the descriptors of a resolution, for its components. *)
Definition resolution_host (resolution : pydict) : result (host_budget * pyval) :=
  budget ← (v ← field resolution "host_budget"; host_from_dict v);
  effective ← (v ← field resolution "effective_limits"; as_dict v);
  fds ← field effective "process_fds";
  Ok (budget, fds).

Definition lock (name : pystr) (expected_material_digest : option pystr) : M reg pydict :=
  item ← inspect name;
  running ← alive_item item;
  _ ← mraise_if running ValueError "stop service before locking";
  material ← _material name;
  _ ← mraise_if (match expected_material_digest with Some e => negb (bool_decide (dict_digest material = e)) | None => false end) ValueError "ReviewedMaterialChanged";
  h ← ask;
  resolution ← mlift (resolve_limits h item);
  inputs ← _component_limit_inputs name;
  limits ← mlift (x ← resolution_host resolution; resolve_components (VDict inputs) x.1 x.2);
  binding ← require_binding name;
  profile ← require_profile_binding name;
  context ← mlift (context_digest (vget_none item "protocolContext"));
  let locked := mkdict
    [("schema", txt LOCK_SCHEMA); ("limitResolution", VDict resolution); ("componentLimits", limits); ("digest", VStr (dict_digest material));
     ("coreBinding", VDict binding); ("profileBinding", VDict profile); ("contextDigest", VStr context)] in
  _ ← update_item name (λ item, set_all item [("deploymentLock", VDict locked); ("state", txt "locked")]);
  _ ← _save;
  mret locked.

(** The locked limits still hold on this host. *)
Definition check_locked_limits (h : host) (item locked : pydict) : result pydict :=
  _ ← raise_if (is_none (vget_none locked "limitResolution")) ValueError "LegacyLimitsLock: explicitly stop and relock";
  binding ← item_profile item;
  profile ← validate_profile_binding (VDict binding) VNone true;
  policy ← spec_limits item;
  budget ← h_budget h;
  _ ← Limits.validate (vget_none locked "limitResolution") profile policy (Some budget);
  as_dict (vget_none locked "limitResolution").

Definition check_component_limits (h : host) (item locked resolution : pydict) : result unit :=
  match vget_none locked "componentLimits" with
  | VNone => inputs ← component_inputs h item; raise_if (negb (bool_decide (inputs = []))) ValueError "LegacyComponentLimitsLock: explicitly stop and relock"
  | limits => reraise [ValueError] ValueError "deployment drift; locked component limits no longer validate"
                (inputs ← component_inputs h item; x ← resolution_host resolution; _ ← validate_components limits (VDict inputs) x.1 x.2; Ok tt)
  end.

(** The lock of a service against its material, as it is. *)
Definition apply_locked (name : pystr) : M reg pydict :=
  item ← inspect name;
  locked ← mlift (as_dict (vget_none item "deploymentLock"));
  h ← ask;
  resolution ← mlift (check_locked_limits h item locked);
  h ← ask;
  _ ← mlift (check_component_limits h item locked resolution);
  material ← _material name;
  _ ← mraise_if (negb (py_eqb (vget_none locked "digest") (VStr (dict_digest material)))) ValueError "deployment drift; explicitly reconfigure and apply";
  running ← alive_item item;
  _ ← (if (running : bool) then mret tt else set_state name "applied");
  _ ← _save;
  inspect name.

Definition apply_service (name : pystr) : M reg pydict :=
  item ← inspect name;
  _ ← (if truthy (vget_none item "deploymentLock") then mret tt else (_ ← lock name None; mret tt));
  apply_locked name.

(** ** Launching *)
Definition prefixed (prefix : string) (v : pyval) : pydict := match v with VDict d => (λ kv, (str prefix ++ kv.1, kv.2)) <$> d | _ => [] end.
(** [d.update(e)]. *)
Definition dict_update (d e : pydict) : pydict := foldl (λ d kv, dset d kv.1 kv.2) d e.

Definition component_plan (h : host) (item : pydict) (component : string) : list (string * pyval) :=
  match vget_none (sub_dict item "spec") (component +:+ "_config") with
  | VStr (c :: p) => [(component +:+ "Config", VStr (c :: p)); (component +:+ "Binary", VStr (component_binary h component))]
  | _ => []
  end.

(** The digests a supervisor has to find when it starts. *)
Definition launch_digests (binding material locked : pydict) (plan : pydict) : pydict :=
  let d := mkdict [("binary", vget_none binding "binaryDigest"); ("config", vget_none material "nativeConfigDigest");
                   ("componentLimits", VStr (digest (encoded (vget_none locked "componentLimits"))))] in
  let d := foldl (λ d component,
             if has_key plan (component +:+ "Config")
             then set_all d [(component +:+ "Config", vget_none material (component +:+ "ConfigDigest")); (component +:+ "Binary", vget_none material (component +:+ "BinaryDigest"))]
             else d) d ["envelope"; "gate"; "guard"]%string in
  let d := match vget_none material "creditedAttachment" with
           | VDict a => set_all d [("creditedConfig", vget_none a "configDigest"); ("creditedKey", vget_none a "keyDigest")]
           | _ => d
           end in
  let d := dict_update d (sub_dict material "envelopeTlsDigests") in
  let d := dict_update d (prefixed "nativeMaterial:" (vget_none material "nativeMaterialDigests")) in
  let d := dict_update d (prefixed "runtimeMaterial:" (vget_none material "runtimeMaterialDigests")) in
  dict_update d (prefixed "componentMaterial:" (vget_none material "componentMaterialDigests")).

Definition plan_of (h : host) (item binding profile descriptor material : pydict) (binary : pystr) : result pydict :=
  locked ← as_dict (vget_none item "deploymentLock");
  spec ← as_dict (vget_none item "spec");
  path ← config_path binding;
  limits ← field locked "limitResolution";
  components ← field locked "componentLimits";
  let enveloped := eq_str (vget_none item "privacy") "envelope" in
  let plan := mkdict
    [("limitResolution", limits); ("componentLimits", components); ("root", VStr (i_root (h_installation h)));
     ("core", vget_none binding "core"); ("profileBinding", VDict profile); ("binary", VStr binary); ("config", VStr path);
     ("launchAdapter", vget_or descriptor "launchAdapter" (txt "native-config")); ("ttl", vget_or spec "ttl" (VInt 3600));
     ("protocolContext", vget_none item "protocolContext"); ("contextDigest", vget_none material "contextDigest"); ("lockDigest", vget_none locked "digest")] in
  let plan := match vget_none material "creditedAttachment" with
              | VDict a => set_all plan [("creditedAttachment", VDict a); ("creditedConfig", vget_none a "configPath"); ("creditedKey", vget_none a "keyPath")]
              | _ => plan
              end in
  let plan := if enveloped
              then dict_update (set_all plan [("envelopeConfig", vget_none spec "envelope_config"); ("envelopeBinary", VStr (envelope_binary h))]) (sub_dict material "envelopeTlsMaterial")
              else plan in
  let plan := set_all plan (component_plan h item "gate" ++ component_plan h item "guard") in
  let plan := set_all plan [("runtimeMaterials", vget_none material "runtimeMaterials"); ("componentMaterials", vget_none material "componentMaterials");
                            ("nativeMaterials", vget_none material "nativeMaterials")] in
  Ok (vset plan "launchDigests" (VDict (launch_digests binding material locked plan))).

Definition launch_plan (name : pystr) : M reg pydict :=
  item ← apply_service name;
  binding ← require_binding name;
  material ← _material name;
  _ ← mraise_if (negb (py_eqb (VStr (dict_digest material)) (lock_digest item))) ValueError "deployment drift while preparing launch plan";
  descriptor ← mlift (CoreCatalog.inspect items (vget_none binding "core"));
  h ← ask;
  binary ← mlift (h_executable h (as_text (vget_none descriptor "executable")));
  profile ← require_profile_binding name;
  plan ← mlift (plan_of h item binding profile descriptor material binary);
  _ ← atomic_write (encoded (VDict plan)) LIMIT (λ _ r, r);
  mret plan.

(** ** Status *)
Definition RUNTIME_READY : list string := ["listener-ready"; "control-ready"; "application-ready"; "application-active"].
Definition set_runtime (kvs : list (string * pyval)) (item : pydict) : pydict :=
  match vget_none item "runtime" with VDict rt => vset item "runtime" (VDict (set_all rt kvs)) | _ => item end.
Definition unavailable : list (string * pyval) := [("endpoint", VNone); ("readiness", txt "unavailable")].
Definition result_path (name : pystr) : pystr := dir ++ str "/" ++ sha256_hex name ++ str ".runtime.json.result".

(** How a supervisor that is gone has ended. *)
Definition terminal_state (h : host) (name : pystr) (item runtime : pydict) : result string :=
  let expired := match vget_or runtime "expiresAt" (VInt 0) with VInt t => t <=? h_now h | _ => false end in
  match (c ← h_read h (result_path name) LIMIT; json (JBytes c)) with
  | Ok outcome =>
      let drained := VDict (mkdict [("schema", txt "shadow6.runtime-result.v1"); ("pid", vget_none runtime "pid"); ("processIdentity", vget_none runtime "processIdentity");
        ("lockDigest", vget_none runtime "lockDigest"); ("profileBinding", vget_none item "profileBinding"); ("state", txt "exited"); ("reason", txt "application-record-drained")]) in
      Ok (if expired || py_eqb outcome drained then "exited" else "failed")%string
  | Raise e => if existsb (isa (exn_cls e)) [ValueError; OSError] then Ok (if expired then "exited" else "failed")%string else Raise e
  end.

Definition settle_runtime (name : pystr) : M reg unit :=
  item ← inspect name;
  runtime ← mlift (runtime_of item);
  if eq_str (vget_none runtime "state") "running" then
    running ← alive runtime;
    if (running : bool) then mret tt
    else
      h ← ask;
      terminal ← mlift (terminal_state h name item runtime);
      _ ← update_item name (λ item, vset (set_runtime [("state", txt terminal)] item) "state" (txt terminal));
      _save
  else mret tt.

(** The observation of a runtime, in a copy of the record. *)
Definition observed_item (h : host) (item : pydict) : result pydict :=
  match h_observe h item with
  | Ok None => Ok item
  | Ok (Some (endpoint, readiness, observation)) =>
      let item := set_runtime [("endpoint", endpoint); ("readiness", readiness)] item in
      Ok (match observation with Some o => vset item "runtimeObservation" o | None => item end)
  | Raise e => if existsb (isa (exn_cls e)) [ValueError; OSError; KeyError; TypeError]
               then Ok (vset (set_runtime unavailable (pop_key item "runtimeObservation")) "runtimeDiagnostic" (txt "RuntimeObservationInvalid")) else Raise e
  end.

(** The process, the lock and the record agree. *)
Definition lock_agrees (item process : pydict) : result bool :=
  match vget_none item "deploymentLock" with
  | VDict locked =>
      if negb (eq_str (vget_none locked "schema") LOCK_SCHEMA) || negb (py_eqb (vget_none process "lockDigest") (vget_none locked "digest")) then Ok false else
      match vget_none item "coreBinding" with
      | VDict binding =>
          if negb (py_eqb (vget_none process "core") (vget_none binding "core")) || negb (py_eqb (vget_none locked "coreBinding") (VDict binding))
             || negb (py_eqb (vget_none process "profileBinding") (vget_none item "profileBinding"))
             || negb (py_eqb (vget_none locked "profileBinding") (vget_none item "profileBinding")) then Ok false
          else context ← context_digest (vget_none item "protocolContext"); Ok (py_eqb (vget_none locked "contextDigest") (VStr context))
      | _ => raise AttributeError "get"
      end
  | _ => Ok false
  end.

(** Whether the running service is the locked one. *)
Definition runtime_valid (name : pystr) (result process : pydict) : M reg bool :=
  mtry (agrees ← mlift (lock_agrees result process);
        if (agrees : bool) then material ← _material name; mret (py_eqb (VStr (dict_digest material)) (lock_digest result)) else mret false)
    (catch_classes [ValueError; OSError; KeyError; TypeError] (λ _, mret false)).

(** The state of a service whose supervisor is running. *)
Definition running_state (name : pystr) (result process : pydict) : M reg pydict :=
  valid ← runtime_valid name result process;
  item ← inspect name;
  if negb valid then
    _ ← set_state name "stale"; _ ← _save;
    mret (vset (pop_key (set_runtime unavailable result) "runtimeObservation") "state" (txt "stale"))
  else if negb (in_strs (vget_none process "readiness") RUNTIME_READY) || negb (truthy (vget_none result "runtimeObservation")) then
    _ ← set_state name "degraded"; _ ← _save;
    mret (set_all result [("state", txt "degraded"); ("runtimeDiagnostic", vget_or result "runtimeDiagnostic" (txt "RuntimeReadinessUnavailable"))])
  else if in_strs (vget_none item "state") ["degraded"; "stale"] then
    _ ← set_state name "running"; _ ← _save;
    mret (vset result "state" (txt "running"))
  else mret result.

(** The transport and the boundary of the bound profile, when it is current. *)
Definition profile_view (item : pydict) : result (list (string * pyval)) :=
  match validate_profile_binding (vget_none item "profileBinding") (vget_none (sub_dict item "coreBinding") "core") true with
  | Ok selected => n ← field selected "nativeTransport"; b ← field selected "applicationBoundary"; Ok [("nativeTransport", n); ("applicationBoundary", b)]
  | Raise e => if isa (exn_cls e) ValueError then Ok [("nativeTransport", VNone); ("applicationBoundary", VNone)] else Raise e
  end.

Definition status (name : pystr) : M reg pydict :=
  _ ← settle_runtime name;
  item ← inspect name;
  h ← ask;
  result ← mlift (observed_item h item);
  result ← match vget_none result "runtime" with
           | VDict process => if eq_str (vget_none process "state") "running" then running_state name result process else mret result
           | _ => mret result
           end;
  h ← ask;
  spec ← mlift (as_dict (vget_none item "spec"));
  metrics ← mlift (h_metrics h (vget_none spec "metrics_path"));
  let result := set_all result [("privacyTelemetry", metrics); ("readinessEvidence", h_evidence h (vget_none result "runtimeObservation") (vget_none result "state"))] in
  view ← mlift (profile_view result);
  mret (set_all result view).

Fixpoint poll_status (polls : nat) (name : pystr) (observed : pydict) : M reg pydict :=
  match polls with
  | O => mret observed
  | S polls => if truthy (vget_none observed "runtimeObservation") || negb (eq_str (vget_none observed "state") "degraded") then mret observed
               else observed ← status name; poll_status polls name observed
  end.
Definition connection_status (name : pystr) : M reg pydict := observed ← status name; poll_status 20 name observed.

(** ** Run and stop *)
(** Waiting for a live supervisor to publish its next observation: a pause of
    100 ms before each of at most 31 looks within three seconds. *)
Fixpoint wait_healthy (polls : nat) (name : pystr) : M reg (option pydict) :=
  existing ← status name;
  runtime ← mlift (v ← field existing "runtime"; d ← as_dict v; _ ← field d "readiness"; Ok d);
  if negb (eq_str (vget_none runtime "readiness") "unavailable") then mret (Some existing)
  else
    item ← inspect name;
    running ← alive_item item;
    if negb running then mret None
    else
      h ← ask;
      match polls with
      | S polls => if h_late h then mraise ValueError "runtime health unavailable; explicitly restart" else wait_healthy polls name
      | O => mraise ValueError "runtime health unavailable; explicitly restart"
      end.

(** A new supervisor for the locked material. *)
Definition launch (name : pystr) : M reg pydict :=
  item ← inspect name;
  binding ← require_binding name;
  material ← _material name;
  _ ← mraise_if (negb (py_eqb (VStr (dict_digest material)) (lock_digest item))) ValueError "deployment drift; explicitly reconfigure and apply";
  descriptor ← mlift (CoreCatalog.inspect items (vget_none binding "core"));
  h ← ask;
  _ ← mlift (h_executable h (as_text (vget_none descriptor "executable")));
  plan ← launch_plan name;
  process ← runtime_start name plan;
  profile ← require_profile_binding name;
  h ← ask;
  item ← inspect name;
  ttl ← mlift (match vget_none plan "ttl" with VInt t => Ok t | _ => raise TypeError "unsupported operand" end);
  let runtime := set_all process
    [("state", txt "running"); ("core", vget_none binding "core"); ("profileBinding", VDict profile); ("lockDigest", lock_digest item); ("endpoint", VNone);
     ("privacy", vget_none item "privacy"); ("startedAt", VInt (h_now h)); ("expiresAt", VInt (h_now h + ttl))] in
  _ ← update_item name (λ item, set_all item [("runtime", VDict runtime); ("state", txt "running")]);
  _ ← mtry _save (λ e, _ ← runtime_stop runtime; mlift (Raise e));
  status name.

Definition run (name : pystr) : M reg pydict :=
  item ← inspect name;
  _ ← mraise_if (negb (truthy (vget_none item "deploymentLock"))) ValueError "DeploymentLock required; explicitly lock/apply before run";
  item ← apply_service name;
  _ ← require_binding name;
  h ← ask;
  context ← mlift (as_dict (vget_none item "protocolContext"));
  role ← mlift (field context "role");
  _ ← mlift (admit_context (h_now h) (VDict context) None (if eq_str role "all" then None else Some (as_text role)));
  running ← alive_item item;
  healthy ← (if (running : bool) then wait_healthy 31 name else mret None);
  match healthy with Some existing => mret existing | None => launch name end.

(** The sessions of the service are closed first: they are those of [Handles]. *)
Definition stop (name : pystr) : M reg pydict :=
  item ← inspect name;
  runtime ← mlift (runtime_of item);
  _ ← runtime_stop runtime;
  _ ← update_item name (λ item, vset (set_runtime (("state", txt "stopped") :: unavailable) item) "state" (txt "stopped"));
  _ ← _save;
  inspect name.

Definition restart (name : pystr) : M reg pydict := _ ← apply_service name; _ ← stop name; run name.

Definition remove (name : pystr) : M reg pydict :=
  _ ← stop name;
  _ ← mmod (λ r, set_services (ddel (r_services r) name) r);
  _ ← _save;
  h ← ask;
  _ ← mlift (h_unlink h);
  mret (mkdict [("removed", VStr name)]).

(** ** Creating and configuring *)
Record request := Request { q_core : pyval; q_config : pyval; q_spec : pyval; q_privacy : pyval; q_context : pyval; q_profile : pyval }.

Definition draft (h : host) (name : pystr) (q : request) : result pydict :=
  _ ← raise_if (negb (truthy (q_core q))) ValueError "CoreSelectionRequired";
  _ ← raise_if (negb (NAME name)) ValueError "invalid namespace/name";
  let spec := if truthy (q_spec q) then q_spec q else VDict [] in
  _ ← _spec spec;
  _ ← raise_if (negb (in_strs (q_privacy q) ["native"; "envelope"])) ValueError "privacy must be native or envelope";
  context ← (if is_none (q_context q) then minimal_context nfc nfkc lower (Some (as_text (q_core q)))
             else c ← validate_context (q_context q); admit_context (h_now h) (VDict c) None None);
  binding ← catalog_binding h (q_core q) (if truthy (q_config q) then q_config q else VDict []);
  _ ← check_binding (VDict context) (q_core q) items;
  profile ← (if is_builtin (q_core q) then b ← bind_profile (q_core q) (q_profile q); Ok (VDict b) else Ok VNone);
  _ ← raise_if (negb (is_none (q_profile q)) && is_none profile) ValueError "UnknownNativeProfile";
  Ok (mkdict [("name", VStr name); ("protocolContext", VDict context); ("spec", spec); ("privacy", q_privacy q); ("coreBinding", VDict binding);
              ("profileBinding", profile); ("state", txt "ready")]).
Definition _draft (name : pystr) (q : request) : M reg pydict := h ← ask; mlift (draft h name q).

Definition registry_full (h : host) (services : pydict) : result bool :=
  budget ← h_budget h; Ok (service_capacity (memory_bytes budget) (fd_ceiling budget) <=? zlen services).

Definition create (name : pystr) (q : request) : M reg pydict :=
  _ ← mraise_if (is_none (q_core q) || eq_str (q_core q) "") ValueError "CoreSelectionRequired";
  services ← mget r_services;
  _ ← mraise_if (negb (NAME name) || dmem services name) ValueError "service name must be unique namespace/name";
  h ← ask;
  full ← mlift (registry_full h services);
  _ ← mraise_if full ValueError "host service capacity reached; remove unused services or increase available host resources";
  item ← _draft name q;
  _ ← put_item name item;
  _ ← _save;
  mret item.

Definition draft_fields : list string := ["coreBinding"; "profileBinding"; "protocolContext"; "spec"; "privacy"].
(** [any(existing[key] != draft[key] for key in ...)]. *)
Definition differs (existing item : pydict) : result bool :=
  any_res (λ k, v ← field existing k; Ok (negb (py_eqb v (vget_none item k)))) draft_fields.

Definition find_item (name : pystr) : M reg (option pydict) :=
  services ← mget r_services;
  match dget services name with None => mret None | Some v => d ← mlift (as_dict v); mret (Some d) end.

Definition check_same (existing : option pydict) (item : pydict) : result unit :=
  match existing with
  | Some e => d ← differs e item; raise_if d ValueError "setup differs from existing service; explicitly stop and service configure first"
  | None => Ok tt
  end.

Definition setup (name : pystr) (q : request) (start : bool) (expected_material_digest : option pystr) : M reg pydict :=
  item ← _draft name q;
  existing ← find_item name;
  _ ← mlift (check_same existing item);
  let created := match existing with None => true | Some _ => false end in
  mtry (_ ← (if created then (_ ← create name q; mret tt) else mret tt);
        _ ← apply_service name;
        current ← inspect name;
        _ ← mraise_if (match expected_material_digest with Some e => negb (py_eqb (lock_digest current) (VStr e)) | None => false end) ValueError "ReviewedMaterialChanged";
        if start then run name else status name)
    (catch_classes [ValueError; OSError] (λ e, _ ← (if created then (_ ← remove name; mret tt) else mret tt); mlift (Raise e))).

(** [finally]. *)
Definition mfinally {A} (m : M reg A) (cleanup : reg → reg) : M reg A := λ r, let '(x, r') := m r in (x, cleanup r').

Definition preview_setup (name : pystr) (q : request) (allow_reconfigure : bool) : M reg pydict :=
  _ ← mraise_if (negb (truthy (q_core q))) ValueError "CoreSelectionRequired";
  h ← ask;
  availability ← mlift (h_available h (q_core q) (q_profile q));
  if negb (truthy (vget_none availability "available")) then
    mret (mkdict [("schema", txt "shadow6.service-plan.v1"); ("valid", VBool false); ("core", q_core q); ("profile", vget_none availability "profile");
                  ("diagnostics", vget_none availability "diagnostics")])
  else
    item ← _draft name q;
    existing ← find_item name;
    _ ← (if allow_reconfigure then mret tt else mlift (check_same existing item));
    _ ← put_item name item;
    mfinally
      (material ← _material name;
       h ← ask;
       resolution ← mlift (resolve_limits h item);
       mret (mkdict [("schema", txt "shadow6.service-plan.v1"); ("valid", VBool true); ("name", VStr name); ("coreBinding", vget_none item "coreBinding");
                     ("profileBinding", vget_none item "profileBinding"); ("materialDigest", VStr (dict_digest material)); ("limitResolution", VDict resolution);
                     ("wouldCreate", VBool (match existing with None => true | Some _ => false end)); ("diagnostics", VList []);
                     ("evidence", txt "canonical-material-validation-only; no peer reachability or runtime readiness claim")]))
      (λ r, set_services (match existing with None => ddel (r_services r) name | Some e => dset (r_services r) name (VDict e) end) r).

Definition configure (name : pystr) (q : request) : M reg pydict :=
  item ← inspect name;
  running ← alive_item item;
  _ ← mraise_if running ValueError "stop the service before reconfiguring";
  h ← ask;
  binding ← mlift (catalog_binding h (q_core q) (q_config q));
  context ← mlift (if is_none (q_context q) then admit_context (h_now h) (vget_none item "protocolContext") None None
                   else c ← validate_context (q_context q); admit_context (h_now h) (VDict c) None None);
  _ ← mlift (check_binding (VDict context) (q_core q) items);
  profile ← mlift (if is_builtin (q_core q) then b ← bind_profile (q_core q) (q_profile q); Ok (VDict b) else Ok VNone);
  _ ← mraise_if (negb (is_none (q_profile q)) && is_none profile) ValueError "UnknownNativeProfile";
  _ ← mlift (if is_none (q_spec q) then Ok tt else _spec (q_spec q));
  _ ← mraise_if (negb (is_none (q_privacy q)) && negb (in_strs (q_privacy q) ["native"; "envelope"])) ValueError "invalid privacy mode";
  let replacement := if is_none (q_spec q) then item else vset item "spec" (q_spec q) in
  let replacement := set_all replacement [("protocolContext", VDict context); ("coreBinding", VDict binding); ("profileBinding", profile)] in
  let replacement := if is_none (q_privacy q) then replacement else vset replacement "privacy" (q_privacy q) in
  let replacement := vset (pop_key (pop_key replacement "deploymentLock") "runtime") "state" (txt "ready") in
  _ ← put_item name replacement;
  _ ← mtry (_ ← (if truthy (vget_none item "deploymentLock") then (_ ← _material name; mret tt) else mret tt); _save)
        (λ e, _ ← put_item name item; mlift (Raise e));
  mret replacement.

Definition upgrade (name : pystr) (q : request) (expected_material_digest : option pystr) : M reg pydict :=
  item ← inspect name;
  running ← alive_item item;
  _ ← mraise_if running ValueError "stop the service before upgrading";
  services ← mget r_services;
  file ← read_registry LIMIT;
  mtry (_ ← configure name q; _ ← lock name expected_material_digest; apply_service name)
    (λ e, _ ← mmod (set_services services);
          _ ← mtry (atomic_write file LIMIT set_file) (λ _, mraise ValueError "UpgradeRollbackFailed");
          mlift (Raise e)).

(** ** Reviewed operations *)
Definition control_action (action : pystr) (name : pystr) (expected_lock_digest : pystr) (expected_material_digest : option pystr) : M reg pydict :=
  _ ← mraise_if (negb (str_in action ["run"; "stop"; "restart"; "relock"; "apply"; "remove"])) ValueError "unknown lifecycle control action";
  item ← inspect name;
  let current := vget_or (sub_dict item "deploymentLock") "digest" (txt "") in
  _ ← mraise_if (negb (py_eqb current (VStr expected_lock_digest))) ValueError "ReviewedLockChanged";
  if bool_decide (action = str "run") then run name
  else if bool_decide (action = str "stop") then stop name
  else if bool_decide (action = str "restart") then restart name
  else if bool_decide (action = str "relock") then lock name expected_material_digest
  else if bool_decide (action = str "apply") then apply_service name
  else remove name.

Definition disconnect (name : pystr) (confirmed : bool) (expected_lock_digest : pystr) : M reg pydict :=
  _ ← mraise_if (negb confirmed) ValueError "ExplicitHumanConfirmationRequired";
  item ← inspect name;
  _ ← mraise_if (negb (py_eqb (lock_digest item) (VStr expected_lock_digest))) ValueError "ReviewedLockChanged";
  stop name.

Definition ziokt_stop (name : pystr) (expected_revision : pystr) : M reg pydict :=
  item ← inspect name;
  _ ← mraise_if (negb (bool_decide (dict_digest item = expected_revision))) ValueError "ZioktStaleNativeRevision";
  stop name.
Definition ziokt_run (name : pystr) (expected_revision : pystr) : M reg pydict :=
  item ← inspect name;
  _ ← mraise_if (negb (bool_decide (dict_digest item = expected_revision))) ValueError "ZioktStaleNativeRevision";
  run name.

Fixpoint status_each (names : list pystr) : M reg (list pydict) :=
  match names with [] => mret [] | n :: names => s ← status n; l ← status_each names; mret (s :: l) end.
Definition list_services : M reg (list pydict) := services ← mget r_services; status_each (sort_keys services).*1.

(** ** Connections *)
Definition check_running (item : pydict) : M reg unit :=
  _ ← mraise_if (eq_str (vget_none item "state") "stale") ValueError "deployment drift; explicitly stop and reconfigure/relock";
  running ← (if in_strs (vget_none item "state") ["running"; "degraded"] then alive_item item else mret false);
  mraise_if (negb running) ValueError "service is not running".

Definition connection_inputs (name : pystr) : M reg (pydict * pydict) :=
  item ← inspect name;
  _ ← check_running item;
  _ ← apply_service name;
  item ← connection_status name;
  _ ← check_running item;
  material ← _material name;
  _ ← mraise_if (negb (py_eqb (VStr (dict_digest material)) (lock_digest item))) ValueError "deployment drift; explicitly reconfigure and apply";
  mret (item, material).

(** What keeps a running service from being connected to. *)
Definition check_attachable (h : host) (item : pydict) (role : option pystr) : result unit :=
  let runtime := sub_dict item "runtime" in
  _ ← raise_if (eq_str (vget_none runtime "readiness") "application-active") ValueError "ApplicationBoundaryBusy: the current owned stream attachment is active";
  _ ← raise_if (negb (eq_str (vget_or (sub_dict runtime "endpoint") "attachmentState" (txt "available")) "available")) ValueError "ApplicationBoundaryBusy:AttachmentConsumed";
  _ ← (if eq_str (vget_none item "privacy") "envelope" then
         spec ← as_dict (vget_none item "spec"); path ← field spec "envelope_config";
         content ← h_read h (as_text path) LIMIT; fields ← parse_envelope content;
         raise_if (eq_str (vget_none fields "carrier") "webrtc" && negb (eq_str (vget_none (sub_dict item "runtimeObservation") "transportReadiness") "ready")) ValueError
           "WebRTC transport has no active authenticated Named Service session"
       else Ok tt);
  if negb (in_strs (vget_none runtime "readiness") ["listener-ready"; "application-ready"]) || negb (truthy (vget_none item "runtimeObservation")) then
    context ← as_dict (vget_none item "protocolContext");
    _ ← match role with
        | Some r =>
            if eq_str (vget_none context "role") "all" then
              b ← as_dict (vget_none item "coreBinding"); path ← config_path b; data ← h_read h path LIMIT;
              native ← reraise [ValueError] ValueError "capability unavailable: named deployment role cannot be verified" (json (JBytes data));
              raise_if (match native with VDict n => negb (py_eqb (vget_none n "role") (VStr r)) | _ => true end)
                ValueError "requested role differs from locked native realization"
            else Ok tt
        | None => Ok tt
        end;
    raise ValueError "ApplicationReadinessUnavailable: service runtime readiness is unavailable; connect requires an observed listener or native ready event"
  else Ok tt.

Definition connect (name : pystr) (core : pyval) (role adapter : option pystr) : M reg pydict :=
  x ← connection_inputs name;
  h ← ask;
  _ ← mlift (check_attachable h x.1 role);
  y ← connection_inputs name;
  h ← ask;
  mlift (resolve_connection nfc nfkc lower (λ p, h_read h p LIMIT) (h_now h) (h_pick h) items (Some y) VNone core VNone [] VNone adapter role VNone).

Definition connection_review (name : pystr) : M reg pydict :=
  x ← connection_inputs name;
  plan ← connect name VNone None None;
  mret (mkdict [("schema", txt "shadow6.connection-review.v1"); ("plan", VDict plan); ("expected_plan_digest", VStr (dict_digest plan));
                ("expected_material_digest", VStr (dict_digest x.2)); ("expected_lock_digest", lock_digest x.1)]).

(** The material, when it can be computed. *)
Definition try_material (name : pystr) : M reg (option pydict) :=
  mtry (m ← _material name; mret (Some m)) (catch_classes [ValueError; OSError; KeyError] (λ _, mret None)).

(** The record as it is afterwards, the status, and the material if the status did not change it. *)
Definition compliance_snapshot (name : pystr) : M reg (pydict * pydict * option pydict) :=
  _ ← inspect name;
  before ← try_material name;
  shown ← status name;
  after ← try_material name;
  item ← inspect name;
  mret (item, shown, match before, after with
                     | Some b, Some a => if bool_decide (encoded (VDict b) = encoded (VDict a)) then Some b else None
                     | _, _ => None
                     end).

Definition credited_attachment (name : pystr) : M reg (pydict * pyval) :=
  _ ← connect name VNone (Some (str "client")) None;
  item ← inspect name;
  material ← _material name;
  let attachment := vget_none material "creditedAttachment" in
  _ ← mraise_if (is_none attachment) ValueError "Named Service has no S6NA credited attachment";
  _ ← mraise_if (negb (py_eqb (VStr (dict_digest material)) (lock_digest item))) ValueError "deployment drift; explicitly reconfigure and apply";
  mret (item, attachment).

Definition webrtc_signal_endpoint (name : pystr) : M reg pydict :=
  item ← inspect name;
  _ ← mraise_if (eq_str (vget_none item "state") "stale" || negb (truthy (vget_none item "deploymentLock"))) ValueError "locked Named Service required for WebRTC signalling";
  material ← _material name;
  _ ← mraise_if (negb (py_eqb (VStr (dict_digest material)) (lock_digest item))) ValueError "deployment drift; explicitly reconfigure and apply";
  profile ← require_profile_binding name;
  _ ← mraise_if (negb (eq_str (vget_none profile "core") "nim") || negb (eq_str (vget_none profile "profile") "nim-webrtc")) ValueError
        "capability unavailable: S6EPE signalling requires Nim/WebRTC Profile";
  spec ← mlift (as_dict (vget_or item "spec" (VDict [])));
  _ ← mraise_if (negb (truthy (vget_none spec "envelope_config"))) ValueError "Named Service has no S6EPE configuration";
  h ← ask;
  fields ← mlift (content ← h_read h (as_text (vget_none spec "envelope_config")) LIMIT; parse_envelope content);
  _ ← mraise_if (negb (eq_str (vget_none fields "carrier") "webrtc") || negb (has_key fields "signal_path" && has_key fields "signal_id")) ValueError
        "Named Service has no WebRTC Name Service bridge";
  mret (mkdict [("schema", txt "shadow6.webrtc-signal-endpoint.v1"); ("path", vget_none fields "signal_path"); ("sessionPrefix", vget_none fields "signal_id");
                ("core", txt "nim"); ("profile", vget_none profile "profile"); ("lockDigest", lock_digest item);
                ("protocol", txt "S6SG1"); ("transport", txt "owner-only-unix-stream")]).

(** Until the session is opened, which is an operation of [Handles]. *)
Definition connect_execute (name : pystr) (confirmed : bool) (expected_plan expected_material expected_lock : pystr) (core : pyval) (role adapter : option pystr)
    : M reg (pydict * pydict) :=
  _ ← mraise_if (negb confirmed) ValueError "ExplicitHumanConfirmationRequired";
  x ← connection_inputs name;
  _ ← mraise_if (negb (py_eqb (lock_digest x.1) (VStr expected_lock))) ValueError "ReviewedLockChanged";
  _ ← mraise_if (negb (bool_decide (dict_digest x.2 = expected_material))) ValueError "ReviewedMaterialChanged";
  plan ← connect name core role adapter;
  _ ← mraise_if (negb (bool_decide (dict_digest plan = expected_plan))) ValueError "ReviewedPlanChanged";
  observed ← connection_status name;
  _ ← mraise_if (negb (in_strs (vget_none observed "state") ["running"; "degraded"]) || negb (truthy (vget_none observed "runtimeObservation"))) ValueError "RuntimeObservationRequired";
  let ready := eq_str (vget_none (sub_dict observed "runtime") "readiness") "listener-ready" in
  mret (set_all observed [("connectionPlanDigest", VStr expected_plan); ("sessionState", txt (if ready then "transport-ready" else "application-ready"))], plan).

(** ** Managed configurations *)
Definition parent_of (path : pystr) : pystr := (rpartition_at 47 path).1.1.
Definition base_name (path : pystr) : pystr := (rpartition_at 47 path).2.

(** The configuration file a plan is made from. *)
Definition plan_source (h : host) (name : pystr) (existing : option pydict) (locked : bool) (core profile : pyval) : result pystr :=
  if locked then
    match existing with
    | Some e =>
        b ← as_dict (vget_none e "coreBinding"); p ← as_dict (vget_none e "profileBinding");
        _ ← raise_if (negb (py_eqb (vget_none b "core") core) || negb (py_eqb (vget_none p "profile") profile)) ValueError "ConfigurationBindingMismatch";
        path ← config_path b;
        raw ← h_read h path MAX_CONFIG;
        _ ← raise_if (match material_digest (base_name path) with Some hex => negb (bool_decide (sha256_hex raw = hex)) | None => false end) ValueError "ManagedConfigurationMaterialChanged";
        Ok path
    | None => raise ValueError "ConfigurationBindingMismatch"
    end
  else
    draft ← h_draft_path h name;
    raw ← h_read h draft MAX_CONFIG;
    let path := parent_of draft ++ str "/" ++ material_name raw in
    stored ← h_read h path MAX_CONFIG;
    _ ← raise_if (negb (bool_decide (stored = raw))) ValueError "ManagedConfigurationMaterialChanged";
    Ok path.

(** The plan, and the arguments it was made from. *)
Definition config_plan (name : pystr) (q : request) (locked : bool) : M reg (pydict * request) :=
  existing ← find_item name;
  h ← ask;
  path ← mlift (plan_source h name existing locked (q_core q) (q_profile q));
  let or_existing v k default := if is_none v then match existing with Some e => vget_none e k | None => default end else v in
  let arguments := Request (q_core q) (VDict (mkdict [("config_path", VStr path)])) (or_existing (q_spec q) "spec" VNone)
                     (or_existing (q_privacy q) "privacy" (txt "native")) (or_existing (q_context q) "protocolContext" VNone) (q_profile q) in
  plan ← preview_setup name arguments true;
  running ← match existing with Some e => alive_item e | None => mret false end;
  let lock_id := match existing with Some e => vget_or (sub_dict e "deploymentLock") "digest" (txt "") | None => txt "" end in
  let result := set_all plan [("schema", txt "shadow6.managed-config-plan.v1"); ("source", txt (if locked then "locked" else "draft"));
                              ("expected_lock_digest", lock_id); ("requiresStop", VBool running)] in
  mret (vset result "expected_plan_digest" (VStr (dict_digest result)), arguments).

Definition config_apply (name : pystr) (confirmed : bool) (expected_plan expected_material expected_lock : pystr) (start : bool) (q : request) (locked : bool) : M reg pydict :=
  _ ← mraise_if (negb confirmed) ValueError "ExplicitHumanConfirmationRequired";
  x ← config_plan name q locked;
  let plan := x.1 in
  _ ← mraise_if (negb (py_eqb (vget_none plan "expected_lock_digest") (VStr expected_lock))) ValueError "ReviewedLockChanged";
  _ ← mraise_if (negb (py_eqb (vget_none plan "expected_plan_digest") (VStr expected_plan))) ValueError "ReviewedPlanChanged";
  _ ← mraise_if (negb (truthy (vget_none plan "valid"))) ValueError "ProfileUnavailable";
  _ ← mraise_if (negb (py_eqb (vget_none plan "materialDigest") (VStr expected_material))) ValueError "ReviewedMaterialChanged";
  _ ← mraise_if (truthy (vget_none plan "requiresStop")) ValueError "ServiceStopRequired";
  services ← mget r_services;
  if dmem services name then
    _ ← upgrade name x.2 (Some expected_material);
    if start then run name else status name
  else setup name x.2 start (Some expected_material).

(** Preparing the registry of a host. *)
Definition init : M reg unit := _save.

(** ** The operations a client can call
    Each is one transaction, and each leaves its answer to the caller. *)
Inductive operation :=
  | Init | Create (name : pystr) (q : request) | Setup (name : pystr) (q : request) (start : bool) (expected_material : option pystr)
  | ControlAction (action name expected_lock : pystr) (expected_material : option pystr)
  | Configure (name : pystr) (q : request) | Upgrade (name : pystr) (q : request) (expected_material : option pystr)
  | Lock (name : pystr) (expected_material : option pystr) | Apply (name : pystr) | LaunchPlan (name : pystr) | Run (name : pystr) | Status (name : pystr)
  | ComplianceSnapshot (name : pystr) | CreditedAttachment (name : pystr) | WebrtcSignalEndpoint (name : pystr)
  | ConnectionInputs (name : pystr) | Connect (name : pystr) (core : pyval) (role adapter : option pystr) | ConnectionReview (name : pystr)
  | ConfigPlan (name : pystr) (q : request) (locked : bool)
  | ConfigApply (name : pystr) (confirmed : bool) (expected_plan expected_material expected_lock : pystr) (start : bool) (q : request) (locked : bool)
  | ConnectExecute (name : pystr) (confirmed : bool) (expected_plan expected_material expected_lock : pystr) (core : pyval) (role adapter : option pystr)
  | Disconnect (name : pystr) (confirmed : bool) (expected_lock : pystr) | Stop (name : pystr) | Restart (name : pystr) | Remove (name : pystr) | ListServices
  | ZioktStop (name expected_revision : pystr) | ZioktRun (name expected_revision : pystr) | Inspect (name : pystr).

Definition done {A} (m : M reg A) : M reg unit := _ ← m; mret tt.
Definition body (o : operation) : M reg unit :=
  match o with
  | Init => init
  | Create name q => done (create name q)
  | Setup name q start e => done (setup name q start e)
  | ControlAction action name l e => done (control_action action name l e)
  | Configure name q => done (configure name q)
  | Upgrade name q e => done (upgrade name q e)
  | Lock name e => done (lock name e)
  | Apply name => done (apply_service name)
  | LaunchPlan name => done (launch_plan name)
  | Run name => done (run name)
  | Status name => done (status name)
  | ComplianceSnapshot name => done (compliance_snapshot name)
  | CreditedAttachment name => done (credited_attachment name)
  | WebrtcSignalEndpoint name => done (webrtc_signal_endpoint name)
  | ConnectionInputs name => done (connection_inputs name)
  | Connect name core role adapter => done (connect name core role adapter)
  | ConnectionReview name => done (connection_review name)
  | ConfigPlan name q locked => done (config_plan name q locked)
  | ConfigApply name confirmed p m l start q locked => done (config_apply name confirmed p m l start q locked)
  | ConnectExecute name confirmed p m l core role adapter => done (connect_execute name confirmed p m l core role adapter)
  | Disconnect name confirmed l => done (disconnect name confirmed l)
  | Stop name => done (stop name)
  | Restart name => done (restart name)
  | Remove name => done (remove name)
  | ListServices => done list_services
  | ZioktStop name rev => done (ziokt_stop name rev)
  | ZioktRun name rev => done (ziokt_run name rev)
  | Inspect name => done (inspect name)
  end.
Definition perform (o : operation) : M reg unit := transaction (body o).

(** A history: operations one after the other, whatever each ends with. *)
Fixpoint history (l : list operation) (r : reg) : reg := match l with [] => r | o :: l => history l (perform o r).2 end.
End Registry.
