(* ===== verification/RegistryFacts.v ===== *)
(** * The service registry: what its operations do

    A small logic for the registry's monad - how the state evolves whatever the
    outcome - and with it: what only looks, what never starts a supervisor, what
    every launch was approved by, how an upgrade rolls back, and that every live
    supervisor stays recorded. *)
From S2P Require Import Prelude Dict PyStr PyText PyValue Json JsonRound JsonDocs StrictJson Sha256 Signing Net NativeProfiles Limits JoinCode.
From S2P Require Import BrokerSet CoreCatalog Context Composition ConfigStore ConnectionPlan Attachment Envelope Registry.

(** ** Evolution *)
Definition evolves {S A} (R : S → S → Prop) (m : M S A) : Prop := ∀ s x s', m s = (x, s') → R s s'.

Section Evolves.
Context {S : Type} (R : S → S → Prop) `{!PreOrder R}.

Lemma evolves_ret {A} (a : A) : evolves R (mret a : M S A).
Proof. intros s x s' [= <- <-]. reflexivity. Qed.
Lemma evolves_lift {A} (m : result A) : evolves R (mlift m : M S A).
Proof. intros s x s' [= <- <-]. reflexivity. Qed.
Lemma evolves_get {A} (f : S → A) : evolves R (mget f).
Proof. intros s x s' [= <- <-]. reflexivity. Qed.
Lemma evolves_mod (f : S → S) : (∀ s, R s (f s)) → evolves R (mmod f).
Proof. intros Hf s x s' [= <- <-]. apply Hf. Qed.
Lemma evolves_bind {A B} (m : M S A) (k : A → M S B) : evolves R m → (∀ a, evolves R (k a)) → evolves R (m ≫= k).
Proof.
  intros Hm Hk s x s' [(a & s1 & H1 & H2)|(e & H1 & _)]%M_bind_inv; [|by eapply Hm]. transitivity s1; [by eapply Hm|by eapply Hk].
Qed.
(** The same, when the rest depends on what came out. *)
Lemma evolves_bind_post {A B} (Q : A → Prop) (m : M S A) (k : A → M S B) :
  evolves R m → (∀ s a s', m s = (Ok a, s') → Q a) → (∀ a, Q a → evolves R (k a)) → evolves R (m ≫= k).
Proof.
  intros Hm HQ Hk s x s' [(a & s1 & H1 & H2)|(e & H1 & _)]%M_bind_inv; [|by eapply Hm]. transitivity s1; [by eapply Hm|eapply Hk; [by eapply HQ|done]].
Qed.
Lemma evolves_try {A} (m : M S A) (handler : exn → M S A) : evolves R m → (∀ e, evolves R (handler e)) → evolves R (mtry m handler).
Proof.
  intros Hm Hh s x s'. unfold mtry. destruct (m s) as [[a|e] s1] eqn:E; [intros [= <- <-]; by eapply Hm|].
  intros H. transitivity s1; [by eapply Hm|by eapply Hh].
Qed.
Lemma evolves_catch {A} ds (handler : exn → M S A) e : evolves R (handler e) → evolves R (catch_classes ds handler e).
Proof. unfold catch_classes. destruct (existsb _ _); [done|]. intros _. apply evolves_lift. Qed.
End Evolves.

Lemma evolves_weaken {S A} (R R' : S → S → Prop) (m : M S A) : (∀ s s', R s s' → R' s s') → evolves R m → evolves R' m.
Proof. intros HR Hm s x s' H. eapply HR, Hm, H. Qed.

Lemma evolves_run {S A} (R : S → S → Prop) (m : M S A) s x s' : evolves R m → m s = (x, s') → R s s'.
Proof. eauto. Qed.

Create HintDb registry.

(** Decompose a computation; the operations themselves come from the database. *)
Ltac evolve :=
  repeat (intros; first
    [ solve [eauto 2 with registry]
    | apply evolves_ret; typeclasses eauto | apply evolves_lift; typeclasses eauto | apply evolves_get; typeclasses eauto
    | match goal with
      | |- evolves _ (mraise _ _) => unfold mraise
      | |- evolves _ (mraise_if _ _ _) => unfold mraise_if
      | |- evolves _ (mbind _ _) => apply evolves_bind; [typeclasses eauto| |]
      | |- evolves _ (mtry _ _) => apply evolves_try; [typeclasses eauto| |]
      | |- evolves _ (catch_classes _ _ _) => apply evolves_catch; [typeclasses eauto|]
      | |- evolves _ (if ?b then _ else _) => destruct b
      | |- evolves _ (match ?x with _ => _ end) => destruct x
      | |- evolves _ (let _ := _ in _) => cbv zeta
      | |- evolves _ (mret _) => apply evolves_ret; typeclasses eauto
      end ]).

(** The relation of a run, from its computation. *)
Ltac evolving H := eapply evolves_run; [|exact H]; solve [evolve].

Section Facts.
Context (nfc nfkc lower : pystr → pystr) (digit : Z → option Z) `{Sig : Signing} (dir : pystr) (items : catalog) (hosts : nat → host).

Notation ask := (ask hosts).
Notation inspect := Registry.inspect.
Notation _material := (_material nfc nfkc lower digit items hosts).
Notation material_of := (material_of nfc nfkc lower digit items).
Notation lock := (lock nfc nfkc lower digit items hosts).
Notation apply_service := (apply_service nfc nfkc lower digit items hosts).
Notation launch_plan := (launch_plan nfc nfkc lower digit items hosts).
Notation status := (status nfc nfkc lower digit dir items hosts).
Notation launch := (launch nfc nfkc lower digit dir items hosts).
Notation run := (run nfc nfkc lower digit dir items hosts).
Notation stop := (stop hosts).
Notation _save := (_save hosts).
Notation body := (body nfc nfkc lower digit dir items hosts).
Notation perform := (perform nfc nfkc lower digit dir items hosts).
Notation history := (history nfc nfkc lower digit dir items hosts).

(** ** Looking *)
Definition looked (r r' : reg) : Prop :=
  r_services r' = r_services r ∧ r_file r' = r_file r ∧ r_live r' = r_live r ∧ r_launched r' = r_launched r ∧ (r_look r ≤ r_look r')%nat.
#[local] Instance looked_preorder : PreOrder looked.
Proof. split; [by intros r|]. intros r1 r2 r3 (?&?&?&?&?) (?&?&?&?&?). repeat split; try congruence. lia. Qed.

Lemma ask_looked : evolves looked ask.
Proof. intros r x r' [= <- <-]. repeat split. cbn. lia. Qed.
#[local] Hint Resolve ask_looked : registry.

Lemma inspect_looked name : evolves looked (inspect name).
Proof. unfold Registry.inspect. evolve. Qed.
#[local] Hint Resolve inspect_looked : registry.
Lemma alive_looked rt : evolves looked (alive hosts rt).
Proof. unfold alive. evolve. Qed.
#[local] Hint Resolve alive_looked : registry.
Lemma alive_item_looked item : evolves looked (alive_item hosts item).
Proof. unfold alive_item. evolve. Qed.
Lemma material_looked name : evolves looked (_material name).
Proof. unfold Registry._material. evolve. Qed.
Lemma component_inputs_looked name : evolves looked (_component_limit_inputs nfc hosts name).
Proof. unfold _component_limit_inputs. evolve. Qed.
Lemma require_binding_looked name : evolves looked (require_binding name).
Proof. unfold require_binding. evolve. Qed.
Lemma require_profile_looked name : evolves looked (require_profile_binding name).
Proof. unfold require_profile_binding. evolve. Qed.
Lemma draft_looked name q : evolves looked (_draft nfc nfkc lower items hosts name q).
Proof. unfold _draft. evolve. Qed.
Lemma find_item_looked name : evolves looked (find_item name).
Proof. unfold find_item. evolve. Qed.
Lemma read_registry_looked limit : evolves looked (read_registry hosts limit).
Proof. unfold read_registry. evolve. Qed.
#[local] Hint Resolve alive_item_looked material_looked component_inputs_looked require_binding_looked require_profile_looked draft_looked find_item_looked
  read_registry_looked : registry.
Lemma try_material_looked name : evolves looked (try_material nfc nfkc lower digit items hosts name).
Proof. unfold try_material. evolve. Qed.
#[local] Hint Resolve try_material_looked : registry.
Lemma runtime_valid_looked name res p : evolves looked (runtime_valid nfc nfkc lower digit items hosts name res p).
Proof. unfold runtime_valid. evolve. Qed.
#[local] Hint Resolve runtime_valid_looked : registry.

(** ** What starts no supervisor *)
Definition quiet (r r' : reg) : Prop := r_launched r' = r_launched r ∧ (∀ p, p ∈ r_live r' → p ∈ r_live r) ∧ (r_look r ≤ r_look r')%nat.
#[local] Instance quiet_preorder : PreOrder quiet.
Proof. split; [by intros r|]. intros r1 r2 r3 (?&?&?) (?&?&?). repeat split; [congruence|eauto|lia]. Qed.
Lemma looked_quiet r r' : looked r r' → quiet r r'.
Proof. intros (_ & _ & Hl & ? & ?). repeat split; [done| |done]. by rewrite Hl. Qed.
Lemma quiet_of_looked {A} (m : M reg A) : evolves looked m → evolves quiet m.
Proof. apply evolves_weaken, looked_quiet. Qed.
#[local] Hint Extern 3 (evolves quiet _) => apply quiet_of_looked; solve [eauto 2 with registry] : registry.

Lemma put_item_quiet name item : evolves quiet (put_item name item).
Proof. apply evolves_mod. by intros r. Qed.
#[local] Hint Resolve put_item_quiet : registry.
Lemma update_item_quiet name f : evolves quiet (update_item name f).
Proof. unfold update_item. evolve. Qed.
#[local] Hint Resolve update_item_quiet : registry.
Lemma set_state_quiet name st : evolves quiet (set_state name st).
Proof. unfold set_state. evolve. Qed.
Lemma atomic_write_quiet data limit store : (∀ b r, quiet r (store b r)) → evolves quiet (atomic_write hosts data limit store).
Proof. intros Hs. unfold atomic_write. evolve; apply evolves_mod; by intros. Qed.
#[local] Hint Extern 2 (evolves quiet (atomic_write _ _ _ _)) => apply atomic_write_quiet; by intros : registry.
Lemma save_quiet : evolves quiet _save.
Proof. unfold Registry._save. evolve. Qed.
#[local] Hint Resolve set_state_quiet save_quiet : registry.
Lemma set_services_quiet s : evolves quiet (mmod (set_services s)).
Proof. apply evolves_mod. by intros r. Qed.
Lemma mod_services_quiet f : evolves quiet (mmod (λ r, set_services (f r) r)).
Proof. apply evolves_mod. by intros r. Qed.
#[local] Hint Resolve set_services_quiet mod_services_quiet : registry.
Lemma lock_quiet name e : evolves quiet (lock name e).
Proof. unfold Registry.lock. evolve. Qed.
#[local] Hint Resolve lock_quiet : registry.
Lemma apply_locked_quiet name : evolves quiet (apply_locked nfc nfkc lower digit items hosts name).
Proof. unfold apply_locked. evolve. Qed.
#[local] Hint Resolve apply_locked_quiet : registry.
Lemma apply_quiet name : evolves quiet (apply_service name).
Proof. unfold Registry.apply_service. evolve. Qed.
#[local] Hint Resolve apply_quiet : registry.
Lemma launch_plan_quiet name : evolves quiet (launch_plan name).
Proof. unfold Registry.launch_plan. evolve. Qed.
Lemma settle_runtime_quiet name : evolves quiet (settle_runtime nfc dir hosts name).
Proof. unfold settle_runtime. evolve. Qed.
Lemma running_state_quiet name res p : evolves quiet (running_state nfc nfkc lower digit items hosts name res p).
Proof. unfold running_state. evolve. Qed.
#[local] Hint Resolve launch_plan_quiet settle_runtime_quiet running_state_quiet : registry.
Lemma status_quiet name : evolves quiet (status name).
Proof. unfold Registry.status. evolve. Qed.
#[local] Hint Resolve status_quiet : registry.
Lemma wait_healthy_quiet n name : evolves quiet (wait_healthy nfc nfkc lower digit dir items hosts n name).
Proof. induction n; cbn [wait_healthy]; evolve. Qed.
Lemma poll_status_quiet n name o : evolves quiet (poll_status nfc nfkc lower digit dir items hosts n name o).
Proof. revert o. induction n; cbn [poll_status]; evolve. Qed.
#[local] Hint Resolve wait_healthy_quiet poll_status_quiet : registry.
Lemma connection_status_quiet name : evolves quiet (connection_status nfc nfkc lower digit dir items hosts name).
Proof. unfold connection_status. evolve. Qed.
Lemma runtime_stop_quiet rt : evolves quiet (runtime_stop hosts rt).
Proof. unfold runtime_stop. evolve; intros. apply evolves_mod. intros r. repeat split; [|done]. intros q Hq. cbn in Hq. by apply list_elem_of_filter in Hq as [_ ?]. Qed.
#[local] Hint Resolve connection_status_quiet runtime_stop_quiet : registry.
Lemma stop_quiet name : evolves quiet (stop name).
Proof. unfold Registry.stop. evolve. Qed.
#[local] Hint Resolve stop_quiet : registry.
Lemma remove_quiet name : evolves quiet (remove hosts name).
Proof. unfold remove. evolve. Qed.
Lemma create_quiet name q : evolves quiet (create nfc nfkc lower items hosts name q).
Proof. unfold create. evolve. Qed.
Lemma configure_quiet name q : evolves quiet (configure nfc nfkc lower digit items hosts name q).
Proof. unfold configure. evolve. Qed.
#[local] Hint Resolve remove_quiet create_quiet configure_quiet : registry.
Lemma upgrade_quiet name q e : evolves quiet (upgrade nfc nfkc lower digit items hosts name q e).
Proof. unfold upgrade. evolve. Qed.
Lemma finally_quiet {A} (m : M reg A) f : evolves quiet m → evolves quiet (mfinally m (λ r, set_services (f r) r)).
Proof. intros Hm r x r'. unfold mfinally. destruct (m r) as [y r1] eqn:E. intros [= <- <-]. exact (Hm _ _ _ E). Qed.
Lemma preview_quiet name q b : evolves quiet (preview_setup nfc nfkc lower digit items hosts name q b).
Proof. unfold preview_setup. evolve; intros; apply finally_quiet; evolve. Qed.
#[local] Hint Resolve upgrade_quiet preview_quiet : registry.
Lemma connection_inputs_quiet name : evolves quiet (connection_inputs nfc nfkc lower digit dir items hosts name).
Proof. unfold connection_inputs, check_running. evolve. Qed.
#[local] Hint Resolve connection_inputs_quiet : registry.
Lemma connect_quiet name core role adapter : evolves quiet (connect nfc nfkc lower digit dir items hosts name core role adapter).
Proof. unfold connect. evolve. Qed.
#[local] Hint Resolve connect_quiet : registry.
Lemma config_plan_quiet name q b : evolves quiet (config_plan nfc nfkc lower digit items hosts name q b).
Proof. unfold config_plan. evolve. Qed.
#[local] Hint Resolve config_plan_quiet : registry.

(** ** Launches *)
Lemma as_dict_value v d : as_dict v = Ok d → v = VDict d.
Proof. destruct v; cbn; unfold raise; congruence. Qed.

Lemma inspect_Ok name r item r' : inspect name r = (Ok item, r') → r' = r ∧ dget (r_services r) name = Some (VDict item).
Proof.
  unfold Registry.inspect. rewrite M_get_bind. destruct (dget (r_services r) name) as [v|]; [|done]. unfold mlift. intros [= Hv <-]. by apply as_dict_value in Hv as ->.
Qed.

Lemma material_Ok name r m r' : _material name r = (Ok m, r') →
  ∃ item, dget (r_services r) name = Some (VDict item) ∧ material_of (hosts (r_look r)) name item = Ok m ∧ looked r r'.
Proof.
  intros H. pose proof (material_looked name _ _ _ H) as Hl. unfold Registry._material in H.
  apply M_bind_Ok in H as (item & r1 & [-> Hi]%inspect_Ok & H). apply M_bind_Ok in H as (h & r2 & [= <- <-] & H). exists item.
  unfold mlift in H. injection H as H _. by split.
Qed.

(** Reading a field that a series of assignments does not touch. *)
Lemma vget_set_all d l k : forallb (λ kv, negb (bool_decide (str kv.1 = str k))) l = true → vget (set_all d l) k = vget d k.
Proof.
  revert d. induction l as [|kv l IH]; intros d; [done|]. cbn [forallb]. intros [H1 H2]%andb_true_iff.
  change (set_all d (kv :: l)) with (set_all (vset d kv.1 kv.2) l). rewrite IH by done.
  unfold vget, vset. apply dget_dset_ne. bool_simpl. congruence.
Qed.
Lemma vget_set_all_none d l k : forallb (λ kv, negb (bool_decide (str kv.1 = str k))) l = true → vget_none (set_all d l) k = vget_none d k.
Proof. intros Hl. unfold vget_none. by rewrite vget_set_all. Qed.
Lemma field_set_ne d k k' v : str k' ≠ str k → vget_none (vset d k v) k' = vget_none d k'.
Proof. intros Hk. unfold vget_none, vget, vset. by rewrite dget_dset_ne. Qed.
Lemma field_set_eq d k v : vget_none (vset d k v) k = v.
Proof. unfold vget_none, vget, vset. by rewrite dget_dset_eq. Qed.
Lemma vget_update d e k : str k ∉ dkeys e → vget_none (dict_update d e) k = vget_none d k.
Proof.
  revert d. induction e as [|[k' v] e IH]; intros d Hk; [done|]. change (dkeys ((k', v) :: e)) with (k' :: dkeys e) in Hk. apply not_elem_of_cons in Hk as [Hk Hn].
  change (dict_update d ((k', v) :: e)) with (dict_update (dset d k' v) e). rewrite IH by done.
  unfold vget_none, vget. by rewrite dget_dset_ne.
Qed.

(** The files of the envelope are named by three keys. *)
Definition tls_fields : list pystr := (λ n, str n.1) <$> tls_names.
Lemma tls_material_keys read fields tls : envelope_tls_material read fields = Ok tls → ∀ k, k ∈ tls.*1 → k ∈ tls_fields.
Proof.
  unfold envelope_tls_material. cbv zeta. destruct (str_in _ _); intros H; inv_ok; subst; [by intros k ?%not_elem_of_nil|].
  intros k Hk. exact Hk.
Qed.

Lemma credited_shape h item context native core profile l : credited_material nfc h item context native core profile = Ok l →
  l = [] ∨ ∃ a, l = [("creditedAttachment"%string, attachment_dict a)].
Proof.
  unfold credited_material. intros (spec & _ & H)%bind_Ok_inv. destruct (vget_none spec "credited_config") as [| | | |[|c p]| |]; try (injection H as <-; by left).
  inv_ok. right. eauto.
Qed.
Lemma envelope_shape h item b profile selected x : envelope_material nfc nfkc lower digit h item b profile selected = Ok x →
  x = (None, []) ∨ ∃ fields tls digests c d, (∀ k, k ∈ tls.*1 → k ∈ tls_fields) ∧
    x = (Some fields, [("envelopeTlsMaterial", texts tls); ("envelopeTlsDigests", VDict digests); ("envelopeConfigDigest", c); ("envelopeBinaryDigest", d)]%string).
Proof.
  unfold envelope_material. destruct (eq_str _ _); [|intros [= <-]; by left]. intros (spec & _ & H)%bind_Ok_inv. destruct (vget_none spec "envelope_config") as [| | | |[|c p]| |]; try done.
  inv_ok. subst. right. repeat eexists. by eapply tls_material_keys.
Qed.
Lemma component_shape h item component x : component_material nfc h item component = Ok x →
  x.2 = [] ∨ ∃ c d, x.2 = [((component +:+ "ConfigDigest")%string, c); ((component +:+ "BinaryDigest")%string, d)].
Proof.
  unfold component_material. intros (spec & _ & H)%bind_Ok_inv. destruct (vget_none spec _) as [| | | |[|c p]| |]; try (injection H as <-; by left).
  apply bind_Ok_inv in H as (content & _ & H). apply bind_Ok_inv in H as (parsed & _ & H). apply bind_Ok_inv in H as (value & _ & H). cbv zeta in H. inv_ok. subst. right. eauto.
Qed.

Lemma mret_Ok {S A} (a b : A) (s s' : S) : (mret a : M S A) s = (Ok b, s') → a = b ∧ s = s'.
Proof. by intros [= -> ->]. Qed.
Lemma Ok_inj {A} (a b : A) : Ok a = Ok b → a = b.
Proof. congruence. Qed.

(** Reading a field of a document that is written in parts. *)
Definition no_field (k : string) (l : list (string * pyval)) : bool := forallb (λ kv, negb (bool_decide (str kv.1 = str k))) l.
Lemma skip_fields k l l' : no_field k l = true → vget_none (mkdict (l ++ l')) k = vget_none (mkdict l') k.
Proof.
  unfold vget_none, vget, mkdict. rewrite fmap_app, dget_app. induction l as [|[k' v] l IH]; [done|]. cbn. intros [Hk Hl]%andb_true_iff. bool_simpl.
  rewrite bool_decide_false by congruence. by apply IH.
Qed.

Lemma material_tls h name item m : material_of h name item = Ok m → ∀ k, k ∈ dkeys (sub_dict m "envelopeTlsMaterial") → k ∈ tls_fields.
Proof.
  unfold Registry.material_of. intros H k. cbv zeta in H.
  repeat match type of H with (_ ≫= _) = Ok _ => apply bind_Ok_inv in H as (? & ? & H) end. apply Ok_inj in H. subst m.
  repeat match goal with
  | K : credited_material _ _ _ _ _ _ _ = Ok _ |- _ => apply credited_shape in K
  | K : envelope_material _ _ _ _ _ _ _ _ _ = Ok _ |- _ => apply envelope_shape in K
  | K : component_material _ _ _ _ = Ok _ |- _ => apply component_shape in K
  end.
  unfold sub_dict. rewrite skip_fields by reflexivity.
  match goal with K : ?l = [] ∨ ∃ a, ?l = [("creditedAttachment"%string, _)] |- _ => rewrite (skip_fields _ l) by (destruct K as [->|(? & ->)]; reflexivity) end.
  rewrite skip_fields by reflexivity.
  match goal with K : ?x = (None, []) ∨ _ |- _ => destruct K as [->|(fields & tls & digests & c & d & Htls & ->)] end; cbn [snd fst].
  - cbn [app].
    repeat match goal with K : ?l = [] ∨ ∃ c d, ?l = [(_, c); (_, d)] |- _ => rewrite (skip_fields _ l) by (destruct K as [->|(? & ? & ->)]; reflexivity); clear K end.
    intros Hk. exfalso. by apply not_elem_of_nil in Hk.
  - intros Hk. apply Htls. assert (k ∈ dkeys ((λ kv : pystr * pystr, (kv.1, VStr kv.2)) <$> tls)) as Hk' by exact Hk.
    unfold dkeys in Hk'. by rewrite <- list_fmap_compose in Hk'.
Qed.

Lemma sub_dict_none d k v : vget_none d k = v → sub_dict d k = match v with VDict x => x | _ => [] end.
Proof. unfold sub_dict. by intros ->. Qed.

Lemma component_plan_fields h item c k :
  no_field k [((c +:+ "Config")%string, VNone); ((c +:+ "Binary")%string, VNone)] = true → no_field k (component_plan h item c) = true.
Proof. unfold component_plan. destruct (vget_none (sub_dict item "spec") _) as [| | | |[|x q]| |]; try done. Qed.

Lemma plan_of_fields h item b profile descriptor m binary plan : (∀ k, k ∈ dkeys (sub_dict m "envelopeTlsMaterial") → k ∈ tls_fields) →
  plan_of h item b profile descriptor m binary = Ok plan →
  vget_none plan "lockDigest" = lock_digest item ∧ vget_none plan "contextDigest" = vget_none m "contextDigest" ∧ vget_none plan "binary" = VStr binary ∧
  vget_none plan "ttl" = vget_or (sub_dict item "spec") "ttl" (VInt 3600) ∧
  ∃ plan', vget_none plan "launchDigests" = VDict (launch_digests b m (sub_dict item "deploymentLock") plan').
Proof.
  intros Htls. unfold plan_of. intros (locked & Hl%as_dict_value & H)%bind_Ok_inv. apply bind_Ok_inv in H as (spec & Hs%as_dict_value & H).
  apply bind_Ok_inv in H as (path & _ & H). apply bind_Ok_inv in H as (limits & _ & H). apply bind_Ok_inv in H as (components & _ & H).
  cbv zeta in H. set (base := mkdict _) in H. set (p1 := match vget_none m "creditedAttachment" with VDict a => _ | _ => _ end) in H.
  set (p2 := if eq_str _ _ then _ else _) in H. set (p3 := set_all p2 _) in H. set (p4 := set_all p3 _) in H. apply Ok_inj in H. subst plan.
  unfold lock_digest. rewrite (sub_dict_none _ _ _ Hl), (sub_dict_none _ _ _ Hs).
  assert (∀ k, str k ∉ tls_fields → no_field k [("creditedAttachment", VNone); ("creditedConfig", VNone); ("creditedKey", VNone); ("envelopeConfig", VNone); ("envelopeBinary", VNone);
      ("gateConfig", VNone); ("gateBinary", VNone); ("guardConfig", VNone); ("guardBinary", VNone); ("runtimeMaterials", VNone); ("componentMaterials", VNone);
      ("nativeMaterials", VNone); ("launchDigests", VNone)]%string = true → vget_none (vset p4 "launchDigests" (VDict (launch_digests b m locked p4))) k = vget_none base k) as Hbase.
  { intros k Hk Hn. unfold no_field in Hn. cbn [forallb fst] in Hn.
    repeat match type of Hn with (negb (bool_decide (?a = ?b)) && _) = true => let E := fresh "Hne" in apply andb_true_iff in Hn as [E Hn] end. clear Hn.
    rewrite field_set_ne by (bool_simpl; congruence).
    unfold p4. rewrite vget_set_all_none by (cbn [forallb fst]; by rewrite ?Hne, ?Hne0, ?Hne1, ?Hne2, ?Hne3, ?Hne4, ?Hne5, ?Hne6, ?Hne7, ?Hne8, ?Hne9, ?Hne10).
    unfold p3. rewrite vget_set_all_none.
    2:{ rewrite forallb_app. apply andb_true_iff. split; apply component_plan_fields; unfold no_field; cbn [forallb fst]; apply andb_true_iff; split; try done; apply andb_true_iff; by split. }
    assert (vget_none p1 k = vget_none base k) as <-.
    { unfold p1. destruct (vget_none m "creditedAttachment"); try done. rewrite vget_set_all_none; [done|]. cbn [forallb fst]. by rewrite Hne, Hne0, Hne1. }
    unfold p2. destruct (eq_str _ _); [|done]. rewrite vget_update; [|by intros ?%Htls]. rewrite vget_set_all_none; [done|]. cbn [forallb fst]. by rewrite Hne2, Hne3. }
  split; [|split; [|split; [|split]]].
  1-4: rewrite Hbase; [reflexivity|apply (bool_decide_unpack _); vm_compute; exact I|reflexivity].
  exists p4. apply field_set_eq.
Qed.

(** A launch plan is approved: it names the digest of a lock, and that is the
    digest of the material of the service as the host was when the plan was made. *)
Definition approved (x : pystr * pydict) : Prop := ∃ n item m b plan',
  material_of (hosts n) x.1 item = Ok m ∧ item_binding item = Ok b ∧ lock_digest item = VStr (dict_digest m) ∧
  vget_none x.2 "lockDigest" = VStr (dict_digest m) ∧ vget_none x.2 "contextDigest" = vget_none m "contextDigest" ∧
  vget_none x.2 "launchDigests" = VDict (launch_digests b m (sub_dict item "deploymentLock") plan').

(** What a launch plan is made of: the record as it is afterwards. *)
Lemma launch_plan_Ok name r plan r' : launch_plan name r = (Ok plan, r') → ∃ n item m b profile h descriptor binary,
  material_of (hosts n) name item = Ok m ∧ item_binding item = Ok b ∧ item_profile item = Ok profile ∧ lock_digest item = VStr (dict_digest m) ∧
  plan_of h item b profile descriptor m binary = Ok plan ∧ dget (r_services r') name = Some (VDict item).
Proof.
  unfold Registry.launch_plan. intros (item & r1 & H1 & H)%M_bind_Ok.
  assert (dget (r_services r1) name = Some (VDict item)) as Hitem.
  { unfold Registry.apply_service in H1. do 2 (apply M_bind_Ok in H1 as (? & ? & _ & H1)). unfold apply_locked in H1. do 11 (apply M_bind_Ok in H1 as (? & ? & _ & H1)). by apply inspect_Ok in H1 as [-> ?]. }
  apply M_bind_Ok in H as (b & r2 & Hb & H). pose proof (require_binding_looked name _ _ _ Hb) as (Es2 & _).
  unfold require_binding in Hb. apply M_bind_Ok in Hb as (i2 & ? & [-> Hi2]%inspect_Ok & Hb). unfold mlift in Hb. injection Hb as Hb _.
  apply M_bind_Ok in H as (m & r3 & Hm & H). apply material_Ok in Hm as (i3 & Hi3 & Hm & (Es3 & _)).
  apply M_lift_inv in H as [(u & Hd%raise_if_Ok & H)|(_ & e & _ & ?)]; [|done].
  apply M_lift_inv in H as [(descriptor & _ & H)|(_ & e & _ & ?)]; [|done]. apply M_bind_Ok in H as (h & r4 & [= <- <-] & H).
  apply M_lift_inv in H as [(binary & _ & H)|(_ & e & _ & ?)]; [|done]. apply M_bind_Ok in H as (profile & r5 & Hp & H). pose proof (require_profile_looked name _ _ _ Hp) as (Es5 & _).
  unfold require_profile_binding in Hp. apply M_bind_Ok in Hp as (i5 & ? & [-> Hi5]%inspect_Ok & Hp). unfold mlift in Hp. injection Hp as Hp _.
  apply M_lift_inv in H as [(plan0 & Hplan & H)|(_ & e & _ & ?)]; [|done]. apply M_bind_Ok in H as (? & r6 & Hw & [= <- <-]).
  assert (r_services r6 = r_services r5) as Es6.
  { unfold atomic_write in Hw. apply M_lift_inv in Hw as [(? & _ & Hw)|(_ & e & _ & ?)]; [|done]. apply M_bind_Ok in Hw as (h' & r7 & [= <- <-] & Hw).
    destruct (h_write _); [by injection Hw as _ <-|done|]. by apply M_bind_Ok in Hw as (? & ? & [= _ <-] & ?). }
  cbn [r_services] in *. assert (i2 = item) as -> by congruence. assert (i3 = item) as -> by congruence. assert (i5 = item) as -> by congruence.
  bool_simpl. apply py_eqb_text_l in Hd. repeat eexists; try done. congruence.
Qed.

Lemma launch_plan_approved name r plan r' : launch_plan name r = (Ok plan, r') → approved (name, plan).
Proof.
  intros (n & item & m & b & profile & h & descriptor & binary & Hm & Hb & _ & Hd & Hp & _)%launch_plan_Ok.
  destruct (plan_of_fields _ _ _ _ _ _ _ _ (material_tls _ _ _ _ Hm) Hp) as (E1 & E2 & _ & _ & plan' & E3).
  exists n, item, m, b, plan'. cbn [fst snd]. split_and!; congruence.
Qed.

(** Whatever is started has been approved. *)
Definition approves (r r' : reg) : Prop := ∃ new, r_launched r' = r_launched r ++ new ∧ Forall approved new.
#[local] Instance approves_preorder : PreOrder approves.
Proof.
  split; [intros r; exists []; by rewrite app_nil_r|]. intros r1 r2 r3 (n1 & E1 & H1) (n2 & E2 & H2). exists (n1 ++ n2).
  rewrite E2, E1, app_assoc. split; [done|]. by apply Forall_app.
Qed.
Lemma quiet_approves r r' : quiet r r' → approves r r'.
Proof. intros [E _]. exists []. by rewrite app_nil_r. Qed.
Lemma approves_of_quiet {A} (m : M reg A) : evolves quiet m → evolves approves m.
Proof. apply evolves_weaken, quiet_approves. Qed.
#[local] Hint Extern 4 (evolves approves _) => apply approves_of_quiet; solve [eauto 3 with registry] : registry.

Lemma start_approves name plan : approved (name, plan) → evolves approves (runtime_start hosts name plan).
Proof.
  intros Ha. unfold runtime_start. evolve. apply evolves_mod. intros r. exists [(name, plan)]. cbn. by split; [|constructor].
Qed.

Lemma launch_approves name : evolves approves (launch name).
Proof.
  unfold Registry.launch. do 7 (apply evolves_bind; [apply approves_preorder|solve [evolve]|intros ?]).
  apply (evolves_bind_post approves (λ plan, approved (name, plan))); [evolve|by intros; eapply launch_plan_approved|]. intros plan Hp.
  apply evolves_bind; [typeclasses eauto|by apply start_approves|]. evolve.
Qed.

(** ** Records that keep their process and their lock *)
Definition process_in (item : pydict) : option process := match vget item "runtime" with Some (VDict rt) => process_of rt | _ => None end.
Definition ttl_in (item : pydict) : pyval := vget_or (sub_dict item "spec") "ttl" (VInt 3600).
Definition same_process (item item' : pydict) : Prop := process_in item' = process_in item ∧ ttl_in item' = ttl_in item.
Definition same_lock (item item' : pydict) : Prop := same_process item item' ∧ lock_digest item' = lock_digest item.

Definition items_rel (K : pydict → pydict → Prop) (r r' : reg) : Prop :=
  ∀ n item, dget (r_services r) n = Some (VDict item) → ∃ item', dget (r_services r') n = Some (VDict item') ∧ K item item'.
#[local] Instance same_process_preorder : PreOrder same_process.
Proof. split; [by intros ?|]. intros a b c [] []. split; congruence. Qed.
#[local] Instance same_lock_preorder : PreOrder same_lock.
Proof. split; [by intros ?|]. intros a b c [? ?] [? ?]. split; [by transitivity b|congruence]. Qed.
#[local] Instance items_rel_preorder K `{!PreOrder K} : PreOrder (items_rel K).
Proof.
  split; [by intros r n item Hn; exists item|]. intros r1 r2 r3 H1 H2 n item Hn. destruct (H1 _ _ Hn) as (i2 & Hi2 & K2). destruct (H2 _ _ Hi2) as (i3 & Hi3 & K3).
  exists i3. split; [done|by transitivity i2].
Qed.

Lemma state_same_lock item v : same_lock item (vset item "state" v).
Proof.
  split; [split|].
  - unfold process_in, vget, vset. by rewrite dget_dset_ne.
  - unfold ttl_in, sub_dict. by rewrite field_set_ne.
  - unfold lock_digest, sub_dict. by rewrite field_set_ne.
Qed.
Lemma set_runtime_same_lock item kvs : no_field "pid" kvs = true → no_field "processIdentity" kvs = true → same_lock item (set_runtime kvs item).
Proof.
  intros Hp Hi. unfold set_runtime. destruct (vget_none item "runtime") as [| | | | | |rt] eqn:E; try done. split; [split|].
  - unfold process_in, vget, vset. rewrite dget_dset_eq. unfold vget_none, vget in E. destruct (dget item (str "runtime")) as [v|]; [|done]. cbn in E. subst v.
    unfold process_of. by rewrite !vget_set_all_none.
  - unfold ttl_in, sub_dict. by rewrite field_set_ne.
  - unfold lock_digest, sub_dict. by rewrite field_set_ne.
Qed.
Lemma settle_same_lock item kvs v : no_field "pid" kvs = true → no_field "processIdentity" kvs = true → same_lock item (vset (set_runtime kvs item) "state" v).
Proof. intros. transitivity (set_runtime kvs item); [by apply set_runtime_same_lock|apply state_same_lock]. Qed.
Lemma lock_same_process item v w : same_process item (set_all item [("deploymentLock", v); ("state", w)]%string).
Proof.
  split.
  - unfold process_in. by rewrite vget_set_all by reflexivity.
  - unfold ttl_in, sub_dict. by rewrite vget_set_all_none by reflexivity.
Qed.

Lemma update_item_rel (K : pydict → pydict → Prop) `{!PreOrder K} name f : (∀ item, K item (f item)) → evolves (items_rel K) (update_item name f).
Proof.
  intros Hf r x r'. unfold update_item. intros [(item & r1 & [-> Hi]%inspect_Ok & [= <- <-])|(e & H & _)]%M_bind_inv.
  - intros n i Hn. cbn [set_services r_services]. destruct (decide (n = name)) as [->|Hne].
    + rewrite dget_dset_eq. assert (i = item) as -> by congruence. by exists (f item).
    + rewrite dget_dset_ne by done. by exists i.
  - destruct (inspect_looked _ _ _ _ H) as (E & _). intros n i Hn. rewrite E. by exists i.
Qed.
Lemma looked_items K `{!PreOrder K} r r' : looked r r' → items_rel K r r'.
Proof. intros (E & _) n i Hn. rewrite E. by exists i. Qed.
Lemma save_items K `{!PreOrder K} : evolves (items_rel K) _save.
Proof.
  unfold Registry._save, atomic_write. evolve; try (eapply evolves_weaken; [by apply looked_items|solve [eauto with registry]]);
    intros; apply evolves_mod; intros r n i Hn; by exists i.
Qed.

Notation tends := (items_rel same_lock).
Lemma tends_of_looked {A} (m : M reg A) : evolves looked m → evolves tends m.
Proof. apply evolves_weaken. intros r r'. apply looked_items, _. Qed.
#[local] Hint Extern 3 (evolves tends _) => apply tends_of_looked; solve [eauto 2 with registry] : registry.
#[local] Hint Extern 2 (evolves tends _save) => apply save_items; apply _ : registry.
Lemma set_state_tends name st : evolves tends (set_state name st).
Proof. apply update_item_rel; [apply _|]. intros. apply state_same_lock. Qed.
Lemma settle_tends name kvs v : no_field "pid" kvs = true → no_field "processIdentity" kvs = true →
  evolves tends (update_item name (λ item, vset (set_runtime kvs item) "state" v)).
Proof. intros. apply update_item_rel; [apply _|]. intros. by apply settle_same_lock. Qed.
#[local] Hint Resolve set_state_tends : registry.
#[local] Hint Extern 2 (evolves tends (update_item _ _)) => apply settle_tends; reflexivity : registry.
Lemma apply_locked_tends name : evolves tends (apply_locked nfc nfkc lower digit items hosts name).
Proof. unfold apply_locked. evolve. Qed.
Lemma settle_runtime_tends name : evolves tends (settle_runtime nfc dir hosts name).
Proof. unfold settle_runtime. evolve. Qed.
Lemma running_state_tends name res p : evolves tends (running_state nfc nfkc lower digit items hosts name res p).
Proof. unfold running_state. evolve. Qed.
#[local] Hint Resolve apply_locked_tends settle_runtime_tends running_state_tends : registry.
Lemma status_tends name : evolves tends (status name).
Proof. unfold Registry.status. evolve. Qed.
#[local] Hint Resolve status_tends : registry.
Lemma wait_healthy_tends n name : evolves tends (wait_healthy nfc nfkc lower digit dir items hosts n name).
Proof. induction n; cbn [wait_healthy]; evolve. Qed.
#[local] Hint Resolve wait_healthy_tends : registry.

(** ** The lock of a service through its launch *)
Definition has_lock (name : pystr) (d : pystr) (r : reg) : Prop := ∃ item, dget (r_services r) name = Some (VDict item) ∧ lock_digest item = VStr d.
Lemma has_lock_tends name d r r' : tends r r' → has_lock name d r → has_lock name d r'.
Proof. intros Ht (item & Hi & Hd). destruct (Ht _ _ Hi) as (item' & Hi' & _ & Hd'). exists item'. split; [done|congruence]. Qed.
Lemma lock_digest_truthy item d : lock_digest item = VStr d → truthy (vget_none item "deploymentLock") = true.
Proof. unfold lock_digest, sub_dict. by destruct (vget_none item "deploymentLock") as [| | | | | |[|]]. Qed.

Lemma apply_tends name d r x r' : has_lock name d r → apply_service name r = (x, r') → tends r r'.
Proof.
  intros (item & Hi & Hd). unfold Registry.apply_service. intros [(i & r1 & [-> Hi']%inspect_Ok & H)|(e & H & _)]%M_bind_inv; [|by eapply tends_of_looked; [apply inspect_looked|]].
  assert (i = item) as -> by congruence. rewrite (lock_digest_truthy _ _ Hd) in H. apply M_bind_inv in H as [(u & r1 & [= _ <-] & H)|(e & [=] & _)]. by eapply apply_locked_tends.
Qed.

(** The same for what begins by applying: [m] goes on after it. *)
Lemma apply_then_tends {A} name d (k : pydict → M reg A) r x r' : has_lock name d r → (∀ a, evolves tends (k a)) → (apply_service name ≫= k) r = (x, r') → tends r r'.
Proof.
  intros Hl Hk [(i & r1 & H1 & H2)|(e & H1 & _)]%M_bind_inv; [|by eapply apply_tends]. transitivity r1; [by eapply apply_tends|by eapply Hk].
Qed.
Lemma launch_plan_tends name d r x r' : has_lock name d r → launch_plan name r = (x, r') → tends r r'.
Proof.
  intros Hl. apply (apply_then_tends name d); [done|]. evolve. unfold atomic_write. evolve; apply evolves_mod; intros r0 n i Hn; by exists i.
Qed.

(** What is started from a state with a lock is the locked material. *)
Definition starts_only (name d : pystr) (r r' : reg) : Prop :=
  ∃ new, r_launched r' = r_launched r ++ new ∧ Forall (λ x, x.1 = name ∧ vget_none x.2 "lockDigest" = VStr d) new.
#[local] Instance starts_only_preorder name d : PreOrder (starts_only name d).
Proof.
  split; [intros r; exists []; by rewrite app_nil_r|]. intros r1 r2 r3 (n1 & E1 & H1) (n2 & E2 & H2). exists (n1 ++ n2).
  rewrite E2, E1, app_assoc. split; [done|]. by apply Forall_app.
Qed.
Lemma quiet_starts name d r r' : quiet r r' → starts_only name d r r'.
Proof. intros [E _]. exists []. by rewrite app_nil_r. Qed.
Lemma starts_of_quiet {A} name d (m : M reg A) : evolves quiet m → evolves (starts_only name d) m.
Proof. apply evolves_weaken, quiet_starts. Qed.
#[local] Hint Extern 4 (evolves (starts_only _ _) _) => apply starts_of_quiet; solve [eauto 3 with registry] : registry.

Lemma start_starts name d plan : vget_none plan "lockDigest" = VStr d → evolves (starts_only name d) (runtime_start hosts name plan).
Proof. intros Ha. unfold runtime_start. evolve. apply evolves_mod. intros r. exists [(name, plan)]. cbn. by split; [|constructor]. Qed.

(** A first step that only looks. *)
Lemma bind_looked {A B} (m : M reg A) (k : A → M reg B) r x r' : evolves looked m → (m ≫= k) r = (x, r') →
  looked r r' ∨ ∃ a r1, m r = (Ok a, r1) ∧ looked r r1 ∧ k a r1 = (x, r').
Proof. intros Hm [(a & r1 & H1 & H2)|(e & H1 & _)]%M_bind_inv; [right; exists a, r1; split; [done|split; [by eapply Hm|done]]|left; by eapply Hm]. Qed.
Ltac looking H := eapply bind_looked in H; [destruct H as [H|(? & ? & _ & ? & H)]|solve [evolve]].

(** [launch], from its plan on. *)
Definition launch_from (name : pystr) (binding : pydict) : M reg pydict :=
  plan ← launch_plan name;
  process ← runtime_start hosts name plan;
  profile ← require_profile_binding name;
  h ← ask;
  item ← inspect name;
  ttl ← mlift (match vget_none plan "ttl" with VInt t => Ok t | _ => raise TypeError "unsupported operand" end);
  let runtime := set_all process
    [("state", txt "running"); ("core", vget_none binding "core"); ("profileBinding", VDict profile); ("lockDigest", lock_digest item); ("endpoint", VNone);
     ("privacy", vget_none item "privacy"); ("startedAt", VInt (h_now h)); ("expiresAt", VInt (h_now h + ttl))]%string in
  _ ← update_item name (λ item, set_all item [("runtime", VDict runtime); ("state", txt "running")]%string);
  _ ← mtry _save (λ e, _ ← runtime_stop hosts runtime; mlift (Raise e));
  status name.
Lemma launch_split name r x r' : launch name r = (x, r') → looked r r' ∨ ∃ binding r1, looked r r1 ∧ launch_from name binding r1 = (x, r').
Proof.
  unfold Registry.launch. intros H. looking H; [by left|]. eapply bind_looked in H; [destruct H as [H|(binding & ? & _ & ? & H)]; [left; by etrans|]|solve [evolve]].
  do 5 (looking H; [left; repeat (etrans; [done|]); done|]). right. exists binding. eexists. split; [|exact H]. repeat (etrans; [eassumption|]). reflexivity.
Qed.

Lemma has_lock_looked name d r r' : looked r r' → has_lock name d r → has_lock name d r'.
Proof. intros (E & _). unfold has_lock. by rewrite E. Qed.
Lemma looked_starts name d r r' : looked r r' → starts_only name d r r'.
Proof. intros H. by apply quiet_starts, looked_quiet. Qed.

Lemma launch_starts name d r x r' : has_lock name d r → launch name r = (x, r') → starts_only name d r r'.
Proof.
  intros Hl [H|(binding & r1 & H1 & H)]%launch_split; [by apply looked_starts|]. transitivity r1; [by apply looked_starts|]. apply (has_lock_looked _ _ _ _ H1) in Hl.
  unfold launch_from in H. apply M_bind_inv in H as [(plan & r2 & H2 & H)|(e & H2 & _)]; [|apply quiet_starts; by eapply launch_plan_quiet].
  transitivity r2; [apply quiet_starts; by eapply launch_plan_quiet|].
  pose proof (has_lock_tends _ _ _ _ (launch_plan_tends _ _ _ _ _ Hl H2) Hl) as (i2 & Hi2 & Hd2).
  apply launch_plan_Ok in H2 as (n & item & m & b & profile & h & descriptor & binary & Hm & _ & _ & _ & Hp & Hi).
  destruct (plan_of_fields _ _ _ _ _ _ _ _ (material_tls _ _ _ _ Hm) Hp) as (E1 & _). assert (i2 = item) as -> by congruence.
  apply M_bind_inv in H as [(process & r3 & H3 & H)|(e & H3 & _)]; [transitivity r3|]; try (eapply start_starts, H3; congruence).
  eapply starts_of_quiet, H. evolve.
Qed.

Lemma run_starts name d r x r' : has_lock name d r → run name r = (x, r') → starts_only name d r r'.
Proof.
  intros Hl H. unfold Registry.run in H. do 2 (looking H; [by apply looked_starts; repeat (etrans; [done|])|]).
  match type of H with _ ?r1 = _ => assert (has_lock name d r1) as Hl1 by (repeat (eapply has_lock_looked; [eassumption|]); done); transitivity r1;
    [apply looked_starts; by repeat (etrans; [eassumption|])|] end.
  apply M_bind_inv in H as [(item & r2 & H2 & H)|(e & H2 & _)]; [|apply quiet_starts; by eapply apply_quiet].
  pose proof (has_lock_tends _ _ _ _ (apply_tends _ _ _ _ _ Hl1 H2) Hl1) as Hl2. transitivity r2; [apply quiet_starts; by eapply apply_quiet|].
  do 6 (looking H; [by apply looked_starts; repeat (etrans; [eassumption|])|]).
  match type of H with _ ?r1 = _ => assert (has_lock name d r1) as Hl3 by (repeat (eapply has_lock_looked; [eassumption|]); done); transitivity r1;
    [apply looked_starts; by repeat (etrans; [eassumption|])|] end.
  apply M_bind_inv in H as [(healthy & r4 & Hw & H)|(e & Hw & _)].
  - match type of Hw with ?m _ = _ => assert (evolves tends m) as Ht by evolve; assert (evolves quiet m) as Hq by evolve end.
    transitivity r4; [apply quiet_starts; by eapply Hq|]. destruct healthy; [injection H as _ <-; reflexivity|]. eapply launch_starts, H. eapply has_lock_tends; [by eapply Ht|done].
  - match type of Hw with ?m _ = _ => assert (evolves quiet m) as Hq by evolve end. apply quiet_starts. by eapply Hq.
Qed.

(** ** Every operation *)
Lemma load_quiet : evolves quiet (_load nfc nfkc lower items hosts).
Proof. unfold _load. evolve. Qed.
#[local] Hint Resolve load_quiet : registry.
Lemma status_each_quiet names : evolves quiet (status_each nfc nfkc lower digit dir items hosts names).
Proof. induction names; cbn [status_each]; evolve. Qed.
#[local] Hint Resolve status_each_quiet : registry.
#[local] Hint Resolve launch_approves : registry.
Lemma run_approves name : evolves approves (run name).
Proof. unfold Registry.run. evolve. Qed.
#[local] Hint Resolve run_approves : registry.
Lemma restart_approves name : evolves approves (restart nfc nfkc lower digit dir items hosts name).
Proof. unfold restart. evolve. Qed.
#[local] Hint Resolve restart_approves : registry.
Lemma setup_approves name q start e : evolves approves (setup nfc nfkc lower digit dir items hosts name q start e).
Proof. unfold setup. evolve. Qed.
#[local] Hint Resolve setup_approves : registry.

Lemma body_approves o : evolves approves (body o).
Proof.
  destruct o; cbn [Registry.body]; unfold done, init, compliance_snapshot, credited_attachment, webrtc_signal_endpoint, control_action, disconnect, ziokt_stop, ziokt_run, list_services, connect_execute, connection_review, config_apply, restart; evolve.
Qed.
Lemma perform_approves o : evolves approves (perform o).
Proof. unfold Registry.perform, transaction. pose proof (body_approves o). evolve. Qed.
Lemma history_approves l r : approves r (history l r).
Proof.
  revert r. induction l as [|o l IH]; intros r; [reflexivity|]. cbn [Registry.history]. transitivity (perform o r).2; [|apply IH].
  destruct (perform o r) as [x r'] eqn:E. by eapply perform_approves.
Qed.

(** ** Reviewed material *)
Lemma has_lock_items name d r r' : items_rel same_lock r r' → has_lock name d r → has_lock name d r'.
Proof. apply has_lock_tends. Qed.

Lemma lock_reviewed name d r locked r' : lock name (Some d) r = (Ok locked, r') → has_lock name d r'.
Proof.
  unfold Registry.lock. intros H. do 3 (apply M_bind_Ok in H as (? & ? & _ & H)). apply M_bind_Ok in H as (material & r1 & _ & H).
  apply M_lift_inv in H as [(u & Hd%raise_if_Ok & H)|(_ & e & _ & ?)]; [|done]. do 7 (apply M_bind_Ok in H as (? & ? & _ & H)). cbv zeta in H.
  apply M_bind_Ok in H as (? & r2 & Hu & H). apply M_bind_Ok in H as (? & r3 & Hs & [= _ <-]).
  eapply has_lock_tends; [eapply (save_items same_lock), Hs|]. unfold update_item in Hu. apply M_bind_Ok in Hu as (item & r4 & [-> Hi]%inspect_Ok & [= _ <-]).
  eexists. split; [apply dget_dset_eq|]. bool_simpl. subst d.
  unfold lock_digest, sub_dict. rewrite field_set_ne by done. by rewrite field_set_eq.
Qed.

Lemma upgrade_reviewed name q d r x r' : upgrade nfc nfkc lower digit items hosts name q (Some d) r = (Ok x, r') → has_lock name d r'.
Proof.
  unfold upgrade. intros H. do 5 (apply M_bind_Ok in H as (? & ? & _ & H)). unfold mtry in H.
  match type of H with match ?m with _ => _ end = _ => destruct m as [[y|e] r1] eqn:E end.
  - injection H as _ <-. apply M_bind_Ok in E as (? & r2 & _ & E). apply M_bind_Ok in E as (locked & r3 & Hl%lock_reviewed & E).
    eapply has_lock_tends; [by eapply apply_tends|done].
  - do 2 (apply M_bind_Ok in H as (? & ? & _ & H)). done.
Qed.

(** A first step that starts nothing. *)
Lemma bind_quiet_starts {A B} name d (m : M reg A) (k : A → M reg B) r x r' : evolves quiet m → (m ≫= k) r = (x, r') →
  (∀ a r1, m r = (Ok a, r1) → k a r1 = (x, r') → starts_only name d r1 r') → starts_only name d r r'.
Proof.
  intros Hm H Hk. apply M_bind_inv in H as [(a & r1 & H1 & H)|(e & H1 & _)]; [|by eapply quiet_starts, Hm].
  transitivity r1; [by eapply quiet_starts, Hm|by eapply Hk].
Qed.
Lemma try_quiet_starts {A} name d (m : M reg A) handler r x r' : (∀ e, evolves quiet (handler e)) → mtry m handler r = (x, r') →
  (∀ y r1, m r = (y, r1) → starts_only name d r r1) → starts_only name d r r'.
Proof.
  intros Hh H Hm. unfold mtry in H. destruct (m r) as [[y|e] r1] eqn:E; [injection H as _ <-; by eapply Hm|].
  transitivity r1; [by eapply Hm|by eapply quiet_starts, Hh].
Qed.
Ltac without_start H := eapply bind_quiet_starts; [|exact H|]; [solve [evolve]|]; clear H.

Lemma setup_starts name q start d r x r' : setup nfc nfkc lower digit dir items hosts name q start (Some d) r = (x, r') → starts_only name d r r'.
Proof.
  unfold setup. intros H. without_start H. intros item r1 _ H. without_start H. intros existing r2 _ H. without_start H. intros u r3 _ H. clear r1 r2. cbv zeta in H.
  eapply try_quiet_starts; [|exact H|]; [solve [evolve]|]. clear H. intros y r1 H. without_start H. intros u1 r2 _ H. without_start H. intros a r4 _ H. clear r2.
  without_start H. intros current r2 [-> Hi]%inspect_Ok H. without_start H. intros u2 r5 Hd H. unfold mraise_if, mlift in Hd. injection Hd as Hd <-.
  apply raise_if_Ok in Hd. bool_simpl. apply py_eqb_text in Hd.
  destruct start; [|by eapply quiet_starts, status_quiet]. eapply run_starts, H. by exists current.
Qed.

Lemma config_apply_starts name confirmed p d l start q locked r x r' :
  config_apply nfc nfkc lower digit dir items hosts name confirmed p d l start q locked r = (x, r') → starts_only name d r r'.
Proof.
  unfold config_apply. intros H. do 8 (without_start H; intros ? ? _ H). cbv beta in H. match type of H with (if ?b then _ else _) _ = _ => destruct b end; [|by eapply setup_starts].
  without_start H. intros y ru Hl%upgrade_reviewed H. destruct start; [by eapply run_starts|by eapply quiet_starts, status_quiet].
Qed.

(** ** Rolling back *)
Lemma write_file data limit r x r' : atomic_write hosts data limit set_file r = (x, r') →
  r_services r' = r_services r ∧ (x = Ok tt → r_file r' = Some data).
Proof.
  unfold atomic_write. intros [(u & _ & H)|(-> & e & _ & ->)]%M_lift_inv; [|done].
  apply M_bind_inv in H as [(h & r1 & [= <- <-] & H)|(e & [=] & _)]. destruct (h_write _).
  - injection H as <- <-. done.
  - injection H as <- <-. done.
  - apply M_bind_inv in H as [(? & r2 & [= _ <-] & [= <- <-])|(e' & [=] & _)]. done.
Qed.
Lemma read_registry_Ok limit r file r' : read_registry hosts limit r = (Ok file, r') → r_file r = Some file.
Proof.
  unfold read_registry. intros H. apply M_bind_Ok in H as (h & r1 & [= <- <-] & H). apply M_lift_inv in H as [(u & _ & H)|(_ & e & _ & ?)]; [|done].
  rewrite M_get_bind in H. cbn [r_file] in H. destruct (r_file r) as [b|]; [|done].
  apply M_lift_inv in H as [(u' & _ & [= <- _])|(_ & e & _ & ?)]; [|done]. done.
Qed.

Definition rollback_failed : exn := Exn ValueError "UpgradeRollbackFailed".
Definition kept (r r' : reg) : Prop := r_services r' = r_services r ∧ r_file r' = r_file r.
#[local] Instance kept_preorder : PreOrder kept.
Proof. split; [done|]. intros r1 r2 r3 [] []. split; congruence. Qed.
Lemma looked_kept r r' : looked r r' → kept r r'.
Proof. by intros (? & ? & _). Qed.
#[local] Hint Resolve looked_kept : registry.

Lemma upgrade_rolls_back name q d r e r' : upgrade nfc nfkc lower digit items hosts name q d r = (Raise e, r') → e = rollback_failed ∨ kept r r'.
Proof.
  unfold upgrade. intros H. looking H; [right; by apply looked_kept|]. looking H; [right; apply looked_kept; by etrans|]. looking H; [right; apply looked_kept; etrans; [eassumption|by etrans]|].
  match type of H with _ ?t = _ => assert (kept r t) as Hk by (apply looked_kept; etrans; [eassumption|by etrans]); revert H Hk; generalize t; clear; intros r0 H Hk end.
  rewrite M_get_bind in H. eapply bind_looked in H; [destruct H as [H|(file & r1 & Hf & Hr1 & H)]|solve [evolve]]; [right; transitivity r0; [done|by apply looked_kept]|].
  apply read_registry_Ok in Hf. unfold mtry at 1 in H. match type of H with match ?m with _ => _ end = _ => destruct m as [[y|e0] r2] end; [done|].
  apply M_bind_inv in H as [(u & r3 & [= <- <-] & H)|(e1 & [=] & _)]. apply M_bind_inv in H as [(u & r4 & H4 & [= <- <-])|(e1 & H4 & [= <-])].
  - right. transitivity r0; [done|]. unfold mtry in H4. destruct (atomic_write _ _ _ _ _) as [[[]|e2] r5] eqn:E; [|done]. injection H4 as <- <-.
    apply write_file in E as (E1 & E2). destruct Hr1 as (_ & Hf1 & _). split; [done|]. rewrite E2 by done. done.
  - left. unfold mtry in H4. destruct (atomic_write _ _ _ _ _) as [[[]|e2] r5]; [done|]. by injection H4 as <- _.
Qed.

(** ** Running services *)
Lemma alive_true rt r r' : alive hosts rt r = (Ok true, r') →
  looked r r' ∧ (r_look r < r_look r')%nat ∧ ∃ p, process_of rt = Some p ∧ p ∈ r_live r ∧ h_died (hosts (r_look r)) p = false.
Proof.
  intros H. split; [by eapply alive_looked|]. unfold alive in H. apply M_bind_Ok in H as (h & r1 & [= <- <-] & H). rewrite M_get_bind in H. cbn [r_live] in H.
  injection H as H <-. split; [cbn; lia|]. destruct (process_of rt) as [p|]; [|done]. exists p. apply andb_true_iff in H as [H1 H2]. bool_simpl. done.
Qed.

Lemma terminal_not_running h name item rt t : terminal_state nfc dir h name item rt = Ok t → t ≠ "running"%string.
Proof.
  unfold terminal_state. cbv zeta. destruct (_ ≫= _) as [v|e]; [intros H%Ok_inj; subst t; by destruct (_ || _)|].
  destruct (existsb _ _); [|done]. intros H%Ok_inj. subst t. by destruct (match _ with VInt _ => _ | _ => _ end).
Qed.
Lemma save_services r x r' : _save r = (x, r') → r_services r' = r_services r.
Proof. unfold Registry._save. rewrite M_get_bind. by intros [? _]%write_file. Qed.
Lemma txt_inj a b : str a ≠ str b → txt a ≠ txt b.
Proof. unfold txt. congruence. Qed.

(** After settling, a runtime that is recorded as running was found alive. *)
Lemma settle_running name r u r' item rt : settle_runtime nfc dir hosts name r = (Ok u, r') → dget (r_services r') name = Some (VDict item) → vget item "runtime" = Some (VDict rt) →
  vget_none rt "state" = txt "running" →
  looked r r' ∧ ∃ p n, process_of rt = Some p ∧ p ∈ r_live r ∧ h_died (hosts n) p = false ∧ (r_look r ≤ n < r_look r')%nat.
Proof.
  unfold settle_runtime. intros H Hi Hrt Hs. apply M_bind_Ok in H as (item0 & r1 & [-> Hi0]%inspect_Ok & H).
  apply M_lift_inv in H as [(rt0 & Hrt0 & H)|(_ & e & _ & ?)]; [|done]. destruct (eq_str (vget_none rt0 "state") "running") eqn:Es.
  - apply M_bind_Ok in H as (running & r2 & Ha & H). destruct running.
    + apply alive_true in Ha as (Hl & Hlook & p & Hp & Hlive & Hd). injection H as _ <-. split; [done|]. pose proof Hl as (E & _ & _ & _ & _). rewrite E, Hi0 in Hi. injection Hi as <-.
      unfold runtime_of in Hrt0. rewrite Hrt in Hrt0. apply Ok_inj in Hrt0. subst rt0. exists p, (r_look r). done.
    + exfalso. pose proof (alive_looked _ _ _ _ Ha) as (E & _). apply M_bind_Ok in H as (h & r3 & [= <- <-] & H).
      apply M_lift_inv in H as [(terminal & Ht%terminal_not_running & H)|(_ & e & _ & ?)]; [|done].
      apply M_bind_Ok in H as (u1 & r4 & Hu & H%save_services). unfold update_item in Hu. apply M_bind_Ok in Hu as (i2 & r5 & [-> Hi2]%inspect_Ok & [= _ <-]).
      rewrite H in Hi. cbn [set_services r_services] in Hi. rewrite dget_dset_eq in Hi. injection Hi as Hi. subst item.
      unfold vget, vset in Hrt. rewrite dget_dset_ne in Hrt by done. unfold set_runtime in Hrt. unfold vget_none in Hrt at 1. unfold vget at 1 in Hrt.
      destruct (dget i2 (str "runtime")) as [v|] eqn:E2; cbn in Hrt; [|congruence]. destruct v as [| | | | | |rt1]; try congruence.
      unfold vset at 1 in Hrt. rewrite dget_dset_eq in Hrt. injection Hrt as <-. cbn [set_all foldl fst snd] in Hs. rewrite field_set_eq in Hs. unfold txt in Hs. injection Hs as Hs.
      by apply (inj str) in Hs.
  - injection H as _ <-. rewrite Hi0 in Hi. injection Hi as <-. unfold runtime_of in Hrt0. rewrite Hrt in Hrt0. apply Ok_inj in Hrt0. subst rt0.
    rewrite Hs in Es. done.
Qed.

Lemma set_runtime_other item kvs k : str k ≠ str "runtime" → vget_none (set_runtime kvs item) k = vget_none item k.
Proof. intros Hk. unfold set_runtime. destruct (vget_none item "runtime"); try done. by rewrite field_set_ne. Qed.
Lemma set_runtime_state item kvs rt : no_field "state" kvs = true → no_field "pid" kvs = true → no_field "processIdentity" kvs = true →
  vget_none (set_runtime kvs item) "runtime" = VDict rt →
  ∃ rt0, vget item "runtime" = Some (VDict rt0) ∧ vget_none rt "state" = vget_none rt0 "state" ∧ process_of rt = process_of rt0.
Proof.
  intros Hs Hp Hi. unfold set_runtime. destruct (vget_none item "runtime") as [| | | | | |rt0] eqn:E; try (intros; congruence). rewrite field_set_eq. intros [= <-]. exists rt0.
  unfold vget_none in E. destruct (vget item "runtime") as [v|]; [|done]. cbn in E. subst v. split; [done|]. unfold process_of. by rewrite !vget_set_all_none.
Qed.

(** The copy that shows an observation has the lock and the process of the record. *)
Lemma observed_fields h item result rt : observed_item h item = Ok result → vget_none result "runtime" = VDict rt →
  lock_digest result = lock_digest item ∧ ∃ rt0, vget item "runtime" = Some (VDict rt0) ∧ vget_none rt "state" = vget_none rt0 "state" ∧ process_of rt = process_of rt0.
Proof.
  unfold observed_item, lock_digest, sub_dict. destruct (h_observe h item) as [[[[endpoint readiness] [o|]]|]|e].
  - intros <-%Ok_inj. rewrite !field_set_ne by done. intros H%set_runtime_state; [|done..]. by rewrite set_runtime_other.
  - intros <-%Ok_inj H%set_runtime_state; [|done..]. by rewrite set_runtime_other.
  - intros <-%Ok_inj H. split; [done|]. exists rt. unfold vget_none in H. destruct (vget item "runtime") as [v|]; [|done]. cbn in H. by subst v.
  - destruct (existsb _ _); [|done]. intros <-%Ok_inj. rewrite !field_set_ne by done. intros H%set_runtime_state; [|done..].
    destruct H as (rt0 & H & H'). rewrite set_runtime_other by done. unfold pop_key in *. unfold vget_none, vget in *. rewrite !dget_ddel_ne in * by done.
    split; [done|]. by exists rt0.
Qed.

Lemma runtime_valid_true name result process r r' : runtime_valid nfc nfkc lower digit items hosts name result process r = (Ok true, r') →
  ∃ item m, dget (r_services r) name = Some (VDict item) ∧ material_of (hosts (r_look r)) name item = Ok m ∧ lock_digest result = VStr (dict_digest m) ∧ (r_look r < r_look r')%nat.
Proof.
  unfold runtime_valid, mtry. match goal with |- match ?m r with _ => _ end = _ → _ => destruct (m r) as [[b|e] r1] eqn:E end.
  - intros [= -> <-]. apply M_lift_inv in E as [(agrees & _ & E)|(_ & e & _ & ?)]; [|done]. destruct agrees; [|done].
    apply M_bind_Ok in E as (m & r2 & Hm & E). injection E as E <-. unfold Registry._material in Hm.
    apply M_bind_Ok in Hm as (item & r3 & [-> Hi]%inspect_Ok & Hm). apply M_bind_Ok in Hm as (h & r4 & [= <- <-] & Hm). unfold mlift in Hm. injection Hm as Hm <-.
    apply py_eqb_text_l in E. exists item, m. cbn. split_and!; try done. lia.
  - unfold catch_classes. destruct (existsb _ _); intros [=].
Qed.

(** What a service that is shown as running is. *)
Definition truly_running (name : pystr) (r r' : reg) (result : pydict) : Prop := ∃ item p m n1 n2,
  dget (r_services r) name = Some (VDict item) ∧ process_in item = Some p ∧ p ∈ r_live r ∧ h_died (hosts n1) p = false ∧
  material_of (hosts n2) name item = Ok m ∧ lock_digest item = VStr (dict_digest m) ∧
  in_strs (vget_none (sub_dict result "runtime") "readiness") RUNTIME_READY = true ∧ truthy (vget_none result "runtimeObservation") = true ∧
  (r_look r ≤ n1 < r_look r')%nat ∧ (r_look r ≤ n2 < r_look r')%nat.

Definition shown_running (result : pydict) : Prop := vget_none result "state" = txt "running" ∧ vget_none (sub_dict result "runtime") "state" = txt "running".

Lemma running_state_shown name result process r shown r' : vget_none result "runtime" = VDict process →
  running_state nfc nfkc lower digit items hosts name result process r = (Ok shown, r') → vget_none shown "state" = txt "running" →
  (∃ item m, dget (r_services r) name = Some (VDict item) ∧ material_of (hosts (r_look r)) name item = Ok m ∧ lock_digest result = VStr (dict_digest m)) ∧
  (r_look r < r_look r')%nat ∧ in_strs (vget_none process "readiness") RUNTIME_READY = true ∧ truthy (vget_none result "runtimeObservation") = true ∧
  vget_none shown "runtime" = VDict process ∧ vget_none shown "runtimeObservation" = vget_none result "runtimeObservation".
Proof.
  intros Hr. unfold running_state. intros H Hs. apply M_bind_Ok in H as (valid & r1 & Hv & H). apply M_bind_Ok in H as (item & r2 & [-> Hi]%inspect_Ok & H).
  destruct valid; cbn [negb] in H.
  2: { do 2 (apply M_bind_Ok in H as (? & ? & _ & H)). exfalso. injection H as H _. subst shown. rewrite field_set_eq in Hs. done. }
  apply runtime_valid_true in Hv as (i & m & Hi1 & Hm & Hl & Hlook). split; [by exists i, m|].
  destruct (negb (in_strs _ _) || negb (truthy _)) eqn:E.
  { do 2 (apply M_bind_Ok in H as (? & ? & _ & H)). exfalso. injection H as H _. subst shown. cbn [set_all foldl fst snd] in Hs. rewrite field_set_ne, field_set_eq in Hs by done. done. }
  apply orb_false_iff in E as [E1%negb_false_iff E2%negb_false_iff].
  destruct (in_strs (vget_none item "state") _).
  - apply M_bind_Ok in H as (? & r3 & H3 & H). apply M_bind_Ok in H as (? & r4 & H4 & [= <- <-]). pose proof (set_state_quiet _ _ _ _ _ H3) as (_ & _ & ?). pose proof (save_quiet _ _ _ H4) as (_ & _ & ?).
    rewrite !field_set_ne by done. split_and!; try done. lia.
  - injection H as <- <-. done.
Qed.

Lemma profile_view_fields item view : profile_view item = Ok view → ∃ a b, view = [("nativeTransport", a); ("applicationBoundary", b)]%string.
Proof.
  unfold profile_view. destruct (validate_profile_binding _ _ _) as [selected|e].
  - intros (a & _ & H)%bind_Ok_inv. apply bind_Ok_inv in H as (b & _ & <-%Ok_inj). by exists a, b.
  - destruct (isa _ _); [|done]. intros <-%Ok_inj. by exists VNone, VNone.
Qed.

Lemma status_truthful name r result r' : status name r = (Ok result, r') → shown_running result → truly_running name r r' result.
Proof.
  unfold Registry.status. intros H (Hstate & Hrun). apply M_bind_Ok in H as (u & r1 & Hset & H). apply M_bind_Ok in H as (item & r2 & [-> Hi]%inspect_Ok & H).
  apply M_bind_Ok in H as (h & r3 & [= <- <-] & H). apply M_lift_inv in H as [(observed & Ho & H)|(_ & e & _ & ?)]; [|done].
  apply M_bind_Ok in H as (shown & r4 & Hshow & H). apply M_bind_Ok in H as (h & r5 & [= <- <-] & H).
  apply M_lift_inv in H as [(spec & _ & H)|(_ & e & _ & ?)]; [|done]. apply M_lift_inv in H as [(metrics & _ & H)|(_ & e & _ & ?)]; [|done]. cbv zeta in H.
  apply M_lift_inv in H as [(view & Hview & H)|(_ & e & _ & ?)]; [|done]. apply mret_Ok in H as [Hres Hr'].
  assert (∀ k, no_field k [("privacyTelemetry", VNone); ("readinessEvidence", VNone); ("nativeTransport", VNone); ("applicationBoundary", VNone)]%string = true →
    vget_none result k = vget_none shown k) as Hfields.
  { intros k Hk. rewrite <- Hres. apply profile_view_fields in Hview as (a & b & ->). unfold no_field in Hk. cbn [forallb fst] in Hk. rewrite !andb_true_iff in Hk.
    destruct Hk as (K1 & K2 & K3 & K4 & _). rewrite vget_set_all_none by (cbn [forallb fst]; by rewrite K3, K4). rewrite vget_set_all_none by (cbn [forallb fst]; by rewrite K1, K2). done. }
  unfold shown_running, truly_running, sub_dict in *. rewrite !(Hfields "runtime"%string), !(Hfields "state"%string), ?(Hfields "runtimeObservation"%string) in * by reflexivity.
  clear Hres Hview Hfields view. destruct (vget_none observed "runtime") as [| | | | | |process] eqn:Hp; try (injection Hshow as -> <-; rewrite Hp in Hrun; done).
  destruct (eq_str (vget_none process "state") "running") eqn:Es; [|injection Hshow as -> <-; rewrite Hp in Hrun; cbn in Hrun; rewrite Hrun in Es; done].
  apply eq_str_spec in Es. change (VStr (str "running")) with (txt "running") in Es. destruct (observed_fields _ _ _ _ Ho Hp) as (Hl & rt0 & Hrt0 & Hst & Hproc).
  destruct (settle_running _ _ _ _ _ _ Hset Hi Hrt0 ltac:(congruence)) as (Hlk & p & n & Hpp & Hlive & Hd & Hn).
  destruct (running_state_shown _ _ _ _ _ _ Hp Hshow Hstate) as ((i & m & Hi2 & Hm & Hdig) & Hlook & Hready & Hobs & Hsr & Hso).
  cbn [r_services r_look] in *. pose proof Hlk as (Esv & _ & _ & _ & Hle). assert (i = item) as -> by congruence.
  exists item, p, m, n, (S (r_look r1)). rewrite Hsr, Hso. split_and!; try done; try congruence; try (subst r'; cbn; lia).
  unfold process_in. rewrite Hrt0. congruence.
Qed.

(** ** No orphan supervisors
    A process that was found dead is gone; every other one that was started and
    not stopped has to be in a record, in memory and in the file. *)
Definition gone (r : reg) (p : process) : Prop := ∃ n, (n < r_look r)%nat ∧ h_died (hosts n) p = true.
Definition recorded (p : process) (services : pydict) : Prop := ∃ n item, dget services n = Some (VDict item) ∧ process_in item = Some p.
Definition records (out : process → Prop) (r : reg) (services : pydict) : Prop := ∀ p, p ∈ r_live r → ¬ gone r p → ¬ out p → recorded p services.
Definition filed (out : process → Prop) (r : reg) : Prop :=
  match r_file r with None => records out r [] | Some b => ∃ s, b = registry_document s ∧ records out r s end.
Definition paced (services : pydict) : Prop := ∀ n item, dget services n = Some (VDict item) → ∃ t, ttl_in item = VInt t.
Definition nobody (_ : process) : Prop := False.
Definition accounted (r : reg) : Prop := paced (r_services r) ∧ records nobody r (r_services r) ∧ filed nobody r.
Definition keeps (r r' : reg) : Prop := accounted r → accounted r'.
#[local] Instance keeps_preorder : PreOrder keeps.
Proof. split; [by intros r ?|]. intros r1 r2 r3 H1 H2 H. by apply H2, H1. Qed.

Lemma gone_mono r r' p : (r_look r ≤ r_look r')%nat → gone r p → gone r' p.
Proof. intros Hl (n & Hn & Hd). exists n. split; [lia|done]. Qed.
Lemma quiet_records out r r' s : quiet r r' → records out r s → records out r' s.
Proof. intros (_ & Hl & Hk) H p Hp Hg Ho. apply H; [by apply Hl| |done]. by intros ?%(gone_mono _ _ _ Hk). Qed.
Lemma quiet_filed out r r' : quiet r r' → r_file r' = r_file r → filed out r → filed out r'.
Proof.
  intros Hq E. unfold filed. rewrite E. destruct (r_file r) as [b|]; [|by apply quiet_records]. intros (s & -> & H). exists s. split; [done|by eapply quiet_records].
Qed.
Lemma looked_keeps r r' : looked r r' → keeps r r'.
Proof.
  intros H (Hp & Hr & Hf). pose proof (looked_quiet _ _ H) as Hq. destruct H as (E1 & E2 & _). unfold accounted. rewrite E1.
  split_and!; [done|by eapply quiet_records|by eapply quiet_filed].
Qed.
Lemma keeps_of_looked {A} (m : M reg A) : evolves looked m → evolves keeps m.
Proof. apply evolves_weaken, looked_keeps. Qed.
#[local] Hint Extern 3 (evolves keeps _) => apply keeps_of_looked; solve [eauto 2 with registry] : registry.

(** Writing a record: nothing of the others is lost, and its own process is kept or no longer matters. *)
Definition free (r : reg) (item : pydict) : Prop := ∀ p, process_in item = Some p → p ∈ r_live r → gone r p.
Lemma put_records out r s name item : records out r s →
  (∀ old, dget s name = Some (VDict old) → process_in item = process_in old ∨ free r old) → records out r (dset s name (VDict item)).
Proof.
  intros Hr Hold p Hp Hg Ho. destruct (Hr p Hp Hg Ho) as (n & i & Hi & Hpi). destruct (decide (n = name)) as [->|Hne].
  - destruct (Hold _ Hi) as [E|Hf]; [|by destruct Hg; apply (Hf p)]. exists name, item. split; [by rewrite dget_dset_eq|congruence].
  - exists n, i. by rewrite dget_dset_ne.
Qed.
Lemma put_paced s name item t : paced s → ttl_in item = VInt t → paced (dset s name (VDict item)).
Proof. intros Hs Ht n i. destruct (decide (n = name)) as [->|Hne]; [rewrite dget_dset_eq; intros [= <-]; eauto|rewrite dget_dset_ne by done; apply Hs]. Qed.

Lemma update_item_keeps name f : (∀ item, same_process item (f item)) → evolves keeps (update_item name f).
Proof.
  intros Hf r x r'. unfold update_item. intros [(item & r1 & [-> Hi]%inspect_Ok & [= <- <-])|(e & H & _)]%M_bind_inv; [|by eapply looked_keeps, inspect_looked].
  destruct (Hf item) as [Hp Ht]. intros (P & R & F). split_and!; cbn.
  - destruct (P _ _ Hi) as [t Et]. eapply put_paced; [done|by rewrite Ht].
  - eapply put_records; [done|]. intros old Ho. left. congruence.
  - done.
Qed.
Lemma write_filed data limit out r x r' : atomic_write hosts data limit set_file r = (x, r') → filed out r → (∃ s, data = registry_document s ∧ records out r s) → filed out r'.
Proof.
  intros H Hf (s & -> & Hs). pose proof (atomic_write_quiet _ limit set_file ltac:(done) _ _ _ H) as Hq. unfold atomic_write in H.
  apply M_lift_inv in H as [(u & _ & H)|(-> & e & _ & ->)]; [|done]. apply M_bind_inv in H as [(h & r1 & [= <- <-] & H)|(e & [=] & _)].
  assert (∀ r1, quiet r r1 → r_file r1 = Some (registry_document s) → filed out r1) as Hdone.
  { intros r1 Hq1 E. unfold filed. rewrite E. exists s. split; [done|by eapply quiet_records]. }
  destruct (h_write _).
  - injection H as _ <-. by apply Hdone.
  - injection H as _ <-. eapply quiet_filed; [exact Hq|done|done].
  - apply M_bind_inv in H as [(? & r2 & [= _ <-] & [= <- <-])|(e' & [=] & _)]. by apply Hdone.
Qed.
Lemma save_keeps : evolves keeps _save.
Proof.
  intros r x r' H (P & R & F). pose proof (save_quiet _ _ _ H) as Hq. pose proof (save_services _ _ _ H) as Es. unfold accounted. rewrite Es.
  split_and!; [done|by eapply quiet_records|]. unfold Registry._save in H. rewrite M_get_bind in H. eapply write_filed; [exact H|done|]. by exists (r_services r).
Qed.
#[local] Hint Resolve save_keeps : registry.
#[local] Hint Extern 2 (evolves keeps (update_item _ _)) =>
  apply update_item_keeps; intros; first [apply lock_same_process | apply settle_same_lock; reflexivity] : registry.
Lemma set_state_keeps name st : evolves keeps (set_state name st).
Proof. apply update_item_keeps. intros. apply state_same_lock. Qed.
#[local] Hint Resolve set_state_keeps : registry.
Lemma lock_keeps name e : evolves keeps (lock name e).
Proof. unfold Registry.lock. evolve. Qed.
#[local] Hint Resolve lock_keeps : registry.
Lemma apply_locked_keeps name : evolves keeps (apply_locked nfc nfkc lower digit items hosts name).
Proof. unfold apply_locked. evolve. Qed.
#[local] Hint Resolve apply_locked_keeps : registry.
Lemma apply_keeps name : evolves keeps (apply_service name).
Proof. unfold Registry.apply_service. evolve. Qed.
#[local] Hint Resolve apply_keeps : registry.
Lemma launch_plan_keeps name : evolves keeps (launch_plan name).
Proof.
  unfold Registry.launch_plan. evolve. apply keeps_of_looked. unfold atomic_write. evolve; apply evolves_mod; intros r; split_and!; done.
Qed.
Lemma settle_runtime_keeps name : evolves keeps (settle_runtime nfc dir hosts name).
Proof. unfold settle_runtime. evolve. Qed.
Lemma running_state_keeps name res p : evolves keeps (running_state nfc nfkc lower digit items hosts name res p).
Proof. unfold running_state. evolve. Qed.
#[local] Hint Resolve launch_plan_keeps settle_runtime_keeps running_state_keeps : registry.
Lemma status_keeps name : evolves keeps (status name).
Proof. unfold Registry.status. evolve. Qed.
#[local] Hint Resolve status_keeps : registry.
Lemma wait_healthy_keeps n name : evolves keeps (wait_healthy nfc nfkc lower digit dir items hosts n name).
Proof. induction n; cbn [wait_healthy]; evolve. Qed.
Lemma poll_status_keeps n name o : evolves keeps (poll_status nfc nfkc lower digit dir items hosts n name o).
Proof. revert o. induction n; cbn [poll_status]; evolve. Qed.
#[local] Hint Resolve wait_healthy_keeps poll_status_keeps : registry.
Lemma connection_status_keeps name : evolves keeps (connection_status nfc nfkc lower digit dir items hosts name).
Proof. unfold connection_status. evolve. Qed.
Lemma quiet_kept_keeps r r' : quiet r r' → kept r r' → keeps r r'.
Proof. intros Hq [E1 E2] (P & R & F). unfold accounted. rewrite E1. split_and!; [done|by eapply quiet_records|by eapply quiet_filed]. Qed.
Lemma kept_of_looked {A} (m : M reg A) : evolves looked m → evolves kept m.
Proof. apply evolves_weaken, looked_kept. Qed.
#[local] Hint Extern 3 (evolves kept _) => apply kept_of_looked; solve [eauto 2 with registry] : registry.
Lemma runtime_stop_kept rt : evolves kept (runtime_stop hosts rt).
Proof. unfold runtime_stop. evolve; intros. by apply evolves_mod. Qed.
Lemma runtime_stop_keeps rt : evolves keeps (runtime_stop hosts rt).
Proof. intros r x r' H. apply quiet_kept_keeps; [by eapply runtime_stop_quiet|by eapply runtime_stop_kept]. Qed.
#[local] Hint Resolve connection_status_keeps runtime_stop_keeps : registry.
Lemma stop_keeps name : evolves keeps (stop name).
Proof. unfold Registry.stop. evolve. Qed.
#[local] Hint Resolve stop_keeps : registry.

(** ** Services without a process *)
Lemma alive_false rt r r' : alive hosts rt r = (Ok false, r') → ∀ p, process_of rt = Some p → p ∈ r_live r → gone r' p.
Proof.
  unfold alive. intros H p Hp Hl. apply M_bind_Ok in H as (h & r1 & [= <- <-] & H). rewrite M_get_bind in H. cbn [r_live] in H. rewrite Hp in H. injection H as H <-.
  rewrite bool_decide_true in H by done. exists (r_look r). split; [cbn; lia|by apply negb_false_iff].
Qed.
Lemma alive_item_false item r r' : alive_item hosts item r = (Ok false, r') → free r' item.
Proof.
  unfold alive_item. intros [(rt & Hrt & H)|(_ & e & _ & ?)]%M_lift_inv; [|done]. intros p Hp Hl. pose proof (alive_looked _ _ _ _ H) as (_ & _ & El & _). rewrite El in Hl.
  eapply alive_false; [exact H| |done]. unfold runtime_of, process_in in *. destruct (vget item "runtime") as [[]|]; try done. apply Ok_inj in Hrt. by subst rt.
Qed.
Lemma runtime_stop_frees rt r u r' : runtime_stop hosts rt r = (Ok u, r') → ∀ p, process_of rt = Some p → p ∈ r_live r' → gone r' p.
Proof.
  unfold runtime_stop. intros H p Hp. apply M_bind_Ok in H as (running & r1 & Ha & H). pose proof (alive_looked _ _ _ _ Ha) as (_ & _ & El & _). destruct running.
  - apply M_bind_Ok in H as (h & r2 & [= <- <-] & H). rewrite Hp in H. cbn [r_look] in H. destruct (h_died (hosts (r_look r1)) p) eqn:Ed.
    + injection H as _ <-. intros _. exists (r_look r1). split; [cbn; lia|done].
    + destruct (h_stops _); [|done]. injection H as _ <-. cbn [r_live set_live]. intros [Hne _]%list_elem_of_filter. done.
  - injection H as _ <-. rewrite El. intros Hl. by eapply alive_false.
Qed.

(** The process of a named service is of no concern. *)
Definition idle (name : pystr) (r : reg) : Prop := ∀ item, dget (r_services r) name = Some (VDict item) → free r item.
Lemma quiet_free r r' item : quiet r r' → free r item → free r' item.
Proof. intros (_ & Hl & Hk) Hf p Hp Hp'. eapply gone_mono; [exact Hk|]. apply Hf; [done|by apply Hl]. Qed.
Definition settled (r r' : reg) : Prop := quiet r r' ∧ items_rel same_process r r' ∧ ∀ n item, dget (r_services r') n = Some (VDict item) → ∃ old, dget (r_services r) n = Some (VDict old).
#[local] Instance settled_preorder : PreOrder settled.
Proof.
  split; [intros r; split_and!; [reflexivity|reflexivity|eauto]|]. intros r1 r2 r3 (Q1 & I1 & B1) (Q2 & I2 & B2). split_and!; [by transitivity r2|by transitivity r2|].
  intros n item H. apply B2 in H as (i2 & H). eauto.
Qed.
Lemma settled_idle name r r' : settled r r' → idle name r → idle name r'.
Proof.
  intros (Q & I & B) H item Hi. destruct (B _ _ Hi) as (old & Ho). destruct (I _ _ Ho) as (i & Hi' & [E _]). assert (i = item) as -> by congruence.
  pose proof (quiet_free _ _ _ Q (H _ Ho)) as Hf. intros p Hp. apply Hf. congruence.
Qed.
Lemma looked_settled r r' : looked r r' → settled r r'.
Proof. intros H. pose proof H as (E & _). split_and!; [by apply looked_quiet|by apply looked_items; [apply _|]|]. intros n i. rewrite E. eauto. Qed.
Lemma settled_of_looked {A} (m : M reg A) : evolves looked m → evolves settled m.
Proof. apply evolves_weaken, looked_settled. Qed.
#[local] Hint Extern 3 (evolves settled _) => apply settled_of_looked; solve [eauto 2 with registry] : registry.
Lemma quiet_same_settled r r' : quiet r r' → r_services r' = r_services r → settled r r'.
Proof. intros Q E. split_and!; [done|intros n i Hn; rewrite E; by exists i|intros n i; rewrite E; eauto]. Qed.
Lemma save_settled : evolves settled _save.
Proof. intros r x r' H. apply quiet_same_settled; [by eapply save_quiet|by eapply save_services]. Qed.
Lemma runtime_stop_settled rt : evolves settled (runtime_stop hosts rt).
Proof. intros r x r' H. apply quiet_same_settled; [by eapply runtime_stop_quiet|by eapply runtime_stop_kept]. Qed.
Lemma update_item_settled name f : (∀ item, same_process item (f item)) → evolves settled (update_item name f).
Proof.
  intros Hf r x r' H. split_and!; [by eapply update_item_quiet|eapply update_item_rel; [apply _|exact Hf|exact H]|].
  unfold update_item in H. apply M_bind_inv in H as [(item & r1 & [-> Hi]%inspect_Ok & [= <- <-])|(e & H & _)].
  - intros n i. cbn. destruct (decide (n = name)) as [->|Hne]; [by eauto|rewrite dget_dset_ne by done; by eauto].
  - destruct (inspect_looked _ _ _ _ H) as (E & _). intros n i. rewrite E. eauto.
Qed.
#[local] Hint Resolve save_settled runtime_stop_settled : registry.
#[local] Hint Extern 2 (evolves settled (update_item _ _)) =>
  apply update_item_settled; intros; first [apply lock_same_process | apply settle_same_lock; reflexivity] : registry.
Lemma set_state_settled name st : evolves settled (set_state name st).
Proof. apply update_item_settled. intros. apply state_same_lock. Qed.
#[local] Hint Resolve set_state_settled : registry.
Lemma lock_settled name e : evolves settled (lock name e).
Proof. unfold Registry.lock. evolve. Qed.
#[local] Hint Resolve lock_settled : registry.
Lemma apply_settled name : evolves settled (apply_service name).
Proof. unfold Registry.apply_service, apply_locked. evolve. Qed.
#[local] Hint Resolve apply_settled : registry.
Lemma launch_plan_settled name : evolves settled (launch_plan name).
Proof.
  unfold Registry.launch_plan. evolve. apply settled_of_looked. unfold atomic_write. evolve; apply evolves_mod; intros r; split_and!; done.
Qed.
#[local] Hint Resolve launch_plan_settled : registry.

(** ** Removing, creating and reconfiguring *)
Lemma stop_idle name r x r' : stop name r = (Ok x, r') → idle name r'.
Proof.
  unfold Registry.stop. intros H. apply M_bind_Ok in H as (item & r1 & [-> Hi]%inspect_Ok & H). apply M_lift_inv in H as [(rt & Hrt & H)|(_ & e & _ & ?)]; [|done].
  apply M_bind_Ok in H as (u & r2 & Hs & H). assert (idle name r2) as Hidle.
  { intros i Hi2 p Hp Hl. destruct (runtime_stop_kept _ _ _ _ Hs) as [E _]. assert (i = item) as -> by congruence. eapply runtime_stop_frees; [exact Hs| |done].
    unfold runtime_of, process_in in *. destruct (vget item "runtime") as [[]|]; try done. apply Ok_inj in Hrt. by subst rt. }
  eapply settled_idle, Hidle. evolving H.
Qed.
Lemma drop_keeps name r : idle name r → keeps r (set_services (ddel (r_services r) name) r).
Proof.
  intros Hidle (P & R & F). split_and!; [| |done]; cbn.
  - intros n item. destruct (decide (n = name)) as [->|Hne]; [by rewrite dget_ddel_eq|]. rewrite dget_ddel_ne by done. apply P.
  - intros p Hp Hg Ho. destruct (R p Hp Hg Ho) as (n & i & Hi & Hpi). destruct (decide (n = name)) as [->|Hne]; [by destruct Hg; eapply Hidle|].
    exists n, i. by rewrite dget_ddel_ne.
Qed.
Lemma remove_keeps name : evolves keeps (remove hosts name).
Proof.
  intros r x r'. unfold remove. intros [(y & r1 & H1 & H)|(e & H & _)]%M_bind_inv; [|by eapply stop_keeps].
  transitivity r1; [by eapply stop_keeps|]. apply M_bind_inv in H as [(u & r2 & [= _ <-] & H)|(e & [=] & _)].
  etrans; [apply (drop_keeps name); by eapply stop_idle|]. evolving H.
Qed.

Lemma spec_ttl spec u : _spec spec = Ok u → ∃ d t, spec = VDict d ∧ vget_or d "ttl" (VInt 3600) = VInt t.
Proof.
  unfold _spec. destruct spec as [| | | | | |d]; try done. intros (v & _ & H)%bind_Ok_inv. apply bind_Ok_inv in H as (w & H%raise_if_Ok & _).
  apply negb_false_iff in H. exists d. unfold int_between in H. destruct (vget_or d "ttl" (VInt 3600)) as [| |t| | | |]; try done. by exists t.
Qed.
Lemma draft_ttl h name q item : draft nfc nfkc lower items h name q = Ok item → ∃ t, ttl_in item = VInt t.
Proof.
  unfold draft. intros H. do 2 (apply bind_Ok_inv in H as (? & _ & H)). cbv zeta in H. apply bind_Ok_inv in H as (u & Hs & H).
  do 6 (apply bind_Ok_inv in H as (? & _ & H)). apply Ok_inj in H. subst item. apply spec_ttl in Hs as (d & t & E & Ht). exists t. unfold ttl_in, sub_dict.
  change (vget_none (mkdict _) "spec") with (if truthy (q_spec q) then q_spec q else VDict []). by rewrite E.
Qed.
Lemma put_keeps name item t r : ttl_in item = VInt t → idle name r → keeps r (set_services (dset (r_services r) name (VDict item)) r).
Proof.
  intros Ht Hidle (P & R & F). split_and!; [by eapply put_paced|eapply put_records; [done|]|done]. intros old Ho. right. by apply Hidle.
Qed.
Lemma create_keeps name q : evolves keeps (create nfc nfkc lower items hosts name q).
Proof.
  intros r x r' H. unfold create in H. looking H; [by apply looked_keeps|]. match type of H with _ ?t = _ => etrans; [by eapply (looked_keeps r t)|]; revert H; generalize t; clear; intros r H end.
  rewrite M_get_bind in H. destruct (dmem (r_services r) name) eqn:Ed.
  { rewrite orb_true_r in H. unfold mraise_if in H. apply M_lift_inv in H as [(u & Hu%raise_if_Ok & _)|(-> & _)]; done. }
  looking H; [by apply looked_keeps|]. looking H; [apply looked_keeps; by etrans|]. looking H; [apply looked_keeps; etrans; [done|by etrans]|].
  looking H; [apply looked_keeps; etrans; [done|etrans; [done|by etrans]]|].
  match type of H with _ ?t = _ => assert (looked r t) as Hl by (etrans; [done|etrans; [done|by etrans]]); etrans; [by eapply looked_keeps|]; revert H Hl; generalize t; intros r1 H Hl end.
  unfold _draft in H. apply M_bind_inv in H as [(item & r2 & Hi & H)|(e & Hi & _)]; [|eapply looked_keeps; by eapply draft_looked].
  pose proof (draft_looked _ _ _ _ _ Hi) as Hl2. etrans; [by apply looked_keeps|]. apply M_bind_inv in Hi as [(h & r3 & [= <- <-] & Hd)|(e & [=] & _)]. unfold mlift in Hd.
  injection Hd as Hd <-. apply draft_ttl in Hd as [t Ht].
  apply M_bind_inv in H as [(u & r3 & [= _ <-] & H)|(e & [=] & _)]. etrans; [eapply (put_keeps name item t); [done|]|evolving H].
  intros i. cbn. destruct Hl as (-> & _). intros Hd. unfold dmem in Ed. by rewrite Hd in Ed.
Qed.
#[local] Hint Resolve remove_keeps create_keeps : registry.

(** A replacement that is saved or taken back. *)
Definition replacement_of (item : pydict) (q : request) (context binding : pydict) (profile : pyval) : pydict :=
  let replacement := if is_none (q_spec q) then item else vset item "spec" (q_spec q) in
  let replacement := set_all replacement [("protocolContext", VDict context); ("coreBinding", VDict binding); ("profileBinding", profile)]%string in
  let replacement := if is_none (q_privacy q) then replacement else vset replacement "privacy" (q_privacy q) in
  vset (pop_key (pop_key replacement "deploymentLock") "runtime") "state" (txt "ready").
Lemma pop_key_ne d k k' : str k' ≠ str k → vget_none (pop_key d k) k' = vget_none d k'.
Proof. intros Hk. unfold vget_none, vget, pop_key. by rewrite dget_ddel_ne. Qed.
Lemma replacement_process item q context binding profile : process_in (replacement_of item q context binding profile) = None.
Proof. unfold process_in, replacement_of. cbv zeta. unfold vget, vset at 1, pop_key at 1. rewrite dget_dset_ne by done. by rewrite dget_ddel_eq. Qed.
Lemma replacement_ttl item q context binding profile u t : (if is_none (q_spec q) then Ok tt else _spec (q_spec q)) = Ok u → ttl_in item = VInt t →
  ∃ t', ttl_in (replacement_of item q context binding profile) = VInt t'.
Proof.
  intros Hs Ht. unfold ttl_in, sub_dict, replacement_of. cbv zeta. rewrite field_set_ne by done. rewrite !pop_key_ne by done.
  match goal with |- context [vget_none (if _ then ?a else vset ?a "privacy" ?v) "spec"] =>
    replace (vget_none (if is_none (q_privacy q) then a else vset a "privacy" v) "spec") with (vget_none a "spec") by (destruct (is_none (q_privacy q)); [done|by rewrite field_set_ne]) end.
  rewrite vget_set_all_none by reflexivity. destruct (is_none (q_spec q)); [by exists t|]. rewrite field_set_eq. by apply spec_ttl in Hs as (d & t' & -> & Ht'); exists t'.
Qed.

Lemma configure_tail name item replacement (m : M reg unit) t t' r x r' : evolves settled m → evolves keeps m → process_in replacement = None → ttl_in replacement = VInt t →
  ttl_in item = VInt t' → idle name r →
  (_ ← put_item name replacement; _ ← mtry m (λ e, _ ← put_item name item; mlift (Raise e)); mret replacement) r = (x, r') → keeps r r'.
Proof.
  intros Hms Hmk Hp Ht Ht' Hidle H. apply M_bind_inv in H as [(u & r1 & [= _ <-] & H)|(e & [=] & _)]. etrans; [by apply (put_keeps name replacement t)|]. set (r1 := set_services _ r) in *.
  assert (idle name r1) as Hidle1. { intros i. unfold r1. cbn. rewrite dget_dset_eq. intros [= <-] p. by rewrite Hp. }
  assert (∀ y r2, mtry m (λ e, _ ← put_item name item; mlift (Raise e)) r1 = (y, r2) → keeps r1 r2) as Htry.
  { intros y r2. unfold mtry. destruct (m r1) as [[v|e] r3] eqn:E; [intros [= <- <-]; by eapply Hmk|].
    intros Hh. etrans; [by eapply Hmk|]. apply M_bind_inv in Hh as [(u1 & r4 & [= _ <-] & [= <- <-])|(e1 & [=] & _)]. eapply put_keeps; [done|]. eapply settled_idle, Hidle1. by eapply Hms. }
  apply M_bind_inv in H as [(u1 & r2 & H & [= <- <-])|(e & H & _)]; by eapply Htry.
Qed.

Lemma configure_keeps name q : evolves keeps (configure nfc nfkc lower digit items hosts name q).
Proof.
  intros r x r' H Hacc. pose proof Hacc as (P & _). revert Hacc. change (keeps r r'). unfold configure in H. apply M_bind_inv in H as [(item & r1 & [-> Hi]%inspect_Ok & H)|(e & H & _)]; [|by eapply looked_keeps, inspect_looked].
  apply M_bind_inv in H as [(running & r1 & Ha & H)|(e & H & _)]; [|by eapply looked_keeps, alive_item_looked].
  pose proof (alive_item_looked _ _ _ _ Ha) as Hl1. destruct running.
  { apply M_lift_inv in H as [(u & Hu%raise_if_Ok & _)|(-> & _)]; [done|by apply looked_keeps]. }
  assert (idle name r1) as Hidle. { intros i Hi1. destruct Hl1 as (E & _). assert (i = item) as -> by congruence. by eapply alive_item_false. }
  destruct (P _ _ Hi) as [t Ht]. clear P. etrans; [by apply looked_keeps|]. clear Hi Ha Hl1.
  apply M_lift_inv in H as [(u & _ & H)|(-> & _)]; [|reflexivity]. apply M_bind_inv in H as [(h & r2 & Hask & H)|(e & [=] & _)].
  pose proof (ask_looked _ _ _ Hask) as Hl. apply (settled_idle _ _ _ (looked_settled _ _ Hl)) in Hidle. etrans; [by apply looked_keeps|]. clear Hl Hask r r1.
  apply M_lift_inv in H as [(binding & _ & H)|(-> & _)]; [|reflexivity]. apply M_lift_inv in H as [(context & _ & H)|(-> & _)]; [|reflexivity].
  apply M_lift_inv in H as [(u1 & _ & H)|(-> & _)]; [|reflexivity]. apply M_lift_inv in H as [(profile & _ & H)|(-> & _)]; [|reflexivity].
  apply M_lift_inv in H as [(u2 & _ & H)|(-> & _)]; [|reflexivity]. apply M_lift_inv in H as [(u3 & Hspec & H)|(-> & _)]; [|reflexivity].
  apply M_lift_inv in H as [(u4 & _ & H)|(-> & _)]; [|reflexivity]. cbv zeta in H. change (vset (pop_key _ _) _ _) with (replacement_of item q context binding profile) in H.
  destruct (replacement_ttl item q context binding profile _ _ Hspec Ht) as [t' Ht'].
  eapply configure_tail; [| |apply replacement_process|exact Ht'|exact Ht|exact Hidle|exact H]; evolve.
Qed.
#[local] Hint Resolve configure_keeps : registry.

Lemma upgrade_keeps name q e : evolves keeps (upgrade nfc nfkc lower digit items hosts name q e).
Proof.
  intros r x r' H. unfold upgrade in H. looking H; [by apply looked_keeps|]. looking H; [apply looked_keeps; by etrans|]. looking H; [apply looked_keeps; etrans; [done|by etrans]|].
  match type of H with _ ?t = _ => etrans; [eapply (looked_keeps r t); etrans; [done|by etrans]|]; revert H; generalize t; clear; intros r H end.
  rewrite M_get_bind in H. eapply bind_looked in H; [destruct H as [H|(file & r1 & Hf & Hr1 & H)]|solve [evolve]]; [by apply looked_keeps|]. apply read_registry_Ok in Hf.
  intros Hacc. pose proof (looked_keeps _ _ Hr1 Hacc) as Hacc1. unfold mtry at 1 in H.
  match type of H with match ?m ?s with _ => _ end = _ => assert (evolves keeps m) as Hmk by evolve; assert (evolves quiet m) as Hmq by evolve; destruct (m s) as [[y|e0] r2] eqn:E end.
  { injection H as _ <-. by eapply Hmk. }
  apply M_bind_inv in H as [(u & r3 & [= _ <-] & H)|(e1 & [=] & _)]. assert (quiet r r2) as Hq by (etrans; [by apply looked_quiet|by eapply Hmq]).
  destruct (Hmk _ _ _ E Hacc1) as (_ & _ & F2). destruct Hacc as (P & R & F).
  assert (∀ y r4, mtry (atomic_write hosts file LIMIT set_file) (λ _, mraise ValueError "UpgradeRollbackFailed") (set_services (r_services r) r2) = (y, r4) → accounted r4) as Hdone.
  { intros y r4. unfold mtry. destruct (atomic_write _ _ _ _ _) as [v r5] eqn:Ew. intros Hv. assert (r4 = r5) as -> by (destruct v; by injection Hv). clear Hv.
    pose proof (write_file _ _ _ _ _ Ew) as [Es _]. pose proof (atomic_write_quiet _ _ set_file ltac:(done) _ _ _ Ew) as Hq5. unfold accounted. rewrite Es. cbn [r_services set_services].
    split_and!; [done|eapply quiet_records; [exact Hq5|]; by eapply quiet_records|].
    eapply write_filed; [exact Ew|exact F2|]. unfold filed in F. rewrite Hf in F. destruct F as (s & -> & Hs). exists s. split; [done|by eapply quiet_records]. }
  apply M_bind_inv in H as [(u1 & r4 & H & [= <- <-])|(e1 & H & _)]; by eapply Hdone.
Qed.
#[local] Hint Resolve upgrade_keeps : registry.

Lemma find_item_Ok name r existing r' : find_item name r = (Ok existing, r') → r' = r ∧ dget (r_services r) name = VDict <$> existing.
Proof.
  unfold find_item. rewrite M_get_bind. destruct (dget (r_services r) name) as [v|]; [|by intros [= <- <-]].
  intros [(d & Hd%as_dict_value & [= <- <-])|(_ & e & _ & ?)]%M_lift_inv; [|done]. by subst v.
Qed.
(** A draft is only in memory while its material is computed. *)
Lemma preview_tail {A} name item existing (m : M reg A) r x r' : evolves looked m → dget (r_services r) name = VDict <$> existing →
  (_ ← put_item name item;
   mfinally m (λ r, set_services (match existing with None => ddel (r_services r) name | Some e => dset (r_services r) name (VDict e) end) r)) r = (x, r') → keeps r r'.
Proof.
  intros Hm He H. apply M_bind_inv in H as [(u & r1 & [= _ <-] & H)|(e & [=] & _)]. unfold mfinally in H. destruct (m _) as [y r2] eqn:E. injection H as _ <-.
  destruct (Hm _ _ _ E) as (E1 & E2 & E3 & E4 & E5). cbn [r_services r_file r_live r_launched r_look set_services put_item] in *.
  set (s' := match existing with None => _ | Some _ => _ end). assert (∀ n, dget s' n = dget (r_services r) n) as Hs.
  { intros n. unfold s'. rewrite E1. destruct (decide (n = name)) as [->|Hne]; destruct existing as [e|]; cbn in He; rewrite ?dget_dset_eq, ?dget_ddel_eq, ?He; try done.
    - by rewrite !dget_dset_ne.
    - by rewrite dget_ddel_ne, dget_dset_ne. }
  assert (quiet r (set_services s' r2)) as Hq by (split_and!; cbn; [done|by rewrite E3|done]).
  intros (P & R & F). split_and!; cbn [r_services set_services].
  - intros n i. rewrite Hs. apply P.
  - intros p Hp Hg Ho. destruct (quiet_records _ _ _ _ Hq R p Hp Hg Ho) as (n & i & Hi & Hpi). exists n, i. by rewrite Hs.
  - by eapply quiet_filed.
Qed.

Lemma preview_keeps name q b : evolves keeps (preview_setup nfc nfkc lower digit items hosts name q b).
Proof.
  intros r x r' H. unfold preview_setup in H. looking H; [by apply looked_keeps|]. looking H; [apply looked_keeps; by etrans|]. looking H; [apply looked_keeps; etrans; [done|by etrans]|].
  match type of H with _ ?t = _ => etrans; [eapply (looked_keeps r t); etrans; [done|by etrans]|]; revert H; generalize t; clear; intros r H end.
  destruct (negb _); [by injection H as _ <-|]. eapply bind_looked in H; [destruct H as [H|(item & r1 & _ & Hr1 & H)]|solve [evolve]]; [by apply looked_keeps|]. etrans; [by apply looked_keeps|].
  apply M_bind_inv in H as [(existing & r2 & [-> He]%find_item_Ok & H)|(e & H & _)]; [|by eapply looked_keeps, find_item_looked].
  eapply bind_looked in H; [destruct H as [H|(u & r3 & _ & Hr3 & H)]|solve [evolve]]; [by apply looked_keeps|]. etrans; [by apply looked_keeps|].
  eapply preview_tail; [| |exact H]; [evolve|]. by destruct Hr3 as (-> & _).
Qed.
#[local] Hint Resolve preview_keeps : registry.
Lemma connection_inputs_keeps name : evolves keeps (connection_inputs nfc nfkc lower digit dir items hosts name).
Proof. unfold connection_inputs, check_running. evolve. Qed.
#[local] Hint Resolve connection_inputs_keeps : registry.
Lemma connect_keeps name core role adapter : evolves keeps (connect nfc nfkc lower digit dir items hosts name core role adapter).
Proof. unfold connect. evolve. Qed.
#[local] Hint Resolve connect_keeps : registry.
Lemma config_plan_keeps name q b : evolves keeps (config_plan nfc nfkc lower digit items hosts name q b).
Proof. unfold config_plan. evolve. Qed.
#[local] Hint Resolve config_plan_keeps : registry.
Lemma status_each_keeps names : evolves keeps (status_each nfc nfkc lower digit dir items hosts names).
Proof. induction names; cbn [status_each]; evolve. Qed.
#[local] Hint Resolve status_each_keeps : registry.

(** ** Launching *)
Lemma filed_gone out r : (∀ p, out p → p ∈ r_live r → gone r p) → filed out r → filed nobody r.
Proof.
  intros Ho. assert (∀ s, records out r s → records nobody r s) as Hr.
  { intros s H p Hp Hg _. apply H; [done|done|]. intros Hout. by apply Hg, Ho. }
  unfold filed. destruct (r_file r); [|apply Hr]. intros (s & -> & H). exists s. eauto.
Qed.

Section Supervised.
Context (stops : ∀ n, h_stops (hosts n) = true) (pids : ∀ n plan p, h_start (hosts n) plan = Ok p → 1 < pr_pid p).

Lemma runtime_stop_total rt r e r' : runtime_stop hosts rt r ≠ (Raise e, r').
Proof.
  unfold runtime_stop. intros [(running & r1 & _ & H)|(e' & H & _)]%M_bind_inv.
  - destruct running; [|done]. apply M_bind_inv in H as [(h & r2 & [= <- <-] & H)|(e' & [=] & _)]. destruct (process_of rt); [|done]. destruct (h_died _ _); [done|].
    by rewrite stops in H.
  - unfold alive in H. by apply M_bind_inv in H as [(h & r2 & [= <- <-] & H)|(e2 & [=] & _)].
Qed.

Lemma launched_process p l : no_field "pid" l = true → no_field "processIdentity" l = true → 1 < pr_pid p →
  process_of (set_all (mkdict [("pid", VInt (pr_pid p)); ("processIdentity", VStr (pr_identity p)); ("readiness", txt "unavailable")]%string) l) = Some p.
Proof.
  intros Hp Hi Hpid. unfold process_of. rewrite !vget_set_all_none by done.
  change (vget_none (mkdict _) "pid") with (VInt (pr_pid p)). change (vget_none (mkdict _) "processIdentity") with (VStr (pr_identity p)). cbv beta iota.
  rewrite (proj2 (Z.ltb_lt _ _) Hpid). by destruct p.
Qed.

(** A supervisor is recorded and saved, or stopped. *)
Lemma launch_tail name item runtime p t r x r' : dget (r_services r) name = Some (VDict item) → ttl_in item = VInt t → process_of runtime = Some p →
  paced (r_services r) → records (eq p) r (r_services r) → filed (eq p) r → (∀ q, process_in item = Some q → p ≠ q → q ∈ r_live r → gone r q) →
  (_ ← update_item name (λ item, set_all item [("runtime", VDict runtime); ("state", txt "running")]%string);
   _ ← mtry _save (λ e, _ ← runtime_stop hosts runtime; mlift (Raise e));
   status name) r = (x, r') → accounted r'.
Proof.
  intros Hi Ht Hp P R F Hold H. apply M_bind_inv in H as [(u & r1 & Hu & H)|(e & Hu & _)].
  2: { unfold update_item in Hu. apply M_bind_inv in Hu as [(i & r1 & _ & [=])|(e' & He & _)]. unfold Registry.inspect in He. rewrite M_get_bind, Hi in He. done. }
  unfold update_item in Hu. apply M_bind_Ok in Hu as (i & ? & [-> Hi']%inspect_Ok & [= _ <-]). assert (i = item) as -> by congruence. clear Hi'.
  set (r1 := set_services _ r) in H.
  assert (paced (r_services r1)) as P1.
  { eapply (put_paced _ _ _ t); [done|]. unfold ttl_in, sub_dict. by rewrite !field_set_ne. }
  assert (records nobody r1 (r_services r1)) as R1.
  { intros q Hq Hg _. cbn. destruct (decide (p = q)) as [<-|Hne].
    - exists name. eexists. split; [apply dget_dset_eq|]. unfold process_in, vget, vset. rewrite dget_dset_ne, dget_dset_eq by done. done.
    - destruct (R q Hq Hg Hne) as (n & i & Hn & Hpi). destruct (decide (n = name)) as [->|Hnn].
      + assert (i = item) as -> by congruence. destruct Hg. by apply Hold.
      + exists n, i. by rewrite dget_dset_ne. }
  assert (filed (eq p) r1) as F1 by done. clearbody r1. clear R F P.
  assert (∀ y r2, mtry _save (λ e, _ ← runtime_stop hosts runtime; mlift (Raise e)) r1 = (y, r2) → accounted r2) as Htry.
  { intros y r2. unfold mtry. destruct (_save r1) as [v r3] eqn:E. pose proof (save_quiet _ _ _ E) as Hq. pose proof (save_services _ _ _ E) as Es.
    assert (records nobody r3 (r_services r3)) as R3 by (rewrite Es; by eapply quiet_records). assert (paced (r_services r3)) as P3 by by rewrite Es.
    unfold Registry._save in E. rewrite M_get_bind in E. destruct v as [[]|e].
    - intros [= <- <-]. split_and!; [done|done|]. apply write_file in E as [_ E]. unfold filed. rewrite E by done. exists (r_services r3). split; [by rewrite Es|done].
    - assert (filed (eq p) r3) as F3. { eapply write_filed; [exact E|done|]. exists (r_services r1). split; [done|]. intros q ? ? ?. apply R1; [done|done|by intros []]. }
      intros [(u1 & r4 & H4 & [= <- <-])|(e1 & H4 & _)]%M_bind_inv; [|by apply runtime_stop_total in H4].
      pose proof (runtime_stop_quiet _ _ _ _ H4) as Hq4. pose proof (runtime_stop_kept _ _ _ _ H4) as [E4 E4'].
      split_and!; [by rewrite E4|rewrite E4; by eapply quiet_records|]. eapply (filed_gone (eq p)); [|by eapply quiet_filed]. intros q <- Hl. by eapply runtime_stop_frees. }
  apply M_bind_inv in H as [(u1 & r2 & H2 & H)|(e & H2 & _)]; [|by eapply Htry]. eapply status_keeps; [exact H|by eapply Htry].
Qed.

Lemma M_step {S A B} (c : M S A) (k : A → M S B) a s s1 : c s = (Ok a, s1) → (c ≫= k) s = k a s1.
Proof. intros H. unfold mbind, M_bind. by rewrite H. Qed.
Lemma inspect_eval name r item : dget (r_services r) name = Some (VDict item) → inspect name r = (Ok item, r).
Proof. intros Hi. unfold Registry.inspect. by rewrite M_get_bind, Hi. Qed.
Lemma require_profile_eval name r item profile : dget (r_services r) name = Some (VDict item) → item_profile item = Ok profile → require_profile_binding name r = (Ok profile, r).
Proof. intros Hi Hp. unfold require_profile_binding. rewrite (M_step _ _ _ _ _ (inspect_eval _ _ _ Hi)). unfold mlift. by rewrite Hp. Qed.

Lemma launch_from_keeps name binding r x r' : idle name r → launch_from name binding r = (x, r') → keeps r r'.
Proof.
  intros Hidle H Hacc. unfold launch_from in H. apply M_bind_inv in H as [(plan & r1 & H1 & H)|(e & H1 & _)]; [|by eapply launch_plan_keeps].
  pose proof (launch_plan_keeps _ _ _ _ H1 Hacc) as Hacc1. pose proof (settled_idle _ _ _ (launch_plan_settled _ _ _ _ H1) Hidle) as Hidle1.
  apply launch_plan_Ok in H1 as (n & item & m & b & profile & h & descriptor & binary & Hm & _ & Hprofile & _ & Hp & Hi).
  destruct (plan_of_fields _ _ _ _ _ _ _ _ (material_tls _ _ _ _ Hm) Hp) as (_ & _ & _ & Httl & _). clear Hm Hp Hacc Hidle r.
  unfold runtime_start in H. apply M_bind_inv in H as [(pd & r2 & H2 & H)|(e & H2 & _)].
  2: { revert Hacc1. change (keeps r1 r'). apply M_bind_inv in H2 as [(h' & r2 & Hask & H2)|(e' & Hask & _)]; [|by injection Hask].
       etrans; [apply looked_keeps; by eapply ask_looked|]. by apply M_lift_inv in H2 as [(p & _ & H2)|(-> & _)]; [|reflexivity]. }
  apply M_bind_Ok in H2 as (h' & r3 & Hask & H2). apply M_lift_inv in H2 as [(p & Hstart & H2)|(_ & e & _ & ?)]; [|done]. injection Hask as <- <-. apply pids in Hstart.
  apply M_bind_Ok in H2 as (? & r4 & [= _ <-] & H2). apply mret_Ok in H2 as [<- <-]. set (r2 := add_launch _ _ _ _) in H.
  assert (∀ q, gone r1 q → gone r2 q) as Hgone by (intros q; apply gone_mono; cbn; lia).
  assert (∀ s, records nobody r1 s → records (eq p) r2 s) as Hrec.
  { intros s Hs q Hq Hg Hne. apply Hs; [|by intros ?%Hgone|by intros []]. cbn in Hq. apply elem_of_app in Hq as [?|?%list_elem_of_singleton]; [done|congruence]. }
  assert (records (eq p) r2 (r_services r2)) as R2 by (apply Hrec; apply Hacc1). assert (paced (r_services r2)) as P2 by apply Hacc1.
  assert (filed (eq p) r2) as F2.
  { destruct Hacc1 as (_ & _ & F). unfold filed in *. cbn [r_file add_launch r2]. destruct (r_file r1); [destruct F as (s & -> & F); exists s; eauto|by apply Hrec]. }
  assert (dget (r_services r2) name = Some (VDict item)) as Hi2 by done.
  assert (∀ q, process_in item = Some q → p ≠ q → q ∈ r_live r2 → gone r2 q) as Hold.
  { intros q Hq Hne Hl. apply Hgone, (Hidle1 _ Hi); [done|]. cbn in Hl. apply elem_of_app in Hl as [?|?%list_elem_of_singleton]; [done|congruence]. }
  destruct (P2 _ _ Hi2) as [t Ht]. clearbody r2. clear Hrec Hgone Hi Hacc1 Hidle1 r1.
  rewrite (M_step _ _ _ _ _ (require_profile_eval _ _ _ _ Hi2 Hprofile)) in H. apply M_bind_inv in H as [(h3 & r3 & Hask & H)|(e & [=] & _)].
  pose proof (ask_looked _ _ _ Hask) as Hl. pose proof (looked_quiet _ _ Hl) as Hq. destruct Hl as (El & Ef & Elive & _ & Elook).
  rewrite (M_step _ _ _ _ _ (inspect_eval name r3 item ltac:(by rewrite El))) in H.
  apply M_lift_inv in H as [(ttl & _ & H)|(_ & e & Hno & _)]; [|change (vget_or (sub_dict item "spec") "ttl" (VInt 3600)) with (ttl_in item) in Httl; by rewrite Httl, Ht in Hno].
  cbv zeta in H. eapply (launch_tail name item _ p t r3); [by rewrite El|done| |by rewrite El|rewrite El; by eapply quiet_records|by eapply quiet_filed| |exact H].
  - by apply launched_process.
  - intros q Hq1 Hq2 Hq3. eapply gone_mono; [exact Elook|]. apply Hold; [done|done|by rewrite <- Elive].
Qed.

Lemma launch_keeps name r x r' : idle name r → launch name r = (x, r') → keeps r r'.
Proof.
  intros Hidle [H|(binding & r1 & H1 & H)]%launch_split; [by apply looked_keeps|]. etrans; [by apply looked_keeps|]. eapply launch_from_keeps, H.
  eapply settled_idle, Hidle. by apply looked_settled.
Qed.

Lemma wait_healthy_idle n name r r' : wait_healthy nfc nfkc lower digit dir items hosts n name r = (Ok None, r') → idle name r'.
Proof.
  revert r. induction n as [|n IH]; intros r; cbn [wait_healthy]; intros H; apply M_bind_Ok in H as (existing & r1 & _ & H); apply M_lift_inv in H as [(rt & _ & H)|(_ & e & _ & ?)]; try done;
    (destruct (negb (eq_str _ _)); [done|]); apply M_bind_Ok in H as (item & r2 & [-> Hi]%inspect_Ok & H); apply M_bind_Ok in H as (running & r2 & Ha & H);
    pose proof (alive_item_looked _ _ _ _ Ha) as (E & _); destruct running; cbn [negb] in H.
  1, 3: apply M_bind_Ok in H as (h & r3 & _ & H).
  - done.
  - destruct (h_late h); [done|by eapply IH].
  - injection H as <-. intros i. rewrite E, Hi. intros [= <-]. by eapply alive_item_false.
  - injection H as <-. intros i. rewrite E, Hi. intros [= <-]. by eapply alive_item_false.
Qed.
Lemma apply_item name r item r' : apply_service name r = (Ok item, r') → dget (r_services r') name = Some (VDict item).
Proof.
  unfold Registry.apply_service. intros H. do 2 (apply M_bind_Ok in H as (? & ? & _ & H)). unfold apply_locked in H. do 11 (apply M_bind_Ok in H as (? & ? & _ & H)).
  by apply inspect_Ok in H as [-> ?].
Qed.

Lemma run_keeps name : evolves keeps (run name).
Proof.
  intros r x r' H. unfold Registry.run in H. looking H; [by apply looked_keeps|]. looking H; [apply looked_keeps; by etrans|].
  match type of H with _ ?t = _ => etrans; [eapply (looked_keeps r t); by etrans|]; revert H; generalize t; intros r0 H end. clear - H stops pids.
  apply M_bind_inv in H as [(item & r1 & H1 & H)|(e & H1 & _)]; [|by eapply apply_keeps]. etrans; [by eapply apply_keeps|]. apply apply_item in H1.
  looking H; [by apply looked_keeps|]. apply M_bind_inv in H as [(h & r2 & Hask & H)|(e & [=] & _)].
  assert (looked r1 r2) as Hl by (etrans; [done|by eapply ask_looked]). etrans; [by apply looked_keeps|]. clear Hask.
  apply M_lift_inv in H as [(context & _ & H)|(-> & _)]; [|reflexivity]. apply M_lift_inv in H as [(role & _ & H)|(-> & _)]; [|reflexivity].
  apply M_lift_inv in H as [(u & _ & H)|(-> & _)]; [|reflexivity].
  apply M_bind_inv in H as [(running & r3 & Ha & H)|(e & H & _)]; [|by eapply looked_keeps, alive_item_looked].
  pose proof (alive_item_looked _ _ _ _ Ha) as Hl3. etrans; [by apply looked_keeps|].
  apply M_bind_inv in H as [(healthy & r4 & Hw & H)|(e & Hw & _)].
  2: { destruct running; [by eapply wait_healthy_keeps|done]. }
  etrans; [destruct running; [by eapply wait_healthy_keeps|injection Hw as _ <-; reflexivity]|].
  destruct healthy as [existing|]; [injection H as _ <-; reflexivity|]. eapply launch_keeps, H. destruct running; [by eapply wait_healthy_idle|].
  injection Hw as <-. intros i Hi. destruct Hl3 as (E3 & _), Hl as (E2 & _). assert (i = item) as -> by congruence. by eapply alive_item_false.
Qed.
#[local] Hint Resolve run_keeps : registry.
Lemma restart_keeps name : evolves keeps (restart nfc nfkc lower digit dir items hosts name).
Proof. unfold restart. evolve. Qed.
#[local] Hint Resolve restart_keeps : registry.
Lemma setup_keeps name q start e : evolves keeps (setup nfc nfkc lower digit dir items hosts name q start e).
Proof. unfold setup. evolve. Qed.
#[local] Hint Resolve setup_keeps : registry.
Lemma body_keeps o : evolves keeps (body o).
Proof.
  destruct o; cbn [Registry.body]; unfold done, init, compliance_snapshot, credited_attachment, webrtc_signal_endpoint, control_action, disconnect, ziokt_stop, ziokt_run, list_services, connect_execute, connection_review, config_apply; evolve.
Qed.
End Supervised.
End Facts.
