(* ===== verification/RegistryClaims.v ===== *)
(** * The service registry: its properties

    Loading what was saved, and the theorems of the registry. *)
From S2P Require Import Prelude Dict PyStr PyText PyValue Json JsonRound JsonDocs StrictJson Sha256 Signing Net NativeProfiles Limits JoinCode.
From S2P Require Import BrokerSet CoreCatalog Context Composition ConfigStore ConnectionPlan Attachment Envelope Registry RegistryFacts.

#[local] Existing Instances looked_preorder quiet_preorder keeps_preorder.

Section Load.
Context (nfc nfkc lower : pystr → pystr) (digit : Z → option Z) `{Sig : Signing} (dir : pystr) (items : catalog) (hosts : nat → host).

(** ** Loading
    What a saved registry records is recorded when it is loaded. *)
Lemma loads_line parse_float parse_constant v : json_ok v →
  loads int_literal parse_float parse_constant pairs (dumps_canonical v ++ [10]) = Ok (norm v).
Proof.
  intros Hv. apply norm_ok in Hv. unfold loads, dumps_canonical, dumps. cbn [do_sort canonical_opts]. destruct (print_head canonical_opts _ Hv) as (c & t & Ec & Hws & _ & H128).
  replace (starts_with _ _) with false. 2: { symmetry. rewrite Ec. unfold starts_with. apply bool_decide_false. by intros [= ->]. }
  replace (skip_ws (print canonical_opts (norm v) ++ [10])) with (print canonical_opts (norm v) ++ [10]) by (rewrite Ec; cbn [app]; by rewrite skip_ws_stop).
  rewrite scan_value_print; [done|by intros kvs Hk; apply pairs_Ok|apply canonical_opts_ok|done| |by split_and!]. rewrite length_app. lia.
Qed.

Lemma strict_json_line v w : json_ok v → strict_json nfc LIMIT STRING_LIMIT (JBytes (dumps_canonical v ++ [10])) = Ok w → w = norm v.
Proof.
  intros Hv H. unfold strict_json, strict_json_full in H. inv_ok. subst.
  match goal with K : context [utf8_decode] |- _ => rewrite utf8_decode_ascii in K by (rewrite forallb_app; by rewrite dumps_canonical_ascii); injection K as <- end.
  match goal with K : loads _ _ _ _ _ = Ok _ |- _ => rewrite loads_line in K by done; by injection K end.
Qed.

Definition document_of (s : pydict) : pydict := mkdict [("schema", txt REGISTRY_SCHEMA); ("services", VDict s)]%string.
Lemma read_document s w : json_ok (VDict s) → strict_json nfc LIMIT STRING_LIMIT (JBytes (registry_document s)) = Ok w →
  ∃ d, w = VDict d ∧ vget_none d "services" = VDict (sort_keys (nfields s)).
Proof.
  intros Hj H. unfold registry_document, encoded in H. change (mkdict _) with (document_of s) in H. assert (json_ok (VDict (document_of s))) as Hv.
  { apply json_ok_mkdict; [reflexivity|]. constructor; [apply json_ok_lit|]. constructor; [done|constructor]. }
  apply strict_json_line in H as ->; [|done].
  exists (sort_keys (nfields (document_of s))). split; [done|].
  rewrite vget_readback by (apply mkdict_wf; reflexivity). done.
Qed.

Lemma load_rows h rows loaded : map_res (load_item nfc nfkc lower items h) rows = Ok loaded →
  ∀ n, match dget rows n with
       | Some v => ∃ v', load_item nfc nfkc lower items h (n, v) = Ok (n, v') ∧ dget loaded n = Some v'
       | None => dget loaded n = None
       end.
Proof.
  revert loaded. induction rows as [|[k v] rows IH]; intros loaded H n; cbn [map_res] in H.
  - by injection H as <-.
  - apply bind_Ok_inv in H as ([k' v'] & Hl & H). apply bind_Ok_inv in H as (rest & Hr & <-%Ok_inj). specialize (IH _ Hr n).
    assert (k' = k) as ->.
    { unfold load_item in Hl. cbn [fst snd] in Hl. destruct v; try done. cbv zeta in Hl.
      repeat match type of Hl with (_ ≫= _) = Ok _ => apply bind_Ok_inv in Hl as (? & _ & Hl) end. apply Ok_inj in Hl. congruence. }
    cbn [dget]. case_bool_decide as E; [subst n; by eauto|done].
Qed.

Lemma norm_process item : dwf item → (∀ rt, vget item "runtime" = Some (VDict rt) → dwf rt) → process_in (sort_keys (nfields item)) = process_in item.
Proof.
  intros Hw Hrt. unfold process_in, vget in *. rewrite dget_sort_keys by by apply dwf_nfields. unfold nfields at 1. rewrite dget_fmap_snd.
  destruct (dget item (str "runtime")) as [v|]; [|done]. cbn. destruct v as [| | | | | |rt]; try done. rewrite norm_dict. unfold process_of.
  rewrite !vget_readback by by apply Hrt. by destruct (vget_none rt "pid"), (vget_none rt "processIdentity").
Qed.

Lemma migrate_process h item item' p : migrate_item nfc nfkc lower h item = Ok item' → process_in item = Some p → item' = item.
Proof.
  unfold migrate_item. destruct (has_key item "protocolContext"); [by intros <-%Ok_inj|]. intros (u & Hn%raise_if_Ok & _)%bind_Ok_inv Hp. exfalso.
  apply negb_false_iff in Hn. unfold process_in in Hp. unfold vget_none in Hn. destruct (vget item "runtime") as [[]|]; done.
Qed.
Lemma load_item_Ok h n item v : load_item nfc nfkc lower items h (n, VDict item) = Ok (n, v) →
  ∃ item', v = VDict item' ∧ (∀ p, process_in item = Some p → process_in item' = Some p) ∧ ∃ t, ttl_in item' = VInt t.
Proof.
  unfold load_item. cbn [fst snd]. intros H. cbv zeta in H. do 6 (apply bind_Ok_inv in H as (? & _ & H)). apply bind_Ok_inv in H as (u & _ & H).
  apply bind_Ok_inv in H as (item' & Hm & H). apply bind_Ok_inv in H as (context & _ & H). apply bind_Ok_inv in H as (? & _ & H). apply bind_Ok_inv in H as (? & Hs & H).
  apply bind_Ok_inv in H as (? & _ & H). apply Ok_inj in H. injection H as <-. exists (vset item' "protocolContext" (VDict context)). split; [done|]. split.
  - intros p Hp. assert (item' = item) as -> by by eapply migrate_process. revert Hp. unfold process_in, vget, vset. by rewrite dget_dset_ne.
  - apply spec_ttl in Hs as (d & t & E & Ht). exists t. unfold ttl_in, sub_dict. rewrite field_set_ne by done. unfold vget_none, vget_or in *.
    destruct (vget item' "spec") as [v|]; cbn in *; [subst v; done|]. injection E as <-. done.
Qed.
Lemma parse_document h s loaded pending : json_ok (VDict s) → parse_registry nfc nfkc lower items h (registry_document s) = Ok (loaded, pending) →
  paced loaded ∧ ∀ p, recorded p s → recorded p loaded.
Proof.
  intros Hj. unfold parse_registry. intros (data & Hd & H)%bind_Ok_inv. apply read_document in Hd as (d & -> & Hs); [|done].
  apply bind_Ok_inv in H as (u & _ & H). rewrite Hs in H. apply bind_Ok_inv in H as (u1 & _ & H). apply bind_Ok_inv in H as (services & Hm & H%Ok_inj). injection H as <- _.
  pose proof (load_rows _ _ _ Hm) as Hrows. assert (dwf s) as Hw by by inversion Hj. split.
  - intros n item Hi. specialize (Hrows n). destruct (dget _ n) as [v|]; [|congruence]. destruct Hrows as (v' & Hv & Hl). assert (v' = VDict item) as -> by congruence.
    destruct v as [| | | | | |old]; try done. apply load_item_Ok in Hv as (i & [= ->] & _ & Ht). done.
  - intros p (n & item & Hi & Hp). specialize (Hrows n). rewrite dget_sort_keys in Hrows by by apply dwf_nfields. unfold nfields in Hrows at 1. rewrite dget_fmap_snd, Hi in Hrows.
    cbn in Hrows. destruct Hrows as (v' & Hv & Hl). change (VDict (sort_keys _)) with (VDict (sort_keys (nfields item))) in Hv.
    apply load_item_Ok in Hv as (item' & -> & Hproc & _). exists n, item'. split; [done|]. apply Hproc. apply (json_ok_dget _ _ _ Hj) in Hi as [Hji _]. rewrite norm_process; [done|by inversion Hji|].
    intros rt Hrt. apply (json_ok_dget _ _ _ Hji) in Hrt as [Hr _]. by inversion Hr.
Qed.

(** The saved registry records every supervisor that is not stopped or gone. *)
Definition sound_file (r : reg) : Prop :=
  match r_file r with None => records hosts nobody r [] | Some b => ∃ s, b = registry_document s ∧ json_ok (VDict s) ∧ records hosts nobody r s end.

Lemma sound_filed r : sound_file r → filed hosts nobody r.
Proof. unfold sound_file, filed. destruct (r_file r); [|done]. intros (s & -> & _ & H). by exists s. Qed.

Section Present.
(** A file that is there is found. *)
Context (present : ∀ n e, h_io (hosts n) = Raise e → isa (exn_cls e) FileNotFoundError = false).

Definition read_saved : M reg (option bytes) := mtry (c ← read_registry hosts MAX_REGISTRY_BYTES; mret (Some c)) (catch_classes [FileNotFoundError] (λ _, mret None)).
Lemma read_saved_looked : evolves looked read_saved.
Proof.
  apply evolves_try; [apply looked_preorder|apply evolves_bind; [apply looked_preorder|apply read_registry_looked|intros; by apply evolves_ret, looked_preorder]|].
  intros e. apply evolves_catch; [apply looked_preorder|]. apply evolves_ret, looked_preorder.
Qed.
Lemma read_saved_Ok r content r' : read_saved r = (Ok content, r') → content = r_file r.
Proof.
  unfold read_saved, mtry. match goal with |- match ?m r with _ => _ end = _ → _ => destruct (m r) as [[c|e] r1] eqn:E end.
  - intros [= <- <-]. apply M_bind_Ok in E as (b & r2 & Hb & [= <- <-]). by apply read_registry_Ok in Hb.
  - apply M_bind_inv in E as [(b & r2 & _ & [=])|(e' & E & [= <-])]. unfold catch_classes. cbn [existsb]. rewrite orb_false_r.
    unfold read_registry in E. apply M_bind_inv in E as [(h & r2 & [= <- <-] & E)|(e2 & [=] & _)]. apply M_lift_inv in E as [(u & _ & E)|(_ & e2 & He & [= <-])]; [|by rewrite (present _ _ He)].
    rewrite M_get_bind in E. cbn [r_file] in E. destruct (r_file r) as [b|]; [|destruct (isa _ _); [by intros [= <- _]|done]].
    apply M_lift_inv in E as [(u1 & _ & [=])|(_ & e2 & He & [= <-])]. apply raise_if_Raise in He as [_ ->]. done.
Qed.

Lemma load_accounted r x r' : sound_file r → _load nfc nfkc lower items hosts r = (x, r') → filed hosts nobody r' ∧ (∀ pending, x = Ok pending → accounted hosts r').
Proof.
  intros Hs H. unfold _load in H. fold read_saved in H. apply M_bind_inv in H as [(content & r1 & H1 & H)|(e & H1 & ->)].
  2: { pose proof (read_saved_looked _ _ _ H1) as Hl. split; [|done]. eapply quiet_filed; [by apply looked_quiet|by destruct Hl as (_ & ? & _)|by apply sound_filed]. }
  pose proof (read_saved_looked _ _ _ H1) as Hl. pose proof (looked_quiet _ _ Hl) as Hq. pose proof Hl as (_ & Ef & _). apply read_saved_Ok in H1. subst content.
  unfold sound_file in Hs. destruct (r_file r) as [b|] eqn:Eb.
  - destruct Hs as (s & -> & Hj & Hr). apply M_bind_inv in H as [(h & r2 & Hask & H)|(e & [=] & _)]. pose proof (ask_looked _ _ _ _ Hask) as Hl2.
    assert (quiet r r2) as Hq2 by (etrans; [exact Hq|by apply looked_quiet]). assert (r_file r2 = Some (registry_document s)) as Ef2 by (destruct Hl2 as (_ & -> & _); congruence).
    assert (filed hosts nobody r2) as F2 by (unfold filed; rewrite Ef2; exists s; split; [done|by eapply quiet_records]).
    apply M_lift_inv in H as [([loaded pending] & Hp & H)|(-> & e & _ & ->)]; [|done]. apply parse_document in Hp as [P R]; [|done].
    apply M_bind_inv in H as [(u & r3 & [= _ <-] & [= <- <-])|(e & [=] & _)]. split; [done|]. intros _ _. split_and!; [done| |done]. cbn.
    intros p Hp Hg Ho. apply R. apply (quiet_records _ _ _ _ _ Hq2 Hr); done.
  - apply M_bind_inv in H as [(u & r3 & [= _ <-] & [= <- <-])|(e & [=] & _)].
    assert (records hosts nobody r1 []) as R1 by by eapply quiet_records.
    assert (filed hosts nobody (set_services [] r1)) as F1 by (unfold filed; cbn; by rewrite Ef). split; [done|]. intros _ _. split_and!; [done|done|done].
Qed.

Lemma perform_filed o r x r' : (∀ n, h_stops (hosts n) = true) → (∀ n plan p, h_start (hosts n) plan = Ok p → 1 < pr_pid p) → sound_file r →
  perform nfc nfkc lower digit dir items hosts o r = (x, r') → filed hosts nobody r'.
Proof.
  intros Hstops Hpids Hs H. unfold perform, transaction in H. apply M_bind_inv in H as [(h & r1 & Hask & H)|(e & [=] & _)].
  pose proof (ask_looked _ _ _ _ Hask) as Hl. pose proof (looked_quiet _ _ Hl) as Hq. assert (sound_file r1) as Hs1.
  { unfold sound_file in *. destruct Hl as (_ & -> & _). destruct (r_file r); [|by eapply quiet_records]. destruct Hs as (s & -> & Hj & Hr). exists s. split_and!; [done|done|by eapply quiet_records]. }
  apply M_lift_inv in H as [(u & _ & H)|(-> & _)]; [|by apply sound_filed]. apply M_bind_inv in H as [(pending & r2 & Hload & H)|(e & Hload & _)]; [|by apply load_accounted in Hload as [? _]].
  apply load_accounted in Hload as [_ Hacc]; [|done]. specialize (Hacc _ eq_refl).
  assert (keeps hosts r2 r') as Hk; [|by apply Hk in Hacc as (_ & _ & ?)]. clear Hacc. apply M_bind_inv in H as [(u1 & r3 & Hsave & H)|(e & Hsave & _)].
  - transitivity r3; [|by eapply body_keeps]. destruct pending; [by eapply save_keeps|by injection Hsave as _ <-].
  - destruct pending; [by eapply save_keeps|done].
Qed.
End Present.
End Load.

Lemma VStr_inj a b : VStr a = VStr b → a = b.
Proof. congruence. Qed.
(** What an operation leaves behind: every supervisor that was started, not
    stopped and not found dead is in a record of the saved registry. *)
Definition all_recorded (hosts : nat → host) (r : reg) : Prop :=
  match r_file r with
  | None => ∀ p, p ∈ r_live r → gone hosts r p
  | Some b => ∃ s, b = registry_document s ∧ ∀ p, p ∈ r_live r → ¬ gone hosts r p → recorded p s
  end.
Lemma gone_or_not (hosts : nat → host) r p : gone hosts r p ∨ ¬ gone hosts r p.
Proof.
  destruct (existsb (λ n, h_died (hosts n) p) (seq 0 (r_look r))) eqn:E; [left|right].
  - apply existsb_exists in E as (n & Hn%in_seq & Hd). exists n. split; [lia|done].
  - intros (n & Hn & Hd). assert (existsb (λ n, h_died (hosts n) p) (seq 0 (r_look r)) = true); [|congruence].
    apply existsb_exists. exists n. split; [apply in_seq; lia|done].
Qed.

(** ** The theorems *)
Section Claims.
Context (nfc nfkc lower : pystr → pystr) (digit : Z → option Z) `{Sig : Signing} (dir : pystr) (items : catalog) (hosts : nat → host).

Notation material_of := (material_of nfc nfkc lower digit items).
Notation status := (status nfc nfkc lower digit dir items hosts).
Notation perform := (perform nfc nfkc lower digit dir items hosts).
Notation history := (history nfc nfkc lower digit dir items hosts).
Notation config_apply := (config_apply nfc nfkc lower digit dir items hosts).
Notation upgrade := (upgrade nfc nfkc lower digit items hosts).


(** C12: Applying a managed configuration starts only what was reviewed: without
    the confirmation nothing happens at all; with it, whatever the outcome, every
    supervisor it starts belongs to the named service and runs material whose
    digest is the reviewed one. *)
Theorem reviewed_launch name confirmed plan d l start q locked r :
  (confirmed = false → config_apply name confirmed plan d l start q locked r = (Raise (Exn ValueError "ExplicitHumanConfirmationRequired"), r)) ∧
  ∃ new, r_launched (config_apply name confirmed plan d l start q locked r).2 = r_launched r ++ new ∧
    Forall (λ x : pystr * pydict, x.1 = name ∧ vget_none x.2 "lockDigest" = VStr d ∧
      ∃ n item m, material_of (hosts n) name item = Ok m ∧ lock_digest item = VStr d ∧ dict_digest m = d) new.
Proof.
  split; [by intros ->|]. destruct (config_apply _ _ _ _ _ _ _ _ r) as [x r'] eqn:E. cbn [snd].
  assert (perform_like : approves nfc nfkc lower digit items hosts r r').
  { pose proof (body_approves nfc nfkc lower digit dir items hosts (ConfigApply name confirmed plan d l start q locked)) as H. cbn [body] in H.
    unfold done in H. destruct x as [v|e].
    - apply (H r (Ok tt)). by rewrite (M_step _ _ _ _ _ E).
    - apply (H r (Raise e)). unfold mbind, M_bind. by rewrite E. }
  apply config_apply_starts in E as (new & En & Hs). destruct perform_like as (new' & En' & Ha). rewrite En in En'. apply app_inv_head in En' as <-. exists new. split; [done|].
  eapply Forall_impl; [exact (proj2 (Forall_and _ _) (conj Hs Ha))|]. intros [n0 p] [(Hn & Hd) (n & item & m & b & plan' & Hm & _ & Hl & Hp & _)]. cbn [fst snd] in *. subst n0.
  split; [reflexivity|]. split; [exact Hd|]. exists n, item, m. assert (dict_digest m = d) as <- by (apply VStr_inj; rewrite <- Hp; exact Hd). exact (conj Hm (conj Hl eq_refl)).
Qed.

(** C13: An upgrade is atomic: when it succeeds against a reviewed digest, the
    lock of the service is that digest; when it fails, the records and the saved
    registry are what they were, byte for byte, unless the failure is the one that
    reports that the rollback itself failed; and it never starts a supervisor. *)
Theorem upgrade_atomic name q d r :
  r_launched (upgrade name q d r).2 = r_launched r ∧
  match upgrade name q d r with
  | (Ok _, r') => ∀ m, d = Some m → ∃ item, dget (r_services r') name = Some (VDict item) ∧ lock_digest item = VStr m
  | (Raise e, r') => e = Exn ValueError "UpgradeRollbackFailed" ∨ r_services r' = r_services r ∧ r_file r' = r_file r
  end.
Proof.
  destruct (upgrade name q d r) as [[x|e] r'] eqn:E; (split; [by eapply upgrade_quiet|]).
  - intros m ->. by eapply upgrade_reviewed.
  - by eapply upgrade_rolls_back.
Qed.



(** A registry that grows over 1 MiB is saved - the limit of a save is 64 MiB -
    and can never be loaded again: the reader of the file has its default limit. *)
Lemma grown_registry_is_lost r : (∀ n, h_lock (hosts n) = Ok tt ∧ h_io (hosts n) = Ok tt ∧ h_write (hosts n) = Written) →
  LIMIT < zlen (registry_document (r_services r)) ≤ MAX_REGISTRY_BYTES →
  ∃ r', _save hosts r = (Ok tt, r') ∧ ∀ o, (perform o r').1 = Raise (Exn ValueError "JSON input size limit").
Proof.
  intros Hh [Hlo Hhi]. exists (set_file (registry_document (r_services r)) (Reg (r_services r) (r_file r) (r_live r) (r_launched r) (S (r_look r)))). split.
  - unfold _save. rewrite M_get_bind. generalize dependent (registry_document (r_services r)). intros b _ Hb. unfold atomic_write, mraise_if, mbind, M_bind, mlift, ask.
    rewrite (proj2 (Z.ltb_ge _ _) Hb). cbn. by destruct (Hh (r_look r)) as (_ & _ & ->).
  - generalize dependent (registry_document (r_services r)). intros b Hlo Hhi o. unfold Registry.perform, transaction, _load, read_registry, mtry, catch_classes.
    set (m := body _ _ _ _ _ _ _ _). clearbody m. unfold mbind, M_bind, mlift, ask, mget, mraise_if. cbn.
    destruct (Hh (S (r_look r))) as (-> & _). cbn. destruct (Hh (S (S (r_look r)))) as (_ & -> & _). cbn. rewrite (proj2 (Z.ltb_ge _ _) Hhi). cbn.
    unfold parse_registry. unfold strict_json, strict_json_full. cbn [mbind result_bind]. rewrite (proj2 (Z.ltb_lt _ _) Hlo). done.
Qed.
End Claims.

(** ** A registry with one service that is running *)
Definition demo_process : process := Process 4242 (str "0123456789abcdef0123456789abcdef0123:77").
Definition demo_runtime : pydict := mkdict
  [("pid", VInt 4242); ("processIdentity", VStr (pr_identity demo_process)); ("readiness", txt "listener-ready"); ("state", txt "running"); ("core", txt "go");
   ("lockDigest", txt "sha256:00"); ("endpoint", VNone); ("privacy", txt "native"); ("startedAt", VInt 2000); ("expiresAt", VInt 5600)]%string.
Definition demo_context : pydict := Eval vm_compute in match minimal_context id id id None with Ok c => c | Raise _ => [] end.
Definition demo_services : pydict := [(str "team/chat", VDict (mkdict
  [("name", txt "team/chat"); ("protocolContext", VDict demo_context); ("spec", VDict []); ("privacy", txt "native"); ("state", txt "running");
   ("runtime", VDict demo_runtime)]%string))].
Definition demo_registry : reg := Reg [] (Some (registry_document demo_services)) [demo_process] [] 3.
Definition demo_machine (_ : nat) : host :=
  Host 2000 false (Ok tt) (Ok tt) Written (λ _ _, Ok (str "{}")) (λ _, false) true (λ _, Ok demo_process) (λ p, Ok p) (λ p, Ok p)
    (Installation (str "/opt/shadow6") (str "Linux") (str "x86_64") true (λ _, None)) (λ p, p) (λ _, Ok tt) (Ok []) (λ p _, Ok p) (λ _, true) true
    (Ok (HostBudget 1073741824 4096 4 (str "linux") [str "sysconf"] [str "rlimit"] [str "affinity"])) (λ _, Ok None) (λ _ _, VNone)
    (λ p, Ok p) (Ok tt) (λ _ _, Ok []) (λ _, Ok VNone) 0.
#[local] Instance demo_keys : Signing := Build_Signing (λ s, s) (λ _ _, []) (λ _ _ _, true).
Notation demo_perform := (perform id id id (λ _, None) (str "/run") [] demo_machine).

Lemma demo_sound : sound_file demo_machine demo_registry.
Proof.
  exists demo_services. split; [reflexivity|]. split; [apply json_okb_ok; reflexivity|]. intros p Hp _ _. cbn in Hp. apply list_elem_of_singleton in Hp as ->.
  exists (str "team/chat"). eexists. split; reflexivity.
Qed.

(** Reconfiguring it is refused while it runs; it can be stopped. *)
Example demo_stop : (demo_perform (Stop (str "team/chat")) demo_registry).1 = Ok tt ∧ r_live (demo_perform (Stop (str "team/chat")) demo_registry).2 = [] ∧
  (demo_perform (Configure (str "team/chat") (Request (txt "go") (VDict []) VNone VNone VNone VNone)) demo_registry).1
  = Raise (Exn ValueError "stop the service before reconfiguring").
Proof. vm_compute. done. Qed.

